(* ===== verification/_CoqProject ===== *)
-Q . S2P
Prelude.v
HostAddress.v
QtString.v
QtContainers.v
IpAddress.v
Protocols.v
Containers.v
InterfaceConfig.v
DaemonConfig.v
WireguardUtils.v
Daemon.v
DaemonProperties.v
JsonText.v
DaemonConnection.v
LocalSocketController.v
PingHelper.v
LinuxRouteMonitor.v
LinuxFirewall.v
LinuxKillSwitch.v
Uapi.v
MacosRouteMonitor.v
MacosRouteProperties.v
MacosFirewall.v
DnsUtils.v
WireguardUtilsUnix.v
Variant.v
SecureSettings.v
SecureSettingsProperties.v
NetworkUtilities.v
Settings.v
SettingsProperties.v
ServersModel.v
ServersModelProperties.v
VpnProtocol.v
VpnConnection.v
VpnConnectionProperties.v
RouterLinux.v
IpRange.v
IpRangeProperties.v
AndroidConfig.v
AndroidConfigProperties.v
ServerController.v
ServerSetup.v
WireguardConfigurator.v
ClientManagement.v
WireguardClients.v
WireguardClientsProperties.v
DockerHost.v
Regex.v
Configurators.v
ContainersModel.v
Serialization.v
ImportController.v
ConnectionController.v
AuthController.v
XrayProtocol.v
ConnectionExec.v
ConnectionProperties.v
ImportProperties.v
ReedSolomon.v
QrSegments.v
QrCode.v
QrDrawing.v
QrLayout.v
QrBlocks.v
QrMask.v
QrProperties.v
WindowsFirewall.v
WindowsFirewallProperties.v
WindowsFirewallBooks.v
WindowsRouteMonitor.v
WindowsRouteProperties.v
WindowsTunnelService.v
WireguardUtilsWindows.v
WindowsSplitTunnel.v
WindowsSplitProperties.v
WindowsDaemon.v
