(* ===== verification/Prelude.v ===== *)
(** * Verification of the ZloVPN client (a fork of AmneziaVPN)

    The program is a VPN client. The user interface ([client/ui]) keeps servers
    and settings and asks for a connection; [VpnConnection] completes the
    configuration with the settings and hands it to a protocol; the WireGuard
    protocol sends it over a local socket to a privileged daemon
    ([client/daemon], [client/platforms]), which configures the tunnel process,
    the routes and the firewall; the other protocols use the privileged service
    ([ipc], [service]) instead. A second half of the client administers servers
    over SSH: it installs containers, creates configurations for clients and
    keeps the table of the clients. On Android the routes of the tunnel are
    computed by Kotlin code ([client/android]).

    ** Conventions

    Pure code is a function. A method of an object is a function of the state
    of the object ([StateM] and its notation, below); where it can fail an
    assertion, access a container out of range or loop it returns an [Outcome]
    ([Run]). Machine integers are [Z] with the wrap-around of their width
    written out where the source can reach it. Strings are lists of 8-bit code
    units. Qt, the operating system and the other libraries are parameters:
    type classes with the operations, and separate classes with the documented
    laws the code relies on; every theorem that assumes laws has a witness over
    a concrete instance. Where the code ignores whether a call succeeded the laws
    say what the theorem assumes of it, and the theorem's comment repeats it.

    ** Libraries modelled as far as the source uses them

    HostAddress.v ([QHostAddress], addresses as bit lists), QtString.v
    ([QString] and its splitting), QtContainers.v ([QMap], JSON values),
    JsonText.v (lines of a socket and [QJsonDocument]), Variant.v ([QVariant]),
    Regex.v ([QRegularExpression]).

    ** The daemon and its platform

    - IpAddress.v: [IPAddress], with the subtraction of prefixes that split
      tunnelling uses; shown to be exact set difference, with its termination.
    - InterfaceConfig.v, DaemonConfig.v: the tunnel configuration, its two
      written forms and the parser of the activation request.
    - WireguardUtils.v: the platform as type classes; a ledger of the routes the
      daemon asked a platform for, which is ghost state over any platform; and
      what the daemon relies on for the interface. Daemon.v, DaemonProperties.v:
      [Daemon] over them (activation, switching, deactivation, exclusion counts,
      handshakes, status): the theorems on routes are about the requests of the
      daemon, what a platform makes of them is with the platforms.
    - DaemonConnection.v, LocalSocketController.v: the two ends of the socket;
      requests written by one end are parsed by the other as meant.
    - LinuxRouteMonitor.v (netlink messages octet by octet), LinuxFirewall.v and
      LinuxKillSwitch.v (iptables chains and what packets pass them), Uapi.v and
      WireguardUtilsUnix.v (the protocol of the tunnel process; the class tracks
      its interface as the daemon relies on), PingHelper.v.
    - RouterLinux.v: the routes of the service; every route of a connection is
      gone after disconnecting.
    - DnsUtils.v: [DnsUtilsMacos] and [DnsUtilsLinux] (Modules MacDns and
      LinuxDns, the latter over any systemd-resolved, which may refuse a call);
      the settings of before are given back, and two orders of calls in which
      they are not.

    ** macOS

    - MacosRouteMonitor.v, MacosRouteProperties.v: the routing socket of
      macosroutemonitor.cpp, messages octet by octet; excluded prefixes follow
      the default route, whatever the kernel reports, and are given back.
    - MacosFirewall.v: the lines macosfirewall.cpp gives to bash, the rule files
      under deploy/data/macos/Resources/pf and [applyFirewallRules] of
      wireguardutilsmacos.cpp; which packets pass.

    ** Windows (client/platforms/windows/daemon)

    - WindowsFirewall.v, WindowsFirewallProperties.v, WindowsFirewallBooks.v:
      the kill switch over the filter engine: what it decides, its removal, and
      that a failed call leaves no half of it.
    - WindowsRouteMonitor.v, WindowsRouteProperties.v: the rows of excluded
      prefixes. WindowsTunnelService.v, WireguardUtilsWindows.v: the service of
      the tunnel and the class made of these parts.
    - WindowsSplitTunnel.v, WindowsSplitProperties.v: the buffers and states of
      the split tunnel driver. WindowsDaemon.v: name servers, and the hooks that
      switch the driver with the tunnel.

    ** The client

    - Protocols.v, Containers.v: the tables of protocols and containers.
    - SecureSettings.v, SecureSettingsProperties.v: the encrypted, cached store
      of settings refines a map, survives restarts and backups, and has the
      servers in the file only encrypted with its keys. Settings.v, ServersModel.v and their properties are proved
      against the interface [KeyValueStore] only.
    - VpnProtocol.v, VpnConnection.v, VpnConnectionProperties.v: states and
      counters of a protocol; the settings reach the daemon. XrayProtocol.v:
      the XRay tunnel borrows the routing table and gives it back.
    - Serialization.v, ImportController.v, ImportProperties.v: texts, links and
      QR codes become servers. ContainersModel.v, ConnectionController.v,
      ConnectionExec.v, ConnectionProperties.v: from the selected region to the
      request the daemon parses, composed of all the components above, with the
      slots of amnezia_application.cpp that end an attempt on an error.
    - AuthController.v: the requests of the account, their replies and the token
      (authController.cpp, errorParser.cpp). The token in use is the stored one
      and is sent where it is needed and only there; failed replies count as successes.
    - ReedSolomon.v, QrSegments.v, QrCode.v, QrDrawing.v, QrLayout.v, QrBlocks.v,
      QrMask.v, QrProperties.v: the generator of QR codes (client/3rd/qrcodegen),
      with C++ exceptions as values: a reader finds the segments in the code.
    - NetworkUtilities.v: texts of addresses.

    ** Servers

    - ServerController.v (with the error codes and [ServerAccess], the contract
      the configurators rely on) and ServerSetup.v over the interface of an SSH
      client; DockerHost.v shows that the controller keeps the contract over
      every Docker host as long as no command fails, and that a command that
      fails goes unnoticed.
    - WireguardConfigurator.v, Configurators.v, ClientManagement.v,
      WireguardClients.v, WireguardClientsProperties.v: clients are created and
      revoked with pairwise different addresses, where the last line of the
      list of addresses arrives undivided.

    ** Android

    - IpRange.v, IpRangeProperties.v, AndroidConfig.v,
      AndroidConfigProperties.v: sets of address ranges, their decomposition
      into networks, and the routes of a tunnel.

    ** Fuel

    Loops that are not structural take fuel and return [OutOfFuel] without it;
    the theorems show that the fuel the callers give is enough: 129 for the
    subtraction of prefixes (one step per bit), one more than the number of
    servers for a free name, the length of the buffer for netlink answers and
    regular expressions, the number of subnets of a range (at most two per bit),
    the size of a QR code for its pairs of columns and its capacity for the
    padding, 501 for the tries to open the split tunnel driver, the number of
    pieces of a reply of the tunnel service, one more than the number of
    excluded prefixes to delete them, and one more than the length of a
    buffer for the addresses and the messages of the routing socket of macOS
    (1025). There a message of length 0 would never end the loop of the
    source: the theorems are about well-formed messages.

    ** Not modelled

    The QML interface, the rest of the application object, and the other controllers and
    models of pages; the iOS and Android applications around the modelled
    routes; the routers of Windows and macOS, the parts of [WireguardUtilsMacos]
    that repeat the Linux class, and the Windows service manager, ping, network
    watcher and tunnel logger; the processes of OpenVPN, Cloak, ShadowSocks and
    IKEv2; [ApiController]; the vmess links; QtService, the installers and build
    scripts; libssh and OpenSSL, which are interfaces; logging; arithmetic on
    doubles ([localizeTimeLeft], [monthsAvailableToAdd]). Most of these are calls
    of a system or a framework. Where a modelled function has branches for
    several platforms its model says which ones it has. *)
From stdpp Require Import base gmap strings list numbers sorting.
From Stdlib Require Import ZArith Lia.

(** ** Fixed-width integers

    C++ integers are modelled by [Z]; the value of an expression of an unsigned
    type of [w] bits is reduced modulo [2^w] where the source can wrap. *)
Definition u8 (z : Z) : Z := (z mod 2 ^ 8)%Z.
Definition u16 (z : Z) : Z := (z mod 2 ^ 16)%Z.
Definition u32 (z : Z) : Z := (z mod 2 ^ 32)%Z.
Definition u64 (z : Z) : Z := (z mod 2 ^ 64)%Z.

(** Two's complement value of the low [w] bits, as a conversion to a signed
    type of that width computes it. *)
Definition wrap_signed (w : Z) (z : Z) : Z :=
  (let r := z mod 2 ^ w in if r <? 2 ^ (w - 1) then r else r - 2 ^ w)%Z.
Definition s32 (z : Z) : Z := wrap_signed 32 z.
Definition s64 (z : Z) : Z := wrap_signed 64 z.

(** ** Stateful code

    A method of a C++ object that reads and writes the object's fields (and the
    world behind it) is a function of the state type that returns the method's
    result and the new state. *)
Definition StateM (S A : Type) : Type := S -> A * S.

Definition sret {S A} (a : A) : StateM S A := λ s, (a, s).
Definition sbind {S A B} (m : StateM S A) (k : A -> StateM S B) : StateM S B :=
  λ s, let '(a, s') := m s in k a s'.

Declare Scope stateful_scope.
Delimit Scope stateful_scope with st.
Notation "x <- m ;; k" := (sbind m (λ x, k))
  (at level 100, m at next level, right associativity) : stateful_scope.
Notation "m ;; k" := (sbind m (λ _, k))
  (at level 100, right associativity) : stateful_scope.
Open Scope stateful_scope.

Definition gets {S A} (f : S -> A) : StateM S A := λ s, (f s, s).
Definition modify {S} (f : S -> S) : StateM S unit := λ s, (tt, f s).

(** [for (x : l) body(x);] *)
Fixpoint for_each {S A} (l : list A) (body : A -> StateM S unit) : StateM S unit :=
  match l with
  | [] => sret tt
  | x :: l' => body x ;; for_each l' body
  end.

(** [for (x : l) if (!body(x)) return false; ... return true;] *)
Fixpoint for_all {S A} (l : list A) (body : A -> StateM S bool) : StateM S bool :=
  match l with
  | [] => sret true
  | x :: l' => ok <- body x ;; if ok then for_all l' body else sret false
  end.

(** ** Outcomes of code that can fail an assertion or run for ever

    [Abort] is a failed [Q_ASSERT] or an access outside a container, [OutOfFuel]
    a loop that has not ended within the fuel the model gave it. *)
Inductive Outcome (A : Type) : Type :=
| Ret (a : A)
| Abort
| OutOfFuel.
Arguments Ret {A} a.
Arguments Abort {A}.
Arguments OutOfFuel {A}.

#[export] Instance Outcome_ret : MRet Outcome := @Ret.
#[export] Instance Outcome_bind : MBind Outcome := λ A B k m,
  match m with Ret a => k a | Abort => Abort | OutOfFuel => OutOfFuel end.

(** Stateful code that can fail so. *)
Definition Run (S A : Type) : Type := S -> Outcome (A * S).
Definition rret {S A} (a : A) : Run S A := λ s, Ret (a, s).
Definition rbind {S A B} (m : Run S A) (k : A -> Run S B) : Run S B := λ s,
  match m s with Ret (a, s') => k a s' | Abort => Abort | OutOfFuel => OutOfFuel end.
Definition rlift {S A} (m : StateM S A) : Run S A := λ s, Ret (m s).
Definition rabort {S A} : Run S A := λ _, Abort.

Declare Scope run_scope.
Delimit Scope run_scope with run.
Notation "'let!' x ':=' m 'in' k" := (rbind m (λ x, k))
  (at level 200, x name, m at level 200, k at level 200) : run_scope.
Notation "'do!' m 'in' k" := (rbind m (λ _, k))
  (at level 200, m at level 200, k at level 200) : run_scope.
Open Scope run_scope.

(** [for (x : l) body(x);] *)
Fixpoint run_each {S A} (l : list A) (body : A -> Run S unit) : Run S unit :=
  match l with
  | [] => rret tt
  | x :: l' => do! body x in run_each l' body
  end.

(** ** Keys of ordered containers

    [QMap] and [QJsonObject] keep their entries sorted by key; the order is the
    key type's [operator<]. *)
Class KeyOrder (K : Type) := key_cmp : K -> K -> comparison.
Class KeyOrderLaws (K : Type) `{KeyOrder K} := {
  key_cmp_eq : forall a b : K, key_cmp a b = Eq <-> a = b;
  key_cmp_antisym : forall a b : K, key_cmp a b = CompOpp (key_cmp b a);
  key_cmp_trans : forall a b c : K,
    key_cmp a b = Lt -> key_cmp b c = Lt -> key_cmp a c = Lt
}.

#[export] Instance string_key_order : KeyOrder string := String.compare.

(** ** Tactics and hint databases *)
Create HintDb zlo discriminated.

(** Splits the goal on the first [if] or [match] scrutinee that is not itself a
    [match]. *)
Ltac case_scrut :=
  match goal with
  | |- context [match ?x with _ => _ end] =>
      lazymatch x with context [match _ with _ => _ end] => fail | _ => destruct x eqn:? end
  | H : context [match ?x with _ => _ end] |- _ =>
      lazymatch x with context [match _ with _ => _ end] => fail | _ => destruct x eqn:? end
  end.
Ltac case_all := repeat (case_scrut; simplify_eq/=).

(** Boolean tests of the code turned into propositions. *)
Ltac breflect :=
  repeat match goal with
  | H : _ && _ = true |- _ => apply andb_true_iff in H; destruct H
  | H : _ || _ = false |- _ => apply orb_false_iff in H; destruct H
  | H : negb _ = true |- _ => apply negb_true_iff in H
  | H : negb _ = false |- _ => apply negb_false_iff in H
  | H : bool_decide _ = true |- _ => apply bool_decide_eq_true in H
  | H : bool_decide _ = false |- _ => apply bool_decide_eq_false in H
  | H : (_ =? _)%Z = true |- _ => apply Z.eqb_eq in H
  | H : (_ =? _)%Z = false |- _ => apply Z.eqb_neq in H
  | H : (_ <? _)%Z = true |- _ => apply Z.ltb_lt in H
  | H : (_ <? _)%Z = false |- _ => apply Z.ltb_ge in H
  | H : (_ <=? _)%Z = true |- _ => apply Z.leb_le in H
  | H : (_ <=? _)%Z = false |- _ => apply Z.leb_gt in H
  end.

(** Splits the successful run of a chain of fallible steps into its steps. *)
Ltac bind_inv :=
  repeat match goal with
  | H : _ ≫= _ = Some _ |- _ => apply bind_Some in H as (? & ? & ?)
  end.

(** ** Reasoning about stateful code

    [keeps f m]: the component [f] of the state is the same after [m];
    [invariant I m]: the method [m] preserves the property [I] of the state. *)
Definition keeps {S A B} (f : S -> B) (m : StateM S A) : Prop := forall s, f (m s).2 = f s.
Definition invariant {S A} (I : S -> Prop) (m : StateM S A) : Prop := forall s, I s -> I (m s).2.

Lemma sbind_run {S A B} (m : StateM S A) (k : A -> StateM S B) s :
  sbind m k s = k (m s).1 (m s).2.
Proof. unfold sbind. by destruct (m s). Qed.

Lemma gets_bind {S A B} (f : S -> A) (k : A -> StateM S B) s : sbind (gets f) k s = k (f s) s.
Proof. done. Qed.

Lemma run_pair {A B} (p : A * B) a : p.1 = a -> p = (a, p.2).
Proof. intros <-. by destruct p. Qed.

Section Stateful.
Context {S A B C : Type}.

Lemma keeps_ret (f : S -> C) (a : A) : keeps f (sret a).
Proof. done. Qed.
Lemma keeps_gets (f : S -> C) (g : S -> A) : keeps f (gets g).
Proof. done. Qed.
Lemma keeps_bind (f : S -> C) (m : StateM S A) (k : A -> StateM S B) :
  keeps f m -> (forall a, keeps f (k a)) -> keeps f (sbind m k).
Proof. intros Hm Hk s. rewrite sbind_run. by rewrite Hk, Hm. Qed.
Lemma keeps_for_each (f : S -> C) (l : list A) body :
  (forall x, keeps f (body x)) -> keeps f (for_each l body).
Proof.
  intros Hb. induction l as [|x l IH]; [done|]. intros s. cbn [for_each].
  rewrite sbind_run. by rewrite IH, Hb.
Qed.
Lemma keeps_for_all (f : S -> C) (l : list A) body :
  (forall x, keeps f (body x)) -> keeps f (for_all l body).
Proof.
  intros Hb. induction l as [|x l IH]; [done|]. intros s. cbn [for_all].
  rewrite sbind_run. destruct (body x s).1; [by rewrite IH, Hb|by apply Hb].
Qed.

Lemma invariant_ret (I : S -> Prop) (a : A) : invariant I (sret a).
Proof. by intros s. Qed.
Lemma invariant_gets (I : S -> Prop) (g : S -> A) : invariant I (gets g).
Proof. by intros s. Qed.
Lemma invariant_bind (I : S -> Prop) (m : StateM S A) (k : A -> StateM S B) :
  invariant I m -> (forall a, invariant I (k a)) -> invariant I (sbind m k).
Proof. intros Hm Hk s Hs. rewrite sbind_run. by apply Hk, Hm. Qed.
Lemma invariant_for_each (I : S -> Prop) (l : list A) body :
  (forall x, invariant I (body x)) -> invariant I (for_each l body).
Proof.
  intros Hb. induction l as [|x l IH]; [by intros s|]. intros s Hs. cbn [for_each].
  rewrite sbind_run. by apply IH, Hb.
Qed.
Lemma invariant_for_all (I : S -> Prop) (l : list A) body :
  (forall x, invariant I (body x)) -> invariant I (for_all l body).
Proof.
  intros Hb. induction l as [|x l IH]; [by intros s|]. intros s Hs. cbn [for_all].
  rewrite sbind_run. destruct (body x s).1; [by apply IH, Hb|by apply Hb].
Qed.
End Stateful.

#[export] Hint Resolve keeps_ret keeps_gets invariant_ret invariant_gets : zlo.

(** Follows the structure of a method to show that it keeps a component or an
    invariant, leaving the calls no lemma of the database covers. *)
Ltac stateful :=
  repeat first
    [ solve [eauto with zlo]
    | apply keeps_bind; [|intros ?] | apply invariant_bind; [|intros ?]
    | apply keeps_for_each; intros ? | apply invariant_for_each; intros ?
    | apply keeps_for_all; intros ? | apply invariant_for_all; intros ?
    | match goal with
      | |- keeps _ (match ?x with _ => _ end) => destruct x
      | |- invariant _ (match ?x with _ => _ end) => destruct x
      end ].

(** Runs a chain of steps, one after the other, splitting on the booleans the
    code tests. *)
Ltac run_step :=
  match goal with
  | |- context [sbind ?m ?k ?s] =>
      rewrite (sbind_run m k s); let E := fresh "E" in destruct (m s) as [? ?] eqn:E; cbn [fst snd]
  | |- context [if negb ?b then _ else _] => destruct b; cbn [negb]
  end.
Ltac run_steps := repeat run_step.

(** ** Filtering lists *)
Lemma filter_ext_in {A} (P Q : A -> Prop) `{!forall a, Decision (P a), !forall a, Decision (Q a)} (l : list A) :
  (forall a, a ∈ l -> P a <-> Q a) -> filter P l = filter Q l.
Proof.
  induction l as [|a l IH]; intros Hl; [done|]. rewrite !filter_cons.
  pose proof (Hl a ltac:(by left)). rewrite IH by (intros b Hb; apply Hl; by right).
  destruct (decide (P a)), (decide (Q a)); tauto.
Qed.

Lemma filter_all {A} (P : A -> Prop) `{!forall a, Decision (P a)} (l : list A) :
  (forall a, a ∈ l -> P a) -> filter P l = l.
Proof.
  induction l as [|a l IH]; intros Hl; [done|]. rewrite filter_cons_True by (apply Hl; by left).
  f_equal. apply IH. intros b Hb. apply Hl. by right.
Qed.

(** ** String keys *)
Lemma ascii_compare_trans_lt a b c :
  Ascii.compare a b = Lt -> Ascii.compare b c = Lt -> Ascii.compare a c = Lt.
Proof. unfold Ascii.compare. rewrite !N.compare_lt_iff. lia. Qed.

Lemma string_compare_trans_lt (a b c : string) :
  String.compare a b = Lt -> String.compare b c = Lt -> String.compare a c = Lt.
Proof.
  revert b c; induction a as [|x a IH]; intros [|y b] [|z c]; simpl; try done.
  destruct (Ascii.compare x y) eqn:Exy; try done;
    destruct (Ascii.compare y z) eqn:Eyz; try done; intros H1 H2.
  - apply Ascii.compare_eq_iff in Exy as ->. rewrite Eyz. eauto.
  - apply Ascii.compare_eq_iff in Exy as ->. by rewrite Eyz.
  - apply Ascii.compare_eq_iff in Eyz as ->. by rewrite Exy.
  - by rewrite (ascii_compare_trans_lt _ _ _ Exy Eyz).
Qed.

Lemma string_compare_refl (a : string) : String.compare a a = Eq.
Proof.
  induction a as [|x a IH]; simpl; [done|].
  unfold Ascii.compare. by rewrite N.compare_refl.
Qed.

#[export] Instance string_key_laws : KeyOrderLaws string.
Proof.
  split.
  - intros a b. split; [apply String.compare_eq_iff | intros ->; apply string_compare_refl].
  - intros a b. apply String.compare_antisym.
  - intros a b c. apply string_compare_trans_lt.
Qed.
