(* ===== verification/HostAddress.v ===== *)
(** * Host addresses

    [QHostAddress] as the client uses it (a value with a network-layer protocol
    and a raw IPv4 or IPv6 address) and the view of an address as the list of
    its bits, most significant first, in which the specifications of the
    address arithmetic are stated. *)
From stdpp Require Import base gmap list numbers.
From Stdlib Require Import ZArith Lia.
From S2P Require Import Prelude.
Local Open Scope Z_scope.

Inductive NetworkLayerProtocol :=
| IPv4Protocol
| IPv6Protocol
| UnknownNetworkLayerProtocol.

(** An IPv4 address is a [quint32]; an IPv6 address is a [Q_IPV6ADDR], sixteen
    octets in network order. *)
Inductive QHostAddress :=
| NullAddress
| IPv4Address (a : Z)
| IPv6Address (a : list Z).

#[export] Instance NetworkLayerProtocol_eq_dec : EqDecision NetworkLayerProtocol.
Proof. solve_decision. Defined.
#[export] Instance QHostAddress_eq_dec : EqDecision QHostAddress.
Proof. solve_decision. Defined.
#[export] Instance QHostAddress_countable : Countable QHostAddress.
Proof.
  refine (inj_countable'
    (λ h, match h with NullAddress => inl tt | IPv4Address a => inr (inl a)
          | IPv6Address l => inr (inr l) end)
    (λ x, match x with inl _ => NullAddress | inr (inl a) => IPv4Address a
          | inr (inr l) => IPv6Address l end) _).
  by intros [].
Defined.

Definition protocol (h : QHostAddress) : NetworkLayerProtocol :=
  match h with
  | NullAddress => UnknownNetworkLayerProtocol
  | IPv4Address _ => IPv4Protocol
  | IPv6Address _ => IPv6Protocol
  end.

Definition toIPv4Address (h : QHostAddress) : Z :=
  match h with IPv4Address a => a | _ => 0 end.
Definition toIPv6Address (h : QHostAddress) : list Z :=
  match h with IPv6Address l => l | _ => replicate 16 0 end.

(** ** C arrays of octets *)

(** [memset(&raw[off], v, sizeof(raw) - off)] *)
Definition memset_from (off : nat) (v : Z) (raw : list Z) : list Z :=
  take off raw ++ replicate (length raw - off) v.
(** [memset(&raw, v, n)] *)
Definition memset_to (n : nat) (v : Z) (raw : list Z) : list Z :=
  replicate (min n (length raw)) v ++ drop n raw.
(** [memcmp(&a, &b, n) == 0] *)
Definition memcmp_eq (a b : list Z) (n : nat) : bool :=
  bool_decide (take n a = take n b).

(** ** Bits *)

(** The low [w] bits of [a], most significant first. *)
Fixpoint msb_bits (w : nat) (a : Z) : list bool :=
  match w with
  | O => []
  | S w' => Z.testbit a (Z.of_nat w') :: msb_bits w' a
  end.

Definition octets_bits (l : list Z) : list bool := concat (msb_bits 8 <$> l).

Definition addr_bits (h : QHostAddress) : list bool :=
  match h with
  | NullAddress => []
  | IPv4Address a => msb_bits 32 a
  | IPv6Address l => octets_bits l
  end.

Definition addr_width (h : QHostAddress) : nat :=
  match h with NullAddress => 0 | IPv4Address _ => 32 | IPv6Address _ => 128 end.

Definition is_octet (b : Z) : Prop := 0 <= b < 2 ^ 8.

(** The values the C++ types can hold. *)
Definition addr_wf (h : QHostAddress) : Prop :=
  match h with
  | NullAddress => True
  | IPv4Address a => 0 <= a < 2 ^ 32
  | IPv6Address l => length l = 16%nat /\ Forall is_octet l
  end.

#[export] Instance addr_wf_dec h : Decision (addr_wf h).
Proof. destruct h; simpl; unfold is_octet; apply _. Defined.

(** ** Lemmas on the bits of an integer *)

Lemma length_msb_bits w a : length (msb_bits w a) = w.
Proof. induction w; simpl; congruence. Qed.

Lemma lookup_msb_bits w a i :
  (i < w)%nat -> msb_bits w a !! i = Some (Z.testbit a (Z.of_nat w - 1 - Z.of_nat i)).
Proof.
  revert i; induction w as [|w IH]; intros i Hi; [lia|].
  destruct i as [|i]; cbn [msb_bits lookup list_lookup].
  - do 2 f_equal. lia.
  - rewrite IH by lia. do 2 f_equal. lia.
Qed.

Lemma testbit_high w a i :
  0 <= a < 2 ^ w -> w <= i -> Z.testbit a i = false.
Proof.
  intros Ha Hi. destruct (decide (0 <= w)) as [Hw|Hw].
  - rewrite <- (Z.mod_small a (2 ^ w)) by done. by apply Z.mod_pow2_bits_high.
  - rewrite Z.pow_neg_r in Ha by lia. lia.
Qed.

(** A non-negative integer without bits from [w] on is below [2^w]. *)
Lemma bits_bound w z :
  0 <= w -> (forall i, w <= i -> Z.testbit z i = false) -> 0 <= z < 2 ^ w.
Proof.
  intros Hw Hz. replace z with (z mod 2 ^ w); [apply Z.mod_pos_bound; lia|].
  apply Z.bits_inj'; intros n Hn. destruct (decide (n < w)).
  - by rewrite Z.mod_pow2_bits_low by lia.
  - rewrite Z.mod_pow2_bits_high, Hz by lia. done.
Qed.

Lemma lxor_bound w a b :
  0 <= w -> 0 <= a < 2 ^ w -> 0 <= b < 2 ^ w -> 0 <= Z.lxor a b < 2 ^ w.
Proof.
  intros Hw Ha Hb. apply bits_bound; [done|]. intros i Hi.
  by rewrite Z.lxor_spec, !(testbit_high w) by done.
Qed.

Lemma lor_bound w a b :
  0 <= w -> 0 <= a < 2 ^ w -> 0 <= b < 2 ^ w -> 0 <= Z.lor a b < 2 ^ w.
Proof.
  intros Hw Ha Hb. apply bits_bound; [done|]. intros i Hi.
  by rewrite Z.lor_spec, !(testbit_high w) by done.
Qed.

Lemma shiftr_le_bound w a n : 0 <= n -> 0 <= a < 2 ^ w -> 0 <= Z.shiftr a n < 2 ^ w.
Proof.
  intros Hn Ha. rewrite Z.shiftr_div_pow2 by done. split; [apply Z.div_pos; lia|].
  apply Z.le_lt_trans with a; [|lia]. apply Z.div_le_upper_bound; [lia|]. nia.
Qed.

(** The bits determine the integer. *)
Lemma msb_bits_inj w a b :
  0 <= a < 2 ^ Z.of_nat w -> 0 <= b < 2 ^ Z.of_nat w ->
  msb_bits w a = msb_bits w b -> a = b.
Proof.
  intros Ha Hb Heq. apply Z.bits_inj'; intros n Hn.
  destruct (decide (n < Z.of_nat w)) as [Hlt|Hge].
  - assert (msb_bits w a !! Z.to_nat (Z.of_nat w - 1 - n)
            = msb_bits w b !! Z.to_nat (Z.of_nat w - 1 - n)) as E by by rewrite Heq.
    rewrite !lookup_msb_bits in E by lia.
    injection E as E. by replace (Z.of_nat w - 1 - Z.of_nat (Z.to_nat (Z.of_nat w - 1 - n)))
      with n in E by lia.
  - rewrite !(testbit_high (Z.of_nat w)) by lia. done.
Qed.

(** The first [p] of [w] bits are the bits of the value shifted right. *)
Lemma take_msb_bits w p a :
  (p <= w)%nat -> take p (msb_bits w a) = msb_bits p (Z.shiftr a (Z.of_nat (w - p))).
Proof.
  intros Hp. apply list_eq; intros i. destruct (decide (i < p)%nat) as [Hi|Hi].
  - rewrite lookup_take_lt, !lookup_msb_bits by lia. f_equal.
    rewrite Z.shiftr_spec by lia. f_equal. lia.
  - by rewrite !lookup_ge_None_2 by (rewrite ?length_take, ?length_msb_bits; lia).
Qed.

Lemma shiftr_bound w p a :
  (p <= w)%nat -> 0 <= a < 2 ^ Z.of_nat w ->
  0 <= Z.shiftr a (Z.of_nat (w - p)) < 2 ^ Z.of_nat p.
Proof.
  intros Hp Ha. rewrite Z.shiftr_div_pow2 by lia. split.
  - apply Z.div_pos; lia.
  - apply Z.div_lt_upper_bound; [lia|]. rewrite <- Z.pow_add_r by lia.
    replace (Z.of_nat (w - p) + Z.of_nat p) with (Z.of_nat w) by lia. lia.
Qed.

(** Two words agree on their first [p] bits exactly when their exclusive or,
    shifted right by the remaining bits, is zero: the test of [contains]. *)
Lemma lxor_shiftr_prefix w p a b :
  (p <= w)%nat -> 0 <= a < 2 ^ Z.of_nat w -> 0 <= b < 2 ^ Z.of_nat w ->
  Z.shiftr (Z.lxor a b) (Z.of_nat (w - p)) = 0 <->
  take p (msb_bits w a) = take p (msb_bits w b).
Proof.
  intros Hp Ha Hb. rewrite !take_msb_bits by done. rewrite Z.shiftr_lxor, Z.lxor_eq_0_iff.
  split; [congruence|]. apply msb_bits_inj; by apply shiftr_bound.
Qed.

Lemma msb_bits_lor w a b : msb_bits w (Z.lor a b) = zip_with orb (msb_bits w a) (msb_bits w b).
Proof. induction w as [|w IH]; simpl; [done|]. by rewrite Z.lor_spec, IH. Qed.

Lemma msb_bits_lxor w a b : msb_bits w (Z.lxor a b) = zip_with xorb (msb_bits w a) (msb_bits w b).
Proof. induction w as [|w IH]; simpl; [done|]. by rewrite Z.lxor_spec, IH. Qed.

Lemma msb_bits_0 w : msb_bits w 0 = replicate w false.
Proof. induction w as [|w IH]; simpl; [done|]. by rewrite Z.testbit_0_l, IH. Qed.

(** A right-shifted word of ones: [p] clear bits, then set ones. *)
Lemma msb_bits_ones_shiftr w p :
  (p <= w)%nat ->
  msb_bits w (Z.shiftr (Z.ones (Z.of_nat w)) (Z.of_nat p))
  = replicate p false ++ replicate (w - p) true.
Proof.
  intros Hp. apply list_eq; intros i. destruct (decide (i < w)%nat) as [Hi|Hi].
  - rewrite lookup_msb_bits by done. rewrite Z.shiftr_spec, Z.testbit_ones by lia.
    destruct (decide (i < p)%nat) as [Hip|Hip].
    + rewrite lookup_app_l, lookup_replicate_2 by (rewrite ?length_replicate; lia).
      f_equal. lia.
    + rewrite lookup_app_r, lookup_replicate_2 by (rewrite ?length_replicate; lia).
      f_equal. lia.
  - rewrite !lookup_ge_None_2; rewrite ?length_app, ?length_replicate, ?length_msb_bits; auto with lia.
Qed.

Lemma msb_bits_ones w : msb_bits w (Z.ones (Z.of_nat w)) = replicate w true.
Proof.
  pose proof (msb_bits_ones_shiftr w 0 ltac:(lia)) as H.
  by rewrite Z.shiftr_0_r, Nat.sub_0_r in H.
Qed.

(** [x | (1 << (w-1) >> p)] sets the bit at position [p] from the left. *)
Lemma msb_bits_setbit w p a :
  (p < w)%nat ->
  msb_bits w (Z.lor a (Z.shiftr (2 ^ (Z.of_nat w - 1)) (Z.of_nat p)))
  = <[p := true]> (msb_bits w a).
Proof.
  intros Hp. apply list_eq; intros i. destruct (decide (i < w)%nat) as [Hi|Hi].
  - rewrite lookup_msb_bits by done.
    rewrite Z.lor_spec, Z.shiftr_spec, Z.pow2_bits_eqb by lia.
    destruct (decide (i = p)) as [->|Hne].
    + rewrite list_lookup_insert_eq by (rewrite length_msb_bits; lia).
      f_equal. apply orb_true_intro. right. lia.
    + rewrite list_lookup_insert_ne, lookup_msb_bits by done.
      f_equal. replace (_ =? _) with false by lia. apply orb_false_r.
  - rewrite !lookup_ge_None_2; rewrite ?length_insert, ?length_msb_bits; auto with lia.
Qed.

(** Masking by or-ing ones into everything after the prefix. *)
Lemma zip_orb_ones p (l : list bool) :
  (p <= length l)%nat ->
  zip_with orb l (replicate p false ++ replicate (length l - p) true)
  = take p l ++ replicate (length l - p) true.
Proof.
  revert l; induction p as [|p IH]; intros l Hp; simpl.
  - rewrite Nat.sub_0_r. clear Hp. induction l as [|b l IHl]; simpl; [done|].
    by rewrite orb_true_r, IHl.
  - destruct l as [|b l]; simpl in *; [lia|].
    by rewrite orb_false_r, IH by lia.
Qed.

Lemma zip_xorb_ones p n :
  zip_with xorb (replicate (p + n) true) (replicate p false ++ replicate n true)
  = replicate p true ++ replicate n false.
Proof.
  induction p as [|p IH]; simpl; [|by rewrite IH].
  induction n as [|n IH]; simpl; [done|]. by rewrite IH.
Qed.

(** ** Lemmas on the bits of octet arrays *)

Lemma octets_bits_app a b : octets_bits (a ++ b) = octets_bits a ++ octets_bits b.
Proof. unfold octets_bits. by rewrite fmap_app, concat_app. Qed.

Lemma octets_bits_cons x a : octets_bits (x :: a) = msb_bits 8 x ++ octets_bits a.
Proof. done. Qed.

Lemma length_octets_bits a : length (octets_bits a) = (8 * length a)%nat.
Proof.
  induction a as [|x a IH]; [done|].
  rewrite octets_bits_cons, length_app, length_msb_bits, IH. simpl. lia.
Qed.

Lemma octets_bits_replicate n x b :
  msb_bits 8 x = replicate 8 b -> octets_bits (replicate n x) = replicate (8 * n) b.
Proof.
  intros Hx. induction n as [|n IH]; [done|].
  cbn [replicate]. rewrite octets_bits_cons, Hx, IH, <- replicate_add. f_equal. lia.
Qed.

Lemma octets_bits_inj a b :
  Forall is_octet a -> Forall is_octet b -> length a = length b ->
  octets_bits a = octets_bits b -> a = b.
Proof.
  intros Ha. revert b; induction Ha as [|x a Hx Ha IH]; intros [|y b] Hb Hlen Heq;
    try done; simpl in *.
  inversion Hb; subst. rewrite !octets_bits_cons in Heq.
  apply app_inj_1 in Heq as [E1 E2]; [|by rewrite !length_msb_bits].
  f_equal; [by apply (msb_bits_inj 8) | apply IH; auto].
Qed.

(** Splits an octet array at the octet that holds bit [8k+r]. *)
Lemma octets_split (a : list Z) k :
  (k < length a)%nat -> exists x, a !! k = Some x /\ a = take k a ++ x :: drop (S k) a.
Proof.
  intros Hk. destruct (lookup_lt_is_Some_2 a k Hk) as [x Hx].
  exists x. split; [done|]. symmetry. by apply take_drop_middle.
Qed.

Lemma take_octets_bits a1 x a2 r :
  (r <= 8)%nat ->
  take (8 * length a1 + r) (octets_bits (a1 ++ x :: a2))
  = octets_bits a1 ++ take r (msb_bits 8 x).
Proof.
  intros Hr. rewrite octets_bits_app, octets_bits_cons.
  rewrite take_app_ge by (rewrite length_octets_bits; lia). f_equal.
  rewrite length_octets_bits.
  replace (8 * length a1 + r - 8 * length a1)%nat with r by lia.
  by rewrite take_app_le by (rewrite length_msb_bits; lia).
Qed.

Lemma take_octets_bits_whole a k :
  (k <= length a)%nat -> take (8 * k) (octets_bits a) = octets_bits (take k a).
Proof.
  intros Hk. rewrite <- (take_drop k a) at 1. rewrite octets_bits_app.
  rewrite take_app_le by (rewrite length_octets_bits, length_take; lia).
  apply take_ge. rewrite length_octets_bits, length_take. lia.
Qed.

(** Setting bit [r] of octet [k] sets bit [8k+r] of the address. *)
Lemma octets_bits_setbit (a : list Z) k r x y :
  a !! k = Some x -> (r < 8)%nat -> msb_bits 8 y = <[r := true]> (msb_bits 8 x) ->
  octets_bits (<[k := y]> a) = <[(8 * k + r)%nat := true]> (octets_bits a).
Proof.
  intros Hx Hr Hy. pose proof (lookup_lt_Some _ _ _ Hx) as Hk.
  rewrite <- (take_drop_middle a k x Hx) at 1 2.
  rewrite insert_app_r_alt by (rewrite length_take; lia).
  rewrite length_take, Nat.min_l, Nat.sub_diag by lia. cbn [insert list_insert].
  rewrite !octets_bits_app, !octets_bits_cons, Hy.
  rewrite insert_app_r_alt by (rewrite length_octets_bits, length_take; lia).
  rewrite length_octets_bits, length_take, Nat.min_l by lia.
  replace (8 * k + r - 8 * k)%nat with r by lia.
  by rewrite insert_app_l by (rewrite length_msb_bits; lia).
Qed.

(** ** Addresses *)
#[global] Arguments msb_bits : simpl never.

Lemma length_addr_bits h : addr_wf h -> length (addr_bits h) = addr_width h.
Proof.
  destruct h; cbn [addr_bits addr_width addr_wf]; [done| |]; intros Hwf.
  - apply length_msb_bits.
  - rewrite length_octets_bits. lia.
Qed.

Lemma addr_bits_inj h1 h2 :
  addr_wf h1 -> addr_wf h2 -> protocol h1 = protocol h2 ->
  addr_bits h1 = addr_bits h2 -> h1 = h2.
Proof.
  destruct h1, h2; simpl; intros H1 H2 Hp Hb; try done; f_equal.
  - by apply (msb_bits_inj 32).
  - destruct H1, H2. apply octets_bits_inj; auto. congruence.
Qed.

Lemma addr_width_protocol h1 h2 : protocol h1 = protocol h2 -> addr_width h1 = addr_width h2.
Proof. by destruct h1, h2. Qed.

#[export] Hint Resolve length_addr_bits addr_bits_inj : zlo.
