(* ===== verification/QtString.v ===== *)
(** * Strings

    The [QString]/[QByteArray] operations the client's code calls. A string is
    a list of 8-bit code units; an index that Qt returns as [-1] is [-1] here.
    [QString] has a null value distinct from the empty one: where the code
    tests [isNull()] the model uses the type [QString] below, elsewhere plain
    [string]. *)
From stdpp Require Import base list strings pretty numbers.
From Stdlib Require Import ZArith Lia Ascii String.
From stdpp Require Import base list strings.
From S2P Require Import Prelude.
Local Open Scope string_scope.

(** ** Null and empty strings *)
Inductive QString :=
| qnull
| qstr (s : string).

#[export] Instance QString_eq_dec : EqDecision QString.
Proof. solve_decision. Defined.

(** The characters of a string; a null string has none. *)
Definition qchars (q : QString) : string := match q with qnull => "" | qstr s => s end.
Definition isNull (q : QString) : bool := match q with qnull => true | qstr _ => false end.
(** [operator==] compares characters: a null string equals an empty one. *)
Definition qs_eqb (a b : QString) : bool := bool_decide (qchars a = qchars b).

(** ** Searching *)
Fixpoint startsWith (s sub : string) : bool :=
  match sub, s with
  | EmptyString, _ => true
  | String c sub', String d s' => if Ascii.eqb c d then startsWith s' sub' else false
  | String _ _, EmptyString => false
  end.

(** [s.indexOf(sub)]; [pos] is the index of the head of [s]. *)
Fixpoint indexOf_from (s sub : string) (pos : Z) : Z :=
  if startsWith s sub then pos
  else match s with
       | EmptyString => -1
       | String _ s' => indexOf_from s' sub (pos + 1)
       end.
Definition indexOf (s sub : string) : Z := indexOf_from s sub 0.

Fixpoint contains_str (s sub : string) : bool :=
  startsWith s sub ||
  match s with EmptyString => false | String _ s' => contains_str s' sub end.

Fixpoint lastIndexOf_from (s sub : string) (pos : Z) (best : Z) : Z :=
  let best' := if startsWith s sub then pos else best in
  match s with
  | EmptyString => best'
  | String _ s' => lastIndexOf_from s' sub (pos + 1) best'
  end.
Definition lastIndexOf (s sub : string) : Z := lastIndexOf_from s sub 0 (-1).

(** [s.count(c)] for a one-character string. *)
Fixpoint count_char (c : Ascii.ascii) (s : string) : Z :=
  match s with
  | EmptyString => 0
  | String d s' => (if Ascii.eqb c d then 1 else 0) + count_char c s'
  end.

Definition slen (s : string) : Z := Z.of_nat (String.length s).

Fixpoint endsWith (s sub : string) : bool :=
  bool_decide (s = sub) || match s with EmptyString => false | String _ s' => endsWith s' sub end.

(** ** Slicing *)
Fixpoint drop_chars (n : nat) (s : string) : string :=
  match n, s with
  | O, _ => s
  | S n', EmptyString => EmptyString
  | S n', String _ s' => drop_chars n' s'
  end.
Fixpoint take_chars (n : nat) (s : string) : string :=
  match n, s with
  | O, _ => EmptyString
  | S n', EmptyString => EmptyString
  | S n', String c s' => String c (take_chars n' s')
  end.

(** [s.left(n)]: the whole string when [n] is negative or too large. *)
Definition left_chars (n : Z) (s : string) : string :=
  if (n <? 0)%Z then s else take_chars (Z.to_nat n) s.
(** [s.mid(pos)] *)
Definition mid (pos : Z) (s : string) : string := drop_chars (Z.to_nat pos) s.
(** [s.mid(pos, len)], with [0 <= pos] and [0 <= len]. *)
Definition mid_len (pos len : Z) (s : string) : string :=
  take_chars (Z.to_nat len) (drop_chars (Z.to_nat pos) s).

(** [s.split(sep)], keeping empty parts; [skip] characters of a separator that
    has been recognised remain to be dropped. *)
Fixpoint split_from (s sep : string) (skip : nat) (acc : string) : list string :=
  match s with
  | EmptyString => [acc]
  | String c s' =>
      match skip with
      | S k => split_from s' sep k acc
      | O => if startsWith s sep then acc :: split_from s' sep (pred (String.length sep)) ""
             else split_from s' sep 0 (acc +:+ String c "")
      end
  end.
Definition split (sep s : string) : list string := split_from s sep 0 "".

Fixpoint join (sep : string) (l : list string) : string :=
  match l with
  | [] => ""
  | [x] => x
  | x :: l' => x +:+ sep +:+ join sep l'
  end.

(** [s.replace(before, after)] for a non-empty [before]. *)
Definition replace_all (before after s : string) : string := join after (split before s).

(** ** Characters *)
Definition is_space (c : Ascii.ascii) : bool :=
  let n := Ascii.nat_of_ascii c in
  (9 <=? n)%nat && (n <=? 13)%nat || (n =? 32)%nat.

Fixpoint ltrim (s : string) : string :=
  match s with
  | EmptyString => EmptyString
  | String c s' => if is_space c then ltrim s' else s
  end.
Fixpoint rtrim (s : string) : string :=
  match s with
  | EmptyString => EmptyString
  | String c s' =>
      match rtrim s' with
      | EmptyString => if is_space c then EmptyString else String c EmptyString
      | t => String c t
      end
  end.
Definition trimmed (s : string) : string := rtrim (ltrim s).

Definition char_lower (c : Ascii.ascii) : Ascii.ascii :=
  let n := Ascii.nat_of_ascii c in
  if (65 <=? n)%nat && (n <=? 90)%nat then Ascii.ascii_of_nat (n + 32) else c.
Fixpoint toLower (s : string) : string :=
  match s with
  | EmptyString => EmptyString
  | String c s' => String (char_lower c) (toLower s')
  end.

(** ** Numbers *)
Definition digit_val (c : Ascii.ascii) : option Z :=
  let n := Ascii.nat_of_ascii c in
  if (48 <=? n)%nat && (n <=? 57)%nat then Some (Z.of_nat n - 48)%Z else None.

(** The value of a string of decimal digits, [None] if a character is not one. *)
Fixpoint digits_val (s : string) (acc : Z) : option Z :=
  match s with
  | EmptyString => Some acc
  | String c s' =>
      match digit_val c with Some d => digits_val s' (10 * acc + d)%Z | None => None end
  end.

Definition unsigned_val (s : string) : option Z :=
  match s with EmptyString => None | _ => digits_val s 0 end.

Definition signed_val (s : string) : option Z :=
  match s with
  | String "-"%char s' => Z.opp <$> unsigned_val s'
  | String "+"%char s' => unsigned_val s'
  | _ => unsigned_val s
  end.

(** [s.toInt(&ok)]: [None] when the conversion fails (no digits, other
    characters, out of the range of [int]). *)
Definition toInt_ok (s : string) : option Z :=
  match signed_val (trimmed s) with
  | Some n => if (- 2 ^ 31 <=? n)%Z && (n <? 2 ^ 31)%Z then Some n else None
  | None => None
  end.
Definition toInt (s : string) : Z := default 0%Z (toInt_ok s).

(** C's [atoi]: the longest leading run of digits after blanks and a sign. *)
Fixpoint digits_prefix (s : string) (acc : Z) : Z :=
  match s with
  | EmptyString => acc
  | String c s' =>
      match digit_val c with Some d => digits_prefix s' (10 * acc + d)%Z | None => acc end
  end.
Definition atoi (s : string) : Z :=
  match ltrim s with
  | String "-"%char s' => - digits_prefix s' 0
  | String "+"%char s' => digits_prefix s' 0
  | s' => digits_prefix s' 0
  end.

(** [QString::number(n)] and [QString("%1").arg(n)]. *)
Definition number (n : Z) : string := pretty n.

(** ** Lines *)
Definition nl : string := String "010"%char "".
Definition dquote : string := String "034"%char "".

Definition nl_free (s : string) : Prop := contains_str s nl = false.

(** The text made of the given lines. *)
Definition unlines (ls : list string) : string := foldr (λ l acc, l +:+ nl +:+ acc) "" ls.

(** ** Lemmas *)
Lemma split_from_not_nil s sep k acc : split_from s sep k acc <> [].
Proof.
  revert k acc; induction s as [|c s IH]; intros k acc; simpl; [done|].
  destruct k; [|done]. by case_match.
Qed.

Lemma qs_eqb_refl q : qs_eqb q q = true.
Proof. unfold qs_eqb. by rewrite bool_decide_eq_true. Qed.
Lemma qs_eqb_true a b : qs_eqb a b = true <-> qchars a = qchars b.
Proof. apply bool_decide_eq_true. Qed.

(** ** Lemmas on lines *)
Lemma contains_nl_cons a s :
  contains_str (String a s) nl = Ascii.eqb "010"%char a || contains_str s nl.
Proof.
  unfold nl. cbn [contains_str startsWith].
  by destruct (Ascii.eqb "010"%char a); destruct s.
Qed.

Lemma string_app_cons c s t : (String c s) +:+ t = String c (s +:+ t).
Proof. reflexivity. Qed.

Lemma string_app_assoc (a b c : string) : (a +:+ b) +:+ c = a +:+ b +:+ c.
Proof. induction a as [|x a IH]; [done|]. by rewrite !string_app_cons, IH. Qed.

Lemma string_app_nil_r (a : string) : a +:+ "" = a.
Proof. induction a as [|x a IH]; [done|]. by rewrite string_app_cons, IH. Qed.

Lemma string_length_app (a b : string) :
  String.length (a +:+ b) = (String.length a + String.length b)%nat.
Proof. induction a as [|x a IH]; [done|]. rewrite string_app_cons. simpl. by rewrite IH. Qed.

Lemma nl_free_app a b : nl_free (a +:+ b) <-> nl_free a /\ nl_free b.
Proof.
  unfold nl_free. induction a as [|x a IH]; [simpl; tauto|].
  rewrite string_app_cons, !contains_nl_cons, !orb_false_iff. tauto.
Qed.

Lemma nl_free_cons x s : nl_free (String x s) <-> x <> "010"%char /\ nl_free s.
Proof.
  unfold nl_free. rewrite contains_nl_cons, orb_false_iff.
  destruct (Ascii.eqb_spec "010"%char x); intuition congruence.
Qed.

Lemma startsWith_nl x s : startsWith (String x s) nl = Ascii.eqb "010"%char x.
Proof. unfold nl. cbn [startsWith]. by destruct (Ascii.eqb "010"%char x), s. Qed.

Lemma split_from_line a b acc :
  nl_free a -> split_from (a +:+ nl +:+ b) nl 0 acc = (acc +:+ a) :: split_from b nl 0 "".
Proof.
  revert acc; induction a as [|x a IH]; intros acc Ha.
  - rewrite string_app_nil_r. change ("" +:+ nl +:+ b) with (String "010"%char b).
    cbn [split_from]. rewrite startsWith_nl. reflexivity.
  - apply nl_free_cons in Ha as [Hx Ha]. rewrite string_app_cons. cbn [split_from].
    rewrite startsWith_nl. destruct (Ascii.eqb_spec "010"%char x); [congruence|].
    rewrite IH by done. by rewrite string_app_assoc.
Qed.

Lemma split_unlines ls : Forall nl_free ls -> split nl (unlines ls) = app ls [""].
Proof.
  unfold split. induction 1 as [|l ls Hl Hls IH]; [done|].
  simpl. by rewrite split_from_line, IH.
Qed.

Lemma nl_free_join sep l : nl_free sep -> Forall nl_free l -> nl_free (join sep l).
Proof.
  intros Hs. induction 1 as [|x l Hx Hl IH]; [done|].
  destruct l; [done|]. cbn [join] in *. by rewrite !nl_free_app.
Qed.

(** ** Decimal numbers *)
Fixpoint all_chars (P : Ascii.ascii -> bool) (s : string) : bool :=
  match s with EmptyString => true | String c s' => P c && all_chars P s' end.

Definition numeral_char (c : Ascii.ascii) : bool :=
  Ascii.eqb c "-"%char || match digit_val c with Some _ => true | None => false end.

Lemma numeral_char_digit x : (x < 10)%N -> numeral_char (pretty_N_char x) = true.
Proof.
  intros Hx.
  assert (x = 0 \/ x = 1 \/ x = 2 \/ x = 3 \/ x = 4 \/ x = 5 \/ x = 6 \/ x = 7 \/ x = 8 \/ x = 9)%N
    as Hc by lia.
  by repeat destruct Hc as [->|Hc]; try subst x.
Qed.

Lemma digit_val_pretty x : (x < 10)%N -> digit_val (pretty_N_char x) = Some (Z.of_N x).
Proof.
  intros Hx.
  assert (x = 0 \/ x = 1 \/ x = 2 \/ x = 3 \/ x = 4 \/ x = 5 \/ x = 6 \/ x = 7 \/ x = 8 \/ x = 9)%N
    as Hc by lia.
  by repeat destruct Hc as [->|Hc]; try subst x.
Qed.

Lemma pretty_N_go_numeral x s :
  all_chars numeral_char s = true -> all_chars numeral_char (pretty_N_go x s) = true.
Proof.
  revert s. induction (N.lt_wf_0 x) as [x _ IH]. intros s Hs.
  destruct (decide (x = 0)%N) as [->|Hx]; [by rewrite pretty_N_go_0|].
  rewrite pretty_N_go_step by lia. apply IH; [apply N.div_lt; lia|].
  simpl. rewrite numeral_char_digit; [done|]. apply N.mod_lt. lia.
Qed.

Lemma digits_val_pretty_go x s :
  digits_val (pretty_N_go x s) 0 = digits_val s (Z.of_N x).
Proof.
  revert s. induction (N.lt_wf_0 x) as [x _ IH]. intros s.
  destruct (decide (x = 0)%N) as [->|Hx]; [by rewrite pretty_N_go_0|].
  rewrite pretty_N_go_step by lia. rewrite IH by (apply N.div_lt; lia).
  cbn [digits_val]. rewrite digit_val_pretty by (apply N.mod_lt; lia).
  f_equal. rewrite N2Z.inj_div, N2Z.inj_mod.
  pose proof (Z.div_mod (Z.of_N x) (Z.of_N 10)). lia.
Qed.

Lemma pretty_N_numeral (x : N) : all_chars numeral_char (pretty x) = true.
Proof. unfold pretty, pretty_N. case_decide; [done|]. by apply pretty_N_go_numeral. Qed.

Lemma number_numeral n : all_chars numeral_char (number n) = true.
Proof.
  destruct n as [|p|p]; [done|apply (pretty_N_numeral (N.pos p))|].
  change (number (Z.neg p)) with (String "-"%char (pretty (N.pos p))).
  apply (pretty_N_numeral (N.pos p)).
Qed.

Lemma all_chars_nl_free s : all_chars numeral_char s = true -> nl_free s.
Proof.
  induction s as [|c s IH]; [done|]. simpl. intros [Hc Hs]%andb_true_iff.
  apply nl_free_cons. split; [|auto]. by intros ->.
Qed.

Lemma number_nl_free n : nl_free (number n).
Proof. apply all_chars_nl_free, number_numeral. Qed.

Lemma numeral_not_space c : numeral_char c = true -> is_space c = false.
Proof. destruct c as [[] [] [] [] [] [] [] []]; vm_compute; congruence. Qed.

Lemma ltrim_numeral s : all_chars numeral_char s = true -> ltrim s = s.
Proof.
  destruct s as [|c s]; [done|]. simpl. intros [Hc Hs]%andb_true_iff.
  by rewrite numeral_not_space.
Qed.

Lemma rtrim_numeral s : all_chars numeral_char s = true -> rtrim s = s.
Proof.
  induction s as [|c s IH]; [done|]. simpl. intros [Hc Hs]%andb_true_iff.
  rewrite IH by done. destruct s; [by rewrite numeral_not_space|done].
Qed.

Lemma trimmed_number n : trimmed (number n) = number n.
Proof.
  unfold trimmed. rewrite ltrim_numeral by apply number_numeral.
  apply rtrim_numeral, number_numeral.
Qed.

Lemma pretty_N_digits (x : N) : digits_val (pretty x) 0 = Some (Z.of_N x).
Proof.
  unfold pretty, pretty_N. case_decide; [by subst|]. by rewrite digits_val_pretty_go.
Qed.

Lemma pretty_N_head (x : N) : exists c s, pretty x = String c s /\ digit_val c <> None.
Proof.
  pose proof (pretty_N_digits x) as H. destruct (pretty x) as [|c s] eqn:E.
  - unfold pretty, pretty_N in E. case_decide; [done|]. exfalso.
    revert E. rewrite pretty_N_go_step by lia. intros E.
    pose proof (digits_val_pretty_go (x `div` 10) (String (pretty_N_char (x `mod` 10)) "")) as D.
    rewrite E in D. cbn [digits_val] in D. rewrite digit_val_pretty in D by (apply N.mod_lt; lia).
    injection D. rewrite N2Z.inj_div, N2Z.inj_mod.
    pose proof (Z.div_mod (Z.of_N x) (Z.of_N 10)). lia.
  - exists c, s. split; [done|]. intros Hc. cbn [digits_val] in H. by rewrite Hc in H.
Qed.

Lemma signed_val_number n : signed_val (number n) = Some n.
Proof.
  assert (forall x : N, signed_val (pretty x) = Some (Z.of_N x)) as Hpos.
  { intros x. destruct (pretty_N_head x) as (c & s & E & Hc).
    pose proof (pretty_N_digits x) as H. rewrite E in *. unfold signed_val, unsigned_val.
    destruct c as [[] [] [] [] [] [] [] []]; try done; by exfalso; apply Hc. }
  assert (forall x : N, unsigned_val (pretty x) = Some (Z.of_N x)) as Hu.
  { intros x. destruct (pretty_N_head x) as (c & s & E & Hc).
    pose proof (pretty_N_digits x) as H. by rewrite E in *. }
  unfold number. destruct n as [|p|p]; [done|apply (Hpos (N.pos p))|].
  change (pretty (Z.neg p)) with (String "-"%char (pretty (N.pos p))). cbn [signed_val].
  by rewrite Hu.
Qed.

(** Printing an [int] and reading it back is the identity. *)
Lemma toInt_number n : (- 2 ^ 31 <= n < 2 ^ 31)%Z -> toInt (number n) = n.
Proof.
  intros Hn. unfold toInt, toInt_ok. rewrite trimmed_number, signed_val_number.
  replace (- 2 ^ 31 <=? n)%Z with true by lia. by replace (n <? 2 ^ 31)%Z with true by lia.
Qed.

Example toInt_1420 : toInt " 1420 " = 1420%Z.
Proof. reflexivity. Qed.
Example toInt_cidr : toInt_ok "24x" = None.
Proof. reflexivity. Qed.
Example split_cidr : split "/" "10.0.0.0/8" = ["10.0.0.0"; "8"].
Proof. reflexivity. Qed.
Example split_comma : split ", " "a, b,c" = ["a"; "b,c"].
Proof. reflexivity. Qed.
Example trimmed_ex : trimmed "  a b  " = "a b".
Proof. reflexivity. Qed.
Example number_ex : number (-12) = "-12".
Proof. vm_compute. reflexivity. Qed.

(** ** Splitting at a character *)
Definition char_free (c : Ascii.ascii) (s : string) : bool :=
  all_chars (λ x, negb (Ascii.eqb c x)) s.

Lemma startsWith_char c x s : startsWith (String x s) (String c "") = Ascii.eqb c x.
Proof. cbn [startsWith]. by destruct (Ascii.eqb c x), s. Qed.

Lemma split_from_char c a b acc :
  char_free c a = true ->
  split_from (a +:+ String c b) (String c "") 0 acc =
    (acc +:+ a) :: split_from b (String c "") 0 "".
Proof.
  revert acc; induction a as [|x a IH]; intros acc Ha.
  - rewrite string_app_nil_r. change ("" +:+ String c b) with (String c b).
    cbn [split_from]. rewrite startsWith_char, Ascii.eqb_refl. done.
  - cbn [char_free all_chars] in Ha. apply andb_true_iff in Ha as [Hx Ha].
    apply negb_true_iff in Hx. rewrite string_app_cons. cbn [split_from].
    rewrite startsWith_char, Hx, IH by done. f_equal. by rewrite string_app_assoc.
Qed.

Lemma split_from_end c a acc :
  char_free c a = true -> split_from a (String c "") 0 acc = [acc +:+ a].
Proof.
  revert acc; induction a as [|x a IH]; intros acc Ha; [by rewrite string_app_nil_r|].
  cbn [char_free all_chars] in Ha. apply andb_true_iff in Ha as [Hx Ha].
  apply negb_true_iff in Hx. cbn [split_from].
  rewrite startsWith_char, Hx, IH by done. by rewrite string_app_assoc.
Qed.

Lemma split_join_char c l :
  l <> [] -> Forall (λ s, char_free c s = true) l ->
  split (String c "") (join (String c "") l) = l.
Proof.
  intros NE F. unfold split. induction F as [|x l Hx F IH]; [done|].
  destruct l as [|y l]; [by apply split_from_end|].
  change (join (String c "") (x :: y :: l)) with (x +:+ String c (join (String c "") (y :: l))).
  rewrite split_from_char by done. by rewrite IH.
Qed.

Lemma number_char_free c n : numeral_char c = false -> char_free c (number n) = true.
Proof.
  intros Hc. unfold char_free. pose proof (number_numeral n) as H.
  induction (number n) as [|x s IH]; [done|]. cbn in H |- *.
  apply andb_true_iff in H as [Hx Hs]. rewrite IH by done.
  destruct (Ascii.eqb_spec c x) as [->|]; [congruence | done].
Qed.

Lemma char_free_app c a b : char_free c (a +:+ b) = char_free c a && char_free c b.
Proof.
  induction a as [|x a IH]; [done|]. rewrite string_app_cons.
  change (negb (Ascii.eqb c x) && char_free c (a +:+ b) =
    negb (Ascii.eqb c x) && char_free c a && char_free c b). by rewrite IH, andb_assoc.
Qed.

Lemma indexOf_char c a b pos :
  char_free c a = true ->
  indexOf_from (a +:+ String c b) (String c "") pos = (pos + Z.of_nat (String.length a))%Z.
Proof.
  revert pos; induction a as [|x a IH]; intros pos Ha.
  - change ("" +:+ String c b) with (String c b). cbn [indexOf_from].
    rewrite startsWith_char, Ascii.eqb_refl. cbn. lia.
  - cbn [char_free all_chars] in Ha. apply andb_true_iff in Ha as [Hx Ha].
    apply negb_true_iff in Hx. rewrite string_app_cons. cbn [indexOf_from].
    rewrite startsWith_char, Hx, IH by done. cbn [String.length]. lia.
Qed.

Lemma take_chars_app a b : take_chars (String.length a) (a +:+ b) = a.
Proof. induction a as [|c a IH]; [by destruct b|]. rewrite string_app_cons. simpl. by rewrite IH. Qed.
Lemma drop_chars_app a b : drop_chars (String.length a) (a +:+ b) = b.
Proof. induction a as [|c a IH]; [by destruct b|]. rewrite string_app_cons. simpl. exact IH. Qed.
Lemma drop_chars_behind a x b : drop_chars (S (String.length a)) (a +:+ String x b) = b.
Proof. induction a as [|y a IH]; [done|]. rewrite string_app_cons. apply IH. Qed.

Lemma unlines_app a b : unlines (app a b) = unlines a +:+ unlines b.
Proof.
  induction a as [|x a IH]; [done|]. cbn [unlines foldr app].
  change (foldr (λ l acc, l +:+ nl +:+ acc) "" (app a b)) with (unlines (app a b)).
  rewrite IH. by rewrite !string_app_assoc.
Qed.

Lemma count_char_app c a b : count_char c (a +:+ b) = (count_char c a + count_char c b)%Z.
Proof.
  induction a as [|x a IH]; [done|]. rewrite string_app_cons. cbn [count_char]. rewrite IH. lia.
Qed.

(** A text is split into one part exactly when it does not contain the
    separator. *)
Lemma split_from_parts sep s acc :
  sep <> "" ->
  if contains_str s sep then exists a b l, split_from s sep 0 acc = a :: b :: l
  else split_from s sep 0 acc = [acc +:+ s].
Proof.
  intros Hsep. revert acc. induction s as [|c s IH]; intros acc.
  - destruct sep; [done|]. simpl. by rewrite string_app_nil_r.
  - cbn [contains_str split_from]. destruct (startsWith (String c s) sep); cbn [orb].
    + destruct (split_from s sep (pred (String.length sep)) "") as [|b l] eqn:E; [|by eexists _, _, _].
      by apply split_from_not_nil in E.
    + specialize (IH (acc +:+ String c "")). destruct (contains_str s sep); [exact IH|].
      rewrite IH. by rewrite string_app_assoc.
Qed.

(** ** Splitting, replacing and searching: lemmas

    Facts about [split], [replace_all] and [contains_str] on texts that are
    made of lines or of words: an operation whose pattern has no line break
    works line by line, and a word is found in a text only inside a word. *)
Local Open Scope string_scope.

(** ** Accumulator *)
Lemma split_from_acc s sep k p acc :
  split_from s sep k (p +:+ acc) =
    match split_from s sep k acc with z :: r => (p +:+ z) :: r | [] => [] end.
Proof.
  revert k acc; induction s as [|c s IH]; intros k acc; [done|].
  cbn [split_from]. destruct k as [|k]; [|apply IH].
  destruct (startsWith (String c s) sep); [done|]. by rewrite string_app_assoc, IH.
Qed.

(** ** Line by line *)
Lemma startsWith_line x y sep :
  nl_free sep -> startsWith (x +:+ nl +:+ y) sep = startsWith x sep.
Proof.
  revert sep; induction x as [|c x IH]; intros [|d sep] Hs; [done| |done|].
  - apply nl_free_cons in Hs as [Hd _]. change ("" +:+ nl +:+ y) with (String "010"%char y).
    cbn [startsWith]. destruct (Ascii.eqb_spec d "010"%char); [congruence|done].
  - apply nl_free_cons in Hs as [_ Hs]. rewrite string_app_cons. cbn [startsWith].
    by rewrite IH.
Qed.

Lemma startsWith_length s sub : startsWith s sub = true -> (String.length sub <= String.length s)%nat.
Proof.
  revert sub; induction s as [|c s IH]; intros [|d sub]; cbn; try done; [lia|].
  destruct (Ascii.eqb d c); [|done]. intros ?%IH. lia.
Qed.

(** The last part of one list and the first of another in one part. *)
Fixpoint glue (l : list string) (m : string) (l' : list string) : list string :=
  match l with
  | [] => l'
  | [z] => match l' with [] => [z +:+ m] | y :: r => (z +:+ m +:+ y) :: r end
  | z :: l0 => z :: glue l0 m l'
  end.

Lemma glue_cons z l m l' : l <> [] -> glue (z :: l) m l' = z :: glue l m l'.
Proof. by destruct l. Qed.

Lemma split_from_glue sep x y k acc :
  nl_free sep -> sep <> "" -> (k <= String.length x)%nat ->
  split_from (x +:+ nl +:+ y) sep k acc = glue (split_from x sep k acc) nl (split_from y sep 0 "").
Proof.
  intros Hf Hn. revert k acc; induction x as [|c x IH]; intros k acc Hk.
  - assert (k = O) as -> by (cbn in Hk; lia). pose proof (startsWith_line "" y sep Hf) as Hs.
    change ("" +:+ nl +:+ y) with (String "010"%char y) in *. cbn [split_from].
    rewrite Hs. replace (startsWith "" sep) with false by (by destruct sep).
    rewrite <-(string_app_nil_r (acc +:+ String "010"%char "")), split_from_acc. cbn [glue].
    pose proof (split_from_not_nil y sep 0 "") as Hne.
    destruct (split_from y sep 0 "") as [|z r]; [done|]. by rewrite string_app_assoc.
  - pose proof (startsWith_line (String c x) y sep Hf) as Hs. rewrite !string_app_cons in *.
    cbn [split_from]. rewrite Hs. destruct k as [|k]; [|apply IH; cbn in Hk; lia].
    destruct (startsWith (String c x) sep) eqn:E; [|apply IH; lia].
    apply startsWith_length in E. cbn in E.
    rewrite glue_cons by apply split_from_not_nil. rewrite IH by lia. done.
Qed.

Lemma join_cons a z l : l <> [] -> join a (z :: l) = z +:+ a +:+ join a l.
Proof. by destruct l. Qed.

Lemma join_glue a m l l' :
  l <> [] -> l' <> [] -> join a (glue l m l') = join a l +:+ m +:+ join a l'.
Proof.
  intros Hl Hl'. induction l as [|z l IH]; [done|]. destruct l as [|z' l].
  - destruct l' as [|y r]; [done|]. cbn [glue]. destruct r as [|y' r]; [done|].
    rewrite !join_cons by done. cbn [join]. by rewrite !string_app_assoc.
  - rewrite glue_cons, !join_cons by (cbn [glue]; by destruct l, l' || done).
    rewrite IH by done. by rewrite !string_app_assoc.
Qed.

Lemma replace_all_line b a x y :
  nl_free b -> b <> "" ->
  replace_all b a (x +:+ nl +:+ y) = replace_all b a x +:+ nl +:+ replace_all b a y.
Proof.
  intros Hf Hn. unfold replace_all, split.
  rewrite split_from_glue by (done || lia). apply join_glue; apply split_from_not_nil.
Qed.

Lemma replace_all_unlines b a ls :
  nl_free b -> b <> "" -> replace_all b a (unlines ls) = unlines (map (replace_all b a) ls).
Proof.
  intros Hf Hn. induction ls as [|l ls IH]; [done|].
  cbn [unlines foldr map]. rewrite replace_all_line by done.
  change (foldr (λ l acc, l +:+ nl +:+ acc) "" ls) with (unlines ls). by rewrite IH.
Qed.

(** ** Absent patterns *)
Lemma contains_char_free c b s : char_free c s = true -> contains_str s (String c b) = false.
Proof.
  induction s as [|x s IH]; [done|]. intros [Hx Hs]%andb_true_iff.
  cbn [contains_str startsWith]. apply negb_true_iff in Hx. rewrite Hx. by apply IH.
Qed.

Lemma split_absent sep s : sep <> "" -> contains_str s sep = false -> split sep s = [s].
Proof. intros Hn Hc. pose proof (split_from_parts sep s "" Hn) as H. by rewrite Hc in H. Qed.

Lemma replace_absent b a s : b <> "" -> contains_str s b = false -> replace_all b a s = s.
Proof. intros Hn Hc. unfold replace_all. by rewrite split_absent. Qed.

(** A pattern whose first character occurs nowhere before it. *)
Lemma split_from_skip s sep acc b :
  split_from (s +:+ b) sep (String.length s) acc = split_from b sep 0 acc.
Proof. induction s as [|c s IH]; [done|]. rewrite string_app_cons. cbn. apply IH. Qed.

Lemma startsWith_self s b : startsWith (s +:+ b) s = true.
Proof.
  induction s as [|c s IH]; [by destruct b|]. rewrite string_app_cons. cbn [startsWith].
  by rewrite Ascii.eqb_refl.
Qed.

Lemma split_from_word c sep a b acc :
  char_free c a = true ->
  split_from (a +:+ String c sep +:+ b) (String c sep) 0 acc =
    (acc +:+ a) :: split_from b (String c sep) 0 "".
Proof.
  revert acc; induction a as [|x a IH]; intros acc Ha.
  - rewrite string_app_nil_r. change ("" +:+ String c sep +:+ b) with (String c sep +:+ b).
    pose proof (startsWith_self (String c sep) b) as Hs. rewrite string_app_cons in *.
    cbn [split_from]. rewrite Hs. cbn [String.length pred]. by rewrite split_from_skip.
  - apply andb_true_iff in Ha as [Hx Ha]. apply negb_true_iff in Hx.
    rewrite string_app_cons. cbn [split_from startsWith]. rewrite Hx, IH by done.
    by rewrite string_app_assoc.
Qed.

Lemma replace_word c b a x y :
  char_free c x = true ->
  replace_all (String c b) a (x +:+ String c b +:+ y) = x +:+ a +:+ replace_all (String c b) a y.
Proof.
  intros Hx. unfold replace_all, split. rewrite split_from_word by done.
  rewrite join_cons by apply split_from_not_nil. done.
Qed.

(** ** Parts of a text *)
Lemma split_parts_free c s acc :
  char_free c acc = true ->
  Forall (λ p, char_free c p = true) (split_from s (String c "") 0 acc).
Proof.
  revert acc; induction s as [|x s IH]; intros acc Ha; [by repeat constructor|].
  cbn [split_from]. rewrite startsWith_char. destruct (Ascii.eqb c x) eqn:E.
  - constructor; [done|]. by apply IH.
  - apply IH. rewrite char_free_app, Ha. cbn. by rewrite E.
Qed.

Lemma all_chars_app P a b : all_chars P (a +:+ b) = all_chars P a && all_chars P b.
Proof.
  induction a as [|x a IH]; [done|]. rewrite string_app_cons. cbn [all_chars].
  by rewrite IH, andb_assoc.
Qed.

Lemma all_chars_impl (P Q : Ascii.ascii -> bool) s :
  (forall c, P c = true -> Q c = true) -> all_chars P s = true -> all_chars Q s = true.
Proof.
  intros HPQ. induction s as [|x s IH]; [done|]. intros [Hx Hs]%andb_true_iff.
  cbn [all_chars]. by rewrite HPQ, IH.
Qed.

Lemma all_chars_char_free (P : Ascii.ascii -> bool) c s :
  P c = false -> all_chars P s = true -> char_free c s = true.
Proof.
  intros Hc. apply all_chars_impl. intros x Hx. apply negb_true_iff.
  destruct (Ascii.eqb_spec c x) as [->|]; congruence.
Qed.

Lemma split_parts_all (P : Ascii.ascii -> bool) c s acc :
  all_chars P s = true -> all_chars P acc = true ->
  Forall (λ p, all_chars P p = true) (split_from s (String c "") 0 acc).
Proof.
  revert acc; induction s as [|x s IH]; intros acc Hs Ha; [by repeat constructor|].
  apply andb_true_iff in Hs as [Hx Hs]. cbn [split_from]. rewrite startsWith_char.
  destruct (Ascii.eqb c x).
  - constructor; [done|]. by apply IH.
  - apply IH; [done|]. rewrite all_chars_app, Ha. cbn. by rewrite Hx.
Qed.

Lemma all_chars_join P sep l :
  all_chars P sep = true -> Forall (λ p, all_chars P p = true) l ->
  all_chars P (join sep l) = true.
Proof.
  intros Hs. induction 1 as [|x l Hx Hl IH]; [done|]. destruct l as [|y l]; [done|].
  rewrite join_cons, !all_chars_app, Hx, Hs, IH by done. done.
Qed.

Lemma trimmed_word s : all_chars (λ c, negb (is_space c)) s = true -> trimmed s = s.
Proof.
  intros H. unfold trimmed. assert (ltrim s = s) as ->.
  { destruct s as [|c s]; [done|]. apply andb_true_iff in H as [Hc _].
    apply negb_true_iff in Hc. cbn. by rewrite Hc. }
  induction s as [|c s IH]; [done|]. apply andb_true_iff in H as [Hc Hs].
  apply negb_true_iff in Hc. cbn [rtrim]. rewrite IH by done. by destruct s; [rewrite Hc|].
Qed.

(** ** Words are found inside words *)
Lemma startsWith_apart c a b w :
  char_free c w = true -> w <> "" ->
  startsWith (a +:+ String c b) w = startsWith a w.
Proof.
  revert w; induction a as [|x a IH]; intros w Hw Hn.
  - destruct w as [|d w]; [done|]. apply andb_true_iff in Hw as [Hd _].
    apply negb_true_iff in Hd. change ("" +:+ String c b) with (String c b). cbn [startsWith].
    by rewrite Ascii.eqb_sym, Hd.
  - destruct w as [|d w]; [done|]. apply andb_true_iff in Hw as [_ Hw].
    rewrite string_app_cons. cbn [startsWith]. destruct (Ascii.eqb d x); [|done].
    destruct w as [|e w]; [by destruct a|]. by apply IH.
Qed.

Lemma contains_apart c a b w :
  char_free c w = true -> w <> "" ->
  contains_str (a +:+ String c b) w = contains_str a w || contains_str b w.
Proof.
  intros Hw Hn. induction a as [|x a IH].
  - pose proof (startsWith_apart c "" b w Hw Hn) as Hs.
    change ("" +:+ String c b) with (String c b) in *. cbn [contains_str]. rewrite Hs.
    by destruct w.
  - pose proof (startsWith_apart c (String x a) b w Hw Hn) as Hs.
    rewrite !string_app_cons in *. cbn [contains_str]. by rewrite Hs, IH, orb_assoc.
Qed.

Lemma contains_short s w : (String.length s < String.length w)%nat -> contains_str s w = false.
Proof.
  induction s as [|c s IH]; intros Hl.
  - destruct w; [cbn in Hl; lia|done].
  - cbn [contains_str]. destruct (startsWith (String c s) w) eqn:E.
    + apply startsWith_length in E. lia.
    + apply IH. cbn in Hl. lia.
Qed.

Lemma startsWith_same_length s w :
  String.length s = String.length w -> startsWith s w = String.eqb s w.
Proof.
  revert w; induction s as [|c s IH]; intros [|d w]; cbn; try done.
  intros [= Hl]. rewrite Ascii.eqb_sym. destruct (Ascii.eqb c d); [by apply IH|done].
Qed.

Lemma contains_same_length s w :
  w <> "" -> String.length s = String.length w -> contains_str s w = String.eqb s w.
Proof.
  intros Hn Hl. rewrite <-startsWith_same_length by done.
  destruct s as [|c s]; [by destruct w|]. cbn [contains_str].
  rewrite contains_short; [by rewrite orb_false_r|]. cbn in Hl. lia.
Qed.

(** A text without a character contains no word with it. *)
Lemma startsWith_chars c s w :
  startsWith s w = true -> char_free c s = true -> char_free c w = true.
Proof.
  revert w; induction s as [|x s IH]; intros [|d w]; try done.
  cbn [startsWith]. destruct (Ascii.eqb_spec d x) as [->|]; [|done].
  intros Hs [Hx Hf]%andb_true_iff. apply andb_true_iff. split; [done|]. by apply IH.
Qed.

Lemma contains_chars c s w :
  contains_str s w = true -> char_free c s = true -> char_free c w = true.
Proof.
  induction s as [|x s IH]; intros Hs Hf.
  - destruct w; [done|done].
  - cbn [contains_str] in Hs. apply orb_true_iff in Hs as [Hs|Hs].
    + by eapply startsWith_chars.
    + apply andb_true_iff in Hf as [_ Hf]. by apply IH.
Qed.
