(* ===== verification/QtContainers.v ===== *)
(** * Ordered maps and JSON values

    [QMap] and the JSON classes of Qt as the client uses them. A map is the
    list of its entries in key order, which is the order of iteration and what
    [first()] refers to. A JSON number is a rational: Qt keeps doubles and
    64-bit integers, and every value of either is one. *)
From Stdlib Require Import ZArith QArith Lia.
From stdpp Require Import base gmap list strings numbers.
From S2P Require Import Prelude QtString.
Local Open Scope Z_scope.

(** ** Ordered maps *)
Section QMap.
Context {K V : Type} `{KeyOrder K}.

Fixpoint qm_find (k : K) (m : list (K * V)) : option V :=
  match m with
  | [] => None
  | (k', v) :: m' => match key_cmp k k' with Eq => Some v | _ => qm_find k m' end
  end.

Fixpoint qm_insert (k : K) (v : V) (m : list (K * V)) : list (K * V) :=
  match m with
  | [] => [(k, v)]
  | (k', v') :: m' =>
      match key_cmp k k' with
      | Lt => (k, v) :: m
      | Eq => (k, v) :: m'
      | Gt => (k', v') :: qm_insert k v m'
      end
  end.

Fixpoint qm_remove (k : K) (m : list (K * V)) : list (K * V) :=
  match m with
  | [] => []
  | (k', v') :: m' =>
      match key_cmp k k' with Eq => qm_remove k m' | _ => (k', v') :: qm_remove k m' end
  end.

Definition qm_contains (k : K) (m : list (K * V)) : bool :=
  match qm_find k m with Some _ => true | None => false end.

(** Keys in strictly increasing order. *)
Definition qm_sorted (m : list (K * V)) : Prop :=
  ForallOrdPairs (λ a b, key_cmp a.1 b.1 = Lt) m.
End QMap.

Section QMapLemmas.
Context {K V : Type} `{KeyOrderLaws K}.
Implicit Types (m : list (K * V)) (k : K).

Lemma key_cmp_refl k : key_cmp k k = Eq.
Proof. by apply key_cmp_eq. Qed.

Lemma key_cmp_neq k k' : k <> k' -> key_cmp k k' <> Eq.
Proof. intros Hne E. by apply key_cmp_eq in E. Qed.

Lemma qm_find_insert_eq k v m : qm_find k (qm_insert k v m) = Some v.
Proof.
  induction m as [|[k' v'] m IH]; simpl; [by rewrite key_cmp_refl|].
  destruct (key_cmp k k') eqn:E; simpl; rewrite ?key_cmp_refl, ?E; done.
Qed.

Lemma qm_find_insert_ne k k' v m : k <> k' -> qm_find k' (qm_insert k v m) = qm_find k' m.
Proof.
  intros Hne. assert (key_cmp k' k <> Eq) as Hc by (by apply key_cmp_neq).
  induction m as [|[k0 v0] m IH]; simpl.
  - by destruct (key_cmp k' k).
  - destruct (key_cmp k k0) eqn:E; simpl.
    + apply key_cmp_eq in E as ->. by destruct (key_cmp k' k0).
    + by destruct (key_cmp k' k).
    + by rewrite IH.
Qed.

Lemma qm_find_remove_eq k m : qm_find k (qm_remove k m) = None.
Proof.
  induction m as [|[k' v'] m IH]; simpl; [done|].
  destruct (key_cmp k k') eqn:E; simpl; rewrite ?E; done.
Qed.

Lemma qm_find_remove_ne k k' m : k <> k' -> qm_find k' (qm_remove k m) = qm_find k' m.
Proof.
  intros Hne. induction m as [|[k0 v0] m IH]; simpl; [done|].
  destruct (key_cmp k k0) eqn:E; simpl; rewrite IH; try done.
  apply key_cmp_eq in E as ->. pose proof (key_cmp_neq k' k0) as Hc.
  destruct (key_cmp k' k0); try done. destruct Hc; congruence.
Qed.

Lemma qm_insert_insert k v v' m : qm_insert k v (qm_insert k v' m) = qm_insert k v m.
Proof.
  induction m as [|[k1 v1] m IH]; cbn [qm_insert].
  - by rewrite key_cmp_refl.
  - destruct (key_cmp k k1) eqn:E; cbn [qm_insert]; rewrite ?key_cmp_refl, ?E; [done..|].
    by rewrite IH.
Qed.

Lemma qm_contains_insert k v m : qm_contains k (qm_insert k v m) = true.
Proof. unfold qm_contains. by rewrite qm_find_insert_eq. Qed.

Lemma qm_find_elem k v m : qm_find k m = Some v -> (k, v) ∈ m.
Proof.
  induction m as [|[k0 v0] m IH]; simpl; [done|].
  destruct (key_cmp k k0) eqn:E; rewrite elem_of_cons; intros Hf; auto.
  apply key_cmp_eq in E as ->. left. congruence.
Qed.

Lemma elem_qm_insert k v m x : x ∈ qm_insert k v m -> x = (k, v) \/ x ∈ m.
Proof.
  induction m as [|[k0 v0] m IH]; simpl; [set_solver|].
  destruct (key_cmp k k0); rewrite ?elem_of_cons; [tauto..|].
  intros [->|Hx]; [by auto|]. destruct (IH Hx); auto.
Qed.

Lemma qm_sorted_insert k v m : qm_sorted m -> qm_sorted (qm_insert k v m).
Proof.
  unfold qm_sorted. induction 1 as [|[k0 v0] m Hk Hm IH]; simpl.
  { repeat constructor. }
  rewrite list.Forall_forall in Hk. destruct (key_cmp k k0) eqn:E.
  - apply key_cmp_eq in E as ->. constructor; [by apply list.Forall_forall|done].
  - constructor; [|constructor; [by apply list.Forall_forall|done]].
    constructor; [done|]. apply list.Forall_forall. intros y Hy. simpl.
    eapply key_cmp_trans; [exact E|]. by apply Hk.
  - constructor; [|done]. apply list.Forall_forall. intros y [->|Hy]%elem_qm_insert; simpl.
    + rewrite key_cmp_antisym, E. done.
    + by apply Hk.
Qed.

Lemma qm_find_sorted k v m : qm_sorted m -> (k, v) ∈ m -> qm_find k m = Some v.
Proof.
  unfold qm_sorted. induction 1 as [|[k0 v0] m Hk Hm IH]; simpl; [set_solver|].
  rewrite list.Forall_forall in Hk. rewrite elem_of_cons. intros [[= -> ->]|Hin].
  - by rewrite key_cmp_refl.
  - pose proof (Hk _ Hin) as E. simpl in E. rewrite key_cmp_antisym in E.
    destruct (key_cmp k k0); simpl in E; try done. by apply IH.
Qed.
End QMapLemmas.

#[export] Hint Resolve qm_sorted_insert qm_contains_insert : zlo.

(** Integers as keys. *)
#[export] Instance Z_key_order : KeyOrder Z | 50 := Z.compare.
#[export] Instance Z_key_laws : KeyOrderLaws Z | 50.
Proof.
  split; unfold key_cmp, Z_key_order.
  - apply Z.compare_eq_iff.
  - intros a b. by rewrite (Z.compare_antisym b a).
  - intros a b c. rewrite !Z.compare_lt_iff. lia.
Qed.

(** ** JSON values *)
Inductive QJsonValue :=
| JUndefined
| JNull
| JBool (b : bool)
| JDouble (q : Q)
| JString (s : string)
| JArray (l : list QJsonValue)
| JObject (o : list (string * QJsonValue)).

Abbreviation QJsonObject := (list (string * QJsonValue)).
Definition JInt (n : Z) : QJsonValue := JDouble (inject_Z n).

Definition isUndefined (v : QJsonValue) : bool := match v with JUndefined => true | _ => false end.
Definition isNullValue (v : QJsonValue) : bool := match v with JNull => true | _ => false end.
Definition isBool (v : QJsonValue) : bool := match v with JBool _ => true | _ => false end.
Definition isDouble (v : QJsonValue) : bool := match v with JDouble _ => true | _ => false end.
Definition isString (v : QJsonValue) : bool := match v with JString _ => true | _ => false end.
Definition isArray (v : QJsonValue) : bool := match v with JArray _ => true | _ => false end.
Definition isObject (v : QJsonValue) : bool := match v with JObject _ => true | _ => false end.

(** The conversions return the type's default on a value of another type; the
    default string is null. *)
Definition toQString (v : QJsonValue) : QString :=
  match v with JString s => qstr s | _ => qnull end.
Definition toString (v : QJsonValue) : string := match v with JString s => s | _ => "" end.
Definition toBool (v : QJsonValue) : bool := match v with JBool b => b | _ => false end.
Definition toArray (v : QJsonValue) : list QJsonValue := match v with JArray l => l | _ => [] end.
Definition toObject (v : QJsonValue) : QJsonObject := match v with JObject o => o | _ => [] end.
Definition toDouble (v : QJsonValue) : Q := match v with JDouble q => q | _ => 0%Q end.

(** Conversion of a double to [int]: towards zero. *)
Definition double_to_int (q : Q) : Z := Z.quot (Qnum q) (Zpos (Qden q)).

(** [toInt()]: the number when it is an integer in the range of [int], else 0. *)
Definition json_toInt (v : QJsonValue) : Z :=
  match v with
  | JDouble q =>
      let n := double_to_int q in
      if Qeq_bool q (inject_Z n) && (- 2 ^ 31 <=? n) && (n <? 2 ^ 31) then n else 0
  | _ => 0
  end.

(** [obj.value(key)] *)
Definition value (k : string) (o : QJsonObject) : QJsonValue :=
  match qm_find k o with Some v => v | None => JUndefined end.
Definition contains_key (k : string) (o : QJsonObject) : bool := qm_contains k o.
(** [obj.insert(key, value)]: an undefined value removes the key. *)
Definition jinsert (k : string) (v : QJsonValue) (o : QJsonObject) : QJsonObject :=
  match v with JUndefined => qm_remove k o | _ => qm_insert k v o end.
Definition remove_key (k : string) (o : QJsonObject) : QJsonObject := qm_remove k o.

(** Structural equality, numbers compared by value. *)
Fixpoint json_eqb (a b : QJsonValue) : bool :=
  match a, b with
  | JUndefined, JUndefined => true
  | JNull, JNull => true
  | JBool x, JBool y => Bool.eqb x y
  | JDouble x, JDouble y => Qeq_bool x y
  | JString x, JString y => String.eqb x y
  | JArray x, JArray y =>
      (fix go (x y : list QJsonValue) : bool :=
         match x, y with
         | [], [] => true
         | a :: x', b :: y' => json_eqb a b && go x' y'
         | _, _ => false
         end) x y
  | JObject x, JObject y =>
      (fix go (x y : list (string * QJsonValue)) : bool :=
         match x, y with
         | [], [] => true
         | (k, a) :: x', (k', b) :: y' => String.eqb k k' && json_eqb a b && go x' y'
         | _, _ => false
         end) x y
  | _, _ => false
  end.

Definition array_eqb (a b : list QJsonValue) : bool := json_eqb (JArray a) (JArray b).

(** ** Lemmas *)
Lemma value_insert_eq k v o : value k (jinsert k v o) = v.
Proof.
  unfold value, jinsert. destruct v; by rewrite ?qm_find_insert_eq, ?qm_find_remove_eq.
Qed.

Lemma value_insert_ne k k' v o : k <> k' -> value k' (jinsert k v o) = value k' o.
Proof.
  intros Hne. unfold value, jinsert.
  destruct v; by rewrite ?qm_find_insert_ne, ?qm_find_remove_ne.
Qed.

Lemma value_remove_eq k o : value k (remove_key k o) = JUndefined.
Proof. unfold value, remove_key. by rewrite qm_find_remove_eq. Qed.

Lemma value_remove_ne k k' o : k <> k' -> value k' (remove_key k o) = value k' o.
Proof. intros Hne. unfold value, remove_key. by rewrite qm_find_remove_ne. Qed.

Lemma json_toInt_JInt n : - 2 ^ 31 <= n < 2 ^ 31 -> json_toInt (JInt n) = n.
Proof.
  intros Hn. unfold json_toInt, JInt, double_to_int. simpl.
  rewrite Z.quot_1_r. rewrite (proj2 (Qeq_bool_iff _ _)) by reflexivity.
  replace (- 2 ^ 31 <=? n) with true by lia. by replace (n <? 2 ^ 31) with true by lia.
Qed.

Lemma double_to_int_inject n : double_to_int (inject_Z n) = n.
Proof. unfold double_to_int. simpl. apply Z.quot_1_r. Qed.

Lemma contains_key_value k o : value k o <> JUndefined -> contains_key k o = true.
Proof. unfold value, contains_key, qm_contains. by destruct (qm_find k o). Qed.

(** An object stores no undefined value. *)
Definition defined (o : QJsonObject) : Prop := forall k, qm_find k o <> Some JUndefined.

Lemma defined_nil : defined [].
Proof. by intros k. Qed.
Lemma defined_jinsert k v o : defined o -> defined (jinsert k v o).
Proof.
  intros Ho k'. specialize (Ho k'). destruct (String.eqb_spec k k') as [->|Hne].
  - unfold jinsert. destruct v; rewrite ?qm_find_insert_eq, ?qm_find_remove_eq; congruence.
  - unfold jinsert. destruct v; by rewrite ?qm_find_insert_ne, ?qm_find_remove_ne.
Qed.
Lemma contains_key_undefined k o :
  defined o -> value k o = JUndefined -> contains_key k o = false.
Proof.
  intros Ho. specialize (Ho k). unfold value, contains_key, qm_contains.
  destruct (qm_find k o); congruence.
Qed.

(** Evaluates a lookup in an object built by a sequence of insertions. *)
Ltac json_lookup :=
  repeat first [ rewrite value_insert_eq | rewrite value_insert_ne by discriminate ].

Example insert_order :
  jinsert "b" (JInt 1) (jinsert "a" JNull []) = [("a", JNull); ("b", JInt 1)].
Proof. reflexivity. Qed.
