(* ===== verification/IpAddress.v ===== *)
(** * IP prefixes

    Model of [IPAddress] (client/mozilla/shared/ipaddress.cpp): an address with
    a prefix length, its masks, the containment tests, and the subtraction of
    prefixes that split tunnelling is built on. The theorems give each
    operation's meaning on the bits of the addresses and show that the
    subtraction loops end and compute the exact set difference. *)
From stdpp Require Import base gmap list numbers strings.
From Stdlib Require Import ZArith Lia.
From S2P Require Import Prelude HostAddress QtString.
Local Open Scope Z_scope.

Record IPAddress := mkIPAddress {
  m_address : QHostAddress;
  m_prefixLength : Z
}.

#[export] Instance IPAddress_eq_dec : EqDecision IPAddress.
Proof. solve_decision. Defined.
#[export] Instance IPAddress_countable : Countable IPAddress.
Proof.
  refine (inj_countable' (λ ip, (m_address ip, m_prefixLength ip))
                         (λ p, mkIPAddress p.1 p.2) _).
  by intros [].
Defined.

(** ** Construction

    The text parsers are Qt's: [QHostAddress(text)] (a null address when the
    text is not one) and [QHostAddress::parseSubnet(text)], which "returns the
    network prefix for that network and its prefix length", or a null address
    and -1. *)
Class AddressParser := {
  parseHost : string -> QHostAddress;
  parseSubnet : string -> QHostAddress * Z
}.

Definition fromHostAddress (address : QHostAddress) : IPAddress :=
  mkIPAddress address (if bool_decide (protocol address = IPv4Protocol) then 32 else 128).

Definition fromString `{AddressParser} (ip : string) : IPAddress :=
  let '(address, prefixLength) :=
    if contains_str ip "/" then parseSubnet ip else (parseHost ip, 999999) in
  let prefixLength :=
    match protocol address with
    | IPv4Protocol => if 32 <=? prefixLength then 32 else prefixLength
    | IPv6Protocol => if 128 <=? prefixLength then 128 else prefixLength
    | UnknownNetworkLayerProtocol => prefixLength
    end in
  mkIPAddress address prefixLength.

(** ** Masks *)
Definition netmask (ip : IPAddress) : QHostAddress :=
  let p := m_prefixLength ip in
  match protocol (m_address ip) with
  | IPv6Protocol =>
      let rawNetmask := memset_to (Z.to_nat (p / 8)) 255 (replicate 16 0) in
      let rawNetmask :=
        if p mod 8 =? 0 then rawNetmask
        else <[Z.to_nat (p / 8) := Z.lxor 255 (Z.shiftr 255 (p mod 8))]> rawNetmask in
      IPv6Address rawNetmask
  | IPv4Protocol =>
      let rawNetmask := 4294967295 in
      let rawNetmask :=
        if p <? 32 then Z.lxor rawNetmask (Z.shiftr 4294967295 p) else rawNetmask in
      IPv4Address rawNetmask
  | UnknownNetworkLayerProtocol => NullAddress
  end.

Definition hostmask (ip : IPAddress) : QHostAddress :=
  let p := m_prefixLength ip in
  match protocol (m_address ip) with
  | IPv6Protocol =>
      let offset := Z.to_nat ((p + 7) / 8) in
      let rawHostmask := memset_from offset 255 (replicate 16 0) in
      let rawHostmask :=
        if p mod 8 =? 0 then rawHostmask
        else <[Z.to_nat (p / 8) := Z.shiftr 255 (p mod 8)]> rawHostmask in
      IPv6Address rawHostmask
  | IPv4Protocol =>
      if p <? 32 then IPv4Address (Z.shiftr 4294967295 p) else IPv4Address 0
  | UnknownNetworkLayerProtocol => NullAddress
  end.

Definition broadcastAddress (ip : IPAddress) : QHostAddress :=
  let p := m_prefixLength ip in
  match protocol (m_address ip) with
  | IPv6Protocol =>
      let rawAddress := toIPv6Address (m_address ip) in
      let offset := Z.to_nat ((p + 7) / 8) in
      let rawAddress := memset_from offset 255 rawAddress in
      let rawAddress :=
        if p mod 8 =? 0 then rawAddress
        else alter (λ b, Z.lor b (Z.shiftr 255 (p mod 8))) (Z.to_nat (p / 8)) rawAddress in
      IPv6Address rawAddress
  | IPv4Protocol =>
      let rawAddress := toIPv4Address (m_address ip) in
      let rawAddress :=
        if p <? 32 then Z.lor rawAddress (Z.shiftr 4294967295 p) else rawAddress in
      IPv4Address rawAddress
  | UnknownNetworkLayerProtocol => NullAddress
  end.

(** ** Containment *)
Definition contains (ip : IPAddress) (address : QHostAddress) : bool :=
  let p := m_prefixLength ip in
  if negb (bool_decide (protocol address = protocol (m_address ip))) then false
  else if p =? 0 then true
  else
    match protocol (m_address ip) with
    | IPv6Protocol =>
        let a := toIPv6Address (m_address ip) in
        let b := toIPv6Address address in
        let bytes := p / 8 in
        if (0 <? bytes) && negb (memcmp_eq a b (Z.to_nat bytes)) then false
        else if negb (p mod 8 =? 0) then
          let diff := u8 (Z.shiftr (Z.lxor (a !!! Z.to_nat bytes) (b !!! Z.to_nat bytes))
                                   (8 - p mod 8)) in
          diff =? 0
        else true
    | IPv4Protocol =>
        let diff := Z.lxor (toIPv4Address (m_address ip)) (toIPv4Address address) in
        let diff := if p <? 32 then Z.shiftr diff (32 - p) else diff in
        diff =? 0
    | UnknownNetworkLayerProtocol => false
    end.

Definition overlaps (ip other : IPAddress) : bool :=
  if m_prefixLength ip <? m_prefixLength other
  then contains ip (m_address other)
  else contains other (m_address ip).

Definition ip_eqb (ip other : IPAddress) : bool :=
  bool_decide (m_address ip = m_address other)
  && (m_prefixLength ip =? m_prefixLength other).

Definition subnetOf (ip other : IPAddress) : bool :=
  if negb (bool_decide (protocol (m_address other) = protocol (m_address ip))) then false
  else if m_prefixLength ip <? m_prefixLength other then false
  else contains other (m_address ip).

(** ** Subtraction *)
Definition subnets (ip : IPAddress) : list IPAddress :=
  let p := m_prefixLength ip in
  match protocol (m_address ip) with
  | IPv4Protocol =>
      if 32 <=? p then [ip]
      else
        let rawAddress := toIPv4Address (m_address ip) in
        [ mkIPAddress (IPv4Address rawAddress) (p + 1);
          mkIPAddress (IPv4Address (Z.lor rawAddress (Z.shiftr 2147483648 p))) (p + 1) ]
  | _ =>
      if 128 <=? p then [ip]
      else
        let rawAddress := toIPv6Address (m_address ip) in
        [ mkIPAddress (IPv6Address rawAddress) (p + 1);
          mkIPAddress (IPv6Address
            (alter (λ b, Z.lor b (Z.shiftr 128 (p mod 8))) (Z.to_nat (p / 8)) rawAddress))
            (p + 1) ]
  end.

(** The loop of the member function [excludeAddresses(ip)]. [debug] tells a
    build with assertions from a release build, where [Q_ASSERT(false)] does
    nothing and the loop goes on. *)
Fixpoint exclude_loop (debug : bool) (fuel : nat) (ip : IPAddress)
    (sn result : list IPAddress) : Outcome (list IPAddress) :=
  match fuel with
  | O => OutOfFuel
  | S fuel' =>
      match sn with
      | sn0 :: sn1 :: _ =>
          if negb (ip_eqb sn0 ip) && negb (ip_eqb sn1 ip) then
            if subnetOf ip sn0 then
              exclude_loop debug fuel' ip (subnets sn0) (result ++ [sn1])
            else if subnetOf ip sn1 then
              exclude_loop debug fuel' ip (subnets sn1) (result ++ [sn0])
            else if debug then Abort
            else exclude_loop debug fuel' ip sn result
          else if ip_eqb sn0 ip then Ret (result ++ [sn1])
          else if ip_eqb sn1 ip then Ret (result ++ [sn0])
          else Abort
      | _ => Abort
      end
  end.

(** Every iteration lengthens the prefix by one bit, so 129 iterations are
    enough for both families. *)
Definition exclude_fuel : nat := 129.

Definition excludeAddress (debug : bool) (self ip : IPAddress) : Outcome (list IPAddress) :=
  exclude_loop debug exclude_fuel ip (subnets self) [].

(** The inner loop of the static [excludeAddresses(sourceList, excludeList)]. *)
Fixpoint exclude_from_list (debug : bool) (exclude : IPAddress) (results : list IPAddress)
    (newResults : list IPAddress) : Outcome (list IPAddress) :=
  match results with
  | [] => Ret newResults
  | ip :: results' =>
      if negb (overlaps ip exclude) then
        exclude_from_list debug exclude results' (newResults ++ [ip])
      else if subnetOf exclude ip && negb (ip_eqb exclude ip) then
        match excludeAddress debug ip exclude with
        | Ret range => exclude_from_list debug exclude results' (newResults ++ range)
        | Abort => Abort
        | OutOfFuel => OutOfFuel
        end
      else exclude_from_list debug exclude results' newResults
  end.

Fixpoint excludeAddresses (debug : bool) (sourceList excludeList : list IPAddress) :
    Outcome (list IPAddress) :=
  match excludeList with
  | [] => Ret sourceList
  | exclude :: excludeList' =>
      match exclude_from_list debug exclude sourceList [] with
      | Ret newResults => excludeAddresses debug newResults excludeList'
      | Abort => Abort
      | OutOfFuel => OutOfFuel
      end
  end.

(** ** Specification *)

(** Values with an address of one of the two families and a prefix length in
    its range. *)
Definition ip_wf (ip : IPAddress) : Prop :=
  addr_wf (m_address ip) /\
  protocol (m_address ip) <> UnknownNetworkLayerProtocol /\
  0 <= m_prefixLength ip <= Z.of_nat (addr_width (m_address ip)).

(** The network part: the first [m_prefixLength] bits. *)
Definition plen (ip : IPAddress) : nat := Z.to_nat (m_prefixLength ip).
Definition net (ip : IPAddress) : list bool := take (plen ip) (addr_bits (m_address ip)).
Definition width (ip : IPAddress) : nat := addr_width (m_address ip).

(** No host bit is set: what [QHostAddress::parseSubnet] returns. *)
Definition normalised (ip : IPAddress) : Prop :=
  addr_bits (m_address ip) = net ip ++ replicate (width ip - plen ip) false.

(** The set of addresses a prefix stands for. *)
Definition covers (ip : IPAddress) (x : QHostAddress) : Prop :=
  protocol x = protocol (m_address ip) /\ net ip `prefix_of` addr_bits x.

(** The set of addresses a list of prefixes stands for. *)
Definition covered (l : list IPAddress) (x : QHostAddress) : Prop :=
  exists ip, ip ∈ l /\ covers ip x.

Definition disjoint_nets (a b : IPAddress) : Prop :=
  forall x, addr_wf x -> covers a x -> covers b x -> False.

#[export] Instance ip_wf_dec ip : Decision (ip_wf ip).
Proof. unfold ip_wf; apply _. Defined.
#[export] Instance normalised_dec ip : Decision (normalised ip).
Proof. unfold normalised; apply _. Defined.
#[export] Instance covers_dec ip x : Decision (covers ip x).
Proof. unfold covers; apply _. Defined.

(** ** Lemmas *)

Lemma ip_wf_length ip : ip_wf ip -> length (addr_bits (m_address ip)) = width ip.
Proof. intros [Hwf _]. by apply length_addr_bits. Qed.

Lemma ip_wf_plen ip : ip_wf ip -> (plen ip <= width ip)%nat.
Proof. intros (_ & _ & Hp). unfold plen, width. lia. Qed.

Lemma length_net ip : ip_wf ip -> length (net ip) = plen ip.
Proof.
  intros Hwf. unfold net. rewrite length_take, ip_wf_length by done.
  pose proof (ip_wf_plen ip Hwf). lia.
Qed.

(** Agreement of two 32-bit words on a prefix, as [contains] tests it. *)
Lemma contains_v4 a b p :
  0 <= a < 2 ^ 32 -> 0 <= b < 2 ^ 32 -> 0 < p <= 32 ->
  ((if p <? 32 then Z.shiftr (Z.lxor a b) (32 - p) else Z.lxor a b) =? 0) = true <->
  take (Z.to_nat p) (msb_bits 32 a) = take (Z.to_nat p) (msb_bits 32 b).
Proof.
  intros Ha Hb Hp. rewrite <- lxor_shiftr_prefix by (simpl; lia). rewrite Z.eqb_eq.
  destruct (Z.ltb_spec p 32) as [Hlt|Hge].
  - by replace (Z.of_nat (32 - Z.to_nat p)) with (32 - p) by lia.
  - replace p with 32 by lia. by rewrite Z.shiftr_0_r.
Qed.

(** Agreement of two 128-bit addresses on a prefix of [8k+r] bits: the whole
    octets, then the leading bits of the next one. *)
Lemma take_octets_agree (a b : list Z) k r x y :
  Forall is_octet a -> Forall is_octet b -> length a = length b ->
  a !! k = Some x -> b !! k = Some y -> (r <= 8)%nat ->
  take (8 * k + r) (octets_bits a) = take (8 * k + r) (octets_bits b) <->
  take k a = take k b /\ take r (msb_bits 8 x) = take r (msb_bits 8 y).
Proof.
  intros Ha Hb Hlen Hx Hy Hr.
  pose proof (lookup_lt_Some _ _ _ Hx) as Hka. pose proof (lookup_lt_Some _ _ _ Hy) as Hkb.
  rewrite <- (take_drop_middle a k x Hx) at 1. rewrite <- (take_drop_middle b k y Hy) at 1.
  replace (8 * k)%nat with (8 * length (take k a))%nat at 1 by (rewrite length_take; lia).
  replace (8 * k)%nat with (8 * length (take k b))%nat at 1 by (rewrite length_take; lia).
  rewrite !take_octets_bits by done. split.
  - intros E. apply app_inj_1 in E as [E1 E2];
      [|rewrite !length_octets_bits, !length_take; lia].
    split; [|done]. apply octets_bits_inj; auto using Forall_take.
    rewrite !length_take; lia.
  - intros [-> ->]. done.
Qed.

Lemma contains_v6 a b p :
  addr_wf (IPv6Address a) -> addr_wf (IPv6Address b) -> 0 < p <= 128 ->
  (if (0 <? p / 8) && negb (memcmp_eq a b (Z.to_nat (p / 8))) then false
   else if negb (p mod 8 =? 0) then
     u8 (Z.shiftr (Z.lxor (a !!! Z.to_nat (p / 8)) (b !!! Z.to_nat (p / 8))) (8 - p mod 8)) =? 0
   else true) = true <->
  take (Z.to_nat p) (octets_bits a) = take (Z.to_nat p) (octets_bits b).
Proof.
  intros [Hla Ha] [Hlb Hb] Hp.
  pose proof (Z.mod_pos_bound p 8 ltac:(lia)) as Hr.
  pose proof (Z_div_mod_eq_full p 8) as Hdm.
  assert (0 <= p / 8 <= 16) as Hk by (split; [apply Z.div_pos|]; lia).
  assert (Hcmp : (0 <? p / 8) && negb (memcmp_eq a b (Z.to_nat (p / 8))) = false <->
    take (Z.to_nat (p / 8)) a = take (Z.to_nat (p / 8)) b).
  { unfold memcmp_eq. destruct (Z.ltb_spec 0 (p / 8)); simpl.
    - by rewrite negb_false_iff, bool_decide_eq_true.
    - by replace (p / 8) with 0 by lia. }
  destruct (Z.eqb_spec (p mod 8) 0) as [Hr0|Hr0]; simpl.
  - replace (Z.to_nat p) with (8 * Z.to_nat (p / 8))%nat by lia.
    rewrite !take_octets_bits_whole by lia.
    assert (octets_bits (take (Z.to_nat (p / 8)) a) = octets_bits (take (Z.to_nat (p / 8)) b)
            <-> take (Z.to_nat (p / 8)) a = take (Z.to_nat (p / 8)) b) as ->.
    { split; [|congruence]. apply octets_bits_inj; auto using Forall_take.
      rewrite !length_take; lia. }
    rewrite <- Hcmp. by destruct (_ && _).
  - assert (Z.to_nat (p / 8) < 16)%nat as Hk16 by lia.
    destruct (lookup_lt_is_Some_2 a (Z.to_nat (p / 8)) ltac:(lia)) as [x Hx].
    destruct (lookup_lt_is_Some_2 b (Z.to_nat (p / 8)) ltac:(lia)) as [y Hy].
    rewrite !(list_lookup_total_correct _ _ _ Hx), !(list_lookup_total_correct _ _ _ Hy).
    pose proof (Forall_lookup_1 _ _ _ _ Ha Hx) as Hox.
    pose proof (Forall_lookup_1 _ _ _ _ Hb Hy) as Hoy.
    replace (Z.to_nat p) with (8 * Z.to_nat (p / 8) + Z.to_nat (p mod 8))%nat by lia.
    rewrite (take_octets_agree a b _ _ x y) by (auto; lia).
    rewrite <- Hcmp, <- lxor_shiftr_prefix by (auto; lia).
    replace (Z.of_nat (8 - Z.to_nat (p mod 8))) with (8 - p mod 8) by lia.
    assert (u8 (Z.shiftr (Z.lxor x y) (8 - p mod 8)) = Z.shiftr (Z.lxor x y) (8 - p mod 8)) as ->.
    { apply Z.mod_small, shiftr_le_bound; [lia|]. by apply lxor_bound. }
    destruct (_ && _); [by split; [|intros []]|]. rewrite Z.eqb_eq. by split; [|intros []].
Qed.

Lemma prefix_take_iff (p : nat) (l k : list bool) :
  (p <= length l)%nat -> take p l `prefix_of` k <-> take p k = take p l.
Proof.
  intros Hp. split.
  - intros [k' ->]. rewrite take_app_le by (rewrite length_take; lia).
    rewrite take_take. f_equal. lia.
  - intros <-. apply prefix_take.
Qed.

Lemma covers_take ip x :
  ip_wf ip ->
  covers ip x <-> protocol x = protocol (m_address ip) /\
    take (plen ip) (addr_bits (m_address ip)) = take (plen ip) (addr_bits x).
Proof.
  intros Hwf. unfold covers, net. pose proof (ip_wf_plen _ Hwf).
  rewrite prefix_take_iff by (rewrite ip_wf_length; done).
  split; intros [? E]; split; auto.
Qed.

(** [contains] decides membership in the prefix. *)
Lemma contains_covers ip x : ip_wf ip -> addr_wf x -> contains ip x = true <-> covers ip x.
Proof.
  intros Hwf Hx. rewrite (covers_take ip x Hwf).
  destruct Hwf as (Ha & Hu & Hp). unfold contains, plen.
  destruct (bool_decide_reflect (protocol x = protocol (m_address ip))) as [Hpr|Hpr]; simpl;
    [|by split; [|intros []]].
  destruct (Z.eqb_spec (m_prefixLength ip) 0) as [->|Hp0]; [done|].
  destruct (m_address ip) as [|a|a], x as [|b|b];
    cbn [protocol toIPv4Address toIPv6Address addr_bits addr_width] in *; try done.
  - rewrite contains_v4 by (simpl in *; lia). by split; [|intros []].
  - rewrite contains_v6 by (auto; lia). by split; [|intros []].
Qed.

Lemma contains_covers_false ip x :
  ip_wf ip -> addr_wf x -> contains ip x = false <-> ~ covers ip x.
Proof.
  intros Hwf Hx. rewrite <- (contains_covers ip x) by done. by destruct (contains ip x).
Qed.

(** An address of the family agrees with a longer network exactly when it lies
    in it; in particular a prefix covers its own address. *)
Lemma covers_self ip : ip_wf ip -> covers ip (m_address ip).
Proof. intros Hwf. by rewrite covers_take. Qed.

(** Inclusion of the sets of addresses. *)
Lemma covers_mono a b x :
  protocol (m_address a) = protocol (m_address b) -> net b `prefix_of` net a ->
  covers a x -> covers b x.
Proof. intros Hp Hn [H1 H2]. split; [congruence|]. by transitivity (net a). Qed.

Lemma covers_address_iff a b :
  ip_wf a -> ip_wf b -> (plen b <= plen a)%nat ->
  covers b (m_address a) <->
  protocol (m_address a) = protocol (m_address b) /\ net b `prefix_of` net a.
Proof.
  intros Ha Hb Hle. unfold covers. split; intros [Hp H]; split; auto.
  - unfold net in H |- *. pose proof (ip_wf_plen _ Ha). pose proof (ip_wf_plen _ Hb).
    rewrite prefix_take_iff in H |- * by (rewrite ip_wf_length; done).
    rewrite <- H. rewrite take_take. f_equal. lia.
  - transitivity (net a); [done|]. apply prefix_take.
Qed.

Lemma prefix_length_le a b :
  ip_wf a -> ip_wf b -> net b `prefix_of` net a -> (plen b <= plen a)%nat.
Proof. intros Ha Hb H%prefix_length. by rewrite !length_net in H. Qed.

Lemma subnetOf_iff a b :
  ip_wf a -> ip_wf b ->
  subnetOf a b = true <->
  protocol (m_address a) = protocol (m_address b) /\ net b `prefix_of` net a.
Proof.
  intros Ha Hb. unfold subnetOf.
  destruct (bool_decide_reflect (protocol (m_address b) = protocol (m_address a))) as [Hp|Hp];
    simpl; [|split; [done|intros [? _]; congruence]].
  pose proof Ha as (Hwa & _ & Hra). pose proof Hb as (_ & _ & Hrb).
  destruct (Z.ltb_spec (m_prefixLength a) (m_prefixLength b)) as [Hlt|Hge].
  - split; [done|]. intros [_ H%prefix_length_le]; auto. unfold plen in H. lia.
  - rewrite contains_covers, covers_address_iff by (auto; unfold plen; lia). done.
Qed.

Lemma overlaps_iff a b :
  ip_wf a -> ip_wf b ->
  overlaps a b = true <->
  protocol (m_address a) = protocol (m_address b) /\
  (net a `prefix_of` net b \/ net b `prefix_of` net a).
Proof.
  intros Ha Hb. unfold overlaps.
  pose proof Ha as (Hwa & _ & Hra). pose proof Hb as (Hwb & _ & Hrb).
  destruct (Z.ltb_spec (m_prefixLength a) (m_prefixLength b)) as [Hlt|Hge].
  - rewrite contains_covers, covers_address_iff by (auto; unfold plen; lia).
    split; intros [? H]; split; auto. destruct H as [|H%prefix_length_le]; auto.
    unfold plen in H. lia.
  - rewrite contains_covers, covers_address_iff by (auto; unfold plen; lia).
    split; intros [? H]; split; auto. destruct H as [H|]; auto.
    apply prefix_length_le in H as Hl; auto.
    assert (net a = net b) as ->; [|done]. destruct H as [k Hk].
    pose proof (f_equal length Hk) as El. rewrite length_app, !length_net in El by done.
    unfold plen in *. destruct k; [by rewrite app_nil_r in Hk|simpl in El; lia].
Qed.

(** Two networks that share an address are nested. *)
Lemma covers_nested a b x :
  covers a x -> covers b x ->
  protocol (m_address a) = protocol (m_address b) /\
  (net a `prefix_of` net b \/ net b `prefix_of` net a).
Proof.
  intros [Hpa Ha] [Hpb Hb]. split; [congruence|]. by apply prefix_weak_total with (addr_bits x).
Qed.

Lemma overlaps_shared a b :
  ip_wf a -> ip_wf b ->
  overlaps a b = true <-> exists x, addr_wf x /\ covers a x /\ covers b x.
Proof.
  intros Ha Hb. rewrite overlaps_iff by done. split.
  - intros [Hp [H|H]].
    + exists (m_address b). repeat split; try apply Hb; try apply (covers_self b Hb); try done.
      transitivity (net b); [done|]. apply (covers_self b Hb).
    + exists (m_address a). repeat split; try apply Ha; try apply (covers_self a Ha); try done.
      transitivity (net a); [done|]. apply (covers_self a Ha).
  - intros (x & _ & Hxa & Hxb). by apply covers_nested with x.
Qed.

Lemma ip_eqb_eq a b : ip_eqb a b = true <-> a = b.
Proof.
  unfold ip_eqb. rewrite andb_true_iff, bool_decide_eq_true, Z.eqb_eq.
  destruct a, b; simpl. split; [intros [-> ->]; done | by intros [= -> ->]].
Qed.

(** Without host bits, equal networks are equal prefixes. *)
Lemma normalised_inj a b :
  ip_wf a -> ip_wf b -> normalised a -> normalised b ->
  protocol (m_address a) = protocol (m_address b) -> net a = net b -> a = b.
Proof.
  intros Ha Hb Na Nb Hp Hn.
  pose proof Ha as (Hwa & _ & Hra). pose proof Hb as (Hwb & _ & Hrb).
  pose proof (f_equal length Hn) as Hl. rewrite !length_net in Hl by done.
  assert (m_address a = m_address b) as Hab.
  { apply addr_bits_inj; auto. rewrite Na, Nb, Hn, Hl. unfold width.
    by rewrite (addr_width_protocol _ _ Hp). }
  destruct a, b; simpl in *. subst. f_equal. unfold plen in Hl; simpl in Hl. lia.
Qed.

(** ** Halving a prefix *)

Definition good (ip : IPAddress) : Prop := ip_wf ip /\ normalised ip.

(** [s] is the half of [c] whose next bit is [b]. *)
Definition half_of (c : IPAddress) (b : bool) (s : IPAddress) : Prop :=
  good s /\ protocol (m_address s) = protocol (m_address c) /\ net s = net c ++ [b].

Lemma alter_at {A} (f : A -> A) (l : list A) i x :
  l !! i = Some x -> alter f i l = <[i := f x]> l.
Proof.
  revert i; induction l as [|y l IH]; intros [|i]; simpl; try done.
  - by intros [= ->].
  - intros Hi. unfold alter, insert in *. simpl. f_equal. by apply IH.
Qed.

(** The two halves as the code computes them: the same address, and the
    address with the bit after the prefix set. *)
Lemma subnets_bits c :
  ip_wf c -> (plen c < width c)%nat ->
  exists s0 s1, subnets c = [s0; s1] /\
    m_address s0 = m_address c /\
    m_prefixLength s0 = m_prefixLength c + 1 /\ m_prefixLength s1 = m_prefixLength c + 1 /\
    addr_wf (m_address s1) /\ protocol (m_address s1) = protocol (m_address c) /\
    addr_bits (m_address s1) = <[plen c := true]> (addr_bits (m_address c)).
Proof.
  intros (Hwf & Hu & Hp) Hlt. unfold plen, width, subnets in *. destruct c as [h p]; simpl in *.
  destruct h as [|a|a]; cbn [protocol addr_width addr_wf toIPv4Address toIPv6Address] in *;
    [done| |].
  - replace (32 <=? p) with false by lia. eexists _, _. split; [done|].
    cbn [m_address m_prefixLength addr_wf protocol addr_bits].
    do 3 (split; [done|]). split.
    { apply lor_bound; [lia|done|]. apply shiftr_le_bound; lia. }
    split; [done|]. rewrite <- (msb_bits_setbit 32 (Z.to_nat p)) by lia. do 4 f_equal. lia.
  - replace (128 <=? p) with false by lia. eexists _, _. split; [done|].
    cbn [m_address m_prefixLength addr_wf protocol addr_bits].
    destruct Hwf as [Hlen Hoct].
    pose proof (Z.mod_pos_bound p 8 ltac:(lia)) as Hr.
    pose proof (Z_div_mod_eq_full p 8) as Hdm.
    destruct (lookup_lt_is_Some_2 a (Z.to_nat (p / 8)) ltac:(lia)) as [x Hx].
    pose proof (Forall_lookup_1 _ _ _ _ Hoct Hx) as Hox.
    rewrite (alter_at _ _ _ x Hx).
    do 3 (split; [done|]). split.
    { split; [by rewrite length_insert|]. apply Forall_insert; [done|].
      apply lor_bound; [lia|done|]. apply shiftr_le_bound; lia. }
    split; [done|].
    replace (Z.to_nat p) with (8 * Z.to_nat (p / 8) + Z.to_nat (p mod 8))%nat by lia.
    apply (octets_bits_setbit a _ _ x); [done|lia|].
    rewrite <- (msb_bits_setbit 8 (Z.to_nat (p mod 8))) by lia. do 4 f_equal. lia.
Qed.

Lemma normalised_next c :
  ip_wf c -> normalised c -> (plen c < width c)%nat ->
  addr_bits (m_address c) = net c ++ false :: replicate (width c - S (plen c)) false.
Proof.
  intros Hwf Hn Hlt. unfold normalised in Hn. rewrite Hn at 1. f_equal.
  by replace (width c - plen c)%nat with (S (width c - S (plen c)))%nat by lia.
Qed.

Lemma half_intro c b s :
  ip_wf c -> (plen c < width c)%nat ->
  addr_wf (m_address s) -> protocol (m_address s) = protocol (m_address c) ->
  m_prefixLength s = m_prefixLength c + 1 ->
  addr_bits (m_address s) = net c ++ b :: replicate (width c - S (plen c)) false ->
  half_of c b s.
Proof.
  intros Hwf Hlt Hs Hp Hpl Hb. pose proof (length_net c Hwf) as Hln.
  destruct Hwf as (Hwc & Hu & Hr).
  assert (width s = width c) as Hw by (unfold width; by apply addr_width_protocol).
  assert (plen s = S (plen c)) as Hps by (unfold plen; lia).
  assert (net s = net c ++ [b]) as Hn.
  { unfold net at 1. rewrite Hb, Hps.
    replace (S (plen c)) with (length (net c) + 1)%nat by lia.
    by rewrite take_app_add. }
  repeat split; auto.
  - congruence.
  - lia.
  - unfold plen, width in *. lia.
  - unfold normalised. rewrite Hn, Hb, Hw, Hps, <- app_assoc. done.
Qed.

Lemma subnets_halves c :
  good c -> (plen c < width c)%nat ->
  exists s0 s1, subnets c = [s0; s1] /\ half_of c false s0 /\ half_of c true s1.
Proof.
  intros [Hwf Hn] Hlt.
  destruct (subnets_bits c Hwf Hlt) as (s0 & s1 & E & H0 & Hp0 & Hp1 & Hw1 & Hpr1 & Hb1).
  exists s0, s1. split; [done|]. pose proof (normalised_next c Hwf Hn Hlt) as Hnx.
  split; apply half_intro; auto; rewrite ?H0; try apply Hwf; auto.
  rewrite Hb1, Hnx. replace (plen c) with (length (net c) + 0)%nat at 1
    by (rewrite length_net; [lia|done]).
  by rewrite insert_app_r.
Qed.

Lemma half_plen c b s : ip_wf c -> half_of c b s -> plen s = S (plen c).
Proof.
  intros Hc ((Hs & _) & _ & Hn). apply (f_equal length) in Hn.
  rewrite length_app, !length_net in Hn by done. simpl in Hn. lia.
Qed.

Lemma half_width c b s : half_of c b s -> width s = width c.
Proof. intros (_ & Hp & _). by apply addr_width_protocol. Qed.

(** The halves partition the prefix. *)
Lemma halves_cover c s0 s1 x :
  ip_wf c -> (plen c < width c)%nat -> addr_wf x ->
  half_of c false s0 -> half_of c true s1 ->
  covers c x <-> covers s0 x \/ covers s1 x.
Proof.
  intros Hc Hlt Hx (_ & Hp0 & Hn0) (_ & Hp1 & Hn1). split.
  - intros [Hp [k Hk]]. pose proof (f_equal length Hk) as Hl.
    rewrite length_app, length_net, length_addr_bits in Hl by done.
    rewrite (addr_width_protocol _ _ Hp) in Hl. unfold width in Hlt.
    destruct k as [|[] k]; [simpl in Hl; lia|right|left]; (split; [congruence|]);
      rewrite ?Hn0, ?Hn1; exists k; by rewrite <- app_assoc.
  - intros [H|H]; revert H; apply covers_mono; auto; rewrite ?Hn0, ?Hn1; by eexists.
Qed.

Lemma half_sub c b s x : half_of c b s -> covers s x -> covers c x.
Proof. intros (_ & Hp & Hn). apply covers_mono; [done|]. rewrite Hn. by eexists. Qed.

Lemma halves_disjoint c b b' s s' :
  half_of c b s -> half_of c b' s' -> b <> b' -> disjoint_nets s s'.
Proof.
  intros (_ & Hp & Hn) (_ & Hp' & Hn') Hne x _ [_ [k Hk]] [_ [k' Hk']].
  rewrite Hn in Hk. rewrite Hn' in Hk'. rewrite Hk in Hk'.
  rewrite <- !app_assoc in Hk'. apply app_inv_head in Hk'. simpl in Hk'. congruence.
Qed.

(** ** Subtracting one prefix from a larger one *)

(** What the subtraction of [e] from [c] has to return. *)
Definition exact_difference (c e : IPAddress) (l : list IPAddress) : Prop :=
  Forall good l /\ ForallOrdPairs disjoint_nets l /\
  length l = (plen e - plen c)%nat /\
  forall x, addr_wf x -> covered l x <-> covers c x /\ ~ covers e x.

Lemma covered_cons ip l x : covered (ip :: l) x <-> covers ip x \/ covered l x.
Proof.
  unfold covered. split.
  - intros (y & [->|Hy]%elem_of_cons & Hc); eauto.
  - intros [H|(y & Hy & Hc)]; [exists ip | exists y]; split; auto; set_solver.
Qed.

Lemma covered_nil x : covered [] x <-> False.
Proof. unfold covered. split; [intros (? & ?%not_elem_of_nil & _)|]; done. Qed.

Lemma covered_app l k x : covered (l ++ k) x <-> covered l x \/ covered k x.
Proof.
  induction l as [|ip l IH]; simpl; [rewrite covered_nil; tauto|].
  rewrite !covered_cons, IH. tauto.
Qed.

(** The excluded prefix is one of the halves: the other half is left. *)
Lemma difference_base c e s b :
  good c -> good e -> (plen c < width c)%nat -> half_of c b e -> half_of c (negb b) s ->
  exact_difference c e [s].
Proof.
  intros [Hc _] He Hlt Hbe Hbs. split_and!.
  - constructor; [apply Hbs|done].
  - repeat constructor.
  - rewrite (half_plen c b e) by done. simpl. lia.
  - intros x Hwx. rewrite covered_cons, covered_nil. split.
    + intros [Hs|[]]. split; [by eapply half_sub|]. intros Hxe.
      eapply (halves_disjoint c b (negb b) e s); eauto. by destruct b.
    + intros [Hxc Hne]. left.
      destruct b; simpl in *; [rewrite (halves_cover c s e) in Hxc by done|
        rewrite (halves_cover c e s) in Hxc by done]; tauto.
Qed.

(** The excluded prefix lies inside one half: keep the other half and subtract
    from that one. *)
Lemma difference_step c e sb so b l :
  good c -> good e -> (plen c < width c)%nat -> half_of c b sb -> half_of c (negb b) so ->
  net sb `prefix_of` net e -> net sb <> net e ->
  protocol (m_address e) = protocol (m_address c) ->
  exact_difference sb e l -> exact_difference c e (so :: l).
Proof.
  intros [Hc _] [He _] Hlt Hb Ho Hpre Hne Hpr (Hg & Hd & Hl & Hx).
  assert (Hdis : disjoint_nets so sb).
  { eapply (halves_disjoint c); eauto. by destruct b. }
  pose proof Hb as [[Hsb _] [Hpb _]].
  assert (Hsub : forall x, covers e x -> covers sb x).
  { intros x. apply covers_mono; [congruence|done]. }
  split_and!.
  - constructor; [apply Ho|done].
  - constructor; [|done]. apply Forall_forall. intros y Hy x Hwx Hso Hyx.
    apply (Hdis x); auto. apply Hx; [done|]. by exists y.
  - simpl. rewrite Hl. pose proof (half_plen c b sb Hc Hb).
    destruct Hpre as [k Hk]. pose proof (f_equal length Hk) as El.
    rewrite length_app, !length_net in El by done.
    destruct k; [by rewrite app_nil_r in Hk|]. simpl in El. lia.
  - intros x Hwx. rewrite covered_cons, Hx by done. split.
    + intros [H|[H Hn]].
      * split; [exact (half_sub _ _ _ _ Ho H)|]. intros He'. apply (Hdis x); auto.
      * split; [exact (half_sub _ _ _ _ Hb H)|done].
    + intros [Hcx Hnx].
      destruct b; simpl in *; [rewrite (halves_cover c so sb) in Hcx by done|
        rewrite (halves_cover c sb so) in Hcx by done]; tauto.
Qed.

(** The next bit of a strictly longer network chooses the half. *)
Lemma strict_prefix_half c e s0 s1 :
  good c -> good e -> half_of c false s0 -> half_of c true s1 ->
  protocol (m_address e) = protocol (m_address c) ->
  net c `prefix_of` net e -> net c <> net e ->
  exists b : bool, net (if b then s1 else s0) `prefix_of` net e /\
            ~ net (if b then s0 else s1) `prefix_of` net e.
Proof.
  intros Hc He (_ & _ & Hn0) (_ & _ & Hn1) Hpr [k Hk] Hne.
  destruct k as [|b k]; [by rewrite app_nil_r in Hk|].
  exists b. rewrite Hk. destruct b; rewrite Hn0, Hn1; split;
    try (exists k; by rewrite <- app_assoc);
    intros H%prefix_app_inv%prefix_cons_inv_1; done.
Qed.

Lemma exclude_loop_ok debug e c fuel result :
  good c -> good e -> protocol (m_address e) = protocol (m_address c) ->
  net c `prefix_of` net e -> net c <> net e ->
  (plen e - plen c <= fuel)%nat ->
  exists l, exclude_loop debug fuel e (subnets c) result = Ret (result ++ l) /\
            exact_difference c e l.
Proof.
  intros Hc He. revert c result Hc. induction fuel as [|fuel IH];
    intros c result Hc Hpr Hpre Hne Hfuel;
    pose proof Hc as [Hcw Hcn]; pose proof He as [Hew Hen];
    assert (plen c < plen e)%nat as Hlt by
      (destruct Hpre as [[|b k] Hk]; [by rewrite app_nil_r in Hk|];
       apply (f_equal length) in Hk; rewrite length_app, !length_net in Hk by done;
       simpl in Hk; lia); [lia|].
  assert (plen c < width c)%nat as Hltw.
  { pose proof (ip_wf_plen e Hew). unfold width in *.
    rewrite <- (addr_width_protocol _ _ Hpr). lia. }
  destruct (subnets_halves c Hc Hltw) as (s0 & s1 & Es & H0 & H1).
  destruct (strict_prefix_half c e s0 s1 Hc He H0 H1 Hpr Hpre Hne) as (b & Hb & Hnb).
  assert (Hhalf : half_of c b (if b then s1 else s0)) by (by destruct b).
  assert (Hoth : half_of c (negb b) (if b then s0 else s1)) by (by destruct b).
  set (sb := if b then s1 else s0) in *. set (so := if b then s0 else s1) in *.
  destruct Hhalf as [Hsb [Hpsb Hnsb]] eqn:Eh; clear Eh.
  assert (Hneo : so <> e) by (intros ->; apply Hnb; done).
  cbn [exclude_loop]. rewrite Es.
  destruct (decide (sb = e)) as [Heq|Hneq].
  - (* one half is the excluded prefix *)
    exists [so]. split; [|apply (difference_base c e so b); auto; by rewrite <- Heq].
    destruct b; subst sb so; rewrite Heq in *.
    + rewrite (proj2 (ip_eqb_eq e e)) by done. rewrite andb_false_r.
      destruct (ip_eqb s0 e) eqn:E0; [by apply ip_eqb_eq in E0|done].
    + rewrite (proj2 (ip_eqb_eq e e)) by done. done.
  - (* descend *)
    assert (Hns : net sb <> net e).
    { intros E. apply Hneq. apply normalised_inj; auto; try apply Hsb. congruence. }
    pose proof (half_plen c b sb Hcw (conj Hsb (conj Hpsb Hnsb))) as Hps.
    destruct (IH sb (result ++ [so]) Hsb) as (l & El & Hl); auto; [congruence|lia|].
    exists (so :: l). split; [|by eapply (difference_step c e sb so b); eauto].
    assert (Hsub : subnetOf e sb = true) by 
      (apply subnetOf_iff; [done|apply Hsb|split; [congruence|done]]).
    assert (Hnsub : subnetOf e so = false).
    { apply not_true_is_false. rewrite subnetOf_iff; auto; [tauto|apply Hoth]. }
    assert (ip_eqb sb e = false) as E1 by (apply not_true_is_false; by rewrite ip_eqb_eq).
    assert (ip_eqb so e = false) as E2 by (apply not_true_is_false; by rewrite ip_eqb_eq).
    replace (result ++ so :: l) with ((result ++ [so]) ++ l) by (by rewrite <- app_assoc).
    rewrite <- El. destruct b; subst sb so; by rewrite E1, E2, Hsub, ?Hnsub.
Qed.

(** ** Subtracting a list of prefixes *)

Lemma ForallOrdPairs_app_intro {A} (R : A -> A -> Prop) (l k : list A) :
  ForallOrdPairs R l -> ForallOrdPairs R k ->
  (forall x y, x ∈ l -> y ∈ k -> R x y) -> ForallOrdPairs R (l ++ k).
Proof.
  intros Hl Hk. induction Hl as [|x l Hx Hl IH]; intros Hlk; simpl; [done|].
  constructor.
  - apply Forall_app. split; [done|]. apply Forall_forall. intros y Hy.
    apply Hlk; [apply elem_of_cons; auto|done].
  - apply IH. intros a b Ha Hb. apply Hlk; [apply elem_of_cons; auto|done].
Qed.

Lemma excludeAddress_ok debug self ip :
  good self -> good ip -> subnetOf ip self = true -> ip_eqb ip self = false ->
  exists l, excludeAddress debug self ip = Ret l /\ exact_difference self ip l.
Proof.
  intros Hs Hi Hsub Hne. apply subnetOf_iff in Hsub as [Hp Hpre]; [|apply Hi|apply Hs].
  unfold excludeAddress, exclude_fuel.
  destruct (exclude_loop_ok debug ip self 129 []) as (l & El & Hl); auto.
  - intros E. apply not_true_iff_false in Hne. apply Hne, ip_eqb_eq.
    apply normalised_inj; try apply Hi; try apply Hs; auto.
  - pose proof (ip_wf_plen ip (proj1 Hi)). unfold width in *.
    destruct (m_address ip); simpl in *; lia.
  - eauto.
Qed.

(** What subtracting [e] from every member of a list has to return. *)
Definition list_difference (results : list IPAddress) (e : IPAddress) (l : list IPAddress) : Prop :=
  Forall good l /\
  (forall x, addr_wf x -> covered l x <-> covered results x /\ ~ covers e x) /\
  (ForallOrdPairs disjoint_nets results -> ForallOrdPairs disjoint_nets l).

Lemma list_difference_app ip range results l e :
  Forall good range -> ForallOrdPairs disjoint_nets range ->
  (forall x, addr_wf x -> covered range x <-> covers ip x /\ ~ covers e x) ->
  list_difference results e l -> list_difference (ip :: results) e (range ++ l).
Proof.
  intros Hg Hd Hr (Hgl & Hl & Hdl). split_and!.
  - by apply Forall_app.
  - intros x Hx. rewrite covered_app, covered_cons, Hr, Hl by done. tauto.
  - intros Hdr. inversion Hdr as [|? ? Hip Hrest]; subst.
    apply ForallOrdPairs_app_intro; auto. intros a b Ha Hb x Hx Hax Hbx.
    assert (covers ip x) as Hipx by (apply (Hr x Hx); by exists a).
    assert (covered results x) as (r & Hrr & Hrx) by (apply (Hl x Hx); by exists b).
    rewrite Forall_forall in Hip. by apply (Hip r Hrr x).
Qed.

Lemma exclude_from_list_ok debug e results acc :
  good e -> Forall good results ->
  exists l, exclude_from_list debug e results acc = Ret (acc ++ l) /\ list_difference results e l.
Proof.
  intros He Hres. revert acc. induction Hres as [|ip results Hip Hres IH]; intros acc; simpl.
  - exists []. rewrite app_nil_r. split; [done|].
    split_and!; [constructor| |constructor]. intros x _. rewrite !covered_nil. tauto.
  - pose proof Hip as [Hwi _]. pose proof He as [Hwe _].
    destruct (overlaps ip e) eqn:Eo; simpl.
    + destruct (subnetOf e ip) eqn:Es, (ip_eqb e ip) eqn:Eq; simpl.
      * (* the member is the excluded prefix *)
        destruct (IH acc) as (l & -> & Hl). exists l. split; [done|].
        apply ip_eqb_eq in Eq as ->. apply (list_difference_app ip []); auto; [constructor|].
        intros x _. rewrite covered_nil. tauto.
      * destruct (excludeAddress_ok debug ip e) as (range & -> & Hg & Hd & _ & Hr); auto.
        destruct (IH (acc ++ range)) as (l & -> & Hl). exists (range ++ l).
        rewrite app_assoc. split; [done|]. by apply list_difference_app.
      * apply ip_eqb_eq in Eq as ->. apply not_true_iff_false in Es. destruct Es.
        by apply subnetOf_iff.
      * (* the member lies inside the excluded prefix *)
        destruct (IH acc) as (l & -> & Hl). exists l. split; [done|].
        apply (list_difference_app ip []); auto; [constructor|].
        intros x _. rewrite covered_nil. split; [done|]. intros [Hx Hnx]. apply Hnx.
        apply overlaps_iff in Eo as [Hp [Hn|Hn]]; auto.
        -- apply not_true_iff_false in Es. destruct Es. apply subnetOf_iff; auto.
        -- revert Hx. by apply covers_mono.
    + destruct (IH (acc ++ [ip])) as (l & -> & Hl). exists (ip :: l).
      rewrite <- app_assoc. split; [done|].
      apply (list_difference_app ip [ip]); auto; [repeat constructor..|].
      intros x Hx. rewrite covered_cons, covered_nil. split; [|tauto].
      intros [Hc|[]]. split; [done|]. intros Hce. apply not_true_iff_false in Eo.
      apply Eo, overlaps_shared; eauto.
Qed.

Lemma excludeAddresses_ok debug excludes sources :
  Forall good excludes -> Forall good sources ->
  exists l, excludeAddresses debug sources excludes = Ret l /\ Forall good l /\
    (forall x, addr_wf x -> covered l x <-> covered sources x /\ ~ covered excludes x) /\
    (ForallOrdPairs disjoint_nets sources -> ForallOrdPairs disjoint_nets l).
Proof.
  intros Hex. revert sources. induction Hex as [|e excludes He Hex IH]; intros sources Hs; simpl.
  - exists sources. split_and!; auto. intros x _. rewrite covered_nil. tauto.
  - destruct (exclude_from_list_ok debug e sources [] He Hs) as (l & -> & Hg & Hl & Hd).
    cbn [app]. destruct (IH l Hg) as (r & -> & Hgr & Hr & Hdr). exists r. split_and!; auto.
    intros x Hx. rewrite Hr, covered_cons, Hl by done. tauto.
Qed.

(** ** Masks *)

(** Filling an octet array with ones from a bit position on. *)
Lemma memset_from_bits a k :
  length a = 16%nat -> (k <= 16)%nat ->
  octets_bits (memset_from k 255 a) = take (8 * k) (octets_bits a) ++ replicate (128 - 8 * k) true.
Proof.
  intros Hl Hk. unfold memset_from. rewrite octets_bits_app, take_octets_bits_whole by lia.
  f_equal. rewrite (octets_bits_replicate _ _ true) by done. f_equal. lia.
Qed.

Lemma memset_from_partial_bits a k r x y :
  length a = 16%nat -> a !! k = Some x -> (r < 8)%nat ->
  msb_bits 8 y = take r (msb_bits 8 x) ++ replicate (8 - r) true ->
  octets_bits (<[k := y]> (memset_from (S k) 255 a))
  = take (8 * k + r) (octets_bits a) ++ replicate (128 - (8 * k + r)) true.
Proof.
  intros Hl Hx Hr Hy. pose proof (lookup_lt_Some _ _ _ Hx) as Hk. unfold memset_from.
  rewrite (take_S_r _ _ _ Hx), <- app_assoc.
  rewrite insert_app_r_alt by (rewrite length_take; lia).
  rewrite length_take, Nat.min_l, Nat.sub_diag by lia. cbn [app insert list_insert].
  rewrite octets_bits_app, octets_bits_cons, Hy, (octets_bits_replicate _ _ true) by done.
  assert (take (8 * k + r) (octets_bits a)
          = octets_bits (take k a) ++ take r (msb_bits 8 x)) as ->.
  { rewrite <- (take_drop_middle a k x Hx) at 1.
    replace (8 * k)%nat with (8 * length (take k a))%nat by (rewrite length_take; lia).
    apply take_octets_bits. lia. }
  rewrite <- !app_assoc. do 2 f_equal.
  rewrite <- replicate_add. f_equal. lia.
Qed.

Lemma octet_hostmask_bits r :
  (r <= 8)%nat ->
  msb_bits 8 (Z.shiftr 255 (Z.of_nat r)) = replicate r false ++ replicate (8 - r) true.
Proof. apply (msb_bits_ones_shiftr 8). Qed.

Lemma prefix_octet p :
  0 <= p <= 128 -> p mod 8 <> 0 ->
  Z.to_nat ((p + 7) / 8) = S (Z.to_nat (p / 8)) /\ (Z.to_nat (p / 8) < 16)%nat /\
  (Z.to_nat (p mod 8) < 8)%nat /\ p mod 8 = Z.of_nat (Z.to_nat (p mod 8)) /\
  Z.to_nat p = (8 * Z.to_nat (p / 8) + Z.to_nat (p mod 8))%nat.
Proof. intros Hp Hr. Z.div_mod_to_equations. lia. Qed.

Lemma prefix_octet_whole p :
  0 <= p <= 128 -> p mod 8 = 0 ->
  Z.to_nat ((p + 7) / 8) = Z.to_nat (p / 8) /\ (Z.to_nat (p / 8) <= 16)%nat /\
  Z.to_nat p = (8 * Z.to_nat (p / 8))%nat.
Proof. intros Hp Hr. Z.div_mod_to_equations. lia. Qed.

(** Setting all host bits of an IPv6 address, the body of [broadcastAddress]
    and, from the zero address, of [hostmask]. *)
Lemma fill_host_bits a p :
  length a = 16%nat -> 0 <= p <= 128 ->
  octets_bits
    (let raw := memset_from (Z.to_nat ((p + 7) / 8)) 255 a in
     if p mod 8 =? 0 then raw
     else alter (λ b, Z.lor b (Z.shiftr 255 (p mod 8))) (Z.to_nat (p / 8)) raw)
  = take (Z.to_nat p) (octets_bits a) ++ replicate (128 - Z.to_nat p) true.
Proof.
  intros Hl Hp. cbv zeta. destruct (Z.eqb_spec (p mod 8) 0) as [Hr|Hr].
  - destruct (prefix_octet_whole p Hp Hr) as (-> & Hk & ->). by apply memset_from_bits.
  - destruct (prefix_octet p Hp Hr) as (-> & Hk & Hr8 & Er & ->).
    set (k := Z.to_nat (p / 8)) in *. set (r := Z.to_nat (p mod 8)) in *.
    destruct (lookup_lt_is_Some_2 a k ltac:(lia)) as [x Hx].
    rewrite (alter_at _ _ _ x).
    + apply (memset_from_partial_bits _ _ _ x); auto. rewrite Er, msb_bits_lor.
      rewrite octet_hostmask_bits by lia.
      pose proof (zip_orb_ones r (msb_bits 8 x)) as E. rewrite length_msb_bits in E.
      apply E. lia.
    + unfold memset_from. rewrite lookup_app_l by (rewrite length_take; lia).
      by rewrite lookup_take_lt by lia.
Qed.

Lemma hostmask_fill p :
  0 <= p <= 128 ->
  (let raw := memset_from (Z.to_nat ((p + 7) / 8)) 255 (replicate 16 0) in
   if p mod 8 =? 0 then raw
   else <[Z.to_nat (p / 8) := Z.shiftr 255 (p mod 8)]> raw)
  = (let raw := memset_from (Z.to_nat ((p + 7) / 8)) 255 (replicate 16 0) in
     if p mod 8 =? 0 then raw
     else alter (λ b, Z.lor b (Z.shiftr 255 (p mod 8))) (Z.to_nat (p / 8)) raw).
Proof.
  intros Hp. cbv zeta. destruct (Z.eqb_spec (p mod 8) 0) as [Hr|Hr]; [done|].
  destruct (prefix_octet p Hp Hr) as (-> & Hk & _).
  rewrite (alter_at _ _ _ 0); [by rewrite Z.lor_0_l|]. unfold memset_from.
  rewrite lookup_app_l by (rewrite length_take, length_replicate; lia).
  rewrite lookup_take_lt by lia. apply lookup_replicate_2. lia.
Qed.

Lemma broadcast_bits ip :
  ip_wf ip ->
  addr_bits (broadcastAddress ip) = net ip ++ replicate (width ip - plen ip) true.
Proof.
  intros (Hwf & Hu & Hp). unfold broadcastAddress, net, plen, width.
  destruct ip as [[|a|a] p]; cbn [m_address m_prefixLength protocol addr_wf addr_width
    toIPv4Address toIPv6Address addr_bits] in *; [done| |].
  - pose proof (zip_orb_ones (Z.to_nat p) (msb_bits 32 a)) as E. rewrite length_msb_bits in E.
    rewrite <- E by lia. destruct (Z.ltb_spec p 32).
    + rewrite msb_bits_lor, <- (msb_bits_ones_shiftr 32 (Z.to_nat p)) by lia.
      do 3 f_equal. lia.
    + rewrite E by lia. replace (Z.to_nat p) with 32%nat by lia.
      by rewrite take_ge, app_nil_r by (rewrite length_msb_bits; lia).
  - apply fill_host_bits; [apply Hwf|lia].
Qed.

Lemma hostmask_bits ip :
  ip_wf ip ->
  addr_bits (hostmask ip) = replicate (plen ip) false ++ replicate (width ip - plen ip) true.
Proof.
  intros (Hwf & Hu & Hp). unfold hostmask, plen, width.
  destruct ip as [[|a|a] p]; cbn [m_address m_prefixLength protocol addr_wf addr_width] in *;
    [done| |].
  - destruct (Z.ltb_spec p 32); cbn [addr_bits].
    + rewrite <- (msb_bits_ones_shiftr 32 (Z.to_nat p)) by lia. do 2 f_equal. lia.
    + replace (Z.to_nat p) with 32%nat by lia. by rewrite msb_bits_0, app_nil_r.
  - cbn [addr_bits]. cbv zeta. pose proof (hostmask_fill p ltac:(lia)) as E. cbv zeta in E.
    rewrite E. pose proof (fill_host_bits (replicate 16 0) p eq_refl ltac:(lia)) as F.
    cbv zeta in F. rewrite F. f_equal.
    rewrite (octets_bits_replicate 16 0 false), take_replicate by done. f_equal. lia.
Qed.

Lemma netmask_bits ip :
  ip_wf ip ->
  addr_bits (netmask ip) = replicate (plen ip) true ++ replicate (width ip - plen ip) false.
Proof.
  intros (Hwf & Hu & Hp). unfold netmask, plen, width.
  destruct ip as [[|a|a] p]; cbn [m_address m_prefixLength protocol addr_wf addr_width] in *;
    [done| |].
  - cbn [addr_bits]. destruct (Z.ltb_spec p 32).
    + rewrite msb_bits_lxor. replace p with (Z.of_nat (Z.to_nat p)) at 1 by lia.
      change 4294967295 with (Z.ones (Z.of_nat 32)).
      rewrite msb_bits_ones_shiftr, msb_bits_ones by lia.
      pose proof (zip_xorb_ones (Z.to_nat p) (32 - Z.to_nat p)) as E.
      by replace (Z.to_nat p + (32 - Z.to_nat p))%nat with 32%nat in E by lia.
    + replace (Z.to_nat p) with 32%nat by lia. done.
  - cbn [addr_bits]. unfold memset_to. rewrite length_replicate, drop_replicate.
    destruct (Z.eqb_spec (p mod 8) 0) as [Hr|Hr].
    + destruct (prefix_octet_whole p ltac:(lia) Hr) as (_ & Hk & ->).
      rewrite Nat.min_l by lia. rewrite octets_bits_app.
      rewrite (octets_bits_replicate _ 255 true), (octets_bits_replicate _ 0 false) by done.
      do 2 f_equal. lia.
    + destruct (prefix_octet p ltac:(lia) Hr) as (_ & Hk & Hr8 & Er & ->).
      set (k := Z.to_nat (p / 8)) in *. set (r := Z.to_nat (p mod 8)) in *.
      rewrite Nat.min_l by lia.
      replace (16 - k)%nat with (S (15 - k)) by lia. cbn [replicate].
      rewrite insert_app_r_alt by (rewrite length_replicate; lia).
      rewrite length_replicate, Nat.sub_diag. cbn [insert list_insert].
      rewrite octets_bits_app, octets_bits_cons, Er, msb_bits_lxor, octet_hostmask_bits by lia.
      rewrite (octets_bits_replicate _ 255 true), (octets_bits_replicate _ 0 false) by done.
      change 255 with (Z.ones (Z.of_nat 8)). rewrite msb_bits_ones.
      pose proof (zip_xorb_ones r (8 - r)) as E.
      replace (r + (8 - r))%nat with 8%nat in E by lia. rewrite E.
      rewrite replicate_add, <- !app_assoc. do 2 f_equal.
      rewrite <- replicate_add. f_equal. lia.
Qed.

(** ** Parsed prefixes *)

(** What the code relies on of Qt's parsers: the addresses they return fit
    their type, and [parseSubnet] returns a prefix length in range and clears
    the host bits. *)
Class AddressParserLaws `{AddressParser} : Prop := {
  parseHost_wf s : addr_wf (parseHost s);
  parseSubnet_wf s : addr_wf (parseSubnet s).1;
  parseSubnet_net s :
    protocol (parseSubnet s).1 <> UnknownNetworkLayerProtocol ->
    good (mkIPAddress (parseSubnet s).1 (parseSubnet s).2)
}.

Lemma full_prefix_good h :
  addr_wf h -> protocol h <> UnknownNetworkLayerProtocol ->
  good (mkIPAddress h (Z.of_nat (addr_width h))).
Proof.
  intros Hwf Hu. split; [split_and!; simpl; auto; lia|].
  unfold normalised, net, plen, width; simpl.
  rewrite Nat2Z.id, Nat.sub_diag, app_nil_r, take_ge; [done|].
  by rewrite length_addr_bits.
Qed.

Lemma fromString_ok `{AddressParserLaws} s :
  protocol (m_address (fromString s)) <> UnknownNetworkLayerProtocol -> good (fromString s).
Proof.
  unfold fromString. destruct (contains_str s "/").
  - pose proof (parseSubnet_net s) as Hn. destruct (parseSubnet s) as [h n]; simpl in *.
    intros Hu. specialize (Hn Hu). pose proof Hn as [(_ & _ & Hr) _]. simpl in Hr.
    destruct h; simpl in *; [done| |].
    + destruct (Z.leb_spec 32 n); [|done]. by replace 32 with n by lia.
    + destruct (Z.leb_spec 128 n); [|done]. by replace 128 with n by lia.
  - pose proof (parseHost_wf s) as Hw. simpl. intros Hu.
    apply full_prefix_good in Hw; auto. by destruct (parseHost s).
Qed.

(** A parser of dotted-quad addresses: an instance of the two functions on
    which the models can be run. *)
Definition octet_of (s : string) : option Z :=
  n ← unsigned_val s; if n <? 256 then Some n else None.

Definition dotted_quad (s : string) : option Z :=
  match split "." s with
  | [a; b; c; d] =>
      a ← octet_of a; b ← octet_of b; c ← octet_of c; d ← octet_of d;
      Some (((a * 256 + b) * 256 + c) * 256 + d)
  | _ => None
  end.

Definition clear_host_bits (a n : Z) : Z := Z.shiftl (Z.shiftr a (32 - n)) (32 - n).

#[local] Instance ipv4_parser : AddressParser := {
  parseHost s := match dotted_quad s with Some a => IPv4Address a | None => NullAddress end;
  parseSubnet s :=
    match split "/" s with
    | [h; l] =>
        match dotted_quad h, unsigned_val l with
        | Some a, Some n =>
            if (0 <=? n) && (n <=? 32) then (IPv4Address (clear_host_bits a n), n)
            else (NullAddress, -1)
        | _, _ => (NullAddress, -1)
        end
    | _ => (NullAddress, -1)
    end
}.

Lemma digits_val_nonneg s acc n : 0 <= acc -> digits_val s acc = Some n -> 0 <= n.
Proof.
  revert acc; induction s as [|c s IH]; simpl; intros acc Ha H; [by simplify_eq|].
  unfold digit_val in H. destruct (_ && _) eqn:E in H; [|done].
  apply IH in H; [done|]. apply andb_true_iff in E as [E _]. apply Nat.leb_le in E. lia.
Qed.

Lemma octet_of_bound s n : octet_of s = Some n -> 0 <= n < 256.
Proof.
  unfold octet_of, unsigned_val. destruct s; simpl; [done|].
  destruct (match digit_val a with Some d => _ | None => None end) as [m|] eqn:E; simpl; [|done].
  destruct (Z.ltb_spec m 256); [|done]. intros [= <-]. split; [|done].
  destruct (digit_val a) as [d|] eqn:Ed; [|done]. eapply digits_val_nonneg; [|exact E].
  unfold digit_val in Ed. destruct (_ && _) eqn:E' in Ed; [|done]. simplify_eq.
  apply andb_true_iff in E' as [E' _]. apply Nat.leb_le in E'. lia.
Qed.

Lemma dotted_quad_bound s a : dotted_quad s = Some a -> 0 <= a < 2 ^ 32.
Proof.
  unfold dotted_quad. intros H. case_all; try done.
  repeat match goal with
  | H : (octet_of ?x ≫= _) = Some _ |- _ =>
      destruct (octet_of x) eqn:?; simpl in H; [|done]
  end.
  simplify_eq. repeat match goal with H : octet_of _ = _ |- _ => apply octet_of_bound in H end.
  lia.
Qed.

Lemma clear_host_bits_bits a n :
  0 <= n <= 32 ->
  msb_bits 32 (clear_host_bits a n)
  = take (Z.to_nat n) (msb_bits 32 a) ++ replicate (32 - Z.to_nat n) false.
Proof.
  intros Hn. apply list_eq; intros i. destruct (decide (i < 32)%nat) as [Hi|Hi].
  - rewrite lookup_msb_bits by done. unfold clear_host_bits.
    rewrite Z.shiftl_spec by lia. destruct (decide (i < Z.to_nat n)%nat) as [Hin|Hin].
    + rewrite lookup_app_l by (rewrite length_take, length_msb_bits; lia).
      rewrite lookup_take_lt, lookup_msb_bits by lia. f_equal.
      rewrite Z.shiftr_spec by lia. f_equal. lia.
    + rewrite lookup_app_r by (rewrite length_take, length_msb_bits; lia).
      rewrite lookup_replicate_2 by (rewrite length_take, length_msb_bits; lia).
      f_equal. apply Z.testbit_neg_r. lia.
  - rewrite !lookup_ge_None_2;
      rewrite ?length_app, ?length_take, ?length_replicate, ?length_msb_bits; auto with lia.
Qed.

Lemma clear_host_bits_bound a n : 0 <= a < 2 ^ 32 -> 0 <= n <= 32 ->
  0 <= clear_host_bits a n < 2 ^ 32.
Proof.
  intros Ha Hn. unfold clear_host_bits.
  rewrite Z.shiftl_mul_pow2, Z.shiftr_div_pow2 by lia.
  pose proof (Z.mul_div_le a (2 ^ (32 - n)) ltac:(lia)).
  pose proof (Z.div_pos a (2 ^ (32 - n)) ltac:(lia) ltac:(lia)). nia.
Qed.

#[local] Instance ipv4_parser_laws : AddressParserLaws.
Proof.
  split; simpl.
  - intros s. destruct (dotted_quad s) eqn:E; simpl; [|done]. by eapply dotted_quad_bound.
  - intros s. case_all; simpl; try done. breflect.
    apply clear_host_bits_bound; [by eapply dotted_quad_bound|lia].
  - intros s. case_all; simpl; try done. breflect. intros _.
    match goal with H : dotted_quad _ = Some _ |- _ => apply dotted_quad_bound in H end.
    repeat split; cbn [m_address m_prefixLength addr_wf addr_width];
      try apply clear_host_bits_bound; try lia; [done|].
    unfold normalised, net, plen, width; cbn [m_address m_prefixLength addr_bits addr_width].
    rewrite clear_host_bits_bits by lia.
    rewrite take_app_le by (rewrite length_take, length_msb_bits; lia).
    by rewrite take_take, Nat.min_id.
Qed.

(** ** Properties *)

(** [IPAddress::contains] decides, for both address families and every
    prefix length, whether the address has the protocol of the prefix and
    agrees with it on its first [m_prefixLength] bits. *)
Theorem contains_exact ip x :
  ip_wf ip -> addr_wf x ->
  contains ip x = true <->
  protocol x = protocol (m_address ip) /\
  take (plen ip) (addr_bits (m_address ip)) = take (plen ip) (addr_bits x).
Proof. intros Hwf Hx. rewrite contains_covers by done. by apply covers_take. Qed.

Definition v6_ula : QHostAddress := IPv6Address (253 :: 88 :: 186 :: 166 :: replicate 12 0).

Lemma contains_exact_witness :
  contains (mkIPAddress v6_ula 30) (IPv6Address (253 :: 88 :: 186 :: 167 :: replicate 12 7)) = true
  /\ protocol v6_ula = IPv6Protocol.
Proof.
  split; [|reflexivity].
  apply (contains_exact (mkIPAddress v6_ula 30)
           (IPv6Address (253 :: 88 :: 186 :: 167 :: replicate 12 7))).
  - apply (bool_decide_eq_true_1 _). vm_compute. reflexivity.
  - apply (bool_decide_eq_true_1 _). vm_compute. reflexivity.
  - split; vm_compute; reflexivity.
Defined.

(** [overlaps] holds exactly when the two prefixes share an address, and
    then one is a subnet of the other: prefixes nest or are disjoint. *)
Theorem overlaps_exact a b :
  ip_wf a -> ip_wf b ->
  (overlaps a b = true <-> exists x, addr_wf x /\ covers a x /\ covers b x) /\
  overlaps a b = subnetOf a b || subnetOf b a.
Proof.
  intros Ha Hb. split; [by apply overlaps_shared|].
  apply eq_true_iff_eq. rewrite orb_true_iff, overlaps_iff, !subnetOf_iff by done.
  intuition congruence.
Qed.

Definition cidr (a b c d n : Z) : IPAddress :=
  mkIPAddress (IPv4Address (((a * 256 + b) * 256 + c) * 256 + d)) n.

Lemma overlaps_exact_witness :
  overlaps (cidr 10 0 0 0 8) (cidr 10 9 0 0 16)
  = subnetOf (cidr 10 0 0 0 8) (cidr 10 9 0 0 16) || subnetOf (cidr 10 9 0 0 16) (cidr 10 0 0 0 8).
Proof.
  apply (overlaps_exact (cidr 10 0 0 0 8) (cidr 10 9 0 0 16));
    apply (bool_decide_eq_true_1 _); vm_compute; reflexivity.
Defined.

(** The masks have the bits they should: [netmask] ones then zeros,
    [hostmask] its complement, and [broadcastAddress] the network part of the
    address followed by ones, for IPv4 words and IPv6 octet arrays alike. *)
Theorem masks_exact ip :
  ip_wf ip ->
  addr_bits (netmask ip) = replicate (plen ip) true ++ replicate (width ip - plen ip) false /\
  addr_bits (hostmask ip) = replicate (plen ip) false ++ replicate (width ip - plen ip) true /\
  addr_bits (broadcastAddress ip)
  = take (plen ip) (addr_bits (m_address ip)) ++ replicate (width ip - plen ip) true.
Proof.
  intros Hwf. split_and!; [by apply netmask_bits|by apply hostmask_bits|by apply broadcast_bits].
Qed.

Lemma masks_exact_witness :
  addr_bits (netmask (mkIPAddress v6_ula 7)) = replicate 7 true ++ replicate 121 false.
Proof.
  apply (masks_exact (mkIPAddress v6_ula 7)).
  apply (bool_decide_eq_true_1 _). vm_compute. reflexivity.
Defined.

(** [subnets] of a prefix without host bits returns its two halves: both
    one bit longer and without host bits, disjoint, and together covering
    exactly the addresses of the prefix. *)
Theorem subnets_partition c :
  good c -> (plen c < width c)%nat ->
  exists s0 s1, subnets c = [s0; s1] /\ good s0 /\ good s1 /\
    m_prefixLength s0 = m_prefixLength c + 1 /\ m_prefixLength s1 = m_prefixLength c + 1 /\
    disjoint_nets s0 s1 /\
    (forall x, addr_wf x -> covers c x <-> covers s0 x \/ covers s1 x).
Proof.
  intros Hc Hlt. destruct (subnets_halves c Hc Hlt) as (s0 & s1 & E & H0 & H1).
  pose proof (half_plen c _ _ (proj1 Hc) H0) as L0.
  pose proof (half_plen c _ _ (proj1 Hc) H1) as L1.
  pose proof H0 as [[(_ & _ & R0) _] _]. pose proof H1 as [[(_ & _ & R1) _] _].
  pose proof Hc as [(_ & _ & Rc) _]. unfold plen in *.
  exists s0, s1. split_and!; try lia; try apply H0; try apply H1; auto.
  - by apply (halves_disjoint c false true).
  - intros x Hx. apply halves_cover; auto. apply Hc.
Qed.

Lemma subnets_partition_witness :
  exists s0 s1, subnets (cidr 10 0 0 0 8) = [s0; s1] /\ disjoint_nets s0 s1.
Proof.
  destruct (subnets_partition (cidr 10 0 0 0 8)) as (s0 & s1 & H & _ & _ & _ & _ & Hd & _).
  - split; apply (bool_decide_eq_true_1 _); vm_compute; reflexivity.
  - vm_compute. lia.
  - exists s0, s1. split; assumption.
Defined.

(** The member [excludeAddresses(ip)], for prefixes without host bits and
    [ip] a proper subnet, terminates in debug and release builds and returns
    the exact set difference as pairwise disjoint prefixes, one per bit by
    which [ip] is longer. *)
Theorem excludeAddress_exact debug self ip :
  good self -> good ip -> subnetOf ip self = true -> ip_eqb ip self = false ->
  exists l, excludeAddress debug self ip = Ret l /\
    Forall good l /\ ForallOrdPairs disjoint_nets l /\ length l = (plen ip - plen self)%nat /\
    (forall x, addr_wf x -> covered l x <-> covers self x /\ ~ covers ip x).
Proof.
  intros Hs Hi Hsub Hne. destruct (excludeAddress_ok debug self ip) as (l & El & Hl); auto.
  by exists l.
Qed.

Lemma excludeAddress_exact_witness :
  exists l, excludeAddress true (cidr 0 0 0 0 0) (cidr 192 168 0 0 16) = Ret l /\ length l = 16%nat.
Proof.
  destruct (excludeAddress_exact true (cidr 0 0 0 0 0) (cidr 192 168 0 0 16))
    as (l & El & _ & _ & Hl & _).
  - split; apply (bool_decide_eq_true_1 _); vm_compute; reflexivity.
  - split; apply (bool_decide_eq_true_1 _); vm_compute; reflexivity.
  - vm_compute. reflexivity.
  - vm_compute. reflexivity.
  - exists l. split; [exact El|exact Hl].
Defined.

(** C1. The static [excludeAddresses(sourceList, excludeList)] terminates on
    prefixes without host bits and returns prefixes that cover exactly the
    addresses covered by the sources and by no exclusion; disjoint sources give
    disjoint results. *)
Theorem excludeAddresses_exact debug sourceList excludeList :
  Forall good sourceList -> Forall good excludeList ->
  exists l, excludeAddresses debug sourceList excludeList = Ret l /\ Forall good l /\
    (forall x, addr_wf x -> covered l x <-> covered sourceList x /\ ~ covered excludeList x) /\
    (ForallOrdPairs disjoint_nets sourceList -> ForallOrdPairs disjoint_nets l).
Proof. intros Hs He. by apply excludeAddresses_ok. Qed.

Lemma excludeAddresses_exact_witness :
  exists l, excludeAddresses false [cidr 0 0 0 0 0] [cidr 10 0 0 0 8; cidr 192 168 0 0 16] = Ret l
    /\ Forall good l.
Proof.
  destruct (excludeAddresses_exact false [cidr 0 0 0 0 0] [cidr 10 0 0 0 8; cidr 192 168 0 0 16])
    as (l & El & Hg & _).
  - repeat constructor; apply (bool_decide_eq_true_1 _); vm_compute; reflexivity.
  - repeat constructor; apply (bool_decide_eq_true_1 _); vm_compute; reflexivity.
  - exists l. split; [exact El|exact Hg].
Defined.

(** The subtraction needs its exclusion without host bits: for two prefixes
    of one network and different addresses the loop of [excludeAddresses] never
    ends in a release build, whatever the fuel, and fails its assertion in a
    debug build. *)
Theorem exclude_host_bits_diverges self ip fuel :
  ip_wf self -> ip_wf ip -> (plen self < width self)%nat ->
  protocol (m_address ip) = protocol (m_address self) -> net ip = net self ->
  exclude_loop false fuel ip (subnets self) [] = OutOfFuel /\
  (fuel <> 0%nat -> exclude_loop true fuel ip (subnets self) [] = Abort).
Proof.
  intros Hs Hi Hlt Hp Hn.
  destruct (subnets_bits self Hs Hlt) as (s0 & s1 & -> & _ & P0 & P1 & _).
  assert (m_prefixLength ip = m_prefixLength self) as Hpl.
  { apply (f_equal length) in Hn. rewrite !length_net in Hn by done.
    unfold plen in Hn. pose proof Hs as (_ & _ & ?). pose proof Hi as (_ & _ & ?). lia. }
  assert (forall s, m_prefixLength s = m_prefixLength self + 1 -> ip_eqb s ip = false) as Hne.
  { intros s Hps. unfold ip_eqb. rewrite Hps, Hpl.
    replace (_ =? _) with false by lia. apply andb_false_r. }
  assert (forall s, m_prefixLength s = m_prefixLength self + 1 -> subnetOf ip s = false) as Hns.
  { intros s Hps. unfold subnetOf. rewrite Hps, Hpl.
    replace (_ <? _) with true by lia. by destruct (negb _). }
  split.
  - induction fuel as [|fuel IH]; simpl; [done|]. by rewrite !Hne, !Hns.
  - destruct fuel; [done|]. intros _. simpl. by rewrite !Hne, !Hns.
Qed.

Lemma exclude_host_bits_diverges_witness :
  exclude_loop false 1000 (cidr 10 0 0 5 8) (subnets (cidr 10 0 0 0 8)) [] = OutOfFuel.
Proof.
  apply (exclude_host_bits_diverges (cidr 10 0 0 0 8) (cidr 10 0 0 5 8) 1000).
  - apply (bool_decide_eq_true_1 _). vm_compute. reflexivity.
  - apply (bool_decide_eq_true_1 _). vm_compute. reflexivity.
  - vm_compute. lia.
  - reflexivity.
  - vm_compute. reflexivity.
Defined.

(** With Qt's parsers as documented, [IPAddress(text)] yields, whenever the
    text is an address or a subnet, a prefix length in the range of its family
    and no host bits, so the exclusions the daemon parses meet the
    preconditions of the subtraction. *)
Theorem fromString_good `{AddressParserLaws} s :
  protocol (m_address (fromString s)) <> UnknownNetworkLayerProtocol -> good (fromString s).
Proof. apply fromString_ok. Qed.

Lemma fromString_good_witness :
  fromString "10.9.8.7/8" = cidr 10 0 0 0 8 /\ good (fromString "10.9.8.7/8").
Proof.
  split; [vm_compute; reflexivity|]. apply (fromString_good "10.9.8.7/8").
  vm_compute. discriminate.
Defined.
