(* ===== verification/Protocols.v ===== *)
(** * Protocols

    Model of [ProtocolProps] (client/protocols/protocols_defs.h and .cpp): the
    enumerations of VPN protocols and services, their names in the stored
    configuration, and the tables of ports and transports. *)
From Stdlib Require Import ZArith Lia.
From stdpp Require Import base list strings.
From S2P Require Import Prelude QtString.
Local Open Scope string_scope.

Module TransportProto.
Inductive t := Udp | Tcp | TcpAndUdp.
End TransportProto.

Module Proto.
Inductive t :=
  Any | OpenVpn | ShadowSocks | Cloak | WireGuard | Awg | Ikev2 | L2tp | Xray | SSXray
| TorWebSite | Dns | Sftp | Socks5Proxy.
End Proto.

Module ServiceType.
Inductive t := None | Vpn | Other.
End ServiceType.

#[export] Instance TransportProto_eq_dec : EqDecision TransportProto.t.
Proof. solve_decision. Defined.
#[export] Instance Proto_eq_dec : EqDecision Proto.t.
Proof. solve_decision. Defined.
#[export] Instance ServiceType_eq_dec : EqDecision ServiceType.t.
Proof. solve_decision. Defined.

(** ** Enumeration metadata

    [QMetaEnum] lists the enumerators in order of declaration; their values
    count up from 0, so [static_cast<Proto>(i)] is the [i]-th of the list. *)
Definition proto_values : list Proto.t :=
  [ Proto.Any; Proto.OpenVpn; Proto.ShadowSocks; Proto.Cloak; Proto.WireGuard; Proto.Awg;
    Proto.Ikev2; Proto.L2tp; Proto.Xray; Proto.SSXray; Proto.TorWebSite; Proto.Dns;
    Proto.Sftp; Proto.Socks5Proxy ].

Definition proto_key (p : Proto.t) : string :=
  match p with
  | Proto.Any => "Any" | Proto.OpenVpn => "OpenVpn" | Proto.ShadowSocks => "ShadowSocks"
  | Proto.Cloak => "Cloak" | Proto.WireGuard => "WireGuard" | Proto.Awg => "Awg"
  | Proto.Ikev2 => "Ikev2" | Proto.L2tp => "L2tp" | Proto.Xray => "Xray"
  | Proto.SSXray => "SSXray" | Proto.TorWebSite => "TorWebSite" | Proto.Dns => "Dns"
  | Proto.Sftp => "Sftp" | Proto.Socks5Proxy => "Socks5Proxy"
  end.

Definition transport_values : list TransportProto.t :=
  [ TransportProto.Udp; TransportProto.Tcp; TransportProto.TcpAndUdp ].

Definition transport_key (p : TransportProto.t) : string :=
  match p with
  | TransportProto.Udp => "Udp" | TransportProto.Tcp => "Tcp"
  | TransportProto.TcpAndUdp => "TcpAndUdp"
  end.

(** [for (i = 0; i < keyCount; ++i) if (test(cast(i))) return cast(i); return d;] *)
Fixpoint first_match {A} (test : A -> bool) (values : list A) (d : A) : A :=
  match values with
  | [] => d
  | x :: values' => if test x then x else first_match test values' d
  end.

(** ** Names *)
Definition protoToString (p : Proto.t) : string :=
  if bool_decide (p = Proto.Any) then "" else toLower (proto_key p).

Definition protoFromString (proto : string) : Proto.t :=
  first_match (λ p, String.eqb proto (protoToString p)) proto_values Proto.Any.

Definition allProtocols : list Proto.t := proto_values.

Definition transportProtoToString (proto : TransportProto.t) : string :=
  toLower (transport_key proto).

Definition transportProtoFromString (p : string) : TransportProto.t :=
  first_match (λ tp, String.eqb (toLower p) (toLower (transportProtoToString tp)))
    transport_values TransportProto.Udp.

Definition key_proto_config_data (p : Proto.t) : string := protoToString p +:+ "_config_data".
Definition key_proto_config_path (p : Proto.t) : string := protoToString p +:+ "_config_path".

(** ** Tables *)
Definition protocolService (p : Proto.t) : ServiceType.t :=
  match p with
  | Proto.Any => ServiceType.None
  | Proto.SSXray => ServiceType.None
  | Proto.OpenVpn | Proto.Cloak | Proto.ShadowSocks | Proto.WireGuard | Proto.Awg
  | Proto.Ikev2 | Proto.Xray => ServiceType.Vpn
  | Proto.TorWebSite | Proto.Dns | Proto.Sftp | Proto.Socks5Proxy => ServiceType.Other
  | _ => ServiceType.Other
  end.

(** The port constants of [protocols_defs.h], kept as text there. *)
Definition openvpn_defaultPort : string := "1194".
Definition cloak_defaultPort : string := "443".
Definition shadowsocks_defaultPort : string := "6789".
Definition wireguard_defaultPort : string := "51820".
Definition awg_defaultPort : string := "55424".
Definition xray_defaultPort : string := "443".

Definition defaultPort (p : Proto.t) : Z :=
  match p with
  | Proto.Any => -1
  | Proto.OpenVpn => toInt openvpn_defaultPort
  | Proto.Cloak => toInt cloak_defaultPort
  | Proto.ShadowSocks => toInt shadowsocks_defaultPort
  | Proto.WireGuard => toInt wireguard_defaultPort
  | Proto.Awg => toInt awg_defaultPort
  | Proto.Xray => toInt xray_defaultPort
  | Proto.Ikev2 => -1
  | Proto.L2tp => -1
  | Proto.TorWebSite => -1
  | Proto.Dns => 53
  | Proto.Sftp => 222
  | Proto.Socks5Proxy => 38080
  | _ => -1
  end%Z.

(** [random] is the value of [QRandomGenerator::global()->bounded(30000, 50000)]. *)
Definition getPortForInstall (random : Z) (p : Proto.t) : Z :=
  match p with
  | Proto.Awg | Proto.WireGuard | Proto.ShadowSocks | Proto.OpenVpn | Proto.Socks5Proxy => random
  | _ => defaultPort p
  end.

Definition defaultPortChangeable (p : Proto.t) : bool :=
  match p with
  | Proto.Any => false
  | Proto.OpenVpn | Proto.Cloak | Proto.ShadowSocks | Proto.WireGuard | Proto.Awg => true
  | Proto.Ikev2 | Proto.L2tp => false
  | Proto.Xray => true
  | Proto.TorWebSite | Proto.Dns => false
  | Proto.Sftp | Proto.Socks5Proxy => true
  | _ => false
  end.

(** The [switch] has no case for [SSXray] and no default: the function then
    ends without a return statement, which is [None] here. *)
Definition defaultTransportProto (p : Proto.t) : option TransportProto.t :=
  match p with
  | Proto.Any => Some TransportProto.Udp
  | Proto.OpenVpn => Some TransportProto.Udp
  | Proto.Cloak => Some TransportProto.Tcp
  | Proto.ShadowSocks => Some TransportProto.TcpAndUdp
  | Proto.WireGuard => Some TransportProto.Udp
  | Proto.Awg => Some TransportProto.Udp
  | Proto.Ikev2 => Some TransportProto.Udp
  | Proto.L2tp => Some TransportProto.Udp
  | Proto.Xray => Some TransportProto.Tcp
  | Proto.TorWebSite => Some TransportProto.Tcp
  | Proto.Dns => Some TransportProto.Udp
  | Proto.Sftp => Some TransportProto.Tcp
  | Proto.Socks5Proxy => Some TransportProto.Tcp
  | _ => None
  end.

Definition defaultTransportProtoChangeable (p : Proto.t) : bool :=
  match p with
  | Proto.Any => false
  | Proto.OpenVpn => true
  | Proto.Cloak | Proto.ShadowSocks | Proto.WireGuard | Proto.Awg | Proto.Ikev2
  | Proto.L2tp | Proto.Xray => false
  | Proto.TorWebSite | Proto.Dns | Proto.Sftp | Proto.Socks5Proxy => false
  | _ => false
  end.

(** ** Lemmas *)
Lemma proto_values_complete p : p ∈ proto_values.
Proof. apply list_elem_of_In. destruct p; simpl; tauto. Qed.

Lemma protoFromToString p : protoFromString (protoToString p) = p.
Proof. destruct p; vm_compute; reflexivity. Qed.

Lemma transportFromToString p : transportProtoFromString (transportProtoToString p) = p.
Proof. destruct p; vm_compute; reflexivity. Qed.

Lemma toLower_idemp s : toLower (toLower s) = toLower s.
Proof.
  induction s as [|c s IH]; simpl; [done|]. rewrite IH. f_equal.
  unfold char_lower. destruct c as [[] [] [] [] [] [] [] []]; vm_compute; reflexivity.
Qed.

(** The scan returns an enumerator that passes the test, when there is one. *)
Lemma first_match_spec {A} (test : A -> bool) values d :
  (exists x, x ∈ values /\ test x = true) ->
  first_match test values d ∈ values /\ test (first_match test values d) = true.
Proof.
  intros (x & Hx & Ht). induction values as [|y values IH]; [by apply not_elem_of_nil in Hx|].
  simpl. destruct (test y) eqn:E; [split; [by apply elem_of_cons; left|done]|].
  apply elem_of_cons in Hx as [->|Hx]; [congruence|].
  destruct (IH Hx). split; [by apply elem_of_cons; right|done].
Qed.
