(* ===== verification/Containers.v ===== *)
(** * Containers

    Model of [ContainerProps] (client/containers/containers_defs.h and .cpp):
    the server-side Docker containers, their stored names, the protocols each
    of them runs and the platforms that support them; and of
    [VpnProtocol::factory] (client/protocols/vpnprotocol.cpp), the choice of the
    client-side protocol class for a container. *)
From Stdlib Require Import ZArith Lia.
From stdpp Require Import base list strings.
From S2P Require Import Prelude QtString QtContainers Protocols.
Local Open Scope string_scope.

Module DockerContainer.
Inductive t :=
  None | Awg | WireGuard | OpenVpn | Cloak | ShadowSocks | Ipsec | Xray | SSXray
| TorWebSite | Dns | Sftp | Socks5Proxy.
End DockerContainer.

#[export] Instance DockerContainer_eq_dec : EqDecision DockerContainer.t.
Proof. solve_decision. Defined.

Definition container_values : list DockerContainer.t :=
  [ DockerContainer.None; DockerContainer.Awg; DockerContainer.WireGuard;
    DockerContainer.OpenVpn; DockerContainer.Cloak; DockerContainer.ShadowSocks;
    DockerContainer.Ipsec; DockerContainer.Xray; DockerContainer.SSXray;
    DockerContainer.TorWebSite; DockerContainer.Dns; DockerContainer.Sftp;
    DockerContainer.Socks5Proxy ].

Definition container_key (c : DockerContainer.t) : string :=
  match c with
  | DockerContainer.None => "None" | DockerContainer.Awg => "Awg"
  | DockerContainer.WireGuard => "WireGuard" | DockerContainer.OpenVpn => "OpenVpn"
  | DockerContainer.Cloak => "Cloak" | DockerContainer.ShadowSocks => "ShadowSocks"
  | DockerContainer.Ipsec => "Ipsec" | DockerContainer.Xray => "Xray"
  | DockerContainer.SSXray => "SSXray" | DockerContainer.TorWebSite => "TorWebSite"
  | DockerContainer.Dns => "Dns" | DockerContainer.Sftp => "Sftp"
  | DockerContainer.Socks5Proxy => "Socks5Proxy"
  end.

(** ** Names *)
Definition containerToString (c : DockerContainer.t) : string :=
  if bool_decide (c = DockerContainer.None) then "none"
  else if bool_decide (c = DockerContainer.Cloak) then "amnezia-openvpn-cloak"
  else "amnezia-" +:+ toLower (container_key c).

Definition containerFromString (container : string) : DockerContainer.t :=
  first_match (λ c, String.eqb container (containerToString c)) container_values
    DockerContainer.None.

Definition containerTypeToString (c : DockerContainer.t) : string :=
  if bool_decide (c = DockerContainer.None) then "none"
  else if bool_decide (c = DockerContainer.Ipsec) then "ikev2"
  else toLower (container_key c).

Definition allContainers : list DockerContainer.t := container_values.

(** ** Tables *)
Definition defaultProtocol (c : DockerContainer.t) : Proto.t :=
  match c with
  | DockerContainer.None => Proto.Any
  | DockerContainer.OpenVpn => Proto.OpenVpn
  | DockerContainer.Cloak => Proto.Cloak
  | DockerContainer.ShadowSocks => Proto.ShadowSocks
  | DockerContainer.WireGuard => Proto.WireGuard
  | DockerContainer.Awg => Proto.Awg
  | DockerContainer.Xray => Proto.Xray
  | DockerContainer.Ipsec => Proto.Ikev2
  | DockerContainer.SSXray => Proto.SSXray
  | DockerContainer.TorWebSite => Proto.TorWebSite
  | DockerContainer.Dns => Proto.Dns
  | DockerContainer.Sftp => Proto.Sftp
  | DockerContainer.Socks5Proxy => Proto.Socks5Proxy
  end.

Definition protocolsForContainer (container : DockerContainer.t) : list Proto.t :=
  match container with
  | DockerContainer.None => []
  | DockerContainer.OpenVpn => [Proto.OpenVpn]
  | DockerContainer.ShadowSocks => [Proto.OpenVpn; Proto.ShadowSocks]
  | DockerContainer.Cloak => [Proto.OpenVpn; Proto.ShadowSocks; Proto.Cloak]
  | DockerContainer.Ipsec => [Proto.Ikev2]
  | DockerContainer.Xray => [Proto.Xray]
  | DockerContainer.SSXray => [Proto.SSXray]
  | DockerContainer.Dns => [Proto.Dns]
  | DockerContainer.Sftp => [Proto.Sftp]
  | DockerContainer.Socks5Proxy => [Proto.Socks5Proxy]
  | _ => [defaultProtocol container]
  end.

Definition containerService (c : DockerContainer.t) : ServiceType.t :=
  protocolService (defaultProtocol c).

(** The build targets told apart by the preprocessor ([Q_OS_...]). *)
Inductive Platform := Windows | IOS | Mac | Android | Linux | OtherPlatform.

Definition isSupportedByCurrentPlatform (platform : Platform) (c : DockerContainer.t) : bool :=
  match platform with
  | Windows => true
  | IOS =>
      match c with
      | DockerContainer.WireGuard | DockerContainer.OpenVpn | DockerContainer.Awg
      | DockerContainer.Xray | DockerContainer.Cloak | DockerContainer.SSXray => true
      | _ => false
      end
  | Mac =>
      match c with
      | DockerContainer.WireGuard => true
      | DockerContainer.Ipsec => false
      | _ => true
      end
  | Android =>
      match c with
      | DockerContainer.WireGuard | DockerContainer.OpenVpn => true
      | DockerContainer.ShadowSocks => false
      | DockerContainer.Awg | DockerContainer.Cloak | DockerContainer.Xray
      | DockerContainer.SSXray => true
      | _ => false
      end
  | Linux => match c with DockerContainer.Ipsec => false | _ => true end
  | OtherPlatform => false
  end.

Definition fixedPortsForContainer (c : DockerContainer.t) : list string :=
  match c with DockerContainer.Ipsec => ["500"; "4500"] | _ => [] end.

Definition isEasySetupContainer (container : DockerContainer.t) : bool :=
  match container with
  | DockerContainer.WireGuard => true | DockerContainer.Awg => true | _ => false
  end.

Definition easySetupHeader (container : DockerContainer.t) : string :=
  match container with
  | DockerContainer.WireGuard => "Low" | DockerContainer.Awg => "High" | _ => ""
  end.

Definition easySetupOrder (container : DockerContainer.t) : Z :=
  match container with DockerContainer.WireGuard => 3 | DockerContainer.Awg => 2 | _ => 0 end.

Definition isShareable (container : DockerContainer.t) : bool :=
  match container with
  | DockerContainer.TorWebSite | DockerContainer.Dns | DockerContainer.Sftp
  | DockerContainer.Socks5Proxy => false
  | _ => true
  end.

Definition installPageOrder (container : DockerContainer.t) : Z :=
  match container with
  | DockerContainer.OpenVpn => 4
  | DockerContainer.Cloak => 5
  | DockerContainer.ShadowSocks => 6
  | DockerContainer.WireGuard => 2
  | DockerContainer.Awg => 1
  | DockerContainer.Xray => 3
  | DockerContainer.Ipsec => 7
  | DockerContainer.SSXray => 8
  | _ => 0
  end.

(** [fromJson] is [QJsonDocument::fromJson(...).object()]. *)
Definition getProtocolConfigFromContainer (fromJson : string -> QJsonObject)
    (protocol : Proto.t) (containerConfig : QJsonObject) : QJsonObject :=
  let protocolConfigString :=
    toString (value "last_config" (toObject (value (protoToString protocol) containerConfig))) in
  fromJson protocolConfigString.

(** ** The protocol class of a container *)
Inductive ProtocolClass :=
  Ikev2Protocol | OpenVpnProtocol | OpenVpnOverCloakProtocol | ShadowSocksVpnProtocol
| WireguardProtocol | XrayProtocol.

(** [nullptr] is [None]; on the mobile platforms the protocols run elsewhere. *)
Definition factory (platform : Platform) (container : DockerContainer.t) : option ProtocolClass :=
  let desktop := match platform with Windows | Mac | Linux => true | _ => false end in
  match container with
  | DockerContainer.Ipsec =>
      match platform with Windows => Some Ikev2Protocol | _ => None end
  | DockerContainer.OpenVpn => if desktop then Some OpenVpnProtocol else None
  | DockerContainer.Cloak => if desktop then Some OpenVpnOverCloakProtocol else None
  | DockerContainer.ShadowSocks => if desktop then Some ShadowSocksVpnProtocol else None
  | DockerContainer.WireGuard => if desktop then Some WireguardProtocol else None
  | DockerContainer.Awg => if desktop then Some WireguardProtocol else None
  | DockerContainer.Xray => if desktop then Some XrayProtocol else None
  | DockerContainer.SSXray => if desktop then Some XrayProtocol else None
  | _ => None
  end.

(** ** Lemmas *)
Lemma container_values_complete c : c ∈ container_values.
Proof. apply list_elem_of_In. destruct c; simpl; tauto. Qed.

Lemma containerFromToString c : containerFromString (containerToString c) = c.
Proof. destruct c; vm_compute; reflexivity. Qed.

Lemma containerToString_inj c c' : containerToString c = containerToString c' -> c = c'.
Proof. intros E. by rewrite <- (containerFromToString c), E, containerFromToString. Qed.

(** ** Properties *)

(** The stored names decode to what was stored: for every container,
    protocol and transport the parser of names inverts the printer, and a text
    that is no container's name decodes to [None], so an unknown entry of a
    configuration is never mistaken for a real container. *)
Theorem names_roundtrip :
  (forall c, containerFromString (containerToString c) = c) /\
  (forall p, protoFromString (protoToString p) = p) /\
  (forall t, transportProtoFromString (transportProtoToString t) = t) /\
  (forall s, containerFromString s <> DockerContainer.None ->
     containerToString (containerFromString s) = s) /\
  (forall s, protoFromString s <> Proto.Any -> protoToString (protoFromString s) = s).
Proof.
  split_and!; [apply containerFromToString|apply protoFromToString
              |apply transportFromToString| |].
  - intros s. unfold containerFromString. generalize container_values.
    induction l as [|c l IH]; simpl; [done|]. destruct (String.eqb_spec s (containerToString c)); auto.
  - intros s. unfold protoFromString. generalize proto_values.
    induction l as [|c l IH]; simpl; [done|]. destruct (String.eqb_spec s (protoToString c)); auto.
Qed.

(** On the desktop builds, every container the platform claims to support
    and whose service is a VPN (or the Shadowsocks-over-Xray container) has a
    protocol class, its default protocol is one of the protocols it lists, and
    a container without a class is no VPN the platform supports. *)
Theorem factory_covers_supported (platform : Platform) (c : DockerContainer.t) :
  platform ∈ [Windows; Mac; Linux] ->
  isSupportedByCurrentPlatform platform c = true ->
  (factory platform c <> None <->
   containerService c = ServiceType.Vpn \/ c = DockerContainer.SSXray) /\
  (c <> DockerContainer.None -> defaultProtocol c ∈ protocolsForContainer c).
Proof.
  intros Hp Hs. split.
  - rewrite list_elem_of_In in Hp. simpl in Hp.
    destruct Hp as [<-|[<-|[<-|[]]]]; destruct c; vm_compute in Hs |- *;
      try discriminate; split; intros H; try done; try (by left); try (by right);
      by destruct H.
  - intros Hc. rewrite list_elem_of_In. destruct c; simpl; tauto.
Qed.

Lemma factory_covers_supported_witness :
  factory Linux DockerContainer.Cloak = Some OpenVpnOverCloakProtocol /\
  (factory Linux DockerContainer.Cloak <> None <->
   containerService DockerContainer.Cloak = ServiceType.Vpn \/
   DockerContainer.Cloak = DockerContainer.SSXray).
Proof.
  split; [reflexivity|].
  apply (factory_covers_supported Linux DockerContainer.Cloak); [|reflexivity].
  apply list_elem_of_In. simpl. tauto.
Defined.
