(* ===== verification/InterfaceConfig.v ===== *)
(** * The tunnel configuration

    Model of [InterfaceConfig] (client/daemon/interfaceconfig.h and .cpp): the
    record that describes one WireGuard tunnel, its JSON form and the text of
    the configuration file given to the Windows tunnel service. *)
From stdpp Require Import base gmap list strings.
From Stdlib Require Import ZArith Lia QArith Ascii String.
From S2P Require Import Prelude HostAddress QtString IpAddress QtContainers.
Local Open Scope string_scope.
Local Open Scope Z_scope.

Inductive HopType := SingleHop | MultiHopEntry | MultiHopExit.

#[export] Instance HopType_eq_dec : EqDecision HopType.
Proof. solve_decision. Defined.

Definition hop_value (h : HopType) : Z :=
  match h with SingleHop => 0 | MultiHopEntry => 1 | MultiHopExit => 2 end.
Definition hopKey (h : HopType) : string :=
  match h with
  | SingleHop => "SingleHop" | MultiHopEntry => "MultiHopEntry" | MultiHopExit => "MultiHopExit"
  end.

(** The keys of a [QMap<HopType, ...>] are ordered by the enumerators' values. *)
#[export] Instance HopType_key_order : KeyOrder HopType :=
  λ a b, Z.compare (hop_value a) (hop_value b).
#[export] Instance HopType_key_laws : KeyOrderLaws HopType.
Proof.
  split.
  - intros [] []; vm_compute; split; congruence.
  - intros [] []; vm_compute; congruence.
  - intros [] [] []; vm_compute; congruence.
Qed.

Record InterfaceConfig := mkConfig {
  m_hopType : HopType;
  m_privateKey : QString;
  m_deviceIpv4Address : QString;
  m_deviceIpv6Address : QString;
  m_serverIpv4Gateway : QString;
  m_serverIpv6Gateway : QString;
  m_serverPublicKey : QString;
  m_serverIpv4AddrIn : QString;
  m_serverPskKey : QString;
  m_serverIpv6AddrIn : QString;
  m_dnsServer : QString;
  m_serverPort : Z;
  m_deviceMTU : Z;
  m_allowedIPAddressRanges : list IPAddress;
  m_excludedAddresses : list string;
  m_vpnDisabledApps : list string;
  m_killSwitchEnabled : bool;
  m_junkPacketCount : QString;
  m_junkPacketMinSize : QString;
  m_junkPacketMaxSize : QString;
  m_initPacketJunkSize : QString;
  m_responsePacketJunkSize : QString;
  m_initPacketMagicHeader : QString;
  m_responsePacketMagicHeader : QString;
  m_underloadPacketMagicHeader : QString;
  m_transportPacketMagicHeader : QString
}.

(** [InterfaceConfig()]: the constructor leaves the hop type and the kill
    switch uninitialised, so they are arguments here. *)
Definition InterfaceConfig_new (hop : HopType) (killSwitch : bool) : InterfaceConfig :=
  mkConfig hop qnull qnull qnull qnull qnull qnull qnull qnull qnull qnull
    0 1420 [] [] [] killSwitch qnull qnull qnull qnull qnull qnull qnull qnull qnull.

(** ** Text of addresses

    [QHostAddress::toString()] is Qt's. *)
Class AddressPrinter := printHost : QHostAddress -> string.

Definition ip_toString `{AddressPrinter} (ip : IPAddress) : string :=
  printHost (m_address ip) +:+ "/" +:+ number (m_prefixLength ip).

(** ** JSON form *)

(** [QJsonValue(s)] of a [QString]: a null string becomes an empty one. *)
Definition qjson (q : QString) : QJsonValue := JString (qchars q).

Definition range_toJson `{AddressPrinter} (i : IPAddress) : QJsonValue :=
  JObject (jinsert "isIpv6" (JBool (bool_decide (protocol (m_address i) = IPv6Protocol)))
          (jinsert "range" (JInt (m_prefixLength i))
          (jinsert "address" (JString (printHost (m_address i))) []))).

Definition toJson `{AddressPrinter} (c : InterfaceConfig) : QJsonObject :=
  let json := jinsert "hopType" (JString (hopKey (m_hopType c))) [] in
  let json := jinsert "privateKey" (qjson (m_privateKey c)) json in
  let json := jinsert "deviceIpv4Address" (qjson (m_deviceIpv4Address c)) json in
  let json := jinsert "deviceIpv6Address" (qjson (m_deviceIpv6Address c)) json in
  let json := jinsert "serverPublicKey" (qjson (m_serverPublicKey c)) json in
  let json := jinsert "serverPskKey" (qjson (m_serverPskKey c)) json in
  let json := jinsert "serverIpv4AddrIn" (qjson (m_serverIpv4AddrIn c)) json in
  let json := jinsert "serverIpv6AddrIn" (qjson (m_serverIpv6AddrIn c)) json in
  let json := jinsert "serverPort" (JInt (m_serverPort c)) json in
  let json := jinsert "deviceMTU" (JInt (m_deviceMTU c)) json in
  let json :=
    if bool_decide (m_hopType c = MultiHopExit) || bool_decide (m_hopType c = SingleHop) then
      jinsert "dnsServer" (qjson (m_dnsServer c))
      (jinsert "serverIpv6Gateway" (qjson (m_serverIpv6Gateway c))
      (jinsert "serverIpv4Gateway" (qjson (m_serverIpv4Gateway c)) json))
    else json in
  let json := jinsert "allowedIPAddressRanges"
                (JArray (map range_toJson (m_allowedIPAddressRanges c))) json in
  let json := jinsert "excludedAddresses" (JArray (map JString (m_excludedAddresses c))) json in
  let json := jinsert "vpnDisabledApps" (JArray (map JString (m_vpnDisabledApps c))) json in
  json.

(** ** WireGuard configuration file *)
Definition has_newline (q : QString) : bool := contains_str (qchars q) nl.

(** [out << key << " = " << value << "\n"] *)
Definition conf_line (key val : string) : string := key +:+ " = " +:+ val +:+ nl.
(** [if (!q.isNull()) out << key << " = " << q << "\n"] *)
Definition opt_line (key : string) (q : QString) : string :=
  if isNull q then "" else conf_line key (qchars q).

Definition toWgConf `{AddressPrinter} (c : InterfaceConfig) (extra : list (string * string))
    : string :=
  if has_newline (m_privateKey c) then "" else
  if has_newline (m_deviceIpv4Address c) then "" else
  if has_newline (m_deviceIpv6Address c) then "" else
  if has_newline (m_serverIpv4Gateway c) then "" else
  if has_newline (m_serverIpv6Gateway c) then "" else
  if has_newline (m_serverPublicKey c) then "" else
  if has_newline (m_serverIpv4AddrIn c) then "" else
  if has_newline (m_serverIpv6AddrIn c) then "" else
  let content := "[Interface]" +:+ nl in
  let content := content +:+ conf_line "PrivateKey" (qchars (m_privateKey c)) in
  let addresses :=
    app (if isNull (m_deviceIpv4Address c) then [] else [qchars (m_deviceIpv4Address c)])
        (if isNull (m_deviceIpv6Address c) then [] else [qchars (m_deviceIpv6Address c)]) in
  if bool_decide (addresses = []) then "" else
  let content := content +:+ conf_line "Address" (join ", " addresses) in
  let content :=
    content +:+ (if m_deviceMTU c =? 0 then "" else conf_line "MTU" (number (m_deviceMTU c))) in
  let dnsServers :=
    qchars (m_dnsServer c) ::
    (if qs_eqb (m_dnsServer c) (m_serverIpv4Gateway c)
     then [qchars (m_serverIpv6Gateway c)] else []) in
  let content :=
    content +:+
    (if isNull (m_dnsServer c) then "" else conf_line "DNS" (join ", " dnsServers)) in
  let content := content +:+ opt_line "Jc" (m_junkPacketCount c) in
  let content := content +:+ opt_line "JMin" (m_junkPacketMinSize c) in
  let content := content +:+ opt_line "JMax" (m_junkPacketMaxSize c) in
  let content := content +:+ opt_line "S1" (m_initPacketJunkSize c) in
  let content := content +:+ opt_line "S2" (m_responsePacketJunkSize c) in
  let content := content +:+ opt_line "H1" (m_initPacketMagicHeader c) in
  let content := content +:+ opt_line "H2" (m_responsePacketMagicHeader c) in
  let content := content +:+ opt_line "H3" (m_underloadPacketMagicHeader c) in
  let content := content +:+ opt_line "H4" (m_transportPacketMagicHeader c) in
  let content :=
    foldl (λ out kv, out +:+ conf_line kv.1 kv.2) content extra in
  let content := content +:+ nl +:+ "[Peer]" +:+ nl in
  let content := content +:+ conf_line "PublicKey" (qchars (m_serverPublicKey c)) in
  let content :=
    content +:+ conf_line "Endpoint"
                  (qchars (m_serverIpv4AddrIn c) +:+ ":" +:+ number (m_serverPort c)) in
  let content :=
    content +:+ conf_line "AllowedIPs" (join ", " (map ip_toString (m_allowedIPAddressRanges c))) in
  content.

(** ** Specification of the file's lines *)
Definition setting (key val : string) : string := key +:+ " = " +:+ val.
Definition opt_setting (key : string) (q : QString) : list string :=
  if isNull q then [] else [setting key (qchars q)].

Definition device_addresses (c : InterfaceConfig) : list string :=
  map qchars (filter (λ q, isNull q = false) [m_deviceIpv4Address c; m_deviceIpv6Address c]).

Definition wg_lines `{AddressPrinter} (c : InterfaceConfig) (extra : list (string * string))
    : list string :=
  List.concat
    [ ["[Interface]"; setting "PrivateKey" (qchars (m_privateKey c));
       setting "Address" (join ", " (device_addresses c))];
      if m_deviceMTU c =? 0 then [] else [setting "MTU" (number (m_deviceMTU c))];
      if isNull (m_dnsServer c) then []
      else [setting "DNS" (join ", " (qchars (m_dnsServer c) ::
              if qs_eqb (m_dnsServer c) (m_serverIpv4Gateway c)
              then [qchars (m_serverIpv6Gateway c)] else []))];
      opt_setting "Jc" (m_junkPacketCount c); opt_setting "JMin" (m_junkPacketMinSize c);
      opt_setting "JMax" (m_junkPacketMaxSize c); opt_setting "S1" (m_initPacketJunkSize c);
      opt_setting "S2" (m_responsePacketJunkSize c);
      opt_setting "H1" (m_initPacketMagicHeader c);
      opt_setting "H2" (m_responsePacketMagicHeader c);
      opt_setting "H3" (m_underloadPacketMagicHeader c);
      opt_setting "H4" (m_transportPacketMagicHeader c);
      map (λ kv, setting kv.1 kv.2) extra;
      [""; "[Peer]"; setting "PublicKey" (qchars (m_serverPublicKey c));
       setting "Endpoint" (qchars (m_serverIpv4AddrIn c) +:+ ":" +:+ number (m_serverPort c));
       setting "AllowedIPs" (join ", " (map ip_toString (m_allowedIPAddressRanges c)))] ].

(** The values the function prints without checking them. *)
Record unchecked_ok `{AddressPrinter} (c : InterfaceConfig) (extra : list (string * string))
    : Prop := {
  ok_dns : nl_free (qchars (m_dnsServer c));
  ok_awg : Forall (λ q, nl_free (qchars q))
    [ m_junkPacketCount c; m_junkPacketMinSize c; m_junkPacketMaxSize c;
      m_initPacketJunkSize c; m_responsePacketJunkSize c; m_initPacketMagicHeader c;
      m_responsePacketMagicHeader c; m_underloadPacketMagicHeader c;
      m_transportPacketMagicHeader c ];
  ok_extra : Forall (λ kv, nl_free kv.1 /\ nl_free kv.2) extra;
  ok_ranges : Forall (λ ip, nl_free (printHost (m_address ip))) (m_allowedIPAddressRanges c)
}.

(** ** Lemmas on the configuration file *)
Lemma conf_line_unlines key val rest :
  conf_line key val +:+ unlines rest = unlines (setting key val :: rest).
Proof. unfold conf_line, setting. cbn [unlines foldr]. by rewrite !string_app_assoc. Qed.

Lemma opt_line_unlines key q : opt_line key q = unlines (opt_setting key q).
Proof.
  unfold opt_line, opt_setting. destruct (isNull q); [done|].
  rewrite <- conf_line_unlines. symmetry. apply string_app_nil_r.
Qed.

Lemma foldl_extra out extra :
  foldl (λ out kv, out +:+ conf_line kv.1 kv.2) out extra =
  out +:+ unlines (map (λ kv, setting kv.1 kv.2) extra).
Proof.
  revert out; induction extra as [|kv extra IH]; intros out; simpl.
  - by rewrite string_app_nil_r.
  - rewrite IH. rewrite string_app_assoc. f_equal. apply conf_line_unlines.
Qed.

Lemma conf_line_1 key val : conf_line key val = unlines [setting key val].
Proof. rewrite <- conf_line_unlines. symmetry. apply string_app_nil_r. Qed.

Lemma if_unlines (b : bool) key val :
  (if b then "" else conf_line key val) = unlines (if b then [] else [setting key val]).
Proof. destruct b; [done|apply conf_line_1]. Qed.

(** What the checks of the function leave to be printed. *)
Record checked_ok (c : InterfaceConfig) : Prop := {
  ok_privateKey : nl_free (qchars (m_privateKey c));
  ok_deviceIpv4 : nl_free (qchars (m_deviceIpv4Address c));
  ok_deviceIpv6 : nl_free (qchars (m_deviceIpv6Address c));
  ok_gateway6 : nl_free (qchars (m_serverIpv6Gateway c));
  ok_publicKey : nl_free (qchars (m_serverPublicKey c));
  ok_serverIpv4 : nl_free (qchars (m_serverIpv4AddrIn c));
  ok_addresses : device_addresses c <> []
}.

Lemma toWgConf_text `{AddressPrinter} c extra :
  toWgConf c extra <> "" ->
  checked_ok c /\ toWgConf c extra = unlines (wg_lines c extra).
Proof.
  unfold toWgConf, has_newline.
  repeat (match goal with |- context [if contains_str ?s nl then _ else _] =>
            destruct (contains_str s nl) eqn:?; [done|] end).
  case_bool_decide as Ha; [done|]. intros _. split.
  - split; try assumption. unfold device_addresses.
    destruct (m_deviceIpv4Address c), (m_deviceIpv6Address c); by simpl in *.
  - rewrite foldl_extra, !opt_line_unlines, !if_unlines, !conf_line_1.
    change ("[Interface]" +:+ nl) with (unlines ["[Interface]"]).
    change (nl +:+ "[Peer]" +:+ nl) with (unlines [""; "[Peer]"]).
    rewrite <- !unlines_app. unfold wg_lines. f_equal. cbn [List.concat].
    rewrite !app_nil_r, <- !app_assoc. cbn [app]. unfold device_addresses.
    by destruct (m_deviceIpv4Address c), (m_deviceIpv6Address c).
Qed.

(** Proves that a printed setting holds no newline. *)
Ltac nl_setting :=
  unfold compose, setting; rewrite ?nl_free_app; split_and!;
  solve [done | apply number_nl_free | by apply nl_free_join].

Lemma opt_setting_free key q :
  nl_free key -> nl_free (qchars q) -> Forall nl_free (opt_setting key q).
Proof.
  intros Hk Hq. unfold opt_setting, setting. destruct (isNull q); [done|].
  constructor; [|done]. rewrite !nl_free_app. done.
Qed.

Lemma wg_lines_free `{AddressPrinter} c extra :
  checked_ok c -> unchecked_ok c extra -> Forall nl_free (wg_lines c extra).
Proof.
  intros [Hk H4 H6 Hg Hp Hs Ha] [Hdns Hawg Hex Hr]. unfold wg_lines.
  rewrite !Forall_cons in Hawg. destruct Hawg as (?&?&?&?&?&?&?&?&?&_).
  assert (Forall nl_free (device_addresses c)) as Hd.
  { unfold device_addresses.
    destruct (m_deviceIpv4Address c), (m_deviceIpv6Address c); by repeat constructor. }
  assert (Forall nl_free (map ip_toString (m_allowedIPAddressRanges c))) as Hips.
  { apply Forall_map. eapply Forall_impl; [exact Hr|]. intros ip Hip. unfold compose, ip_toString.
    rewrite !nl_free_app. split_and!; [done|done|apply number_nl_free]. }
  assert (Forall nl_free (qchars (m_dnsServer c) ::
            if qs_eqb (m_dnsServer c) (m_serverIpv4Gateway c)
            then [qchars (m_serverIpv6Gateway c)] else [])) as Hds.
  { constructor; [done|]. destruct (qs_eqb _ _); by repeat constructor. }
  apply Forall_concat.
  repeat first [apply Forall_nil_2 | apply Forall_cons_2 | by apply opt_setting_free]; try done;
    try (destruct (_ =? _)); try (destruct (isNull _)); try done;
    repeat first [apply Forall_nil_2 | apply Forall_cons_2]; try nl_setting.
  apply Forall_map. eapply Forall_impl; [exact Hex|]. intros kv [Hkey Hv]. nl_setting.
Qed.

(** ** Properties *)

(** The configuration file has exactly the intended lines. Whenever the
    function does not refuse, its text consists of the settings of the
    specification, one per line in their order: none of the values it checks
    can start a line of its own, provided the values it prints unchecked (the
    DNS server, the AmneziaWG parameters, the extra settings and the printed
    addresses) hold no newline. *)
Theorem toWgConf_lines `{AddressPrinter} (c : InterfaceConfig) (extra : list (string * string)) :
  unchecked_ok c extra ->
  toWgConf c extra <> "" ->
  split nl (toWgConf c extra) = app (wg_lines c extra) [""].
Proof.
  intros Hu Hne. destruct (toWgConf_text c extra Hne) as [Hc ->].
  apply split_unlines. by apply wg_lines_free.
Qed.

(** A configuration for one device and server address, used by the examples. *)
Definition sample_config (dns : string) : InterfaceConfig :=
  mkConfig SingleHop (qstr "cHJpdg==") (qstr "10.8.1.2/32") qnull (qstr "10.8.1.1")
    (qstr "fd00::1") (qstr "cHVi") (qstr "192.0.2.1") qnull qnull (qstr dns) 51820 1376
    [cidr 10 0 0 0 8] [] [] true qnull qnull qnull qnull qnull qnull qnull qnull qnull.

Definition dotted_printer : AddressPrinter := λ a,
  let n := toIPv4Address a in
  number (n / 2 ^ 24) +:+ "." +:+ number (n / 2 ^ 16 mod 256) +:+ "." +:+
  number (n / 2 ^ 8 mod 256) +:+ "." +:+ number (n mod 256).

Lemma toWgConf_lines_witness :
  let _ := dotted_printer in
  split nl (toWgConf (sample_config "10.8.1.1") [("Table", "off")]) =
    app (wg_lines (sample_config "10.8.1.1") [("Table", "off")]) [""] /\
  List.length (wg_lines (sample_config "10.8.1.1") [("Table", "off")]) = 11%nat.
Proof.
  intros printer. split; [|vm_compute; reflexivity].
  apply (toWgConf_lines (sample_config "10.8.1.1") [("Table", "off")]);
    [|vm_compute; discriminate].
  split; [reflexivity| | |]; repeat constructor.
Defined.

(** The DNS server is printed unchecked: a configuration whose DNS server
    carries a newline is accepted and yields a file with a further setting of
    the attacker's choice, here a command that is run when the tunnel starts. *)
Theorem toWgConf_dns_injection `{AddressPrinter} :
  exists c : InterfaceConfig,
    toWgConf c [] <> "" /\
    "PostUp = calc.exe" ∈ split nl (toWgConf c []) /\
    ~ ("PostUp = calc.exe" ∈ wg_lines c []).
Proof.
  exists (mkConfig SingleHop (qstr "k") (qstr "10.8.1.2/32") qnull qnull qnull (qstr "p")
            (qstr "192.0.2.1") qnull qnull (qstr ("1.1.1.1" +:+ nl +:+ "PostUp = calc.exe"))
            51820 1376 [] [] [] true qnull qnull qnull qnull qnull qnull qnull qnull qnull).
  split_and!; [vm_compute; discriminate| |].
  - apply list_elem_of_In. vm_compute. tauto.
  - rewrite list_elem_of_In. vm_compute. intuition discriminate.
Qed.
