(* ===== verification/DaemonConfig.v ===== *)
(** * Parsing the activation request

    Model of [Daemon::parseStringList] and [Daemon::parseConfig]
    (client/daemon/daemon.cpp): the translation of the JSON object that the
    client sends into the daemon's [InterfaceConfig]. *)
From Stdlib Require Import ZArith Lia QArith String Sorted.
From stdpp Require Import base gmap list strings option.
From S2P Require Import Prelude HostAddress QtString IpAddress QtContainers InterfaceConfig.
Local Open Scope string_scope.
Local Open Scope Z_scope.

(** [QMetaEnum::keyToValue] for [HopType] is Qt's; it fails on an unknown key. *)
Class HopKeys := keyToValue : string -> option HopType.
Class HopKeysLaws `{HopKeys} := keyToValue_key : forall h, keyToValue (hopKey h) = Some h.

(** ** Field access

    A function that returns [false] is [None]; every caller then drops the
    half-filled configuration. *)
Definition check (b : bool) : option unit := if b then Some tt else None.

(** [GETVALUE(name, where, String)] *)
Definition getString (obj : QJsonObject) (name : string) : option QString :=
  _ ← check (contains_key name obj);
  let v := value name obj in
  _ ← check (isString v);
  Some (toQString v).

(** [GETVALUE(name, where, Double)], assigned to an [int]. *)
Definition getDouble (obj : QJsonObject) (name : string) : option Z :=
  _ ← check (contains_key name obj);
  let v := value name obj in
  _ ← check (isDouble v);
  Some (double_to_int (toDouble v)).

Fixpoint append_strings (array : list QJsonValue) (out : list string) : option (list string) :=
  match array with
  | [] => Some out
  | i :: array' => _ ← check (isString i); append_strings array' (app out [toString i])
  end.

Definition parseStringList (obj : QJsonObject) (name : string) (out : list string)
    : option (list string) :=
  if contains_key name obj then
    let v := value name obj in
    _ ← check (isArray v);
    append_strings (toArray v) out
  else Some out.

(** ** Allowed ranges *)
Fixpoint append_ranges `{AddressParser} (array : list QJsonValue) (ranges : list IPAddress)
    : option (list IPAddress) :=
  match array with
  | [] => Some ranges
  | i :: array' =>
      _ ← check (isObject i);
      let ipObj := toObject i in
      let address := value "address" ipObj in
      _ ← check (isString address);
      let range := value "range" ipObj in
      _ ← check (isDouble range);
      let isIpv6 := value "isIpv6" ipObj in
      _ ← check (isBool isIpv6);
      append_ranges array'
        (app ranges [mkIPAddress (parseHost (toString address)) (json_toInt range)])
  end.

(** [std::sort] with [a.prefixLength() > b.prefixLength()]: insertion, which
    gives one of the orders the library may return. *)
Fixpoint insert_by_prefix (a : IPAddress) (l : list IPAddress) : list IPAddress :=
  match l with
  | [] => [a]
  | b :: l' => if m_prefixLength a >=? m_prefixLength b then a :: l else b :: insert_by_prefix a l'
  end.
Definition sort_by_prefix (l : list IPAddress) : list IPAddress := foldr insert_by_prefix [] l.

(** [QVariant(s).toBool()] of a string. *)
Definition variant_toBool (s : string) : bool :=
  negb (bool_decide (toLower s ∈ [""; "0"; "false"])).

(** [if (!obj.value(name).isNull()) field = obj.value(name).toString();] *)
Definition optional_field (obj : QJsonObject) (name : string) (field : QString) : QString :=
  if isNullValue (value name obj) then field else toQString (value name obj).

Definition parse_mtu (windows : bool) (obj : QJsonObject) : Z :=
  if negb (contains_key "deviceMTU" obj) || (toInt (toString (value "deviceMTU" obj)) =? 0)
  then 1420
  else
    let m_deviceMTU := toInt (toString (value "deviceMTU" obj)) in
    if windows && (m_deviceMTU <? 1280) then 1280 else m_deviceMTU.

Definition parse_dns (obj : QJsonObject) : option QString :=
  if negb (contains_key "dnsServer" obj) then Some qnull
  else
    let v := value "dnsServer" obj in
    _ ← check (isString v); Some (toQString v).

Definition parse_hop `{HopKeys} (obj : QJsonObject) : option HopType :=
  if negb (contains_key "hopType" obj) then Some SingleHop
  else
    let v := value "hopType" obj in
    _ ← check (isString v); keyToValue (toString v).

Definition parseConfig `{AddressParser} `{HopKeys} (windows : bool) (obj : QJsonObject)
    (config : InterfaceConfig) : option InterfaceConfig :=
  privateKey ← getString obj "privateKey";
  serverPublicKey ← getString obj "serverPublicKey";
  serverPort ← getDouble obj "serverPort";
  let serverPskKey := toQString (value "serverPskKey" obj) in
  let deviceMTU := parse_mtu windows obj in
  let deviceIpv4Address := toQString (value "deviceIpv4Address" obj) in
  let deviceIpv6Address := toQString (value "deviceIpv6Address" obj) in
  _ ← check (negb (isNull deviceIpv4Address && isNull deviceIpv6Address));
  let serverIpv4AddrIn := toQString (value "serverIpv4AddrIn" obj) in
  let serverIpv6AddrIn := toQString (value "serverIpv6AddrIn" obj) in
  _ ← check (negb (isNull serverIpv4AddrIn && isNull serverIpv6AddrIn));
  let serverIpv4Gateway := toQString (value "serverIpv4Gateway" obj) in
  let serverIpv6Gateway := toQString (value "serverIpv6Gateway" obj) in
  dnsServer ← parse_dns obj;
  hopType ← parse_hop obj;
  _ ← check (contains_key "allowedIPAddressRanges" obj);
  let v := value "allowedIPAddressRanges" obj in
  _ ← check (isArray v);
  ranges ← append_ranges (toArray v) (m_allowedIPAddressRanges config);
  let ranges := sort_by_prefix ranges in
  excludedAddresses ← parseStringList obj "excludedAddresses" (m_excludedAddresses config);
  vpnDisabledApps ← parseStringList obj "vpnDisabledApps" (m_vpnDisabledApps config);
  let killSwitchEnabled := variant_toBool (toString (value "killSwitchOption" obj)) in
  Some (mkConfig hopType privateKey deviceIpv4Address deviceIpv6Address serverIpv4Gateway
          serverIpv6Gateway serverPublicKey serverIpv4AddrIn serverPskKey serverIpv6AddrIn
          dnsServer serverPort deviceMTU ranges excludedAddresses vpnDisabledApps
          killSwitchEnabled
          (optional_field obj "Jc" (m_junkPacketCount config))
          (optional_field obj "Jmin" (m_junkPacketMinSize config))
          (optional_field obj "Jmax" (m_junkPacketMaxSize config))
          (optional_field obj "S1" (m_initPacketJunkSize config))
          (optional_field obj "S2" (m_responsePacketJunkSize config))
          (optional_field obj "H1" (m_initPacketMagicHeader config))
          (optional_field obj "H2" (m_responsePacketMagicHeader config))
          (optional_field obj "H3" (m_underloadPacketMagicHeader config))
          (optional_field obj "H4" (m_transportPacketMagicHeader config))).

(** ** Lemmas *)
Lemma check_Some b u : check b = Some u <-> b = true.
Proof. destruct u; unfold check; destruct b; intuition congruence. Qed.

(** The order of the allowed ranges: longest prefix first. *)
Definition prefix_ge (a b : IPAddress) : Prop := m_prefixLength b <= m_prefixLength a.

Lemma insert_by_prefix_perm a l : insert_by_prefix a l ≡ₚ a :: l.
Proof.
  induction l as [|b l IH]; simpl; [done|]. destruct (_ >=? _); [done|].
  rewrite IH. apply Permutation_swap.
Qed.

Lemma sort_by_prefix_perm l : sort_by_prefix l ≡ₚ l.
Proof.
  induction l as [|a l IH]; simpl; [done|]. by rewrite insert_by_prefix_perm, IH.
Qed.

Lemma insert_by_prefix_sorted a l :
  StronglySorted prefix_ge l -> StronglySorted prefix_ge (insert_by_prefix a l).
Proof.
  induction 1 as [|b l Hl IH Hb]; simpl; [by repeat constructor|].
  destruct (_ >=? _) eqn:E; [|].
  - assert (prefix_ge a b) by (unfold prefix_ge; lia).
    constructor; [by constructor|]. constructor; [done|].
    eapply list.Forall_impl; [exact Hb|]. unfold prefix_ge in *. lia.
  - constructor; [done|]. rewrite insert_by_prefix_perm. constructor; [|done].
    unfold prefix_ge. lia.
Qed.

Lemma sort_by_prefix_sorted l : StronglySorted prefix_ge (sort_by_prefix l).
Proof. induction l; simpl; [constructor|by apply insert_by_prefix_sorted]. Qed.

Lemma append_strings_map l acc : append_strings (map JString l) acc = Some (app acc l).
Proof.
  revert acc; induction l as [|s l IH]; intros acc; simpl; [by rewrite app_nil_r|].
  rewrite IH. by rewrite <- app_assoc.
Qed.

(** The range a JSON entry stands for, and the entries that are accepted. *)
Definition entry_range `{AddressParser} (i : QJsonValue) : IPAddress :=
  mkIPAddress (parseHost (toString (value "address" (toObject i))))
              (json_toInt (value "range" (toObject i))).
Definition entry_ok (i : QJsonValue) : Prop :=
  isObject i = true /\ isString (value "address" (toObject i)) = true /\
  isDouble (value "range" (toObject i)) = true /\ isBool (value "isIpv6" (toObject i)) = true.

Lemma append_ranges_spec `{AddressParser} l acc r :
  append_ranges l acc = Some r <-> Forall entry_ok l /\ r = app acc (map entry_range l).
Proof.
  revert acc; induction l as [|i l IH]; intros acc; cbn [append_ranges map].
  - rewrite app_nil_r. split; [by intros [= ->]|by intros [_ ->]].
  - rewrite list.Forall_cons. unfold entry_ok at 1, check.
    destruct (isObject i), (isString (value "address" (toObject i))),
      (isDouble (value "range" (toObject i))), (isBool (value "isIpv6" (toObject i)));
      simpl; try (split; [done|intuition congruence]).
    rewrite IH, <- app_assoc. simpl. intuition.
Qed.

Lemma append_strings_spec l acc r :
  append_strings l acc = Some r <->
  Forall (λ v, isString v = true) l /\ r = app acc (map toString l).
Proof.
  revert acc; induction l as [|i l IH]; intros acc; cbn [append_strings map].
  - rewrite app_nil_r. split; [by intros [= ->]|by intros [_ ->]].
  - rewrite list.Forall_cons. unfold check. destruct (isString i); simpl;
      [|split; [done|intuition congruence]].
    rewrite IH, <- app_assoc. simpl. intuition.
Qed.

Lemma parse_mtu_spec windows obj :
  parse_mtu windows obj <> 0 /\ (windows = true -> 1280 <= parse_mtu windows obj).
Proof.
  unfold parse_mtu. destruct (negb _ || _) eqn:E; [lia|]. breflect.
  destruct windows; simpl; [|split; [done|congruence]].
  destruct (_ <? 1280) eqn:E2; breflect; lia.
Qed.

(** What is left of a configuration after it went through its JSON form:
    null strings become empty; the gateways and the DNS server of an entry hop
    are not written; the MTU is written as a number but read as a string, and
    the kill switch and the AmneziaWG parameters are not written at all. *)
Definition rewritten (q : QString) : QString := qstr (qchars q).
Definition exit_only (c : InterfaceConfig) (q : QString) : QString :=
  match m_hopType c with MultiHopEntry => qnull | _ => rewritten q end.

Definition reparsed (c : InterfaceConfig) : InterfaceConfig :=
  mkConfig (m_hopType c) (rewritten (m_privateKey c)) (rewritten (m_deviceIpv4Address c))
    (rewritten (m_deviceIpv6Address c)) (exit_only c (m_serverIpv4Gateway c))
    (exit_only c (m_serverIpv6Gateway c)) (rewritten (m_serverPublicKey c))
    (rewritten (m_serverIpv4AddrIn c)) (rewritten (m_serverPskKey c))
    (rewritten (m_serverIpv6AddrIn c)) (exit_only c (m_dnsServer c)) (m_serverPort c) 1420
    (sort_by_prefix (m_allowedIPAddressRanges c)) (m_excludedAddresses c) (m_vpnDisabledApps c)
    false qnull qnull qnull qnull qnull qnull qnull qnull qnull.

(** A range that survives printing and parsing. *)
Definition range_printable `{AddressParser} `{AddressPrinter} (ip : IPAddress) : Prop :=
  parseHost (printHost (m_address ip)) = m_address ip /\ - 2 ^ 31 <= m_prefixLength ip < 2 ^ 31.

Lemma append_ranges_toJson `{AddressParser} `{AddressPrinter} l acc :
  Forall range_printable l -> append_ranges (map range_toJson l) acc = Some (app acc l).
Proof.
  intros Hl. apply append_ranges_spec. split.
  - apply Forall_map, Forall_true. intros ip. by repeat split; json_lookup.
  - f_equal. rewrite map_map. symmetry. rewrite <- (map_id l) at 2.
    induction Hl as [|ip l [Hp Hn] Hl IH]; [done|]. simpl map. f_equal; [|done].
    unfold entry_range, range_toJson. cbn [toObject]. json_lookup. cbn [toString].
    rewrite Hp, json_toInt_JInt by done. by destruct ip.
Qed.

Lemma append_strings_toJson l acc : append_strings (map JString l) acc = Some (app acc l).
Proof.
  apply append_strings_spec. split; [by apply Forall_map, Forall_true|].
  f_equal. rewrite map_map. symmetry. apply map_id.
Qed.

(** ** Properties *)

(** C37. What the daemon accepts: a request is parsed only when it names the
    keys as strings and the port as a number (whose integer value is the port of
    the result), a device address and a server address; the MTU of the
    result is never 0 (and on Windows at least 1280); the allowed ranges are
    the entries of the request, each an object with an address, a range and a
    family, ordered by decreasing prefix length; and the result does not depend
    on the fields the constructor leaves uninitialised. *)
Theorem parseConfig_accepts `{AddressParser} `{HopKeys} windows obj hop ks c :
  parseConfig windows obj (InterfaceConfig_new hop ks) = Some c ->
  value "privateKey" obj = JString (qchars (m_privateKey c)) /\
  value "serverPublicKey" obj = JString (qchars (m_serverPublicKey c)) /\
  (exists port, value "serverPort" obj = JDouble port /\ m_serverPort c = double_to_int port) /\
  (isNull (m_deviceIpv4Address c) && isNull (m_deviceIpv6Address c)) = false /\
  (isNull (m_serverIpv4AddrIn c) && isNull (m_serverIpv6AddrIn c)) = false /\
  m_deviceMTU c <> 0 /\ (windows = true -> 1280 <= m_deviceMTU c) /\
  (exists entries, value "allowedIPAddressRanges" obj = JArray entries /\
     Forall entry_ok entries /\
     m_allowedIPAddressRanges c ≡ₚ map entry_range entries) /\
  StronglySorted prefix_ge (m_allowedIPAddressRanges c) /\
  (forall hop' ks', parseConfig windows obj (InterfaceConfig_new hop' ks') = Some c).
Proof.
  intros Hp. assert (forall hop' ks', parseConfig windows obj (InterfaceConfig_new hop' ks') = Some c)
    as Hindep by (intros; exact Hp).
  unfold parseConfig, getString, getDouble in Hp. bind_inv.
  repeat match goal with H : check _ = Some _ |- _ => apply check_Some in H end.
  simplify_eq/=. breflect.
  match goal with H : append_ranges _ _ = Some _ |- _ => apply append_ranges_spec in H as [Hok ->] end.
  destruct (value "privateKey" obj), (value "serverPublicKey" obj), (value "serverPort" obj); try done.
  destruct (value "allowedIPAddressRanges" obj) as [| | | | |entries|]; try done.
  pose proof (parse_mtu_spec windows obj) as [Hmtu Hwin].
  simplify_eq. split_and!; try done; [by eexists| |apply sort_by_prefix_sorted].
  exists entries. split_and!; [done..|apply sort_by_prefix_perm].
Qed.

Definition plain_keys : HopKeys := λ s,
  if String.eqb s "SingleHop" then Some SingleHop
  else if String.eqb s "MultiHopEntry" then Some MultiHopEntry
  else if String.eqb s "MultiHopExit" then Some MultiHopExit else None.

Lemma plain_keys_laws : @HopKeysLaws plain_keys.
Proof. by intros []. Qed.

(** The request the client sends for one IPv4 range and one IPv6 range. *)
Definition sample_request : QJsonObject :=
  let range a n v6 := JObject (jinsert "address" (JString a)
                        (jinsert "range" (JInt n) (jinsert "isIpv6" (JBool v6) []))) in
  jinsert "privateKey" (JString "cHJpdg==") (jinsert "serverPublicKey" (JString "cHVi")
  (jinsert "serverPort" (JInt 51820) (jinsert "deviceIpv4Address" (JString "10.8.1.2")
  (jinsert "serverIpv4AddrIn" (JString "192.0.2.1") (jinsert "deviceMTU" (JString "1000")
  (jinsert "allowedIPAddressRanges"
     (JArray [range "0.0.0.0" 0 false; range "10.0.0.0" 8 false]) [])))))).

Lemma parseConfig_accepts_witness :
  let _ := ipv4_parser in let _ := plain_keys in
  exists c, parseConfig true sample_request (InterfaceConfig_new SingleHop false) = Some c /\
            m_deviceMTU c = 1280 /\ StronglySorted prefix_ge (m_allowedIPAddressRanges c).
Proof.
  intros parser keys.
  destruct (parseConfig true sample_request (InterfaceConfig_new SingleHop false)) as [c|] eqn:E;
    [|vm_compute in E; discriminate].
  exists c. split; [reflexivity|]. split; [vm_compute in E; injection E as <-; reflexivity|].
  pose proof (parseConfig_accepts true sample_request SingleHop false c E). tauto.
Defined.

(** Round trip of the configuration through its JSON form: parsing what
    [toJson] wrote always succeeds and gives back the keys, the addresses, the
    port, the hop type, the excluded addresses and the applications, with the
    allowed ranges sorted; but the MTU comes back as 1420 whatever it was (it is
    written as a number and read as a string), and the kill switch and the
    AmneziaWG parameters come back unset. *)
Theorem parseConfig_toJson `{AddressParser} `{AddressPrinter} `{HopKeysLaws} windows hop ks c :
  Forall range_printable (m_allowedIPAddressRanges c) ->
  parseConfig windows (toJson c) (InterfaceConfig_new hop ks) = Some (reparsed c).
Proof.
  intros Hr. pose proof (append_ranges_toJson _ [] Hr) as Hranges.
  pose proof (append_strings_toJson (m_excludedAddresses c) []) as Hexcl.
  pose proof (append_strings_toJson (m_vpnDisabledApps c) []) as Happs.
  pose proof (double_to_int_inject (m_serverPort c)) as Hport.
  pose proof (keyToValue_key (m_hopType c)) as Hhop. revert Hranges Hexcl Happs Hport Hhop.
  unfold reparsed, exit_only, toJson. clear Hr. destruct c as [[] ? ? ? ? ? ? ? ? ? ?];
    cbv -[append_ranges append_strings map range_toJson sort_by_prefix keyToValue inject_Z
          double_to_int qchars];
    intros -> -> -> -> ->; reflexivity.
Qed.

Lemma parseConfig_toJson_witness :
  let _ := ipv4_parser in let _ := plain_keys in let _ := dotted_printer in
  parseConfig false (toJson (sample_config "1.1.1.1")) (InterfaceConfig_new SingleHop true)
    = Some (reparsed (sample_config "1.1.1.1")).
Proof.
  intros parser keys printer.
  apply (@parseConfig_toJson parser printer keys plain_keys_laws).
  repeat constructor; vm_compute; congruence.
Defined.
