(* ===== verification/WireguardUtils.v ===== *)
(** * The platform behind the daemon

    The interfaces [WireguardUtils], [DnsUtils] and [IPUtils]
    (client/daemon/wireguardutils.h, dnsutils.h, iputils.h) and the virtual hooks
    of [Daemon] as type classes over the state [W] of the machine; a ledger of the
    routes the daemon asked any platform for; what the daemon relies on for the
    interface; and a small simulated machine. *)
From Stdlib Require Import ZArith Lia.
From stdpp Require Import base gmap list strings option.
From S2P Require Import Prelude HostAddress QtString IpAddress InterfaceConfig.
Local Open Scope Z_scope.

Record PeerStatus := mkPeerStatus {
  m_pubkey : string;
  m_handshake : Z;
  m_rxBytes : Z;
  m_txBytes : Z
}.

Inductive Op := Up | Down | Switch.

(** [WireguardUtils]: the tunnel interface, its peers and the routes. *)
Class WireguardUtils (W : Type) := {
  interfaceExists : W -> bool;
  interfaceName : W -> string;
  addInterface : InterfaceConfig -> StateM W bool;
  deleteInterface : StateM W bool;
  updatePeer : InterfaceConfig -> StateM W bool;
  deletePeer : InterfaceConfig -> StateM W bool;
  getPeerStatus : StateM W (list PeerStatus);
  updateRoutePrefix : IPAddress -> StateM W bool;
  deleteRoutePrefix : IPAddress -> StateM W bool;
  wg_addExclusionRoute : IPAddress -> StateM W bool;
  wg_deleteExclusionRoute : IPAddress -> StateM W bool
}.

(** The other utilities and the hooks a platform's daemon overrides;
    [onActivationFailure] is what the platform connects to that signal. *)
Class DaemonPlatform (W : Type) := {
  supportIPUtils : bool;
  addInterfaceIPs : InterfaceConfig -> StateM W bool;
  setMTUAndUp : InterfaceConfig -> StateM W bool;
  supportDnsUtils : bool;
  updateResolvers : string -> list QHostAddress -> StateM W bool;
  restoreResolvers : StateM W bool;
  run : Op -> InterfaceConfig -> StateM W bool;
  prepareActivation : InterfaceConfig -> StateM W unit;
  onActivationFailure : StateM W unit
}.

(** ** What the daemon asked for

    [exclusions] and [routes] are the prefixes whose routes the daemon asked the
    platform for, with success, and has not asked it to remove since. *)
Class NetworkView (W : Type) := {
  exclusions : W -> gset IPAddress;
  routes : W -> gset IPAddress
}.

(** [m] leaves both sets as they are. *)
Definition frames_routes {W A} `{NetworkView W} (m : StateM W A) : Prop :=
  forall w, exclusions (m w).2 = exclusions w /\ routes (m w).2 = routes w.

(** [m] adds [p] to [get w] when it succeeds and changes nothing when it fails. *)
Definition adds {W} (get keep : W -> gset IPAddress) (p : IPAddress) (m : StateM W bool) : Prop :=
  forall w, let '(ok, w') := m w in
    get w' = (if ok then {[p]} ∪ get w else get w) /\ keep w' = keep w.

(** [m] removes [p] from [get w], whether it reports success or not. *)
Definition removes {W} (get keep : W -> gset IPAddress) (p : IPAddress) (m : StateM W bool) : Prop :=
  forall w, let '(_, w') := m w in get w' = get w ∖ {[p]} /\ keep w' = keep w.

Class RequestLaws (W : Type) `{WireguardUtils W} `{DaemonPlatform W} `{NetworkView W} : Prop := {
  addInterface_ok c : frames_routes (addInterface c);
  deleteInterface_ok : frames_routes deleteInterface;
  updatePeer_ok c : frames_routes (updatePeer c);
  deletePeer_ok c : frames_routes (deletePeer c);
  getPeerStatus_ok : frames_routes getPeerStatus;
  updateRoutePrefix_ok p : adds routes exclusions p (updateRoutePrefix p);
  deleteRoutePrefix_ok p : removes routes exclusions p (deleteRoutePrefix p);
  addExclusionRoute_ok p : adds exclusions routes p (wg_addExclusionRoute p);
  deleteExclusionRoute_ok p : removes exclusions routes p (wg_deleteExclusionRoute p);
  addInterfaceIPs_ok c : frames_routes (addInterfaceIPs c);
  setMTUAndUp_ok c : frames_routes (setMTUAndUp c);
  updateResolvers_ok i l : frames_routes (updateResolvers i l);
  restoreResolvers_ok : frames_routes restoreResolvers;
  run_ok op c : frames_routes (run op c);
  prepareActivation_ok c : frames_routes (prepareActivation c);
  onActivationFailure_ok : frames_routes onActivationFailure
}.

(** *** The ledger

    For any platform [W]: the platform, together with the two sets of requests.
    The ledger only notes the calls and their results, so that [RequestLaws] hold
    of it whatever the platform does with a request. In particular [updatePeer]
    may add routes of its own. *)
Record Ledger (W : Type) := mkLedger {
  ledger_machine : W;
  asked_routes : gset IPAddress;
  asked_exclusions : gset IPAddress
}.
Arguments mkLedger {W} _ _ _.
Arguments ledger_machine {W} _.
Arguments asked_routes {W} _.
Arguments asked_exclusions {W} _.

Section Ledger.
Context {W : Type} `{WireguardUtils W} `{DaemonPlatform W}.

Definition on_ledger {A} (m : StateM W A) : StateM (Ledger W) A := λ l,
  let '(a, w) := m (ledger_machine l) in (a, mkLedger w (asked_routes l) (asked_exclusions l)).
(** A request whose result says what becomes of the two sets. *)
Definition note_routes (f : bool -> gset IPAddress -> gset IPAddress) (m : StateM W bool) :
    StateM (Ledger W) bool := λ l,
  let '(ok, w) := m (ledger_machine l) in (ok, mkLedger w (f ok (asked_routes l)) (asked_exclusions l)).
Definition note_exclusions (f : bool -> gset IPAddress -> gset IPAddress) (m : StateM W bool) :
    StateM (Ledger W) bool := λ l,
  let '(ok, w) := m (ledger_machine l) in (ok, mkLedger w (asked_routes l) (f ok (asked_exclusions l))).
Definition granted (p : IPAddress) (ok : bool) (s : gset IPAddress) : gset IPAddress :=
  if ok then {[p]} ∪ s else s.
Definition withdrawn (p : IPAddress) (ok : bool) (s : gset IPAddress) : gset IPAddress := s ∖ {[p]}.

#[export] Instance ledger_wgutils : WireguardUtils (Ledger W) := {
  interfaceExists := λ l, interfaceExists (ledger_machine l);
  interfaceName := λ l, interfaceName (ledger_machine l);
  addInterface := λ c, on_ledger (addInterface c);
  deleteInterface := on_ledger deleteInterface;
  updatePeer := λ c, on_ledger (updatePeer c);
  deletePeer := λ c, on_ledger (deletePeer c);
  getPeerStatus := on_ledger getPeerStatus;
  updateRoutePrefix := λ p, note_routes (granted p) (updateRoutePrefix p);
  deleteRoutePrefix := λ p, note_routes (withdrawn p) (deleteRoutePrefix p);
  wg_addExclusionRoute := λ p, note_exclusions (granted p) (wg_addExclusionRoute p);
  wg_deleteExclusionRoute := λ p, note_exclusions (withdrawn p) (wg_deleteExclusionRoute p)
}.
#[export] Instance ledger_platform : DaemonPlatform (Ledger W) := {
  supportIPUtils := supportIPUtils (W := W);
  addInterfaceIPs := λ c, on_ledger (addInterfaceIPs c);
  setMTUAndUp := λ c, on_ledger (setMTUAndUp c);
  supportDnsUtils := supportDnsUtils (W := W);
  updateResolvers := λ i l, on_ledger (updateResolvers i l);
  restoreResolvers := on_ledger restoreResolvers;
  run := λ op c, on_ledger (run op c);
  prepareActivation := λ c, on_ledger (prepareActivation c);
  onActivationFailure := on_ledger onActivationFailure
}.
#[export] Instance ledger_view : NetworkView (Ledger W) := {
  exclusions := asked_exclusions;
  routes := asked_routes
}.

Lemma on_ledger_frames {A} (m : StateM W A) : frames_routes (on_ledger m).
Proof. intros l. unfold on_ledger. by destruct (m (ledger_machine l)). Qed.

#[export] Instance ledger_laws : RequestLaws (Ledger W).
Proof.
  split; intros; try apply on_ledger_frames; intros l; cbn;
    unfold note_routes, note_exclusions, granted, withdrawn;
    match goal with |- context [?m (ledger_machine l)] => destruct (m (ledger_machine l)) as [[] w] end; done.
Qed.
End Ledger.

(** ** What the interface promises

    A successful [addInterface] leaves it there, a successful [deleteInterface]
    does not, and no other call brings it up or takes it down. *)
Class InterfaceLaws (W : Type) `{WireguardUtils W} `{DaemonPlatform W} : Prop := {
  addInterface_up c w : (addInterface c w).1 = true -> interfaceExists (addInterface c w).2 = true;
  deleteInterface_down w : (deleteInterface w).1 = true ->
    interfaceExists (deleteInterface w).2 = false;
  updatePeer_up c : keeps interfaceExists (updatePeer c);
  deletePeer_up c : keeps interfaceExists (deletePeer c);
  getPeerStatus_up : keeps interfaceExists getPeerStatus;
  updateRoutePrefix_up p : keeps interfaceExists (updateRoutePrefix p);
  deleteRoutePrefix_up p : keeps interfaceExists (deleteRoutePrefix p);
  addExclusionRoute_up p : keeps interfaceExists (wg_addExclusionRoute p);
  deleteExclusionRoute_up p : keeps interfaceExists (wg_deleteExclusionRoute p);
  addInterfaceIPs_up c : keeps interfaceExists (addInterfaceIPs c);
  setMTUAndUp_up c : keeps interfaceExists (setMTUAndUp c);
  updateResolvers_up i l : keeps interfaceExists (updateResolvers i l);
  restoreResolvers_up : keeps interfaceExists restoreResolvers;
  run_up op c : keeps interfaceExists (run op c);
  prepareActivation_up c : keeps interfaceExists (prepareActivation c);
  onActivationFailure_up : keeps interfaceExists onActivationFailure
}.

Lemma on_ledger_up {W} `{WireguardUtils W} {A} (m : StateM W A) :
  keeps interfaceExists m -> keeps interfaceExists (on_ledger m).
Proof. intros Hm l. unfold on_ledger. cbn. specialize (Hm (ledger_machine l)). by destruct (m (ledger_machine l)). Qed.
Lemma note_routes_up {W} `{WireguardUtils W} f (m : StateM W bool) :
  keeps interfaceExists m -> keeps interfaceExists (note_routes f m).
Proof. intros Hm l. unfold note_routes. cbn. specialize (Hm (ledger_machine l)). by destruct (m (ledger_machine l)). Qed.
Lemma note_exclusions_up {W} `{WireguardUtils W} f (m : StateM W bool) :
  keeps interfaceExists m -> keeps interfaceExists (note_exclusions f m).
Proof. intros Hm l. unfold note_exclusions. cbn. specialize (Hm (ledger_machine l)). by destruct (m (ledger_machine l)). Qed.

#[export] Instance ledger_interface {W} `{InterfaceLaws W} : InterfaceLaws (Ledger W).
Proof.
  split; intros; cbn in *.
  1, 2: unfold on_ledger in *.
  - pose proof (addInterface_up c (ledger_machine w)) as Hu. destruct (addInterface c (ledger_machine w)). by apply Hu.
  - pose proof (deleteInterface_down (ledger_machine w)) as Hd. destruct (deleteInterface (ledger_machine w)). by apply Hd.
  - apply on_ledger_up, updatePeer_up.
  - apply on_ledger_up, deletePeer_up.
  - apply on_ledger_up, getPeerStatus_up.
  - apply note_routes_up, updateRoutePrefix_up.
  - apply note_routes_up, deleteRoutePrefix_up.
  - apply note_exclusions_up, addExclusionRoute_up.
  - apply note_exclusions_up, deleteExclusionRoute_up.
  - apply on_ledger_up, addInterfaceIPs_up.
  - apply on_ledger_up, setMTUAndUp_up.
  - apply on_ledger_up, updateResolvers_up.
  - apply on_ledger_up, restoreResolvers_up.
  - apply on_ledger_up, run_up.
  - apply on_ledger_up, prepareActivation_up.
  - apply on_ledger_up, onActivationFailure_up.
Qed.

(** ** A simulated machine

    A machine whose operations succeed, except those on the prefixes in
    [sim_bad] and peers without a public key. *)
Record SimMachine := mkSim {
  sim_up : bool;
  sim_peers : list PeerStatus;
  sim_routes : gset IPAddress;
  sim_exclusions : gset IPAddress;
  sim_resolvers : list QHostAddress;
  sim_bad : gset IPAddress
}.

Definition sim_set_routes (r : gset IPAddress) (w : SimMachine) : SimMachine :=
  mkSim (sim_up w) (sim_peers w) r (sim_exclusions w) (sim_resolvers w) (sim_bad w).
Definition sim_set_exclusions (r : gset IPAddress) (w : SimMachine) : SimMachine :=
  mkSim (sim_up w) (sim_peers w) (sim_routes w) r (sim_resolvers w) (sim_bad w).
Definition sim_set_peers (l : list PeerStatus) (w : SimMachine) : SimMachine :=
  mkSim (sim_up w) l (sim_routes w) (sim_exclusions w) (sim_resolvers w) (sim_bad w).

#[export] Instance sim_wgutils : WireguardUtils SimMachine := {
  interfaceExists := sim_up;
  interfaceName := λ _, "amn0"%string;
  addInterface := λ _ w,
    (true, mkSim true [] (sim_routes w) (sim_exclusions w) (sim_resolvers w) (sim_bad w));
  deleteInterface := λ w,
    (sim_up w, mkSim false [] (sim_routes w) (sim_exclusions w) (sim_resolvers w) (sim_bad w));
  updatePeer := λ c w,
    if isNull (m_serverPublicKey c) then (false, w)
    else (true, sim_set_peers (app (sim_peers w)
                                   [mkPeerStatus (qchars (m_serverPublicKey c)) 0 0 0]) w);
  deletePeer := λ c w,
    (true, sim_set_peers (filter (λ p, m_pubkey p <> qchars (m_serverPublicKey c)) (sim_peers w)) w);
  getPeerStatus := λ w, (sim_peers w, w);
  updateRoutePrefix := λ p w,
    if decide (p ∈ sim_bad w) then (false, w) else (true, sim_set_routes ({[p]} ∪ sim_routes w) w);
  deleteRoutePrefix := λ p w, (true, sim_set_routes (sim_routes w ∖ {[p]}) w);
  wg_addExclusionRoute := λ p w,
    if decide (p ∈ sim_bad w) then (false, w)
    else (true, sim_set_exclusions ({[p]} ∪ sim_exclusions w) w);
  wg_deleteExclusionRoute := λ p w, (true, sim_set_exclusions (sim_exclusions w ∖ {[p]}) w)
}.

#[export] Instance sim_platform : DaemonPlatform SimMachine := {
  supportIPUtils := true;
  addInterfaceIPs := λ _ w, (true, w);
  setMTUAndUp := λ _ w, (true, w);
  supportDnsUtils := true;
  updateResolvers := λ _ l w,
    (true, mkSim (sim_up w) (sim_peers w) (sim_routes w) (sim_exclusions w) l (sim_bad w));
  restoreResolvers := λ w,
    (true, mkSim (sim_up w) (sim_peers w) (sim_routes w) (sim_exclusions w) [] (sim_bad w));
  run := λ _ _ w, (true, w);
  prepareActivation := λ _ w, (tt, w);
  onActivationFailure := λ w, (tt, w)
}.

#[export] Instance sim_interface : InterfaceLaws SimMachine.
Proof. split; intros; try intros ?; cbn in *; try done; by case_match. Qed.

Definition sim_start (bad : gset IPAddress) : SimMachine := mkSim false [] ∅ ∅ [] bad.
