(* ===== verification/Daemon.v ===== *)
(** * The daemon

    Model of [Daemon] (client/daemon/daemon.h and .cpp): the privileged process
    that brings the WireGuard tunnel up and down on request. Its state is the
    map of connections by hop, the reference counts of the exclusion routes, the
    handshake timer, the machine behind it and the signals emitted so far. The
    code's assertions are compiled out in releases; the model keeps the release
    behaviour and the theorems state when they hold. *)
From Stdlib Require Import ZArith Lia.
From stdpp Require Import base gmap list strings option.
From S2P Require Import Prelude HostAddress QtString IpAddress QtContainers InterfaceConfig.
From S2P Require Import WireguardUtils.
Local Open Scope Z_scope.

Record ConnectionState := mkConnection {
  m_date : option Z;             (* milliseconds since the epoch; [None] is an invalid date *)
  m_config : InterfaceConfig
}.
Definition ConnectionState_new (config : InterfaceConfig) : ConnectionState :=
  mkConnection None config.

Inductive Signal :=
| connected (pubkey : string)
| activationFailure
| disconnected
| backendFailure.

Record Daemon (W : Type) := mkDaemon {
  m_connections : list (HopType * ConnectionState);
  m_excludedAddrSet : gmap IPAddress Z;
  m_handshakeTimer : bool;       (* the single-shot timer is running *)
  world : W;
  emitted : list Signal          (* oldest first *)
}.
Arguments mkDaemon {W}.
Arguments m_connections {W}.
Arguments m_excludedAddrSet {W}.
Arguments m_handshakeTimer {W}.
Arguments world {W}.
Arguments emitted {W}.

Section Operations.
Context {W : Type} `{WireguardUtils W} `{DaemonPlatform W} `{AddressParser}.

Abbreviation DaemonM := (StateM (Daemon W)).

Definition set_connections (f : list (HopType * ConnectionState) -> list (HopType * ConnectionState))
    : DaemonM unit :=
  modify (λ d, mkDaemon (f (m_connections d)) (m_excludedAddrSet d) (m_handshakeTimer d)
                 (world d) (emitted d)).
Definition set_excluded (f : gmap IPAddress Z -> gmap IPAddress Z) : DaemonM unit :=
  modify (λ d, mkDaemon (m_connections d) (f (m_excludedAddrSet d)) (m_handshakeTimer d)
                 (world d) (emitted d)).
Definition start_timer : DaemonM unit :=
  modify (λ d, mkDaemon (m_connections d) (m_excludedAddrSet d) true (world d) (emitted d)).
Definition emit_signal (s : Signal) : DaemonM unit :=
  modify (λ d, mkDaemon (m_connections d) (m_excludedAddrSet d) (m_handshakeTimer d) (world d)
                 (app (emitted d) [s])).

(** A call of one of the platform's utilities. *)
Definition on_world {A} (m : StateM W A) : DaemonM A := λ d,
  let '(a, w) := m (world d) in
  (a, mkDaemon (m_connections d) (m_excludedAddrSet d) (m_handshakeTimer d) w (emitted d)).

(** ** Exclusion routes *)
Definition addExclusionRoute (prefix : IPAddress) : DaemonM bool :=
  set <- gets m_excludedAddrSet ;;
  match set !! prefix with
  | Some n => set_excluded (λ m, <[prefix := n + 1]> m) ;; sret true
  | None =>
      ok <- on_world (wg_addExclusionRoute prefix) ;;
      if negb ok then sret false
      else set_excluded (λ m, <[prefix := 1]> m) ;; sret true
  end.

(** [m_excludedAddrSet[prefix]] of an absent key is 0. *)
Definition delExclusionRoute (prefix : IPAddress) : DaemonM bool :=
  set <- gets m_excludedAddrSet ;;
  let n := default 0 (set !! prefix) in
  if 1 <? n then set_excluded (λ m, <[prefix := n - 1]> m) ;; sret true
  else
    set_excluded (λ m, delete prefix m) ;;
    on_world (wg_deleteExclusionRoute prefix).

(** ** Resolvers *)
Definition maybeUpdateResolvers (config : InterfaceConfig) : DaemonM bool :=
  if negb (supportDnsUtils (W := W)) then sret true
  else if bool_decide (m_hopType config = MultiHopExit) || bool_decide (m_hopType config = SingleHop)
  then
    let resolvers :=
      app [parseHost (qchars (m_dnsServer config))]
          (if qs_eqb (m_dnsServer config) (m_serverIpv4Gateway config)
           then [parseHost (qchars (m_serverIpv6Gateway config))] else []) in
    ifname <- gets (λ d, interfaceName (world d)) ;;
    on_world (updateResolvers ifname resolvers)
  else sret true.

Definition restoreDns : DaemonM bool :=
  if supportDnsUtils (W := W) then on_world restoreResolvers else sret true.

(** ** Switching servers *)
Definition supportServerSwitching (d : Daemon W) (config : InterfaceConfig) : bool :=
  match qm_find (m_hopType config) (m_connections d) with
  | None => false
  | Some state =>
      let current := m_config state in
      qs_eqb (m_privateKey current) (m_privateKey config) &&
      qs_eqb (m_deviceIpv4Address current) (m_deviceIpv4Address config) &&
      qs_eqb (m_deviceIpv6Address current) (m_deviceIpv6Address config) &&
      qs_eqb (m_serverIpv4Gateway current) (m_serverIpv4Gateway config) &&
      qs_eqb (m_serverIpv6Gateway current) (m_serverIpv6Gateway config)
  end.

Definition record_connection (config : InterfaceConfig) : DaemonM unit :=
  set_connections (qm_insert (m_hopType config) (ConnectionState_new config)).

(** [lastConfig] is the configuration of the connection being replaced. *)
Definition switchServer_from (lastConfig config : InterfaceConfig) : DaemonM bool :=
  for_each (m_excludedAddresses config) (λ i, addExclusionRoute (fromString i) ;; sret tt) ;;
  ok <- on_world (updatePeer config) ;;
  if negb ok then sret false else
  for_all (m_allowedIPAddressRanges config) (λ ip, on_world (updateRoutePrefix ip)) ;;
  for_each (m_excludedAddresses lastConfig)
    (λ i, delExclusionRoute (fromHostAddress (parseHost i)) ;; sret tt) ;;
  for_each (m_allowedIPAddressRanges lastConfig)
    (λ ip, if existsb (λ x, ip_eqb x ip) (m_allowedIPAddressRanges config) then sret tt
           else on_world (deleteRoutePrefix ip) ;; sret tt) ;;
  ok <- (if negb (qs_eqb (m_serverPublicKey config) (m_serverPublicKey lastConfig))
         then on_world (deletePeer lastConfig) else sret true) ;;
  if negb ok then sret false else
  record_connection config ;;
  sret true.

Definition switchServer (config : InterfaceConfig) : DaemonM bool :=
  connections <- gets m_connections ;;
  match qm_find (m_hopType config) connections with
  | Some state => switchServer_from (m_config state) config
  | None => sret false        (* excluded by the assertion at the call *)
  end.

(** ** Deactivation *)
Definition cleanup_connection (state : ConnectionState) : DaemonM unit :=
  for_each (m_allowedIPAddressRanges (m_config state))
    (λ ip, on_world (deleteRoutePrefix ip) ;; sret tt) ;;
  on_world (deletePeer (m_config state)) ;;
  sret tt.

Definition drop_exclusions : DaemonM unit :=
  set <- gets m_excludedAddrSet ;;
  for_each (map_to_list set) (λ kv, on_world (wg_deleteExclusionRoute kv.1) ;; sret tt) ;;
  set_excluded (λ _, ∅).

Definition deactivate (emitSignals : bool) : DaemonM bool :=
  connections <- gets m_connections ;;
  ok <- (match connections with
         | [] => sret true
         | (_, state) :: _ => on_world (run Down (m_config state))
         end) ;;
  if negb ok then sret false else
  (if emitSignals then emit_signal disconnected else sret tt) ;;
  ok <- restoreDns ;;
  if negb ok then sret false else
  up <- gets (λ d, interfaceExists (world d)) ;;
  if negb up then sret false else
  for_each connections (λ kv, cleanup_connection kv.2) ;;
  drop_exclusions ;;
  ok <- on_world deleteInterface ;;
  if negb ok then sret false else
  set_connections (λ _, []) ;;
  sret true.

(** ** Activation *)
Definition finish_activation (op : Op) (config : InterfaceConfig) : DaemonM bool :=
  status <- on_world (run op config) ;;
  if status then record_connection config ;; start_timer ;; sret true
  else sret false.

Definition activate_switch (config : InterfaceConfig) : DaemonM bool :=
  ok <- switchServer config ;;
  if negb ok then sret false else
  ok <- restoreDns ;;
  if negb ok then sret false else
  ok <- maybeUpdateResolvers config ;;
  if negb ok then sret false else
  finish_activation Switch config.

(** Bring up the interface if not already done. *)
Definition ensure_interface (config : InterfaceConfig) : DaemonM bool :=
  up <- gets (λ d, interfaceExists (world d)) ;;
  if up then sret true else on_world (addInterface config).

Definition configure_ips (config : InterfaceConfig) : DaemonM bool :=
  if supportIPUtils (W := W) then
    ok <- on_world (addInterfaceIPs config) ;;
    if ok then on_world (setMTUAndUp config) else sret false
  else sret true.

Definition activate_fresh (config : InterfaceConfig) : DaemonM bool :=
  on_world (prepareActivation config) ;;
  ok <- ensure_interface config ;;
  if negb ok then sret false else
  for_each (m_excludedAddresses config) (λ i, addExclusionRoute (fromString i) ;; sret tt) ;;
  ok <- on_world (updatePeer config) ;;
  if negb ok then sret false else
  ok <- maybeUpdateResolvers config ;;
  if negb ok then sret false else
  ok <- configure_ips config ;;
  if negb ok then sret false else
  ok <- for_all (m_allowedIPAddressRanges config) (λ ip, on_world (updateRoutePrefix ip)) ;;
  if negb ok then sret false else
  finish_activation Up config.

(** The scope guard: [activationFailure] is emitted on every exit that did not
    dismiss it, which are the exits that return false. *)
Definition failure_guard (body : DaemonM (option bool)) : DaemonM (option bool) :=
  r <- body ;;
  match r with
  | Some false => emit_signal activationFailure ;; on_world onActivationFailure ;; sret r
  | _ => sret r
  end.

(** [activate] calls itself after a deactivation; [None] is a run that has not
    ended within [fuel] nested calls. *)
Fixpoint activate (fuel : nat) (config : InterfaceConfig) : DaemonM (option bool) :=
  match fuel with
  | O => sret None
  | S fuel' =>
      failure_guard (
        connections <- gets m_connections ;;
        if qm_contains (m_hopType config) connections then
          switching <- gets (λ d, supportServerSwitching d config) ;;
          if switching then ok <- activate_switch config ;; sret (Some ok)
          else
            ok <- deactivate false ;;
            if negb ok then sret (Some false) else
            activate fuel' config
        else ok <- activate_fresh config ;; sret (Some ok))
  end.

(** ** Status *)
Definition getStatus (dateToString : option Z -> string) : DaemonM QJsonObject :=
  up <- gets (λ d, interfaceExists (world d)) ;;
  connections <- gets m_connections ;;
  match connections with
  | [] => sret (jinsert "connected" (JBool false) [])
  | (_, connection) :: _ =>
      if negb up then sret (jinsert "connected" (JBool false) [])
      else
        peers <- on_world getPeerStatus ;;
        match List.find (λ status, String.eqb (m_pubkey status)
                                     (qchars (m_serverPublicKey (m_config connection)))) peers with
        | Some status =>
            let json := jinsert "connected" (JBool true) [] in
            let json := jinsert "serverIpv4Gateway"
                          (qjson (m_serverIpv4Gateway (m_config connection))) json in
            let json := jinsert "deviceIpv4Address"
                          (qjson (m_deviceIpv4Address (m_config connection))) json in
            let json := jinsert "date" (JString (dateToString (m_date connection))) json in
            let json := jinsert "txBytes" (JInt (m_txBytes status)) json in
            sret (jinsert "rxBytes" (JInt (m_rxBytes status)) json)
        | None => sret (jinsert "connected" (JBool false) [])
        end
  end.

(** ** Handshakes *)

(** The inner loop over the peers: the date is set, and the signal emitted, for
    every status of the connection's server that reports a handshake. *)
Fixpoint handshake_scan (pubkey : string) (peers : list PeerStatus) (date : option Z)
    : option Z * list Signal :=
  match peers with
  | [] => (date, [])
  | status :: peers' =>
      if negb (String.eqb pubkey (m_pubkey status)) then handshake_scan pubkey peers' date
      else if m_handshake status =? 0 then handshake_scan pubkey peers' date
      else
        let '(date', out) := handshake_scan pubkey peers' (Some (m_handshake status)) in
        (date', connected (m_pubkey status) :: out)
  end.

Fixpoint handshake_loop (peers : list PeerStatus) (l : list (HopType * ConnectionState))
    : list (HopType * ConnectionState) * list Signal * Z :=
  match l with
  | [] => ([], [], 0)
  | (hop, connection) :: l' =>
      let '(rest, out', pending) := handshake_loop peers l' in
      match m_date connection with
      | Some _ => ((hop, connection) :: rest, out', pending)
      | None =>
          let '(date, out) :=
            handshake_scan (qchars (m_serverPublicKey (m_config connection))) peers None in
          ((hop, mkConnection date (m_config connection)) :: rest, app out out',
           match date with None => pending + 1 | Some _ => pending end)
      end
  end.

(** The slot of the single-shot timer, which is no longer running then. *)
Definition checkHandshake : DaemonM unit :=
  peers <- on_world getPeerStatus ;;
  modify (λ d,
    let '(connections, out, pendingHandshakes) := handshake_loop peers (m_connections d) in
    mkDaemon connections (m_excludedAddrSet d) (0 <? pendingHandshakes) (world d)
      (app (emitted d) out)).
End Operations.

(** ** Lemmas: what each method leaves alone *)
Section Frames.
Context {W : Type} `{WireguardUtils W} `{DaemonPlatform W} `{AddressParser}.

Lemma keeps_on_world_connections {A} (m : StateM W A) : keeps m_connections (on_world m).
Proof. intros d. unfold on_world. by destruct (m _). Qed.
Lemma keeps_on_world_emitted {A} (m : StateM W A) : keeps emitted (on_world m).
Proof. intros d. unfold on_world. by destruct (m _). Qed.
Lemma keeps_on_world_excluded {A} (m : StateM W A) : keeps m_excludedAddrSet (on_world m).
Proof. intros d. unfold on_world. by destruct (m _). Qed.
Lemma keeps_set_excluded_connections f : keeps (m_connections (W := W)) (set_excluded f).
Proof. done. Qed.
Lemma keeps_set_excluded_emitted f : keeps (emitted (W := W)) (set_excluded f).
Proof. done. Qed.
Lemma keeps_set_connections_emitted f : keeps (emitted (W := W)) (set_connections f).
Proof. done. Qed.
Lemma keeps_start_timer_emitted : keeps (emitted (W := W)) start_timer.
Proof. done. Qed.
Lemma keeps_start_timer_connections : keeps (m_connections (W := W)) start_timer.
Proof. done. Qed.
Lemma keeps_emit_connections s : keeps (m_connections (W := W)) (emit_signal s).
Proof. done. Qed.
End Frames.

#[export] Hint Resolve keeps_on_world_connections keeps_on_world_emitted keeps_on_world_excluded
  keeps_set_excluded_connections keeps_set_excluded_emitted keeps_set_connections_emitted
  keeps_start_timer_emitted keeps_start_timer_connections keeps_emit_connections : zlo.

Section FrameLemmas.
Context {W : Type} `{WireguardUtils W} `{DaemonPlatform W} `{AddressParser}.

Lemma keeps_addExclusionRoute_emitted p : keeps emitted (addExclusionRoute (W := W) p).
Proof. unfold addExclusionRoute. stateful. Qed.
Lemma keeps_addExclusionRoute_connections p : keeps m_connections (addExclusionRoute (W := W) p).
Proof. unfold addExclusionRoute. stateful. Qed.
Lemma keeps_delExclusionRoute_emitted p : keeps emitted (delExclusionRoute (W := W) p).
Proof. unfold delExclusionRoute. stateful. Qed.
Lemma keeps_delExclusionRoute_connections p : keeps m_connections (delExclusionRoute (W := W) p).
Proof. unfold delExclusionRoute. stateful. Qed.
Lemma keeps_maybeUpdateResolvers_emitted c : keeps emitted (maybeUpdateResolvers (W := W) c).
Proof. unfold maybeUpdateResolvers. stateful. Qed.
Lemma keeps_restoreDns_emitted : keeps emitted (restoreDns (W := W)).
Proof. unfold restoreDns. stateful. Qed.
End FrameLemmas.

#[export] Hint Resolve keeps_addExclusionRoute_emitted keeps_addExclusionRoute_connections
  keeps_delExclusionRoute_emitted keeps_delExclusionRoute_connections
  keeps_maybeUpdateResolvers_emitted keeps_restoreDns_emitted : zlo.

Section SignalLemmas.
Context {W : Type} `{WireguardUtils W} `{DaemonPlatform W} `{AddressParser}.

Lemma keeps_deactivate_emitted : keeps emitted (deactivate (W := W) false).
Proof. unfold deactivate, cleanup_connection, drop_exclusions. stateful. Qed.
Lemma keeps_activate_switch_emitted c : keeps emitted (activate_switch (W := W) c).
Proof.
  unfold activate_switch, switchServer, switchServer_from, finish_activation, record_connection.
  stateful.
Qed.
Lemma keeps_activate_fresh_emitted c : keeps emitted (activate_fresh (W := W) c).
Proof.
  unfold activate_fresh, ensure_interface, configure_ips, finish_activation, record_connection.
  stateful.
Qed.
End SignalLemmas.
