(* ===== verification/DaemonProperties.v ===== *)
(** * Properties of the daemon

    The theorems on [Daemon] (Daemon.v), for every platform, the routes read off
    the ledger of the daemon's requests (WireguardUtils.v), and for what they say
    of the interface for every platform with [InterfaceLaws]: activation always
    ends and reports its outcome by its result and its signals, the reference
    counts of the exclusion routes agree with the requests in every reachable
    state, a successful activation leaves the tunnel, its routes and its record
    in place, a successful deactivation withdraws all of them, and the handshake
    poll. *)
From Stdlib Require Import ZArith Lia.
From stdpp Require Import base gmap list strings option.
From S2P Require Import Prelude HostAddress QtString IpAddress QtContainers InterfaceConfig.
From S2P Require Import WireguardUtils Daemon.
Local Open Scope Z_scope.

Section AnyPlatform.
Context {W : Type} `{WireguardUtils W} `{DaemonPlatform W} `{AddressParser}.
Implicit Types d : Daemon W.

Lemma keeps_at {A B} (f : Daemon W -> B) (m : StateM (Daemon W) A) d a d' :
  keeps f m -> m d = (a, d') -> f d' = f d.
Proof. intros Hk E. pose proof (Hk d) as Hf. by rewrite E in Hf. Qed.

Lemma deactivate_clears b d :
  (deactivate b d).1 = true ->
  m_connections (deactivate b d).2 = [] /\ m_excludedAddrSet (deactivate b d).2 = ∅.
Proof.
  unfold deactivate. run_steps; cbn [fst snd sret]; try done. intros _.
  apply (keeps_at m_excludedAddrSet) in E6; [|auto with zlo].
  unfold drop_exclusions in E5. rewrite gets_bind, sbind_run in E5.
  injection E5 as <- <-. injection E7 as <- <-. split; [done|exact E6].
Qed.

(** The body of an activation that does not call itself. *)
Definition activate_leaf (config : InterfaceConfig) (d : Daemon W) : option bool * Daemon W :=
  if qm_contains (m_hopType config) (m_connections d)
  then (ok <- activate_switch config ;; sret (Some ok)) d
  else (ok <- activate_fresh config ;; sret (Some ok)) d.

Lemma failure_guard_ext (body body' : StateM (Daemon W) (option bool)) d :
  body d = body' d -> failure_guard body d = failure_guard body' d.
Proof. intros E. unfold failure_guard. by rewrite !(sbind_run _ _ d), E. Qed.

(** The two ways an activation runs. *)
Lemma activate_leaf_run n config d :
  qm_contains (m_hopType config) (m_connections d) = false \/
  supportServerSwitching d config = true ->
  activate (S n) config d = failure_guard (activate_leaf config) d.
Proof.
  intros Hc. cbn [activate]. apply failure_guard_ext. rewrite gets_bind. unfold activate_leaf.
  destruct (qm_contains _ _); [|done]. destruct Hc as [?|Hs]; [done|].
  rewrite gets_bind. by rewrite Hs.
Qed.

Lemma activate_again_run n config d :
  qm_contains (m_hopType config) (m_connections d) = true ->
  supportServerSwitching d config = false ->
  activate (S (S n)) config d =
    failure_guard (ok <- deactivate false ;;
                   if negb ok then sret (Some false)
                   else failure_guard (activate_leaf config)) d.
Proof.
  intros Hc Hs. remember (S n) as n1. cbn [activate]. apply failure_guard_ext.
  rewrite gets_bind, Hc, gets_bind, Hs, !(sbind_run (deactivate _)). pose proof (deactivate_clears false d) as Hd.
  destruct (deactivate false d) as [[] d']; cbn [fst snd negb] in *; [|done].
  destruct (Hd eq_refl) as [Hcs _]. subst n1. rewrite activate_leaf_run; [done|].
  left. by rewrite Hcs.
Qed.

Lemma failure_guard_emitted body d :
  (failure_guard body d).1 = (body d).1 /\
  emitted (failure_guard body d).2 =
    app (emitted (body d).2) (match (body d).1 with Some false => [activationFailure] | _ => [] end).
Proof.
  unfold failure_guard. rewrite !(sbind_run _ _ d).
  destruct (body d) as [[[]|] d']; cbn [fst snd sret]; [by rewrite app_nil_r| |by rewrite app_nil_r].
  rewrite !sbind_run. cbn [fst snd sret]. by rewrite keeps_on_world_emitted.
Qed.

Lemma failure_guard_true body d :
  (failure_guard body d).1 = Some true -> (body d).1 = Some true /\ (failure_guard body d).2 = (body d).2.
Proof.
  unfold failure_guard. rewrite !(sbind_run _ _ d).
  destruct (body d) as [[[]|] d']; cbn [fst snd sret]; try done. by rewrite !sbind_run.
Qed.

Lemma activate_leaf_emitted config : keeps emitted (activate_leaf config).
Proof.
  intros d. unfold activate_leaf. destruct (qm_contains _ _); rewrite sbind_run; cbn [snd sret];
    [apply keeps_activate_switch_emitted|apply keeps_activate_fresh_emitted].
Qed.

Lemma activate_leaf_some config d : (activate_leaf config d).1 <> None.
Proof. unfold activate_leaf. destruct (qm_contains _ _); by rewrite sbind_run. Qed.
End AnyPlatform.

(** ** The bookkeeping of exclusion routes *)
Section Laws.
Context {W : Type} `{RequestLaws W} `{AddressParser}.
Implicit Types d : Daemon W.

(** Every count is positive and the counted prefixes are the ones asked for. *)
Record excl_inv (d : Daemon W) : Prop := {
  counts_positive : forall p n, m_excludedAddrSet d !! p = Some n -> 1 <= n;
  counted_in_place : dom (m_excludedAddrSet d) = exclusions (world d)
}.

Lemma invariant_frames {A} (m : StateM W A) :
  (forall w, exclusions (m w).2 = exclusions w) -> invariant excl_inv (on_world m).
Proof.
  intros Hm d [Hc Hd]. unfold on_world. specialize (Hm (world d)).
  destruct (m (world d)) as [a w]. split; simpl in *; [done|]. by rewrite Hd.
Qed.

Lemma frames_routes_exclusions {A} (m : StateM W A) :
  frames_routes m -> forall w, exclusions (m w).2 = exclusions w.
Proof. intros Hm w. by destruct (Hm w). Qed.
Lemma adds_keep p m : adds routes exclusions p m -> forall w : W, exclusions (m w).2 = exclusions w.
Proof. intros Hm w. specialize (Hm w). destruct (m w). naive_solver. Qed.
Lemma removes_keep p m : removes routes exclusions p m -> forall w : W, exclusions (m w).2 = exclusions w.
Proof. intros Hm w. specialize (Hm w). destruct (m w). naive_solver. Qed.

Hint Resolve invariant_frames frames_routes_exclusions : zlo.
Hint Resolve adds_keep removes_keep : zlo.
Hint Resolve addInterface_ok deleteInterface_ok updatePeer_ok deletePeer_ok getPeerStatus_ok
  updateRoutePrefix_ok deleteRoutePrefix_ok addInterfaceIPs_ok setMTUAndUp_ok updateResolvers_ok
  restoreResolvers_ok run_ok prepareActivation_ok onActivationFailure_ok : zlo.

Lemma excl_inv_connections f : invariant excl_inv (set_connections f).
Proof. by intros d []. Qed.
Lemma excl_inv_timer : invariant excl_inv start_timer.
Proof. by intros d []. Qed.
Lemma excl_inv_emit s : invariant excl_inv (emit_signal s).
Proof. by intros d []. Qed.
Hint Resolve excl_inv_connections excl_inv_timer excl_inv_emit : zlo.

Lemma excl_inv_add p : invariant excl_inv (addExclusionRoute p).
Proof.
  intros d [Hc Hd]. unfold addExclusionRoute. rewrite gets_bind.
  destruct (m_excludedAddrSet d !! p) as [n|] eqn:Ep.
  - rewrite sbind_run. split; simpl.
    + intros q m. rewrite lookup_insert_Some. intros [[_ <-]|[_ Hq]]; [|by eapply Hc].
      apply Hc in Ep. lia.
    + rewrite dom_insert_L, Hd. apply elem_of_dom_2 in Ep. rewrite Hd in Ep. set_solver.
  - rewrite sbind_run. pose proof (addExclusionRoute_ok p (world d)) as Hadd.
    unfold on_world. destruct (wg_addExclusionRoute p (world d)) as [[] w];
      destruct Hadd as (He & _); cbn [fst snd negb]; [rewrite sbind_run|]; split; simpl; try done.
    + intros q m. rewrite lookup_insert_Some. intros [[_ <-]|[_ Hq]]; [done|by eapply Hc].
    + by rewrite dom_insert_L, Hd, He.
    + by rewrite Hd, He.
Qed.

Lemma excl_inv_del p : invariant excl_inv (delExclusionRoute p).
Proof.
  intros d [Hc Hd]. unfold delExclusionRoute. rewrite gets_bind. cbn zeta.
  destruct (1 <? default 0 (m_excludedAddrSet d !! p)) eqn:E; breflect.
  - rewrite sbind_run. destruct (m_excludedAddrSet d !! p) as [n|] eqn:Ep; [|simpl in E; lia].
    simpl in *. split; simpl.
    + intros q m. rewrite lookup_insert_Some. intros [[_ <-]|[_ Hq]]; [lia|by eapply Hc].
    + rewrite dom_insert_L, Hd. apply elem_of_dom_2 in Ep. rewrite Hd in Ep. set_solver.
  - rewrite sbind_run. unfold on_world. cbn.
    pose proof (deleteExclusionRoute_ok p (world d)) as Hdel.
    destruct (wg_deleteExclusionRoute p (world d)) as [ok w]. destruct Hdel as (He & _).
    split; simpl.
    + intros q m. rewrite lookup_delete_Some. intros [_ Hq]. by eapply Hc.
    + by rewrite dom_delete_L, Hd, He.
Qed.
Hint Resolve excl_inv_add excl_inv_del : zlo.

(** The loop that removes the exclusion routes at a deactivation. *)
Lemma remove_exclusions_loop (l : list (IPAddress * Z)) d :
  exclusions (world (for_each l (λ kv, on_world (wg_deleteExclusionRoute kv.1) ;; sret tt) d).2)
    = exclusions (world d) ∖ list_to_set l.*1.
Proof.
  revert d; induction l as [|[p n] l IH]; intros d; simpl; [set_solver|].
  rewrite sbind_run, IH, sbind_run. unfold on_world. simpl.
  pose proof (deleteExclusionRoute_ok p (world d)) as Hdel.
  destruct (wg_deleteExclusionRoute p (world d)) as [ok w]. destruct Hdel as (He & _).
  simpl. rewrite He. set_solver.
Qed.

Lemma dom_map_to_list (m : gmap IPAddress Z) : list_to_set (map_to_list m).*1 = dom m.
Proof.
  apply set_eq. intros p. rewrite elem_of_list_to_set, elem_of_dom, list_elem_of_fmap. split.
  - intros ([q n] & -> & Hq). apply elem_of_map_to_list in Hq. by exists n.
  - intros [n Hn]. exists (p, n). split; [done|]. by apply elem_of_map_to_list.
Qed.

Lemma excl_inv_run {A} (m : StateM (Daemon W) A) d a d' :
  invariant excl_inv m -> excl_inv d -> m d = (a, d') -> excl_inv d'.
Proof. intros Hi Hd E. specialize (Hi d Hd). by rewrite E in Hi. Qed.

(** The prefix of [deactivate] up to the removal of the exclusion routes, and
    that removal. *)
Lemma excl_inv_restoreDns : invariant excl_inv restoreDns.
Proof. unfold restoreDns. stateful. Qed.
Hint Resolve excl_inv_restoreDns : zlo.

Lemma excl_inv_cleanup state : invariant excl_inv (cleanup_connection state).
Proof. unfold cleanup_connection. stateful. Qed.
Hint Resolve excl_inv_cleanup : zlo.

Lemma excl_inv_drop : invariant excl_inv drop_exclusions.
Proof.
  intros d [Hc Hd]. unfold drop_exclusions. rewrite gets_bind, sbind_run. split; simpl; [done|].
  rewrite remove_exclusions_loop, dom_map_to_list, dom_empty_L. set_solver.
Qed.
Hint Resolve excl_inv_drop : zlo.

Lemma excl_inv_deactivate b : invariant excl_inv (deactivate b).
Proof. unfold deactivate. stateful. Qed.

Lemma excl_inv_resolvers c : invariant excl_inv (maybeUpdateResolvers c).
Proof. unfold maybeUpdateResolvers. stateful. Qed.
Hint Resolve excl_inv_deactivate excl_inv_resolvers : zlo.

Lemma excl_inv_switch c : invariant excl_inv (activate_switch c).
Proof.
  unfold activate_switch, switchServer, switchServer_from, finish_activation, record_connection.
  stateful.
Qed.
Lemma excl_inv_fresh c : invariant excl_inv (activate_fresh c).
Proof.
  unfold activate_fresh, ensure_interface, configure_ips, finish_activation, record_connection.
  stateful.
Qed.
Hint Resolve excl_inv_switch excl_inv_fresh : zlo.

Lemma excl_inv_activate fuel c : invariant excl_inv (activate fuel c).
Proof.
  induction fuel as [|fuel IH]; cbn [activate]; [stateful|]. unfold failure_guard. stateful.
Qed.

Lemma excl_inv_getStatus f : invariant excl_inv (getStatus f).
Proof. unfold getStatus. stateful. Qed.

Lemma excl_inv_checkHandshake : invariant excl_inv checkHandshake.
Proof.
  unfold checkHandshake. apply invariant_bind; [stateful|]. intros peers d [Hc Hd].
  unfold modify. simpl. by destruct (handshake_loop _ _) as [[? ?] ?].
Qed.
End Laws.

(** ** The interface and the routes *)
Section Routes.
Context {W : Type} `{RequestLaws W} `{!InterfaceLaws W} `{AddressParser}.
Implicit Types d : Daemon W.

Definition is_up d : bool := interfaceExists (world d).
Definition routes_of d : gset IPAddress := routes (world d).

Lemma up_on_world {A} (m : StateM W A) : keeps interfaceExists m -> keeps is_up (on_world m).
Proof.
  intros Hm d. unfold is_up, on_world. specialize (Hm (world d)). by destruct (m (world d)).
Qed.
Lemma routes_on_world {A} (m : StateM W A) :
  (forall w, routes (m w).2 = routes w) -> keeps routes_of (on_world m).
Proof.
  intros Hm d. unfold routes_of, on_world. specialize (Hm (world d)). by destruct (m (world d)).
Qed.
Lemma routes_frames {A} (m : StateM W A) : frames_routes m -> forall w, routes (m w).2 = routes w.
Proof. intros Hm w. by destruct (Hm w) as (_ & ?). Qed.
Lemma routes_adds p m : adds exclusions routes p m -> forall w : W, routes (m w).2 = routes w.
Proof. intros Hm w. specialize (Hm w). destruct (m w). tauto. Qed.
Lemma routes_removes p m : removes exclusions routes p m -> forall w : W, routes (m w).2 = routes w.
Proof. intros Hm w. specialize (Hm w). destruct (m w). tauto. Qed.

Hint Resolve up_on_world routes_on_world routes_frames routes_adds routes_removes : zlo.
Hint Resolve updatePeer_ok deletePeer_ok getPeerStatus_ok
  updateRoutePrefix_ok deleteRoutePrefix_ok addExclusionRoute_ok deleteExclusionRoute_ok
  addInterfaceIPs_ok setMTUAndUp_ok updateResolvers_ok restoreResolvers_ok run_ok
  prepareActivation_ok onActivationFailure_ok : zlo.
Hint Resolve updatePeer_up deletePeer_up getPeerStatus_up updateRoutePrefix_up deleteRoutePrefix_up
  addExclusionRoute_up deleteExclusionRoute_up addInterfaceIPs_up setMTUAndUp_up updateResolvers_up
  restoreResolvers_up run_up prepareActivation_up onActivationFailure_up : zlo.

Lemma up_pure (f : Daemon W -> Daemon W) : (forall d, world (f d) = world d) -> keeps is_up (modify f).
Proof. intros Hf d. unfold is_up. simpl. by rewrite Hf. Qed.
Lemma routes_pure (f : Daemon W -> Daemon W) :
  (forall d, world (f d) = world d) -> keeps routes_of (modify f).
Proof. intros Hf d. unfold routes_of. simpl. by rewrite Hf. Qed.
Hint Resolve up_pure routes_pure : zlo.
Hint Unfold set_excluded set_connections start_timer emit_signal record_connection : zlo.

Lemma up_addExclusionRoute p : keeps is_up (addExclusionRoute p).
Proof. unfold addExclusionRoute, set_excluded. stateful. Qed.
Lemma up_delExclusionRoute p : keeps is_up (delExclusionRoute p).
Proof. unfold delExclusionRoute, set_excluded. stateful. Qed.
Lemma routes_addExclusionRoute p : keeps routes_of (addExclusionRoute p).
Proof. unfold addExclusionRoute, set_excluded. stateful. Qed.
Lemma routes_delExclusionRoute p : keeps routes_of (delExclusionRoute p).
Proof. unfold delExclusionRoute, set_excluded. stateful. Qed.
Lemma up_resolvers c : keeps is_up (maybeUpdateResolvers c).
Proof. unfold maybeUpdateResolvers. stateful. Qed.
Lemma routes_resolvers c : keeps routes_of (maybeUpdateResolvers c).
Proof. unfold maybeUpdateResolvers. stateful. Qed.
Lemma up_restoreDns : keeps is_up restoreDns.
Proof. unfold restoreDns. stateful. Qed.
Lemma routes_restoreDns : keeps routes_of restoreDns.
Proof. unfold restoreDns. stateful. Qed.
Lemma up_drop : keeps is_up drop_exclusions.
Proof. unfold drop_exclusions, set_excluded. stateful. Qed.
Lemma routes_drop : keeps routes_of drop_exclusions.
Proof. unfold drop_exclusions, set_excluded. stateful. Qed.
Lemma up_cleanup c : keeps is_up (cleanup_connection c).
Proof. unfold cleanup_connection. stateful. Qed.
Hint Resolve up_addExclusionRoute up_delExclusionRoute routes_addExclusionRoute
  routes_delExclusionRoute up_resolvers routes_resolvers up_restoreDns routes_restoreDns
  up_drop routes_drop up_cleanup : zlo.

(** Installing the routes of a list of prefixes. *)
Lemma route_loop l d :
  let '(ok, d') := for_all l (λ ip, on_world (updateRoutePrefix ip)) d in
  routes_of d ⊆ routes_of d' /\ (ok = true -> forall ip, ip ∈ l -> ip ∈ routes_of d').
Proof.
  revert d; induction l as [|ip l IH]; intros d.
  - simpl. split; [done|]. intros _ ip []%not_elem_of_nil.
  - cbn [for_all]. rewrite sbind_run.
    assert (routes_of (on_world (updateRoutePrefix ip) d).2 =
            if (on_world (updateRoutePrefix ip) d).1 then {[ip]} ∪ routes_of d else routes_of d) as Hr.
    { pose proof (updateRoutePrefix_ok ip (world d)) as Hu. unfold on_world, routes_of.
      destruct (updateRoutePrefix ip (world d)). tauto. }
    destruct (on_world (updateRoutePrefix ip) d) as [[] d1]; cbn [fst snd] in *.
    + specialize (IH d1). destruct (for_all _ _ d1) as [ok d']. destruct IH as [Hsub Hin].
      rewrite Hr in Hsub. split; [set_solver|].
      intros Hok q [->|Hq]%elem_of_cons; [set_solver|auto].
    + simpl. by rewrite Hr.
Qed.

(** Removing the routes of one connection, and of all of them. *)
Lemma unroute_loop l d :
  routes_of (for_each l (λ ip, on_world (deleteRoutePrefix ip) ;; sret tt) d).2
    = routes_of d ∖ list_to_set l.
Proof.
  revert d; induction l as [|p l IH]; intros d; simpl; [set_solver|].
  rewrite sbind_run, IH, sbind_run. unfold on_world, routes_of. simpl.
  pose proof (deleteRoutePrefix_ok p (world d)) as Hdel.
  destruct (deleteRoutePrefix p (world d)) as [ok w]. destruct Hdel as (He & _).
  simpl. rewrite He. set_solver.
Qed.

Lemma routes_cleanup state d :
  routes_of (cleanup_connection state d).2
    = routes_of d ∖ list_to_set (m_allowedIPAddressRanges (m_config state)).
Proof.
  unfold cleanup_connection. rewrite !sbind_run. cbn [snd sret].
  rewrite (routes_on_world _ (routes_frames _ (deletePeer_ok _))). apply unroute_loop.
Qed.

Lemma routes_cleanup_all (l : list (HopType * ConnectionState)) d :
  routes_of (for_each l (λ kv, cleanup_connection kv.2) d).2 ⊆ routes_of d /\
  forall hop state ip, (hop, state) ∈ l -> ip ∈ m_allowedIPAddressRanges (m_config state) ->
    ip ∉ routes_of (for_each l (λ kv, cleanup_connection kv.2) d).2.
Proof.
  revert d; induction l as [|[h s] l IH]; intros d; cbn [for_each].
  - split; [done|]. intros ? ? ? []%not_elem_of_nil.
  - rewrite sbind_run. destruct (IH (cleanup_connection s d).2) as [Hsub Hin].
    rewrite routes_cleanup in Hsub. cbn [snd] in *. split; [set_solver|].
    intros hop state ip [[= -> ->]|Hl]%elem_of_cons Hip; [|by eapply Hin].
    intros Hbad. apply Hsub in Hbad. apply elem_of_difference in Hbad as [_ Hbad].
    by apply Hbad, elem_of_list_to_set.
Qed.

Lemma connections_resolvers c : keeps m_connections (maybeUpdateResolvers (W := W) c).
Proof. unfold maybeUpdateResolvers. stateful. Qed.
Lemma connections_restoreDns : keeps m_connections (restoreDns (W := W)).
Proof. unfold restoreDns. stateful. Qed.
Hint Resolve connections_resolvers connections_restoreDns : zlo.

(** What a successful activation leaves behind. *)
Record tunnel_up (config : InterfaceConfig) d : Prop := {
  tunnel_interface : is_up d = true;
  tunnel_routes : forall ip, ip ∈ m_allowedIPAddressRanges config -> ip ∈ routes_of d;
  tunnel_timer : m_handshakeTimer d = true
}.

Lemma finish_activation_post op config d :
  (finish_activation op config d).1 = true ->
  let d' := (finish_activation op config d).2 in
  m_connections d' = qm_insert (m_hopType config) (ConnectionState_new config) (m_connections d) /\
  m_handshakeTimer d' = true /\ is_up d' = is_up d /\ routes_of d' = routes_of d.
Proof.
  unfold finish_activation. rewrite sbind_run.
  destruct (on_world (run op config) d) as [ok d1] eqn:E; cbn [fst snd].
  pose proof (keeps_at m_connections _ _ _ _ (keeps_on_world_connections _) E) as Hc.
  pose proof (keeps_at is_up _ _ _ _ (up_on_world _ (run_up _ _)) E) as Hu.
  pose proof (keeps_at routes_of _ _ _ _ (routes_on_world _ (routes_frames _ (run_ok _ _))) E) as Hr.
  destruct ok; [|done]. intros _. cbn. by rewrite Hc.
Qed.

Lemma ensure_interface_up config d :
  (ensure_interface config d).1 = true -> is_up (ensure_interface config d).2 = true.
Proof.
  unfold ensure_interface. rewrite gets_bind. fold (is_up d). destruct (is_up d) eqn:E; [done|].
  unfold on_world, is_up. pose proof (addInterface_up config (world d)) as Ha.
  by destruct (addInterface config (world d)).
Qed.
Lemma connections_ensure config : keeps m_connections (ensure_interface (W := W) config).
Proof. unfold ensure_interface. stateful. Qed.
Lemma connections_ips config : keeps m_connections (configure_ips (W := W) config).
Proof. unfold configure_ips. stateful. Qed.
Lemma up_ips config : keeps is_up (configure_ips config).
Proof. unfold configure_ips. stateful. Qed.
Hint Resolve connections_ensure connections_ips up_ips : zlo.

Lemma keeps_at' {A B} (f : Daemon W -> B) (m : StateM (Daemon W) A) d a d' :
  m d = (a, d') -> keeps f m -> f d' = f d.
Proof. intros E Hk. by eapply keeps_at. Qed.

(** Derives [f d' = f d] for every step [m d = (_, d')] of the run that keeps [f]. *)
Ltac track f :=
  repeat match goal with
  | E : ?m ?x = (_, ?y) |- _ =>
      lazymatch goal with H : f y = f x |- _ => fail | _ => idtac end;
      assert (f y = f x) by (apply (keeps_at' f m x _ y E); solve [stateful])
  end.

Lemma activate_fresh_post config d :
  (activate_fresh config d).1 = true ->
  let d' := (activate_fresh config d).2 in
  m_connections d' = qm_insert (m_hopType config) (ConnectionState_new config) (m_connections d) /\
  tunnel_up config d'.
Proof.
  unfold activate_fresh. run_steps; try done. intros Hok.
  destruct (finish_activation_post _ _ _ Hok) as (Hc & Ht & Hu & Hr).
  pose proof (ensure_interface_up config d0) as Hup. rewrite E0 in Hup. specialize (Hup eq_refl).
  pose proof (route_loop (m_allowedIPAddressRanges config) d5) as Hl. rewrite E5 in Hl.
  track (m_connections (W := W)). track is_up. split; [cbn [snd] in *; congruence|].
  split; [cbn [snd] in *; congruence| |exact Ht].
  intros ip Hip. rewrite Hr. by apply Hl.
Qed.

(** What a successful deactivation leaves behind. *)
Lemma deactivate_post b d :
  (deactivate b d).1 = true -> excl_inv d ->
  let d' := (deactivate b d).2 in
  m_connections d' = [] /\ m_excludedAddrSet d' = ∅ /\ exclusions (world d') = ∅ /\
  is_up d' = false /\
  (forall hop state ip, (hop, state) ∈ m_connections d ->
     ip ∈ m_allowedIPAddressRanges (m_config state) -> ip ∉ routes_of d') /\
  emitted d' = app (emitted d) (if b then [disconnected] else []).
Proof.
  intros Hok Hinv. pose proof (deactivate_clears b d Hok) as [Hc He].
  pose proof (excl_inv_deactivate b d Hinv) as [_ Hdom]. rewrite He, dom_empty_L in Hdom.
  cbn zeta. split_and!; try done. all: revert Hok; clear Hc He Hdom.
  all: unfold deactivate; run_steps; try done; intros _; cbn [snd sret].
  - injection E7 as <- <-. unfold on_world in E6. pose proof (deleteInterface_down (world d6)) as Hd.
    destruct (deleteInterface (world d6)). injection E6 as -> <-. by apply Hd.
  - injection E as <- <-. intros hop state ip Hin Hip.
    destruct (routes_cleanup_all (m_connections d) d4) as [_ Hgone]. rewrite E4 in Hgone.
    specialize (Hgone hop state ip Hin Hip). cbn [snd] in Hgone.
    assert (keeps routes_of (on_world deleteInterface)) as Hdel.
    { apply routes_on_world. intros w. apply deleteInterface_ok. }
    apply (keeps_at' routes_of) in E6; [|exact Hdel].
    apply (keeps_at' routes_of) in E7; [|by unfold set_connections; stateful].
    apply (keeps_at' routes_of) in E5; [|stateful]. congruence.
  - track (emitted (W := W)). apply (keeps_at' emitted) in E4; [|by unfold cleanup_connection; stateful].
    apply (keeps_at' emitted) in E5; [|by unfold drop_exclusions; stateful].
    apply (keeps_at' emitted) in E0; [|stateful].
    destruct b; injection E1 as <- <-; cbn [emitted] in *; rewrite ?app_nil_r; congruence.
Qed.

(** The routes of the replaced configuration that the new one does not have. *)
Lemma switch_unroute_loop (keep l : list IPAddress) d :
  let d' := (for_each l (λ ip, if existsb (λ x, ip_eqb x ip) keep then sret tt
                               else on_world (deleteRoutePrefix ip) ;; sret tt) d).2 in
  routes_of d' ⊆ routes_of d /\ forall ip, ip ∈ l -> ip ∉ keep -> ip ∉ routes_of d'.
Proof.
  cbn zeta. revert d; induction l as [|p l IH]; intros d; cbn [for_each].
  - split; [done|]. intros ? []%not_elem_of_nil.
  - rewrite sbind_run.
    set (d1 := ((if existsb (λ x, ip_eqb x p) keep then sret tt else _) d).2).
    destruct (IH d1) as [Hsub Hgone]. clear IH.
    assert (routes_of d1 ⊆ routes_of d /\ (p ∉ keep -> p ∉ routes_of d1)) as [Hs1 Hp].
    { subst d1. destruct (existsb _ keep) eqn:Ex.
      - split; [done|]. intros Hk. exfalso. apply Hk. apply existsb_exists in Ex as (x & Hx & Heq).
        apply ip_eqb_eq in Heq as ->. by apply list_elem_of_In.
      - rewrite sbind_run. cbn [snd sret]. unfold on_world, routes_of.
        pose proof (deleteRoutePrefix_ok p (world d)) as Hdel.
        destruct (deleteRoutePrefix p (world d)) as [ok w]. destruct Hdel as (He & _).
        simpl. rewrite He. set_solver. }
    split; [set_solver|]. intros ip [->|Hl]%elem_of_cons Hk; [|by apply Hgone].
    intros Hbad. apply Hsub in Hbad. by apply Hp in Hbad.
Qed.

Lemma switchServer_post state config d :
  qm_find (m_hopType config) (m_connections d) = Some state ->
  (switchServer config d).1 = true ->
  let d' := (switchServer config d).2 in
  m_connections d' = qm_insert (m_hopType config) (ConnectionState_new config) (m_connections d) /\
  is_up d' = is_up d /\
  (forall ip, ip ∈ m_allowedIPAddressRanges (m_config state) ->
     ip ∉ m_allowedIPAddressRanges config -> ip ∉ routes_of d').
Proof.
  intros Hf. unfold switchServer. rewrite gets_bind, Hf. unfold switchServer_from.
  run_steps; try done. intros _. cbn [snd sret fst].
  track (m_connections (W := W)). track is_up. track routes_of.
  pose proof (switch_unroute_loop (m_allowedIPAddressRanges config)
                (m_allowedIPAddressRanges (m_config state)) d3) as [_ Hgone].
  rewrite E3 in Hgone. cbn [snd] in Hgone.
  injection E5 as <- <-. unfold is_up, routes_of in *. cbn [m_connections world] in *.
  split_and!; [congruence|congruence|]. intros ip Hin Hnot.
  replace (routes (world d5)) with (routes (world d4)) by congruence. by apply Hgone.
Qed.

Lemma activate_switch_post state config d :
  qm_find (m_hopType config) (m_connections d) = Some state ->
  (activate_switch config d).1 = true ->
  let d' := (activate_switch config d).2 in
  m_connections d' = qm_insert (m_hopType config) (ConnectionState_new config) (m_connections d) /\
  m_handshakeTimer d' = true /\ is_up d' = is_up d /\
  (forall ip, ip ∈ m_allowedIPAddressRanges (m_config state) ->
     ip ∉ m_allowedIPAddressRanges config -> ip ∉ routes_of d').
Proof.
  intros Hf. pose proof (switchServer_post state config d Hf) as Hsw. unfold activate_switch.
  run_steps; try done. intros Hok. cbn [fst snd] in *.
  destruct (Hsw eq_refl) as (Hc & Hu & Hr).
  destruct (finish_activation_post _ _ _ Hok) as (Hc' & Ht & Hu' & Hr').
  track (m_connections (W := W)). track is_up. track routes_of.
  cbn [snd] in *. split_and!; [|done|congruence|].
  - rewrite Hc'. replace (m_connections _) with (m_connections d0) by congruence.
    rewrite Hc. apply qm_insert_insert.
  - intros ip Hin Hnot. rewrite Hr'. replace (routes_of _) with (routes_of d0) by congruence. auto.
Qed.
End Routes.

(** ** Handshakes *)

(** The statuses that report a handshake of the server with the given key. *)
Definition handshakes (pubkey : string) (peers : list PeerStatus) : list PeerStatus :=
  List.filter (λ s, String.eqb pubkey (m_pubkey s) && negb (m_handshake s =? 0)) peers.

(** The date of the last of them, [date] if there is none. *)
Definition handshake_date (date : option Z) (hs : list PeerStatus) : option Z :=
  foldl (λ _ s, Some (m_handshake s)) date hs.

Definition polled (peers : list PeerStatus) (c : ConnectionState) : ConnectionState :=
  match m_date c with
  | Some _ => c
  | None => mkConnection
              (handshake_date None (handshakes (qchars (m_serverPublicKey (m_config c))) peers))
              (m_config c)
  end.
Definition announced (peers : list PeerStatus) (c : ConnectionState) : list Signal :=
  match m_date c with
  | Some _ => []
  | None => map (λ s, connected (m_pubkey s))
              (handshakes (qchars (m_serverPublicKey (m_config c))) peers)
  end.
Definition pending (kv : HopType * ConnectionState) : bool :=
  match m_date kv.2 with Some _ => false | None => true end.

Lemma handshake_scan_spec pubkey peers date :
  handshake_scan pubkey peers date =
    (handshake_date date (handshakes pubkey peers),
     map (λ s, connected (m_pubkey s)) (handshakes pubkey peers)).
Proof.
  revert date; induction peers as [|s peers IH]; intros date; [done|].
  unfold handshakes in *. cbn [handshake_scan List.filter].
  destruct (String.eqb pubkey (m_pubkey s)); cbn [negb andb]; [|by rewrite IH].
  destruct (m_handshake s =? 0); cbn [negb]; [by rewrite IH|].
  by rewrite IH.
Qed.

Lemma pending_new hop date c :
  pending (hop, mkConnection date c) = match date with Some _ => false | None => true end.
Proof. done. Qed.

Lemma handshake_loop_spec peers l :
  handshake_loop peers l =
    (map (λ kv, (kv.1, polled peers kv.2)) l,
     List.concat (map (λ kv, announced peers kv.2) l),
     Z.of_nat (List.length (List.filter pending (map (λ kv, (kv.1, polled peers kv.2)) l)))).
Proof.
  induction l as [|[hop c] l IH]; [done|]. cbn [handshake_loop map fst snd List.filter List.concat].
  rewrite IH. destruct (m_date c) as [t|] eqn:Ed.
  - assert (polled peers c = c) as -> by (unfold polled; by rewrite Ed).
    assert (announced peers c = []) as -> by (unfold announced; by rewrite Ed).
    assert (pending (hop, c) = false) as -> by (unfold pending; simpl; by rewrite Ed). done.
  - rewrite handshake_scan_spec.
    assert (announced peers c = map (λ s, connected (m_pubkey s))
              (handshakes (qchars (m_serverPublicKey (m_config c))) peers)) as ->
      by (unfold announced; by rewrite Ed).
    assert (polled peers c = mkConnection (handshake_date None
              (handshakes (qchars (m_serverPublicKey (m_config c))) peers)) (m_config c)) as ->
      by (unfold polled; by rewrite Ed).
    rewrite pending_new. destruct (handshake_date _ _); [done|].
    f_equal. cbn [List.length]. rewrite Nat2Z.inj_succ. lia.
Qed.

(** ** The ledger is ghost state

    What the daemon does does not depend on the ledger: each method run with one
    does what it does without. *)
Section Erasure.
Context {W : Type} `{WireguardUtils W} `{DaemonPlatform W} `{AddressParser}.

Definition forget (d : Daemon (Ledger W)) : Daemon W :=
  mkDaemon (m_connections d) (m_excludedAddrSet d) (m_handshakeTimer d) (ledger_machine (world d)) (emitted d).
Definition erases {A} (m : StateM (Daemon (Ledger W)) A) (m' : StateM (Daemon W) A) : Prop :=
  forall d, m' (forget d) = ((m d).1, forget (m d).2).

Lemma erases_ret {A} (a : A) : erases (sret a) (sret a).
Proof. done. Qed.
Lemma erases_gets {A} f (g : Daemon W -> A) : (forall d, g (forget d) = f d) -> erases (gets f) (gets g).
Proof. intros Hg d. unfold gets. by rewrite Hg. Qed.
Lemma erases_modify f g : (forall d, g (forget d) = forget (f d)) -> erases (modify f) (modify g).
Proof. intros Hg d. unfold modify. by rewrite Hg. Qed.
Lemma erases_bind {A B} m m' (k : A -> StateM _ B) k' :
  erases m m' -> (forall a, erases (k a) (k' a)) -> erases (sbind m k) (sbind m' k').
Proof. intros Hm Hk d. rewrite !sbind_run, Hm. apply Hk. Qed.
Lemma erases_for_each {A} (l : list A) body body' :
  (forall a, erases (body a) (body' a)) -> erases (for_each l body) (for_each l body').
Proof. intros Hb. induction l as [|a l IH]; [done|]. apply erases_bind; [apply Hb|]. intros ?. exact IH. Qed.
Lemma erases_for_all {A} (l : list A) body body' :
  (forall a, erases (body a) (body' a)) -> erases (for_all l body) (for_all l body').
Proof.
  intros Hb. induction l as [|a l IH]; [done|]. apply erases_bind; [apply Hb|].
  intros []; [exact IH|apply erases_ret].
Qed.
Lemma erases_machine {A} (m : StateM W A) : erases (on_world (on_ledger m)) (on_world m).
Proof. intros d. unfold on_world, on_ledger. cbn. by destruct (m (ledger_machine (world d))). Qed.
Lemma erases_routes f (m : StateM W bool) : erases (on_world (note_routes f m)) (on_world m).
Proof. intros d. unfold on_world, note_routes. cbn. by destruct (m (ledger_machine (world d))). Qed.
Lemma erases_exclusions f (m : StateM W bool) : erases (on_world (note_exclusions f m)) (on_world m).
Proof. intros d. unfold on_world, note_exclusions. cbn. by destruct (m (ledger_machine (world d))). Qed.

(** Follows the structure of a method. *)
Ltac erase :=
  repeat first
    [ solve [auto with zlo] | apply erases_ret | apply erases_machine | apply erases_routes | apply erases_exclusions
    | apply erases_bind; [|intros ?] | apply erases_for_each; intros ? | apply erases_for_all; intros ?
    | solve [apply erases_gets; done] | solve [apply erases_modify; done]
    | match goal with |- erases (match ?x with _ => _ end) _ => destruct x end ].

Lemma erases_addExclusionRoute p : erases (addExclusionRoute p) (addExclusionRoute p).
Proof. unfold addExclusionRoute. erase. Qed.
Lemma erases_delExclusionRoute p : erases (delExclusionRoute p) (delExclusionRoute p).
Proof. unfold delExclusionRoute. erase. Qed.
Hint Resolve erases_addExclusionRoute erases_delExclusionRoute : zlo.
Lemma erases_resolvers c : erases (maybeUpdateResolvers c) (maybeUpdateResolvers c).
Proof. unfold maybeUpdateResolvers. cbn [supportDnsUtils ledger_platform]. erase. Qed.
Lemma erases_restoreDns : erases restoreDns restoreDns.
Proof. unfold restoreDns. cbn [supportDnsUtils ledger_platform]. erase. Qed.
Lemma erases_finish op c : erases (finish_activation op c) (finish_activation op c).
Proof. unfold finish_activation. erase. Qed.

Hint Resolve erases_resolvers erases_restoreDns erases_finish : zlo.

Lemma erases_deactivate b : erases (deactivate b) (deactivate b).
Proof.
  unfold deactivate, cleanup_connection, drop_exclusions. erase.
Qed.
Lemma erases_switch c : erases (activate_switch c) (activate_switch c).
Proof.
  unfold activate_switch, switchServer, switchServer_from.
  erase.
Qed.
Lemma erases_fresh c : erases (activate_fresh c) (activate_fresh c).
Proof.
  unfold activate_fresh, ensure_interface, configure_ips. cbn [supportIPUtils ledger_platform].
  erase.
Qed.
Hint Resolve erases_deactivate erases_switch erases_fresh : zlo.
Lemma erases_activate fuel c : erases (activate fuel c) (activate fuel c).
Proof.
  induction fuel as [|fuel IH]; cbn [activate]; [apply erases_ret|]. unfold failure_guard.
  erase.
Qed.
Lemma erases_getStatus f : erases (getStatus f) (getStatus f).
Proof. unfold getStatus. erase. Qed.
Lemma erases_checkHandshake : erases checkHandshake checkHandshake.
Proof.
  unfold checkHandshake. apply erases_bind; [apply erases_machine|]. intros a. apply erases_modify. intros d. cbn.
  by destruct (handshake_loop a (m_connections d)) as [[] ?].
Qed.
End Erasure.

(** The runs with the ledger are the runs of the daemon: every call returns what it
    returns without, and leaves the same state. *)
Theorem ledger_is_ghost {W} `{WireguardUtils W} `{DaemonPlatform W} `{AddressParser} :
  (forall fuel c, erases (W := W) (activate fuel c) (activate fuel c)) /\
  (forall b, erases (W := W) (deactivate b) (deactivate b)) /\
  (forall f, erases (W := W) (getStatus f) (getStatus f)) /\
  erases (W := W) checkHandshake checkHandshake.
Proof.
  split_and!; [apply erases_activate|apply erases_deactivate|apply erases_getStatus|apply erases_checkHandshake].
Qed.

(** ** Reachable states *)
Section Reachability.
Context {W : Type} `{WireguardUtils W} `{DaemonPlatform W} `{NetworkView W} `{AddressParser}.

(** The daemon starts without connections, having asked for no exclusion route,
    and serves one call after the other. *)
Inductive reachable : Daemon W -> Prop :=
| reach_start w : exclusions w = ∅ -> reachable (mkDaemon [] ∅ false w [])
| reach_activate d c : reachable d -> reachable (activate 2 c d).2
| reach_deactivate d b : reachable d -> reachable (deactivate b d).2
| reach_getStatus d f : reachable d -> reachable (getStatus f d).2
| reach_checkHandshake d : reachable d -> reachable (checkHandshake d).2.
End Reachability.

Lemma reachable_excl_inv {W} `{RequestLaws W} `{AddressParser} (d : Daemon W) :
  reachable d -> excl_inv d.
Proof.
  induction 1 as [w Hw|d c Hd IH|d b Hd IH|d f Hd IH|d Hd IH].
  - split; simpl; [done|]. by rewrite Hw, dom_empty_L.
  - by apply excl_inv_activate.
  - by apply excl_inv_deactivate.
  - by apply excl_inv_getStatus.
  - by apply excl_inv_checkHandshake.
Qed.

(** The first and the second configuration of the examples: the same device,
    another server. *)
Definition example_config (pubkey : string) (excluded : list string) (ranges : list IPAddress)
    : InterfaceConfig :=
  mkConfig SingleHop (qstr "cHJpdg==") (qstr "10.8.1.2/32") qnull qnull qnull (qstr pubkey)
    (qstr "192.0.2.1") qnull qnull (qstr "1.1.1.1") 51820 1420 ranges excluded []
    false qnull qnull qnull qnull qnull qnull qnull qnull qnull.

Definition fresh_daemon (bad : gset IPAddress) : Daemon (Ledger SimMachine) :=
  mkDaemon [] ∅ false (mkLedger (sim_start bad) ∅ ∅) [].
#[local] Existing Instance ipv4_parser.
Definition connected_daemon (excluded : list string) (ranges : list IPAddress) :
    Daemon (Ledger SimMachine) :=
  (activate 2 (example_config "one" excluded ranges) (fresh_daemon ∅)).2.

Lemma activate_outcome {W} `{WireguardUtils W} `{DaemonPlatform W} `{AddressParser}
    (config : InterfaceConfig) (d : Daemon W) :
  (forall n, activate (2 + n) config d = activate 2 config d) /\
  exists ok, (activate 2 config d).1 = Some ok /\
    if ok then emitted (activate 2 config d).2 = emitted d
    else emitted (activate 2 config d).2 = app (emitted d) [activationFailure] \/
         (qm_contains (m_hopType config) (m_connections d) = true /\
          supportServerSwitching d config = false /\ (deactivate false d).1 = true /\
          emitted (activate 2 config d).2 =
            app (emitted d) [activationFailure; activationFailure]).
Proof.
  assert (forall d, exists ok, (failure_guard (activate_leaf config) d).1 = Some ok /\
    emitted (failure_guard (activate_leaf config) d).2 =
      app (emitted d) (if ok then [] else [activationFailure])) as Hleaf.
  { intros d0. destruct (failure_guard_emitted (activate_leaf config) d0) as [-> ->].
    rewrite activate_leaf_emitted. pose proof (activate_leaf_some config d0).
    destruct (activate_leaf config d0) as [[[]|] d1]; [by exists true|by exists false|done]. }
  destruct (qm_contains (m_hopType config) (m_connections d)) eqn:Hc;
    [destruct (supportServerSwitching d config) eqn:Hs|].
  2: { split; [intros n; change (2 + n)%nat with (S (S n)); by rewrite !activate_again_run by done|].
       rewrite activate_again_run by done.
       match goal with |- context [failure_guard ?b d] =>
         destruct (failure_guard_emitted b d) as [-> ->] end.
       rewrite !(sbind_run _ _ d). pose proof (keeps_deactivate_emitted d) as Hd.
       destruct (deactivate false d) as [[] d1]; cbn [fst snd negb sret] in *.
       - destruct (Hleaf d1) as (ok & -> & ->). exists ok. rewrite Hd, <- app_assoc.
         destruct ok; rewrite ?app_nil_r; auto 6.
       - exists false. rewrite Hd. auto. }
  all: assert (forall n, activate (S n) config d = failure_guard (activate_leaf config) d) as Hr
    by (intros n; apply activate_leaf_run; auto).
  all: split; [intros n; change (2 + n)%nat with (S (S n)); by rewrite !Hr|]; rewrite Hr.
  all: destruct (Hleaf d) as (ok & -> & ->); exists ok; destruct ok; rewrite ?app_nil_r; auto.
Qed.

(** ** Properties *)

(** C27. Activation always ends, and reports its outcome. On every platform,
    whatever its operations return, [activate] needs at most one nested call;
    it returns true without emitting any signal, or false having emitted
    [activationFailure], twice exactly when the call nested in a reconnection
    failed. The comment above the code says that a successful activation ends with
    the signal [connected]; it does not: that signal comes from the poll of the
    handshakes ([checkHandshake_exact]). *)
Theorem activate_reports {W} `{WireguardUtils W} `{DaemonPlatform W} `{AddressParser}
    (config : InterfaceConfig) (d : Daemon W) :
  (forall n, activate (2 + n) config d = activate 2 config d) /\
  exists ok, (activate 2 config d).1 = Some ok /\
    if ok then emitted (activate 2 config d).2 = emitted d
    else emitted (activate 2 config d).2 = app (emitted d) [activationFailure] \/
         (qm_contains (m_hopType config) (m_connections d) = true /\
          supportServerSwitching d config = false /\ (deactivate false d).1 = true /\
          emitted (activate 2 config d).2 =
            app (emitted d) [activationFailure; activationFailure]).
Proof. apply activate_outcome. Qed.

(** C6. The reference counts of the exclusion routes agree with the requests: on
    every platform, whatever its calls do or return, in every reachable state the
    prefixes that are counted are exactly those whose exclusion route the daemon
    asked for with success and has not asked to remove since, and every count is
    at least one, after any sequence of activations, server switches,
    deactivations (failed ones too) and polls. (What a platform makes of a request
    is its own: see [delete_route_inserts] and the theorems on the route
    monitors.) *)
Theorem exclusion_counts {W} `{WireguardUtils W} `{DaemonPlatform W} `{AddressParser}
    (d : Daemon (Ledger W)) :
  reachable d ->
  dom (m_excludedAddrSet d) = asked_exclusions (world d) /\
  forall p n, m_excludedAddrSet d !! p = Some n -> 1 <= n.
Proof.
  intros Hd. by destruct (reachable_excl_inv d Hd).
Qed.

Lemma exclusion_counts_witness :
  let d := connected_daemon ["10.1.2.3"; "10.1.2.3"]%string [cidr 0 0 0 0 0] in
  m_excludedAddrSet d !! cidr 10 1 2 3 32 = Some 2 /\
  dom (m_excludedAddrSet d) = asked_exclusions (world d).
Proof.
  cbn zeta. split; [vm_compute; reflexivity|].
  apply exclusion_counts. unfold connected_daemon. apply reach_activate. by apply reach_start.
Defined.

(** C10. A successful activation establishes the tunnel. When the hop was not
    connected, or its connection cannot be switched over and is taken down
    first, success means that the interface exists (on a platform that tracks it,
    as [unix_interface] shows the one of Linux and macOS does), that the platform
    reported success for the route of every allowed range and the daemon has not
    asked to remove it since, that the connection is recorded under its hop
    awaiting its handshake, and that the poll is scheduled; the other hops'
    connections stay, unless the interface was taken down. *)
Theorem activate_establishes {W} `{InterfaceLaws W} `{AddressParser}
    (config : InterfaceConfig) (d : Daemon (Ledger W)) :
  supportServerSwitching d config = false ->
  (activate 2 config d).1 = Some true ->
  let d' := (activate 2 config d).2 in
  interfaceExists (ledger_machine (world d')) = true /\
  (forall ip, ip ∈ m_allowedIPAddressRanges config -> ip ∈ asked_routes (world d')) /\
  m_handshakeTimer d' = true /\
  m_connections d' =
    qm_insert (m_hopType config) (ConnectionState_new config)
      (if qm_contains (m_hopType config) (m_connections d) then [] else m_connections d).
Proof.
  intros Hs. destruct (qm_contains (m_hopType config) (m_connections d)) eqn:Hc.
  - rewrite activate_again_run by done. intros [Hok ->]%failure_guard_true. revert Hok.
    rewrite !(sbind_run _ _ d). pose proof (deactivate_clears false d) as Hclear.
    destruct (deactivate false d) as [[] d1]; cbn [fst snd negb] in *; [|done].
    destruct (Hclear eq_refl) as [Hnil _]. intros [Hok ->]%failure_guard_true.
    revert Hok. unfold activate_leaf. rewrite Hnil. cbn. rewrite !sbind_run. cbn [fst snd sret].
    intros [= Hok]. apply activate_fresh_post in Hok as [Hcs []]. by rewrite Hnil in Hcs.
  - rewrite activate_leaf_run by auto. intros [Hok ->]%failure_guard_true.
    revert Hok. unfold activate_leaf. rewrite Hc. rewrite !sbind_run. cbn [fst snd sret].
    intros [= Hok]. by apply activate_fresh_post in Hok as [Hcs []].
Qed.

(** Switching servers. When the new configuration is for the same device as
    the connection of its hop, activation never takes the interface down;
    success means that the connection of that hop, and no other, is replaced by
    the new one awaiting its handshake, that the poll is scheduled, and that the
    daemon asked to remove every route of the old configuration that the new one
    does not have. *)
Theorem activate_switches {W} `{InterfaceLaws W} `{AddressParser}
    (config : InterfaceConfig) (d : Daemon (Ledger W)) :
  supportServerSwitching d config = true ->
  (activate 2 config d).1 = Some true ->
  let d' := (activate 2 config d).2 in
  exists old,
    qm_find (m_hopType config) (m_connections d) = Some old /\
    qm_find (m_hopType config) (m_connections d') = Some (ConnectionState_new config) /\
    (forall hop, hop <> m_hopType config ->
       qm_find hop (m_connections d') = qm_find hop (m_connections d)) /\
    m_handshakeTimer d' = true /\ is_up d' = is_up d /\
    (forall ip, ip ∈ m_allowedIPAddressRanges (m_config old) ->
       ip ∉ m_allowedIPAddressRanges config -> ip ∉ routes_of d').
Proof.
  intros Hs. rewrite activate_leaf_run by auto. intros [Hok ->]%failure_guard_true.
  revert Hok. unfold activate_leaf. unfold supportServerSwitching in Hs.
  destruct (qm_find (m_hopType config) (m_connections d)) as [old|] eqn:Hf; [|done].
  assert (qm_contains (m_hopType config) (m_connections d) = true) as ->
    by (unfold qm_contains; by rewrite Hf).
  rewrite !sbind_run. cbn [fst snd sret]. intros [= Hok].
  destruct (activate_switch_post old config d Hf Hok) as (Hc & Ht & Hu & Hr).
  exists old. rewrite Hc. split_and!; [done|apply qm_find_insert_eq| |done..].
  intros hop Hne. apply qm_find_insert_ne. congruence.
Qed.

Lemma activate_switches_witness :
  let d := connected_daemon [] [cidr 10 0 0 0 8; cidr 192 168 0 0 16] in
  let c := example_config "two" [] [cidr 10 0 0 0 8] in
  cidr 192 168 0 0 16 ∈ routes_of d /\ cidr 192 168 0 0 16 ∉ routes_of (activate 2 c d).2.
Proof.
  cbn zeta. split; [vm_compute; reflexivity|].
  destruct (activate_switches (example_config "two" [] [cidr 10 0 0 0 8])
              (connected_daemon [] [cidr 10 0 0 0 8; cidr 192 168 0 0 16]))
    as (old & Hold & _ & _ & _ & _ & Hgone); [vm_compute; reflexivity..|].
  apply Hgone; rewrite list_elem_of_In; [|vm_compute; intuition discriminate].
  vm_compute in Hold. injection Hold as <-. vm_compute. tauto.
Defined.

(** C11. A successful deactivation withdraws everything: no connection and no
    counted exclusion remains; the daemon has asked the platform to remove every
    exclusion route it had been given and the route of every allowed range of a
    former connection (what the platform does then is its own: on Linux and macOS
    the request adds the route of a range again, see [delete_route_inserts]); the
    interface is gone, on a platform that tracks it; and [disconnected] is emitted
    exactly when the caller asked for signals. *)
Theorem deactivate_tears_down {W} `{InterfaceLaws W} `{AddressParser} (emitSignals : bool)
    (d : Daemon (Ledger W)) :
  reachable d ->
  (deactivate emitSignals d).1 = true ->
  let d' := (deactivate emitSignals d).2 in
  m_connections d' = [] /\ m_excludedAddrSet d' = ∅ /\ asked_exclusions (world d') = ∅ /\
  interfaceExists (ledger_machine (world d')) = false /\
  (forall hop state ip, (hop, state) ∈ m_connections d ->
     ip ∈ m_allowedIPAddressRanges (m_config state) -> ip ∉ asked_routes (world d')) /\
  emitted d' = app (emitted d) (if emitSignals then [disconnected] else []).
Proof.
  intros Hd Hok. exact (deactivate_post emitSignals d Hok (reachable_excl_inv d Hd)).
Qed.

(** The handshake poll. A connection that has its handshake is left alone;
    any other gets the time of the last matching handshake the interface
    reports, and one [connected] signal per such report, in the order of the
    hops; hops and configurations never change; the poll is rescheduled exactly
    when some connection is still without handshake. *)
Theorem checkHandshake_exact {W} `{WireguardUtils W} (d : Daemon W) :
  let peers := (getPeerStatus (world d)).1 in
  let d' := (checkHandshake d).2 in
  m_connections d' = map (λ kv, (kv.1, polled peers kv.2)) (m_connections d) /\
  emitted d' = app (emitted d) (List.concat (map (λ kv, announced peers kv.2) (m_connections d))) /\
  m_excludedAddrSet d' = m_excludedAddrSet d /\
  (m_handshakeTimer d' = true <-> exists kv, kv ∈ m_connections d' /\ m_date kv.2 = None).
Proof.
  cbn zeta. unfold checkHandshake. rewrite sbind_run. unfold on_world.
  destruct (getPeerStatus (world d)) as [peers w]. cbn [fst snd modify m_connections world].
  rewrite handshake_loop_spec. cbn [m_connections emitted m_excludedAddrSet m_handshakeTimer].
  split_and!; [done..|]. rewrite Z.ltb_lt. set (l := map _ _). clearbody l. split.
  - intros Hlen. destruct (List.filter pending l) as [|kv l'] eqn:E; [simpl in Hlen; lia|].
    assert (In kv (List.filter pending l)) as [Hin Hp]%filter_In by (rewrite E; by left).
    exists kv. split; [by apply list_elem_of_In|]. unfold pending in Hp. by destruct (m_date kv.2).
  - intros (kv & Hin%list_elem_of_In & Hd).
    assert (In kv (List.filter pending l)) as Hf.
    { apply filter_In. split; [done|]. unfold pending. by rewrite Hd. }
    destruct (List.filter pending l); [done|]. simpl. lia.
Qed.

(** The status report. It says [connected] exactly when the interface
    exists, there is a connection, and the interface lists a peer with the
    server key of the first connection; the transfer counters are then those of
    the first such peer, and the addresses those of that connection. *)
Theorem getStatus_exact {W} `{WireguardUtils W} (dateToString : option Z -> string) (d : Daemon W) :
  let json := (getStatus dateToString d).1 in
  let peers := (getPeerStatus (world d)).1 in
  value "connected" json = JBool
    (interfaceExists (world d) &&
     match m_connections d with
     | [] => false
     | (_, c) :: _ =>
         existsb (λ s, String.eqb (m_pubkey s) (qchars (m_serverPublicKey (m_config c)))) peers
     end) /\
  forall hop c l, m_connections d = (hop, c) :: l -> value "connected" json = JBool true ->
  exists s, s ∈ peers /\ m_pubkey s = qchars (m_serverPublicKey (m_config c)) /\
    value "txBytes" json = JInt (m_txBytes s) /\ value "rxBytes" json = JInt (m_rxBytes s) /\
    value "deviceIpv4Address" json = qjson (m_deviceIpv4Address (m_config c)) /\
    value "serverIpv4Gateway" json = qjson (m_serverIpv4Gateway (m_config c)).
Proof.
  cbn zeta. unfold getStatus. rewrite !gets_bind.
  destruct (m_connections d) as [|[hop c] l] eqn:Ec.
  { split; [|done]. cbn [fst sret]. json_lookup. by destruct (interfaceExists _). }
  destruct (interfaceExists (world d)); cbn [negb andb];
    [|split; [done|intros; cbn [fst sret] in *; discriminate]].
  rewrite !sbind_run. unfold on_world. destruct (getPeerStatus (world d)) as [peers w].
  cbn [fst snd]. destruct (List.find _ peers) as [s|] eqn:Ef; cbn [fst sret].
  - apply find_some in Ef as [Hin Hk]. split.
    + json_lookup. f_equal. symmetry. apply existsb_exists. eauto.
    + intros ? ? ? [= -> -> ->] _. exists s. apply String.eqb_eq in Hk.
      split_and!; json_lookup; try done. by apply list_elem_of_In.
  - split.
    + json_lookup. f_equal. symmetry. apply not_true_iff_false. rewrite existsb_exists.
      intros (s & Hin & Hk). eapply find_none in Ef; [|exact Hin]. simpl in Ef. congruence.
    + intros ? ? ? _. json_lookup. discriminate.
Qed.

(** An excluded network leaks when the server is switched. The exclusion of
    a network is added under its prefix but removed as a host address, which a
    network's text is not: after a successful switch to a configuration without
    exclusions the old network is still counted and the daemon has not asked to
    remove its exclusion route. *)
Theorem switch_leaks_excluded_network :
  exists (first second : InterfaceConfig) (d : Daemon (Ledger SimMachine)),
    d = (activate 2 first (fresh_daemon ∅)).2 /\
    m_excludedAddresses second = [] /\
    (activate 2 second d).1 = Some true /\
    m_excludedAddrSet (activate 2 second d).2 !! cidr 10 1 0 0 16 = Some 1 /\
    cidr 10 1 0 0 16 ∈ asked_exclusions (world (activate 2 second d).2).
Proof.
  exists (example_config "one" ["10.1.0.0/16"]%string [cidr 10 0 0 0 8]),
    (example_config "two" [] [cidr 10 0 0 0 8]).
  eexists. split; [reflexivity|]. split_and!; vm_compute; reflexivity.
Qed.
