(* ===== verification/JsonText.v ===== *)
(** * Line framing and JSON texts

    The two ends of the local socket, [DaemonLocalServerConnection::readData]
    (client/daemon/daemonlocalserverconnection.cpp) and
    [LocalSocketController::readData] (client/mozilla/localsocketcontroller.cpp),
    cut the bytes they receive into commands at the newlines and keep the
    unfinished last line in a buffer. This file holds the loop they share and its
    meaning, that the commands are the non-blank lines of the whole stream however
    it was cut into chunks, and the texts of JSON documents. *)
From Stdlib Require Import ZArith Lia Ascii String.
From stdpp Require Import base list strings option.
From S2P Require Import Prelude QtString QtContainers.
Local Open Scope string_scope.
Local Open Scope Z_scope.

(** One iteration: [None] when the buffer holds no newline; otherwise the
    trimmed line and the buffer behind it. *)
Definition next_line (m_buffer : string) : option (string * string) :=
  let pos := indexOf m_buffer nl in
  if pos =? -1 then None
  else
    let line := left_chars pos m_buffer in
    Some (trimmed line, mid (pos + 1) m_buffer).

(** The loop over the buffered lines; it returns the remaining buffer. *)
Fixpoint read_lines {S} (fuel : nat) (parseCommand : string -> StateM S unit) (m_buffer : string)
    : StateM S (option string) :=
  match fuel with
  | O => sret None
  | Datatypes.S fuel' =>
      match next_line m_buffer with
      | None => sret (Some m_buffer)
      | Some (command, rest) =>
          if String.eqb command "" then read_lines fuel' parseCommand rest
          else parseCommand command ;; read_lines fuel' parseCommand rest
      end
  end.

(** ** Specification *)

(** The complete lines of a text, and what follows the last newline. *)
Fixpoint cut (l : list string) : list string * string :=
  match l with
  | [] => ([], "")
  | [x] => ([], x)
  | x :: l' => let '(lines, rest) := cut l' in (x :: lines, rest)
  end.
Definition complete_lines (s : string) : list string := (cut (split nl s)).1.
Definition unfinished (s : string) : string := (cut (split nl s)).2.

Definition commands_of (lines : list string) : list string :=
  List.filter (λ c, negb (String.eqb c "")) (map trimmed lines).

(** ** Lemmas *)
Lemma nl_free_or_line s :
  nl_free s \/ exists a b, s = a +:+ nl +:+ b /\ nl_free a.
Proof.
  induction s as [|c s IH]; [by left|].
  destruct (Ascii.eqb_spec "010"%char c) as [<-|Hc].
  - right. exists "", s. done.
  - destruct IH as [Hs|(a & b & -> & Ha)].
    + left. apply nl_free_cons. by split.
    + right. exists (String c a), b. split; [done|]. apply nl_free_cons. by split.
Qed.

Lemma indexOf_line a b n : nl_free a -> indexOf_from (a +:+ nl +:+ b) nl n = n + slen a.
Proof.
  revert n; induction a as [|c a IH]; intros n Ha.
  - change ("" +:+ nl +:+ b) with (String "010"%char b). cbn [indexOf_from].
    rewrite startsWith_nl. unfold slen. simpl. lia.
  - apply nl_free_cons in Ha as [Hc Ha]. rewrite string_app_cons. cbn [indexOf_from].
    rewrite startsWith_nl. destruct (Ascii.eqb_spec "010"%char c); [congruence|].
    rewrite IH by done. unfold slen. cbn [String.length]. lia.
Qed.

Lemma indexOf_free s n : nl_free s -> indexOf_from s nl n = -1.
Proof.
  revert n; induction s as [|c s IH]; intros n Hs; [done|].
  apply nl_free_cons in Hs as [Hc Hs]. cbn [indexOf_from]. rewrite startsWith_nl.
  destruct (Ascii.eqb_spec "010"%char c); [congruence|]. auto.
Qed.

Lemma next_line_free s : nl_free s -> next_line s = None.
Proof. intros Hs. unfold next_line, indexOf. by rewrite indexOf_free. Qed.

Lemma next_line_some a b : nl_free a -> next_line (a +:+ nl +:+ b) = Some (trimmed a, b).
Proof.
  intros Ha. unfold next_line, indexOf. rewrite indexOf_line by done.
  destruct (Z.eqb_spec (0 + slen a) (-1)); [unfold slen in *; lia|].
  unfold left_chars. destruct (Z.ltb_spec (0 + slen a) 0); [unfold slen in *; lia|].
  replace (Z.to_nat (0 + slen a)) with (String.length a) by (unfold slen; lia).
  rewrite take_chars_app. unfold mid.
  replace (Z.to_nat (0 + slen a + 1)) with (String.length (a +:+ nl)).
  { rewrite <- string_app_assoc. by rewrite drop_chars_app. }
  rewrite string_length_app. unfold slen. simpl. lia.
Qed.

Lemma split_free s acc : nl_free s -> split_from s nl 0 acc = [acc +:+ s].
Proof.
  revert acc; induction s as [|c s IH]; intros acc Hs; [by rewrite string_app_nil_r|].
  apply nl_free_cons in Hs as [Hc Hs]. cbn [split_from]. rewrite startsWith_nl.
  destruct (Ascii.eqb_spec "010"%char c); [congruence|]. rewrite IH by done.
  by rewrite string_app_assoc.
Qed.

Lemma cut_cons x l : l <> [] -> cut (x :: l) = (x :: (cut l).1, (cut l).2).
Proof. intros Hl. simpl. destruct l; [done|]. by destruct (cut (_ :: _)). Qed.

Lemma lines_free s : nl_free s -> complete_lines s = [] /\ unfinished s = s.
Proof. intros Hs. unfold complete_lines, unfinished, split. by rewrite split_free. Qed.

Lemma lines_cons a b : nl_free a ->
  complete_lines (a +:+ nl +:+ b) = a :: complete_lines b /\
  unfinished (a +:+ nl +:+ b) = unfinished b.
Proof.
  intros Ha. unfold complete_lines, unfinished, split. rewrite split_from_line by done.
  rewrite cut_cons by apply split_from_not_nil. done.
Qed.

(** Induction on the lines of a text. *)
Lemma lines_ind (P : string -> Prop) :
  (forall s, nl_free s -> P s) ->
  (forall a b, nl_free a -> P b -> P (a +:+ nl +:+ b)) -> forall s, P s.
Proof.
  intros Hf Hc s. remember (String.length s) as n eqn:En.
  revert s En. induction (lt_wf n) as [n _ IH]. intros s ->.
  destruct (nl_free_or_line s) as [Hs|(a & b & -> & Ha)]; [by apply Hf|].
  apply Hc; [done|]. eapply IH; [|reflexivity]. rewrite !string_length_app. simpl. lia.
Qed.

Lemma unfinished_free s : nl_free (unfinished s).
Proof.
  induction s as [s Hs|a b Ha IH] using lines_ind.
  - by destruct (lines_free s Hs) as [_ ->].
  - by destruct (lines_cons a b Ha) as [_ ->].
Qed.

(** Appending to a text finishes its last line and adds the new ones. *)
Lemma lines_app s t :
  complete_lines (s +:+ t) = app (complete_lines s) (complete_lines (unfinished s +:+ t)) /\
  unfinished (s +:+ t) = unfinished (unfinished s +:+ t).
Proof.
  induction s as [s Hs|a b Ha [IH1 IH2]] using lines_ind.
  - by destruct (lines_free s Hs) as [-> ->].
  - rewrite !string_app_assoc. destruct (lines_cons a b Ha) as [-> ->].
    destruct (lines_cons a (b +:+ t) Ha) as [-> ->]. by rewrite IH1, IH2.
Qed.

(** The loop handles the complete lines and returns the unfinished one; the
    length of the buffer bounds its iterations. *)
Lemma read_lines_spec {S} (parseCommand : string -> StateM S unit) fuel s st :
  (String.length s < fuel)%nat ->
  read_lines fuel parseCommand s st =
    (Some (unfinished s), (for_each (commands_of (complete_lines s)) parseCommand st).2).
Proof.
  revert fuel st. induction s as [s Hs|a b Ha IH] using lines_ind; intros [|fuel] st Hfuel;
    try lia; cbn [read_lines].
  - rewrite next_line_free by done. by destruct (lines_free s Hs) as [-> ->].
  - rewrite next_line_some by done. destruct (lines_cons a b Ha) as [-> ->].
    assert (String.length b < fuel)%nat as Hb.
    { rewrite !string_length_app in Hfuel. simpl in Hfuel. lia. }
    unfold commands_of. cbn [map List.filter]. fold (commands_of (complete_lines b)).
    destruct (String.eqb (trimmed a) ""); cbn [negb]; [by apply IH|].
    cbn [for_each]. rewrite !sbind_run. by apply IH.
Qed.

Lemma for_each_app {S A} (l l' : list A) (body : A -> StateM S unit) st :
  (for_each (app l l') body st).2 = (for_each l' body (for_each l body st).2).2.
Proof.
  revert st; induction l as [|x l IH]; intros st; [done|]. cbn [app for_each].
  by rewrite !sbind_run, IH.
Qed.

Lemma commands_of_app l l' : commands_of (app l l') = app (commands_of l) (commands_of l').
Proof. unfold commands_of. by rewrite map_app, List.filter_app. Qed.

(** ** JSON text

    [QJsonDocument::fromJson] and [QJsonDocument::toJson(Compact)] are Qt's; the
    two ends of the local socket exchange objects in that form, one per line. *)
Local Open Scope string_scope.

(** [fromJson] is the document's object, [None] when the text is not one. *)
Class JsonText := {
  fromJson : string -> option QJsonObject;
  compact : QJsonObject -> string
}.

(** What Qt documents of the compact form, for one object: it is read back as
    the same object, it is a single line, and it starts and ends with a brace. *)
Record faithful `{JsonText} (o : QJsonObject) : Prop := {
  faithful_read : fromJson (compact o) = Some o;
  faithful_line : nl_free (compact o);
  faithful_braces : trimmed (compact o) = compact o;
  faithful_nonempty : compact o <> ""
}.

(** [m_socket->write(QJsonDocument(obj).toJson(Compact)); m_socket->write("\n");] *)
Definition message `{JsonText} (obj : QJsonObject) : string := compact obj +:+ nl.

Definition stream `{JsonText} (l : list QJsonObject) : string := foldr (λ o s, message o +:+ s) "" l.

(** ** Lemmas *)
Lemma stream_unlines `{JsonText} l : stream l = unlines (map compact l).
Proof.
  induction l as [|o l IH]; [done|]. cbn [stream foldr map unlines].
  fold (stream l). fold (unlines (map compact l)). rewrite IH. unfold message.
  by rewrite string_app_assoc.
Qed.

Lemma cut_snoc ls x : cut (app ls [x]) = (ls, x).
Proof.
  induction ls as [|l ls IH]; [done|]. simpl app. rewrite cut_cons; [by rewrite IH|].
  by destruct ls.
Qed.

(** The lines of a stream of messages are the messages. *)
Lemma stream_lines `{JsonText} l :
  Forall faithful l ->
  commands_of (complete_lines (stream l)) = map compact l /\ unfinished (stream l) = "".
Proof.
  intros Hl. unfold complete_lines, unfinished. rewrite stream_unlines, split_unlines.
  2: { apply Forall_map. eapply list.Forall_impl; [exact Hl|]. by intros o []. }
  rewrite cut_snoc. split; [|done]. cbn [fst]. unfold commands_of. rewrite map_map.
  induction Hl as [|o l [_ _ Hb Hn] Hl IH]; [done|]. cbn [map List.filter]. rewrite Hb, IH.
  destruct (String.eqb_spec (compact o) ""); [done|reflexivity].
Qed.

(** ** A table as a codec, for the examples *)
Definition table_codec (table : list (string * QJsonObject)) : JsonText := {|
  fromJson := λ s, snd <$> List.find (λ e, String.eqb s e.1) table;
  compact := λ o, match List.find (λ e, json_eqb (JObject o) (JObject e.2)) table with
                  | Some e => e.1 | None => "{}" end
|}.
