(* ===== verification/DaemonConnection.v ===== *)
(** * The daemon's end of the local socket

    Model of [DaemonLocalServerConnection]
    (client/daemon/daemonlocalserverconnection.cpp): commands of the client are
    read line by line and dispatched to the daemon, whose signals are sent back
    as messages. *)
From Stdlib Require Import ZArith Lia Ascii String.
From stdpp Require Import base gmap list strings option.
From S2P Require Import Prelude HostAddress QtString IpAddress QtContainers InterfaceConfig.
From S2P Require Import DaemonConfig WireguardUtils Daemon DaemonProperties JsonText.
Local Open Scope string_scope.
Local Open Scope Z_scope.

(** What a connection works on: the daemon and the bytes sent to the client. *)
Record Session (W : Type) := mkSession {
  daemon : Daemon W;
  sent : string
}.
Arguments mkSession {W}.
Arguments daemon {W}.
Arguments sent {W}.

Record DaemonLocalServerConnection (W : Type) := mkServerConnection {
  server_buffer : string;        (* m_buffer *)
  session : Session W
}.
Arguments mkServerConnection {W}.
Arguments server_buffer {W}.
Arguments session {W}.

Definition msg_connected (pubkey : string) : QJsonObject :=
  jinsert "pubkey" (JString pubkey) (jinsert "type" (JString "connected") []).
Definition msg_disconnected : QJsonObject := jinsert "type" (JString "disconnected") [].
Definition msg_backendFailure : QJsonObject := jinsert "type" (JString "backendFailure") [].

(** The slots connected to the daemon's signals. *)
Definition signal_message (s : Signal) : list QJsonObject :=
  match s with
  | connected pubkey => [msg_connected pubkey]
  | disconnected => [msg_disconnected]
  | backendFailure => [msg_backendFailure]
  | activationFailure => []
  end.

Section Connection.
Context {W : Type} `{WireguardUtils W} `{DaemonPlatform W}.
Context `{AddressParser} `{HopKeys} `{JsonText}.
(** The build targets Windows; [QDateTime::toString()]. *)
Context (windows : bool) (dateToString : option Z -> string).

Abbreviation SessionM := (StateM (Session W)).

Definition write (obj : QJsonObject) : SessionM unit :=
  modify (λ s, mkSession (daemon s) (sent s +:+ message obj)).

(** A call of the daemon: the signals it emits are written as they come. *)
Definition call {A} (m : StateM (Daemon W) A) : SessionM A := λ s,
  let '(a, d) := m (daemon s) in
  let emitted_now := drop (List.length (emitted (daemon s))) (emitted d) in
  (a, (for_each (List.concat (map signal_message emitted_now)) write (mkSession d (sent s))).2).

Definition handle_activate (obj : QJsonObject) : SessionM unit :=
  match parseConfig windows obj (InterfaceConfig_new SingleHop false) with
  | None => write msg_disconnected
  | Some config =>
      ok <- call (activate 2 config) ;;
      match ok with
      | Some true => sret tt
      | _ => write msg_disconnected
      end
  end.

Definition handle_status : SessionM unit :=
  obj <- call (getStatus dateToString) ;;
  write (jinsert "type" (JString "status") obj).

(** [Daemon::logs()] is empty. *)
Definition handle_logs : SessionM unit :=
  write (jinsert "logs" (JString (replace_all nl "|" "")) (jinsert "type" (JString "logs") [])).

(** The dispatch on a command's object. *)
Definition handle (obj : QJsonObject) : SessionM unit :=
  let typeValue := value "type" obj in
  if negb (isString typeValue) then sret tt else
  let type := toString typeValue in
  if String.eqb type "activate" then handle_activate obj
  else if String.eqb type "deactivate" then call (deactivate true) ;; sret tt
  else if String.eqb type "status" then handle_status
  else if String.eqb type "logs" then handle_logs
  else if String.eqb type "cleanlogs" then sret tt
  else sret tt.

Definition server_parseCommand (data : string) : SessionM unit :=
  match fromJson data with
  | None => sret tt
  | Some obj => handle obj
  end.

(** [readData]: [chunks] are the results of the successive [readAll] calls,
    after which it returns nothing. *)
Fixpoint server_readData (chunks : list string) (c : DaemonLocalServerConnection W)
    : DaemonLocalServerConnection W :=
  let '(rest, s) :=
    read_lines (S (String.length (server_buffer c))) server_parseCommand (server_buffer c)
      (session c) in
  let c' := mkServerConnection (default "" rest) s in
  match chunks with
  | [] => c'
  | input :: chunks' =>
      if String.eqb input "" then c'
      else server_readData chunks' (mkServerConnection (server_buffer c' +:+ input) s)
  end.
End Connection.

(** ** Lemmas *)
Section Lemmas.
Context {W : Type} `{WireguardUtils W} `{DaemonPlatform W}.
Context `{AddressParser} `{HopKeys} `{JsonText}.
Context (windows : bool) (dateToString : option Z -> string).

Abbreviation parse := (server_parseCommand windows dateToString).
Abbreviation readData := (server_readData windows dateToString).

(** The commands of the buffered and the arriving bytes, however they arrive. *)
Lemma readData_spec chunks (c : DaemonLocalServerConnection W) :
  Forall (λ s, s <> "") chunks ->
  let text := server_buffer c +:+ foldr (λ a b, a +:+ b) "" chunks in
  readData chunks c =
    mkServerConnection (unfinished text)
      (for_each (commands_of (complete_lines text)) parse (session c)).2.
Proof.
  intros Hc. revert c. induction Hc as [|input chunks Hi Hc IH]; intros c; cbn [server_readData].
  - rewrite read_lines_spec by lia. cbn [foldr default]. by rewrite string_app_nil_r.
  - rewrite read_lines_spec by lia. cbn [default server_buffer].
    destruct (String.eqb_spec input ""); [done|]. rewrite IH.
    cbn [server_buffer session foldr]. rewrite string_app_assoc.
    destruct (lines_app (server_buffer c) (input +:+ foldr (λ a b, a +:+ b) "" chunks)) as [-> ->].
    by rewrite commands_of_app, for_each_app.
Qed.

Lemma for_each_write l (s : Session W) :
  (for_each l write s).2 = mkSession (daemon s) (sent s +:+ stream l).
Proof.
  revert s; induction l as [|o l IH]; intros s; cbn [for_each].
  - destruct s. cbn. by rewrite string_app_nil_r.
  - rewrite sbind_run, IH. cbn. by rewrite string_app_assoc.
Qed.

Lemma call_run {A} (m : StateM (Daemon W) A) (s : Session W) new :
  emitted (m (daemon s)).2 = app (emitted (daemon s)) new ->
  call m s = ((m (daemon s)).1,
              mkSession (m (daemon s)).2 (sent s +:+ stream (List.concat (map signal_message new)))).
Proof.
  unfold call. destruct (m (daemon s)) as [a d]. cbn [fst snd]. intros ->.
  rewrite drop_app_length, for_each_write. done.
Qed.

(** Handling the text of a faithful message is handling its object. *)
Lemma parse_faithful o (s : Session W) :
  faithful o -> parse (compact o) s = handle windows dateToString o s.
Proof. intros [Hr _ _ _]. unfold server_parseCommand. by rewrite Hr. Qed.

Lemma for_each_parse l (s : Session W) :
  Forall faithful l ->
  (for_each (map compact l) parse s).2 = (for_each l (handle windows dateToString) s).2.
Proof.
  intros Hl. revert s; induction Hl as [|o l Ho Hl IH]; intros s; [done|].
  cbn [map for_each]. rewrite !sbind_run, parse_faithful by done. apply IH.
Qed.
End Lemmas.

(** ** Properties *)

(** Every request for activation is answered. A request the daemon cannot
    parse leaves it alone and is answered by one [disconnected] message; any
    other is one run of [activate], after which exactly one [disconnected]
    message was sent when the activation failed, and nothing when it succeeded:
    the client learns of success from the later [connected] message only. *)
Theorem activation_answered {W} `{WireguardUtils W} `{DaemonPlatform W} `{AddressParser}
    `{HopKeys} `{JsonText} windows dateToString (obj : QJsonObject) (s : Session W) :
  value "type" obj = JString "activate" ->
  (handle windows dateToString obj s).2 =
    match parseConfig windows obj (InterfaceConfig_new SingleHop false) with
    | None => mkSession (daemon s) (sent s +:+ message msg_disconnected)
    | Some config =>
        mkSession (activate 2 config (daemon s)).2
          (match (activate 2 config (daemon s)).1 with
           | Some true => sent s
           | _ => sent s +:+ message msg_disconnected
           end)
    end.
Proof.
  intros Ht. unfold handle. rewrite Ht. cbn [isString negb toString].
  change (String.eqb "activate" "activate") with true. cbv iota. unfold handle_activate.
  destruct (parseConfig windows obj _) as [config|]; [|done].
  destruct (activate_outcome config (daemon s)) as (_ & ok & Ea & Hok).
  rewrite sbind_run, Ea. destruct ok.
  - rewrite (call_run _ _ []) by (by rewrite app_nil_r). cbn [fst snd]. rewrite Ea.
    cbn [map List.concat stream foldr sret snd]. by rewrite string_app_nil_r.
  - destruct Hok as [He|(_ & _ & _ & He)]; rewrite (call_run _ _ _ He); cbn [fst snd]; rewrite Ea;
      cbn [map List.concat stream foldr signal_message app write modify snd sent daemon];
      by rewrite string_app_nil_r.
Qed.

Definition example_text : list (string * QJsonObject) :=
  [ ("{type:activate}", jinsert "type" (JString "activate") []);
    ("{type:deactivate}", jinsert "type" (JString "deactivate") []);
    ("{type:disconnected}", msg_disconnected) ].

Lemma activation_answered_witness :
  let _ := ipv4_parser in let _ := plain_keys in let _ := table_codec example_text in
  sent (handle false (λ _, "") (jinsert "type" (JString "activate") [])
          (mkSession (fresh_daemon ∅) "")).2 = "{type:disconnected}" +:+ nl.
Proof.
  intros parser keys json.
  rewrite (activation_answered false (λ _, "") (jinsert "type" (JString "activate") [])
             (mkSession (fresh_daemon ∅) "") eq_refl).
  vm_compute. reflexivity.
Defined.

(** C38. The stream of commands is independent of how it is cut. Whatever
    non-empty chunks the socket delivers, the daemon executes exactly the
    messages written by the client, completely and in their order, and keeps
    nothing back once the last newline arrived. *)
Theorem messages_delivered {W} `{WireguardUtils W} `{DaemonPlatform W} `{AddressParser}
    `{HopKeys} `{JsonText} windows dateToString (msgs : list QJsonObject) (chunks : list string)
    (s : Session W) :
  Forall faithful msgs ->
  Forall (λ c, c <> "") chunks ->
  foldr (λ a b, a +:+ b) "" chunks = stream msgs ->
  server_readData windows dateToString chunks (mkServerConnection "" s) =
    mkServerConnection "" (for_each msgs (handle windows dateToString) s).2.
Proof.
  intros Hm Hc Hs. rewrite readData_spec by done. cbn zeta. cbn [server_buffer session].
  change ("" +:+ ?x) with x. rewrite Hs. destruct (stream_lines msgs Hm) as [-> ->].
  by rewrite for_each_parse.
Qed.

Lemma messages_delivered_witness :
  let _ := ipv4_parser in let _ := plain_keys in let _ := table_codec example_text in
  let s := mkSession (fresh_daemon ∅) "" in
  let obj := jinsert "type" (JString "deactivate") [] in
  server_readData false (λ _, "") ["{type:dea"; "ctivate}" +:+ nl +:+ "{type:deact"; "ivate}" +:+ nl]
      (mkServerConnection "" s) =
    mkServerConnection "" (for_each [obj; obj] (handle false (λ _, "")) s).2.
Proof.
  intros parser keys json s obj.
  assert (faithful obj) as Hf by (split; vm_compute; congruence).
  apply (messages_delivered false (λ _, "") [obj; obj]); [by repeat constructor| |reflexivity].
  repeat constructor; discriminate.
Defined.
