(* ===== verification/LocalSocketController.v ===== *)
(** * The client's end of the local socket

    Model of [LocalSocketController] (client/mozilla/localsocketcontroller.cpp):
    the connection to the daemon with its bounded retries, the requests, among
    them the activation request built from the client's configuration, and the
    handling of the daemon's messages. *)
From Stdlib Require Import ZArith Lia QArith Ascii String Sorted.
From stdpp Require Import base gmap list strings option.
From S2P Require Import Prelude HostAddress QtString IpAddress QtContainers InterfaceConfig.
From S2P Require Import DaemonConfig WireguardUtils Daemon DaemonProperties JsonText.
Local Open Scope string_scope.
Local Open Scope Z_scope.

Definition MAX_CONNECTION_RETRY : Z := 10.

Inductive DaemonState := eUnknown | eInitializing | eReady | eDisconnected.

#[export] Instance DaemonState_eq_dec : EqDecision DaemonState.
Proof. solve_decision. Defined.

(** The signals of [ControllerImpl]; a date is [None] when it is not valid. *)
Inductive ControllerSignal :=
| ctl_initialized (status connected : bool) (date : option Z)
| ctl_connected (pubkey : string)
| ctl_disconnected
| ctl_statusUpdated (serverIpv4Gateway deviceIpv4Address : string) (txBytes rxBytes : Z).

Record LocalSocketController := mkController {
  m_daemonState : DaemonState;
  m_buffer : string;
  m_logCallback : option Z;            (* which callback waits for the logs *)
  m_initializingTimer : bool;
  m_initializingRetry : Z;
  attempts : Z;                        (* calls of connectToServer *)
  out : string;                        (* bytes written to the socket *)
  signals : list ControllerSignal;
  logs_given : list (Z * string)       (* calls of the callbacks *)
}.

Definition LocalSocketController_new : LocalSocketController :=
  mkController eUnknown "" None false 0 0 "" [] [].

Abbreviation ControllerM := (StateM LocalSocketController).

Definition set_state (st : DaemonState) : ControllerM unit :=
  modify (λ c, mkController st (m_buffer c) (m_logCallback c) (m_initializingTimer c)
                 (m_initializingRetry c) (attempts c) (out c) (signals c) (logs_given c)).
Definition set_buffer (b : string) : ControllerM unit :=
  modify (λ c, mkController (m_daemonState c) b (m_logCallback c) (m_initializingTimer c)
                 (m_initializingRetry c) (attempts c) (out c) (signals c) (logs_given c)).
Definition set_callback (cb : option Z) : ControllerM unit :=
  modify (λ c, mkController (m_daemonState c) (m_buffer c) cb (m_initializingTimer c)
                 (m_initializingRetry c) (attempts c) (out c) (signals c) (logs_given c)).
Definition set_timer (b : bool) : ControllerM unit :=
  modify (λ c, mkController (m_daemonState c) (m_buffer c) (m_logCallback c) b
                 (m_initializingRetry c) (attempts c) (out c) (signals c) (logs_given c)).
Definition set_retry (f : Z -> Z) : ControllerM unit :=
  modify (λ c, mkController (m_daemonState c) (m_buffer c) (m_logCallback c)
                 (m_initializingTimer c) (f (m_initializingRetry c)) (attempts c) (out c)
                 (signals c) (logs_given c)).
Definition connectToServer : ControllerM unit :=
  modify (λ c, mkController (m_daemonState c) (m_buffer c) (m_logCallback c)
                 (m_initializingTimer c) (m_initializingRetry c) (attempts c + 1) (out c)
                 (signals c) (logs_given c)).
Definition emit (s : ControllerSignal) : ControllerM unit :=
  modify (λ c, mkController (m_daemonState c) (m_buffer c) (m_logCallback c)
                 (m_initializingTimer c) (m_initializingRetry c) (attempts c) (out c)
                 (app (signals c) [s]) (logs_given c)).
Definition give_logs (cb : Z) (text : string) : ControllerM unit :=
  modify (λ c, mkController (m_daemonState c) (m_buffer c) (m_logCallback c)
                 (m_initializingTimer c) (m_initializingRetry c) (attempts c) (out c)
                 (signals c) (app (logs_given c) [(cb, text)])).

(** ** The activation request *)
Definition range_entry (address : string) (range : Z) (isIpv6 : bool) : QJsonValue :=
  JObject (jinsert "isIpv6" (JBool isIpv6)
          (jinsert "range" (JInt range) (jinsert "address" (JString address) []))).

Definition listed_range (v : QJsonValue) : QJsonValue :=
  let ipRange := toString v in
  match split "/" ipRange with
  | address :: prefix :: _ => range_entry address (atoi prefix) false
  | _ => range_entry ipRange 32 false
  end.

(** [QJsonArray::append] stores an undefined value as null. *)
Definition array_item (v : QJsonValue) : QJsonValue :=
  match v with JUndefined => JNull | _ => v end.

Definition defaultAllowedIP : list QJsonValue := [JString "0.0.0.0/0"; JString "::/0"].

Definition allowed_ranges (plainAllowedIP splitTunnelSites : list QJsonValue)
    (splitTunnelType : Z) : list QJsonValue :=
  if negb (array_eqb plainAllowedIP defaultAllowedIP) &&
     negb (bool_decide (List.length plainAllowedIP = 0%nat))
  then map listed_range plainAllowedIP
  else
    app (if (splitTunnelType =? 0) || (splitTunnelType =? 2)
         then [range_entry "0.0.0.0" 0 false; range_entry "::" 0 true] else [])
        (if splitTunnelType =? 1 then map listed_range splitTunnelSites else []).

Definition awg_keys : list string := ["Jc"; "Jmin"; "Jmax"; "S1"; "S2"; "H1"; "H2"; "H3"; "H4"].

Definition copy_awg (wgConfig json : QJsonObject) : QJsonObject :=
  foldl (λ json k, jinsert k (value k wgConfig) json) json awg_keys.

Definition add_awg (protocolName : string) (wgConfig json : QJsonObject) : QJsonObject :=
  if String.eqb protocolName "awg" then copy_awg wgConfig json
  else if forallb (λ k, negb (isUndefined (value k wgConfig))) awg_keys
  then copy_awg wgConfig json
  else json.

Definition wg_config (rawConfig : QJsonObject) : QJsonObject :=
  toObject (value (toString (value "protocol" rawConfig) +:+ "_config_data") rawConfig).

Definition activation_request (rawConfig : QJsonObject) : QJsonObject :=
  let protocolName := toString (value "protocol" rawConfig) in
  let splitTunnelType := json_toInt (value "splitTunnelType" rawConfig) in
  let splitTunnelSites := toArray (value "splitTunnelSites" rawConfig) in
  let splitTunnelApps := toArray (value "splitTunnelApps" rawConfig) in
  let wgConfig := wg_config rawConfig in
  let json := jinsert "type" (JString "activate") [] in
  let json := jinsert "privateKey" (value "client_priv_key" wgConfig) json in
  let json := jinsert "deviceIpv4Address" (value "client_ip" wgConfig) json in
  let json := jinsert "deviceIpv6Address" (JString "fd58:baa6:dead::1") json in
  let json := jinsert "serverPublicKey" (value "server_pub_key" wgConfig) json in
  let json := jinsert "serverPskKey" (value "psk_key" wgConfig) json in
  let json := jinsert "serverIpv4AddrIn" (value "hostName" wgConfig) json in
  let json := jinsert "deviceMTU" (value "mtu" wgConfig) json in
  let json := jinsert "serverPort" (JInt (json_toInt (value "port" wgConfig))) json in
  let json := jinsert "serverIpv4Gateway" (value "hostName" wgConfig) json in
  let json := jinsert "dnsServer" (value "dns1" rawConfig) json in
  let plainAllowedIP := toArray (value "allowed_ips" wgConfig) in
  let json := jinsert "allowedIPAddressRanges"
                (JArray (allowed_ranges plainAllowedIP splitTunnelSites splitTunnelType)) json in
  let jsExcludedAddresses :=
    array_item (value "hostName" wgConfig) ::
    (if splitTunnelType =? 2 then map (λ v, JString (toString v)) splitTunnelSites else []) in
  let json := jinsert "excludedAddresses" (JArray jsExcludedAddresses) json in
  let json := jinsert "vpnDisabledApps" (JArray splitTunnelApps) json in
  let json := jinsert "killSwitchOption" (value "killSwitchOption" rawConfig) json in
  add_awg protocolName wgConfig json.

(** ** Operations *)
Section Operations.
Context `{JsonText}.
(** [QDateTime::fromString] is Qt's. *)
Context (dateFromString : string -> option Z).

Definition ctl_write (json : QJsonObject) : ControllerM unit :=
  modify (λ c, mkController (m_daemonState c) (m_buffer c) (m_logCallback c)
                 (m_initializingTimer c) (m_initializingRetry c) (attempts c)
                 (out c +:+ message json) (signals c) (logs_given c)).

Definition request (type : string) : QJsonObject := jinsert "type" (JString type) [].

Definition disconnectInternal : ControllerM unit :=
  set_state eReady ;;
  set_retry (λ _, 0) ;;
  set_timer false ;;
  emit ctl_disconnected.

(** [m_initializingRetry++ < MAX_CONNECTION_RETRY] on a [uint32_t]. *)
Definition errorOccurred : ControllerM unit :=
  st <- gets m_daemonState ;;
  if bool_decide (st = eInitializing) then
    retry <- gets m_initializingRetry ;;
    set_retry (λ r, u32 (r + 1)) ;;
    if retry <? MAX_CONNECTION_RETRY then set_timer true
    else
      emit (ctl_initialized false false None) ;;
      disconnectInternal
  else disconnectInternal.

Definition initializeInternal : ControllerM unit :=
  set_state eInitializing ;;
  connectToServer.

Definition ctl_initialize : ControllerM unit :=
  set_retry (λ _, 0) ;;
  initializeInternal.

(** The single-shot timer fires: it is no longer running. *)
Definition initializing_timeout : ControllerM unit :=
  set_timer false ;;
  initializeInternal.

Definition checkStatus : ControllerM unit :=
  st <- gets m_daemonState ;;
  if bool_decide (st = eReady) || bool_decide (st = eInitializing)
  then ctl_write (request "status") else sret tt.

Definition daemonConnected : ControllerM unit := checkStatus.

Definition ctl_activate (rawConfig : QJsonObject) : ControllerM unit :=
  ctl_write (activation_request rawConfig).

Definition ctl_deactivate : ControllerM unit :=
  st <- gets m_daemonState ;;
  if negb (bool_decide (st = eReady)) then emit ctl_disconnected
  else ctl_write (request "deactivate") ;; emit ctl_disconnected.

(** The socket's own signal is forwarded. *)
Definition socket_disconnected : ControllerM unit := emit ctl_disconnected.

(** The waiting callback, if any, is called with no logs and dropped. *)
Definition drop_callback : ControllerM unit :=
  cb <- gets m_logCallback ;;
  match cb with
  | Some id => give_logs id "" ;; set_callback None
  | None => sret tt
  end.

Definition getBackendLogs (a_callback : Z) : ControllerM unit :=
  drop_callback ;;
  st <- gets m_daemonState ;;
  if negb (bool_decide (st = eReady)) then give_logs a_callback ""
  else
    set_callback (Some a_callback) ;;
    ctl_write (request "logs").

Definition cleanupBackendLogs : ControllerM unit :=
  drop_callback ;;
  st <- gets m_daemonState ;;
  if negb (bool_decide (st = eReady)) then sret tt else ctl_write (request "cleanlogs").

(** ** Messages of the daemon *)
Definition handle_first_status (obj : QJsonObject) : ControllerM unit :=
  set_state eReady ;;
  let conn := value "connected" obj in
  if negb (isBool conn) then sret tt
  else if toBool conn then
    let date := value "date" obj in
    if negb (isString date) then sret tt
    else
      match dateFromString (toString date) with
      | None => sret tt
      | Some t => emit (ctl_initialized true true (Some t))
      end
  else emit (ctl_initialized true false None).

Definition handle_status_update (obj : QJsonObject) : ControllerM unit :=
  let gateway := value "serverIpv4Gateway" obj in
  let device := value "deviceIpv4Address" obj in
  let tx := value "txBytes" obj in
  let rx := value "rxBytes" obj in
  if negb (isString gateway) then sret tt else
  if negb (isString device) then sret tt else
  if negb (isDouble tx) then sret tt else
  if negb (isDouble rx) then sret tt else
  emit (ctl_statusUpdated (toString gateway) (toString device)
          (double_to_int (toDouble tx)) (double_to_int (toDouble rx))).

Definition handle_logs_reply (obj : QJsonObject) : ControllerM unit :=
  cb <- gets m_logCallback ;;
  match cb with
  | None => sret tt
  | Some id =>
      let logs := value "logs" obj in
      give_logs id (if isString logs then replace_all "|" nl (toString logs) else "") ;;
      set_callback None
  end.

Definition ctl_handle (obj : QJsonObject) : ControllerM unit :=
  let typeValue := value "type" obj in
  if negb (isString typeValue) then sret tt else
  let type := toString typeValue in
  st <- gets m_daemonState ;;
  if bool_decide (st = eInitializing) && String.eqb type "status" then handle_first_status obj
  else if negb (bool_decide (st = eReady)) then sret tt
  else if String.eqb type "status" then handle_status_update obj
  else if String.eqb type "disconnected" then disconnectInternal
  else if String.eqb type "connected" then
    let pubkey := value "pubkey" obj in
    if negb (isString pubkey) then sret tt else emit (ctl_connected (toString pubkey))
  else if String.eqb type "backendFailure" then sret tt
  else if String.eqb type "logs" then handle_logs_reply obj
  else sret tt.

Definition ctl_parseCommand (command : string) : ControllerM unit :=
  match fromJson command with
  | None => sret tt
  | Some obj => ctl_handle obj
  end.

Definition ctl_readData (input : string) : ControllerM unit :=
  buffer <- gets m_buffer ;;
  let text := buffer +:+ input in
  rest <- read_lines (S (String.length text)) ctl_parseCommand text ;;
  set_buffer (default "" rest).
End Operations.

(** ** Lemmas on the activation request *)
Lemma value_foldl_copy (wg : QJsonObject) k ks json :
  value k (foldl (λ json k, jinsert k (value k wg) json) json ks) =
    if bool_decide (k ∈ ks) then value k wg else value k json.
Proof.
  revert json; induction ks as [|k' ks IH]; intros json; [done|]. cbn [foldl]. rewrite IH.
  destruct (bool_decide_reflect (k ∈ ks)) as [Hin|Hout].
  - rewrite bool_decide_eq_true_2; [done|]. by apply elem_of_cons; right.
  - destruct (String.eqb_spec k' k) as [->|Hne].
    + rewrite value_insert_eq. rewrite bool_decide_eq_true_2; [done|]. by apply elem_of_cons; left.
    + rewrite value_insert_ne by done. rewrite bool_decide_eq_false_2; [done|].
      rewrite elem_of_cons. intros [->|?]; auto.
Qed.

Lemma value_add_awg p wg json k :
  k ∉ awg_keys -> value k (add_awg p wg json) = value k json.
Proof.
  intros Hk. unfold add_awg, copy_awg.
  destruct (String.eqb p "awg"); [by rewrite value_foldl_copy, bool_decide_eq_false_2|].
  destruct (forallb _ _); [by rewrite value_foldl_copy, bool_decide_eq_false_2|done].
Qed.

(** Looks a key up in the request. *)
Ltac request_lookup :=
  unfold activation_request;
  rewrite value_add_awg by (rewrite list_elem_of_In; simpl; intuition discriminate); json_lookup.

(** The configurations that the client's own code produces. *)
Record request_ok (rawConfig : QJsonObject) (privateKey publicKey host : string) : Prop := {
  req_privateKey : value "client_priv_key" (wg_config rawConfig) = JString privateKey;
  req_publicKey : value "server_pub_key" (wg_config rawConfig) = JString publicKey;
  req_host : value "hostName" (wg_config rawConfig) = JString host;
  req_dns : value "dns1" rawConfig = JUndefined \/ isString (value "dns1" rawConfig) = true;
  req_apps : Forall (λ v, isString v = true) (toArray (value "splitTunnelApps" rawConfig))
}.

Section Lookups.
Context (raw : QJsonObject).
Lemma req_value_privateKey :
  value "privateKey" (activation_request raw) = value "client_priv_key" (wg_config raw).
Proof. by request_lookup. Qed.
Lemma req_value_publicKey :
  value "serverPublicKey" (activation_request raw) = value "server_pub_key" (wg_config raw).
Proof. by request_lookup. Qed.
Lemma req_value_psk : value "serverPskKey" (activation_request raw) = value "psk_key" (wg_config raw).
Proof. by request_lookup. Qed.
Lemma req_value_port :
  value "serverPort" (activation_request raw) = JInt (json_toInt (value "port" (wg_config raw))).
Proof. by request_lookup. Qed.
Lemma req_value_mtu : value "deviceMTU" (activation_request raw) = value "mtu" (wg_config raw).
Proof. by request_lookup. Qed.
Lemma req_value_ipv4 :
  value "deviceIpv4Address" (activation_request raw) = value "client_ip" (wg_config raw).
Proof. by request_lookup. Qed.
Lemma req_value_ipv6 :
  value "deviceIpv6Address" (activation_request raw) = JString "fd58:baa6:dead::1".
Proof. by request_lookup. Qed.
Lemma req_value_server :
  value "serverIpv4AddrIn" (activation_request raw) = value "hostName" (wg_config raw).
Proof. by request_lookup. Qed.
Lemma req_value_gateway :
  value "serverIpv4Gateway" (activation_request raw) = value "hostName" (wg_config raw).
Proof. by request_lookup. Qed.
Lemma req_value_dns : value "dnsServer" (activation_request raw) = value "dns1" raw.
Proof. by request_lookup. Qed.
Lemma req_value_hop : value "hopType" (activation_request raw) = JUndefined.
Proof. by request_lookup. Qed.
Lemma req_value_killSwitch :
  value "killSwitchOption" (activation_request raw) = value "killSwitchOption" raw.
Proof. by request_lookup. Qed.
Lemma req_value_ranges :
  value "allowedIPAddressRanges" (activation_request raw) =
    JArray (allowed_ranges (toArray (value "allowed_ips" (wg_config raw)))
              (toArray (value "splitTunnelSites" raw)) (json_toInt (value "splitTunnelType" raw))).
Proof. by request_lookup. Qed.
Lemma req_value_excluded :
  value "excludedAddresses" (activation_request raw) =
    JArray (array_item (value "hostName" (wg_config raw)) ::
      (if json_toInt (value "splitTunnelType" raw) =? 2
       then map (λ v, JString (toString v)) (toArray (value "splitTunnelSites" raw)) else [])).
Proof. by request_lookup. Qed.
Lemma req_value_apps :
  value "vpnDisabledApps" (activation_request raw) =
    JArray (toArray (value "splitTunnelApps" raw)).
Proof. by request_lookup. Qed.
End Lookups.

Lemma defined_request raw : defined (activation_request raw).
Proof.
  unfold activation_request, add_awg, copy_awg. cbn [foldl awg_keys].
  destruct (String.eqb _ "awg"); [|destruct (forallb _ _)];
    repeat apply defined_jinsert; apply defined_nil.
Qed.

Lemma range_entry_ok address range v6 : entry_ok (range_entry address range v6).
Proof. unfold entry_ok, range_entry. cbn [toObject isObject]. json_lookup. done. Qed.

Lemma listed_range_ok v : entry_ok (listed_range v).
Proof.
  unfold listed_range. destruct (split "/" (toString v)) as [|a [|p l]]; apply range_entry_ok.
Qed.

Lemma allowed_ranges_ok plain sites type : Forall entry_ok (allowed_ranges plain sites type).
Proof.
  unfold allowed_ranges. destruct (_ && _).
  - apply Forall_map, Forall_true. intros v. apply listed_range_ok.
  - apply Forall_app. split.
    + destruct (_ || _); repeat constructor; apply range_entry_ok.
    + destruct (_ =? 1); [|constructor]. apply Forall_map, Forall_true. intros v. apply listed_range_ok.
Qed.

(** The addresses to keep out of the tunnel that a request names. *)
Definition requested_exclusions (raw : QJsonObject) (host : string) : list string :=
  host :: (if json_toInt (value "splitTunnelType" raw) =? 2
           then map toString (toArray (value "splitTunnelSites" raw)) else []).

(** The AmneziaWG parameters of a configuration, in the order of [awg_keys]. *)
Definition awg_parameters (c : InterfaceConfig) : list QString :=
  [ m_junkPacketCount c; m_junkPacketMinSize c; m_junkPacketMaxSize c; m_initPacketJunkSize c;
    m_responsePacketJunkSize c; m_initPacketMagicHeader c; m_responsePacketMagicHeader c;
    m_underloadPacketMagicHeader c; m_transportPacketMagicHeader c ].

Lemma append_exclusions raw host :
  append_strings (JString host ::
      (if json_toInt (value "splitTunnelType" raw) =? 2
       then map (λ v, JString (toString v)) (toArray (value "splitTunnelSites" raw)) else [])) []
    = Some (requested_exclusions raw host).
Proof.
  unfold requested_exclusions. apply append_strings_spec. destruct (_ =? 2); split; try done.
  - constructor; [done|]. by apply Forall_map, Forall_true.
  - cbn [map app toString]. by rewrite map_map.
  - by repeat constructor.
Qed.

Lemma request_awg raw k :
  toString (value "protocol" raw) = "awg" -> k ∈ awg_keys ->
  value k (activation_request raw) = value k (wg_config raw).
Proof.
  intros Hp Hk. unfold activation_request, add_awg, copy_awg. rewrite Hp.
  change (String.eqb "awg" "awg") with true. cbv iota zeta.
  by rewrite value_foldl_copy, bool_decide_eq_true_2.
Qed.

Lemma optional_field_new obj k : optional_field obj k qnull = toQString (value k obj).
Proof. unfold optional_field. by destruct (value k obj). Qed.

(** The tunnel a configuration asks for. *)
Record understood `{AddressParser} (raw : QJsonObject) (privateKey publicKey host : string)
    (c : InterfaceConfig) : Prop := {
  und_hop : m_hopType c = SingleHop;
  und_privateKey : m_privateKey c = qstr privateKey;
  und_publicKey : m_serverPublicKey c = qstr publicKey;
  und_server : m_serverIpv4AddrIn c = qstr host;
  und_gateway : m_serverIpv4Gateway c = qstr host;
  und_port : m_serverPort c = json_toInt (value "port" (wg_config raw));
  und_dns : m_dnsServer c = toQString (value "dns1" raw);
  und_ranges : m_allowedIPAddressRanges c =
    sort_by_prefix (map entry_range
      (allowed_ranges (toArray (value "allowed_ips" (wg_config raw)))
         (toArray (value "splitTunnelSites" raw)) (json_toInt (value "splitTunnelType" raw))));
  und_excluded : m_excludedAddresses c = requested_exclusions raw host;
  und_apps : m_vpnDisabledApps c = map toString (toArray (value "splitTunnelApps" raw));
  und_killSwitch : m_killSwitchEnabled c = variant_toBool (toString (value "killSwitchOption" raw));
  und_psk : m_serverPskKey c = toQString (value "psk_key" (wg_config raw));
  und_awg : toString (value "protocol" raw) = "awg" ->
    awg_parameters c = map (λ k, toQString (value k (wg_config raw))) awg_keys
}.

Lemma request_parsed `{AddressParser} `{HopKeys} windows raw priv pub host :
  request_ok raw priv pub host ->
  exists c,
    parseConfig windows (activation_request raw) (InterfaceConfig_new SingleHop false) = Some c /\
    understood raw priv pub host c.
Proof.
  intros [Hpriv Hpub Hhost Hdns Happs].
  unfold parseConfig, getString, getDouble, parse_dns, parse_hop, parseStringList.
  rewrite !req_value_privateKey, !req_value_publicKey, !req_value_port, !req_value_ipv6,
    !req_value_ipv4, !req_value_server, !req_value_gateway, !req_value_dns, !req_value_ranges,
    !req_value_excluded, !req_value_apps, !req_value_killSwitch, Hpriv, Hpub, Hhost.
  assert (forall k v, value k (activation_request raw) = v -> v <> JUndefined ->
            contains_key k (activation_request raw) = true) as Hin.
  { intros k v <- Hv. by apply contains_key_value. }
  rewrite (Hin _ _ (req_value_privateKey raw)), (Hin _ _ (req_value_publicKey raw)),
    (Hin _ _ (req_value_port raw)), (Hin _ _ (req_value_ranges raw)),
    (Hin _ _ (req_value_excluded raw)), (Hin _ _ (req_value_apps raw)) by (try done; congruence).
  rewrite (contains_key_undefined "hopType") by (apply defined_request || apply req_value_hop).
  cbn [check isString isDouble isArray toQString toArray toDouble isNull andb negb mbind option_bind
       array_item m_allowedIPAddressRanges m_excludedAddresses m_vpnDisabledApps InterfaceConfig_new].
  assert ((if negb (contains_key "dnsServer" (activation_request raw)) then Some qnull
           else check (isString (value "dns1" raw)) ≫= λ _, Some (toQString (value "dns1" raw)))
          = Some (toQString (value "dns1" raw))) as ->.
  { destruct Hdns as [Hu|Hs].
    - rewrite contains_key_undefined; [by rewrite Hu|apply defined_request|by rewrite req_value_dns].
    - rewrite (Hin _ _ (req_value_dns raw)), Hs; [done|]. by destruct (value "dns1" raw). }
  rewrite (proj2 (append_ranges_spec _ [] _) (conj (allowed_ranges_ok _ _ _) eq_refl)).
  rewrite append_exclusions.
  rewrite (proj2 (append_strings_spec _ [] _) (conj Happs eq_refl)).
  rewrite andb_false_r. cbn [check negb mbind option_bind isDouble JInt toDouble app].
  rewrite double_to_int_inject, req_value_psk. eexists. split; [reflexivity|].
  split; try reflexivity. intros Hawg. unfold awg_parameters.
  cbn [m_junkPacketCount m_junkPacketMinSize m_junkPacketMaxSize m_initPacketJunkSize
       m_responsePacketJunkSize m_initPacketMagicHeader m_responsePacketMagicHeader
       m_underloadPacketMagicHeader m_transportPacketMagicHeader].
  rewrite !optional_field_new, !(request_awg raw) by (done || by apply list_elem_of_In; simpl; tauto).
  reflexivity.
Qed.

(** ** Retries *)
Definition retry_ok (c : LocalSocketController) : Prop := 0 <= m_initializingRetry c <= 10.

Section Retries.
Context `{JsonText} (dateFromString : string -> option Z).

Lemma retry_set_state st : invariant retry_ok (set_state st).
Proof. intros c Hc. exact Hc. Qed.
Lemma retry_set_buffer b : invariant retry_ok (set_buffer b).
Proof. intros c Hc. exact Hc. Qed.
Lemma retry_set_callback cb : invariant retry_ok (set_callback cb).
Proof. intros c Hc. exact Hc. Qed.
Lemma retry_set_timer b : invariant retry_ok (set_timer b).
Proof. intros c Hc. exact Hc. Qed.
Lemma retry_connect : invariant retry_ok connectToServer.
Proof. intros c Hc. exact Hc. Qed.
Lemma retry_emit s : invariant retry_ok (emit s).
Proof. intros c Hc. exact Hc. Qed.
Lemma retry_give_logs cb t : invariant retry_ok (give_logs cb t).
Proof. intros c Hc. exact Hc. Qed.
Lemma retry_write o : invariant retry_ok (ctl_write o).
Proof. intros c Hc. exact Hc. Qed.
Lemma retry_reset : invariant retry_ok (set_retry (λ _, 0)).
Proof. intros c _. unfold retry_ok. simpl. lia. Qed.
Hint Resolve retry_set_state retry_set_buffer retry_set_callback retry_set_timer retry_connect
  retry_emit retry_give_logs retry_write retry_reset : zlo.

Lemma retry_disconnectInternal : invariant retry_ok disconnectInternal.
Proof. unfold disconnectInternal. stateful. Qed.
Hint Resolve retry_disconnectInternal : zlo.

Lemma retry_errorOccurred : invariant retry_ok errorOccurred.
Proof.
  intros c Hc. unfold errorOccurred. rewrite gets_bind. case_bool_decide; [|by apply retry_disconnectInternal].
  rewrite gets_bind, sbind_run. unfold retry_ok in Hc.
  destruct (Z.ltb_spec (m_initializingRetry c) MAX_CONNECTION_RETRY) as [Hlt|Hge].
  - unfold retry_ok, u32, MAX_CONNECTION_RETRY in *. simpl. rewrite Z.mod_small; lia.
  - rewrite sbind_run. unfold retry_ok. simpl. lia.
Qed.

Lemma retry_ctl_handle obj : invariant retry_ok (ctl_handle dateFromString obj).
Proof.
  unfold ctl_handle, handle_first_status, handle_status_update, handle_logs_reply. stateful.
Qed.

Lemma retry_read_lines fuel text :
  invariant retry_ok (read_lines fuel (ctl_parseCommand dateFromString) text).
Proof.
  revert text; induction fuel as [|fuel IH]; intros text; cbn [read_lines]; [stateful|].
  destruct (next_line text) as [[command rest]|]; [|stateful].
  destruct (String.eqb command ""); [apply IH|]. apply invariant_bind; [|intros _; apply IH].
  unfold ctl_parseCommand. destruct (fromJson command); [apply retry_ctl_handle|stateful].
Qed.
End Retries.

Section Reachable.
Context `{JsonText} (dateFromString : string -> option Z).

(** The events of a controller's life: calls of its owner, the timer, and the
    socket. *)
Inductive ctl_event : ControllerM unit -> Prop :=
| ev_initialize : ctl_event ctl_initialize
| ev_timeout : ctl_event initializing_timeout
| ev_error : ctl_event errorOccurred
| ev_connected : ctl_event daemonConnected
| ev_disconnected : ctl_event socket_disconnected
| ev_read input : ctl_event (ctl_readData dateFromString input)
| ev_activate raw : ctl_event (ctl_activate raw)
| ev_deactivate : ctl_event ctl_deactivate
| ev_status : ctl_event checkStatus
| ev_logs cb : ctl_event (getBackendLogs cb)
| ev_cleanup : ctl_event cleanupBackendLogs.

Inductive ctl_reachable : LocalSocketController -> Prop :=
| ctl_start : ctl_reachable LocalSocketController_new
| ctl_next c m : ctl_reachable c -> ctl_event m -> ctl_reachable (m c).2.

Lemma ctl_event_retry m : ctl_event m -> invariant retry_ok m.
Proof.
  destruct 1; try (by apply retry_errorOccurred);
    unfold ctl_initialize, initializing_timeout, initializeInternal, daemonConnected, checkStatus,
      socket_disconnected, ctl_activate, ctl_deactivate, getBackendLogs, cleanupBackendLogs,
      drop_callback, ctl_readData; repeat
    first [ apply retry_reset | apply retry_read_lines
          | solve [stateful]
          | apply invariant_bind; [|intros ?]
          | match goal with |- invariant _ (match ?x with _ => _ end) => destruct x end
          | by intros c Hc ].
Qed.
End Reachable.

(** ** An unreachable daemon *)

(** One attempt that fails: the error, then the retry timer if it was started. *)
Definition failed_attempt : ControllerM unit :=
  errorOccurred ;;
  timer <- gets m_initializingTimer ;;
  if timer then initializing_timeout else sret tt.

(** The state while the daemon does not answer. *)
Definition initializing (c : LocalSocketController) (timer : bool) (retry tries : Z)
    : LocalSocketController :=
  mkController eInitializing (m_buffer c) (m_logCallback c) timer retry tries (out c)
    (signals c) (logs_given c).

Lemma u32_small z : 0 <= z < 2 ^ 32 -> u32 z = z.
Proof. apply Z.mod_small. Qed.

Lemma error_retries c timer r n :
  0 <= r < 10 -> errorOccurred (initializing c timer r n) = (tt, initializing c true (r + 1) n).
Proof.
  intros Hr. unfold errorOccurred. rewrite gets_bind, bool_decide_eq_true_2 by done.
  rewrite gets_bind, sbind_run. unfold MAX_CONNECTION_RETRY. cbn [m_initializingRetry initializing].
  destruct (Z.ltb_spec r 10); [|lia]. unfold set_retry, set_timer, modify, initializing. simpl.
  by rewrite u32_small by lia.
Qed.

Lemma error_gives_up c timer r n :
  10 <= r ->
  (errorOccurred (initializing c timer r n)).2 =
    mkController eReady (m_buffer c) (m_logCallback c) false 0 n (out c)
      (app (signals c) [ctl_initialized false false None; ctl_disconnected]) (logs_given c).
Proof.
  intros Hr. unfold errorOccurred. rewrite gets_bind, bool_decide_eq_true_2 by done.
  rewrite gets_bind, sbind_run. unfold MAX_CONNECTION_RETRY. cbn [m_initializingRetry initializing].
  destruct (Z.ltb_spec r 10); [lia|]. rewrite sbind_run. cbn. by rewrite <- app_assoc.
Qed.

Lemma failed_attempt_retries c timer r n :
  0 <= r < 10 -> (failed_attempt (initializing c timer r n)).2 = initializing c false (r + 1) (n + 1).
Proof.
  intros Hr. unfold failed_attempt. rewrite sbind_run, error_retries by lia. done.
Qed.

Lemma failed_attempts c timer r n (k : nat) :
  0 <= r -> r + Z.of_nat (S k) <= 10 ->
  (for_each (replicate (S k) tt) (λ _, failed_attempt) (initializing c timer r n)).2 =
    initializing c false (r + Z.of_nat (S k)) (n + Z.of_nat (S k)).
Proof.
  revert timer r n; induction k as [|k IH]; intros timer r n Hr Hk.
  - cbn [replicate for_each]. rewrite sbind_run, failed_attempt_retries by lia. done.
  - cbn [replicate for_each]. rewrite sbind_run, failed_attempt_retries by lia.
    change (failed_attempt ;; ?x) with (for_each (replicate (S k) tt) (λ _, failed_attempt)).
    rewrite IH by lia. f_equal; lia.
Qed.

(** ** Properties *)

(** C26. The daemon understands the client's activation requests. For every
    client configuration with its keys and host name (and a DNS server that is
    absent or a string), the daemon parses the request the controller writes,
    and the tunnel it configures has the keys, the server, the port, the DNS
    server and the kill switch of the configuration; its ranges are the
    configured ones, or everything, or the listed sites, by the kind of split
    tunnelling; the server and, when sites are excluded, the sites are kept out
    of the tunnel; and the AmneziaWG parameters arrive. *)
Theorem activation_request_parses `{AddressParser} `{HopKeys} windows raw priv pub host :
  request_ok raw priv pub host ->
  exists c,
    parseConfig windows (activation_request raw) (InterfaceConfig_new SingleHop false) = Some c /\
    understood raw priv pub host c.
Proof. apply request_parsed. Qed.

(** A client configuration with one excluded network. *)
Definition example_raw : QJsonObject :=
  let wg := jinsert "client_priv_key" (JString "cHJpdg==") (jinsert "server_pub_key" (JString "cHVi")
            (jinsert "hostName" (JString "192.0.2.1") (jinsert "port" (JInt 51820)
            (jinsert "client_ip" (JString "10.8.1.2") [])))) in
  jinsert "protocol" (JString "wireguard") (jinsert "wireguard_config_data" (JObject wg)
  (jinsert "dns1" (JString "1.1.1.1") (jinsert "splitTunnelType" (JInt 2)
  (jinsert "splitTunnelSites" (JArray [JString "10.1.0.0/16"]) [])))).

Lemma activation_request_parses_witness :
  let _ := ipv4_parser in let _ := plain_keys in
  exists c, parseConfig false (activation_request example_raw) (InterfaceConfig_new SingleHop false)
      = Some c /\ m_excludedAddresses c = ["192.0.2.1"; "10.1.0.0/16"] /\ m_serverPort c = 51820.
Proof.
  intros parser keys.
  destruct (activation_request_parses false example_raw "cHJpdg==" "cHVi" "192.0.2.1")
    as (c & Hp & [_ _ _ _ _ Hport _ _ Hex _ _ _ _]); [|by exists c].
  split; try reflexivity; [by right|constructor].
Defined.

(** The retry counter is bounded: after any sequence of calls, timeouts and
    socket events it is at most 10, so the counter never wraps and the timer is
    restarted at most ten times in a row. *)
Theorem retries_bounded `{JsonText} (dateFromString : string -> option Z)
    (c : LocalSocketController) :
  ctl_reachable dateFromString c -> 0 <= m_initializingRetry c <= 10.
Proof.
  induction 1 as [|c m Hc IH Hm]; [done|]. by apply (ctl_event_retry dateFromString m Hm).
Qed.

Lemma retries_bounded_witness :
  let _ := table_codec [] in
  m_initializingRetry (errorOccurred (ctl_initialize LocalSocketController_new).2).2 = 1 /\
  0 <= m_initializingRetry (errorOccurred (ctl_initialize LocalSocketController_new).2).2 <= 10.
Proof.
  intros json. split; [reflexivity|].
  apply (retries_bounded (λ _, None)). apply ctl_next; [apply ctl_next|]; constructor.
Defined.

(** The controller gives up on an unreachable daemon: from any state,
    initialisation makes exactly eleven attempts to connect when each of them
    fails, then reports [initialized] with a failed status once, emits
    [disconnected], and is left ready with the retries reset and no timer
    running. *)
Theorem initialization_gives_up (c : LocalSocketController) :
  let c' := (for_each (replicate 11 tt) (λ _, failed_attempt) (ctl_initialize c).2).2 in
  attempts c' = attempts c + 11 /\
  signals c' = app (signals c) [ctl_initialized false false None; ctl_disconnected] /\
  m_daemonState c' = eReady /\ m_initializingRetry c' = 0 /\ m_initializingTimer c' = false /\
  out c' = out c.
Proof.
  change (replicate 11 tt) with (app (replicate 10 tt) [tt]). cbn zeta. rewrite for_each_app.
  change ((ctl_initialize c).2) with (initializing c (m_initializingTimer c) 0 (attempts c + 1)).
  rewrite (failed_attempts c _ 0 _ 9) by lia. cbn [for_each].
  rewrite sbind_run. unfold failed_attempt. rewrite sbind_run, error_gives_up by lia.
  rewrite gets_bind. cbn [m_initializingTimer snd sret attempts signals m_daemonState
    m_initializingRetry out]. split_and!; try reflexivity. lia.
Qed.

(** A listed address without a prefix length is taken as a /32, also when
    it is an IPv6 address: the daemon then routes all addresses that share its
    first 32 bits, instead of that host alone. *)
Theorem ipv6_host_widened `{AddressParser} (text : string) (octets : list Z) :
  split "/" text = [text] ->
  parseHost text = IPv6Address octets ->
  List.length octets = 16%nat ->
  let ip := entry_range (listed_range (JString text)) in
  ip = mkIPAddress (IPv6Address octets) 32 /\
  forall low, List.length low = 12%nat -> contains ip (IPv6Address (app (take 4 octets) low)) = true.
Proof.
  intros Hs Hp Hlen ip.
  assert (ip = mkIPAddress (IPv6Address octets) 32) as ->.
  { subst ip. unfold listed_range. cbn [toString]. rewrite Hs. unfold entry_range, range_entry.
    cbn [toObject]. json_lookup. cbn [toString]. by rewrite Hp, json_toInt_JInt by lia. }
  split; [done|]. intros low Hlow. unfold contains.
  cbn [protocol m_address m_prefixLength toIPv6Address].
  assert (memcmp_eq octets (app (take 4 octets) low) 4 = true) as Hm.
  { unfold memcmp_eq. apply bool_decide_eq_true.
    rewrite take_app_le by (rewrite length_take; lia). by rewrite take_take. }
  change (Z.to_nat (32 / 8)) with 4%nat. rewrite Hm. reflexivity.
Qed.

Definition loopback6 : list Z := app (replicate 15 0) [1].
Definition loopback_parser : AddressParser := {|
  parseHost := λ s, if String.eqb s "::1" then IPv6Address loopback6 else NullAddress;
  parseSubnet := λ _, (NullAddress, -1)
|}.

Lemma ipv6_host_widened_witness :
  let _ := loopback_parser in
  contains (entry_range (listed_range (JString "::1"))) (IPv6Address (replicate 16 0)) = true.
Proof.
  intros parser.
  destruct (ipv6_host_widened "::1" loopback6) as [_ Hc]; [reflexivity..|].
  exact (Hc (replicate 12 0) eq_refl).
Defined.

(** Initialisation never completes when the daemon awaits a handshake: the
    status the daemon reports then is [connected] with the text of an invalid
    date, on which the controller becomes ready without emitting
    [initialized]. *)
Theorem initialization_stalls (dateToString : option Z -> string)
    (dateFromString : string -> option Z) (c : LocalSocketController) :
  dateFromString (dateToString None) = None ->
  m_daemonState c = eInitializing ->
  let status := (getStatus dateToString (connected_daemon [] [cidr 10 0 0 0 8])).1 in
  let reply := jinsert "type" (JString "status") status in
  value "connected" reply = JBool true /\
  m_daemonState (ctl_handle dateFromString reply c).2 = eReady /\
  signals (ctl_handle dateFromString reply c).2 = signals c.
Proof.
  intros Hd Hc. cbn zeta.
  set (reply := jinsert "type" (JString "status") _).
  assert (value "connected" reply = JBool true) as Hcon by (vm_compute; reflexivity).
  assert (value "type" reply = JString "status") as Htype by (vm_compute; reflexivity).
  assert (value "date" reply = JString (dateToString None)) as Hdate by (vm_compute; reflexivity).
  clearbody reply. split; [done|]. unfold ctl_handle. rewrite Htype. cbn [isString negb toString].
  rewrite gets_bind, Hc. change (String.eqb "status" "status") with true.
  rewrite bool_decide_eq_true_2 by done. cbn [andb]. unfold handle_first_status.
  rewrite sbind_run, Hcon, Hdate. cbn [isBool negb toBool isString toString]. by rewrite Hd.
Qed.

Lemma initialization_stalls_witness :
  let dateToString := λ d : option Z, match d with None => "" | Some _ => "now" end in
  let dateFromString := λ s, if String.eqb s "" then None else Some 0 in
  let c := (ctl_initialize LocalSocketController_new).2 in
  let status := (getStatus dateToString (connected_daemon [] [cidr 10 0 0 0 8])).1 in
  signals (ctl_handle dateFromString (jinsert "type" (JString "status") status) c).2 = [].
Proof.
  cbn zeta.
  apply (initialization_stalls (λ d : option Z, match d with None => "" | Some _ => "now" end)
           (λ s, if String.eqb s "" then None else Some 0)
           (ctl_initialize LocalSocketController_new).2); reflexivity.
Defined.
