(* ===== verification/PingHelper.v ===== *)
(** * Ping statistics

    Model of [PingHelper] (client/mozilla/pinghelper.h and .cpp): the circular
    buffer that matches ping replies with their requests by a 16-bit sequence
    number, and the statistics over it. The clock is an argument of the
    operations that read it. *)
From Stdlib Require Import ZArith Lia QArith String.
From stdpp Require Import base list option.
From S2P Require Import Prelude QtString.
Local Ltac Zify.zify_post_hook ::= Z.to_euclidean_division_equations.
Local Open Scope string_scope.
Local Open Scope Z_scope.

Definition PING_STATS_WINDOW : Z := 32.
Definition PING_TIMEOUT_SEC : Z := 1.

Record PingSendData := mkPing {
  timestamp : Z;
  latency_of : Z;                (* latency *)
  sequence : Z                   (* quint16 *)
}.
Definition PingSendData_new : PingSendData := mkPing (-1) (-1) 0.

(** The sender: the one of the platform's factory, or the fallback that needs
    no privileges, each bound to a source address. *)
Inductive PingSender :=
| FactoryPingSender (source : string)
| DnsPingSender (source : string).

Record PingHelper := mkPingHelper {
  m_gateway : string;
  m_source : string;
  m_sequence : Z;                (* quint16 *)
  m_pingData : list PingSendData;
  m_pingTimer : bool;            (* whether it runs *)
  m_pingSender : option PingSender;
  pings_sent : list (string * Z);  (* the arguments of sendPing *)
  round_trips : list Z             (* the emitted pingSentAndReceived *)
}.

Definition PingHelper_new : PingHelper :=
  mkPingHelper EmptyString EmptyString 0
    (replicate (Z.to_nat PING_STATS_WINDOW) PingSendData_new) false None [] [].

(** [valid] is the answer of [isValid] of the factory's sender. *)
Definition start (valid : bool) (serverIpv4Gateway deviceIpv4Address : string)
    (h : PingHelper) : PingHelper :=
  let source := default "" (head (split "/" deviceIpv4Address)) in
  mkPingHelper serverIpv4Gateway source 0
    (map (λ _, PingSendData_new) (m_pingData h)) true
    (Some (if valid then FactoryPingSender source else DnsPingSender source))
    (pings_sent h) (round_trips h).

Definition stop (h : PingHelper) : PingHelper :=
  mkPingHelper (m_gateway h) (m_source h) (m_sequence h) (m_pingData h) false None
    (pings_sent h) (round_trips h).

(** The slot of the timer; [None] is the call through a null sender. *)
Definition nextPing (now : Z) (h : PingHelper) : option PingHelper :=
  let index := Z.to_nat (m_sequence h mod PING_STATS_WINDOW) in
  match m_pingSender h with
  | None => None
  | Some sender =>
      Some (mkPingHelper (m_gateway h) (m_source h) (u16 (m_sequence h + 1))
              (<[index := mkPing now (-1) (m_sequence h)]> (m_pingData h))
              (m_pingTimer h) (Some sender)
              (app (pings_sent h) [(m_gateway h, m_sequence h)]) (round_trips h))
  end.

(** [m_pingData[index]] is read only where [index] is in range; the default
    stands for the out-of-range access that does not happen. *)
Definition slot (h : PingHelper) (index : Z) : PingSendData :=
  default PingSendData_new (m_pingData h !! Z.to_nat index).

Definition pingReceived (now seq : Z) (h : PingHelper) : PingHelper :=
  let index := seq mod PING_STATS_WINDOW in
  let data := slot h index in
  if sequence data =? seq then
    let latency := now - timestamp data in
    mkPingHelper (m_gateway h) (m_source h) (m_sequence h)
      (<[Z.to_nat index := mkPing (timestamp data) latency (sequence data)]> (m_pingData h))
      (m_pingTimer h) (m_pingSender h) (pings_sent h) (app (round_trips h) [latency])
  else h.

(** ** Statistics *)
Definition received (h : PingHelper) : list Z :=
  List.filter (λ l, 0 <=? l) (map latency_of (m_pingData h)).

Definition latency (h : PingHelper) : Z :=
  let recvCount := Z.of_nat (length (received h)) in
  let totalMsec := foldr Z.add 0 (received h) in
  if recvCount <=? 0 then 0
  else u32 (Z.quot (totalMsec + Z.quot recvCount 2) recvCount).

Definition UINT_MAX : Z := 4294967295.

Fixpoint max_rtt (l : list PingSendData) (maxRtt : Z) : Z :=
  match l with
  | [] => maxRtt
  | data :: l' =>
      if latency_of data <? 0 then max_rtt l' maxRtt
      else if (maxRtt <? latency_of data) && (latency_of data <? UINT_MAX)
      then max_rtt l' (latency_of data) else max_rtt l' maxRtt
  end.
Definition maximum (h : PingHelper) : Z := max_rtt (m_pingData h) 0.

Definition sent_before (sendBefore : Z) (data : PingSendData) : bool :=
  (0 <=? latency_of data) || ((0 <? timestamp data) && (timestamp data <? sendBefore)).

Definition loss (now : Z) (h : PingHelper) : Q :=
  let sendBefore := now - PING_TIMEOUT_SEC * 1000 in
  let recvCount := Z.of_nat (length (received h)) in
  let sendCount := Z.of_nat (length (List.filter (sent_before sendBefore) (m_pingData h))) in
  if sendCount <=? 0 then 0%Q
  else (inject_Z (sendCount - recvCount) / inject_Z PING_STATS_WINDOW)%Q.

Definition stddev (h : PingHelper) : Z :=
  let recvCount := Z.of_nat (length (received h)) in
  let average := latency h in
  let totalVariance := foldr Z.add 0 (map (λ l, (average - l) * (average - l)) (received h)) in
  if recvCount <=? 0 then 0 else Z.sqrt (totalVariance / recvCount).

(** ** Specification *)

(** What can happen to the object: its two public calls, the timer while it
    runs, and a reply. *)
Inductive PingEvent :=
| Start (valid : bool) (gateway device : string)
| Stop
| Tick (now : Z)
| Reply (now seq : Z).

Definition ping_event (e : PingEvent) (h : PingHelper) : option PingHelper :=
  match e with
  | Start valid gateway device => Some (start valid gateway device h)
  | Stop => Some (stop h)
  | Tick now => if m_pingTimer h then nextPing now h else Some h
  | Reply now seq => Some (pingReceived now seq h)
  end.
Fixpoint ping_events (es : list PingEvent) (h : PingHelper) : option PingHelper :=
  match es with
  | [] => Some h
  | e :: es' => ping_event e h ≫= ping_events es'
  end.

(** Ticks and replies: the events of one run of the statistics. *)
Definition exchange (e : PingEvent) : bool :=
  match e with Tick _ | Reply _ _ => true | _ => false end.
Definition sends (es : list PingEvent) : Z :=
  Z.of_nat (length (List.filter (λ e, match e with Tick _ => true | _ => false end) es)).

(** The buffer has its size, the counter its width, and the timer runs only
    while there is a sender. *)
Record ping_wf (h : PingHelper) : Prop := {
  ping_window : length (m_pingData h) = 32%nat;
  ping_counter : 0 <= m_sequence h < 2 ^ 16;
  ping_sender : m_pingTimer h = true -> is_Some (m_pingSender h)
}.

(** What is known of the slot of a ping [s] sent at [t] after [n] more pings:
    it was reused by every 32nd of them. *)
Definition slot_after (s t n : Z) (h : PingHelper) : Prop :=
  m_sequence h = u16 (s + 1 + n) /\
  sequence (slot h (s mod 32)) = u16 (s + 32 * (n / 32)) /\
  (n < 32 -> timestamp (slot h (s mod 32)) = t).

(** ** Lemmas *)
Lemma u16_mod32 z : u16 z mod 32 = z mod 32.
Proof. unfold u16. apply Z.mod_mod_divide. by exists 2048. Qed.

Lemma u16_add_l x y : u16 (u16 x + y) = u16 (x + y).
Proof. unfold u16. by rewrite Zplus_mod_idemp_l. Qed.

Lemma slot_insert h h' i j v :
  length (m_pingData h) = 32%nat -> 0 <= i < 32 -> 0 <= j < 32 ->
  m_pingData h' = <[Z.to_nat i := v]> (m_pingData h) ->
  slot h' j = if i =? j then v else slot h j.
Proof.
  intros Hlen Hi Hj E. unfold slot. rewrite E.
  destruct (Z.eqb_spec i j) as [<-|N].
  - rewrite list_lookup_insert_eq; [done | lia].
  - rewrite list_lookup_insert_ne; [done | lia].
Qed.

Lemma ping_event_wf e h h' :
  ping_event e h = Some h' -> ping_wf h -> ping_wf h'.
Proof.
  intros E [L C S]. destruct e as [v g d| |now|now seq]; cbn in E.
  - injection E as <-. split; cbn; [by rewrite length_map | lia | by eexists].
  - injection E as <-. by split.
  - destruct (m_pingTimer h) eqn:T; [|injection E as <-; by split; rewrite ?T].
    unfold nextPing in E. destruct (m_pingSender h); [|done]. injection E as <-.
    split; cbn -[u16]; [by rewrite length_insert | apply Z.mod_pos_bound; lia | by eexists].
  - injection E as <-. unfold pingReceived.
    destruct (_ =? _); [split; cbn; [by rewrite length_insert | lia | done] | by split].
Qed.

Lemma ping_event_total e h : ping_wf h -> is_Some (ping_event e h).
Proof.
  intros [L C S]. destruct e; cbn; try by eexists.
  destruct (m_pingTimer h); [|by eexists]. unfold nextPing.
  destruct (S eq_refl) as [x ->]. by eexists.
Qed.

Lemma start_wf valid gateway device h : ping_wf h -> ping_wf (start valid gateway device h).
Proof. by apply (ping_event_wf (Start valid gateway device)). Qed.

Lemma PingHelper_new_wf : ping_wf PingHelper_new.
Proof. split; cbn; [done | lia | done]. Qed.

(** One more ping moves the counter on and overwrites the slot exactly when
    it is the 32nd since the last time. *)
Lemma slot_after_tick s t n now h h' :
  ping_wf h -> 0 <= n -> slot_after s t n h -> nextPing now h = Some h' ->
  slot_after s t (n + 1) h'.
Proof.
  intros W Hn (Hc & Hq & Ht) E. unfold nextPing in E.
  destruct (m_pingSender h); [|done]. injection E as <-.
  assert (Hs : ∀ h', m_pingData h' = <[Z.to_nat (m_sequence h mod 32) :=
                 mkPing now (-1) (m_sequence h)]> (m_pingData h) ->
    slot h' (s mod 32) = if m_sequence h mod 32 =? s mod 32
                         then mkPing now (-1) (m_sequence h) else slot h (s mod 32)).
  { intros h' E. eapply slot_insert; eauto using ping_window; apply Z.mod_pos_bound; lia. }
  unfold slot_after. rewrite Hs by done. cbn [m_sequence].
  rewrite Hc, u16_add_l, u16_mod32.
  split; [f_equal; lia|].
  destruct (Z.eqb_spec ((s + 1 + n) mod 32) (s mod 32)) as [D|D]; cbn [sequence timestamp].
  - assert ((n + 1) mod 32 = 0) by lia. split; [f_equal; lia | lia].
  - assert ((n + 1) mod 32 <> 0) by lia. rewrite Hq. split; [f_equal; lia | intros; apply Ht; lia].
Qed.

(** A reply changes latencies only. *)
Lemma reply_keeps now seq h j :
  ping_wf h -> 0 <= j < 32 ->
  m_sequence (pingReceived now seq h) = m_sequence h /\
  sequence (slot (pingReceived now seq h) j) = sequence (slot h j) /\
  timestamp (slot (pingReceived now seq h) j) = timestamp (slot h j).
Proof.
  intros W Hj. unfold pingReceived. destruct (_ =? seq); [|done].
  split; [done|].
  erewrite slot_insert; [| by apply W | apply (Z.mod_pos_bound seq 32); lia | done | done].
  change (seq mod 32) with (seq mod PING_STATS_WINDOW).
  destruct (Z.eqb_spec (seq mod PING_STATS_WINDOW) j) as [<-|]; done.
Qed.

Lemma exchange_timer e h h' :
  exchange e = true -> ping_event e h = Some h' -> m_pingTimer h' = m_pingTimer h.
Proof.
  destruct e; try done; intros _ E; cbn in E.
  - destruct (m_pingTimer h) eqn:T; [|by injection E as <-].
    unfold nextPing in E. destruct (m_pingSender h); [|done]. by injection E as <-.
  - injection E as <-. unfold pingReceived. by destruct (_ =? _).
Qed.

Lemma slot_after_events es : ∀ s t n h h',
  ping_wf h -> m_pingTimer h = true -> 0 <= n -> slot_after s t n h ->
  forallb exchange es = true -> ping_events es h = Some h' ->
  slot_after s t (n + sends es) h'.
Proof.
  induction es as [|e es IH]; intros s t n h h' W T Hn A X R; cbn in X, R.
  - injection R as <-. unfold sends. cbn. by rewrite Z.add_0_r.
  - apply andb_prop in X as [X Xs].
    destruct (ping_event e h) as [h1|] eqn:E; [|done]. cbn in R.
    pose proof (ping_event_wf _ _ _ E W) as W1.
    pose proof (exchange_timer _ _ _ X E) as T1. rewrite T in T1.
    destruct e as [| |now|now seq]; try done; cbn in E.
    + rewrite T in E. pose proof (slot_after_tick _ _ _ _ _ _ W Hn A E) as A1.
      replace (n + sends (Tick now :: es)) with (n + 1 + sends es) by (unfold sends; cbn; lia).
      eapply IH; eauto; lia.
    + injection E as <-. eapply (IH s t n); eauto.
      destruct A as (Hc & Hq & Ht).
      destruct (reply_keeps now seq h (s mod 32) W) as (K1 & K2 & K3);
        [apply Z.mod_pos_bound; lia|].
      unfold slot_after. by rewrite K1, K2, K3.
Qed.

Lemma slot_after_sent h now h' :
  ping_wf h -> nextPing now h = Some h' -> slot_after (m_sequence h) now 0 h'.
Proof.
  intros W E. pose proof W as [L C S]. unfold nextPing in E.
  destruct (m_pingSender h); [|done]. injection E as <-.
  unfold slot_after. erewrite slot_insert;
    [| exact L | apply (Z.mod_pos_bound (m_sequence h) 32); lia
     | apply (Z.mod_pos_bound (m_sequence h) 32); lia | done].
  rewrite Z.eqb_refl. cbn -[u16]. rewrite !Z.add_0_r. split; [done|]. split; [|done].
  unfold u16. rewrite Z.mod_small; lia.
Qed.

Definition total (l : list Z) : Z := foldr Z.add 0 l.

Lemma total_bounds m l :
  Forall (λ x, 0 <= x <= m) l -> 0 <= total l <= m * Z.of_nat (length l).
Proof. induction 1; cbn -[Z.of_nat]; [lia|]. unfold total in *. lia. Qed.

Lemma max_rtt_bounds l : ∀ m,
  0 <= m -> Forall (λ d, latency_of d < UINT_MAX) l ->
  m <= max_rtt l m /\ Forall (λ x, 0 <= x <= max_rtt l m) (List.filter (λ l, 0 <=? l) (map latency_of l)).
Proof.
  induction l as [|d l IH]; intros m Hm F; cbn [max_rtt map List.filter]; [by split|].
  apply list.Forall_cons in F as [Fd F].
  destruct (Z.ltb_spec (latency_of d) 0) as [Neg|Pos].
  { rewrite (proj2 (Z.leb_gt 0 (latency_of d))) by lia. by apply IH. }
  rewrite (proj2 (Z.leb_le 0 (latency_of d)) Pos), (proj2 (Z.ltb_lt _ UINT_MAX) Fd), andb_true_r.
  destruct (Z.ltb_spec m (latency_of d)).
  - destruct (IH (latency_of d) Pos F) as [A B]. split; [lia|]. constructor; [lia | done].
  - destruct (IH m Hm F) as [A B]. split; [lia|]. constructor; [lia | done].
Qed.

Lemma max_rtt_below l : ∀ m, m < UINT_MAX -> max_rtt l m < UINT_MAX.
Proof.
  induction l as [|d l IH]; intros m Hm; cbn [max_rtt]; [done|].
  destruct (_ <? 0); [by apply IH|].
  destruct (Z.ltb_spec (latency_of d) UINT_MAX); [|rewrite andb_false_r; by apply IH].
  by destruct (_ && _); apply IH.
Qed.

Lemma mean_rounds t n :
  0 <= t -> 0 < n -> 2 * Z.abs (Z.quot (t + Z.quot n 2) n * n - t) <= n.
Proof. intros Ht Hn. rewrite !Z.quot_div_nonneg by (rewrite ?Z.quot_div_nonneg; lia). nia. Qed.

Lemma mean_below t n m :
  0 <= t <= m * n -> 0 < n -> 0 <= Z.quot (t + Z.quot n 2) n <= m.
Proof. intros Ht Hn. rewrite !Z.quot_div_nonneg by (rewrite ?Z.quot_div_nonneg; lia). nia. Qed.

Lemma filter_length_le {A} (P Q : A -> bool) l :
  (∀ x, P x = true -> Q x = true) ->
  (length (List.filter P l) <= length (List.filter Q l) <= length l)%nat.
Proof.
  intros I. induction l as [|x l IH]; cbn; [lia|].
  pose proof (I x). destruct (P x), (Q x); cbn in *; try lia; by discriminate H.
Qed.

Lemma received_count h :
  length (received h) = length (List.filter (λ d, 0 <=? latency_of d) (m_pingData h)).
Proof. unfold received. induction (m_pingData h) as [|d l IH]; cbn; [done|]. destruct (0 <=? _); cbn; lia. Qed.

Lemma loss_bounds now h : length (m_pingData h) = 32%nat -> (0 <= loss now h <= 1)%Q.
Proof.
  intros L. unfold loss. set (sb := now - PING_TIMEOUT_SEC * 1000).
  pose proof (filter_length_le (λ d, 0 <=? latency_of d) (sent_before sb) (m_pingData h)) as B.
  rewrite received_count. rewrite L in B.
  destruct B as [B1 B2]; [intros x Hx; unfold sent_before; by rewrite Hx|].
  destruct (_ <=? 0); [by split|].
  unfold Qle, Qdiv, Qmult, Qinv, inject_Z, PING_STATS_WINDOW. cbn -[Z.of_nat Z.sub Z.mul]. lia.
Qed.

(** ** Properties *)

(** From a new helper, no sequence of starts, stops, timer ticks and
    replies sends a ping through a null sender, and the buffer keeps its 32
    slots and the counter its 16 bits. *)
Theorem pings_never_stuck es :
  ∃ h, ping_events es PingHelper_new = Some h /\ ping_wf h.
Proof.
  generalize PingHelper_new_wf. generalize PingHelper_new.
  induction es as [|e es IH]; intros h W; [by exists h|].
  destruct (ping_event_total e h W) as [h1 E]. cbn. rewrite E. cbn.
  apply IH, (ping_event_wf _ _ _ E W).
Qed.

(** A reply is matched with its own request: the reply to the ping sent
    at [t0] reports exactly the time since [t0] when fewer than 32 pings were
    sent in between, whatever other replies came, and is ignored when 32 or
    more were sent, up to the wrap of the 16-bit counter. *)
Theorem replies_matched h t0 h1 es h2 t1 :
  ping_wf h -> m_pingTimer h = true ->
  nextPing t0 h = Some h1 -> forallb exchange es = true ->
  ping_events es h1 = Some h2 -> sends es < 65536 - 32 ->
  round_trips (pingReceived t1 (m_sequence h) h2) =
    if sends es <? 32 then app (round_trips h2) [t1 - t0] else round_trips h2.
Proof.
  intros W T E X R B.
  assert (W1 : ping_wf h1).
  { apply (ping_event_wf (Tick t0) h); [cbn; by rewrite T | done]. }
  assert (T1 : m_pingTimer h1 = true).
  { rewrite (exchange_timer (Tick t0) h h1); [done | done | cbn; by rewrite T]. }
  pose proof (slot_after_sent _ _ _ W E) as A.
  pose proof (slot_after_events _ _ _ 0 _ _ W1 T1 (Z.le_refl 0) A X R) as (_ & Q & U).
  rewrite Z.add_0_l in Q, U. destruct W as [_ C _].
  assert (P : 0 <= sends es) by (unfold sends; lia).
  unfold pingReceived. change PING_STATS_WINDOW with 32. rewrite Q. unfold u16.
  destruct (Z.ltb_spec (sends es) 32) as [Lt|Ge].
  - rewrite Z.div_small, (Z.mod_small _ (2 ^ 16)), Z.mul_0_r, Z.add_0_r, Z.eqb_refl by lia.
    cbn -[Z.modulo]. by rewrite U.
  - rewrite (proj2 (Z.eqb_neq _ _)); [done|]. intros M. change (2 ^ 16) with 65536 in *. lia.
Qed.

Lemma replies_matched_witness :
  ∃ h h1 h2, nextPing 500 h = Some h1 /\
    ping_events [Tick 1500; Reply 1510 1; Tick 2500] h1 = Some h2 /\
    round_trips (pingReceived 2600 0 h2) = app (round_trips h2) [2100].
Proof.
  set (h := start true "10.0.0.1" "10.0.0.2/32" PingHelper_new).
  set (h1 := default h (nextPing 500 h)).
  set (es := [Tick 1500; Reply 1510 1; Tick 2500]).
  exists h, h1, (default h (ping_events es h1)).
  split; [reflexivity|]. split; [reflexivity|].
  apply (replies_matched h 500 h1 es); [|reflexivity..].
  apply start_wf, PingHelper_new_wf.
Defined.

(** The statistics are what their names say: with a reply in the window,
    and round trips below the width of the result, [latency] is the mean
    rounded to the nearest integer and no more than [maximum], which is the
    largest round trip of the window; [loss] is a fraction between 0 and 1. *)
Theorem statistics_sound h now :
  ping_wf h -> Forall (λ d, latency_of d < UINT_MAX) (m_pingData h) ->
  (received h <> [] ->
     2 * Z.abs (latency h * Z.of_nat (length (received h)) - total (received h))
       <= Z.of_nat (length (received h)) /\
     latency h <= maximum h) /\
  Forall (λ x, x <= maximum h) (received h) /\
  (0 <= loss now h <= 1)%Q.
Proof.
  intros W F. pose proof (max_rtt_bounds _ 0 (Z.le_refl 0) F) as [_ M].
  fold (received h) (maximum h) in M. pose proof (total_bounds _ _ M) as T.
  assert (U : maximum h < UINT_MAX) by by apply max_rtt_below.
  split; [intros NE | split].
  - assert (N : 0 < Z.of_nat (length (received h))) by (destruct (received h); [done | cbn; lia]).
    unfold latency. fold (total (received h)). rewrite (proj2 (Z.leb_gt _ 0)) by done.
    pose proof (mean_below _ _ _ T N) as B. unfold UINT_MAX in U.
    unfold u32. rewrite Z.mod_small by lia.
    split; [apply mean_rounds; lia | lia].
  - eapply list.Forall_impl; [exact M | cbn; lia].
  - apply loss_bounds; apply W.
Qed.

Lemma statistics_sound_witness :
  ∃ h, received h = [10; 25] /\ latency h <= maximum h.
Proof.
  set (h0 := start true "10.0.0.1" "10.0.0.2/32" PingHelper_new).
  set (h := default h0 (ping_events [Tick 500; Reply 510 0; Tick 1500; Reply 1525 1] h0)).
  exists h. split; [reflexivity|].
  destruct (statistics_sound h 5000) as [S _].
  - split; vm_compute; [done | by split | intros; by eexists].
  - by apply (bool_decide_unpack _).
  - apply S. vm_compute. done.
Defined.
