(* ===== verification/LinuxRouteMonitor.v ===== *)
(** * Routes on Linux

    Model of [LinuxRouteMonitor] (client/platforms/linux/daemon/
    linuxroutemonitor.cpp): the netlink message of a route request, built octet
    by octet in a fixed buffer, and the loop over the kernel's answers. The
    octets are those of a little-endian machine. *)
From Stdlib Require Import ZArith Lia Ascii String.
From stdpp Require Import base list option.
From S2P Require Import Prelude HostAddress QtString IpAddress InterfaceConfig.
Local Open Scope Z_scope.

(** ** Octets of integers and of buffers *)
Definition le16 (z : Z) : list Z := [z mod 256; (z / 256) mod 256].
Definition le32 (z : Z) : list Z :=
  [z mod 256; (z / 256) mod 256; (z / 65536) mod 256; (z / 16777216) mod 256].
Definition be32 (z : Z) : list Z :=
  [(z / 16777216) mod 256; (z / 65536) mod 256; (z / 256) mod 256; z mod 256].

Definition octet (off : Z) (buf : list Z) : Z := default 0 (buf !! Z.to_nat off).
Definition get16 (off : Z) (buf : list Z) : Z := octet off buf + 256 * octet (off + 1) buf.
Definition get32 (off : Z) (buf : list Z) : Z :=
  get16 off buf + 65536 * get16 (off + 2) buf.

(** A store of [bytes] at [off]; the stores of the code stay in the buffer. *)
Definition put (off : Z) (bytes buf : list Z) : list Z :=
  let o := Z.to_nat off in take o buf ++ bytes ++ drop (o + length bytes) buf.

(** ** linux/netlink.h and linux/rtnetlink.h *)
Definition AF_INET : Z := 2.
Definition AF_INET6 : Z := 10.
Definition RTM_NEWROUTE : Z := 24.
Definition RTM_DELROUTE : Z := 25.
Definition NLM_F_REQUEST : Z := 1.
Definition NLM_F_ACK : Z := 4.
Definition NLM_F_REPLACE : Z := 256.
Definition NLM_F_CREATE : Z := 1024.
Definition RTN_UNICAST : Z := 1.
Definition RTN_THROW : Z := 9.
Definition RTA_DST : Z := 1.
Definition RTA_OIF : Z := 4.
Definition RTA_GATEWAY : Z := 5.
Definition RTA_PRIORITY : Z := 6.
Definition RT_TABLE_UNSPEC : Z := 0.
Definition RTPROT_BOOT : Z := 3.
Definition RT_SCOPE_UNIVERSE : Z := 0.
Definition NLMSG_ERROR : Z := 2.
Definition NLMSG_DONE : Z := 3.

Definition align4 (n : Z) : Z := Z.land (n + 3) (Z.lnot 3).
Definition sizeof_nlmsghdr : Z := 16.
Definition sizeof_rtmsg : Z := 12.
Definition NLMSG_LENGTH (n : Z) : Z := n + sizeof_nlmsghdr.
Definition NLMSG_SPACE (n : Z) : Z := align4 (NLMSG_LENGTH n).
Definition RTA_LENGTH (n : Z) : Z := 4 + n.
Definition RTA_SPACE (n : Z) : Z := align4 (RTA_LENGTH n).

(** ** Building the message *)
Definition nlmsg_len (nlmsg : list Z) : Z := get32 0 nlmsg.

Definition nlmsg_append_attr (maxlen attrtype : Z) (attrdata : list Z) (nlmsg : list Z) : list Z :=
  let attrlen := Z.of_nat (length attrdata) in
  let newlen := align4 (nlmsg_len nlmsg) + RTA_SPACE attrlen in
  if newlen <=? maxlen then
    let off := align4 (nlmsg_len nlmsg) in
    let nlmsg := put (off + 2) (le16 attrtype) nlmsg in
    let nlmsg := put off (le16 (RTA_LENGTH attrlen)) nlmsg in
    let nlmsg := put (off + 4) attrdata nlmsg in
    put 0 (le32 newlen) nlmsg
  else nlmsg.

Definition nlmsg_append_attr32 (maxlen attrtype value : Z) (nlmsg : list Z) : list Z :=
  nlmsg_append_attr maxlen attrtype (le32 value) nlmsg.

Record wg_allowedip := mkAllowedIp {
  family : Z;
  ip_octets : list Z;            (* the union of ip4 and ip6 *)
  ip_cidr : Z                    (* uint8_t *)
}.

Record LinuxRouteMonitor := mkMonitor {
  m_nlseq : Z;                   (* int *)
  nl_sent : list (list Z);       (* what sendto was given *)
  nl_errors : list Z             (* the logged errors of the kernel's answers *)
}.

(** What the code asks of libc, of the kernel and of [NetworkUtilities]:
    [ip4_on_stack] is the content of the uninitialised [struct in_addr], kept
    when [inet_pton] does not write it. *)
Class NetlinkHost := {
  inet_pton4 : string -> option (list Z);
  inet_pton6 : string -> option (list Z);
  if_nametoindex : string -> Z;
  getpid : Z;
  getGatewayAndIface : string;
  ip4_on_stack : list Z;
  sendto : list Z -> Z
}.

Section Monitor.
Context `{AddressPrinter} `{NetlinkHost}.

Definition buildAllowedIp (prefix : IPAddress) : option wg_allowedip :=
  let addrString := printHost (m_address prefix) in
  match protocol (m_address prefix) with
  | IPv4Protocol =>
      octets ← inet_pton4 addrString;
      Some (mkAllowedIp AF_INET octets (u8 (m_prefixLength prefix)))
  | IPv6Protocol =>
      octets ← inet_pton6 addrString;
      Some (mkAllowedIp AF_INET6 octets (u8 (m_prefixLength prefix)))
  | UnknownNetworkLayerProtocol => None
  end.

Definition rtm_max_size : Z := sizeof_rtmsg + 2 * RTA_SPACE 4 + RTA_SPACE 16.
Definition sizeof_buf : Z := NLMSG_SPACE rtm_max_size.

(** The header and the route part: [buf] after the assignments. *)
Definition route_header (action flags rtmtype seq : Z) (ip : wg_allowedip) : list Z :=
  let buf := replicate (Z.to_nat sizeof_buf) 0 in
  let buf := put 0 (le32 (NLMSG_LENGTH sizeof_rtmsg)) buf in
  let buf := put 4 (le16 action) buf in
  let buf := put 6 (le16 flags) buf in
  let buf := put 12 (le32 getpid) buf in
  let buf := put 8 (le32 seq) buf in
  let buf := put 17 [u8 (ip_cidr ip)] buf in
  let buf := put 16 [u8 (family ip)] buf in
  let buf := put 23 [u8 rtmtype] buf in
  let buf := put 20 [RT_TABLE_UNSPEC] buf in
  let buf := put 21 [RTPROT_BOOT] buf in
  put 22 [RT_SCOPE_UNIVERSE] buf.

Definition WG_INTERFACE : string := "amn0".

(** The message; [None] where the code gives up because there is no interface. *)
Definition route_message (action flags rtmtype seq : Z) (ip : wg_allowedip) : option (list Z) :=
  let nlmsg := route_header action flags rtmtype seq ip in
  let nlmsg := nlmsg_append_attr sizeof_buf RTA_DST (ip_octets ip) nlmsg in
  if octet 23 nlmsg =? RTN_UNICAST then
    let index := if_nametoindex WG_INTERFACE in
    if index <=? 0 then None
    else Some (nlmsg_append_attr32 sizeof_buf RTA_PRIORITY 1
                 (nlmsg_append_attr32 sizeof_buf RTA_OIF index nlmsg))
  else if octet 23 nlmsg =? RTN_THROW then
    let ip4 := default ip4_on_stack (inet_pton4 getGatewayAndIface) in
    Some (put 23 [RTN_UNICAST]
            (nlmsg_append_attr32 sizeof_buf RTA_PRIORITY 0
               (nlmsg_append_attr sizeof_buf RTA_GATEWAY ip4 nlmsg)))
  else Some nlmsg.

Definition rtmSendRoute (action flags rtmtype : Z) (prefix : IPAddress) :
    StateM LinuxRouteMonitor bool := λ m,
  match buildAllowedIp prefix with
  | None => (false, m)
  | Some ip =>
      let m' := mkMonitor (s32 (m_nlseq m + 1)) (nl_sent m) (nl_errors m) in
      match route_message action flags rtmtype (u32 (m_nlseq m)) ip with
      | None => (false, m')
      | Some nlmsg =>
          let bytes := take (Z.to_nat (nlmsg_len nlmsg)) nlmsg in
          (u64 (sendto bytes) =? nlmsg_len nlmsg,
           mkMonitor (m_nlseq m') (app (nl_sent m') [bytes]) (nl_errors m'))
      end
  end.

Definition insert_flags : Z :=
  Z.lor (Z.lor (Z.lor NLM_F_REQUEST NLM_F_CREATE) NLM_F_REPLACE) NLM_F_ACK.
Definition delete_flags : Z := Z.lor NLM_F_REQUEST NLM_F_ACK.

Definition rtm_insertRoute (prefix : IPAddress) : StateM LinuxRouteMonitor bool :=
  rtmSendRoute RTM_NEWROUTE insert_flags RTN_UNICAST prefix.
Definition rtm_deleteRoute (prefix : IPAddress) : StateM LinuxRouteMonitor bool :=
  rtmSendRoute RTM_DELROUTE delete_flags RTN_UNICAST prefix.
Definition rtm_addExclusionRoute (prefix : IPAddress) : StateM LinuxRouteMonitor bool :=
  rtmSendRoute RTM_NEWROUTE insert_flags RTN_THROW prefix.
Definition rtm_deleteExclusionRoute (prefix : IPAddress) : StateM LinuxRouteMonitor bool :=
  rtmSendRoute RTM_DELROUTE delete_flags RTN_THROW prefix.

(** ** The kernel's answers *)
Definition NLMSG_OK (off len : Z) (buf : list Z) : bool :=
  (sizeof_nlmsghdr <=? len) && (sizeof_nlmsghdr <=? get32 off buf) && (get32 off buf <=? len).

(** The loop of [nlsockReady] from the message at [off] with [len] octets left:
    the errors it logs. *)
Fixpoint nl_scan (fuel : nat) (off len : Z) (buf : list Z) : Outcome (list Z) :=
  match fuel with
  | O => OutOfFuel
  | S fuel' =>
      if NLMSG_OK off len buf then
        let next := align4 (get32 off buf) in
        if get16 (off + 4) buf =? NLMSG_DONE then Ret []
        else if negb (get16 (off + 4) buf =? NLMSG_ERROR) then nl_scan fuel' (off + next) (len - next) buf
        else
          let error := s32 (get32 (off + 16) buf) in
          rest ← nl_scan fuel' (off + next) (len - next) buf;
          Ret (if negb (error =? 0) then - error :: rest else rest)
      else Ret []
  end.

(** [received] is what [recv] stored, at most the 1024 octets of the buffer. *)
Definition nlsockReady (received : list Z) (m : LinuxRouteMonitor) : Outcome LinuxRouteMonitor :=
  if Z.of_nat (length received) <=? 0 then Ret m
  else
    errors ← nl_scan 66 0 (Z.of_nat (length received)) received;
    Ret (mkMonitor (m_nlseq m) (nl_sent m) (app (nl_errors m) errors)).

End Monitor.

(** ** Specification: reading a route request

    The layout of an rtnetlink message, as the kernel reads it. *)
Record RouteRequest := mkRequest {
  rq_action : Z; rq_flags : Z; rq_seq : Z; rq_pid : Z;
  rq_family : Z; rq_dst_len : Z; rq_table : Z; rq_protocol : Z; rq_scope : Z; rq_type : Z;
  rq_attrs : list (Z * list Z)
}.

Fixpoint decode_attrs (fuel : nat) (bytes : list Z) : option (list (Z * list Z)) :=
  match fuel, bytes with
  | _, [] => Some []
  | O, _ => None
  | S fuel', _ =>
      let len := get16 0 bytes in
      if (len <? 4) || (Z.of_nat (length bytes) <? len) then None
      else
        rest ← decode_attrs fuel' (drop (Z.to_nat (align4 len)) bytes);
        Some ((get16 2 bytes, take (Z.to_nat (len - 4)) (drop 4 bytes)) :: rest)
  end.

Definition decode_route (bytes : list Z) : option RouteRequest :=
  if get32 0 bytes =? Z.of_nat (length bytes) then
    attrs ← decode_attrs 8 (drop 28 bytes);
    Some (mkRequest (get16 4 bytes) (get16 6 bytes) (get32 8 bytes) (get32 12 bytes)
            (octet 16 bytes) (octet 17 bytes) (octet 20 bytes) (octet 21 bytes)
            (octet 22 bytes) (octet 23 bytes) attrs)
  else None.

(** The octets and the family of an address. *)
Definition address_octets (h : QHostAddress) : list Z :=
  match h with IPv4Address a => be32 a | IPv6Address l => l | NullAddress => [] end.
Definition address_family (h : QHostAddress) : Z :=
  match h with IPv6Address _ => AF_INET6 | _ => AF_INET end.

(** [inet_pton] reads back what [QHostAddress::toString] prints, four octets for
    an IPv4 text. *)
Class NetlinkHostLaws `{AddressPrinter} `{NetlinkHost} : Prop := {
  pton4_print a : 0 <= a < 2 ^ 32 -> inet_pton4 (printHost (IPv4Address a)) = Some (be32 a);
  pton6_print l : length l = 16%nat -> inet_pton6 (printHost (IPv6Address l)) = Some l;
  pton4_length s l : inet_pton4 s = Some l -> length l = 4%nat;
  stack_length : length ip4_on_stack = 4%nat;
  pid_range : 0 <= getpid < 2 ^ 32
}.


(** The four requests, and the message each is meant to send. *)
Inductive RouteOp := InsertRoute | DeleteRoute | AddExclusion | DeleteExclusion.

Definition run_op `{AddressPrinter} `{NetlinkHost} (op : RouteOp) (p : IPAddress) :
    StateM LinuxRouteMonitor bool :=
  match op with
  | InsertRoute => rtm_insertRoute p
  | DeleteRoute => rtm_deleteRoute p
  | AddExclusion => rtm_addExclusionRoute p
  | DeleteExclusion => rtm_deleteExclusionRoute p
  end.

Definition op_action (op : RouteOp) : Z :=
  match op with InsertRoute | AddExclusion => RTM_NEWROUTE | _ => RTM_DELROUTE end.
Definition op_flags (op : RouteOp) : Z :=
  match op with InsertRoute | AddExclusion => insert_flags | _ => delete_flags end.
Definition op_type (op : RouteOp) : Z :=
  match op with InsertRoute | DeleteRoute => RTN_UNICAST | _ => RTN_THROW end.

(** The kernel's acknowledgement of a request: an error code, 0 for success,
    and the header of the request. *)
Record Ack := mkAck { ack_error : Z; ack_seq : Z; ack_pid : Z; ack_request : list Z }.
Definition ack_bytes (a : Ack) : list Z :=
  le32 36 ++ le16 NLMSG_ERROR ++ le16 0 ++ le32 (ack_seq a) ++ le32 (ack_pid a) ++
  le32 (u32 (ack_error a)) ++ ack_request a.
Definition ack_wf (a : Ack) : Prop :=
  - 4096 < ack_error a <= 0 /\ length (ack_request a) = 16%nat.
Definition ack_log (l : list Ack) : list Z :=
  map Z.opp (List.filter (λ e, negb (e =? 0)) (map ack_error l)).

(** ** Lemmas *)
Local Ltac Zify.zify_post_hook ::= Z.to_euclidean_division_equations.

Lemma le32_octets z :
  0 <= z < 2 ^ 32 -> ∃ a b c d, le32 z = [a; b; c; d] /\ a + 256 * b + 65536 * (c + 256 * d) = z.
Proof. intros R. do 4 eexists. split; [reflexivity | lia]. Qed.

Lemma list_of_4 {A} (l : list A) : length l = 4%nat -> ∃ a b c d, l = [a; b; c; d].
Proof. destruct l as [|a [|b [|c [|d []]]]]; try done. by exists a, b, c, d. Qed.

Lemma list_of_16 {A} (l : list A) :
  length l = 16%nat -> ∃ a b c d a1 b1 c1 d1 a2 b2 c2 d2 a3 b3 c3 d3,
    l = [a; b; c; d; a1; b1; c1; d1; a2; b2; c2; d2; a3; b3; c3; d3].
Proof. do 17 (destruct l as [|? l]; try done). intros _. by repeat eexists. Qed.

Lemma align4_ge n : n <= align4 n.
Proof.
  unfold align4. change 3 with (Z.ones 2) at 2.
  rewrite <- Z.ldiff_land, Z.ldiff_ones_r, Z.shiftl_mul_pow2, Z.shiftr_div_pow2 by lia. lia.
Qed.

(** Every turn of the loop consumes at least a header. *)
Lemma nl_scan_total fuel : ∀ off len buf,
  (0 < fuel)%nat -> len < 16 * Z.of_nat fuel ->
  ∃ errors, nl_scan fuel off len buf = Ret errors.
Proof.
  induction fuel as [|fuel IH]; intros off len buf Hf Hl; [lia|].
  cbn -[NLMSG_OK align4 get16 get32].
  destruct (NLMSG_OK off len buf) eqn:OK; [|by eexists].
  unfold NLMSG_OK, sizeof_nlmsghdr in OK. breflect.
  pose proof (align4_ge (get32 off buf)) as G.
  destruct (IH (off + align4 (get32 off buf)) (len - align4 (get32 off buf)) buf) as [l E];
    [lia | lia |].
  rewrite E. cbn. case_all; by eexists.
Qed.

Lemma octet_app pre l k : 0 <= k -> octet (Z.of_nat (length pre) + k) (pre ++ l) = octet k l.
Proof.
  intros Hk. unfold octet. rewrite lookup_app_r by lia. do 2 f_equal. lia.
Qed.

Lemma get16_app pre l k : 0 <= k -> get16 (Z.of_nat (length pre) + k) (pre ++ l) = get16 k l.
Proof. intros. unfold get16. rewrite <- Z.add_assoc. by rewrite !octet_app by lia. Qed.

Lemma get32_app pre l k : 0 <= k -> get32 (Z.of_nat (length pre) + k) (pre ++ l) = get32 k l.
Proof. intros. unfold get32. rewrite <- Z.add_assoc. by rewrite !get16_app by lia. Qed.

Lemma ack_bytes_length a : ack_wf a -> length (ack_bytes a) = 36%nat.
Proof. intros [_ L]. unfold ack_bytes. rewrite !length_app, L. done. Qed.

Lemma acks_length l :
  Forall ack_wf l -> (length (concat (map ack_bytes l)) = 36 * length l)%nat.
Proof.
  induction 1 as [|a l Wa W IH]; [done|]. cbn [map concat].
  change (foldr app [] (map ack_bytes l)) with (concat (map ack_bytes l)).
  rewrite length_app, IH, (ack_bytes_length a Wa). cbn. lia.
Qed.

Lemma ack_bytes_error a rest :
  ack_wf a -> s32 (get32 16 (ack_bytes a ++ rest)) = ack_error a.
Proof.
  intros [R _].
  assert (E : get32 16 (ack_bytes a ++ rest) = u32 (ack_error a)).
  { destruct (le32_octets (u32 (ack_error a))) as (x & y & z & t & E & V).
    - apply Z.mod_pos_bound. lia.
    - unfold ack_bytes. rewrite E, <- V. reflexivity. }
  rewrite E. unfold s32, wrap_signed, u32. rewrite Zmod_mod.
  destruct (Z.ltb_spec (ack_error a mod 2 ^ 32) (2 ^ (32 - 1))); lia.
Qed.

Lemma nl_scan_acks l : ∀ fuel pre,
  Forall ack_wf l -> (length l < fuel)%nat ->
  nl_scan fuel (Z.of_nat (length pre)) (Z.of_nat (length (concat (map ack_bytes l))))
    (pre ++ concat (map ack_bytes l)) = Ret (ack_log l).
Proof.
  induction l as [|a l IH]; intros [|fuel] pre W Hf; cbn in Hf; try lia; [done|].
  apply list.Forall_cons in W as [Wa Wl].
  pose proof (ack_bytes_length a Wa) as La.
  cbn [map concat nl_scan]. change (foldr app []) with (@concat Z).
  set (rest := concat (map ack_bytes l)).
  replace (Z.of_nat (length pre)) with (Z.of_nat (length pre) + 0) by lia.
  unfold NLMSG_OK. rewrite <- !Z.add_assoc, !get32_app, !get16_app by lia.
  rewrite !Z.add_0_l, ack_bytes_error by done.
  change (get32 0 (ack_bytes a ++ rest)) with 36.
  change (get16 4 (ack_bytes a ++ rest)) with 2.
  rewrite length_app, La. change (align4 36) with 36.
  rewrite (proj2 (Z.leb_le sizeof_nlmsghdr _)), (proj2 (Z.leb_le 36 _)) by (unfold sizeof_nlmsghdr; lia).
  cbn [andb negb Z.eqb Pos.eqb NLMSG_DONE NLMSG_ERROR].
  replace (Z.of_nat (length pre) + 36) with (Z.of_nat (length (pre ++ ack_bytes a)))
    by (rewrite length_app; lia).
  replace (Z.of_nat (36 + length rest) - 36) with (Z.of_nat (length rest)) by lia.
  rewrite app_assoc. unfold rest. rewrite IH by (done || lia). cbn.
  unfold ack_log. cbn. by destruct (ack_error a =? 0).
Qed.

Section MonitorLemmas.
Context `{NetlinkHostLaws}.

(** What the exclusion routes use as their gateway. *)
Definition gateway_octets : list Z := default ip4_on_stack (inet_pton4 getGatewayAndIface).

Lemma gateway_length : length gateway_octets = 4%nat.
Proof.
  unfold gateway_octets. destruct (inet_pton4 _) eqn:E; cbn; eauto using pton4_length, stack_length.
Qed.

(** The attributes that follow the destination. *)
Definition route_attrs (rtmtype : Z) : list (Z * list Z) :=
  if rtmtype =? RTN_UNICAST
  then [(RTA_OIF, le32 (if_nametoindex WG_INTERFACE)); (RTA_PRIORITY, le32 1)]
  else [(RTA_GATEWAY, gateway_octets); (RTA_PRIORITY, le32 0)].

Definition request_for (action flags rtmtype seq : Z) (p : IPAddress) : RouteRequest :=
  mkRequest action flags seq getpid
    (address_family (m_address p)) (m_prefixLength p) RT_TABLE_UNSPEC RTPROT_BOOT
    RT_SCOPE_UNIVERSE RTN_UNICAST
    ((RTA_DST, address_octets (m_address p)) :: route_attrs rtmtype).

(** An address of one of the two families, with its octets. *)
Definition allowedip_wf (ip : wg_allowedip) : Prop :=
  (family ip = AF_INET /\ length (ip_octets ip) = 4%nat \/
   family ip = AF_INET6 /\ length (ip_octets ip) = 16%nat) /\
  0 <= ip_cidr ip < 256.

(** The message holds every attribute, whatever the address: the buffer is
    large enough. *)
Lemma message_decodes action flags rtmtype seq ip :
  action = RTM_NEWROUTE \/ action = RTM_DELROUTE ->
  flags = insert_flags \/ flags = delete_flags ->
  rtmtype = RTN_UNICAST \/ rtmtype = RTN_THROW ->
  allowedip_wf ip -> 0 <= seq < 2 ^ 32 -> 0 < if_nametoindex WG_INTERFACE ->
  ∃ nlmsg, route_message action flags rtmtype seq ip = Some nlmsg /\
    decode_route (take (Z.to_nat (nlmsg_len nlmsg)) nlmsg) =
      Some (mkRequest action flags seq getpid (family ip) (ip_cidr ip)
              RT_TABLE_UNSPEC RTPROT_BOOT RT_SCOPE_UNIVERSE RTN_UNICAST
              ((RTA_DST, ip_octets ip) :: route_attrs rtmtype)) /\
    nlmsg_len nlmsg = Z.of_nat (length (take (Z.to_nat (nlmsg_len nlmsg)) nlmsg)) /\
    nlmsg_len nlmsg <= sizeof_buf.
Proof.
  intros Ha Hf Ht [Hip Hc] Hs Hi.
  destruct ip as [fam octets c]; cbn [family ip_octets ip_cidr] in *.
  unfold route_message, route_header, route_attrs, nlmsg_append_attr32.
  cbn [family ip_octets ip_cidr]. fold gateway_octets.
  rewrite (proj2 (Z.leb_gt _ 0)) by lia.
  assert (u8 c = c) as -> by (apply Z.mod_small; lia).
  destruct (le32_octets seq Hs) as (s0 & s1 & s2 & s3 & -> & <-).
  destruct (le32_octets getpid pid_range) as (p0 & p1 & p2 & p3 & -> & <-).
  destruct (list_of_4 (le32 (if_nametoindex WG_INTERFACE)) eq_refl) as (i0 & i1 & i2 & i3 & ->).
  destruct (list_of_4 _ gateway_length) as (g0 & g1 & g2 & g3 & ->).
  destruct Hip as [[-> L] | [-> L]];
    [apply list_of_4 in L as (? & ? & ? & ? & ->)
    |apply list_of_16 in L as (? & ? & ? & ? & ? & ? & ? & ? & ? & ? & ? & ? & ? & ? & ? & ? & ->)];
    destruct Ha as [-> | ->], Hf as [-> | ->], Ht as [-> | ->];
    (eexists; split; [vm_compute; reflexivity | split; [reflexivity | split; [reflexivity | by vm_compute]]]).
Qed.

Lemma allowed_ip_built p :
  ip_wf p -> ∃ ip, buildAllowedIp p = Some ip /\ allowedip_wf ip /\
    family ip = address_family (m_address p) /\
    ip_octets ip = address_octets (m_address p) /\ ip_cidr ip = m_prefixLength p.
Proof.
  destruct p as [[|a|l] n]; intros (Wa & Wp & Wl); cbn in *; [done|..]; unfold buildAllowedIp; cbn.
  - rewrite pton4_print by done. eexists. split; [done|]. unfold u8, allowedip_wf; cbn.
    rewrite Z.mod_small by lia. repeat split; [by left | lia..].
  - destruct Wa as [Wa _]. rewrite pton6_print by done. eexists. split; [done|].
    unfold u8, allowedip_wf; cbn. rewrite Z.mod_small by lia. repeat split; [by right | lia..].
Qed.

Lemma send_route op p m :
  ip_wf p -> 0 < if_nametoindex WG_INTERFACE ->
  ∃ bytes,
    run_op op p m =
      (u64 (sendto bytes) =? Z.of_nat (length bytes),
       mkMonitor (s32 (m_nlseq m + 1)) (nl_sent m ++ [bytes]) (nl_errors m)) /\
    decode_route bytes =
      Some (request_for (op_action op) (op_flags op) (op_type op) (u32 (m_nlseq m)) p) /\
    Z.of_nat (length bytes) <= sizeof_buf.
Proof.
  intros Wp Hi. destruct (allowed_ip_built p Wp) as (ip & B & Wip & Ef & Eo & Ec).
  destruct (message_decodes (op_action op) (op_flags op) (op_type op) (u32 (m_nlseq m)) ip)
    as (nlmsg & M & D & Len & Max); [destruct op; auto.. | done | apply Z.mod_pos_bound; lia | done |].
  rewrite Ef, Eo, Ec in D. exists (take (Z.to_nat (nlmsg_len nlmsg)) nlmsg). rewrite <- Len. split; [|by split].
  assert (R : run_op op p m = rtmSendRoute (op_action op) (op_flags op) (op_type op) p m) by by destruct op.
  rewrite R. unfold rtmSendRoute. by rewrite B, M.
Qed.

End MonitorLemmas.

(** ** A host whose texts are decimal octets *)
Definition octets_text (sep : Ascii.ascii) (l : list Z) : string :=
  join (String sep "") (map number l).
Definition text_octets (n : nat) (sep : Ascii.ascii) (s : string) : option (list Z) :=
  l ← mapM signed_val (split (String sep "") s);
  if bool_decide (length l = n) then Some l else None.

Lemma text_octets_text sep l :
  numeral_char sep = false -> l <> [] -> text_octets (length l) sep (octets_text sep l) = Some l.
Proof.
  intros Hs Hl. unfold text_octets, octets_text. rewrite split_join_char.
  - assert (mapM signed_val (map number l) = Some l) as ->.
    { clear. induction l as [|x l IH]; [done|]. cbn. rewrite signed_val_number. cbn.
      by rewrite IH. }
    cbn. by rewrite bool_decide_true.
  - by destruct l.
  - apply list.Forall_forall. intros s (x & -> & _)%list_elem_of_fmap. by apply number_char_free.
Qed.

#[local] Instance octets_printer : AddressPrinter := λ h,
  match h with
  | IPv4Address a => octets_text "."%char (be32 a)
  | IPv6Address l => octets_text ":"%char l
  | NullAddress => ""%string
  end.

#[local] Instance sample_host : NetlinkHost := {
  inet_pton4 := text_octets 4 "."%char;
  inet_pton6 := text_octets 16 ":"%char;
  if_nametoindex := λ _, 5;
  getpid := 4242;
  getGatewayAndIface := "192.168.1.1"%string;
  ip4_on_stack := [0; 0; 0; 0];
  sendto := λ bytes, Z.of_nat (length bytes)
}.

#[local] Instance sample_host_laws : NetlinkHostLaws.
Proof.
  split.
  - intros a Ha. by apply (text_octets_text "."%char (be32 a)).
  - intros l Hl. change (text_octets 16 ":"%char (octets_text ":"%char l) = Some l).
    rewrite <- Hl. apply text_octets_text; [done|]. by intros ->.
  - cbn. unfold text_octets. intros s l E. bind_inv. case_all. breflect. done.
  - done.
  - cbn. lia.
Qed.

(** ** Properties *)

(** C20. Every route request reaches the kernel as it is meant: for a
    well-formed prefix of either family, and while the tunnel's interface
    exists, each of the four operations sends one message, which the kernel's
    reading of the netlink layout decodes to the prefix, its length and family
    and exactly the attributes of that operation (none is dropped by the bound
    on the buffer), and reports success exactly when all of it was taken. *)
Theorem route_requests_exact `{NetlinkHostLaws} op p m :
  ip_wf p -> 0 < if_nametoindex WG_INTERFACE ->
  ∃ bytes,
    run_op op p m =
      (u64 (sendto bytes) =? Z.of_nat (length bytes),
       mkMonitor (s32 (m_nlseq m + 1)) (nl_sent m ++ [bytes]) (nl_errors m)) /\
    decode_route bytes =
      Some (request_for (op_action op) (op_flags op) (op_type op) (u32 (m_nlseq m)) p) /\
    Z.of_nat (length bytes) <= sizeof_buf.
Proof. apply send_route. Qed.

Lemma route_requests_exact_witness :
  let _ := octets_printer in let _ := sample_host in
  let p := mkIPAddress (IPv4Address 167772160) 8 in
  ∃ bytes,
    decode_route bytes =
      Some (mkRequest RTM_NEWROUTE 1285 7 4242 AF_INET 8 0 3 0 1
              [(RTA_DST, [10; 0; 0; 0]); (RTA_OIF, [5; 0; 0; 0]); (RTA_PRIORITY, [1; 0; 0; 0])]) /\
    nl_sent (run_op InsertRoute p (mkMonitor 7 [] [])).2 = [bytes].
Proof.
  intros ? ? p.
  destruct (@route_requests_exact _ _ sample_host_laws InsertRoute p (mkMonitor 7 [] []))
    as (bytes & E & D & _); [by apply (bool_decide_unpack _) | vm_compute; done |].
  exists bytes. split; [exact D|]. exact (f_equal (λ r, nl_sent r.2) E).
Defined.

(** The exclusion route of an IPv6 prefix is requested with a gateway of
    the wrong family: the message says AF_INET6 and its gateway attribute has
    the four octets of an IPv4 address, where the attribute of that family has
    sixteen; the request is still reported as successful when the kernel took
    its octets. *)
Theorem ipv6_exclusion_malformed `{NetlinkHostLaws} p m l :
  m_address p = IPv6Address l -> ip_wf p -> 0 < if_nametoindex WG_INTERFACE ->
  (∀ bytes, sendto bytes = Z.of_nat (length bytes)) ->
  ∃ bytes r g,
    (rtm_addExclusionRoute p m).1 = true /\
    nl_sent (rtm_addExclusionRoute p m).2 = nl_sent m ++ [bytes] /\
    decode_route bytes = Some r /\ rq_family r = AF_INET6 /\
    rq_attrs r !! 1%nat = Some (RTA_GATEWAY, g) /\ length g = 4%nat.
Proof.
  intros A W Hi S. destruct (send_route AddExclusion p m W Hi) as (bytes & E & D & B).
  change (run_op AddExclusion p m) with (rtm_addExclusionRoute p m) in E.
  exists bytes. eexists. exists gateway_octets. rewrite E, S. split; [|split; [done | split; [exact D | split; [|split; [done|]]]]].
  - cbn [fst]. apply Z.eqb_eq, Z.mod_small. change sizeof_buf with 64 in B. lia.
  - cbn. by rewrite A.
  - apply gateway_length.
Qed.

Lemma ipv6_exclusion_malformed_witness :
  let _ := octets_printer in let _ := sample_host in
  let p := mkIPAddress v6_ula 64 in
  (rtm_addExclusionRoute p (mkMonitor 7 [] [])).1 = true.
Proof.
  intros ? ? p.
  destruct (@ipv6_exclusion_malformed _ _ sample_host_laws p (mkMonitor 7 [] []) _ eq_refl)
    as (bytes & r & g & E & _); [by apply (bool_decide_unpack _) | vm_compute; done | done |].
  exact E.
Defined.

(** The loop over the kernel's answers ends on every content of the
    1024-octet buffer, and of a buffer of acknowledgements it logs exactly the
    errors that are not 0, in order. *)
Theorem answers_logged received m :
  (length received <= 1024)%nat ->
  (∃ m', nlsockReady received m = Ret m') /\
  (∀ acks, Forall ack_wf acks -> received = concat (map ack_bytes acks) ->
     nlsockReady received m =
       Ret (mkMonitor (m_nlseq m) (nl_sent m) (nl_errors m ++ ack_log acks))).
Proof.
  intros L. split.
  - unfold nlsockReady. destruct (_ <=? 0); [by eexists|].
    destruct (nl_scan_total 66 0 (Z.of_nat (length received)) received) as [errors ->]; [lia | lia |].
    by eexists.
  - intros acks W ->. unfold nlsockReady.
    destruct (Z.leb_spec (Z.of_nat (length (concat (map ack_bytes acks)))) 0) as [Z0|Pos].
    + destruct acks as [|a acks]; [destruct m; cbn; by rewrite app_nil_r|].
      apply list.Forall_cons in W as [W _]. cbn in Z0.
      pose proof (ack_bytes_length a W). rewrite length_app in Z0. lia.
    + pose proof (acks_length acks W) as Len.
      pose proof (nl_scan_acks acks 66 [] W ltac:(lia)) as R. cbn [length app] in R. change (Z.of_nat 0) with 0 in R.
      by rewrite R.
Qed.

Lemma answers_logged_witness :
  nlsockReady (ack_bytes (mkAck (-17) 3 4242 (replicate 16 0)) ++
               ack_bytes (mkAck 0 4 4242 (replicate 16 0))) (mkMonitor 5 [] []) =
    Ret (mkMonitor 5 [] [17]).
Proof.
  set (acks := [mkAck (-17) 3 4242 (replicate 16 0); mkAck 0 4 4242 (replicate 16 0)]).
  destruct (answers_logged (concat (map ack_bytes acks)) (mkMonitor 5 [] [])) as [_ A]; [cbn; lia|].
  apply (A acks); [|done]. repeat constructor; cbn; lia.
Defined.
