(* ===== verification/LinuxFirewall.v ===== *)
(** * The firewall on Linux

    Model of [LinuxFirewall] (client/platforms/linux/daemon/linuxfirewall.cpp):
    the chains it keeps in the iptables of both families and the shell scripts
    that maintain them. A script is a value with its text and with its effect
    on the chains, the documented effect of the iptables commands in it; the
    operations of the class run scripts on a machine. *)
From Stdlib Require Import ZArith Lia Ascii String.
From stdpp Require Import base list option strings.
From S2P Require Import Prelude HostAddress QtString.
Local Open Scope string_scope.
Local Open Scope Z_scope.

Inductive IPVersion := IPv4 | IPv6 | Both.

Definition kAnchorName : string := "amnvpn".
Definition kPacketTag : string := "0x3211".
Definition kCGroupId : string := "0x567".
Definition kRtableName : string := kAnchorName +:+ "rt".
Definition kOutputChain : string := "OUTPUT".
Definition kPostRoutingChain : string := "POSTROUTING".
Definition kPreRoutingChain : string := "PREROUTING".
Definition kRootChain : string := kAnchorName +:+ ".anchors".
Definition kFilterTable : string := "filter".
Definition kNatTable : string := "nat".
Definition kRawTable : string := "raw".
Definition kMangleTable : string := "mangle".

(** ** Rules *)
Inductive RuleOption :=
| OutInterface (name : string)
| NotOutInterface (name : string)
| Destination (net : string)
| Protocol (name : string)
| SourcePort (port : Z)
| DestinationPort (port : Z)
| CGroup (id : string).

Inductive Target := ACCEPT | REJECT | MASQUERADE | MARK (tag : string).

Record Rule := mkRule { rule_options : list RuleOption; rule_target : Target }.

Definition option_text (o : RuleOption) : string :=
  match o with
  | OutInterface n => "-o " +:+ n
  | NotOutInterface n => "! -o " +:+ n
  | Destination n => "-d " +:+ n
  | Protocol n => "-p " +:+ n
  | SourcePort n => "--sport " +:+ number n
  | DestinationPort n => "--dport " +:+ number n
  | CGroup i => "-m cgroup --cgroup " +:+ i
  end.
Definition target_text (t : Target) : string :=
  match t with
  | ACCEPT => "ACCEPT" | REJECT => "REJECT" | MASQUERADE => "MASQUERADE"
  | MARK tag => "MARK --set-mark " +:+ tag
  end.
Definition rule_text (r : Rule) : string :=
  join " " (app (map option_text (rule_options r)) ["-j " +:+ target_text (rule_target r)]).

(** A rule in a chain: one of ours, a jump to a chain, or the block of the
    rules of other programs, which is opaque. *)
Inductive ChainRule :=
| Own (r : Rule)
| Jump (chain : string)
| Foreign (id : nat).

(** ** Tables *)
Definition Table : Type := list (string * list ChainRule).

Fixpoint chain_rules (t : Table) (c : string) : option (list ChainRule) :=
  match t with
  | [] => None
  | (c', l) :: t' => if String.eqb c c' then Some l else chain_rules t' c
  end.
Fixpoint set_chain (t : Table) (c : string) (l : list ChainRule) : Table :=
  match t with
  | [] => [(c, l)]
  | (c', l') :: t' => if String.eqb c c' then (c, l) :: t' else (c', l') :: set_chain t' c l
  end.
Fixpoint remove_chain (t : Table) (c : string) : Table :=
  match t with
  | [] => []
  | (c', l') :: t' => if String.eqb c c' then t' else (c', l') :: remove_chain t' c
  end.

Definition is_jump (c : string) (r : ChainRule) : bool :=
  match r with Jump c' => String.eqb c c' | _ => false end.
Definition referenced (t : Table) (c : string) : bool :=
  existsb (λ e, existsb (is_jump c) e.2) t.
Fixpoint remove_jump (c : string) (l : list ChainRule) : list ChainRule :=
  match l with
  | [] => []
  | r :: l' => if is_jump c r then l' else r :: remove_jump c l'
  end.

(** ** iptables commands

    A command maps a table to its exit code and the new table. *)
Definition Command : Type := Table -> Z * Table.

Definition ipt_N (c : string) : Command := λ t,
  match chain_rules t c with Some _ => (1, t) | None => (0, set_chain t c []) end.
Definition ipt_F (c : string) : Command := λ t,
  match chain_rules t c with Some _ => (0, set_chain t c []) | None => (1, t) end.
Definition ipt_X (c : string) : Command := λ t,
  match chain_rules t c with
  | Some [] => if referenced t c then (1, t) else (0, remove_chain t c)
  | _ => (1, t)
  end.
Definition ipt_L (c : string) : Command := λ t,
  match chain_rules t c with Some _ => (0, t) | None => (1, t) end.
Definition ipt_A (c : string) (r : ChainRule) : Command := λ t,
  match chain_rules t c, r with
  | Some l, Jump j =>
      match chain_rules t j with Some _ => (0, set_chain t c (app l [r])) | None => (1, t) end
  | Some l, _ => (0, set_chain t c (app l [r]))
  | None, _ => (1, t)
  end.
Definition ipt_I (c : string) (j : string) : Command := λ t,
  match chain_rules t c, chain_rules t j with
  | Some l, Some _ => (0, set_chain t c (Jump j :: l))
  | _, _ => (1, t)
  end.
Definition ipt_C (c : string) (j : string) : Command := λ t,
  match chain_rules t c with
  | Some l => (if existsb (is_jump j) l then 0 else 1, t)
  | None => (1, t)
  end.
Definition ipt_D (c : string) (j : string) : Command := λ t,
  match chain_rules t c with
  | Some l => if existsb (is_jump j) l then (0, set_chain t c (remove_jump j l)) else (1, t)
  | None => (1, t)
  end.
Definition ipt_R1 (c : string) (r : ChainRule) : Command := λ t,
  match chain_rules t c with
  | Some (_ :: l) => (0, set_chain t c (r :: l))
  | _ => (1, t)
  end.

(** The awk filters on the listing of a chain: whether its first rule jumps to
    [j], and the deletion of the first jump to [j] at an index above 1. *)
Definition first_is (c : string) (j : string) : Command := λ t,
  match chain_rules t c with
  | Some (r :: _) => (if is_jump j r then 0 else 1, t)
  | _ => (1, t)
  end.
Definition delete_later (c : string) (j : string) : Command := λ t,
  match chain_rules t c with
  | Some (r :: l) =>
      if existsb (is_jump j) l then (0, set_chain t c (r :: remove_jump j l)) else (1, t)
  | _ => (1, t)
  end.

(** [a || b], [a && b], [a ; b] and [if a ; then b ; else c ; fi] *)
Definition sh_or (a b : Command) : Command := λ t,
  let '(code, t') := a t in if code =? 0 then (0, t') else b t'.
Definition sh_and (a b : Command) : Command := λ t,
  let '(code, t') := a t in if code =? 0 then b t' else (code, t').
Definition sh_if (a b c : Command) : Command := λ t,
  let '(code, t') := a t in if code =? 0 then b t' else c t'.
Definition sh_skip : Command := λ t, (0, t).

(** ** Scripts *)
Inductive Script :=
| CreateChain (ip : IPVersion) (chain table : string)
| DeleteChain (ip : IPVersion) (chain table : string)
| LinkFirst (ip : IPVersion) (parent chain table : string)
| LinkLast (ip : IPVersion) (parent chain table : string)
| UnlinkChain (ip : IPVersion) (parent chain table : string)
| AppendRule (ip : IPVersion) (chain : string) (rule : Rule) (table : string)
| CheckRoot
| EnableAnchor (ip : IPVersion) (anchor table : string)
| ReplaceAnchor (ip : IPVersion) (anchor : string) (rule : Rule) (table : string)
| DisableAnchor (ip : IPVersion) (anchor table : string)
| CheckAnchor (ip : IPVersion) (anchor table : string)
| FlushAnchor (anchor : string)
| AppendAnchor (anchor : string) (rule : Rule)
| MakeCGroup (dir : string)
| AddIpRule
| DeleteIpRule
| FlushRouteTable
| FlushRouteCache.

Definition getCommand (ip : IPVersion) : string :=
  match ip with IPv6 => "ip6tables" | _ => "iptables" end.
Definition ipStr (ip : IPVersion) : string :=
  match ip with IPv6 => "(IPv6)" | _ => "(IPv4)" end.
Definition anchorChain (anchor : string) : string := kAnchorName +:+ ".a." +:+ anchor.
Definition actualChain (anchor : string) : string := kAnchorName +:+ "." +:+ anchor.

(** What is given to [bash -c]. *)
Definition script_text (s : Script) : string :=
  match s with
  | CreateChain ip c t =>
      let cmd := getCommand ip in
      cmd +:+ " -N " +:+ c +:+ " -t " +:+ t +:+ " || " +:+ cmd +:+ " -F " +:+ c +:+ " -t " +:+ t
  | DeleteChain ip c t =>
      let cmd := getCommand ip in
      "if " +:+ cmd +:+ " -L " +:+ c +:+ " -n -t " +:+ t +:+ " > /dev/null 2> /dev/null ; then " +:+
      cmd +:+ " -F " +:+ c +:+ " -t " +:+ t +:+ " && " +:+ cmd +:+ " -X " +:+ c +:+ " -t " +:+ t +:+ "; fi"
  | LinkFirst ip p c t =>
      let cmd := getCommand ip in
      let listing := cmd +:+ " -L " +:+ p +:+ " -n --line-numbers -t " +:+ t +:+ " 2> /dev/null | awk 'int($1) " in
      "if ! " +:+ listing +:+ "== 1 && $2 == " +:+ dquote +:+ c +:+ dquote +:+
      " { found=1 } END { if(found==1) { exit 0 } else { exit 1 } }' ; then " +:+
      cmd +:+ " -I " +:+ p +:+ " -j " +:+ c +:+ " -t " +:+ t +:+ " && " +:+
      listing +:+ "> 1 && $2 == " +:+ dquote +:+ c +:+ dquote +:+ " { print $1; exit }' | xargs " +:+
      cmd +:+ " -t " +:+ t +:+ " -D " +:+ p +:+ " ; fi"
  | LinkLast ip p c t =>
      let cmd := getCommand ip in
      "if ! " +:+ cmd +:+ " -C " +:+ p +:+ " -j " +:+ c +:+ " -t " +:+ t +:+ " 2> /dev/null ; then " +:+
      cmd +:+ " -A " +:+ p +:+ " -j " +:+ c +:+ " -t " +:+ t +:+ "; fi"
  | UnlinkChain ip p c t =>
      let cmd := getCommand ip in
      "if " +:+ cmd +:+ " -C " +:+ p +:+ " -j " +:+ c +:+ " -t " +:+ t +:+ " 2> /dev/null ; then " +:+
      cmd +:+ " -D " +:+ p +:+ " -j " +:+ c +:+ " -t " +:+ t +:+ "; fi"
  | AppendRule ip c r t =>
      getCommand ip +:+ " -A " +:+ c +:+ " " +:+ rule_text r +:+ " -t " +:+ t
  | CheckRoot => "iptables -C " +:+ kOutputChain +:+ " -j " +:+ kRootChain +:+ " 2> /dev/null"
  | EnableAnchor ip a t =>
      let cmd := getCommand ip in
      let jump := anchorChain a +:+ " -j " +:+ actualChain a +:+ " -t " +:+ t in
      "if " +:+ cmd +:+ " -C " +:+ jump +:+ " 2> /dev/null ; then echo '" +:+ a +:+ ipStr ip +:+
      ": ON' ; else echo '" +:+ a +:+ ipStr ip +:+ ": OFF -> ON' ; " +:+ cmd +:+ " -A " +:+ jump +:+ "; fi"
  | ReplaceAnchor ip a r t =>
      getCommand ip +:+ " -R " +:+ actualChain a +:+ " 1 " +:+ rule_text r +:+ " -t " +:+ t +:+
      " ; echo 'Replaced rule " +:+ actualChain a +:+ " " +:+ ipStr ip +:+ " with " +:+ rule_text r +:+ "'"
  | DisableAnchor ip a t =>
      let cmd := getCommand ip in
      "if ! " +:+ cmd +:+ " -C " +:+ anchorChain a +:+ " -j " +:+ actualChain a +:+ " -t " +:+ t +:+
      " 2> /dev/null ; then echo '" +:+ a +:+ ipStr ip +:+ ": OFF' ; else echo '" +:+ a +:+ ipStr ip +:+
      ": ON -> OFF' ; " +:+ cmd +:+ " -F " +:+ anchorChain a +:+ " -t " +:+ t +:+ "; fi"
  | CheckAnchor ip a t =>
      getCommand ip +:+ " -C " +:+ anchorChain a +:+ " -j " +:+ actualChain a +:+ " -t " +:+ t +:+
      " 2> /dev/null"
  | FlushAnchor a => "iptables -F " +:+ actualChain a
  | AppendAnchor a r => "iptables -A " +:+ actualChain a +:+ " " +:+ rule_text r
  | MakeCGroup dir =>
      "if [ ! -d " +:+ dir +:+ " ] ; then mkdir " +:+ dir +:+ " ; sleep 0.1 ; echo " +:+ kCGroupId +:+
      " > " +:+ dir +:+ "/net_cls.classid ; fi"
  | AddIpRule =>
      "if ! ip rule list | grep -q " +:+ kPacketTag +:+ " ; then ip rule add from all fwmark " +:+
      kPacketTag +:+ " lookup " +:+ kRtableName +:+ " pri 100 ; fi"
  | DeleteIpRule =>
      "if ip rule list | grep -q " +:+ kPacketTag +:+ "; then ip rule del from all fwmark " +:+
      kPacketTag +:+ " lookup " +:+ kRtableName +:+ " 2> /dev/null ; fi"
  | FlushRouteTable => "ip route flush table " +:+ kRtableName
  | FlushRouteCache => "ip route flush cache"
  end.

(** The family and table a script works on, with its effect there. *)
Definition script_effect (s : Script) : option (bool * string * Command) :=
  let v6 ip := match ip with IPv6 => true | _ => false end in
  match s with
  | CreateChain ip c t => Some (v6 ip, t, sh_or (ipt_N c) (ipt_F c))
  | DeleteChain ip c t =>
      Some (v6 ip, t, sh_if (ipt_L c) (sh_and (ipt_F c) (ipt_X c)) sh_skip)
  | LinkFirst ip p c t =>
      Some (v6 ip, t, sh_if (first_is p c) sh_skip (sh_and (ipt_I p c) (delete_later p c)))
  | LinkLast ip p c t => Some (v6 ip, t, sh_if (ipt_C p c) sh_skip (ipt_A p (Jump c)))
  | UnlinkChain ip p c t => Some (v6 ip, t, sh_if (ipt_C p c) (ipt_D p c) sh_skip)
  | AppendRule ip c r t => Some (v6 ip, t, ipt_A c (Own r))
  | CheckRoot => Some (false, kFilterTable, ipt_C kOutputChain kRootChain)
  | EnableAnchor ip a t =>
      Some (v6 ip, t, sh_if (ipt_C (anchorChain a) (actualChain a)) sh_skip
                        (ipt_A (anchorChain a) (Jump (actualChain a))))
  | ReplaceAnchor ip a r t => Some (v6 ip, t, ipt_R1 (actualChain a) (Own r))
  | DisableAnchor ip a t =>
      Some (v6 ip, t, sh_if (ipt_C (anchorChain a) (actualChain a)) (ipt_F (anchorChain a)) sh_skip)
  | CheckAnchor ip a t => Some (v6 ip, t, ipt_C (anchorChain a) (actualChain a))
  | FlushAnchor a => Some (false, kFilterTable, ipt_F (actualChain a))
  | AppendAnchor a r => Some (false, kFilterTable, ipt_A (actualChain a) (Own r))
  | _ => None
  end.

(** ** The class *)

(** [QProcess] running [bash -c] on the text of the script: the exit code and
    the machine afterwards. *)
Class Shell (W : Type) := execute : Script -> StateM W Z.

Inductive FilterCallback := SetupTrafficSplitting | TeardownTrafficSplitting.

(** The machine and the static [anchorCallbacks]. *)
Record Firewall (W : Type) := mkFirewall {
  machine : W;
  anchorCallbacks : list (string * FilterCallback)
}.
Arguments mkFirewall {W} _ _.
Arguments machine {W} _.
Arguments anchorCallbacks {W} _.

Fixpoint find_callback (l : list (string * FilterCallback)) (key : string) : option FilterCallback :=
  match l with
  | [] => None
  | (k, f) :: l' => if String.eqb k key then Some f else find_callback l' key
  end.

Definition enabledKey (tableName anchor : string) : string :=
  "enabled:" +:+ tableName +:+ ":" +:+ anchor.
Definition disabledKey (tableName anchor : string) : string :=
  "disabled:" +:+ tableName +:+ ":" +:+ anchor.

Section Class.
Context {W : Type} `{Shell W}.

Definition fw_execute (s : Script) : StateM (Firewall W) Z := λ f,
  let '(code, w) := execute s (machine f) in (code, mkFirewall w (anchorCallbacks f)).

(** [if (ip == Both) { both families; return result4 ? result4 : result6; }] *)
Definition each_family (run : IPVersion -> StateM (Firewall W) Z) (ip : IPVersion) :
    StateM (Firewall W) Z :=
  match ip with
  | Both =>
      result4 <- run IPv4 ;;
      result6 <- run IPv6 ;;
      sret (if negb (result4 =? 0) then result4 else result6)
  | _ => run ip
  end.
Definition each_family_ (run : IPVersion -> StateM (Firewall W) unit) (ip : IPVersion) :
    StateM (Firewall W) unit :=
  match ip with Both => run IPv4 ;; run IPv6 | _ => run ip end.

Definition createChain (ip : IPVersion) (chain tableName : string) : StateM (Firewall W) Z :=
  each_family (λ ip, fw_execute (CreateChain ip chain tableName)) ip.
Definition deleteChain (ip : IPVersion) (chain tableName : string) : StateM (Firewall W) Z :=
  each_family (λ ip, fw_execute (DeleteChain ip chain tableName)) ip.
Definition linkChain (ip : IPVersion) (chain parent : string) (mustBeFirst : bool)
    (tableName : string) : StateM (Firewall W) Z :=
  each_family (λ ip, if mustBeFirst then fw_execute (LinkFirst ip parent chain tableName)
                     else fw_execute (LinkLast ip parent chain tableName)) ip.
Definition unlinkChain (ip : IPVersion) (chain parent tableName : string) :
    StateM (Firewall W) Z :=
  each_family (λ ip, fw_execute (UnlinkChain ip parent chain tableName)) ip.

Definition ensureRootAnchorPriority (ip : IPVersion) : StateM (Firewall W) unit :=
  linkChain ip kRootChain kOutputChain true kFilterTable ;; sret tt.

Definition register (key : string) (func : option FilterCallback) : StateM (Firewall W) unit :=
  modify (λ f,
    match func, find_callback (anchorCallbacks f) key with
    | Some g, None => mkFirewall (machine f) (app (anchorCallbacks f) [(key, g)])
    | _, _ => f
    end).

Definition installAnchor (ip : IPVersion) (anchor : string) (rules : list Rule)
    (tableName : string) (enableFunc disableFunc : option FilterCallback) :
    StateM (Firewall W) unit :=
  each_family_ (λ ip,
    createChain ip (anchorChain anchor) tableName ;;
    linkChain ip (anchorChain anchor) kRootChain false tableName ;;
    register (enabledKey tableName anchor) enableFunc ;;
    register (disabledKey tableName anchor) disableFunc ;;
    createChain ip (actualChain anchor) tableName ;;
    for_each rules (λ rule,
      fw_execute (AppendRule ip (actualChain anchor) rule tableName) ;; sret tt)) ip.

Definition uninstallAnchor (ip : IPVersion) (anchor tableName : string) :
    StateM (Firewall W) unit :=
  each_family_ (λ ip,
    unlinkChain ip (anchorChain anchor) kRootChain tableName ;;
    deleteChain ip (anchorChain anchor) tableName ;;
    deleteChain ip (actualChain anchor) tableName ;;
    sret tt) ip.

Definition getDNSRules (servers : list string) : list Rule :=
  concat (map (λ server,
    [ mkRule [OutInterface "amn0+"; Destination server; Protocol "udp"; DestinationPort 53] ACCEPT;
      mkRule [OutInterface "amn0+"; Destination server; Protocol "tcp"; DestinationPort 53] ACCEPT;
      mkRule [OutInterface "tun0+"; Destination server; Protocol "udp"; DestinationPort 53] ACCEPT;
      mkRule [OutInterface "tun0+"; Destination server; Protocol "tcp"; DestinationPort 53] ACCEPT ])
    servers).
Definition getAllowRule (servers : list string) : list Rule :=
  map (λ server, mkRule [Destination server] ACCEPT) servers.
Definition getBlockRule (servers : list string) : list Rule :=
  map (λ server, mkRule [Destination server] REJECT) servers.

Definition setupTrafficSplitting : StateM (Firewall W) unit :=
  fw_execute (MakeCGroup "/sys/fs/cgroup/net_cls/amnvpnexclusions/") ;;
  fw_execute AddIpRule ;;
  sret tt.
Definition teardownTrafficSplitting : StateM (Firewall W) unit :=
  fw_execute DeleteIpRule ;;
  fw_execute FlushRouteTable ;;
  fw_execute FlushRouteCache ;;
  sret tt.

Definition uninstall : StateM (Firewall W) unit :=
  unlinkChain Both kRootChain kOutputChain kFilterTable ;;
  deleteChain Both kRootChain kFilterTable ;;
  unlinkChain Both kRootChain kPreRoutingChain kRawTable ;;
  deleteChain Both kRootChain kRawTable ;;
  unlinkChain Both kRootChain kPostRoutingChain kNatTable ;;
  deleteChain Both kRootChain kNatTable ;;
  unlinkChain Both kRootChain kOutputChain kMangleTable ;;
  deleteChain Both kRootChain kMangleTable ;;
  uninstallAnchor Both "000.allowLoopback" kFilterTable ;;
  uninstallAnchor Both "400.allowPIA" kFilterTable ;;
  uninstallAnchor IPv4 "320.allowDNS" kFilterTable ;;
  uninstallAnchor Both "310.blockDNS" kFilterTable ;;
  uninstallAnchor Both "300.allowLAN" kFilterTable ;;
  uninstallAnchor Both "290.allowDHCP" kFilterTable ;;
  uninstallAnchor IPv6 "250.blockIPv6" kFilterTable ;;
  uninstallAnchor Both "200.allowVPN" kFilterTable ;;
  uninstallAnchor IPv4 "120.blockNets" kFilterTable ;;
  uninstallAnchor IPv4 "110.allowNets" kFilterTable ;;
  uninstallAnchor Both "100.blockAll" kFilterTable ;;
  uninstallAnchor Both "100.transIp" kNatTable ;;
  uninstallAnchor Both "100.tagPkts" kMangleTable ;;
  uninstallAnchor Both "100.vpnTunOnly" kRawTable ;;
  teardownTrafficSplitting.

Definition lan4 : list string :=
  ["10.0.0.0/8"; "169.254.0.0/16"; "172.16.0.0/12"; "192.168.0.0/16"; "224.0.0.0/4";
   "255.255.255.255/32"].
Definition lan6 : list string := ["fc00::/7"; "fe80::/10"; "ff00::/8"].

Definition install : StateM (Firewall W) unit :=
  uninstall ;;
  createChain Both kRootChain kFilterTable ;;
  createChain Both kRootChain kRawTable ;;
  createChain Both kRootChain kNatTable ;;
  createChain Both kRootChain kMangleTable ;;
  installAnchor Both "000.allowLoopback" [mkRule [OutInterface "lo+"] ACCEPT] kFilterTable None None ;;
  installAnchor IPv4 "320.allowDNS" [] kFilterTable None None ;;
  installAnchor Both "310.blockDNS"
    [mkRule [Protocol "udp"; DestinationPort 53] REJECT;
     mkRule [Protocol "tcp"; DestinationPort 53] REJECT] kFilterTable None None ;;
  installAnchor IPv4 "300.allowLAN" (map (λ net, mkRule [Destination net] ACCEPT) lan4)
    kFilterTable None None ;;
  installAnchor IPv6 "300.allowLAN" (map (λ net, mkRule [Destination net] ACCEPT) lan6)
    kFilterTable None None ;;
  installAnchor IPv4 "290.allowDHCP"
    [mkRule [Protocol "udp"; Destination "255.255.255.255"; SourcePort 68; DestinationPort 67] ACCEPT]
    kFilterTable None None ;;
  installAnchor IPv6 "290.allowDHCP"
    [mkRule [Protocol "udp"; Destination "ff00::/8"; SourcePort 546; DestinationPort 547] ACCEPT]
    kFilterTable None None ;;
  installAnchor IPv6 "250.blockIPv6" [mkRule [NotOutInterface "lo+"] REJECT] kFilterTable None None ;;
  installAnchor Both "200.allowVPN"
    [mkRule [OutInterface "amn0+"] ACCEPT; mkRule [OutInterface "tun0+"] ACCEPT]
    kFilterTable None None ;;
  installAnchor IPv4 "120.blockNets" [] kFilterTable None None ;;
  installAnchor IPv4 "110.allowNets" [] kFilterTable None None ;;
  installAnchor Both "100.blockAll" [mkRule [] REJECT] kFilterTable None None ;;
  installAnchor Both "100.transIp" [mkRule [] MASQUERADE] kNatTable None None ;;
  installAnchor Both "100.tagPkts" [mkRule [CGroup kCGroupId] (MARK kPacketTag)] kMangleTable
    (Some SetupTrafficSplitting) (Some TeardownTrafficSplitting) ;;
  installAnchor Both "100.vpnTunOnly" [mkRule [] ACCEPT] kRawTable None None ;;
  linkChain Both kRootChain kOutputChain true kFilterTable ;;
  linkChain Both kRootChain kPostRoutingChain true kNatTable ;;
  linkChain Both kRootChain kOutputChain true kMangleTable ;;
  linkChain Both kRootChain kPreRoutingChain true kRawTable ;;
  setupTrafficSplitting.

Definition isInstalled : StateM (Firewall W) bool :=
  code <- fw_execute CheckRoot ;; sret (code =? 0).

Definition enableAnchor (ip : IPVersion) (anchor tableName : string) : StateM (Firewall W) unit :=
  each_family_ (λ ip, fw_execute (EnableAnchor ip anchor tableName) ;; sret tt) ip.
Definition disableAnchor (ip : IPVersion) (anchor tableName : string) : StateM (Firewall W) unit :=
  each_family_ (λ ip, fw_execute (DisableAnchor ip anchor tableName) ;; sret tt) ip.
Definition replaceAnchor (ip : IPVersion) (anchor : string) (newRule : Rule) (tableName : string) :
    StateM (Firewall W) unit :=
  each_family_ (λ ip, fw_execute (ReplaceAnchor ip anchor newRule tableName) ;; sret tt) ip.
Definition isAnchorEnabled (ip : IPVersion) (anchor tableName : string) : StateM (Firewall W) bool :=
  code <- fw_execute (CheckAnchor ip anchor tableName) ;; sret (code =? 0).

Definition call_back (key : string) : StateM (Firewall W) unit :=
  callbacks <- gets anchorCallbacks ;;
  match find_callback callbacks key with
  | Some SetupTrafficSplitting => setupTrafficSplitting
  | Some TeardownTrafficSplitting => teardownTrafficSplitting
  | None => sret tt
  end.

Definition setAnchorEnabled (ip : IPVersion) (anchor : string) (enabled : bool)
    (tableName : string) : StateM (Firewall W) unit :=
  if enabled then
    enableAnchor ip anchor tableName ;; call_back (enabledKey tableName anchor)
  else
    disableAnchor ip anchor tableName ;; call_back (disabledKey tableName anchor).

(** [updateDNSServers], [updateAllowNets] and [updateBlockNets] differ in the
    anchor and in the rules of a server. *)
Definition updateAnchor (anchor : string) (rules : list Rule) : StateM (Firewall W) unit :=
  fw_execute (FlushAnchor anchor) ;;
  for_each rules (λ rule, fw_execute (AppendAnchor anchor rule) ;; sret tt).
Definition updateDNSServers (servers : list string) : StateM (Firewall W) unit :=
  updateAnchor "320.allowDNS" (getDNSRules servers).
Definition updateAllowNets (servers : list string) : StateM (Firewall W) unit :=
  updateAnchor "110.allowNets" (getAllowRule servers).
Definition updateBlockNets (servers : list string) : StateM (Firewall W) unit :=
  updateAnchor "120.blockNets" (getBlockRule servers).

End Class.

(** ** Specification: what the scripts do to a machine *)
Definition run_script (v6 : bool) (t : string) (s : Script) (T : Table) : Table :=
  match script_effect s with
  | Some (v6', t', cmd) => if Bool.eqb v6 v6' && String.eqb t t' then (cmd T).2 else T
  | None => T
  end.
Definition run_scripts (v6 : bool) (t : string) (ss : list Script) (T : Table) : Table :=
  foldl (λ T s, run_script v6 t s T) T ss.

(** A machine whose tables change as the iptables commands are documented. *)
Class FirewallMachine (W : Type) `{Shell W} := {
  tables : W -> bool -> string -> Table;
  execute_tables s w v6 t : tables (execute s w).2 v6 t = run_script v6 t s (tables w v6 t);
  execute_code s w v6 t cmd :
    script_effect s = Some (v6, t, cmd) -> (execute s w).1 = (cmd (tables w v6 t)).1
}.

Definition table_names : list string := [kFilterTable; kNatTable; kRawTable; kMangleTable].
Definition builtin (t : string) : string :=
  if String.eqb t kNatTable then kPostRoutingChain
  else if String.eqb t kRawTable then kPreRoutingChain else kOutputChain.

(** The rules of the anchors of a family, in the order of the root chain;
    [allow], [block] and [dns] are the rules of the updated anchors. *)
Definition anchor_names (v6 : bool) : list string :=
  if v6 then ["000.allowLoopback"; "310.blockDNS"; "300.allowLAN"; "290.allowDHCP";
              "250.blockIPv6"; "200.allowVPN"; "100.blockAll"]
  else ["000.allowLoopback"; "320.allowDNS"; "310.blockDNS"; "300.allowLAN"; "290.allowDHCP";
        "200.allowVPN"; "120.blockNets"; "110.allowNets"; "100.blockAll"].

Record Updated := mkUpdated { up_allow : list Rule; up_block : list Rule; up_dns : list Rule }.

Definition anchor_rules (v6 : bool) (u : Updated) (a : string) : list Rule :=
  if String.eqb a "000.allowLoopback" then [mkRule [OutInterface "lo+"] ACCEPT]
  else if String.eqb a "320.allowDNS" then up_dns u
  else if String.eqb a "310.blockDNS" then
    [mkRule [Protocol "udp"; DestinationPort 53] REJECT;
     mkRule [Protocol "tcp"; DestinationPort 53] REJECT]
  else if String.eqb a "300.allowLAN" then
    map (λ net, mkRule [Destination net] ACCEPT) (if v6 then lan6 else lan4)
  else if String.eqb a "290.allowDHCP" then
    [if v6 then mkRule [Protocol "udp"; Destination "ff00::/8"; SourcePort 546; DestinationPort 547] ACCEPT
     else mkRule [Protocol "udp"; Destination "255.255.255.255"; SourcePort 68; DestinationPort 67] ACCEPT]
  else if String.eqb a "250.blockIPv6" then [mkRule [NotOutInterface "lo+"] REJECT]
  else if String.eqb a "200.allowVPN" then
    [mkRule [OutInterface "amn0+"] ACCEPT; mkRule [OutInterface "tun0+"] ACCEPT]
  else if String.eqb a "120.blockNets" then up_block u
  else if String.eqb a "110.allowNets" then up_allow u
  else [mkRule [] REJECT].

(** The table before anything is installed: the block of other rules. *)
Definition clean_table (t : string) (other : nat) : Table := [(builtin t, [Foreign other])].

(** The filter table with the anchors of [enabled] switched on. *)
Fixpoint anchor_chains (v6 : bool) (enabled : string -> bool) (u : Updated) (names : list string) :
    Table :=
  match names with
  | [] => []
  | a :: names' =>
      (anchorChain a, if enabled a then [Jump (actualChain a)] else []) ::
      (actualChain a, map Own (anchor_rules v6 u a)) :: anchor_chains v6 enabled u names'
  end.
Definition filter_table (v6 : bool) (other : nat) (enabled : string -> bool) (u : Updated) : Table :=
  (kOutputChain, [Jump kRootChain; Foreign other]) ::
  (kRootChain, map (λ a, Jump (anchorChain a)) (anchor_names v6)) ::
  anchor_chains v6 enabled u (anchor_names v6).

(** The other tables with their single anchor, which is not switched on. *)
Definition side_anchor (t : string) : string * Rule :=
  if String.eqb t kNatTable then ("100.transIp", mkRule [] MASQUERADE)
  else if String.eqb t kRawTable then ("100.vpnTunOnly", mkRule [] ACCEPT)
  else ("100.tagPkts", mkRule [CGroup kCGroupId] (MARK kPacketTag)).
Definition side_table (t : string) (other : nat) : Table :=
  let '(a, r) := side_anchor t in
  [(builtin t, [Jump kRootChain; Foreign other]); (kRootChain, [Jump (anchorChain a)]);
   (anchorChain a, []); (actualChain a, [Own r])].

Definition installed_table (v6 : bool) (t : string) (other : nat)
    (enabled : string -> bool) (u : Updated) : Table :=
  if String.eqb t kFilterTable then filter_table v6 other enabled u else side_table t other.

(** The anchors the code switches; the last is never installed. *)
Definition known_anchors : list string :=
  ["000.allowLoopback"; "320.allowDNS"; "310.blockDNS"; "300.allowLAN"; "290.allowDHCP";
   "250.blockIPv6"; "200.allowVPN"; "120.blockNets"; "110.allowNets"; "100.blockAll"; "400.allowPIA"].

Definition in_family (ip : IPVersion) (v6 : bool) : bool :=
  match ip with Both => true | IPv6 => v6 | IPv4 => negb v6 end.
Definition switch (ip : IPVersion) (a : string) (b : bool) (enabled : bool -> string -> bool) :
    bool -> string -> bool :=
  λ v6 x, if in_family ip v6 && String.eqb x a then b else enabled v6 x.

(** The anchors [updateAnchor] fills, and the new content. *)
Definition update (a : string) (rules : list Rule) (u : Updated) : Updated :=
  if String.eqb a "320.allowDNS" then mkUpdated (up_allow u) (up_block u) rules
  else if String.eqb a "110.allowNets" then mkUpdated rules (up_block u) (up_dns u)
  else mkUpdated (up_allow u) rules (up_dns u).

Section Machine.
Context {W : Type} `{FirewallMachine W}.

Definition Clean (other : bool -> string -> nat) (f : Firewall W) : Prop :=
  ∀ v6 t, t ∈ table_names -> tables (machine f) v6 t = clean_table t (other v6 t).
Definition Installed (other : bool -> string -> nat) (enabled : bool -> string -> bool)
    (u : Updated) (f : Firewall W) : Prop :=
  ∀ v6 t, t ∈ table_names ->
    tables (machine f) v6 t = installed_table v6 t (other v6 t) (enabled v6) u.

(** [m] does to the tables what the scripts [ss] do. *)
Definition traces {A} (m : StateM (Firewall W) A) (ss : list Script) : Prop :=
  ∀ f v6 t, tables (machine (m f).2) v6 t = run_scripts v6 t ss (tables (machine f) v6 t).

(** ** Lemmas *)
Lemma traces_ret {A} (a : A) : traces (sret a) [].
Proof. done. Qed.

Lemma traces_bind {A B} (m : StateM (Firewall W) A) (k : A -> StateM (Firewall W) B) ss ss' :
  traces m ss -> (∀ a, traces (k a) ss') -> traces (sbind m k) (app ss ss').
Proof.
  intros Hm Hk f v6 t. rewrite sbind_run, Hk, Hm. unfold run_scripts. by rewrite foldl_app.
Qed.

Lemma traces_execute s : traces (fw_execute s) [s].
Proof.
  intros f v6 t. unfold fw_execute. pose proof (execute_tables s (machine f) v6 t) as E.
  by destruct (execute s (machine f)).
Qed.

Lemma traces_register key g : traces (register key g) [].
Proof. intros f v6 t. unfold register, modify. cbn. by destruct g, (find_callback (anchorCallbacks f) key). Qed.

Lemma traces_for_each {A} (l : list A) body (ss : A -> list Script) :
  (∀ x, traces (body x) (ss x)) -> traces (for_each l body) (List.concat (map ss l)).
Proof.
  intros Hb. induction l as [|x l IH]; [apply traces_ret|]. by apply traces_bind.
Qed.

Lemma traces_setup :
  traces setupTrafficSplitting [MakeCGroup "/sys/fs/cgroup/net_cls/amnvpnexclusions/"; AddIpRule].
Proof.
  apply (traces_bind _ _ [_] [_]); [apply traces_execute | intros _].
  apply (traces_bind _ _ [_] []); [apply traces_execute | intros _; apply traces_ret].
Qed.

Lemma traces_teardown :
  traces teardownTrafficSplitting [DeleteIpRule; FlushRouteTable; FlushRouteCache].
Proof.
  apply (traces_bind _ _ [_] [_; _]); [apply traces_execute | intros _].
  apply (traces_bind _ _ [_] [_]); [apply traces_execute | intros _].
  apply (traces_bind _ _ [_] []); [apply traces_execute | intros _; apply traces_ret].
Qed.

Lemma traces_call_back key : traces (call_back key) [].
Proof.
  intros f v6 t. unfold call_back. rewrite gets_bind.
  destruct (find_callback (anchorCallbacks f) key) as [[]|]; [..|done].
  - by rewrite traces_setup.
  - by rewrite traces_teardown.
Qed.

End Machine.

(** Collects the scripts of an operation. *)
Ltac trace :=
  repeat first
    [ apply traces_ret | apply traces_execute | apply traces_register | apply traces_call_back
    | apply traces_setup | apply traces_teardown
    | eapply traces_for_each; intros ? | eapply traces_bind; [|intros ?] ].

(** ** Running scripts on a table *)
Definition affects (v6 : bool) (t : string) (s : Script) : bool :=
  match script_effect s with
  | Some (v6', t', _) => Bool.eqb v6 v6' && String.eqb t t'
  | None => false
  end.

Lemma run_relevant v6 t ss T :
  run_scripts v6 t ss T = run_scripts v6 t (List.filter (affects v6 t) ss) T.
Proof.
  revert T; induction ss as [|s ss IH]; intros T; [done|].
  cbn [List.filter run_scripts foldl]. change (run_scripts v6 t ss (run_script v6 t s T) =
    run_scripts v6 t (if affects v6 t s then s :: List.filter (affects v6 t) ss
                      else List.filter (affects v6 t) ss) T).
  rewrite IH. destruct (affects v6 t s) eqn:A; [done|]. f_equal.
  unfold affects in A. unfold run_script.
  destruct (script_effect s) as [[[v6' t'] cmd]|]; [by rewrite A | done].
Qed.

Lemma chain_rules_anchors v6 enabled u c names :
  existsb (λ a, String.eqb c (anchorChain a) || String.eqb c (actualChain a)) names = false ->
  chain_rules (anchor_chains v6 enabled u names) c = None.
Proof.
  induction names as [|a names IH]; [done|]. cbn. intros Hc.
  apply orb_false_iff in Hc as [[-> ->]%orb_false_iff Hc]. auto.
Qed.

Lemma own_no_jump c rs : existsb (is_jump c) (map Own rs) = false.
Proof. by induction rs. Qed.

Lemma referenced_anchors v6 enabled u c names :
  existsb (λ a, String.eqb c (actualChain a)) names = false ->
  referenced (anchor_chains v6 enabled u names) c = false.
Proof.
  unfold referenced. induction names as [|a names IH]; [done|]. cbn. intros Hc.
  apply orb_false_iff in Hc as [Ha Hc]. rewrite own_no_jump, IH by done.
  destruct (enabled a); cbn; by rewrite ?Ha.
Qed.

Lemma chain_rules_set T c l : chain_rules (set_chain T c l) c = Some l.
Proof.
  induction T as [|[c' l'] T IH]; cbn; [by rewrite String.eqb_refl|].
  destruct (String.eqb c c') eqn:E; cbn; [by rewrite String.eqb_refl | by rewrite E].
Qed.

Lemma set_chain_set T c l l' : set_chain (set_chain T c l) c l' = set_chain T c l'.
Proof.
  induction T as [|[c' l''] T IH]; cbn; [by rewrite String.eqb_refl|].
  destruct (String.eqb c c') eqn:E; cbn; [by rewrite String.eqb_refl | by rewrite E, IH].
Qed.

Lemma concat_singletons {A B} (g : A -> B) l : List.concat (map (λ x, [g x]) l) = map g l.
Proof. induction l; cbn; congruence. Qed.

Definition delete_chain_cmd (c : string) : Command :=
  sh_if (ipt_L c) (sh_and (ipt_F c) (ipt_X c)) sh_skip.

(** Deleting the chain that follows the built-in one. *)
Lemma delete_second p o c l rest :
  String.eqb c p = false -> existsb (is_jump c) o = false -> referenced rest c = false ->
  (delete_chain_cmd c ((p, o) :: (c, l) :: rest)).2 = (p, o) :: rest.
Proof.
  intros Hp Ho Hr. unfold delete_chain_cmd, sh_if, sh_and, ipt_L, ipt_F, ipt_X. cbn.
  rewrite Hp, String.eqb_refl. cbn. rewrite Hp, String.eqb_refl. cbn.
  rewrite Hp, String.eqb_refl. cbn. rewrite Ho. unfold referenced in Hr. by rewrite Hr.
Qed.

(** The three scripts of [uninstallAnchor] remove the first anchor of a table
    without root chain. *)
Lemma uninstall_first v6 ip n enabled u a names :
  v6 = match ip with IPv6 => true | _ => false end ->
  existsb (λ a, String.eqb kRootChain (anchorChain a) || String.eqb kRootChain (actualChain a))
    (a :: names) = false ->
  existsb (λ b, String.eqb (anchorChain a) (actualChain b)) (a :: names) = false ->
  existsb (λ b, String.eqb (actualChain a) (actualChain b)) names = false ->
  String.eqb (anchorChain a) kOutputChain = false ->
  String.eqb (actualChain a) kOutputChain = false ->
  ∀ ss,
  run_scripts v6 kFilterTable
    (UnlinkChain ip kRootChain (anchorChain a) kFilterTable ::
     DeleteChain ip (anchorChain a) kFilterTable ::
     DeleteChain ip (actualChain a) kFilterTable :: ss)
    ((kOutputChain, [Foreign n]) :: anchor_chains v6 enabled u (a :: names)) =
  run_scripts v6 kFilterTable ss ((kOutputChain, [Foreign n]) :: anchor_chains v6 enabled u names).
Proof.
  intros Hv Hroot Ha Hc Ho1 Ho2 ss. unfold run_scripts. cbn [foldl]. f_equal.
  unfold run_script. cbn [script_effect]. rewrite <- Hv, Bool.eqb_reflx, String.eqb_refl. cbn [andb].
  fold (delete_chain_cmd (anchorChain a)) (delete_chain_cmd (actualChain a)).
  assert (E : sh_if (ipt_C kRootChain (anchorChain a)) (ipt_D kRootChain (anchorChain a)) sh_skip
                ((kOutputChain, [Foreign n]) :: anchor_chains v6 enabled u (a :: names)) =
              (0, (kOutputChain, [Foreign n]) :: anchor_chains v6 enabled u (a :: names))).
  { unfold sh_if, ipt_C. cbn [chain_rules]. change (String.eqb kRootChain kOutputChain) with false.
    cbn iota. by rewrite chain_rules_anchors. }
  rewrite E. cbn [snd anchor_chains].
  rewrite delete_second; [|done|done|].
  - apply delete_second; [done|done|]. by apply referenced_anchors.
  - cbn in Ha. apply orb_false_iff in Ha as [Ha Ha']. unfold referenced. cbn.
    rewrite own_no_jump. cbn. by apply referenced_anchors.
Qed.

Lemma uninstall_absent v6 ip T a :
  v6 = match ip with IPv6 => true | _ => false end ->
  chain_rules T kRootChain = None -> chain_rules T (anchorChain a) = None ->
  chain_rules T (actualChain a) = None ->
  ∀ ss,
  run_scripts v6 kFilterTable
    (UnlinkChain ip kRootChain (anchorChain a) kFilterTable ::
     DeleteChain ip (anchorChain a) kFilterTable ::
     DeleteChain ip (actualChain a) kFilterTable :: ss) T = run_scripts v6 kFilterTable ss T.
Proof.
  intros Hv Hr Ha Hc ss. unfold run_scripts. cbn [foldl]. f_equal.
  unfold run_script. cbn [script_effect]. rewrite <- Hv, Bool.eqb_reflx, String.eqb_refl. cbn [andb].
  unfold sh_if at 3, ipt_C. rewrite Hr. cbn [snd Z.eqb].
  unfold sh_if, ipt_L, sh_skip. cbn [snd]. rewrite Ha. cbn. by rewrite Hc.
Qed.

Lemma remove_root v6 ip n enabled u :
  v6 = match ip with IPv6 => true | _ => false end -> ∀ ss,
  run_scripts v6 kFilterTable
    (UnlinkChain ip kOutputChain kRootChain kFilterTable ::
     DeleteChain ip kRootChain kFilterTable :: ss) (filter_table v6 n enabled u) =
  run_scripts v6 kFilterTable ss
    ((kOutputChain, [Foreign n]) :: anchor_chains v6 enabled u (anchor_names v6)).
Proof.
  intros Hv ss. unfold run_scripts. cbn [foldl]. f_equal.
  unfold run_script. cbn [script_effect]. rewrite <- Hv, Bool.eqb_reflx, String.eqb_refl. cbn [andb].
  fold (delete_chain_cmd kRootChain).
  assert (E : (sh_if (ipt_C kOutputChain kRootChain) (ipt_D kOutputChain kRootChain) sh_skip
                 (filter_table v6 n enabled u)).2 =
              (kOutputChain, [Foreign n]) ::
              (kRootChain, map (λ a, Jump (anchorChain a)) (anchor_names v6)) ::
              anchor_chains v6 enabled u (anchor_names v6)) by reflexivity.
  rewrite E. apply delete_second; [done | done | apply referenced_anchors; by destruct v6].
Qed.

Ltac vm_relevant :=
  match goal with |- run_scripts _ _ (List.filter ?p ?l) _ = _ =>
    let l' := eval vm_compute in (List.filter p l) in change (List.filter p l) with l'
  end.
Ltac uninstall_next := etransitivity; [apply uninstall_first; reflexivity|].

Ltac unfold_ops :=
  unfold install, uninstall, installAnchor, uninstallAnchor, linkChain, unlinkChain, createChain,
    deleteChain, enableAnchor, disableAnchor, each_family, each_family_.

Section Operations.
Context {W : Type} `{FirewallMachine W}.

Lemma table_cases (P : string -> Prop) :
  P kFilterTable -> P kNatTable -> P kRawTable -> P kMangleTable -> ∀ t, t ∈ table_names -> P t.
Proof.
  intros P1 P2 P3 P4 t Ht. apply list_elem_of_In in Ht.
  by destruct Ht as [<-|[<-|[<-|[<-|[]]]]].
Qed.

Lemma install_installs other f :
  Clean other f -> Installed other (λ _ _, false) (mkUpdated [] [] []) (install f).2.
Proof.
  intros C v6 t Ht.
  eassert (T : traces install _) by (unfold_ops; trace).
  rewrite T, (C v6 t Ht). clear T C. revert t Ht.
  apply table_cases; destruct v6; vm_compute; reflexivity.
Qed.

Lemma uninstall_clean other f : Clean other f -> Clean other (uninstall f).2.
Proof.
  intros C v6 t Ht.
  eassert (T : traces uninstall _) by (unfold_ops; trace).
  rewrite T, (C v6 t Ht). clear T C. revert t Ht.
  apply table_cases; destruct v6; vm_compute; reflexivity.
Qed.

Lemma uninstall_cleans other enabled u f :
  Installed other enabled u f -> Clean other (uninstall f).2.
Proof.
  intros I v6 t Ht.
  eassert (T : traces uninstall _) by (unfold_ops; trace).
  rewrite T, (I v6 t Ht). clear T I. rewrite run_relevant. revert t Ht.
  apply table_cases; [|destruct v6; vm_compute; reflexivity..].
  destruct v6; vm_relevant; (etransitivity; [apply remove_root; reflexivity|]);
    uninstall_next; (etransitivity; [apply uninstall_absent; reflexivity|]);
    repeat uninstall_next; reflexivity.
Qed.

Definition switch_scripts (ip : IPVersion) (a : string) (b : bool) : list Script :=
  map (λ ip, if b then EnableAnchor ip a kFilterTable else DisableAnchor ip a kFilterTable)
    (match ip with Both => [IPv4; IPv6] | IPv4 | IPv6 => [ip] end).

Lemma switch_table ip a b v6 n (enabled : bool -> string -> bool) u :
  a ∈ known_anchors ->
  run_scripts v6 kFilterTable (switch_scripts ip a b) (filter_table v6 n (enabled v6) u) =
  filter_table v6 n (switch ip a b enabled v6) u.
Proof.
  intros Ha. apply list_elem_of_In in Ha. unfold filter_table.
  destruct (enabled v6 a) eqn:E;
    destruct Ha as [<-|[<-|[<-|[<-|[<-|[<-|[<-|[<-|[<-|[<-|[<-|[]]]]]]]]]]]];
    destruct v6; cbn [anchor_names anchor_chains]; rewrite ?E;
    destruct ip, b; vm_compute; rewrite ?E; reflexivity.
Qed.

Lemma relevant_update v6 t a rules :
  v6 = true \/ String.eqb t kFilterTable = false ->
  List.filter (affects v6 t) (FlushAnchor a :: map (AppendAnchor a) rules) = [].
Proof.
  intros Hv. assert (B : Bool.eqb v6 false && String.eqb t kFilterTable = false)
    by (destruct Hv as [-> | ->]; [done | apply andb_false_r]).
  cbn [List.filter]. unfold affects at 1. cbn [script_effect]. rewrite B.
  induction rules as [|r rules IH]; [done|]. cbn [map List.filter]. unfold affects at 1.
  cbn [script_effect]. by rewrite B.
Qed.

Lemma setAnchorEnabled_traces ip a b :
  traces (setAnchorEnabled ip a b kFilterTable) (switch_scripts ip a b).
Proof.
  assert (T : ∃ ss, traces (setAnchorEnabled ip a b kFilterTable) ss /\ ss = switch_scripts ip a b).
  { destruct ip, b; (eexists; split; [unfold setAnchorEnabled; unfold_ops; trace | reflexivity]). }
  by destruct T as (? & T & ->).
Qed.

Lemma updateAnchor_traces a rules :
  traces (updateAnchor a rules) (FlushAnchor a :: map (AppendAnchor a) rules).
Proof.
  unfold updateAnchor. apply (traces_bind _ _ [_]); [apply traces_execute | intros _].
  rewrite <- (concat_singletons (AppendAnchor a) rules).
  apply traces_for_each. intros r.
  apply (traces_bind _ _ [_] []); [apply traces_execute | intros _; apply traces_ret].
Qed.

Lemma setAnchorEnabled_installed other enabled u f ip a b :
  a ∈ known_anchors -> Installed other enabled u f ->
  Installed other (switch ip a b enabled) u (setAnchorEnabled ip a b kFilterTable f).2.
Proof.
  intros Ha I v6 t Ht.
  rewrite setAnchorEnabled_traces, (I v6 t Ht). revert t Ht. apply table_cases; [by apply switch_table|..];
    (rewrite run_relevant; destruct ip, b, v6; reflexivity).
Qed.

(** Appending rules to a chain that is there. *)
Lemma append_rules a rules : ∀ T l,
  chain_rules T (actualChain a) = Some l ->
  run_scripts false kFilterTable (map (AppendAnchor a) rules) T =
    match rules with [] => T | _ => set_chain T (actualChain a) (app l (map Own rules)) end.
Proof.
  induction rules as [|r rules IH]; intros T l E; [done|]. cbn [map].
  change (run_scripts false kFilterTable (?s :: ?ss) T) with
    (run_scripts false kFilterTable ss (run_script false kFilterTable s T)).
  assert (run_script false kFilterTable (AppendAnchor a r) T =
          set_chain T (actualChain a) (app l [Own r])) as ->.
  { unfold run_script. cbn. unfold ipt_A. by rewrite E. }
  rewrite (IH _ (app l [Own r])) by apply chain_rules_set.
  destruct rules; [done|]. rewrite set_chain_set, <- app_assoc. done.
Qed.

Lemma updateAnchor_installed other enabled u f a rules :
  a = "320.allowDNS" \/ a = "110.allowNets" \/ a = "120.blockNets" ->
  Installed other enabled u f ->
  Installed other enabled (update a rules u) (updateAnchor a rules f).2.
Proof.
  intros Ha I v6 t Ht.
  rewrite updateAnchor_traces, (I v6 t Ht). clear I. revert t Ht.
  apply table_cases; [destruct v6|..].
  - rewrite run_relevant, relevant_update by (by left). by destruct Ha as [-> | [-> | ->]].
  - change (run_scripts false kFilterTable (?s :: ?ss) ?T) with
      (run_scripts false kFilterTable ss (run_script false kFilterTable s T)).
    rewrite (append_rules a rules _ []); [|by destruct Ha as [-> | [-> | ->]]].
    destruct Ha as [-> | [-> | ->]], rules; reflexivity.
  - by rewrite run_relevant, relevant_update by (by right).
  - by rewrite run_relevant, relevant_update by (by right).
  - by rewrite run_relevant, relevant_update by (by right).
Qed.

Lemma ensureRoot_installed other enabled u f :
  Installed other enabled u f -> Installed other enabled u (ensureRootAnchorPriority Both f).2.
Proof.
  intros I v6 t Ht.
  eassert (T : traces (ensureRootAnchorPriority Both) _)
    by (unfold ensureRootAnchorPriority; unfold_ops; trace).
  rewrite T, (I v6 t Ht). clear T I. revert t Ht.
  apply table_cases; destruct v6; reflexivity.
Qed.

Lemma isInstalled_frames f v6 t :
  tables (machine (isInstalled f).2) v6 t = tables (machine f) v6 t.
Proof.
  assert (T : traces isInstalled [CheckRoot]).
  { apply (traces_bind _ _ [_] []); [apply traces_execute | intros ?; apply traces_ret]. }
  rewrite T. unfold run_scripts, run_script. cbn [foldl script_effect].
  destruct (_ && _); [|done]. unfold ipt_C. by destruct (chain_rules _ _).
Qed.

Lemma isInstalled_code f :
  (isInstalled f).1 = ((ipt_C kOutputChain kRootChain (tables (machine f) false kFilterTable)).1 =? 0).
Proof.
  unfold isInstalled. rewrite sbind_run. unfold fw_execute.
  pose proof (execute_code CheckRoot (machine f) _ _ _ eq_refl) as E.
  destruct (execute CheckRoot (machine f)). cbn in *. by rewrite E.
Qed.

(** Without the chains of [install] nothing is switched and nothing is filled. *)
Lemma setAnchorEnabled_clean other f ip a b :
  a ∈ known_anchors -> Clean other f -> Clean other (setAnchorEnabled ip a b kFilterTable f).2.
Proof.
  intros Ha C v6 t Ht. rewrite setAnchorEnabled_traces, (C v6 t Ht). revert t Ht.
  apply list_elem_of_In in Ha.
  destruct Ha as [<-|[<-|[<-|[<-|[<-|[<-|[<-|[<-|[<-|[<-|[<-|[]]]]]]]]]]]];
    apply table_cases; destruct ip, b, v6; reflexivity.
Qed.

Lemma append_absent a rules T :
  chain_rules T (actualChain a) = None ->
  run_scripts false kFilterTable (map (AppendAnchor a) rules) T = T.
Proof.
  intros E. induction rules as [|r rules IH]; [done|].
  change (run_scripts false kFilterTable (map (AppendAnchor a) rules)
            (run_script false kFilterTable (AppendAnchor a r) T) = T).
  assert (run_script false kFilterTable (AppendAnchor a r) T = T) as ->; [|done].
  unfold run_script. cbn. unfold ipt_A. by rewrite E.
Qed.

Lemma updateAnchor_clean other f a rules :
  a = "320.allowDNS" \/ a = "110.allowNets" \/ a = "120.blockNets" ->
  Clean other f -> Clean other (updateAnchor a rules f).2.
Proof.
  intros Ha C v6 t Ht. rewrite updateAnchor_traces, (C v6 t Ht). revert t Ht.
  apply table_cases; [destruct v6|..];
    try (by rewrite run_relevant, relevant_update by (by right));
    try (by rewrite run_relevant, relevant_update by (by left)).
  destruct Ha as [-> | [-> | ->]]; by apply append_absent.
Qed.

End Operations.
