(* ===== verification/LinuxKillSwitch.v ===== *)
(** * The kill switch on Linux

    The two callers of [LinuxFirewall]: [WireguardUtilsLinux::applyFirewallRules]
    with the parameters [addInterface] gives it (client/platforms/linux/daemon/
    wireguardutilslinux.cpp), and the kill switch of [IpcServer] for the other
    protocols (ipc/ipcserver.cpp). The theorems are about the packets that leave
    the machine afterwards. *)
From Stdlib Require Import ZArith Lia Ascii String.
From stdpp Require Import base list option strings.
From S2P Require Import Prelude HostAddress QtString QtContainers IpAddress InterfaceConfig.
From S2P Require Import LinuxFirewall.
Local Open Scope string_scope.
Local Open Scope Z_scope.

(** The members of [FirewallParams] that are read. *)
Record FirewallParams := mkParams {
  dnsServers : list string;
  allowAddrs : list string;
  blockAddrs : list string;
  blockAll : bool;
  allowNets : bool;
  blockNets : bool
}.

(** The parameters [WireguardUtilsLinux::addInterface] builds. *)
Definition killswitch_params `{AddressParser} `{AddressPrinter} (config : InterfaceConfig) :
    FirewallParams :=
  let everything := fromString "0.0.0.0/0" in
  if existsb (ip_eqb everything) (m_allowedIPAddressRanges config) then
    let excluded := negb (Z.of_nat (length (m_excludedAddresses config)) =? 0) in
    mkParams [qchars (m_dnsServer config)]
      (if excluded then m_excludedAddresses config else []) [] true excluded false
  else
    mkParams [qchars (m_dnsServer config)] []
      (map ip_toString (m_allowedIPAddressRanges config)) false false true.

Section KillSwitch.
Context {W : Type} `{Shell W}.

Definition applyFirewallRules (params : FirewallParams) : StateM (Firewall W) unit :=
  installed <- isInstalled ;;
  (if negb installed then install else sret tt) ;;
  ensureRootAnchorPriority Both ;;
  setAnchorEnabled Both "000.allowLoopback" true kFilterTable ;;
  setAnchorEnabled Both "100.blockAll" (blockAll params) kFilterTable ;;
  setAnchorEnabled IPv4 "110.allowNets" (allowNets params) kFilterTable ;;
  updateAllowNets (allowAddrs params) ;;
  setAnchorEnabled IPv4 "120.blockNets" (blockNets params) kFilterTable ;;
  updateBlockNets (blockAddrs params) ;;
  setAnchorEnabled IPv4 "200.allowVPN" true kFilterTable ;;
  setAnchorEnabled IPv6 "250.blockIPv6" true kFilterTable ;;
  setAnchorEnabled Both "290.allowDHCP" true kFilterTable ;;
  setAnchorEnabled Both "300.allowLAN" true kFilterTable ;;
  setAnchorEnabled IPv4 "310.blockDNS" true kFilterTable ;;
  updateDNSServers (dnsServers params) ;;
  setAnchorEnabled IPv4 "320.allowDNS" true kFilterTable ;;
  setAnchorEnabled Both "400.allowPIA" true kFilterTable.

(** [IpcServer::enableKillSwitch], the parameters and the Linux branch. *)
Definition split_params (configStr : QJsonObject) : FirewallParams :=
  let splitTunnelType := json_toInt (value "splitTunnelType" configStr) in
  let sites := map toString (toArray (value "splitTunnelSites" configStr)) in
  let server := toString (value "vpnServer" configStr) in
  let dns := [toString (value "dns1" configStr); toString (value "dns2" configStr);
              "127.0.0.1"; "127.0.0.53"] in
  if splitTunnelType =? 0 then mkParams dns [server] [] true true false
  else if splitTunnelType =? 1 then mkParams dns [] sites false false true
  else if splitTunnelType =? 2 then mkParams dns (server :: sites) [] true true false
  else mkParams dns [] [] false false false.

Definition enableKillSwitch (configStr : QJsonObject) : StateM (Firewall W) bool :=
  let params := split_params configStr in
  setAnchorEnabled Both "000.allowLoopback" true kFilterTable ;;
  setAnchorEnabled Both "100.blockAll" (blockAll params) kFilterTable ;;
  setAnchorEnabled IPv4 "110.allowNets" (allowNets params) kFilterTable ;;
  updateAllowNets (allowAddrs params) ;;
  setAnchorEnabled IPv4 "120.blockNets" (blockAll params) kFilterTable ;;
  updateBlockNets (blockAddrs params) ;;
  setAnchorEnabled IPv4 "200.allowVPN" true kFilterTable ;;
  setAnchorEnabled IPv6 "250.blockIPv6" true kFilterTable ;;
  setAnchorEnabled Both "290.allowDHCP" true kFilterTable ;;
  setAnchorEnabled Both "300.allowLAN" true kFilterTable ;;
  setAnchorEnabled IPv4 "310.blockDNS" true kFilterTable ;;
  updateDNSServers (dnsServers params) ;;
  setAnchorEnabled IPv4 "320.allowDNS" true kFilterTable ;;
  setAnchorEnabled Both "400.allowPIA" true kFilterTable ;;
  sret true.

Definition disableKillSwitch : StateM (Firewall W) bool := uninstall ;; sret true.

(** What the service does with its firewall: the tunnel is brought up with
    the kill switch on, taken down, or another protocol uses the calls of
    [IpcServer]. *)
Inductive FirewallUse :=
| TunnelUp (params : FirewallParams)
| TunnelDown
| KillSwitchOn (configStr : QJsonObject)
| KillSwitchOff.

Definition use_firewall (x : FirewallUse) : StateM (Firewall W) unit :=
  match x with
  | TunnelUp params => applyFirewallRules params
  | TunnelDown => uninstall
  | KillSwitchOn configStr => enableKillSwitch configStr ;; sret tt
  | KillSwitchOff => disableKillSwitch ;; sret tt
  end.

End KillSwitch.

(** ** Specification: the fate of a packet *)
Record Packet := mkPacket {
  out_interface : string;
  destination : QHostAddress;
  packet_protocol : string;
  source_port : Z;
  destination_port : Z;
  packet_cgroup : string
}.

Inductive Verdict := Accepted | Rejected.

(** An interface name in a rule matches every name with that beginning when it
    ends in a plus sign. *)
Definition interface_matches (pattern name : string) : bool :=
  if endsWith pattern "+" then startsWith name (left_chars (slen pattern - 1) pattern)
  else String.eqb pattern name.

Section Packets.
(** Whether an address is in the network a text names, and what the rules of
    other programs (and then the policy of the chain) do with a packet. *)
Context (in_net : string -> QHostAddress -> bool) (others : nat -> Packet -> Verdict).

Definition option_matches (p : Packet) (o : RuleOption) : bool :=
  match o with
  | OutInterface n => interface_matches n (out_interface p)
  | NotOutInterface n => negb (interface_matches n (out_interface p))
  | Destination n => in_net n (destination p)
  | Protocol n => String.eqb n (packet_protocol p)
  | SourcePort n => source_port p =? n
  | DestinationPort n => destination_port p =? n
  | CGroup i => String.eqb i (packet_cgroup p)
  end.
Definition rule_matches (p : Packet) (r : Rule) : bool :=
  forallb (option_matches p) (rule_options r).

(** The rules of a chain in order; a jump that reaches no verdict returns.
    [depth] bounds the nesting of jumps. *)
Fixpoint traverse (depth : nat) (T : Table) (p : Packet) (l : list ChainRule) : option Verdict :=
  match depth with
  | O => None
  | S depth' =>
      (fix go (l : list ChainRule) : option Verdict :=
         match l with
         | [] => None
         | Own r :: l' =>
             if rule_matches p r then
               match rule_target r with ACCEPT => Some Accepted | REJECT => Some Rejected | _ => go l' end
             else go l'
         | Jump c :: l' =>
             match traverse depth' T p (default [] (chain_rules T c)) with
             | Some v => Some v
             | None => go l'
             end
         | Foreign n :: _ => Some (others n p)
         end) l
  end.

Definition output_verdict (T : Table) (p : Packet) : option Verdict :=
  traverse 4 T p (default [] (chain_rules T kOutputChain)).

(** What the kill switch is to do. *)
Definition to_port_53 (p : Packet) : bool :=
  (String.eqb (packet_protocol p) "udp" || String.eqb (packet_protocol p) "tcp") &&
  (destination_port p =? 53).
Definition through_tunnel (p : Packet) : bool :=
  startsWith (out_interface p) "amn0" || startsWith (out_interface p) "tun0".
Definition loopback (p : Packet) : bool := startsWith (out_interface p) "lo".
Definition in_nets (nets : list string) (p : Packet) : bool :=
  existsb (λ n, in_net n (destination p)) nets.
Definition dhcp4 (p : Packet) : bool :=
  String.eqb (packet_protocol p) "udp" && in_net "255.255.255.255" (destination p) &&
  (source_port p =? 68) && (destination_port p =? 67).
Definition dhcp6 (p : Packet) : bool :=
  String.eqb (packet_protocol p) "udp" && in_net "ff00::/8" (destination p) &&
  (source_port p =? 546) && (destination_port p =? 547).

Definition verdict4 (params : FirewallParams) (other : nat) (p : Packet) : Verdict :=
  if loopback p then Accepted
  else if to_port_53 p then
    (if through_tunnel p && in_nets (dnsServers params) p then Accepted else Rejected)
  else if in_nets lan4 p || dhcp4 p || through_tunnel p then Accepted
  else if blockNets params && in_nets (blockAddrs params) p then Rejected
  else if allowNets params && in_nets (allowAddrs params) p then Accepted
  else if blockAll params then Rejected
  else others other p.

Definition verdict6 (p : Packet) : Verdict :=
  if loopback p || in_nets lan6 p || dhcp6 p then Accepted else Rejected.

End Packets.

(** ** Lemmas: verdicts *)
Section PacketLemmas.
Context (in_net : string -> QHostAddress -> bool) (others : nat -> Packet -> Verdict).

Fixpoint first_match (p : Packet) (l : list Rule) : option Verdict :=
  match l with
  | [] => None
  | r :: l' =>
      if rule_matches in_net p r then
        match rule_target r with ACCEPT => Some Accepted | REJECT => Some Rejected | _ => first_match p l' end
      else first_match p l'
  end.

Lemma traverse_own d T p rs : traverse in_net others (S d) T p (map Own rs) = first_match p rs.
Proof.
  induction rs as [|r rs IH]; [done|]. cbn in *. rewrite IH.
  by destruct (rule_matches in_net p r), (rule_target r).
Qed.

Lemma traverse_jump d T p c l :
  traverse in_net others (S d) T p (Jump c :: l) =
    match traverse in_net others d T p (default [] (chain_rules T c)) with
    | Some v => Some v
    | None => traverse in_net others (S d) T p l
    end.
Proof. done. Qed.

(** The verdict of the enabled anchors, in their order. *)
Definition anchors_verdict (v6 : bool) (enabled : string -> bool) (u : Updated) (p : Packet)
    (names : list string) : option Verdict :=
  foldr (λ a rest,
    match (if enabled a then first_match p (anchor_rules v6 u a) else None) with
    | Some v => Some v
    | None => rest
    end) None names.

Lemma traverse_anchors v6 (enabled : string -> bool) u T p names :
  Forall (λ a,
    chain_rules T (anchorChain a) = Some (if enabled a then [Jump (actualChain a)] else []) /\
    chain_rules T (actualChain a) = Some (map Own (anchor_rules v6 u a))) names ->
  traverse in_net others 3 T p (map (λ a, Jump (anchorChain a)) names) =
    anchors_verdict v6 enabled u p names.
Proof.
  induction 1 as [|a names [Ha Hc] F IH]; [done|].
  cbn [map]. rewrite traverse_jump, IH, Ha. cbn [anchors_verdict foldr].
  change (default [] (Some ?l)) with l. destruct (enabled a); [|done].
  rewrite traverse_jump, Hc. change (default [] (Some ?l)) with l.
  rewrite traverse_own. by destruct (first_match p _).
Qed.

Lemma filter_verdict v6 n enabled u p :
  output_verdict in_net others (filter_table v6 n enabled u) p =
    Some (default (others n p) (anchors_verdict v6 enabled u p (anchor_names v6))).
Proof.
  unfold output_verdict. change (chain_rules (filter_table v6 n enabled u) kOutputChain)
    with (Some [Jump kRootChain; Foreign n]). change (default [] (Some ?l)) with l.
  rewrite traverse_jump.
  change (chain_rules (filter_table v6 n enabled u) kRootChain)
    with (Some (map (λ a, Jump (anchorChain a)) (anchor_names v6))). change (default [] (Some ?l)) with l.
  rewrite (traverse_anchors v6 enabled u).
  - by destruct (anchors_verdict v6 enabled u p (anchor_names v6)).
  - destruct v6; repeat (constructor; [split; reflexivity|]); constructor.
Qed.

Lemma first_match_nets t p nets :
  first_match p (map (λ n, mkRule [Destination n] t) nets) =
    if in_nets in_net nets p
    then match t with ACCEPT => Some Accepted | REJECT => Some Rejected | _ => None end else None.
Proof.
  unfold in_nets. induction nets as [|n nets IH]; [done|]. cbn in *.
  unfold rule_matches. cbn. rewrite IH.
  destruct (in_net n (destination p)), t; cbn; try done; by destruct (existsb _ _).
Qed.

Lemma first_match_dns p servers :
  first_match p (getDNSRules servers) =
    if through_tunnel p && to_port_53 p && in_nets in_net servers p then Some Accepted else None.
Proof.
  unfold in_nets. induction servers as [|n servers IH]; [by rewrite andb_false_r|].
  change (getDNSRules (n :: servers)) with
    ((mkRule [OutInterface "amn0+"; Destination n; Protocol "udp"; DestinationPort 53] ACCEPT ::
      mkRule [OutInterface "amn0+"; Destination n; Protocol "tcp"; DestinationPort 53] ACCEPT ::
      mkRule [OutInterface "tun0+"; Destination n; Protocol "udp"; DestinationPort 53] ACCEPT ::
      mkRule [OutInterface "tun0+"; Destination n; Protocol "tcp"; DestinationPort 53] ACCEPT ::
      getDNSRules servers)).
  cbn [first_match rule_target]. rewrite IH. unfold rule_matches, through_tunnel, to_port_53.
  cbn [rule_options forallb option_matches existsb].
  change (interface_matches "amn0+" (out_interface p)) with (startsWith (out_interface p) "amn0").
  change (interface_matches "tun0+" (out_interface p)) with (startsWith (out_interface p) "tun0").
  rewrite !(String.eqb_sym (packet_protocol p)).
  destruct (startsWith (out_interface p) "amn0"), (startsWith (out_interface p) "tun0"),
    (in_net n (destination p)), (String.eqb "udp" (packet_protocol p)),
    (String.eqb "tcp" (packet_protocol p)), (destination_port p =? 53); reflexivity.
Qed.

Lemma first_match_loopback p :
  first_match p [mkRule [OutInterface "lo+"] ACCEPT] = if loopback p then Some Accepted else None.
Proof.
  unfold loopback. cbn [first_match rule_target]. unfold rule_matches.
  cbn [rule_options forallb option_matches].
  change (interface_matches "lo+" (out_interface p)) with (startsWith (out_interface p) "lo").
  by rewrite andb_true_r.
Qed.

Lemma first_match_not_loopback p :
  first_match p [mkRule [NotOutInterface "lo+"] REJECT] = if loopback p then None else Some Rejected.
Proof.
  unfold loopback. cbn [first_match rule_target]. unfold rule_matches.
  cbn [rule_options forallb option_matches].
  change (interface_matches "lo+" (out_interface p)) with (startsWith (out_interface p) "lo").
  by destruct (startsWith _ _).
Qed.

Lemma first_match_port_53 p :
  first_match p [mkRule [Protocol "udp"; DestinationPort 53] REJECT;
                 mkRule [Protocol "tcp"; DestinationPort 53] REJECT] =
    if to_port_53 p then Some Rejected else None.
Proof.
  unfold to_port_53. cbn [first_match rule_target]. unfold rule_matches.
  cbn [rule_options forallb option_matches]. rewrite !(String.eqb_sym (packet_protocol p)).
  by destruct (String.eqb "udp" _), (String.eqb "tcp" _), (destination_port p =? 53).
Qed.

Lemma first_match_tunnel p :
  first_match p [mkRule [OutInterface "amn0+"] ACCEPT; mkRule [OutInterface "tun0+"] ACCEPT] =
    if through_tunnel p then Some Accepted else None.
Proof.
  unfold through_tunnel. cbn [first_match rule_target]. unfold rule_matches.
  cbn [rule_options forallb option_matches].
  change (interface_matches "amn0+" (out_interface p)) with (startsWith (out_interface p) "amn0").
  change (interface_matches "tun0+" (out_interface p)) with (startsWith (out_interface p) "tun0").
  by destruct (startsWith _ "amn0"), (startsWith _ "tun0").
Qed.

Lemma first_match_dhcp p net sport dport :
  first_match p [mkRule [Protocol "udp"; Destination net; SourcePort sport; DestinationPort dport] ACCEPT] =
    if String.eqb (packet_protocol p) "udp" && in_net net (destination p) &&
       (source_port p =? sport) && (destination_port p =? dport)
    then Some Accepted else None.
Proof.
  cbn [first_match rule_target]. unfold rule_matches. cbn [rule_options forallb option_matches].
  rewrite String.eqb_sym.
  by destruct (String.eqb _ _), (in_net _ _), (source_port p =? sport), (destination_port p =? dport).
Qed.

End PacketLemmas.

(** ** Lemmas: the state of the firewall *)
Lemma step {S A B} (P Q R : S -> Prop) (m : StateM S A) (k : A -> StateM S B) :
  (∀ s, P s -> Q (m s).2) -> (∀ a s, Q s -> R (k a s).2) -> ∀ s, P s -> R (sbind m k s).2.
Proof. intros Hm Hk s Hs. rewrite sbind_run. by apply Hk, Hm. Qed.

Lemma for_each_last {S A} (xs : list A) x (body : A -> StateM S unit) s :
  (for_each (app xs [x]) body s).2 = (body x (for_each xs body s).2).2.
Proof.
  revert s. induction xs as [|y xs IH]; intros s; cbn [app for_each];
    rewrite ?sbind_run; [done | apply IH].
Qed.

Section Uses.
Context {W : Type} `{FirewallMachine W}.
Context (other : bool -> string -> nat).

(** The anchors after [applyFirewallRules]. *)
Definition applied (params : FirewallParams) (v6 : bool) (a : string) : bool :=
  if String.eqb a "100.blockAll" then blockAll params
  else if String.eqb a "110.allowNets" then allowNets params
  else if String.eqb a "120.blockNets" then blockNets params
  else negb (v6 && (String.eqb a "310.blockDNS" || String.eqb a "200.allowVPN")).
Definition filled (params : FirewallParams) : Updated :=
  mkUpdated (getAllowRule (allowAddrs params)) (getBlockRule (blockAddrs params))
    (getDNSRules (dnsServers params)).

(** Two anchors of the IPv6 side are never switched on. *)
Definition Working (f : Firewall W) : Prop :=
  ∃ enabled u, Installed other enabled u f /\
    enabled true "310.blockDNS" = false /\ enabled true "200.allowVPN" = false.
Definition Usable (f : Firewall W) : Prop := Clean other f \/ Working f.

Lemma filter_table_ext v6 n enabled enabled' u :
  (∀ a, a ∈ anchor_names v6 -> enabled a = enabled' a) ->
  filter_table v6 n enabled u = filter_table v6 n enabled' u.
Proof.
  unfold filter_table. generalize (anchor_names v6) as names. intros names E. do 2 f_equal.
  induction names as [|a names IH]; [done|]. cbn.
  rewrite E, IH; [done | intros; apply E; by right | by left].
Qed.

Lemma Installed_ext enabled enabled' u f :
  (∀ v6 a, a ∈ anchor_names v6 -> enabled v6 a = enabled' v6 a) ->
  Installed other enabled u f -> Installed other enabled' u f.
Proof.
  intros E I v6 t Ht. rewrite (I v6 t Ht). unfold installed_table.
  destruct (String.eqb t kFilterTable); [apply filter_table_ext, E | done].
Qed.

(** The switches the two callers have in common, with the flag the third of
    them gives to the blocked networks. *)
Definition switched (params : FirewallParams) (nets : bool) (enabled : bool -> string -> bool) :
    bool -> string -> bool :=
  switch Both "400.allowPIA" true (switch IPv4 "320.allowDNS" true (switch IPv4 "310.blockDNS" true
  (switch Both "300.allowLAN" true (switch Both "290.allowDHCP" true (switch IPv6 "250.blockIPv6" true
  (switch IPv4 "200.allowVPN" true (switch IPv4 "120.blockNets" nets
  (switch IPv4 "110.allowNets" (allowNets params) (switch Both "100.blockAll" (blockAll params)
  (switch Both "000.allowLoopback" true enabled)))))))))).

Ltac known := apply list_elem_of_In; cbn; tauto.
Ltac switch_step := eapply step;
  [ intros ? ?; first [ eapply setAnchorEnabled_installed; [known | eassumption]
                      | eapply updateAnchor_installed; [tauto | eassumption] ]
  | intros ? ].

Lemma apply_from enabled u params f :
  Installed other enabled u
    ((if negb (isInstalled f).1 then install else sret tt) (isInstalled f).2).2 ->
  Installed other (switched params (blockNets params) enabled) (filled params)
    (applyFirewallRules params f).2.
Proof.
  unfold applyFirewallRules. rewrite sbind_run, sbind_run.
  generalize ((if negb (isInstalled f).1 then install else sret tt) (isInstalled f).2).2.
  eapply (step _ (Installed other enabled u)); [apply ensureRoot_installed | intros _].
  repeat switch_step. intros g I. by eapply setAnchorEnabled_installed; [known|].
Qed.

(** Both where the firewall is installed already and where it is not, the
    anchors end up as the parameters say. *)
Lemma apply_applied params f :
  Usable f -> Installed other (applied params) (filled params) (applyFirewallRules params f).2.
Proof.
  intros U.
  assert (∃ enabled u, Installed other enabled u
      ((if negb (isInstalled f).1 then install else sret tt) (isInstalled f).2).2 /\
    enabled true "310.blockDNS" = false /\ enabled true "200.allowVPN" = false)
    as (enabled & u & I & E1 & E2).
  { destruct U as [C | (enabled & u & I & E)].
    - exists (λ _ _, false), (mkUpdated [] [] []). split; [|done].
      assert ((isInstalled f).1 = false) as -> by
        (rewrite isInstalled_code, (C false kFilterTable) by (by left); reflexivity).
      apply install_installs.
      intros v6 t Ht. rewrite isInstalled_frames. by apply C.
    - exists enabled, u. split; [|done].
      assert ((isInstalled f).1 = true) as -> by
        (rewrite isInstalled_code, (I false kFilterTable) by (by left); reflexivity).
      intros v6 t Ht. etransitivity; [apply isInstalled_frames | by apply I]. }
  eapply Installed_ext; [|by eapply apply_from].
  intros v6 a Ha. apply list_elem_of_In in Ha.
  destruct v6; cbn in Ha; repeat (destruct Ha as [<-|Ha]); try done; vm_compute; by rewrite ?E1, ?E2.
Qed.

Lemma kill_from enabled u configStr f :
  Installed other enabled u f ->
  Installed other (switched (split_params configStr) (blockAll (split_params configStr)) enabled)
    (filled (split_params configStr)) (enableKillSwitch configStr f).2.
Proof.
  revert f. unfold enableKillSwitch. repeat switch_step. done.
Qed.

Lemma kill_clean configStr f :
  Clean other f -> Clean other (enableKillSwitch configStr f).2.
Proof.
  revert f. unfold enableKillSwitch.
  repeat (eapply step;
    [ intros ? ?; first [ eapply setAnchorEnabled_clean; [known | eassumption]
                        | eapply updateAnchor_clean; [tauto | eassumption] ]
    | intros ? ]). done.
Qed.

Lemma down_clean x f :
  x = TunnelDown \/ x = KillSwitchOff -> Usable f -> Clean other (use_firewall x f).2.
Proof.
  assert (D : ∀ f, Usable f -> Clean other (uninstall f).2).
  { intros g [C | (enabled & u & I & _)]; [by apply uninstall_clean | by eapply uninstall_cleans]. }
  intros [-> | ->] U; cbn [use_firewall]; [by apply D|].
  rewrite sbind_run. unfold disableKillSwitch. rewrite sbind_run. cbn [sret snd]. by apply D.
Qed.

Lemma use_usable x f : Usable f -> Usable (use_firewall x f).2.
Proof.
  intros U. destruct x as [params| |configStr|]; cbn [use_firewall].
  - right. exists (applied params), (filled params). split; [by apply apply_applied | done].
  - left. by apply (down_clean TunnelDown); [left|].
  - rewrite sbind_run. cbn [sret snd]. destruct U as [C | (enabled & u & I & E1 & E2)].
    + left. by apply kill_clean.
    + right. do 2 eexists. split; [by eapply kill_from | split; [exact E1 | exact E2]].
  - left. by apply (down_clean KillSwitchOff); [right|].
Qed.

Lemma uses_usable xs f : Usable f -> Usable (for_each xs use_firewall f).2.
Proof. apply (invariant_for_each Usable). intros x g. apply use_usable. Qed.

Lemma kill_reports configStr f : (enableKillSwitch configStr f).1 = true.
Proof. unfold enableKillSwitch. by rewrite !sbind_run. Qed.

Lemma applied_verdict4 in_net others params n p :
  output_verdict in_net others (filter_table false n (applied params false) (filled params)) p =
    Some (verdict4 in_net others params n p).
Proof.
  rewrite filter_verdict. f_equal. unfold anchors_verdict. cbn [anchor_names foldr].
  repeat (set (e := applied params false _); cbv [applied String.eqb Ascii.eqb Bool.eqb andb orb negb] in e; subst e). cbn iota.
  change (anchor_rules false (filled params) "320.allowDNS") with (getDNSRules (dnsServers params)).
  change (anchor_rules false (filled params) "300.allowLAN")
    with (map (λ net, mkRule [Destination net] ACCEPT) lan4).
  change (anchor_rules false (filled params) "120.blockNets")
    with (map (λ n, mkRule [Destination n] REJECT) (blockAddrs params)).
  change (anchor_rules false (filled params) "110.allowNets")
    with (map (λ n, mkRule [Destination n] ACCEPT) (allowAddrs params)).
  change (anchor_rules false (filled params) "290.allowDHCP")
    with [mkRule [Protocol "udp"; Destination "255.255.255.255"; SourcePort 68; DestinationPort 67] ACCEPT].
  rewrite first_match_loopback, first_match_dns, first_match_port_53, first_match_dhcp,
    first_match_tunnel, !first_match_nets.
  change (first_match in_net p (anchor_rules false (filled params) "100.blockAll"))
    with (Some Rejected).
  unfold verdict4. fold (dhcp4 in_net p).
  destruct (loopback p); [done|]. destruct (to_port_53 p);
    [by rewrite andb_true_r; destruct (through_tunnel p && _) |].
  rewrite andb_false_r. cbn [andb].
  destruct (in_nets in_net lan4 p), (dhcp4 in_net p), (through_tunnel p); try done. cbn [orb].
  destruct (blockNets params), (in_nets in_net (blockAddrs params) p); try done; cbn [andb];
    destruct (allowNets params), (in_nets in_net (allowAddrs params) p); try done;
    by destruct (blockAll params).
Qed.

Lemma switched_verdict4 in_net others params nets enabled n p :
  output_verdict in_net others (filter_table false n (switched params nets enabled false) (filled params)) p =
    Some (verdict4 in_net others
      (mkParams (dnsServers params) (allowAddrs params) (blockAddrs params)
         (blockAll params) (allowNets params) nets) n p).
Proof.
  rewrite <- applied_verdict4. f_equal.
Qed.

Lemma applied_verdict6 in_net others params n p :
  output_verdict in_net others (filter_table true n (applied params true) (filled params)) p =
    Some (verdict6 in_net p).
Proof.
  rewrite filter_verdict. f_equal. unfold anchors_verdict. cbn [anchor_names foldr].
  repeat (set (e := applied params true _); cbv [applied String.eqb Ascii.eqb Bool.eqb andb orb negb] in e; subst e). cbn iota.
  change (anchor_rules true (filled params) "300.allowLAN")
    with (map (λ net, mkRule [Destination net] ACCEPT) lan6).
  change (anchor_rules true (filled params) "290.allowDHCP")
    with [mkRule [Protocol "udp"; Destination "ff00::/8"; SourcePort 546; DestinationPort 547] ACCEPT].
  rewrite first_match_loopback, first_match_dhcp, first_match_not_loopback, !first_match_nets.
  unfold verdict6. fold (dhcp6 in_net p).
  by destruct (loopback p), (in_nets in_net lan6 p), (dhcp6 in_net p).
Qed.

End Uses.

(** ** A machine that is its tables *)
Definition SimTables : Type := bool -> string -> Table.

#[local] Instance sim_shell : Shell SimTables := λ s w,
  match script_effect s with
  | Some (v6, t, cmd) =>
      let '(code, T) := cmd (w v6 t) in
      (code, λ v6' t', if Bool.eqb v6' v6 && String.eqb t' t then T else w v6' t')
  | None => (0, w)
  end.

#[local] Instance sim_machine : FirewallMachine SimTables.
Proof.
  refine {| tables := λ w, w |}.
  - intros s w v6 t. unfold execute, sim_shell, run_script.
    destruct (script_effect s) as [[[v6' t'] cmd]|]; [|done].
    destruct (cmd (w v6' t')) as [code T] eqn:E. cbn.
    destruct (Bool.eqb v6 v6' && String.eqb t t') eqn:B; [|done].
    apply andb_true_iff in B as [->%eqb_prop ->%String.eqb_eq]. by rewrite E.
  - intros s w v6 t cmd E. unfold execute, sim_shell. rewrite E. by destruct (cmd (w v6 t)).
Defined.

Definition sim_clean : Firewall SimTables := mkFirewall (λ _ t, clean_table t 0) [].
Lemma sim_clean_ok : Clean (λ _ _, 0%nat) sim_clean.
Proof. done. Qed.

Definition sim_packet (interface : string) : Packet :=
  mkPacket interface (IPv4Address 134744072) "tcp" 40000 443 "".

(** The texts of the fixed rules, as the source has them. *)
Example rule_texts :
  map rule_text (anchor_rules false (mkUpdated [] [] (getDNSRules ["9.9.9.9"])) "320.allowDNS") =
    ["-o amn0+ -d 9.9.9.9 -p udp --dport 53 -j ACCEPT";
     "-o amn0+ -d 9.9.9.9 -p tcp --dport 53 -j ACCEPT";
     "-o tun0+ -d 9.9.9.9 -p udp --dport 53 -j ACCEPT";
     "-o tun0+ -d 9.9.9.9 -p tcp --dport 53 -j ACCEPT"] /\
  map rule_text (anchor_rules true (mkUpdated [] [] []) "250.blockIPv6") = ["! -o lo+ -j REJECT"] /\
  map rule_text (anchor_rules false (mkUpdated [] [] []) "290.allowDHCP") =
    ["-p udp -d 255.255.255.255 --sport 68 --dport 67 -j ACCEPT"] /\
  rule_text (mkRule [CGroup kCGroupId] (MARK kPacketTag)) =
    "-m cgroup --cgroup 0x567 -j MARK --set-mark 0x3211".
Proof. repeat split. Qed.

(** ** Properties *)

(** C2. The kill switch does what it promises. Whatever the service did with
    its firewall before, once [applyFirewallRules] has run an IPv4 packet
    leaves only by the loopback, as a DNS query to a configured server through
    the tunnel, to the local network, as DHCP, through the tunnel or to an
    excluded network, and is rejected otherwise when everything is to be
    blocked, or when it is for a blocked network; an IPv6 packet leaves only by
    the loopback, to the local network or as DHCP. The commands are taken by
    iptables, the status of which the code only logs. *)
Theorem killswitch_enforced {W} `{FirewallMachine W} other f xs params in_net others p :
  Clean other f ->
  let f' := (for_each (app xs [TunnelUp params]) use_firewall f).2 in
  output_verdict in_net others (tables (machine f') false kFilterTable) p =
    Some (verdict4 in_net others params (other false kFilterTable) p) /\
  output_verdict in_net others (tables (machine f') true kFilterTable) p =
    Some (verdict6 in_net p).
Proof.
  intros C f'. assert (I : Installed other (applied params) (filled params) f').
  { subst f'. rewrite for_each_last. apply apply_applied, uses_usable. by left. }
  rewrite (I false kFilterTable), (I true kFilterTable) by (by left).
  split; [apply applied_verdict4 | apply applied_verdict6].
Qed.

Lemma killswitch_enforced_witness :
  let params := mkParams ["10.8.1.1"] ["203.0.113.7"] [] true true false in
  let f' := (for_each (app [TunnelDown] [TunnelUp params]) use_firewall sim_clean).2 in
  output_verdict (λ _ _, false) (λ _ _, Accepted) (tables (machine f') false kFilterTable)
    (sim_packet "eth0") = Some Rejected.
Proof.
  intros params f'.
  destruct (killswitch_enforced (λ _ _, 0%nat) sim_clean [TunnelDown] params
              (λ _ _, false) (λ _ _, Accepted) (sim_packet "eth0") sim_clean_ok) as [V _].
  exact V.
Defined.

(** C30. Taking the tunnel or the kill switch down leaves every table of both
    families as it was found: none of the chains and links of the firewall
    remains, whatever was done before. *)
Theorem killswitch_lifted {W} `{FirewallMachine W} other f xs :
  Clean other f ->
  Clean other (for_each (app xs [TunnelDown]) use_firewall f).2 /\
  Clean other (for_each (app xs [KillSwitchOff]) use_firewall f).2.
Proof.
  intros C. rewrite !for_each_last.
  split; (apply down_clean; [tauto | apply uses_usable; by left]).
Qed.

(** The kill switch of [IpcServer] alone has no effect: it switches
    anchors on that only [install] creates, and does not install them, so on a
    machine without the chains every packet has the fate it had before, while
    the call reports success. *)
Theorem ipc_killswitch_ineffective {W} `{FirewallMachine W} other f configStr in_net others p v6 :
  Clean other f ->
  (enableKillSwitch configStr f).1 = true /\
  output_verdict in_net others
    (tables (machine (enableKillSwitch configStr f).2) v6 kFilterTable) p =
  Some (others (other v6 kFilterTable) p).
Proof.
  intros C. split; [apply kill_reports|].
  pose proof (kill_clean other configStr f C) as C'. rewrite (C' v6 kFilterTable) by (by left). done.
Qed.

Lemma ipc_killswitch_ineffective_witness :
  let configStr := jinsert "vpnServer" (JString "203.0.113.7") [] in
  output_verdict (λ _ _, false) (λ _ _, Accepted)
    (tables (machine (enableKillSwitch configStr sim_clean).2) false kFilterTable)
    (sim_packet "eth0") = Some Accepted.
Proof.
  intros configStr.
  apply (ipc_killswitch_ineffective (λ _ _, 0%nat) sim_clean configStr
           (λ _ _, false) (λ _ _, Accepted) (sim_packet "eth0") false sim_clean_ok).
Defined.

Lemma killswitch_lifted_witness :
  Clean (λ _ _, 0%nat)
    (for_each (app [TunnelUp (mkParams ["10.8.1.1"] [] ["198.51.100.0/24"] false false true)]
       [TunnelDown]) use_firewall sim_clean).2.
Proof. exact (proj1 (killswitch_lifted (λ _ _, 0%nat) sim_clean _ sim_clean_ok)). Defined.

(** Even where the chains are installed, the kill switch of [IpcServer] does
    not guard the sites of the mode that sends only listed sites through the
    tunnel: the anchor of the blocked networks is switched by the wrong flag,
    and a packet for a listed site that does not go through the tunnel is left
    to the rules of other programs. *)
Theorem ipc_split_sites_unguarded {W} `{FirewallMachine W} other f configStr in_net others p :
  Working other f ->
  json_toInt (value "splitTunnelType" configStr) = 1 ->
  in_nets in_net (map toString (toArray (value "splitTunnelSites" configStr))) p = true ->
  loopback p = false -> to_port_53 p = false -> in_nets in_net lan4 p = false ->
  dhcp4 in_net p = false -> through_tunnel p = false ->
  output_verdict in_net others
    (tables (machine (enableKillSwitch configStr f).2) false kFilterTable) p =
  Some (others (other false kFilterTable) p).
Proof.
  intros (enabled & u & I & _) T S L D N B V.
  assert (P : split_params configStr =
    mkParams (dnsServers (split_params configStr)) []
      (map toString (toArray (value "splitTunnelSites" configStr))) false false true).
  { unfold split_params. by rewrite T. }
  pose proof (kill_from other enabled u configStr f I) as K.
  rewrite (K false kFilterTable), P by (by left).
  etransitivity; [apply (switched_verdict4 in_net others _ false)|]. unfold verdict4.
  by rewrite L, D, N, B, V.
Qed.

Lemma ipc_split_sites_unguarded_witness :
  let configStr := jinsert "splitTunnelSites" (JArray [JString "8.8.8.0/24"])
                     (jinsert "splitTunnelType" (JInt 1) []) in
  let in_net n (h : QHostAddress) := String.eqb n "8.8.8.0/24" in
  let f := (applyFirewallRules (mkParams [] [] [] false false true) sim_clean).2 in
  output_verdict in_net (λ _ _, Accepted)
    (tables (machine (enableKillSwitch configStr f).2) false kFilterTable) (sim_packet "eth0") =
  Some Accepted.
Proof.
  intros configStr in_net f.
  apply (ipc_split_sites_unguarded (λ _ _, 0%nat) f configStr in_net (λ _ _, Accepted));
    [|reflexivity..].
  exists (applied (mkParams [] [] [] false false true)), (filled (mkParams [] [] [] false false true)).
  split; [|done]. apply apply_applied. by left.
Defined.

(** The text of a DNS server is pasted into the commands of the root
    service as it is, without quoting: what follows a semicolon in it is a
    command of its own for the shell. *)
Theorem dns_text_reaches_shell server :
  map (λ r, script_text (AppendAnchor "320.allowDNS" r)) (getDNSRules [server]) =
  ["iptables -A amnvpn.320.allowDNS -o amn0+ -d " +:+ server +:+ " -p udp --dport 53 -j ACCEPT";
   "iptables -A amnvpn.320.allowDNS -o amn0+ -d " +:+ server +:+ " -p tcp --dport 53 -j ACCEPT";
   "iptables -A amnvpn.320.allowDNS -o tun0+ -d " +:+ server +:+ " -p udp --dport 53 -j ACCEPT";
   "iptables -A amnvpn.320.allowDNS -o tun0+ -d " +:+ server +:+ " -p tcp --dport 53 -j ACCEPT"].
Proof. reflexivity. Qed.
