(* ===== verification/Uapi.v ===== *)
(** * The configuration protocol of the tunnel process

    The text protocol that [WireguardUtilsLinux] and [WireguardUtilsMacos] speak
    with the wireguard-go process (client/platforms/linux/daemon/
    wireguardutilslinux.cpp, client/platforms/macos/daemon/
    wireguardutilsmacos.cpp, the same code in both): the messages they build,
    and how they read the replies. *)
From Stdlib Require Import ZArith Lia Ascii String.
From stdpp Require Import base list option strings.
From S2P Require Import Prelude HostAddress QtString IpAddress InterfaceConfig.
From S2P Require Import WireguardUtils.
Local Open Scope string_scope.
Local Open Scope Z_scope.

(** Qt's conversions: base64 text to hexadecimal through the bytes, the inverse
    direction, and a decimal text through [double] to [qint64]. *)
Class KeyText := {
  base64_to_hex : string -> string;
  hex_to_base64 : string -> string;
  double_text : string -> Z
}.

(** [s.toLongLong()]: 0 when the text is no number of that type. *)
Definition toLongLong (s : string) : Z :=
  match signed_val (trimmed s) with
  | Some n => if (- 2 ^ 63 <=? n) && (n <? 2 ^ 63) then n else 0
  | None => 0
  end.

Definition WG_KEEPALIVE_PERIOD : Z := 60.
Definition EINVAL : Z := 22.

(** ** Messages *)

(** [while (!message.endsWith("\n\n")) message.append('\n');] *)
Fixpoint pad_message (fuel : nat) (message : string) : Outcome string :=
  match fuel with
  | O => OutOfFuel
  | S fuel' =>
      if endsWith message (nl +:+ nl) then Ret message else pad_message fuel' (message +:+ nl)
  end.

Section Messages.
Context `{KeyText} `{AddressPrinter}.

Definition field (name : string) (v : QString) : string :=
  if String.eqb (qchars v) "" then "" else name +:+ "=" +:+ qchars v +:+ nl.

Definition interface_message (config : InterfaceConfig) : string :=
  "set=1" +:+ nl +:+
  "private_key=" +:+ base64_to_hex (qchars (m_privateKey config)) +:+ nl +:+
  "replace_peers=true" +:+ nl +:+
  field "jc" (m_junkPacketCount config) +:+
  field "jmin" (m_junkPacketMinSize config) +:+
  field "jmax" (m_junkPacketMaxSize config) +:+
  field "s1" (m_initPacketJunkSize config) +:+
  field "s2" (m_responsePacketJunkSize config) +:+
  field "h1" (m_initPacketMagicHeader config) +:+
  field "h2" (m_responsePacketMagicHeader config) +:+
  field "h3" (m_underloadPacketMagicHeader config) +:+
  field "h4" (m_transportPacketMagicHeader config).

(** The endpoint; [None] is the early return without one. *)
Definition endpoint (config : InterfaceConfig) : option string :=
  if negb (isNull (m_serverIpv4AddrIn config)) then Some (qchars (m_serverIpv4AddrIn config) +:+ ":")
  else if negb (isNull (m_serverIpv6AddrIn config))
  then Some ("[" +:+ qchars (m_serverIpv6AddrIn config) +:+ "]:")
  else None.

Fixpoint allowed_lines (l : list IPAddress) : string :=
  match l with [] => "" | ip :: l' => "allowed_ip=" +:+ ip_toString ip +:+ nl +:+ allowed_lines l' end.

Definition peer_message (config : InterfaceConfig) : option string :=
  e ← endpoint config;
  Some ("set=1" +:+ nl +:+
    "public_key=" +:+ base64_to_hex (qchars (m_serverPublicKey config)) +:+ nl +:+
    (if negb (isNull (m_serverPskKey config))
     then "preshared_key=" +:+ base64_to_hex (qchars (m_serverPskKey config)) +:+ nl else "") +:+
    "endpoint=" +:+ e +:+ number (m_serverPort config) +:+ nl +:+
    "replace_allowed_ips=true" +:+ nl +:+
    "persistent_keepalive_interval=" +:+ number WG_KEEPALIVE_PERIOD +:+ nl +:+
    allowed_lines (m_allowedIPAddressRanges config)).

Definition remove_message (config : InterfaceConfig) : string :=
  "set=1" +:+ nl +:+
  "public_key=" +:+ base64_to_hex (qchars (m_serverPublicKey config)) +:+ nl +:+
  "remove=true" +:+ nl.

(** ** Replies *)
Definition name_value (line : string) : option (string * string) :=
  let eq := indexOf line "=" in
  if eq <=? 0 then None else Some (left_chars eq line, mid (eq + 1) line).

Fixpoint errno_of (lines : list string) : Z :=
  match lines with
  | [] => EINVAL
  | line :: lines' =>
      match name_value line with
      | Some (name, v) => if String.eqb name "errno" then toInt v else errno_of lines'
      | None => errno_of lines'
      end
  end.
Definition uapiErrno (reply : string) : Z := errno_of (split nl reply).

(** One line of the status reply: the peer being read and the list so far. *)
Definition peer_line (acc : PeerStatus * list PeerStatus) (line : string) :
    PeerStatus * list PeerStatus :=
  let '(status, peerList) := acc in
  match name_value line with
  | None => acc
  | Some (name, v) =>
      let '(status, peerList) :=
        if String.eqb name "public_key" then
          (mkPeerStatus (hex_to_base64 v) 0 0 0,
           if negb (String.eqb (m_pubkey status) "") then app peerList [status] else peerList)
        else (status, peerList) in
      let status := if String.eqb name "tx_bytes"
        then mkPeerStatus (m_pubkey status) (m_handshake status) (m_rxBytes status) (double_text v)
        else status in
      let status := if String.eqb name "rx_bytes"
        then mkPeerStatus (m_pubkey status) (m_handshake status) (double_text v) (m_txBytes status)
        else status in
      let status := if String.eqb name "last_handshake_time_sec"
        then mkPeerStatus (m_pubkey status) (m_handshake status + toLongLong v * 1000)
               (m_rxBytes status) (m_txBytes status)
        else status in
      let status := if String.eqb name "last_handshake_time_nsec"
        then mkPeerStatus (m_pubkey status) (m_handshake status + Z.quot (toLongLong v) 1000000)
               (m_rxBytes status) (m_txBytes status)
        else status in
      (status, peerList)
  end.

Definition peers_of (reply : string) : list PeerStatus :=
  let '(status, peerList) := foldl peer_line (mkPeerStatus "" 0 0 0, []) (split nl reply) in
  if negb (String.eqb (m_pubkey status) "") then app peerList [status] else peerList.

End Messages.

(** ** Specification: the status reply of the process

    A peer's section starts with its public key; the other lines come in any
    order. *)
Inductive StatusLine :=
| TxBytes (n : Z)
| RxBytes (n : Z)
| HandshakeSec (n : Z)
| HandshakeNsec (n : Z)
| OtherLine (name v : string).

Definition status_text (l : StatusLine) : string :=
  match l with
  | TxBytes n => "tx_bytes=" +:+ number n
  | RxBytes n => "rx_bytes=" +:+ number n
  | HandshakeSec n => "last_handshake_time_sec=" +:+ number n
  | HandshakeNsec n => "last_handshake_time_nsec=" +:+ number n
  | OtherLine name v => name +:+ "=" +:+ v
  end.

Definition status_names : list string :=
  ["public_key"; "tx_bytes"; "rx_bytes"; "last_handshake_time_sec"; "last_handshake_time_nsec"].

(** A byte count a double holds exactly, a time that fits, and names that are
    names. *)
Definition status_wf (l : StatusLine) : Prop :=
  match l with
  | TxBytes n | RxBytes n => 0 <= n <= 2 ^ 53
  | HandshakeSec n | HandshakeNsec n => 0 <= n < 2 ^ 63
  | OtherLine name v =>
      name <> "" /\ char_free "=" name = true /\ name ∉ status_names /\
      char_free "010" name = true /\ char_free "010" v = true
  end.

Definition status_update (s : PeerStatus) (l : StatusLine) : PeerStatus :=
  match l with
  | TxBytes n => mkPeerStatus (m_pubkey s) (m_handshake s) (m_rxBytes s) n
  | RxBytes n => mkPeerStatus (m_pubkey s) (m_handshake s) n (m_txBytes s)
  | HandshakeSec n => mkPeerStatus (m_pubkey s) (m_handshake s + n * 1000) (m_rxBytes s) (m_txBytes s)
  | HandshakeNsec n =>
      mkPeerStatus (m_pubkey s) (m_handshake s + n / 1000000) (m_rxBytes s) (m_txBytes s)
  | OtherLine _ _ => s
  end.

Record PeerSection := mkSection { ps_key : string; ps_lines : list StatusLine }.

Definition section_text (p : PeerSection) : list string :=
  ("public_key=" +:+ ps_key p) :: map status_text (ps_lines p).

Section Replies.
Context `{KeyText}.

Definition section_wf (p : PeerSection) : Prop :=
  hex_to_base64 (ps_key p) <> "" /\ char_free "010" (ps_key p) = true /\
  Forall status_wf (ps_lines p).
Definition section_status (p : PeerSection) : PeerStatus :=
  foldl status_update (mkPeerStatus (hex_to_base64 (ps_key p)) 0 0 0) (ps_lines p).

End Replies.

(** Doubles hold the integers up to [2^53]. *)
Class KeyTextLaws `{KeyText} : Prop := {
  double_text_number n : 0 <= n <= 2 ^ 53 -> double_text (number n) = n
}.

(** ** Lemmas *)
Lemma name_value_text name v :
  name <> "" -> char_free "=" name = true -> name_value (name +:+ "=" +:+ v) = Some (name, v).
Proof.
  intros Hn Hf. unfold name_value, indexOf. change (name +:+ "=" +:+ v) with (name +:+ String "=" v).
  rewrite indexOf_char by done. rewrite Z.add_0_l.
  assert (0 < Z.of_nat (String.length name)) by (destruct name; [done | cbn; lia]).
  rewrite (proj2 (Z.leb_gt _ 0)) by lia. unfold left_chars, mid.
  rewrite (proj2 (Z.ltb_ge _ 0)) by lia. rewrite Nat2Z.id, take_chars_app.
  replace (Z.to_nat (Z.of_nat (String.length name) + 1)) with (S (String.length name)) by lia.
  by rewrite drop_chars_behind.
Qed.

Lemma toLongLong_number n : 0 <= n < 2 ^ 63 -> toLongLong (number n) = n.
Proof.
  intros Hn. unfold toLongLong. rewrite trimmed_number, signed_val_number.
  rewrite (proj2 (Z.leb_le _ n)), (proj2 (Z.ltb_lt n _)) by lia. done.
Qed.

Section ReplyLemmas.
Context `{KeyTextLaws}.

(** The lines that are not the start of a section. *)
Lemma peer_line_status s L l :
  status_wf l -> peer_line (s, L) (status_text l) = (status_update s l, L).
Proof.
  destruct l as [n|n|n|n|name v]; cbn [status_wf status_text status_update]; intros W;
    unfold peer_line.
  - change ("tx_bytes=" +:+ number n) with ("tx_bytes" +:+ "=" +:+ number n).
    rewrite name_value_text by done. cbn -[number double_text]. by rewrite double_text_number.
  - change ("rx_bytes=" +:+ number n) with ("rx_bytes" +:+ "=" +:+ number n).
    rewrite name_value_text by done. cbn -[number double_text]. by rewrite double_text_number.
  - change ("last_handshake_time_sec=" +:+ number n)
      with ("last_handshake_time_sec" +:+ "=" +:+ number n).
    rewrite name_value_text by done. cbn -[number toLongLong Z.mul]. by rewrite toLongLong_number.
  - change ("last_handshake_time_nsec=" +:+ number n)
      with ("last_handshake_time_nsec" +:+ "=" +:+ number n).
    rewrite name_value_text by done. cbn -[number toLongLong Z.quot Z.div].
    by rewrite toLongLong_number, Z.quot_div_nonneg by lia.
  - destruct W as (Hn & He & Hs & _). rewrite name_value_text by done.
    assert (∀ x, x ∈ status_names -> String.eqb name x = false) as N.
    { intros x Hx. apply String.eqb_neq. by intros ->. }
    rewrite !N by (apply list_elem_of_In; cbn; tauto). done.
Qed.

Lemma peer_line_section s L p :
  section_wf p ->
  foldl peer_line (s, L) (section_text p) =
    (section_status p, if String.eqb (m_pubkey s) "" then L else app L [s]).
Proof.
  intros (Hk & _ & F). unfold section_text, section_status. cbn [foldl].
  assert (E : peer_line (s, L) ("public_key=" +:+ ps_key p) =
    (mkPeerStatus (hex_to_base64 (ps_key p)) 0 0 0, if String.eqb (m_pubkey s) "" then L else app L [s])).
  { unfold peer_line. change ("public_key=" +:+ ps_key p) with ("public_key" +:+ "=" +:+ ps_key p).
    rewrite name_value_text by done. cbn -[String.eqb]. by destruct (String.eqb (m_pubkey s) ""). }
  rewrite E. generalize (mkPeerStatus (hex_to_base64 (ps_key p)) 0 0 0) as s'.
  generalize (if String.eqb (m_pubkey s) "" then L else app L [s]) as L'. clear E.
  induction F as [|l ls Hl F IH]; intros L' s'; [done|]. cbn [map foldl].
  by rewrite peer_line_status.
Qed.

Lemma status_update_key s l : m_pubkey (status_update s l) = m_pubkey s.
Proof. by destruct l. Qed.

Lemma section_status_key p : m_pubkey (section_status p) = hex_to_base64 (ps_key p).
Proof.
  unfold section_status. change (hex_to_base64 (ps_key p)) with
    (m_pubkey (mkPeerStatus (hex_to_base64 (ps_key p)) 0 0 0)) at 2.
  generalize (mkPeerStatus (hex_to_base64 (ps_key p)) 0 0 0).
  induction (ps_lines p) as [|l ls IH]; intros s; [done|]. cbn. by rewrite IH, status_update_key.
Qed.

(** What is read so far: the finished sections, and the last one. *)
Definition finish (acc : PeerStatus * list PeerStatus) : list PeerStatus :=
  if negb (String.eqb (m_pubkey acc.1) "") then app acc.2 [acc.1] else acc.2.

Lemma peer_line_sections ps : ∀ acc,
  Forall section_wf ps ->
  finish (foldl peer_line acc (List.concat (map section_text ps))) =
    app (finish acc) (map section_status ps).
Proof.
  induction ps as [|p ps IH]; intros [s L] F; [by rewrite app_nil_r|].
  apply list.Forall_cons in F as [Hp F]. cbn [map List.concat].
  rewrite foldl_app, peer_line_section, IH by done.
  unfold finish at 1 2. cbn [fst snd]. rewrite section_status_key.
  destruct Hp as [Hk _]. apply String.eqb_neq in Hk. rewrite Hk. cbn [negb].
  destruct (String.eqb (m_pubkey s) ""); cbn [negb]; by rewrite <- ?app_assoc.
Qed.

Lemma peer_line_header ls : ∀ s,
  Forall status_wf ls -> m_pubkey s = "" ->
  ∃ s', foldl peer_line (s, []) (map status_text ls) = (s', []) /\ m_pubkey s' = "".
Proof.
  induction ls as [|l ls IH]; intros s F E; [by exists s|].
  apply list.Forall_cons in F as [Hl F]. cbn [map foldl]. rewrite peer_line_status by done.
  apply IH; [done|]. by rewrite status_update_key.
Qed.

Lemma status_line_free l : status_wf l -> char_free "010" (status_text l) = true.
Proof.
  destruct l as [n|n|n|n|name v]; cbn [status_wf status_text]; intros W; rewrite char_free_app.
  1-4: apply andb_true_iff; split; [done | by apply number_char_free].
  destruct W as (_ & _ & _ & Hn & Hv). rewrite char_free_app. by rewrite Hn, Hv.
Qed.

Lemma section_lines_free p :
  section_wf p -> Forall (λ s, char_free "010" s = true) (section_text p).
Proof.
  intros (_ & Hk & F). constructor; [by rewrite char_free_app, Hk|].
  induction F; constructor; auto using status_line_free.
Qed.

End ReplyLemmas.

(** ** The lines of a message *)
Lemma endsWith_nl2 s : endsWith (s +:+ nl +:+ nl) (nl +:+ nl) = true.
Proof.
  induction s as [|c s IH]; [done|]. rewrite string_app_cons. cbn [endsWith].
  rewrite IH. apply orb_true_r.
Qed.

(** At most two newlines are added. *)
Lemma pad_message_total s :
  ∃ k, (k <= 2)%nat /\ pad_message 3 s = Ret (s +:+ unlines (replicate k "")) /\
       endsWith (s +:+ unlines (replicate k "")) (nl +:+ nl) = true.
Proof.
  cbn [pad_message]. destruct (endsWith s (nl +:+ nl)) eqn:E0.
  { exists 0%nat. cbn. rewrite string_app_nil_r. auto with lia. }
  destruct (endsWith (s +:+ nl) (nl +:+ nl)) eqn:E1.
  { exists 1%nat. split; [lia|]. change (unlines (replicate 1 "")) with nl. done. }
  exists 2%nat. rewrite string_app_assoc. change (unlines (replicate 2 "")) with (nl +:+ nl).
  rewrite endsWith_nl2. auto with lia.
Qed.

Section MessageLemmas.
Context `{KeyText} `{AddressPrinter}.

Definition field_line (name : string) (v : QString) : list string :=
  if String.eqb (qchars v) "" then [] else [name +:+ "=" +:+ qchars v].

(** The lines the configuration stands for. *)
Definition interface_lines (c : InterfaceConfig) : list string :=
  ["set=1"; "private_key=" +:+ base64_to_hex (qchars (m_privateKey c)); "replace_peers=true"] ++
  field_line "jc" (m_junkPacketCount c) ++ field_line "jmin" (m_junkPacketMinSize c) ++
  field_line "jmax" (m_junkPacketMaxSize c) ++ field_line "s1" (m_initPacketJunkSize c) ++
  field_line "s2" (m_responsePacketJunkSize c) ++ field_line "h1" (m_initPacketMagicHeader c) ++
  field_line "h2" (m_responsePacketMagicHeader c) ++ field_line "h3" (m_underloadPacketMagicHeader c) ++
  field_line "h4" (m_transportPacketMagicHeader c).

Definition peer_lines (c : InterfaceConfig) (e : string) : list string :=
  ["set=1"; "public_key=" +:+ base64_to_hex (qchars (m_serverPublicKey c))] ++
  (if isNull (m_serverPskKey c) then []
   else ["preshared_key=" +:+ base64_to_hex (qchars (m_serverPskKey c))]) ++
  ["endpoint=" +:+ e +:+ number (m_serverPort c); "replace_allowed_ips=true";
   "persistent_keepalive_interval=" +:+ number WG_KEEPALIVE_PERIOD] ++
  map (λ ip, "allowed_ip=" +:+ ip_toString ip) (m_allowedIPAddressRanges c).

Lemma unlines_field name v : unlines (field_line name v) = field name v.
Proof.
  unfold field, field_line. destruct (String.eqb (qchars v) ""); [done|].
  cbn. by rewrite !string_app_assoc.
Qed.

Lemma interface_message_lines c : interface_message c = unlines (interface_lines c).
Proof.
  unfold interface_lines. rewrite !unlines_app, !unlines_field. unfold interface_message.
  cbn [unlines foldr]. by rewrite !string_app_assoc.
Qed.

Lemma unlines_allowed l :
  unlines (map (λ ip, "allowed_ip=" +:+ ip_toString ip) l) = allowed_lines l.
Proof.
  induction l as [|ip l IH]; [done|]. cbn [map unlines foldr allowed_lines].
  fold (unlines (map (λ ip, "allowed_ip=" +:+ ip_toString ip) l)).
  by rewrite IH, !string_app_assoc.
Qed.

Lemma peer_message_lines c e :
  endpoint c = Some e -> peer_message c = Some (unlines (peer_lines c e)).
Proof.
  intros E. unfold peer_message. rewrite E. cbn [option_bind mbind]. f_equal. unfold peer_lines.
  rewrite !unlines_app, unlines_allowed.
  destruct (isNull (m_serverPskKey c)); cbn [negb unlines foldr]; by rewrite !string_app_assoc.
Qed.

(** The texts of a configuration that go into the messages without a check. *)
Record uapi_ok (c : InterfaceConfig) : Prop := {
  uapi_keys : Forall (λ q, nl_free (base64_to_hex (qchars q)))
    [m_privateKey c; m_serverPublicKey c; m_serverPskKey c];
  uapi_texts : Forall (λ q, nl_free (qchars q))
    [ m_junkPacketCount c; m_junkPacketMinSize c; m_junkPacketMaxSize c;
      m_initPacketJunkSize c; m_responsePacketJunkSize c; m_initPacketMagicHeader c;
      m_responsePacketMagicHeader c; m_underloadPacketMagicHeader c;
      m_transportPacketMagicHeader c; m_serverIpv4AddrIn c; m_serverIpv6AddrIn c ];
  uapi_ranges : Forall (λ ip, nl_free (printHost (m_address ip))) (m_allowedIPAddressRanges c)
}.

Lemma field_line_free name v :
  nl_free name -> nl_free (qchars v) -> Forall nl_free (field_line name v).
Proof.
  intros Hn Hv. unfold field_line. destruct (String.eqb _ _); [done|].
  constructor; [|done]. rewrite !nl_free_app. done.
Qed.

Lemma interface_lines_free c : uapi_ok c -> Forall nl_free (interface_lines c).
Proof.
  intros [Hk Ht _]. rewrite !list.Forall_cons in Hk; rewrite !list.Forall_cons in Ht. destruct Hk as (?&?&?&_).
  destruct Ht as (?&?&?&?&?&?&?&?&?&?&?&_). unfold interface_lines.
  repeat apply Forall_app_2; try by apply field_line_free.
  repeat constructor; rewrite ?nl_free_app; done.
Qed.

Lemma peer_lines_free c e :
  uapi_ok c -> endpoint c = Some e -> Forall nl_free (peer_lines c e).
Proof.
  intros [Hk Ht Hr] E. rewrite !list.Forall_cons in Hk; rewrite !list.Forall_cons in Ht. destruct Hk as (?&?&?&_).
  destruct Ht as (?&?&?&?&?&?&?&?&?&?&?&_). unfold peer_lines.
  assert (nl_free e) as He.
  { unfold endpoint in E. destruct (m_serverIpv4AddrIn c), (m_serverIpv6AddrIn c);
      cbn in E; try done; injection E as <-; rewrite ?string_app_cons, ?nl_free_app; by rewrite ?nl_free_cons, ?nl_free_app. }
  repeat apply Forall_app_2.
  - repeat constructor; rewrite ?nl_free_app; done.
  - destruct (isNull _); repeat constructor; rewrite ?nl_free_app; done.
  - repeat constructor; rewrite ?nl_free_app; split_and!; try done; apply number_nl_free.
  - apply List.Forall_map. eapply list.Forall_impl; [exact Hr|]. intros ip Hip.
    unfold ip_toString. rewrite !nl_free_app. split_and!; try done. apply number_nl_free.
Qed.

(** A message whose last line is complete and not blank gets one blank line. *)
Lemma endsWith_line p x :
  nl_free x -> x <> "" -> endsWith (p +:+ x +:+ nl) (nl +:+ nl) = false.
Proof.
  intros Hx NE. induction p as [|c p IH].
  - change ("" +:+ x +:+ nl) with (x +:+ nl). induction x as [|c x IHx]; [done|].
    apply nl_free_cons in Hx as [Hc Hx]. rewrite string_app_cons. cbn [endsWith].
    rewrite bool_decide_false by (intros [= -> _]; done). cbn [orb].
    destruct x as [|d x]; [done|]. by apply IHx.
  - rewrite string_app_cons. cbn [endsWith]. rewrite IH, orb_false_r.
    apply bool_decide_false. intros [= _ E]. apply (f_equal String.length) in E.
    rewrite !string_length_app in E. destruct x; [done|]. cbn in E. lia.
Qed.

Lemma pad_lines ls x :
  Forall nl_free (app ls [x]) -> x <> "" ->
  ∃ m, pad_message 3 (unlines (app ls [x])) = Ret m /\ split nl m = app (app ls [x]) [""; ""].
Proof.
  intros F NE. exists (unlines (app (app ls [x]) [""])). split.
  - assert (Hx : nl_free x) by (apply list.Forall_app in F as [_ F]; by inversion F).
    rewrite (unlines_app ls). change (unlines [x]) with (x +:+ nl +:+ "").
    rewrite (string_app_nil_r nl). cbn [pad_message]. rewrite endsWith_line by done.
    rewrite (unlines_app (app ls [x])), (unlines_app ls). change (unlines [""]) with nl.
    change (unlines [x]) with (x +:+ nl +:+ ""). rewrite (string_app_nil_r nl).
    assert (endsWith ((unlines ls +:+ x +:+ nl) +:+ nl) (nl +:+ nl) = true) as ->; [|done].
    rewrite !string_app_assoc, <- (string_app_assoc (unlines ls)). apply endsWith_nl2.
  - rewrite split_unlines, <- app_assoc; [done|]. apply list.Forall_app. split; [done|]. by constructor.
Qed.

Lemma pad_message_lines ls :
  Forall nl_free ls -> Forall (λ s, s <> "") ls -> ls <> [] ->
  ∃ m, pad_message 3 (unlines ls) = Ret m /\ split nl m = app ls [""; ""].
Proof.
  intros F G NE. destruct (exists_last NE) as (ls' & x & ->).
  apply list.Forall_app in G as [_ G]. inversion G; subst. by apply pad_lines.
Qed.

Lemma interface_lines_filled c : Forall (λ s, s <> "") (interface_lines c).
Proof.
  unfold interface_lines, field_line.
  repeat apply Forall_app_2; try destruct (String.eqb _ _); by repeat constructor.
Qed.

Lemma peer_lines_filled c e : Forall (λ s, s <> "") (peer_lines c e).
Proof.
  unfold peer_lines. repeat apply Forall_app_2; try destruct (isNull _); try by repeat constructor.
  apply List.Forall_map. by apply list.Forall_true.
Qed.

End MessageLemmas.

(** ** Properties *)

(** The status of the peers is read back as the process wrote it: from a
    reply with any interface lines followed by any number of peer sections,
    with their lines in any order and lines of other names among them,
    [getPeerStatus] lists each peer once, in order, with its key, its byte
    counts and the time of its handshake in milliseconds. *)
Theorem peers_roundtrip `{KeyTextLaws} header ps :
  Forall status_wf header -> Forall section_wf ps ->
  peers_of (join nl (app (map status_text header) (List.concat (map section_text ps)))) =
    map section_status ps.
Proof.
  intros Fh Fp. unfold peers_of.
  destruct (peer_line_header header (mkPeerStatus "" 0 0 0) Fh eq_refl) as (s' & Eh & Es).
  set (lines := app (map status_text header) (List.concat (map section_text ps))).
  assert (finish (foldl peer_line (mkPeerStatus "" 0 0 0, []) lines) = map section_status ps) as P.
  { unfold lines. rewrite foldl_app, Eh, peer_line_sections by done.
    unfold finish. cbn. by rewrite Es. }
  destruct (decide (lines = [])) as [E|NE].
  - rewrite E in *. exact P.
  - unfold nl. rewrite split_join_char; [|done|].
    + unfold finish in P. by destruct (foldl peer_line _ lines).
    + unfold lines. apply list.Forall_app. split.
      * apply List.Forall_map. eapply list.Forall_impl; [exact Fh|]. apply status_line_free.
      * clear -Fp. induction Fp; cbn [map List.concat]; [constructor|]. apply list.Forall_app. split; [|done].
        by apply section_lines_free.
Qed.

#[local] Instance sample_keys : KeyText := {
  base64_to_hex := id;
  hex_to_base64 := id;
  double_text s := default 0 (signed_val s)
}.
#[local] Instance sample_keys_laws : KeyTextLaws.
Proof. split. intros n _. cbn. by rewrite signed_val_number. Qed.

Lemma peers_roundtrip_witness :
  ∃ reply, peers_of reply =
    [mkPeerStatus "aa01" 1700000000123 250 99; mkPeerStatus "bb02" 0 0 0].
Proof.
  set (header := [OtherLine "listen_port" "51820"]).
  set (ps := [mkSection "aa01" [OtherLine "endpoint" "192.0.2.1:51820"; TxBytes 99; RxBytes 250;
                                HandshakeSec 1700000000; HandshakeNsec 123456789];
              mkSection "bb02" [OtherLine "errno" "0"]]).
  exists (join nl (app (map status_text header) (List.concat (map section_text ps)))).
  rewrite (peers_roundtrip header ps).
  - vm_compute. reflexivity.
  - repeat constructor; try done; by apply (bool_decide_unpack _).
  - repeat constructor; try done; by apply (bool_decide_unpack _).
Defined.

(** The messages to the tunnel process are exactly the lines of the
    configuration, ended by one blank line: for a configuration whose texts
    hold no newline, the interface message and, where the server has an
    address, the peer message split into those lines, so no value is taken for
    another setting. *)
Theorem uapi_messages_exact `{KeyText} `{AddressPrinter} c :
  uapi_ok c ->
  (∃ m, pad_message 3 (interface_message c) = Ret m /\
        split nl m = app (interface_lines c) [""; ""]) /\
  (∀ e, endpoint c = Some e ->
     ∃ msg m, peer_message c = Some msg /\ pad_message 3 msg = Ret m /\
              split nl m = app (peer_lines c e) [""; ""]).
Proof.
  intros Ok. split.
  - rewrite interface_message_lines.
    apply pad_message_lines; [by apply interface_lines_free | apply interface_lines_filled | done].
  - intros e E. exists (unlines (peer_lines c e)).
    destruct (pad_message_lines (peer_lines c e)) as (m & P & S);
      [by apply peer_lines_free | apply peer_lines_filled | done |].
    exists m. by rewrite (peer_message_lines c e E).
Qed.

Lemma uapi_messages_exact_witness :
  let _ := dotted_printer in
  ∃ m, pad_message 3 (interface_message (sample_config "10.8.1.1")) = Ret m /\
    split nl m = ["set=1"; "private_key=cHJpdg=="; "replace_peers=true"; ""; ""].
Proof.
  intros ?. destruct (uapi_messages_exact (sample_config "10.8.1.1")) as [M _];
    [split; repeat constructor | exact M].
Defined.
