(* ===== verification/MacosRouteMonitor.v ===== *)
(** * Routes on macOS

    Model of [MacosRouteMonitor] (client/platforms/macos/daemon/
    macosroutemonitor.cpp): the messages of the routing socket built and read octet
    by octet, and the routes of the excluded addresses, which are kept on the default
    route of their family. The octets are those of a little-endian machine. *)
From Stdlib Require Import ZArith Lia Ascii String.
From stdpp Require Import base list option.
From S2P Require Import Prelude HostAddress QtString IpAddress LinuxRouteMonitor.
Local Open Scope Z_scope.

(** ** net/route.h, net/if_dl.h, sys/socket.h and errno.h of macOS *)
Definition AF_UNSPEC : Z := 0.
Definition AF_INET : Z := 2.
Definition AF_LINK : Z := 18.
Definition AF_INET6 : Z := 30.
Definition RTM_VERSION : Z := 5.
Definition RTM_ADD : Z := 1.
Definition RTM_DELETE : Z := 2.
Definition RTM_CHANGE : Z := 3.
Definition RTM_GET : Z := 4.
Definition RTM_IFINFO : Z := 14.
Definition RTF_UP : Z := 1.
Definition RTF_GATEWAY : Z := 2.
Definition RTF_STATIC : Z := 2048.
Definition RTF_IFSCOPE : Z := 16777216.
Definition RTA_DST : Z := 1.
Definition RTA_GATEWAY : Z := 2.
Definition RTA_NETMASK : Z := 4.
Definition RTA_IFP : Z := 16.
Definition IFT_OTHER : Z := 1.
Definition ESRCH : Z := 3.
Definition EBADF : Z := 9.
Definition EEXIST : Z := 17.
Definition sizeof_rt_msghdr : Z := 92.
Definition sizeof_sockaddr_in : Z := 16.
Definition sizeof_sockaddr_in6 : Z := 28.
Definition sizeof_sockaddr_storage : Z := 128.

(** The fields of a header, of a routing message and of an interface message. *)
Definition rtm_msglen (m : list Z) : Z := get16 0 m.
Definition rtm_type (m : list Z) : Z := octet 3 m.
Definition rtm_index (m : list Z) : Z := get16 4 m.
Definition rtm_flags (m : list Z) : Z := get32 8 m.
Definition rtm_addrs (m : list Z) : Z := get32 12 m.
Definition rtm_pid (m : list Z) : Z := get32 16 m.
Definition rtm_seq (m : list Z) : Z := get32 20 m.
Definition ifm_flags (m : list Z) : Z := get32 8 m.
Definition ifm_index (m : list Z) : Z := get16 12 m.
Definition sa_len (sa : list Z) : Z := octet 0 sa.
Definition sa_family (sa : list Z) : Z := octet 1 sa.
Definition sdl_index (sa : list Z) : Z := get16 2 sa.

(** ** Socket addresses *)
Definition sockaddr_in (addr : list Z) : list Z := [sizeof_sockaddr_in; AF_INET; 0; 0] ++ addr ++ replicate 8 0.
Definition sockaddr_in6 (addr : list Z) : list Z :=
  [sizeof_sockaddr_in6; AF_INET6; 0; 0; 0; 0; 0; 0] ++ addr ++ replicate 4 0.

Definition name_octets (s : string) : list Z := map (λ c, Z.of_nat (nat_of_ascii c)) (list_ascii_of_string s).

(** ** Building a message *)
Definition rtmAppendAddr (maxlen rtaddr : Z) (sa rtm : list Z) : Outcome (list Z) :=
  if negb (Z.land (rtm_addrs rtm) rtaddr =? 0) then Abort
  else if maxlen <? rtm_msglen rtm + sa_len sa then Ret rtm
  else
    let rtm' := put (rtm_msglen rtm) (take (Z.to_nat (sa_len sa)) sa) rtm in
    let rtm' := put 12 (le32 (Z.lor (rtm_addrs rtm) rtaddr)) rtm' in
    let len := u16 (rtm_msglen rtm + sa_len sa) in
    let len := if len mod 4 =? 0 then len else u16 (len + (4 - len mod 4)) in
    Ret (put 0 (le16 len) rtm').

Definition rtm_max_size : Z := sizeof_rt_msghdr + sizeof_sockaddr_in6 * 2 + sizeof_sockaddr_storage.
Definition fetch_max_size : Z := sizeof_rt_msghdr + sizeof_sockaddr_storage * 2.

Definition rt_header (size action ifindex flags seq : Z) : list Z :=
  let buf := replicate (Z.to_nat size) 0 in
  let buf := put 0 (le16 sizeof_rt_msghdr) buf in
  let buf := put 2 [RTM_VERSION] buf in
  let buf := put 3 [u8 action] buf in
  let buf := put 4 (le16 ifindex) buf in
  let buf := put 8 (le32 flags) buf in
  put 20 (le32 seq) buf.

(** The octets of a mask of [plen] ones; [None] where the stores leave the array. *)
Definition netmask6 (plen : Z) : option (list Z) :=
  if 128 <? plen then None
  else
    let full := replicate (Z.to_nat (plen / 8)) 255 in
    let rest := if plen mod 8 =? 0 then [] else [Z.lxor 255 (Z.shiftr 255 (plen mod 8))] in
    Some (take 16 (full ++ rest ++ replicate 16 0)).
Definition netmask4 (plen : Z) : list Z :=
  be32 (if plen <? 32 then Z.lxor 4294967295 (Z.shiftr 4294967295 plen) else 4294967295).

Definition route_dst (prefix : IPAddress) : list Z :=
  match m_address prefix with
  | IPv6Address a => sockaddr_in6 a
  | IPv4Address a => sockaddr_in (be32 a)
  | NullAddress => sockaddr_in (be32 0)
  end.

Definition append_netmask (prefix : IPAddress) (rtm : list Z) : Outcome (list Z) :=
  match protocol (m_address prefix) with
  | IPv6Protocol =>
      match netmask6 (u32 (m_prefixLength prefix)) with
      | None => Abort
      | Some mask => rtmAppendAddr rtm_max_size RTA_NETMASK (sockaddr_in6 mask) rtm
      end
  | IPv4Protocol => rtmAppendAddr rtm_max_size RTA_NETMASK (sockaddr_in (netmask4 (u32 (m_prefixLength prefix)))) rtm
  | UnknownNetworkLayerProtocol => Ret rtm
  end.

Definition gateway_flags (gateway : list Z) : Z :=
  if (sa_family gateway =? AF_INET) || (sa_family gateway =? AF_INET6) then RTF_GATEWAY else 0.

Definition route_request (action : Z) (prefix : IPAddress) (ifindex : Z) (gateway : option (list Z)) (seq : Z) :
    Outcome (list Z) :=
  rtm ← rtmAppendAddr rtm_max_size RTA_DST (route_dst prefix)
          (rt_header rtm_max_size action ifindex (Z.lor RTF_STATIC RTF_UP) seq);
  rtm ← match gateway with
        | None => Ret rtm
        | Some gw =>
            rtmAppendAddr rtm_max_size RTA_GATEWAY gw (put 8 (le32 (Z.lor (rtm_flags rtm) (gateway_flags gw))) rtm)
        end;
  append_netmask prefix rtm.

Definition fetch_request (family seq : Z) : Outcome (option (list Z)) :=
  let rtm := rt_header fetch_max_size RTM_GET 0 (Z.lor RTF_UP RTF_GATEWAY) seq in
  let both sa :=
    rtm ← rtmAppendAddr fetch_max_size RTA_DST sa rtm;
    rtm ← rtmAppendAddr fetch_max_size RTA_NETMASK sa rtm;
    Ret (Some rtm) in
  if family =? AF_INET then both (sockaddr_in (replicate 4 0))
  else if family =? AF_INET6 then both (sockaddr_in6 (replicate 16 0))
  else Ret None.

(** ** Reading a message *)
Definition padded_size (len : Z) : Z :=
  if (len =? 0) || negb (len mod 4 =? 0) then len + (4 - len mod 4) else len.

(** The loop of [parseAddrList] on what is left of the payload; every turn takes at
    least four octets. *)
Fixpoint parse_addrs (fuel : nat) (payload : list Z) : list (list Z) :=
  match fuel with
  | O => []
  | S fuel' =>
      if 2 <=? Z.of_nat (length payload) then
        let size := padded_size (sa_len payload) in
        if Z.of_nat (length payload) <? size then []
        else take (Z.to_nat size) payload :: parse_addrs fuel' (drop (Z.to_nat size) payload)
      else []
  end.
Definition parseAddrList (payload : list Z) : list (list Z) := parse_addrs (S (length payload)) payload.

Definition memcmpzero (data : list Z) : bool := existsb (λ b, negb (b =? 0)) data.

(** Whether a netmask is that of a default route; the copy into a structure of
    [size] octets is guarded by an assertion only. *)
Definition default_netmask (sa : list Z) : Outcome bool :=
  let copied size := take size (take (Z.to_nat (sa_len sa)) sa ++ replicate size 0) in
  if sa_family sa =? AF_INET then
    if sa_len sa <=? sizeof_sockaddr_in then Ret (negb (memcmpzero (take 4 (drop 4 (copied 16%nat))))) else Abort
  else if sa_family sa =? AF_INET6 then
    if sa_len sa <=? sizeof_sockaddr_in6 then Ret (negb (memcmpzero (take 16 (drop 8 (copied 28%nat))))) else Abort
  else Ret (sa_family sa =? AF_UNSPEC).

(** A destination, a netmask and a gateway are there. *)
Definition has_addrs (rtm : list Z) (addrlist : list (list Z)) : bool :=
  negb (Z.land (rtm_addrs rtm) RTA_DST =? 0) && negb (Z.land (rtm_addrs rtm) RTA_GATEWAY =? 0) &&
  negb (Z.land (rtm_addrs rtm) RTA_NETMASK =? 0) && (3 <=? Z.of_nat (length addrlist)).

Definition addr_at (n : nat) (addrlist : list (list Z)) : list Z := default [] (addrlist !! n).

(** The index of the interface: that of the link address when there is one;
    [None] when the list is too short for it. *)
Definition update_ifindex (rtm : list Z) (addrlist : list (list Z)) : option Z :=
  if Z.land (rtm_addrs rtm) RTA_IFP =? 0 then Some (rtm_index rtm)
  else
    let addridx := length (List.filter (λ mask, negb (Z.land (rtm_addrs rtm) mask =? 0)) [1; 2; 4; 8]) in
    sdl ← addrlist !! addridx;
    Some (if sa_family sdl =? AF_LINK then sdl_index sdl else rtm_index rtm).

(** ** The monitor *)
(** The routing socket of the machine [W]: opening it, writing to it (the octets
    taken, negative for an error, and [errno]) and the functions of libc.
    [protocol_on_stack] is the content of a variable that may be read before it is
    written. *)
Class RouteSocket (W : Type) := {
  rt_socket : StateM W bool;
  rt_write : list Z -> StateM W (Z * Z);
  rt_close : StateM W unit;
  rt_nametoindex : string -> W -> Z;
  rt_getpid : Z;
  protocol_on_stack : NetworkLayerProtocol
}.

Record MacosRouteMonitor (W : Type) := mkMac {
  m_exclusionRoutes : list IPAddress;
  m_defaultGatewayIpv4 : list Z;
  m_defaultGatewayIpv6 : list Z;
  m_defaultIfindexIpv4 : Z;
  m_defaultIfindexIpv6 : Z;
  mac_ifname : string;
  mac_ifindex : Z;
  mac_ifflags : Z;
  m_rtsock : bool;               (* m_rtsock >= 0 *)
  m_rtseq : Z;
  mac_kernel : W
}.
Arguments mkMac {W} _ _ _ _ _ _ _ _ _ _ _.
Arguments m_exclusionRoutes {W} _.
Arguments m_defaultGatewayIpv4 {W} _.
Arguments m_defaultGatewayIpv6 {W} _.
Arguments m_defaultIfindexIpv4 {W} _.
Arguments m_defaultIfindexIpv6 {W} _.
Arguments mac_ifname {W} _.
Arguments mac_ifindex {W} _.
Arguments mac_ifflags {W} _.
Arguments m_rtsock {W} _.
Arguments m_rtseq {W} _.
Arguments mac_kernel {W} _.

Section Mac.
Context {W : Type} `{RouteSocket W}.
Notation M := (MacosRouteMonitor W).
Implicit Types (s : M).

Definition set_exclusions (l : list IPAddress) s : M :=
  mkMac l (m_defaultGatewayIpv4 s) (m_defaultGatewayIpv6 s) (m_defaultIfindexIpv4 s) (m_defaultIfindexIpv6 s)
    (mac_ifname s) (mac_ifindex s) (mac_ifflags s) (m_rtsock s) (m_rtseq s) (mac_kernel s).
Definition set_default4 (gw : list Z) (i : Z) s : M :=
  mkMac (m_exclusionRoutes s) gw (m_defaultGatewayIpv6 s) i (m_defaultIfindexIpv6 s)
    (mac_ifname s) (mac_ifindex s) (mac_ifflags s) (m_rtsock s) (m_rtseq s) (mac_kernel s).
Definition set_default6 (gw : list Z) (i : Z) s : M :=
  mkMac (m_exclusionRoutes s) (m_defaultGatewayIpv4 s) gw (m_defaultIfindexIpv4 s) i
    (mac_ifname s) (mac_ifindex s) (mac_ifflags s) (m_rtsock s) (m_rtseq s) (mac_kernel s).
Definition set_ifflags (f : Z) s : M :=
  mkMac (m_exclusionRoutes s) (m_defaultGatewayIpv4 s) (m_defaultGatewayIpv6 s) (m_defaultIfindexIpv4 s)
    (m_defaultIfindexIpv6 s) (mac_ifname s) (mac_ifindex s) f (m_rtsock s) (m_rtseq s) (mac_kernel s).
Definition set_sent (seq : Z) (w : W) s : M :=
  mkMac (m_exclusionRoutes s) (m_defaultGatewayIpv4 s) (m_defaultGatewayIpv6 s) (m_defaultIfindexIpv4 s)
    (m_defaultIfindexIpv6 s) (mac_ifname s) (mac_ifindex s) (mac_ifflags s) (m_rtsock s) seq w.

(** A write of the message, which takes the next sequence number. *)
Definition rtm_write (rtm : list Z) : StateM M (Z * Z) := λ s,
  let bytes := take (Z.to_nat (rtm_msglen rtm)) rtm in
  let '(r, w) := if m_rtsock s then rt_write bytes (mac_kernel s) else ((-1, EBADF), mac_kernel s) in
  (r, set_sent (s32 (m_rtseq s + 1)) w s).

Definition rtmSendRoute (action : Z) (prefix : IPAddress) (ifindex : Z) (gateway : option (list Z)) : Run M bool := λ s,
  match route_request action prefix ifindex gateway (u32 (m_rtseq s)) with
  | Ret rtm =>
      let '((len, errno), s') := rtm_write rtm s in
      Ret ((len =? rtm_msglen rtm) || ((action =? RTM_ADD) && (errno =? EEXIST)) ||
           ((action =? RTM_DELETE) && (errno =? ESRCH)), s')
  | Abort => Abort
  | OutOfFuel => OutOfFuel
  end.

Definition rtmFetchRoutes (family : Z) : Run M bool := λ s,
  match fetch_request family (u32 (m_rtseq s)) with
  | Ret (Some rtm) => let '((len, _), s') := rtm_write rtm s in Ret (len =? rtm_msglen rtm, s')
  | Ret None => Ret (false, set_sent (s32 (m_rtseq s + 1)) (mac_kernel s) s)
  | Abort => Abort
  | OutOfFuel => OutOfFuel
  end.

(** *** Routes asked for *)
Definition datalink (name : string) (ifindex : Z) : Outcome (list Z) :=
  let n := Z.of_nat (String.length name) in
  if 12 <? n then Abort
  else Ret ([u8 (8 + n); AF_LINK] ++ le16 ifindex ++ [IFT_OTHER; u8 n; 0; 0] ++
            take 12 (name_octets name ++ replicate 12 0)).

Definition mac_insertRoute (prefix : IPAddress) : Run M bool := λ s,
  match datalink (mac_ifname s) (mac_ifindex s) with
  | Ret sdl => rtmSendRoute RTM_ADD prefix (mac_ifindex s) (Some sdl) s
  | Abort => Abort
  | OutOfFuel => OutOfFuel
  end.

Definition mac_deleteRoute (prefix : IPAddress) : Run M bool := λ s,
  rtmSendRoute RTM_DELETE prefix (mac_ifindex s) None s.

Definition mac_addExclusionRoute (prefix : IPAddress) : Run M bool :=
  let! known := rlift (gets m_exclusionRoutes) in
  if bool_decide (prefix ∈ known) then rret false
  else
    do! rlift (modify (set_exclusions (app known [prefix]))) in
    let! s := rlift (gets id) in
    match protocol (m_address prefix) with
    | IPv4Protocol =>
        if negb (m_defaultIfindexIpv4 s =? 0) && negb (bool_decide (m_defaultGatewayIpv4 s = [])) then
          rtmSendRoute RTM_ADD prefix (m_defaultIfindexIpv4 s) (Some (m_defaultGatewayIpv4 s))
        else rret true
    | IPv6Protocol =>
        if negb (m_defaultIfindexIpv6 s =? 0) && negb (bool_decide (m_defaultGatewayIpv6 s = [])) then
          rtmSendRoute RTM_ADD prefix (m_defaultIfindexIpv6 s) (Some (m_defaultGatewayIpv6 s))
        else rret true
    | UnknownNetworkLayerProtocol => rret true
    end.

(** The request that takes an exclusion back; none for an address of no family. *)
Definition delete_exclusion (prefix : IPAddress) : Run M bool := λ s,
  match protocol (m_address prefix) with
  | IPv4Protocol => rtmSendRoute RTM_DELETE prefix (m_defaultIfindexIpv4 s) None s
  | IPv6Protocol => rtmSendRoute RTM_DELETE prefix (m_defaultIfindexIpv6 s) None s
  | UnknownNetworkLayerProtocol => Ret (false, s)
  end.

Definition mac_deleteExclusionRoute (prefix : IPAddress) : Run M bool :=
  do! rlift (modify (λ s, set_exclusions (filter (λ p, p <> prefix) (m_exclusionRoutes s)) s)) in
  delete_exclusion prefix.

Fixpoint flush_loop (l : list IPAddress) : Run M unit :=
  match l with
  | [] => rret tt
  | prefix :: l' =>
      do! rlift (modify (set_exclusions l')) in
      do! delete_exclusion prefix in
      flush_loop l'
  end.
Definition mac_flushExclusionRoutes : Run M unit := λ s, flush_loop (m_exclusionRoutes s) s.

(** *** Messages of the kernel *)
(** The exclusions of a family, each given to [body]. *)
Definition each_exclusion (p : NetworkLayerProtocol) (body : IPAddress -> Run M bool) : Run M unit := λ s,
  run_each (m_exclusionRoutes s)
    (λ prefix, if bool_decide (protocol (m_address prefix) = p) then do! body prefix in rret tt else rret tt) s.

Definition handleRtmDelete (rtm payload : list Z) : Run M unit := λ s,
  let addrlist := parseAddrList payload in
  if rtm_index rtm =? mac_ifindex s then Ret (tt, s)
  else if negb (has_addrs rtm addrlist) then Ret (tt, s)
  else if negb (Z.land (rtm_flags rtm) RTF_IFSCOPE =? 0) then Ret (tt, s)
  else
    match default_netmask (addr_at 2 addrlist) with
    | Ret true =>
        let family := sa_family (addr_at 0 addrlist) in
        let '(protocol, s') :=
          if family =? AF_INET then (IPv4Protocol, set_default4 [] 0 s)
          else if family =? AF_INET6 then (IPv6Protocol, set_default6 [] 0 s)
          else (protocol_on_stack, s) in
        each_exclusion protocol (λ prefix, rtmSendRoute RTM_DELETE prefix (rtm_index rtm) None) s'
    | Ret false => Ret (tt, s)
    | Abort => Abort
    | OutOfFuel => OutOfFuel
    end.

Definition handleRtmUpdate (rtm payload : list Z) : Run M unit := λ s,
  let addrlist := parseAddrList payload in
  if negb (has_addrs rtm addrlist) then Ret (tt, s)
  else if negb (Z.land (rtm_flags rtm) RTF_IFSCOPE =? 0) then Ret (tt, s)
  else if rtm_index rtm =? mac_ifindex s then Ret (tt, s)
  else if (s32 (rtm_pid rtm) =? rt_getpid) && negb (rtm_type rtm =? RTM_GET) then Ret (tt, s)
  else
    match update_ifindex rtm addrlist with
    | None => Ret (tt, s)
    | Some ifindex =>
        let gateway := addr_at 1 addrlist in
        match default_netmask (addr_at 2 addrlist) with
        | Ret true =>
            let family := sa_family (addr_at 0 addrlist) in
            if family =? AF_INET then
              let action := if m_defaultIfindexIpv4 s =? 0 then RTM_ADD else RTM_CHANGE in
              each_exclusion IPv4Protocol (λ prefix, rtmSendRoute action prefix ifindex (Some gateway))
                (set_default4 gateway ifindex s)
            else if family =? AF_INET6 then
              let action := if m_defaultIfindexIpv6 s =? 0 then RTM_ADD else RTM_CHANGE in
              each_exclusion IPv6Protocol (λ prefix, rtmSendRoute action prefix ifindex (Some gateway))
                (set_default6 gateway ifindex s)
            else Ret (tt, s)
        | Ret false => Ret (tt, s)
        | Abort => Abort
        | OutOfFuel => OutOfFuel
        end
    end.

Definition handleIfaceInfo (ifm : list Z) : Run M unit := λ s,
  if ifm_index ifm =? rt_nametoindex (mac_ifname s) (mac_kernel s) then Ret (tt, set_ifflags (s32 (ifm_flags ifm)) s)
  else Ret (tt, s).

(** The loop of [rtsockReady] at [off]: [buf] is the array of 1024 octets, of which
    [recv] stored [len]. *)
Fixpoint rtm_scan (fuel : nat) (off len : Z) (buf : list Z) : Run M unit := λ s,
  match fuel with
  | O => OutOfFuel
  | S fuel' =>
      if off <? len then
        let rtm := drop (Z.to_nat off) buf in
        if len <? off + rtm_msglen rtm then Ret (tt, s)
        else
          let message := take (Z.to_nat (rtm_msglen rtm)) rtm in
          let payload := drop (Z.to_nat sizeof_rt_msghdr) message in
          let handler :=
            if (rtm_type rtm =? RTM_ADD) || (rtm_type rtm =? RTM_CHANGE) || (rtm_type rtm =? RTM_GET)
            then handleRtmUpdate rtm payload
            else if rtm_type rtm =? RTM_DELETE then handleRtmDelete rtm payload
            else if rtm_type rtm =? RTM_IFINFO then handleIfaceInfo rtm
            else rret tt in
          rbind handler (λ _, rtm_scan fuel' (off + rtm_msglen rtm) len buf) s
      else Ret (tt, s)
  end.

Definition rtsockReady (buf : list Z) (len : Z) : Run M unit :=
  if len <=? 0 then rret tt else rtm_scan 1025 0 len buf.

(** *** Creating and destroying *)
Definition MacosRouteMonitor_new (ifname : string) (w : W) : Outcome (unit * M) :=
  let '(opened, w) := rt_socket w in
  let new index := mkMac [] [] [] 0 0 ifname index 0 opened 0 w in
  if negb opened then Ret (tt, new 0)
  else (do! rtmFetchRoutes AF_INET in do! rtmFetchRoutes AF_INET6 in rret tt) (new (rt_nametoindex ifname w)).

Definition MacosRouteMonitor_delete : Run M unit :=
  do! mac_flushExclusionRoutes in
  rlift (λ s, if m_rtsock s then let '(_, w) := rt_close (mac_kernel s) in (tt, set_sent (m_rtseq s) w s) else (tt, s)).
End Mac.
