(* ===== verification/MacosRouteProperties.v ===== *)
(** * What the routing socket of macOS is told

    Properties of MacosRouteMonitor.v: every request decodes to the prefix, mask and
    gateway it is meant for; messages of the kernel are handled one by one; and over a
    kernel that keeps the documented contract of its routing socket the excluded
    addresses stay on the default route, and nothing else changes. *)
From Stdlib Require Import ZArith Lia Ascii String.
From stdpp Require Import base list option.
From S2P Require Import Prelude HostAddress QtString IpAddress LinuxRouteMonitor MacosRouteMonitor.
Local Open Scope Z_scope.

(** ** Specification: reading a request as the kernel does *)
Record RtRequest := mkRtRequest {
  rr_action : Z; rr_index : Z; rr_flags : Z; rr_seq : Z; rr_addrs : list (Z * list Z)
}.

(** The socket addresses of the bits that are set, each on a boundary of four octets. *)
Fixpoint decode_addrs (bits : list Z) (addrs : Z) (bytes : list Z) : option (list (Z * list Z)) :=
  match bits with
  | [] => if bool_decide (bytes = []) then Some [] else None
  | b :: bits' =>
      if Z.land addrs b =? 0 then decode_addrs bits' addrs bytes
      else
        let size := padded_size (sa_len bytes) in
        if (sa_len bytes =? 0) || (Z.of_nat (length bytes) <? size) then None
        else
          rest ← decode_addrs bits' addrs (drop (Z.to_nat size) bytes);
          Some ((b, take (Z.to_nat (sa_len bytes)) bytes) :: rest)
  end.

Definition decode_rtm (bytes : list Z) : option RtRequest :=
  if (rtm_msglen bytes =? Z.of_nat (length bytes)) && (octet 2 bytes =? RTM_VERSION) then
    addrs ← decode_addrs [1; 2; 4; 8; 16; 32; 64; 128] (rtm_addrs bytes) (drop 92 bytes);
    Some (mkRtRequest (rtm_type bytes) (rtm_index bytes) (rtm_flags bytes) (rtm_seq bytes) addrs)
  else None.

(** ** Layout *)
Local Ltac Zify.zify_post_hook ::= Z.to_euclidean_division_equations.

Definition rt_hdr (len action index flags addrs seq : Z) : list Z :=
  le16 len ++ [RTM_VERSION; action] ++ le16 index ++ [0; 0] ++ le32 flags ++ le32 addrs ++ le32 0 ++ le32 seq ++
  replicate 68 0.
Definition rt_message (size action index flags addrs seq : Z) (body : list Z) : list Z :=
  rt_hdr (92 + Z.of_nat (length body)) action index flags addrs seq ++ body ++
  replicate (Z.to_nat size - 92 - length body) 0.

Lemma le32_value z : 0 <= z < 2 ^ 32 ->
  z mod 256 + 256 * ((z / 256) mod 256) + 65536 * ((z / 65536) mod 256 + 256 * ((z / 16777216) mod 256)) = z.
Proof. lia. Qed.

Section Header.
Variables (len action index flags addrs seq : Z) (r : list Z).
Notation m := (rt_hdr len action index flags addrs seq ++ r).

Lemma hdr_len : 0 <= len < 2 ^ 16 -> rtm_msglen m = len.
Proof. intros. transitivity (len mod 256 + 256 * ((len / 256) mod 256)); [done | lia]. Qed.
Lemma hdr_type : rtm_type m = action.
Proof. done. Qed.
Lemma hdr_index : 0 <= index < 2 ^ 16 -> rtm_index m = index.
Proof. intros. transitivity (index mod 256 + 256 * ((index / 256) mod 256)); [done | lia]. Qed.
Lemma hdr_flags : 0 <= flags < 2 ^ 32 -> rtm_flags m = flags.
Proof. intros. by apply le32_value. Qed.
Lemma hdr_addrs : 0 <= addrs < 2 ^ 32 -> rtm_addrs m = addrs.
Proof. intros. by apply le32_value. Qed.
Lemma hdr_seq : 0 <= seq < 2 ^ 32 -> rtm_seq m = seq.
Proof. intros. by apply le32_value. Qed.
Lemma put_len len' : put 0 (le16 len') m = rt_hdr len' action index flags addrs seq ++ r.
Proof. done. Qed.
Lemma put_flags flags' : put 8 (le32 flags') m = rt_hdr len action index flags' addrs seq ++ r.
Proof. done. Qed.
Lemma put_addrs addrs' : put 12 (le32 addrs') m = rt_hdr len action index flags addrs' seq ++ r.
Proof. done. Qed.
Lemma drop_hdr : drop 92 m = r.
Proof. done. Qed.
Lemma put_body (bytes body : list Z) :
  put (92 + Z.of_nat (length body)) bytes (rt_hdr len action index flags addrs seq ++ body ++ r) =
  rt_hdr len action index flags addrs seq ++ body ++ bytes ++ drop (length bytes) r.
Proof.
  unfold put. set (h := rt_hdr _ _ _ _ _ _). assert (length h = 92%nat) as Lh by done.
  replace (Z.to_nat (92 + Z.of_nat (length body))) with (length (h ++ body)) by (rewrite length_app; lia).
  rewrite (app_assoc h body r), take_app_length, drop_app, drop_ge by lia. cbn [app].
  replace (length (h ++ body) + length bytes - length (h ++ body))%nat with (length bytes) by lia.
  by rewrite <- app_assoc.
Qed.
End Header.

Lemma rt_header_message size action index flags seq :
  (92 <= Z.to_nat size)%nat -> 0 <= action < 256 ->
  rt_header size action index flags seq = rt_message size action index flags 0 seq [].
Proof.
  intros Hs Ha. unfold rt_header, rt_message, u8. rewrite Z.mod_small by lia. cbn [length app Z.of_nat].
  rewrite Nat.sub_0_r. rewrite <- (Nat.sub_add 92 (Z.to_nat size)) at 1 by lia.
  rewrite Nat.add_comm, replicate_add. done.
Qed.

(** A socket address with at least its own length of octets behind it. *)
Definition sockaddr_wf (sa : list Z) : Prop := 2 <= sa_len sa < 256 /\ sa_len sa <= Z.of_nat (length sa).
(** The address as it lies in a message. *)
Definition padded (sa : list Z) : list Z :=
  take (Z.to_nat (sa_len sa)) sa ++ replicate (Z.to_nat (padded_size (sa_len sa) - sa_len sa)) 0.

Lemma padded_size_bounds n : 0 <= n -> n <= padded_size n < n + 5 /\ padded_size n mod 4 = 0 /\ 0 < padded_size n.
Proof. intros. unfold padded_size. case_match; breflect; lia. Qed.
Lemma padded_size_eq n : 0 < n -> padded_size n = n + (4 - n mod 4) mod 4.
Proof. intros. unfold padded_size. destruct (n =? 0) eqn:?, (n mod 4 =? 0) eqn:?; cbn [orb negb]; breflect; lia. Qed.
Lemma padded_size_le n k : 0 < n <= k -> k mod 4 = 0 -> padded_size n <= k.
Proof. intros. rewrite padded_size_eq by lia. lia. Qed.

Lemma length_padded sa : sockaddr_wf sa -> Z.of_nat (length (padded sa)) = padded_size (sa_len sa).
Proof.
  intros [H1 H2]. unfold padded. rewrite length_app, length_take, length_replicate.
  pose proof (padded_size_bounds (sa_len sa)). lia.
Qed.

Lemma padded_fields sa r : sockaddr_wf sa ->
  sa_len (padded sa ++ r) = sa_len sa /\ sa_family (padded sa ++ r) = sa_family sa /\
  take (Z.to_nat (sa_len sa)) (padded sa ++ r) = take (Z.to_nat (sa_len sa)) sa.
Proof.
  intros [H1 H2]. unfold padded, sa_len, sa_family, octet in *. destruct sa as [|a [|b sa]]; cbn in H1, H2; try lia.
  change (default 0 ((a :: b :: sa) !! Z.to_nat 0)) with a in *.
  destruct (Z.to_nat a) as [|[|n]] eqn:E.
  1,2: lia.
  split; [done|]. split; [done|].
  rewrite <- app_assoc, take_app_le; [by rewrite take_take, Nat.min_id|]. rewrite length_take. cbn [length]. lia.
Qed.

Lemma append_addr size action index flags addrs seq body sa rtaddr :
  0 <= size < 2 ^ 16 -> size mod 4 = 0 -> Z.of_nat (length body) mod 4 = 0 ->
  0 <= addrs < 2 ^ 32 -> Z.land addrs rtaddr = 0 -> sockaddr_wf sa ->
  92 + Z.of_nat (length body) + sa_len sa <= size ->
  rtmAppendAddr size rtaddr sa (rt_message size action index flags addrs seq body) =
    Ret (rt_message size action index flags (Z.lor addrs rtaddr) seq (body ++ padded sa)).
Proof.
  intros Hs Hm Hb Ha Hz Hsa Hfit. unfold rtmAppendAddr.
  set (z := replicate (Z.to_nat size - 92 - length body) 0).
  change (rt_message size action index flags addrs seq body) with
    (rt_hdr (92 + Z.of_nat (length body)) action index flags addrs seq ++ body ++ z).
  rewrite hdr_addrs, Hz by lia. change (0 =? 0) with true. cbn [negb].
  pose proof (length_padded sa Hsa) as Lp. destruct Hsa as [H1 H2].
  rewrite !hdr_len by lia. rewrite (proj2 (Z.ltb_ge _ _)) by lia.
  rewrite put_body, put_addrs, put_len. f_equal. unfold rt_message, z.
  set (n := sa_len sa) in *. rewrite padded_size_eq in Lp by lia.
  assert (length (take (Z.to_nat n) sa) = Z.to_nat n) as Lt by (rewrite length_take; lia).
  f_equal.
  - f_equal. rewrite length_app. unfold u16. case_match; breflect; lia.
  - rewrite <- app_assoc. f_equal. unfold padded. fold n. rewrite <- app_assoc. f_equal. rewrite Lt, drop_replicate, !length_app, Lt, length_replicate.
    rewrite padded_size_eq, <- replicate_add by lia. f_equal. lia.
Qed.

(** The octets written of a message. *)
Lemma message_bytes size action index flags addrs seq body :
  92 + Z.of_nat (length body) <= size < 2 ^ 16 ->
  rtm_msglen (rt_message size action index flags addrs seq body) = 92 + Z.of_nat (length body) /\
  take (Z.to_nat (92 + Z.of_nat (length body))) (rt_message size action index flags addrs seq body) =
    rt_hdr (92 + Z.of_nat (length body)) action index flags addrs seq ++ body.
Proof.
  intros Hs. unfold rt_message. split; [by apply hdr_len; lia|]. set (h := rt_hdr _ _ _ _ _ _).
  assert (length h = 92%nat) as Lh by done. rewrite app_assoc. apply take_app_length'. rewrite length_app. lia.
Qed.

(** ** Masks *)
Definition mask_bits (w : nat) (plen : Z) : list bool :=
  replicate (Z.to_nat plen) true ++ replicate (w - Z.to_nat plen) false.
Definition octets_address (l : list Z) : QHostAddress :=
  match l with
  | [a; b; c; d] => IPv4Address (16777216 * a + 65536 * b + 256 * c + d)
  | _ => IPv6Address l
  end.

Lemma netmask4_bits plen :
  0 <= plen <= 32 -> length (netmask4 plen) = 4%nat /\ addr_bits (octets_address (netmask4 plen)) = mask_bits 32 plen.
Proof.
  intros Hp. split; [done|].
  assert (Forall (λ n, addr_bits (octets_address (netmask4 n)) = mask_bits 32 n) (seqZ 0 33)) as F
    by (apply (bool_decide_unpack _); by vm_compute).
  rewrite list.Forall_forall in F. apply F, elem_of_seqZ. lia.
Qed.

Lemma netmask6_bits plen :
  0 <= plen <= 128 -> exists mask, netmask6 plen = Some mask /\ length mask = 16%nat /\
    addr_bits (octets_address mask) = mask_bits 128 plen.
Proof.
  intros Hp.
  assert (Forall (λ n, from_option (λ m, bool_decide (length m = 16%nat /\
      addr_bits (octets_address m) = mask_bits 128 n)) false (netmask6 n) = true) (seqZ 0 129)) as F
    by (apply (bool_decide_unpack _); by vm_compute).
  rewrite list.Forall_forall in F. specialize (F plen ltac:(apply elem_of_seqZ; lia)).
  destruct (netmask6 plen) as [m|]; [|done]. exists m. split; [done|]. by apply (bool_decide_eq_true_1 _).
Qed.

(** ** Requests *)
Definition trimmed (sa : list Z) : list Z := take (Z.to_nat (sa_len sa)) sa.
Definition gateway_ok (gateway : option (list Z)) : Prop :=
  match gateway with None => True | Some gw => sockaddr_wf gw /\ sa_len gw <= 128 end.
(** The socket address of the mask. *)
Definition route_mask (p : IPAddress) : list Z :=
  match m_address p with
  | IPv6Address _ => sockaddr_in6 (default [] (netmask6 (m_prefixLength p)))
  | _ => sockaddr_in (netmask4 (m_prefixLength p))
  end.

Lemma sockaddr_in_wf a : length a = 4%nat -> sockaddr_wf (sockaddr_in a) /\ trimmed (sockaddr_in a) = sockaddr_in a /\
  padded (sockaddr_in a) = sockaddr_in a /\ sa_len (sockaddr_in a) = 16.
Proof. intros (b & c & d & e & ->)%list_of_4. repeat split; done. Qed.
Lemma sockaddr_in6_wf a : length a = 16%nat -> sockaddr_wf (sockaddr_in6 a) /\ trimmed (sockaddr_in6 a) = sockaddr_in6 a /\
  padded (sockaddr_in6 a) = sockaddr_in6 a /\ sa_len (sockaddr_in6 a) = 28.
Proof.
  intros (? & ? & ? & ? & ? & ? & ? & ? & ? & ? & ? & ? & ? & ? & ? & ? & ->)%list_of_16. repeat split; done.
Qed.

(** The destination and the mask of a well-formed prefix. *)
Lemma prefix_addrs p : ip_wf p ->
  (forall rtm, append_netmask p rtm = rtmAppendAddr rtm_max_size RTA_NETMASK (route_mask p) rtm) /\
  Forall (λ sa, sockaddr_wf sa /\ trimmed sa = sa /\ padded sa = sa /\ sa_len sa <= 28) [route_dst p; route_mask p].
Proof.
  destruct p as [[|a|l] n]; intros (Wa & Wp & Wl); cbn in Wa, Wp, Wl; [done|..];
    unfold append_netmask, route_dst, route_mask, u32; cbn [m_address m_prefixLength protocol]; rewrite Z.mod_small by lia.
  - split; [done|]. destruct (sockaddr_in_wf (be32 a)) as (? & ? & ? & ?), (sockaddr_in_wf (netmask4 n)) as (? & ? & ? & ?);
      [done..|]. constructor; [|constructor; [|constructor]]; (split; [done|split; [done|split; [done|lia]]]).
  - destruct (netmask6_bits n) as (mask & E & Lm & _); [lia|]. rewrite E. change (default [] (Some mask)) with mask. split; [done|].
    destruct (sockaddr_in6_wf l) as (? & ? & ? & ?), (sockaddr_in6_wf mask) as (? & ? & ? & ?); [naive_solver..|].
    constructor; [|constructor; [|constructor]]; (split; [done|split; [done|split; [done|lia]]]).
Qed.

(** What a request says. *)
Definition request_addrs (p : IPAddress) (gateway : option (list Z)) : list (Z * list Z) :=
  (RTA_DST, route_dst p) ::
  match gateway with None => [] | Some gw => [(RTA_GATEWAY, trimmed gw)] end ++ [(RTA_NETMASK, route_mask p)].
Definition request_flags (gateway : option (list Z)) : Z :=
  Z.lor (Z.lor RTF_STATIC RTF_UP) (from_option gateway_flags 0 gateway).
Definition request_body (p : IPAddress) (gateway : option (list Z)) : list Z :=
  route_dst p ++ from_option padded [] gateway ++ route_mask p.
Definition request_bits (gateway : option (list Z)) : Z := match gateway with None => 5 | Some _ => 7 end.

Lemma request_built action p index gateway seq :
  ip_wf p -> gateway_ok gateway -> 0 <= action < 256 ->
  92 + Z.of_nat (length (request_body p gateway)) <= rtm_max_size /\
  route_request action p index gateway seq =
    Ret (rt_message rtm_max_size action index (request_flags gateway) (request_bits gateway) seq (request_body p gateway)).
Proof.
  intros Wp Wg Wa. destruct (prefix_addrs p Wp) as [Em F]. apply list.Forall_cons in F as [(Wd & Td & Pd & Ld) F].
  apply list.Forall_cons in F as [(Wm & Tm & Pm & Lm) _]. change rtm_max_size with 276 in *.
  pose proof (length_padded _ Wd) as Sd. pose proof (length_padded _ Wm) as Sm. rewrite Pd in Sd. rewrite Pm in Sm.
  pose proof (padded_size_bounds (sa_len (route_dst p))) as Bd. pose proof (padded_size_bounds (sa_len (route_mask p))) as Bm.
  unfold route_request, request_body. change rtm_max_size with 276. rewrite rt_header_message by lia.
  destruct Wd as [Wd1 Wd2], Wm as [Wm1 Wm2], Bd as (_ & Bd & _), Bm as (_ & Bm & _); [lia..|].
  assert (padded_size (sa_len (route_dst p)) <= 28 /\ padded_size (sa_len (route_mask p)) <= 28) as [Bd' Bm'] by (split; apply padded_size_le; done || lia).
  rewrite append_addr; try done; try (cbn [length]; lia). cbn [mbind Outcome_bind]. rewrite Pd. cbn [app].
  destruct gateway as [gw|]; cbn [from_option request_bits request_flags].
  - destruct Wg as [Wg Lg]. pose proof (length_padded _ Wg) as Sg. destruct (padded_size_bounds (sa_len gw)) as (_ & Bg & _); [destruct Wg; lia|].
    assert (padded_size (sa_len gw) <= 128) by (apply padded_size_le; [destruct Wg; lia | done]).
    split; [rewrite !length_app; lia|]. unfold rt_message at 1 2.
    rewrite put_flags, hdr_flags by (by vm_compute).
    fold (rt_message 276 action index (Z.lor (Z.lor RTF_STATIC RTF_UP) (gateway_flags gw)) (Z.lor 0 RTA_DST) seq (route_dst p)).
    rewrite append_addr; try done; [|lia..]. cbn [mbind Outcome_bind]. rewrite Em, append_addr; try done; rewrite ?length_app; try lia.
    by rewrite Pm, <- app_assoc.
  - split; [rewrite !length_app; cbn [length]; lia|]. cbn [mbind Outcome_bind]. rewrite Em, append_addr; try done; try lia.
    by rewrite Pm.
Qed.

Lemma decode_step b bits addrs sa r :
  Z.land addrs b <> 0 -> sockaddr_wf sa ->
  decode_addrs (b :: bits) addrs (padded sa ++ r) =
    rest ← decode_addrs bits addrs r; Some ((b, trimmed sa) :: rest).
Proof.
  intros Hb Hsa. cbn [decode_addrs]. rewrite (proj2 (Z.eqb_neq _ _) Hb).
  destruct (padded_fields sa r Hsa) as (-> & _ & ->). pose proof (length_padded sa Hsa) as L. destruct Hsa as [H1 H2].
  rewrite (proj2 (Z.eqb_neq _ 0)), length_app, (proj2 (Z.ltb_ge _ _)) by lia. cbn [orb].
  by replace (Z.to_nat (padded_size (sa_len sa))) with (length (padded sa)) by lia; rewrite drop_app_length.
Qed.

Lemma request_decodes action p index gateway seq :
  ip_wf p -> gateway_ok gateway -> 0 <= action < 256 -> 0 <= index < 2 ^ 16 -> 0 <= seq < 2 ^ 32 ->
  decode_rtm (rt_hdr (92 + Z.of_nat (length (request_body p gateway))) action index (request_flags gateway)
      (request_bits gateway) seq ++ request_body p gateway) =
    Some (mkRtRequest action index (request_flags gateway) seq (request_addrs p gateway)).
Proof.
  intros Wp Wg Wa Wi Ws. destruct (request_built action p index gateway seq) as [B _]; [done..|].
  destruct (prefix_addrs p Wp) as [_ F]. apply list.Forall_cons in F as [(Wd & Td & Pd & _) F].
  apply list.Forall_cons in F as [(Wm & Tm & Pm & _) _]. change rtm_max_size with 276 in B.
  unfold decode_rtm. set (body := request_body p gateway) in *. set (h := rt_hdr _ _ _ _ _ _).
  assert (0 <= request_flags gateway < 2 ^ 32) as Wf.
  { unfold request_flags, gateway_flags. destruct gateway as [gw|]; cbn [from_option]; [case_match|]; by vm_compute. }
  assert (rtm_msglen (h ++ body) = Z.of_nat (length (h ++ body))) as ->.
  { unfold h. rewrite hdr_len by lia. rewrite length_app. change (length (rt_hdr _ _ _ _ _ _)) with 92%nat. lia. }
  rewrite Z.eqb_refl. change (octet 2 (h ++ body) =? RTM_VERSION) with true. cbn [andb]. unfold h.
  rewrite hdr_addrs, hdr_index, hdr_flags, hdr_seq, drop_hdr, hdr_type by (done || by destruct gateway).
  assert (decode_addrs [1; 2; 4; 8; 16; 32; 64; 128] (request_bits gateway) body = Some (request_addrs p gateway)) as ->; [|done].
  unfold body, request_body, request_addrs. rewrite <- Pd at 1. rewrite decode_step, Td by (done || by destruct gateway).
  rewrite <- (app_nil_r (route_mask p)), <- Pm at 1.
  destruct gateway as [gw|]; cbn [from_option app request_bits].
  - destruct Wg as [Wg _]. rewrite decode_step by done. by rewrite decode_step, Tm.
  - change (decode_addrs [2; 4; 8; 16; 32; 64; 128] 5) with (decode_addrs [4; 8; 16; 32; 64; 128] 5).
    by rewrite decode_step, Tm.
Qed.

Section Requests.
Context {W : Type} `{RouteSocket W}.
Implicit Types (s : MacosRouteMonitor W).

(** What a request answers, by the result of the write. *)
Definition accepted (action len errno : Z) (bytes : list Z) : bool :=
  (len =? Z.of_nat (length bytes)) || ((action =? RTM_ADD) && (errno =? EEXIST)) ||
  ((action =? RTM_DELETE) && (errno =? ESRCH)).

Lemma send_request action p index gateway s :
  ip_wf p -> gateway_ok gateway -> 0 <= action < 256 -> 0 <= index < 2 ^ 16 -> m_rtsock s = true ->
  exists bytes, decode_rtm bytes = Some (mkRtRequest action index (request_flags gateway) (u32 (m_rtseq s)) (request_addrs p gateway)) /\
    let '((len, errno), w) := rt_write bytes (mac_kernel s) in
    rtmSendRoute action p index gateway s = Ret (accepted action len errno bytes, set_sent (s32 (m_rtseq s + 1)) w s).
Proof.
  intros Wp Wg Wa Wi Hs. eexists. split; [apply request_decodes; [done..|unfold u32; lia]|].
  set (bytes := rt_hdr _ _ _ _ _ _ ++ _). destruct (request_built action p index gateway (u32 (m_rtseq s))) as [B E]; [done..|].
  change rtm_max_size with 276 in B. unfold rtmSendRoute. rewrite E. unfold rtm_write.
  destruct (message_bytes rtm_max_size action index (request_flags gateway) (request_bits gateway) (u32 (m_rtseq s))
    (request_body p gateway)) as [-> ->]; [change rtm_max_size with 276; lia|]. fold bytes. rewrite Hs.
  destruct (rt_write bytes (mac_kernel s)) as [[len errno] w]. unfold accepted.
  replace (Z.of_nat (length bytes)) with (92 + Z.of_nat (length (request_body p gateway))); [done|].
  unfold bytes. rewrite length_app. change (length (rt_hdr _ _ _ _ _ _)) with 92%nat. lia.
Qed.
End Requests.

(** ** Messages of the kernel *)
(** An address with its padding, as [parseAddrList] cuts it. *)
Definition chunk_wf (c : list Z) : Prop := 0 <= sa_len c /\ Z.of_nat (length c) = padded_size (sa_len c).

Lemma parse_chunks fuel : forall cs,
  Forall chunk_wf cs -> (length (concat cs) < fuel)%nat -> parse_addrs fuel (concat cs) = cs.
Proof.
  induction fuel as [|fuel IH]; intros cs Hc Hf; [lia|]. destruct cs as [|c cs]; [done|].
  apply list.Forall_cons in Hc as [[H0 Hc] Hcs]. destruct (padded_size_bounds _ H0) as (B1 & B2 & B3).
  cbn [concat map foldr] in Hf |- *. change (foldr app []) with (@concat Z) in *. rewrite length_app in Hf.
  cbn [parse_addrs]. rewrite length_app.
  assert (sa_len (c ++ concat cs) = sa_len c) as ->.
  { unfold sa_len, octet. destruct c; [cbn in Hc; lia|done]. }
  rewrite (proj2 (Z.leb_le _ _)), (proj2 (Z.ltb_ge _ _)) by lia.
  replace (Z.to_nat (padded_size (sa_len c))) with (length c) by lia.
  rewrite take_app_length, drop_app_length, IH; [done|done|lia].
Qed.

(** [parseAddrList] reads back the addresses of a message. *)
Lemma addresses_parsed cs : Forall chunk_wf cs -> parseAddrList (concat cs) = cs.
Proof. intros Hc. apply parse_chunks; [done|lia]. Qed.

Definition message_wf (m : list Z) : Prop := (92 <= length m)%nat /\ rtm_msglen m = Z.of_nat (length m).

Lemma octet_first m r k : 0 <= k < Z.of_nat (length m) -> octet k (m ++ r) = octet k m.
Proof. intros. unfold octet. by rewrite lookup_app_l by lia. Qed.
Lemma get16_first m r k : 0 <= k < Z.of_nat (length m) - 1 -> get16 k (m ++ r) = get16 k m.
Proof. intros. unfold get16. by rewrite !octet_first by lia. Qed.
Lemma get32_first m r k : 0 <= k < Z.of_nat (length m) - 3 -> get32 k (m ++ r) = get32 k m.
Proof. intros. unfold get32. by rewrite !get16_first by lia. Qed.

Section Messages.
Context {W : Type} `{RouteSocket W}.
Implicit Types (s : MacosRouteMonitor W).

(** One message of the kernel. *)
Definition handle_message (m : list Z) : Run (MacosRouteMonitor W) unit :=
  let payload := drop (Z.to_nat sizeof_rt_msghdr) m in
  if (rtm_type m =? RTM_ADD) || (rtm_type m =? RTM_CHANGE) || (rtm_type m =? RTM_GET) then handleRtmUpdate m payload
  else if rtm_type m =? RTM_DELETE then handleRtmDelete m payload
  else if rtm_type m =? RTM_IFINFO then handleIfaceInfo m
  else rret tt.

Lemma scan_messages ms : forall fuel pre rest s,
  Forall message_wf ms -> (length (concat ms) < fuel)%nat ->
  rtm_scan fuel (Z.of_nat (length pre)) (Z.of_nat (length pre + length (concat ms))) (pre ++ concat ms ++ rest) s =
    run_each ms handle_message s.
Proof.
  induction ms as [|m ms IH]; intros [|fuel] pre rest s Hm Hf; cbn in Hf; try lia; cbn [rtm_scan].
  { rewrite (proj2 (Z.ltb_ge _ _)) by (cbn; lia). done. }
  apply list.Forall_cons in Hm as [[L1 L2] Hms]. cbn [concat map foldr] in Hf |- *.
  change (foldr app []) with (@concat Z) in *. rewrite length_app in Hf |- *.
  rewrite (proj2 (Z.ltb_lt _ _)), Nat2Z.id, drop_app_length by lia. rewrite <- !app_assoc.
  set (r := concat ms ++ rest).
  assert (forall k, 0 <= k < 80 -> octet k (m ++ r) = octet k m /\ get16 k (m ++ r) = get16 k m /\ get32 k (m ++ r) = get32 k m)
    as F by (intros; by rewrite octet_first, get16_first, get32_first by lia).
  assert (rtm_msglen (m ++ r) = rtm_msglen m) as -> by (apply F; lia). rewrite L2.
  rewrite (proj2 (Z.ltb_ge _ _)), Nat2Z.id, take_app_length by lia.
  assert (rtm_type (m ++ r) = rtm_type m) as -> by (apply F; lia).
  assert (forall pl, handleRtmUpdate (m ++ r) pl = handleRtmUpdate m pl /\ handleRtmDelete (m ++ r) pl = handleRtmDelete m pl) as Fu.
  { intros pl. unfold handleRtmUpdate, handleRtmDelete, has_addrs, update_ifindex.
    assert (rtm_addrs (m ++ r) = rtm_addrs m) as -> by (apply F; lia).
    assert (rtm_flags (m ++ r) = rtm_flags m) as -> by (apply F; lia).
    assert (rtm_index (m ++ r) = rtm_index m) as -> by (apply F; lia).
    assert (rtm_pid (m ++ r) = rtm_pid m) as -> by (apply F; lia).
    by assert (rtm_type (m ++ r) = rtm_type m) as -> by (apply F; lia). }
  assert (handleIfaceInfo (m ++ r) = handleIfaceInfo m) as ->.
  { unfold handleIfaceInfo, ifm_index, ifm_flags. rewrite (proj1 (proj2 (F 12 ltac:(lia)))), (proj2 (proj2 (F 8 ltac:(lia)))). done. }
  rewrite !(proj1 (Fu _)), !(proj2 (Fu _)). cbn [run_each]. fold (handle_message m). unfold rbind.
  destruct (handle_message m s) as [[[] s']| |]; cbn; [|done..].
  replace (Z.of_nat (length pre) + Z.of_nat (length m)) with (Z.of_nat (length (pre ++ m))) by (rewrite length_app; lia).
  replace (Z.of_nat (length pre + (length m + length (concat ms)))) with (Z.of_nat (length (pre ++ m) + length (concat ms)))
    by (rewrite length_app; lia).
  unfold r. rewrite app_assoc. apply IH; [done|lia].
Qed.

(** What [recv] stored in the array is handled message by message. *)
Lemma messages_in_order ms rest s :
  Forall message_wf ms -> (length (concat ms) <= 1024)%nat ->
  rtsockReady (concat ms ++ rest) (Z.of_nat (length (concat ms))) s = run_each ms handle_message s.
Proof.
  intros Hm Hl. unfold rtsockReady. destruct (Z.leb_spec (Z.of_nat (length (concat ms))) 0) as [Hz|Hz].
  - destruct ms as [|m ms]; [done|]. apply list.Forall_cons in Hm as [[L _] _]. cbn in Hz. rewrite length_app in Hz. lia.
  - apply (scan_messages ms 1025 [] rest s Hm). lia.
Qed.
End Messages.

(** ** The kernel *)
Definition route_key (p : IPAddress) : list Z * list Z := (route_dst p, route_mask p).

Lemma mask_bits_inj w m n : 0 <= m <= Z.of_nat w -> 0 <= n <= Z.of_nat w -> mask_bits w m = mask_bits w n -> m = n.
Proof.
  intros Hm Hn E. apply (f_equal (λ l, length (List.filter id l))) in E. unfold mask_bits in E.
  assert (forall a b, length (List.filter id (replicate a true ++ replicate b false)) = a) as F.
  { intros a b. rewrite List.filter_app, length_app.
    replace (List.filter id (replicate b false)) with (@nil bool) by (induction b; done).
    replace (List.filter id (replicate a true)) with (replicate a true); [rewrite length_replicate; cbn; lia|].
    induction a as [|a IH]; [done|]. cbn. by rewrite <- IH. }
  rewrite !F in E. lia.
Qed.

Lemma route_key_inj p q : ip_wf p -> ip_wf q -> route_key p = route_key q -> p = q.
Proof.
  destruct p as [[|a|l] m], q as [[|b|k] n]; intros (Wa & Wp & Wl) (Va & Vp & Vl); cbn in Wa, Wp, Wl, Va, Vp, Vl; try done;
    intros E; pose proof (f_equal fst E) as Ed; pose proof (f_equal snd E) as Em; clear E; try done;
    unfold route_key, route_dst, route_mask in Ed, Em; cbn [m_address m_prefixLength fst snd] in Ed, Em.
  - apply (f_equal (λ l, take 4 (drop 4 l))) in Ed, Em. change (be32 a = be32 b) in Ed.
    change (netmask4 m = netmask4 n) in Em. assert (a = b) as -> by (injection Ed; lia). f_equal.
    apply (mask_bits_inj 32); [lia..|]. by rewrite <- (proj2 (netmask4_bits m Wl)), <- (proj2 (netmask4_bits n Vl)), Em.
  - destruct (netmask6_bits m Wl) as (m1 & E1 & L1 & B1), (netmask6_bits n Vl) as (m2 & E2 & L2 & B2).
    rewrite E1, E2 in Em. change (sockaddr_in6 m1 = sockaddr_in6 m2) in Em. unfold sockaddr_in6 in Ed, Em.
    apply app_inv_head, app_inj_1 in Ed as [-> _]; [|by rewrite (proj1 Wa), (proj1 Va)]. apply app_inv_head, app_inj_1 in Em as [-> _]; [|lia].
    f_equal. apply (mask_bits_inj 128); [lia..|]. congruence.
Qed.

(** The routing table: a destination and a mask lead to an interface and a gateway. *)
Class RouteTable (W : Type) := rt_table : W -> list Z * list Z -> option (Z * list Z).

Fixpoint addr_of (b : Z) (l : list (Z * list Z)) : option (list Z) :=
  match l with [] => None | (b', sa) :: l' => if b' =? b then Some sa else addr_of b l' end.

(** route(4): what becomes of an entry, or the error. *)
Definition kernel_step (r : RtRequest) (old : option (Z * list Z)) : Z + option (Z * list Z) :=
  let new := Some (rr_index r, default [] (addr_of RTA_GATEWAY (rr_addrs r))) in
  if rr_action r =? RTM_ADD then match old with None => inr new | Some _ => inl EEXIST end
  else if rr_action r =? RTM_CHANGE then match old with None => inl ESRCH | Some _ => inr new end
  else match old with None => inl ESRCH | Some _ => inr None end.

Class RouteSocketLaws (W : Type) `{RouteSocket W} `{RouteTable W} : Prop := {
  write_law bytes r dst mask w :
    decode_rtm bytes = Some r -> rr_action r ∈ [RTM_ADD; RTM_DELETE; RTM_CHANGE] ->
    addr_of RTA_DST (rr_addrs r) = Some dst -> addr_of RTA_NETMASK (rr_addrs r) = Some mask ->
    let '((len, errno), w') := rt_write bytes w in
    (forall k, k <> (dst, mask) -> rt_table w' k = rt_table w k) /\
    match kernel_step r (rt_table w (dst, mask)) with
    | inl e => len = -1 /\ errno = e /\ rt_table w' (dst, mask) = rt_table w (dst, mask)
    | inr new => len = Z.of_nat (length bytes) /\ rt_table w' (dst, mask) = new
    end;
  get_law bytes r w : decode_rtm bytes = Some r -> rr_action r = RTM_GET ->
    forall k, rt_table (rt_write bytes w).2 k = rt_table w k;
  socket_law w k : rt_table (rt_socket w).2 k = rt_table w k;
  close_law w k : rt_table (rt_close w).2 k = rt_table w k
}.

Section Kernel.
Context {W : Type} `{RouteSocketLaws W}.
Implicit Types (s : MacosRouteMonitor W).
Notation table s := (rt_table (mac_kernel s)).

(** Everything but the sequence number and the kernel. *)
Definition same_monitor s s' : Prop :=
  m_exclusionRoutes s' = m_exclusionRoutes s /\ m_defaultGatewayIpv4 s' = m_defaultGatewayIpv4 s /\
  m_defaultGatewayIpv6 s' = m_defaultGatewayIpv6 s /\ m_defaultIfindexIpv4 s' = m_defaultIfindexIpv4 s /\
  m_defaultIfindexIpv6 s' = m_defaultIfindexIpv6 s /\ mac_ifname s' = mac_ifname s /\ mac_ifindex s' = mac_ifindex s /\
  m_rtsock s' = m_rtsock s.

Lemma same_monitor_trans s1 s2 s3 : same_monitor s1 s2 -> same_monitor s2 s3 -> same_monitor s1 s3.
Proof. unfold same_monitor. intuition congruence. Qed.

(** The entry after a request. *)
Definition next_entry (action index : Z) (gateway : option (list Z)) (old : option (Z * list Z)) : option (Z * list Z) :=
  let new := Some (index, from_option trimmed [] gateway) in
  if action =? RTM_ADD then match old with None => new | Some _ => old end
  else if action =? RTM_CHANGE then match old with None => None | Some _ => new end
  else None.

Lemma send_step action p index gateway s :
  ip_wf p -> gateway_ok gateway -> action ∈ [RTM_ADD; RTM_DELETE; RTM_CHANGE] -> 0 <= index < 2 ^ 16 -> m_rtsock s = true ->
  exists ok s', rtmSendRoute action p index gateway s = Ret (ok, s') /\ same_monitor s s' /\
    table s' (route_key p) = next_entry action index gateway (table s (route_key p)) /\
    (forall k, k <> route_key p -> table s' k = table s k) /\
    ok = negb ((action =? RTM_CHANGE) && bool_decide (table s (route_key p) = None)).
Proof.
  intros Wp Wg Ha Wi Hs. assert (0 <= action < 256) as Ra by (apply list_elem_of_In in Ha; cbn in Ha; unfold RTM_ADD, RTM_DELETE, RTM_CHANGE in Ha; lia).
  destruct (send_request action p index gateway s Wp Wg Ra Wi Hs) as (bytes & D & E).
  pose proof (write_law bytes _ (route_dst p) (route_mask p) (mac_kernel s) D Ha eq_refl) as L.
  destruct (rt_write bytes (mac_kernel s)) as [[len errno] w]. destruct L as [Lo Lk]; [by destruct gateway|].
  eexists _, _. split; [exact E|]. split; [done|].
  assert (default [] (addr_of RTA_GATEWAY (request_addrs p gateway)) = from_option trimmed [] gateway) as Eg by (by destruct gateway).
  unfold kernel_step in Lk. cbn [rr_action rr_index rr_addrs] in Lk. rewrite Eg in Lk. fold (route_key p) in Lk. unfold next_entry, accepted.
  cbn [mac_kernel set_sent]. set (old := rt_table (mac_kernel s) (route_key p)) in *.
  repeat (apply elem_of_cons in Ha as [-> | Ha]); [..|by apply not_elem_of_nil in Ha]; destruct old eqn:Eo; cbn in Lk |- *;
    destruct Lk as [-> Lk]; try (lazymatch type of Lk with _ /\ _ => destruct Lk as [-> Lk] end); rewrite Lk; cbn; rewrite ?Z.eqb_refl, ?orb_true_r.
    all: split; [done|]; split; [done|]; by destruct (length bytes).
Qed.

Lemma send_loop action index gateway pr (l : list IPAddress) : forall s,
  gateway_ok gateway -> action ∈ [RTM_ADD; RTM_DELETE; RTM_CHANGE] -> 0 <= index < 2 ^ 16 -> m_rtsock s = true ->
  NoDup l -> Forall ip_wf l ->
  exists s', run_each l (λ prefix, if bool_decide (protocol (m_address prefix) = pr)
      then do! rtmSendRoute action prefix index gateway in rret tt else rret tt) s = Ret (tt, s') /\
    same_monitor s s' /\
    (forall p, p ∈ l -> protocol (m_address p) = pr -> table s' (route_key p) = next_entry action index gateway (table s (route_key p))) /\
    (forall k, (forall p, p ∈ l -> protocol (m_address p) = pr -> k <> route_key p) -> table s' k = table s k).
Proof.
  induction l as [|q l IH]; intros s Wg Ha Wi Hs Hnd Hwf.
  { exists s. split; [done|]. split; [done|]. split; [intros p []%not_elem_of_nil|done]. }
  apply list.NoDup_cons in Hnd as [Hq Hnd]. apply list.Forall_cons in Hwf as [Wq Wl]. cbn [run_each]. unfold rbind at 1.
  case_bool_decide as Hp.
  - destruct (send_step action q index gateway s Wq Wg Ha Wi Hs) as (ok & s1 & E & Sm & Tk & To & _).
    unfold rbind. rewrite E. cbn [rret].
    destruct (IH s1) as (s2 & E2 & Sm2 & Tk2 & To2); try done; [unfold same_monitor in Sm; naive_solver|].
    exists s2. split; [done|]. split; [by eapply same_monitor_trans|].
    assert (forall p, p ∈ l -> route_key p <> route_key q) as Hne.
    { intros p Hpl Ek. apply Hq. rewrite list.Forall_forall in Wl. by rewrite <- (route_key_inj p q (Wl p Hpl) Wq Ek). }
    split.
    + intros p [-> | Hpl]%elem_of_cons Hpr.
      * rewrite To2, Tk; [done|]. intros p' Hp' _. by apply not_eq_sym, Hne.
      * rewrite Tk2, To; [done|by apply Hne|done|done].
    + intros k Hk. rewrite To2, To; [done| |].
      * by apply Hk; [apply list_elem_of_here|].
      * intros p' Hp'. by apply Hk, list_elem_of_further.
  - destruct (IH s) as (s2 & E2 & Sm2 & Tk2 & To2); try done. exists s2. split; [done|]. split; [done|]. split.
    + intros p [-> | Hpl]%elem_of_cons Hpr; [done|by apply Tk2].
    + intros k Hk. apply To2. intros p' Hp'. by apply Hk, list_elem_of_further.
Qed.

(** *** Exclusions stay on the default route *)
Definition ifindex_of (pr : NetworkLayerProtocol) s : Z :=
  match pr with IPv4Protocol => m_defaultIfindexIpv4 s | IPv6Protocol => m_defaultIfindexIpv6 s | _ => 0 end.
Definition gateway_of (pr : NetworkLayerProtocol) s : list Z :=
  match pr with IPv4Protocol => m_defaultGatewayIpv4 s | IPv6Protocol => m_defaultGatewayIpv6 s | _ => [] end.
(** The default route of a family, when the monitor knows one. *)
Definition default_of s (pr : NetworkLayerProtocol) : option (Z * list Z) :=
  if ifindex_of pr s =? 0 then None else Some (ifindex_of pr s, trimmed (gateway_of pr s)).
Definition default_ok (index : Z) (gw : list Z) : Prop :=
  index = 0 /\ gw = [] \/ 0 < index < 2 ^ 16 /\ gateway_ok (Some gw).

Record kept (w0 : W) s : Prop := mkKept {
  kept_open : m_rtsock s = true;
  kept_nodup : NoDup (m_exclusionRoutes s);
  kept_new : Forall (λ p, ip_wf p /\ rt_table w0 (route_key p) = None) (m_exclusionRoutes s);
  kept_defaults pr : default_ok (ifindex_of pr s) (gateway_of pr s);
  kept_routes p : p ∈ m_exclusionRoutes s -> table s (route_key p) = default_of s (protocol (m_address p));
  kept_others k : (forall p, p ∈ m_exclusionRoutes s -> k <> route_key p) -> table s k = rt_table w0 k
}.

Lemma kept_wf w0 s : kept w0 s -> Forall ip_wf (m_exclusionRoutes s).
Proof. intros K. eapply list.Forall_impl; [apply (kept_new _ _ K)|]. by intros p [? _]. Qed.

Lemma default_of_same s s' pr : same_monitor s s' ->
  default_of s' pr = default_of s pr /\ ifindex_of pr s' = ifindex_of pr s /\ gateway_of pr s' = gateway_of pr s.
Proof. unfold same_monitor, default_of. intros (E & E1 & E2 & E3 & E4 & _). destruct pr; cbn; by rewrite ?E1, ?E2, ?E3, ?E4. Qed.

(** A prefix that could be excluded: well-formed, and no route of another program. *)
Definition excludable (w0 : W) (p : IPAddress) : Prop := ip_wf p /\ rt_table w0 (route_key p) = None.

Lemma kept_fresh w0 s p : kept w0 s -> excludable w0 p -> p ∉ m_exclusionRoutes s -> table s (route_key p) = None.
Proof.
  intros K [Wp Hp] Hn. rewrite (kept_others _ _ K); [done|]. intros q Hq E. apply Hn.
  pose proof (kept_wf _ _ K) as F. rewrite list.Forall_forall in F. by rewrite (route_key_inj p q Wp (F q Hq) E).
Qed.

(** Adding an exclusion [p] that is routed as the default route says. *)
Lemma kept_added w0 s s' p :
  kept w0 s -> excludable w0 p -> p ∉ m_exclusionRoutes s -> same_monitor (set_exclusions (m_exclusionRoutes s ++ [p]) s) s' ->
  table s' (route_key p) = default_of s (protocol (m_address p)) -> (forall k, k <> route_key p -> table s' k = table s k) ->
  kept w0 s'.
Proof.
  intros K Hp Hn Sm Tk To. pose proof (kept_wf _ _ K) as F. rewrite list.Forall_forall in F.
  assert (m_exclusionRoutes s' = m_exclusionRoutes s ++ [p]) as El by apply Sm.
  assert (forall pr, default_of s' pr = default_of s pr /\ ifindex_of pr s' = ifindex_of pr s /\ gateway_of pr s' = gateway_of pr s)
    as Ed by (intros pr; exact (default_of_same _ _ pr Sm)).
  split.
  - rewrite <- (kept_open _ _ K). apply Sm.
  - rewrite El. apply list.NoDup_app. split; [apply K|]. split; [|apply list.NoDup_singleton]. intros q Hq ->%list_elem_of_singleton. done.
  - rewrite El. apply list.Forall_app. split; [apply K|]. by apply list.Forall_singleton.
  - intros pr. destruct (Ed pr) as (_ & -> & ->). apply K.
  - intros q Hq. rewrite (proj1 (Ed _)). rewrite El in Hq. apply elem_of_app in Hq as [Hq | ->%list_elem_of_singleton]; [|done].
    rewrite To; [by apply K|]. intros E. apply Hn. by rewrite <- (route_key_inj q p (F q Hq) (proj1 Hp) E).
  - intros k Hk. rewrite El in Hk. rewrite To; [apply K|].
    + intros q Hq. apply Hk, elem_of_app. by left.
    + apply Hk, elem_of_app. right. by apply list_elem_of_singleton.
Qed.

Lemma kept_add w0 s p : kept w0 s -> excludable w0 p -> exists ok s', mac_addExclusionRoute p s = Ret (ok, s') /\ kept w0 s'.
Proof.
  intros K Hp. unfold mac_addExclusionRoute, rbind at 1, rlift at 1, gets at 1. case_bool_decide as Hn; [by eexists _, _|].
  unfold rbind at 1, rlift at 1, modify at 1. unfold rbind at 1, rlift at 1, gets at 1. set (s1 := set_exclusions _ s).
  change (id s1) with s1.
  assert (forall pr, protocol (m_address p) = pr -> pr <> UnknownNetworkLayerProtocol ->
    exists ok s', (if negb (ifindex_of pr s =? 0) && negb (bool_decide (gateway_of pr s = []))
                   then rtmSendRoute RTM_ADD p (ifindex_of pr s) (Some (gateway_of pr s)) else rret true) s1 = Ret (ok, s') /\ kept w0 s') as Hcase.
  { intros pr Epr _. pose proof (kept_fresh w0 s p K Hp Hn) as Ht. destruct (kept_defaults _ _ K pr) as [[E0 Eg]|[Ri Wg]].
    - rewrite E0. cbn [negb andb Z.eqb]. eexists _, _. split; [done|].
      apply (kept_added w0 s s1 p); try done. unfold default_of. by rewrite Epr, E0.
    - rewrite (proj2 (Z.eqb_neq _ _)), bool_decide_eq_false_2 by (lia || (intros E; rewrite E in Wg; by destruct Wg as [[[? ?] ?] ?])).
      cbn [negb andb].
      destruct (send_step RTM_ADD p (ifindex_of pr s) (Some (gateway_of pr s)) s1) as (ok & s' & E & Sm & Tk & To & _);
        [apply Hp|done|apply list_elem_of_here|lia|apply K|].
      exists ok, s'. split; [done|]. apply (kept_added w0 s s' p); try done.
      rewrite Tk. change (table s1 (route_key p)) with (table s (route_key p)). rewrite Ht. unfold next_entry, default_of.
      rewrite Epr, (proj2 (Z.eqb_neq (ifindex_of pr s) 0)) by lia. done. }
  destruct Hp as [(_ & Wp & _) _]. destruct (protocol (m_address p)) eqn:Epr; [| |done].
  - exact (Hcase _ eq_refl Wp).
  - exact (Hcase _ eq_refl Wp).
Qed.

(** The exclusion [p] taken out of the list and out of the table. *)
Lemma kept_removed w0 s s' p l :
  kept w0 s -> excludable w0 p -> NoDup l -> (forall q, q ∈ l <-> q ∈ m_exclusionRoutes s /\ q <> p) ->
  same_monitor (set_exclusions l s) s' -> table s' (route_key p) = None -> (forall k, k <> route_key p -> table s' k = table s k) ->
  kept w0 s'.
Proof.
  intros K [Wp Hp] Hnd Hl Sm Tk To. pose proof (kept_new _ _ K) as F. rewrite list.Forall_forall in F.
  assert (m_exclusionRoutes s' = l) as El by apply Sm.
  assert (forall pr, default_of s' pr = default_of s pr /\ ifindex_of pr s' = ifindex_of pr s /\ gateway_of pr s' = gateway_of pr s)
    as Ed by (intros pr; exact (default_of_same _ _ pr Sm)).
  split.
  - rewrite <- (kept_open _ _ K). apply Sm.
  - by rewrite El.
  - rewrite El. apply list.Forall_forall. intros q [Hq _]%Hl. by apply F.
  - intros pr. destruct (Ed pr) as (_ & -> & ->). apply K.
  - intros q Hq. rewrite El in Hq. apply Hl in Hq as [Hq Hne]. rewrite (proj1 (Ed _)), To; [by apply K|].
    intros E. apply Hne. by rewrite (route_key_inj q p (proj1 (F q Hq)) Wp E).
  - intros k Hk. rewrite El in Hk. destruct (decide (k = route_key p)) as [-> |Hne]; [by rewrite Tk, Hp|].
    rewrite To by done. apply K. intros q Hq E. destruct (decide (q = p)) as [-> |Hqp]; [done|]. apply (Hk q); [by apply Hl|done].
Qed.

Lemma index_range w0 s pr : kept w0 s -> 0 <= ifindex_of pr s < 2 ^ 16.
Proof. intros K. destruct (kept_defaults _ _ K pr) as [[-> _]|[? _]]; lia. Qed.

(** The request that takes an exclusion back, in any state with those defaults. *)
Lemma delete_exclusion_run w0 s s1 p :
  kept w0 s -> ip_wf p -> same_monitor (set_exclusions (m_exclusionRoutes s1) s) s1 -> mac_kernel s1 = mac_kernel s ->
  exists ok s', delete_exclusion p s1 = Ret (ok, s') /\ same_monitor s1 s' /\ table s' (route_key p) = None /\
    (forall k, k <> route_key p -> table s' k = table s k).
Proof.
  intros K Wp Sm Ek. pose proof Wp as (_ & Hpr & _).
  assert (delete_exclusion p s1 = rtmSendRoute RTM_DELETE p (ifindex_of (protocol (m_address p)) s1) None s1) as ->.
  { unfold delete_exclusion. by destruct (protocol (m_address p)). }
  destruct (default_of_same _ _ (protocol (m_address p)) Sm) as (_ & Ei & _). rewrite Ei.
  destruct (send_step RTM_DELETE p (ifindex_of (protocol (m_address p)) (set_exclusions (m_exclusionRoutes s1) s)) None s1)
    as (ok & s' & E & Sm' & Tk & To & _); [done|done|by apply list_elem_of_further, list_elem_of_here| | |].
  - pose proof (index_range w0 s (protocol (m_address p)) K). by destruct (protocol (m_address p)).
  - rewrite <- (kept_open _ _ K). apply Sm.
  - exists ok, s'. split; [done|]. split; [done|]. split; [by rewrite Tk|]. intros k Hk. by rewrite To, Ek.
Qed.

Lemma kept_deleted w0 s p : kept w0 s -> excludable w0 p -> exists ok s', mac_deleteExclusionRoute p s = Ret (ok, s') /\ kept w0 s'.
Proof.
  intros K Hp. unfold mac_deleteExclusionRoute, rbind, rlift, modify.
  set (l := filter (λ q, q <> p) (m_exclusionRoutes s)).
  destruct (delete_exclusion_run w0 s (set_exclusions l s) p K (proj1 Hp)) as (ok & s' & E & Sm & Tk & To); [done|done|].
  exists ok, s'. split; [exact E|]. apply (kept_removed w0 s s' p l); try done.
  - apply list.NoDup_filter, K.
  - intros q. unfold l. rewrite list_elem_of_filter. tauto.
Qed.

Lemma kept_flush_loop w0 l : forall s, kept w0 s -> m_exclusionRoutes s = l ->
  exists s', flush_loop l s = Ret (tt, s') /\ kept w0 s' /\ m_exclusionRoutes s' = [].
Proof.
  induction l as [|p l IH]; intros s K El; [by exists s|]. cbn [flush_loop]. unfold rbind, rlift, modify.
  pose proof (kept_new _ _ K) as F. rewrite El in F. apply list.Forall_cons in F as [Hp F].
  pose proof (kept_nodup _ _ K) as Hnd. rewrite El in Hnd. apply list.NoDup_cons in Hnd as [Hpl Hnd].
  destruct (delete_exclusion_run w0 s (set_exclusions l s) p K (proj1 Hp)) as (ok & s' & E & Sm & Tk & To); [done|done|].
  rewrite E. apply IH.
  - apply (kept_removed w0 s s' p l); try done. intros q. rewrite El, elem_of_cons. naive_solver.
  - apply Sm.
Qed.

Definition set_default (pr : NetworkLayerProtocol) (gw : list Z) (i : Z) s : MacosRouteMonitor W :=
  match pr with IPv4Protocol => set_default4 gw i s | IPv6Protocol => set_default6 gw i s | _ => s end.

(** A new default route of a family, or none, given to the exclusions of it. *)
Lemma kept_redirected w0 s pr gw i action index gateway :
  kept w0 s -> pr <> UnknownNetworkLayerProtocol -> default_ok i gw -> gateway_ok gateway -> 0 <= index < 2 ^ 16 ->
  action ∈ [RTM_ADD; RTM_DELETE; RTM_CHANGE] ->
  next_entry action index gateway (default_of s pr) = default_of (set_default pr gw i s) pr ->
  exists s', each_exclusion pr (λ prefix, rtmSendRoute action prefix index gateway) (set_default pr gw i s) = Ret (tt, s') /\ kept w0 s'.
Proof.
  intros K Hpr Hd Hg Hi Ha Hnext. set (s1 := set_default pr gw i s) in *. pose proof (kept_wf _ _ K) as Fw.
  assert (m_exclusionRoutes s1 = m_exclusionRoutes s /\ mac_kernel s1 = mac_kernel s /\ m_rtsock s1 = m_rtsock s) as (E1 & E2 & E3)
    by (by destruct pr).
  destruct (send_loop action index gateway pr (m_exclusionRoutes s1) s1) as (s' & E & Sm & Tk & To);
    [done..|by rewrite E3; apply K|by rewrite E1; apply K|by rewrite E1|].
  exists s'. split; [exact E|]. assert (m_exclusionRoutes s' = m_exclusionRoutes s) as El by (rewrite <- E1; apply Sm).
  assert (forall pr', default_of s' pr' = default_of s1 pr' /\ ifindex_of pr' s' = ifindex_of pr' s1 /\ gateway_of pr' s' = gateway_of pr' s1)
    as Ed by (intros pr'; exact (default_of_same _ _ pr' Sm)).
  rewrite E1 in Tk, To. rewrite E2 in Tk, To. rewrite list.Forall_forall in Fw. split.
  - rewrite <- (kept_open _ _ K), <- E3. apply Sm.
  - rewrite El. apply K.
  - rewrite El. apply K.
  - intros pr'. destruct (Ed pr') as (_ & -> & ->). pose proof (kept_defaults _ _ K pr') as Hd'. unfold s1.
    destruct pr, pr'; try exact Hd'; try exact Hd; done.
  - intros p Hp. rewrite El in Hp. rewrite (proj1 (Ed _)). destruct (decide (protocol (m_address p) = pr)) as [Ep|Ep].
    + rewrite Tk by done. rewrite (kept_routes _ _ K p Hp), Ep. exact Hnext.
    + rewrite To.
      * rewrite (kept_routes _ _ K p Hp). unfold s1, default_of. by destruct pr, (protocol (m_address p)).
      * intros q Hq Eq Ekey. apply Ep. by rewrite (route_key_inj p q (Fw p Hp) (Fw q Hq) Ekey).
  - intros k Hk. rewrite El in Hk. rewrite To; [by apply K|]. intros p Hp _. by apply Hk.
Qed.

(** A message of the kernel: whole, with a destination of a known family, a mask that
    fits its family and a gateway and an interface when it is about a route. *)
Definition note_ok (m : list Z) : Prop :=
  let addrs := parseAddrList (drop 92 m) in
  message_wf m /\ 0 <= rtm_index m < 2 ^ 16 /\
  (has_addrs m addrs = true ->
   (exists b, default_netmask (addr_at 2 addrs) = Ret b) /\ gateway_ok (Some (addr_at 1 addrs)) /\
   (forall i, update_ifindex m addrs = Some i -> 0 < i < 2 ^ 16) /\
   (rtm_type m = RTM_DELETE -> sa_family (addr_at 0 addrs) = AF_INET \/ sa_family (addr_at 0 addrs) = AF_INET6)).

Lemma known_default s pr gw i : pr <> UnknownNetworkLayerProtocol ->
  default_of (set_default pr gw i s) pr = if i =? 0 then None else Some (i, trimmed gw).
Proof. by destruct pr. Qed.

Lemma kept_updated w0 s m :
  kept w0 s -> note_ok m -> exists s', handleRtmUpdate m (drop 92 m) s = Ret (tt, s') /\ kept w0 s'.
Proof.
  intros K (_ & Hix & Hn). unfold handleRtmUpdate. set (addrs := parseAddrList (drop 92 m)) in *.
  destruct (has_addrs m addrs); cbn [negb]; [|by exists s]. destruct Hn as ((b & Eb) & Hg & Hup & _); [done|].
  case_match; [by exists s|]. case_match; [by exists s|]. case_match; [by exists s|].
  destruct (update_ifindex m addrs) as [i|]; [|by exists s]. specialize (Hup i eq_refl). rewrite Eb. destruct b; [|by exists s].
  assert (forall pr, pr <> UnknownNetworkLayerProtocol -> exists s',
    each_exclusion pr (λ prefix, rtmSendRoute (if ifindex_of pr s =? 0 then RTM_ADD else RTM_CHANGE) prefix i (Some (addr_at 1 addrs)))
      (set_default pr (addr_at 1 addrs) i s) = Ret (tt, s') /\ kept w0 s') as Hr.
  { intros pr Hpr. apply kept_redirected; [done|done|by right|done|lia|case_match; by apply (bool_decide_unpack _)|].
    rewrite known_default, (proj2 (Z.eqb_neq i 0)) by (done || lia). unfold default_of. by destruct (ifindex_of pr s =? 0). }
  case_match; [by apply (Hr IPv4Protocol)|]. case_match; [by apply (Hr IPv6Protocol)|by exists s].
Qed.

Lemma kept_lost w0 s m :
  kept w0 s -> note_ok m -> rtm_type m = RTM_DELETE -> exists s', handleRtmDelete m (drop 92 m) s = Ret (tt, s') /\ kept w0 s'.
Proof.
  intros K (_ & Hix & Hn) Ht. unfold handleRtmDelete. set (addrs := parseAddrList (drop 92 m)) in *.
  case_match; [by exists s|]. destruct (has_addrs m addrs); cbn [negb]; [|by exists s].
  destruct Hn as ((b & Eb) & Hg & _ & Hf); [done|]. specialize (Hf Ht).
  case_match; [by exists s|]. rewrite Eb. destruct b; [|by exists s].
  assert (forall pr, pr <> UnknownNetworkLayerProtocol -> exists s',
    each_exclusion pr (λ prefix, rtmSendRoute RTM_DELETE prefix (rtm_index m) None) (set_default pr [] 0 s) = Ret (tt, s') /\ kept w0 s') as Hr.
  { intros pr Hpr. apply kept_redirected; [done|done|by left|done|lia|by apply (bool_decide_unpack _)|].
    by rewrite known_default. }
  destruct Hf as [-> | ->]; [by apply (Hr IPv4Protocol)|by apply (Hr IPv6Protocol)].
Qed.

Lemma kept_message w0 s m : kept w0 s -> note_ok m -> exists s', handle_message m s = Ret (tt, s') /\ kept w0 s'.
Proof.
  intros K Hm. unfold handle_message. change (Z.to_nat sizeof_rt_msghdr) with 92%nat.
  case_match; [by apply kept_updated|]. destruct (Z.eqb_spec (rtm_type m) RTM_DELETE); [by apply kept_lost|].
  case_match; [|by exists s]. unfold handleIfaceInfo. case_match; [|by exists s].
  eexists. split; [done|]. destruct K. by split.
Qed.

Lemma kept_messages w0 ms : forall s, kept w0 s -> Forall note_ok ms -> exists s', run_each ms handle_message s = Ret (tt, s') /\ kept w0 s'.
Proof.
  induction ms as [|m ms IH]; intros s K Hm; [by exists s|]. apply list.Forall_cons in Hm as [Hm Hms].
  cbn [run_each]. unfold rbind. destruct (kept_message w0 s m K Hm) as (s1 & -> & K1). by apply IH.
Qed.

Lemma fetched family seq :
  family = AF_INET \/ family = AF_INET6 -> seq = 0 \/ seq = 1 ->
  exists rtm r, fetch_request family seq = Ret (Some rtm) /\
    decode_rtm (take (Z.to_nat (rtm_msglen rtm)) rtm) = Some r /\ rr_action r = RTM_GET.
Proof.
  intros [-> | ->] [-> | ->]; (eexists _, _; split; [vm_compute; reflexivity|split; [vm_compute; reflexivity|done]]).
Qed.

Lemma fetch_routes family seq s :
  family = AF_INET \/ family = AF_INET6 -> seq = 0 \/ seq = 1 -> m_rtseq s = seq -> m_rtsock s = true ->
  exists ok s', rtmFetchRoutes family s = Ret (ok, s') /\ same_monitor s s' /\ m_rtseq s' = seq + 1 /\ forall k, table s' k = table s k.
Proof.
  intros Hf Hq Es Hs. unfold rtmFetchRoutes. rewrite Es.
  replace (u32 seq) with seq by (destruct Hq as [-> | ->]; done).
  destruct (fetched family seq Hf Hq) as (rtm & r & -> & D & A). pose proof (get_law _ r (mac_kernel s) D A) as G.
  unfold rtm_write. rewrite Hs. destruct (rt_write _ (mac_kernel s)) as [[len errno] w]. eexists _, _. split; [done|].
  split; [done|]. split; [|exact G]. cbn. rewrite Es. destruct Hq as [-> | ->]; done.
Qed.

Lemma kept_new_monitor ifname w0 :
  (rt_socket w0).1 = true -> exists s, MacosRouteMonitor_new ifname w0 = Ret (tt, s) /\ kept w0 s.
Proof.
  intros Ho. unfold MacosRouteMonitor_new. pose proof (socket_law w0) as L. destruct (rt_socket w0) as [b w]. cbn in Ho, L. subst b.
  cbn [negb]. set (s := mkMac _ _ _ _ _ _ _ _ _ _ _).
  destruct (fetch_routes AF_INET 0 s) as (ok1 & s1 & E1 & Sm1 & Q1 & T1); [by left|by left|done|done|].
  destruct (fetch_routes AF_INET6 1 s1) as (ok2 & s2 & E2 & Sm2 & Q2 & T2); [by right|by right|done|exact (proj2 (proj2 (proj2 (proj2 (proj2 (proj2 (proj2 Sm1)))))))|].
  exists s2. unfold rbind. rewrite E1, E2. split; [done|]. pose proof (same_monitor_trans _ _ _ Sm1 Sm2) as Sm.
  assert (m_exclusionRoutes s2 = []) as El by apply Sm.
  split; rewrite ?El; [exact (proj2 (proj2 (proj2 (proj2 (proj2 (proj2 (proj2 Sm)))))))|constructor|constructor| |
    by intros p []%not_elem_of_nil|].
  - intros pr. destruct (default_of_same _ _ pr Sm) as (_ & -> & ->). left. by destruct pr.
  - intros k _. rewrite T2, T1. apply L.
Qed.

(** What happens to a monitor: requests of the daemon, and octets of the kernel. *)
Inductive MacEvent :=
| ExAdd (p : IPAddress)
| ExDelete (p : IPAddress)
| ExFlush
| ExNotes (ms : list (list Z)) (rest : list Z).

Definition mac_event (e : MacEvent) : Run (MacosRouteMonitor W) unit :=
  match e with
  | ExAdd p => do! mac_addExclusionRoute p in rret tt
  | ExDelete p => do! mac_deleteExclusionRoute p in rret tt
  | ExFlush => mac_flushExclusionRoutes
  | ExNotes ms rest => rtsockReady (concat ms ++ rest) (Z.of_nat (length (concat ms)))
  end.
Definition event_ok (w0 : W) (e : MacEvent) : Prop :=
  match e with
  | ExAdd p | ExDelete p => excludable w0 p
  | ExFlush => True
  | ExNotes ms _ => Forall note_ok ms /\ (length (concat ms) <= 1024)%nat
  end.

Lemma kept_event w0 s e : kept w0 s -> event_ok w0 e -> exists s', mac_event e s = Ret (tt, s') /\ kept w0 s'.
Proof.
  intros K He. destruct e as [p|p| |ms rest]; cbn [mac_event event_ok] in *; unfold rbind.
  - destruct (kept_add w0 s p K He) as (ok & s' & -> & K'). by exists s'.
  - destruct (kept_deleted w0 s p K He) as (ok & s' & -> & K'). by exists s'.
  - destruct (kept_flush_loop w0 _ s K eq_refl) as (s' & E & K' & _). by exists s'.
  - destruct He as [Hm Hl]. rewrite messages_in_order; [by apply kept_messages| |done].
    eapply list.Forall_impl; [exact Hm|]. by intros m [? _].
Qed.

Lemma kept_events w0 es : forall s, kept w0 s -> Forall (event_ok w0) es -> exists s', run_each es mac_event s = Ret (tt, s') /\ kept w0 s'.
Proof.
  induction es as [|e es IH]; intros s K He; [by exists s|]. apply list.Forall_cons in He as [He Hes].
  cbn [run_each]. unfold rbind. destruct (kept_event w0 s e K He) as (s1 & -> & K1). by apply IH.
Qed.

(** C7. On macOS, whatever exclusions are asked for and taken back and whatever well-formed
    messages the kernel sends, in whatever pieces: every excluded prefix is routed along
    the default route the monitor knows of its family and has no route while it knows
    none, no other route changes, and destroying the monitor leaves the routing table as
    it was when the monitor was created. The kernel carries out the messages it takes
    ([RouteSocketLaws]). *)
Theorem macos_exclusions_kept ifname w0 es :
  (rt_socket w0).1 = true -> Forall (event_ok w0) es ->
  exists s0 s, MacosRouteMonitor_new ifname w0 = Ret (tt, s0) /\ run_each es mac_event s0 = Ret (tt, s) /\
    (forall p, p ∈ m_exclusionRoutes s -> table s (route_key p) = default_of s (protocol (m_address p))) /\
    (forall k, (forall p, p ∈ m_exclusionRoutes s -> k <> route_key p) -> table s k = rt_table w0 k) /\
    exists s', MacosRouteMonitor_delete s = Ret (tt, s') /\ forall k, table s' k = rt_table w0 k.
Proof.
  intros Ho He. destruct (kept_new_monitor ifname w0 Ho) as (s0 & E0 & K0). destruct (kept_events w0 es s0 K0 He) as (s & E & K).
  exists s0, s. split; [done|]. split; [done|]. split; [apply K|]. split; [apply K|].
  destruct (kept_flush_loop w0 _ s K eq_refl) as (s1 & E1 & K1 & El). unfold MacosRouteMonitor_delete, mac_flushExclusionRoutes, rbind, rlift.
  rewrite E1, (kept_open _ _ K1). pose proof (close_law (mac_kernel s1)) as L. destruct (rt_close (mac_kernel s1)) as [[] w].
  eexists. split; [done|]. intros k. etrans; [apply L|]. apply (kept_others _ _ K1). rewrite El. by intros p []%not_elem_of_nil.
Qed.
End Kernel.

(** C21. Every request of the monitor for a well-formed prefix is one write of a message that
    decodes, as the kernel reads it, to the action, the interface, the prefix, a mask of
    exactly its length and the gateway, when one is given; the request succeeds exactly
    when the message was taken, or the route to be added was there, or the one to be
    deleted was not. *)
Theorem macos_requests_exact `{RouteSocket W} action p index gateway (s : MacosRouteMonitor W) :
  ip_wf p -> gateway_ok gateway -> 0 <= action < 256 -> 0 <= index < 2 ^ 16 -> m_rtsock s = true ->
  exists bytes mask,
    decode_rtm bytes = Some (mkRtRequest action index (request_flags gateway) (u32 (m_rtseq s)) (request_addrs p gateway)) /\
    route_mask p = (match m_address p with IPv6Address _ => sockaddr_in6 mask | _ => sockaddr_in mask end) /\
    addr_bits (octets_address mask) = mask_bits (addr_width (m_address p)) (m_prefixLength p) /\
    let '((len, errno), w) := rt_write bytes (mac_kernel s) in
    rtmSendRoute action p index gateway s = Ret (accepted action len errno bytes, set_sent (s32 (m_rtseq s + 1)) w s).
Proof.
  intros Wp Wg Wa Wi Hs. destruct (send_request action p index gateway s Wp Wg Wa Wi Hs) as (bytes & D & E). exists bytes.
  destruct p as [[|a|l] n]; destruct Wp as (_ & Hp & Hn); cbn [m_address m_prefixLength addr_width] in *; [done|..].
  - exists (netmask4 n). split; [done|]. split; [done|]. split; [|done]. by apply netmask4_bits.
  - destruct (netmask6_bits n) as (mask & Em & _ & B); [done|]. exists mask. split; [done|]. split; [|done].
    unfold route_mask. cbn [m_address m_prefixLength]. by rewrite Em.
Qed.

(** ** A simulated kernel *)
Record SimRoutes := mkSimRoutes { sim_table : list Z * list Z -> option (Z * list Z) }.
#[export] Instance sim_route_table : RouteTable SimRoutes := sim_table.
Definition sim_write (bytes : list Z) (w : SimRoutes) : (Z * Z) * SimRoutes :=
  match decode_rtm bytes with
  | Some r =>
      match addr_of RTA_DST (rr_addrs r), addr_of RTA_NETMASK (rr_addrs r) with
      | Some dst, Some mask =>
          if rr_action r =? RTM_GET then ((Z.of_nat (length bytes), 0), w)
          else
            match kernel_step r (sim_table w (dst, mask)) with
            | inl e => ((-1, e), w)
            | inr new =>
                ((Z.of_nat (length bytes), 0),
                 mkSimRoutes (λ k, if bool_decide (k = (dst, mask)) then new else sim_table w k))
            end
      | _, _ => ((Z.of_nat (length bytes), 0), w)
      end
  | None => ((-1, 22), w)
  end.
#[export] Instance sim_route_socket : RouteSocket SimRoutes := {
  rt_socket w := (true, w);
  rt_write := sim_write;
  rt_close w := (tt, w);
  rt_nametoindex _ _ := 9;
  rt_getpid := 4242;
  protocol_on_stack := UnknownNetworkLayerProtocol
}.
#[export] Instance sim_route_laws : RouteSocketLaws SimRoutes.
Proof.
  split; try done.
  - intros bytes r dst mask w D A Ed Em. unfold rt_write, sim_route_socket, sim_write, rt_table, sim_route_table. rewrite D, Ed, Em.
    rewrite (proj2 (Z.eqb_neq _ _)) by (intros E; rewrite E in A; by apply (bool_decide_pack _) in A).
    destruct (kernel_step r (sim_table w (dst, mask))) as [e|new]; [done|]. cbn. split; [|by rewrite bool_decide_eq_true_2].
    intros k Hk. by rewrite bool_decide_eq_false_2.
  - intros bytes r w D A k. cbn. unfold sim_write. rewrite D. repeat case_match; try done. by rewrite A in *.
Qed.

(** The kernel reports the default route over 192.168.1.1 on the interface 5. *)
Definition sample_gateway : list Z := sockaddr_in [192; 168; 1; 1].
Definition sample_note : list Z :=
  rt_hdr 128 RTM_ADD 5 (Z.lor RTF_UP RTF_GATEWAY) 7 0 ++ concat [sockaddr_in (replicate 4 0); sample_gateway; replicate 4 0].
Definition sample_prefix : IPAddress := mkIPAddress (IPv4Address 3405803776) 24.
Definition no_routes : SimRoutes := mkSimRoutes (λ _, None).

Lemma sample_note_ok : note_ok sample_note.
Proof.
  unfold note_ok. split; [split; [by apply (bool_decide_unpack _)|done]|]. split; [by vm_compute|]. intros _.
  split; [exists true; by vm_compute|]. split; [by vm_compute|]. split; [|done]. intros i E. vm_compute in E. injection E as <-. lia.
Qed.

Lemma macos_exclusions_kept_witness :
  exists s0 s, MacosRouteMonitor_new "utun3" no_routes = Ret (tt, s0) /\
    run_each [ExNotes [sample_note] []; ExAdd sample_prefix] mac_event s0 = Ret (tt, s) /\
    exists s', MacosRouteMonitor_delete s = Ret (tt, s') /\ forall k, rt_table (mac_kernel s') k = None.
Proof.
  destruct (macos_exclusions_kept "utun3" no_routes [ExNotes [sample_note] []; ExAdd sample_prefix]) as (s0 & s & E0 & E & _ & _ & D).
  - reflexivity.
  - constructor; [split; [constructor; [exact sample_note_ok|constructor]|by apply (bool_decide_unpack _)]|].
    constructor; [|constructor]. split; [by apply (bool_decide_unpack _)|reflexivity].
  - exists s0, s. split; [exact E0|]. split; [exact E|]. exact D.
Defined.

Lemma macos_requests_exact_witness :
  let s := mkMac [] [] [] 0 0 "utun3" 9 0 true 3 no_routes in
  exists bytes, decode_rtm bytes = Some (mkRtRequest RTM_ADD 5 2051 3
    [(RTA_DST, sockaddr_in [203; 0; 113; 0]); (RTA_GATEWAY, sample_gateway); (RTA_NETMASK, sockaddr_in [255; 255; 255; 0])]) /\
    exists s', rtmSendRoute RTM_ADD sample_prefix 5 (Some sample_gateway) s = Ret (true, s').
Proof.
  intros s. destruct (macos_requests_exact RTM_ADD sample_prefix 5 (Some sample_gateway) s) as (bytes & mask & D & _ & _ & _);
    [by apply (bool_decide_unpack _)|by vm_compute|by vm_compute|lia|reflexivity|].
  exists bytes. split; [exact D|]. eexists. vm_compute. reflexivity.
Defined.
