(* ===== verification/MacosFirewall.v ===== *)
(** * The kill switch of macOS

    Model of [MacOSFirewall] (client/platforms/macos/daemon/macosfirewall.cpp), whose
    calls are lines for bash, of [WireguardUtilsMacos::applyFirewallRules], and of the
    rule files of its anchors (deploy/data/macos/Resources/pf). What a line does is the
    documented behaviour of pfctl; how pf decides a packet, the last matching rule or
    the first quick one, is the specification. *)
From Stdlib Require Import ZArith Lia Ascii String.
From stdpp Require Import base list option strings.
From S2P Require Import Prelude HostAddress QtString IpAddress LinuxFirewall LinuxKillSwitch.
Local Open Scope string_scope.

(** ** The lines given to bash *)
(** Running a line: its exit code. [app_dir] is [qApp->applicationDirPath()]. *)
Class BashHost (H : Type) := {
  bash : string -> StateM H Z;
  app_dir : string
}.

Definition dq : string := String (ascii_of_nat 34) "".
Definition kRootAnchor : string := "amn".
Definition DaemonDataDir : string := "/Library/Caches/com.zloserver.vpn".

Section Lines.
Variable ResourceDir : string.

Definition nat_anchors_line : string :=
  "( pfctl -sn | grep -v '" +:+ kRootAnchor +:+ "/*'; echo 'nat-anchor " +:+ dq +:+ kRootAnchor +:+ "/*" +:+ dq +:+
  "'; echo 'rdr-anchor " +:+ dq +:+ kRootAnchor +:+ "/*" +:+ dq +:+ "'; echo 'load anchor " +:+ dq +:+ kRootAnchor +:+ dq +:+
  " from " +:+ dq +:+ ResourceDir +:+ "/" +:+ kRootAnchor +:+ ".conf" +:+ dq +:+ "'; ) | pfctl -N -f -".
Definition filter_anchor_line : string :=
  "( pfctl -sr | grep -v '" +:+ kRootAnchor +:+ "/*'; echo 'anchor " +:+ dq +:+ kRootAnchor +:+ "/*" +:+ dq +:+
  "'; echo 'load anchor " +:+ dq +:+ kRootAnchor +:+ dq +:+ " from " +:+ dq +:+ ResourceDir +:+ "/" +:+ kRootAnchor +:+
  ".conf" +:+ dq +:+ "';  ) | pfctl -R -f -".
Definition legacy_line : string :=
  "if grep -Fq '" +:+ kRootAnchor +:+ "' /etc/pf.conf ; then echo " +:+ dq +:+ "`cat /etc/pf.conf | grep -vF '" +:+ kRootAnchor +:+
  "'`" +:+ dq +:+ " > /etc/pf.conf ; fi".
Definition enable_pf_line : string :=
  "pfctl -E 2>&1 | grep -F 'Token : ' | cut -c9- > '" +:+ DaemonDataDir +:+ "/pf.token'".
Definition flush_root_line : string := "pfctl -q -a '" +:+ kRootAnchor +:+ "' -F all".
Definition release_pf_line : string :=
  "test -f '" +:+ DaemonDataDir +:+ "/pf.token' && pfctl -X `cat '" +:+ DaemonDataDir +:+ "/pf.token'` && rm '" +:+ DaemonDataDir +:+ "/pf.token'".
Definition reload_line : string := "test -f /etc/pf.conf && pfctl -F all -f /etc/pf.conf".
Definition pf_enabled_line : string :=
  "test -s '" +:+ DaemonDataDir +:+ "/pf.token' && pfctl -s References | grep -qFf '" +:+ DaemonDataDir +:+ "/pf.token'".
Definition priority_line : string :=
  "if ! pfctl -sr | tail -1 | grep -qF '" +:+ kRootAnchor +:+ "'; then echo -e " +:+ dq +:+ "$(pfctl -sr | grep -vF '" +:+ kRootAnchor +:+
  "')\n" +:+ dq +:+ "'anchor " +:+ dq +:+ kRootAnchor +:+ dq +:+ "' | pfctl -f - ; fi".
Definition root_loaded_line : string :=
  "pfctl -sr | grep -q '" +:+ kRootAnchor +:+ "' && pfctl -q -a '" +:+ kRootAnchor +:+ "' -s rules 2> /dev/null | grep -q .".
Definition anchor_path (anchor : string) : string := kRootAnchor +:+ "/" +:+ anchor.
Definition enable_line (anchor : string) : string :=
  "if pfctl -q -a '" +:+ anchor_path anchor +:+ "' -s rules 2> /dev/null | grep -q . ; then echo '" +:+ anchor +:+ ": ON' ; else echo '" +:+
  anchor +:+ ": OFF -> ON' ; pfctl -q -a '" +:+ anchor_path anchor +:+ "' -F all -f '" +:+ ResourceDir +:+ "/" +:+ kRootAnchor +:+ "." +:+
  anchor +:+ ".conf' ; fi".
Definition disable_line (anchor : string) : string :=
  "if ! pfctl -q -a '" +:+ anchor_path anchor +:+ "' -s rules 2> /dev/null | grep -q . ; then echo '" +:+ anchor +:+ ": OFF' ; else echo '" +:+
  anchor +:+ ": ON -> OFF' ; pfctl -q -a '" +:+ anchor_path anchor +:+ "' -F all ; fi".
Definition anchor_enabled_line (anchor : string) : string :=
  "pfctl -q -a '" +:+ anchor_path anchor +:+ "' -s rules 2> /dev/null | grep -q .".
Definition table_prefix (anchor table : string) : string :=
  "pfctl -q -a '" +:+ anchor_path anchor +:+ "' -t '" +:+ table +:+ "' -T ".
Definition replace_line (anchor table : string) (items : list string) : string :=
  table_prefix anchor table +:+ "replace " +:+ join " " items.
Definition kill_line (anchor table : string) : string := table_prefix anchor table +:+ "kill".
Definition flush_rules_line (anchor : string) : string := "pfctl -q -a '" +:+ anchor_path anchor +:+ "' -F rules".
Definition load_rules_line (anchor : string) (rules : list string) : string :=
  "echo -e " +:+ dq +:+ join (String "010" "") rules +:+ dq +:+ " | pfctl -q -a '" +:+ anchor_path anchor +:+ "' -f -".
End Lines.

(** ** MacOSFirewall *)
Section Firewall.
Context {H : Type} `{BashHost H}.

Definition ResourceDir : string := app_dir +:+ "/../Resources/pf".

(** [execute]; [ignoreErrors] only decides what is logged. *)
Definition mac_execute (command : string) (ignoreErrors : bool) : StateM H Z := bash command.

Definition installRootAnchors : StateM H unit :=
  mac_execute (nat_anchors_line ResourceDir) false ;;
  mac_execute (filter_anchor_line ResourceDir) false ;;
  sret tt.
Definition mac_uninstall : StateM H unit :=
  mac_execute flush_root_line false ;;
  mac_execute release_pf_line false ;;
  mac_execute reload_line false ;;
  sret tt.
Definition mac_install : StateM H unit :=
  mac_execute legacy_line false ;;
  mac_uninstall ;;
  installRootAnchors ;;
  mac_execute enable_pf_line false ;;
  sret tt.

Definition isPFEnabled : StateM H bool := code <- mac_execute pf_enabled_line true ;; sret (code =? 0)%Z.
Definition isRootAnchorLoaded : StateM H bool := code <- mac_execute root_loaded_line true ;; sret (code =? 0)%Z.
Definition mac_isInstalled : StateM H bool :=
  enabled <- isPFEnabled ;;
  if enabled then isRootAnchorLoaded else sret false.
Definition isPartiallyInstalled : StateM H bool :=
  installed <- mac_isInstalled ;;
  if installed then sret false
  else enabled <- isPFEnabled ;; if enabled then sret true else isRootAnchorLoaded.

Definition mac_ensureRootAnchorPriority : StateM H unit := mac_execute priority_line false ;; sret tt.
Definition mac_enableAnchor (anchor : string) : StateM H unit := mac_execute (enable_line ResourceDir anchor) false ;; sret tt.
Definition mac_disableAnchor (anchor : string) : StateM H unit := mac_execute (disable_line anchor) false ;; sret tt.
Definition isAnchorEnabled (anchor : string) : StateM H bool :=
  code <- mac_execute (anchor_enabled_line anchor) true ;; sret (code =? 0)%Z.
Definition mac_setAnchorEnabled (anchor : string) (enabled : bool) : StateM H unit :=
  if enabled then mac_enableAnchor anchor else mac_disableAnchor anchor.
Definition setAnchorTable (anchor : string) (enabled : bool) (table : string) (items : list string) : StateM H unit :=
  (if enabled then mac_execute (replace_line anchor table items) false
   else mac_execute (kill_line anchor table) true) ;;
  sret tt.
Definition setAnchorWithRules (anchor : string) (enabled : bool) (ruleList : list string) : StateM H unit :=
  (if negb enabled then mac_execute (flush_rules_line anchor) true
   else mac_execute (load_rules_line anchor ruleList) true) ;;
  sret tt.

(** [WireguardUtilsMacos::applyFirewallRules] *)
Definition mac_applyFirewallRules (params : FirewallParams) : StateM H unit :=
  installed <- mac_isInstalled ;;
  (if negb installed then mac_install else sret tt) ;;
  mac_ensureRootAnchorPriority ;;
  mac_setAnchorEnabled "000.allowLoopback" true ;;
  mac_setAnchorEnabled "100.blockAll" (blockAll params) ;;
  mac_setAnchorEnabled "110.allowNets" (allowNets params) ;;
  setAnchorTable "110.allowNets" (allowNets params) "allownets" (allowAddrs params) ;;
  mac_setAnchorEnabled "120.blockNets" (blockNets params) ;;
  setAnchorTable "120.blockNets" (blockNets params) "blocknets" (blockAddrs params) ;;
  mac_setAnchorEnabled "200.allowVPN" true ;;
  mac_setAnchorEnabled "250.blockIPv6" true ;;
  mac_setAnchorEnabled "290.allowDHCP" true ;;
  mac_setAnchorEnabled "300.allowLAN" true ;;
  mac_setAnchorEnabled "310.blockDNS" true ;;
  setAnchorTable "310.blockDNS" true "dnsaddr" (dnsServers params).
End Firewall.

(** ** Rules and packets of pf *)
Inductive PfProto := PfTcp | PfUdp | PfOther.
#[export] Instance PfProto_eq_dec : EqDecision PfProto.
Proof. solve_decision. Defined.
Inductive PfTo := ToAny | ToTable (table : string) | ToNet (net : string).
Record PfRule := mkPfRule {
  r_pass : bool;
  r_quick : bool;
  r_on : list string;                          (* any interface when empty *)
  r_family : option NetworkLayerProtocol;
  r_protos : list PfProto;                     (* any protocol when empty *)
  r_sport : option Z;
  r_to : PfTo;
  r_dport : option Z
}.
Record PfPacket := mkPfPacket {
  pk_on : string; pk_proto : PfProto; pk_sport : Z; pk_dst : QHostAddress; pk_dport : Z
}.

(** The rules and the tables of a file. *)
Record PfFile := mkPfFile { f_rules : list PfRule; f_tables : list (string * list string) }.

Definition plain_rule (pass : bool) (to : PfTo) : PfRule := mkPfRule pass false [] None [] None to None.
Definition utunInterfaces : list string := map (λ n, "utun" +:+ number (Z.of_nat n)) (seq 0 31).
Definition lan_ips : list string :=
  ["10.0.0.0/8"; "169.254.0.0/16"; "172.16.0.0/12"; "192.168.0.0/16"; "224.0.0.0/4"; "255.255.255.255/32"; "fc00::/7"; "fe80::/10"; "ff00::/8"].

Definition allowLoopback_conf : PfFile := mkPfFile [mkPfRule true true ["lo0"] None [] None ToAny None] [].
Definition blockAll_conf : PfFile := mkPfFile [plain_rule false ToAny] [].
Definition allowNets_conf : PfFile := mkPfFile [plain_rule true (ToTable "allownets")] [("allownets", [])].
Definition blockNets_conf : PfFile := mkPfFile [plain_rule false (ToTable "blocknets")] [("blocknets", [])].
Definition allowVPN_conf : PfFile := mkPfFile [mkPfRule true false utunInterfaces None [] None ToAny None] [].
Definition blockIPv6_conf : PfFile := mkPfFile [mkPfRule false false [] (Some IPv6Protocol) [] None ToAny None] [].
Definition allowDHCP_conf : PfFile := mkPfFile
  [mkPfRule true false [] (Some IPv4Protocol) [PfUdp] (Some 68%Z) (ToNet "255.255.255.255") (Some 67%Z);
   mkPfRule true false [] (Some IPv6Protocol) [PfUdp] (Some 546%Z) (ToNet "ff00::/8") (Some 547%Z)] [].
Definition allowLAN_conf : PfFile := mkPfFile [plain_rule true (ToTable "lanips")] [("lanips", lan_ips)].
Definition blockDNS_conf : PfFile := mkPfFile
  [mkPfRule false false [] None [PfTcp; PfUdp] None ToAny (Some 53%Z);
   mkPfRule true false [] None [PfTcp; PfUdp] None (ToTable "dnsaddr") (Some 53%Z)] [("dnsaddr", [])].

Definition anchor_files : list (string * PfFile) :=
  [("000.allowLoopback", allowLoopback_conf); ("100.blockAll", blockAll_conf); ("110.allowNets", allowNets_conf);
   ("120.blockNets", blockNets_conf); ("200.allowVPN", allowVPN_conf); ("250.blockIPv6", blockIPv6_conf);
   ("290.allowDHCP", allowDHCP_conf); ("300.allowLAN", allowLAN_conf); ("310.blockDNS", blockDNS_conf)].

(** ** How pf decides *)
(** The main ruleset: rules of others, and the place of the anchors under amn. *)
Inductive MainItem := OtherRule (r : PfRule) | AmnAnchor.
#[export] Instance PfTo_eq_dec : EqDecision PfTo.
Proof. solve_decision. Defined.
#[export] Instance PfRule_eq_dec : EqDecision PfRule.
Proof. solve_decision. Defined.

Record PfState := mkPfState {
  pf_referenced : bool;                        (* pf runs on account of the service *)
  pf_others : bool;                            (* pf runs on account of others *)
  pf_main : list MainItem;
  pf_conf : list MainItem;                     (* /etc/pf.conf *)
  pf_root : bool;                              (* the anchor amn has its sub-anchors *)
  pf_rules : string -> list PfRule;            (* of a sub-anchor *)
  pf_tables : string -> string -> list string  (* of a sub-anchor *)
}.

Section Decision.
Context `{AddressParser}.

Definition in_nets (nets : list string) (a : QHostAddress) : bool := existsb (λ n, contains (fromString n) a) nets.

Definition pf_matches (tables : string -> list string) (r : PfRule) (p : PfPacket) : bool :=
  (bool_decide (r_on r = []) || bool_decide (pk_on p ∈ r_on r)) &&
  match r_family r with None => true | Some f => bool_decide (protocol (pk_dst p) = f) end &&
  (bool_decide (r_protos r = []) || bool_decide (pk_proto p ∈ r_protos r)) &&
  match r_sport r with None => true | Some s => Z.eqb (pk_sport p) s end &&
  match r_to r with ToAny => true | ToTable t => in_nets (tables t) (pk_dst p) | ToNet n => in_nets [n] (pk_dst p) end &&
  match r_dport r with None => true | Some d => Z.eqb (pk_dport p) d end.

(** The verdict so far, or a final one. *)
Inductive Verdict := Sofar (pass : bool) | Final (pass : bool).
Definition verdict_pass (v : Verdict) : bool := match v with Sofar b | Final b => b end.

Definition pf_rule (tables : string -> list string) (p : PfPacket) (v : Verdict) (r : PfRule) : Verdict :=
  match v with
  | Final b => Final b
  | Sofar b => if pf_matches tables r p then (if r_quick r then Final (r_pass r) else Sofar (r_pass r)) else Sofar b
  end.
Definition pf_ruleset (tables : string -> list string) (p : PfPacket) (v : Verdict) (rules : list PfRule) : Verdict :=
  fold_left (pf_rule tables p) rules v.

(** The sub-anchors of amn, in the order of their names. *)
Definition amn_names : list string :=
  ["000.allowLoopback"; "100.blockAll"; "110.allowNets"; "120.blockNets"; "150.allowExcludedApps"; "200.allowVPN"; "250.blockIPv6";
   "290.allowDHCP"; "300.allowLAN"; "310.blockDNS"; "350.allowHnsd"; "400.allowPIA"].
Definition pf_item (st : PfState) (p : PfPacket) (v : Verdict) (i : MainItem) : Verdict :=
  match i with
  | OtherRule r => pf_ruleset (λ _, []) p v [r]
  | AmnAnchor => fold_left (λ v a, pf_ruleset (pf_tables st a) p v (pf_rules st a)) amn_names v
  end.
(** pf passes what no rule matches, and everything when it does not run. *)
Definition pf_decides (st : PfState) (p : PfPacket) : bool :=
  if pf_referenced st || pf_others st then verdict_pass (fold_left (pf_item st p) (pf_main st) (Sofar true)) else true.
End Decision.

(** ** What the lines do *)
(** States that no packet tells apart. *)
Record pf_eq (s t : PfState) : Prop := mkPfEq {
  eq_referenced : pf_referenced s = pf_referenced t;
  eq_others : pf_others s = pf_others t;
  eq_main : pf_main s = pf_main t;
  eq_conf : pf_conf s = pf_conf t;
  eq_root : pf_root s = pf_root t;
  eq_rules a : pf_rules s a = pf_rules t a;
  eq_tables a n : pf_tables s a n = pf_tables t a n
}.
#[export] Instance pf_eq_equivalence : Equivalence pf_eq.
Proof.
  split; [by intros s; split | intros s t []; by split | intros s t u [] []; split; intros; etrans; eauto].
Qed.

Definition is_amn (i : MainItem) : bool := match i with AmnAnchor => true | _ => false end.
Definition without_amn (l : list MainItem) : list MainItem := List.filter (λ i, negb (is_amn i)) l.

Definition set_main (l : list MainItem) (root : bool) (s : PfState) : PfState :=
  mkPfState (pf_referenced s) (pf_others s) l (pf_conf s) root (pf_rules s) (pf_tables s).
Definition set_referenced (b : bool) (s : PfState) : PfState :=
  mkPfState b (pf_others s) (pf_main s) (pf_conf s) (pf_root s) (pf_rules s) (pf_tables s).
Definition set_conf (l : list MainItem) (s : PfState) : PfState :=
  mkPfState (pf_referenced s) (pf_others s) (pf_main s) l (pf_root s) (pf_rules s) (pf_tables s).
(** The rules and the tables of one sub-anchor. *)
Definition set_anchor (a : string) (rules : list PfRule) (tables : string -> list string) (s : PfState) : PfState :=
  mkPfState (pf_referenced s) (pf_others s) (pf_main s) (pf_conf s) (pf_root s)
    (λ x, if bool_decide (x = a) then rules else pf_rules s x)
    (λ x n, if bool_decide (x = a) then tables n else pf_tables s x n).

Definition file_table (f : PfFile) (n : string) : list string :=
  from_option snd [] (List.find (λ e, bool_decide (e.1 = n)) (f_tables f)).

Definition step_filter_anchor (s : PfState) : PfState := set_main (app (without_amn (pf_main s)) [AmnAnchor]) true s.
Definition step_priority (s : PfState) : PfState :=
  if from_option is_amn false (last (pf_main s)) then s else set_main (app (without_amn (pf_main s)) [AmnAnchor]) (pf_root s) s.
Definition step_flush_root (emptied : string -> bool) (s : PfState) : PfState :=
  mkPfState (pf_referenced s) (pf_others s) (pf_main s) (pf_conf s) false
    (λ a, if emptied a then [] else pf_rules s a) (λ a n, if emptied a then [] else pf_tables s a n).
Definition step_enable (a : string) (f : PfFile) (s : PfState) : PfState :=
  match pf_rules s a with [] => set_anchor a (f_rules f) (file_table f) s | _ => s end.
Definition step_disable (a : string) (s : PfState) : PfState :=
  match pf_rules s a with [] => s | _ => set_anchor a [] (λ _, []) s end.
Definition step_table (a n : string) (items : list string) (s : PfState) : PfState :=
  set_anchor a (pf_rules s a) (λ m, if bool_decide (m = n) then items else pf_tables s a m) s.

Definition anchor_tables : list (string * string) :=
  [("110.allowNets", "allownets"); ("120.blockNets", "blocknets"); ("310.blockDNS", "dnsaddr")].

(** What pf, pfctl and bash are documented to do with the lines; flushing the anchor
    amn may or may not reach the anchors in it. *)
Class PfView (H : Type) := pf_view : H -> PfState.
Class PfLaws (H : Type) `{BashHost H} `{PfView H} : Prop := {
  legacy_law h : pf_eq (pf_view (bash legacy_line h).2) (set_conf (without_amn (pf_conf (pf_view h))) (pf_view h));
  flush_root_law h : exists emptied, pf_eq (pf_view (bash flush_root_line h).2) (step_flush_root emptied (pf_view h));
  release_law h : pf_eq (pf_view (bash release_pf_line h).2) (set_referenced false (pf_view h));
  reload_law h : pf_eq (pf_view (bash reload_line h).2) (set_main (pf_conf (pf_view h)) (pf_root (pf_view h)) (pf_view h));
  nat_law h : pf_eq (pf_view (bash (nat_anchors_line ResourceDir) h).2) (pf_view h);
  filter_law h : pf_eq (pf_view (bash (filter_anchor_line ResourceDir) h).2) (step_filter_anchor (pf_view h));
  enable_pf_law h : pf_eq (pf_view (bash enable_pf_line h).2) (set_referenced true (pf_view h));
  pf_enabled_law h : pf_eq (pf_view (bash pf_enabled_line h).2) (pf_view h) /\
    ((bash pf_enabled_line h).1 =? 0)%Z = pf_referenced (pf_view h);
  root_loaded_law h : pf_eq (pf_view (bash root_loaded_line h).2) (pf_view h) /\
    ((bash root_loaded_line h).1 =? 0)%Z = existsb is_amn (pf_main (pf_view h)) && pf_root (pf_view h);
  priority_law h : pf_eq (pf_view (bash priority_line h).2) (step_priority (pf_view h));
  enable_law a f h : (a, f) ∈ anchor_files -> pf_eq (pf_view (bash (enable_line ResourceDir a) h).2) (step_enable a f (pf_view h));
  disable_law a f h : (a, f) ∈ anchor_files -> pf_eq (pf_view (bash (disable_line a) h).2) (step_disable a (pf_view h));
  replace_law a n items h : (a, n) ∈ anchor_tables -> Forall (λ i, char_free " "%char i = true) items ->
    pf_eq (pf_view (bash (replace_line a n items) h).2) (step_table a n (filter (λ i, i <> "") items) (pf_view h));
  kill_law a n h : (a, n) ∈ anchor_tables -> pf_eq (pf_view (bash (kill_line a n) h).2) (step_table a n [] (pf_view h))
}.

(** ** The rules in place *)
(** The anchors hold nothing but their files; those without a file are empty. *)
Definition anchors_ours (s : PfState) : Prop :=
  (forall a f, (a, f) ∈ anchor_files -> pf_rules s a = [] \/ pf_rules s a = f_rules f) /\
  (pf_rules s "300.allowLAN" <> [] -> pf_tables s "300.allowLAN" "lanips" = lan_ips) /\
  pf_rules s "150.allowExcludedApps" = [] /\ pf_rules s "350.allowHnsd" = [] /\ pf_rules s "400.allowPIA" = [].

#[export] Instance anchors_ours_proper : Proper (pf_eq ==> iff) anchors_ours.
Proof.
  assert (forall s t, pf_eq s t -> anchors_ours s -> anchors_ours t) as Himp.
  { intros s t E (H1 & H2 & H3 & H4 & H5). unfold anchors_ours. setoid_rewrite <- (eq_rules s t E). rewrite <- (eq_tables s t E). done. }
  intros s t E. split; apply Himp; [done|by symmetry].
Qed.

(** An anchor turned on or off, with the table the code fills. *)
Definition step_set (a : string) (f : PfFile) (b : bool) (s : PfState) : PfState := if b then step_enable a f s else step_disable a s.

Lemma step_set_rules a f b s x :
  (a, f) ∈ anchor_files -> anchors_ours s -> pf_rules (step_set a f b s) x = if bool_decide (x = a) then (if b then f_rules f else []) else pf_rules s x.
Proof.
  intros Ha (H1 & _). specialize (H1 a f Ha). unfold step_set, step_enable, step_disable.
  destruct b, (pf_rules s a) as [|r l] eqn:E; cbn; case_bool_decide; subst; try done.
  destruct H1 as [H1 | H1]; [done|]. by rewrite E.
Qed.

Lemma step_set_tables a f b s x n : x <> a -> pf_tables (step_set a f b s) x n = pf_tables s x n.
Proof.
  intros Hx. unfold step_set, step_enable, step_disable. destruct b, (pf_rules s a); cbn; by rewrite ?bool_decide_eq_false_2.
Qed.
Lemma step_table_rules a n items s x : pf_rules (step_table a n items s) x = pf_rules s x.
Proof. cbn. case_bool_decide; by subst. Qed.
Lemma step_table_tables a n items s x m :
  pf_tables (step_table a n items s) x m = if bool_decide (x = a /\ m = n) then items else pf_tables s x m.
Proof. cbn. repeat case_bool_decide; naive_solver. Qed.

Lemma anchor_file_unique a f g : (a, f) ∈ anchor_files -> (a, g) ∈ anchor_files -> f = g.
Proof.
  intros Hf Hg. unfold anchor_files in *. repeat (apply elem_of_cons in Hf as [Hf|Hf]); try (by apply not_elem_of_nil in Hf);
    repeat (apply elem_of_cons in Hg as [Hg|Hg]); try (by apply not_elem_of_nil in Hg); congruence.
Qed.

Lemma ours_set a f b s : (a, f) ∈ anchor_files -> anchors_ours s -> anchors_ours (step_set a f b s).
Proof.
  intros Ha O. pose proof O as (H1 & H2 & H3 & H4 & H5).
  assert (forall x, (forall g, (x, g) ∉ anchor_files) -> pf_rules s x = [] -> pf_rules (step_set a f b s) x = []) as Hn.
  { intros x Hx E. rewrite step_set_rules by done. case_bool_decide; [subst; by destruct (Hx f)|done]. }
  assert (forall x, bool_decide (Forall (λ e, e.1 <> x) anchor_files) = true -> forall g, (x, g) ∉ anchor_files) as Hd.
  { intros x Hx g Hg. apply bool_decide_eq_true in Hx. rewrite list.Forall_forall in Hx. by apply (Hx _ Hg). }
  split; [|split; [|split; [|split]]]; [| |by apply Hn; [apply Hd|]..].
  - intros x g Hg. rewrite step_set_rules by done. case_bool_decide; [subst|by apply H1].
    rewrite (anchor_file_unique _ _ _ Ha Hg). destruct b; [by right|by left].
  - destruct (decide ("300.allowLAN" = a)) as [<-|Hx]; [|by rewrite step_set_rules, step_set_tables, bool_decide_eq_false_2].
    assert (f = allowLAN_conf) as -> by (apply (anchor_file_unique "300.allowLAN"); [done|by repeat constructor]).
    unfold step_set, step_enable, step_disable. destruct b, (pf_rules s "300.allowLAN") eqn:E; cbn; try done; intros _; by apply H2; rewrite ?E.
Qed.

Lemma ours_table a n items s : anchors_ours s -> (a, n) <> ("300.allowLAN", "lanips") -> anchors_ours (step_table a n items s).
Proof.
  intros (H1 & H2 & H3 & H4 & H5) Ha. unfold anchors_ours. setoid_rewrite step_table_rules. rewrite step_table_tables.
  rewrite bool_decide_eq_false_2 by (intros [E1 E2]; congruence). done.
Qed.

#[export] Instance step_set_proper a f b : Proper (pf_eq ==> pf_eq) (step_set a f b).
Proof.
  intros s t E. unfold step_set, step_enable, step_disable. rewrite (eq_rules s t E a). destruct E.
  destruct b, (pf_rules t a); split; intros; cbn; try done; by repeat case_bool_decide.
Qed.
#[export] Instance step_table_proper a n items : Proper (pf_eq ==> pf_eq) (step_table a n items).
Proof. intros s t E. destruct E. split; intros; cbn; try done; by repeat case_bool_decide. Qed.
#[export] Instance step_priority_proper : Proper (pf_eq ==> pf_eq) step_priority.
Proof. intros s t E. unfold step_priority. rewrite (eq_main s t E). destruct E. case_match; split; intros; cbn; try done; by f_equal. Qed.
#[export] Instance step_filter_proper : Proper (pf_eq ==> pf_eq) step_filter_anchor.
Proof. intros s t []. split; intros; cbn; try done. by f_equal; f_equal. Qed.

Definition items_of (b : bool) (items : list string) : list string := if b then filter (λ i, i <> "") items else [].
(** What [applyFirewallRules] does to the anchors. *)
Definition mac_steps (params : FirewallParams) (s : PfState) : PfState :=
  let s := step_set "000.allowLoopback" allowLoopback_conf true s in
  let s := step_set "100.blockAll" blockAll_conf (blockAll params) s in
  let s := step_set "110.allowNets" allowNets_conf (allowNets params) s in
  let s := step_table "110.allowNets" "allownets" (items_of (allowNets params) (allowAddrs params)) s in
  let s := step_set "120.blockNets" blockNets_conf (blockNets params) s in
  let s := step_table "120.blockNets" "blocknets" (items_of (blockNets params) (blockAddrs params)) s in
  let s := step_set "200.allowVPN" allowVPN_conf true s in
  let s := step_set "250.blockIPv6" blockIPv6_conf true s in
  let s := step_set "290.allowDHCP" allowDHCP_conf true s in
  let s := step_set "300.allowLAN" allowLAN_conf true s in
  let s := step_set "310.blockDNS" blockDNS_conf true s in
  step_table "310.blockDNS" "dnsaddr" (items_of true (dnsServers params)) s.

Ltac in_files := by apply (bool_decide_unpack _).
#[export] Instance PfFile_eq_dec : EqDecision PfFile.
Proof. solve_decision. Defined.

Lemma set_facts a f b s : (a, f) ∈ anchor_files -> anchors_ours s -> exists t, step_set a f b s = t /\ anchors_ours t /\
  (forall x, pf_rules t x = if bool_decide (x = a) then (if b then f_rules f else []) else pf_rules s x) /\
  (forall x n, x <> a -> pf_tables t x n = pf_tables s x n).
Proof.
  intros Ha O. eexists. split; [done|]. split; [by apply ours_set|]. split; intros; [by apply step_set_rules|by apply step_set_tables].
Qed.
Lemma table_facts a n items s : (a, n) <> ("300.allowLAN", "lanips") -> anchors_ours s -> exists t, step_table a n items s = t /\ anchors_ours t /\
  (forall x, pf_rules t x = pf_rules s x) /\
  (forall x m, pf_tables t x m = if bool_decide (x = a /\ m = n) then items else pf_tables s x m).
Proof.
  intros Ha O. eexists. split; [done|]. split; [by apply ours_table|]. split; intros; [apply step_table_rules|apply step_table_tables].
Qed.

(** The rules and tables that are left. *)
Lemma mac_steps_left params s : anchors_ours s ->
  let t := mac_steps params s in
  map (pf_rules t) amn_names =
    [f_rules allowLoopback_conf; if blockAll params then f_rules blockAll_conf else []; if allowNets params then f_rules allowNets_conf else [];
     if blockNets params then f_rules blockNets_conf else []; []; f_rules allowVPN_conf; f_rules blockIPv6_conf; f_rules allowDHCP_conf;
     f_rules allowLAN_conf; f_rules blockDNS_conf; []; []] /\
  pf_tables t "110.allowNets" "allownets" = items_of (allowNets params) (allowAddrs params) /\
  pf_tables t "120.blockNets" "blocknets" = items_of (blockNets params) (blockAddrs params) /\
  pf_tables t "300.allowLAN" "lanips" = lan_ips /\ pf_tables t "310.blockDNS" "dnsaddr" = items_of true (dnsServers params).
Proof.
  intros O t. unfold t, mac_steps. cbn zeta.
  destruct (set_facts "000.allowLoopback" allowLoopback_conf true s) as (s1 & -> & O1 & R1 & T1); [in_files|done|].
  destruct (set_facts "100.blockAll" blockAll_conf (blockAll params) s1) as (s2 & -> & O2 & R2 & T2); [in_files|done|].
  destruct (set_facts "110.allowNets" allowNets_conf (allowNets params) s2) as (s3 & -> & O3 & R3 & T3); [in_files|done|].
  destruct (table_facts "110.allowNets" "allownets" (items_of (allowNets params) (allowAddrs params)) s3) as (s4 & -> & O4 & R4 & T4); [done|done|].
  destruct (set_facts "120.blockNets" blockNets_conf (blockNets params) s4) as (s5 & -> & O5 & R5 & T5); [in_files|done|].
  destruct (table_facts "120.blockNets" "blocknets" (items_of (blockNets params) (blockAddrs params)) s5) as (s6 & -> & O6 & R6 & T6); [done|done|].
  destruct (set_facts "200.allowVPN" allowVPN_conf true s6) as (s7 & -> & O7 & R7 & T7); [in_files|done|].
  destruct (set_facts "250.blockIPv6" blockIPv6_conf true s7) as (s8 & -> & O8 & R8 & T8); [in_files|done|].
  destruct (set_facts "290.allowDHCP" allowDHCP_conf true s8) as (s9 & -> & O9 & R9 & T9); [in_files|done|].
  destruct (set_facts "300.allowLAN" allowLAN_conf true s9) as (s10 & -> & O10 & R10 & T10); [in_files|done|].
  destruct (set_facts "310.blockDNS" blockDNS_conf true s10) as (s11 & -> & O11 & R11 & T11); [in_files|done|].
  destruct (table_facts "310.blockDNS" "dnsaddr" (items_of true (dnsServers params)) s11) as (s12 & -> & O12 & R12 & T12); [done|done|].
  split; [|split; [|split; [|split]]].
  - cbn [map amn_names]. rewrite !R12, !R11, !R10, !R9, !R8, !R7, !R6, !R5, !R4, !R3, !R2, !R1.
    destruct O as (_ & _ & -> & -> & ->). reflexivity.
  - by rewrite T12, T11, T10, T9, T8, T7, T6, T5, T4.
  - by rewrite T12, T11, T10, T9, T8, T7, T6.
  - rewrite T12, T11 by done. cbn. apply O10. by rewrite R10.
  - by rewrite T12.
Qed.

(** ** What passes *)
Section KillSwitch.
Context `{AddressParser}.

Definition is_dns (p : PfPacket) : bool := bool_decide (pk_proto p ∈ [PfTcp; PfUdp]) && (pk_dport p =? 53)%Z.
Definition is_dhcp (p : PfPacket) : bool :=
  bool_decide (pk_proto p = PfUdp) &&
  (bool_decide (protocol (pk_dst p) = IPv4Protocol) && (pk_sport p =? 68)%Z && in_nets ["255.255.255.255"] (pk_dst p) && (pk_dport p =? 67)%Z ||
   bool_decide (protocol (pk_dst p) = IPv6Protocol) && (pk_sport p =? 546)%Z && in_nets ["ff00::/8"] (pk_dst p) && (pk_dport p =? 547)%Z).

(** What the kill switch promises; [b] is what the rules of others say. *)
Definition mac_promised (params : FirewallParams) (b : bool) (p : PfPacket) : bool :=
  if bool_decide (pk_on p = "lo0") then true
  else if is_dns p then in_nets (items_of true (dnsServers params)) (pk_dst p)
  else if in_nets lan_ips (pk_dst p) then true
  else if is_dhcp p then true
  else if bool_decide (protocol (pk_dst p) = IPv6Protocol) then false
  else if bool_decide (pk_on p ∈ utunInterfaces) then true
  else if blockNets params && in_nets (items_of true (blockAddrs params)) (pk_dst p) then false
  else if allowNets params && in_nets (items_of true (allowAddrs params)) (pk_dst p) then true
  else if blockAll params then false
  else b.

Lemma rule_sofar tables p b r rules : r_quick r = false ->
  pf_ruleset tables p (Sofar b) (r :: rules) = pf_ruleset tables p (Sofar (if pf_matches tables r p then r_pass r else b)) rules.
Proof. intros Hq. cbn. rewrite Hq. by destruct (pf_matches tables r p). Qed.
Lemma ruleset_final tables p b rules : pf_ruleset tables p (Final b) rules = Final b.
Proof. by induction rules. Qed.

Lemma plain_matches tables pass n p : pf_matches tables (plain_rule pass (ToTable n)) p = in_nets (tables n) (pk_dst p).
Proof. unfold pf_matches. cbn. by rewrite andb_true_r. Qed.

Lemma optional_items (c : bool) items a : c && in_nets (items_of c items) a = c && in_nets (items_of true items) a.
Proof. by destruct c. Qed.
Lemma any_matches tables pass p : pf_matches tables (plain_rule pass ToAny) p = true.
Proof. done. Qed.

Lemma loopback_rule tables p b :
  pf_ruleset tables p (Sofar b) [mkPfRule true true ["lo0"] None [] None ToAny None] =
    if bool_decide (pk_on p = "lo0") then Final true else Sofar b.
Proof.
  cbn. unfold pf_matches. cbn. destruct (decide (pk_on p = "lo0")) as [E|E].
  - rewrite (bool_decide_eq_true_2 (pk_on p ∈ ["lo0"])), bool_decide_eq_true_2; [done|done|by apply list_elem_of_singleton].
  - rewrite (bool_decide_eq_false_2 (pk_on p ∈ ["lo0"])), bool_decide_eq_false_2; [done|done|by intros ?%list_elem_of_singleton].
Qed.

Lemma ruleset_nil tables p v : pf_ruleset tables p v [] = v.
Proof. done. Qed.

Lemma optional_rule tables p b (c : bool) pass to :
  pf_ruleset tables p (Sofar b) (if c then [plain_rule pass to] else []) =
    Sofar (if c && pf_matches tables (plain_rule pass to) p then pass else b).
Proof. destruct c; [by rewrite rule_sofar|done]. Qed.

Lemma anchors_decide params st p b :
  map (pf_rules st) amn_names =
    [f_rules allowLoopback_conf; if blockAll params then f_rules blockAll_conf else []; if allowNets params then f_rules allowNets_conf else [];
     if blockNets params then f_rules blockNets_conf else []; []; f_rules allowVPN_conf; f_rules blockIPv6_conf; f_rules allowDHCP_conf;
     f_rules allowLAN_conf; f_rules blockDNS_conf; []; []] ->
  pf_tables st "110.allowNets" "allownets" = items_of (allowNets params) (allowAddrs params) ->
  pf_tables st "120.blockNets" "blocknets" = items_of (blockNets params) (blockAddrs params) ->
  pf_tables st "300.allowLAN" "lanips" = lan_ips -> pf_tables st "310.blockDNS" "dnsaddr" = items_of true (dnsServers params) ->
  verdict_pass (pf_item st p (Sofar b) AmnAnchor) = mac_promised params b p.
Proof.
  cbn [map amn_names]. intros [= R1 R2 R3 R4 R5 R6 R7 R8 R9 R10 R11 R12] T1 T2 T3 T4. cbn [pf_item fold_left amn_names].
  rewrite R1, R2, R3, R4, R5, R6, R7, R8, R9, R10, R11, R12. unfold mac_promised.
  rewrite loopback_rule. destruct (bool_decide (pk_on p = "lo0")); [by rewrite !ruleset_final|].
  rewrite !optional_rule. repeat first [rewrite ruleset_nil | rewrite rule_sofar by done]. cbn [verdict_pass r_pass plain_rule].
  rewrite !plain_matches, T1, T2, T3, any_matches. unfold pf_matches. cbn [r_on r_family r_protos r_sport r_to r_dport]. rewrite T4.
  rewrite (bool_decide_eq_true_2 (@nil string = [])), (bool_decide_eq_true_2 (@nil PfProto = [])) by done.
  rewrite (bool_decide_eq_false_2 ([PfTcp; PfUdp] = [])), (bool_decide_eq_false_2 ([PfUdp] = [])), (bool_decide_eq_false_2 (utunInterfaces = [])) by done.
  rewrite (bool_decide_ext (pk_proto p ∈ [PfUdp]) (pk_proto p = PfUdp)) by apply list_elem_of_singleton.
  rewrite !optional_items. unfold is_dns, is_dhcp. cbn [orb andb]. rewrite !andb_true_r. set (nets := if blockNets params && _ then false else _). clearbody nets.
  destruct (bool_decide (pk_proto p ∈ [PfTcp; PfUdp])), (pk_dport p =? 53)%Z; cbn [andb]; rewrite ?andb_true_r, ?andb_false_r;
    try (by destruct (in_nets (items_of true (dnsServers params)) (pk_dst p))); destruct (in_nets lan_ips (pk_dst p)); try done;
    destruct (bool_decide (pk_proto p = PfUdp)), (bool_decide (protocol (pk_dst p) = IPv4Protocol)), (bool_decide (protocol (pk_dst p) = IPv6Protocol));
    cbn [orb andb]; rewrite ?andb_false_r, ?orb_false_r; cbn [andb orb]; try done;
    repeat (case_match; try done); by rewrite ?orb_true_r in *.
Qed.
End KillSwitch.

Section Enforced.
Context {H : Type} `{PfLaws H} `{AddressParser}.
Implicit Types (h : H).

Lemma set_view a f b h : (a, f) ∈ anchor_files -> pf_eq (pf_view (mac_setAnchorEnabled a b h).2) (step_set a f b (pf_view h)).
Proof.
  intros Ha. unfold mac_setAnchorEnabled, mac_enableAnchor, mac_disableAnchor, mac_execute, step_set.
  destruct b; rewrite sbind_run; [exact (enable_law a f h Ha)|exact (disable_law a f h Ha)].
Qed.

Lemma table_view a n b items h : (a, n) ∈ anchor_tables -> Forall (λ i, char_free " "%char i = true) items ->
  pf_eq (pf_view (setAnchorTable a b n items h).2) (step_table a n (items_of b items) (pf_view h)).
Proof.
  intros Ha Hi. unfold setAnchorTable, mac_execute. rewrite sbind_run. destruct b; [exact (replace_law a n items h Ha Hi)|exact (kill_law a n h Ha)].
Qed.

Definition clean_params (params : FirewallParams) : Prop :=
  Forall (λ i, char_free " "%char i = true) (dnsServers params) /\ Forall (λ i, char_free " "%char i = true) (allowAddrs params) /\
  Forall (λ i, char_free " "%char i = true) (blockAddrs params).

(** [pf] ready for the anchors: running, with the place of the anchors last. *)
Definition pf_ready (s : PfState) : Prop :=
  pf_referenced s = true /\ anchors_ours s /\ exists front, pf_main s = app front [AmnAnchor].

#[export] Instance pf_ready_proper : Proper (pf_eq ==> iff) pf_ready.
Proof.
  assert (forall s t, pf_eq s t -> pf_ready s -> pf_ready t) as Himp.
  { intros s t E (H1' & H2' & front & H3'). split; [by rewrite <- (eq_referenced s t E)|]. split; [by rewrite <- E|].
    exists front. by rewrite <- (eq_main s t E). }
  intros s t E. split; apply Himp; [done|by symmetry].
Qed.

Lemma uninstall_view h : exists emptied, pf_eq (pf_view (mac_uninstall h).2)
  (set_main (pf_conf (pf_view h)) false (set_referenced false (step_flush_root emptied (pf_view h)))).
Proof.
  unfold mac_uninstall, mac_execute. rewrite !sbind_run. cbn [sret snd]. destruct (flush_root_law h) as (emptied & E1). exists emptied.
  set (h1 := (bash flush_root_line h).2) in *. pose proof (release_law h1) as E2. set (h2 := (bash release_pf_line h1).2) in *.
  pose proof (reload_law h2) as E3. etrans; [exact E3|]. destruct E1 as [a1 b1 c1 d1 e1 f1 g1], E2 as [a2 b2 c2 d2 e2 f2 g2].
  split; cbn in *; intros; rewrite ?f2, ?g2; congruence || done.
Qed.

Lemma ours_flush emptied s : anchors_ours s -> anchors_ours (step_flush_root emptied s).
Proof.
  intros (H1' & H2' & H3' & H4' & H5'). unfold anchors_ours. cbn. split; [intros a f Ha; case_match; [by left|by apply H1']|].
  split; [by destruct (emptied "300.allowLAN")|]. by repeat case_match.
Qed.

Lemma install_view h : anchors_ours (pf_view h) -> pf_ready (pf_view (mac_install h).2).
Proof.
  intros O. unfold mac_install, installRootAnchors, mac_execute. rewrite !sbind_run. cbn [sret snd].
  set (h1 := (bash legacy_line h).2). pose proof (legacy_law h) as E1. fold h1 in E1.
  destruct (uninstall_view h1) as (emptied & E2). set (h2 := (mac_uninstall h1).2) in *.
  pose proof (nat_law h2) as E3. set (h3 := (bash (nat_anchors_line ResourceDir) h2).2) in *.
  pose proof (filter_law h3) as E4. set (h4 := (bash (filter_anchor_line ResourceDir) h3).2) in *.
  rewrite (enable_pf_law h4). split; [done|]. split; [|eexists; exact (eq_main _ _ E4)].
  change (anchors_ours (pf_view h4)). rewrite E4. change (anchors_ours (pf_view h3)). rewrite E3, E2.
  change (anchors_ours (step_flush_root emptied (pf_view h1))). apply ours_flush. by rewrite E1.
Qed.

Lemma installed_view h : pf_eq (pf_view (mac_isInstalled h).2) (pf_view h) /\
  ((mac_isInstalled h).1 = true -> pf_referenced (pf_view h) = true /\ existsb is_amn (pf_main (pf_view h)) = true).
Proof.
  unfold mac_isInstalled, isPFEnabled, isRootAnchorLoaded, mac_execute. rewrite !sbind_run. cbn [sret fst snd].
  destruct (pf_enabled_law h) as [E1 C1]. rewrite C1. set (h1 := (bash pf_enabled_line h).2) in *.
  destruct (pf_referenced (pf_view h)) eqn:Er; [|done]. rewrite sbind_run. cbn [sret fst snd]. destruct (root_loaded_law h1) as [E2 C2].
  rewrite C2. split; [by rewrite E2|]. intros [Ha _]%andb_true_iff. split; [done|]. by rewrite <- (eq_main _ _ E1).
Qed.

Lemma priority_ready h : pf_referenced (pf_view h) = true -> anchors_ours (pf_view h) -> pf_ready (pf_view (mac_ensureRootAnchorPriority h).2).
Proof.
  intros Hr O. unfold mac_ensureRootAnchorPriority, mac_execute. rewrite sbind_run. cbn [sret snd]. rewrite (priority_law h). unfold step_priority.
  destruct (last (pf_main (pf_view h))) as [[r|]|] eqn:El; cbn; (split; [done|]; split; [exact O|]).
  - by eexists.
  - apply last_Some in El as (front & ->). by exists front.
  - by eexists.
Qed.

Lemma apply_view params h : anchors_ours (pf_view h) -> clean_params params ->
  exists s0, pf_ready s0 /\ pf_eq (pf_view (mac_applyFirewallRules params h).2) (mac_steps params s0).
Proof.
  intros O (Cd & Ca & Cb). unfold mac_applyFirewallRules. rewrite (sbind_run mac_isInstalled).
  destruct (installed_view h) as [E1 Hi]. set (h1 := (mac_isInstalled h).2) in *. rewrite sbind_run.
  set (h2 := ((if negb (mac_isInstalled h).1 then mac_install else sret tt) h1).2).
  assert (pf_referenced (pf_view h2) = true /\ anchors_ours (pf_view h2)) as [R2 O2].
  { unfold h2. destruct (mac_isInstalled h).1; cbn [negb sret snd].
    - split; [|by rewrite E1]. rewrite (eq_referenced _ _ E1). by apply Hi.
    - destruct (install_view h1) as (? & ? & _); [by rewrite E1|done]. }
  rewrite !sbind_run. pose proof (priority_ready h2 R2 O2) as R3. set (h3 := (mac_ensureRootAnchorPriority h2).2) in *.
  exists (pf_view h3). split; [done|]. unfold mac_steps. cbn zeta.
  rewrite table_view by (done || by apply (bool_decide_unpack _)).
  rewrite (set_view "310.blockDNS" blockDNS_conf), (set_view "300.allowLAN" allowLAN_conf), (set_view "290.allowDHCP" allowDHCP_conf),
    (set_view "250.blockIPv6" blockIPv6_conf), (set_view "200.allowVPN" allowVPN_conf) by in_files.
  rewrite table_view by (done || by apply (bool_decide_unpack _)). rewrite (set_view "120.blockNets" blockNets_conf) by in_files.
  rewrite table_view by (done || by apply (bool_decide_unpack _)).
  by rewrite (set_view "110.allowNets" allowNets_conf), (set_view "100.blockAll" blockAll_conf), (set_view "000.allowLoopback" allowLoopback_conf) by in_files.
Qed.

Lemma mac_steps_main params s : pf_main (mac_steps params s) = pf_main s /\ pf_referenced (mac_steps params s) = pf_referenced s.
Proof.
  assert (forall a f b t, pf_main (step_set a f b t) = pf_main t /\ pf_referenced (step_set a f b t) = pf_referenced t) as Hs.
  { intros a f b t. unfold step_set, step_enable, step_disable. by destruct b, (pf_rules t a). }
  assert (forall a n l t, pf_main (step_table a n l t) = pf_main t /\ pf_referenced (step_table a n l t) = pf_referenced t) as Ht by done.
  unfold mac_steps. cbn zeta.
  by repeat first [rewrite (proj1 (Hs _ _ _ _)) | rewrite (proj2 (Hs _ _ _ _)) | rewrite (proj1 (Ht _ _ _ _)) | rewrite (proj2 (Ht _ _ _ _))].
Qed.

Lemma item_proper s t p v i : pf_eq s t -> pf_item s p v i = pf_item t p v i.
Proof.
  intros E. destruct i; [done|]. unfold pf_item.
  assert (forall a w, pf_ruleset (pf_tables s a) p w (pf_rules s a) = pf_ruleset (pf_tables t a) p w (pf_rules t a)) as Hr.
  { intros a w. rewrite (eq_rules s t E). revert w. induction (pf_rules t a) as [|r l IH]; intros w; [done|]. cbn [pf_ruleset fold_left] in *.
    unfold pf_rule at 2 4. destruct w as [b|b]; [|apply IH].
    assert (pf_matches (pf_tables s a) r p = pf_matches (pf_tables t a) r p) as ->; [|apply IH].
    unfold pf_matches. destruct (r_to r); try done. by rewrite (eq_tables s t E). }
  generalize amn_names. intros l. revert v. induction l as [|a l IH]; intros v; [done|]. cbn [fold_left]. by rewrite Hr, IH.
Qed.

(** C4. On macOS, wherever the rules of the kill switch were left before, once
    [applyFirewallRules] has run the packet filter runs and decides every outgoing packet
    that no quick rule of another program decides first as promised: loopback passes; DNS
    passes only to the servers of the tunnel; the local network and DHCP pass; other IPv6
    is blocked; the tunnel interfaces pass; and the rest follows the networks that are
    blocked, those that are allowed and the default, in this order. The rulesets and the
    items of the tables are taken by pfctl, which rejects texts that are no addresses. *)
Theorem macos_killswitch_enforced params h :
  anchors_ours (pf_view h) -> clean_params params ->
  let s := pf_view (mac_applyFirewallRules params h).2 in
  exists front, pf_main s = app front [AmnAnchor] /\
    forall p, pf_decides s p = match fold_left (pf_item s p) front (Sofar true) with
                              | Final b => b
                              | Sofar b => mac_promised params b p
                              end.
Proof.
  intros O C s. destruct (apply_view params h O C) as (s0 & (Hr & O0 & front & Hm) & E). fold s in E. exists front.
  destruct (mac_steps_main params s0) as [M1 M2]. destruct (mac_steps_left params s0 O0) as (L1 & L2 & L3 & L4 & L5).
  assert (pf_main s = app front [AmnAnchor]) as Ms by by rewrite (eq_main _ _ E), M1.
  split; [done|]. intros p. unfold pf_decides. rewrite (eq_referenced _ _ E), M2, Hr. cbn [orb]. rewrite Ms, fold_left_app. cbn [fold_left].
  destruct (fold_left (pf_item s p) front (Sofar true)) as [b|b].
  - rewrite (item_proper _ _ _ _ _ E). by apply anchors_decide.
  - cbn [pf_item]. generalize amn_names. intros l. induction l as [|a l IH]; [done|]. cbn [fold_left]. by rewrite ruleset_final.
Qed.

(** After [uninstall] the main rules are those of /etc/pf.conf again and the service no
    longer keeps the packet filter running. *)
Theorem macos_killswitch_lifted h p :
  let s := pf_view (mac_uninstall h).2 in
  pf_referenced s = false /\ pf_main s = pf_conf (pf_view h) /\
  (existsb is_amn (pf_conf (pf_view h)) = false ->
   pf_decides s p = if pf_others (pf_view h) then verdict_pass (fold_left (pf_item (pf_view h) p) (pf_conf (pf_view h)) (Sofar true)) else true).
Proof.
  intros s. destruct (uninstall_view h) as (emptied & E). fold s in E.
  split; [by rewrite (eq_referenced _ _ E)|]. split; [by rewrite (eq_main _ _ E)|]. intros Ha. unfold pf_decides.
  rewrite (eq_referenced _ _ E), (eq_others _ _ E), (eq_main _ _ E). cbn [pf_referenced pf_others pf_main set_main set_referenced step_flush_root orb].
  destruct (pf_others (pf_view h)); [|done]. f_equal. clear E. revert Ha. generalize (Sofar true), (pf_conf (pf_view h)).
  intros v l. revert v. induction l as [|i l IH]; intros v Ha; [done|].
  cbn in Ha. apply orb_false_iff in Ha as [Hi Ha]. cbn [fold_left]. rewrite IH by done. by destruct i.
Qed.
End Enforced.

(** ** A simulated packet filter *)
Fixpoint strip (p s : string) : option string :=
  match p, s with
  | EmptyString, _ => Some s
  | String a p', String b s' => if Ascii.eqb a b then strip p' s' else None
  | _, _ => None
  end.
Lemma strip_app p s : strip p (p +:+ s) = Some s.
Proof. induction p as [|a p IH]; [done|]. rewrite string_app_cons. cbn. by rewrite Ascii.eqb_refl. Qed.

Definition sim_app_dir : string := "/app".
Definition sim_resources : string := sim_app_dir +:+ "/../Resources/pf".
Definition sim_lines : list (string * (PfState -> Z * PfState)) :=
  [(legacy_line, λ s, (0%Z, set_conf (without_amn (pf_conf s)) s)); (flush_root_line, λ s, (0%Z, step_flush_root (λ _, false) s));
   (release_pf_line, λ s, (0%Z, set_referenced false s)); (reload_line, λ s, (0%Z, set_main (pf_conf s) (pf_root s) s));
   (nat_anchors_line sim_resources, λ s, (0%Z, s)); (filter_anchor_line sim_resources, λ s, (0%Z, step_filter_anchor s));
   (enable_pf_line, λ s, (0%Z, set_referenced true s));
   (pf_enabled_line, λ s, (if pf_referenced s then 0%Z else 1%Z, s));
   (root_loaded_line, λ s, (if existsb is_amn (pf_main s) && pf_root s then 0%Z else 1%Z, s));
   (priority_line, λ s, (0%Z, step_priority s))] ++
  map (λ '(a, f), (enable_line sim_resources a, λ s, (0%Z, step_enable a f s))) anchor_files ++
  map (λ '(a, f), (disable_line a, λ s, (0%Z, step_disable a s))) anchor_files.

Fixpoint sim_table (l : list (string * string)) (c : string) : option (PfState -> Z * PfState) :=
  match l with
  | [] => None
  | (a, n) :: l' =>
      match strip (table_prefix a n) c with
      | Some rest =>
          Some (λ s, (0%Z, step_table a n (match strip "replace " rest with
                                           | Some items => filter (λ i, i <> "") (split " " items)
                                           | None => []
                                           end) s))
      | None => sim_table l' c
      end
  end.
Definition sim_line (c : string) : option (PfState -> Z * PfState) :=
  match sim_table anchor_tables c with
  | Some f => Some f
  | None => snd <$> List.find (λ e, String.eqb e.1 c) sim_lines
  end.

#[export] Instance sim_pf : BashHost PfState := {
  bash c s := match sim_line c with Some f => f s | None => (127%Z, s) end;
  app_dir := sim_app_dir
}.
#[export] Instance sim_pf_view : PfView PfState := λ s, s.

Lemma sim_line_run c f s : sim_line c = Some f -> bash c s = f s.
Proof. intros E. cbn. by rewrite E. Qed.

Ltac in_list Hin := unfold anchor_files, anchor_tables in Hin; repeat (apply elem_of_cons in Hin as [Hin|Hin]; [injection Hin as -> ->|]);
  try (by apply not_elem_of_nil in Hin).

#[export] Instance sim_pf_laws : PfLaws PfState.
Proof.
  split.
  - intros h. by erewrite (sim_line_run legacy_line) by reflexivity.
  - intros h. exists (λ _, false). by erewrite (sim_line_run flush_root_line) by reflexivity.
  - intros h. by erewrite (sim_line_run release_pf_line) by reflexivity.
  - intros h. by erewrite (sim_line_run reload_line) by reflexivity.
  - intros h. by erewrite (sim_line_run (nat_anchors_line ResourceDir)) by reflexivity.
  - intros h. by erewrite (sim_line_run (filter_anchor_line ResourceDir)) by reflexivity.
  - intros h. by erewrite (sim_line_run enable_pf_line) by reflexivity.
  - intros h. erewrite (sim_line_run pf_enabled_line) by reflexivity. split; [done|]. unfold pf_view, sim_pf_view. cbn. by destruct (pf_referenced h).
  - intros h. erewrite (sim_line_run root_loaded_line) by reflexivity. split; [done|]. unfold pf_view, sim_pf_view. cbn. by destruct (existsb _ _ && _).
  - intros h. by erewrite (sim_line_run priority_line) by reflexivity.
  - intros a f h Hin. in_list Hin; by erewrite sim_line_run by reflexivity.
  - intros a f h Hin. in_list Hin; by erewrite sim_line_run by reflexivity.
  - intros a n items h Hin Hi.
    assert (sim_line (replace_line a n items) = Some (λ s, (0%Z, step_table a n (filter (λ i, i <> "") (split " " (join " " items))) s))) as E.
    { unfold replace_line. in_list Hin; unfold sim_line, anchor_tables; cbn [sim_table].
      - by rewrite strip_app, (strip_app "replace ").
      - by rewrite (strip_app (table_prefix "120.blockNets" "blocknets")), (strip_app "replace ").
      - by rewrite (strip_app (table_prefix "310.blockDNS" "dnsaddr")), (strip_app "replace "). }
    rewrite (sim_line_run _ _ _ E). unfold pf_view, sim_pf_view. cbn [snd]. destruct items as [|i l]; [done|]. by rewrite split_join_char.
  - intros a n h Hin. in_list Hin; by erewrite sim_line_run by reflexivity.
Qed.

Definition pf_off : PfState := mkPfState false true [OtherRule (plain_rule true ToAny)] [OtherRule (plain_rule true ToAny)] false (λ _, []) (λ _ _, []).
Definition sample_params : FirewallParams := mkParams ["1.1.1.1"] ["203.0.113.7"] [] true true false.
Definition sample_packet : PfPacket := mkPfPacket "en0" PfTcp 50000 (IPv4Address 134744072) 443.

Lemma macos_killswitch_enforced_witness :
  let _ := ipv4_parser in pf_decides (pf_view (mac_applyFirewallRules sample_params pf_off).2) sample_packet = false.
Proof.
  intros ?. destruct (macos_killswitch_enforced (H3 := ipv4_parser) sample_params pf_off) as (front & Hm & Hd).
  - split; [by left|]. repeat split; done.
  - by apply (bool_decide_unpack _).
  - rewrite Hd. assert (front = [OtherRule (plain_rule true ToAny)]) as -> by (apply (app_inj_2 front [OtherRule (plain_rule true ToAny)] [AmnAnchor] [AmnAnchor] eq_refl); rewrite <- Hm; vm_compute; reflexivity).
    vm_compute. reflexivity.
Defined.

Lemma macos_killswitch_lifted_witness :
  let _ := ipv4_parser in pf_decides (pf_view (mac_uninstall pf_off).2) sample_packet = true.
Proof.
  intros ?. destruct (macos_killswitch_lifted (H3 := ipv4_parser) pf_off sample_packet) as (_ & _ & E).
  etrans; [exact (E eq_refl)|]. vm_compute. reflexivity.
Defined.
