(* ===== verification/DnsUtils.v ===== *)
(** * Name servers on macOS and Linux

    Models of [DnsUtilsMacos] (client/platforms/macos/daemon/dnsutilsmacos.cpp), over
    the dynamic store of the system configuration, and of [DnsUtilsLinux]
    (client/platforms/linux/daemon/dnsutilslinux.cpp), over the calls systemd-resolved
    is sent. What each leaves in place, and that restoring gives the settings back. *)
From Stdlib Require Import ZArith Lia Ascii String.
From stdpp Require Import base gmap list option strings.
From S2P Require Import Prelude HostAddress QtString QtContainers IpAddress InterfaceConfig.
Local Open Scope string_scope.
Local Open Scope Z_scope.

(** ** macOS *)
Module MacDns.
(** Core Foundation values, and the dictionary of a service's DNS settings. *)
Inductive CFValue := CFString (s : string) | CFArray (l : list CFValue) | CFOther.
Notation CFDict := (gmap string CFValue).

Definition kSCPropNetDNSDomainName : string := "DomainName".
Definition kSCPropNetDNSServerAddresses : string := "ServerAddresses".
Definition kSCPropNetDNSSearchDomains : string := "SearchDomains".
Definition kSCPropNetDNSSortList : string := "SortList".

(** The texts a null [QString] stands for are empty. *)
Definition cfParseString (ref : CFValue) : string := match ref with CFString s => s | _ => "" end.
Definition cfParseStringList (ref : CFValue) : list string :=
  match ref with CFArray l => map cfParseString l | _ => [] end.
Definition cfDictSetString (dict : CFDict) (name value : string) : CFDict :=
  if bool_decide (value = "") then dict else <[name := CFString value]> dict.
Definition cfDictSetStringList (dict : CFDict) (name : string) (valueList : list string) : CFDict :=
  match valueList with [] => dict | _ => <[name := CFArray (map CFString valueList)]> dict end.

Record DnsBackup := mkBackup {
  m_domain : string; m_search : list string; m_servers : list string; m_sortlist : list string
}.
Definition isValid (b : DnsBackup) : bool :=
  negb (bool_decide (m_domain b = "")) || negb (bool_decide (m_search b = [])) ||
  negb (bool_decide (m_servers b = [])) || negb (bool_decide (m_sortlist b = [])).

(** The dynamic store: the keys of the network services ([None] when they cannot be
    listed), and the values of keys. *)
Class DynamicStore (W : Type) := {
  copyKeyList : W -> option (list CFValue);
  copyValue : string -> W -> option CFDict;
  setValue : string -> CFDict -> StateM W unit;
  removeValue : string -> StateM W unit
}.

Record DnsUtilsMacos (W : Type) := mkMacDns {
  m_prevServices : list (string * DnsBackup);
  m_scStore : W
}.
Arguments mkMacDns {W} _ _.
Arguments m_prevServices {W} _.
Arguments m_scStore {W} _.

Definition dns_path (uuid : string) : string := "Setup:/Network/Service/" +:+ uuid +:+ "/DNS".
(** [service.section('/', 3, 3)] *)
Definition service_uuid (service : string) : string := default "" (split "/" service !! 3%nat).

Section Mac.
Context {W : Type} `{DynamicStore W} `{AddressPrinter}.
Notation D := (DnsUtilsMacos W).

Definition on_store {A} (m : StateM W A) : StateM D A := λ d,
  let '(a, w) := m (m_scStore d) in (a, mkMacDns (m_prevServices d) w).

Definition backup_of (config : option CFDict) : DnsBackup :=
  match config with
  | None => mkBackup "" [] [] []
  | Some c =>
      mkBackup (from_option cfParseString "" (c !! kSCPropNetDNSDomainName))
        (from_option cfParseStringList [] (c !! kSCPropNetDNSSearchDomains))
        (from_option cfParseStringList [] (c !! kSCPropNetDNSServerAddresses))
        (from_option cfParseStringList [] (c !! kSCPropNetDNSSortList))
  end.

Definition backupService (uuid : string) : StateM D unit := λ d,
  (tt, mkMacDns (qm_insert uuid (backup_of (copyValue (dns_path uuid) (m_scStore d))) (m_prevServices d)) (m_scStore d)).

Definition dns_config (resolvers : list QHostAddress) : CFDict :=
  cfDictSetString (cfDictSetStringList ∅ kSCPropNetDNSServerAddresses (map printHost resolvers)) kSCPropNetDNSDomainName "lan".

Definition update_service (resolvers : list QHostAddress) (key : CFValue) : StateM D unit :=
  let uuid := service_uuid (cfParseString key) in
  if bool_decide (uuid = "") then sret tt
  else
    backupService uuid ;;
    on_store (setValue (dns_path uuid) (dns_config resolvers)).

Definition mac_updateResolvers (ifname : string) (resolvers : list QHostAddress) : StateM D bool :=
  netServices <- gets (λ d, copyKeyList (m_scStore d)) ;;
  match netServices with
  | None => sret false
  | Some keys =>
      for_each keys (update_service resolvers) ;;
      sret true
  end.

Definition backup_config (backup : DnsBackup) : CFDict :=
  let config := cfDictSetString ∅ kSCPropNetDNSDomainName (m_domain backup) in
  let config := cfDictSetStringList config kSCPropNetDNSSearchDomains (m_search backup) in
  let config := cfDictSetStringList config kSCPropNetDNSServerAddresses (m_servers backup) in
  cfDictSetStringList config kSCPropNetDNSSortList (m_sortlist backup).

Definition restore_service (e : string * DnsBackup) : StateM D unit :=
  let path := dns_path e.1 in
  if isValid e.2 then on_store (setValue path (backup_config e.2)) else on_store (removeValue path).

Definition mac_restoreResolvers : StateM D bool :=
  prev <- gets m_prevServices ;;
  for_each prev restore_service ;;
  modify (λ d, mkMacDns [] (m_scStore d)) ;;
  sret true.

Definition DnsUtilsMacos_new (w : W) : D := mkMacDns [] w.
(** The destructor. *)
Definition DnsUtilsMacos_delete : StateM D unit := mac_restoreResolvers ;; sret tt.
End Mac.

(** What the functions of the store do. *)
Class StoreLaws (W : Type) `{DynamicStore W} : Prop := {
  set_law p dict w : let w' := (setValue p dict w).2 in
    copyKeyList w' = copyKeyList w /\ forall q, copyValue q w' = if bool_decide (q = p) then Some dict else copyValue q w;
  remove_law p w : let w' := (removeValue p w).2 in
    copyKeyList w' = copyKeyList w /\ forall q, copyValue q w' = if bool_decide (q = p) then None else copyValue q w
}.

(** ** Settings that a backup keeps whole *)
Definition plain_list (v : CFValue) : Prop := exists l, l <> [] /\ v = CFArray (map CFString l).
Definition plain_dict (c : CFDict) : Prop :=
  c <> ∅ /\
  forall k v, c !! k = Some v ->
    (k = kSCPropNetDNSDomainName /\ exists s, s <> "" /\ v = CFString s) \/
    (k ∈ [kSCPropNetDNSSearchDomains; kSCPropNetDNSServerAddresses; kSCPropNetDNSSortList] /\ plain_list v).

Lemma parse_strings l : cfParseStringList (CFArray (map CFString l)) = l.
Proof. cbn. induction l as [|s l IH]; [done|]. cbn. by rewrite IH. Qed.

Lemma set_string_lookup d n v k : cfDictSetString d n v !! k = if bool_decide (k = n /\ v <> "") then Some (CFString v) else d !! k.
Proof.
  unfold cfDictSetString. destruct (decide (v = "")) as [-> |Hv].
  { by rewrite bool_decide_eq_true_2, bool_decide_eq_false_2 by (done || by intros [_ ?]). }
  rewrite bool_decide_eq_false_2 by done. destruct (decide (k = n)) as [-> |Hk].
  - by rewrite lookup_insert_eq, bool_decide_eq_true_2.
  - rewrite lookup_insert_ne, bool_decide_eq_false_2; [done|by intros [? _]|congruence].
Qed.
Lemma set_list_lookup d n l k : cfDictSetStringList d n l !! k = if bool_decide (k = n /\ l <> []) then Some (CFArray (map CFString l)) else d !! k.
Proof.
  unfold cfDictSetStringList. destruct l as [|v l]; [by rewrite bool_decide_eq_false_2 by (by intros [_ ?])|].
  destruct (decide (k = n)) as [-> |Hk].
  - by rewrite lookup_insert_eq, bool_decide_eq_true_2.
  - rewrite lookup_insert_ne, bool_decide_eq_false_2; [done|by intros [? _]|congruence].
Qed.

(** A backup of plain settings holds all of them. *)
Lemma backup_roundtrip c : plain_dict c -> backup_config (backup_of (Some c)) = c /\ isValid (backup_of (Some c)) = true.
Proof.
  intros [Hne Hp].
  assert (forall k l, k ∈ [kSCPropNetDNSSearchDomains; kSCPropNetDNSServerAddresses; kSCPropNetDNSSortList] ->
    from_option cfParseStringList [] (c !! k) = l -> if bool_decide (l <> []) then c !! k = Some (CFArray (map CFString l)) else c !! k = None) as Hl.
  { intros k l Hk. destruct (c !! k) as [v|] eqn:E; cbn [from_option]; intros <-; [|by rewrite bool_decide_eq_false_2 by auto].
    destruct (Hp k v E) as [[-> _] | [_ (x & Hx & ->)]]; [by apply (bool_decide_pack _) in Hk|].
    by rewrite parse_strings, bool_decide_eq_true_2. }
  assert (forall s, from_option cfParseString "" (c !! kSCPropNetDNSDomainName) = s ->
    if bool_decide (s <> "") then c !! kSCPropNetDNSDomainName = Some (CFString s) else c !! kSCPropNetDNSDomainName = None) as Hd.
  { intros s. destruct (c !! kSCPropNetDNSDomainName) as [v|] eqn:E; cbn [from_option]; intros <-; [|by rewrite bool_decide_eq_false_2 by auto].
    destruct (Hp _ v E) as [[_ (x & Hx & ->)] | [Hk _]]; [by cbn; rewrite bool_decide_eq_true_2|by apply (bool_decide_pack _) in Hk]. }
  set (b := backup_of (Some c)).
  specialize (Hd (m_domain b) eq_refl) as Ed.
  pose proof (Hl kSCPropNetDNSSearchDomains (m_search b) ltac:(by apply (bool_decide_unpack _)) eq_refl) as E1.
  pose proof (Hl kSCPropNetDNSServerAddresses (m_servers b) ltac:(by apply (bool_decide_unpack _)) eq_refl) as E2.
  pose proof (Hl kSCPropNetDNSSortList (m_sortlist b) ltac:(by apply (bool_decide_unpack _)) eq_refl) as E3.
  assert (backup_config b = c) as Eq.
  { apply map_eq. intros k. unfold backup_config. rewrite !set_list_lookup, set_string_lookup.
    destruct (decide (k = kSCPropNetDNSSortList)) as [->|N3]; [by repeat case_bool_decide; naive_solver|].
    rewrite bool_decide_eq_false_2 by naive_solver.
    destruct (decide (k = kSCPropNetDNSServerAddresses)) as [->|N2]; [by repeat case_bool_decide; naive_solver|].
    rewrite bool_decide_eq_false_2 by naive_solver.
    destruct (decide (k = kSCPropNetDNSSearchDomains)) as [->|N1]; [by repeat case_bool_decide; naive_solver|].
    rewrite bool_decide_eq_false_2 by naive_solver.
    destruct (decide (k = kSCPropNetDNSDomainName)) as [->|N0]; [by repeat case_bool_decide; naive_solver|].
    rewrite bool_decide_eq_false_2 by naive_solver. rewrite lookup_empty. destruct (c !! k) as [v|] eqn:E; [|done].
    destruct (Hp k v E) as [[-> _] | [Hk _]]; [done|]. apply list_elem_of_In in Hk. cbn in Hk. naive_solver. }
  split; [done|]. apply Is_true_true. destruct (isValid b) eqn:V; [done|]. apply Hne. rewrite <- Eq. unfold isValid in V.
  apply orb_false_iff in V as [[[V1 V2]%orb_false_iff V3]%orb_false_iff V4].
  apply negb_false_iff, bool_decide_eq_true in V1, V2, V3, V4. unfold backup_config. by rewrite V1, V2, V3, V4.
Qed.

Lemma string_app_inj a b c : a +:+ b = a +:+ c -> b = c.
Proof. induction a as [|x a IH]; [done|]. rewrite !string_app_cons. intros [= E]. by apply IH. Qed.
Lemma string_app_inj_r a b c : a +:+ c = b +:+ c -> a = b.
Proof.
  intros E. apply (f_equal (λ s, rev (list_ascii_of_string s))) in E.
  assert (forall x y, list_ascii_of_string (x +:+ y) = (list_ascii_of_string x ++ list_ascii_of_string y)%list) as F.
  { intros x y. induction x as [|z x IH]; [done|]. rewrite string_app_cons. cbn. by rewrite IH. }
  rewrite !F, !rev_app_distr in E. apply app_inv_head, (f_equal (@rev ascii)) in E. rewrite !rev_involutive in E.
  by rewrite <- (string_of_list_ascii_of_string a), E, string_of_list_ascii_of_string.
Qed.
Lemma dns_path_inj u v : dns_path u = dns_path v -> u = v.
Proof. unfold dns_path. intros E%string_app_inj. by apply string_app_inj_r in E. Qed.

Section MacProperties.
Context {W : Type} `{StoreLaws W} `{AddressPrinter}.
Implicit Types (d : DnsUtilsMacos W).
Notation dns d u := (copyValue (dns_path u) (m_scStore d)).

Definition uuids (keys : list CFValue) : list string := filter (λ u, u <> "") (map (λ k, service_uuid (cfParseString k)) keys).

Lemma update_loop resolvers keys : forall d, NoDup (uuids keys) -> qm_sorted (m_prevServices d) ->
  let d' := (for_each keys (update_service resolvers) d).2 in
  qm_sorted (m_prevServices d') /\ copyKeyList (m_scStore d') = copyKeyList (m_scStore d) /\
  (forall u, qm_find u (m_prevServices d') = if bool_decide (u ∈ uuids keys) then Some (backup_of (dns d u)) else qm_find u (m_prevServices d)) /\
  (forall u, dns d' u = if bool_decide (u ∈ uuids keys) then Some (dns_config resolvers) else dns d u) /\
  (forall q, q ∉ map dns_path (uuids keys) -> copyValue q (m_scStore d') = copyValue q (m_scStore d)).
Proof.
  induction keys as [|key keys IH]; intros d Hnd Hs; [done|]. cbn [for_each]. rewrite sbind_run.
  unfold uuids in Hnd |- *. cbn [map] in Hnd |- *. set (u0 := service_uuid (cfParseString key)) in *.
  change (update_service resolvers key) with (if bool_decide (u0 = "") then sret tt
    else backupService u0 ;; on_store (setValue (dns_path u0) (dns_config resolvers))).
  destruct (decide (u0 = "")) as [E0|E0].
  { rewrite bool_decide_eq_true_2 by done. rewrite filter_cons_False in Hnd |- * by auto. by apply IH. }
  rewrite bool_decide_eq_false_2 by done. rewrite filter_cons_True in Hnd |- * by done.
  apply list.NoDup_cons in Hnd as [Hu Hnd]. fold (uuids keys) in *.
  rewrite sbind_run. cbn [backupService snd]. unfold on_store. cbn [m_scStore m_prevServices].
  pose proof (set_law (dns_path u0) (dns_config resolvers) (m_scStore d)) as [Lk L].
  destruct (setValue (dns_path u0) (dns_config resolvers) (m_scStore d)) as [[] w]. cbn [snd] in Lk, L |- *.
  set (d1 := mkMacDns _ w). destruct (IH d1 Hnd) as (S2 & K2 & F2 & V2 & O2); [by apply qm_sorted_insert|]. split; [done|].
  split; [by rewrite K2|].
  assert (forall u, u <> u0 -> dns d1 u = dns d u) as V1.
  { intros u Hn. cbn [d1 m_scStore]. rewrite L, bool_decide_eq_false_2; [done|]. by intros ?%dns_path_inj. }
  split; [|split].
  - intros u. rewrite F2. destruct (decide (u = u0)) as [-> |Hn].
    + rewrite bool_decide_eq_false_2, bool_decide_eq_true_2; [|by apply list_elem_of_here|done]. apply qm_find_insert_eq.
    + rewrite V1 by done. cbn [d1 m_prevServices]. rewrite qm_find_insert_ne by done.
      rewrite (bool_decide_ext (u ∈ u0 :: uuids keys) (u ∈ uuids keys)); [done|]. rewrite elem_of_cons. naive_solver.
  - intros u. rewrite V2. destruct (decide (u = u0)) as [-> |Hn].
    + rewrite bool_decide_eq_false_2, (bool_decide_eq_true_2 (u0 ∈ u0 :: uuids keys)); [|by apply list_elem_of_here|done].
      cbn [d1 m_scStore]. by rewrite L, bool_decide_eq_true_2.
    + rewrite V1 by done. rewrite (bool_decide_ext (u ∈ u0 :: uuids keys) (u ∈ uuids keys)); [done|]. rewrite elem_of_cons. naive_solver.
  - intros q Hq. cbn [map] in Hq. apply not_elem_of_cons in Hq as [Hq0 Hq]. rewrite O2 by done. cbn [d1 m_scStore].
    by rewrite L, bool_decide_eq_false_2.
Qed.

(** The settings a backup is restored to. *)
Definition restored (b : DnsBackup) : option CFDict := if isValid b then Some (backup_config b) else None.

Lemma restore_step e d :
  let d' := (restore_service e d).2 in
  m_prevServices d' = m_prevServices d /\
  forall q, copyValue q (m_scStore d') = if bool_decide (q = dns_path e.1) then restored e.2 else copyValue q (m_scStore d).
Proof.
  unfold restore_service, restored, on_store. destruct (isValid e.2).
  - pose proof (set_law (dns_path e.1) (backup_config e.2) (m_scStore d)) as [_ L]. by destruct (setValue _ _ _) as [[] w].
  - pose proof (remove_law (dns_path e.1) (m_scStore d)) as [_ L]. by destruct (removeValue _ _) as [[] w].
Qed.

Lemma restore_loop prev : forall d, qm_sorted prev ->
  let d' := (for_each prev restore_service d).2 in
  (forall u, dns d' u = from_option restored (dns d u) (qm_find u prev)) /\
  (forall q, q ∉ map (λ e, dns_path e.1) prev -> copyValue q (m_scStore d') = copyValue q (m_scStore d)).
Proof.
  induction prev as [|[k b] prev IH]; intros d Hs; [done|]. cbn [for_each]. rewrite sbind_run.
  destruct (restore_step (k, b) d) as [_ L]. set (d1 := (restore_service (k, b) d).2) in *. cbn [fst snd] in L.
  inversion Hs as [|? ? Hk Hs']; subst. destruct (IH d1 Hs') as [V O]. split.
  - intros u. rewrite V. cbn [qm_find]. destruct (key_cmp u k) eqn:E.
    + apply key_cmp_eq in E as ->. assert (qm_find k prev = None) as ->.
      { destruct (qm_find k prev) as [b'|] eqn:Ef; [|done]. apply qm_find_elem in Ef. rewrite list.Forall_forall in Hk.
        pose proof (Hk _ Ef) as Hlt. cbn in Hlt. by rewrite key_cmp_refl in Hlt. }
      cbn [from_option]. by rewrite L, bool_decide_eq_true_2.
    + rewrite L, bool_decide_eq_false_2; [done|]. intros ->%dns_path_inj. by rewrite key_cmp_refl in E.
    + rewrite L, bool_decide_eq_false_2; [done|]. intros ->%dns_path_inj. by rewrite key_cmp_refl in E.
  - intros q Hq. cbn [map fst] in Hq. apply not_elem_of_cons in Hq as [Hq0 Hq]. by rewrite O, L, bool_decide_eq_false_2.
Qed.

Lemma restored_none : restored (backup_of None) = None.
Proof. done. Qed.

(** C24. On macOS, setting the name servers gives every network service exactly them and the
    domain lan and no other key of the store anything; restoring gives every service its
    settings of before back, or none when it had none, where those were a domain and
    lists of texts. The store is one in which setting and removing a value succeed; the
    code ignores whether they do. *)
Theorem macos_dns_restored ifname resolvers keys (w : W) :
  copyKeyList w = Some keys -> NoDup (uuids keys) ->
  (forall u c, u ∈ uuids keys -> copyValue (dns_path u) w = Some c -> plain_dict c) ->
  let '(ok, d1) := mac_updateResolvers ifname resolvers (DnsUtilsMacos_new w) in
  ok = true /\ (forall u, u ∈ uuids keys -> dns d1 u = Some (dns_config resolvers)) /\
  (forall q, q ∉ map dns_path (uuids keys) -> copyValue q (m_scStore d1) = copyValue q w) /\
  let '(ok', d2) := mac_restoreResolvers d1 in
  ok' = true /\ m_prevServices d2 = [] /\ forall q, copyValue q (m_scStore d2) = copyValue q w.
Proof.
  intros Hk Hnd Hp. unfold mac_updateResolvers. rewrite gets_bind. cbn [DnsUtilsMacos_new m_scStore]. rewrite Hk, sbind_run. cbn [sret].
  destruct (update_loop resolvers keys (DnsUtilsMacos_new w) Hnd) as (S1 & K1 & F1 & V1 & O1); [constructor|].
  set (d1 := (for_each keys (update_service resolvers) (DnsUtilsMacos_new w)).2) in *. cbn [DnsUtilsMacos_new m_scStore m_prevServices qm_find] in *.
  split; [done|]. split; [intros u Hu; by rewrite V1, bool_decide_eq_true_2|].
  split; [done|]. unfold mac_restoreResolvers. rewrite gets_bind, !sbind_run. cbn [modify sret snd m_scStore].
  destruct (restore_loop (m_prevServices d1) d1 S1) as [V2 O2]. set (d2 := (for_each (m_prevServices d1) restore_service d1).2) in *.
  split; [done|]. split; [done|]. intros q. destruct (decide (q ∈ map dns_path (uuids keys))) as [(u & -> & Hu)%list_elem_of_fmap|Hq].
  - rewrite V2, F1, bool_decide_eq_true_2 by done. cbn [from_option]. destruct (copyValue (dns_path u) w) as [c|] eqn:Ec; [|done].
    destruct (backup_roundtrip c (Hp u c Hu Ec)) as [Eb Ev]. unfold restored. by rewrite Ev, Eb.
  - rewrite O2; [by apply O1|]. intros ([u b] & -> & Hin)%list_elem_of_fmap. apply Hq. apply list_elem_of_fmap. exists u. split; [done|].
    pose proof (qm_find_sorted u b _ S1 Hin) as Ef. rewrite F1 in Ef. by case_bool_decide.
Qed.

Lemma dns_config_plain resolvers : plain_dict (dns_config resolvers).
Proof.
  unfold dns_config. split.
  - intros E. apply (f_equal (λ c, c !! kSCPropNetDNSDomainName)) in E. by rewrite set_string_lookup, lookup_empty in E.
  - intros k v. rewrite set_string_lookup, set_list_lookup, lookup_empty. case_bool_decide as H1'.
    + intros [= <-]. left. destruct H1' as [-> _]. split; [done|]. by exists "lan".
    + case_bool_decide as H2'; [|done]. intros [= <-]. right. destruct H2' as [-> Hl]. split; [by apply (bool_decide_unpack _)|].
      by exists (map printHost resolvers).
Qed.

(** Name servers set twice without being restored in between: restoring then gives every
    service the name servers of the first time, and what it had before is lost. *)
Theorem second_update_forgets ifname first second keys (w : W) u :
  copyKeyList w = Some keys -> NoDup (uuids keys) -> u ∈ uuids keys ->
  let d1 := (mac_updateResolvers ifname first (DnsUtilsMacos_new w)).2 in
  let d2 := (mac_updateResolvers ifname second d1).2 in
  dns (mac_restoreResolvers d2).2 u = Some (dns_config first).
Proof.
  intros Hk Hnd Hu d1 d2.
  destruct (update_loop first keys (DnsUtilsMacos_new w) Hnd) as (S1 & K1 & _ & V1 & _); [constructor|].
  assert (d1 = (for_each keys (update_service first) (DnsUtilsMacos_new w)).2) as E1.
  { unfold d1, mac_updateResolvers. rewrite gets_bind. cbn [DnsUtilsMacos_new m_scStore]. by rewrite Hk, sbind_run. }
  rewrite <- E1 in S1, K1, V1. cbn [DnsUtilsMacos_new m_scStore] in K1.
  destruct (update_loop second keys d1 Hnd S1) as (S2 & _ & F2 & _ & _).
  assert (d2 = (for_each keys (update_service second) d1).2) as E2.
  { unfold d2, mac_updateResolvers. rewrite gets_bind. by rewrite K1, Hk, sbind_run. }
  rewrite <- E2 in S2, F2. unfold mac_restoreResolvers. rewrite gets_bind, !sbind_run. cbn [modify sret snd m_scStore].
  destruct (restore_loop (m_prevServices d2) d2 S2) as [V3 _]. rewrite V3, F2, bool_decide_eq_true_2 by done. cbn [from_option].
  rewrite V1, bool_decide_eq_true_2 by done. destruct (backup_roundtrip _ (dns_config_plain first)) as [Eb Ev]. unfold restored. by rewrite Ev, Eb.
Qed.
End MacProperties.
End MacDns.

(** ** Linux *)
Module LinuxDns.
Record DnsLinkDomain := mkLinkDomain { domain : string; search : bool }.
#[export] Instance DnsLinkDomain_eq_dec : EqDecision DnsLinkDomain.
Proof. solve_decision. Defined.
Record DnsDomain := mkDomain { d_ifindex : Z; d_link : DnsLinkDomain }.

(** The calls systemd-resolved is sent, none of which is waited for. *)
Inductive ResolveCall :=
| SetLinkDNS (ifindex : Z) (resolvers : list QHostAddress)
| SetLinkDomains (ifindex : Z) (domains : list DnsLinkDomain)
| SetLinkDefaultRoute (ifindex : Z) (enable : bool)
| GetDomains
| RevertLink (ifindex : Z).

Record DnsUtilsLinux := mkLinuxDns {
  m_ifindex : Z;
  m_linkDomains : list (Z * list DnsLinkDomain);
  m_calls : list ResolveCall
}.
Definition DnsUtilsLinux_new : DnsUtilsLinux := mkLinuxDns 0 [] [].

Section Linux.
(** [if_nametoindex] *)
Variable nametoindex : string -> Z.

Definition dbus_call (c : ResolveCall) : StateM DnsUtilsLinux unit :=
  modify (λ d, mkLinuxDns (m_ifindex d) (m_linkDomains d) (app (m_calls d) [c])).
Definition set_link_domains (e : Z * list DnsLinkDomain) : StateM DnsUtilsLinux unit := dbus_call (SetLinkDomains e.1 e.2).

Definition linux_updateResolvers (ifname : string) (resolvers : list QHostAddress) : StateM DnsUtilsLinux bool :=
  modify (λ d, mkLinuxDns (nametoindex ifname) (m_linkDomains d) (m_calls d)) ;;
  i <- gets m_ifindex ;;
  if i <=? 0 then sret false
  else
    dbus_call (SetLinkDNS i resolvers) ;;
    dbus_call (SetLinkDefaultRoute i true) ;;
    dbus_call GetDomains ;;
    sret true.

Definition linux_restoreResolvers : StateM DnsUtilsLinux bool :=
  links <- gets m_linkDomains ;;
  for_each links set_link_domains ;;
  modify (λ d, mkLinuxDns (m_ifindex d) [] (m_calls d)) ;;
  i <- gets m_ifindex ;;
  (if 0 <? i then
     dbus_call (RevertLink i) ;;
     modify (λ d, mkLinuxDns 0 (m_linkDomains d) (m_calls d))
   else sret tt) ;;
  sret true.

(** [m_linkDomains[d.ifindex].append(...)] for the domains of a link. *)
Fixpoint collect (l : list DnsDomain) (m : list (Z * list DnsLinkDomain)) : list (Z * list DnsLinkDomain) :=
  match l with
  | [] => m
  | d :: l' =>
      collect l' (if d_ifindex d =? 0 then m
                  else qm_insert (d_ifindex d) (app (default [] (qm_find (d_ifindex d) m)) [d_link d]) m)
  end.

Definition root : DnsLinkDomain := mkLinkDomain "." true.
Definition drop_root (l : list DnsLinkDomain) : list DnsLinkDomain := filter (λ d, d <> root) l.

(** The reply to [GetDomains], [None] for an error. *)
Definition dnsDomainsReceived (reply : option (list DnsDomain)) : StateM DnsUtilsLinux unit :=
  match reply with
  | None => sret tt
  | Some list =>
      modify (λ d, mkLinuxDns (m_ifindex d) (collect list []) (m_calls d)) ;;
      links <- gets m_linkDomains ;;
      for_each links (λ e, if bool_decide (root ∈ e.2) then set_link_domains (e.1, drop_root e.2) else sret tt) ;;
      i <- gets m_ifindex ;;
      set_link_domains (i, [root])
  end.

(** The destructor. *)
Definition DnsUtilsLinux_delete : StateM DnsUtilsLinux unit :=
  links <- gets m_linkDomains ;;
  for_each links set_link_domains ;;
  i <- gets m_ifindex ;;
  if 0 <? i then dbus_call (RevertLink i) else sret tt.
End Linux.

(** ** systemd-resolved

    Its settings of the links, as its interface org.freedesktop.resolve1 shows
    them, and the documented effect of a call it accepts. *)
Record Resolved := mkResolved {
  r_dns : Z -> list QHostAddress;
  r_domains : Z -> list DnsLinkDomain;
  r_default : Z -> option bool
}.
Definition set_at {A} (i : Z) (a : A) (f : Z -> A) : Z -> A := λ j, if j =? i then a else f j.
Definition apply_call (r : Resolved) (c : ResolveCall) : Resolved :=
  match c with
  | SetLinkDNS i l => mkResolved (set_at i l (r_dns r)) (r_domains r) (r_default r)
  | SetLinkDomains i l => mkResolved (r_dns r) (set_at i l (r_domains r)) (r_default r)
  | SetLinkDefaultRoute i b => mkResolved (r_dns r) (r_domains r) (set_at i (Some b) (r_default r))
  | GetDomains => r
  | RevertLink i => mkResolved (set_at i [] (r_dns r)) (set_at i [] (r_domains r)) (set_at i None (r_default r))
  end.
Definition resolved_after (r : Resolved) (calls : list ResolveCall) : Resolved := fold_left apply_call calls r.

(** Settings that agree link by link. *)
Definition same_links (a b : Resolved) : Prop :=
  forall i, r_dns a i = r_dns b i /\ r_domains a i = r_domains b i /\ r_default a i = r_default b i.
#[export] Instance same_links_equiv : Equivalence same_links.
Proof.
  split; [done|..].
  - intros a b E i. destruct (E i) as (-> & -> & ->). done.
  - intros a b c E F i. destruct (E i) as (-> & -> & ->). apply F.
Qed.
#[export] Instance apply_call_proper : Proper (same_links ==> eq ==> same_links) apply_call.
Proof.
  intros a b E c ? <- i. destruct (E i) as (D & M & F).
  destruct c; cbn; unfold set_at; rewrite ?D, ?M, ?F; done.
Qed.
#[export] Instance resolved_after_proper : Proper (same_links ==> eq ==> same_links) resolved_after.
Proof.
  intros a b E cs ? <-. unfold resolved_after. revert a b E. induction cs as [|c cs IH]; intros a b E; [done|].
  cbn [fold_left]. apply IH. by rewrite E.
Qed.

(** The service is not waited for and may refuse a call: it does so for a link
    that systemd-networkd manages, among others. A call that is refused changes
    nothing. *)
Class Resolve1 (R : Type) := {
  resolve_call : ResolveCall -> R -> bool * R;
  links : R -> Resolved
}.
Class Resolve1Laws (R : Type) `{Resolve1 R} : Prop := {
  call_accepted c r : (resolve_call c r).1 = true -> same_links (links (resolve_call c r).2) (apply_call (links r) c);
  call_refused c r : (resolve_call c r).1 = false -> same_links (links (resolve_call c r).2) (links r)
}.
(** The service after a sequence of calls, and whether it accepted all of them. *)
Definition served {R} `{Resolve1 R} (r : R) (calls : list ResolveCall) : R :=
  fold_left (λ r c, (resolve_call c r).2) calls r.
Fixpoint accepts {R} `{Resolve1 R} (r : R) (calls : list ResolveCall) : bool :=
  match calls with
  | [] => true
  | c :: calls' => (resolve_call c r).1 && accepts (resolve_call c r).2 calls'
  end.

Lemma served_links {R} `{Resolve1Laws R} (calls : list ResolveCall) : forall r : R,
  accepts r calls = true -> same_links (links (served r calls)) (resolved_after (links r) calls).
Proof.
  unfold served, resolved_after. induction calls as [|c calls IH]; intros r Ha; [done|].
  cbn [accepts] in Ha. apply andb_true_iff in Ha as [Hc Ha]. cbn [fold_left].
  rewrite (IH _ Ha). apply resolved_after_proper; [by apply call_accepted|done].
Qed.
Lemma accepts_prefix {R} `{Resolve1 R} (a b : list ResolveCall) : forall r : R, accepts r (app a b) = true -> accepts r a = true.
Proof.
  induction a as [|c a IH]; intros r Ha; [done|]. cbn in *. apply andb_true_iff in Ha as [-> Ha].
  by rewrite (IH _ Ha).
Qed.

(** A reply that lists the domains of every link in their order. *)
Definition reply_of (r : Resolved) (l : list DnsDomain) : Prop :=
  forall i, i <> 0 -> map d_link (filter (λ d, d_ifindex d = i) l) = r_domains r i.

Lemma collect_find l : forall m i, i <> 0 -> qm_find i (collect l m) =
  match qm_find i m, map d_link (filter (λ d, d_ifindex d = i) l) with
  | None, [] => None
  | o, new => Some (app (default [] o) new)
  end.
Proof.
  induction l as [|d l IH]; intros m i Hi; cbn [collect].
  { destruct (qm_find i m); [|done]. cbn. by rewrite app_nil_r. }
  destruct (Z.eqb_spec (d_ifindex d) 0) as [E0|E0].
  { rewrite IH by done. rewrite filter_cons_False by lia. done. }
  rewrite IH by done. destruct (decide (d_ifindex d = i)) as [<-|Hne].
  - rewrite qm_find_insert_eq, filter_cons_True by done. cbn [map default]. change (default [] (Some ?x)) with x.
    destruct (qm_find (d_ifindex d) m); cbn; by rewrite <- ?app_assoc.
  - by rewrite qm_find_insert_ne, filter_cons_False by done.
Qed.
Lemma collect_zero l : forall m, qm_find 0 (collect l m) = qm_find 0 m.
Proof.
  induction l as [|d l IH]; intros m; [done|]. cbn [collect]. rewrite IH. destruct (Z.eqb_spec (d_ifindex d) 0) as [?|Hne]; [done|].
  by apply qm_find_insert_ne.
Qed.
Lemma collect_sorted l : forall m, qm_sorted m -> qm_sorted (collect l m).
Proof. induction l as [|d l IH]; intros m Hm; [done|]. cbn [collect]. apply IH. case_match; [done|by apply qm_sorted_insert]. Qed.

(** The links of a reply are the links of the resolver. *)
Lemma collect_reply r l i : reply_of r l ->
  qm_find i (collect l []) = if (i =? 0) || bool_decide (r_domains r i = []) then None else Some (r_domains r i).
Proof.
  intros Hr. destruct (Z.eqb_spec i 0) as [->|Hi]; [apply collect_zero|]. rewrite collect_find, (Hr i Hi) by done. cbn.
  by destruct (r_domains r i).
Qed.

(** Calls in a loop. *)
Lemma each_calls (f : Z * list DnsLinkDomain -> option (list DnsLinkDomain)) links : forall d,
  (for_each links (λ e, match f e with Some l => set_link_domains (e.1, l) | None => sret tt end) d).2 =
  mkLinuxDns (m_ifindex d) (m_linkDomains d)
    (app (m_calls d) (omap (λ e, (λ l, SetLinkDomains e.1 l) <$> f e) links)).
Proof.
  induction links as [|e links IH]; intros d; cbn [for_each]; [cbn; rewrite app_nil_r; by destruct d|].
  rewrite sbind_run, IH. destruct (f e) as [l|] eqn:E; cbn; rewrite E; cbn; [by rewrite <- app_assoc|done].
Qed.

Lemma domains_after (f : Z * list DnsLinkDomain -> option (list DnsLinkDomain)) links : forall r, qm_sorted links ->
  let r' := resolved_after r (omap (λ e, (λ l, SetLinkDomains e.1 l) <$> f e) links) in
  r_dns r' = r_dns r /\ r_default r' = r_default r /\
  forall i, r_domains r' i = default (r_domains r i) (qm_find i links ≫= λ l, f (i, l)).
Proof.
  induction links as [|[k l] links IH]; intros r Hs; [done|]. inversion Hs as [|? ? Hk Hs']; subst.
  assert (qm_find k links = None) as Hn.
  { destruct (qm_find k links) as [b|] eqn:Ef; [|done]. apply qm_find_elem in Ef. rewrite list.Forall_forall in Hk.
    pose proof (Hk _ Ef) as Hlt. cbn in Hlt. by rewrite Z.compare_refl in Hlt. }
  cbn [omap list_omap]. destruct (f (k, l)) as [x|] eqn:E; cbn [fmap option_fmap option_map fst].
  - unfold resolved_after. cbn [fold_left]. destruct (IH (apply_call r (SetLinkDomains k x)) Hs') as (D & F & V). split; [done|]. split; [done|].
    intros i. unfold resolved_after in V. rewrite V. cbn [apply_call r_domains qm_find]. unfold set_at.
    destruct (decide (i = k)) as [->|Hne].
    + rewrite Hn, Z.eqb_refl, key_cmp_refl. cbn. by rewrite E.
    + rewrite (proj2 (Z.eqb_neq i k)) by done. pose proof (key_cmp_neq i k Hne). by destruct (key_cmp i k).
  - destruct (IH r Hs') as (D & F & V). split; [done|]. split; [done|]. intros i. rewrite V. cbn [qm_find].
    destruct (decide (i = k)) as [->|Hne]; [rewrite Hn, key_cmp_refl; cbn; by rewrite E|].
    pose proof (key_cmp_neq i k Hne). by destruct (key_cmp i k).
Qed.

Lemma resolved_app r a b : resolved_after r (app a b) = resolved_after (resolved_after r a) b.
Proof. apply fold_left_app. Qed.

Lemma for_each_ext {A} (f g : A -> StateM DnsUtilsLinux unit) (l : list A) : (forall a, f a = g a) -> for_each l f = for_each l g.
Proof. intros E. induction l as [|a l IH]; [done|]. cbn [for_each]. by rewrite E, IH. Qed.

(** The calls of each operation. *)
Lemma restore_run d : linux_restoreResolvers d =
  (true, mkLinuxDns (if 0 <? m_ifindex d then 0 else m_ifindex d) []
     (app (m_calls d) (app (omap (λ e, (λ l, SetLinkDomains e.1 l) <$> Some e.2) (m_linkDomains d))
        (if 0 <? m_ifindex d then [RevertLink (m_ifindex d)] else [])))).
Proof.
  unfold linux_restoreResolvers. rewrite gets_bind, sbind_run.
  pose proof (each_calls (λ e, Some e.2) (m_linkDomains d) d) as E. cbn beta iota in E.
  assert (for_each (m_linkDomains d) set_link_domains = for_each (m_linkDomains d) (λ e, set_link_domains (e.1, e.2))) as ->
    by (apply for_each_ext; by intros []).
  rewrite E, sbind_run. cbn [modify snd m_ifindex m_calls m_linkDomains]. rewrite gets_bind. cbn [m_ifindex]. rewrite sbind_run.
  destruct (0 <? m_ifindex d); cbn; by rewrite <- ?app_assoc, ?app_nil_r.
Qed.

Definition dropped (e : Z * list DnsLinkDomain) : option (list DnsLinkDomain) :=
  if bool_decide (root ∈ e.2) then Some (drop_root e.2) else None.
Lemma received_run l d : (dnsDomainsReceived (Some l) d).2 =
  mkLinuxDns (m_ifindex d) (collect l [])
    (app (m_calls d) (app (omap (λ e, (λ x, SetLinkDomains e.1 x) <$> dropped e) (collect l [])) [SetLinkDomains (m_ifindex d) [root]])).
Proof.
  unfold dnsDomainsReceived. rewrite sbind_run. cbn [modify snd]. rewrite gets_bind. cbn [m_linkDomains]. rewrite sbind_run.
  assert (for_each (collect l []) (λ e, if bool_decide (root ∈ e.2) then set_link_domains (e.1, drop_root e.2) else sret tt) =
    for_each (collect l []) (λ e, match dropped e with Some x => set_link_domains (e.1, x) | None => sret tt end)) as ->
    by (apply for_each_ext; intros e; unfold dropped; by destruct (bool_decide (root ∈ e.2))).
  rewrite each_calls, gets_bind. cbn [m_ifindex m_calls m_linkDomains]. unfold set_link_domains, dbus_call, modify. cbn. by rewrite <- app_assoc.
Qed.

Lemma drop_root_none l : root ∉ l -> drop_root l = l.
Proof. intros Hn. apply filter_all. intros d Hd E. by rewrite E in Hd. Qed.

(** What the reply's calls make of the domains. *)
Lemma received_domains r l i : reply_of r l -> i <> 0 ->
  default (r_domains r i) (qm_find i (collect l []) ≫= λ x, dropped (i, x)) = drop_root (r_domains r i).
Proof.
  intros Hr Hi. rewrite (collect_reply r l i Hr), (proj2 (Z.eqb_neq i 0) Hi). cbn [orb].
  destruct (decide (r_domains r i = [])) as [->|Hn]; [done|]. rewrite bool_decide_eq_false_2 by done. cbn. unfold dropped. cbn.
  case_bool_decide; [done|]. cbn. by rewrite drop_root_none.
Qed.

Lemma updated_calls nametoindex ifname resolvers :
  let i := nametoindex ifname in 0 < i ->
  (linux_updateResolvers nametoindex ifname resolvers DnsUtilsLinux_new).2 =
  mkLinuxDns i [] [SetLinkDNS i resolvers; SetLinkDefaultRoute i true; GetDomains].
Proof.
  intros i Hi. unfold linux_updateResolvers. rewrite sbind_run. cbn [modify snd]. rewrite gets_bind. cbn [m_ifindex]. fold i.
  by rewrite (proj2 (Z.leb_gt i 0)) by done.
Qed.

(** The same for the documented effects alone. *)
Lemma calls_restore nametoindex ifname resolvers r l :
  let i := nametoindex ifname in 0 < i ->
  let d1 := (linux_updateResolvers nametoindex ifname resolvers DnsUtilsLinux_new).2 in
  reply_of (resolved_after r (m_calls d1)) l ->
  let d2 := (dnsDomainsReceived (Some l) d1).2 in
  let r2 := resolved_after r (m_calls d2) in
  let d3 := (linux_restoreResolvers d2).2 in
  let r3 := resolved_after r (m_calls d3) in
  (r_dns r2 i = resolvers /\ r_default r2 i = Some true /\ r_domains r2 i = [root]) /\
  (forall j, j <> 0 -> j <> i -> r_dns r2 j = r_dns r j /\ r_default r2 j = r_default r j /\ r_domains r2 j = drop_root (r_domains r j)) /\
  (forall j, j <> i -> r_dns r3 j = r_dns r j /\ r_default r3 j = r_default r j /\ r_domains r3 j = r_domains r j) /\
  r_dns r3 i = [] /\ r_default r3 i = None /\ r_domains r3 i = [] /\ m_ifindex d3 = 0 /\ m_linkDomains d3 = [].
Proof.
  intros i Hi d1 Hr d2 r2 d3 r3.
  assert (d1 = mkLinuxDns i [] [SetLinkDNS i resolvers; SetLinkDefaultRoute i true; GetDomains]) as E1.
  { by apply updated_calls. }
  rewrite E1 in Hr. cbn [m_calls] in Hr. set (r1 := resolved_after r _) in Hr.
  assert (forall j, r_domains r1 j = r_domains r j) as D1 by done.
  set (links := collect l []). assert (qm_sorted links) as Hs by (apply collect_sorted; constructor).
  destruct (domains_after dropped links r1 Hs) as (A2 & B2 & C2).
  set (c2 := omap (λ e, (λ x, SetLinkDomains e.1 x) <$> dropped e) links) in *.
  assert (d2 = mkLinuxDns i links ([SetLinkDNS i resolvers; SetLinkDefaultRoute i true; GetDomains] ++ c2 ++ [SetLinkDomains i [root]])) as E2
    by (unfold d2; rewrite received_run, E1; done).
  assert (r2 = apply_call (resolved_after r1 c2) (SetLinkDomains i [root])) as R2
    by (unfold r2; rewrite E2; cbn [m_calls]; by rewrite !resolved_app).
  destruct (domains_after (λ e, Some e.2) links r2 Hs) as (A3 & B3 & C3).
  set (c3 := omap (λ e, (λ x, SetLinkDomains e.1 x) <$> Some e.2) links) in *.
  assert (d3 = mkLinuxDns 0 [] (m_calls d2 ++ c3 ++ [RevertLink i])) as E3.
  { unfold d3. rewrite restore_run, E2. cbn [m_ifindex m_linkDomains m_calls snd]. by rewrite (proj2 (Z.ltb_lt 0 i)). }
  assert (r3 = apply_call (resolved_after r2 c3) (RevertLink i)) as R3
    by (unfold r3; rewrite E3; cbn [m_calls]; by rewrite !resolved_app).
  assert (forall j, j <> i -> r_domains (resolved_after r2 c3) j = r_domains r j) as D3.
  { intros j Hj. rewrite C3, R2. cbn [apply_call r_domains]. unfold set_at. rewrite (proj2 (Z.eqb_neq j i)) by done. rewrite C2.
    unfold links. rewrite (collect_reply r1 l j Hr), D1. destruct (Z.eqb_spec j 0) as [->|Hj0]; [done|]. cbn [orb].
    destruct (decide (r_domains r j = [])) as [E0|Hn]; [rewrite E0; done|]. by rewrite bool_decide_eq_false_2. }
  split; [|split; [|split]].
  - rewrite R2. cbn [apply_call r_dns r_default r_domains]. rewrite A2, B2. unfold set_at. cbn. unfold set_at. by rewrite Z.eqb_refl.
  - intros j Hj0 Hj. rewrite R2. cbn [apply_call r_dns r_default r_domains]. rewrite A2, B2. unfold set_at.
    rewrite (proj2 (Z.eqb_neq j i)) by done. rewrite C2. unfold links. rewrite received_domains by done. cbn. unfold set_at.
    by rewrite (proj2 (Z.eqb_neq j i)) by done.
  - intros j Hj. rewrite R3. cbn [apply_call r_dns r_default r_domains]. unfold set_at. rewrite (proj2 (Z.eqb_neq j i)) by done.
    rewrite D3, A3, B3, R2 by done. cbn [apply_call r_dns r_default]. rewrite A2, B2. cbn. unfold set_at. by rewrite (proj2 (Z.eqb_neq j i)) by done.
  - rewrite R3, E3. cbn. unfold set_at. by rewrite Z.eqb_refl.
Qed.

(** C25. On Linux, over any systemd-resolved that accepts the calls and whose reply about
    the domains arrives before the name servers are restored (a later one is not undone:
    [late_reply_drops_domains]): once the reply is handled the tunnel has the servers,
    the default route and the root domain, and every other link has its servers and its
    domains without the root domain; restoring gives every other link its domains back
    and reverts the tunnel. *)
Theorem linux_dns_restored {R} `{Resolve1Laws R} nametoindex ifname resolvers (r : R) l :
  let i := nametoindex ifname in 0 < i ->
  let d1 := (linux_updateResolvers nametoindex ifname resolvers DnsUtilsLinux_new).2 in
  let d2 := (dnsDomainsReceived (Some l) d1).2 in
  let d3 := (linux_restoreResolvers d2).2 in
  reply_of (links (served r (m_calls d1))) l -> accepts r (m_calls d3) = true ->
  let before := links r in
  let during := links (served r (m_calls d2)) in
  let after := links (served r (m_calls d3)) in
  (r_dns during i = resolvers /\ r_default during i = Some true /\ r_domains during i = [root]) /\
  (forall j, j <> 0 -> j <> i ->
     r_dns during j = r_dns before j /\ r_default during j = r_default before j /\
     r_domains during j = drop_root (r_domains before j)) /\
  (forall j, j <> i ->
     r_dns after j = r_dns before j /\ r_default after j = r_default before j /\ r_domains after j = r_domains before j) /\
  r_dns after i = [] /\ r_default after i = None /\ r_domains after i = [] /\ m_ifindex d3 = 0 /\ m_linkDomains d3 = [].
Proof.
  intros i Hi d1 d2 d3 Hr Ha before during after.
  assert (exists c2 c3, m_calls d2 = app (m_calls d1) c2 /\ m_calls d3 = app (m_calls d2) c3) as (c2 & c3 & E2 & E3).
  { unfold d3. rewrite restore_run. unfold d2. rewrite received_run. cbn [m_calls snd]. by do 2 eexists. }
  assert (accepts r (m_calls d2) = true) as Ha2 by (rewrite E3 in Ha; by apply accepts_prefix in Ha).
  assert (accepts r (m_calls d1) = true) as Ha1 by (rewrite E2 in Ha2; by apply accepts_prefix in Ha2).
  pose proof (served_links _ r Ha) as L3. pose proof (served_links _ r Ha2) as L2.
  destruct (calls_restore nametoindex ifname resolvers (links r) l Hi) as (A & B & C & D).
  { intros j Hj. rewrite (Hr j Hj). apply (served_links _ r Ha1). }
  fold d1 d2 d3 in A, B, C, D. fold i in A, B, C, D. unfold before, during, after. split; [|split; [|split]].
  - destruct (L2 i) as (-> & -> & ->). exact A.
  - intros j Hj0 Hj. destruct (L2 j) as (-> & -> & ->). by apply B.
  - intros j Hj. destruct (L3 j) as (-> & -> & ->). by apply C.
  - destruct (L3 i) as (-> & -> & ->). exact D.
Qed.

(** A reply that comes after the name servers were restored: every other link loses the
    root domain for good, and a domain is set for the link 0 (shown for a service that
    gives every call its documented effect). *)
Theorem late_reply_drops_domains nametoindex ifname resolvers r l :
  let i := nametoindex ifname in 0 < i ->
  let d1 := (linux_updateResolvers nametoindex ifname resolvers DnsUtilsLinux_new).2 in
  reply_of (resolved_after r (m_calls d1)) l ->
  let d3 := (dnsDomainsReceived (Some l) (linux_restoreResolvers d1).2).2 in
  m_ifindex d3 = 0 /\ SetLinkDomains 0 [root] ∈ m_calls d3 /\
  forall j, j <> 0 -> j <> i -> r_domains (resolved_after r (m_calls d3)) j = drop_root (r_domains r j).
Proof.
  intros i Hi d1 Hr d3.
  assert (d1 = mkLinuxDns i [] [SetLinkDNS i resolvers; SetLinkDefaultRoute i true; GetDomains]) as E1.
  { by apply updated_calls. }
  rewrite E1 in Hr. cbn [m_calls] in Hr.
  assert ((linux_restoreResolvers d1).2 = mkLinuxDns 0 [] [SetLinkDNS i resolvers; SetLinkDefaultRoute i true; GetDomains; RevertLink i]) as E2.
  { rewrite restore_run, E1. cbn [m_ifindex m_linkDomains m_calls snd]. by rewrite (proj2 (Z.ltb_lt 0 i)). }
  set (links := collect l []). assert (qm_sorted links) as Hs by (apply collect_sorted; constructor).
  set (c := omap (λ e, (λ x, SetLinkDomains e.1 x) <$> dropped e) links).
  assert (d3 = mkLinuxDns 0 links ([SetLinkDNS i resolvers; SetLinkDefaultRoute i true; GetDomains; RevertLink i] ++ c ++ [SetLinkDomains 0 [root]])) as E3
    by (unfold d3; rewrite received_run, E2; done).
  rewrite E3. split; [done|]. cbn [m_calls]. split; [rewrite !elem_of_app; right; right; by apply list_elem_of_singleton|].
  intros j Hj0 Hj. rewrite !resolved_app. set (r1 := resolved_after r [_; _; _; _]). destruct (domains_after dropped links r1 Hs) as (_ & _ & C2).
  fold c in C2. cbn [resolved_after fold_left apply_call r_domains]. unfold set_at at 1. rewrite (proj2 (Z.eqb_neq j 0)) by done.
  change (fold_left apply_call c r1) with (resolved_after r1 c). rewrite C2.
  assert (r_domains r1 j = r_domains r j) as -> by (cbn; unfold set_at; by rewrite (proj2 (Z.eqb_neq j i))).
  change (r_domains r j) with (r_domains (resolved_after r [SetLinkDNS i resolvers; SetLinkDefaultRoute i true; GetDomains]) j).
  by apply received_domains.
Qed.
End LinuxDns.

(** ** Samples *)
Section Samples.
Import MacDns.
Record SimStore := mkSimStore { ss_keys : list CFValue; ss_values : gmap string (gmap string CFValue) }.
#[local] Instance sim_store : DynamicStore SimStore := {
  copyKeyList w := Some (ss_keys w);
  copyValue p w := ss_values w !! p;
  setValue p d w := (tt, mkSimStore (ss_keys w) (<[p := d]> (ss_values w)));
  removeValue p w := (tt, mkSimStore (ss_keys w) (delete p (ss_values w)))
}.
#[local] Instance sim_store_laws : StoreLaws SimStore.
Proof.
  split; intros; cbn; (split; [done|]); intros q; case_bool_decide as E.
  - subst. apply lookup_insert_eq.
  - by apply lookup_insert_ne.
  - subst. apply lookup_delete_eq.
  - by apply lookup_delete_ne.
Qed.
#[local] Instance sim_printer : AddressPrinter := λ h, match h with IPv4Address a => number a | _ => "::" end.

Definition sample_keys : list CFValue := [CFString "Setup:/Network/Service/A1"; CFString "Setup:/Network/Service/B2"; CFOther].
Definition sample_dns : gmap string CFValue := {[ kSCPropNetDNSDomainName := CFString "home" ]}.
Definition sample_store : SimStore := mkSimStore sample_keys {[ dns_path "A1" := sample_dns ]}.
Lemma sample_dns_plain : plain_dict sample_dns.
Proof.
  split; [intros E; apply (f_equal (λ c, c !! kSCPropNetDNSDomainName)) in E; by vm_compute in E|].
  intros k v E. unfold sample_dns in E. apply lookup_singleton_Some in E as [<- <-]. left. split; [done|]. by exists "home".
Qed.

Lemma macos_dns_restored_witness :
  let d1 := (mac_updateResolvers "utun3" [IPv4Address 16843009] (DnsUtilsMacos_new sample_store)).2 in
  copyValue (dns_path "B2") (m_scStore d1) = Some (dns_config [IPv4Address 16843009]) /\
  forall q, copyValue q (m_scStore (mac_restoreResolvers d1).2) = copyValue q sample_store.
Proof.
  pose proof (macos_dns_restored "utun3" [IPv4Address 16843009] sample_keys sample_store eq_refl) as T.
  destruct (mac_updateResolvers "utun3" [IPv4Address 16843009] (DnsUtilsMacos_new sample_store)) as [ok d1].
  destruct T as (_ & V & _ & R).
  - by apply (bool_decide_unpack _).
  - intros u c Hu E. unfold sample_store in E. cbn in E. apply lookup_singleton_Some in E as [_ <-]. exact sample_dns_plain.
  - cbn zeta. cbn [snd]. split; [apply V; by apply (bool_decide_unpack _)|]. destruct (mac_restoreResolvers d1) as [ok' d2]. by destruct R as (_ & _ & R).
Defined.

Lemma second_update_forgets_witness :
  let d1 := (mac_updateResolvers "utun3" [IPv4Address 16843009] (DnsUtilsMacos_new sample_store)).2 in
  let d2 := (mac_updateResolvers "utun3" [IPv4Address 134744072] d1).2 in
  copyValue (dns_path "A1") (m_scStore (mac_restoreResolvers d2).2) = Some (dns_config [IPv4Address 16843009]).
Proof.
  apply (second_update_forgets "utun3" [IPv4Address 16843009] [IPv4Address 134744072] sample_keys sample_store "A1");
    [reflexivity|by apply (bool_decide_unpack _)|by apply (bool_decide_unpack _)].
Defined.
End Samples.

Section LinuxSamples.
Import LinuxDns.
(** The link 3 has a root search domain and one of a company. *)
Definition sample_link : list DnsLinkDomain := [mkLinkDomain "." true; mkLinkDomain "corp" false].
Definition sample_resolved : Resolved := mkResolved (λ _, []) (λ i, if i =? 3 then sample_link else []) (λ _, None).
Definition sample_reply : list DnsDomain := [mkDomain 3 (mkLinkDomain "." true); mkDomain 0 (mkLinkDomain "x" false); mkDomain 3 (mkLinkDomain "corp" false)].
Lemma sample_reply_of calls : calls = [SetLinkDNS 7 [IPv4Address 1]; SetLinkDefaultRoute 7 true; GetDomains] ->
  reply_of (resolved_after sample_resolved calls) sample_reply.
Proof.
  intros -> i Hi. destruct (decide (3 = i)) as [<-|H3]; [done|]. unfold sample_reply.
  rewrite !filter_cons_False by (cbn; congruence). cbn. by rewrite (proj2 (Z.eqb_neq i 3)) by congruence.
Qed.

(** A service that refuses calls on the links a manager has. *)
#[local] Instance managed_resolved : Resolve1 (list Z * Resolved) := {
  resolve_call c r :=
    let link := match c with
                | SetLinkDNS i _ | SetLinkDomains i _ | SetLinkDefaultRoute i _ | RevertLink i => i
                | GetDomains => 0 end in
    if existsb (Z.eqb link) r.1 then (false, r) else (true, (r.1, apply_call r.2 c));
  links := snd
}.
#[local] Instance managed_resolved_laws : Resolve1Laws (list Z * Resolved).
Proof. split; intros c r; cbn; by case_match. Qed.

Lemma linux_dns_restored_witness :
  let d1 := (linux_updateResolvers (λ _, 7) "amn0" [IPv4Address 1] DnsUtilsLinux_new).2 in
  let d2 := (dnsDomainsReceived (Some sample_reply) d1).2 in
  r_domains (links (served ([5], sample_resolved) (m_calls d2))) 3 = [mkLinkDomain "corp" false] /\
  r_domains (links (served ([5], sample_resolved) (m_calls (linux_restoreResolvers d2).2))) 3 = sample_link.
Proof.
  destruct (linux_dns_restored (λ _, 7) "amn0" [IPv4Address 1] ([5], sample_resolved) sample_reply) as (_ & A & B & _);
    [lia|exact (sample_reply_of _ eq_refl)|reflexivity|].
  split; [exact (proj2 (proj2 (A 3 ltac:(lia) ltac:(lia))))|exact (proj2 (proj2 (B 3 ltac:(lia))))].
Defined.

Lemma late_reply_drops_domains_witness :
  let d1 := (linux_updateResolvers (λ _, 7) "amn0" [IPv4Address 1] DnsUtilsLinux_new).2 in
  let d3 := (dnsDomainsReceived (Some sample_reply) (linux_restoreResolvers d1).2).2 in
  r_domains (resolved_after sample_resolved (m_calls d3)) 3 = [mkLinkDomain "corp" false].
Proof.
  destruct (late_reply_drops_domains (λ _, 7) "amn0" [IPv4Address 1] sample_resolved sample_reply) as (_ & _ & A);
    [lia|by apply sample_reply_of|]. exact (A 3 ltac:(lia) ltac:(lia)).
Defined.
End LinuxSamples.
