(* ===== verification/WireguardUtilsUnix.v ===== *)
(** * The tunnel on Linux and macOS

    Model of [WireguardUtilsLinux] (client/platforms/linux/daemon/
    wireguardutilslinux.cpp) over an abstract route monitor and tunnel process.
    [WireguardUtilsMacos] (client/platforms/macos/daemon/wireguardutilsmacos.cpp)
    is the same code over [MacosRouteMonitor]. The class implements
    [WireguardUtils], the interface the daemon is proved against. *)
From Stdlib Require Import ZArith Lia Ascii String.
From stdpp Require Import base gmap list option strings.
From S2P Require Import Prelude HostAddress QtString IpAddress InterfaceConfig.
From S2P Require Import WireguardUtils Daemon DaemonProperties Uapi LinuxRouteMonitor LinuxFirewall LinuxKillSwitch.
Local Open Scope string_scope.
Local Open Scope Z_scope.

(** What the class asks of its route monitor. *)
Class RouteMonitor (M : Type) := {
  rm_create : string -> M;
  rm_insertRoute : IPAddress -> StateM M bool;
  rm_deleteRoute : IPAddress -> StateM M bool;
  rm_addExclusionRoute : IPAddress -> StateM M bool;
  rm_deleteExclusionRoute : IPAddress -> StateM M bool
}.

(** What it asks of the machine [E]: starting the process and waiting for it,
    waiting for the name of its interface (null when it does not come), one
    exchange on the control socket (the octets written, and the reply up to the
    blank line, or nothing on an error or timeout), stopping the process, and
    the firewall. *)
Class TunnelHost (E : Type) := {
  start_tunnel : StateM E bool;
  waitForTunnelName : StateM E QString;
  uapi_exchange : string -> string -> StateM E (option string);
  stop_tunnel : StateM E unit;
  host_applyFirewallRules : FirewallParams -> StateM E unit;
  host_uninstallFirewall : StateM E unit
}.

Record WireguardUtilsUnix (E M : Type) := mkUnix {
  m_ifname : QString;
  m_tunnel : bool;               (* m_tunnel.state() != NotRunning *)
  m_rtmonitor : option M;
  m_host : E
}.
Arguments mkUnix {E M} _ _ _ _.
Arguments m_ifname {E M} _.
Arguments m_tunnel {E M} _.
Arguments m_rtmonitor {E M} _.
Arguments m_host {E M} _.

Section Unix.
Context {E M : Type} `{TunnelHost E} `{RouteMonitor M} `{KeyText} `{AddressPrinter} `{AddressParser}.
Implicit Types (w : WireguardUtilsUnix E M).

Definition set_ifname (n : QString) w := mkUnix n (m_tunnel w) (m_rtmonitor w) (m_host w).
Definition set_tunnel (b : bool) w := mkUnix (m_ifname w) b (m_rtmonitor w) (m_host w).
Definition set_rtmonitor (r : option M) w := mkUnix (m_ifname w) (m_tunnel w) r (m_host w).
Definition set_host (h : E) w := mkUnix (m_ifname w) (m_tunnel w) (m_rtmonitor w) h.

Definition on_host {A} (m : StateM E A) : StateM (WireguardUtilsUnix E M) A := λ w,
  let '(a, h) := m (m_host w) in (a, set_host h w).
(** A call through [m_rtmonitor]; false where it is null. *)
Definition on_monitor (m : StateM M bool) : StateM (WireguardUtilsUnix E M) bool := λ w,
  match m_rtmonitor w with
  | None => (false, w)
  | Some r => let '(ok, r') := m r in (ok, set_rtmonitor (Some r') w)
  end.

(** The reply of a command; the text of a null string is empty. *)
Definition uapiCommand (command : string) : StateM (WireguardUtilsUnix E M) string :=
  match pad_message 3 command with
  | Ret message =>
      ifname <- gets m_ifname ;;
      reply <- on_host (uapi_exchange (qchars ifname) message) ;;
      sret (match reply with Some r => trimmed r | None => "" end)
  | _ => sret ""
  end.

Definition unix_addInterface (config : InterfaceConfig) : StateM (WireguardUtilsUnix E M) bool :=
  running <- gets m_tunnel ;;
  if running then sret false
  else
    started <- on_host start_tunnel ;;
    if negb started then modify (set_tunnel false) ;; sret false
    else
      modify (set_tunnel true) ;;
      name <- on_host waitForTunnelName ;;
      modify (set_ifname name) ;;
      if isNull name then modify (set_tunnel false) ;; sret false
      else
        modify (set_rtmonitor (Some (rm_create (qchars name)))) ;;
        reply <- uapiCommand (interface_message config) ;;
        if negb (uapiErrno reply =? 0) then sret false
        else
          (if m_killSwitchEnabled config
           then on_host (host_applyFirewallRules (killswitch_params config)) else sret tt) ;;
          sret true.

Definition unix_deleteInterface : StateM (WireguardUtilsUnix E M) bool :=
  modify (set_rtmonitor None) ;;
  running <- gets m_tunnel ;;
  if negb running then sret false
  else
    on_host stop_tunnel ;;
    modify (set_tunnel false) ;;
    on_host host_uninstallFirewall ;;
    sret true.

Definition unix_updatePeer (config : InterfaceConfig) : StateM (WireguardUtilsUnix E M) bool :=
  match peer_message config with
  | None => sret false
  | Some message =>
      (if bool_decide (m_hopType config <> MultiHopExit) then
         on_monitor (rm_addExclusionRoute (fromString (qchars (m_serverIpv4AddrIn config)))) ;;
         on_monitor (rm_addExclusionRoute (fromString (qchars (m_serverIpv6AddrIn config))))
       else sret false) ;;
      reply <- uapiCommand message ;;
      sret (uapiErrno reply =? 0)
  end.

Definition unix_deletePeer (config : InterfaceConfig) : StateM (WireguardUtilsUnix E M) bool :=
  (if bool_decide (m_hopType config <> MultiHopExit) then
     on_monitor (rm_deleteExclusionRoute (fromString (qchars (m_serverIpv4AddrIn config)))) ;;
     on_monitor (rm_deleteExclusionRoute (fromString (qchars (m_serverIpv6AddrIn config))))
   else sret false) ;;
  reply <- uapiCommand (remove_message config) ;;
  sret (uapiErrno reply =? 0).

Definition unix_getPeerStatus : StateM (WireguardUtilsUnix E M) (list PeerStatus) :=
  reply <- uapiCommand "get=1" ;;
  sret (peers_of reply).

(** [a && b] *)
Definition both (a b : StateM M bool) : StateM M bool :=
  ok <- a ;; if ok then b else sret false.

Definition unix_updateRoutePrefix (prefix : IPAddress) : StateM (WireguardUtilsUnix E M) bool :=
  on_monitor (
    if 0 <? m_prefixLength prefix then rm_insertRoute prefix
    else
      match protocol (m_address prefix) with
      | IPv4Protocol =>
          both (rm_insertRoute (fromString "0.0.0.0/1")) (rm_insertRoute (fromString "128.0.0.0/1"))
      | IPv6Protocol =>
          both (rm_insertRoute (fromString "::/1")) (rm_insertRoute (fromString "8000::/1"))
      | UnknownNetworkLayerProtocol => sret false
      end).

Definition unix_deleteRoutePrefix (prefix : IPAddress) : StateM (WireguardUtilsUnix E M) bool :=
  on_monitor (
    if 0 <? m_prefixLength prefix then rm_insertRoute prefix
    else
      match protocol (m_address prefix) with
      | IPv4Protocol =>
          both (rm_deleteRoute (fromString "0.0.0.0/1")) (rm_deleteRoute (fromString "128.0.0.0/1"))
      | IPv6Protocol =>
          both (rm_deleteRoute (fromString "::/1")) (rm_deleteRoute (fromString "8000::/1"))
      | UnknownNetworkLayerProtocol => sret false
      end).

Definition unix_addExclusionRoute (prefix : IPAddress) : StateM (WireguardUtilsUnix E M) bool :=
  on_monitor (rm_addExclusionRoute prefix).
Definition unix_deleteExclusionRoute (prefix : IPAddress) : StateM (WireguardUtilsUnix E M) bool :=
  on_monitor (rm_deleteExclusionRoute prefix).

#[export] Instance unix_wgutils : WireguardUtils (WireguardUtilsUnix E M) := {
  interfaceExists := m_tunnel;
  interfaceName := λ w, qchars (m_ifname w);
  addInterface := unix_addInterface;
  deleteInterface := unix_deleteInterface;
  updatePeer := unix_updatePeer;
  deletePeer := unix_deletePeer;
  getPeerStatus := unix_getPeerStatus;
  updateRoutePrefix := unix_updateRoutePrefix;
  deleteRoutePrefix := unix_deleteRoutePrefix;
  wg_addExclusionRoute := unix_addExclusionRoute;
  wg_deleteExclusionRoute := unix_deleteExclusionRoute
}.

(** The other utilities of the daemon (LinuxDaemon, MacOSDaemon) work on the machine. *)
#[export] Instance unix_platform `{!DaemonPlatform E} : DaemonPlatform (WireguardUtilsUnix E M) := {
  supportIPUtils := supportIPUtils (W := E);
  addInterfaceIPs := λ c, on_host (addInterfaceIPs c);
  setMTUAndUp := λ c, on_host (setMTUAndUp c);
  supportDnsUtils := supportDnsUtils (W := E);
  updateResolvers := λ i l, on_host (updateResolvers i l);
  restoreResolvers := on_host restoreResolvers;
  run := λ op c, on_host (run op c);
  prepareActivation := λ c, on_host (prepareActivation c);
  onActivationFailure := on_host onActivationFailure
}.
End Unix.

(** The monitor of Linux. *)
#[export] Instance linux_monitor `{AddressPrinter} `{NetlinkHost} : RouteMonitor LinuxRouteMonitor := {
  rm_create := λ _, mkMonitor 0 [] [];
  rm_insertRoute := rtm_insertRoute;
  rm_deleteRoute := rtm_deleteRoute;
  rm_addExclusionRoute := rtm_addExclusionRoute;
  rm_deleteExclusionRoute := rtm_deleteExclusionRoute
}.

(** The prefixes the code names by literals, as [QHostAddress::parseSubnet]
    reads them. *)
Definition half4 (b : bool) : IPAddress := mkIPAddress (IPv4Address (if b then 2 ^ 31 else 0)) 1.
Definition half6 (b : bool) : IPAddress :=
  mkIPAddress (IPv6Address ((if b then 128 else 0) :: replicate 15 0)) 1.

Class RouteLiterals `{AddressParser} : Prop := {
  lit_low4 : fromString "0.0.0.0/1" = half4 false;
  lit_high4 : fromString "128.0.0.0/1" = half4 true;
  lit_low6 : fromString "::/1" = half6 false;
  lit_high6 : fromString "8000::/1" = half6 true
}.

(** The destinations a prefix is routed by. *)
Definition route_destinations (p : IPAddress) : list IPAddress :=
  if 0 <? m_prefixLength p then [p]
  else match protocol (m_address p) with
       | IPv4Protocol => [half4 false; half4 true]
       | IPv6Protocol => [half6 false; half6 true]
       | UnknownNetworkLayerProtocol => []
       end.

(** ** Lemmas *)
Lemma half_covers a x (h : bool -> IPAddress) :
  (∀ b, protocol (m_address (h b)) = protocol (m_address a) /\ net (h b) = [b]) ->
  net a = [] -> (protocol x = protocol (m_address a) -> addr_bits x <> []) ->
  covered [h false; h true] x <-> covers a x.
Proof.
  intros Hh Ha Hx. split.
  - intros (d & Hd & P & _).
    assert (∃ b, d = h b) as [b ->].
    { apply list_elem_of_In in Hd. cbn in Hd. destruct Hd as [<-|[<-|[]]]; by eexists. }
    destruct (Hh b) as [Pb _]. split; [congruence|]. rewrite Ha. apply prefix_nil.
  - intros [P _]. specialize (Hx P). destruct (addr_bits x) as [|b l] eqn:B; [done|].
    exists (h b). destruct (Hh b) as [Pb Nb]. split.
    + apply list_elem_of_In. destruct b; cbn; auto.
    + split; [congruence|]. rewrite Nb, B. by exists l.
Qed.

Lemma routes_cover p x :
  ip_wf p -> addr_wf x -> covered (route_destinations p) x <-> covers p x.
Proof.
  intros (Wa & Wp & Wl) Wx. unfold route_destinations.
  destruct (Z.ltb_spec 0 (m_prefixLength p)) as [Pos|Zero].
  { split; [by intros (d & ->%list_elem_of_singleton & C)|].
    intros C. exists p. split; [by apply list_elem_of_singleton | done]. }
  assert (net p = []) as N by (unfold net, plen; by replace (Z.to_nat (m_prefixLength p)) with 0%nat by lia).
  destruct (m_address p) as [|a|l] eqn:A; cbn in Wp; [done|..]; cbn [protocol].
  - apply half_covers; [|done|].
    + intros b. rewrite A. by destruct b.
    + rewrite A. intros Px. destruct x; cbn in Px |- *; try done.
  - apply half_covers; [|done|].
    + intros b. rewrite A. by destruct b.
    + rewrite A. intros Px. destruct x as [|y|y]; cbn in Px |- *; try done.
      destruct Wx as [L _]. by destruct y.
Qed.

Lemma route_destinations_wf p :
  ip_wf p -> Forall (λ d, ip_wf d /\ 0 < m_prefixLength d) (route_destinations p).
Proof.
  intros W. unfold route_destinations. destruct (Z.ltb_spec 0 (m_prefixLength p)); [by apply List.Forall_cons|].
  destruct W as (_ & Wp & _). destruct (protocol (m_address p)); [..|done];
    by apply (bool_decide_unpack _).
Qed.

Section Linux.
Context {E : Type} `{TunnelHost E} `{KeyText} `{NetlinkHostLaws} `{RouteLiterals}.
Implicit Types (w : WireguardUtilsUnix E LinuxRouteMonitor).

(** A kernel that takes every message, and an interface that exists. *)
Hypothesis interface_there : 0 < if_nametoindex WG_INTERFACE.
Hypothesis kernel_takes : ∀ bytes, sendto bytes = Z.of_nat (length bytes).

(** The messages between two states of the monitor are the requests of [op] for
    the destinations [ds], in order. *)
Definition requests_sent (op : RouteOp) (m m' : LinuxRouteMonitor) (ds : list IPAddress) : Prop :=
  ∃ msgs, nl_sent m' = app (nl_sent m) msgs /\
    Forall2 (λ bytes d, ∃ seq,
      decode_route bytes = Some (request_for (op_action op) (op_flags op) (op_type op) seq d)) msgs ds.

Lemma op_sent op d m :
  ip_wf d -> ∃ m', run_op op d m = (true, m') /\ requests_sent op m m' [d].
Proof.
  intros W. destruct (send_route op d m W interface_there) as (bytes & R & D & B).
  eexists. split.
  - rewrite R, kernel_takes. f_equal. apply Z.eqb_eq, Z.mod_small.
    change sizeof_buf with 64 in B. lia.
  - exists [bytes]. split; [done|]. constructor; [by eexists | constructor].
Qed.

Lemma both_sent op d1 d2 m :
  ip_wf d1 -> ip_wf d2 ->
  ∃ m', both (run_op op d1) (run_op op d2) m = (true, m') /\ requests_sent op m m' [d1; d2].
Proof.
  intros W1 W2. destruct (op_sent op d1 m W1) as (m1 & R1 & msgs1 & S1 & F1).
  destruct (op_sent op d2 m1 W2) as (m2 & R2 & msgs2 & S2 & F2).
  exists m2. split.
  - unfold both. rewrite sbind_run, R1. cbn. exact R2.
  - exists (app msgs1 msgs2). split; [by rewrite S2, S1, app_assoc|]. exact (Forall2_app F1 F2).
Qed.

Lemma route_halves op p m :
  ip_wf p -> m_prefixLength p <= 0 ->
  ∃ m', match protocol (m_address p) with
        | IPv4Protocol =>
            both (run_op op (fromString "0.0.0.0/1")) (run_op op (fromString "128.0.0.0/1"))
        | IPv6Protocol =>
            both (run_op op (fromString "::/1")) (run_op op (fromString "8000::/1"))
        | UnknownNetworkLayerProtocol => sret false
        end m = (true, m') /\ requests_sent op m m' (route_destinations p).
Proof.
  intros (_ & Wp & _) Z0. rewrite lit_low4, lit_high4, lit_low6, lit_high6.
  unfold route_destinations. rewrite (proj2 (Z.ltb_ge 0 (m_prefixLength p))) by done.
  destruct (protocol (m_address p)); [..|done]; apply both_sent; by apply (bool_decide_unpack _).
Qed.

Lemma unix_route_updated p w m :
  m_rtmonitor w = Some m -> ip_wf p ->
  ∃ m', unix_updateRoutePrefix p w = (true, set_rtmonitor (Some m') w) /\
        requests_sent InsertRoute m m' (route_destinations p).
Proof.
  intros Em W. unfold unix_updateRoutePrefix, on_monitor. rewrite Em.
  destruct (Z.ltb_spec 0 (m_prefixLength p)) as [Pos|Zero].
  - destruct (op_sent InsertRoute p m W) as (m' & R & S). exists m'.
    cbn [run_op] in R. change (rm_insertRoute p) with (rtm_insertRoute p). rewrite R. split; [done|].
    unfold route_destinations. by rewrite (proj2 (Z.ltb_lt _ _) Pos).
  - destruct (route_halves InsertRoute p m W Zero) as (m' & R & S). exists m'.
    cbn [run_op] in R. split; [|exact S].
    change (@rm_insertRoute LinuxRouteMonitor _) with rtm_insertRoute. by rewrite R.
Qed.

Lemma unix_route_deleted p w m :
  m_rtmonitor w = Some m -> ip_wf p ->
  ∃ m', unix_deleteRoutePrefix p w = (true, set_rtmonitor (Some m') w) /\
        requests_sent (if 0 <? m_prefixLength p then InsertRoute else DeleteRoute) m m'
          (route_destinations p).
Proof.
  intros Em W. unfold unix_deleteRoutePrefix, on_monitor. rewrite Em.
  destruct (Z.ltb_spec 0 (m_prefixLength p)) as [Pos|Zero].
  - destruct (op_sent InsertRoute p m W) as (m' & R & S). exists m'.
    cbn [run_op] in R. change (rm_insertRoute p) with (rtm_insertRoute p). rewrite R. split; [done|].
    unfold route_destinations. by rewrite (proj2 (Z.ltb_lt _ _) Pos).
  - destruct (route_halves DeleteRoute p m W Zero) as (m' & R & S). exists m'.
    cbn [run_op] in R. split; [|exact S].
    change (@rm_deleteRoute LinuxRouteMonitor _) with rtm_deleteRoute. by rewrite R.
Qed.

End Linux.

(** ** The life of the interface *)
Section Interface.
Context {E M : Type} `{TunnelHost E} `{RouteMonitor M} `{KeyText} `{AddressPrinter} `{AddressParser}.

Lemma keeps_on_host {A} (m : StateM E A) : keeps m_tunnel (on_host (M := M) m).
Proof. intros w. unfold on_host. by destruct (m (m_host w)). Qed.
Lemma keeps_monitor_on_host {A} (m : StateM E A) : keeps m_rtmonitor (on_host (M := M) m).
Proof. intros w. unfold on_host. by destruct (m (m_host w)). Qed.
Lemma keeps_on_monitor (m : StateM M bool) : keeps m_tunnel (on_monitor (E := E) m).
Proof. intros w. unfold on_monitor. destruct (m_rtmonitor w) as [r|]; [by destruct (m r) | done]. Qed.
Lemma keeps_uapiCommand c : keeps m_tunnel (uapiCommand (E := E) (M := M) c).
Proof.
  unfold uapiCommand. destruct (pad_message 3 c); [|apply keeps_ret..].
  apply keeps_bind; [apply keeps_gets | intros ?].
  apply keeps_bind; [apply keeps_on_host | intros ?; apply keeps_ret].
Qed.
Lemma keeps_monitor_uapiCommand c : keeps m_rtmonitor (uapiCommand (E := E) (M := M) c).
Proof.
  unfold uapiCommand. destruct (pad_message 3 c); [|apply keeps_ret..].
  apply keeps_bind; [apply keeps_gets | intros ?].
  apply keeps_bind; [apply keeps_monitor_on_host | intros ?; apply keeps_ret].
Qed.

Lemma add_interface_up c (w : WireguardUtilsUnix E M) :
  (unix_addInterface c w).1 = true ->
  m_tunnel (unix_addInterface c w).2 = true /\ is_Some (m_rtmonitor (unix_addInterface c w).2).
Proof.
  unfold unix_addInterface. rewrite gets_bind. destruct (m_tunnel w); [done|].
  rewrite sbind_run. destruct (on_host start_tunnel w) as [[] w1]; cbn [fst snd negb]; [|done].
  rewrite sbind_run. cbn [modify fst snd]. rewrite sbind_run.
  pose proof (keeps_on_host waitForTunnelName (set_tunnel true w1)) as K.
  destruct (on_host waitForTunnelName (set_tunnel true w1)) as [name w2]. cbn [fst snd] in *.
  rewrite sbind_run. cbn [modify fst snd]. destruct (isNull name); [done|].
  rewrite sbind_run. cbn [modify fst snd]. rewrite sbind_run.
  set (w3 := set_rtmonitor _ _).
  pose proof (keeps_uapiCommand (interface_message c) w3) as K3.
  pose proof (keeps_monitor_uapiCommand (interface_message c) w3) as M3.
  destruct (uapiCommand (interface_message c) w3) as [reply w4]. cbn [fst snd] in *.
  destruct (uapiErrno reply =? 0); cbn [negb]; [|done]. rewrite sbind_run. intros _.
  assert (Kf : ∀ b : bool,
    keeps m_tunnel (if b then on_host (M := M) (host_applyFirewallRules (killswitch_params c)) else sret tt) /\
    keeps m_rtmonitor (if b then on_host (M := M) (host_applyFirewallRules (killswitch_params c)) else sret tt)).
  { intros []; split; auto using keeps_on_host, keeps_monitor_on_host, keeps_ret. }
  destruct (Kf (m_killSwitchEnabled c)) as [Kt Km]. cbn [sret snd]. rewrite Kt, Km, K3, M3.
  split; [exact K | by eexists].
Qed.

Lemma delete_interface_down (w : WireguardUtilsUnix E M) :
  m_rtmonitor (unix_deleteInterface w).2 = None /\
  ((unix_deleteInterface w).1 = true -> m_tunnel (unix_deleteInterface w).2 = false).
Proof.
  unfold unix_deleteInterface. rewrite sbind_run. cbn [modify fst snd]. rewrite gets_bind.
  destruct (m_tunnel (set_rtmonitor None w)) eqn:T; cbn [negb]; [|done].
  rewrite sbind_run, sbind_run. cbn [modify fst snd]. rewrite sbind_run. cbn [sret fst snd].
  set (w1 := set_tunnel false _).
  rewrite (keeps_monitor_on_host host_uninstallFirewall w1), (keeps_on_host host_uninstallFirewall w1).
  split; [|done]. apply (keeps_monitor_on_host stop_tunnel (set_rtmonitor None w)).
Qed.

Lemma keeps_exclusions (b : bool) (x y : StateM M bool) :
  keeps m_tunnel (if b then on_monitor (E := E) x ;; on_monitor y else sret false).
Proof.
  destruct b; [|apply keeps_ret]. apply keeps_bind; [|intros ?]; apply keeps_on_monitor.
Qed.

Lemma keeps_command c : keeps m_tunnel (reply <- uapiCommand (E := E) (M := M) c ;; sret (uapiErrno reply =? 0)).
Proof. apply keeps_bind; [apply keeps_uapiCommand | intros ?; apply keeps_ret]. Qed.

Lemma keeps_updatePeer c : keeps m_tunnel (unix_updatePeer (E := E) (M := M) c).
Proof.
  unfold unix_updatePeer. destruct (peer_message c); [|apply keeps_ret].
  apply keeps_bind; [apply keeps_exclusions | intros ?; apply keeps_command].
Qed.

Lemma keeps_deletePeer c : keeps m_tunnel (unix_deletePeer (E := E) (M := M) c).
Proof. apply keeps_bind; [apply keeps_exclusions | intros ?; apply keeps_command]. Qed.

Lemma keeps_getPeerStatus : keeps m_tunnel (unix_getPeerStatus (E := E) (M := M)).
Proof. apply keeps_bind; [apply keeps_uapiCommand | intros ?; apply keeps_ret]. Qed.

(** So the platform of Linux and macOS tracks its interface as the daemon relies on. *)
#[export] Instance unix_interface `{!DaemonPlatform E} : InterfaceLaws (WireguardUtilsUnix E M).
Proof.
  split; intros; cbn in *; try apply keeps_on_host; try apply keeps_on_monitor.
  - by apply add_interface_up.
  - by apply delete_interface_down.
  - apply keeps_updatePeer.
  - apply keeps_deletePeer.
  - apply keeps_getPeerStatus.
Qed.
End Interface.

(** ** A machine for the examples *)
#[local] Instance sample_tunnel : TunnelHost unit := {
  start_tunnel := sret true;
  waitForTunnelName := sret (qstr "amn0");
  uapi_exchange := λ _ _, sret (Some ("errno=0" +:+ nl +:+ nl));
  stop_tunnel := sret tt;
  host_applyFirewallRules := λ _, sret tt;
  host_uninstallFirewall := sret tt
}.
#[local] Instance literal_parser : AddressParser := {
  parseHost := @parseHost ipv4_parser;
  parseSubnet := λ s,
    if String.eqb s "::/1" then (m_address (half6 false), 1)
    else if String.eqb s "8000::/1" then (m_address (half6 true), 1)
    else @parseSubnet ipv4_parser s
}.
#[local] Instance literal_parser_ok : RouteLiterals.
Proof. by split. Qed.
#[local] Existing Instances sample_keys octets_printer sample_host sample_host_laws.

#[local] Instance sample_hooks : DaemonPlatform unit := {
  supportIPUtils := true;
  addInterfaceIPs := λ _, sret true;
  setMTUAndUp := λ _, sret true;
  supportDnsUtils := true;
  updateResolvers := λ _ _, sret true;
  restoreResolvers := sret true;
  run := λ _ _, sret true;
  prepareActivation := λ _, sret tt;
  onActivationFailure := sret tt
}.

Definition sample_unix : WireguardUtilsUnix unit LinuxRouteMonitor :=
  mkUnix (qstr "amn0") true (Some (mkMonitor 0 [] [])) tt.

(** The daemon of Linux before any call, and after an activation. *)
Definition linux_start : Daemon (Ledger (WireguardUtilsUnix unit LinuxRouteMonitor)) :=
  mkDaemon [] ∅ false (mkLedger (mkUnix qnull false None tt) ∅ ∅) [].
Definition linux_connected : Daemon (Ledger (WireguardUtilsUnix unit LinuxRouteMonitor)) :=
  (activate 2 (example_config "one" ["10.1.2.3"] [cidr 10 0 0 0 8]) linux_start).2.

(** ** Properties *)

(** C33. Routing a prefix through the tunnel never touches the default route:
    on a kernel that takes its messages, [updateRoutePrefix] asks for new
    routes to destinations that all have a prefix length above 0 and that
    together stand for exactly the addresses of the prefix, two halves in
    place of a prefix of length 0. *)
Theorem default_route_kept {E} `{TunnelHost E} `{KeyText} `{NetlinkHostLaws} `{RouteLiterals}
    p (w : WireguardUtilsUnix E LinuxRouteMonitor) m :
  0 < if_nametoindex WG_INTERFACE -> (∀ bytes, sendto bytes = Z.of_nat (length bytes)) ->
  m_rtmonitor w = Some m -> ip_wf p ->
  ∃ m' ds, updateRoutePrefix p w = (true, set_rtmonitor (Some m') w) /\
    requests_sent InsertRoute m m' ds /\ Forall (λ d, 0 < m_prefixLength d) ds /\
    ∀ x, addr_wf x -> (covered ds x <-> covers p x).
Proof.
  intros I K Em W. destruct (unix_route_updated I K p w m Em W) as (m' & R & S).
  exists m', (route_destinations p). split; [exact R|]. split; [done|]. split.
  - eapply list.Forall_impl; [by apply route_destinations_wf | by intros d [_ D]].
  - intros x Wx. by apply routes_cover.
Qed.

Lemma default_route_kept_witness :
  ∃ m' ds, updateRoutePrefix (mkIPAddress (IPv4Address 0) 0) sample_unix =
    (true, set_rtmonitor (Some m') sample_unix) /\ requests_sent InsertRoute (mkMonitor 0 [] []) m' ds.
Proof.
  destruct (default_route_kept (mkIPAddress (IPv4Address 0) 0) sample_unix (mkMonitor 0 [] []))
    as (m' & ds & R & S & _); [done | done | done | by apply (bool_decide_unpack _) |].
  exists m', ds. exact (conj R S).
Defined.

(** Removing a route adds it: for a prefix of a length above 0,
    [deleteRoutePrefix] reports success after it asked the kernel for a new
    route to that prefix, and asked for no removal. *)
Theorem delete_route_inserts {E} `{TunnelHost E} `{KeyText} `{NetlinkHostLaws} `{RouteLiterals}
    p (w : WireguardUtilsUnix E LinuxRouteMonitor) m :
  0 < if_nametoindex WG_INTERFACE -> (∀ bytes, sendto bytes = Z.of_nat (length bytes)) ->
  m_rtmonitor w = Some m -> ip_wf p -> 0 < m_prefixLength p ->
  ∃ m' bytes seq, deleteRoutePrefix p w = (true, set_rtmonitor (Some m') w) /\
    nl_sent m' = app (nl_sent m) [bytes] /\
    decode_route bytes = Some (request_for RTM_NEWROUTE insert_flags RTN_UNICAST seq p).
Proof.
  intros I K Em W Pos. destruct (unix_route_deleted I K p w m Em W) as (m' & R & msgs & S & F).
  unfold route_destinations in F. rewrite (proj2 (Z.ltb_lt _ _) Pos) in F.
  destruct msgs as [|bytes [|? ?]]; inversion F as [|? ? ? ? [seq D] F']; subst; [|by inversion F'].
  exists m', bytes, seq. by rewrite <- S.
Qed.

Lemma delete_route_inserts_witness :
  ∃ m' bytes seq, deleteRoutePrefix (mkIPAddress (IPv4Address 167772160) 8) sample_unix =
      (true, set_rtmonitor (Some m') sample_unix) /\ nl_sent m' = [bytes] /\
    decode_route bytes = Some (request_for RTM_NEWROUTE insert_flags RTN_UNICAST seq
                                 (mkIPAddress (IPv4Address 167772160) 8)).
Proof.
  destruct (delete_route_inserts (mkIPAddress (IPv4Address 167772160) 8) sample_unix (mkMonitor 0 [] []))
    as (m' & bytes & seq & R & S & D); [done | done | done | by apply (bool_decide_unpack _) | done |].
  exists m', bytes, seq. exact (conj R (conj S D)).
Defined.

(** The interface is tracked as the daemon's contract asks: after a
    successful [addInterface] the tunnel runs and has a route monitor, after
    [deleteInterface] it has no monitor and, when it succeeds, does not run, and
    no operation on peers or routes changes whether it runs. *)
Theorem unix_interface_tracked {E M} `{TunnelHost E} `{RouteMonitor M} `{KeyText}
    `{AddressPrinter} `{AddressParser} (c : InterfaceConfig) (p : IPAddress)
    (w : WireguardUtilsUnix E M) :
  let same_running {A} (m : StateM (WireguardUtilsUnix E M) A) := keeps interfaceExists m in
  ((addInterface c w).1 = true ->
     interfaceExists (addInterface c w).2 = true /\ is_Some (m_rtmonitor (addInterface c w).2)) /\
  m_rtmonitor (deleteInterface w).2 = None /\
  ((deleteInterface w).1 = true -> interfaceExists (deleteInterface w).2 = false) /\
  same_running (updatePeer c) /\ same_running (deletePeer c) /\
  same_running getPeerStatus /\
  same_running (updateRoutePrefix p) /\ same_running (deleteRoutePrefix p) /\
  same_running (wg_addExclusionRoute p) /\ same_running (wg_deleteExclusionRoute p).
Proof.
  intros same_running. unfold same_running. split; [apply add_interface_up|]. split; [apply delete_interface_down|].
  split; [apply delete_interface_down|].
  cbn [updatePeer deletePeer getPeerStatus updateRoutePrefix deleteRoutePrefix wg_addExclusionRoute
       wg_deleteExclusionRoute interfaceExists unix_wgutils].
  split_and!; [apply keeps_updatePeer | apply keeps_deletePeer | apply keeps_getPeerStatus
              | apply keeps_on_monitor ..].
Qed.

(** ** The daemon on this platform *)
Lemma activate_establishes_witness :
  interfaceExists (ledger_machine (world linux_connected)) = true /\
  cidr 10 0 0 0 8 ∈ asked_routes (world linux_connected).
Proof.
  destruct (activate_establishes (example_config "one" ["10.1.2.3"] [cidr 10 0 0 0 8]) linux_start)
    as (Hup & Hroutes & _); [vm_compute; reflexivity..|].
  split; [exact Hup|]. apply Hroutes. left.
Defined.

Lemma deactivate_tears_down_witness :
  asked_exclusions (world linux_connected) = {[cidr 10 1 2 3 32]} /\
  asked_exclusions (world (deactivate true linux_connected).2) = ∅ /\
  interfaceExists (ledger_machine (world (deactivate true linux_connected).2)) = false.
Proof.
  split; [vm_compute; reflexivity|].
  destruct (deactivate_tears_down true linux_connected) as (_ & _ & He & Hup & _).
  - apply reach_activate. by apply reach_start.
  - vm_compute. reflexivity.
  - exact (conj He Hup).
Defined.
