(* ===== verification/Variant.v ===== *)
(** * Variants

    [QVariant] with the types the settings store, its conversions, and the
    conversions between variants and JSON that the backup uses. *)
From Stdlib Require Import ZArith QArith Lia Ascii String.
From stdpp Require Import base list strings.
From S2P Require Import Prelude QtString QtContainers.
Local Open Scope string_scope.

Inductive QVariant :=
| VInvalid
| VBool (b : bool)
| VInt (n : Z)
| VDouble (q : Q)
| VString (s : string)
| VByteArray (s : string)
| VMap (m : list (string * QVariant))
| VList (l : list QVariant)
| VJsonArray (l : list QJsonValue)
| VDateTime (t : Z)
| VLocale (name : string).

Definition isValid (v : QVariant) : bool := match v with VInvalid => false | _ => true end.

(** ** Conversions *)

(** A text is false when it is empty, [0] or [false]. *)
Definition text_bool (s : string) : bool :=
  negb (String.eqb (toLower s) "" || String.eqb (toLower s) "0" || String.eqb (toLower s) "false").

Definition var_toBool (v : QVariant) : bool :=
  match v with
  | VBool b => b
  | VInt n => negb (n =? 0)%Z
  | VDouble q => negb (Qeq_bool q 0)
  | VString s | VByteArray s => text_bool s
  | _ => false
  end.

Definition var_toString (v : QVariant) : string :=
  match v with
  | VBool b => if b then "true" else "false"
  | VInt n => number n
  | VString s | VByteArray s => s
  | _ => ""
  end.

(** A double is rounded, half away from zero. *)
Definition round_half (q : Q) : Z :=
  (Z.quot (2 * Qnum q + Z.sgn (Qnum q) * Zpos (Qden q)) (2 * Zpos (Qden q)))%Z.

Definition var_toInt (v : QVariant) : Z :=
  match v with
  | VBool b => if b then 1 else 0
  | VInt n => n
  | VDouble q => round_half q
  | VString s | VByteArray s => toInt s
  | _ => 0
  end%Z.

Definition var_toByteArray (v : QVariant) : string := var_toString v.

Definition toMap (v : QVariant) : list (string * QVariant) :=
  match v with VMap m => m | _ => [] end.

(** ** JSON *)

(** [QJsonValue::fromVariant]: a type without a JSON counterpart is stored as
    the text it converts to; the text of a date or a locale is [text]. *)
Section Json.
Context (text : QVariant -> string).

Fixpoint fromVariant (v : QVariant) : QJsonValue :=
  match v with
  | VInvalid => JNull
  | VBool b => JBool b
  | VInt n => JInt n
  | VDouble q => JDouble q
  | VString s => JString s
  | VByteArray s => JString s
  | VMap m =>
      JObject ((fix go (m : list (string * QVariant)) : QJsonObject :=
                  match m with [] => [] | (k, v) :: m' => (k, fromVariant v) :: go m' end) m)
  | VList l =>
      JArray ((fix go (l : list QVariant) : list QJsonValue :=
                 match l with [] => [] | v :: l' => fromVariant v :: go l' end) l)
  | VJsonArray l => JArray l
  | VDateTime _ | VLocale _ => JString (text v)
  end.
End Json.

(** [QJsonValue::toVariant]; a null gives a variant that converts as an
    invalid one. *)
Fixpoint toVariant (v : QJsonValue) : QVariant :=
  match v with
  | JUndefined => VInvalid
  | JNull => VInvalid
  | JBool b => VBool b
  | JDouble q => VDouble q
  | JString s => VString s
  | JArray l =>
      VList ((fix go (l : list QJsonValue) : list QVariant :=
                match l with [] => [] | v :: l' => toVariant v :: go l' end) l)
  | JObject m =>
      VMap ((fix go (m : QJsonObject) : list (string * QVariant) :=
               match m with [] => [] | (k, v) :: m' => (k, toVariant v) :: go m' end) m)
  end.

(** [QVariant::toJsonArray]: of an array or of a list of variants. *)
Definition toJsonArray (text : QVariant -> string) (v : QVariant) : list QJsonValue :=
  match v with
  | VJsonArray l => l
  | VList l => map (fromVariant text) l
  | _ => []
  end.

(** ** Documents

    [QJsonDocument::toJson] and [fromJson] are Qt's: the text of an array or an
    object and the value a text denotes, undefined when it is neither. *)
Class JsonDocument := {
  toJson : QJsonValue -> string;
  fromJsonDoc : string -> QJsonValue
}.

(** What Qt documents: the text is read back as the value, and the text of an
    array starts with a bracket. *)
Class JsonDocumentLaws `{JsonDocument} : Prop := {
  document_read v : (isArray v || isObject v) = true -> fromJsonDoc (toJson v) = v;
  document_array l : startsWith (toJson (JArray l)) "[" = true
}.

(** ** Lemmas *)
Local Ltac Zify.zify_post_hook ::= Z.to_euclidean_division_equations.

Lemma round_half_int n : round_half (inject_Z n) = n.
Proof.
  unfold round_half. simpl.
  destruct (Z.lt_trichotomy n 0) as [Hn|[->|Hn]]; [|done|];
    rewrite ?Z.sgn_neg, ?Z.sgn_pos by done; lia.
Qed.
