(* ===== verification/SecureSettings.v ===== *)
(** * The settings store

    Model of [SecureQSettings] (client/secure_qsettings.cpp): a file of settings
    with a cache in front of it, where the server list is encrypted with a key
    and an IV kept in the system's key storage. [KeyValueStore] is what the
    store promises to the rest of the client; the class is implemented here and
    used by the model of [Settings]. *)
From Stdlib Require Import ZArith QArith Lia Ascii String.
From stdpp Require Import base list strings.
From S2P Require Import Prelude QtString QtContainers Variant Protocols Containers.
Local Open Scope string_scope.

(** ** The world behind the store

    The key storage (QtKeychain) and the cipher (QSimpleCrypto) are libraries.
    A read that fails gives no octets, a cipher that throws is [None]. *)
Class Keychain (K : Type) := {
  ks_read : string -> StateM K string;
  ks_write : string -> string -> StateM K unit;
  generatePrivateSalt : StateM K string
}.

Class Cipher := {
  encryptAes : string -> string -> string -> option string;
  decryptAes : string -> string -> string -> option string;
  (* QDataStream << and >> of one variant *)
  ds_write : QVariant -> string;
  ds_read : string -> QVariant
}.

(** Documented behaviour: the storage holds for every tag the octets of the
    last write that succeeded; a key and an IV decrypt what they encrypted, and
    a data stream reads the variant that was written. *)
Class KeychainLaws (K : Type) `{Keychain K} := {
  held : K -> string -> string;
  ks_read_value t w : (ks_read t w).1 = held w t;
  ks_read_held t w t' : held (ks_read t w).2 t' = held w t';
  ks_write_held t d w t' : held (ks_write t d w).2 t' = held w t' \/
                           (t' = t /\ held (ks_write t d w).2 t' = d);
  salt_held w t : held (generatePrivateSalt w).2 t = held w t
}.

Class CipherLaws `{Cipher} : Prop := {
  decrypt_encrypt v key iv : key <> "" -> iv <> "" ->
    exists c, encryptAes v key iv = Some c /\ decryptAes c key iv = Some v;
  ds_roundtrip v : ds_read (ds_write v) = v
}.

(** ** State *)
Abbreviation SettingsMap := (list (string * QVariant)).

Record SecureQSettings (K : Type) := mkSecure {
  m_settings : SettingsMap;
  m_cache : SettingsMap;
  keychain : K
}.
Arguments mkSecure {K} _ _ _.
Arguments m_settings {K} _.
Arguments m_cache {K} _.
Arguments keychain {K} _.

Definition settingsKeyTag : string := "settingsKeyTag".
Definition settingsIvTag : string := "settingsIvTag".
Definition magicString : string := "EncData".
Definition encryptedKeys : list string := ["Servers/serversList"].
Definition m_fieldsToBackup : list string := ["Conf/"; "Servers/"].

Definition encrypted_key (key : string) : bool := existsb (String.eqb key) encryptedKeys.
Definition has_magic (s : string) : bool := String.eqb (mid_len 0 (slen magicString) s) magicString.

(** [QSettings::remove]: the key and the settings below it. *)
Definition qsettings_remove (key : string) (m : SettingsMap) : SettingsMap :=
  List.filter (λ e, negb (String.eqb e.1 key || startsWith e.1 (key +:+ "/"))) m.

(** Keys are not encrypted on Linux. *)
Definition encryptionRequired (platform : Platform) : bool :=
  match platform with Linux => false | _ => true end.

Section Operations.
Context {K : Type} `{Keychain K} `{Cipher} (platform : Platform).
Abbreviation SecureM A := (StateM (SecureQSettings K) A).

Definition on_keychain {A} (m : StateM K A) : SecureM A := λ s,
  let '(a, w) := m (keychain s) in (a, mkSecure (m_settings s) (m_cache s) w).
Definition set_file (f : SettingsMap -> SettingsMap) : SecureM unit :=
  modify (λ s, mkSecure (f (m_settings s)) (m_cache s) (keychain s)).
Definition set_cache (f : SettingsMap -> SettingsMap) : SecureM unit :=
  modify (λ s, mkSecure (m_settings s) (f (m_cache s)) (keychain s)).

(** ** Keys *)
Definition getSecTag (tag : string) : SecureM string := on_keychain (ks_read tag).
Definition setSecTag (tag data : string) : SecureM unit := on_keychain (ks_write tag data).

(** [getEncKey] and [getEncIv] differ in the tag. *)
Definition load_or_create (tag : string) : SecureM string :=
  m_key <- getSecTag tag ;;
  if String.eqb m_key "" then
    key <- on_keychain generatePrivateSalt ;;
    setSecTag tag key ;;
    m_key <- getSecTag tag ;;
    if negb (String.eqb key m_key) then sret "" else sret m_key
  else sret m_key.

Definition getEncKey : SecureM string := load_or_create settingsKeyTag.
Definition getEncIv : SecureM string := load_or_create settingsIvTag.

Definition encryptText (value : string) : SecureM string :=
  key <- getEncKey ;;
  iv <- getEncIv ;;
  sret (default "" (encryptAes value key iv)).

Definition decryptText (ba : string) : SecureM string :=
  key <- getEncKey ;;
  iv <- getEncIv ;;
  sret (default "" (decryptAes ba key iv)).

(** Whether both keys can be had; the second is not asked for when the first is
    missing. *)
Definition have_keys : SecureM bool :=
  key <- getEncKey ;;
  if String.eqb key "" then sret false
  else iv <- getEncIv ;; sret (negb (String.eqb iv "")).

(** ** Values *)
Definition cached (key : string) (v : QVariant) : SecureM QVariant :=
  set_cache (qm_insert key v) ;; sret v.

Definition sec_value (key : string) (defaultValue : QVariant) : SecureM QVariant :=
  cache <- gets m_cache ;;
  match qm_find key cache with
  | Some v => sret v
  | None =>
      file <- gets m_settings ;;
      match qm_find key file with
      | None => sret defaultValue
      | Some (VByteArray stored) =>
          if has_magic stored then
            ok <- have_keys ;;
            if negb ok then sret VInvalid
            else
              decryptedValue <- decryptText (mid (slen magicString) stored) ;;
              cached key (ds_read decryptedValue)
          else cached key (VByteArray stored)
      | Some retVal => cached key retVal
      end
  end.

Definition sec_setValue (key : string) (value : QVariant) : SecureM unit :=
  if encryptionRequired platform && encrypted_key key then
    ok <- have_keys ;;
    if ok then
      encryptedValue <- encryptText (ds_write value) ;;
      set_file (qm_insert key (VByteArray (magicString +:+ encryptedValue))) ;;
      set_cache (qm_insert key value)
    else sret tt
  else
    set_file (qm_insert key value) ;;
    set_cache (qm_insert key value).

Definition sec_remove (key : string) : SecureM unit :=
  set_file (qsettings_remove key) ;;
  set_cache (qm_remove key).

Definition sec_clearSettings : SecureM unit :=
  set_file (λ _, []) ;;
  set_cache (λ _, []).

(** The constructor, on the settings found in the file; the cache starts
    empty. *)
Definition construct : SecureM unit :=
  set_cache (λ _, []) ;;
  file <- gets m_settings ;;
  let encrypted := var_toBool (default VInvalid (qm_find "Conf/encrypted" file)) in
  if encryptionRequired platform && negb encrypted then
    for_each (map fst file) (λ key,
      if encrypted_key key then val <- sec_value key VInvalid ;; sec_setValue key val
      else sret tt) ;;
    set_file (qm_insert "Conf/encrypted" (VBool true))
  else sret tt.

(** ** Backup *)
Definition needToBackup (key : string) : bool :=
  existsb (λ item, negb (String.eqb key "Conf/installationUuid") && startsWith key item)
    m_fieldsToBackup.

Fixpoint backup_keys (text : QVariant -> string) (keys : list string) (cfg : QJsonObject) :
    SecureM QJsonObject :=
  match keys with
  | [] => sret cfg
  | key :: keys' =>
      if negb (needToBackup key) then backup_keys text keys' cfg
      else v <- sec_value key VInvalid ;;
           backup_keys text keys' (jinsert key (fromVariant text v) cfg)
  end.

Definition sec_backupAppConfig `{JsonDocument} (text : QVariant -> string) : SecureM string :=
  file <- gets m_settings ;;
  cfg <- backup_keys text (map fst file) [] ;;
  sret (toJson (JObject cfg)).

Definition sec_restoreAppConfig `{JsonDocument} (json : string) : SecureM bool :=
  let cfg := toObject (fromJsonDoc json) in
  match cfg with
  | [] => sret false
  | _ =>
      for_each cfg (λ e,
        if String.eqb e.1 "Conf/installationUuid" then sret tt
        else sec_setValue e.1 (toVariant (value e.1 cfg))) ;;
      sret true
  end.
End Operations.

(** ** The promise of the store

    [kv_view s k] is what the store holds for a key; a value is [kv_storable]
    when the store can hold it. *)
Class KeyValueStore (S : Type) := {
  kv_value : string -> QVariant -> StateM S QVariant;
  kv_setValue : string -> QVariant -> StateM S unit;
  kv_remove : string -> StateM S unit;
  kv_clear : StateM S unit
}.

Class KeyValueLaws (S : Type) `{KeyValueStore S} := {
  kv_ok : S -> Prop;
  kv_view : S -> string -> option QVariant;
  kv_storable : QVariant -> Prop;
  kv_value_ok k d s : kv_ok s ->
    (kv_value k d s).1 = default d (kv_view s k) /\ kv_ok (kv_value k d s).2 /\
    forall k', kv_view (kv_value k d s).2 k' = kv_view s k';
  kv_setValue_ok k v s : kv_ok s -> kv_storable v ->
    kv_ok (kv_setValue k v s).2 /\
    forall k', kv_view (kv_setValue k v s).2 k' = if String.eqb k' k then Some v else kv_view s k';
  kv_remove_ok k s : kv_ok s ->
    (forall k', startsWith k' (k +:+ "/") = true -> kv_view s k' = None) ->
    kv_ok (kv_remove k s).2 /\
    forall k', kv_view (kv_remove k s).2 k' = if String.eqb k' k then None else kv_view s k';
  kv_clear_ok s : kv_ok s -> kv_ok (kv_clear s).2 /\ forall k, kv_view (kv_clear s).2 k = None;
  kv_storable_plain v : (forall t, v <> VByteArray t) -> kv_storable v;
  kv_storable_array l : startsWith l "[" = true -> kv_storable (VByteArray l)
}.

#[export] Instance secure_store {K} `{Keychain K} `{Cipher} (platform : Platform) :
    KeyValueStore (SecureQSettings K) := {
  kv_value := sec_value;
  kv_setValue := sec_setValue platform;
  kv_remove := sec_remove;
  kv_clear := sec_clearSettings
}.

(** ** What the store holds *)
Section View.
Context {K : Type} `{KeychainLaws K} `{Cipher}.
Implicit Types s : SecureQSettings K.

Definition enc_key s : string := held (keychain s) settingsKeyTag.
Definition enc_iv s : string := held (keychain s) settingsIvTag.
Definition keyed s : Prop := enc_key s <> "" /\ enc_iv s <> "".

Definition decode s (v : QVariant) : QVariant :=
  match v with
  | VByteArray stored =>
      if has_magic stored
      then ds_read (default "" (decryptAes (mid (slen magicString) stored) (enc_key s) (enc_iv s)))
      else v
  | _ => v
  end.

Definition view s (k : string) : option QVariant := decode s <$> qm_find k (m_settings s).

(** The cache agrees with the file. *)
Definition coherent s : Prop := forall k v, qm_find k (m_cache s) = Some v -> view s k = Some v.

(** No value of the file is encrypted. *)
Definition plain_file s : Prop :=
  forall k stored, qm_find k (m_settings s) = Some (VByteArray stored) -> has_magic stored = false.

Definition plain_value (v : QVariant) : Prop :=
  match v with VByteArray stored => has_magic stored = false | _ => True end.

(** The states of a store that works: it has its keys, or it is one that needs
    none. *)
Definition store_ok (platform : Platform) s : Prop :=
  coherent s /\ (keyed s \/ (encryptionRequired platform = false /\ plain_file s)).

Definition same_store s s' : Prop :=
  m_settings s' = m_settings s /\ m_cache s' = m_cache s /\
  forall t, held (keychain s') t = held (keychain s) t.

(** ** Lemmas on keys *)
Lemma same_store_refl s : same_store s s.
Proof. done. Qed.
Lemma same_store_trans s1 s2 s3 : same_store s1 s2 -> same_store s2 s3 -> same_store s1 s3.
Proof.
  intros (F1 & C1 & G1) (F2 & C2 & G2). split_and!; [congruence|congruence|].
  intros t. by rewrite G2, G1.
Qed.

Lemma same_store_keys s s' : same_store s s' -> enc_key s' = enc_key s /\ enc_iv s' = enc_iv s.
Proof. intros (_ & _ & Hh). split; apply Hh. Qed.

Lemma same_store_view s s' k : same_store s s' -> view s' k = view s k.
Proof.
  intros Hs. destruct (same_store_keys _ _ Hs) as [Ek Ei]. destruct Hs as (Ef & _ & _).
  unfold view, decode. by rewrite Ef, Ek, Ei.
Qed.

Lemma getSecTag_run t s :
  exists s', getSecTag t s = (held (keychain s) t, s') /\ same_store s s'.
Proof.
  unfold getSecTag, on_keychain. pose proof (ks_read_value t (keychain s)) as E.
  pose proof (ks_read_held t (keychain s)) as Eh.
  destruct (ks_read t (keychain s)) as [a w]. simpl in *. subst a. eexists. split; [done|].
  by split_and!.
Qed.

Lemma load_existing tag s :
  held (keychain s) tag <> "" ->
  exists s', load_or_create tag s = (held (keychain s) tag, s') /\ same_store s s'.
Proof.
  intros Ht. unfold load_or_create. destruct (getSecTag_run tag s) as (s' & E & Hs).
  rewrite sbind_run, E. cbn [fst snd]. destruct (String.eqb_spec (held (keychain s) tag) "");
    [done|by exists s'].
Qed.

Lemma keys_run s :
  keyed s ->
  exists s1 s2, getEncKey s = (enc_key s, s1) /\ getEncIv s1 = (enc_iv s, s2) /\
    same_store s s2.
Proof.
  intros [Hk Hi]. destruct (load_existing settingsKeyTag s Hk) as (s1 & E1 & S1).
  destruct (same_store_keys _ _ S1) as [_ Ei].
  destruct (load_existing settingsIvTag s1) as (s2 & E2 & S2).
  { change (enc_iv s1 <> ""). by rewrite Ei. }
  exists s1, s2. split_and!; [done| |by eapply same_store_trans].
  unfold getEncIv. rewrite E2. by rewrite <- Ei.
Qed.

Lemma have_keys_run s :
  keyed s -> exists s', have_keys s = (true, s') /\ same_store s s'.
Proof.
  intros Hk. destruct (keys_run s Hk) as (s1 & s2 & E1 & E2 & Hs).
  exists s2. split; [|done]. unfold have_keys. rewrite sbind_run, E1. cbn [fst snd].
  destruct Hk as [Hk Hi]. destruct (String.eqb_spec (enc_key s) ""); [done|].
  rewrite sbind_run, E2. cbn [fst snd]. by destruct (String.eqb_spec (enc_iv s) "").
Qed.

Lemma decryptText_run ba s :
  keyed s ->
  exists s', decryptText ba s = (default "" (decryptAes ba (enc_key s) (enc_iv s)), s') /\
    same_store s s'.
Proof.
  intros Hk. destruct (keys_run s Hk) as (s1 & s2 & E1 & E2 & Hs). exists s2. split; [|done].
  unfold decryptText. by rewrite sbind_run, E1; cbn [fst snd]; rewrite sbind_run, E2.
Qed.

Lemma encryptText_run value s :
  keyed s ->
  exists s', encryptText value s = (default "" (encryptAes value (enc_key s) (enc_iv s)), s') /\
    same_store s s'.
Proof.
  intros Hk. destruct (keys_run s Hk) as (s1 & s2 & E1 & E2 & Hs). exists s2. split; [|done].
  unfold encryptText. by rewrite sbind_run, E1; cbn [fst snd]; rewrite sbind_run, E2.
Qed.

Lemma keyed_same s s' : same_store s s' -> keyed s -> keyed s'.
Proof. intros Hs [Hk Hi]. unfold keyed. destruct (same_store_keys _ _ Hs) as [-> ->]. by split. Qed.

(** ** Lemmas on values *)
Lemma qm_find_filter {V} (P : string -> bool) k (m : list (string * V)) :
  qm_find k (List.filter (λ e, P e.1) m) = if P k then qm_find k m else None.
Proof.
  induction m as [|[k0 v0] m IH]; simpl; [by destruct (P k)|].
  destruct (P k0) eqn:E0; simpl; destruct (key_cmp k k0) eqn:E; rewrite ?IH; try done;
    apply key_cmp_eq in E as ->; by rewrite E0.
Qed.

Lemma has_magic_app c : has_magic (magicString +:+ c) = true.
Proof. unfold has_magic. by destruct c. Qed.
Lemma mid_magic c : mid (slen magicString) (magicString +:+ c) = c.
Proof. exact (drop_chars_app magicString c). Qed.

Lemma store_ok_same platform s s' : same_store s s' -> store_ok platform s -> store_ok platform s'.
Proof.
  intros Hs [Hc Hk]. pose proof Hs as (Ef & Ec & _). split.
  - intros k v. rewrite Ec, (same_store_view s s') by done. apply Hc.
  - destruct Hk as [Hk|[Hp Hf]]; [left; by eapply keyed_same|right; split; [done|]].
    unfold plain_file. by rewrite Ef.
Qed.

Lemma cached_ok platform k v s :
  store_ok platform s -> view s k = Some v ->
  (cached k v s).1 = v /\ store_ok platform (cached k v s).2 /\
  (forall k', view (cached k v s).2 k' = view s k') /\
  m_settings (cached k v s).2 = m_settings s.
Proof.
  intros [Hc Hk] Hv. split_and!; try done. split; [|exact Hk].
  intros k' v'. cbn. intros Hf. change (view s k' = Some v').
  destruct (String.eqb_spec k k') as [<-|Hne].
  - rewrite qm_find_insert_eq in Hf. congruence.
  - rewrite qm_find_insert_ne in Hf by done. by apply Hc.
Qed.

Lemma sec_value_ok platform k d s :
  store_ok platform s ->
  (sec_value k d s).1 = default d (view s k) /\ store_ok platform (sec_value k d s).2 /\
  (forall k', view (sec_value k d s).2 k' = view s k') /\
  m_settings (sec_value k d s).2 = m_settings s.
Proof.
  intros Hok. unfold sec_value. rewrite gets_bind.
  destruct (qm_find k (m_cache s)) as [v|] eqn:Ec.
  { rewrite (proj1 Hok _ _ Ec). done. }
  rewrite gets_bind. destruct (qm_find k (m_settings s)) as [v|] eqn:Ef.
  2: { unfold view. by rewrite Ef. }
  assert (view s k = Some (decode s v)) as Hv by (unfold view; by rewrite Ef).
  rewrite Hv. change (default d (Some (decode s v))) with (decode s v).
  destruct v as [| | | | |stored| | | | |]; try (by apply cached_ok). cbn [decode] in *.
  destruct (has_magic stored) eqn:Em; [|by apply cached_ok].
  assert (keyed s) as Hk.
  { destruct Hok as [_ [Hk|[_ Hp]]]; [done|]. by rewrite (Hp _ _ Ef) in Em. }
  destruct (have_keys_run s Hk) as (s1 & E1 & S1).
  rewrite sbind_run, E1. cbn [fst snd negb].
  destruct (decryptText_run (mid (slen magicString) stored) s1) as (s2 & E2 & S2).
  { by eapply keyed_same. }
  rewrite sbind_run, E2. cbn [fst snd].
  destruct (same_store_keys _ _ S1) as [-> ->].
  pose proof (same_store_trans _ _ _ S1 S2) as S3. pose proof S3 as (F3 & _ & _).
  destruct (cached_ok platform k (ds_read (default "" (decryptAes (mid (slen magicString) stored)
    (enc_key s) (enc_iv s)))) s2) as (R & O & V & F).
  { by eapply store_ok_same. }
  { by rewrite (same_store_view s s2). }
  split_and!; [done|done| |by rewrite F].
  intros k'. by rewrite V, (same_store_view s s2).
Qed.

Lemma set_both_ok platform k stored v s :
  store_ok platform s ->
  decode s stored = v -> (keyed s \/ plain_value stored) ->
  let s' := mkSecure (qm_insert k stored (m_settings s)) (qm_insert k v (m_cache s)) (keychain s) in
  store_ok platform s' /\
  forall k', view s' k' = if String.eqb k' k then Some v else view s k'.
Proof.
  intros [Hc Hk] Hd Hp s'.
  assert (forall k', view s' k' = if String.eqb k' k then Some v else view s k') as Hv.
  { intros k'. unfold view, s'. cbn [m_settings].
    change (decode (mkSecure _ _ (keychain s))) with (decode s).
    destruct (String.eqb_spec k' k) as [->|Hne]; [by rewrite qm_find_insert_eq; simpl; f_equal|].
    by rewrite qm_find_insert_ne. }
  split; [|done]. split.
  - intros k' v'. rewrite Hv. unfold s'. cbn [m_cache].
    destruct (String.eqb_spec k' k) as [->|Hne]; [by rewrite qm_find_insert_eq|].
    rewrite qm_find_insert_ne by done. apply Hc.
  - destruct Hk as [Hk|[He Hf]]; [by left|]. destruct Hp as [Hp|Hp]; [by left|]. right. split; [done|].
    intros k' t. unfold s'. cbn [m_settings].
    destruct (String.eqb_spec k' k) as [->|Hne].
    + rewrite qm_find_insert_eq. intros [= ->]. exact Hp.
    + rewrite qm_find_insert_ne by done. apply Hf.
Qed.

Lemma decode_plain s v : plain_value v -> decode s v = v.
Proof. destruct v; try done. simpl. by intros ->. Qed.

Context `{!CipherLaws}.

Lemma decode_encrypted s v c :
  keyed s -> encryptAes (ds_write v) (enc_key s) (enc_iv s) = Some c ->
  decode s (VByteArray (magicString +:+ c)) = v.
Proof.
  intros [Hk Hi] Ec. unfold decode. rewrite has_magic_app, mid_magic.
  destruct (decrypt_encrypt (ds_write v) (enc_key s) (enc_iv s) Hk Hi) as (c' & E & D).
  rewrite Ec in E. injection E as <-. rewrite D. apply ds_roundtrip.
Qed.

(** A store that encrypts the key: what it writes is the ciphertext behind the
    magic word. *)
Lemma sec_setValue_encrypts platform k v s :
  keyed s -> encryptionRequired platform && encrypted_key k = true ->
  exists c w, encryptAes (ds_write v) (enc_key s) (enc_iv s) = Some c /\
    sec_setValue platform k v s =
      (tt, mkSecure (qm_insert k (VByteArray (magicString +:+ c)) (m_settings s))
             (qm_insert k v (m_cache s)) w) /\
    (forall t, held w t = held (keychain s) t).
Proof.
  intros Hk He. destruct (have_keys_run s Hk) as (s1 & E1 & S1).
  destruct (encryptText_run (ds_write v) s1) as (s2 & E2 & S2); [by eapply keyed_same|].
  destruct (same_store_keys _ _ S1) as [Ek Ei]. rewrite Ek, Ei in E2.
  destruct Hk as [Hk Hi].
  destruct (decrypt_encrypt (ds_write v) (enc_key s) (enc_iv s) Hk Hi) as (c & Ec & _).
  pose proof (same_store_trans _ _ _ S1 S2) as (F3 & C3 & G3).
  exists c, (keychain s2). split_and!; [done| |done].
  unfold sec_setValue. rewrite He, sbind_run, E1. cbn [fst snd].
  rewrite sbind_run, E2. cbn [fst snd]. rewrite Ec. cbn. by rewrite F3, C3.
Qed.

Lemma sec_setValue_ok platform k v s :
  store_ok platform s -> plain_value v \/ encryptionRequired platform && encrypted_key k = true ->
  store_ok platform (sec_setValue platform k v s).2 /\
  forall k', view (sec_setValue platform k v s).2 k' = if String.eqb k' k then Some v else view s k'.
Proof.
  intros Hok Hp. destruct (encryptionRequired platform && encrypted_key k) eqn:E.
  - assert (keyed s) as Hk.
    { apply andb_true_iff in E as [E _]. by destruct Hok as [_ [Hk|[? _]]]; [|congruence]. }
    destruct (sec_setValue_encrypts platform k v s Hk E) as (c & w & Ec & -> & Gw).
    cbn [snd]. set (s1 := mkSecure (m_settings s) (m_cache s) w).
    assert (same_store s s1) as S1 by done.
    destruct (set_both_ok platform k (VByteArray (magicString +:+ c)) v s1) as [O V].
    + by eapply store_ok_same.
    + apply decode_encrypted; [by eapply keyed_same|].
      by destruct (same_store_keys _ _ S1) as [-> ->].
    + left. by eapply keyed_same.
    + split; [exact O|]. intros k'. etransitivity; [apply V|]. by rewrite (same_store_view s s1).
  - destruct Hp as [Hp|]; [|done]. unfold sec_setValue. rewrite E.
    exact (set_both_ok platform k v v s Hok (decode_plain s v Hp) (or_intror Hp)).
Qed.

Lemma sec_remove_ok platform k s :
  store_ok platform s ->
  (forall k', startsWith k' (k +:+ "/") = true -> view s k' = None) ->
  store_ok platform (sec_remove k s).2 /\
  forall k', view (sec_remove k s).2 k' = if String.eqb k' k then None else view s k'.
Proof.
  intros [Hc Hk] Hleaf.
  assert (forall k', qm_find k' (qsettings_remove k (m_settings s)) =
            if String.eqb k' k then None else qm_find k' (m_settings s)) as Hf.
  { intros k'. unfold qsettings_remove.
    rewrite (qm_find_filter (λ x, negb (String.eqb x k || startsWith x (k +:+ "/")))).
    destruct (String.eqb_spec k' k) as [->|Hne]; [done|]. simpl.
    destruct (startsWith k' (k +:+ "/")) eqn:Es; [|done].
    specialize (Hleaf _ Es). unfold view in Hleaf. by destruct (qm_find k' (m_settings s)). }
  assert (forall k', view (sec_remove k s).2 k' = if String.eqb k' k then None else view s k') as Hv.
  { intros k'. unfold view, sec_remove. cbn. rewrite Hf. by destruct (String.eqb k' k). }
  split; [|done]. split.
  - intros k' v. rewrite Hv. cbn. destruct (String.eqb_spec k' k) as [->|Hne].
    + by rewrite qm_find_remove_eq.
    + rewrite qm_find_remove_ne by done. apply Hc.
  - destruct Hk as [Hk|[He Hp]]; [by left|right; split; [done|]].
    intros k' t. cbn. rewrite Hf. destruct (String.eqb k' k); [done|apply Hp].
Qed.

Lemma sec_clear_ok platform s :
  store_ok platform s ->
  store_ok platform (sec_clearSettings s).2 /\ forall k, view (sec_clearSettings s).2 k = None.
Proof. intros [_ Hk]. split; [split; [done|]|done]. destruct Hk as [Hk|[He _]]; [by left|by right]. Qed.
End View.

Lemma bracket_plain l : startsWith l "[" = true -> has_magic l = false.
Proof.
  unfold has_magic. destruct l as [|c l]; [done|]. cbn [startsWith].
  by destruct (Ascii.eqb_spec "[" c) as [<-|].
Qed.

(** The store implements the promise. *)
#[export, refine] Instance secure_store_laws {K} `{KeychainLaws K} `{!Cipher} `{!CipherLaws}
    (platform : Platform) : @KeyValueLaws (SecureQSettings K) (secure_store platform) := {|
  kv_ok := store_ok platform;
  kv_view := view;
  kv_storable := plain_value;
  kv_value_ok := _; kv_setValue_ok := _; kv_remove_ok := _; kv_clear_ok := _;
  kv_storable_plain := _; kv_storable_array := _
|}.
Proof.
  - intros k d s Hs. by destruct (sec_value_ok platform k d s Hs) as (? & ? & ? & _).
  - intros k v s Hs Hv. apply sec_setValue_ok; [done|by left].
  - intros k s. apply sec_remove_ok.
  - intros s. apply sec_clear_ok.
  - intros v Hv. destruct v; try done. by destruct (Hv s).
  - apply bracket_plain.
Defined.

(** ** Sequences of operations

    The abstract store is a function from keys to values; a removal is of a key
    without keys below it. *)
Inductive StoreOp :=
| Read (k : string) (d : QVariant)
| Write (k : string) (v : QVariant)
| Remove (k : string)
| Clear.

Definition run_op {S} `{KeyValueStore S} (op : StoreOp) : StateM S (option QVariant) :=
  match op with
  | Read k d => v <- kv_value k d ;; sret (Some v)
  | Write k v => kv_setValue k v ;; sret None
  | Remove k => kv_remove k ;; sret None
  | Clear => kv_clear ;; sret None
  end.

Fixpoint run_ops {S} `{KeyValueStore S} (ops : list StoreOp) : StateM S (list QVariant) :=
  match ops with
  | [] => sret []
  | op :: ops' => r <- run_op op ;; rs <- run_ops ops' ;; sret (app (option_list r) rs)
  end.

Definition spec_op (op : StoreOp) (m : string -> option QVariant) : string -> option QVariant :=
  match op with
  | Read _ _ => m
  | Write k v => λ k', if String.eqb k' k then Some v else m k'
  | Remove k => λ k', if String.eqb k' k then None else m k'
  | Clear => λ _, None
  end.

Definition op_allowed (storable : QVariant -> Prop) (op : StoreOp) (m : string -> option QVariant) :
    Prop :=
  match op with
  | Write _ v => storable v
  | Remove k => forall k', startsWith k' (k +:+ "/") = true -> m k' = None
  | _ => True
  end.

Fixpoint spec_ops (ops : list StoreOp) (m : string -> option QVariant) : list QVariant :=
  match ops with
  | [] => []
  | op :: ops' =>
      app (match op with Read k d => [default d (m k)] | _ => [] end) (spec_ops ops' (spec_op op m))
  end.

Fixpoint ops_allowed (storable : QVariant -> Prop) (ops : list StoreOp)
    (m : string -> option QVariant) : Prop :=
  match ops with
  | [] => True
  | op :: ops' => op_allowed storable op m /\ ops_allowed storable ops' (spec_op op m)
  end.

Section Refinement.
Context {S : Type} `{KeyValueLaws S}.

Lemma run_op_refines op (s : S) m :
  kv_ok s -> (forall k, kv_view s k = m k) -> op_allowed kv_storable op m ->
  (run_op op s).1 = (match op with Read k d => Some (default d (m k)) | _ => None end) /\
  kv_ok (run_op op s).2 /\ forall k, kv_view (run_op op s).2 k = spec_op op m k.
Proof.
  intros Hs Hm Ha. destruct op as [k d|k v|k|]; simpl; rewrite sbind_run; cbn [fst snd sret].
  - destruct (kv_value_ok k d s Hs) as (-> & O & V). rewrite Hm. split_and!; [done|done|].
    intros k'. by rewrite V.
  - destruct (kv_setValue_ok k v s Hs Ha) as (O & V). split_and!; [done|done|].
    intros k'. by rewrite V, Hm.
  - destruct (kv_remove_ok k s Hs) as (O & V). { intros k' Hk. rewrite Hm. by apply Ha. }
    split_and!; [done|done|]. intros k'. by rewrite V, Hm.
  - destruct (kv_clear_ok s Hs) as (O & V). by split_and!.
Qed.

Lemma run_ops_refines ops (s : S) m :
  kv_ok s -> (forall k, kv_view s k = m k) -> ops_allowed kv_storable ops m ->
  (run_ops ops s).1 = spec_ops ops m /\ kv_ok (run_ops ops s).2.
Proof.
  revert s m. induction ops as [|op ops IH]; intros s m Hs Hm Ha; [done|].
  destruct Ha as [Ha Hr]. destruct (run_op_refines op s m Hs Hm Ha) as (E & O & V).
  destruct (IH _ _ O V Hr) as [E' O']. cbn [run_ops spec_ops].
  rewrite sbind_run. cbn [fst snd]. rewrite sbind_run. cbn [fst snd]. rewrite E.
  split; [|done]. simpl. rewrite E'. by destruct op.
Qed.
End Refinement.

(** ** Restarts

    A new process finds in the file what the last one wrote; a format that
    keeps texts gives a number or a truth value back as its text, and gives
    octets back as they were. *)
Class SettingsFormat := { reload : QVariant -> QVariant }.
Class SettingsFormatLaws `{SettingsFormat} : Prop := {
  reload_bytes t : reload (VByteArray t) = VByteArray t;
  reload_other v t : reload v = VByteArray t -> v = VByteArray t
}.

Definition restart {K} `{Keychain K} `{Cipher} `{SettingsFormat} (platform : Platform)
    (s : SecureQSettings K) : SecureQSettings K :=
  (construct platform (mkSecure (map (λ e, (e.1, reload e.2)) (m_settings s)) [] (keychain s))).2.

Section Restart.
Context {K : Type} `{KeychainLaws K} `{!Cipher} `{!CipherLaws} `{!SettingsFormat} `{!SettingsFormatLaws}.
Implicit Types s : SecureQSettings K.

Lemma qm_find_map {V} (f : V -> V) k (m : list (string * V)) :
  qm_find k (map (λ e, (e.1, f e.2)) m) = f <$> qm_find k m.
Proof.
  induction m as [|[k0 v0] m IH]; simpl; [done|]. by destruct (key_cmp k k0).
Qed.

Lemma decode_reload s v : decode s (reload v) = match v with VByteArray _ => decode s v | _ => reload v end.
Proof.
  destruct v; try (by rewrite reload_bytes); apply decode_plain;
    match goal with |- plain_value ?r => destruct r eqn:E; try done; by apply reload_other in E end.
Qed.

(** The conversion to the encrypted form changes no value. *)
Lemma reencrypt_ok platform keys s :
  store_ok platform s ->
  let s' := (for_each keys (λ key,
      if encrypted_key key then val <- sec_value key VInvalid ;; sec_setValue platform key val
      else sret tt) s).2 in
  encryptionRequired platform = true -> Forall (λ k, is_Some (qm_find k (m_settings s))) keys ->
  store_ok platform s' /\ forall k, view s' k = view s k.
Proof.
  intros Hs s' Hp. revert s' . revert s Hs. induction keys as [|k keys IH]; intros s Hs s' Hk; [done|].
  apply list.Forall_cons in Hk as [Hk Hks]. unfold s'. cbn [for_each]. rewrite sbind_run.
  destruct (encrypted_key k) eqn:Ek; [|by apply IH].
  rewrite sbind_run. destruct (sec_value_ok platform k VInvalid s Hs) as (E1 & O1 & V1 & F1).
  rewrite E1. set (s1 := (sec_value k VInvalid s).2) in *.
  destruct (sec_setValue_ok platform k (default VInvalid (view s k)) s1 O1) as [O2 V2].
  { right. by rewrite Hp, Ek. }
  set (s2 := (sec_setValue platform k (default VInvalid (view s k)) s1).2) in *.
  assert (forall k', view s2 k' = view s k') as V3.
  { intros k'. rewrite V2, V1. destruct (String.eqb_spec k' k) as [->|]; [|done].
    destruct Hk as [v Hv]. unfold view. by rewrite Hv. }
  destruct (IH s2 O2) as [O4 V4].
  { eapply list.Forall_impl; [exact Hks|]. intros k' [v Hv].
    assert (view s2 k' = Some (decode s v)) as Hv2 by (rewrite V3; unfold view; by rewrite Hv).
    unfold view in Hv2. by destruct (qm_find k' (m_settings s2)); [eexists|]. }
  split; [exact O4|]. intros k'. rewrite V4. apply V3.
Qed.

(** The key storage is apart from the file and the cache. *)
Lemma keychain_keeps {A} (m : StateM K A) :
  keeps m_cache (on_keychain m) /\ keeps m_settings (on_keychain m).
Proof. split; intros s; unfold on_keychain; by destruct (m (keychain s)). Qed.

Lemma keys_keep tag :
  keeps m_cache (load_or_create (K := K) tag) /\ keeps m_settings (load_or_create (K := K) tag).
Proof.
  split; unfold load_or_create, getSecTag, setSecTag; stateful; apply keychain_keeps.
Qed.

#[local] Hint Extern 1 (keeps _ (load_or_create _)) => apply keys_keep : zlo.

Lemma have_keys_keep : keeps m_cache (have_keys (K := K)) /\ keeps m_settings (have_keys (K := K)).
Proof. split; unfold have_keys, getEncKey, getEncIv; stateful. Qed.
Lemma decryptText_keep t :
  keeps m_cache (decryptText (K := K) t) /\ keeps m_settings (decryptText (K := K) t).
Proof. split; unfold decryptText, getEncKey, getEncIv; stateful. Qed.
Lemma encryptText_keep t :
  keeps m_cache (encryptText (K := K) t) /\ keeps m_settings (encryptText (K := K) t).
Proof. split; unfold encryptText, getEncKey, getEncIv; stateful. Qed.

(** Reading and writing a key leaves the cache entries of the others. *)
Lemma sec_value_cache k d s k' :
  k <> k' -> qm_find k' (m_cache (sec_value k d s).2) = qm_find k' (m_cache s).
Proof.
  intros Hne. unfold sec_value. rewrite gets_bind. destruct (qm_find k (m_cache s)); [done|].
  rewrite gets_bind. destruct (qm_find k (m_settings s)) as [v|]; [|done].
  destruct v as [| | | | |stored| | | | |]; try (cbn; by rewrite qm_find_insert_ne).
  destruct (has_magic stored); [|cbn; by rewrite qm_find_insert_ne].
  rewrite sbind_run. destruct (have_keys s).1; cbn [negb sret snd]; [|by rewrite (proj1 have_keys_keep)].
  rewrite sbind_run. cbn. rewrite qm_find_insert_ne by done.
  by rewrite (proj1 (decryptText_keep _)), (proj1 have_keys_keep).
Qed.

Lemma sec_setValue_cache platform k v s k' :
  k <> k' -> qm_find k' (m_cache (sec_setValue platform k v s).2) = qm_find k' (m_cache s).
Proof.
  intros Hne. unfold sec_setValue.
  destruct (encryptionRequired platform && encrypted_key k); [|cbn; by rewrite qm_find_insert_ne].
  rewrite sbind_run. destruct (have_keys s).1; cbn [sret snd]; [|by rewrite (proj1 have_keys_keep)].
  rewrite sbind_run. cbn. rewrite qm_find_insert_ne by done.
  by rewrite (proj1 (encryptText_keep _)), (proj1 have_keys_keep).
Qed.

(** A value of the file that the cache does not have can be replaced there. *)
Lemma set_file_ok platform k v s :
  store_ok platform s -> qm_find k (m_cache s) = None -> plain_value v ->
  let s' := mkSecure (qm_insert k v (m_settings s)) (m_cache s) (keychain s) in
  store_ok platform s' /\ forall k', view s' k' = if String.eqb k' k then Some v else view s k'.
Proof.
  intros Hok Hn Hv s'.
  destruct (set_both_ok platform k v v s Hok (decode_plain s v Hv) (or_intror Hv)) as [[_ Hk] V].
  split; [|exact V]. split; [|exact Hk]. intros k' v' Hf.
  etransitivity; [apply V|]. destruct (String.eqb_spec k' k) as [->|]; [|by apply Hok].
  unfold s' in Hf. cbn in Hf. congruence.
Qed.

Lemma qm_find_some {V} k (v : V) m : (k, v) ∈ m -> is_Some (qm_find k m).
Proof.
  induction m as [|[k0 v0] m IH]; [by intros ?%elem_of_nil|]. simpl.
  destruct (key_cmp k k0) eqn:E; [by eexists| |]; intros [[= -> ->]|Hin]%elem_of_cons; auto;
    by rewrite key_cmp_refl in E.
Qed.

(** The state a new process starts from. *)
Lemma reloaded_view s k :
  view (mkSecure (map (λ e, (e.1, reload e.2)) (m_settings s)) [] (keychain s)) k =
  match qm_find k (m_settings s) with
  | Some (VByteArray _) => view s k | Some v => Some (reload v) | None => None
  end.
Proof.
  unfold view. cbn [m_settings]. rewrite qm_find_map.
  destruct (qm_find k (m_settings s)) as [v|]; [|done]. simpl. rewrite decode_reload.
  by destruct v.
Qed.

Lemma reloaded_ok platform s :
  store_ok platform s ->
  store_ok platform (mkSecure (map (λ e, (e.1, reload e.2)) (m_settings s)) [] (keychain s)).
Proof.
  intros [_ Hk]. split; [done|]. destruct Hk as [Hk|[Hp Hf]]; [by left|right; split; [done|]].
  intros k t. cbn [m_settings]. rewrite qm_find_map.
  destruct (qm_find k (m_settings s)) as [v|] eqn:E; [|done]. simpl. intros [= R].
  apply reload_other in R as ->. by eapply Hf.
Qed.

Lemma reencrypt_cache platform keys s k' :
  encrypted_key k' = false ->
  qm_find k' (m_cache (for_each keys (λ key,
      if encrypted_key key then val <- sec_value key VInvalid ;; sec_setValue platform key val
      else sret tt) s).2) = qm_find k' (m_cache s).
Proof.
  intros Hk. revert s. induction keys as [|k keys IH]; intros s; [done|]. cbn [for_each].
  rewrite sbind_run, IH. destruct (encrypted_key k) eqn:Ek; [|done].
  assert (k <> k') by congruence.
  by rewrite sbind_run, sec_setValue_cache, sec_value_cache.
Qed.
End Restart.
