(* ===== verification/SecureSettingsProperties.v ===== *)
(** * Properties of the encrypted settings

    Concrete codecs, a cipher and a key storage, which show that the laws the
    theorems assume can hold; then that the store (SecureSettings.v) refines a
    map, survives restarts and backups and keeps the servers secret. *)
From Stdlib Require Import ZArith QArith Lia Ascii String.
From stdpp Require Import base list strings countable.
From stdpp Require Import base list strings.
From S2P Require Import Prelude QtString QtContainers Variant Protocols Containers SecureSettings.
Local Open Scope string_scope.

Abbreviation leaf := (string + Z)%type.
Abbreviation tree := (gen_tree leaf).

Definition text_leaf (s : string) : tree := GenLeaf (inl s).
Definition int_leaf (n : Z) : tree := GenLeaf (inr n).
Definition bool_leaf (b : bool) : tree := int_leaf (if b then 1 else 0).

Fixpoint json_tree (v : QJsonValue) : tree :=
  match v with
  | JUndefined => GenNode 0 []
  | JNull => GenNode 1 []
  | JBool b => GenNode 2 [bool_leaf b]
  | JDouble q => GenNode 3 [int_leaf (Qnum q); int_leaf (Zpos (Qden q))]
  | JString s => GenNode 4 [text_leaf s]
  | JArray l => GenNode 5 (map json_tree l)
  | JObject o => GenNode 6 (map (λ e, GenNode 7 [text_leaf e.1; json_tree e.2]) o)
  end.

Definition leaf_text (t : tree) : string := match t with GenLeaf (inl s) => s | _ => "" end.
Definition leaf_int (t : tree) : Z := match t with GenLeaf (inr n) => n | _ => 0%Z end.

Fixpoint tree_json (t : tree) : QJsonValue :=
  match t with
  | GenNode 1 _ => JNull
  | GenNode 2 (b :: _) => JBool (leaf_int b =? 1)%Z
  | GenNode 3 (n :: d :: _) => JDouble (Qmake (leaf_int n) (Z.to_pos (leaf_int d)))
  | GenNode 4 (s :: _) => JString (leaf_text s)
  | GenNode 5 l => JArray (map tree_json l)
  | GenNode 6 l =>
      JObject (map (λ e, match e with GenNode _ (k :: v :: _) => (leaf_text k, tree_json v)
                                 | _ => ("", JUndefined) end) l)
  | _ => JUndefined
  end.

Fixpoint tree_json_tree (v : QJsonValue) : tree_json (json_tree v) = v.
Proof.
  destruct v as [| |b|q|s|l|o]; simpl; try done.
  - by destruct b.
  - by destruct q.
  - f_equal. induction l as [|v l IH]; simpl; [done|]. by rewrite tree_json_tree, IH.
  - f_equal. induction o as [|[k v] o IH]; simpl; [done|]. by rewrite tree_json_tree, IH.
Qed.

Fixpoint variant_tree (v : QVariant) : tree :=
  match v with
  | VInvalid => GenNode 0 []
  | VBool b => GenNode 1 [bool_leaf b]
  | VInt n => GenNode 2 [int_leaf n]
  | VDouble q => GenNode 3 [int_leaf (Qnum q); int_leaf (Zpos (Qden q))]
  | VString s => GenNode 4 [text_leaf s]
  | VByteArray s => GenNode 5 [text_leaf s]
  | VMap m => GenNode 6 (map (λ e, GenNode 0 [text_leaf e.1; variant_tree e.2]) m)
  | VList l => GenNode 7 (map variant_tree l)
  | VJsonArray l => GenNode 8 (map json_tree l)
  | VDateTime t => GenNode 9 [int_leaf t]
  | VLocale n => GenNode 10 [text_leaf n]
  end.

Fixpoint tree_variant (t : tree) : QVariant :=
  match t with
  | GenNode 1 (b :: _) => VBool (leaf_int b =? 1)%Z
  | GenNode 2 (n :: _) => VInt (leaf_int n)
  | GenNode 3 (n :: d :: _) => VDouble (Qmake (leaf_int n) (Z.to_pos (leaf_int d)))
  | GenNode 4 (s :: _) => VString (leaf_text s)
  | GenNode 5 (s :: _) => VByteArray (leaf_text s)
  | GenNode 6 l =>
      VMap (map (λ e, match e with GenNode _ (k :: v :: _) => (leaf_text k, tree_variant v)
                              | _ => ("", VInvalid) end) l)
  | GenNode 7 l => VList (map tree_variant l)
  | GenNode 8 l => VJsonArray (map tree_json l)
  | GenNode 9 (n :: _) => VDateTime (leaf_int n)
  | GenNode 10 (s :: _) => VLocale (leaf_text s)
  | _ => VInvalid
  end.

Fixpoint tree_variant_tree (v : QVariant) : tree_variant (variant_tree v) = v.
Proof.
  destruct v as [|b|n|q|s|s|m|l|l|t|n]; simpl; try done.
  - by destruct b.
  - by destruct q.
  - f_equal. induction m as [|[k v] m IH]; simpl; [done|]. by rewrite tree_variant_tree, IH.
  - f_equal. induction l as [|v l IH]; simpl; [done|]. by rewrite tree_variant_tree, IH.
  - f_equal. induction l as [|v l IH]; simpl; [done|]. by rewrite tree_json_tree, IH.
Qed.

(** A tree as the digits of its number. *)
Definition tree_text (t : tree) : string := number (Zpos (encode t)).
Definition text_tree (s : string) : tree :=
  match signed_val s with
  | Some (Zpos p) => default (GenNode 0 []) (countable.decode p)
  | _ => GenNode 0 []
  end.

Lemma text_tree_text t : text_tree (tree_text t) = t.
Proof. unfold text_tree, tree_text. by rewrite signed_val_number, decode_encode. Qed.

(** ** Instances *)
Definition sample_json : JsonDocument := {|
  toJson := λ v, "[" +:+ tree_text (json_tree v);
  fromJsonDoc := λ s, tree_json (text_tree (mid 1 s))
|}.

Lemma sample_json_laws : @JsonDocumentLaws sample_json.
Proof.
  split; [|intros l; exact (startsWith_char "[" "[" _)]. intros v _.
  change (tree_json (text_tree (tree_text (json_tree v))) = v).
  rewrite text_tree_text. apply tree_json_tree.
Qed.

Definition sample_cipher : Cipher := {|
  encryptAes := λ v key iv, Some (key +:+ v);
  decryptAes := λ c key iv, Some (drop_chars (String.length key) c);
  ds_write := λ v, tree_text (variant_tree v);
  ds_read := λ s, tree_variant (text_tree s)
|}.

Lemma sample_cipher_laws : @CipherLaws sample_cipher.
Proof.
  split; simpl.
  - intros v key iv _ _. eexists. split; [done|]. by rewrite drop_chars_app.
  - intros v. rewrite text_tree_text. apply tree_variant_tree.
Qed.

(** A key storage that works, and one that stores nothing. *)
Definition sample_keychain : Keychain (list (string * string)) := {|
  ks_read := λ t, gets (λ w, default "" (qm_find t w));
  ks_write := λ t d, modify (qm_insert t d);
  generatePrivateSalt := sret "0123456789abcdef0123456789abcdef"
|}.

#[refine] Definition sample_keychain_laws : @KeychainLaws _ sample_keychain :=
  @Build_KeychainLaws _ sample_keychain (λ w t, default "" (qm_find t w)) _ _ _ _.
Proof.
  - done.
  - done.
  - intros t d w t'. simpl. destruct (String.eqb_spec t' t) as [->|Hne].
    + right. by rewrite qm_find_insert_eq.
    + left. by rewrite qm_find_insert_ne.
  - done.
Defined.

Definition broken_keychain : Keychain unit := {|
  ks_read := λ t, sret "";
  ks_write := λ t d, sret tt;
  generatePrivateSalt := sret "0123456789abcdef0123456789abcdef"
|}.

(** A format that keeps numbers and truth values as texts. *)
Definition ini_format : SettingsFormat := {|
  reload := λ v, match v with
                 | VBool _ | VInt _ | VDouble _ => VString (var_toString v)
                 | _ => v
                 end
|}.

Lemma ini_format_laws : @SettingsFormatLaws ini_format.
Proof. split; [done|]. by intros []. Qed.

(** The encrypted store over these. *)
Abbreviation SampleStore := (SecureQSettings (list (string * string))).

Definition windows_store : KeyValueStore SampleStore :=
  @secure_store _ sample_keychain sample_cipher Windows.
Definition windows_store_laws : @KeyValueLaws SampleStore windows_store :=
  @secure_store_laws _ sample_keychain sample_keychain_laws sample_cipher sample_cipher_laws Windows.

Definition sample_store : SampleStore :=
  mkSecure [("Conf/killSwitchEnabled", VBool false); ("Servers/serversList", VByteArray "[]")] []
    [(settingsIvTag, "iv"); (settingsKeyTag, "key")].

Lemma sample_store_ok platform :
  @store_ok _ sample_keychain sample_keychain_laws sample_cipher platform sample_store.
Proof. split; [done|]. left. by split. Qed.

(** ** Properties of the settings store

    The store behaves as a map, survives a restart, keeps the server list
    encrypted where the platform asks for it, and its backup can be restored. *)
Local Open Scope string_scope.

(** ** Backup *)
Section Backup.
Context {K : Type} `{KeychainLaws K} `{!Cipher} `{!CipherLaws}.
Implicit Types s : SecureQSettings K.

Lemma fromVariant_defined text v : fromVariant text v <> JUndefined.
Proof. by destruct v. Qed.

Lemma qm_find_jinsert k v o k' :
  v <> JUndefined -> qm_find k' (jinsert k v o) = if String.eqb k' k then Some v else qm_find k' o.
Proof.
  intros Hv. destruct (String.eqb_spec k' k) as [->|Hne]; unfold jinsert;
    destruct v; try done; by rewrite ?qm_find_insert_eq, ?qm_find_insert_ne.
Qed.

Lemma backup_keys_ok platform text keys cfg s :
  store_ok platform s ->
  let r := backup_keys text keys cfg s in
  store_ok platform r.2 /\ (forall k, view r.2 k = view s k) /\
  forall k, qm_find k r.1 =
    if needToBackup k && existsb (String.eqb k) keys
    then Some (fromVariant text (default VInvalid (view s k))) else qm_find k cfg.
Proof.
  revert cfg s. induction keys as [|k0 keys IH]; intros cfg s Hs; cbn [backup_keys existsb].
  { split_and!; [done|done|]. intros k. by rewrite andb_false_r. }
  destruct (needToBackup k0) eqn:E0; cbn [negb].
  - rewrite sbind_run. destruct (sec_value_ok platform k0 VInvalid s Hs) as (E1 & O1 & V1 & _).
    rewrite E1. destruct (IH (jinsert k0 (fromVariant text (default VInvalid (view s k0))) cfg) _ O1)
      as (O2 & V2 & F2).
    split_and!; [done|intros k; by rewrite V2, V1|]. intros k. rewrite F2, V1.
    rewrite qm_find_jinsert by apply fromVariant_defined.
    destruct (String.eqb_spec k k0) as [->|Hne]; cbn [orb].
    + rewrite E0. cbn [andb]. by destruct (existsb _ keys).
    + done.
  - destruct (IH cfg s Hs) as (O2 & V2 & F2). split_and!; [done|done|]. intros k. rewrite F2.
    destruct (String.eqb_spec k k0) as [->|Hne]; [by rewrite E0|done].
Qed.

Lemma toVariant_plain j : plain_value (toVariant j).
Proof. by destruct j. Qed.

Lemma restore_entries platform cfg l s :
  store_ok platform s ->
  let r := for_each l (λ e : string * QJsonValue,
        if String.eqb e.1 "Conf/installationUuid" then sret tt
        else sec_setValue platform e.1 (toVariant (value e.1 cfg))) s in
  store_ok platform r.2 /\
  forall k, view r.2 k =
    if negb (String.eqb k "Conf/installationUuid") && existsb (String.eqb k) (map fst l)
    then Some (toVariant (value k cfg)) else view s k.
Proof.
  revert s. induction l as [|[k0 v0] l IH]; intros s Hs; cbn [for_each map existsb fst].
  { split; [done|]. intros k. by rewrite andb_false_r. }
  rewrite sbind_run. destruct (String.eqb_spec k0 "Conf/installationUuid") as [->|Hu].
  - destruct (IH s Hs) as [O V]. split; [done|]. intros k. rewrite V.
    by destruct (String.eqb_spec k "Conf/installationUuid").
  - destruct (sec_setValue_ok platform k0 (toVariant (value k0 cfg)) s Hs) as [O1 V1].
    { left. apply toVariant_plain. }
    destruct (IH _ O1) as [O V]. split; [done|]. intros k. rewrite V, V1.
    destruct (String.eqb_spec k k0) as [->|Hne]; cbn [orb]; [|done].
    destruct (String.eqb_spec k0 "Conf/installationUuid"); [done|]. cbn. by destruct (existsb _ _).
Qed.

Lemma existsb_find {V} k (m : list (string * V)) :
  existsb (String.eqb k) (map fst m) = match qm_find k m with Some _ => true | None => false end.
Proof.
  induction m as [|[k0 v0] m IH]; [done|]. cbn [map existsb fst qm_find]. rewrite IH.
  destruct (String.eqb_spec k k0) as [->|Hne]; [by rewrite key_cmp_refl|].
  pose proof (key_cmp_neq _ _ Hne). by destruct (key_cmp k k0).
Qed.

Lemma existsb_keys s k :
  existsb (String.eqb k) (map fst (m_settings s)) = match view s k with Some _ => true | None => false end.
Proof. rewrite existsb_find. unfold view. by destruct (qm_find k (m_settings s)). Qed.
End Backup.

(** What a reader of a setting gets from [w] is what it got from [v]. *)
Definition reads_as (v w : QVariant) : Prop :=
  match v with
  | VBool b => var_toBool w = b
  | VInt n => var_toInt w = n
  | VString t => var_toString w = t
  | VByteArray t => var_toByteArray w = t
  | VMap m => Forall (λ e, exists t, e.2 = VString t) m -> toMap w = m
  | _ => True
  end.

Lemma converted_reads text v : reads_as v (toVariant (fromVariant text v)).
Proof.
  destruct v; simpl; try done; [apply round_half_int|].
  induction 1 as [|[k v] m [t E] Hm IH]; [done|]. simpl in E. subst v. simpl. f_equal. exact IH.
Qed.

(** ** Properties *)

(** C9. The store is the map of what was written: any sequence of reads,
    writes, removals of single keys and a clearing, through the cache and the
    encryption, gives the reader what a plain map from keys to values gives,
    with the caller's default for a key that is not there. The key storage has
    the keys already, or the platform encrypts nothing. *)
Theorem store_refines_map {K} `{KeychainLaws K} `{!Cipher} `{!CipherLaws} (platform : Platform)
    (ops : list StoreOp) (s : SecureQSettings K) :
  store_ok platform s -> ops_allowed plain_value ops (view s) ->
  (@run_ops _ (secure_store platform) ops s).1 = spec_ops ops (view s) /\
  store_ok platform (@run_ops _ (secure_store platform) ops s).2.
Proof.
  intros Hs Ha.
  exact (@run_ops_refines _ _ (secure_store_laws platform) ops s (view s) Hs (λ _, eq_refl) Ha).
Qed.

(** A restart loses nothing: the process that opens the file again reads
    every setting the last one held, octets (the server list among them)
    unchanged and the others as the file format gives them back, whether the
    list was encrypted already or the new process has to encrypt it. *)
Theorem settings_survive_restart {K} `{KeychainLaws K} `{!Cipher} `{!CipherLaws}
    `{!SettingsFormat} `{!SettingsFormatLaws} (platform : Platform) (s : SecureQSettings K) k :
  store_ok platform s -> k <> "Conf/encrypted" ->
  store_ok platform (restart platform s) /\
  view (restart platform s) k =
    match qm_find k (m_settings s) with
    | Some (VByteArray _) => view s k
    | Some v => Some (reload v)
    | None => None
    end.
Proof.
  intros Hok Hk.
  set (s0 := mkSecure (map (λ e, (e.1, reload e.2)) (m_settings s)) [] (keychain s)).
  assert (store_ok platform s0) as O0 by (by apply reloaded_ok).
  assert (view s0 k = match qm_find k (m_settings s) with
                      | Some (VByteArray _) => view s k | Some v => Some (reload v) | None => None
                      end) as V0 by apply reloaded_view.
  rewrite <- V0. unfold restart. fold s0. unfold construct. rewrite sbind_run, gets_bind.
  change ((set_cache (λ _ : SettingsMap, []) s0).2) with s0.
  destruct (encryptionRequired platform) eqn:Ep; [|done]. cbn [andb].
  destruct (negb _); [|done]. rewrite sbind_run. cbn [snd].
  destruct (reencrypt_ok platform (map fst (m_settings s0)) s0 O0 Ep) as [O1 V1].
  { apply Forall_map, list.Forall_forall. intros [k' v'] Hin. by eapply qm_find_some. }
  destruct (set_file_ok platform "Conf/encrypted" (VBool true) _ O1) as [O2 V2]; [|done|].
  { by rewrite reencrypt_cache. }
  split; [exact O2|]. etransitivity; [apply V2|].
  destruct (String.eqb_spec k "Conf/encrypted"); [done|apply V1].
Qed.

(** ** Secrecy of the server list

    A value sealed with the keys of the store: the encryption of a variant under
    the key and the IV the key storage holds, behind the mark. *)
Definition sealed {K} `{KeychainLaws K} `{Cipher} (s : SecureQSettings K) (v : QVariant) : Prop :=
  keyed s /\ exists x c, encryptAes (ds_write x) (enc_key s) (enc_iv s) = Some c /\
    v = VByteArray (magicString +:+ c).

(** The file has for a key the platform encrypts nothing but a sealed value. *)
Definition secret {K} `{KeychainLaws K} `{Cipher} (s : SecureQSettings K) : Prop :=
  forall k v, encrypted_key k = true -> qm_find k (m_settings s) = Some v -> sealed s v.

Section Secrecy.
Context {K : Type} `{KeychainLaws K} `{!Cipher} `{!CipherLaws} (platform : Platform).
Hypothesis Henc : encryptionRequired platform = true.
Implicit Types s : SecureQSettings K.

(** The keys the storage has, it keeps. *)
Definition keys_kept s s' : Prop :=
  forall t, held (keychain s) t <> "" -> held (keychain s') t = held (keychain s) t.

Lemma keys_kept_trans s1 s2 s3 : keys_kept s1 s2 -> keys_kept s2 s3 -> keys_kept s1 s3.
Proof. intros H12 H23 t Ht. rewrite H23; rewrite H12; done. Qed.
Lemma keys_kept_held s s' :
  (forall t, held (keychain s') t = held (keychain s) t) -> keys_kept s s'.
Proof. by intros Hh t _. Qed.

Lemma sealed_kept s s' v : keys_kept s s' -> sealed s v -> sealed s' v.
Proof.
  intros Hs [[Hk Hi] Hv]. unfold sealed, keyed, enc_key, enc_iv in *. rewrite !Hs by done. by split.
Qed.
Lemma secret_kept s s' :
  m_settings s' = m_settings s -> keys_kept s s' -> secret s -> secret s'.
Proof. intros E Hk Hs k v Ek. rewrite E. intros Hv. eapply sealed_kept; [done|by eapply Hs]. Qed.

(** Asking for a key writes one only where there is none, and gives the one that is there. *)
Lemma load_keeps tag s :
  keys_kept s (load_or_create tag s).2 /\
  ((load_or_create tag s).1 <> "" ->
   held (keychain (load_or_create tag s).2) tag = (load_or_create tag s).1).
Proof.
  destruct (getSecTag_run tag s) as (s1 & E1 & _ & _ & S1). unfold load_or_create.
  rewrite sbind_run, E1. cbn [fst snd].
  destruct (String.eqb_spec (held (keychain s) tag) "") as [Ht|Ht]; cbn [sret fst snd].
  2: { split; [by apply keys_kept_held|]. intros _. apply S1. }
  rewrite sbind_run. set (s2 := (on_keychain generatePrivateSalt s1).2).
  set (key := (on_keychain generatePrivateSalt s1).1).
  assert (forall t, held (keychain s2) t = held (keychain s1) t) as S2.
  { intros t. unfold s2, on_keychain. pose proof (salt_held (keychain s1) t) as E.
    destruct (generatePrivateSalt (keychain s1)). exact E. }
  rewrite sbind_run. set (s3 := (setSecTag tag key s2).2).
  assert (keys_kept s s3) as S3.
  { intros t Hne. unfold s3, setSecTag, on_keychain. pose proof (ks_write_held tag key (keychain s2) t) as E.
    destruct (ks_write tag key (keychain s2)) as [a w]. cbn [snd keychain] in *.
    destruct E as [E|[-> _]]; [by rewrite E, S2, S1|done]. }
  destruct (getSecTag_run tag s3) as (s4 & E4 & _ & _ & S4). rewrite sbind_run, E4. cbn [fst snd].
  assert (keys_kept s s4) as S5 by (intros t Hne; rewrite S4; by apply S3).
  by destruct (String.eqb key (held (keychain s3) tag)).
Qed.

Lemma keys_kept_bind {A B} (m : StateM (SecureQSettings K) A) (k : A -> StateM _ B) s :
  keys_kept s (m s).2 -> keys_kept (m s).2 (k (m s).1 (m s).2).2 -> keys_kept s (sbind m k s).2.
Proof. intros Hm Hk. rewrite sbind_run. by eapply keys_kept_trans. Qed.

Lemma have_keys_keeps s :
  keys_kept s (have_keys s).2 /\ ((have_keys s).1 = true -> keyed (have_keys s).2).
Proof.
  unfold have_keys. rewrite sbind_run. destruct (load_keeps settingsKeyTag s) as [K1 R1].
  unfold getEncKey. destruct (load_or_create settingsKeyTag s) as [key s1]. cbn [fst snd] in *.
  destruct (String.eqb_spec key "") as [->|Hk]; [done|]. rewrite sbind_run.
  destruct (load_keeps settingsIvTag s1) as [K2 R2]. unfold getEncIv.
  destruct (load_or_create settingsIvTag s1) as [iv s2]. cbn [fst snd sret] in *.
  split; [by eapply keys_kept_trans|]. destruct (String.eqb_spec iv "") as [->|Hi]; [done|].
  intros _. unfold keyed, enc_key, enc_iv. rewrite K2, R2 by (by rewrite ?R1). by rewrite R1.
Qed.

Lemma decryptText_keeps t s : keys_kept s (decryptText t s).2.
Proof.
  apply keys_kept_bind; [apply load_keeps|]. by apply keys_kept_bind; [apply load_keeps|].
Qed.

Lemma secret_value k d s : secret s -> secret (sec_value k d s).2.
Proof.
  unfold sec_value. rewrite gets_bind.
  destruct (qm_find k (m_cache s)); [done|]. rewrite gets_bind.
  destruct (qm_find k (m_settings s)) as [v|]; [|done].
  destruct v as [| | | | |stored| | | | |]; try done.
  destruct (has_magic stored); [|done]. rewrite sbind_run. destruct (have_keys_keeps s) as [K1 _].
  destruct (have_keys s).1; cbn [negb sret snd].
  2: { apply secret_kept; [apply have_keys_keep|done]. }
  rewrite sbind_run. cbn. apply secret_kept; cbn.
  - by rewrite (proj2 (decryptText_keep _)), (proj2 have_keys_keep).
  - exact (keys_kept_trans _ _ _ K1 (decryptText_keeps _ _)).
Qed.

Lemma sec_value_world k d s :
  keyed s -> m_settings (sec_value k d s).2 = m_settings s /\
    forall t, held (keychain (sec_value k d s).2) t = held (keychain s) t.
Proof.
  intros Hk. unfold sec_value. rewrite gets_bind.
  destruct (qm_find k (m_cache s)); [done|]. rewrite gets_bind.
  destruct (qm_find k (m_settings s)) as [v|]; [|done].
  destruct v as [| | | | |stored| | | | |]; try done.
  destruct (has_magic stored); [|done].
  destruct (have_keys_run s Hk) as (s1 & E1 & S1). rewrite sbind_run, E1. cbn [fst snd negb].
  destruct (decryptText_run (mid (slen magicString) stored) s1) as (s2 & E2 & S2);
    [by eapply keyed_same|].
  rewrite sbind_run, E2. destruct (same_store_trans _ _ _ S1 S2) as (F & _ & G). done.
Qed.

(** Also when there are no keys: nothing is written then. *)
Lemma secret_setValue k v s : secret s -> secret (sec_setValue platform k v s).2.
Proof.
  intros Hs. unfold sec_setValue. rewrite Henc. cbn [andb].
  destruct (encrypted_key k) eqn:Ek.
  2: { intros k' v' Hk'. cbn. rewrite qm_find_insert_ne by congruence. by apply Hs. }
  rewrite sbind_run. destruct (have_keys_keeps s) as [K1 R1].
  assert (secret (have_keys s).2) as Hs1 by (eapply secret_kept; [apply have_keys_keep|done..]).
  destruct (have_keys s) as [[] s1]; cbn [fst snd] in *; [|done]. specialize (R1 eq_refl).
  destruct (encryptText_run (ds_write v) s1 R1) as (s2 & E2 & S2). rewrite sbind_run, E2.
  destruct (decrypt_encrypt (ds_write v) (enc_key s1) (enc_iv s1)) as (c & Ec & _); [apply R1..|].
  destruct S2 as (F2 & _ & G2). intros k' v' Hk'. cbn. rewrite F2. intros Hv.
  apply (sealed_kept s1); [by apply keys_kept_held|].
  destruct (String.eqb_spec k' k) as [->|Hne].
  - rewrite qm_find_insert_eq in Hv. injection Hv as <-. split; [done|]. exists v, c. by rewrite Ec.
  - rewrite qm_find_insert_ne in Hv by done. by eapply Hs1.
Qed.

Lemma secret_remove k s : secret s -> secret (sec_remove k s).2.
Proof.
  intros Hs k' v' Hk'. cbn. unfold qsettings_remove.
  rewrite (qm_find_filter (λ x, negb (String.eqb x k || startsWith x (k +:+ "/")))).
  destruct (negb _); [by apply Hs|done].
Qed.

Lemma secret_restore `{JsonDocument} json s : secret s -> secret (sec_restoreAppConfig platform json s).2.
Proof.
  intros Hs. unfold sec_restoreAppConfig. generalize (toObject (fromJsonDoc json)). intros cfg.
  destruct cfg as [|e cfg]; [done|]. rewrite sbind_run. cbn [sret snd].
  apply (invariant_for_each secret (e :: cfg)); [|done]. clear s Hs. intros e' s Hs.
  destruct (String.eqb e'.1 "Conf/installationUuid"); [done|by apply secret_setValue].
Qed.

Lemma secret_flag s v :
  secret s -> secret (set_file (qm_insert "Conf/encrypted" v) s).2.
Proof.
  intros Hs k w Hk. cbn. rewrite qm_find_insert_ne; [by apply Hs|].
  intros <-. done.
Qed.

(** The loop of the constructor encrypts the keys it visits. *)
Lemma reencrypt_secret keys s :
  keyed s ->
  (forall k v, encrypted_key k = true -> k ∉ keys -> qm_find k (m_settings s) = Some v -> sealed s v) ->
  secret (for_each keys (λ key,
      if encrypted_key key then val <- sec_value key VInvalid ;; sec_setValue platform key val
      else sret tt) s).2.
Proof.
  revert s. induction keys as [|k0 keys IH]; intros s Hk Hs.
  { intros k v Ek Ef. by eapply Hs; [|apply not_elem_of_nil|]. }
  cbn [for_each]. rewrite sbind_run. destruct (encrypted_key k0) eqn:E0.
  2: { apply IH; [done|]. intros k v Ek Hn. apply Hs; [done|]. apply not_elem_of_cons.
       split; [congruence|done]. }
  rewrite sbind_run. set (s1 := (sec_value k0 VInvalid s).2). set (v0 := (sec_value k0 VInvalid s).1).
  destruct (sec_value_world k0 VInvalid s Hk) as [F1 G1]. fold s1 in F1, G1.
  assert (keyed s1) as Hk1 by (destruct Hk; split; unfold enc_key, enc_iv; by rewrite G1).
  destruct (sec_setValue_encrypts platform k0 v0 s1 Hk1) as (c & w & Ec & -> & Gw).
  { by rewrite Henc, E0. }
  cbn [snd]. apply IH.
  - destruct Hk1; split; unfold enc_key, enc_iv; cbn [keychain]; by rewrite Gw.
  - intros k v Ek Hn. cbn [m_settings]. rewrite F1. intros Hv.
    destruct (String.eqb_spec k k0) as [->|Hne].
    + rewrite qm_find_insert_eq in Hv. injection Hv as <-.
      apply (sealed_kept s1); [by apply keys_kept_held|]. split; [done|]. by exists v0, c.
    + rewrite qm_find_insert_ne in Hv by done. apply (sealed_kept s).
      { apply keys_kept_held. intros t. cbn [keychain]. by rewrite Gw, G1. }
      apply (Hs k); [done| |done]. by apply not_elem_of_cons.
Qed.
End Secrecy.

(** The calls that reach the store. *)
Inductive store_call {K} `{Keychain K} `{Cipher} `{JsonDocument} (platform : Platform) :
    forall {A}, StateM (SecureQSettings K) A -> Prop :=
| call_value k d : store_call platform (sec_value k d)
| call_setValue k v : store_call platform (sec_setValue platform k v)
| call_remove k : store_call platform (sec_remove k)
| call_clear : store_call platform sec_clearSettings
| call_restore json : store_call platform (sec_restoreAppConfig platform json).


(** A backup can be restored: a store that restores the backup of another
    one, on any platform, holds for every setting under [Conf/] and [Servers/]
    a value that reads as the one backed up, and keeps its own installation
    identifier and every setting the backup does not have. *)
Theorem backup_restores {K K'} `{KeychainLaws K} `{KeychainLaws K'} `{!Cipher} `{!CipherLaws}
    `{JsonDocumentLaws} (text : QVariant -> string) (platform platform' : Platform)
    (s : SecureQSettings K) (s' : SecureQSettings K') :
  store_ok platform s -> store_ok platform' s' ->
  let backup := (sec_backupAppConfig text s).1 in
  let restored := (sec_restoreAppConfig platform' backup s').2 in
  store_ok platform' restored /\
  forall k, match (if needToBackup k then view s k else None) with
       | Some v => exists w, view restored k = Some w /\ reads_as v w
       | None => view restored k = view s' k
       end.
Proof.
  intros Hs Hs' backup restored.
  destruct (backup_keys_ok platform text (map fst (m_settings s)) [] s Hs) as (_ & _ & F).
  assert (backup = toJson (JObject (backup_keys text (map fst (m_settings s)) [] s).1)) as Eb
    by (unfold backup, sec_backupAppConfig; by rewrite gets_bind, sbind_run).
  set (cfg := (backup_keys text (map fst (m_settings s)) [] s).1) in *.
  destruct (restore_entries platform' cfg cfg s' Hs') as [O V].
  assert (restored = (for_each cfg (λ e : string * QJsonValue,
        if String.eqb e.1 "Conf/installationUuid" then sret tt
        else sec_setValue platform' e.1 (toVariant (value e.1 cfg))) s').2) as ->.
  { unfold restored, sec_restoreAppConfig. rewrite Eb, document_read by done.
    change (toObject (JObject cfg)) with cfg. destruct cfg; [done|]. by rewrite sbind_run. }
  split; [exact O|]. intros k. rewrite V, existsb_find. unfold value. rewrite F, existsb_keys.
  destruct (needToBackup k) eqn:En; [|by rewrite andb_false_r].
  destruct (view s k) as [v|]; [|by rewrite andb_false_r]. cbn [andb].
  assert (String.eqb k "Conf/installationUuid" = false) as ->.
  { apply String.eqb_neq. by intros ->. }
  exists (toVariant (fromVariant text v)). split; [done|apply converted_reads].
Qed.

(** ** Witnesses *)
#[local] Existing Instances sample_keychain sample_keychain_laws sample_cipher sample_cipher_laws.
#[local] Existing Instances sample_json sample_json_laws ini_format ini_format_laws.

Lemma store_refines_map_witness :
  (@run_ops _ (secure_store Windows)
     [Write "Servers/serversList" (VByteArray "[1]"); Read "Servers/serversList" VInvalid;
      Clear; Read "Conf/killSwitchEnabled" (VBool true)] sample_store).1 =
  [VByteArray "[1]"; VBool true].
Proof.
  destruct (store_refines_map Windows
    [Write "Servers/serversList" (VByteArray "[1]"); Read "Servers/serversList" VInvalid;
     Clear; Read "Conf/killSwitchEnabled" (VBool true)] sample_store (sample_store_ok Windows))
    as [E _]; [done|].
  rewrite E. reflexivity.
Defined.

Lemma settings_survive_restart_witness :
  view (restart Windows sample_store) "Servers/serversList" = Some (VByteArray "[]").
Proof.
  destruct (settings_survive_restart Windows sample_store "Servers/serversList" (sample_store_ok Windows))
    as [_ E]; [done|].
  rewrite E. reflexivity.
Defined.


Lemma backup_restores_witness :
  exists w, view (sec_restoreAppConfig Linux (sec_backupAppConfig (λ _, "") sample_store).1
                    sample_store).2 "Conf/killSwitchEnabled" = Some w /\ var_toBool w = false.
Proof.
  destruct (backup_restores (λ _, "") Windows Linux sample_store sample_store
    (sample_store_ok Windows) (sample_store_ok Linux)) as [_ E].
  exact (E "Conf/killSwitchEnabled").
Defined.

(** ** A key storage that does not work

    The constructor notes that the settings are encrypted whether it could
    encrypt them or not. *)
Theorem upgrade_marks_plain_list {K} `{Keychain K} `{Cipher} (platform : Platform)
    (s : SecureQSettings K) v :
  encryptionRequired platform = true -> (forall s' : SecureQSettings K, (have_keys s').1 = false) ->
  m_settings s = [("Servers/serversList", v)] -> has_magic (var_toByteArray v) = false ->
  m_settings (construct platform s).2 =
    [("Conf/encrypted", VBool true); ("Servers/serversList", v)].
Proof.
  intros He Hn Hf Hm. unfold construct. rewrite sbind_run, gets_bind. cbn [snd].
  change (m_settings (set_cache (λ _ : SettingsMap, []) s).2) with (m_settings s).
  rewrite He, Hf. change (qm_find "Conf/encrypted" [("Servers/serversList", v)]) with (@None QVariant).
  change (negb (var_toBool (default VInvalid None))) with true. cbn [andb map fst].
  rewrite sbind_run. cbn [set_file modify snd m_settings for_each].
  rewrite sbind_run. cbn [sret snd]. change (encrypted_key "Servers/serversList") with true.
  cbv iota. rewrite sbind_run. set (s0 := (set_cache (λ _, []) s).2).
  assert (m_settings (sec_value "Servers/serversList" VInvalid s0).2 = m_settings s) as E1.
  { assert (qm_find "Servers/serversList" (m_settings s) = Some v) as Ev by (by rewrite Hf).
    unfold sec_value. rewrite gets_bind. change (m_cache s0) with (@nil (string * QVariant)).
    cbn [qm_find]. rewrite gets_bind. change (m_settings s0) with (m_settings s). rewrite Ev.
    destruct v; simpl in Hm; rewrite ?Hm; reflexivity. }
  unfold sec_setValue. rewrite He. change (encrypted_key "Servers/serversList") with true.
  cbn [andb]. rewrite sbind_run, Hn. cbn [sret snd]. rewrite (proj2 have_keys_keep), E1, Hf.
  reflexivity.
Qed.
