(* ===== verification/NetworkUtilities.v ===== *)
(** * Texts of addresses and networks

    Model of [NetworkUtilities] (client/core/networkUtilities.cpp): the checks
    and conversions of the address texts that the client and the service
    exchange. *)
From Stdlib Require Import ZArith Lia Ascii String.
From stdpp Require Import base list strings.
From S2P Require Import Prelude QtString HostAddress IpAddress.
Local Open Scope string_scope.
Local Open Scope Z_scope.

(** [QString("%1.%2.%3.%4")] of the octets of a 32-bit value. *)
Definition dotted (mask : Z) : string :=
  number (Z.shiftr mask 24) +:+ "." +:+ number (Z.land (Z.shiftr mask 16) 255) +:+ "." +:+
  number (Z.land (Z.shiftr mask 8) 255) +:+ "." +:+ number (Z.land mask 255).

(** A shift of a 32-bit value by a negative count or by 32 and more has no
    defined result. *)
Definition netMaskFromIpWithSubnet (ip : string) : Outcome string :=
  if negb (contains_str ip "/") then Ret "255.255.255.255"
  else
    match toInt_ok (default "" (split "/" ip !! 1%nat)) with
    | None => Ret "255.255.255.255"
    | Some prefix =>
        if (0 <=? 32 - prefix) && (32 - prefix <? 32)
        then Ret (dotted (Z.land (u32 (Z.shiftl 4294967295 (32 - prefix))) 4294967295))
        else Abort
    end.

Definition ipAddressFromIpWithSubnet (ip : string) : string :=
  if negb (count_char "."%char ip =? 3) then "" else default "" (head (split "/" ip)).

(** [s.indexOf(sub, from)] for a position within the string. *)
Definition indexOf_at (s sub : string) (from : Z) : Z :=
  let r := indexOf (mid from s) sub in if r <? 0 then -1 else r + from.

Definition getStringBetween (s a b : string) : string :=
  let ap := indexOf s a in
  let bp := indexOf_at s b (ap + slen a) in
  if (ap <? 0) || (bp <? 0) then ""
  else
    let ap := ap + slen a in
    if bp - ap <=? 0 then "" else trimmed (mid_len ap (bp - ap) s).

Section Parser.
Context `{AddressParser}.

(** [lookup] are the addresses the resolver gives for a name. *)
Definition getIPAddress (lookup : string -> list string) (host : string) : string :=
  match protocol (parseHost host) with
  | IPv4Protocol => host
  | IPv6Protocol => host
  | UnknownNetworkLayerProtocol => match lookup host with a :: _ => a | [] => "" end
  end.

Definition checkIPv4Format (ip : string) : bool :=
  if String.eqb ip "" then false
  else if negb (count_char "."%char ip =? 3) then false
  else bool_decide (protocol (parseHost ip) = IPv4Protocol).

Definition checkIpSubnetFormat (ip : string) : bool :=
  if negb (contains_str ip "/") then checkIPv4Format ip
  else
    match split "/" ip with
    | [address; prefix] =>
        match toInt_ok prefix with
        | Some subnet => if (0 <=? subnet) && (subnet <=? 32) then checkIPv4Format address else false
        | None => false
        end
    | _ => false
    end.
End Parser.

(** ** Lemmas *)
Lemma contains_slash a b : contains_str (a +:+ "/" +:+ b) "/" = true.
Proof.
  induction a as [|c a IH].
  - change ("" +:+ "/" +:+ b) with (String "/" b). cbn [contains_str]. by rewrite startsWith_char.
  - rewrite string_app_cons. cbn [contains_str]. rewrite IH. by rewrite orb_true_r.
Qed.

Lemma contains_single_free c s : char_free c s = true -> contains_str s (String c "") = false.
Proof.
  intros Hs. induction s as [|x s IH]; [done|]. cbn in Hs. apply andb_true_iff in Hs as [Hx Hs].
  cbn [contains_str]. rewrite startsWith_char, IH by done. rewrite orb_false_r.
  by apply negb_true_iff in Hx.
Qed.

(** The texts of networks: an address text without a slash and a prefix length. *)
Lemma split_network a n :
  char_free "/" a = true -> split "/" (a +:+ "/" +:+ number n) = [a; number n].
Proof.
  intros Ha. apply (split_join_char "/" [a; number n]); [done|].
  repeat constructor; [done|]. by apply number_char_free.
Qed.

Lemma toInt_ok_number n : - 2 ^ 31 <= n < 2 ^ 31 -> toInt_ok (number n) = Some n.
Proof.
  intros Hn. unfold toInt_ok. rewrite trimmed_number, signed_val_number.
  replace (- 2 ^ 31 <=? n) with true by lia. by replace (n <? 2 ^ 31) with true by lia.
Qed.

(** The shifted value is the mask with the leading [n] bits set. *)
Lemma shifted_mask n :
  1 <= n <= 32 ->
  Z.land (u32 (Z.shiftl 4294967295 (32 - n))) 4294967295 = Z.shiftl (2 ^ n - 1) (32 - n).
Proof.
  intros Hn. rewrite !Z.shiftl_mul_pow2 by lia. unfold u32.
  assert (2 ^ 32 = 2 ^ n * 2 ^ (32 - n)) as E by (rewrite <- Z.pow_add_r by lia; f_equal; lia).
  assert (0 < 2 ^ (32 - n)) as P by (apply Z.pow_pos_nonneg; lia).
  assert (0 < 2 ^ n) as P' by (apply Z.pow_pos_nonneg; lia).
  change 4294967295 with (Z.ones 32) at 2. rewrite Z.land_ones, Z.mod_mod by lia.
  symmetry. apply (Z.mod_unique _ _ (2 ^ (32 - n) - 1)); change 4294967295 with (2 ^ 32 - 1); nia.
Qed.

Lemma netMask_network a n :
  char_free "/" a = true -> 1 <= n <= 32 ->
  netMaskFromIpWithSubnet (a +:+ "/" +:+ number n) = Ret (dotted (Z.shiftl (2 ^ n - 1) (32 - n))).
Proof.
  intros Ha Hn. unfold netMaskFromIpWithSubnet. rewrite contains_slash, split_network by done.
  cbn [negb]. change (default "" ([a; number n] !! 1%nat)) with (number n).
  rewrite toInt_ok_number by lia. replace (0 <=? 32 - n) with true by lia.
  replace (32 - n <? 32) with true by lia. cbn [andb]. by rewrite shifted_mask.
Qed.

Lemma netMask_host a :
  char_free "/" a = true -> netMaskFromIpWithSubnet a = Ret "255.255.255.255".
Proof. intros Ha. unfold netMaskFromIpWithSubnet. by rewrite contains_single_free. Qed.

Lemma count_char_free c s : char_free c s = true -> count_char c s = 0.
Proof.
  induction s as [|x s IH]; [done|]. cbn. intros [Hx Hs]%andb_true_iff.
  apply negb_true_iff in Hx. rewrite Hx. by rewrite IH.
Qed.

Lemma ipAddress_network a n :
  char_free "/" a = true -> count_char "."%char a = 3 ->
  ipAddressFromIpWithSubnet (a +:+ "/" +:+ number n) = a.
Proof.
  intros Ha Hd. unfold ipAddressFromIpWithSubnet. rewrite !count_char_app, Hd.
  rewrite (count_char_free "." (number n)) by (by apply number_char_free).
  cbn [negb]. by rewrite split_network.
Qed.

Lemma ipAddress_host a :
  char_free "/" a = true -> count_char "."%char a = 3 -> ipAddressFromIpWithSubnet a = a.
Proof.
  intros Ha Hd. unfold ipAddressFromIpWithSubnet. rewrite Hd. cbn [negb].
  pose proof (split_join_char "/" [a] ltac:(done) ltac:(by repeat constructor)) as E.
  cbn [join] in E. by rewrite E.
Qed.

(** A text of a network that the check accepts is an IPv4 address text with a
    prefix length in range. *)
Lemma checkIpSubnetFormat_network `{AddressParser} a n :
  char_free "/" a = true -> 0 <= n <= 32 ->
  checkIpSubnetFormat (a +:+ "/" +:+ number n) = checkIPv4Format a.
Proof.
  intros Ha Hn. unfold checkIpSubnetFormat. rewrite contains_slash, split_network by done.
  cbn [negb]. rewrite toInt_ok_number by lia. replace (0 <=? n) with true by lia.
  by replace (n <=? 32) with true by lia.
Qed.
