(* ===== verification/Settings.v ===== *)
(** * Settings

    Model of [Settings] (client/settings.h and settings.cpp): the server list
    and the options of the client, kept as JSON text and variants in the
    key-value store behind [m_settings]. The store is used through
    [KeyValueStore] only. A call on the settings can fail where the code uses
    an index that an array does not have or reads a mode that the enumeration
    does not have. *)
From Stdlib Require Import ZArith QArith Lia Ascii String.
From stdpp Require Import base list strings.
From S2P Require Import Prelude QtString QtContainers Variant Protocols Containers SecureSettings.
From S2P Require Import HostAddress IpAddress NetworkUtilities.
Local Open Scope string_scope.

(** ** Containers as keys

    [QMap<DockerContainer, ...>] is ordered by the value of the enumerator. *)
Definition container_index (c : DockerContainer.t) : Z :=
  match c with
  | DockerContainer.None => 0 | DockerContainer.Awg => 1 | DockerContainer.WireGuard => 2
  | DockerContainer.OpenVpn => 3 | DockerContainer.Cloak => 4 | DockerContainer.ShadowSocks => 5
  | DockerContainer.Ipsec => 6 | DockerContainer.Xray => 7 | DockerContainer.SSXray => 8
  | DockerContainer.TorWebSite => 9 | DockerContainer.Dns => 10 | DockerContainer.Sftp => 11
  | DockerContainer.Socks5Proxy => 12
  end%Z.

#[export] Instance container_key_order : KeyOrder DockerContainer.t :=
  λ a b, Z.compare (container_index a) (container_index b).

#[export] Instance container_key_laws : KeyOrderLaws DockerContainer.t.
Proof.
  split; unfold key_cmp, container_key_order.
  - intros a b. rewrite Z.compare_eq_iff. split; [|by intros ->]. by destruct a, b.
  - intros a b. apply Z.compare_antisym.
  - intros a b c. rewrite !Z.compare_lt_iff. lia.
Qed.

(** ** State *)
Inductive SettingsEvent :=
| saveLogsChanged (enabled : bool)
| screenshotsEnabledChanged (enabled : bool)
| serverRemoved (index : Z)
| settingsCleared
(* calls of the logger *)
| Logger_deInit
| Logger_init
| Logger_setServiceLogsEnabled (enabled : bool).

Record Settings (S : Type) := mkSettings {
  store : S;
  m_gatewayEndpoint : string;
  m_isDevGatewayEnv : bool;
  events : list SettingsEvent
}.
Arguments mkSettings {S} _ _ _ _.
Arguments store {S} _.
Arguments m_gatewayEndpoint {S} _.
Arguments m_isDevGatewayEnv {S} _.
Arguments events {S} _.

Record ServerCredentials := mkCredentials {
  hostName : string; userName : string; secretData : string; cred_port : Z
}.

Record InstalledAppInfo := mkApp { appName : string; packageName : string; appPath : string }.

(** A stored number that is no enumerator gives a value outside the
    enumeration. *)
Inductive RouteMode := VpnAllSites | VpnOnlyForwardSites | VpnAllExceptSites | NoRouteMode (n : Z).
Inductive AppsRouteMode := VpnAllApps | VpnOnlyForwardApps | VpnAllExceptApps | NoAppsMode (n : Z).

#[export] Instance RouteMode_eq_dec : EqDecision RouteMode.
Proof. solve_decision. Defined.
#[export] Instance AppsRouteMode_eq_dec : EqDecision AppsRouteMode.
Proof. solve_decision. Defined.

Definition route_mode_of (n : Z) : RouteMode :=
  match n with 0 => VpnAllSites | 1 => VpnOnlyForwardSites | 2 => VpnAllExceptSites
  | _ => NoRouteMode n end%Z.
Definition route_mode_int (m : RouteMode) : Z :=
  match m with VpnAllSites => 0 | VpnOnlyForwardSites => 1 | VpnAllExceptSites => 2
  | NoRouteMode n => n end%Z.
Definition apps_mode_of (n : Z) : AppsRouteMode :=
  match n with 0 => VpnAllApps | 1 => VpnOnlyForwardApps | 2 => VpnAllExceptApps
  | _ => NoAppsMode n end%Z.
Definition apps_mode_int (m : AppsRouteMode) : Z :=
  match m with VpnAllApps => 0 | VpnOnlyForwardApps => 1 | VpnAllExceptApps => 2
  | NoAppsMode n => n end%Z.

(** ** JSON arrays *)

(** [array.at(i)]: undefined outside the array. *)
Definition array_at (l : list QJsonValue) (i : Z) : QJsonValue :=
  if (i <? 0)%Z then JUndefined else default JUndefined (l !! Z.to_nat i).

(** [array.removeAt(i)]: nothing happens outside the array. *)
Definition array_removeAt (l : list QJsonValue) (i : Z) : list QJsonValue :=
  if (i <? 0)%Z then l else app (take (Z.to_nat i) l) (drop (S (Z.to_nat i)) l).

(** [array.replace(i, v)]: the index has to be one of the array. *)
Definition array_replace (l : list QJsonValue) (i : Z) (v : QJsonValue) :
    Outcome (list QJsonValue) :=
  if (0 <=? i)%Z && (i <? Z.of_nat (length l))%Z then Ret (<[Z.to_nat i := v]> l) else Abort.

Definition array_size (l : list QJsonValue) : Z := Z.of_nat (length l).

Definition rguard {S A} (o : Outcome A) : Run S A := λ s,
  match o with Ret a => Ret (a, s) | Abort => Abort | OutOfFuel => OutOfFuel end.

Section Operations.
Context {S : Type} `{KeyValueStore S} `{JsonDocument} `{AddressParser}.
(** The text of a variant that has no JSON type of its own. *)
Context (text : QVariant -> string).
Abbreviation SettingsM A := (Run (Settings S) A).

Definition on_store {A} (m : StateM S A) : SettingsM A := λ s,
  let '(a, w) := m (store s) in
  Ret (a, mkSettings w (m_gatewayEndpoint s) (m_isDevGatewayEnv s) (events s)).
Definition set_value (k : string) (v : QVariant) : SettingsM unit := on_store (kv_setValue k v).
Definition get_value (k : string) (d : QVariant) : SettingsM QVariant := on_store (kv_value k d).
Definition emit_event (e : SettingsEvent) : SettingsM unit := λ s,
  Ret (tt, mkSettings (store s) (m_gatewayEndpoint s) (m_isDevGatewayEnv s) (app (events s) [e])).

(** ** Servers *)
Definition serversArray : SettingsM (list QJsonValue) :=
  let! v := get_value "Servers/serversList" VInvalid in
  rret (toArray (fromJsonDoc (var_toByteArray v))).

Definition setServersArray (servers : list QJsonValue) : SettingsM unit :=
  set_value "Servers/serversList" (VByteArray (toJson (JArray servers))).

Definition serversCount : SettingsM Z := let! servers := serversArray in rret (array_size servers).

Definition server (index : Z) : SettingsM QJsonObject :=
  let! servers := serversArray in
  if (array_size servers <=? index)%Z then rret [] else rret (toObject (array_at servers index)).

Definition addServer (server : QJsonObject) : SettingsM unit :=
  let! servers := serversArray in
  setServersArray (app servers [JObject server]).

Definition removeServer (index : Z) : SettingsM unit :=
  let! servers := serversArray in
  if (array_size servers <=? index)%Z then rret tt
  else
    do! setServersArray (array_removeAt servers index) in
    emit_event (serverRemoved index).

Definition removeAllServers : SettingsM unit :=
  let! servers := serversArray in
  do! setServersArray [] in
  run_each servers (λ _, emit_event (serverRemoved 0)).

Definition editServer (index : Z) (server : QJsonObject) : SettingsM bool :=
  let! servers := serversArray in
  if (array_size servers <=? index)%Z then rret false
  else
    let! servers := rguard (array_replace servers index (JObject server)) in
    do! setServersArray servers in
    rret true.

Definition defaultServerIndex : SettingsM Z :=
  let! v := get_value "Servers/defaultServerIndex" (VInt 0) in rret (var_toInt v).
Definition setDefaultServer (index : Z) : SettingsM unit :=
  set_value "Servers/defaultServerIndex" (VInt index).
Definition defaultServer : SettingsM QJsonObject :=
  let! i := defaultServerIndex in server i.

Definition serverCredentials (index : Z) : SettingsM ServerCredentials :=
  let! s := server index in
  rret (mkCredentials (toString (value "hostName" s)) (toString (value "userName" s))
          (toString (value "password" s)) (json_toInt (value "port" s))).
Definition defaultServerCredentials : SettingsM ServerCredentials :=
  let! i := defaultServerIndex in serverCredentials i.

Definition haveAuthData (serverIndex : Z) : SettingsM bool :=
  if (serverIndex <? 0)%Z then rret false
  else
    let! cred := serverCredentials serverIndex in
    rret (negb (String.eqb (hostName cred) "") && negb (String.eqb (userName cred) "") &&
          negb (String.eqb (secretData cred) "")).

(** ** Containers of a server *)
Definition setDefaultContainer (serverIndex : Z) (container : DockerContainer.t) : SettingsM unit :=
  let! s := server serverIndex in
  do! editServer serverIndex
        (jinsert "defaultContainer" (JString (containerToString container)) s) in
  rret tt.

Definition defaultContainerName (serverIndex : Z) : SettingsM string :=
  let! s := server serverIndex in
  let name := toString (value "defaultContainer" s) in
  rret (if String.eqb name "" then containerToString DockerContainer.None else name).

Definition defaultContainer (serverIndex : Z) : SettingsM DockerContainer.t :=
  let! name := defaultContainerName serverIndex in rret (containerFromString name).

Definition container_entry (val : QJsonValue) : DockerContainer.t :=
  containerFromString (toString (value "container" (toObject val))).

Definition containers_of (s : QJsonObject) : list (DockerContainer.t * QJsonObject) :=
  foldl (λ m val, qm_insert (container_entry val) (toObject val) m) []
    (toArray (value "containers" s)).

Definition containers (serverIndex : Z) : SettingsM (list (DockerContainer.t * QJsonObject)) :=
  let! s := server serverIndex in rret (containers_of s).

Definition setContainers (serverIndex : Z) (containers : list (DockerContainer.t * QJsonObject)) :
    SettingsM unit :=
  let! s := server serverIndex in
  let c := map (λ e, JObject e.2) containers in
  do! editServer serverIndex (jinsert "containers" (JArray c) s) in
  rret tt.

Definition containerConfig (serverIndex : Z) (container : DockerContainer.t) :
    SettingsM QJsonObject :=
  if bool_decide (container = DockerContainer.None) then rret []
  else let! c := containers serverIndex in rret (default [] (qm_find container c)).

Definition setContainerConfig (serverIndex : Z) (container : DockerContainer.t)
    (config : QJsonObject) : SettingsM unit :=
  if bool_decide (container = DockerContainer.None) then rret tt
  else
    let! c := containers serverIndex in
    setContainers serverIndex
      (qm_insert container (jinsert "container" (JString (containerToString container)) config) c).

Definition removeContainerConfig (serverIndex : Z) (container : DockerContainer.t) : SettingsM unit :=
  if bool_decide (container = DockerContainer.None) then rret tt
  else
    let! c := containers serverIndex in
    setContainers serverIndex (qm_remove container c).

Definition protocolConfig (serverIndex : Z) (container : DockerContainer.t) (proto : Proto.t) :
    SettingsM QJsonObject :=
  let! c := containerConfig serverIndex container in
  rret (toObject (value (protoToString proto) c)).

Definition setProtocolConfig (serverIndex : Z) (container : DockerContainer.t) (proto : Proto.t)
    (config : QJsonObject) : SettingsM unit :=
  let! c := containerConfig serverIndex container in
  setContainerConfig serverIndex container (jinsert (protoToString proto) (JObject config) c).

Definition clear_last_config (serverIndex : Z) (container : DockerContainer.t) (proto : Proto.t) :
    SettingsM unit :=
  let! c := protocolConfig serverIndex container proto in
  setProtocolConfig serverIndex container proto (remove_key "last_config" c).

(** The recursive call is for a protocol other than [Any]. *)
Definition clearLastConnectionConfig (serverIndex : Z) (container : DockerContainer.t)
    (proto : Proto.t) : SettingsM unit :=
  if bool_decide (proto = Proto.Any)
  then run_each (protocolsForContainer container) (clear_last_config serverIndex container)
  else clear_last_config serverIndex container proto.

(** The names tried are [tr("Server") + " " + i] for [i] from 1; [fuel] bounds
    the number of tries. *)
Definition server_name (tr_Server : string) (i : Z) : string := tr_Server +:+ " " +:+ number i.

Definition name_exists (name : string) (servers : list QJsonValue) : bool :=
  existsb (λ server, String.eqb (toString (value "description" (toObject server))) name) servers.

Fixpoint next_name (fuel : nat) (tr_Server : string) (servers : list QJsonValue) (i : Z) :
    Outcome string :=
  match fuel with
  | O => OutOfFuel
  | Datatypes.S fuel' =>
      let i := (i + 1)%Z in
      if name_exists (server_name tr_Server i) servers then next_name fuel' tr_Server servers i
      else Ret (server_name tr_Server i)
  end.

(** The list is read again in every round; nothing changes it meanwhile. *)
Definition nextAvailableServerName (fuel : nat) (tr_Server : string) : SettingsM string :=
  let! servers := serversArray in
  rguard (next_name fuel tr_Server servers 0).

(** ** Flags and texts *)
Definition get_bool (k : string) (d : bool) : SettingsM bool :=
  let! v := get_value k (VBool d) in rret (var_toBool v).
Definition get_string (k d : string) : SettingsM string :=
  let! v := get_value k (VString d) in rret (var_toString v).

Definition isAutoConnect : SettingsM bool := get_bool "Conf/autoConnect" false.
Definition setAutoConnect (enabled : bool) : SettingsM unit :=
  set_value "Conf/autoConnect" (VBool enabled).
Definition isStartMinimized : SettingsM bool := get_bool "Conf/startMinimized" false.
Definition setStartMinimized (enabled : bool) : SettingsM unit :=
  set_value "Conf/startMinimized" (VBool enabled).
Definition isSaveLogs : SettingsM bool := get_bool "Conf/saveLogs" false.
Definition setLogEnableDate (date : Z) : SettingsM unit :=
  set_value "Conf/logEnableDate" (VDateTime date).
Definition getLogEnableDate : SettingsM QVariant := get_value "Conf/logEnableDate" VInvalid.

(** [now] is the time of the call; the logger is not touched on Android. *)
Definition setSaveLogs (platform : Platform) (now : Z) (enabled : bool) : SettingsM unit :=
  do! set_value "Conf/saveLogs" (VBool enabled) in
  do! (match platform with
       | Android => rret tt
       | _ => let! on := isSaveLogs in
              emit_event (if negb on then Logger_deInit else Logger_init)
       end) in
  do! emit_event (Logger_setServiceLogsEnabled enabled) in
  do! (if enabled then setLogEnableDate now else rret tt) in
  emit_event (saveLogsChanged enabled).

Definition isKillSwitchEnabled : SettingsM bool := get_bool "Conf/killSwitchEnabled" true.
Definition setKillSwitchEnabled (enabled : bool) : SettingsM unit :=
  set_value "Conf/killSwitchEnabled" (VBool enabled).
Definition useAmneziaDns : SettingsM bool := get_bool "Conf/useAmneziaDns" true.
Definition setUseAmneziaDns (enabled : bool) : SettingsM unit :=
  set_value "Conf/useAmneziaDns" (VBool enabled).
Definition isScreenshotsEnabled : SettingsM bool := get_bool "Conf/screenshotsEnabled" true.
Definition setScreenshotsEnabled (enabled : bool) : SettingsM unit :=
  do! set_value "Conf/screenshotsEnabled" (VBool enabled) in
  emit_event (screenshotsEnabledChanged enabled).

Definition cloudFlareNs1 : string := "1.1.1.1".
Definition cloudFlareNs2 : string := "1.0.0.1".
Definition primaryDns : SettingsM string := get_string "Conf/primaryDns" cloudFlareNs1.
Definition secondaryDns : SettingsM string := get_string "Conf/secondaryDns" cloudFlareNs2.
Definition setPrimaryDns (dns : string) : SettingsM unit := set_value "Conf/primaryDns" (VString dns).
Definition setSecondaryDns (dns : string) : SettingsM unit :=
  set_value "Conf/secondaryDns" (VString dns).

Definition setAppLanguage (locale : string) : SettingsM unit :=
  set_value "Conf/appLanguage" (VLocale locale).
Definition getAppLanguage (system : string) : SettingsM QVariant :=
  get_value "Conf/appLanguage" (VLocale system).

Definition getUserToken : SettingsM string := get_string "User/token" "".
Definition setUserToken (token : string) : SettingsM unit := set_value "User/token" (VString token).
Definition getSelectedRegionId : SettingsM string := get_string "User/selectedRegion" "".
Definition setSelectedRegionId (id : string) : SettingsM unit :=
  set_value "User/selectedRegion" (VString id).

(** ** Split tunnelling: sites *)
Definition isSitesSplitTunnelingEnabled : SettingsM bool :=
  get_bool "Conf/sitesSplitTunnelingEnabled" false.
Definition setSitesSplitTunnelingEnabled (enabled : bool) : SettingsM unit :=
  set_value "Conf/sitesSplitTunnelingEnabled" (VBool enabled).

(** The switch has no branch for other values. *)
Definition routeModeString (mode : RouteMode) : Outcome string :=
  match mode with
  | VpnAllSites => Ret "AllSites"
  | VpnOnlyForwardSites => Ret "ForwardSites"
  | VpnAllExceptSites => Ret "ExceptSites"
  | NoRouteMode _ => Abort
  end.

Definition routeMode : SettingsM RouteMode :=
  let! v := get_value "Conf/routeMode" (VInt 0) in rret (route_mode_of (var_toInt v)).
Definition setRouteMode (mode : RouteMode) : SettingsM unit :=
  set_value "Conf/routeMode" (VInt (route_mode_int mode)).

Definition vpnSites (mode : RouteMode) : SettingsM (list (string * QVariant)) :=
  let! m := rguard (routeModeString mode) in
  let! v := get_value ("Conf/" +:+ m) VInvalid in rret (toMap v).
Definition setVpnSites (mode : RouteMode) (sites : list (string * QVariant)) : SettingsM unit :=
  let! m := rguard (routeModeString mode) in
  set_value ("Conf/" +:+ m) (VMap sites).

Definition addVpnSite (mode : RouteMode) (site ip : string) : SettingsM bool :=
  let! sites := vpnSites mode in
  if qm_contains site sites && String.eqb ip "" then rret false
  else
    do! setVpnSites mode (qm_insert site (VString ip) sites) in
    rret true.

Definition variant_is (v : option QVariant) (s : string) : bool :=
  match v with Some (VString t) => String.eqb t s | _ => false end.

Definition addVpnSites (mode : RouteMode) (sites : list (string * string)) : SettingsM unit :=
  let! allSites := vpnSites mode in
  setVpnSites mode
    (foldl (λ all e, if qm_contains e.1 all && variant_is (qm_find e.1 all) e.2 then all
                     else qm_insert e.1 (VString e.2) all) allSites sites).

(** [removeDuplicates] keeps the first of equal strings. *)
Fixpoint removeDuplicates (l : list string) : list string :=
  match l with
  | [] => []
  | x :: l' => x :: List.filter (λ y, negb (String.eqb x y)) (removeDuplicates l')
  end.

Definition site_ip (e : string * QVariant) : list string :=
  if checkIpSubnetFormat e.1 then [e.1]
  else if checkIpSubnetFormat (var_toString e.2) then [var_toString e.2]
  else [].

Definition getVpnIps (mode : RouteMode) : SettingsM (list string) :=
  let! m := vpnSites mode in
  rret (removeDuplicates (concat (map site_ip m))).

Definition removeVpnSite (mode : RouteMode) (site : string) : SettingsM unit :=
  let! sites := vpnSites mode in
  if negb (qm_contains site sites) then rret tt
  else setVpnSites mode (qm_remove site sites).

Definition addVpnIps (mode : RouteMode) (ips : list string) : SettingsM unit :=
  let! sites := vpnSites mode in
  setVpnSites mode
    (foldl (λ m ip, if String.eqb ip "" then m else qm_insert ip (VString "") m) sites ips).

Definition removeVpnSites (mode : RouteMode) (l : list string) : SettingsM unit :=
  let! sites := vpnSites mode in
  setVpnSites mode
    (foldl (λ m site, if String.eqb site "" then m else qm_remove site m) sites l).

Definition removeAllVpnSites (mode : RouteMode) : SettingsM unit := setVpnSites mode [].

(** ** Split tunnelling: applications *)
Definition isAppsSplitTunnelingEnabled : SettingsM bool :=
  get_bool "Conf/appsSplitTunnelingEnabled" false.
Definition setAppsSplitTunnelingEnabled (enabled : bool) : SettingsM unit :=
  set_value "Conf/appsSplitTunnelingEnabled" (VBool enabled).

Definition appsRouteModeString (mode : AppsRouteMode) : Outcome string :=
  match mode with
  | VpnAllApps => Ret "AllApps"
  | VpnOnlyForwardApps => Ret "ForwardApps"
  | VpnAllExceptApps => Ret "ExceptApps"
  | NoAppsMode _ => Abort
  end.

Definition getAppsRouteMode : SettingsM AppsRouteMode :=
  let! v := get_value "Conf/appsRouteMode" (VInt 0) in rret (apps_mode_of (var_toInt v)).
Definition setAppsRouteMode (mode : AppsRouteMode) : SettingsM unit :=
  set_value "Conf/appsRouteMode" (VInt (apps_mode_int mode)).

Definition app_of (v : QJsonValue) : InstalledAppInfo :=
  let o := toObject v in
  mkApp (toString (value "appName" o)) (toString (value "packageName" o))
        (toString (value "appPath" o)).
Definition app_json (a : InstalledAppInfo) : QJsonValue :=
  JObject (jinsert "appPath" (JString (appPath a))
          (jinsert "packageName" (JString (packageName a))
          (jinsert "appName" (JString (appName a)) []))).

Definition getVpnApps (mode : AppsRouteMode) : SettingsM (list InstalledAppInfo) :=
  let! m := rguard (appsRouteModeString mode) in
  let! v := get_value ("Conf/" +:+ m) VInvalid in
  rret (map app_of (toJsonArray text v)).
Definition setVpnApps (mode : AppsRouteMode) (apps : list InstalledAppInfo) : SettingsM unit :=
  let! m := rguard (appsRouteModeString mode) in
  set_value ("Conf/" +:+ m) (VJsonArray (map app_json apps)).

(** ** The installation *)
Definition setInstallationUuid (uuid : string) : SettingsM unit :=
  set_value "Conf/installationUuid" (VString uuid).

(** [uuid.remove(0, 1); uuid.chop(1);] *)
Definition strip_braces (uuid : string) : string :=
  let t := drop_chars 1 uuid in take_chars (String.length t - 1) t.

(** [created] is the text of a fresh [QUuid]. *)
Definition getInstallationUuid (created : string) (needCreate : bool) : SettingsM string :=
  let! uuid := get_string "Conf/installationUuid" "" in
  if needCreate && String.eqb uuid "" then
    do! setInstallationUuid (strip_braces created) in
    rret (strip_braces created)
  else if contains_str uuid "{" && contains_str uuid "}" then
    do! setInstallationUuid (strip_braces uuid) in
    rret (strip_braces uuid)
  else rret uuid.

Definition clearSettings (created : string) : SettingsM unit :=
  let! uuid := getInstallationUuid created false in
  do! on_store kv_clear in
  do! setInstallationUuid uuid in
  emit_event settingsCleared.

(** ** The gateway *)
Definition gatewayEndpoint : string := "http://gw.amnezia.org:80/".
Definition setGatewayEndpoint (endpoint : string) : SettingsM unit := λ s,
  Ret (tt, mkSettings (store s) endpoint (m_isDevGatewayEnv s) (events s)).
Definition resetGatewayEndpoint : SettingsM unit := setGatewayEndpoint gatewayEndpoint.
Definition setDevGatewayEndpoint (dev : string) : SettingsM unit := setGatewayEndpoint dev.
Definition getGatewayEndpoint : SettingsM string := rlift (gets m_gatewayEndpoint).
Definition isDevGatewayEnv : SettingsM bool := rlift (gets m_isDevGatewayEnv).
Definition toggleDevGatewayEnv (enabled : bool) : SettingsM unit := λ s,
  Ret (tt, mkSettings (store s) (m_gatewayEndpoint s) enabled (events s)).

(** ** Construction: the single server of old versions becomes an entry of the
    list. *)
Definition import_old_settings (tr_Server1 : string) : SettingsM unit :=
  let! n := serversCount in
  do! (if negb (n =? 0)%Z then rret tt else
    let! user := get_value "Server/userName" VInvalid in
    let! password := get_value "Server/password" VInvalid in
    let! serverName := get_value "Server/serverName" VInvalid in
    let! port := get_value "Server/serverPort" VInvalid in
    let user := var_toString user in
    let password := var_toString password in
    let serverName := var_toString serverName in
    if negb (String.eqb user "") && negb (String.eqb password "") && negb (String.eqb serverName "")
    then
      do! addServer (jinsert "description" (JString tr_Server1)
                    (jinsert "port" (JInt (var_toInt port))
                    (jinsert "hostName" (JString serverName)
                    (jinsert "password" (JString password)
                    (jinsert "userName" (JString user) []))))) in
      do! on_store (kv_remove "Server/userName") in
      do! on_store (kv_remove "Server/password") in
      do! on_store (kv_remove "Server/serverName") in
      on_store (kv_remove "Server/serverPort")
    else rret tt) in
  resetGatewayEndpoint.
End Operations.
