(* ===== verification/SettingsProperties.v ===== *)
(** * Properties of the settings

    Proved against the promise of the key-value store ([KeyValueLaws]), so they
    hold for the encrypted store and for any other. A call is described by what
    it does to the map of settings the store shows. *)
From Stdlib Require Import ZArith QArith Lia Ascii String.
From stdpp Require Import base list strings.
From S2P Require Import Prelude QtString QtContainers Variant Protocols Containers SecureSettings.
From S2P Require Import HostAddress IpAddress NetworkUtilities Settings SecureSettingsProperties.
Local Open Scope string_scope.

Abbreviation SettingsView := (string -> option QVariant).

Definition upd (k : string) (v : QVariant) (m : SettingsView) : SettingsView :=
  λ k', if String.eqb k' k then Some v else m k'.

Lemma upd_eq k v m : upd k v m k = Some v.
Proof. unfold upd. by rewrite String.eqb_refl. Qed.
Lemma upd_ne k k' v m : k' <> k -> upd k v m k' = m k'.
Proof. intros Hne. unfold upd. by destruct (String.eqb_spec k' k). Qed.

Section Exec.
Context {S : Type} `{KeyValueLaws S}.

(** The settings show the map [m] and have emitted [ev]. *)
Record shows (s : Settings S) (m : SettingsView) (ev : list SettingsEvent) : Prop := {
  shows_ok : kv_ok (store s);
  shows_view : forall k, kv_view (store s) k = m k;
  shows_events : events s = ev
}.

(** From settings that show [m], the call returns [a], leaves settings that
    show [m'] and emits [ev]. *)
Definition exec {A} (op : Run (Settings S) A) (m : SettingsView) (a : A) (m' : SettingsView)
    (ev : list SettingsEvent) : Prop :=
  forall s ev0, shows s m ev0 -> exists s', op s = Ret (a, s') /\ shows s' m' (app ev0 ev).

Lemma exec_ret {A} (a : A) m : exec (rret a) m a m [].
Proof. intros s ev0 Hs. exists s. split; [done|]. by rewrite app_nil_r. Qed.

Lemma exec_bind {A B} (op : Run (Settings S) A) (k : A -> Run (Settings S) B) m a m1 b m2 ev1 ev2 :
  exec op m a m1 ev1 -> exec (k a) m1 b m2 ev2 -> exec (rbind op k) m b m2 (app ev1 ev2).
Proof.
  intros H1 H2 s ev0 Hs. destruct (H1 s ev0 Hs) as (s1 & E1 & Hs1).
  destruct (H2 s1 _ Hs1) as (s2 & E2 & Hs2). exists s2. unfold rbind. rewrite E1.
  split; [done|]. by rewrite app_assoc.
Qed.

(** A step that emits nothing in front of the rest. *)
Lemma exec_step {A B} (op : Run (Settings S) A) (k : A -> Run (Settings S) B) m a m1 b m2 ev :
  exec op m a m1 [] -> exec (k a) m1 b m2 ev -> exec (rbind op k) m b m2 ev.
Proof. apply (exec_bind op k m a m1 b m2 []). Qed.

Lemma exec_guard {A} (a : A) m : exec (rguard (Ret a)) m a m [].
Proof. apply exec_ret. Qed.

Lemma exec_get k d m : exec (get_value k d) m (default d (m k)) m [].
Proof.
  intros s ev0 [Ho Hv He]. unfold get_value, on_store.
  destruct (kv_value_ok k d (store s) Ho) as (R & O & V).
  destruct (kv_value k d (store s)) as [a w]. simpl in *. subst a. rewrite Hv.
  eexists. split; [done|]. rewrite app_nil_r. split; [done| |done].
  intros k'. simpl. by rewrite V.
Qed.

Lemma exec_set k v m : kv_storable v -> exec (set_value k v) m tt (upd k v m) [].
Proof.
  intros Hst s ev0 [Ho Hv He]. unfold set_value, on_store.
  destruct (kv_setValue_ok k v (store s) Ho Hst) as (O & V).
  destruct (kv_setValue k v (store s)) as [[] w]. simpl in *.
  eexists. split; [done|]. rewrite app_nil_r. split; [done| |done].
  intros k'. simpl. rewrite V. unfold upd. by destruct (String.eqb k' k).
Qed.

Lemma exec_set_plain k v m : (forall t, v <> VByteArray t) -> exec (set_value k v) m tt (upd k v m) [].
Proof. intros Hv. by apply exec_set, kv_storable_plain. Qed.

Lemma exec_emit e m : exec (emit_event e) m tt m [e].
Proof. intros s ev0 [Ho Hv He]. eexists. split; [done|]. split; simpl; [done|done|by rewrite He]. Qed.

Lemma exec_clear m : exec (on_store kv_clear) m tt (λ _, None) [].
Proof.
  intros s ev0 [Ho Hv He]. unfold on_store. destruct (kv_clear_ok (store s) Ho) as (O & V).
  destruct (kv_clear (store s)) as [[] w]. simpl in *.
  eexists. split; [done|]. rewrite app_nil_r. by split.
Qed.

Lemma exec_remove k m :
  (forall k', startsWith k' (k +:+ "/") = true -> m k' = None) ->
  exec (on_store (kv_remove k)) m tt (λ k', if String.eqb k' k then None else m k') [].
Proof.
  intros Hl s ev0 [Ho Hv He]. unfold on_store.
  destruct (kv_remove_ok k (store s) Ho) as (O & V). { intros k' Hk. rewrite Hv. by apply Hl. }
  destruct (kv_remove k (store s)) as [[] w]. simpl in *.
  eexists. split; [done|]. rewrite app_nil_r. split; [done| |done].
  intros k'. simpl. rewrite V. by destruct (String.eqb k' k).
Qed.

Lemma exec_view {A} (op : Run (Settings S) A) m a m1 m2 ev :
  (forall k, m1 k = m2 k) -> exec op m a m1 ev -> exec op m a m2 ev.
Proof.
  intros Hm He s ev0 Hs. destruct (He s ev0 Hs) as (s' & E & [O V X]). exists s'. split; [done|].
  split; [done| |done]. intros k. by rewrite V.
Qed.
End Exec.

#[export] Hint Resolve exec_ret exec_guard exec_get exec_emit exec_set_plain : zlo.

(** ** The server list *)
Section Servers.
Context {S : Type} `{KeyValueLaws S} `{JsonDocumentLaws} `{AddressParser}.

Definition servers_of (m : SettingsView) : list QJsonValue :=
  toArray (fromJsonDoc (var_toByteArray (default VInvalid (m "Servers/serversList")))).
Definition with_servers (l : list QJsonValue) (m : SettingsView) : SettingsView :=
  upd "Servers/serversList" (VByteArray (toJson (JArray l))) m.

Lemma servers_with_servers l m : servers_of (with_servers l m) = l.
Proof.
  unfold servers_of, with_servers. rewrite upd_eq. simpl. by rewrite document_read.
Qed.

Lemma with_servers_ne l m k : k <> "Servers/serversList" -> with_servers l m k = m k.
Proof. apply upd_ne. Qed.

Lemma exec_serversArray m : exec (S := S) serversArray m (servers_of m) m [].
Proof. unfold serversArray. eapply exec_step; [apply exec_get|apply exec_ret]. Qed.

Lemma exec_setServersArray l m : exec (S := S) (setServersArray l) m tt (with_servers l m) [].
Proof. apply exec_set, kv_storable_array, document_array. Qed.

Definition server_at (m : SettingsView) (i : Z) : QJsonObject := toObject (array_at (servers_of m) i).

Lemma array_at_beyond l i : (array_size l <= i)%Z -> array_at l i = JUndefined.
Proof.
  unfold array_size, array_at. intros Hi. destruct (i <? 0)%Z; [done|].
  by rewrite lookup_ge_None_2 by lia.
Qed.

Lemma exec_server i m : exec (S := S) (server i) m (server_at m i) m [].
Proof.
  unfold server. eapply exec_step; [apply exec_serversArray|]. unfold server_at.
  destruct (array_size (servers_of m) <=? i)%Z eqn:E; [|apply exec_ret].
  rewrite array_at_beyond by lia. apply exec_ret.
Qed.

Lemma exec_addServer o m :
  exec (S := S) (addServer o) m tt (with_servers (app (servers_of m) [JObject o]) m) [].
Proof. unfold addServer. eapply exec_step; [apply exec_serversArray|apply exec_setServersArray]. Qed.

Lemma exec_removeServer i m :
  (i < array_size (servers_of m))%Z ->
  exec (S := S) (removeServer i) m tt (with_servers (array_removeAt (servers_of m) i) m)
    [serverRemoved i].
Proof.
  intros Hi. unfold removeServer. eapply exec_step; [apply exec_serversArray|].
  replace (array_size (servers_of m) <=? i)%Z with false by lia.
  eapply exec_step; [apply exec_setServersArray|apply exec_emit].
Qed.

Lemma exec_removeServer_beyond i m :
  (array_size (servers_of m) <= i)%Z -> exec (S := S) (removeServer i) m tt m [].
Proof.
  intros Hi. unfold removeServer. eapply exec_step; [apply exec_serversArray|].
  rewrite (proj2 (Z.leb_le _ _)) by done. apply exec_ret.
Qed.

Lemma exec_editServer i o m :
  (0 <= i < array_size (servers_of m))%Z ->
  exec (S := S) (editServer i o) m true
    (with_servers (<[Z.to_nat i := JObject o]> (servers_of m)) m) [].
Proof.
  intros Hi. unfold editServer. eapply exec_step; [apply exec_serversArray|].
  replace (array_size (servers_of m) <=? i)%Z with false by lia.
  eapply exec_step.
  { unfold array_replace, array_size in *. replace (0 <=? i)%Z with true by lia.
    replace (i <? _)%Z with true by lia. apply exec_guard. }
  eapply exec_step; [apply exec_setServersArray|apply exec_ret].
Qed.

Lemma exec_editServer_beyond i o m :
  (array_size (servers_of m) <= i)%Z -> exec (S := S) (editServer i o) m false m [].
Proof.
  intros Hi. unfold editServer. eapply exec_step; [apply exec_serversArray|].
  replace (array_size (servers_of m) <=? i)%Z with true by lia. apply exec_ret.
Qed.

Lemma editServer_negative i o m s ev :
  shows s m ev -> (i < 0)%Z -> editServer i o s = Abort.
Proof.
  intros Hs Hi. unfold editServer, rbind. destruct (exec_serversArray m s ev Hs) as (s' & -> & _).
  rewrite (proj2 (Z.leb_gt _ _)) by (unfold array_size; lia).
  unfold array_replace. by replace (0 <=? i)%Z with false by lia.
Qed.

Lemma server_at_edited i o m j :
  (0 <= i < array_size (servers_of m))%Z ->
  server_at (with_servers (<[Z.to_nat i := JObject o]> (servers_of m)) m) j =
  if (j =? i)%Z then o else server_at m j.
Proof.
  unfold array_size. intros Hi. unfold server_at. rewrite servers_with_servers. unfold array_at.
  destruct (Z.eqb_spec j i) as [->|Hne].
  - replace (i <? 0)%Z with false by lia. by rewrite list_lookup_insert_eq by lia.
  - destruct (Z.ltb_spec j 0); [done|]. by rewrite list_lookup_insert_ne by lia.
Qed.
End Servers.

(** ** The containers of a server *)
Section MapLemmas.
Context {K V : Type} `{KeyOrderLaws K}.

Lemma qm_remove_elem (k : K) (m : list (K * V)) x : x ∈ qm_remove k m -> x ∈ m.
Proof.
  induction m as [|[k1 v1] m IH]; [done|]. simpl. rewrite elem_of_cons.
  destruct (key_cmp k k1); rewrite ?elem_of_cons; tauto.
Qed.

Lemma qm_sorted_remove (k : K) (m : list (K * V)) : qm_sorted m -> qm_sorted (qm_remove k m).
Proof.
  unfold qm_sorted. induction 1 as [|[k0 v0] m Hk Hm IH]; simpl; [constructor|].
  destruct (key_cmp k k0); [done|..]; (constructor; [|done]);
    rewrite list.Forall_forall in *; intros x Hx; by eapply Hk, qm_remove_elem.
Qed.

(** Reading a sorted list of entries back into a map gives its entries. *)
Lemma qm_find_rebuild {A} (key : A -> K) (val : A -> V) (l : list A) (k : K) acc :
  qm_sorted (map (λ a, (key a, val a)) l) ->
  qm_find k (foldl (λ m a, qm_insert (key a) (val a) m) acc l) =
  match qm_find k (map (λ a, (key a, val a)) l) with Some v => Some v | None => qm_find k acc end.
Proof.
  revert acc. induction l as [|a l IH]; intros acc Hs; [done|]. simpl in *.
  inversion Hs as [|? ? Hk Hl]; subst. rewrite IH by done.
  destruct (key_cmp k (key a)) eqn:E.
  - apply key_cmp_eq in E as ->. rewrite qm_find_insert_eq.
    destruct (qm_find (key a) (map (λ a, (key a, val a)) l)) eqn:Ef; [|done].
    apply qm_find_elem in Ef. rewrite list.Forall_forall in Hk. specialize (Hk _ Ef).
    simpl in Hk. by rewrite key_cmp_refl in Hk.
  - rewrite qm_find_insert_ne; [done|]. intros <-. by rewrite key_cmp_refl in E.
  - rewrite qm_find_insert_ne; [done|]. intros <-. by rewrite key_cmp_refl in E.
Qed.
End MapLemmas.

(** Every entry of the map is filed under the container it names. *)
Definition filed (M : list (DockerContainer.t * QJsonObject)) : Prop :=
  Forall (λ e, container_entry (JObject e.2) = e.1) M.

Lemma containers_of_sorted s : qm_sorted (containers_of s) /\ filed (containers_of s).
Proof.
  unfold containers_of.
  assert (forall l (M : list (DockerContainer.t * QJsonObject)), qm_sorted M -> filed M ->
    let R := foldl (λ m val, qm_insert (container_entry val) (toObject val) m) M l in
    qm_sorted R /\ filed R) as Hl; [|apply Hl; constructor].
  induction l as [|v l IH]; intros M Hs Hf; [done|]. simpl. apply IH; [by apply qm_sorted_insert|].
  apply list.Forall_forall. intros e [->|He]%elem_qm_insert; [done|].
  revert e He. by apply list.Forall_forall.
Qed.

Lemma containers_written M s :
  qm_sorted M -> filed M ->
  forall c, qm_find c (containers_of (jinsert "containers" (JArray (map (λ e, JObject e.2) M)) s)) =
       qm_find c M.
Proof.
  intros Hs Hf c. unfold containers_of. rewrite value_insert_eq. cbn [toArray].
  assert (map (λ v, (container_entry v, toObject v)) (map (λ e, JObject e.2) M) = M) as E.
  { clear Hs. induction Hf as [|[k o] M Hk Hf IH]; [done|]. simpl in *. by rewrite Hk, IH. }
  rewrite (qm_find_rebuild container_entry toObject); rewrite E; [|done]. by destruct (qm_find c M).
Qed.

Section Containers.
Context {S : Type} `{KeyValueLaws S} `{JsonDocumentLaws} `{AddressParser}.

Definition config_at (m : SettingsView) (i : Z) (c : DockerContainer.t) : QJsonObject :=
  default [] (qm_find c (containers_of (server_at m i))).

(** [m'] is [m] with another configuration for one container of one server. *)
Record container_changed (m m' : SettingsView) (i : Z) (c : DockerContainer.t) (cfg : QJsonObject) :
    Prop := {
  changed_config : config_at m' i c = cfg;
  changed_others c' : c' <> c -> config_at m' i c' = config_at m i c';
  changed_servers j : j <> i -> server_at m' j = server_at m j;
  changed_fields k : k <> "containers" -> value k (server_at m' i) = value k (server_at m i);
  changed_settings k : k <> "Servers/serversList" -> m' k = m k;
  changed_list : servers_of m' = <[Z.to_nat i := JObject (server_at m' i)]> (servers_of m)
}.

Lemma changed_size m m' i c cfg :
  container_changed m m' i c cfg -> array_size (servers_of m') = array_size (servers_of m).
Proof. intros C. rewrite (changed_list _ _ _ _ _ C). unfold array_size. by rewrite length_insert. Qed.

Lemma exec_containers i m : exec (S := S) (containers i) m (containers_of (server_at m i)) m [].
Proof. unfold containers. eapply exec_step; [apply exec_server|apply exec_ret]. Qed.

Lemma exec_containerConfig i c m :
  c <> DockerContainer.None -> exec (S := S) (containerConfig i c) m (config_at m i c) m [].
Proof.
  intros Hc. unfold containerConfig. rewrite bool_decide_false by done.
  eapply exec_step; [apply exec_containers|apply exec_ret].
Qed.

Lemma exec_setContainers i M m :
  (0 <= i < array_size (servers_of m))%Z -> qm_sorted M -> filed M ->
  exists m', exec (S := S) (setContainers i M) m tt m' [] /\
    (forall c, config_at m' i c = default [] (qm_find c M)) /\
    (forall j, j <> i -> server_at m' j = server_at m j) /\
    (forall k, k <> "containers" -> value k (server_at m' i) = value k (server_at m i)) /\
    (forall k, k <> "Servers/serversList" -> m' k = m k) /\
    servers_of m' = <[Z.to_nat i := JObject (server_at m' i)]> (servers_of m).
Proof.
  intros Hi Hs Hf. set (o := jinsert "containers" (JArray (map (λ e, JObject e.2) M)) (server_at m i)).
  exists (with_servers (<[Z.to_nat i := JObject o]> (servers_of m)) m).
  split; [|split_and!].
  - unfold setContainers. eapply exec_step; [apply exec_server|].
    eapply exec_step; [by apply exec_editServer|apply exec_ret].
  - intros c. unfold config_at. rewrite server_at_edited, Z.eqb_refl by done.
    unfold o. by rewrite containers_written.
  - intros j Hj. rewrite server_at_edited by done. by destruct (Z.eqb_spec j i).
  - intros k Hk. rewrite server_at_edited, Z.eqb_refl by done. unfold o. by rewrite value_insert_ne.
  - intros k Hk. by apply with_servers_ne.
  - rewrite server_at_edited, Z.eqb_refl by done. apply servers_with_servers.
Qed.

Definition with_container_name (c : DockerContainer.t) (cfg : QJsonObject) : QJsonObject :=
  jinsert "container" (JString (containerToString c)) cfg.

Lemma entry_with_name c cfg : container_entry (JObject (with_container_name c cfg)) = c.
Proof.
  unfold container_entry, with_container_name. cbn [toObject]. rewrite value_insert_eq. simpl.
  apply containerFromToString.
Qed.

Lemma exec_setContainerConfig i c cfg m :
  (0 <= i < array_size (servers_of m))%Z -> c <> DockerContainer.None ->
  exists m', exec (S := S) (setContainerConfig i c cfg) m tt m' [] /\
    container_changed m m' i c (with_container_name c cfg).
Proof.
  intros Hi Hc. destruct (containers_of_sorted (server_at m i)) as [Hs Hf].
  destruct (exec_setContainers i
    (qm_insert c (with_container_name c cfg) (containers_of (server_at m i))) m)
    as (m' & E & C & Sv & F & K & N); [done|by apply qm_sorted_insert| |].
  { apply list.Forall_forall. intros e [->|He]%elem_qm_insert; [apply entry_with_name|].
    revert e He. by apply list.Forall_forall. }
  exists m'. split.
  - unfold setContainerConfig. rewrite bool_decide_false by done.
    eapply exec_step; [apply exec_containers|exact E].
  - split; [|..]; try done.
    + by rewrite C, qm_find_insert_eq.
    + intros c' Hne. rewrite C, qm_find_insert_ne by done. done.
Qed.

Lemma exec_removeContainerConfig i c m :
  (0 <= i < array_size (servers_of m))%Z -> c <> DockerContainer.None ->
  exists m', exec (S := S) (removeContainerConfig i c) m tt m' [] /\ container_changed m m' i c [].
Proof.
  intros Hi Hc. destruct (containers_of_sorted (server_at m i)) as [Hs Hf].
  destruct (exec_setContainers i (qm_remove c (containers_of (server_at m i))) m)
    as (m' & E & C & Sv & F & K & N); [done|by apply qm_sorted_remove| |].
  { apply list.Forall_forall. intros e He%qm_remove_elem. revert e He. by apply list.Forall_forall. }
  exists m'. split.
  - unfold removeContainerConfig. rewrite bool_decide_false by done.
    eapply exec_step; [apply exec_containers|exact E].
  - split; [|..]; try done.
    + by rewrite C, qm_find_remove_eq.
    + intros c' Hne. rewrite C, qm_find_remove_ne by done. done.
Qed.

(** One protocol's cached configuration is dropped. *)
Definition cleared (p : Proto.t) (cfg : QJsonObject) : QJsonObject :=
  jinsert (protoToString p)
    (JObject (remove_key "last_config" (toObject (value (protoToString p) cfg)))) cfg.

Lemma exec_clear_last_config i c p m :
  (0 <= i < array_size (servers_of m))%Z -> c <> DockerContainer.None ->
  exists m', exec (S := S) (clear_last_config i c p) m tt m' [] /\
    container_changed m m' i c (with_container_name c (cleared p (config_at m i c))).
Proof.
  intros Hi Hc. destruct (exec_setContainerConfig i c (cleared p (config_at m i c)) m Hi Hc)
    as (m' & E & C). exists m'. split; [|done].
  unfold clear_last_config, protocolConfig, setProtocolConfig.
  eapply exec_step.
  { eapply exec_step; [by apply exec_containerConfig|apply exec_ret]. }
  eapply exec_step; [by apply exec_containerConfig|exact E].
Qed.

Lemma changed_trans m m1 m2 i c cfg cfg' :
  container_changed m m1 i c cfg -> container_changed m1 m2 i c cfg' ->
  container_changed m m2 i c cfg'.
Proof.
  intros C1 C2. split.
  - exact (changed_config _ _ _ _ _ C2).
  - intros c' Hc. by rewrite (changed_others _ _ _ _ _ C2), (changed_others _ _ _ _ _ C1).
  - intros j Hj. by rewrite (changed_servers _ _ _ _ _ C2), (changed_servers _ _ _ _ _ C1).
  - intros k Hk. by rewrite (changed_fields _ _ _ _ _ C2), (changed_fields _ _ _ _ _ C1).
  - intros k Hk. by rewrite (changed_settings _ _ _ _ _ C2), (changed_settings _ _ _ _ _ C1).
  - rewrite (changed_list _ _ _ _ _ C2), (changed_list _ _ _ _ _ C1). apply list_insert_insert_eq.
Qed.

Definition proto_config (cfg : QJsonObject) (p : Proto.t) : QJsonObject :=
  toObject (value (protoToString p) cfg).

Lemma protoToString_inj p q : protoToString p = protoToString q -> p = q.
Proof. intros E. by rewrite <- (protoFromToString p), E, protoFromToString. Qed.

Lemma proto_config_cleared c p q cfg :
  proto_config (with_container_name c (cleared p cfg)) q =
  if bool_decide (q = p) then remove_key "last_config" (proto_config cfg q) else proto_config cfg q.
Proof.
  unfold proto_config, with_container_name, cleared.
  rewrite value_insert_ne by (by destruct q). case_bool_decide as E.
  - subst q. by rewrite value_insert_eq.
  - rewrite value_insert_ne; [done|]. intros Ep. by apply protoToString_inj in Ep.
Qed.

(** After the loop over protocols those it has visited have no cached
    configuration, and nothing else of them has changed. *)
Lemma exec_clear_protocols i c ps m :
  (0 <= i < array_size (servers_of m))%Z -> c <> DockerContainer.None -> ps <> [] ->
  exists m', exec (S := S) (run_each ps (clear_last_config i c)) m tt m' [] /\
    container_changed m m' i c (config_at m' i c) /\
    forall p k, value k (proto_config (config_at m' i c) p) =
      if bool_decide (p ∈ ps) && String.eqb k "last_config" then JUndefined
      else value k (proto_config (config_at m i c) p).
Proof.
  intros Hi Hc. revert m Hi. induction ps as [|p0 ps IH]; [done|]. intros m Hi _.
  destruct (exec_clear_last_config i c p0 m Hi Hc) as (m1 & E1 & C1).
  assert (forall p k, value k (proto_config (config_at m1 i c) p) =
      if bool_decide (p = p0) && String.eqb k "last_config" then JUndefined
      else value k (proto_config (config_at m i c) p)) as V1.
  { intros p k. rewrite (changed_config _ _ _ _ _ C1), proto_config_cleared.
    case_bool_decide; [|done]. destruct (String.eqb_spec k "last_config") as [->|Hne].
    - apply value_remove_eq.
    - by rewrite value_remove_ne. }
  destruct ps as [|p1 ps].
  - exists m1. split; [|split].
    + cbn [run_each]. eapply exec_step; [exact E1|apply exec_ret].
    + by rewrite (changed_config _ _ _ _ _ C1).
    + intros p k. rewrite V1. f_equal. f_equal. by rewrite (bool_decide_ext (p ∈ [p0]) (p = p0))
        by apply list_elem_of_singleton.
  - destruct (IH m1) as (m2 & E2 & C2 & V2); [by rewrite (changed_size _ _ _ _ _ C1)|done|].
    exists m2. split; [|split].
    + change (run_each (p0 :: p1 :: ps) ?b) with (do! b p0 in run_each (p1 :: ps) b).
      eapply exec_step; [exact E1|exact E2].
    + by eapply changed_trans.
    + intros p k. rewrite V2, V1. rewrite (bool_decide_ext (p ∈ p0 :: p1 :: ps) (p = p0 \/ p ∈ p1 :: ps))
        by apply elem_of_cons.
      rewrite bool_decide_or. by destruct (bool_decide (p ∈ _)), (bool_decide (p = p0)), (String.eqb _ _).
Qed.
End Containers.

(** ** Names of servers *)
Lemma string_app_inj_l (a b c : string) : a +:+ b = a +:+ c -> b = c.
Proof. induction a as [|x a IH]; [done|]. rewrite !string_app_cons. intros [= E]. auto. Qed.

Lemma server_name_inj tr i j : server_name tr i = server_name tr j -> i = j.
Proof.
  intros E. do 2 apply string_app_inj_l in E.
  assert (signed_val (number i) = signed_val (number j)) as E' by (by rewrite E).
  rewrite !signed_val_number in E'. by injection E'.
Qed.

Lemma name_exists_elem name servers :
  name_exists name servers = true <->
  name ∈ map (λ v, toString (value "description" (toObject v))) servers.
Proof.
  unfold name_exists. rewrite existsb_exists, list_elem_of_fmap. split.
  - intros (v & Hv & E%String.eqb_eq). exists v. rewrite list_elem_of_In. by split.
  - intros (v & -> & Hv). exists v. rewrite <- list_elem_of_In. split; [done|]. by apply String.eqb_eq.
Qed.

Lemma next_name_found fuel tr servers i :
  (exists j, next_name fuel tr servers i = Ret (server_name tr j) /\ (i < j)%Z /\
     name_exists (server_name tr j) servers = false) \/
  (forall k, (k < fuel)%nat -> name_exists (server_name tr (i + 1 + Z.of_nat k)) servers = true).
Proof.
  revert i. induction fuel as [|fuel IH]; intros i; [right; lia|]. cbn [next_name].
  destruct (name_exists (server_name tr (i + 1)) servers) eqn:E.
  - destruct (IH (i + 1)%Z) as [(j & R & Hj & N)|Hall]; [left; exists j; split_and!; [done|lia|done]|].
    right. intros [|k] Hk; [by rewrite Z.add_0_r|].
    replace (i + 1 + Z.of_nat (Datatypes.S k))%Z with (i + 1 + 1 + Z.of_nat k)%Z by lia.
    apply Hall. lia.
  - left. exists (i + 1)%Z. split_and!; [done|lia|done].
Qed.

(** The names of a list cannot be more than its servers. *)
Lemma names_bounded tr servers n :
  (forall k, (k < n)%nat -> name_exists (server_name tr (1 + Z.of_nat k)) servers = true) ->
  (n <= length servers)%nat.
Proof.
  intros Hall. set (names := map (λ k, server_name tr (1 + Z.of_nat k)) (seq 0 n)).
  assert (NoDup names) as Hnd.
  { apply NoDup_fmap_2_strong; [|apply NoDup_ListNoDup, seq_NoDup].
    intros x y _ _ E%server_name_inj. lia. }
  assert (names ⊆+ map (λ v, toString (value "description" (toObject v))) servers) as Hsub.
  { apply NoDup_submseteq; [done|]. intros x (k & -> & Hk%elem_of_seq)%list_elem_of_fmap.
    apply name_exists_elem, Hall. lia. }
  apply submseteq_length in Hsub. unfold names in Hsub.
  by rewrite !length_map, length_seq in Hsub.
Qed.

(** ** Properties *)
Section Properties.
Context {S : Type} `{KeyValueLaws S} `{JsonDocumentLaws} `{AddressParser}.

(** The server list is edited as asked: a server is added at the end, an
    index of the list is removed or replaced and nothing else, an index behind
    the end is refused and changes nothing; a negative index passes the check
    and ends the program. *)
Theorem server_list_edits (i : Z) (o : QJsonObject) (m : SettingsView) :
  exec (S := S) (addServer o) m tt (with_servers (app (servers_of m) [JObject o]) m) [] /\
  ((0 <= i < array_size (servers_of m))%Z ->
     exec (S := S) (removeServer i) m tt (with_servers (array_removeAt (servers_of m) i) m)
       [serverRemoved i] /\
     exec (S := S) (editServer i o) m true
       (with_servers (<[Z.to_nat i := JObject o]> (servers_of m)) m) []) /\
  ((array_size (servers_of m) <= i)%Z ->
     exec (S := S) (removeServer i) m tt m [] /\ exec (S := S) (editServer i o) m false m []) /\
  ((i < 0)%Z -> forall s ev, shows (S := S) s m ev -> editServer i o s = Abort).
Proof.
  split; [apply exec_addServer|]. split; [|split].
  - intros Hi. split; [apply exec_removeServer; lia|by apply exec_editServer].
  - intros Hi. split; [by apply exec_removeServer_beyond|by apply exec_editServer_beyond].
  - intros Hi s ev Hs. by eapply editServer_negative.
Qed.

(** A container's configuration is stored under its name: what
    [setContainerConfig] writes is what [containerConfig] reads back, with the
    container's name in it, and no other container, server, field of the server
    or setting changes; removing it leaves an empty configuration. *)
Theorem container_config_stored (i : Z) (c : DockerContainer.t) (cfg : QJsonObject) (m : SettingsView) :
  (0 <= i < array_size (servers_of m))%Z -> c <> DockerContainer.None ->
  (exists m', exec (S := S) (setContainerConfig i c cfg) m tt m' [] /\
     container_changed m m' i c (with_container_name c cfg) /\
     exec (S := S) (containerConfig i c) m' (with_container_name c cfg) m' []) /\
  (exists m', exec (S := S) (removeContainerConfig i c) m tt m' [] /\
     container_changed m m' i c []).
Proof.
  intros Hi Hc. split; [|by apply exec_removeContainerConfig].
  destruct (exec_setContainerConfig i c cfg m Hi Hc) as (m' & E & C).
  exists m'. split_and!; [done|done|].
  rewrite <- (changed_config _ _ _ _ _ C) at 1. by apply exec_containerConfig.
Qed.

(** Clearing a container's cached profile drops exactly the last client
    configuration of each of its protocols: the other keys of each protocol, the
    other protocols, the other containers and servers stay. *)
Theorem last_config_cleared (i : Z) (c : DockerContainer.t) (m : SettingsView) :
  (0 <= i < array_size (servers_of m))%Z -> c <> DockerContainer.None ->
  exists m', exec (S := S) (clearLastConnectionConfig i c Proto.Any) m tt m' [] /\
    container_changed m m' i c (config_at m' i c) /\
    forall p k, value k (proto_config (config_at m' i c) p) =
      if bool_decide (p ∈ protocolsForContainer c) && String.eqb k "last_config" then JUndefined
      else value k (proto_config (config_at m i c) p).
Proof.
  intros Hi Hc. unfold clearLastConnectionConfig. rewrite bool_decide_true by done.
  apply exec_clear_protocols; [done|done|]. by destruct c.
Qed.

(** The search for a free server name ends: with one try more than there are
    servers it returns a name of the form the user sees, and no server has it. *)
Theorem next_server_name_free (tr_Server : string) (m : SettingsView) :
  exists j, (0 < j)%Z /\
    exec (S := S) (nextAvailableServerName (Datatypes.S (length (servers_of m))) tr_Server) m
      (server_name tr_Server j) m [] /\
    name_exists (server_name tr_Server j) (servers_of m) = false.
Proof.
  destruct (next_name_found (Datatypes.S (length (servers_of m))) tr_Server (servers_of m) 0)
    as [(j & R & Hj & N)|Hall].
  - exists j. split_and!; [done| |done]. unfold nextAvailableServerName.
    eapply exec_step; [apply exec_serversArray|]. rewrite R. apply exec_guard.
  - apply names_bounded in Hall. lia.
Qed.

(** A reset keeps the installation's identifier and nothing else: it is
    the one read before the reset, without braces where an old version stored
    it with them, and every other setting is gone. *)
Theorem clear_keeps_installation (created : string) (m : SettingsView) :
  let uuid := var_toString (default (VString "") (m "Conf/installationUuid")) in
  let kept := if contains_str uuid "{" && contains_str uuid "}" then strip_braces uuid else uuid in
  exists m', exec (S := S) (clearSettings created) m tt m' [settingsCleared] /\
    m' "Conf/installationUuid" = Some (VString kept) /\
    forall k, k <> "Conf/installationUuid" -> m' k = None.
Proof.
  intros uuid kept. exists (upd "Conf/installationUuid" (VString kept) (λ _, None)).
  split; [|split; [apply upd_eq|intros k Hk; by rewrite upd_ne]].
  unfold clearSettings. assert (exists m1, exec (S := S) (getInstallationUuid created false) m kept m1 [])
    as (m1 & E1).
  { unfold getInstallationUuid, get_string. cbn [andb]. unfold kept.
    destruct (contains_str uuid "{" && contains_str uuid "}") eqn:Eb; eexists;
      (eapply exec_step; [eapply exec_step; [apply exec_get|apply exec_ret]|]; fold uuid; rewrite Eb).
    - eapply exec_step; [by apply exec_set_plain|apply exec_ret].
    - apply exec_ret. }
  eapply exec_step; [exact E1|]. eapply exec_step; [apply exec_clear|].
  eapply exec_step; [by apply exec_set_plain|apply exec_emit].
Qed.
End Properties.

(** ** Witnesses *)
#[local] Existing Instances windows_store windows_store_laws sample_json sample_json_laws.

Definition sample_view : SettingsView := with_servers [JObject []] (λ _, None).

Lemma sample_view_size : array_size (servers_of sample_view) = 1%Z.
Proof. unfold sample_view. by rewrite servers_with_servers. Qed.

Lemma server_list_edits_witness :
  exec (S := SampleStore) (editServer 0 [("a", JNull)]) sample_view true
    (with_servers [JObject [("a", JNull)]] sample_view) [].
Proof.
  destruct (server_list_edits (S := SampleStore) 0 [("a", JNull)] sample_view)
    as (_ & E & _).
  destruct E as [_ E]; [by rewrite sample_view_size|].
  unfold sample_view at 2 in E. rewrite servers_with_servers in E. exact E.
Defined.

Lemma container_config_stored_witness :
  exists m', exec (S := SampleStore)
    (setContainerConfig 0 DockerContainer.Awg [("mtu", JString "1280")]) sample_view tt m' [] /\
    config_at m' 0 DockerContainer.Awg =
      [("container", JString "amnezia-awg"); ("mtu", JString "1280")].
Proof.
  destruct (container_config_stored (S := SampleStore) 0 DockerContainer.Awg
    [("mtu", JString "1280")] sample_view) as [(m' & E & C & _) _]; [by rewrite sample_view_size|done|].
  exists m'. split; [exact E|]. rewrite (changed_config _ _ _ _ _ C). reflexivity.
Defined.

Lemma last_config_cleared_witness :
  exists m', exec (S := SampleStore)
    (clearLastConnectionConfig 0 DockerContainer.Cloak Proto.Any) sample_view tt m' [] /\
    value "last_config" (proto_config (config_at m' 0 DockerContainer.Cloak) Proto.OpenVpn) = JUndefined.
Proof.
  destruct (last_config_cleared (S := SampleStore) 0 DockerContainer.Cloak
    sample_view) as (m' & E & _ & V); [by rewrite sample_view_size|done|].
  exists m'. split; [exact E|]. exact (V Proto.OpenVpn "last_config").
Defined.

Lemma next_server_name_free_witness :
  exists j, name_exists (server_name "Server" j) (servers_of sample_view) = false.
Proof.
  destruct (next_server_name_free (S := SampleStore) "Server" sample_view)
    as (j & _ & _ & N).
  exists j. exact N.
Defined.
