(* ===== verification/ServersModel.v ===== *)
(** * The model of the servers

    Model of [ServersModel] (client/ui/models/servers_model.cpp): the copy of the
    server list that the user interface shows, the default server and the one
    being edited, and the calls that change them together with the settings. *)
From Stdlib Require Import ZArith QArith Lia Ascii String.
From stdpp Require Import base list strings sorting.
From S2P Require Import Prelude QtString QtContainers Variant Protocols Containers SecureSettings.
From S2P Require Import HostAddress IpAddress NetworkUtilities Settings.
Local Open Scope string_scope.

(** ** State *)
Inductive ModelSignal :=
| processedServerIndexChanged (index : Z)
| defaultServerIndexChanged (index : Z)
| defaultServerNameChanged
| defaultServerDescriptionChanged
| containersUpdated (containers : list QJsonValue)
| defaultServerContainersUpdated (containers : list QJsonValue)
| defaultServerDefaultContainerChanged (container : DockerContainer.t)
| updateApiLanguageModel
| updateApiServicesModel
| dataChanged (index : Z)
| modelReset.

Record ServersModel (S : Type) := mkModel {
  m_servers : list QJsonValue;
  m_defaultServerIndex : Z;
  m_processedServerIndex : Z;
  m_isAmneziaDnsEnabled : bool;
  settings : Settings S;
  signals : list ModelSignal
}.
Arguments mkModel {S} _ _ _ _ _ _.
Arguments m_servers {S} _.
Arguments m_defaultServerIndex {S} _.
Arguments m_processedServerIndex {S} _.
Arguments m_isAmneziaDnsEnabled {S} _.
Arguments settings {S} _.
Arguments signals {S} _.

Inductive Role :=
  NameRole | ServerDescriptionRole | CollapsedServerDescriptionRole | ExpandedServerDescriptionRole
| HostNameRole | CredentialsRole | CredentialsLoginRole | IsDefaultRole | IsCurrentlyProcessedRole
| HasWriteAccessRole | ContainsAmneziaDnsRole | DefaultContainerRole | HasInstalledContainers
| IsServerFromTelegramApiRole | IsServerFromGatewayApiRole | ApiConfigRole
| IsCountrySelectionAvailableRole | ApiAvailableCountriesRole | ApiServerCountryCodeRole
| HasAmneziaDns.

(** What [data] returns. *)
Inductive RoleValue :=
| RInvalid
| RText (s : string)
| RBool (b : bool)
| RCredentials (c : ServerCredentials)
| RContainer (c : DockerContainer.t)
| RObject (o : QJsonObject)
| RArray (l : list QJsonValue).

Definition role_bool (v : RoleValue) : bool := match v with RBool b => b | _ => false end.
Definition role_container (v : RoleValue) : DockerContainer.t :=
  match v with RContainer c => c | _ => DockerContainer.None end.

Definition role_names : list (string * Role) :=
  [ ("name", NameRole); ("serverDescription", ServerDescriptionRole);
    ("collapsedServerDescription", CollapsedServerDescriptionRole);
    ("expandedServerDescription", ExpandedServerDescriptionRole); ("hostName", HostNameRole);
    ("credentials", CredentialsRole); ("credentialsLogin", CredentialsLoginRole);
    ("isDefault", IsDefaultRole); ("isCurrentlyProcessed", IsCurrentlyProcessedRole);
    ("hasWriteAccess", HasWriteAccessRole); ("containsAmneziaDns", ContainsAmneziaDnsRole);
    ("defaultContainer", DefaultContainerRole); ("hasInstalledContainers", HasInstalledContainers);
    ("isServerFromTelegramApi", IsServerFromTelegramApiRole);
    ("isServerFromGatewayApi", IsServerFromGatewayApiRole); ("apiConfig", ApiConfigRole);
    ("isCountrySelectionAvailable", IsCountrySelectionAvailableRole);
    ("apiAvailableCountries", ApiAvailableCountriesRole);
    ("apiServerCountryCode", ApiServerCountryCodeRole) ].

Definition amneziaDnsIp : string := "172.29.172.254".
Definition Telegram : Z := 1.
Definition AmneziaGateway : Z := 2.

(** ** Reading *)
Section Reading.
Context {S : Type}.
Implicit Types s : ServersModel S.

Definition model_server s (i : Z) : QJsonObject := toObject (array_at (m_servers s) i).
Definition server_containers (server : QJsonObject) : list QJsonValue :=
  toArray (value "containers" server).

Definition model_credentials s (index : Z) : ServerCredentials :=
  let o := model_server s index in
  mkCredentials (toString (value "hostName" o)) (toString (value "userName" o))
    (toString (value "password" o)) (json_toInt (value "port" o)).

Definition getServersCount s : Z := array_size (m_servers s).

Definition isAmneziaDnsContainerInstalled s (serverIndex : Z) : bool :=
  existsb (λ it, String.eqb (toString (value "container" (toObject it)))
                   (containerToString DockerContainer.Dns))
    (server_containers (model_server s serverIndex)).

Definition serverHasInstalledContainers s (serverIndex : Z) : bool :=
  existsb (λ it, let container := container_entry it in
      bool_decide (containerService container = ServiceType.Vpn) ||
      bool_decide (container = DockerContainer.SSXray))
    (server_containers (model_server s serverIndex)).

Definition hasWriteAccess s (i : Z) : bool :=
  let credentials := model_credentials s i in
  negb (String.eqb (userName credentials) "") && negb (String.eqb (secretData credentials) "").

Definition hasAmneziaDns s (i : Z) : bool :=
  String.eqb (toString (value "dns1" (model_server s i))) amneziaDnsIp.

(** The calls of [data] inside are for rows of the model only. *)
Definition in_model s (i : Z) : bool := (0 <=? i)%Z && (i <? getServersCount s)%Z.

Definition getServerDescription s (server : QJsonObject) (index : Z) : string :=
  let configVersion := json_toInt (value "config_version" server) in
  let apiConfig := toObject (value "api_config" server) in
  if negb (configVersion =? 0)%Z &&
     negb (String.eqb (toString (value "server_country_code" apiConfig)) "")
  then toString (value "server_country_name" apiConfig)
  else if negb (configVersion =? 0)%Z then toString (value "description" server)
  else if in_model s index && hasWriteAccess s index then
    (if m_isAmneziaDnsEnabled s && isAmneziaDnsContainerInstalled s index
     then "Amnezia DNS | " else "")
  else (if in_model s index && hasAmneziaDns s index then "Amnezia DNS | " else "").

Definition data s (row : Z) (role : Role) : RoleValue :=
  if negb (in_model s row) then RInvalid
  else
    let server := model_server s row in
    let apiConfig := toObject (value "api_config" server) in
    let configVersion := json_toInt (value "config_version" server) in
    match role with
    | NameRole =>
        if negb (configVersion =? 0)%Z then RText (toString (value "name" server))
        else
          let name := toString (value "description" server) in
          RText (if String.eqb name "" then toString (value "hostName" server) else name)
    | ServerDescriptionRole =>
        let description := getServerDescription s server row in
        RText (if negb (configVersion =? 0)%Z then description
               else description +:+ toString (value "hostName" server))
    | HostNameRole => RText (toString (value "hostName" server))
    | CredentialsRole => RCredentials (model_credentials s row)
    | CredentialsLoginRole => RText (userName (model_credentials s row))
    | IsDefaultRole => RBool (row =? m_defaultServerIndex s)%Z
    | IsCurrentlyProcessedRole => RBool (row =? m_processedServerIndex s)%Z
    | HasWriteAccessRole => RBool (hasWriteAccess s row)
    | ContainsAmneziaDnsRole => RBool (hasAmneziaDns s row)
    | DefaultContainerRole =>
        RContainer (containerFromString (toString (value "defaultContainer" server)))
    | HasInstalledContainers => RBool (serverHasInstalledContainers s row)
    | IsServerFromTelegramApiRole => RBool (configVersion =? Telegram)%Z
    | IsServerFromGatewayApiRole => RBool (configVersion =? AmneziaGateway)%Z
    | ApiConfigRole => RObject apiConfig
    | IsCountrySelectionAvailableRole =>
        RBool (match toArray (value "available_countries" apiConfig) with [] => false | _ => true end)
    | ApiAvailableCountriesRole => RArray (toArray (value "available_countries" apiConfig))
    | ApiServerCountryCodeRole => RText (toString (value "server_country_code" apiConfig))
    | HasAmneziaDns => RBool (hasAmneziaDns s row)
    | CollapsedServerDescriptionRole | ExpandedServerDescriptionRole => RInvalid
    end.

Definition data_named s (row : Z) (roleString : string) : RoleValue :=
  match List.find (λ e, String.eqb e.1 roleString) role_names with
  | Some (_, role) => data s row role
  | None => RInvalid
  end.
Definition getDefaultServerData s (roleString : string) : RoleValue :=
  data_named s (m_defaultServerIndex s) roleString.
Definition getProcessedServerData s (roleString : string) : RoleValue :=
  data_named s (m_processedServerIndex s) roleString.

Definition hasServerWithWriteAccess s : bool :=
  existsb (λ i, role_bool (data s (Z.of_nat i) HasWriteAccessRole)) (seq 0 (length (m_servers s))).

Definition isServerFromApi s (serverIndex : Z) : bool :=
  role_bool (data s serverIndex IsServerFromTelegramApiRole) ||
  role_bool (data s serverIndex IsServerFromGatewayApiRole).
Definition isDefaultServerFromApi s : bool := isServerFromApi s (m_defaultServerIndex s).

Definition server_description_collapsed s (humanName : DockerContainer.t -> string) : string :=
  let server := model_server s (m_defaultServerIndex s) in
  let description := getServerDescription s server (m_defaultServerIndex s) in
  if negb (json_toInt (value "config_version" server) =? 0)%Z then description
  else description +:+ humanName (containerFromString (toString (value "defaultContainer" server))) +:+
       " | " +:+ toString (value "hostName" server).

Definition server_description_expanded s : string :=
  let server := model_server s (m_defaultServerIndex s) in
  let description := getServerDescription s server (m_defaultServerIndex s) in
  if negb (json_toInt (value "config_version" server) =? 0)%Z then description
  else description +:+ toString (value "hostName" server).

Definition getDefaultServerImagePathCollapsed s : string :=
  let countryCode := toString (value "server_country_code"
        (toObject (value "api_config" (model_server s (m_defaultServerIndex s))))) in
  if String.eqb countryCode "" then ""
  else "qrc:/countriesFlags/images/flagKit/" +:+ countryCode +:+ ".svg".

Definition service_name (container : DockerContainer.t) : list string :=
  if bool_decide (containerService container = ServiceType.Other) then
    match container with
    | DockerContainer.Dns => ["DNS"]
    | DockerContainer.Sftp => ["SFTP"]
    | DockerContainer.TorWebSite => ["TOR"]
    | DockerContainer.Socks5Proxy => ["SOCKS5"]
    | _ => []
    end
  else [].

Definition string_le (a b : string) : Prop := String.compare a b <> Gt.
#[local] Instance string_le_dec a b : Decision (string_le a b).
Proof. unfold string_le. solve_decision. Defined.

Definition getAllInstalledServicesName s (serverIndex : Z) : list string :=
  merge_sort string_le
    (concat (map (λ it, service_name (container_entry it))
                 (server_containers (model_server s serverIndex)))).

(** [static_cast<quint16>] of the stored checksum. *)
Definition crc_exists s (crc : Z) : bool :=
  existsb (λ server, (u16 (json_toInt (value "crc" (toObject server))) =? crc)%Z) (m_servers s).

Definition api_server_exists s (userCountryCode serviceType serviceProtocol : string) : bool :=
  existsb (λ server, let apiConfig := toObject (value "api_config" (toObject server)) in
      String.eqb (toString (value "user_country_code" apiConfig)) userCountryCode &&
      String.eqb (toString (value "service_type" apiConfig)) serviceType &&
      String.eqb (toString (value "service_protocol" apiConfig)) serviceProtocol) (m_servers s).
End Reading.

(** ** Changing *)
Section Changing.
Context {S : Type} `{KeyValueStore S} `{JsonDocument} `{AddressParser}.
Abbreviation ModelM A := (Run (ServersModel S) A).

Definition on_settings {A} (m : Run (Settings S) A) : ModelM A := λ s,
  match m (settings s) with
  | Ret (a, st) => Ret (a, mkModel (m_servers s) (m_defaultServerIndex s) (m_processedServerIndex s)
                             (m_isAmneziaDnsEnabled s) st (signals s))
  | Abort => Abort
  | OutOfFuel => OutOfFuel
  end.
Definition read {A} (f : ServersModel S -> A) : ModelM A := rlift (gets f).
Definition set_servers (l : list QJsonValue) : ModelM unit := λ s,
  Ret (tt, mkModel l (m_defaultServerIndex s) (m_processedServerIndex s) (m_isAmneziaDnsEnabled s)
             (settings s) (signals s)).
Definition set_default (i : Z) : ModelM unit := λ s,
  Ret (tt, mkModel (m_servers s) i (m_processedServerIndex s) (m_isAmneziaDnsEnabled s)
             (settings s) (signals s)).
Definition set_processed (i : Z) : ModelM unit := λ s,
  Ret (tt, mkModel (m_servers s) (m_defaultServerIndex s) i (m_isAmneziaDnsEnabled s)
             (settings s) (signals s)).
Definition set_dns_enabled (b : bool) : ModelM unit := λ s,
  Ret (tt, mkModel (m_servers s) (m_defaultServerIndex s) (m_processedServerIndex s) b
             (settings s) (signals s)).
Definition emit (e : ModelSignal) : ModelM unit := λ s,
  Ret (tt, mkModel (m_servers s) (m_defaultServerIndex s) (m_processedServerIndex s)
             (m_isAmneziaDnsEnabled s) (settings s) (app (signals s) [e])).

Definition updateContainersModel : ModelM unit :=
  let! c := read (λ s, server_containers (model_server s (m_processedServerIndex s))) in
  emit (containersUpdated c).
Definition updateDefaultServerContainersModel : ModelM unit :=
  let! c := read (λ s, server_containers (model_server s (m_defaultServerIndex s))) in
  emit (defaultServerContainersUpdated c).

(** The signal with the two slots the constructor connects to it. *)
Definition emit_default_index (index : Z) : ModelM unit :=
  do! emit (defaultServerIndexChanged index) in
  do! emit defaultServerNameChanged in
  let! o := read (λ s, model_server s index) in
  do! emit (defaultServerDefaultContainerChanged
              (containerFromString (toString (value "defaultContainer" o)))) in
  do! emit defaultServerNameChanged in
  updateDefaultServerContainersModel.

Definition resetModel : ModelM unit :=
  let! l := on_settings serversArray in
  do! set_servers l in
  let! i := on_settings defaultServerIndex in
  do! set_default i in
  do! set_processed i in
  do! emit modelReset in
  emit_default_index i.

Definition setDefaultServerIndex (index : Z) : ModelM unit :=
  do! on_settings (setDefaultServer index) in
  let! i := on_settings defaultServerIndex in
  do! set_default i in
  emit_default_index i.

Definition setProcessedServerIndex (index : Z) : ModelM unit :=
  do! set_processed index in
  do! updateContainersModel in
  let! gateway := read (λ s, role_bool (data s index IsServerFromGatewayApiRole)) in
  do! (if gateway then
         let! country := read (λ s, role_bool (data s index IsCountrySelectionAvailableRole)) in
         do! (if country then emit updateApiLanguageModel else rret tt) in
         emit updateApiServicesModel
       else rret tt) in
  emit (processedServerIndexChanged index).

(** An undefined value is stored as null. *)
Definition stored_item (v : QJsonValue) : QJsonValue := match v with JUndefined => JNull | _ => v end.

Definition replace_server (i : Z) (v : QJsonValue) : ModelM unit :=
  let! l := read m_servers in
  let! l := rguard (array_replace l i (stored_item v)) in
  set_servers l.

Definition setData (row : Z) (name : string) (role : Role) : ModelM bool :=
  let! ok := read (λ s, in_model s row) in
  if negb ok then rret false
  else
    match role with
    | NameRole =>
        let! server := read (λ s, model_server s row) in
        let key := if negb (json_toInt (value "config_version" server) =? 0)%Z
                   then "name" else "description" in
        let server := jinsert key (JString name) server in
        do! on_settings (editServer row server) in
        do! replace_server row (JObject server) in
        let! d := read m_defaultServerIndex in
        do! (if (row =? d)%Z then emit defaultServerNameChanged else rret tt) in
        do! emit (dataChanged row) in
        rret true
    | _ => rret true
    end.

Definition model_addServer (server : QJsonObject) : ModelM unit :=
  do! on_settings (addServer server) in
  let! l := on_settings serversArray in
  do! set_servers l in
  emit modelReset.

Definition model_editServer (server : QJsonObject) (serverIndex : Z) : ModelM unit :=
  do! on_settings (editServer serverIndex server) in
  let! l := on_settings serversArray in
  do! replace_server serverIndex (array_at l serverIndex) in
  do! emit (dataChanged serverIndex) in
  let! d := read m_defaultServerIndex in
  do! (if (serverIndex =? d)%Z then updateDefaultServerContainersModel else rret tt) in
  do! updateContainersModel in
  if (serverIndex =? d)%Z then
    let! c := read (λ s, role_container (getDefaultServerData s "defaultContainer")) in
    emit (defaultServerDefaultContainerChanged c)
  else rret tt.

Definition model_removeServer : ModelM unit :=
  let! p := read m_processedServerIndex in
  do! on_settings (removeServer p) in
  let! l := on_settings serversArray in
  do! set_servers l in
  let! d := on_settings defaultServerIndex in
  do! (if (d =? p)%Z then setDefaultServerIndex 0
       else if (p <? d)%Z then
         let! d := on_settings defaultServerIndex in setDefaultServerIndex (d - 1)
       else rret tt) in
  let! n := on_settings serversCount in
  do! (if (n =? 0)%Z then setDefaultServerIndex (-1) else rret tt) in
  let! d := read m_defaultServerIndex in
  do! setProcessedServerIndex d in
  emit modelReset.

Definition clearServers : ModelM unit :=
  do! on_settings removeAllServers in
  let! l := on_settings serversArray in
  do! set_servers l in
  do! setDefaultServerIndex (-1) in
  let! d := read m_defaultServerIndex in
  do! setProcessedServerIndex d in
  emit modelReset.

(** The first entry of the container is replaced. *)
Fixpoint replace_container (c : DockerContainer.t) (config : QJsonObject) (l : list QJsonValue) :
    list QJsonValue :=
  match l with
  | [] => []
  | v :: l' => if bool_decide (container_entry v = c) then JObject config :: l'
               else v :: replace_container c config l'
  end.

Definition reloadDefaultServerContainerConfig : ModelM unit :=
  let! d := read m_defaultServerIndex in
  let! server := read (λ s, model_server s d) in
  let container := containerFromString (toString (value "defaultContainer" server)) in
  let! config := on_settings (containerConfig d container) in
  let containers := replace_container container config (server_containers server) in
  model_editServer (jinsert "containers" (JArray containers) server) d.

Definition updateContainerConfig (container : DockerContainer.t) (config : QJsonObject) : ModelM unit :=
  let! p := read m_processedServerIndex in
  let! server := read (λ s, model_server s p) in
  let containers := replace_container container config (server_containers server) in
  model_editServer (jinsert "containers" (JArray containers) server) p.

Definition addContainerConfig (platform : Platform) (container : DockerContainer.t)
    (config : QJsonObject) : ModelM unit :=
  let! p := read m_processedServerIndex in
  let! server := read (λ s, model_server s p) in
  let containers := app (server_containers server) [JObject config] in
  let server := jinsert "containers" (JArray containers) server in
  let defaultContainer := toString (value "defaultContainer" server) in
  let server :=
    if bool_decide (containerFromString defaultContainer = DockerContainer.None) &&
       negb (bool_decide (containerService container = ServiceType.Other)) &&
       isSupportedByCurrentPlatform platform container
    then jinsert "defaultContainer" (JString (containerToString container)) server else server in
  model_editServer server p.

Definition model_setDefaultContainer (serverIndex : Z) (container : DockerContainer.t) : ModelM unit :=
  let! s := read (λ s, model_server s serverIndex) in
  model_editServer (jinsert "defaultContainer" (JString (containerToString container)) s) serverIndex.

(** The calls on the server end with an error code, 0 for success. *)
Definition model_removeAllContainers (errorCode : Z) : ModelM Z :=
  if (errorCode =? 0)%Z then
    let! p := read m_processedServerIndex in
    let! s := read (λ s, model_server s p) in
    let s := jinsert "containers" JNull s in
    let s := jinsert "defaultContainer" (JString (containerToString DockerContainer.None)) s in
    do! model_editServer s p in
    rret errorCode
  else rret errorCode.

Fixpoint erase_container (name : string) (l : list QJsonValue) : list QJsonValue :=
  match l with
  | [] => []
  | v :: l' => if String.eqb (toString (value "container" (toObject v))) name then l'
               else v :: erase_container name l'
  end.

Definition model_removeContainer (errorCode : Z) (container : DockerContainer.t) : ModelM Z :=
  if (errorCode =? 0)%Z then
    let! p := read m_processedServerIndex in
    let! server := read (λ s, model_server s p) in
    let containers := erase_container (containerToString container) (server_containers server) in
    let server := jinsert "containers" (JArray containers) server in
    let defaultContainer := containerFromString (toString (value "defaultContainer" server)) in
    let server :=
      if bool_decide (defaultContainer = container) then
        let next := match containers with
                    | [] => DockerContainer.None
                    | v :: _ => container_entry v
                    end in
        jinsert "defaultContainer" (JString (containerToString next)) server
      else server in
    do! model_editServer server p in
    rret errorCode
  else rret errorCode.

Definition clearCachedProfile (container : DockerContainer.t) : ModelM unit :=
  let! p := read m_processedServerIndex in
  do! on_settings (clearLastConnectionConfig p container Proto.Any) in
  let! o := on_settings (server p) in
  do! replace_server p (JObject o) in
  let! d := read m_defaultServerIndex in
  do! (if (p =? d)%Z then updateDefaultServerContainersModel else rret tt) in
  updateContainersModel.

Definition toggleAmneziaDns (enabled : bool) : ModelM unit :=
  do! set_dns_enabled enabled in
  emit defaultServerDescriptionChanged.

(** The server asked for is not looked at. *)
Definition getDnsPair (serverIndex : Z) : ModelM (string * string) :=
  let! server := read (λ s, model_server s (m_processedServerIndex s)) in
  let isDnsContainerInstalled :=
    existsb (λ c, bool_decide (container_entry c = DockerContainer.Dns)) (server_containers server) in
  let dns1 := toString (value "dns1" server) in
  let dns2 := toString (value "dns2" server) in
  let! amnezia := read m_isAmneziaDnsEnabled in
  let! first :=
    (if String.eqb dns1 "" || negb (checkIPv4Format dns1) then
       if amnezia && isDnsContainerInstalled then rret amneziaDnsIp else on_settings primaryDns
     else rret dns1) in
  let! second :=
    (if String.eqb dns2 "" || negb (checkIPv4Format dns2) then on_settings secondaryDns
     else rret dns2) in
  rret (first, second).

(** [now], [tomorrow] and the order of dates are Qt's. *)
Definition isApiKeyExpired (tomorrow : string) (expired : string -> bool) (serverIndex : Z) :
    ModelM bool :=
  let! serverConfig := read (λ s, model_server s serverIndex) in
  let apiConfig := toObject (value "api_config" serverConfig) in
  let publicKeyInfo := toObject (value "public_key" apiConfig) in
  let endDate := toString (value "end_date" publicKeyInfo) in
  if String.eqb endDate "" then
    let publicKeyInfo := jinsert "end_date" (JString tomorrow) publicKeyInfo in
    let apiConfig := jinsert "public_key" (JObject publicKeyInfo) apiConfig in
    do! model_editServer (jinsert "api_config" (JObject apiConfig) serverConfig) serverIndex in
    rret false
  else rret (expired endDate).

Definition removeApiConfig (serverIndex : Z) : ModelM unit :=
  let! serverConfig := read (λ s, model_server s serverIndex) in
  let serverConfig := remove_key "dns1" serverConfig in
  let serverConfig := remove_key "dns2" serverConfig in
  let serverConfig := remove_key "containers" serverConfig in
  let serverConfig := remove_key "hostName" serverConfig in
  let apiConfig := remove_key "public_key" (toObject (value "api_config" serverConfig)) in
  let serverConfig := jinsert "api_config" (JObject apiConfig) serverConfig in
  let serverConfig :=
    jinsert "defaultContainer" (JString (containerToString DockerContainer.None)) serverConfig in
  model_editServer serverConfig serverIndex.
End Changing.

(** ** Split tunnelling of the default container *)
Definition array_has (s : string) (l : list QJsonValue) : bool := existsb (json_eqb (JString s)) l.

Definition has_split_tunneling `{JsonDocument} {S} (s : ServersModel S) : bool :=
  let server := model_server s (m_defaultServerIndex s) in
  let defaultContainer := containerFromString (toString (value "defaultContainer" server)) in
  match List.find (λ c, String.eqb (toString (value "container" (toObject c)))
                          (containerToString defaultContainer) &&
                        existsb (λ x, bool_decide (x = defaultContainer))
                          [DockerContainer.Awg; DockerContainer.WireGuard; DockerContainer.Cloak;
                           DockerContainer.OpenVpn; DockerContainer.ShadowSocks])
          (server_containers server) with
  | None => false
  | Some c =>
      let container := toObject c in
      if bool_decide (defaultContainer = DockerContainer.Awg) ||
         bool_decide (defaultContainer = DockerContainer.WireGuard) then
        let text := toString (value "last_config"
              (toObject (value (containerTypeToString defaultContainer) container))) in
        let allowed := toArray (value "allowed_ips" (toObject (fromJsonDoc text))) in
        (contains_str text "AllowedIPs" && negb (contains_str text "AllowedIPs = 0.0.0.0/0, ::/0")) ||
        (match allowed with [] => false | _ => true end && negb (array_has "0.0.0.0/0" allowed))
      else
        let text := toString (value "last_config"
              (toObject (value (containerTypeToString DockerContainer.OpenVpn) container))) in
        negb (String.eqb text "") && negb (contains_str text "redirect-gateway")
  end.
