(* ===== verification/ServersModelProperties.v ===== *)
(** * Properties of the model of the servers

    Every call keeps the servers of the user interface equal to the stored ones
    (ServersModel.v), over any store that is a [KeyValueStore]. *)
From Stdlib Require Import ZArith QArith Lia Ascii String.
From stdpp Require Import base list strings.
From S2P Require Import Prelude QtString QtContainers Variant Protocols Containers SecureSettings.
From S2P Require Import HostAddress IpAddress NetworkUtilities Settings SecureSettingsProperties.
From S2P Require Import SettingsProperties ServersModel.
Local Open Scope string_scope.
Local Open Scope Z_scope.

(** What a state of the model amounts to: the settings it is attached to show
    [dv], and its fields. *)
Record Desc := mkDesc {
  dv : SettingsView;
  dl : list QJsonValue;
  dd : Z;
  dp : Z;
  dns_on : bool
}.

Section Exec.
Context {S : Type} `{KeyValueLaws S} `{JsonDocumentLaws} `{AddressParser}.

Record described (s : ServersModel S) (D : Desc) : Prop := {
  described_settings : exists ev, shows (settings s) (dv D) ev;
  described_servers : m_servers s = dl D;
  described_default : m_defaultServerIndex s = dd D;
  described_processed : m_processedServerIndex s = dp D;
  described_dns : m_isAmneziaDnsEnabled s = dns_on D
}.

Definition mexec {A} (op : Run (ServersModel S) A) (D : Desc) (a : A) (D' : Desc) : Prop :=
  forall s, described s D -> exists s', op s = Ret (a, s') /\ described s' D'.

Lemma mexec_ret {A} (a : A) D : mexec (rret a) D a D.
Proof. intros s Hs. by exists s. Qed.

Lemma mexec_bind {A B} (op : Run (ServersModel S) A) (k : A -> Run (ServersModel S) B) D a D1 b D2 :
  mexec op D a D1 -> mexec (k a) D1 b D2 -> mexec (rbind op k) D b D2.
Proof.
  intros Ho Hk s Hs. destruct (Ho s Hs) as (s1 & E1 & Hs1).
  destruct (Hk s1 Hs1) as (s2 & E2 & Hs2). exists s2. unfold rbind. by rewrite E1.
Qed.

Lemma mexec_guard {A} (a : A) D : mexec (rguard (Ret a)) D a D.
Proof. apply mexec_ret. Qed.

Lemma mexec_settings {A} (op : Run (Settings S) A) D a m' ev :
  exec op (dv D) a m' ev ->
  mexec (on_settings op) D a (mkDesc m' (dl D) (dd D) (dp D) (dns_on D)).
Proof.
  intros He s [[ev0 Hs] L Dd P B]. destruct (He _ _ Hs) as (st & E & Hst).
  unfold on_settings. rewrite E. eexists. split; [done|]. split; simpl; try done. by eexists.
Qed.

Lemma mexec_emit e D : mexec (emit e) D tt D.
Proof. intros s [Hs L Dd P B]. eexists. split; [done|]. by split. Qed.

Lemma mexec_read {A} (f : ServersModel S -> A) D a :
  (forall s, described s D -> f s = a) -> mexec (read f) D a D.
Proof. intros Hf s Hs. exists s. split; [|done]. unfold read, rlift, gets. by rewrite Hf. Qed.

Lemma mexec_set_servers l D :
  mexec (set_servers l) D tt (mkDesc (dv D) l (dd D) (dp D) (dns_on D)).
Proof. intros s [Hs L Dd P B]. eexists. split; [done|]. by split. Qed.
Lemma mexec_set_default i D :
  mexec (set_default i) D tt (mkDesc (dv D) (dl D) i (dp D) (dns_on D)).
Proof. intros s [Hs L Dd P B]. eexists. split; [done|]. by split. Qed.
Lemma mexec_set_processed i D :
  mexec (set_processed i) D tt (mkDesc (dv D) (dl D) (dd D) i (dns_on D)).
Proof. intros s [Hs L Dd P B]. eexists. split; [done|]. by split. Qed.
Lemma mexec_set_dns b D :
  mexec (set_dns_enabled b) D tt (mkDesc (dv D) (dl D) (dd D) (dp D) b).
Proof. intros s [Hs L Dd P B]. eexists. split; [done|]. by split. Qed.

(** Calls that only emit signals. *)
Definition quiet {A} (op : Run (ServersModel S) A) : Prop :=
  forall s, exists a sig, op s = Ret (a, mkModel (m_servers s) (m_defaultServerIndex s)
    (m_processedServerIndex s) (m_isAmneziaDnsEnabled s) (settings s) sig).

Lemma quiet_ret {A} (a : A) : quiet (rret a).
Proof. intros s. exists a, (signals s). by destruct s. Qed.
Lemma quiet_read {A} (f : ServersModel S -> A) : quiet (read f).
Proof. intros s. exists (f s), (signals s). by destruct s. Qed.
Lemma quiet_emit e : quiet (emit e).
Proof. intros s. by eexists _, _. Qed.
Lemma quiet_bind {A B} (op : Run (ServersModel S) A) (k : A -> Run (ServersModel S) B) :
  quiet op -> (forall a, quiet (k a)) -> quiet (rbind op k).
Proof.
  intros Ho Hk s. destruct (Ho s) as (a & sig & E). unfold rbind. rewrite E.
  destruct (Hk a (mkModel (m_servers s) (m_defaultServerIndex s) (m_processedServerIndex s)
    (m_isAmneziaDnsEnabled s) (settings s) sig)) as (b & sig' & E').
  exists b, sig'. exact E'.
Qed.

Lemma mexec_quiet (op : Run (ServersModel S) unit) D : quiet op -> mexec op D tt D.
Proof.
  intros Ho s [Hs L Dd P B]. destruct (Ho s) as ([] & sig & E). eexists. split; [exact E|]. by split.
Qed.

Lemma mexec_quiet_then {B} (op : Run (ServersModel S) unit) (k : Run (ServersModel S) B) D b D' :
  quiet op -> mexec k D b D' -> mexec (do! op in k) D b D'.
Proof. intros Ho Hk. eapply mexec_bind; [by apply mexec_quiet|exact Hk]. Qed.
End Exec.

Ltac quiet_steps :=
  repeat first
    [ apply quiet_ret | apply quiet_read | apply quiet_emit
    | apply quiet_bind; [|intros ?]
    | match goal with |- quiet (match ?x with _ => _ end) => destruct x end ].

Section Calls.
Context {S : Type} `{KeyValueLaws S} `{JsonDocumentLaws} `{AddressParser}.

Lemma quiet_containers : quiet (S := S) updateContainersModel.
Proof. unfold updateContainersModel. quiet_steps. Qed.
Lemma quiet_default_containers : quiet (S := S) updateDefaultServerContainersModel.
Proof. unfold updateDefaultServerContainersModel. quiet_steps. Qed.
Lemma quiet_default_index i : quiet (S := S) (emit_default_index i).
Proof. unfold emit_default_index. quiet_steps. Qed.

(** The default server the settings name. *)
Definition default_of (m : SettingsView) : Z :=
  var_toInt (default (VInt 0) (m "Servers/defaultServerIndex")).
Definition with_default (i : Z) (m : SettingsView) : SettingsView :=
  upd "Servers/defaultServerIndex" (VInt i) m.

Lemma default_with_default i m : default_of (with_default i m) = i.
Proof. unfold default_of, with_default. by rewrite upd_eq. Qed.
Lemma default_with_servers l m : default_of (with_servers l m) = default_of m.
Proof. unfold default_of. by rewrite with_servers_ne. Qed.
Lemma servers_with_default i m : servers_of (with_default i m) = servers_of m.
Proof. unfold servers_of, with_default. by rewrite upd_ne. Qed.

Lemma exec_defaultServerIndex m : exec (S := S) defaultServerIndex m (default_of m) m [].
Proof. unfold defaultServerIndex. eapply exec_step; [apply exec_get|apply exec_ret]. Qed.
Lemma exec_setDefaultServer i m : exec (S := S) (setDefaultServer i) m tt (with_default i m) [].
Proof. by apply exec_set_plain. Qed.

Lemma mexec_setDefaultServerIndex i D :
  mexec (S := S) (setDefaultServerIndex i) D tt
    (mkDesc (with_default i (dv D)) (dl D) i (dp D) (dns_on D)).
Proof.
  unfold setDefaultServerIndex. eapply mexec_bind; [eapply mexec_settings, exec_setDefaultServer|].
  eapply mexec_bind; [eapply mexec_settings, exec_defaultServerIndex|]. cbn [dv dl dd dp dns_on].
  rewrite default_with_default.
  eapply mexec_bind; [apply mexec_set_default|]. apply mexec_quiet, quiet_default_index.
Qed.

Lemma mexec_setProcessedServerIndex i D :
  mexec (S := S) (setProcessedServerIndex i) D tt (mkDesc (dv D) (dl D) (dd D) i (dns_on D)).
Proof.
  unfold setProcessedServerIndex. eapply mexec_bind; [apply mexec_set_processed|].
  apply mexec_quiet. apply quiet_bind; [apply quiet_containers|intros _]. quiet_steps.
Qed.

Lemma mexec_resetModel D :
  mexec (S := S) resetModel D tt
    (mkDesc (dv D) (servers_of (dv D)) (default_of (dv D)) (default_of (dv D)) (dns_on D)).
Proof.
  unfold resetModel. eapply mexec_bind; [eapply mexec_settings, exec_serversArray|].
  eapply mexec_bind; [apply mexec_set_servers|].
  eapply mexec_bind; [eapply mexec_settings, exec_defaultServerIndex|].
  eapply mexec_bind; [apply mexec_set_default|]. eapply mexec_bind; [apply mexec_set_processed|].
  apply mexec_quiet. apply quiet_bind; [apply quiet_emit|intros _; apply quiet_default_index].
Qed.

Lemma mexec_replace_server i v D :
  0 <= i < array_size (dl D) ->
  mexec (S := S) (replace_server i v) D tt
    (mkDesc (dv D) (<[Z.to_nat i := stored_item v]> (dl D)) (dd D) (dp D) (dns_on D)).
Proof.
  intros Hi. unfold replace_server. eapply mexec_bind; [apply mexec_read; by intros s []|].
  eapply mexec_bind; [|apply mexec_set_servers].
  unfold array_replace, array_size in *. replace (0 <=? i) with true by lia.
  replace (i <? _) with true by lia. apply mexec_guard.
Qed.

Lemma mexec_addServer o D :
  mexec (S := S) (model_addServer o) D tt
    (let l := app (servers_of (dv D)) [JObject o] in
     mkDesc (with_servers l (dv D)) l (dd D) (dp D) (dns_on D)).
Proof.
  unfold model_addServer. eapply mexec_bind; [eapply mexec_settings, exec_addServer|].
  eapply mexec_bind; [eapply mexec_settings, exec_serversArray|]. cbn [dv dl dd dp dns_on].
  rewrite servers_with_servers. eapply mexec_bind; [apply mexec_set_servers|].
  apply mexec_quiet, quiet_emit.
Qed.

Lemma array_at_inserted l i v :
  0 <= i < array_size l -> array_at (<[Z.to_nat i := v]> l) i = v.
Proof.
  unfold array_size, array_at. intros Hi. replace (i <? 0) with false by lia.
  by rewrite list_lookup_insert_eq by lia.
Qed.

(** Editing an entry of a model that mirrors the settings. *)
Lemma mexec_editServer o i D :
  dl D = servers_of (dv D) -> 0 <= i < array_size (dl D) ->
  mexec (S := S) (model_editServer o i) D tt
    (let l := <[Z.to_nat i := JObject o]> (dl D) in
     mkDesc (with_servers l (dv D)) l (dd D) (dp D) (dns_on D)).
Proof.
  intros Hm Hi. unfold model_editServer.
  eapply mexec_bind; [eapply mexec_settings, exec_editServer; by rewrite <- Hm|].
  eapply mexec_bind; [eapply mexec_settings, exec_serversArray|]. cbn [dv dl dd dp dns_on].
  rewrite servers_with_servers, <- Hm, array_at_inserted by done.
  eapply mexec_bind; [by apply mexec_replace_server|]. cbn [stored_item dv dl dd dp dns_on].
  apply mexec_quiet. apply quiet_bind; [apply quiet_emit|intros _].
  apply quiet_bind; [apply quiet_read|intros d].
  apply quiet_bind; [destruct (i =? d); [apply quiet_default_containers|apply quiet_ret]|intros _].
  apply quiet_bind; [apply quiet_containers|intros _]. destruct (i =? d); quiet_steps.
Qed.
End Calls.

(** ** The mirror

    The list shown is the one of the settings, its entries are objects, and the
    default server is the one the settings name. *)
Record mirrors (D : Desc) `{JsonDocument} : Prop := {
  mirror_list : dl D = servers_of (dv D);
  mirror_default : dd D = default_of (dv D);
  mirror_objects : Forall (λ v, isObject v = true) (dl D)
}.

Section Mirror.
Context {S : Type} `{KeyValueLaws S} `{JsonDocumentLaws} `{AddressParser}.

(** The call fails, or ends in a state that mirrors the settings. *)
Definition settles {A} (op : Run (ServersModel S) A) (D : Desc) : Prop :=
  forall s, described s D ->
  op s = Abort \/ exists a s' D', op s = Ret (a, s') /\ described s' D' /\ mirrors D'.

Lemma settles_mexec {A} (op : Run (ServersModel S) A) D a D' :
  mexec op D a D' -> mirrors D' -> settles op D.
Proof. intros Ho Hm s Hs. destruct (Ho s Hs) as (s' & E & Hs'). right. by exists a, s', D'. Qed.

Lemma settles_read {A B} (f : ServersModel S -> A) (k : A -> Run (ServersModel S) B) D :
  (forall a, settles (k a) D) -> settles (rbind (read f) k) D.
Proof. intros Hk s Hs. unfold rbind, read, rlift, gets. by apply Hk. Qed.

Lemma settles_then_ret {A B} (op : Run (ServersModel S) A) (b : B) D :
  settles op D -> settles (do! op in rret b) D.
Proof.
  intros Ho s Hs. unfold rbind. destruct (Ho s Hs) as [->|(a & s' & D' & -> & R)]; [by left|].
  right. by exists b, s', D'.
Qed.

Lemma settles_step {A B} (op : Run (ServersModel S) A) (k : A -> Run (ServersModel S) B) D a D1 :
  mexec op D a D1 -> settles (k a) D1 -> settles (rbind op k) D.
Proof.
  intros Ho Hk s Hs. destruct (Ho s Hs) as (s1 & E1 & Hs1). unfold rbind. rewrite E1. by apply Hk.
Qed.

Lemma objects_insert (l : list QJsonValue) i o :
  Forall (λ v, isObject v = true) l -> Forall (λ v, isObject v = true) (<[i := JObject o]> l).
Proof. intros Hl. by apply Forall_insert. Qed.

Lemma mirrors_edited D i o :
  mirrors D -> 0 <= i < array_size (dl D) ->
  let l := <[Z.to_nat i := JObject o]> (dl D) in
  mirrors (mkDesc (with_servers l (dv D)) l (dd D) (dp D) (dns_on D)).
Proof.
  intros [Hl Hd Ho] Hi l. split; cbn [dv dl dd dp].
  - by rewrite servers_with_servers.
  - by rewrite default_with_servers.
  - by apply objects_insert.
Qed.

(** An index outside the list makes the call fail. *)
Lemma editServer_outside o i D s :
  mirrors D -> described s D -> ~ 0 <= i < array_size (dl D) -> model_editServer o i s = Abort.
Proof.
  intros [Hl _ _] Hs Hi. pose proof Hs as [[ev He] L _ _ _].
  unfold model_editServer, rbind at 1, on_settings.
  destruct (Z.ltb_spec i 0) as [Hneg|Hpos].
  { by rewrite (editServer_negative i o _ _ _ He). }
  assert (array_size (servers_of (dv D)) <= i) as Hge by (rewrite <- Hl; lia).
  destruct (exec_editServer_beyond i o _ Hge _ _ He) as (st & -> & Hst).
  unfold rbind at 1. cbn [settings]. destruct (exec_serversArray _ _ _ Hst) as (st2 & -> & _).
  unfold rbind at 1, replace_server, read, rlift, gets. unfold rbind at 1. cbn [m_servers].
  unfold array_replace. rewrite L. unfold array_size in Hi.
  by replace ((0 <=? i) && (i <? Z.of_nat (length (dl D)))) with false by lia.
Qed.

Lemma settles_edit o i D : mirrors D -> settles (model_editServer o i) D.
Proof.
  intros Hm. destruct (decide (0 <= i < array_size (dl D))) as [Hi|Hi].
  - eapply settles_mexec; [apply mexec_editServer; [apply Hm|done]|by apply mirrors_edited].
  - intros s Hs. left. by eapply editServer_outside.
Qed.

(** ** Removal *)
Definition removed_list (D : Desc) : list QJsonValue :=
  if array_size (dl D) <=? dp D then dl D else array_removeAt (dl D) (dp D).

(** The default server after a removal. *)
Definition removed_default (D : Desc) : Z :=
  if array_size (removed_list D) =? 0 then -1
  else if dd D =? dp D then 0
  else if dp D <? dd D then dd D - 1
  else dd D.

Lemma removeAt_objects l i :
  Forall (λ v, isObject v = true) l -> Forall (λ v, isObject v = true) (array_removeAt l i).
Proof.
  intros Hl. unfold array_removeAt. destruct (i <? 0); [done|].
  apply Forall_app_2; [by apply Forall_take|by apply Forall_drop].
Qed.

(** The default index is adjusted, first for the removal and then for an empty
    list; it is the same number in the model and in the settings all along. *)
Lemma mexec_adjust_default (cond : bool) i D :
  dd D = default_of (dv D) ->
  exists m, mexec (S := S) (if cond then setDefaultServerIndex i else rret tt) D tt
      (mkDesc m (dl D) (if cond then i else dd D) (dp D) (dns_on D)) /\
    default_of m = (if cond then i else dd D) /\ servers_of m = servers_of (dv D).
Proof.
  intros Hd. destruct cond.
  - exists (with_default i (dv D)). split; [apply mexec_setDefaultServerIndex|].
    split; [apply default_with_default|apply servers_with_default].
  - exists (dv D). split; [|done]. destruct D; apply mexec_ret.
Qed.

Lemma mexec_remove D :
  mirrors D ->
  exists m, mexec (S := S) model_removeServer D tt
      (mkDesc m (removed_list D) (removed_default D) (removed_default D) (dns_on D)) /\
    mirrors (mkDesc m (removed_list D) (removed_default D) (removed_default D) (dns_on D)).
Proof.
  intros [Hl Hd Ho].
  assert (exists m1 ev, exec (S := S) (removeServer (dp D)) (dv D) tt m1 ev /\
    servers_of m1 = removed_list D /\ default_of m1 = dd D) as (m1 & ev & E1 & L1 & D1).
  { unfold removed_list. rewrite Hl. destruct (array_size (servers_of (dv D)) <=? dp D) eqn:En.
    - exists (dv D), []. split; [apply exec_removeServer_beyond; lia|done].
    - eexists _, _. split; [apply exec_removeServer; lia|].
      by rewrite servers_with_servers, default_with_servers. }
  set (D1' := mkDesc m1 (removed_list D) (dd D) (dp D) (dns_on D)).
  destruct (mexec_adjust_default (dd D =? dp D) 0 D1') as (ma & Ea & Da & La); [done|].
  destruct (mexec_adjust_default (dp D <? dd D) (dd D - 1) D1') as (mb & Eb & Db & Lb); [done|].
  set (d2 := if dd D =? dp D then 0 else if dp D <? dd D then dd D - 1 else dd D).
  assert (exists m2, mexec (S := S)
      (if dd D =? dp D then setDefaultServerIndex 0
       else if dp D <? dd D then
         let! d := on_settings defaultServerIndex in setDefaultServerIndex (d - 1)
       else rret tt) D1' tt (mkDesc m2 (removed_list D) d2 (dp D) (dns_on D)) /\
    default_of m2 = d2 /\ servers_of m2 = removed_list D) as (m2 & E2 & D2 & L2).
  { unfold d2. destruct (dd D =? dp D).
    - exists ma. split_and!; [exact Ea|exact Da|by rewrite La].
    - exists mb. split_and!; [|exact Db|by rewrite Lb]. destruct (dp D <? dd D); [|exact Eb].
      eapply mexec_bind; [eapply mexec_settings, exec_defaultServerIndex|].
      change (dv D1') with m1. rewrite D1. exact Eb. }
  destruct (mexec_adjust_default (array_size (removed_list D) =? 0) (-1)
    (mkDesc m2 (removed_list D) d2 (dp D) (dns_on D))) as (m3 & E3 & D3 & L3); [done|].
  exists m3. split.
  - unfold model_removeServer. eapply mexec_bind; [apply mexec_read; by intros s []|].
    eapply mexec_bind; [eapply mexec_settings, E1|].
    eapply mexec_bind; [eapply mexec_settings, exec_serversArray|]. cbn [dv dl dd dp dns_on].
    rewrite L1. eapply mexec_bind; [apply mexec_set_servers|]. cbn [dv dl dd dp dns_on].
    eapply mexec_bind; [eapply mexec_settings, exec_defaultServerIndex|]. cbn [dv dl dd dp dns_on].
    rewrite D1. eapply mexec_bind; [exact E2|].
    eapply mexec_bind; [eapply mexec_settings; eapply exec_step; [apply exec_serversArray|apply exec_ret]|].
    cbn [dv dl dd dp dns_on]. rewrite L2. eapply mexec_bind; [exact E3|].
    eapply mexec_bind; [apply mexec_read; by intros s []|].
    eapply mexec_bind; [apply mexec_setProcessedServerIndex|]. apply mexec_quiet, quiet_emit.
  - split; cbn [dv dl dd].
    + by rewrite L3.
    + by rewrite D3.
    + unfold removed_list. destruct (_ <=? _); [done|by apply removeAt_objects].
Qed.
End Mirror.

(** ** Calls on a server that is not there *)
Section Outside.
Context {S : Type} `{KeyValueLaws S} `{JsonDocumentLaws} `{AddressParser}.

(** The call fails or changes nothing. *)
Definition harmless {A} (op : Run (Settings S) A) (m : SettingsView) : Prop :=
  forall s ev, shows s m ev -> op s = Abort \/ exists a s', op s = Ret (a, s') /\ shows s' m ev.

Lemma harmless_exec {A} (op : Run (Settings S) A) m a : exec op m a m [] -> harmless op m.
Proof.
  intros He s ev Hs. destruct (He s ev Hs) as (s' & E & Hs'). rewrite app_nil_r in Hs'.
  right. by exists a, s'.
Qed.

Lemma harmless_bind {A B} (op : Run (Settings S) A) (k : A -> Run (Settings S) B) m :
  harmless op m -> (forall a, harmless (k a) m) -> harmless (rbind op k) m.
Proof.
  intros Ho Hk s ev Hs. unfold rbind. destruct (Ho s ev Hs) as [->|(a & s' & -> & Hs')]; [by left|].
  by apply Hk.
Qed.

Lemma harmless_ret {A} (a : A) m : harmless (rret a) m.
Proof. eapply harmless_exec, exec_ret. Qed.

Lemma harmless_edit i o m : ~ 0 <= i < array_size (servers_of m) -> harmless (editServer i o) m.
Proof.
  intros Hi. destruct (Z.ltb_spec i 0).
  - intros s ev Hs. left. by eapply editServer_negative.
  - eapply harmless_exec, exec_editServer_beyond. lia.
Qed.

Lemma harmless_containerConfig i c m : harmless (containerConfig i c) m.
Proof.
  unfold containerConfig. destruct (bool_decide _); [apply harmless_ret|].
  eapply harmless_exec, exec_step; [apply exec_containers|apply exec_ret].
Qed.

Lemma harmless_clear i c p m :
  ~ 0 <= i < array_size (servers_of m) -> harmless (clear_last_config i c p) m.
Proof.
  intros Hi. unfold clear_last_config, protocolConfig, setProtocolConfig.
  apply harmless_bind; [apply harmless_bind; [apply harmless_containerConfig|intros; apply harmless_ret]|].
  intros cfg. apply harmless_bind; [apply harmless_containerConfig|intros cfg'].
  unfold setContainerConfig. destruct (bool_decide _); [apply harmless_ret|].
  apply harmless_bind; [eapply harmless_exec, exec_containers|intros M]. unfold setContainers.
  apply harmless_bind; [eapply harmless_exec, exec_server|intros o].
  apply harmless_bind; [by apply harmless_edit|intros; apply harmless_ret].
Qed.

Lemma harmless_clear_all i c m :
  ~ 0 <= i < array_size (servers_of m) -> harmless (clearLastConnectionConfig i c Proto.Any) m.
Proof.
  intros Hi. unfold clearLastConnectionConfig. rewrite bool_decide_true by done.
  induction (protocolsForContainer c) as [|p ps IH]; [apply harmless_ret|].
  cbn [run_each]. apply harmless_bind; [by apply harmless_clear|by intros _].
Qed.

Lemma replace_outside i v D (s : ServersModel S) :
  described s D -> ~ 0 <= i < array_size (dl D) -> replace_server i v s = Abort.
Proof.
  intros [_ L _ _ _] Hi. unfold replace_server, rbind, read, rlift, gets.
  unfold array_replace. rewrite L. unfold array_size in Hi.
  by replace ((0 <=? i) && (i <? Z.of_nat (length (dl D)))) with false by lia.
Qed.

Lemma clearCachedProfile_outside c D (s : ServersModel S) :
  mirrors D -> described s D -> ~ 0 <= dp D < array_size (dl D) -> clearCachedProfile c s = Abort.
Proof.
  intros [Hl _ _] Hs Hi. pose proof Hs as [[ev He] L Dd P B].
  unfold clearCachedProfile. unfold rbind at 1. unfold read, rlift, gets. rewrite P.
  unfold rbind at 1, on_settings at 1.
  destruct (harmless_clear_all (dp D) c (dv D) ltac:(by rewrite <- Hl) _ _ He)
    as [->|(a & st & -> & He')]; [done|].
  unfold rbind at 1, on_settings at 1. cbn [settings].
  destruct (exec_server (dp D) (dv D) _ _ He') as (st2 & -> & He2).
  unfold rbind at 1. rewrite (replace_outside _ _ D); [done| |done].
  split; cbn; try done. by eexists.
Qed.
End Outside.

Section Remaining.
Context {S : Type} `{KeyValueLaws S} `{JsonDocumentLaws} `{AddressParser}.

Lemma insert_same_object (l : list QJsonValue) i :
  0 <= i < array_size l -> Forall (λ v, isObject v = true) l ->
  <[Z.to_nat i := JObject (toObject (array_at l i))]> l = l.
Proof.
  unfold array_size. intros Hi Ho. apply list_insert_id. unfold array_at.
  replace (i <? 0) with false by lia.
  destruct (lookup_lt_is_Some_2 l (Z.to_nat i)) as [v Ev]; [lia|]. rewrite Ev. simpl.
  rewrite list.Forall_forall in Ho. specialize (Ho v (list_elem_of_lookup_2 _ _ _ Ev)).
  by destruct v.
Qed.

Lemma settles_clearCachedProfile c D : mirrors D -> settles (S := S) (clearCachedProfile c) D.
Proof.
  intros Hm. destruct (decide (0 <= dp D < array_size (dl D))) as [Hi|Hi].
  2: { intros s Hs. left. by eapply clearCachedProfile_outside. }
  destruct Hm as [Hl Hd Ho].
  assert (exists m', exec (S := S) (clearLastConnectionConfig (dp D) c Proto.Any) (dv D) tt m' [] /\
    servers_of m' = <[Z.to_nat (dp D) := JObject (server_at m' (dp D))]> (dl D) /\
    default_of m' = dd D) as (m' & E & L & Df).
  { destruct (decide (c = DockerContainer.None)) as [->|Hc].
    - exists (dv D). split_and!; [apply exec_ret| |done].
      unfold server_at. rewrite <- Hl. by rewrite insert_same_object.
    - unfold clearLastConnectionConfig. rewrite bool_decide_true by done.
      destruct (exec_clear_protocols (S := S) (dp D) c (protocolsForContainer c) (dv D))
        as (m' & E & C & _); [by rewrite <- Hl|done|by destruct c|].
      exists m'. split_and!; [exact E| |].
      + rewrite Hl. apply (changed_list _ _ _ _ _ C).
      + rewrite Hd. unfold default_of. by rewrite (changed_settings _ _ _ _ _ C). }
  unfold clearCachedProfile. eapply settles_step; [apply mexec_read; by intros s []|].
  eapply settles_step; [eapply mexec_settings, E|].
  eapply settles_step; [eapply mexec_settings, exec_server|]. cbn [dv dl dd dp dns_on].
  eapply settles_step; [by apply mexec_replace_server|]. cbn [stored_item dv dl dd dp dns_on].
  eapply settles_mexec.
  - apply mexec_quiet. apply quiet_bind; [apply quiet_read|intros d].
    apply quiet_bind; [destruct (dp D =? d); [apply quiet_default_containers|apply quiet_ret]|intros _].
    apply quiet_containers.
  - split; cbn [dv dl dd]; [by rewrite L|done|by apply objects_insert].
Qed.

Lemma exec_emit_all {A} (l : list A) m :
  exists ev, exec (S := S) (run_each l (λ _, emit_event (serverRemoved 0))) m tt m ev.
Proof.
  induction l as [|x l [ev IH]]; [exists []; apply exec_ret|]. eexists. cbn [run_each].
  eapply exec_bind; [apply exec_emit|exact IH].
Qed.

Lemma settles_clearServers D : mirrors D -> settles (S := S) clearServers D.
Proof.
  intros _. destruct (exec_emit_all (servers_of (dv D)) (with_servers [] (dv D))) as [ev Ee].
  unfold clearServers. eapply settles_step.
  { eapply mexec_settings. unfold removeAllServers.
    eapply exec_step; [apply exec_serversArray|]. eapply exec_step; [apply exec_setServersArray|exact Ee]. }
  eapply settles_step; [eapply mexec_settings, exec_serversArray|]. cbn [dv dl dd dp dns_on].
  rewrite servers_with_servers. eapply settles_step; [apply mexec_set_servers|].
  eapply settles_step; [apply mexec_setDefaultServerIndex|]. cbn [dv dl dd dp dns_on].
  eapply settles_step; [apply mexec_read; by intros s []|].
  eapply settles_step; [apply mexec_setProcessedServerIndex|]. cbn [dv dl dd dp dns_on].
  eapply settles_mexec; [apply mexec_quiet, quiet_emit|]. split; cbn [dv dl dd]; [| |constructor].
  - by rewrite servers_with_default, servers_with_servers.
  - by rewrite default_with_default.
Qed.

Lemma settles_setData row name role D : mirrors D -> settles (S := S) (setData row name role) D.
Proof.
  intros Hm. unfold setData.
  eapply (settles_step _ _ _ ((0 <=? row) && (row <? array_size (dl D)))).
  { apply mexec_read. intros s []. unfold in_model, getServersCount. by rewrite described_servers0. }
  destruct ((0 <=? row) && (row <? array_size (dl D))) eqn:Hi; cbn [negb].
  2: { eapply settles_mexec; [apply mexec_ret|done]. }
  assert (0 <= row < array_size (dl D)) as Hr by lia.
  destruct role; try (eapply settles_mexec; [apply mexec_ret|done]).
  eapply (settles_step _ _ _ (toObject (array_at (dl D) row))).
  { apply mexec_read. intros s []. unfold model_server. by rewrite described_servers0. }
  destruct Hm as [Hl Hd Ho].
  match goal with |- context [jinsert ?k (JString name) ?o] => set (o' := jinsert k (JString name) o) end.
  eapply settles_step; [eapply mexec_settings, exec_editServer; by rewrite <- Hl|].
  eapply settles_step; [by apply mexec_replace_server|]. cbn [stored_item dv dl dd dp dns_on].
  eapply settles_step; [apply mexec_read; by intros s []|].
  eapply settles_step.
  { apply mexec_quiet. destruct (row =? _); [apply quiet_emit|apply quiet_ret]. }
  eapply settles_step; [apply mexec_quiet, quiet_emit|].
  eapply settles_mexec; [apply mexec_ret|]. split; cbn [dv dl dd].
  - by rewrite servers_with_servers, Hl.
  - by rewrite default_with_servers.
  - by apply objects_insert.
Qed.
End Remaining.

(** The calls of the user interface that change the model. *)
Inductive model_call {S} `{KeyValueStore S} `{JsonDocument} :
    forall {A}, Run (ServersModel S) A -> Prop :=
| call_reset : model_call resetModel
| call_setDefault i : model_call (setDefaultServerIndex i)
| call_setProcessed i : model_call (setProcessedServerIndex i)
| call_setData row name role : model_call (setData row name role)
| call_add o : model_call (model_addServer o)
| call_edit o i : model_call (model_editServer o i)
| call_remove : model_call model_removeServer
| call_clear : model_call clearServers
| call_reload : model_call reloadDefaultServerContainerConfig
| call_update c cfg : model_call (updateContainerConfig c cfg)
| call_addContainer pl c cfg : model_call (addContainerConfig pl c cfg)
| call_defaultContainer i c : model_call (model_setDefaultContainer i c)
| call_removeAll e : model_call (model_removeAllContainers e)
| call_removeContainer e c : model_call (model_removeContainer e c)
| call_clearProfile c : model_call (clearCachedProfile c)
| call_toggleDns b : model_call (toggleAmneziaDns b)
| call_expired t f i : model_call (isApiKeyExpired t f i)
| call_removeApi i : model_call (removeApiConfig i).

Section Calls2.
Context {S : Type} `{KeyValueLaws S} `{JsonDocumentLaws} `{AddressParser}.

Lemma settles_reload D : mirrors D -> settles (S := S) reloadDefaultServerContainerConfig D.
Proof.
  intros Hm. unfold reloadDefaultServerContainerConfig.
  apply settles_read. intros d. apply settles_read. intros o.
  assert (forall c, exists cfg, exec (S := S) (containerConfig d c) (dv D) cfg (dv D) []) as Hc.
  { intros c. unfold containerConfig. destruct (bool_decide _); [exists []; apply exec_ret|].
    eexists. eapply exec_step; [apply exec_containers|apply exec_ret]. }
  destruct (Hc (containerFromString (toString (value "defaultContainer" o)))) as [cfg E].
  eapply settles_step; [eapply mexec_settings, E|]. destruct D. by apply settles_edit.
Qed.

Lemma settles_call {A} (op : Run (ServersModel S) A) D : model_call op -> mirrors D -> settles op D.
Proof.
  intros Hc Hm. pose proof Hm as [Hl Hd Ho].
  destruct Hc; try (apply settles_read; intros ?; apply settles_read; intros ?; by apply settles_edit).
  - eapply settles_mexec; [apply mexec_resetModel|]. split; cbn [dv dl dd]; [done|done|by rewrite <- Hl].
  - eapply settles_mexec; [apply mexec_setDefaultServerIndex|]. split; cbn [dv dl dd].
    + by rewrite servers_with_default.
    + by rewrite default_with_default.
    + done.
  - eapply settles_mexec; [apply mexec_setProcessedServerIndex|]. by split.
  - by apply settles_setData.
  - eapply settles_mexec; [apply mexec_addServer|]. split; cbn [dv dl dd].
    + by rewrite servers_with_servers.
    + by rewrite default_with_servers.
    + rewrite <- Hl. apply Forall_app_2; [done|by repeat constructor].
  - by apply settles_edit.
  - destruct (mexec_remove D Hm) as (m & E & M). by eapply settles_mexec.
  - by apply settles_clearServers.
  - by apply settles_reload.
  - apply settles_read. intros o. by apply settles_edit.
  - unfold model_removeAllContainers. destruct (e =? 0); [|eapply settles_mexec; [apply mexec_ret|done]].
    do 2 (apply settles_read; intros ?). by apply settles_then_ret, settles_edit.
  - unfold model_removeContainer. destruct (e =? 0); [|eapply settles_mexec; [apply mexec_ret|done]].
    do 2 (apply settles_read; intros ?). by apply settles_then_ret, settles_edit.
  - by apply settles_clearCachedProfile.
  - eapply settles_step; [apply mexec_set_dns|].
    eapply settles_mexec; [apply mexec_quiet, quiet_emit|by split].
  - apply settles_read. intros o. cbv zeta.
    match goal with |- settles (if ?b then _ else _) _ => destruct b end;
      [|eapply settles_mexec; [apply mexec_ret|done]].
    by apply settles_then_ret, settles_edit.
Qed.

(** ** Properties *)

(** C17. What the user sees is what is stored: from a state whose list and
    default server are those of the settings, every call that changes the model
    fails or ends in such a state again, and none runs for ever. *)
Theorem servers_mirrored {A} (op : Run (ServersModel S) A) (D : Desc) (s : ServersModel S) :
  model_call op -> mirrors D -> described s D ->
  op s = Abort \/ exists a s' D', op s = Ret (a, s') /\ described s' D' /\ mirrors D'.
Proof. intros Hc Hm. exact (settles_call op D Hc Hm s). Qed.

Lemma array_at_removed l p d :
  0 <= p < array_size l -> 0 <= d < array_size l -> d <> p ->
  array_at (array_removeAt l p) (if p <? d then d - 1 else d) = array_at l d.
Proof.
  unfold array_size. intros Hp Hd Hne. unfold array_removeAt. replace (p <? 0) with false by lia.
  unfold array_at. destruct (Z.ltb_spec p d).
  - replace (d - 1 <? 0) with false by lia. replace (d <? 0) with false by lia.
    rewrite lookup_app_r by (rewrite length_take; lia). rewrite length_take, lookup_drop.
    do 2 f_equal. lia.
  - replace (d <? 0) with false by lia. rewrite lookup_app_l by (rewrite length_take; lia).
    by rewrite lookup_take_lt by lia.
Qed.

(** Removing the server being edited leaves the others: the list loses
    that entry, the default server is the one it was (whatever its new place),
    the first of the list when the default was removed, and none when the list
    is empty; the default server becomes the one being edited. *)
Theorem removal_keeps_default (D : Desc) (s : ServersModel S) :
  mirrors D -> described s D -> 0 <= dp D < array_size (dl D) ->
  exists s', model_removeServer s = Ret (tt, s') /\
    m_servers s' = array_removeAt (dl D) (dp D) /\
    m_processedServerIndex s' = m_defaultServerIndex s' /\
    (0 <= dd D < array_size (dl D) -> dd D <> dp D ->
       array_at (m_servers s') (m_defaultServerIndex s') = array_at (dl D) (dd D)) /\
    (dd D = dp D -> 1 < array_size (dl D) -> m_defaultServerIndex s' = 0) /\
    (array_size (dl D) = 1 -> m_defaultServerIndex s' = -1).
Proof.
  intros Hm Hs Hp. destruct (mexec_remove D Hm) as (m & E & _).
  destruct (E s Hs) as (s' & R & [_ L Df P _]). cbn [dl dd dp] in *.
  assert (removed_list D = array_removeAt (dl D) (dp D)) as Er.
  { unfold removed_list. by replace (array_size (dl D) <=? dp D) with false by lia. }
  assert (array_size (removed_list D) = array_size (dl D) - 1) as Es.
  { rewrite Er. unfold array_removeAt, array_size in *. replace (dp D <? 0) with false by lia.
    rewrite length_app, length_take, length_drop. lia. }
  exists s'. split_and!; [exact R|by rewrite L|by rewrite P, Df| | |].
  - intros Hd Hne. rewrite L, Df, Er. unfold removed_default. rewrite Es.
    replace (array_size (dl D) - 1 =? 0) with false by lia.
    replace (dd D =? dp D) with false by lia. by apply array_at_removed.
  - intros Hd Hn. rewrite Df. unfold removed_default. rewrite Es.
    replace (array_size (dl D) - 1 =? 0) with false by lia. by replace (dd D =? dp D) with true by lia.
  - intros Hn. rewrite Df. unfold removed_default. rewrite Es.
    by replace (array_size (dl D) - 1 =? 0) with true by lia.
Qed.
End Calls2.

(** ** Witnesses *)
#[local] Existing Instances windows_store windows_store_laws sample_json sample_json_laws.

Definition sample_servers : list QJsonValue := [JObject [("a", JNull)]; JObject [("b", JNull)]].
Definition sample_settings : Settings SampleStore :=
  mkSettings (mkSecure [("Servers/serversList", VByteArray (toJson (JArray sample_servers)))] []
                [(settingsIvTag, "iv"); (settingsKeyTag, "key")]) gatewayEndpoint false [].
Definition sample_model : ServersModel SampleStore :=
  mkModel sample_servers 0 1 true sample_settings [].
Definition sample_desc : Desc :=
  mkDesc (with_servers sample_servers (λ _, None)) sample_servers 0 1 true.

Lemma sample_described : described sample_model sample_desc /\ mirrors sample_desc.
Proof.
  split; [split; [|done..]|split].
  - exists []. split; [|cbn [dv sample_desc]|done]; [split; [done|left; by split]|].
    intros k. unfold with_servers, upd.
    change (@view _ sample_keychain sample_keychain_laws sample_cipher (store sample_settings) k =
      if String.eqb k "Servers/serversList"
      then Some (VByteArray (toJson (JArray sample_servers))) else None).
    unfold view. cbn [m_settings store sample_settings qm_find].
    destruct (String.eqb_spec k "Servers/serversList") as [->|Hne].
    + rewrite key_cmp_refl. cbn [fmap option_fmap option_map decode].
      by rewrite (bracket_plain _ (document_array sample_servers)).
    + pose proof (key_cmp_neq _ _ Hne). by destruct (key_cmp k "Servers/serversList").
  - cbn [dl dv sample_desc]. by rewrite servers_with_servers.
  - cbn [dd dv sample_desc]. by rewrite default_with_servers.
  - by repeat constructor.
Qed.

Lemma servers_mirrored_witness :
  model_editServer [] 1 sample_model = Abort \/
  exists a s' D', model_editServer [] 1 sample_model = Ret (a, s') /\ described s' D' /\ mirrors D'.
Proof.
  exact (servers_mirrored (model_editServer [] 1) sample_desc sample_model (call_edit [] 1)
    (proj2 sample_described) (proj1 sample_described)).
Defined.

Lemma removal_keeps_default_witness :
  exists s', model_removeServer sample_model = Ret (tt, s') /\
    array_at (m_servers s') (m_defaultServerIndex s') = JObject [("a", JNull)].
Proof.
  destruct (removal_keeps_default sample_desc sample_model (proj2 sample_described)
    (proj1 sample_described)) as (s' & R & _ & _ & K & _); [done|].
  exists s'. split; [exact R|]. clear R. apply K; [split; [apply Z.le_refl|reflexivity]|discriminate].
Defined.
