(* ===== verification/VpnProtocol.v ===== *)
(** * A VPN protocol as the client sees it

    Model of the base class [VpnProtocol] (client/protocols/vpnprotocol.cpp): the
    connection state with the signals it emits and the byte counters, and of
    [WireguardProtocol] (client/protocols/wireguardprotocol.cpp), which runs the
    tunnel through the controller of the local socket. *)
From Stdlib Require Import ZArith Lia Ascii String Sorting.Sorted.
From stdpp Require Import base list strings relations.
From S2P Require Import Prelude QtString QtContainers Protocols Containers HostAddress IpAddress.
From S2P Require Import NetworkUtilities.
Local Open Scope string_scope.
Local Open Scope Z_scope.

Module Vpn.
Inductive ConnectionState :=
  Unknown | Disconnected | Preparing | Connecting | Connected | Disconnecting | Reconnecting | Error.
End Vpn.

#[export] Instance ConnectionState_eq_dec : EqDecision Vpn.ConnectionState.
Proof. solve_decision. Defined.

Inductive ProtocolSignal :=
| bytesChanged (received sent : Z)
| connectionStateChanged (state : Vpn.ConnectionState)
| timeoutTimerEvent
(* the virtual [stop], which each protocol implements *)
| stop_called.

Record VpnProtocol := mkProtocol {
  m_connectionState : Vpn.ConnectionState;
  m_lastError : Z;                 (* 0 is NoError *)
  m_receivedBytes : Z;
  m_sentBytes : Z;
  m_timeoutTimer : bool;
  m_vpnGateway : string;
  m_routeGateway : string;
  m_rawConfig : QJsonObject;
  emitted : list ProtocolSignal
}.

Abbreviation ProtocolM A := (StateM VpnProtocol A).

(** The constructor; the field of the last error is not initialised. *)
Definition VpnProtocol_new (configuration : QJsonObject) (garbage : Z) : VpnProtocol :=
  mkProtocol Vpn.Unknown garbage 0 0 false "" "" configuration [].

Definition emit_signal (e : ProtocolSignal) : ProtocolM unit :=
  modify (λ p, mkProtocol (m_connectionState p) (m_lastError p) (m_receivedBytes p) (m_sentBytes p)
                 (m_timeoutTimer p) (m_vpnGateway p) (m_routeGateway p) (m_rawConfig p)
                 (app (emitted p) [e])).
Definition set_state (st : Vpn.ConnectionState) : ProtocolM unit :=
  modify (λ p, mkProtocol st (m_lastError p) (m_receivedBytes p) (m_sentBytes p)
                 (m_timeoutTimer p) (m_vpnGateway p) (m_routeGateway p) (m_rawConfig p) (emitted p)).
Definition set_bytes (received sent : Z) : ProtocolM unit :=
  modify (λ p, mkProtocol (m_connectionState p) (m_lastError p) received sent
                 (m_timeoutTimer p) (m_vpnGateway p) (m_routeGateway p) (m_rawConfig p) (emitted p)).
Definition set_error (e : Z) : ProtocolM unit :=
  modify (λ p, mkProtocol (m_connectionState p) e (m_receivedBytes p) (m_sentBytes p)
                 (m_timeoutTimer p) (m_vpnGateway p) (m_routeGateway p) (m_rawConfig p) (emitted p)).
Definition set_timer (on : bool) : ProtocolM unit :=
  modify (λ p, mkProtocol (m_connectionState p) (m_lastError p) (m_receivedBytes p) (m_sentBytes p)
                 on (m_vpnGateway p) (m_routeGateway p) (m_rawConfig p) (emitted p)).
Definition set_config (c : QJsonObject) : ProtocolM unit :=
  modify (λ p, mkProtocol (m_connectionState p) (m_lastError p) (m_receivedBytes p) (m_sentBytes p)
                 (m_timeoutTimer p) (m_vpnGateway p) (m_routeGateway p) c (emitted p)).

(** ** Operations *)
Definition setConnectionState (state : Vpn.ConnectionState) : ProtocolM unit :=
  current <- gets m_connectionState ;;
  if bool_decide (current = state) then sret tt
  else if bool_decide (current = Vpn.Disconnected) && bool_decide (state = Vpn.Disconnecting)
  then sret tt
  else
    set_state state ;;
    (if bool_decide (state = Vpn.Disconnected) then set_bytes 0 0 else sret tt) ;;
    emit_signal (connectionStateChanged state).

Definition setLastError (lastError : Z) : ProtocolM unit :=
  set_error lastError ;;
  if negb (lastError =? 0) then setConnectionState Vpn.Error else sret tt.

(** Differences of unsigned 64-bit counters. *)
Definition setBytesChanged (receivedBytes sentBytes : Z) : ProtocolM unit :=
  r <- gets m_receivedBytes ;;
  s <- gets m_sentBytes ;;
  emit_signal (bytesChanged (u64 (receivedBytes - r)) (u64 (sentBytes - s))) ;;
  set_bytes receivedBytes sentBytes.

Definition startTimeoutTimer : ProtocolM unit := set_timer true.
Definition stopTimeoutTimer : ProtocolM unit := set_timer false.

(** The single-shot timer has fired. *)
Definition onTimeout : ProtocolM unit :=
  set_timer false ;;
  emit_signal timeoutTimerEvent ;;
  emit_signal stop_called.

Definition isConnected (p : VpnProtocol) : bool := bool_decide (m_connectionState p = Vpn.Connected).
Definition isDisconnected (p : VpnProtocol) : bool :=
  bool_decide (m_connectionState p = Vpn.Disconnected).

(** ** WireGuard *)

(** The controller's signals are passed on as they come; the state of the
    protocol object is not touched. *)
Definition wg_connected : ProtocolM unit := emit_signal (connectionStateChanged Vpn.Connected).
Definition wg_disconnected : ProtocolM unit := emit_signal (connectionStateChanged Vpn.Disconnected).

(** [m_rawConfig] with resolved host names, which [activate] of the controller
    is called with. *)
Definition startMzImpl `{AddressParser} (lookup : string -> list string) : ProtocolM QJsonObject :=
  raw <- gets m_rawConfig ;;
  let protocolName := toString (value "protocol" raw) in
  let vpnConfigData := toObject (value (protocolName +:+ "_config_data") raw) in
  let vpnConfigData := jinsert "hostName"
        (JString (getIPAddress lookup (toString (value "hostName" vpnConfigData)))) vpnConfigData in
  let raw := jinsert (protocolName +:+ "_config_data") (JObject vpnConfigData) raw in
  let raw := jinsert "hostName" (JString (getIPAddress lookup (toString (value "hostName" raw)))) raw in
  set_config raw ;;
  sret raw.

(** ** Sequences of events *)
Inductive protocol_step : VpnProtocol -> VpnProtocol -> Prop :=
| step_state st p : protocol_step p (setConnectionState st p).2
| step_error e p : protocol_step p (setLastError e p).2
| step_bytes r s p : protocol_step p (setBytesChanged r s p).2
| step_start p : protocol_step p (startTimeoutTimer p).2
| step_stop p : protocol_step p (stopTimeoutTimer p).2
| step_timeout p : protocol_step p (onTimeout p).2.

Definition states_of (l : list ProtocolSignal) : list Vpn.ConnectionState :=
  omap (λ e, match e with connectionStateChanged st => Some st | _ => None end) l.

(** ** Lemmas *)

(** The state is the last one signalled, no state is signalled twice in a row,
    and [Disconnected] is not followed by [Disconnecting]. *)
Definition allowed_next (a b : Vpn.ConnectionState) : Prop :=
  a <> b /\ (a = Vpn.Disconnected -> b <> Vpn.Disconnecting).

Fixpoint chain (a : Vpn.ConnectionState) (l : list Vpn.ConnectionState) : Prop :=
  match l with
  | [] => True
  | b :: l' => allowed_next a b /\ chain b l'
  end.

Lemma chain_snoc a l b : chain a (app l [b]) <-> chain a l /\ allowed_next (List.last l a) b.
Proof.
  revert a. induction l as [|c l IH]; intros a; simpl.
  - tauto.
  - rewrite IH. assert (List.last (c :: l) a = List.last l c) as E.
    { clear. revert a c. induction l as [|d l IH]; intros a c; [done|].
      change (List.last (c :: d :: l) a) with (List.last (d :: l) a). rewrite IH.
      change (List.last (d :: l) c) with (List.last (d :: l) c). by rewrite IH. }
    simpl in E. rewrite <- E. tauto.
Qed.

Definition signalled (p : VpnProtocol) : Prop :=
  chain Vpn.Unknown (states_of (emitted p)) /\
  m_connectionState p = List.last (states_of (emitted p)) Vpn.Unknown.

Lemma states_of_app a b : states_of (app a b) = app (states_of a) (states_of b).
Proof. unfold states_of. apply omap_app. Qed.

Lemma signalled_state st p : signalled p -> signalled (setConnectionState st p).2.
Proof.
  intros [Hc Hs]. unfold setConnectionState. rewrite gets_bind.
  case_bool_decide as E1; [done|]. destruct (bool_decide (m_connectionState p = Vpn.Disconnected) &&
    bool_decide (st = Vpn.Disconnecting)) eqn:E2; [done|].
  assert (allowed_next (m_connectionState p) st) as Ha.
  { split; [done|]. intros Ed Es. by rewrite Ed, Es in E2. }
  destruct (bool_decide (st = Vpn.Disconnected)); split; cbn; rewrite states_of_app; cbn;
    rewrite ?chain_snoc, ?last_last, <- ?Hs; done.
Qed.

Lemma signalled_same p p' :
  states_of (emitted p') = states_of (emitted p) -> m_connectionState p' = m_connectionState p ->
  signalled p -> signalled p'.
Proof. intros E1 E2 [Hc Hs]. split; by rewrite E1, ?E2. Qed.

Lemma signalled_step p p' : protocol_step p p' -> signalled p -> signalled p'.
Proof.
  intros Hp Hs. destruct Hp.
  - by apply signalled_state.
  - unfold setLastError. rewrite sbind_run. destruct (negb (e =? 0)); [|by eapply signalled_same].
    apply signalled_state. by eapply signalled_same.
  - eapply signalled_same; [| |done]; [|done]. cbn. rewrite states_of_app. apply app_nil_r.
  - by eapply signalled_same.
  - by eapply signalled_same.
  - eapply signalled_same; [| |done]; [|done]. cbn. rewrite !states_of_app, !app_nil_r. done.
Qed.

(** ** Properties *)

(** The connection states a protocol reports make sense: in any run of a
    protocol object no state is reported twice in a row and a disconnected
    protocol never reports that it is disconnecting, and what [connectionState]
    answers is the state reported last. *)
Theorem reported_states_alternate (configuration : QJsonObject) (garbage : Z) (p : VpnProtocol) :
  rtc protocol_step (VpnProtocol_new configuration garbage) p ->
  chain Vpn.Unknown (states_of (emitted p)) /\
  m_connectionState p = List.last (states_of (emitted p)) Vpn.Unknown.
Proof.
  intros Hr. assert (signalled (VpnProtocol_new configuration garbage)) as H0 by done.
  induction Hr as [|p p1 p2 Hp _ IH]; [exact H0|]. apply IH. by eapply signalled_step.
Qed.

Lemma reported_states_alternate_witness :
  let p := (setConnectionState Vpn.Disconnecting
              (setConnectionState Vpn.Disconnected (VpnProtocol_new [] 0)).2).2 in
  states_of (emitted p) = [Vpn.Disconnected] /\
  m_connectionState p = List.last (states_of (emitted p)) Vpn.Unknown.
Proof.
  split; [reflexivity|]. apply (reported_states_alternate [] 0).
  eapply rtc_l; [constructor|]. eapply rtc_l; [constructor|]. constructor.
Defined.

(** The counters the differences are taken from, in the order of the calls. *)
Fixpoint report_bytes (l : list (Z * Z)) : ProtocolM unit :=
  match l with
  | [] => sret tt
  | (r, s) :: l' => setBytesChanged r s ;; report_bytes l'
  end.

Definition received_of (l : list ProtocolSignal) : list Z :=
  omap (λ e, match e with bytesChanged r _ => Some r | _ => None end) l.

(** The traffic shown adds up: for counters of 64 bits that do not go
    backwards, the differences reported since the last one add up to how far the
    counter has come, whatever the number of reports. *)
Theorem byte_reports_add_up (l : list (Z * Z)) (p : VpnProtocol) :
  0 <= m_receivedBytes p < 2 ^ 64 ->
  StronglySorted (λ a b, a.1 <= b.1) ((m_receivedBytes p, 0) :: l) ->
  Forall (λ e, 0 <= e.1 < 2 ^ 64) l ->
  exists diffs, received_of (emitted (report_bytes l p).2) = app (received_of (emitted p)) diffs /\
    foldr Z.add 0 diffs = m_receivedBytes (report_bytes l p).2 - m_receivedBytes p.
Proof.
  revert p. induction l as [|[r s] l IH]; intros p H0 Hs Hr.
  { exists []. split; [by rewrite app_nil_r|]. simpl. lia. }
  inversion Hs as [|? ? Hl Hf]; subst. apply list.Forall_cons in Hr as [Hr Hrs].
  apply list.Forall_cons in Hf as [Hle _]. simpl in Hle, Hr.
  cbn [report_bytes]. rewrite sbind_run.
  destruct (IH (setBytesChanged r s p).2) as (diffs & E & T); [done| |done|].
  { inversion Hl; subst. cbn. by constructor. }
  exists (u64 (r - m_receivedBytes p) :: diffs). split.
  - rewrite E. cbn. unfold received_of at 1. rewrite omap_app. cbn.
    by rewrite <- app_assoc.
  - simpl foldr. rewrite T. cbn [setBytesChanged]. change (m_receivedBytes (setBytesChanged r s p).2) with r.
    unfold u64. rewrite Z.mod_small by lia. lia.
Qed.

Lemma byte_reports_add_up_witness :
  exists diffs, received_of (emitted (report_bytes [(5, 1); (5, 2); (9, 2)] (VpnProtocol_new [] 0)).2) = diffs /\
    foldr Z.add 0 diffs = 9.
Proof.
  destruct (byte_reports_add_up [(5, 1); (5, 2); (9, 2)] (VpnProtocol_new [] 0)) as (diffs & E & T);
    [done|repeat constructor; simpl; lia|repeat constructor; simpl; lia|].
  exists diffs. split; [exact E|exact T].
Defined.
