(* ===== verification/VpnConnection.v ===== *)
(** * The connection

    Model of [VpnConnection] (client/vpnconnection.cpp) on the desktop
    platforms: the configuration handed to the protocol, completed with the kill
    switch and the split tunnelling of the settings, and the calls of the
    service as the protocol reports its states. *)
From Stdlib Require Import ZArith QArith Lia Ascii String.
From stdpp Require Import base list strings.
From S2P Require Import Prelude QtString QtContainers Variant Protocols Containers SecureSettings.
From S2P Require Import HostAddress IpAddress NetworkUtilities InterfaceConfig Settings VpnProtocol.
Local Open Scope string_scope.
Local Open Scope Z_scope.

(** ** The configuration of the tunnel *)

(** The value behind the equals sign in the first line that contains the key.
    The code takes the second part without looking whether there is one. *)
Definition native_value (key nativeConfig : string) : Outcome (option string) :=
  match List.find (λ line, contains_str line key) (split nl nativeConfig) with
  | None => Ret None
  | Some line =>
      match split " = " line with
      | _ :: v :: _ => Ret (Some v)
      | _ => Abort
      end
  end.

Definition string_array (l : list string) : QJsonValue := JArray (map JString l).

Definition array_contains (l : list QJsonValue) (s : string) : bool :=
  existsb (λ v, json_eqb v (JString s)) l.

(** The block for old native and old self-hosted configurations: the completed
    configuration and the data of its protocol. *)
Definition complete_config_data (protocolName : string) (config : QJsonObject) :
    Outcome (QJsonObject * QJsonObject) :=
  let key := protocolName +:+ "_config_data" in
  let configData := toObject (value key config) in
  let store config configData := jinsert key (JObject configData) config in
  '(config, configData) ←
    match value "allowed_ips" configData with
    | JString s =>
        let configData := jinsert "allowed_ips" (string_array (split ", " s)) configData in
        Ret (store config configData, configData)
    | JUndefined =>
        v ← native_value "AllowedIPs" (toString (value "config" configData));
        Ret (match v with
             | Some s =>
                 let configData := jinsert "allowed_ips" (string_array (split ", " s)) configData in
                 (store config configData, configData)
             | None => (config, configData)
             end)
    | _ => Ret (config, configData)
    end;
  if isUndefined (value "persistent_keep_alive" configData) then
    v ← native_value "PersistentKeepalive" (toString (value "config" configData));
    Ret (match v with
         | Some s =>
             let configData := jinsert "persistent_keep_alive" (JString s) configData in
             (store config configData, configData)
         | None => (config, configData)
         end)
  else Ret (config, configData).

Definition takes_config_data (protocolName : string) : bool :=
  String.eqb protocolName (protoToString Proto.Awg) ||
  String.eqb protocolName (protoToString Proto.WireGuard).

Definition has_default_routes (allowedIps : list QJsonValue) : bool :=
  array_contains allowedIps "0.0.0.0/0" && array_contains allowedIps "::/0".

(** The completed configuration and whether sites may be tunnelled apart. *)
Definition site_based (config : QJsonObject) : Outcome (QJsonObject * bool) :=
  let protocolName := toString (value "protocol" config) in
  if takes_config_data protocolName then
    '(config, configData) ← complete_config_data protocolName config;
    Ret (config, has_default_routes (toArray (value "allowed_ips" configData)))
  else Ret (config, true).

Section Configuration.
Context {S : Type} `{KeyValueStore S} `{JsonDocument} `{AddressParser}.
Context (text : QVariant -> string).

(** [QVariant(bool).toString()] *)
Definition appendKillSwitchConfig (config : QJsonObject) : Run (Settings S) QJsonObject :=
  let! enabled := isKillSwitchEnabled in
  rret (jinsert "killSwitchOption" (JString (var_toString (VBool enabled))) config).

Definition tunnel_sites (allow : bool) (config : QJsonObject) (mode : RouteMode) :
    Run (Settings S) (list QJsonValue) :=
  if allow then
    let! sites := getVpnIps mode in
    rret (app (map JString sites)
            (if bool_decide (mode = VpnOnlyForwardSites)
             then [JString (toString (value "dns1" config)); JString (toString (value "dns2" config))]
             else []))
  else rret [].

Definition app_id (a : InstalledAppInfo) : string :=
  if String.eqb (appPath a) "" then packageName a else appPath a.

Definition appendSplitTunnelingConfig (config : QJsonObject) : Run (Settings S) QJsonObject :=
  let! completed := rguard (site_based config) in
  let '(config, allow) := completed in
  let! sitesEnabled := isSitesSplitTunnelingEnabled in
  let! sites :=
    (if (sitesEnabled : bool) then
       let! mode := routeMode in
       let! l := tunnel_sites allow config mode in rret (mode, l)
     else rret (VpnAllSites, [])) in
  let config := jinsert "splitTunnelType" (JInt (route_mode_int sites.1)) config in
  let config := jinsert "splitTunnelSites" (JArray sites.2) config in
  let! appsEnabled := isAppsSplitTunnelingEnabled in
  let! apps :=
    (if (appsEnabled : bool) then
       let! mode := getAppsRouteMode in
       let! l := getVpnApps text mode in rret (mode, map (λ a, JString (app_id a)) l)
     else rret (VpnAllApps, [])) in
  let config := jinsert "appSplitTunnelType" (JInt (apps_mode_int apps.1)) config in
  rret (jinsert "splitTunnelApps" (JArray apps.2) config).
End Configuration.

(** ** The connection *)
Inductive ConnectionEvent :=
(* calls of the service *)
| ipc_resetIpStack
| ipc_flushDns
| ipc_routeAddList (gw : string) (ips : list string)
| ipc_routeDeleteList (gw : string) (ips : list string)
| ipc_clearSavedRoutes
(* signals *)
| connection_state (state : Vpn.ConnectionState)
| connection_bytes (received sent : Z)
(* calls of the protocol; the last is its destruction *)
| protocol_prepare
| protocol_start
| protocol_stop
| protocol_deleted
(* the timer of a second behind which the routes of the sites are added *)
| sites_timer_started
(* a query of the resolver, with what its callback has captured *)
| lookup_started (site gw : string) (mode : RouteMode) (ips : list string).

Record VpnConnection (S : Type) := mkConnection {
  conn_settings : Settings S;
  m_vpnConfiguration : QJsonObject;
  m_remoteAddress : string;
  m_vpnProtocol : option VpnProtocol;
  interface : bool;                   (* [IpcClient::Interface()] is not null *)
  trace : list ConnectionEvent
}.
Arguments mkConnection {S} _ _ _ _ _ _.
Arguments conn_settings {S} _.
Arguments m_vpnConfiguration {S} _.
Arguments m_remoteAddress {S} _.
Arguments m_vpnProtocol {S} _.
Arguments interface {S} _.
Arguments trace {S} _.

Section Connection.
Context {S : Type} `{KeyValueStore S} `{JsonDocument} `{AddressParser} `{AddressPrinter}.
Context (text : QVariant -> string).
Abbreviation ConnectionM A := (Run (VpnConnection S) A).

Definition ask {A} (f : VpnConnection S -> A) : ConnectionM A := rlift (gets f).
Definition note (e : ConnectionEvent) : ConnectionM unit := λ c,
  Ret (tt, mkConnection (conn_settings c) (m_vpnConfiguration c) (m_remoteAddress c)
             (m_vpnProtocol c) (interface c) (app (trace c) [e])).
Definition on_settings {A} (m : Run (Settings S) A) : ConnectionM A := λ c,
  match m (conn_settings c) with
  | Ret (a, s) => Ret (a, mkConnection s (m_vpnConfiguration c) (m_remoteAddress c)
                            (m_vpnProtocol c) (interface c) (trace c))
  | Abort => Abort
  | OutOfFuel => OutOfFuel
  end.
Definition set_configuration (config : QJsonObject) : ConnectionM unit := λ c,
  Ret (tt, mkConnection (conn_settings c) config (m_remoteAddress c) (m_vpnProtocol c)
             (interface c) (trace c)).
Definition set_remote (address : string) : ConnectionM unit := λ c,
  Ret (tt, mkConnection (conn_settings c) (m_vpnConfiguration c) address (m_vpnProtocol c)
             (interface c) (trace c)).
Definition set_protocol (p : option VpnProtocol) : ConnectionM unit := λ c,
  Ret (tt, mkConnection (conn_settings c) (m_vpnConfiguration c) (m_remoteAddress c) p
             (interface c) (trace c)).
Definition set_interface (b : bool) : ConnectionM unit := λ c,
  Ret (tt, mkConnection (conn_settings c) (m_vpnConfiguration c) (m_remoteAddress c)
             (m_vpnProtocol c) b (trace c)).

(** A call through a null pointer ends the process. *)
Definition ipc (e : ConnectionEvent) : ConnectionM unit :=
  let! up := ask interface in if (up : bool) then note e else rabort.
Definition protocol {A} (f : VpnProtocol -> A) : ConnectionM A :=
  let! p := ask m_vpnProtocol in match p with Some p => rret (f p) | None => rabort end.

Definition addSitesRoutes (gw : string) (mode : RouteMode) : ConnectionM unit :=
  let! m := on_settings (vpnSites mode) in
  let ips := removeDuplicates (concat (map site_ip m)) in
  let sites := map fst (List.filter (λ e, negb (checkIpSubnetFormat e.1)) m) in
  do! ipc (ipc_routeAddList gw ips) in
  run_each sites (λ site, note (lookup_started site gw mode ips)).

Definition flushDns : ConnectionM unit :=
  let! up := ask interface in if (up : bool) then note ipc_flushDns else rret tt.

(** The callback of a query: the first address of version 4 is routed and kept
    unless the address is one of the sites'. *)
Definition site_resolved (site gw : string) (mode : RouteMode) (ips : list string)
    (addresses : list QHostAddress) : ConnectionM unit :=
  match List.find (λ a, bool_decide (HostAddress.protocol a = IPv4Protocol)) addresses with
  | None => rret tt
  | Some addr =>
      let ip := printHost addr in
      do! (if existsb (String.eqb ip) ips then rret tt
           else
             do! ipc (ipc_routeAddList gw [ip]) in
             let! _ := on_settings (addVpnSite mode site ip) in rret tt) in
      flushDns
  end.

(** The timer belongs to the protocol and does not fire once that is deleted. *)
Definition sites_timer : ConnectionM unit :=
  let! p := ask m_vpnProtocol in
  match p with
  | None => rret tt
  | Some p =>
      let! mode := on_settings routeMode in
      addSitesRoutes (m_vpnGateway p) mode
  end.

Definition connected_routes : ConnectionM unit :=
  do! ipc ipc_resetIpStack in
  do! ipc ipc_flushDns in
  let! config := ask m_vpnConfiguration in
  if json_toInt (value "config_version" config) =? 0 then
    let! vpnGateway := protocol m_vpnGateway in
    do! ipc (ipc_routeAddList vpnGateway
               [toString (value "dns1" config); toString (value "dns2" config)]) in
    let! sites := on_settings isSitesSplitTunnelingEnabled in
    if (sites : bool) then
      do! ipc (ipc_routeDeleteList vpnGateway ["0.0.0.0"]) in
      let! mode := on_settings routeMode in
      match mode with
      | VpnOnlyForwardSites => note sites_timer_started
      | VpnAllExceptSites =>
          do! ipc (ipc_routeAddList vpnGateway ["0.0.0.0/1"]) in
          do! ipc (ipc_routeAddList vpnGateway ["128.0.0.0/1"]) in
          let! routeGateway := protocol m_routeGateway in
          let! remote := ask m_remoteAddress in
          do! ipc (ipc_routeAddList routeGateway [remote]) in
          addSitesRoutes routeGateway mode
      | _ => rret tt
      end
    else rret tt
  else rret tt.

Definition onConnectionStateChanged (state : Vpn.ConnectionState) : ConnectionM unit :=
  let! index := on_settings defaultServerIndex in
  let! proto := on_settings (defaultContainerName index) in
  let! up := ask interface in
  do! (if (up : bool) then
         match state with
         | Vpn.Connected => connected_routes
         | Vpn.Error =>
             do! ipc ipc_flushDns in
             let! sites := on_settings isSitesSplitTunnelingEnabled in
             if (sites : bool) then
               let! mode := on_settings routeMode in
               if bool_decide (mode = VpnOnlyForwardSites) then ipc ipc_clearSavedRoutes else rret tt
             else rret tt
         | _ => rret tt
         end
       else rret tt) in
  note (connection_state state).

Definition onBytesChanged (receivedBytes sentBytes : Z) : ConnectionM unit :=
  note (connection_bytes receivedBytes sentBytes).

Definition connectionState (c : VpnConnection S) : Vpn.ConnectionState :=
  match m_vpnProtocol c with None => Vpn.Disconnected | Some p => m_connectionState p end.
Definition connection_isConnected (c : VpnConnection S) : bool :=
  match m_vpnProtocol c with None => false | Some p => isConnected p end.
Definition connection_isDisconnected (c : VpnConnection S) : bool :=
  match m_vpnProtocol c with None => true | Some p => isDisconnected p end.
(** 101 is [InternalError]. *)
Definition lastError (c : VpnConnection S) : Z :=
  match m_vpnProtocol c with None => 101 | Some p => m_lastError p end.

Definition addRoutes (ips : list string) : ConnectionM unit :=
  let! state := ask connectionState in
  let! up := ask interface in
  if bool_decide (state = Vpn.Connected) && (up : bool) then
    let! mode := on_settings routeMode in
    match mode with
    | VpnOnlyForwardSites => let! gw := protocol m_vpnGateway in ipc (ipc_routeAddList gw ips)
    | VpnAllExceptSites => let! gw := protocol m_routeGateway in ipc (ipc_routeAddList gw ips)
    | _ => rret tt
    end
  else rret tt.

Definition deleteRoutes (ips : list string) : ConnectionM unit :=
  let! state := ask connectionState in
  let! up := ask interface in
  if bool_decide (state = Vpn.Connected) && (up : bool) then
    let! mode := on_settings routeMode in
    match mode with
    | VpnOnlyForwardSites => let! gw := protocol m_vpnGateway in ipc (ipc_routeDeleteList gw ips)
    | VpnAllExceptSites => let! gw := protocol m_routeGateway in ipc (ipc_routeDeleteList gw ips)
    | _ => rret tt
    end
  else rret tt.

(** [reached] is whether the service answers when the interface is set up anew,
    [started] the result of the protocol's [start]. *)
Definition connectToVpn (platform : Platform) (lookup : string -> list string) (reached : bool)
    (started : QJsonObject -> Z) (garbage : Z) (credentials : ServerCredentials)
    (container : DockerContainer.t) (vpnConfiguration : QJsonObject) : ConnectionM unit :=
  let! _ := on_settings routeMode in
  do! set_interface reached in
  do! set_remote (getIPAddress lookup (hostName credentials)) in
  do! note (connection_state Vpn.Connecting) in
  do! set_configuration vpnConfiguration in
  let! old := ask m_vpnProtocol in
  do! (match old with
       | Some _ => do! note protocol_stop in do! note protocol_deleted in set_protocol None
       | None => rret tt
       end) in
  let! config := on_settings (appendKillSwitchConfig vpnConfiguration) in
  do! set_configuration config in
  let! config := on_settings (appendSplitTunnelingConfig text config) in
  do! set_configuration config in
  match factory platform container with
  | None => note (connection_state Vpn.Error)
  | Some _ =>
      do! set_protocol (Some (VpnProtocol_new config garbage)) in
      do! note protocol_prepare in
      do! note protocol_start in
      if started config =? 0 then rret tt else note (connection_state Vpn.Error)
  end.

Definition disconnectFromVpn : ConnectionM unit :=
  let! index := on_settings defaultServerIndex in
  let! proto := on_settings (defaultContainerName index) in
  let! up := ask interface in
  do! (if (up : bool) then do! note ipc_flushDns in note ipc_clearSavedRoutes else rret tt) in
  let! p := ask m_vpnProtocol in
  match p with
  | None => note (connection_state Vpn.Disconnected)
  | Some _ => do! note protocol_deleted in set_protocol None
  end.
End Connection.
