(* ===== verification/VpnConnectionProperties.v ===== *)
(** * Properties of the connection

    The settings reach the daemon: the configuration [VpnConnection] completes,
    the WireGuard protocol resolves and the controller turns into a request is
    parsed by the daemon into the tunnel the settings describe. *)
From Stdlib Require Import ZArith QArith Lia Ascii String.
From stdpp Require Import base list strings.
From S2P Require Import Prelude QtString QtContainers Variant Protocols Containers SecureSettings.
From S2P Require Import HostAddress IpAddress NetworkUtilities Settings SecureSettingsProperties SettingsProperties.
From S2P Require Import InterfaceConfig DaemonConfig LocalSocketController VpnProtocol VpnConnection.
Local Open Scope string_scope.
Local Open Scope Z_scope.

(** ** What the settings say *)
Section View.
Context `{AddressParser} (text : QVariant -> string).
Implicit Types m : SettingsView.

Definition kill_switch m : bool := var_toBool (default (VBool true) (m "Conf/killSwitchEnabled")).
Definition sites_enabled m : bool :=
  var_toBool (default (VBool false) (m "Conf/sitesSplitTunnelingEnabled")).
Definition apps_enabled m : bool :=
  var_toBool (default (VBool false) (m "Conf/appsSplitTunnelingEnabled")).
Definition stored_mode m : RouteMode := route_mode_of (var_toInt (default (VInt 0) (m "Conf/routeMode"))).
Definition stored_apps_mode m : AppsRouteMode :=
  apps_mode_of (var_toInt (default (VInt 0) (m "Conf/appsRouteMode"))).

(** The mode in force. *)
Definition tunnel_mode m : RouteMode := if sites_enabled m then stored_mode m else VpnAllSites.
Definition tunnel_apps_mode m : AppsRouteMode :=
  if apps_enabled m then stored_apps_mode m else VpnAllApps.

(** The addresses and networks listed for a mode. *)
Definition listed_ips m (mode : RouteMode) : list string :=
  match routeModeString mode with
  | Ret name => removeDuplicates (concat (map site_ip (toMap (default VInvalid (m ("Conf/" +:+ name))))))
  | _ => []
  end.
Definition listed_apps m : list string :=
  if apps_enabled m then
    match appsRouteModeString (stored_apps_mode m) with
    | Ret name => map (λ v, app_id (app_of v))
                    (toJsonArray text (default VInvalid (m ("Conf/" +:+ name))))
    | _ => []
    end
  else [].

Record modes_ok m : Prop := {
  mode_ok : routeModeString (tunnel_mode m) <> Abort;
  apps_mode_ok : appsRouteModeString (tunnel_apps_mode m) <> Abort
}.
End View.

Section Exec.
Context {S : Type} `{KeyValueLaws S} `{JsonDocument} `{AddressParser}.
Context (text : QVariant -> string).
Implicit Types m : SettingsView.

Lemma exec_get_bool k d m :
  exec (S := S) (get_bool k d) m (var_toBool (default (VBool d) (m k))) m [].
Proof. unfold get_bool. eapply exec_step; [apply exec_get|apply exec_ret]. Qed.

Lemma exec_routeMode m : exec (S := S) routeMode m (stored_mode m) m [].
Proof. unfold routeMode. eapply exec_step; [apply exec_get|apply exec_ret]. Qed.

Lemma exec_getAppsRouteMode m : exec (S := S) getAppsRouteMode m (stored_apps_mode m) m [].
Proof. unfold getAppsRouteMode. eapply exec_step; [apply exec_get|apply exec_ret]. Qed.

Lemma exec_getVpnIps mode m :
  routeModeString mode <> Abort -> exec (S := S) (getVpnIps mode) m (listed_ips m mode) m [].
Proof.
  intros Hm. unfold getVpnIps, vpnSites, listed_ips. destruct mode; simpl in *; try done.
  all: eapply exec_step; [|apply exec_ret]; eapply exec_step; [apply exec_guard|];
    eapply exec_step; [apply exec_get|apply exec_ret].
Qed.

Lemma exec_kill_switch c m :
  exec (S := S) (appendKillSwitchConfig c) m
    (jinsert "killSwitchOption" (JString (var_toString (VBool (kill_switch m)))) c) m [].
Proof. unfold appendKillSwitchConfig. eapply exec_step; [apply exec_get_bool|apply exec_ret]. Qed.

(** The sites put into the configuration. *)
Definition configured_sites (allow : bool) (config : QJsonObject) m : list string :=
  if sites_enabled m && allow then
    app (listed_ips m (stored_mode m))
      (if bool_decide (stored_mode m = VpnOnlyForwardSites)
       then [toString (value "dns1" config); toString (value "dns2" config)] else [])
  else [].

Definition split_config (config : QJsonObject) (sites apps : list string) m : QJsonObject :=
  jinsert "splitTunnelApps" (JArray (map JString apps))
  (jinsert "appSplitTunnelType" (JInt (apps_mode_int (tunnel_apps_mode m)))
  (jinsert "splitTunnelSites" (JArray (map JString sites))
  (jinsert "splitTunnelType" (JInt (route_mode_int (tunnel_mode m))) config))).

Lemma exec_split_tunneling c c' allow m :
  site_based c = Ret (c', allow) -> modes_ok m ->
  exec (S := S) (appendSplitTunnelingConfig text c) m
    (split_config c' (configured_sites allow c' m) (listed_apps text m) m) m [].
Proof.
  intros Hc [Hm Ha]. unfold appendSplitTunnelingConfig. rewrite Hc.
  eapply exec_step; [apply exec_guard|]. cbv beta iota.
  eapply exec_step; [apply exec_get_bool|]. fold (sites_enabled m).
  unfold split_config, configured_sites, tunnel_mode, listed_apps, tunnel_apps_mode in *.
  eapply (exec_step _ _ _ (if sites_enabled m then stored_mode m else VpnAllSites,
    map JString (configured_sites allow c' m))).
  { unfold configured_sites. destruct (sites_enabled m); [|apply exec_ret].
    eapply exec_step; [apply exec_routeMode|]. unfold tunnel_sites. destruct allow; simpl.
    - eapply exec_step; [|apply exec_ret]. eapply exec_step; [by apply exec_getVpnIps|].
      rewrite map_app. case_bool_decide; apply exec_ret.
    - eapply exec_step; [apply exec_ret|apply exec_ret]. }
  eapply exec_step; [apply exec_get_bool|]. fold (apps_enabled m).
  eapply (exec_step _ _ _ (if apps_enabled m then stored_apps_mode m else VpnAllApps,
    map JString (listed_apps text m))); [|apply exec_ret]. unfold listed_apps.
  destruct (apps_enabled m); [|apply exec_ret].
  eapply exec_step; [apply exec_getAppsRouteMode|]. unfold getVpnApps.
  destruct (stored_apps_mode m); simpl in *; try done.
  all: eapply exec_step; [eapply exec_step; [apply exec_guard|];
         eapply exec_step; [apply exec_get|apply exec_ret]|]; rewrite !map_map; apply exec_ret.
Qed.
End Exec.

(** ** The configuration of a WireGuard tunnel *)
Record wireguard_config (config : QJsonObject) (privateKey publicKey host : string) : Prop := {
  wc_protocol : takes_config_data (toString (value "protocol" config)) = true;
  wc_keepalive :
    native_value "PersistentKeepalive" (toString (value "config" (wg_config config))) <> Abort;
  wc_privateKey : value "client_priv_key" (wg_config config) = JString privateKey;
  wc_publicKey : value "server_pub_key" (wg_config config) = JString publicKey;
  wc_host : value "hostName" (wg_config config) = JString host;
  wc_dns : value "dns1" config = JUndefined \/ isString (value "dns1" config) = true
}.

(** The allowed addresses, as a list or as the text of older configurations. *)
Definition routes_list (v : QJsonValue) (l : list QJsonValue) : Prop :=
  v = JArray l \/ exists s, v = JString s /\ l = map JString (split ", " s).

Lemma takes_config_data_names p : takes_config_data p = true -> p = "awg" \/ p = "wireguard".
Proof.
  unfold takes_config_data. intros [E|E]%orb_true_iff; apply String.eqb_eq in E; subst; auto.
Qed.

Lemma native_value_fuel key t : native_value key t <> OutOfFuel.
Proof. unfold native_value. destruct (List.find _ _); [|done]. by destruct (split _ _) as [|? [|? ?]]. Qed.

(** [config'] completes [config] in the data of its protocol only. *)
Record completes (key : string) (config config' : QJsonObject) (cd cd' : QJsonObject) : Prop := {
  comp_other : forall k, k <> key -> value k config' = value k config;
  comp_data : toObject (value key config') = cd';
  comp_fields : forall k, k <> "allowed_ips" -> k <> "persistent_keep_alive" ->
    value k cd' = value k cd
}.

Lemma completes_insert key config config' cd cd' k v :
  completes key config config' cd cd' -> k = "allowed_ips" \/ k = "persistent_keep_alive" ->
  completes key config (jinsert key (JObject (jinsert k v cd')) config') cd (jinsert k v cd').
Proof.
  intros [Ho Hd Hf] Hk. split.
  - intros k' Hk'. rewrite value_insert_ne by congruence. by apply Ho.
  - by rewrite value_insert_eq.
  - intros k' H1 H2. rewrite value_insert_ne by (destruct Hk; congruence). by apply Hf.
Qed.

Lemma completed_keepalive p config config1 cd cd1 :
  native_value "PersistentKeepalive" (toString (value "config" cd)) <> Abort ->
  completes (p +:+ "_config_data") config config1 cd cd1 ->
  exists config' cd',
    (if isUndefined (value "persistent_keep_alive" cd1) then
       native_value "PersistentKeepalive" (toString (value "config" cd1)) ≫= λ v,
       Ret (match v with
            | Some s => (jinsert (p +:+ "_config_data")
                          (JObject (jinsert "persistent_keep_alive" (JString s) cd1)) config1,
                         jinsert "persistent_keep_alive" (JString s) cd1)
            | None => (config1, cd1)
            end)
     else Ret (config1, cd1)) = Ret (config', cd') /\
    completes (p +:+ "_config_data") config config' cd cd' /\
    value "allowed_ips" cd' = value "allowed_ips" cd1.
Proof.
  intros Hn Hc. destruct (isUndefined _); [|by exists config1, cd1].
  rewrite <- (comp_fields _ _ _ _ _ Hc "config") in Hn by done.
  pose proof (native_value_fuel "PersistentKeepalive" (toString (value "config" cd1))) as Hf.
  destruct (native_value _ _) as [[s|]| |]; [| |done|done].
  - eexists _, _. split; [done|]. split; [apply completes_insert; auto|]. by rewrite value_insert_ne.
  - by exists config1, cd1.
Qed.

Lemma completed_data p config l :
  native_value "PersistentKeepalive"
    (toString (value "config" (toObject (value (p +:+ "_config_data") config)))) <> Abort ->
  routes_list (value "allowed_ips" (toObject (value (p +:+ "_config_data") config))) l ->
  exists config' cd', complete_config_data p config = Ret (config', cd') /\
    completes (p +:+ "_config_data") config config' (toObject (value (p +:+ "_config_data") config)) cd' /\
    value "allowed_ips" cd' = JArray l.
Proof.
  intros Hn Ha. unfold complete_config_data. set (cd := toObject _) in *.
  assert (completes (p +:+ "_config_data") config config cd cd) as H0 by done.
  destruct Ha as [Ha|(s & Ha & ->)]; rewrite Ha.
  - destruct (completed_keepalive p config config cd cd Hn H0) as (config' & cd' & E & Hc & A).
    exists config', cd'. rewrite <- Ha. by rewrite <- A.
  - apply (completes_insert _ _ _ _ _ "allowed_ips" (string_array (split ", " s))) in H0;
      [|by left].
    destruct (completed_keepalive p _ _ _ _ Hn H0) as (config' & cd' & E & Hc & A).
    exists config', cd'. split; [exact E|]. split; [done|]. rewrite A, value_insert_eq. reflexivity.
Qed.

Lemma site_based_wireguard config priv pub host l :
  wireguard_config config priv pub host -> routes_list (value "allowed_ips" (wg_config config)) l ->
  exists config', site_based config = Ret (config', has_default_routes l) /\
    completes (toString (value "protocol" config) +:+ "_config_data") config config'
      (wg_config config) (wg_config config') /\
    value "allowed_ips" (wg_config config') = JArray l.
Proof.
  intros [Hp Hn _ _ _ _] Ha. unfold site_based. rewrite Hp.
  destruct (completed_data _ config l Hn Ha) as (config' & cd' & E & Hc & A).
  exists config'. rewrite E. cbn [mbind Outcome_bind]. rewrite A.
  assert (wg_config config' = cd') as E'.
  { unfold wg_config. rewrite (comp_other _ _ _ _ _ Hc "protocol"); [by apply (comp_data _ _ _ _ _ Hc)|].
    by destruct (takes_config_data_names _ Hp) as [-> | ->]. }
  rewrite E'. split; [reflexivity|]. by split.
Qed.

(** ** What the protocol starts with *)
Section Started.
Context `{AddressParser} (lookup : string -> list string).

Definition started (config : QJsonObject) : QJsonObject :=
  (startMzImpl lookup (VpnProtocol_new config 0)).1.

Lemma started_eq config :
  let key := toString (value "protocol" config) +:+ "_config_data" in
  let host := toString (value "hostName" (wg_config config)) in
  let config1 := jinsert key (JObject (jinsert "hostName" (JString (getIPAddress lookup host))
                   (wg_config config))) config in
  started config =
    jinsert "hostName" (JString (getIPAddress lookup (toString (value "hostName" config1)))) config1.
Proof. reflexivity. Qed.

Lemma started_other config k :
  k <> "hostName" -> k <> toString (value "protocol" config) +:+ "_config_data" ->
  value k (started config) = value k config.
Proof.
  intros H1 H2. rewrite started_eq. cbv zeta.
  rewrite value_insert_ne by congruence. by rewrite value_insert_ne by congruence.
Qed.

Lemma started_wg config k :
  takes_config_data (toString (value "protocol" config)) = true ->
  value k (wg_config (started config)) =
    if String.eqb k "hostName"
    then JString (getIPAddress lookup (toString (value "hostName" (wg_config config))))
    else value k (wg_config config).
Proof.
  intros Hp. unfold wg_config at 1.
  assert (toString (value "protocol" config) +:+ "_config_data" <> "hostName" /\
          "protocol" <> toString (value "protocol" config) +:+ "_config_data") as [Hk Hk'].
  { by destruct (takes_config_data_names _ Hp) as [-> | ->]. }
  rewrite (started_other config "protocol") by done.
  rewrite started_eq. cbv zeta.
  rewrite value_insert_ne by congruence. rewrite value_insert_eq. cbn [toObject].
  destruct (String.eqb_spec k "hostName") as [->|Hne]; [by rewrite value_insert_eq|].
  by rewrite value_insert_ne by congruence.
Qed.
End Started.

(** The configuration the protocol is created with. *)
Definition completed_config {S} `{KeyValueStore S} `{JsonDocument} `{AddressParser}
    (text : QVariant -> string) (config : QJsonObject) : Run (Settings S) QJsonObject :=
  let! config := appendKillSwitchConfig config in
  appendSplitTunnelingConfig text config.

(** The ranges routed into the tunnel in a mode. *)
Definition everything `{AddressParser} : list IPAddress :=
  [mkIPAddress (parseHost "0.0.0.0") 0; mkIPAddress (parseHost "::") 0].
Definition site_range `{AddressParser} (site : string) : IPAddress :=
  entry_range (listed_range (JString site)).

Lemma takes_keys p k :
  takes_config_data p = true ->
  k ∈ ["killSwitchOption"; "splitTunnelType"; "splitTunnelSites"; "appSplitTunnelType";
       "splitTunnelApps"; "protocol"; "hostName"; "dns1"; "dns2"] ->
  k <> p +:+ "_config_data".
Proof.
  intros Hp Hk. destruct (takes_config_data_names _ Hp) as [-> | ->];
    intros ->; rewrite list_elem_of_In in Hk; simpl in Hk; intuition discriminate.
Qed.

Lemma range_entry_range `{AddressParser} a n v6 :
  - 2 ^ 31 <= n < 2 ^ 31 -> entry_range (range_entry a n v6) = mkIPAddress (parseHost a) n.
Proof.
  intros Hn. unfold entry_range, range_entry. cbn [toObject]. json_lookup.
  cbn [toString]. by rewrite json_toInt_JInt.
Qed.

(** The ranges of a request for all traffic. *)
Lemma allowed_ranges_default `{AddressParser} sites mode :
  routeModeString mode <> Abort ->
  map entry_range (allowed_ranges defaultAllowedIP (map JString sites) (route_mode_int mode)) =
    match mode with VpnOnlyForwardSites => map site_range sites | _ => everything end.
Proof.
  intros Hm. unfold allowed_ranges.
  change (negb (array_eqb defaultAllowedIP defaultAllowedIP)) with false. cbn [andb].
  assert (map entry_range [range_entry "0.0.0.0" 0 false; range_entry "::" 0 true] = everything) as E.
  { cbn [map]. by rewrite !range_entry_range by lia. }
  destruct mode; [exact E| |exact E|done]. 
  change (map entry_range (map listed_range (map JString sites)) = map site_range sites).
  by rewrite !map_map.
Qed.

Lemma route_mode_width n : routeModeString (route_mode_of n) <> Abort ->
  - 2 ^ 31 <= route_mode_int (route_mode_of n) < 2 ^ 31.
Proof. intros Hn. destruct (route_mode_of n); simpl in *; try lia. done. Qed.

Lemma tunnel_mode_width m : routeModeString (tunnel_mode m) <> Abort ->
  json_toInt (JInt (route_mode_int (tunnel_mode m))) = route_mode_int (tunnel_mode m).
Proof.
  intros Hm. apply json_toInt_JInt. unfold tunnel_mode in *.
  destruct (sites_enabled m); [by apply route_mode_width|simpl; lia].
Qed.

Lemma map_toString l : map toString (map JString l) = l.
Proof. rewrite map_map. apply map_id. Qed.

Section Reaches.
Context {S : Type} `{KeyValueLaws S} `{JsonDocument} `{AddressParser} `{HopKeys}.
Context (text : QVariant -> string) (lookup : string -> list string).

(** A split-tunnelling configuration put on top of [config'] gives this tunnel. *)
Lemma split_config_tunnel windows config config' sites apps m priv pub host :
  wireguard_config config priv pub host ->
  completes (toString (value "protocol" config) +:+ "_config_data") config config'
    (wg_config config) (wg_config config') ->
  routeModeString (tunnel_mode m) <> Abort ->
  exists c,
    parseConfig windows (activation_request (started lookup (split_config config' sites apps m)))
      (InterfaceConfig_new SingleHop false) = Some c /\
    m_killSwitchEnabled c = variant_toBool (toString (value "killSwitchOption" config)) /\
    m_privateKey c = qstr priv /\ m_serverPublicKey c = qstr pub /\
    m_serverIpv4AddrIn c = qstr (getIPAddress lookup host) /\
    m_vpnDisabledApps c = apps /\
    m_allowedIPAddressRanges c = sort_by_prefix (map entry_range
      (allowed_ranges (toArray (value "allowed_ips" (wg_config config'))) (map JString sites)
         (route_mode_int (tunnel_mode m)))) /\
    m_excludedAddresses c = getIPAddress lookup host ::
      (if route_mode_int (tunnel_mode m) =? 2 then sites else []).
Proof.
  intros [Hp Hn Hpriv Hpub Hhost Hdns] Hc Hm. set (raw := split_config config' sites apps m).
  pose proof (takes_keys _ "protocol" Hp ltac:(by apply list_elem_of_In; simpl; tauto)) as Kp.
  assert (forall k, k ∈ ["killSwitchOption"; "protocol"; "dns1"] -> value k raw = value k config) as Hk.
  { intros k Hk. unfold raw, split_config.
    rewrite !value_insert_ne by (intros <-; apply list_elem_of_In in Hk; simpl in Hk; intuition discriminate).
    apply (comp_other _ _ _ _ _ Hc). apply takes_keys; [done|].
    apply list_elem_of_In in Hk. apply list_elem_of_In. simpl in *. tauto. }
  assert (toString (value "protocol" raw) = toString (value "protocol" config)) as Ep.
  { rewrite Hk; [done|]. apply list_elem_of_In; simpl; tauto. }
  assert (forall k, k ∈ ["killSwitchOption"; "splitTunnelType"; "splitTunnelSites"; "splitTunnelApps"; "dns1"] ->
            value k (started lookup raw) = value k raw) as Hs.
  { intros k Hi. apply started_other; [|rewrite Ep; apply takes_keys; [done|]];
      apply list_elem_of_In in Hi; [|apply list_elem_of_In]; simpl in *; intuition congruence. }
  assert (wg_config raw = wg_config config') as Ew.
  { unfold wg_config. rewrite Ep, (comp_other _ _ _ _ _ Hc "protocol" Kp).
    unfold raw, split_config. destruct (takes_config_data_names _ Hp) as [-> | ->]; by json_lookup. }
  assert (takes_config_data (toString (value "protocol" raw)) = true) as Hp' by by rewrite Ep.
  assert (forall k, k ∈ ["client_priv_key"; "server_pub_key"; "hostName"] ->
            value k (wg_config raw) = value k (wg_config config)) as Hw.
  { intros k Hi. rewrite Ew. apply (comp_fields _ _ _ _ _ Hc);
      apply list_elem_of_In in Hi; simpl in Hi; intuition congruence. }
  destruct (request_parsed windows (started lookup raw) priv pub (getIPAddress lookup host))
    as (c & E & [_ Upriv Upub Userv _ _ _ Ur Ue Ua Uk _ _]).
  { split; rewrite ?started_wg, ?Hs by (done || apply list_elem_of_In; simpl; tauto); simpl;
      rewrite ?Hw, ?Hk by (apply list_elem_of_In; simpl; tauto); try done.
    - by rewrite Hhost.
    - unfold raw, split_config. json_lookup. simpl. by apply Forall_map, Forall_true. }
  exists c. split; [done|]. rewrite Uk, Hs, Hk by (apply list_elem_of_In; simpl; tauto).
  rewrite Ua, Hs by (apply list_elem_of_In; simpl; tauto).
  rewrite Ur, !Hs by (apply list_elem_of_In; simpl; tauto). rewrite started_wg by done. simpl.
  rewrite Ue, Ew. unfold requested_exclusions. rewrite !Hs by (apply list_elem_of_In; simpl; tauto).
  unfold raw, split_config. json_lookup. cbn [toArray]. rewrite tunnel_mode_width by done.
  rewrite !map_toString. done.
Qed.

Lemma wireguard_config_kill_switch config v priv pub host :
  wireguard_config config priv pub host ->
  wireguard_config (jinsert "killSwitchOption" v config) priv pub host /\
  wg_config (jinsert "killSwitchOption" v config) = wg_config config.
Proof.
  intros [Hp Hn Hpriv Hpub Hhost Hdns].
  assert (wg_config (jinsert "killSwitchOption" v config) = wg_config config) as E.
  { unfold wg_config. rewrite (value_insert_ne _ "protocol") by done. destruct (takes_config_data_names _ Hp) as [-> | ->]; by json_lookup. }
  split; [|done]. split; rewrite ?E; by json_lookup.
Qed.

(** What the daemon is given for the allowed addresses [l]. *)
Lemma completed_tunnel windows config l priv pub host s m ev :
  shows s m ev -> modes_ok m -> wireguard_config config priv pub host ->
  routes_list (value "allowed_ips" (wg_config config)) l ->
  exists config' s' c,
    completed_config text config s = Ret (config', s') /\ shows s' m ev /\
    parseConfig windows (activation_request (started lookup config'))
      (InterfaceConfig_new SingleHop false) = Some c /\
    m_killSwitchEnabled c = kill_switch m /\
    m_privateKey c = qstr priv /\ m_serverPublicKey c = qstr pub /\
    m_serverIpv4AddrIn c = qstr (getIPAddress lookup host) /\
    m_vpnDisabledApps c = listed_apps text m /\
    m_allowedIPAddressRanges c = sort_by_prefix (map entry_range
      (allowed_ranges l (map JString (configured_sites (has_default_routes l) config m))
         (route_mode_int (tunnel_mode m)))) /\
    m_excludedAddresses c = getIPAddress lookup host ::
      (if route_mode_int (tunnel_mode m) =? 2
       then configured_sites (has_default_routes l) config m else []).
Proof.
  intros Hs Hm Hw Hl.
  destruct (wireguard_config_kill_switch config (JString (var_toString (VBool (kill_switch m)))) _ _ _ Hw)
    as [Hw' Ew]. set (config1 := jinsert "killSwitchOption" _ config) in *.
  rewrite <- Ew in Hl.
  destruct (site_based_wireguard config1 priv pub host l Hw' Hl) as (config2 & Eb & Hc & Ea).
  destruct (exec_step _ (appendSplitTunnelingConfig text) _ _ _ _ _ _
    (exec_kill_switch config m) (exec_split_tunneling text _ _ _ m Eb Hm) s ev Hs) as (s' & E & Hs').
  rewrite app_nil_r in Hs'.
  destruct (split_config_tunnel windows config1 config2
    (configured_sites (has_default_routes l) config2 m) (listed_apps text m) m priv pub host
    Hw' Hc (mode_ok _ Hm)) as (c & Ep & Ek & Epriv & Epub & Eserv & Eapps & Er & Ee).
  assert (configured_sites (has_default_routes l) config2 m =
          configured_sites (has_default_routes l) config m) as Es.
  { unfold configured_sites. rewrite !(comp_other _ _ _ _ _ Hc) by
      (apply takes_keys; [by apply wc_protocol in Hw'|apply list_elem_of_In; simpl; tauto]).
    unfold config1. by json_lookup. }
  rewrite Es in Er, Ee. rewrite Ea in Er.
  eexists _, s', c. split; [exact E|]. split; [done|]. split; [exact Ep|]. split; [|done].
  rewrite Ek. unfold config1. rewrite value_insert_eq. cbn [toString].
  by destruct (kill_switch m).
Qed.
End Reaches.

(** ** Configurations that cannot be completed *)

(** The value of a key in a native configuration is read without a failure
    exactly when its line has the equals sign between blanks. *)
Lemma native_value_abort key t :
  native_value key t = Abort <->
  exists line, List.find (λ line, contains_str line key) (split nl t) = Some line /\
    contains_str line " = " = false.
Proof.
  unfold native_value. destruct (List.find _ _) as [line|]; [|split; [done|by intros (? & ? & _)]].
  pose proof (split_from_parts " = " line "" ltac:(done)) as Hp. fold (split " = " line) in Hp.
  destruct (contains_str line " = ") eqn:E.
  - destruct Hp as (a & b & l & ->). split; [done|]. intros (? & [= <-] & ?). congruence.
  - rewrite Hp. split; [|done]. intros _. by exists line.
Qed.

(** ** Properties *)
Section Properties.
Context {S : Type} `{KeyValueLaws S} `{JsonDocument} `{AddressParser} `{HopKeys}.


(** The order of the allowed addresses decides whether sites are tunnelled
    apart: with the two default routes the other way round, the connection still
    lists the sites, but the request routes everything whatever the mode is and
    whichever sites are listed. *)
Theorem reordered_routes_ignore_sites (text : QVariant -> string) (lookup : string -> list string)
    (windows : bool) (config : QJsonObject) (priv pub host : string)
    (s : Settings S) (m : SettingsView) (ev : list SettingsEvent) :
  shows s m ev -> modes_ok m -> wireguard_config config priv pub host ->
  routes_list (value "allowed_ips" (wg_config config)) [JString "::/0"; JString "0.0.0.0/0"] ->
  exists config' s' c,
    completed_config text config s = Ret (config', s') /\
    parseConfig windows (activation_request (started lookup config'))
      (InterfaceConfig_new SingleHop false) = Some c /\
    m_allowedIPAddressRanges c =
      sort_by_prefix [mkIPAddress (parseHost "::") 0; mkIPAddress (parseHost "0.0.0.0") 0].
Proof.
  intros Hs Hm Hw Hl.
  destruct (completed_tunnel text lookup windows config _ priv pub host s m ev Hs Hm Hw Hl)
    as (config' & s' & c & E & _ & Ep & _ & _ & _ & _ & _ & Er & _).
  exists config', s', c. split; [done|]. split; [done|]. rewrite Er. f_equal.
Qed.

(** A configuration in the usual notation without blanks around the equals
    sign ends the client: when the data of the protocol has no list of allowed
    addresses and the line for them in the native configuration does not contain
    the equals sign between blanks, connecting does not complete the
    configuration, whatever the settings are. The check in the code, that the
    split line has at least one part, cannot fail. *)
Theorem native_config_ends_client (text : QVariant -> string) (config : QJsonObject) (line : string)
    (s : Settings S) (m : SettingsView) (ev : list SettingsEvent) :
  shows s m ev -> takes_config_data (toString (value "protocol" config)) = true ->
  value "allowed_ips" (wg_config config) = JUndefined ->
  List.find (λ line, contains_str line "AllowedIPs")
    (split nl (toString (value "config" (wg_config config)))) = Some line ->
  contains_str line " = " = false ->
  completed_config text config s = Abort.
Proof.
  intros Hs Hp Ha Hf Hl. unfold completed_config, rbind.
  destruct (exec_kill_switch config m s ev Hs) as (s' & -> & _).
  set (config1 := jinsert "killSwitchOption" _ config).
  assert (toString (value "protocol" config1) = toString (value "protocol" config)) as Ep.
  { unfold config1. by json_lookup. }
  assert (wg_config config1 = wg_config config) as Ew.
  { unfold wg_config. rewrite Ep. unfold config1.
    destruct (takes_config_data_names _ Hp) as [-> | ->]; by json_lookup. }
  unfold appendSplitTunnelingConfig, rbind, site_based. rewrite Ep, Hp. unfold complete_config_data.
  rewrite <- Ep. fold (wg_config config1). rewrite Ew, Ha.
  by rewrite (proj2 (native_value_abort _ _) (ex_intro _ line (conj Hf Hl))).
Qed.
End Properties.

(** ** Witnesses *)
#[local] Existing Instances windows_store windows_store_laws sample_json sample_json_laws.
#[local] Existing Instances ipv4_parser plain_keys.

(** Only one network is to be forwarded. *)
Definition forward_settings : Settings SampleStore :=
  mkSettings (mkSecure [("Conf/ForwardSites", VMap [("10.1.0.0/16", VString "")]);
                        ("Conf/killSwitchEnabled", VBool false); ("Conf/routeMode", VInt 1);
                        ("Conf/sitesSplitTunnelingEnabled", VBool true)] []
                [(settingsIvTag, "iv"); (settingsKeyTag, "key")]) gatewayEndpoint false [].
Definition forward_view : SettingsView := kv_view (store forward_settings).

Lemma forward_shows : shows forward_settings forward_view [].
Proof. split; [split; [done|left; by split]|done|done]. Qed.

Lemma forward_modes : modes_ok forward_view.
Proof. split; discriminate. Qed.

Definition forward_config (allowed : string) : QJsonObject :=
  let wg := jinsert "client_priv_key" (JString "cHJpdg==") (jinsert "server_pub_key" (JString "cHVi")
            (jinsert "hostName" (JString "192.0.2.1") (jinsert "port" (JInt 51820)
            (jinsert "allowed_ips" (JString allowed) [])))) in
  jinsert "protocol" (JString "wireguard") (jinsert "wireguard_config_data" (JObject wg)
  (jinsert "dns1" (JString "1.1.1.1") (jinsert "dns2" (JString "1.0.0.1") []))).

Lemma forward_config_ok allowed : wireguard_config (forward_config allowed) "cHJpdg==" "cHVi" "192.0.2.1".
Proof. split; try reflexivity; [by vm_compute|by right]. Qed.


Lemma reordered_routes_ignore_sites_witness :
  exists config' s' c,
    completed_config (λ _, "") (forward_config "::/0, 0.0.0.0/0") forward_settings =
      Ret (config', s') /\
    parseConfig false (activation_request (started (λ _, []) config'))
      (InterfaceConfig_new SingleHop false) = Some c /\
    m_allowedIPAddressRanges c =
      sort_by_prefix [mkIPAddress (parseHost "::") 0; mkIPAddress (parseHost "0.0.0.0") 0].
Proof.
  exact (reordered_routes_ignore_sites (λ _, "") (λ _, []) false
    (forward_config "::/0, 0.0.0.0/0") "cHJpdg==" "cHVi" "192.0.2.1"
    forward_settings forward_view [] forward_shows forward_modes (forward_config_ok _)
    (or_intror (ex_intro _ "::/0, 0.0.0.0/0" (conj eq_refl eq_refl)))).
Defined.

Definition native_config : QJsonObject :=
  [("protocol", JString "wireguard");
   ("wireguard_config_data", JObject [("config", JString ("[Peer]" +:+ nl +:+ "AllowedIPs=0.0.0.0/0"))])].

Lemma native_config_ends_client_witness :
  completed_config (λ _, "") native_config forward_settings = Abort.
Proof.
  exact (native_config_ends_client (λ _, "") native_config "AllowedIPs=0.0.0.0/0" forward_settings forward_view []
    forward_shows eq_refl eq_refl eq_refl eq_refl).
Defined.
