(* ===== verification/RouterLinux.v ===== *)
(** * Routes of the service on Linux

    Model of [RouterLinux] (service/server/router_linux.cpp), which the service
    calls for the client: routes put into the kernel's table with [ioctl] and
    remembered until they are cleared, and the commands for the tunnel device
    and IPv6. *)
From Stdlib Require Import ZArith Lia Ascii String.
From stdpp Require Import base list strings relations.
From stdpp Require Import base list strings.
From S2P Require Import Prelude QtString QtContainers HostAddress IpAddress NetworkUtilities Variant Protocols Containers.
From S2P Require Import SecureSettings InterfaceConfig Settings SecureSettingsProperties SettingsProperties VpnProtocol VpnConnection.
Local Open Scope string_scope.
Local Open Scope Z_scope.

(** [inet_addr] of the C library, as the number of the four octets. *)
Class InetAddr := inet_addr : string -> Z.

(** The fields of [struct rtentry] that are filled in. *)
Record rtentry := mkRtentry { rt_dst : Z; rt_gateway : Z; rt_genmask : Z }.

#[export] Instance rtentry_eq_dec : EqDecision rtentry.
Proof. solve_decision. Defined.

(** The kernel's table behind [ioctl]: the calls report whether they succeeded. *)
Class RouteTable (W : Type) := {
  SIOCADDRT : rtentry -> StateM W bool;
  SIOCDELRT : rtentry -> StateM W bool
}.

(** A route that is there is not added again; one that is there can be removed. *)
Class RouteTableLaws (W : Type) `{RouteTable W} := {
  rt_has : W -> rtentry -> bool;
  rt_add_done : forall e w, (SIOCADDRT e w).1 = true ->
    rt_has w e = false /\ forall e', rt_has (SIOCADDRT e w).2 e' = bool_decide (e' = e) || rt_has w e';
  rt_add_failed : forall e w, (SIOCADDRT e w).1 = false ->
    forall e', rt_has (SIOCADDRT e w).2 e' = rt_has w e';
  rt_del_result : forall e w, (SIOCDELRT e w).1 = rt_has w e;
  rt_del_table : forall e w e', rt_has (SIOCDELRT e w).2 e' = negb (bool_decide (e' = e)) && rt_has w e'
}.

Record Route := mkRoute { dst : string; gw : string }.

(** A program and its arguments; whether it starts and ends in time is the
    environment's. *)
Record Command := mkCommand { program : string; arguments : list string }.
Inductive CommandResult := NotStarted | NotFinished | Finished.

Record RouterLinux (W : Type) := mkRouter {
  m_addedRoutes : list Route;
  table : W;
  commands : list Command
}.
Arguments mkRouter {W} _ _ _.
Arguments m_addedRoutes {W} _.
Arguments table {W} _.
Arguments commands {W} _.

Section Operations.
Context {W : Type} `{RouteTable W} `{AddressParser} `{InetAddr}.
(** What becomes of a command, and which files exist. *)
Context (outcome : Command -> CommandResult) (exists_file : string -> bool).
Abbreviation RouterM A := (Run (RouterLinux W) A).

Definition on_table (m : StateM W bool) : RouterM bool := λ r,
  let '(ok, w) := m (table r) in Ret (ok, mkRouter (m_addedRoutes r) w (commands r)).
Definition set_added (l : list Route) : RouterM unit := λ r,
  Ret (tt, mkRouter l (table r) (commands r)).

Definition entry (ip gw mask : string) : rtentry :=
  mkRtentry (inet_addr ip) (inet_addr gw) (inet_addr mask).

Definition routeAdd (ipWithSubnet gw : string) : RouterM bool :=
  let ip := ipAddressFromIpWithSubnet ipWithSubnet in
  match netMaskFromIpWithSubnet ipWithSubnet with
  | Ret mask =>
      if negb (checkIPv4Format ip) || negb (checkIPv4Format gw) then rret false
      else
        let! ok := on_table (SIOCADDRT (entry ip gw mask)) in
        if (ok : bool) then
          let! added := rlift (gets m_addedRoutes) in
          do! set_added (app added [mkRoute ipWithSubnet gw]) in
          rret true
        else rret false
  | Abort => rabort
  | OutOfFuel => rabort
  end.

Definition routeDelete (ipWithSubnet gw : string) : RouterM bool :=
  let ip := ipAddressFromIpWithSubnet ipWithSubnet in
  match netMaskFromIpWithSubnet ipWithSubnet with
  | Ret mask =>
      if negb (checkIPv4Format ip) || negb (checkIPv4Format gw) then rret false
      else if String.eqb ipWithSubnet "0.0.0.0/0" then rret true
      else on_table (SIOCDELRT (entry ip gw mask))
  | Abort => rabort
  | OutOfFuel => rabort
  end.

(** How many of the calls succeed. *)
Fixpoint count_true {A} (l : list A) (f : A -> RouterM bool) : RouterM Z :=
  match l with
  | [] => rret 0
  | x :: l' =>
      let! ok := f x in
      let! n := count_true l' f in
      rret (if (ok : bool) then n + 1 else n)
  end.

Definition routeAddList (gw : string) (ips : list string) : RouterM Z :=
  count_true ips (λ ip, routeAdd ip gw).

(** The count becomes a [bool]. *)
Definition routeDeleteList (gw : string) (ips : list string) : RouterM bool :=
  let! cnt := count_true ips (λ ip, routeDelete ip gw) in rret (negb (cnt =? 0)).

Definition clearSavedRoutes : RouterM bool :=
  let! added := rlift (gets m_addedRoutes) in
  let! cnt := count_true added (λ r, routeDelete (dst r) (gw r)) in
  do! set_added [] in
  rret (cnt =? Z.of_nat (length added)).

(** ** Commands *)
Definition execute (c : Command) : RouterM CommandResult := λ r,
  Ret (outcome c, mkRouter (m_addedRoutes r) (table r) (app (commands r) [c])).

(** Runs the commands up to the first that does not start or end. *)
Fixpoint execute_all (l : list Command) : RouterM bool :=
  match l with
  | [] => rret true
  | c :: l' =>
      let! res := execute c in
      match res with Finished => execute_all l' | _ => rret false end
  end.

Definition sudo (l : list string) : Command := mkCommand "sudo" l.

(** The whole text is the name of the program. *)
Definition flushDns : RouterM unit :=
  let! _ := execute (mkCommand
    (if exists_file "/usr/bin/nscd" || exists_file "/usr/sbin/nscd"
        || exists_file "/usr/lib/systemd/system/nscd.service"
     then "systemctl restart nscd" else "systemctl restart systemd-resolved") []) in
  rret tt.

Definition createTun (dev subnet : string) : RouterM bool :=
  execute_all
    [ sudo ["ip"; "tuntap"; "add"; "mode"; "tun"; "dev"; dev];
      sudo ["ip"; "addr"; "add"; subnet +:+ "/24"; "dev"; dev];
      sudo ["ip"; "link"; "set"; "dev"; dev; "up"] ].

Definition StartRoutingIpv6 : RouterM unit :=
  let! _ := execute_all
    [ sudo ["sysctl"; "-w"; "net.ipv6.conf.all.disable_ipv6=0"];
      sudo ["sysctl"; "-w"; "net.ipv6.conf.default.disable_ipv6=0"] ] in rret tt.

Definition StopRoutingIpv6 : RouterM unit :=
  let! _ := execute_all
    [ sudo ["sysctl"; "-w"; "net.ipv6.conf.all.disable_ipv6=1"];
      sudo ["sysctl"; "-w"; "net.ipv6.conf.default.disable_ipv6=1"] ] in rret tt.
End Operations.

(** ** The device *)
Definition IFNAMSIZ : nat := 16.
Definition NLM_F_REQUEST : Z := 1.
Definition RTM_DELLINK : Z := 17.
Definition IFLA_IFNAME : Z := 3.

(** The fields of the netlink request to delete a link. *)
Record DellinkRequest := mkDellink {
  nlmsg_len : Z; nlmsg_flags : Z; nlmsg_type : Z; ifi_family : Z;
  rta_type : Z; rta_len : Z; ifname : list ascii
}.

(** The copy takes sixteen octets from the name: behind its end whatever
    [memory] holds. *)
Definition dellink_request (dev : string) (memory : list ascii) : DellinkRequest :=
  let len := 16 + 16 in                        (* NLMSG_LENGTH of an ifinfomsg *)
  let rta := 4 + Z.of_nat IFNAMSIZ in          (* RTA_LENGTH of the name *)
  mkDellink (len + rta) NLM_F_REQUEST RTM_DELLINK 0 IFLA_IFNAME rta
    (take IFNAMSIZ (app (String.list_ascii_of_string dev) ("000"%char :: memory))).

(** [rtnl] is the descriptor of the socket, [send] what the call returns for the
    request; the result is the comparison of the two lengths. *)
Definition deleteTun (rtnl : Z) (send : DellinkRequest -> Z) (dev : string) (memory : list ascii) : bool :=
  if rtnl <? 0 then true
  else
    let req := dellink_request dev memory in
    negb (u32 (send req) =? nlmsg_len req).

(** ** Lemmas *)
Section Lemmas.
Context {W : Type} `{RouteTableLaws W} `{AddressParser} `{InetAddr}.
Abbreviation RouterM A := (Run (RouterLinux W) A).

(** The entry a remembered route stands for. *)
Definition route_entry (r : Route) : rtentry :=
  entry (ipAddressFromIpWithSubnet (dst r)) (gw r)
    (match netMaskFromIpWithSubnet (dst r) with Ret mask => mask | _ => "" end).

(** A route that was added can be handed to [routeDelete]. *)
Definition deletable (r : Route) : Prop :=
  (exists mask, netMaskFromIpWithSubnet (dst r) = Ret mask) /\
  checkIPv4Format (ipAddressFromIpWithSubnet (dst r)) = true /\ checkIPv4Format (gw r) = true /\
  dst r <> "0.0.0.0/0".

(** The default route never gets as far as the kernel: its mask is shifted by
    all 32 bits. *)
Lemma default_route_mask : netMaskFromIpWithSubnet "0.0.0.0/0" = Abort.
Proof. reflexivity. Qed.

Lemma routeAdd_spec ip g (r r' : RouterLinux W) ok :
  routeAdd ip g r = Ret (ok, r') ->
  if ok then
    deletable (mkRoute ip g) /\ rt_has (table r) (route_entry (mkRoute ip g)) = false /\
    m_addedRoutes r' = app (m_addedRoutes r) [mkRoute ip g] /\
    forall e, rt_has (table r') e =
      bool_decide (e = route_entry (mkRoute ip g)) || rt_has (table r) e
  else m_addedRoutes r' = m_addedRoutes r /\ forall e, rt_has (table r') e = rt_has (table r) e.
Proof.
  unfold routeAdd. destruct (netMaskFromIpWithSubnet ip) as [mask| |] eqn:Em; try done.
  destruct (negb _ || negb _) eqn:Ef; [by intros [= <- <-]|].
  apply orb_false_iff in Ef as [E1%negb_false_iff E2%negb_false_iff].
  unfold rbind, on_table. set (e := entry _ _ _).
  pose proof (rt_add_done e (table r)) as Hd. pose proof (rt_add_failed e (table r)) as Hf.
  destruct (SIOCADDRT e (table r)) as [[] w]; simpl in *.
  - intros [= <- <-]. simpl. destruct (Hd eq_refl) as [Hn Ha].
    assert (route_entry (mkRoute ip g) = e) as ->.
    { unfold route_entry, e. cbn [dst gw]. by rewrite Em. }
    split_and!; try done. split_and!; simpl; try done; [by eexists|].
    intros ->. by rewrite default_route_mask in Em.
  - intros [= <- <-]. simpl. split; [done|]. by apply Hf.
Qed.

Lemma routeDelete_spec ip g (r r' : RouterLinux W) ok :
  routeDelete ip g r = Ret (ok, r') ->
  m_addedRoutes r' = m_addedRoutes r /\ forall e, rt_has (table r') e = true -> rt_has (table r) e = true.
Proof.
  unfold routeDelete. destruct (netMaskFromIpWithSubnet ip) as [mask| |]; try done.
  destruct (negb _ || negb _); [by intros [= <- <-]|].
  destruct (String.eqb _ _); [by intros [= <- <-]|].
  unfold on_table. pose proof (rt_del_table (entry (ipAddressFromIpWithSubnet ip) g mask) (table r)) as Ht.
  destruct (SIOCDELRT _ _) as [b w]. simpl in *. intros [= <- <-]. simpl. split; [done|].
  intros e. rewrite Ht. by intros [_ ?]%andb_true_iff.
Qed.

(** A remembered route is removed. *)
Lemma routeDelete_added ro (r : RouterLinux W) :
  deletable ro -> exists r',
    routeDelete (dst ro) (gw ro) r = Ret (rt_has (table r) (route_entry ro), r') /\
    m_addedRoutes r' = m_addedRoutes r /\
    forall e, rt_has (table r') e =
      negb (bool_decide (e = route_entry ro)) && rt_has (table r) e.
Proof.
  intros ([mask Em] & E1 & E2 & Hd). unfold routeDelete, route_entry. rewrite Em, E1, E2. cbn [negb orb].
  destruct (String.eqb_spec (dst ro) "0.0.0.0/0"); [done|]. unfold on_table.
  set (e := entry _ _ _). pose proof (rt_del_table e (table r)) as Ht.
  rewrite <- (rt_del_result e (table r)).
  destruct (SIOCDELRT e (table r)) as [b w]. simpl in *. eexists. split; [done|]. by split.
Qed.

(** ** Sequences of requests *)
Inductive RouteRequest := add_routes (gw : string) (ips : list string)
                        | delete_routes (gw : string) (ips : list string).

Definition request (q : RouteRequest) : RouterM unit :=
  match q with
  | add_routes g ips => let! _ := routeAddList g ips in rret tt
  | delete_routes g ips => let! _ := routeDeleteList g ips in rret tt
  end.

(** Every route in the table was there before or is remembered. *)
Definition accounted (w0 : W) (r : RouterLinux W) : Prop :=
  Forall deletable (m_addedRoutes r) /\
  forall e, rt_has (table r) e = true -> rt_has w0 e = true \/ e ∈ map route_entry (m_addedRoutes r).

(** The table is the earlier one with the remembered routes, each once. *)
Definition balanced (w0 : W) (r : RouterLinux W) : Prop :=
  Forall deletable (m_addedRoutes r) /\ NoDup (map route_entry (m_addedRoutes r)) /\
  (forall e, e ∈ map route_entry (m_addedRoutes r) -> rt_has w0 e = false) /\
  forall e, rt_has (table r) e = rt_has w0 e || bool_decide (e ∈ map route_entry (m_addedRoutes r)).

Lemma accounted_add w0 ip g r ok r' :
  accounted w0 r -> routeAdd ip g r = Ret (ok, r') -> accounted w0 r'.
Proof.
  intros [Hd Ha] E. apply routeAdd_spec in E. destruct ok.
  - destruct E as (D & _ & A & T). split.
    + rewrite A. apply Forall_app. split; [done|by apply list.Forall_singleton].
    + intros e. rewrite T, A, map_app, elem_of_app. intros [He|He]%orb_true_iff.
      * right; right. apply bool_decide_eq_true in He as ->. apply list_elem_of_singleton. done.
      * destruct (Ha e He); auto.
  - destruct E as [A T]. split; [by rewrite A|]. intros e. rewrite T, A. apply Ha.
Qed.

Lemma accounted_delete w0 ip g r ok r' :
  accounted w0 r -> routeDelete ip g r = Ret (ok, r') -> accounted w0 r'.
Proof.
  intros [Hd Ha] E. apply routeDelete_spec in E as [A T]. split; [by rewrite A|].
  intros e He. rewrite A. by apply Ha, T.
Qed.

Lemma balanced_add w0 ip g r ok r' :
  balanced w0 r -> routeAdd ip g r = Ret (ok, r') -> balanced w0 r'.
Proof.
  intros (Hd & Hn & Hz & Ha) E. apply routeAdd_spec in E. destruct ok.
  - destruct E as (D & Hno & A & T). set (e0 := route_entry (mkRoute ip g)) in *.
    rewrite Ha in Hno. apply orb_false_iff in Hno as [Hw Hin%bool_decide_eq_false].
    unfold balanced. rewrite A, map_app. cbn [map]. fold e0. split_and!.
    + apply Forall_app. split; [done|by apply list.Forall_singleton].
    + apply NoDup_app. split_and!; [done| |apply NoDup_singleton].
      intros e He ->%list_elem_of_singleton. done.
    + intros e. rewrite elem_of_app, list_elem_of_singleton. intros [He| ->]; [by apply Hz|done].
    + intros e. rewrite T, Ha. apply eq_true_iff_eq.
      rewrite !orb_true_iff, !bool_decide_eq_true, elem_of_app, list_elem_of_singleton. tauto.
  - destruct E as [A T]. unfold balanced. rewrite A. split_and!; try done. intros e. by rewrite T.
Qed.

(** A loop keeps what each of its calls keeps. *)
Lemma count_true_inv {A} (P : RouterLinux W -> Prop) (f : A -> RouterM bool) l r n r' :
  (forall x r ok r', P r -> f x r = Ret (ok, r') -> P r') ->
  P r -> count_true l f r = Ret (n, r') -> P r'.
Proof.
  intros Hf. revert r n. induction l as [|x l IH]; intros r n Hp; [by intros [= _ <-]|].
  cbn [count_true]. unfold rbind. destruct (f x r) as [[ok r1]| |] eqn:Ex; try done.
  destruct (count_true l f r1) as [[n1 r2]| |] eqn:El; try done. intros [= _ <-].
  eapply IH; [|exact El]. by eapply Hf.
Qed.

Lemma accounted_request w0 q r r' :
  accounted w0 r -> request q r = Ret (tt, r') -> accounted w0 r'.
Proof.
  intros Ha. destruct q as [g ips|g ips]; cbn [request];
    unfold routeAddList, routeDeleteList, rbind; destruct (count_true _ _ r) as [[n r1]| |] eqn:E;
    try done; intros [= <-]; revert E; apply count_true_inv; try done; intros x; intros.
  - by eapply accounted_add.
  - by eapply accounted_delete.
Qed.

Lemma balanced_request w0 g ips r r' :
  balanced w0 r -> request (add_routes g ips) r = Ret (tt, r') -> balanced w0 r'.
Proof.
  intros Ha. cbn [request]. unfold routeAddList, rbind.
  destruct (count_true _ _ r) as [[n r1]| |] eqn:E; try done. intros [= <-]. revert E.
  apply count_true_inv; [|done]. intros x; intros. by eapply balanced_add.
Qed.
End Lemmas.

(** ** Routes come and go with the connection

    The requests of the client, in any order, and the clearing of the routes at
    the end leave the kernel's table as it was; the trace of a connection served
    by the router ends that way. *)
Local Open Scope string_scope.
Local Open Scope Z_scope.

Section Clearing.
Context {W : Type} `{RouteTableLaws W} `{AddressParser} `{InetAddr}.
Implicit Types r : RouterLinux W.

(** Deleting remembered routes. *)
Lemma delete_added l r :
  Forall deletable l -> exists n r',
    count_true l (λ ro, routeDelete (dst ro) (gw ro)) r = Ret (n, r') /\
    (forall e, rt_has (table r') e = true <->
               rt_has (table r) e = true /\ e ∉ map route_entry l) /\
    (NoDup (map route_entry l) -> (forall e, e ∈ map route_entry l -> rt_has (table r) e = true) ->
     n = Z.of_nat (length l)).
Proof.
  intros Hd. revert r. induction Hd as [|ro l Hro Hd IH]; intros r.
  { exists 0, r. split; [done|]. split; [|done]. intros e. simpl. rewrite elem_of_nil. tauto. }
  destruct (routeDelete_added ro r Hro) as (r1 & E1 & _ & T1).
  destruct (IH r1) as (n & r2 & E2 & T2 & C2).
  eexists _, r2. cbn [count_true]. unfold rbind. rewrite E1, E2. split; [done|]. split.
  - intros e. rewrite T2, T1, andb_true_iff, negb_true_iff, bool_decide_eq_false. cbn [map].
    rewrite not_elem_of_cons. tauto.
  - cbn [map]. rewrite NoDup_cons. intros [Hno Hnd] Hin.
    rewrite (Hin (route_entry ro)) by (apply elem_of_cons; by left). rewrite C2; [simpl; lia|done|].
    intros e He. rewrite T1. rewrite (Hin e) by (apply elem_of_cons; by right).
    rewrite bool_decide_eq_false_2; [done|]. by intros ->.
Qed.

Lemma clear_accounted w0 r :
  accounted w0 r -> exists ok r', clearSavedRoutes r = Ret (ok, r') /\ m_addedRoutes r' = [] /\
    forall e, rt_has (table r') e = true -> rt_has w0 e = true.
Proof.
  intros [Hd Ha]. destruct (delete_added (m_addedRoutes r) r Hd) as (n & r1 & E & T & _).
  eexists _, _. unfold clearSavedRoutes, rbind, rlift, gets. rewrite E. split; [done|].
  split; [done|]. cbn [table]. intros e. rewrite T. intros [He Hno]. by destruct (Ha e He).
Qed.

Lemma clear_balanced w0 r :
  balanced w0 r -> exists r', clearSavedRoutes r = Ret (true, r') /\ m_addedRoutes r' = [] /\
    forall e, rt_has (table r') e = rt_has w0 e.
Proof.
  intros (Hd & Hn & Hz & Ha). destruct (delete_added (m_addedRoutes r) r Hd) as (n & r1 & E & T & C).
  eexists. unfold clearSavedRoutes, rbind, rlift, gets. rewrite E. rewrite C; [|done|].
  - rewrite Z.eqb_refl. split; [done|]. split; [done|]. cbn [table]. intros e.
    apply eq_true_iff_eq. rewrite T, Ha, orb_true_iff, bool_decide_eq_true.
    split; [tauto|]. intros He. split; [by left|]. intros Hin. by rewrite Hz in He.
  - intros e He. rewrite Ha. apply orb_true_iff. right. by apply bool_decide_eq_true.
Qed.

Lemma run_each_inv {A} (P : RouterLinux W -> Prop) (f : A -> Run (RouterLinux W) unit) (l : list A) r r' :
  (forall x r r', x ∈ l -> P r -> f x r = Ret (tt, r') -> P r') ->
  P r -> run_each l f r = Ret (tt, r') -> P r'.
Proof.
  revert r. induction l as [|x l IH]; intros r Hf Hp; [by intros [= <-]|].
  cbn [run_each]. unfold rbind. destruct (f x r) as [[[] r1]| |] eqn:E; try done.
  apply IH; [|eapply Hf; [apply elem_of_cons; by left|done|done]].
  intros y r2 r3 Hy. apply Hf. apply elem_of_cons. by right.
Qed.

Lemma accounted_start r : m_addedRoutes r = [] -> accounted (table r) r.
Proof. intros E. split; rewrite E; [constructor|]. by left. Qed.

Lemma balanced_start r : m_addedRoutes r = [] -> balanced (table r) r.
Proof.
  intros E. unfold balanced. rewrite E. split_and!; [constructor|constructor| |].
  - intros e He. by apply elem_of_nil in He.
  - intros e. rewrite bool_decide_eq_false_2; [by rewrite orb_false_r|]. apply not_elem_of_nil.
Qed.

Definition is_add (q : RouteRequest) : bool := match q with add_routes _ _ => true | _ => false end.

(** C13. No route is left behind: after any sequence of requests to add and to
    delete routes, clearing the saved routes succeeds in a call that forgets
    them all and leaves no route in the kernel's table that was not there
    before. When nothing was deleted in between, the call reports success and
    the table is exactly the earlier one, so no route of somebody else's is
    removed either. Deleting a route that is there succeeds ([rt_del_result]); the
    requests return, which one to add a network of length 0 need not: its mask is a
    shift by 32 and has no defined result. *)
Theorem routes_restored (qs : list RouteRequest) r0 r :
  m_addedRoutes r0 = [] -> run_each qs request r0 = Ret (tt, r) ->
  exists ok r', clearSavedRoutes r = Ret (ok, r') /\ m_addedRoutes r' = [] /\
    (forall e, rt_has (table r') e = true -> rt_has (table r0) e = true) /\
    (forallb is_add qs = true ->
     ok = true /\ forall e, rt_has (table r') e = rt_has (table r0) e).
Proof.
  intros Hz Hr. destruct (forallb is_add qs) eqn:Ea.
  - destruct (clear_balanced (table r0) r) as (r' & E & A & T).
    + revert Hr. apply run_each_inv; [|by apply balanced_start]. intros q r1 r2 Hq Hb.
      apply list_elem_of_In in Hq. rewrite forallb_forall in Ea. specialize (Ea q Hq).
      destruct q; [|done]. by apply balanced_request.
    + exists true, r'. split_and!; try done. intros e. by rewrite T.
  - destruct (clear_accounted (table r0) r) as (ok & r' & E & A & T); [|by exists ok, r'].
    revert Hr. apply run_each_inv; [|by apply accounted_start]. intros q r1 r2 _. apply accounted_request.
Qed.

(** ** The trace of a connection *)
Context (outcome : Command -> CommandResult) (exists_file : string -> bool).

(** What the service does for a call of the client; the other events are none of
    its. [resetIpStack] does nothing on Linux. *)
Definition serve (e : ConnectionEvent) : Run (RouterLinux W) unit :=
  match e with
  | ipc_routeAddList g ips => request (add_routes g ips)
  | ipc_routeDeleteList g ips => request (delete_routes g ips)
  | ipc_clearSavedRoutes => let! _ := clearSavedRoutes in rret tt
  | ipc_flushDns => RouterLinux.flushDns outcome exists_file
  | _ => rret tt
  end.

Lemma accounted_serve w0 e r r' : accounted w0 r -> serve e r = Ret (tt, r') -> accounted w0 r'.
Proof.
  intros Ha. destruct e; cbn [serve]; try (by intros [= <-]).
  - by apply accounted_request.
  - by apply accounted_request.
  - destruct (clear_accounted w0 r Ha) as (ok & r1 & E & A & T). unfold rbind. rewrite E.
    intros [= <-]. split; [rewrite A; constructor|]. intros e He. left. by apply T.
Qed.

Lemma run_each_app {A} (f : A -> Run (RouterLinux W) unit) l1 l2 r r1 :
  run_each l1 f r = Ret (tt, r1) -> run_each (app l1 l2) f r = run_each l2 f r1.
Proof.
  revert r. induction l1 as [|x l1 IH]; intros r; [by intros [= <-]|].
  cbn [app run_each]. unfold rbind. destruct (f x r) as [[[] r2]| |]; try done. apply IH.
Qed.
End Clearing.

Section Connection.
Context {S : Type} `{KeyValueLaws S} `{JsonDocument} `{AddressParser}.
Context {W : Type} `{RouteTableLaws W} `{InetAddr}.
Context (outcome : Command -> CommandResult) (exists_file : string -> bool).

Lemma exec_names m :
  exists i n, exec (S := S) defaultServerIndex m i m [] /\
    exec (S := S) (defaultContainerName i) m n m [].
Proof.
  eexists _, _. split.
  - unfold defaultServerIndex. eapply exec_step; [apply exec_get|apply exec_ret].
  - unfold defaultContainerName. eapply exec_step; [apply exec_server|apply exec_ret].
Qed.

(** Disconnecting asks for the routes to be cleared. *)
Lemma disconnect_trace (c : VpnConnection S) m ev :
  shows (conn_settings c) m ev -> interface c = true ->
  exists c' rest, disconnectFromVpn c = Ret (tt, c') /\ m_vpnProtocol c' = None /\
    trace c' = app (trace c) (ipc_flushDns :: ipc_clearSavedRoutes :: rest) /\
    (rest = [protocol_deleted] \/ rest = [connection_state Vpn.Disconnected]).
Proof.
  intros Hs Hi. destruct (exec_names m) as (i & n & E1 & E2).
  destruct (E1 _ _ Hs) as (s1 & R1 & Hs1). destruct (E2 _ _ Hs1) as (s2 & R2 & _).
  unfold disconnectFromVpn, rbind, on_settings. rewrite R1. cbn [conn_settings]. rewrite R2.
  unfold ask, rlift, gets. cbn [interface]. rewrite Hi. cbn.
  destruct (m_vpnProtocol c) as [p|] eqn:Ep; cbn; eexists _, _; (split; [reflexivity|]);
    cbn; rewrite <- ?app_assoc; (split; [try done|]); (split; [reflexivity|]); tauto.
Qed.

(** Disconnecting gives the routes back: whatever a connection has asked of
    the service, with its router starting without remembered routes and serving
    every call, disconnecting ends in a state without a protocol, the service
    serves the calls it makes, and then remembers no route and the kernel's
    table holds none that was not there before the connection. *)
Theorem disconnect_gives_routes_back (c : VpnConnection S) (m : SettingsView)
    (ev : list SettingsEvent) (r0 r : RouterLinux W) :
  shows (conn_settings c) m ev -> interface c = true ->
  m_addedRoutes r0 = [] ->
  run_each (trace c) (serve outcome exists_file) r0 = Ret (tt, r) ->
  exists c' r', disconnectFromVpn c = Ret (tt, c') /\ m_vpnProtocol c' = None /\
    run_each (trace c') (serve outcome exists_file) r0 = Ret (tt, r') /\
    m_addedRoutes r' = [] /\
    forall e, rt_has (table r') e = true -> rt_has (table r0) e = true.
Proof.
  intros Hs Hi Hz Hr. destruct (disconnect_trace c m ev Hs Hi) as (c' & rest & E & P & T & Hrest).
  assert (accounted (table r0) r) as Ha.
  { revert Hr. apply run_each_inv; [|by apply accounted_start]. intros e r1 r2 _. apply accounted_serve. }
  set (r1 := mkRouter (m_addedRoutes r) (table r) (app (commands r) [mkCommand
    (if exists_file "/usr/bin/nscd" || exists_file "/usr/sbin/nscd"
        || exists_file "/usr/lib/systemd/system/nscd.service"
     then "systemctl restart nscd" else "systemctl restart systemd-resolved") []])).
  destruct (clear_accounted (table r0) r1 Ha) as (ok & r2 & E2 & A2 & T2).
  exists c', r2. split; [done|]. split; [done|]. rewrite T, (run_each_app _ _ _ _ _ Hr).
  split; [|done]. cbn [run_each serve]. unfold rbind at 1.
  change (RouterLinux.flushDns outcome exists_file r) with (@Ret (unit * RouterLinux W) (tt, r1)).
  cbv beta iota. unfold rbind at 1 2. rewrite E2. by destruct Hrest as [-> | ->].
Qed.
End Connection.

(** ** Witnesses *)

(** The table as the list of its entries. *)
Definition list_table : RouteTable (list rtentry) := {|
  SIOCADDRT := λ e w, if bool_decide (e ∈ w) then (false, w) else (true, e :: w);
  SIOCDELRT := λ e w, (bool_decide (e ∈ w), List.filter (λ e', negb (bool_decide (e' = e))) w)
|}.
#[local] Existing Instance list_table.

#[local] Instance list_table_laws : RouteTableLaws (list rtentry).
Proof.
  refine {| rt_has := λ w e, bool_decide (e ∈ w) |}; cbn [SIOCADDRT SIOCDELRT list_table].
  - intros e w. case_bool_decide; [done|]. intros _. split; [done|]. intros e'. cbn [snd].
    apply eq_true_iff_eq. rewrite orb_true_iff, !bool_decide_eq_true, elem_of_cons. tauto.
  - intros e w. by case_bool_decide.
  - done.
  - intros e w e'. cbn [snd]. apply eq_true_iff_eq.
    rewrite andb_true_iff, !bool_decide_eq_true, list_elem_of_In, filter_In, <- list_elem_of_In. tauto.
Defined.

(** The numbers of dotted texts. *)
Definition dotted_inet : InetAddr := λ s,
  foldl (λ n t, 256 * n + toInt t) 0 (split "." s).
#[local] Existing Instances dotted_inet ipv4_parser windows_store windows_store_laws sample_json.

Definition sample_router : RouterLinux (list rtentry) := mkRouter [] [mkRtentry 1 2 3] [].
Definition routed : RouterLinux (list rtentry) :=
  mkRouter [mkRoute "10.0.0.0/8" "192.0.2.1"]
    [mkRtentry 167772160 3221225985 4278190080; mkRtentry 1 2 3] [].

Lemma sample_requests :
  run_each [add_routes "192.0.2.1" ["10.0.0.0/8"; "nonsense"]] request sample_router = Ret (tt, routed).
Proof. vm_compute. reflexivity. Qed.

Lemma routes_restored_witness :
  exists r', clearSavedRoutes routed = Ret (true, r') /\
    forall e, rt_has (table r') e = rt_has [mkRtentry 1 2 3] e.
Proof.
  destruct (routes_restored [add_routes "192.0.2.1" ["10.0.0.0/8"; "nonsense"]] sample_router
    routed eq_refl sample_requests) as (ok & r' & E & _ & _ & T). destruct (T eq_refl) as [-> V].
  exists r'. split; [exact E|exact V].
Defined.

Definition sample_connection : VpnConnection SampleStore :=
  mkConnection (mkSettings sample_store gatewayEndpoint false []) [] "203.0.113.7"
    (Some (VpnProtocol_new [] 0)) true
    [connection_state Vpn.Connecting; ipc_routeAddList "192.0.2.1" ["10.0.0.0/8"; "nonsense"]].

Lemma sample_connection_shows :
  shows (conn_settings sample_connection) (kv_view sample_store) [].
Proof. split; [apply sample_store_ok|done|done]. Qed.

Lemma sample_connection_served :
  run_each (trace sample_connection) (serve (λ _, Finished) (λ _, false)) sample_router = Ret (tt, routed).
Proof. vm_compute. reflexivity. Qed.

Lemma disconnect_gives_routes_back_witness :
  exists c' r', disconnectFromVpn sample_connection = Ret (tt, c') /\
    run_each (trace c') (serve (λ _, Finished) (λ _, false)) sample_router = Ret (tt, r') /\
    forall e, rt_has (table r') e = true -> rt_has [mkRtentry 1 2 3] e = true.
Proof.
  destruct (disconnect_gives_routes_back (λ _, Finished) (λ _, false) sample_connection
    (kv_view sample_store) [] sample_router routed sample_connection_shows eq_refl eq_refl
    sample_connection_served) as (c' & r' & E & _ & R & _ & T).
  exists c', r'. split; [exact E|]. split; [exact R|exact T].
Defined.
