(* ===== verification/IpRange.v ===== *)
(** * Ranges of addresses on Android

    Model of [IpAddress], [IpRange] and [IpRangeSet]
    (client/android/utils/src/main/kotlin/net/): addresses as arrays of octets,
    ranges between two of them, sets of ranges, and the networks a range is made
    of. An exception is [Abort]. *)
From Stdlib Require Import ZArith Lia Bool.
From stdpp Require Import base list.
From S2P Require Import Prelude.
Local Open Scope Z_scope.

(** ** IpAddress *)

(** A [UByteArray]. *)
Abbreviation Octets := (list Z).

Definition size (a : Octets) : Z := Z.of_nat (length a).
Definition maxMask (a : Octets) : Z := size a * 8.

Definition isMinIp (a : Octets) : bool := forallb (Z.eqb 0) a.
Definition isMaxIp (a : Octets) : bool := forallb (Z.eqb 255) a.

(** The loops run from the last octet: these take it first. *)
Fixpoint inc_octets (l : Octets) : Octets :=
  match l with
  | [] => []
  | x :: l' => let y := u8 (x + 1) in if negb (y =? 0) then y :: l' else y :: inc_octets l'
  end.
Fixpoint dec_octets (l : Octets) : Octets :=
  match l with
  | [] => []
  | x :: l' => let y := u8 (x - 1) in if negb (y =? 255) then y :: l' else y :: dec_octets l'
  end.

Definition inc (a : Octets) : Outcome Octets :=
  if isMaxIp a then Abort else Ret (rev (inc_octets (rev a))).
Definition dec (a : Octets) : Outcome Octets :=
  if isMinIp a then Abort else Ret (rev (dec_octets (rev a))).

(** [(a - b).toInt()] of two octets: a difference of 32-bit words, then signed. *)
Definition octet_diff (x y : Z) : Z :=
  let d := u32 (x - y) in if d <? 2 ^ 31 then d else d - 2 ^ 32.

Fixpoint first_diff (a b : Octets) : Z :=
  match a, b with
  | x :: a', y :: b' => let d := octet_diff x y in if d =? 0 then first_diff a' b' else d
  | _, _ => 0
  end.

Definition compareTo (a b : Octets) : Z :=
  if size a =? size b then first_diff a b else size a - size b.

Definition ip_lt (a b : Octets) : bool := compareTo a b <? 0.
Definition ip_le (a b : Octets) : bool := compareTo a b <=? 0.
Definition ip_equals (a b : Octets) : bool := compareTo a b =? 0.

(** ** IpRange *)
Record IpRange := mkIpRange { rstart : Octets; rend : Octets }.

Definition IpRange_new (start end_ : Octets) : Outcome IpRange :=
  if negb (size start =? size end_) then Abort
  else if ip_lt end_ start then Abort
  else Ret (mkIpRange start end_).

(** [fill] from a position on. *)
Definition fill_from (a : Octets) (v : Z) (from : nat) : Octets :=
  app (take from a) (replicate (length a - from) v).

(** The range of a network. The index has to be one of the array. *)
Definition range_from (address : Octets) (mask : Z) : Outcome IpRange :=
  let lastByte := Z.quot mask 8 in
  if lastByte <? 0 then Abort
  else if lastByte <? size address then
    let i := Z.to_nat lastByte in
    let byteMask := u8 (Z.shiftl 255 (8 - Z.rem mask 8)) in
    let x := default 0 (address !! i) in
    let start := fill_from (<[i := Z.land x byteMask]> address) 0 (S i) in
    let end_ := fill_from (<[i := Z.lor x (Z.lxor byteMask 255)]> address) 255 (S i) in
    IpRange_new start end_
  else IpRange_new address address.

Definition range_contains (r other : IpRange) : bool :=
  ip_le (rstart r) (rstart other) && ip_le (rend other) (rend r).

Definition isIntersect (r other : IpRange) : bool :=
  ip_le (rstart r) (rend other) && ip_le (rstart other) (rend r).

Definition minOf (a b : Octets) : Octets := if ip_le a b then a else b.
Definition maxOf (a b : Octets) : Octets := if ip_le b a then a else b.

(** Whether [op] of the address is [other]; [op] may throw. *)
Definition next_is (op : Octets -> Outcome Octets) (a other : Octets) : Outcome bool :=
  n ← op a; Ret (ip_equals n other).

Definition plus (r other : IpRange) : Outcome (option IpRange) :=
  before ← (if ip_lt (rend other) (rstart r) && negb (isMinIp (rstart r))
            then next_is dec (rstart r) (rend other) else Ret false);
  if (before : bool) then n ← IpRange_new (rstart other) (rend r); Ret (Some n)
  else
    behind ← (if ip_lt (rend r) (rstart other) && negb (isMaxIp (rend r))
              then next_is inc (rend r) (rstart other) else Ret false);
    if (behind : bool) then n ← IpRange_new (rstart r) (rend other); Ret (Some n)
    else if negb (isIntersect r other) then Ret None
    else
      n ← IpRange_new (minOf (rstart r) (rstart other)) (maxOf (rend r) (rend other));
      Ret (Some n).

Definition minus (r other : IpRange) : Outcome (option (list IpRange)) :=
  if range_contains other r then Ret (Some [])
  else if negb (isIntersect r other) then Ret None
  else
    left ← (if ip_lt (rstart r) (rstart other)
            then e ← dec (rstart other); n ← IpRange_new (rstart r) e; Ret [n] else Ret []);
    right ← (if ip_lt (rend other) (rend r)
             then b ← inc (rend other); n ← IpRange_new b (rend r); Ret [n] else Ret []);
    Ret (Some (app left right)).

(** *** The networks of a range *)
Fixpoint countTrailingZeroBits (width : nat) (x : Z) : Z :=
  match width with
  | O => 0
  | S w => if Z.odd x then 0 else 1 + countTrailingZeroBits w (x / 2)
  end.

Fixpoint possible_mask (l : Octets) (mask : Z) : Z :=
  match l with
  | [] => mask
  | x :: l' =>
      let lastZeroBits := countTrailingZeroBits 8 x in
      if negb (lastZeroBits =? 8) then mask - lastZeroBits
      else possible_mask l' (mask - lastZeroBits)
  end.
Definition getPossibleMaxMask (ip : Octets) : Z := possible_mask (rev ip) (maxMask ip).

Fixpoint last_octets (l : Octets) (remainingBits : Z) : Octets :=
  match l with
  | [] => []
  | x :: l' =>
      if 0 <? remainingBits then
        (if 8 <? remainingBits then Z.lor x 255
         else Z.lor x (Z.lxor (u8 (Z.shiftl 255 remainingBits)) 255))
        :: last_octets l' (remainingBits - 8)
      else x :: l'
  end.
Definition getLastIpForMask (ip : Octets) (mask : Z) : Octets :=
  rev (last_octets (rev ip) (maxMask ip - mask)).

(** The inner loop: the mask grows until the network ends within the range. *)
Fixpoint fit_mask (fuel : nat) (currentIp end_ : Octets) (mask : Z) : Outcome (Z * Octets) :=
  let lastIp := getLastIpForMask currentIp mask in
  if ip_lt end_ lastIp then
    match fuel with O => OutOfFuel | S f => fit_mask f currentIp end_ (mask + 1) end
  else Ret (mask, lastIp).

Fixpoint subnets_loop (fuel : nat) (currentIp end_ : Octets) : Outcome (list (Octets * Z)) :=
  if ip_le currentIp end_ then
    match fuel with
    | O => OutOfFuel
    | S f =>
        '(mask, lastIp) ← fit_mask (length currentIp * 8) currentIp end_ (getPossibleMaxMask currentIp);
        if isMaxIp lastIp then Ret [(currentIp, mask)]
        else
          next ← inc lastIp;
          rest ← subnets_loop f next end_;
          Ret ((currentIp, mask) :: rest)
    end
  else Ret [].

(** The networks by their first address and their mask. *)
Definition range_subnets (r : IpRange) : Outcome (list (Octets * Z)) :=
  subnets_loop (16 * length (rstart r) + 2) (rstart r) (rend r).

Definition range_compareTo (r other : IpRange) : Z :=
  let d := compareTo (rstart r) (rstart other) in
  if d =? 0 then compareTo (rend r) (rend other) else d.

(** ** IpRangeSet

    A [TreeSet]: the ranges in their order, no two equal. *)
Fixpoint tree_add (r : IpRange) (s : list IpRange) : list IpRange :=
  match s with
  | [] => [r]
  | x :: s' =>
      let d := range_compareTo r x in
      if d <? 0 then r :: s else if d =? 0 then s else x :: tree_add r s'
  end.

(** [kept] are the ranges the iterator has passed and not removed. *)
Fixpoint add_loop (kept rest : list IpRange) (rangeToAdd : IpRange) : Outcome (list IpRange) :=
  match rest with
  | [] => Ret (tree_add rangeToAdd kept)
  | curRange :: rest' =>
      apart ← (if ip_lt (rend rangeToAdd) (rstart curRange) && negb (isMaxIp (rend rangeToAdd))
               then adj ← next_is inc (rend rangeToAdd) (rstart curRange); Ret (negb adj)
               else Ret false);
      if (apart : bool) then Ret (tree_add rangeToAdd (app kept rest))
      else
        res ← plus curRange rangeToAdd;
        match res with
        | None => add_loop (app kept [curRange]) rest' rangeToAdd
        | Some resultRange =>
            if range_compareTo resultRange curRange =? 0 then Ret (app kept rest)
            else add_loop kept rest' resultRange
        end
  end.
Definition set_add (s : list IpRange) (ipRange : IpRange) : Outcome (list IpRange) :=
  add_loop [] s ipRange.

Fixpoint remove_loop (kept rest splitRanges : list IpRange) (ipRange : IpRange) :
    Outcome (list IpRange) :=
  match rest with
  | [] => Ret (foldl (λ s r, tree_add r s) kept splitRanges)
  | curRange :: rest' =>
      if ip_lt (rend ipRange) (rstart curRange)
      then Ret (foldl (λ s r, tree_add r s) (app kept rest) splitRanges)
      else
        res ← minus curRange ipRange;
        match res with
        | None => remove_loop (app kept [curRange]) rest' splitRanges ipRange
        | Some resultRanges => remove_loop kept rest' (app splitRanges resultRanges) ipRange
        end
  end.
Definition set_remove (s : list IpRange) (ipRange : IpRange) : Outcome (list IpRange) :=
  remove_loop [] s [] ipRange.

Fixpoint set_subnets (s : list IpRange) : Outcome (list (Octets * Z)) :=
  match s with
  | [] => Ret []
  | r :: s' => a ← range_subnets r; b ← set_subnets s'; Ret (app a b)
  end.
