(* ===== verification/IpRangeProperties.v ===== *)
(** * Ranges of addresses are sets of addresses

    Octet arrays as numbers: the operations on addresses are arithmetic, a range
    is an interval, the networks a range is split into cover it exactly, and the
    operations of a set of ranges are union and difference. *)
From Stdlib Require Import ZArith Lia Bool Sorting.Sorted.
From stdpp Require Import base list.
From S2P Require Import Prelude IpRange.
Local Open Scope Z_scope.

Definition octets (l : list Z) : Prop := Forall (λ x, 0 <= x < 256) l.

(** ** The number of an array of octets *)

(** The last octet first. *)
Fixpoint num_le (l : list Z) : Z := match l with [] => 0 | x :: l' => x + 256 * num_le l' end.
Definition num (a : list Z) : Z := num_le (rev a).
Definition span (l : list Z) : Z := 2 ^ (8 * size l).

Lemma span_nil : span [] = 1.
Proof. reflexivity. Qed.
Lemma span_cons x l : span (x :: l) = 256 * span l.
Proof.
  unfold span, size. cbn [length]. rewrite Nat2Z.inj_succ.
  replace (8 * Z.succ (Z.of_nat (length l))) with (8 + 8 * Z.of_nat (length l)) by lia.
  by rewrite Z.pow_add_r by lia.
Qed.
Lemma span_pos l : 0 < span l.
Proof. unfold span, size. apply Z.pow_pos_nonneg; lia. Qed.
Lemma size_rev l : size (rev l) = size l.
Proof. unfold size. by rewrite length_rev. Qed.
Lemma span_rev l : span (rev l) = span l.
Proof. unfold span. by rewrite size_rev. Qed.
Lemma octets_rev l : octets l -> octets (rev l).
Proof. unfold octets. intros Hl. by apply Forall_rev. Qed.
Lemma rev_rev (l : list Z) : rev (rev l) = l.
Proof. apply rev_involutive. Qed.

Lemma octets_cons x l : octets (x :: l) <-> 0 <= x < 256 /\ octets l.
Proof. unfold octets. by rewrite list.Forall_cons. Qed.
Lemma octets_nil : octets [].
Proof. constructor. Qed.

Lemma num_le_bound l : octets l -> 0 <= num_le l < span l.
Proof.
  induction l as [|x l IH]; [rewrite span_nil; simpl; lia|]. rewrite octets_cons, span_cons. intros [Hx Hl].
  specialize (IH Hl). simpl. lia.
Qed.
Lemma num_bound a : octets a -> 0 <= num a < span a.
Proof. intros Ha. unfold num. rewrite <- (span_rev a). by apply num_le_bound, octets_rev. Qed.

Lemma num_le_app l1 l2 : num_le (app l1 l2) = num_le l1 + span l1 * num_le l2.
Proof.
  induction l1 as [|x l1 IH]; [rewrite span_nil; simpl; lia|]. cbn [app num_le].
  rewrite IH, span_cons. lia.
Qed.
Lemma num_cons x a : num (x :: a) = x * span a + num a.
Proof. unfold num. cbn [rev]. rewrite num_le_app, span_rev. simpl. lia. Qed.
Lemma num_app a b : num (app a b) = num a * span b + num b.
Proof. unfold num. rewrite rev_app_distr, num_le_app, span_rev. lia. Qed.

(** Two arrays of a length with the same number are equal. *)
Lemma num_le_inj l1 l2 : octets l1 -> octets l2 -> length l1 = length l2 ->
  num_le l1 = num_le l2 -> l1 = l2.
Proof.
  revert l2. induction l1 as [|x l1 IH]; intros [|y l2]; try done.
  rewrite !octets_cons. intros [Hx H1] [Hy H2] [= Hl]. simpl. intros E.
  assert (x = y /\ num_le l1 = num_le l2) as [-> E'] by lia. f_equal. by apply IH.
Qed.

(** ** Arithmetic of addresses *)
Lemma u8_small x : 0 <= x < 256 -> u8 x = x.
Proof. apply Z.mod_small. Qed.

Lemma inc_octets_spec l : octets l -> num_le l <> span l - 1 ->
  num_le (inc_octets l) = num_le l + 1 /\ octets (inc_octets l) /\ length (inc_octets l) = length l.
Proof.
  induction l as [|x l IH]; [rewrite span_nil; simpl; lia|]. rewrite octets_cons, span_cons.
  intros [Hx Hl] Hn. cbn [inc_octets].
  destruct (Z.eq_dec x 255) as [->|Hne].
  - change (u8 (255 + 1)) with 0. cbn [Z.eqb negb]. simpl in Hn.
    destruct (IH Hl) as (E & O & L); [lia|]. simpl. rewrite E, L. rewrite octets_cons. split_and!; (lia || done).
  - rewrite u8_small by lia. replace (x + 1 =? 0) with false by lia. cbn [negb]. simpl.
    rewrite octets_cons. split_and!; (lia || done).
Qed.

Lemma dec_octets_spec l : octets l -> num_le l <> 0 ->
  num_le (dec_octets l) = num_le l - 1 /\ octets (dec_octets l) /\ length (dec_octets l) = length l.
Proof.
  induction l as [|x l IH]; [simpl; lia|]. rewrite octets_cons. intros [Hx Hl] Hn. cbn [dec_octets].
  destruct (Z.eq_dec x 0) as [->|Hne].
  - change (u8 (0 - 1)) with 255. cbn [Z.eqb negb]. simpl in Hn.
    destruct (IH Hl) as (E & O & L); [lia|]. simpl. rewrite E, L. rewrite octets_cons. split_and!; (lia || done).
  - rewrite u8_small by lia. replace (x - 1 =? 255) with false by lia. cbn [negb]. simpl.
    rewrite octets_cons. split_and!; (lia || done).
Qed.

Lemma forallb_rev {A} (f : A -> bool) l : forallb f (rev l) = forallb f l.
Proof.
  induction l as [|x l IH]; [done|]. cbn [rev forallb]. rewrite forallb_app, IH. simpl.
  rewrite andb_true_r. apply andb_comm.
Qed.

Lemma all_max_le l : octets l -> forallb (Z.eqb 255) l = (num_le l =? span l - 1).
Proof.
  induction l as [|x l IH]; [done|]. rewrite octets_cons, span_cons. intros [Hx Hl].
  cbn [forallb num_le]. rewrite IH by done. pose proof (num_le_bound l Hl). lia.
Qed.
Lemma all_min_le l : octets l -> forallb (Z.eqb 0) l = (num_le l =? 0).
Proof.
  induction l as [|x l IH]; [done|]. rewrite octets_cons. intros [Hx Hl].
  cbn [forallb num_le]. rewrite IH by done. pose proof (num_le_bound l Hl). lia.
Qed.
Lemma isMaxIp_num a : octets a -> isMaxIp a = (num a =? span a - 1).
Proof.
  intros Ha. unfold isMaxIp, num. rewrite <- forallb_rev, all_max_le by by apply octets_rev.
  by rewrite span_rev.
Qed.
Lemma isMinIp_num a : octets a -> isMinIp a = (num a =? 0).
Proof. intros Ha. unfold isMinIp, num. by rewrite <- forallb_rev, all_min_le by by apply octets_rev. Qed.

(** An address of one of the two versions. *)
Definition valid (a : list Z) : Prop := (length a = 4 \/ length a = 16)%nat /\ octets a.

Lemma inc_spec a : valid a -> num a <> span a - 1 ->
  exists b, inc a = Ret b /\ valid b /\ length b = length a /\ num b = num a + 1.
Proof.
  intros [Hl Ha] Hn. unfold inc. rewrite isMaxIp_num by done. replace (num a =? span a - 1) with false by lia.
  destruct (inc_octets_spec (rev a)) as (E & O & L); [by apply octets_rev|by rewrite span_rev|].
  eexists. split; [done|]. unfold num. rewrite rev_rev, E. rewrite length_rev, L, length_rev.
  split_and!; try done. split; [by rewrite length_rev, L, length_rev|by apply octets_rev].
Qed.

Lemma dec_spec a : valid a -> num a <> 0 ->
  exists b, dec a = Ret b /\ valid b /\ length b = length a /\ num b = num a - 1.
Proof.
  intros [Hl Ha] Hn. unfold dec. rewrite isMinIp_num by done. replace (num a =? 0) with false by lia.
  destruct (dec_octets_spec (rev a)) as (E & O & L); [by apply octets_rev|done|].
  eexists. split; [done|]. unfold num. rewrite rev_rev, E. rewrite length_rev, L, length_rev.
  split_and!; try done. split; [by rewrite length_rev, L, length_rev|by apply octets_rev].
Qed.

(** ** The order of addresses: by version, then by number *)
Definition ord (a : list Z) : Z := size a * 2 ^ 128 + num a.

Lemma octet_diff_spec x y : 0 <= x < 256 -> 0 <= y < 256 -> octet_diff x y = x - y.
Proof.
  intros Hx Hy. unfold octet_diff, u32. destruct (Z.le_gt_cases y x).
  - rewrite Z.mod_small by lia. by destruct (Z.ltb_spec (x - y) (2 ^ 31)); [|lia].
  - rewrite <- (Z.mod_unique (x - y) (2 ^ 32) (-1) (x - y + 2 ^ 32)) by lia.
    destruct (Z.ltb_spec (x - y + 2 ^ 32) (2 ^ 31)); lia.
Qed.

Lemma first_diff_spec a b : octets a -> octets b -> length a = length b ->
  Z.sgn (first_diff a b) = Z.sgn (num a - num b).
Proof.
  revert b. induction a as [|x a IH]; intros [|y b]; try done.
  rewrite !octets_cons. intros [Hx Ha] [Hy Hb] [= Hl]. cbn [first_diff].
  rewrite octet_diff_spec, !num_cons by done.
  assert (span a = span b) as Es by (unfold span, size; by rewrite Hl).
  pose proof (num_bound a Ha). pose proof (num_bound b Hb). rewrite Es in *.
  destruct (Z.eqb_spec (x - y) 0) as [E|E].
  - rewrite IH by done. f_equal. assert (x = y) as -> by lia. lia.
  - destruct (Z.lt_trichotomy x y) as [Hc|[Hc|Hc]]; [|lia|].
    + rewrite !Z.sgn_neg; [done|nia|lia].
    + rewrite !Z.sgn_pos; [done|nia|lia].
Qed.

Lemma span_valid a : valid a -> 0 < span a <= 2 ^ 128.
Proof.
  intros [Hl _]. split; [apply span_pos|]. unfold span, size.
  apply Z.pow_le_mono_r; lia.
Qed.

Lemma compareTo_spec a b : valid a -> valid b -> Z.sgn (compareTo a b) = Z.sgn (ord a - ord b).
Proof.
  intros Ha Hb. unfold compareTo, ord.
  pose proof (span_valid a Ha). pose proof (span_valid b Hb).
  pose proof (num_bound a (proj2 Ha)). pose proof (num_bound b (proj2 Hb)).
  destruct (Z.eqb_spec (size a) (size b)) as [E|E].
  - rewrite first_diff_spec; [f_equal; lia|apply Ha|apply Hb|unfold size in E; lia].
  - destruct (Z.lt_trichotomy (size a) (size b)) as [Hc|[Hc|Hc]]; [|lia|].
    + rewrite !Z.sgn_neg; [done|nia|lia].
    + rewrite !Z.sgn_pos; [done|nia|lia].
Qed.

Lemma ip_lt_spec a b : valid a -> valid b -> ip_lt a b = (ord a <? ord b).
Proof. intros Ha Hb. unfold ip_lt. pose proof (compareTo_spec a b Ha Hb). lia. Qed.
Lemma ip_le_spec a b : valid a -> valid b -> ip_le a b = (ord a <=? ord b).
Proof. intros Ha Hb. unfold ip_le. pose proof (compareTo_spec a b Ha Hb). lia. Qed.
Lemma ip_equals_spec a b : valid a -> valid b -> ip_equals a b = (ord a =? ord b).
Proof. intros Ha Hb. unfold ip_equals. pose proof (compareTo_spec a b Ha Hb). lia. Qed.

Lemma ord_same a b : length a = length b -> ord a - ord b = num a - num b.
Proof. intros E. unfold ord, size. rewrite E. lia. Qed.
Lemma ord_size a b : valid a -> valid b -> ord a = ord b -> a = b.
Proof.
  intros Ha Hb E. unfold ord in E. pose proof (span_valid a Ha). pose proof (span_valid b Hb).
  pose proof (num_bound a (proj2 Ha)). pose proof (num_bound b (proj2 Hb)).
  assert (size a = size b) as Es by nia. assert (num a = num b) as En by nia.
  rewrite <- (rev_rev a), <- (rev_rev b). f_equal.
  apply num_le_inj; [apply octets_rev, Ha|apply octets_rev, Hb| |exact En].
  rewrite !length_rev. unfold size in Es. lia.
Qed.

(** ** Ranges *)
Record range_ok (r : IpRange) : Prop := {
  ok_start : valid (rstart r);
  ok_end : valid (rend r);
  ok_length : length (rstart r) = length (rend r);
  ok_order : num (rstart r) <= num (rend r)
}.

Definition in_range (x : list Z) (r : IpRange) : Prop := ord (rstart r) <= ord x <= ord (rend r).

Lemma ord_length a b : valid a -> valid b -> ord a <= ord b -> (length a <= length b)%nat.
Proof.
  intros Ha Hb. unfold ord. pose proof (span_valid a Ha). pose proof (span_valid b Hb).
  pose proof (num_bound a (proj2 Ha)). pose proof (num_bound b (proj2 Hb)). unfold size in *. nia.
Qed.

Lemma ok_ord r : range_ok r -> ord (rstart r) <= ord (rend r).
Proof. intros [_ _ Hl Ho]. pose proof (ord_same _ _ Hl). lia. Qed.

Lemma IpRange_new_ok s e :
  valid s -> valid e -> length s = length e -> num s <= num e ->
  IpRange_new s e = Ret (mkIpRange s e) /\ range_ok (mkIpRange s e).
Proof.
  intros Hs He Hl Ho. split; [|by split]. unfold IpRange_new, size. rewrite Hl, Z.eqb_refl. cbn [negb].
  rewrite ip_lt_spec by done. pose proof (ord_same s e Hl).
  by replace (ord e <? ord s) with false by lia.
Qed.

(** Neighbours in the order. *)
Lemma next_is_inc a b : valid a -> valid b -> ord a < ord b -> isMaxIp a = false ->
  next_is inc a b = Ret (ord a + 1 =? ord b).
Proof.
  intros Ha Hb Hlt Hm. rewrite isMaxIp_num in Hm by apply Ha.
  destruct (inc_spec a Ha) as (n & E & Hn & L & N); [lia|]. unfold next_is. rewrite E. cbn [mbind Outcome_bind].
  rewrite ip_equals_spec by done. f_equal. pose proof (ord_same n a L). lia.
Qed.
Lemma next_is_dec a b : valid a -> valid b -> ord b < ord a -> isMinIp a = false ->
  next_is dec a b = Ret (ord b + 1 =? ord a).
Proof.
  intros Ha Hb Hlt Hm. rewrite isMinIp_num in Hm by apply Ha.
  destruct (dec_spec a Ha) as (n & E & Hn & L & N); [lia|]. unfold next_is. rewrite E. cbn [mbind Outcome_bind].
  rewrite ip_equals_spec by done. f_equal. pose proof (ord_same n a L). lia.
Qed.

(** Addresses next to each other in the order are of one version unless the
    first is the last of its version. *)
Lemma ord_next_length a b : valid a -> valid b -> ord a + 1 = ord b -> num b <> 0 -> length a = length b.
Proof.
  intros Ha Hb E Hz. unfold ord in E. pose proof (span_valid a Ha). pose proof (span_valid b Hb).
  pose proof (num_bound a (proj2 Ha)). pose proof (num_bound b (proj2 Hb)). unfold size in *. nia.
Qed.
Lemma ord_next_length' a b : valid a -> valid b -> ord a + 1 = ord b -> num a <> span a - 1 -> length a = length b.
Proof.
  intros Ha Hb E Hz. unfold ord in E. pose proof (span_valid a Ha). pose proof (span_valid b Hb).
  pose proof (num_bound a (proj2 Ha)). pose proof (num_bound b (proj2 Hb)). unfold size in *. nia.
Qed.

Lemma plus_spec r o : range_ok r -> range_ok o ->
  exists res, plus r o = Ret res /\
    match res with
    | None => True
    | Some n => range_ok n /\ forall x, valid x -> in_range x n <-> in_range x r \/ in_range x o
    end.
Proof.
  intros Hr Ho. pose proof (ok_ord r Hr) as Or. pose proof (ok_ord o Ho) as Oo.
  destruct Hr as [Hrs Hre Hrl Hrn], Ho as [Hos Hoe Hol Hon]. unfold plus, isIntersect.
  rewrite !ip_lt_spec, !ip_le_spec by done.
  assert (ord (rstart r) <= ord (rend o) -> ord (rstart o) <= ord (rend r) -> length (rstart r) = length (rstart o))
    as Hlen.
  { intros H1 H2. apply ord_length in H1; [|done..]. apply ord_length in H2; [|done..]. lia. }
  destruct ((ord (rend o) <? ord (rstart r)) && negb (isMinIp (rstart r))) eqn:E1.
  { apply andb_true_iff in E1 as [E1 Em%negb_true_iff].
    rewrite next_is_dec by (done || lia). cbn [mbind Outcome_bind].
    destruct (Z.eqb_spec (ord (rend o) + 1) (ord (rstart r))) as [E|E].
    - rewrite isMinIp_num in Em by apply Hrs.
      assert (length (rend o) = length (rstart r)) as L by (apply ord_next_length; (done || lia)).
      pose proof (ord_same (rend o) (rstart r) L).
      destruct (IpRange_new_ok (rstart o) (rend r)) as [-> Hn]; [done|done|lia|lia|].
      eexists. split; [done|]. split; [done|]. intros x Hx. unfold in_range. simpl. lia.
    - replace (ord (rend r) <? ord (rstart o)) with false by lia. cbn [andb mbind Outcome_bind].
      replace (ord (rstart r) <=? ord (rend o)) with false by lia. cbn [andb negb]. by eexists. }
  cbn [mbind Outcome_bind].
  destruct ((ord (rend r) <? ord (rstart o)) && negb (isMaxIp (rend r))) eqn:E2.
  { apply andb_true_iff in E2 as [E2 Em%negb_true_iff].
    rewrite next_is_inc by (done || lia). cbn [mbind Outcome_bind].
    destruct (Z.eqb_spec (ord (rend r) + 1) (ord (rstart o))) as [E|E].
    - rewrite isMaxIp_num in Em by apply Hre.
      assert (length (rend r) = length (rstart o)) as L by (apply ord_next_length'; (done || lia)).
      pose proof (ord_same (rend r) (rstart o) L).
      destruct (IpRange_new_ok (rstart r) (rend o)) as [-> Hn]; [done|done|lia|lia|].
      eexists. split; [done|]. split; [done|]. intros x Hx. unfold in_range. simpl. lia.
    - replace (ord (rstart o) <=? ord (rend r)) with false by lia. rewrite andb_false_r. cbn [negb]. by eexists. }
  cbn [mbind Outcome_bind].
  destruct ((ord (rstart r) <=? ord (rend o)) && (ord (rstart o) <=? ord (rend r))) eqn:E3; cbn [negb];
    [|by eexists].
  apply andb_true_iff in E3 as [E3 E4]. specialize (Hlen ltac:(lia) ltac:(lia)).
  pose proof (ord_same (rstart r) (rstart o) ltac:(lia)). pose proof (ord_same (rend r) (rend o) ltac:(lia)).
  unfold minOf, maxOf. rewrite !ip_le_spec by done.
  destruct (IpRange_new_ok (if ord (rstart r) <=? ord (rstart o) then rstart r else rstart o)
    (if ord (rend o) <=? ord (rend r) then rend r else rend o)) as [-> Hn].
  1-4: destruct (Z.leb_spec (ord (rstart r)) (ord (rstart o))), (Z.leb_spec (ord (rend o)) (ord (rend r)));
    (done || lia).
  eexists. split; [done|]. split; [done|]. intros x Hx. unfold in_range. simpl.
  destruct (Z.leb_spec (ord (rstart r)) (ord (rstart o))), (Z.leb_spec (ord (rend o)) (ord (rend r))); lia.
Qed.

(** The part of a range below another, and the part above. *)
Lemma left_part r o : range_ok r -> range_ok o -> length (rstart r) = length (rstart o) ->
  exists l, (if ip_lt (rstart r) (rstart o)
             then e ← dec (rstart o); n ← IpRange_new (rstart r) e; Ret [n] else Ret []) = Ret l /\
    Forall range_ok l /\
    forall x, valid x -> Exists (in_range x) l <-> ord (rstart r) <= ord x < ord (rstart o).
Proof.
  intros [Hrs Hre Hrl Hrn] [Hos Hoe Hol Hon] L. rewrite ip_lt_spec by done.
  pose proof (ord_same (rstart r) (rstart o) L). pose proof (num_bound (rstart r) (proj2 Hrs)).
  destruct (Z.ltb_spec (ord (rstart r)) (ord (rstart o))) as [Hlt|Hge].
  - destruct (dec_spec (rstart o) Hos) as (e & E & He & Le & Ne); [lia|]. rewrite E. cbn [mbind Outcome_bind].
    destruct (IpRange_new_ok (rstart r) e) as [-> Hn]; [done|done|congruence|lia|].
    eexists. split; [done|]. split; [by apply list.Forall_singleton|]. intros x Hx.
    rewrite Exists_cons, Exists_nil. unfold in_range. simpl. pose proof (ord_same e (rstart o) Le). lia.
  - exists []. split; [done|]. split; [constructor|]. intros x Hx. rewrite Exists_nil. lia.
Qed.
Lemma right_part r o : range_ok r -> range_ok o -> length (rstart r) = length (rstart o) ->
  exists l, (if ip_lt (rend o) (rend r)
             then b ← inc (rend o); n ← IpRange_new b (rend r); Ret [n] else Ret []) = Ret l /\
    Forall range_ok l /\
    forall x, valid x -> Exists (in_range x) l <-> ord (rend o) < ord x <= ord (rend r).
Proof.
  intros [Hrs Hre Hrl Hrn] [Hos Hoe Hol Hon] L. rewrite ip_lt_spec by done.
  pose proof (ord_same (rend o) (rend r) ltac:(lia)). pose proof (num_bound (rend r) (proj2 Hre)).
  assert (span (rend o) = span (rend r)) as Es by (unfold span, size; do 3 f_equal; lia).
  destruct (Z.ltb_spec (ord (rend o)) (ord (rend r))) as [Hlt|Hge].
  - destruct (inc_spec (rend o) Hoe) as (b & E & Hb & Lb & Nb); [lia|]. rewrite E. cbn [mbind Outcome_bind].
    destruct (IpRange_new_ok b (rend r)) as [-> Hn]; [done|done|lia|lia|].
    eexists. split; [done|]. split; [by apply list.Forall_singleton|]. intros x Hx.
    rewrite Exists_cons, Exists_nil. unfold in_range. simpl. pose proof (ord_same b (rend o) Lb). lia.
  - exists []. split; [done|]. split; [constructor|]. intros x Hx. rewrite Exists_nil. lia.
Qed.

Lemma minus_spec r o : range_ok r -> range_ok o ->
  exists res, minus r o = Ret res /\
    match res with
    | None => forall x, in_range x r -> ~ in_range x o
    | Some l => Forall range_ok l /\
        forall x, valid x -> Exists (in_range x) l <-> in_range x r /\ ~ in_range x o
    end.
Proof.
  intros Hr Ho. pose proof (ok_ord r Hr) as Or. pose proof (ok_ord o Ho) as Oo.
  pose proof Hr as [Hrs Hre Hrl Hrn]. pose proof Ho as [Hos Hoe Hol Hon].
  unfold minus, range_contains, isIntersect. rewrite !ip_le_spec by done.
  destruct ((ord (rstart o) <=? ord (rstart r)) && (ord (rend r) <=? ord (rend o))) eqn:E1.
  { eexists. split; [done|]. split; [constructor|]. intros x Hx. rewrite Exists_nil. unfold in_range. lia. }
  destruct ((ord (rstart r) <=? ord (rend o)) && (ord (rstart o) <=? ord (rend r))) eqn:E2; cbn [negb].
  - apply andb_true_iff in E2 as [E2 E3].
    assert (length (rstart r) = length (rstart o)) as L.
    { apply Z.leb_le, ord_length in E2; [|done..]. apply Z.leb_le, ord_length in E3; [|done..]. lia. }
    destruct (left_part r o Hr Ho L) as (l1 & -> & F1 & M1).
    destruct (right_part r o Hr Ho L) as (l2 & E & F2 & M2). cbn [mbind Outcome_bind] in *.
    rewrite E. cbn [mbind Outcome_bind].
    eexists. split; [done|]. split; [by apply Forall_app|]. intros x Hx.
    rewrite Exists_app, M1, M2 by done. unfold in_range. lia.
  - eexists. split; [done|]. intros x. unfold in_range. lia.
Qed.

(** ** Sets of ranges *)
Definition member (x : list Z) (s : list IpRange) : Prop := Exists (in_range x) s.
Definition by_start (a b : IpRange) : Prop := ord (rstart a) <= ord (rstart b).
Record set_ok (s : list IpRange) : Prop := {
  set_ranges : Forall range_ok s;
  set_sorted : StronglySorted by_start s
}.

Lemma range_compareTo_spec r o : range_ok r -> range_ok o ->
  (range_compareTo r o < 0 -> by_start r o) /\ (range_compareTo r o = 0 -> r = o) /\
  (0 < range_compareTo r o -> by_start o r).
Proof.
  intros [Hrs Hre _ _] [Hos Hoe _ _]. unfold range_compareTo, by_start.
  pose proof (compareTo_spec (rstart r) (rstart o) Hrs Hos) as E1.
  pose proof (compareTo_spec (rend r) (rend o) Hre Hoe) as E2.
  destruct (Z.eqb_spec (compareTo (rstart r) (rstart o)) 0) as [E|E]; [|lia].
  split; [lia|]. split; [|lia]. intros E0. destruct r, o. simpl in *. f_equal; apply ord_size; (done || lia).
Qed.

Lemma tree_add_spec r s : range_ok r -> set_ok s ->
  set_ok (tree_add r s) /\ forall x, member x (tree_add r s) <-> in_range x r \/ member x s.
Proof.
  intros Hr [Hf Hs]. induction Hs as [|y s Hs IH Hy]; simpl.
  - split; [split; [by apply list.Forall_singleton|by repeat constructor]|]. intros x.
    unfold member. rewrite Exists_cons, Exists_nil. done.
  - apply list.Forall_cons in Hf as [Hyo Hf]. destruct (IH Hf) as [[If Is] Im].
    destruct (range_compareTo_spec r y Hr Hyo) as (C1 & C2 & C3).
    destruct (Z.ltb_spec (range_compareTo r y) 0) as [Hc|Hc]; [|destruct (Z.eqb_spec (range_compareTo r y) 0) as [Hz|Hz]].
    + split; [|intros x; unfold member; by rewrite Exists_cons].
      split; [constructor; [done|by constructor]|]. constructor; [by constructor|]. specialize (C1 Hc).
      constructor; [done|]. eapply list.Forall_impl; [exact Hy|]. unfold by_start in *. intros z. lia.
    + rewrite (C2 Hz). split; [split; [by constructor|by constructor]|].
      intros x. unfold member. rewrite Exists_cons. tauto.
    + split; [split; [by constructor|]|].
      * constructor; [done|]. apply list.Forall_forall. intros z Hz'.
        specialize (C3 ltac:(lia)).
        assert (z = r \/ z ∈ s) as [-> |Hin]; [|done|by rewrite list.Forall_forall in Hy; apply Hy].
        clear -Hz'. induction s as [|w s IHs]; simpl in Hz'; [left; by apply list_elem_of_singleton|].
        destruct (range_compareTo r w <? 0); [rewrite !elem_of_cons in *; tauto|].
        destruct (range_compareTo r w =? 0); [rewrite !elem_of_cons in *; tauto|].
        rewrite !elem_of_cons in *. tauto.
      * intros x. unfold member in *. rewrite !Exists_cons, Im. tauto.
Qed.

Lemma tree_add_all l s : Forall range_ok l -> set_ok s ->
  set_ok (foldl (λ s r, tree_add r s) s l) /\
  forall x, member x (foldl (λ s r, tree_add r s) s l) <-> member x l \/ member x s.
Proof.
  intros Hl. revert s. induction Hl as [|r l Hr Hl IH]; intros s Hs; simpl.
  - split; [done|]. intros x. unfold member. rewrite Exists_nil. tauto.
  - destruct (tree_add_spec r s Hr Hs) as [H1 M1]. destruct (IH _ H1) as [H2 M2]. split; [done|].
    intros x. rewrite M2, M1. unfold member. rewrite Exists_cons. tauto.
Qed.

Lemma set_ok_app_cons a r b : set_ok (app a (r :: b)) ->
  range_ok r /\ set_ok (app a b) /\ Forall (by_start r) b.
Proof.
  intros [Hf Hs]. apply Forall_app in Hf as [Ha Hb]. apply list.Forall_cons in Hb as [Hr Hb].
  split; [done|]. clear Hr.
  induction a as [|y a IH]; simpl in *.
  - inversion Hs; subst. split; [by split|done].
  - inversion Hs as [|? ? Hs' Hy]; subst. apply list.Forall_cons in Ha as [Hyo Ha].
    destruct (IH Ha Hs') as [[If Is] Hr]. split; [|done]. split; [by constructor|]. constructor; [done|].
    apply Forall_app in Hy as [Hy1 Hy2]. apply list.Forall_cons in Hy2 as [_ Hy2]. by apply Forall_app.
Qed.

Lemma member_app_cons x a r b : member x (app a (r :: b)) <-> in_range x r \/ member x (app a b).
Proof. unfold member. rewrite !Exists_app, Exists_cons. tauto. Qed.

Lemma add_loop_spec kept rest r :
  set_ok (app kept rest) -> range_ok r ->
  exists s', add_loop kept rest r = Ret s' /\ set_ok s' /\
    forall x, valid x -> member x s' <-> in_range x r \/ member x (app kept rest).
Proof.
  revert kept r. induction rest as [|cur rest IH]; intros kept r Hs Hr; cbn [add_loop].
  { rewrite app_nil_r in *. destruct (tree_add_spec r kept Hr Hs) as [Ho Hm]. by eexists. }
  pose proof (set_ok_app_cons _ _ _ Hs) as (Hc & Hs' & _).
  pose proof Hr as [Hrs Hre _ _]. pose proof Hc as [Hcs Hce _ _].
  assert (forall k, exists s', (match k : bool with true => Ret (tree_add r (app kept (cur :: rest)))
     | false => plus cur r ≫= λ res, match res with
         | None => add_loop (app kept [cur]) rest r
         | Some n => if range_compareTo n cur =? 0 then Ret (app kept (cur :: rest)) else add_loop kept rest n
         end end) = Ret s' /\ set_ok s' /\
    forall x, valid x -> member x s' <-> in_range x r \/ member x (app kept (cur :: rest))) as Hmain.
  { intros [].
    - destruct (tree_add_spec r _ Hr Hs) as [Ho Hm]. by eexists.
    - destruct (plus_spec cur r Hc Hr) as (res & -> & Hres). cbn [mbind Outcome_bind]. destruct res as [n|].
      + destruct Hres as [Hn Hm]. destruct (Z.eqb_spec (range_compareTo n cur) 0) as [E|E].
        * apply (range_compareTo_spec n cur Hn Hc) in E as ->. eexists. split; [done|]. split; [done|].
          intros x Hx. rewrite member_app_cons. specialize (Hm x Hx). tauto.
        * destruct (IH kept n Hs' Hn) as (s' & E' & Ho & M). exists s'. split; [done|]. split; [done|].
          intros x Hx. rewrite M, Hm, member_app_cons by done. tauto.
      + destruct (IH (app kept [cur]) r) as (s' & E' & Ho & M); [by rewrite <- app_assoc|done|].
        exists s'. split; [done|]. split; [done|]. intros x Hx. rewrite M by done. by rewrite <- app_assoc. }
  rewrite ip_lt_spec by done. destruct (_ && _) eqn:E; [|apply (Hmain false)].
  apply andb_true_iff in E as [E1 E2%negb_true_iff]. rewrite next_is_inc by (done || lia).
  apply Hmain.
Qed.

Lemma remove_loop_spec kept rest split_ r :
  set_ok (app kept rest) -> Forall range_ok split_ -> range_ok r ->
  (forall x, member x kept -> ~ in_range x r) -> (forall x, valid x -> member x split_ -> ~ in_range x r) ->
  exists s', remove_loop kept rest split_ r = Ret s' /\ set_ok s' /\
    forall x, valid x -> member x s' <-> (member x split_ \/ member x (app kept rest)) /\ ~ in_range x r.
Proof.
  revert kept split_. induction rest as [|cur rest IH]; intros kept split_ Hs Hf Hr Hk Hp; cbn [remove_loop].
  { rewrite app_nil_r in *. destruct (tree_add_all split_ kept Hf Hs) as [Ho Hm]. eexists.
    split; [done|]. split; [done|]. intros x Hx. rewrite Hm. specialize (Hk x). specialize (Hp x Hx). tauto. }
  pose proof (set_ok_app_cons _ _ _ Hs) as (Hc & Hs' & Hafter).
  pose proof Hr as [Hrs Hre _ _]. pose proof Hc as [Hcs Hce _ _]. rewrite ip_lt_spec by done.
  destruct (Z.ltb_spec (ord (rend r)) (ord (rstart cur))) as [Hlt|Hge].
  - destruct (tree_add_all split_ (app kept (cur :: rest)) Hf Hs) as [Ho Hm]. eexists.
    split; [done|]. split; [done|]. intros x Hx. rewrite Hm. split; [|tauto]. intros Hin. split; [done|].
    destruct Hin as [Hin|Hin]; [by apply Hp|]. unfold member in Hin. rewrite Exists_app, Exists_cons in Hin.
    destruct Hin as [Hin|[Hin|Hin]]; [by apply Hk|unfold in_range in *; lia|].
    apply Exists_exists in Hin as (y & Hy & Hin). rewrite list.Forall_forall in Hafter.
    specialize (Hafter y Hy). unfold by_start, in_range in *. lia.
  - destruct (minus_spec cur r Hc Hr) as (res & -> & Hres). cbn [mbind Outcome_bind]. destruct res as [l|].
    + destruct Hres as [Hl Hm]. destruct (IH kept (app split_ l) Hs') as (s' & E' & Ho & M); try done.
      * by apply Forall_app.
      * intros x Hx. unfold member. rewrite Exists_app, Hm by done. specialize (Hp x Hx). tauto.
      * exists s'. split; [done|]. split; [done|]. intros x Hx. rewrite M, member_app_cons by done.
        unfold member at 1. rewrite Exists_app, Hm by done. unfold member. tauto.
    + destruct (IH (app kept [cur]) split_) as (s' & E' & Ho & M); try done.
      * by rewrite <- app_assoc.
      * intros x. unfold member. rewrite Exists_app, Exists_cons, Exists_nil. specialize (Hk x).
        specialize (Hres x). unfold member in Hk. tauto.
      * exists s'. split; [done|]. split; [done|]. intros x Hx. rewrite M by done. by rewrite <- app_assoc.
Qed.

(** ** The networks of a range *)

(** A statement on octets is checked for each of them. *)
Lemma octet_cases (P : Z -> bool) :
  forallb P (map Z.of_nat (seq 0 256)) = true -> forall x, 0 <= x < 256 -> P x = true.
Proof.
  intros Hp x Hx. rewrite forallb_forall in Hp. apply Hp. apply in_map_iff. exists (Z.to_nat x).
  rewrite in_seq. lia.
Qed.

Lemma trailing_zeros_octet x : 0 <= x < 256 ->
  let z := countTrailingZeroBits 8 x in
  0 <= z <= 8 /\ x mod 2 ^ z = 0 /\ (z = 8 <-> x = 0) /\ (z <> 8 -> x mod 2 ^ (z + 1) <> 0).
Proof.
  intros Hx. pose proof (octet_cases (λ x, let z := countTrailingZeroBits 8 x in
    (0 <=? z) && (z <=? 8) && (x mod 2 ^ z =? 0) && Bool.eqb (z =? 8) (x =? 0) &&
    ((z =? 8) || negb (x mod 2 ^ (z + 1) =? 0))) ltac:(vm_compute; reflexivity) x Hx) as E.
  cbv zeta in *. rewrite !andb_true_iff, eqb_true_iff in E. destruct E as ((((E1 & E2) & E3) & E4) & E5). lia.
Qed.

Lemma low_bits_octet x b : 0 <= x < 256 -> 1 <= b <= 8 -> x mod 2 ^ b = 0 ->
  Z.lor x (Z.lxor (u8 (Z.shiftl 255 b)) 255) = x + 2 ^ b - 1 /\ 0 <= x + 2 ^ b - 1 < 256.
Proof.
  intros Hx Hb Hm.
  assert (forallb (λ b, forallb (λ x, negb (x mod 2 ^ b =? 0) ||
    (Z.lor x (Z.lxor (u8 (Z.shiftl 255 b)) 255) =? x + 2 ^ b - 1) && (x + 2 ^ b - 1 <? 256))
    (map Z.of_nat (seq 0 256))) [1; 2; 3; 4; 5; 6; 7; 8] = true) as E by (vm_compute; reflexivity).
  rewrite forallb_forall in E. pose proof (octet_cases _ (E b ltac:(simpl; lia)) x Hx) as E'.
  cbv beta in E'. rewrite Hm in E'. cbn [Z.eqb negb orb] in E'. apply andb_true_iff in E' as [E1 E2].
  assert (0 < 2 ^ b) by (apply Z.pow_pos_nonneg; lia). lia.
Qed.

Lemma divide_mod x d : 0 < d -> (d | x) <-> x mod d = 0.
Proof. intros Hd. rewrite Z.mod_divide by lia. done. Qed.

Lemma pow_divide a b : 0 <= a <= b -> (2 ^ a | 2 ^ b).
Proof. intros Hab. exists (2 ^ (b - a)). rewrite <- Z.pow_add_r by lia. f_equal. lia. Qed.

(** The longest network that can start at an address. *)
Lemma possible_mask_spec l mask : octets l ->
  exists t, possible_mask l mask = mask - t /\ 0 <= t <= 8 * size l /\ (2 ^ t | num_le l) /\
    (t = 8 * size l \/ ~ (2 ^ (t + 1) | num_le l)).
Proof.
  revert mask. induction l as [|x l IH]; intros mask.
  { intros _. exists 0. unfold size. cbn [length possible_mask num_le]. split; [lia|]. split; [lia|].
    split; [apply Z.divide_0_r|by left]. }
  rewrite octets_cons. intros [Hx Hl]. cbn [possible_mask num_le].
  destruct (trailing_zeros_octet x Hx) as (Hz & Hd & H8 & Hn). set (z := countTrailingZeroBits 8 x) in *.
  assert (size (x :: l) = size l + 1) as -> by (unfold size; cbn [length]; lia).
  destruct (Z.eqb_spec z 8) as [E|E]; cbn [negb].
  - destruct (IH (mask - z) Hl) as (t & Et & Ht & Hdt & Hmax). exists (t + 8).
    assert (x = 0) as -> by tauto. rewrite Z.add_0_l. split; [lia|]. split; [lia|].
    replace (2 ^ (t + 8)) with (256 * 2 ^ t) by (rewrite Z.pow_add_r by lia; change (2 ^ 8) with 256; lia).
    split; [by apply Z.mul_divide_mono_l|]. destruct Hmax as [->|Hmax]; [left; lia|right].
    replace (2 ^ (t + 8 + 1)) with (256 * 2 ^ (t + 1)).
    + intros Hc. apply Hmax. by apply Z.mul_divide_cancel_l in Hc.
    + replace (t + 8 + 1) with (t + 1 + 8) by lia. rewrite (Z.pow_add_r 2 (t + 1) 8) by lia.
      change (2 ^ 8) with 256. lia.
  - assert (forall b, 0 <= b <= 8 -> (2 ^ b | x + 256 * num_le l) <-> x mod 2 ^ b = 0) as Hiff.
    { intros b Hb. rewrite <- divide_mod by (apply Z.pow_pos_nonneg; lia).
      assert ((2 ^ b | 256 * num_le l)) as H256.
      { apply Z.divide_mul_l. change 256 with (2 ^ 8). apply pow_divide. lia. }
      split; [|intros Hb'; by apply Z.divide_add_r].
      intros Hb'. replace x with (x + 256 * num_le l - 256 * num_le l) by lia. by apply Z.divide_sub_r. }
    exists z. split; [done|]. split; [unfold size; lia|]. rewrite Hiff by lia. split; [done|right].
    rewrite Hiff by lia. by apply Hn.
Qed.

Lemma last_octets_spec l b : octets l -> 0 <= b <= 8 * size l -> (2 ^ b | num_le l) ->
  num_le (last_octets l b) = num_le l + 2 ^ b - 1 /\ octets (last_octets l b) /\
  length (last_octets l b) = length l.
Proof.
  revert b. induction l as [|x l IH]; intros b.
  { unfold size. simpl. intros _ Hb _. replace b with 0 by lia. split_and!; [simpl; lia|constructor|done]. }
  rewrite octets_cons. intros [Hx Hl] Hb Hd. cbn [last_octets num_le] in *.
  assert (size (x :: l) = size l + 1) as Es by (unfold size; cbn [length]; lia). rewrite Es in Hb.
  destruct (Z.ltb_spec 0 b) as [Hpos|Hzero].
  2:{ replace b with 0 by lia. split_and!; [simpl; lia|by apply octets_cons|done]. }
  assert (forall c, 0 <= c <= b -> c <= 8 -> x mod 2 ^ c = 0) as Hlow.
  { intros c Hc Hc8. apply divide_mod; [apply Z.pow_pos_nonneg; lia|].
    replace x with (x + 256 * num_le l - 256 * num_le l) by lia. apply Z.divide_sub_r.
    - eapply Z.divide_trans; [apply (pow_divide c b); lia|done].
    - apply Z.divide_mul_l. change 256 with (2 ^ 8). apply pow_divide. lia. }
  destruct (Z.ltb_spec 8 b) as [H8|H8].
  - assert (x = 0) as ->.
    { pose proof (Hlow 8 ltac:(lia) ltac:(lia)) as E. change (2 ^ 8) with 256 in E. rewrite Z.mod_small in E; lia. }
    assert (2 ^ b = 256 * 2 ^ (b - 8)) as Eb.
    { change 256 with (2 ^ 8). rewrite <- Z.pow_add_r by lia. f_equal. lia. }
    destruct (IH (b - 8) Hl) as (E & O & L); [lia| |].
    + rewrite Z.add_0_l, Eb in Hd. by apply Z.mul_divide_cancel_l in Hd.
    + cbn [num_le]. rewrite E. change (Z.lor 0 255) with 255. split_and!; [lia|apply octets_cons; split; (done || lia)|].
      cbn [length]. by rewrite L.
  - assert (last_octets l (b - 8) = l) as ->.
    { destruct l; [done|]. cbn [last_octets]. by replace (0 <? b - 8) with false by lia. }
    destruct (low_bits_octet x b Hx ltac:(lia) (Hlow b ltac:(lia) H8)) as [-> Hr].
    cbn [num_le]. split_and!; [lia|apply octets_cons; split; (done || lia)|done].
Qed.

(** A network: its first address and its mask. *)
Definition net_bits (n : list Z * Z) : Z := maxMask n.1 - n.2.
Record net_ok (n : list Z * Z) : Prop := {
  net_address : valid n.1;
  net_mask : 0 <= net_bits n <= maxMask n.1;
  net_aligned : (2 ^ net_bits n | num n.1)
}.
Definition in_net (x : list Z) (n : list Z * Z) : Prop :=
  length x = length n.1 /\ num n.1 <= num x < num n.1 + 2 ^ net_bits n.

Lemma span_mask a : span a = 2 ^ maxMask a.
Proof. unfold span, maxMask. f_equal. lia. Qed.

Lemma getLastIpForMask_spec a k : valid a -> 0 <= k <= maxMask a -> (2 ^ k | num a) ->
  let b := getLastIpForMask a (maxMask a - k) in
  valid b /\ length b = length a /\ num b = num a + 2 ^ k - 1.
Proof.
  intros [Hl Ha] Hk Hd. cbv zeta. unfold getLastIpForMask. replace (maxMask a - (maxMask a - k)) with k by lia.
  destruct (last_octets_spec (rev a) k) as (E & O & L); [by apply octets_rev| |done|].
  { rewrite size_rev. unfold maxMask in Hk. lia. }
  rewrite length_rev in L. split; [split; [by rewrite length_rev, L|by apply octets_rev]|].
  rewrite length_rev, L. split; [done|]. unfold num. by rewrite rev_rev, E.
Qed.

Lemma fit_mask_spec fuel a e k :
  valid a -> valid e -> length a = length e -> num a <= num e ->
  0 <= k <= maxMask a -> (2 ^ k | num a) -> k <= Z.of_nat fuel ->
  exists k' last, fit_mask fuel a e (maxMask a - k) = Ret (maxMask a - k', last) /\
    0 <= k' <= k /\ valid last /\ length last = length a /\
    num last = num a + 2 ^ k' - 1 /\ num last <= num e /\ (k' = k \/ num e < num a + 2 ^ (k' + 1) - 1).
Proof.
  intros Ha He Hl Hle. revert k. induction fuel as [|fuel IH]; intros k Hk Hd Hf; cbn [fit_mask];
    destruct (getLastIpForMask_spec a k Ha Hk Hd) as (Hv & Ll & Nl);
    rewrite ip_lt_spec by done; pose proof (ord_same e (getLastIpForMask a (maxMask a - k)) ltac:(lia)) as Eo.
  - replace k with 0 in * by lia. rewrite Z.pow_0_r in Nl.
    rewrite (proj2 (Z.ltb_ge _ _)) by lia. exists 0. eexists. split; [done|]. rewrite Z.pow_0_r. lia || (split_and!; (done || lia || auto)).
  - destruct (Z.ltb_spec (ord e) (ord (getLastIpForMask a (maxMask a - k)))) as [Hlt|Hge].
    + assert (0 < k) as Hpos.
      { destruct (Z.eq_dec k 0) as [->|]; [|lia]. rewrite Z.pow_0_r in Nl. lia. }
      replace (maxMask a - k + 1) with (maxMask a - (k - 1)) by lia.
      destruct (IH (k - 1)) as (k' & last & E & Hk' & V & L & N & B & M); [lia| |lia|].
      { eapply Z.divide_trans; [apply (pow_divide (k - 1) k); lia|done]. }
      exists k', last. split; [done|]. split_and!; try done; [lia|lia|].
      destruct M as [->|M]; right; [|done]. replace (k - 1 + 1) with k by lia. lia.
    + exists k. eexists. split; [done|]. split_and!; (done || lia || auto).
Qed.

(** Every network found starts where the last ended. *)
Definition covers (nets : list (list Z * Z)) (a e : list Z) : Prop :=
  Forall (λ n, net_ok n /\ length n.1 = length a) nets /\
  forall x, length x = length a -> Exists (in_net x) nets <-> num a <= num x <= num e.

(** One step of the outer loop. *)
Lemma subnets_step fuel a e :
  valid a -> valid e -> length a = length e -> num a <= num e ->
  exists t k, 0 <= k <= t /\ t <= maxMask a /\ (2 ^ t | num a) /\
    (t = maxMask a \/ ~ (2 ^ (t + 1) | num a)) /\ num a + 2 ^ k - 1 <= num e /\
    (k = t \/ num e < num a + 2 ^ (k + 1) - 1) /\
    ((num a + 2 ^ k = span a /\
      exists nets, subnets_loop (S fuel) a e = Ret nets /\ covers nets a e) \/
     (num a + 2 ^ k < span a /\ exists b, valid b /\ length b = length a /\ num b = num a + 2 ^ k /\
      forall nets, subnets_loop fuel b e = Ret nets -> covers nets b e ->
        exists nets', subnets_loop (S fuel) a e = Ret nets' /\ covers nets' a e)).
Proof.
  intros Ha He Hl Hle. destruct (possible_mask_spec (rev a) (maxMask a)) as (t & Et & Ht & Hd & Hm);
    [by apply octets_rev, Ha|]. rewrite size_rev in *.
  destruct (fit_mask_spec (length a * 8) a e t) as (k & last & E & Hk & V & L & N & B & M); try done;
    [unfold maxMask, size in *; lia|unfold size in *; lia|].
  exists t, k. split; [lia|]. split; [unfold maxMask; lia|]. split; [done|].
  split; [unfold maxMask; rewrite (Z.mul_comm (size a)); exact Hm|]. split; [lia|]. split; [done|].
  assert (0 < 2 ^ k) as Hpk by (apply Z.pow_pos_nonneg; lia).
  assert (net_ok (a, maxMask a - k)) as Hnet.
  { unfold net_bits; split; simpl; [done|unfold net_bits; simpl; unfold maxMask; lia|].
    unfold net_bits. simpl. replace (maxMask a - (maxMask a - k)) with k by lia.
    eapply Z.divide_trans; [apply (pow_divide k t); lia|done]. }
  assert (forall x, length x = length a -> in_net x (a, maxMask a - k) <-> num a <= num x < num a + 2 ^ k) as Hin.
  { intros x Hx. unfold in_net, net_bits. simpl. replace (maxMask a - (maxMask a - k)) with k by lia. tauto. }
  assert (span last = span a) as Es by (unfold span, size; by rewrite L).
  pose proof (num_bound last (proj2 V)) as Hb. cbn [subnets_loop].
  rewrite ip_le_spec by done. pose proof (ord_same a e Hl).
  replace (ord a <=? ord e) with true by lia.
  unfold getPossibleMaxMask. rewrite Et, E. cbn [mbind Outcome_bind]. rewrite isMaxIp_num by apply V.
  destruct (Z.eqb_spec (num last) (span last - 1)) as [Emax|Emax].
  - left. split; [lia|]. eexists. split; [done|]. split; [by apply list.Forall_singleton|].
    intros x Hx. rewrite Exists_cons, Exists_nil, Hin by done.
    pose proof (num_bound e (proj2 He)). assert (span e = span a) by (unfold span, size; by rewrite Hl). lia.
  - right. split; [lia|]. destruct (inc_spec last V Emax) as (b & Eb & Vb & Lb & Nb). exists b.
    split; [done|]. split; [congruence|]. split; [lia|]. intros nets En [Cf Cc]. rewrite Eb. cbn [mbind Outcome_bind].
    rewrite En. cbn [mbind Outcome_bind]. eexists. split; [done|]. split.
    + constructor; [done|]. eapply list.Forall_impl; [exact Cf|]. intros n [? Hn]. split; [done|]. congruence.
    + intros x Hx. rewrite Exists_cons, Hin, Cc by congruence. lia.
Qed.

Lemma subnets_done fuel a e : valid a -> valid e -> length a = length e -> num e < num a ->
  exists nets, subnets_loop fuel a e = Ret nets /\ covers nets a e.
Proof.
  intros Ha He Hl Hlt. exists []. pose proof (ord_same a e Hl). split.
  - destruct fuel; cbn [subnets_loop]; rewrite ip_le_spec by done; by replace (ord a <=? ord e) with false by lia.
  - split; [constructor|]. intros x Hx. rewrite Exists_nil. lia.
Qed.

(** Behind the longest network the networks only get shorter. *)
Lemma subnets_tail fuel j a e :
  valid a -> valid e -> length a = length e -> (2 ^ j | num a) -> num e - num a + 1 < 2 ^ j ->
  0 <= j <= maxMask a -> j <= Z.of_nat fuel ->
  exists nets, subnets_loop fuel a e = Ret nets /\ covers nets a e.
Proof.
  revert j a. induction fuel as [|fuel IH]; intros j a Ha He Hl Hd Hr Hj Hf;
    (destruct (Z.le_gt_cases (num a) (num e)) as [Hle|Hgt]; [|by apply subnets_done]).
  { replace j with 0 in * by lia. rewrite Z.pow_0_r in Hr. lia. }
  destruct (subnets_step fuel a e Ha He Hl Hle) as (t & k & Hk & Ht & Hdt & Hmax & Hfit & Hbig & Hcase).
  destruct Hcase as [[_ Hc]|(Hlt & b & Vb & Lb & Nb & Hc)]; [done|].
  assert (0 < 2 ^ k) by (apply Z.pow_pos_nonneg; lia).
  assert (k < j) as Hkj.
  { destruct (Z.le_gt_cases j k) as [Hjk|]; [|lia]. pose proof (Z.pow_le_mono_r 2 j k). lia. }
  assert (k <> t) as Hkt.
  { intros ->. destruct Hmax as [->|Hmax]; [lia|]. apply Hmax.
    eapply Z.divide_trans; [apply (pow_divide (t + 1) j); lia|done]. }
  destruct Hbig as [?|Hbig]; [done|]. rewrite Z.pow_add_r in Hbig by lia.
  destruct (IH k b) as (nets & E & C); try done; [congruence| |lia|unfold maxMask, size in *; rewrite Lb; lia|lia|].
  - rewrite Nb. apply Z.divide_add_r; [|apply Z.divide_refl].
    eapply Z.divide_trans; [apply (pow_divide k t); lia|done].
  - by eapply Hc.
Qed.

Lemma subnets_head fuel j a e :
  valid a -> valid e -> length a = length e -> (2 ^ j | num a) -> 0 <= j <= maxMask a ->
  maxMask a - j + maxMask a + 1 <= Z.of_nat fuel ->
  exists nets, subnets_loop fuel a e = Ret nets /\ covers nets a e.
Proof.
  revert j a. induction fuel as [|fuel IH]; intros j a Ha He Hl Hd Hj Hf; [lia|].
  destruct (Z.le_gt_cases (num a) (num e)) as [Hle|Hgt]; [|by apply subnets_done].
  destruct (subnets_step fuel a e Ha He Hl Hle) as (t & k & Hk & Ht & Hdt & Hmax & Hfit & Hbig & Hcase).
  destruct Hcase as [[_ Hc]|(Hlt & b & Vb & Lb & Nb & Hc)]; [done|].
  assert (maxMask b = maxMask a) as Em by (unfold maxMask, size; by rewrite Lb).
  destruct Hbig as [->|Hbig].
  - destruct Hmax as [->|Hmax].
    { rewrite span_mask in Hlt. pose proof (num_bound a (proj2 Ha)). lia. }
    assert (j <= t) as Hjt.
    { destruct (Z.le_gt_cases j t); [done|]. exfalso. apply Hmax.
      eapply Z.divide_trans; [apply (pow_divide (t + 1) j); lia|done]. }
    destruct (IH (t + 1) b) as (nets & E & C); try done; [congruence| | |lia|by eapply Hc].
    + rewrite Nb. destruct Hdt as [q Hq]. rewrite Hq in *.
      assert (Z.odd q = true) as Ho.
      { apply Bool.not_false_iff_true. intros Ho. apply Hmax. rewrite <- Z.negb_even in Ho.
        apply negb_false_iff, Z.even_spec in Ho as [q' ->]. exists q'. rewrite Z.pow_add_r by lia. lia. }
      apply Z.odd_spec in Ho as [q' ->]. exists (q' + 1). rewrite Z.pow_add_r by lia. lia.
    + rewrite Em. destruct (Z.eq_dec t (maxMask a)) as [->|]; [|lia].
      rewrite span_mask in Hlt. pose proof (num_bound a (proj2 Ha)). lia.
  - rewrite Z.pow_add_r in Hbig by lia.
    destruct (subnets_tail fuel k b e) as (nets & E & C); try done; [congruence| |lia|lia|lia|by eapply Hc].
    rewrite Nb. apply Z.divide_add_r; [|apply Z.divide_refl].
    eapply Z.divide_trans; [apply (pow_divide k t); lia|done].
Qed.

Lemma range_subnets_spec r : range_ok r ->
  exists nets, range_subnets r = Ret nets /\ Forall net_ok nets /\
    forall x, valid x -> Exists (in_net x) nets <-> in_range x r.
Proof.
  intros [Hs He Hl Ho].
  destruct (subnets_head (16 * length (rstart r) + 2) 0 (rstart r) (rend r)) as (nets & E & Cf & Cc); try done.
  - apply Z.divide_1_l.
  - unfold maxMask, size. lia.
  - unfold maxMask, size. lia.
  - exists nets. split; [done|]. split.
    { eapply list.Forall_impl; [exact Cf|]. by intros n []. }
    intros x Hx. unfold in_range. destruct (decide (length x = length (rstart r))) as [L|L].
    + rewrite Cc by done. pose proof (ord_same (rstart r) x ltac:(done)). pose proof (ord_same x (rend r) ltac:(congruence)). lia.
    + split.
      * rewrite Exists_exists. intros (n & Hn & Hin & _). rewrite list.Forall_forall in Cf.
        destruct (Cf n Hn) as [_ Ln]. congruence.
      * intros [H1 H2]. apply ord_length in H1; [|done..]. apply ord_length in H2; [|done..]. lia.
Qed.

Lemma set_subnets_spec s : Forall range_ok s ->
  exists nets, set_subnets s = Ret nets /\ Forall net_ok nets /\
    forall x, valid x -> Exists (in_net x) nets <-> member x s.
Proof.
  induction 1 as [|r s Hr Hs (nets & E & F & M)].
  { exists []. split; [done|]. split; [constructor|]. intros x Hx. unfold member. by rewrite !Exists_nil. }
  destruct (range_subnets_spec r Hr) as (n1 & E1 & F1 & M1). cbn [set_subnets]. rewrite E1. cbn [mbind Outcome_bind].
  rewrite E. cbn [mbind Outcome_bind]. eexists. split; [done|]. split; [by apply Forall_app|].
  intros x Hx. unfold member in *. by rewrite Exists_app, Exists_cons, M1, M by done.
Qed.

(** ** The range of a network *)

(** The addresses of a network that may be given by any of its addresses. *)
Definition in_network (x : list Z) (n : list Z * Z) : Prop :=
  length x = length n.1 /\ num x / 2 ^ net_bits n = num n.1 / 2 ^ net_bits n.

Lemma num_replicate v n : num (replicate n v) * 255 = v * (span (replicate n v) - 1).
Proof.
  induction n as [|n IH]; cbn [replicate]; [rewrite span_nil; unfold num; simpl; lia|].
  rewrite num_cons, span_cons. lia.
Qed.

Lemma mask_octet x r : 0 <= x < 256 -> 0 <= r < 8 ->
  let m := u8 (Z.shiftl 255 (8 - r)) in
  Z.land x m = 2 ^ (8 - r) * (x / 2 ^ (8 - r)) /\
  Z.lor x (Z.lxor m 255) = 2 ^ (8 - r) * (x / 2 ^ (8 - r)) + 2 ^ (8 - r) - 1 /\
  Z.lor x (Z.lxor m 255) < 256.
Proof.
  intros Hx Hr.
  assert (forallb (λ r, forallb (λ x, let m := u8 (Z.shiftl 255 (8 - r)) in
    (Z.land x m =? 2 ^ (8 - r) * (x / 2 ^ (8 - r))) &&
    (Z.lor x (Z.lxor m 255) =? 2 ^ (8 - r) * (x / 2 ^ (8 - r)) + 2 ^ (8 - r) - 1) &&
    (Z.lor x (Z.lxor m 255) <? 256)) (map Z.of_nat (seq 0 256)))
    [0; 1; 2; 3; 4; 5; 6; 7] = true) as E by (vm_compute; reflexivity).
  rewrite forallb_forall in E. pose proof (octet_cases _ (E r ltac:(simpl; lia)) x Hx) as E'.
  cbv beta zeta in *. rewrite !andb_true_iff in E'. lia.
Qed.

Lemma fill_insert (p s : list Z) (x y v : Z) :
  fill_from (<[length p := y]> (app p (x :: s))) v (S (length p)) = app p (y :: replicate (length s) v).
Proof.
  unfold fill_from. rewrite length_insert, length_app. cbn [length].
  rewrite insert_app_r_alt by lia.
  rewrite Nat.sub_diag. cbn [insert list_insert]. rewrite take_app, take_ge by lia.
  replace (S (length p) - length p)%nat with 1%nat by lia. cbn [take].
  rewrite <- app_assoc. cbn [app].
  by replace (length p + S (length s) - S (length p))%nat with (length s) by lia.
Qed.

Lemma valid_middle p x s y v : valid (app p (x :: s)) -> 0 <= y < 256 -> 0 <= v < 256 ->
  valid (app p (y :: replicate (length s) v)) /\
  length (app p (y :: replicate (length s) v)) = length (app p (x :: s)).
Proof.
  intros [Hl Ho] Hy Hv. apply Forall_app in Ho as [Hp _].
  assert (length (app p (y :: replicate (length s) v)) = length (app p (x :: s))) as E.
  { rewrite !length_app. cbn [length]. by rewrite length_replicate. }
  split; [|done]. split; [by rewrite E|]. apply Forall_app. split; [done|]. constructor; [done|].
  by apply Forall_replicate.
Qed.

Lemma num_middle p y n v : num (app p (y :: replicate n v)) =
  (num p * 256 + y) * span (replicate n v) + num (replicate n v).
Proof. rewrite num_app, span_cons, num_cons. lia. Qed.

Lemma range_from_bounds a m : valid a -> 0 <= m <= maxMask a ->
  let k := maxMask a - m in
  exists st en, range_from a m = IpRange_new st en /\ valid st /\ valid en /\
    length st = length a /\ length en = length a /\
    num st = 2 ^ k * (num a / 2 ^ k) /\ num en = num st + 2 ^ k - 1.
Proof.
  intros Ha Hm. unfold range_from. cbv zeta. rewrite Z.quot_div_nonneg, Z.rem_mod_nonneg by lia.
  assert (0 <= m / 8) by (apply Z.div_pos; lia). replace (m / 8 <? 0) with false by lia.
  pose proof (Z.div_mod m 8 ltac:(lia)) as Edm. pose proof (Z.mod_pos_bound m 8 ltac:(lia)) as Hr.
  destruct (Z.ltb_spec (m / 8) (size a)) as [Hlt|Hge].
  2:{ exists a, a. assert (maxMask a - m = 0) as -> by (unfold maxMask in *; lia).
      rewrite Z.pow_0_r, Z.div_1_r. split_and!; (done || lia). }
  set (i := Z.to_nat (m / 8)). set (r := m mod 8) in *.
  destruct (lookup_lt_is_Some_2 a i ltac:(unfold size in Hlt; lia)) as [x Hx]. rewrite Hx. cbn [default id].
  pose proof (take_drop_middle _ _ _ Hx) as Ea. set (p := take i a) in *. set (s := drop (S i) a) in *.
  assert (length p = i) as Hp by (unfold p; rewrite length_take; unfold size in Hlt; lia).
  assert (0 <= x < 256) as Hxo by (eapply (proj1 (list.Forall_lookup _ a) (proj2 Ha)); exact Hx).
  destruct (mask_octet x r Hxo ltac:(lia)) as (El & Eo & Eb). set (d := 2 ^ (8 - r)) in *.
  assert (0 < d <= 256) as Hd by (unfold d; split; [apply Z.pow_pos_nonneg; lia|
    change 256 with (2 ^ 8); apply Z.pow_le_mono_r; lia]).
  pose proof (Z.mul_div_le x d ltac:(lia)). pose proof (Z.div_pos x d ltac:(lia) ltac:(lia)).
  assert (forall y v, fill_from (<[i := y]> a) v (S i) = app p (y :: replicate (length s) v)) as Hfill.
  { intros y v. rewrite <- (fill_insert p s x y v). by rewrite Ea, Hp. }
  rewrite El, Eo, !Hfill. clear Hfill. assert (valid (app p (x :: s))) as Hv by by rewrite Ea.
  assert (num a = num (app p (x :: s))) as Ena by by rewrite Ea.
  assert (length a = length (app p (x :: s))) as Ela by by rewrite Ea.
  clearbody p s. destruct (valid_middle p x s (d * (x / d)) 0 Hv) as [V1 L1]; [nia|lia|].
  destruct (valid_middle p x s (d * (x / d) + d - 1) 255 Hv) as [V2 L2]; [lia|lia|].
  rewrite <- Ela in L1, L2. eexists _, _. split; [done|]. split; [done|]. split; [done|]. split; [done|]. split; [done|].
  rewrite !num_middle.
  assert (forall v, span (replicate (length s) v) = span s) as Esp by (intros; unfold span, size; by rewrite length_replicate).
  pose proof (num_replicate 0 (length s)) as N0. pose proof (num_replicate 255 (length s)) as N255. rewrite Esp in *.
  assert (2 ^ (maxMask a - m) = d * span s) as Ek.
  { unfold d, span. rewrite <- Z.pow_add_r by (unfold size; lia). f_equal. unfold maxMask, size.
    rewrite Ela, length_app. cbn [length]. lia. }
  assert (256 = 2 ^ r * d) as E256 by (unfold d; rewrite <- Z.pow_add_r by lia; change 256 with (2 ^ 8); f_equal; lia).
  assert (num (replicate (length s) 0) = 0) as -> by lia.
  assert (num (replicate (length s) 255) = span s - 1) as -> by lia.
  rewrite Ek, !Esp. split; [|ring].
  assert (octets s) as Os by (destruct Hv as [_ Ho]; apply Forall_app in Ho as [_ Ho]; by apply octets_cons in Ho as [_ Ho]).
  pose proof (num_bound s Os) as Bs. pose proof (Z.mod_pos_bound x d ltac:(lia)) as Bx.
  pose proof (Z.div_mod x d ltac:(lia)) as Ex.
  rewrite Ena, num_app, num_cons, span_cons.
  rewrite <- (Z.div_unique (num p * (256 * span s) + (x * span s + num s)) (d * span s)
    (num p * 2 ^ r + x / d) (x mod d * span s + num s));
    [rewrite E256; ring|nia|rewrite Ex at 1; rewrite E256; ring].
Qed.

Lemma range_from_spec a m : valid a -> 0 <= m <= maxMask a ->
  exists r, range_from a m = Ret r /\ range_ok r /\
    forall x, valid x -> in_range x r <-> in_network x (a, m).
Proof.
  intros Ha Hm. set (k := maxMask a - m).
  destruct (range_from_bounds a m Ha Hm) as (st & en & E & Vs & Ve & Ls & Le & Ns & Ne). fold k in Ns, Ne.
  assert (0 < 2 ^ k) as Hk by (apply Z.pow_pos_nonneg; unfold k; lia).
  destruct (IpRange_new_ok st en Vs Ve ltac:(congruence) ltac:(lia)) as [E' Hr].
  eexists. split; [by rewrite E, E'|]. split; [done|]. intros x Hx. unfold in_range, in_network, net_bits. cbn [rstart rend fst snd].
  fold k. split.
  - intros [H1 H2]. pose proof (ord_length _ _ Vs Hx H1). pose proof (ord_length _ _ Hx Ve H2).
    assert (length x = length a) as L by lia. split; [done|].
    pose proof (ord_same st x ltac:(congruence)). pose proof (ord_same x en ltac:(congruence)).
    symmetry. apply (Z.div_unique _ _ _ (num x - num st)); lia.
  - intros [L Hq]. pose proof (ord_same st x ltac:(congruence)). pose proof (ord_same x en ltac:(congruence)).
    pose proof (Z.mul_div_le (num x) (2 ^ k) Hk). pose proof (Z.mul_succ_div_gt (num x) (2 ^ k) Hk).
    rewrite Hq in *. lia.
Qed.
