(* ===== verification/AndroidConfig.v ===== *)
(** * The tunnel's configuration on Android

    Model of [InetNetwork], [ProtocolConfig.Builder] and the split tunnelling of
    [Protocol] (client/android/utils and protocolApi): the routes a tunnel is
    given, with the sites to be tunnelled or left out. A thrown exception is
    [Abort]. *)
From Stdlib Require Import ZArith Lia Bool Ascii String.
From stdpp Require Import base list strings.
From S2P Require Import Prelude QtString IpRange.
Local Open Scope string_scope.
Local Open Scope Z_scope.

(** ** Networks *)

(** An [InetAddress] is its octets: an [Inet4Address] has four. *)
Record InetNetwork := mkNetwork { address : list Z; mask : Z }.

#[export] Instance InetNetwork_eq_dec : EqDecision InetNetwork.
Proof. solve_decision. Defined.

Definition isIpv4 (n : InetNetwork) : bool := (length (address n) =? 4)%nat.
Definition maxPrefixLength (a : list Z) : Z := if (length a =? 4)%nat then 32 else 128.

(** [InetAddress.getByName]; [None] is its exception. *)
Class JavaNet := getByName : string -> option (list Z).

Definition kotlin_toInt (s : string) : option Z :=
  match signed_val s with
  | Some n => if (- 2 ^ 31 <=? n) && (n <? 2 ^ 31) then Some n else None
  | None => None
  end.

Definition of_option {A} (o : option A) : Outcome A :=
  match o with Some a => Ret a | None => Abort end.

Definition network_parse `{JavaNet} (data : string) : Outcome InetNetwork :=
  let split_ := split "/" data in
  a ← of_option (getByName (default "" (head split_)));
  if (length split_ =? 1)%nat then Ret (mkNetwork a (maxPrefixLength a))
  else m ← of_option (kotlin_toInt (default "" (last split_))); Ret (mkNetwork a m).

Definition ipv4_default : InetNetwork := mkNetwork [0; 0; 0; 0] 0.
Definition zeros16 : list Z := replicate 16 0.
Definition ipv6_default : InetNetwork := mkNetwork zeros16 0.
(** [2000::/3] *)
Definition ipv6_global : InetNetwork := mkNetwork (32 :: replicate 15 0) 3.
Definition ipv4_loopback : list Z := [127; 0; 0; 0].
Definition ipv6_loopback : list Z := app (replicate 15 0) [1].

(** ** The builder *)
Record Route := mkRoute { inetNetwork : InetNetwork; include : bool }.

#[export] Instance Route_eq_dec : EqDecision Route.
Proof. solve_decision. Defined.

Record Builder := mkBuilder {
  addresses : list InetNetwork;
  dnsServers : list (list Z);
  routes : list Route;                   (* a set that keeps the order of insertion *)
  includedAddresses : list InetNetwork;
  excludedAddresses : list InetNetwork;
  includedApplications : list string;
  excludedApplications : list string;
  allowSplitTunneling : bool;
  mtu : Z
}.

Abbreviation BuilderM A := (Run Builder A).

Definition set_insert {A} `{EqDecision A} (x : A) (s : list A) : list A :=
  if bool_decide (x ∈ s) then s else app s [x].
Definition set_union {A} `{EqDecision A} (l s : list A) : list A := foldl (λ s x, set_insert x s) s l.

Definition set_routes (l : list Route) : BuilderM unit := λ b,
  Ret (tt, mkBuilder (addresses b) (dnsServers b) l (includedAddresses b) (excludedAddresses b)
             (includedApplications b) (excludedApplications b) (allowSplitTunneling b) (mtu b)).
Definition update_routes (f : list Route -> list Route) : BuilderM unit :=
  let! l := rlift (gets routes) in set_routes (f l).

Definition addRoute (n : InetNetwork) : BuilderM unit := update_routes (set_insert (mkRoute n true)).
Definition addRoutes (l : list InetNetwork) : BuilderM unit :=
  update_routes (set_union (map (λ n, mkRoute n true) l)).
Definition excludeRoutes (l : list InetNetwork) : BuilderM unit :=
  update_routes (set_union (map (λ n, mkRoute n false) l)).
Definition removeRoute (n : InetNetwork) : BuilderM unit :=
  update_routes (List.filter (λ r, negb (bool_decide (inetNetwork r = n)))).

Definition prependRoutes (block : BuilderM unit) : BuilderM unit :=
  let! savedRoutes := rlift (gets routes) in
  do! set_routes [] in
  do! block in
  update_routes (set_union savedRoutes).

Definition includeAddress (n : InetNetwork) : BuilderM unit := λ b,
  Ret (tt, mkBuilder (addresses b) (dnsServers b) (routes b) (set_insert n (includedAddresses b))
             (excludedAddresses b) (includedApplications b) (excludedApplications b)
             (allowSplitTunneling b) (mtu b)).
Definition excludeAddress (n : InetNetwork) : BuilderM unit := λ b,
  Ret (tt, mkBuilder (addresses b) (dnsServers b) (routes b) (includedAddresses b)
             (set_insert n (excludedAddresses b)) (includedApplications b) (excludedApplications b)
             (allowSplitTunneling b) (mtu b)).
Definition includeApplication (a : string) : BuilderM unit := λ b,
  Ret (tt, mkBuilder (addresses b) (dnsServers b) (routes b) (includedAddresses b)
             (excludedAddresses b) (set_insert a (includedApplications b)) (excludedApplications b)
             (allowSplitTunneling b) (mtu b)).
Definition excludeApplication (a : string) : BuilderM unit := λ b,
  Ret (tt, mkBuilder (addresses b) (dnsServers b) (routes b) (includedAddresses b)
             (excludedAddresses b) (includedApplications b) (set_insert a (excludedApplications b))
             (allowSplitTunneling b) (mtu b)).
Definition disableSplitTunneling : BuilderM unit := λ b,
  Ret (tt, mkBuilder (addresses b) (dnsServers b) (routes b) (includedAddresses b)
             (excludedAddresses b) (includedApplications b) (excludedApplications b) false (mtu b)).

(** The order in which a [HashSet] is iterated. *)
Class HashOrder := hash_order : list InetNetwork -> list InetNetwork.

Section Build.
Context `{HashOrder}.
(** [InetAddress.getByName] of the text of an address. *)
Context (reparse : list Z -> list Z).

Definition processSplitTunneling : BuilderM unit :=
  let! included := rlift (gets includedAddresses) in
  let! excluded := rlift (gets excludedAddresses) in
  match included, excluded with
  | _ :: _, _ :: _ => rabort
  | _ :: _, [] =>
      do! removeRoute ipv4_default in
      do! removeRoute ipv6_default in
      do! removeRoute ipv6_global in
      prependRoutes (addRoutes (hash_order included))
  | [], _ :: _ =>
      prependRoutes
        (do! addRoute ipv4_default in
         do! addRoute ipv6_global in
         excludeRoutes (hash_order excluded))
  | [], [] => rret tt
  end.

Definition guarded {A} (o : Outcome A) : BuilderM A := λ b,
  match o with Ret a => Ret (a, b) | Abort => Abort | OutOfFuel => OutOfFuel end.

Definition is_ipv6_default (r : Route) : bool :=
  include r && bool_decide (inetNetwork r = ipv6_default).

Definition replace_ipv6_default : BuilderM unit :=
  let! l := rlift (gets routes) in
  if existsb is_ipv6_default l then
    do! set_routes (List.filter (λ r, negb (is_ipv6_default r)) l) in
    prependRoutes (addRoute ipv6_global)
  else rret tt.

(** Adds and removes the ranges of the routes in their order. *)
Fixpoint range_set (l : list Route) (s : list IpRange) : Outcome (list IpRange) :=
  match l with
  | [] => Ret s
  | r :: l' =>
      range ← range_from (address (inetNetwork r)) (mask (inetNetwork r));
      s ← (if include r then set_add s range else set_remove s range);
      range_set l' s
  end.

Definition subnets_without_excluded (l : list Route) : Outcome (list InetNetwork) :=
  s ← range_set l [];
  r4 ← range_from ipv4_loopback 8;
  s ← set_remove s r4;
  r6 ← range_from ipv6_loopback 128;
  s ← set_remove s r6;
  nets ← set_subnets s;
  Ret (map (λ n, mkNetwork (reparse n.1) n.2) nets).

Definition is_loopback_route (r : Route) : bool :=
  include r &&
  (if isIpv4 (inetNetwork r) then bool_decide (head (address (inetNetwork r)) = Some 127)
   else bool_decide (inetNetwork r = mkNetwork ipv6_loopback 128)).

Definition processRoutes (sdk : Z) : BuilderM unit :=
  do! replace_ipv6_default in
  let! l := rlift (gets routes) in
  do! (if (sdk <? 33) && existsb (λ r, negb (include r)) l then
         let! nets := guarded (subnets_without_excluded l) in
         do! set_routes [] in
         addRoutes nets
       else rret tt) in
  update_routes (List.filter (λ r, negb (is_loopback_route r))).

Definition validate : BuilderM unit := λ b,
  if (length (addresses b) =? 0)%nat || (length (routes b) =? 0)%nat || (mtu b =? 0)
  then Abort else Ret (tt, b).

Definition configBuild (sdk : Z) : BuilderM unit :=
  do! processSplitTunneling in
  do! processRoutes sdk in
  validate.
End Build.

(** ** Protocol *)
Section Protocol.
Context `{JavaNet}.

(** The type and the sites as they are read from the configuration; [None] is
    the exception for sites that are not there. *)
Definition configSplitTunneling (splitTunnelType : Z) (splitTunnelSites : option (list string)) :
    BuilderM unit :=
  let! allowed := rlift (gets allowSplitTunneling) in
  if negb allowed then rret tt
  else if splitTunnelType =? 0 then rret tt
  else
    let! sites := guarded (of_option splitTunnelSites) in
    if splitTunnelType =? 1 then
      run_each sites (λ s, let! n := guarded (network_parse s) in includeAddress n)
    else if splitTunnelType =? 2 then
      run_each sites (λ s, let! n := guarded (network_parse s) in excludeAddress n)
    else rabort.

Definition configAppSplitTunneling (splitTunnelType : Z) (splitTunnelApps : option (list string)) :
    BuilderM unit :=
  if splitTunnelType =? 0 then rret tt
  else
    let! apps := guarded (of_option splitTunnelApps) in
    if splitTunnelType =? 1 then run_each apps includeApplication
    else if splitTunnelType =? 2 then run_each apps excludeApplication
    else rabort.

(** The routes of [configWireguard]: global split tunnelling is for tunnels of
    everything. *)
Definition configWireguard_routes `{HashOrder} (allowed_ips : list string) : BuilderM unit :=
  let! nets := guarded
    (foldr (λ s acc, n ← network_parse (trimmed s); l ← acc; Ret (n :: l)) (Ret []) allowed_ips) in
  let nets := set_union nets [] in
  do! (if existsb (λ n, negb (bool_decide (n ∈ [ipv4_default; ipv6_default]))) nets
       then disableSplitTunneling else rret tt) in
  addRoutes (hash_order nets).
End Protocol.

(** The calls of [VpnService.Builder]. *)
Inductive VpnCall :=
| setSession (name : string)
| vpn_addAddress (n : InetNetwork)
| vpn_addDnsServer (a : list Z)
| vpn_addSearchDomain (d : string)
| vpn_addRoute (n : InetNetwork)
| vpn_excludeRoute (n : InetNetwork)
| vpn_addAllowedApplication (a : string)
| vpn_addDisallowedApplication (a : string)
| vpn_setMtu (n : Z)
| vpn_setHttpProxy
| vpn_allowFamilies
| vpn_setBlocking (b : bool)
| vpn_setUnderlyingNetworks
| vpn_setMetered.

Definition buildVpnInterface (sdk : Z) (brand : string) (searchDomain : option string)
    (httpProxy allowAllAF blockingMode : bool) (c : Builder) : list VpnCall :=
  concat
    [ [setSession "ZloVPN"];
      map vpn_addAddress (addresses c);
      map vpn_addDnsServer (dnsServers c);
      (if String.eqb brand "samsung"
       then map (λ a, vpn_addRoute (mkNetwork a (maxPrefixLength a))) (dnsServers c) else []);
      (match searchDomain with Some d => [vpn_addSearchDomain d] | None => [] end);
      concat (map (λ r, if include r then [vpn_addRoute (inetNetwork r)]
                        else if 33 <=? sdk then [vpn_excludeRoute (inetNetwork r)] else []) (routes c));
      map vpn_addAllowedApplication (includedApplications c);
      map vpn_addDisallowedApplication (excludedApplications c);
      [vpn_setMtu (mtu c)];
      (if (29 <=? sdk) && httpProxy then [vpn_setHttpProxy] else []);
      (if allowAllAF then [vpn_allowFamilies] else []);
      [vpn_setBlocking blockingMode; vpn_setUnderlyingNetworks];
      (if 29 <=? sdk then [vpn_setMetered] else []) ].
