(* ===== verification/AndroidConfigProperties.v ===== *)
(** * The routes of a tunnel on Android

    On versions without excluded routes, the networks the tunnel is given cover
    exactly the addresses that the sequence of included and excluded routes
    leaves, without the loopback addresses. *)
From Stdlib Require Import ZArith Lia Bool Ascii String Sorting.Sorted.
From stdpp Require Import base list strings.
From S2P Require Import Prelude QtString IpRange IpRangeProperties AndroidConfig.
Local Open Scope Z_scope.

Definition net_pair (n : InetNetwork) : list Z * Z := (address n, mask n).
Definition network_ok (n : InetNetwork) : Prop := valid (address n) /\ 0 <= mask n <= maxMask (address n).
Definition in_route (x : list Z) (r : Route) : Prop := in_network x (net_pair (inetNetwork r)).

(** No route of the list excludes the address. *)
Definition kept (x : list Z) (l : list Route) : Prop :=
  Forall (λ r, include r = false -> ~ in_route x r) l.

(** The address is in an included route behind which it is not excluded. *)
Definition routed (x : list Z) (l : list Route) : Prop :=
  exists l1 r l2, l = app l1 (r :: l2) /\ include r = true /\ in_route x r /\ kept x l2.

Lemma routed_nil x : ~ routed x [].
Proof. intros ([|r0 l1] & r & l2 & E & _); discriminate. Qed.
Lemma kept_cons x r l : kept x (r :: l) <-> (include r = false -> ~ in_route x r) /\ kept x l.
Proof. apply list.Forall_cons. Qed.

Lemma routed_cons x r l :
  routed x (r :: l) <-> (include r = true /\ in_route x r /\ kept x l) \/ routed x l.
Proof.
  split.
  - intros ([|r' l1] & r0 & l2 & [= -> ->] & Hi & Hx & Hk); [by left|]. right. by exists l1, r0, l2.
  - intros [(Hi & Hx & Hk)|(l1 & r0 & l2 & -> & H)]; [by exists [], r, l|]. by exists (r :: l1), r0, l2.
Qed.

(** ** Sets of ranges *)
Lemma range_set_spec l s :
  Forall (λ r, network_ok (inetNetwork r)) l -> set_ok s ->
  exists s', range_set l s = Ret s' /\ set_ok s' /\
    forall x, valid x -> member x s' <-> routed x l \/ (member x s /\ kept x l).
Proof.
  intros Hl. revert s. induction Hl as [|r l [Hv Hm] Hl IH]; intros s Hs; cbn [range_set].
  { exists s. split; [done|]. split; [done|]. intros x Hx. pose proof (routed_nil x).
    assert (kept x []) by constructor. tauto. }
  destruct (range_from_spec _ _ Hv Hm) as (rg & E & Hok & Hin). rewrite E. cbn [mbind Outcome_bind].
  destruct (include r) eqn:Ei.
  - destruct (add_loop_spec [] s rg Hs Hok) as (s1 & E1 & H1 & M1). unfold set_add. rewrite E1.
    cbn [mbind Outcome_bind]. destruct (IH s1 H1) as (s2 & E2 & H2 & M2). exists s2. split; [done|]. split; [done|].
    intros x Hx. rewrite M2, M1, Hin, routed_cons, kept_cons by done. rewrite Ei. cbn [app].
    fold (in_route x r). change (in_network x (address (inetNetwork r), mask (inetNetwork r))) with (in_route x r).
    intuition discriminate.
  - destruct (remove_loop_spec [] s [] rg) as (s1 & E1 & H1 & M1); try done.
    { intros x Hc. by apply Exists_nil in Hc. } { intros x _ Hc. by apply Exists_nil in Hc. }
    unfold set_remove. rewrite E1. cbn [mbind Outcome_bind]. destruct (IH s1 H1) as (s2 & E2 & H2 & M2).
    exists s2. split; [done|]. split; [done|].
    intros x Hx. rewrite M2, M1, Hin, routed_cons, kept_cons by done. rewrite Ei. cbn [app].
    change (in_network x (address (inetNetwork r), mask (inetNetwork r))) with (in_route x r).
    unfold member at 1. rewrite Exists_nil. intuition discriminate.
Qed.

Lemma set_remove_spec s rg : set_ok s -> range_ok rg ->
  exists s', set_remove s rg = Ret s' /\ set_ok s' /\
    forall x, valid x -> member x s' <-> member x s /\ ~ in_range x rg.
Proof.
  intros Hs Hr. destruct (remove_loop_spec [] s [] rg) as (s' & E & H & M); try done.
  { intros x Hc. by apply Exists_nil in Hc. } { intros x _ Hc. by apply Exists_nil in Hc. }
  exists s'. split; [done|]. split; [done|]. intros x Hx. rewrite M by done. unfold member at 1.
  rewrite Exists_nil. cbn [app]. tauto.
Qed.

Definition loopback4 : list Z * Z := (ipv4_loopback, 8).
Definition loopback6 : list Z * Z := (ipv6_loopback, 128).
Definition loopback (x : list Z) : Prop := in_network x loopback4 \/ in_network x loopback6.

(** Addresses of version 6 that stand for one of version 4. *)
Definition mapped (x : list Z) : Prop :=
  in_network x (app (replicate 10 0) [255; 255; 0; 0; 0; 0], 96).

Lemma loopback4_ok : valid ipv4_loopback /\ 0 <= 8 <= maxMask ipv4_loopback.
Proof. split; [|done]. split; [by left|]. repeat constructor; lia. Qed.
Lemma loopback6_ok : valid ipv6_loopback /\ 0 <= 128 <= maxMask ipv6_loopback.
Proof. split; [|done]. split; [by right|]. repeat constructor; lia. Qed.

Lemma in_net_network x n : net_ok n -> in_net x n <-> in_network x n.
Proof.
  intros [Hv Hm [q Hq]]. unfold in_net, in_network.
  assert (0 < 2 ^ net_bits n) as Hp by (apply Z.pow_pos_nonneg; lia).
  rewrite Hq, Z.div_mul by lia.
  pose proof (Z.mul_div_le (num x) (2 ^ net_bits n) Hp). pose proof (Z.mul_succ_div_gt (num x) (2 ^ net_bits n) Hp).
  split; intros [Hl Hx]; (split; [done|]).
  - symmetry. apply (Z.div_unique _ _ _ (num x - q * 2 ^ net_bits n)); lia.
  - rewrite Hx in *. lia.
Qed.

Section Old.
Context (reparse : list Z -> list Z).

Lemma subnets_exact l :
  Forall (λ r, network_ok (inetNetwork r)) l ->
  (forall a, valid a -> ~ mapped a -> reparse a = a) ->
  (forall x, valid x -> routed x l -> ~ mapped x) ->
  exists nets, subnets_without_excluded reparse l = Ret nets /\ Forall (λ n, net_ok (net_pair n)) nets /\
    forall x, valid x ->
      Exists (λ n, in_network x (net_pair n)) nets <-> routed x l /\ ~ loopback x.
Proof.
  intros Hl Hre Hmap. unfold subnets_without_excluded.
  destruct (range_set_spec l [] Hl) as (s0 & E0 & H0 & M0); [split; constructor|]. rewrite E0. cbn [mbind Outcome_bind].
  destruct (range_from_spec _ _ (proj1 loopback4_ok) (proj2 loopback4_ok)) as (r4 & E4 & H4 & I4). rewrite E4. cbn [mbind Outcome_bind].
  destruct (set_remove_spec s0 r4 H0 H4) as (s1 & E1 & H1 & M1). rewrite E1. cbn [mbind Outcome_bind].
  destruct (range_from_spec _ _ (proj1 loopback6_ok) (proj2 loopback6_ok)) as (r6 & E6 & H6 & I6). rewrite E6. cbn [mbind Outcome_bind].
  destruct (set_remove_spec s1 r6 H1 H6) as (s2 & E2 & H2 & M2). rewrite E2. cbn [mbind Outcome_bind].
  destruct (set_subnets_spec s2 (set_ranges _ H2)) as (nets & E & F & M). rewrite E. cbn [mbind Outcome_bind].
  assert (forall x, valid x -> Exists (in_net x) nets <-> routed x l /\ ~ loopback x) as Hx.
  { intros x Hx. rewrite M, M2, M1, M0, I4, I6 by done. unfold loopback, loopback4, loopback6, member.
    rewrite Exists_nil. tauto. }
  assert (map (λ n, mkNetwork (reparse n.1) n.2) nets = map (λ n, mkNetwork n.1 n.2) nets) as ->.
  { apply map_ext_in. intros n Hn. f_equal. rewrite list.Forall_forall in F. apply list_elem_of_In in Hn.
    destruct (F n Hn) as [Hv Hm Ha]. apply Hre; [done|]. apply Hmap; [done|].
    apply (Hx n.1 Hv). apply Exists_exists. exists n. split; [done|]. unfold in_net.
    assert (0 < 2 ^ net_bits n) by (apply Z.pow_pos_nonneg; lia). split; [done|lia]. }
  eexists. split; [done|]. split.
  - apply Forall_map. eapply list.Forall_impl; [exact F|]. by intros [a m].
  - intros x Hv. rewrite <- Hx by done. rewrite Exists_exists, Exists_exists.
    rewrite list.Forall_forall in F. split.
    + intros (n & (n' & -> & Hn)%list_elem_of_fmap & Hin). exists n'. split; [done|].
      apply in_net_network; [by apply F|]. by destruct n'.
    + intros (n & Hn & Hin). exists (mkNetwork n.1 n.2). split; [by apply (list_elem_of_fmap_2 (λ n, mkNetwork n.1 n.2))|].
      apply in_net_network in Hin; [|by apply F]. by destruct n.
Qed.
End Old.

(** ** The builder *)
Definition with_routes (b : Builder) (l : list Route) : Builder :=
  mkBuilder (addresses b) (dnsServers b) l (includedAddresses b) (excludedAddresses b)
    (includedApplications b) (excludedApplications b) (allowSplitTunneling b) (mtu b).

Lemma elem_set_insert {A} `{EqDecision A} (x y : A) s : y ∈ set_insert x s <-> y = x \/ y ∈ s.
Proof.
  unfold set_insert. case_bool_decide; [|rewrite elem_of_app, list_elem_of_singleton; tauto].
  split; [by right|]. by intros [->|?].
Qed.
Lemma elem_set_union {A} `{EqDecision A} (l s : list A) y : y ∈ set_union l s <-> y ∈ l \/ y ∈ s.
Proof.
  unfold set_union. revert s. induction l as [|x l IH]; intros s; cbn [foldl].
  - rewrite elem_of_nil. tauto.
  - rewrite IH, elem_set_insert, elem_of_cons. tauto.
Qed.

(** The routes once the default route of version 6 is replaced. *)
Definition effective (l : list Route) : list Route :=
  if existsb is_ipv6_default l
  then set_union (List.filter (λ r, negb (is_ipv6_default r)) l) [mkRoute ipv6_global true] else l.

Lemma replace_ipv6_default_spec b : replace_ipv6_default b = Ret (tt, with_routes b (effective (routes b))).
Proof.
  unfold replace_ipv6_default, effective, rbind, rlift, gets.
  destruct (existsb is_ipv6_default (routes b)); [reflexivity|]. by destruct b.
Qed.

Lemma head_127 a : valid a -> length a = 4%nat -> head a = Some 127 -> loopback a.
Proof.
  intros [_ Ho] Hl Hh. destruct a as [|x a]; [done|]. injection Hh as ->. left.
  apply octets_cons in Ho as [_ Ho]. pose proof (num_bound a Ho) as Hb. unfold in_network, net_bits. cbn [fst snd loopback4].
  split; [done|]. rewrite num_cons. injection Hl as Hl.
  assert (span a = 2 ^ 24) as E by (unfold span, size; by rewrite Hl). rewrite E in *.
  change (maxMask ipv4_loopback - 8) with 24. change (num ipv4_loopback / 2 ^ 24) with 127.
  symmetry. apply (Z.div_unique _ _ _ (num a)); lia.
Qed.

Lemma not_loopback_route n :
  valid (address n) -> ~ loopback (address n) -> is_loopback_route (mkRoute n true) = false.
Proof.
  intros Hv Hl. unfold is_loopback_route, isIpv4. cbn [include inetNetwork andb].
  destruct (Nat.eqb_spec (length (address n)) 4) as [E|E]; apply bool_decide_eq_false.
  - intros Hh. by apply Hl, head_127.
  - intros ->. apply Hl. right. by split.
Qed.

(** What [processRoutes] leaves on a version without excluded routes. *)
Lemma processRoutes_old `{HashOrder} reparse sdk b :
  sdk < 33 -> existsb (λ r, negb (include r)) (effective (routes b)) = true ->
  Forall (λ r, network_ok (inetNetwork r)) (effective (routes b)) ->
  (forall a, valid a -> ~ mapped a -> reparse a = a) ->
  (forall x, valid x -> routed x (effective (routes b)) -> ~ mapped x) ->
  exists l, processRoutes reparse sdk b = Ret (tt, with_routes b l) /\
    Forall (λ r, include r = true) l /\
    forall x, valid x -> Exists (in_route x) l <-> routed x (effective (routes b)) /\ ~ loopback x.
Proof.
  intros Hs He Hl Hre Hmap. destruct (subnets_exact reparse _ Hl Hre Hmap) as (nets & E & F & M).
  eexists. split.
  { unfold processRoutes, rbind. rewrite replace_ipv6_default_spec. unfold rlift, gets. cbn [routes with_routes].
    replace (sdk <? 33) with true by lia. rewrite He. cbn [andb]. unfold guarded. rewrite E. reflexivity. }
  assert (forall n, n ∈ nets -> is_loopback_route (mkRoute n true) = false) as Hno.
  { intros n Hn. rewrite list.Forall_forall in F. destruct (F n Hn) as [Hv Hm Ha].
    apply not_loopback_route; [done|]. apply (M (address n) Hv). apply Exists_exists. exists n.
    split; [done|]. by split. }
  assert (forall r, r ∈ List.filter (λ r, negb (is_loopback_route r)) (set_union (map (λ n, mkRoute n true) nets) [])
            <-> exists n, r = mkRoute n true /\ n ∈ nets) as Hin.
  { intros r. rewrite list_elem_of_In, filter_In, <- list_elem_of_In, elem_set_union, elem_of_nil.
    rewrite list_elem_of_fmap. split.
    - intros [[(n & -> & Hn)|[]] _]. by exists n.
    - intros (n & -> & Hn). rewrite Hno by done. split; [left; by exists n|done]. }
  cbn [routes set_routes]. split.
  - apply list.Forall_forall. intros r (n & -> & _)%Hin. done.
  - intros x Hx. rewrite <- M by done. rewrite !Exists_exists. split.
    + intros (r & (n & -> & Hn)%Hin & Hr). by exists n.
    + intros (n & Hn & Hr). exists (mkRoute n true). split; [apply Hin; by exists n|done].
Qed.

(** ** Sites left out *)
Class HashOrderLaws `{HashOrder} : Prop := {
  hash_order_elem : forall l x, x ∈ hash_order l <-> x ∈ l
}.

Lemma set_union_append {A} `{EqDecision A} (l s : list A) :
  exists t, set_union l s = app s t /\ forall y, y ∈ t <-> y ∈ l /\ y ∉ s.
Proof.
  unfold set_union. revert s. induction l as [|x l IH]; intros s; cbn [foldl].
  { exists []. rewrite app_nil_r. split; [done|]. intros y. rewrite elem_of_nil. tauto. }
  unfold set_insert at 2. case_bool_decide as Hx.
  - destruct (IH s) as (t & -> & Ht). exists t. split; [done|]. intros y. rewrite Ht, elem_of_cons.
    split; [tauto|]. intros [[->|?] ?]; [done|tauto].
  - destruct (IH (app s [x])) as (t & -> & Ht). exists (x :: t). rewrite <- app_assoc. split; [done|].
    intros y. rewrite !elem_of_cons, Ht, elem_of_app, list_elem_of_singleton.
    destruct (decide (y = x)) as [->|]; tauto.
Qed.

Lemma kept_app x l1 l2 : kept x (app l1 l2) <-> kept x l1 /\ kept x l2.
Proof. apply Forall_app. Qed.
Lemma kept_included x l : Forall (λ r, include r = true) l -> kept x l.
Proof. intros Hl. eapply list.Forall_impl; [exact Hl|]. simpl. intros r -> [=]. Qed.

(** Included routes in front of excluded ones. *)
Lemma routed_split x l1 l2 :
  Forall (λ r, include r = true) l1 -> Forall (λ r, include r = false) l2 ->
  routed x (app l1 l2) <-> Exists (in_route x) l1 /\ Forall (λ r, ~ in_route x r) l2.
Proof.
  intros H1 H2.
  assert (kept x l2 <-> Forall (λ r, ~ in_route x r) l2) as Hk.
  { unfold kept. rewrite !list.Forall_forall. rewrite list.Forall_forall in H2.
    split; intros Hf r Hr; [apply (Hf r Hr (H2 r Hr))|intros _; by apply Hf]. }
  assert (~ routed x l2) as Hno.
  { intros (a & r & b & -> & Hi & _). apply Forall_app in H2 as [_ H2]. apply list.Forall_cons in H2 as [H2 _]. congruence. }
  induction H1 as [|r l1 Hr H1 IH]; cbn [app]; [rewrite Exists_nil; tauto|].
  rewrite routed_cons, Exists_cons, IH, kept_app. pose proof (kept_included x l1 H1). tauto.
Qed.

Definition default4 : Route := mkRoute ipv4_default true.
Definition default6 : Route := mkRoute ipv6_default true.
Definition global6 : Route := mkRoute ipv6_global true.

Lemma in_default4 x : valid x -> in_route x default4 <-> length x = 4%nat.
Proof.
  intros [_ Ho]. unfold in_route, in_network. cbn [default4 inetNetwork ipv4_default net_pair fst address length].
  split; [by intros [? _]|]. intros Hl. split; [done|]. unfold net_bits. cbn [fst snd net_pair].
  pose proof (num_bound x Ho) as Hb.
  assert (span x = 2 ^ 32) as E by (unfold span, size; by rewrite Hl). rewrite E in Hb.
  change (num [0; 0; 0; 0]) with 0. change (maxMask [0; 0; 0; 0] - 0) with 32.
  rewrite Z.div_0_l by done. by apply Z.div_small.
Qed.

Lemma global6_not_mapped x : in_route x global6 -> ~ mapped x.
Proof.
  unfold in_route, mapped, in_network, net_bits. cbn [fst snd net_pair global6 inetNetwork address mask ipv6_global].
  intros [_ E] [_ E']. change (maxMask (32 :: replicate 15 0) - 3) with 125 in E.
  change (maxMask (app (replicate 10 0) [255; 255; 0; 0; 0; 0]) - 96) with 32 in E'.
  change (num (32 :: replicate 15 0) / 2 ^ 125) with 1 in E.
  change (num (app (replicate 10 0) [255; 255; 0; 0; 0; 0]) / 2 ^ 32) with 65535 in E'.
  pose proof (Z.mul_div_le (num x) (2 ^ 125) ltac:(lia)).
  pose proof (Z.mul_succ_div_gt (num x) (2 ^ 32) ltac:(lia)). rewrite E, E' in *. lia.
Qed.

(** Adding the routes of excluded addresses to included ones. *)
Lemma set_union_excluded (l : list InetNetwork) (s : list Route) :
  Forall (λ r, include r = true) s ->
  exists t, set_union (map (λ n, mkRoute n false) l) s = app s t /\
    forall r, r ∈ t <-> exists n, r = mkRoute n false /\ n ∈ l.
Proof.
  intros Hs. destruct (set_union_append (map (λ n, mkRoute n false) l) s) as (t & E & Ht). exists t.
  split; [done|]. intros r. rewrite Ht, list_elem_of_fmap. split; [tauto|].
  intros (n & -> & Hn). split; [by exists n|]. intros Hin. rewrite list.Forall_forall in Hs.
  by specialize (Hs _ Hin).
Qed.

Lemma filter_not_default6 l : (forall r, r ∈ l -> include r = false) ->
  List.filter (λ r, negb (is_ipv6_default r)) l = l.
Proof.
  intros Hl. induction l as [|r l IH]; [done|]. cbn [List.filter]. unfold is_ipv6_default at 1.
  rewrite Hl by (apply elem_of_cons; by left). cbn [andb negb]. rewrite IH; [done|].
  intros r' Hr'. apply Hl. apply elem_of_cons. by right.
Qed.

Lemma only_default6 u : (forall r, r ∈ u -> r = default6) ->
  List.filter (λ r, negb (is_ipv6_default r)) u = [].
Proof.
  intros Hu. induction u as [|r u IH]; [done|]. cbn [List.filter]. rewrite (Hu r) by (apply elem_of_cons; by left).
  change (negb (is_ipv6_default default6)) with false. apply IH. intros r' Hr'. apply Hu. apply elem_of_cons. by right.
Qed.

(** The routes of a tunnel of everything from which sites are left out: the two
    default routes in some order, then the excluded ones. *)
Lemma effective_excluded t u :
  (forall r, r ∈ t -> include r = false) -> (forall r, r ∈ u -> r = default6) ->
  exists t', (effective (app (app [default4; global6] t) u) = app [default4; global6] t' \/
              effective (app (app [default4; global6] t) u) = app [global6; default4] t') /\
    forall r, r ∈ t' <-> r ∈ t.
Proof.
  intros Ht Hu. unfold effective. destruct (existsb _ _) eqn:Ex.
  - destruct (set_union_append t [global6; default4]) as (t' & Et & Hin). exists t'. split.
    + right. rewrite !List.filter_app, (only_default6 u Hu), (filter_not_default6 t Ht), app_nil_r.
      rewrite <- Et. reflexivity.
    + intros r. rewrite Hin. split; [tauto|]. intros Hr. split; [done|]. specialize (Ht r Hr).
      rewrite !elem_of_cons, elem_of_nil. intros [->|[->|[]]]; discriminate.
  - destruct u as [|r u]; [exists t; rewrite app_nil_r; auto|].
    rewrite existsb_app in Ex. apply orb_false_iff in Ex as [_ Ex]. cbn [existsb] in Ex.
    rewrite (Hu r) in Ex by (apply elem_of_cons; by left). discriminate.
Qed.

Lemma excluded_routes `{HashOrderLaws} b :
  includedAddresses b = [] -> excludedAddresses b <> [] ->
  (forall r, r ∈ routes b -> r = default4 \/ r = default6) ->
  exists l t, processSplitTunneling b = Ret (tt, with_routes b l) /\
    (effective l = app [default4; global6] t \/ effective l = app [global6; default4] t) /\
    forall r, r ∈ t <-> exists n, r = mkRoute n false /\ n ∈ excludedAddresses b.
Proof.
  intros Hi He Hr.
  destruct (set_union_excluded (hash_order (excludedAddresses b)) [default4; global6]) as (t & Et & Ht);
    [by repeat constructor|]. setoid_rewrite hash_order_elem in Ht.
  destruct (set_union_append (routes b) (app [default4; global6] t)) as (u & Eu & Hu).
  destruct (effective_excluded t u) as (t' & Ee & Ht').
  - intros r (n & -> & _)%Ht. done.
  - intros r [Hin Hno]%Hu. destruct (Hr r Hin) as [->|]; [|done]. exfalso. apply Hno.
    apply elem_of_app. left. apply elem_of_cons. by left.
  - exists (app (app [default4; global6] t) u), t'. split; [|split; [done|intros r; by rewrite Ht', Ht]].
    rewrite <- Eu, <- Et. unfold processSplitTunneling, rbind, rlift, gets. rewrite Hi.
    by destruct (excludedAddresses b).
Qed.

(** ** Properties *)

(** C15. On versions of Android without excluded routes the tunnel leaves out
    exactly the listed sites. For every configuration that routes everything,
    over either or both versions, and every non-empty list of excluded
    networks, building the routes succeeds in networks that are all included,
    and an address is in one of them exactly when it is of version 4 or a
    global one of version 6, in no excluded network, and not a loopback
    address. *)
Theorem android_leaves_sites_out `{HashOrderLaws} (reparse : list Z -> list Z) (sdk : Z) (b : Builder) :
  sdk < 33 -> includedAddresses b = [] -> excludedAddresses b <> [] ->
  Forall network_ok (excludedAddresses b) ->
  (forall r, r ∈ routes b -> r = default4 \/ r = default6) ->
  (forall a, valid a -> ~ mapped a -> reparse a = a) ->
  exists l, (do! processSplitTunneling in processRoutes reparse sdk) b = Ret (tt, with_routes b l) /\
    Forall (λ r, include r = true) l /\
    forall x, valid x -> Exists (in_route x) l <->
      (length x = 4%nat \/ in_network x (net_pair ipv6_global)) /\
      Forall (λ n, ~ in_network x (net_pair n)) (excludedAddresses b) /\ ~ loopback x.
Proof.
  intros Hs Hi He Hok Hr Hre. destruct (excluded_routes b Hi He Hr) as (l0 & t & Es & Ee & Ht).
  assert (Forall (λ r, include r = false) t) as Hf.
  { apply list.Forall_forall. intros r (n & -> & _)%Ht. done. }
  assert (forall x, valid x -> routed x (effective l0) <->
    (length x = 4%nat \/ in_network x (net_pair ipv6_global)) /\
    Forall (λ n, ~ in_network x (net_pair n)) (excludedAddresses b)) as Hx.
  { intros x Hv.
    assert (Forall (λ r, ~ in_route x r) t <-> Forall (λ n, ~ in_network x (net_pair n)) (excludedAddresses b)) as Hfe.
    { rewrite !list.Forall_forall. split.
      - intros H1 n Hn. apply (H1 (mkRoute n false)). apply Ht. by exists n.
      - intros H1 r (n & -> & Hn)%Ht. by apply H1. }
    destruct Ee as [-> | ->]; rewrite routed_split, Hfe by (done || by repeat constructor);
      rewrite !Exists_cons, Exists_nil, in_default4 by done; change (in_route x global6) with
      (in_network x (net_pair ipv6_global)); tauto. }
  destruct (processRoutes_old reparse sdk (with_routes b l0)) as (l & E & Fi & M); try done.
  - cbn [routes with_routes]. apply existsb_exists. destruct (excludedAddresses b) as [|n ex]; [done|].
    exists (mkRoute n false). split; [|done]. apply list_elem_of_In.
    assert (mkRoute n false ∈ t) as Hn by (apply Ht; exists n; split; [done|apply elem_of_cons; by left]).
    destruct Ee as [-> | ->]; apply elem_of_app; by right.
  - cbn [routes with_routes]. destruct Ee as [-> | ->]; (constructor; [|constructor]);
      try (split; [split; [auto|repeat constructor; lia]|done]);
      apply list.Forall_forall; intros r (n & -> & Hn)%Ht; rewrite list.Forall_forall in Hok; by apply Hok.
  - cbn [routes with_routes]. intros x Hv. rewrite Hx by done. intros [[Hl|Hg] _].
    + intros [Hm _]. rewrite Hl in Hm. discriminate.
    + by apply (global6_not_mapped x).
  - exists l. split; [unfold rbind; by rewrite Es|]. split; [done|]. intros x Hv. rewrite M by done.
    cbn [routes with_routes]. rewrite Hx by done. tauto.
Qed.

(** The condition on the routes is what [configWireguard] leaves where global
    split tunnelling stays allowed. *)
Lemma wireguard_routes_default `{JavaNet} `{HashOrderLaws} allowed_ips b b' :
  routes b = [] -> configWireguard_routes allowed_ips b = Ret (tt, b') ->
  allowSplitTunneling b' = true -> forall r, r ∈ routes b' -> r = default4 \/ r = default6.
Proof.
  intros Hb. unfold configWireguard_routes, rbind, guarded.
  destruct (foldr _ _ _) as [nets| |]; try done. cbv zeta. set (s := set_union nets []).
  destruct (existsb _ s) eqn:E; cbn; [by intros [= <-]|]. rewrite Hb. intros [= <-] _ r. cbn [routes].
  rewrite elem_set_union, elem_of_nil, list_elem_of_fmap. intros [(n & -> & Hn)|[]].
  rewrite hash_order_elem in Hn.
  assert (negb (bool_decide (n ∈ [ipv4_default; ipv6_default])) = false) as Hd.
  { apply Bool.not_true_iff_false. intros Hc. apply Bool.not_true_iff_false in E. apply E.
    apply existsb_exists. exists n. split; [by apply list_elem_of_In|done]. }
  apply negb_false_iff, bool_decide_eq_true in Hd. rewrite !elem_of_cons, elem_of_nil in Hd.
  destruct Hd as [->|[->|[]]]; auto.
Qed.

(** ** Witnesses *)
#[local] Instance insertion_order : HashOrder := λ l, l.
#[local] Instance insertion_order_laws : HashOrderLaws.
Proof. by split. Qed.

Definition sample_builder : Builder :=
  mkBuilder [mkNetwork [10; 8; 1; 2] 32] [] [default4; default6] [] [mkNetwork [10; 1; 0; 0] 16] [] [] true 1280.

Lemma android_leaves_sites_out_witness :
  exists l, (do! processSplitTunneling in processRoutes (λ a, a) 30) sample_builder =
      Ret (tt, with_routes sample_builder l) /\
    ~ Exists (in_route [10; 1; 2; 3]) l /\ Exists (in_route [8; 8; 8; 8]) l.
Proof.
  destruct (android_leaves_sites_out (λ a, a) 30 sample_builder) as (l & E & _ & M);
    [done|done|done| |intros r; cbn [routes sample_builder]; rewrite !elem_of_cons, elem_of_nil; tauto|done|].
  { apply list.Forall_singleton. split; [split; [by left|repeat constructor; lia]|done]. }
  exists l. split; [exact E|]. clear E. split.
  - intros Hc. apply M in Hc as (_ & Hf & _); [|split; [by left|repeat constructor; lia]].
    inversion Hf as [|? ? Hn _]. apply Hn. split; reflexivity.
  - apply M; [split; [by left|repeat constructor; lia]|]. split; [by left|]. split.
    + constructor; [|constructor]. intros [_ Hc]. discriminate Hc.
    + intros [[_ Hc]|[Hc _]]; discriminate Hc.
Defined.
