(* ===== verification/ServerController.v ===== *)
(** * Servers reached over SSH

    The enumerators of [amnezia::ErrorCode] (client/core/defs.h), the contract
    [ServerAccess] that the configurators rely on, and [ServerController]
    (client/core/controllers/serverController.cpp): scripts, files and commands
    in containers. *)
From stdpp Require Import base decidable.
From stdpp Require Import base list strings.
From Stdlib Require Import ZArith Lia Ascii String.
From S2P Require Import Prelude QtString QtContainers Protocols Containers Settings.
Module ErrorCode.
Inductive t :=
(* general *)
| NoError | UnknownError | InternalError | NotImplementedError | AmneziaServiceNotRunning
(* server *)
| ServerCheckFailed | ServerPortAlreadyAllocatedError | ServerContainerMissingError
| ServerDockerFailedError | ServerCancelInstallation | ServerUserNotInSudo
| ServerPacketManagerError
(* ssh *)
| SshRequestDeniedError | SshInterruptedError | SshInternalError | SshPrivateKeyError
| SshPrivateKeyFormatError | SshTimeoutError
| SshScpFailureError
(* local *)
| OpenVpnConfigMissing | OpenVpnManagementServerError
| OpenVpnExecutableMissing | ShadowSocksExecutableMissing | CloakExecutableMissing
| AmneziaServiceConnectionFailed | ExecutableMissing | XrayExecutableMissing
| Tun2SockExecutableMissing
(* vpn *)
| OpenVpnAdaptersInUseError | OpenVpnUnknownError | OpenVpnTapAdapterError | AddressPoolError
(* third-party tools *)
| OpenSslFailed | ShadowSocksExecutableCrashed | CloakExecutableCrashed
| XrayExecutableCrashed | Tun2SockExecutableCrashed
(* import *)
| ImportInvalidConfigError
| AndroidError
(* api *)
| ApiConfigDownloadError | ApiConfigAlreadyAdded | ApiConfigEmptyError | ApiConfigTimeoutError
| ApiConfigSslError | ApiMissingAgwPublicKey
(* files *)
| OpenError | ReadError | PermissionsError | UnspecifiedError | FatalError | AbortError.
End ErrorCode.

#[export] Instance ErrorCode_eq_dec : EqDecision ErrorCode.t.
Proof. solve_decision. Defined.

(** The test [if (e)] of the code. *)
Definition failed (e : ErrorCode.t) : bool := negb (bool_decide (e = ErrorCode.NoError)).

Lemma failed_false e : failed e = false <-> e = ErrorCode.NoError.
Proof. unfold failed. rewrite negb_false_iff. apply bool_decide_eq_true. Qed.

(** ** The server controller

    Model of [ServerController] (client/core/controllers/serverController.cpp)
    and of the registry of its scripts (client/core/scripts_registry.cpp): the
    client prepares, installs and configures the containers of a server with
    commands and file copies over one SSH connection. The connection
    ([libssh::Client]) is the interface [Ssh]; the scripts are resources of the
    program and the resolver is Qt's, both are parameters. *)
Local Open Scope string_scope.

(** ** The connection *)

(** What a command prints, in the order the callbacks get it; [true] marks
    the error stream. *)
Abbreviation Output := (list (bool * string)).

Class Ssh (W : Type) := {
  connectToHost : ServerCredentials -> StateM W ErrorCode.t;
  (** The command, and what the reader of its output answers to a chunk. *)
  executeCommand : (string -> option string) -> string -> StateM W (Output * ErrorCode.t);
  (** The octets of a local file and the remote path. *)
  scpFileCopy : string -> string -> StateM W ErrorCode.t;
  getRandomString : nat -> StateM W string
}.

(** Callbacks that keep what they are given, each chunk ended by a line break,
    from the standard output or from both streams; the last keeps the standard
    output as it comes. *)
Definition chunk_line (c : bool * string) : string := c.2 +:+ nl.
Definition concat_strings (l : list string) : string := foldr String.append "" l.
Definition std_out (out : Output) : Output := filter (λ c, c.1 = false) out.
Definition out_lines (out : Output) : string := concat_strings (map chunk_line (std_out out)).
Definition all_lines (out : Output) : string := concat_strings (map chunk_line out).
Definition out_text (out : Output) : string := concat_strings (map snd (std_out out)).

Definition no_answer (_ : string) : option string := None.

(** Double quotation mark and backslash. *)
Definition dq : string := String "034"%char "".
Definition bslash : string := String "092"%char "".
Definition cr : string := String "013"%char "".

(** [toString(defaultValue)], [toBool(defaultValue)] *)
Definition toStringOr (d : string) (v : QJsonValue) : string :=
  match v with JString s => s | _ => d end.
Definition toBoolOr (d : bool) (v : QJsonValue) : bool :=
  match v with JBool b => b | _ => d end.

(** [str.arg(a)] for a text whose only place marker is [%1]. *)
Definition arg1 (s a : string) : string := replace_all "%1" a s.

(** ** Scripts *)
Inductive SharedScriptType :=
| prepare_host | install_docker | build_container | remove_container | remove_all_containers
| setup_host_firewall | check_connection | check_server_is_busy | check_user_in_sudo.
Inductive ProtocolScriptType :=
| dockerfile | run_container | configure_container | container_startup | openvpn_template
| wireguard_template | awg_template | xray_template.

Definition scriptFolder (container : DockerContainer.t) : string :=
  match container with
  | DockerContainer.OpenVpn => "openvpn"
  | DockerContainer.Cloak => "openvpn_cloak"
  | DockerContainer.ShadowSocks => "openvpn_shadowsocks"
  | DockerContainer.WireGuard => "wireguard"
  | DockerContainer.Awg => "awg"
  | DockerContainer.Ipsec => "ipsec"
  | DockerContainer.Xray => "xray"
  | DockerContainer.TorWebSite => "website_tor"
  | DockerContainer.Dns => "dns"
  | DockerContainer.Sftp => "sftp"
  | DockerContainer.Socks5Proxy => "socks5_proxy"
  | _ => ""
  end.

Definition scriptName_shared (type : SharedScriptType) : string :=
  match type with
  | prepare_host => "prepare_host.sh"
  | install_docker => "install_docker.sh"
  | build_container => "build_container.sh"
  | remove_container => "remove_container.sh"
  | remove_all_containers => "remove_all_containers.sh"
  | setup_host_firewall => "setup_host_firewall.sh"
  | check_connection => "check_connection.sh"
  | check_server_is_busy => "check_server_is_busy.sh"
  | check_user_in_sudo => "check_user_in_sudo.sh"
  end.

Definition scriptName_protocol (type : ProtocolScriptType) : string :=
  match type with
  | dockerfile => "Dockerfile"
  | run_container => "run_container.sh"
  | configure_container => "configure_container.sh"
  | container_startup => "start.sh"
  | openvpn_template => "template.ovpn"
  | wireguard_template => "template.conf"
  | awg_template => "template.conf"
  | xray_template => "template.json"
  end.

Definition getDockerfileFolder (container : DockerContainer.t) : string :=
  "/opt/amnezia/" +:+ containerToString container.

(** ** Variables of the scripts *)
Abbreviation Vars := (list (string * string)).

Definition replaceVars (script : string) (vars : Vars) : string :=
  foldl (λ s var, replace_all var.1 var.2 s) script vars.

(** The default of the configuration with the key [k]. *)
Definition setting (config : QJsonObject) (k d : string) : string := toStringOr d (value k config).

Section Controller.
Context {W : Type} `{Ssh W}.
(** The resources of the program; a missing one has no text. *)
Context (resource : string -> option string).
(** The DNS servers of the settings and the resolver. *)
Context (primary_dns secondary_dns : string) (getIPAddress : string -> string).

Definition scriptData_shared (type : SharedScriptType) : string :=
  default "" (resource (":/server_scripts/" +:+ scriptName_shared type)).
Definition scriptData_protocol (type : ProtocolScriptType) (container : DockerContainer.t) : string :=
  match resource (":/server_scripts/" +:+ scriptFolder container +:+ "/" +:+ scriptName_protocol type) with
  | Some data => replace_all cr "" data
  | None => ""
  end.

Definition genVarsForScript (credentials : ServerCredentials) (container : DockerContainer.t)
    (config : QJsonObject) : Vars :=
  let proto p := toObject (value (protoToString p) config) in
  let openvpnConfig := proto Proto.OpenVpn in
  let cloakConfig := proto Proto.Cloak in
  let ssConfig := proto Proto.ShadowSocks in
  let wireguarConfig := proto Proto.WireGuard in
  let amneziaWireguarConfig := proto Proto.Awg in
  let xrayConfig := proto Proto.Xray in
  let sftpConfig := proto Proto.Sftp in
  let socks5ProxyConfig := proto Proto.Socks5Proxy in
  let isNcpDisabled := toBoolOr false (value "ncp_disable" openvpnConfig) in
  let isTlsAuth := toBoolOr true (value "tls_auth" openvpnConfig) in
  let username := toString (value "userName" socks5ProxyConfig) in
  let password := toString (value "password" socks5ProxyConfig) in
  let socks5user :=
    if bool_decide (username = "") || bool_decide (password = "") then ""
    else "users " +:+ username +:+ ":CL:" +:+ password in
  let serverIp :=
    match container with
    | DockerContainer.Awg | DockerContainer.WireGuard | DockerContainer.Xray => hostName credentials
    | _ => getIPAddress (hostName credentials)
    end in
  app [("$REMOTE_HOST", hostName credentials);
       ("$OPENVPN_SUBNET_IP", setting openvpnConfig "subnet_address" "10.8.0.0");
       ("$OPENVPN_SUBNET_CIDR", setting openvpnConfig "subnet_cidr" "24");
       ("$OPENVPN_SUBNET_MASK", setting openvpnConfig "subnet_mask" "255.255.255.0");
       ("$OPENVPN_PORT", setting openvpnConfig "port" openvpn_defaultPort);
       ("$OPENVPN_TRANSPORT_PROTO", setting openvpnConfig "transport_proto" "udp");
       ("$OPENVPN_NCP_DISABLE", if isNcpDisabled then "ncp-disable" else "");
       ("$OPENVPN_CIPHER", setting openvpnConfig "cipher" "AES-256-GCM");
       ("$OPENVPN_HASH", setting openvpnConfig "hash" "SHA512");
       ("$OPENVPN_TLS_AUTH", if isTlsAuth then "tls-auth /opt/amnezia/openvpn/ta.key 0" else "")]
 (app (if isTlsAuth then [] else [("$OPENVPN_TA_KEY", "")])
 (app [("$OPENVPN_ADDITIONAL_CLIENT_CONFIG", setting openvpnConfig "additional_client_config" "");
       ("$OPENVPN_ADDITIONAL_SERVER_CONFIG", setting openvpnConfig "additional_server_config" "");
       ("$SHADOWSOCKS_SERVER_PORT", setting ssConfig "port" shadowsocks_defaultPort);
       ("$SHADOWSOCKS_LOCAL_PORT", setting ssConfig "local_port" "8585");
       ("$SHADOWSOCKS_CIPHER", setting ssConfig "cipher" "chacha20-ietf-poly1305");
       ("$CONTAINER_NAME", containerToString container);
       ("$DOCKERFILE_FOLDER", "/opt/amnezia/" +:+ containerToString container);
       ("$CLOAK_SERVER_PORT", setting cloakConfig "port" cloak_defaultPort);
       ("$FAKE_WEB_SITE_ADDRESS", setting cloakConfig "site" "tile.openstreetmap.org");
       ("$XRAY_SITE_NAME", setting xrayConfig "site" "www.googletagmanager.com");
       ("$XRAY_SERVER_PORT", setting xrayConfig "port" xray_defaultPort);
       ("$WIREGUARD_SUBNET_IP", setting wireguarConfig "subnet_address" "10.8.1.0");
       ("$WIREGUARD_SUBNET_CIDR", setting wireguarConfig "subnet_cidr" "24");
       ("$WIREGUARD_SUBNET_MASK", setting wireguarConfig "subnet_mask" "255.255.255.0");
       ("$WIREGUARD_SERVER_PORT", setting wireguarConfig "port" wireguard_defaultPort);
       ("$IPSEC_VPN_L2TP_NET", "192.168.42.0/24");
       ("$IPSEC_VPN_L2TP_POOL", "192.168.42.10-192.168.42.250");
       ("$IPSEC_VPN_L2TP_LOCAL", "192.168.42.1");
       ("$IPSEC_VPN_XAUTH_NET", "192.168.43.0/24");
       ("$IPSEC_VPN_XAUTH_POOL", "192.168.43.10-192.168.43.250");
       ("$IPSEC_VPN_SHA2_TRUNCBUG", "yes");
       ("$IPSEC_VPN_VPN_ANDROID_MTU_FIX", "yes");
       ("$IPSEC_VPN_DISABLE_IKEV2", "no");
       ("$IPSEC_VPN_DISABLE_L2TP", "no");
       ("$IPSEC_VPN_DISABLE_XAUTH", "no");
       ("$IPSEC_VPN_C2C_TRAFFIC", "no");
       ("$PRIMARY_SERVER_DNS", primary_dns);
       ("$SECONDARY_SERVER_DNS", secondary_dns);
       ("$SFTP_PORT", setting sftpConfig "port" (number (defaultPort Proto.Sftp)));
       ("$SFTP_USER", toString (value "userName" sftpConfig));
       ("$SFTP_PASSWORD", toString (value "password" sftpConfig));
       ("$AWG_SERVER_PORT", setting amneziaWireguarConfig "port" awg_defaultPort);
       ("$JUNK_PACKET_COUNT", toString (value "Jc" amneziaWireguarConfig));
       ("$JUNK_PACKET_MIN_SIZE", toString (value "Jmin" amneziaWireguarConfig));
       ("$JUNK_PACKET_MAX_SIZE", toString (value "Jmax" amneziaWireguarConfig));
       ("$INIT_PACKET_JUNK_SIZE", toString (value "S1" amneziaWireguarConfig));
       ("$RESPONSE_PACKET_JUNK_SIZE", toString (value "S2" amneziaWireguarConfig));
       ("$INIT_PACKET_MAGIC_HEADER", toString (value "H1" amneziaWireguarConfig));
       ("$RESPONSE_PACKET_MAGIC_HEADER", toString (value "H2" amneziaWireguarConfig));
       ("$UNDERLOAD_PACKET_MAGIC_HEADER", toString (value "H3" amneziaWireguarConfig));
       ("$TRANSPORT_PACKET_MAGIC_HEADER", toString (value "H4" amneziaWireguarConfig));
       ("$SOCKS5_PROXY_PORT", setting socks5ProxyConfig "port" "38080");
       ("$SOCKS5_USER", socks5user);
       ("$SOCKS5_AUTH_TYPE", if bool_decide (socks5user = "") then "none" else "strong")]
      (if bool_decide (serverIp = "") then [] else [("$SERVER_IP_ADDRESS", serverIp)]))).

(** ** Running scripts *)

(** The loop of [runScript]: a line that ends with a backslash is joined with
    the next one, a command that starts with [#] is skipped. *)
Fixpoint run_lines (answer : string -> option string) (lines : list string) (totalLine : string) :
    StateM W (Output * ErrorCode.t) :=
  match lines with
  | [] => sret ([], ErrorCode.NoError)
  | currentLine :: rest =>
      let total :=
        if bool_decide (totalLine = "") then currentLine else totalLine +:+ nl +:+ currentLine in
      if endsWith currentLine bslash then run_lines answer rest total
      else if startsWith total "#" then run_lines answer rest ""
      else
        r <- executeCommand answer total ;;
        if failed r.2 then sret r
        else r' <- run_lines answer rest "" ;; sret (app r.1 r'.1, r'.2)
  end.

(** [split("\n", Qt::SkipEmptyParts)] *)
Definition split_skip (sep s : string) : list string := filter (λ p, p <> "") (split sep s).

Definition runScript_with (answer : string -> option string) (credentials : ServerCredentials)
    (script : string) : StateM W (Output * ErrorCode.t) :=
  e <- connectToHost credentials ;;
  if failed e then sret ([], e)
  else run_lines answer (split_skip nl (replace_all cr "" script)) "".

Definition runScript (credentials : ServerCredentials) (script : string) :
    StateM W (Output * ErrorCode.t) := runScript_with no_answer credentials script.

(** A script for the container, its variables replaced without a
    configuration. *)
Definition runVars (credentials : ServerCredentials) (container : DockerContainer.t)
    (script : string) : StateM W (Output * ErrorCode.t) :=
  runScript credentials (replaceVars script (genVarsForScript credentials container [])).

Definition uploadFileToHost (credentials : ServerCredentials) (data remotePath : string) :
    StateM W ErrorCode.t :=
  e <- connectToHost credentials ;;
  if failed e then sret e else scpFileCopy data remotePath.

Inductive ScpOverwriteMode := ScpOverwriteExisting | ScpAppendToExisting.

Definition uploadTextFileToContainer (container : DockerContainer.t)
    (credentials : ServerCredentials) (file path : string) (overwriteMode : ScpOverwriteMode) :
    StateM W ErrorCode.t :=
  rnd <- getRandomString 16 ;;
  let tmpFileName := "/tmp/" +:+ rnd +:+ ".tmp" in
  e <- uploadFileToHost credentials file tmpFileName ;;
  if failed e then sret e else
  m <- runVars credentials container
         ("sudo docker exec -i $CONTAINER_NAME mkdir -p  " +:+ dq +:+ "$(dirname " +:+ path +:+ ")" +:+ dq) ;;
  if failed m.2 then sret m.2 else
  let copy target := runVars credentials container
         ("sudo docker cp " +:+ tmpFileName +:+ " $CONTAINER_NAME:/" +:+ target) in
  r <- match overwriteMode with
       | ScpOverwriteExisting => copy path
       | ScpAppendToExisting =>
           c <- copy tmpFileName ;;
           if failed c.2 then sret c else
           a <- runVars credentials container
                  ("sudo docker exec -i $CONTAINER_NAME sh -c " +:+ dq +:+ "cat " +:+ tmpFileName +:+
                   " >> " +:+ path +:+ dq) ;;
           sret (app c.1 a.1, a.2)
       end ;;
  if failed r.2 then sret r.2 else
  let stdOut := all_lines r.1 in
  if contains_str stdOut "Error" && contains_str stdOut "No such container"
  then sret ErrorCode.ServerContainerMissingError
  else
    runVars credentials container ("sudo shred -u " +:+ tmpFileName) ;;
    sret ErrorCode.NoError.

Definition runContainerScript (credentials : ServerCredentials) (container : DockerContainer.t)
    (script : string) : StateM W (Output * ErrorCode.t) :=
  rnd <- getRandomString 16 ;;
  let fileName := "/opt/amnezia/" +:+ rnd +:+ ".sh" in
  e <- uploadTextFileToContainer container credentials script fileName ScpOverwriteExisting ;;
  if failed e then sret ([], e) else
  r <- runVars credentials container
         ("sudo docker exec -i $CONTAINER_NAME " +:+
          (if bool_decide (container = DockerContainer.Socks5Proxy) then "sh" else "bash") +:+
          " " +:+ fileName +:+ " ") ;;
  d <- runVars credentials container
         ("sudo docker exec -i $CONTAINER_NAME rm " +:+ fileName +:+ " ") ;;
  sret (app r.1 d.1, r.2).

(** *** Files of a container are read as hexadecimal text *)
Definition hex_val (c : Ascii.ascii) : option Z :=
  let n := Z.of_nat (Ascii.nat_of_ascii c) in
  if (48 <=? n)%Z && (n <=? 57)%Z then Some (n - 48)%Z
  else if (97 <=? n)%Z && (n <=? 102)%Z then Some (n - 87)%Z
  else if (65 <=? n)%Z && (n <=? 70)%Z then Some (n - 55)%Z
  else None.
Fixpoint hex_digits (s : string) : list Z :=
  match s with
  | EmptyString => []
  | String c s' => match hex_val c with Some d => d :: hex_digits s' | None => hex_digits s' end
  end.
(** [QByteArray::fromHex]: other characters are skipped and the digits are
    paired from the end. *)
Fixpoint octets_back (l : list Z) (acc : string) : string :=
  match l with
  | lo :: hi :: l' => octets_back l' (String (Ascii.ascii_of_nat (Z.to_nat (16 * hi + lo))) acc)
  | [lo] => String (Ascii.ascii_of_nat (Z.to_nat lo)) acc
  | [] => acc
  end.
Definition fromHex (s : string) : string := octets_back (rev (hex_digits s)) "".

Definition getTextFileFromContainer (container : DockerContainer.t)
    (credentials : ServerCredentials) (path : string) : StateM W (string * ErrorCode.t) :=
  r <- runScript credentials
         ("sudo docker exec -i " +:+ containerToString container +:+ " sh -c " +:+ dq +:+
          "xxd -p '" +:+ path +:+ "'" +:+ dq) ;;
  sret (fromHex (out_text r.1), r.2).
End Controller.

(** ** What the server controller promises its clients

    The configurators and the list of clients reach the files of a container
    through a few calls of [ServerController], the credentials of the server
    being fixed. [ServerAccess] is that interface and [ServerAccessLaws] the
    part of its contract that concerns the configuration files;
    [controller_access] is the implementation of ServerController.v. *)
Local Open Scope string_scope.

Class ServerAccess (W : Type) := {
  sa_runContainerScript : DockerContainer.t -> string -> StateM W (Output * ErrorCode.t);
  sa_getTextFile : DockerContainer.t -> string -> StateM W (string * ErrorCode.t);
  sa_upload : DockerContainer.t -> string -> string -> ScpOverwriteMode -> StateM W ErrorCode.t;
  (** A command for the container, its variables replaced. *)
  sa_run : DockerContainer.t -> string -> StateM W (Output * ErrorCode.t);
  (** A template, its variables replaced for the configuration. *)
  sa_fill : DockerContainer.t -> QJsonObject -> string -> string
}.

#[export] Instance controller_access {W} `{Ssh W} (primary_dns secondary_dns : string)
    (getIPAddress : string -> string) (credentials : ServerCredentials) : ServerAccess W := {|
  sa_runContainerScript :=
    runContainerScript primary_dns secondary_dns getIPAddress credentials;
  sa_getTextFile c path := getTextFileFromContainer c credentials path;
  sa_upload c file path mode :=
    uploadTextFileToContainer primary_dns secondary_dns getIPAddress c credentials file path mode;
  sa_run := runVars primary_dns secondary_dns getIPAddress credentials;
  sa_fill c config script :=
    replaceVars script (genVarsForScript primary_dns secondary_dns getIPAddress credentials c config)
|}.

(** The lines of a text that contain a word, as [grep] prints them. *)
Definition grep (word text : string) : string :=
  unlines (filter (λ l, contains_str l word = true) (split_skip nl text)).

Definition grep_script (path : string) : string := "cat " +:+ path +:+ " | grep AllowedIPs".
Definition sync_script (path : string) : string :=
  "sudo docker exec -i $CONTAINER_NAME bash -c 'wg syncconf wg0 <(wg-quick strip " +:+ path +:+ ")'".

(** Files below a directory of [/opt/amnezia]; scripts and temporary files of
    the controller are elsewhere. Their names have no character that the shell
    or the code treats. *)
Definition plain_char (c : Ascii.ascii) : bool :=
  let n := Ascii.nat_of_ascii c in
  (48 <=? n)%nat && (n <=? 57)%nat || (65 <=? n)%nat && (n <=? 90)%nat ||
  (97 <=? n)%nat && (n <=? 122)%nat || (n =? 46)%nat || (n =? 95)%nat || (n =? 47)%nat.
Definition config_path (p : string) : bool :=
  startsWith p "/opt/amnezia/" && contains_str (drop_chars 13 p) "/" && all_chars plain_char p.

(** [text w c p] is the text of the file [p] of the container [c]. The interface
    does not look at the exit status of the commands it runs, so that its results
    say nothing about the work of a command that failed: [works w] is that none
    has failed so far, and what a call did is promised only then. *)
Class ServerAccessLaws (W : Type) `{ServerAccess W} := {
  text : W -> DockerContainer.t -> string -> string;
  works : W -> bool;
  get_text c p w r w' :
    config_path p = true -> sa_getTextFile c p w = (r, w') ->
    text w' = text w /\ (works w' = true -> works w = true) /\
    (r.2 = ErrorCode.NoError -> works w' = true -> r.1 = text w c p);
  upload_text c s p mode w e w' :
    config_path p = true -> sa_upload c s p mode w = (e, w') ->
    (forall c' p', config_path p' = true -> (c', p') <> (c, p) -> text w' c' p' = text w c' p') /\
    (works w' = true -> works w = true) /\
    (e = ErrorCode.NoError -> works w' = true ->
     text w' c p = match mode with
                   | ScpOverwriteExisting => s
                   | ScpAppendToExisting => text w c p +:+ s
                   end);
  grep_text c p w r w' :
    config_path p = true -> sa_runContainerScript c (grep_script p) w = (r, w') ->
    (works w' = true -> works w = true) /\
    (works w' = true -> forall c' p', config_path p' = true -> text w' c' p' = text w c' p') /\
    (r.2 = ErrorCode.NoError -> works w' = true -> out_text r.1 = grep "AllowedIPs" (text w c p));
  sync_text c p w r w' :
    config_path p = true -> sa_run c (sync_script p) w = (r, w') ->
    text w' = text w /\ (works w' = true -> works w = true)
}.
