(* ===== verification/ServerSetup.v ===== *)
(** * Installing and updating a container

    Model of the rest of [ServerController]
    (client/core/controllers/serverController.cpp): the checks of a server, the
    workers that build, run, configure and start a container, and the decision
    whether a change of the configuration needs a new container. *)
From stdpp Require Import base list strings.
From Stdlib Require Import ZArith Lia Ascii String.
From S2P Require Import Prelude QtString QtContainers Protocols Containers Settings ServerController.
Local Open Scope string_scope.

(** ** Which changes need a new container *)
Definition differs (k d : string) (oldProtoConfig newProtoConfig : QJsonObject) : bool :=
  negb (String.eqb (setting oldProtoConfig k d) (setting newProtoConfig k d)).

Definition isReinstallContainerRequired (container : DockerContainer.t)
    (oldConfig newConfig : QJsonObject) : bool :=
  let mainProto := defaultProtocol container in
  let oldProtoConfig := toObject (value (protoToString mainProto) oldConfig) in
  let newProtoConfig := toObject (value (protoToString mainProto) newConfig) in
  let changed k d := differs k d oldProtoConfig newProtoConfig in
  match container with
  | DockerContainer.OpenVpn =>
      changed "transport_proto" "udp" || changed "port" openvpn_defaultPort
  | DockerContainer.Cloak => changed "port" cloak_defaultPort
  | DockerContainer.ShadowSocks => changed "port" shadowsocks_defaultPort
  | DockerContainer.Awg =>
      changed "port" awg_defaultPort || changed "Jc" "3" || changed "Jmin" "10" ||
      changed "Jmax" "30" || changed "S1" "15" || changed "S2" "18" ||
      changed "H1" "1020325451" || changed "H2" "3288052141" || changed "H3" "1766607858" ||
      changed "H4" "2528465083"
  | DockerContainer.WireGuard => changed "port" wireguard_defaultPort
  | DockerContainer.Socks5Proxy => true
  | _ => false
  end.

(** [updateContainerConfigAfterInstallation] of the configuration controller:
    the address of a hidden service is kept. *)
Definition updateContainerConfigAfterInstallation (container : DockerContainer.t)
    (containerConfig : QJsonObject) (stdOut : string) : QJsonObject :=
  let mainProto := protoToString (defaultProtocol container) in
  match container with
  | DockerContainer.TorWebSite =>
      let protocol := toObject (value mainProto containerConfig) in
      jinsert mainProto (JObject (jinsert "site" (JString (replace_all nl "" stdOut)) protocol))
        containerConfig
  | _ => containerConfig
  end.

Section Setup.
Context {W : Type} `{Ssh W} (resource : string -> option string).
Context (primary_dns secondary_dns : string) (getIPAddress : string -> string).

Definition vars (credentials : ServerCredentials) (container : DockerContainer.t)
    (config : QJsonObject) : Vars :=
  genVarsForScript primary_dns secondary_dns getIPAddress credentials container config.
Definition run_shared (credentials : ServerCredentials) (container : DockerContainer.t)
    (config : QJsonObject) (type : SharedScriptType) : StateM W (Output * ErrorCode.t) :=
  runScript credentials (replaceVars (scriptData_shared resource type) (vars credentials container config)).

(** ** Checks *)
Definition isUserInSudo (credentials : ServerCredentials) : StateM W ErrorCode.t :=
  if String.eqb (userName credentials) "root" then sret ErrorCode.NoError
  else
    r <- run_shared credentials DockerContainer.None [] check_user_in_sudo ;;
    sret (if contains_str (all_lines r.1) "sudo" then r.2 else ErrorCode.ServerUserNotInSudo).

(** The attempts of [isServerDpkgBusy]; [requests] says, attempt by attempt,
    whether [cancelInstallation] has been called by then. The signals
    [serverIsBusy(true)] are counted. *)
Fixpoint dpkg_attempts (n : nat) (credentials : ServerCredentials) (requests : nat -> bool)
    (cancelled : bool) (i busy : nat) : StateM W (ErrorCode.t * nat) :=
  match n with
  | O => sret (ErrorCode.ServerPacketManagerError, busy)
  | S n' =>
      let cancelled := cancelled || requests i in
      if cancelled then sret (ErrorCode.ServerCancelInstallation, busy) else
      r <- run_shared credentials DockerContainer.None [] check_server_is_busy ;;
      let stdOut := all_lines r.1 in
      if contains_str stdOut "Packet manager not found"
      then sret (ErrorCode.ServerPacketManagerError, busy)
      else if contains_str stdOut "fuser not installed" then sret (ErrorCode.NoError, busy)
      else if bool_decide (stdOut = "") then sret (ErrorCode.NoError, busy)
      else dpkg_attempts n' credentials requests cancelled (S i) (S busy)
  end.
(** The result and the values of the signal [serverIsBusy]. *)
Definition isServerDpkgBusy (credentials : ServerCredentials) (requests : nat -> bool) :
    StateM W (ErrorCode.t * list bool) :=
  r <- dpkg_attempts 30 credentials requests false 0 0 ;;
  sret (r.1, app (replicate r.2 true) [false]).

(** The text of the command before the transport is chosen. *)
Definition lsof_script (port : string) (fixedPorts : list string) : string :=
  foldl (λ script p, arg1 (script +:+ "|:%1") p)
    (arg1 "which lsof &>/dev/null || true && sudo lsof -i -P -n 2>/dev/null | grep -E ':%1 " port)
    fixedPorts.

Definition isServerPortBusy (credentials : ServerCredentials) (container : DockerContainer.t)
    (config : QJsonObject) : Run W ErrorCode.t :=
  match container with
  | DockerContainer.Dns => rret ErrorCode.NoError
  | _ =>
      let protocol := defaultProtocol container in
      let containerConfig := toObject (value (protoToString protocol) config) in
      let port := setting containerConfig "port" (number (defaultPort protocol)) in
      match defaultTransportProto protocol with
      | None => rabort (* no value is returned *)
      | Some t =>
          let transportProto := setting containerConfig "transport_proto" (transportProtoToString t) in
          let script := lsof_script port (fixedPortsForContainer container) in
          let run s := runVars primary_dns secondary_dns getIPAddress credentials container s in
          let verdict (out : Output) :=
            if bool_decide (all_lines out = "") then ErrorCode.NoError
            else ErrorCode.ServerPortAlreadyAllocatedError in
          rlift
            (if String.eqb transportProto "tcpandudp" then
               tcp <- run (script +:+ "' | grep -i tcp" +:+ " | grep LISTEN") ;;
               if failed tcp.2 then sret tcp.2 else
               udp <- run (script +:+ "' | grep -i udp") ;;
               if failed udp.2 then sret udp.2 else sret (verdict (app tcp.1 udp.1))
             else
               let script := arg1 (script +:+ "' | grep -i %1") transportProto in
               let script :=
                 if String.eqb transportProto "tcp" then script +:+ " | grep LISTEN" else script in
               r <- run script ;;
               if failed r.2 then sret r.2 else sret (verdict r.1))
      end
  end.

(** ** Workers *)
Definition docker_answer (data : string) : option string :=
  if contains_str data "Automatically restart Docker daemon?" then Some "yes" else None.

Definition installDockerWorker (credentials : ServerCredentials) : StateM W ErrorCode.t :=
  r <- runScript_with docker_answer credentials
         (replaceVars (scriptData_shared resource install_docker)
            (vars credentials DockerContainer.None [])) ;;
  let stdOut := all_lines r.1 in
  sret (if contains_str stdOut "lock" then ErrorCode.ServerPacketManagerError
        else if contains_str stdOut "command not found" then ErrorCode.ServerDockerFailedError
        else r.2).

Definition prepareHostWorker (credentials : ServerCredentials) (container : DockerContainer.t) :
    StateM W ErrorCode.t :=
  r <- run_shared credentials container [] prepare_host ;; sret r.2.

Definition removeContainer (credentials : ServerCredentials) (container : DockerContainer.t) :
    StateM W ErrorCode.t :=
  r <- run_shared credentials container [] remove_container ;; sret r.2.

Definition server_removeAllContainers (credentials : ServerCredentials) : StateM W ErrorCode.t :=
  r <- runScript credentials (scriptData_shared resource remove_all_containers) ;; sret r.2.

Definition rebootServer (credentials : ServerCredentials) : StateM W ErrorCode.t :=
  r <- runScript credentials "sudo reboot" ;; sret r.2.

Definition setupServerFirewall (credentials : ServerCredentials) : StateM W ErrorCode.t :=
  r <- run_shared credentials DockerContainer.None [] setup_host_firewall ;; sret r.2.

Definition checkSshConnection (credentials : ServerCredentials) : StateM W (string * ErrorCode.t) :=
  r <- runScript credentials (scriptData_shared resource check_connection) ;;
  sret (all_lines r.1, r.2).

Definition buildContainerWorker (credentials : ServerCredentials) (container : DockerContainer.t)
    (config : QJsonObject) : StateM W ErrorCode.t :=
  let dockerFilePath := getDockerfileFolder container +:+ "/Dockerfile" in
  r <- runVars primary_dns secondary_dns getIPAddress credentials container
         ("sudo rm " +:+ dockerFilePath) ;;
  if failed r.2 then sret r.2 else
  e <- uploadFileToHost credentials (scriptData_protocol resource dockerfile container) dockerFilePath ;;
  if failed e then sret e else
  b <- run_shared credentials container config build_container ;; sret b.2.

Definition runContainerWorker (credentials : ServerCredentials) (container : DockerContainer.t)
    (config : QJsonObject) : StateM W ErrorCode.t :=
  r <- runScript credentials
         (replaceVars (scriptData_protocol resource run_container container)
            (vars credentials container config)) ;;
  let stdOut := out_lines r.1 in
  sret (if contains_str stdOut "address already in use"
        then ErrorCode.ServerPortAlreadyAllocatedError
        else if contains_str stdOut "is already in use by container"
        then ErrorCode.ServerPortAlreadyAllocatedError
        else if contains_str stdOut "invalid publish" then ErrorCode.ServerDockerFailedError
        else r.2).

(** The result and the configuration after the installation. *)
Definition configureContainerWorker (credentials : ServerCredentials)
    (container : DockerContainer.t) (config : QJsonObject) :
    StateM W (ErrorCode.t * QJsonObject) :=
  r <- runContainerScript primary_dns secondary_dns getIPAddress credentials container
         (replaceVars (scriptData_protocol resource configure_container container)
            (vars credentials container config)) ;;
  sret (r.2, updateContainerConfigAfterInstallation container config (all_lines r.1)).

Definition startupContainerWorker (credentials : ServerCredentials) (container : DockerContainer.t)
    (config : QJsonObject) : StateM W ErrorCode.t :=
  let script := scriptData_protocol resource container_startup container in
  if bool_decide (script = "") then sret ErrorCode.NoError else
  e <- uploadTextFileToContainer primary_dns secondary_dns getIPAddress container credentials
         (replaceVars script (vars credentials container config)) "/opt/amnezia/start.sh"
         ScpOverwriteExisting ;;
  if failed e then sret e else
  r <- runScript credentials
         (replaceVars ("sudo docker exec -d $CONTAINER_NAME sh -c " +:+ dq +:+
                       "chmod a+x /opt/amnezia/start.sh && /opt/amnezia/start.sh" +:+ dq)
            (vars credentials container config)) ;;
  sret r.2.

(** ** Setting up

    The two tests of the port are the code's. The result, the configuration
    and the signals [serverIsBusy]. *)
Definition checked (check : Run W ErrorCode.t) (config : QJsonObject) (busy : list bool)
    (next : Run W (ErrorCode.t * QJsonObject * list bool)) :
    Run W (ErrorCode.t * QJsonObject * list bool) :=
  let! e := check in if failed e then rret (e, config, busy) else next.

Definition install_container (credentials : ServerCredentials) (container : DockerContainer.t)
    (config : QJsonObject) (busy : list bool) : Run W (ErrorCode.t * QJsonObject * list bool) :=
  do! rlift (removeContainer credentials container) in
  checked (rlift (buildContainerWorker credentials container config)) config busy
  (checked (rlift (runContainerWorker credentials container config)) config busy
  (let! c := rlift (configureContainerWorker credentials container config) in
   if failed c.1 then rret (c, busy) else
   do! rlift (setupServerFirewall credentials) in
   let! e := rlift (startupContainerWorker credentials container c.2) in
   rret (e, c.2, busy))).

Definition setupContainer (credentials : ServerCredentials) (container : DockerContainer.t)
    (config : QJsonObject) (isUpdate : bool) (requests : nat -> bool) :
    Run W (ErrorCode.t * QJsonObject * list bool) :=
  let port_free := if isUpdate then rret ErrorCode.NoError
                   else isServerPortBusy credentials container config in
  checked (rlift (isUserInSudo credentials)) config []
  (let! d := rlift (isServerDpkgBusy credentials requests) in
   let busy := d.2 in
   if failed d.1 then rret (d.1, config, busy) else
   checked (rlift (installDockerWorker credentials)) config busy
  (checked port_free config busy
  (checked port_free config busy
  (checked (rlift (prepareHostWorker credentials container)) config busy
  (install_container credentials container config busy))))).

Definition updateContainer (credentials : ServerCredentials) (container : DockerContainer.t)
    (oldConfig newConfig : QJsonObject) (requests : nat -> bool) :
    Run W (ErrorCode.t * QJsonObject * list bool) :=
  if isReinstallContainerRequired container oldConfig newConfig
  then setupContainer credentials container newConfig true requests
  else
    let! c := rlift (configureContainerWorker credentials container newConfig) in
    if failed c.1 then rret (c, []) else
    let! e := rlift (startupContainerWorker credentials container c.2) in
    rret (e, c.2, []).
End Setup.

(** ** A container is kept only when its ports stay

    The variables that [run_container.sh] of a container publishes; the other
    variables of these scripts depend on the server only. *)
Definition published_vars (container : DockerContainer.t) : list string :=
  match container with
  | DockerContainer.OpenVpn => ["$OPENVPN_PORT"; "$OPENVPN_TRANSPORT_PROTO"]
  | DockerContainer.Cloak => ["$CLOAK_SERVER_PORT"]
  | DockerContainer.ShadowSocks => ["$SHADOWSOCKS_SERVER_PORT"]
  | DockerContainer.Awg => ["$AWG_SERVER_PORT"]
  | DockerContainer.WireGuard => ["$WIREGUARD_SERVER_PORT"]
  | _ => []
  end.

Fixpoint var_value (v : string) (l : Vars) : option string :=
  match l with
  | [] => None
  | (k, x) :: l' => if String.eqb k v then Some x else var_value v l'
  end.

Lemma differs_false k d a b : differs k d a b = false -> setting a k d = setting b k d.
Proof. unfold differs. rewrite negb_false_iff. by intros ?%String.eqb_eq. Qed.

(** The setting, with its default, that gives a published variable its value. *)
Definition published_setting (v : string) : string * string :=
  if String.eqb v "$OPENVPN_TRANSPORT_PROTO" then ("transport_proto", "udp")
  else ("port",
        if String.eqb v "$OPENVPN_PORT" then openvpn_defaultPort
        else if String.eqb v "$CLOAK_SERVER_PORT" then cloak_defaultPort
        else if String.eqb v "$SHADOWSOCKS_SERVER_PORT" then shadowsocks_defaultPort
        else if String.eqb v "$AWG_SERVER_PORT" then awg_defaultPort
        else wireguard_defaultPort).

Lemma published_value d1 d2 ip cred c conf v :
  In v (published_vars c) ->
  var_value v (vars d1 d2 ip cred c conf) =
    Some (setting (toObject (value (protoToString (defaultProtocol c)) conf))
            (published_setting v).1 (published_setting v).2).
Proof.
  intros Hv. destruct c; cbn in Hv; repeat (destruct Hv as [Hv|Hv]); try done; subst v;
    unfold vars, genVarsForScript; destruct (toBoolOr true _); reflexivity.
Qed.

Lemma published_compared c old new v :
  In v (published_vars c) -> isReinstallContainerRequired c old new = false ->
  let proto config := toObject (value (protoToString (defaultProtocol c)) config) in
  setting (proto old) (published_setting v).1 (published_setting v).2 =
  setting (proto new) (published_setting v).1 (published_setting v).2.
Proof.
  intros Hv Hr. destruct c; cbn in Hv; repeat (destruct Hv as [Hv|Hv]); try done; subst v;
    unfold isReinstallContainerRequired in Hr; cbv zeta in Hr; breflect; by apply differs_false.
Qed.

(** When [updateContainer] decides to keep the container, the port and the
    transport that the container was started with are those of the new
    configuration, for every container whose port the user can change. *)
Theorem kept_container_ports d1 d2 ip cred c old new v :
  In v (published_vars c) ->
  isReinstallContainerRequired c old new = false ->
  var_value v (vars d1 d2 ip cred c old) = var_value v (vars d1 d2 ip cred c new) /\
  var_value v (vars d1 d2 ip cred c new) <> None.
Proof. intros Hv Hr. rewrite !published_value, (published_compared c old new) by done. done. Qed.

Lemma kept_container_ports_witness :
  let old := [("awg", JObject [("mtu", JString "1280")])] in
  let new := [("awg", JObject [("port", JString "55424")])] in
  var_value "$AWG_SERVER_PORT" (vars "1.1.1.1" "1.0.0.1" (λ h, h) (mkCredentials "h" "root" "p" 22)
    DockerContainer.Awg old) =
  var_value "$AWG_SERVER_PORT" (vars "1.1.1.1" "1.0.0.1" (λ h, h) (mkCredentials "h" "root" "p" 22)
    DockerContainer.Awg new).
Proof.
  intros old new.
  apply (kept_container_ports "1.1.1.1" "1.0.0.1" (λ h, h) (mkCredentials "h" "root" "p" 22)
    DockerContainer.Awg old new "$AWG_SERVER_PORT"); [by left|reflexivity].
Defined.
