(* ===== verification/WireguardConfigurator.v ===== *)
(** * The WireGuard configurators

    Model of [WireguardConfigurator] and [AwgConfigurator]
    (client/configurators/wireguard_configurator.cpp, awg_configurator.cpp and
    configurator_base.cpp): a new client gets the next address of the subnet,
    is appended to the configuration file of the server and receives a
    configuration of its own. The keys, which OpenSSL makes, are arguments;
    empty keys stand for a failure. *)
From stdpp Require Import base list strings.
From Stdlib Require Import ZArith Lia Ascii String.
From S2P Require Import Prelude QtString QtContainers Variant Protocols Containers Settings ServerController.
Local Open Scope string_scope.

Record ConnectionData := mkConnData {
  clientPrivKey : string; clientPubKey : string; clientIP : string;
  serverPubKey : string; pskKey : string; host : string; port : string
}.

(** ** The fields chosen by the constructor *)
Definition serverConfigPath (isAwg : bool) : string :=
  if isAwg then "/opt/amnezia/awg/wg0.conf" else "/opt/amnezia/wireguard/wg0.conf".
Definition serverPublicKeyPath (isAwg : bool) : string :=
  if isAwg then "/opt/amnezia/awg/wireguard_server_public_key.key"
  else "/opt/amnezia/wireguard/wireguard_server_public_key.key".
Definition serverPskKeyPath (isAwg : bool) : string :=
  if isAwg then "/opt/amnezia/awg/wireguard_psk.key" else "/opt/amnezia/wireguard/wireguard_psk.key".
Definition configTemplate (isAwg : bool) : ProtocolScriptType :=
  if isAwg then awg_template else wireguard_template.
Definition protocolName (isAwg : bool) : string := if isAwg then "awg" else "wireguard".
Definition m_defaultPort (isAwg : bool) : string :=
  if isAwg then wireguard_defaultPort else awg_defaultPort.

(** ** The next address *)

(** [ip.split(",", Qt::SkipEmptyParts).first().trimmed()] *)
Definition first_ip (line : string) : Outcome string :=
  match split_skip "," line with [] => Abort | x :: _ => Ret (trimmed x) end.
Fixpoint vpn_ips (lines : list string) : Outcome (list string) :=
  match lines with
  | [] => Ret []
  | line :: rest => ip ← first_ip line; ips ← vpn_ips rest; Ret (ip :: ips)
  end.

(** The number after the last one in use; nothing when the pool is used up. *)
Definition nextIpNumber (stdOut : string) : Outcome (option string) :=
  let stdOut := replace_all "/32" "" (replace_all "AllowedIPs = " "" stdOut) in
  ips ← vpn_ips (split_skip nl stdOut);
  Ret (match last ips with
       | None => Some "2"
       | Some ip =>
           let next := (toInt (default "" (last (split "." ip))) + 1)%Z in
           if (254 <? next)%Z then None else Some (number next)
       end).

Definition client_ip (subnetIp nextIpNumber : string) : option string :=
  match split_skip "." subnetIp with
  | [] => None
  | l => Some (join "." (app (removelast l) [nextIpNumber]))
  end.

(** The section the server's file gets for the client. *)
Definition configPart (pub psk ip : string) : string :=
  "[Peer]" +:+ nl +:+ "PublicKey = " +:+ pub +:+ nl +:+ "PresharedKey = " +:+ psk +:+ nl +:+
  "AllowedIPs = " +:+ ip +:+ "/32" +:+ nl +:+ nl.

(** ** Values of a configuration text *)

(** The map of the settings of a text: the sections are skipped, a line counts
    when it has exactly two parts around [" = "]. *)
Definition config_line (m : list (string * string)) (line : string) : list (string * string) :=
  let trimmedLine := trimmed line in
  if startsWith trimmedLine "[" && endsWith trimmedLine "]" then m
  else match split " = " trimmedLine with
       | [k; v] => qm_insert (trimmed k) (trimmed v) m
       | _ => m
       end.
Definition config_map (text : string) : list (string * string) :=
  foldl config_line [] (split nl text).
Definition map_value (k : string) (m : list (string * string)) : string :=
  default "" (qm_find k m).

Section Configurator.
Context {W : Type} `{ServerAccess W} `{JsonDocument}.
(** The name of the host and the templates of the program. *)
Context (host_name : string) (template : ProtocolScriptType -> DockerContainer.t -> string).

Definition prepareWireguardConfig (isAwg : bool) (container : DockerContainer.t)
    (containerConfig : QJsonObject) (keys : string * string) :
    Run W (ConnectionData * ErrorCode.t) :=
  let port := toStringOr (m_defaultPort isAwg)
                (value "port" (toObject (value (protocolName isAwg) containerConfig))) in
  let conn ip srv psk := mkConnData keys.1 keys.2 ip srv psk host_name port in
  if bool_decide (keys.1 = "") || bool_decide (keys.2 = "")
  then rret (conn "" "" "", ErrorCode.InternalError) else
  let! r := rlift (sa_runContainerScript container (grep_script (serverConfigPath isAwg))) in
  if failed r.2 then rret (conn "" "" "", r.2) else
  let! next := rguard (nextIpNumber (out_lines r.1)) in
  match next with
  | None => rret (conn "" "" "", ErrorCode.AddressPoolError)
  | Some n =>
      match client_ip (toStringOr "10.8.1.0" (value "subnet_address" containerConfig)) n with
      | None => rret (conn "" "" "", ErrorCode.AddressPoolError)
      | Some ip =>
          let! p := rlift (sa_getTextFile container (serverPublicKeyPath isAwg)) in
          let srv := replace_all nl "" p.1 in
          if failed p.2 then rret (conn ip srv "", p.2) else
          let! k := rlift (sa_getTextFile container (serverPskKeyPath isAwg)) in
          let psk := replace_all nl "" k.1 in
          let data := conn ip srv psk in
          if failed k.2 then rret (data, k.2) else
          let! u := rlift (sa_upload container (configPart keys.2 psk ip) (serverConfigPath isAwg)
                             ScpAppendToExisting) in
          if failed u then rret (data, u) else
          let! s := rlift (sa_run container (sync_script (serverConfigPath isAwg))) in
          rret (data, s.2)
      end
  end.

Definition createConfig (isAwg : bool) (container : DockerContainer.t)
    (containerConfig : QJsonObject) (keys : string * string) : Run W (string * ErrorCode.t) :=
  let config := sa_fill container containerConfig (template (configTemplate isAwg) container) in
  let! d := prepareWireguardConfig isAwg container containerConfig keys in
  let '(connData, e) := d in
  if failed e then rret ("", e) else
  let config := replace_all "$WIREGUARD_CLIENT_PRIVATE_KEY" (clientPrivKey connData) config in
  let config := replace_all "$WIREGUARD_CLIENT_IP" (clientIP connData) config in
  let config := replace_all "$WIREGUARD_SERVER_PUBLIC_KEY" (serverPubKey connData) config in
  let config := replace_all "$WIREGUARD_PSK" (pskKey connData) config in
  let wireguarConfig := toObject (value (protoToString Proto.WireGuard) containerConfig) in
  let jConfig :=
    jinsert "clientId" (JString (clientPubKey connData))
    (jinsert "allowed_ips" (JArray [JString "0.0.0.0/0"; JString "::/0"])
    (jinsert "persistent_keep_alive" (JString "25")
    (jinsert "mtu" (JString (toStringOr "1376" (value "mtu" wireguarConfig)))
    (jinsert "server_pub_key" (JString (serverPubKey connData))
    (jinsert "psk_key" (JString (pskKey connData))
    (jinsert "client_pub_key" (JString (clientPubKey connData))
    (jinsert "client_ip" (JString (clientIP connData))
    (jinsert "client_priv_key" (JString (clientPrivKey connData))
    (jinsert "port" (JInt (toInt (port connData)))
    (jinsert "hostName" (JString (host connData))
    (jinsert "config" (JString config) []))))))))))) in
  rret (toJson (JObject jConfig), e).

(** The keys of the junk parameters, in the order of the code. *)
Definition junk_keys : list string := ["Jc"; "Jmin"; "Jmax"; "S1"; "S2"; "H1"; "H2"; "H3"; "H4"].

Definition awg_createConfig (container : DockerContainer.t) (containerConfig : QJsonObject)
    (keys : string * string) : Run W (string * ErrorCode.t) :=
  let! c := createConfig true container containerConfig keys in
  let jsonConfig := toObject (fromJsonDoc c.1) in
  let configMap := config_map (toString (value "config" jsonConfig)) in
  let jsonConfig :=
    foldl (λ o k, jinsert k (JString (map_value k configMap)) o) jsonConfig junk_keys in
  let awgConfig := toObject (value (protoToString Proto.Awg) containerConfig) in
  let jsonConfig := jinsert "mtu" (JString (toStringOr "1376" (value "mtu" awgConfig))) jsonConfig in
  rret (toJson (JObject jsonConfig), c.2).
End Configurator.

(** [processConfigWithDnsSettings], which the local and the exported
    configuration of these protocols go through. *)
Definition processConfigWithDnsSettings (dns : string * string) (protocolConfigString : string) :
    string :=
  replace_all "$SECONDARY_DNS" dns.2 (replace_all "$PRIMARY_DNS" dns.1 protocolConfigString).
