(* ===== verification/ClientManagement.v ===== *)
(** * The clients of a server

    Model of [ClientManagementModel] (client/ui/models/clientManagementModel.cpp):
    the table of the clients a container serves, kept as JSON in a file of the
    container, and the revocation of a client. The server is used through
    [ServerAccess]; the date of the clock and the server of the settings are
    arguments of the calls that read them. *)
From stdpp Require Import base list strings.
From Stdlib Require Import ZArith Lia Ascii String.
From S2P Require Import Prelude QtString QtContainers Variant Protocols Containers Settings ServerController.
Local Open Scope string_scope.

(** ** State *)
Record ClientManagement (W : Type) := mkClients {
  m_clientsTable : list QJsonValue;
  server_state : W;
  (** The signals [adminConfigRevoked]. *)
  adminConfigRevoked : list DockerContainer.t
}.
Arguments mkClients {W} _ _ _.
Arguments m_clientsTable {W} _.
Arguments server_state {W} _.
Arguments adminConfigRevoked {W} _.

Record WgShowData := mkWgShow {
  show_clientId : string; show_latestHandshake : string; show_dataReceived : string;
  show_dataSent : string; show_allowedIps : string
}.

Inductive ClientRole :=
| ClientNameRole | CreationDateRole | LatestHandshakeRole | DataReceivedRole | DataSentRole
| AllowedIpsRole.

(** ** Rows *)
Definition client_row (clientId : string) (userData : QJsonObject) : QJsonValue :=
  JObject (jinsert "userData" (JObject userData) (jinsert "clientId" (JString clientId) [])).

Definition client_data (table : list QJsonValue) (row : Z) (role : ClientRole) : option string :=
  if (row <? 0)%Z || (array_size table <=? row)%Z then None
  else
    let userData := toObject (value "userData" (toObject (array_at table row))) in
    Some (toString (value (match role with
                           | ClientNameRole => "clientName"
                           | CreationDateRole => "creationDate"
                           | LatestHandshakeRole => "latestHandshake"
                           | DataReceivedRole => "dataReceived"
                           | DataSentRole => "dataSent"
                           | AllowedIpsRole => "allowedIps"
                           end) userData)).

Definition has_id (clientId : string) (v : QJsonValue) : bool :=
  isObject v && contains_key "clientId" (toObject v) &&
  String.eqb (toString (value "clientId" (toObject v))) clientId.
Definition isClientExists (clientId : string) (table : list QJsonValue) : bool :=
  existsb (has_id clientId) table.

(** The clients of a table of the old format, an object with the names by
    identifier. *)
Definition migration (o : QJsonObject) : list QJsonValue :=
  map (λ e, client_row e.1 (jinsert "clientName" (value "clientName" (toObject e.2)) [])) o.

(** Clients that are on the server but not in the table get a numbered name. *)
Fixpoint add_missing (ids : list string) (table : list QJsonValue) (count : Z) :
    list QJsonValue * Z :=
  match ids with
  | [] => (table, count)
  | id :: rest =>
      if isClientExists id table then add_missing rest table count
      else add_missing rest
             (app table [client_row id (jinsert "clientName" (JString ("Client " +:+ number count)) [])])
             (count + 1)
  end.

(** The public keys of a WireGuard configuration; a line without a part cannot
    be read. *)
Fixpoint public_keys (lines : list string) : Outcome (list string) :=
  match lines with
  | [] => Ret []
  | line :: rest =>
      match split_skip " = " line with
      | [] => Abort
      | x :: l =>
          keys ← public_keys rest;
          Ret (if String.eqb x "PublicKey" then List.last (x :: l) "" :: keys else keys)
      end
  end.

(** ** The report of [wg show all] *)
Definition getStrValue (str : string) : string := trimmed (mid (indexOf str ":" + 1) str).
Definition handshake_units : list (string * string) :=
  [(" days", "d"); (" hours", "h"); (" minutes", "m"); (" seconds", "s");
   (" day", "d"); (" hour", "h"); (" minute", "m"); (" second", "s")].
Definition changeHandshakeFormat (s : string) : string :=
  foldl (λ s item, replace_all item.1 item.2 s) s handshake_units.
(** [str.chop(n)] *)
Definition chop (n : nat) (s : string) : string := take_chars (String.length s - n) s.

Definition lines_with (word : string) (parts : list string) : list string :=
  List.filter (λ p, contains_str p word) parts.

Definition show_entry (peer transfer handshake ips : string) : WgShowData :=
  let transferredData := split "," (getStrValue transfer) in
  let received := trimmed (List.hd "" transferredData) in
  let sent := trimmed (List.last transferredData "") in
  mkWgShow (getStrValue peer) (changeHandshakeFormat (getStrValue handshake))
    (chop 5 sent) (chop 9 received) (getStrValue ips).

Fixpoint show_entries (peers transfers handshakes ips : list string) : list WgShowData :=
  match peers, transfers, handshakes, ips with
  | p :: peers', t :: transfers', h :: handshakes', i :: ips' =>
      show_entry p t h i :: show_entries peers' transfers' handshakes' ips'
  | _, _, _, _ => []
  end.

Definition parse_wgShow (stdOut : string) : list WgShowData :=
  let parts := split nl stdOut in
  show_entries (lines_with "peer:" parts) (lines_with "transfer:" parts)
    (lines_with "latest handshake:" parts) (lines_with "allowed ips:" parts).

(** ** The table with the report *)
Definition set_nonempty (k s : string) (o : QJsonObject) : QJsonObject :=
  if String.eqb s "" then o else jinsert k (JString s) o.
Definition shown_row (d : WgShowData) (v : QJsonValue) : QJsonValue :=
  let obj := toObject v in
  let userData := toObject (value "userData" obj) in
  let userData := set_nonempty "latestHandshake" (show_latestHandshake d) userData in
  let userData := set_nonempty "dataReceived" (show_dataReceived d) userData in
  let userData := set_nonempty "dataSent" (show_dataSent d) userData in
  let userData := set_nonempty "allowedIps" (show_allowedIps d) userData in
  JObject (jinsert "userData" (JObject userData) obj).
(** The first row with the identifier is replaced. *)
Fixpoint show_client (d : WgShowData) (table : list QJsonValue) : list QJsonValue :=
  match table with
  | [] => []
  | v :: rest => if has_id (show_clientId d) v then shown_row d v :: rest
                 else v :: show_client d rest
  end.

(** ** Files *)
Definition openvpn_based (container : DockerContainer.t) : bool :=
  match container with
  | DockerContainer.OpenVpn | DockerContainer.ShadowSocks | DockerContainer.Cloak => true
  | _ => false
  end.
Definition wireguard_based (container : DockerContainer.t) : bool :=
  match container with DockerContainer.WireGuard | DockerContainer.Awg => true | _ => false end.
Definition clientsTableFile (container : DockerContainer.t) : string :=
  "/opt/amnezia/" +:+
  containerTypeToString (if openvpn_based container then DockerContainer.OpenVpn else container) +:+
  "/clientsTable".
Definition wireGuardConfigFile (container : DockerContainer.t) : string :=
  "opt/amnezia/" +:+ (if bool_decide (container = DockerContainer.WireGuard) then "wireguard" else "awg") +:+
  "/wg0.conf".

(** The sections of a configuration without the first one that contains the
    identifier. *)
Fixpoint drop_section (clientId : string) (sections : list string) : list string :=
  match sections with
  | [] => []
  | s :: rest => if contains_str s clientId then rest else s :: drop_section clientId rest
  end.
Definition without_client (clientId config : string) : string :=
  "[" +:+ join "[" (drop_section clientId (split_skip "[" config)).

Section Management.
Context {W : Type} `{ServerAccess W} `{JsonDocument}.
Abbreviation ClientsM A := (Run (ClientManagement W) A).

Definition on_server {A} (m : StateM W A) : ClientsM A := λ s,
  let '(a, w) := m (server_state s) in
  Ret (a, mkClients (m_clientsTable s) w (adminConfigRevoked s)).
Definition get_table : ClientsM (list QJsonValue) := rlift (gets m_clientsTable).
Definition set_table (table : list QJsonValue) : ClientsM unit := λ s,
  Ret (tt, mkClients table (server_state s) (adminConfigRevoked s)).
Definition emit_revoked (container : DockerContainer.t) : ClientsM unit := λ s,
  Ret (tt, mkClients (m_clientsTable s) (server_state s) (app (adminConfigRevoked s) [container])).

(** The table is written to its file. *)
Definition store_table (container : DockerContainer.t) : ClientsM ErrorCode.t :=
  let! table := get_table in
  on_server (sa_upload container (toJson (JArray table)) (clientsTableFile container) ScpOverwriteExisting).

Definition getOpenVpnClients (container : DockerContainer.t) (count : Z) : ClientsM ErrorCode.t :=
  let! r := on_server (sa_run container
              "sudo docker exec -i $CONTAINER_NAME bash -c 'ls /opt/amnezia/openvpn/pki/issued'") in
  if failed r.2 then rret r.2 else
  let certsIds := List.filter (λ c, negb (String.eqb c "AmneziaReq.crt")) (split_skip nl (out_lines r.1)) in
  let! table := get_table in
  do! set_table (add_missing (map (replace_all ".crt" "") certsIds) table count).1 in
  rret r.2.

Definition getWireGuardClients (container : DockerContainer.t) (count : Z) : ClientsM ErrorCode.t :=
  let! f := on_server (sa_getTextFile container (wireGuardConfigFile container)) in
  if failed f.2 then rret f.2 else
  let! keys := rguard (public_keys (split_skip nl f.1)) in
  let! table := get_table in
  do! set_table (add_missing keys table count).1 in
  rret f.2.

Definition wgShow (container : DockerContainer.t) : ClientsM (list WgShowData) :=
  if wireguard_based container then
    let! r := on_server (sa_run container
                "sudo docker exec -i $CONTAINER_NAME bash -c 'wg show all'") in
    rret (if failed r.2 then [] else parse_wgShow (out_lines r.1))
  else rret [].

(** A table that is empty is rebuilt from the server and stored again.
    A failure to rebuild the table ends the call, a failure to store it does
    not; [true] stands for the former. *)
Definition update_table (container : DockerContainer.t) (clientsTableString : string) :
    ClientsM (bool * ErrorCode.t) :=
  do! set_table (toArray (fromJsonDoc clientsTableString)) in
  let! table := get_table in
  match table with
  | _ :: _ => rret (false, ErrorCode.NoError)
  | [] =>
      do! set_table (migration (toObject (fromJsonDoc clientsTableString))) in
      let! e :=
        if openvpn_based container then getOpenVpnClients container 0
        else if wireguard_based container then getWireGuardClients container 0
        else rret ErrorCode.NoError in
      if failed e then rret (true, e) else
      let! table := get_table in
      let! u := if String.eqb clientsTableString (toJson (JArray table))
                then rret ErrorCode.NoError else store_table container in
      rret (false, u)
  end.

Definition updateModel (container : DockerContainer.t) : ClientsM ErrorCode.t :=
  do! set_table [] in
  let! f := on_server (sa_getTextFile container (clientsTableFile container)) in
  if failed f.2 then rret f.2 else
  let! e := update_table container f.1 in
  if e.1 then rret e.2 else
  let! data := wgShow container in
  let! table := get_table in
  do! set_table (foldl (λ t d, show_client d t) table data) in
  rret e.2.

Definition renameClient (now : string) (row : Z) (clientName : string)
    (container : DockerContainer.t) (addTimeStamp : bool) : ClientsM ErrorCode.t :=
  let! table := get_table in
  let client := toObject (array_at table row) in
  let userData := jinsert "clientName" (JString clientName) (toObject (value "userData" client)) in
  let userData := if addTimeStamp then jinsert "creationDate" (JString now) userData else userData in
  let! table := rguard (array_replace table row (JObject (jinsert "userData" (JObject userData) client))) in
  do! set_table table in
  store_table container.

(** The first row whose identifier is the text. *)
Fixpoint find_row (test : QJsonValue -> bool) (table : list QJsonValue) (i : Z) : option Z :=
  match table with
  | [] => None
  | v :: rest => if test v then Some i else find_row test rest (i + 1)
  end.
Definition id_value_is (clientId : string) (v : QJsonValue) : bool :=
  json_eqb (value "clientId" (toObject v)) (JString clientId).
Definition id_string_is (clientId : string) (v : QJsonValue) : bool :=
  String.eqb clientId (toString (value "clientId" (toObject v))).

Definition appendClient (now clientId clientName : string) (container : DockerContainer.t) :
    ClientsM ErrorCode.t :=
  let! e := updateModel container in
  if failed e then rret e else
  let! table := get_table in
  match find_row (id_value_is clientId) table 0 with
  | Some i => renameClient now i clientName container true
  | None =>
      let userData := jinsert "creationDate" (JString now) (jinsert "clientName" (JString clientName) []) in
      do! set_table (app table [client_row clientId userData]) in
      store_table container
  end.

(** The protocol whose configuration names the client. *)
Definition client_protocol (container : DockerContainer.t) : option Proto.t :=
  match container with
  | DockerContainer.ShadowSocks | DockerContainer.Cloak => Some Proto.OpenVpn
  | DockerContainer.OpenVpn | DockerContainer.WireGuard | DockerContainer.Awg =>
      Some (defaultProtocol container)
  | _ => None
  end.
Definition config_client (protocol : Proto.t) (containerConfig : QJsonObject) : string :=
  toString (value "clientId"
    (getProtocolConfigFromContainer (λ s, toObject (fromJsonDoc s)) protocol containerConfig)).

Definition appendContainerClient (now : string) (container : DockerContainer.t)
    (containerConfig : QJsonObject) (clientName : string) : ClientsM ErrorCode.t :=
  match client_protocol container with
  | None => rret ErrorCode.NoError
  | Some protocol => appendClient now (config_client protocol containerConfig) clientName container
  end.

(** ** Revocation *)
Definition row_id (table : list QJsonValue) (row : Z) : string :=
  toString (value "clientId" (toObject (array_at table row))).

Definition revoke_certificate (clientId : string) : string :=
  "sudo docker exec -i $CONTAINER_NAME bash -c 'cd /opt/amnezia/openvpn ;" +:+ bslash +:+
  "easyrsa revoke " +:+ clientId +:+ " ;" +:+ bslash +:+ "easyrsa gen-crl ;" +:+ bslash +:+
  "chmod 666 pki/crl.pem ;" +:+ bslash +:+ "cp pki/crl.pem .'".

Definition revokeOpenVpn (row : Z) (container : DockerContainer.t) : ClientsM ErrorCode.t :=
  let! table := get_table in
  let! r := on_server (sa_run container (revoke_certificate (row_id table row))) in
  if failed r.2 then rret r.2 else
  do! set_table (array_removeAt table row) in
  on_server (sa_upload container (toJson (JArray (array_removeAt table row)))
               (clientsTableFile DockerContainer.OpenVpn) ScpOverwriteExisting).

Definition revokeWireGuard (row : Z) (container : DockerContainer.t) : ClientsM ErrorCode.t :=
  let path := "/" +:+ wireGuardConfigFile container in
  let! f := on_server (sa_getTextFile container path) in
  if failed f.2 then rret f.2 else
  let! table := get_table in
  let! u := on_server (sa_upload container (without_client (row_id table row) f.1) path
                         ScpOverwriteExisting) in
  if failed u then rret u else
  do! set_table (array_removeAt table row) in
  let! t := store_table container in
  if failed t then rret t else
  let! s := on_server (sa_run container (sync_script path)) in
  rret s.2.

Definition revoke_row (row : Z) (container : DockerContainer.t) : ClientsM ErrorCode.t :=
  if openvpn_based container then revokeOpenVpn row container
  else if wireguard_based container then revokeWireGuard row container
  else rret ErrorCode.NoError.

(** Whether the configuration of the administrator is the revoked one. *)
Definition names_client (container : DockerContainer.t) (clientId : string) (v : QJsonValue) : bool :=
  let containerConfig := toObject v in
  bool_decide (containerFromString (toString (value "container" containerConfig)) = container) &&
  contains_str (toString (value "last_config" (toObject (value
    (containerTypeToString (match container with
                            | DockerContainer.ShadowSocks | DockerContainer.Cloak => DockerContainer.OpenVpn
                            | _ => container
                            end)) containerConfig)))) clientId.

Definition revokeClient (row : Z) (container : DockerContainer.t) (server : QJsonObject) :
    ClientsM ErrorCode.t :=
  let! table := get_table in
  let clientId := row_id table row in
  let! e := revoke_row row container in
  if failed e then rret e else
  do! run_each (List.filter (names_client container clientId) (toArray (value "containers" server)))
        (λ _, emit_revoked container) in
  rret e.

Definition revokeContainerClient (containerConfig : QJsonObject) (container : DockerContainer.t) :
    ClientsM ErrorCode.t :=
  let! e := updateModel container in
  if failed e then rret e else
  match client_protocol container with
  | None => rret ErrorCode.NoError
  | Some protocol =>
      let! table := get_table in
      match find_row (id_string_is (config_client protocol containerConfig)) table 0 with
      | None => rret e
      | Some row => revoke_row row container
      end
  end.
End Management.
