(* ===== verification/WireguardClients.v ===== *)
(** * Addresses of the clients of a WireGuard server

    The configuration file of the server is an interface section and one
    section per client. New clients are appended by the configurator and
    revoked ones are cut out by the list of clients; both are shown to keep the
    addresses of the clients distinct. *)
From stdpp Require Import base list strings relations.
From Stdlib Require Import ZArith Lia Ascii String Sorting.Sorted.
From S2P Require Import Prelude QtString QtContainers Variant Protocols Containers Settings ServerController WireguardConfigurator ClientManagement.
Local Open Scope string_scope.

(** ** The file *)
Record Peer := mkPeer { peer_pub : string; peer_psk : string; peer_number : Z }.

Definition ip_char (c : Ascii.ascii) : bool :=
  match digit_val c with Some _ => true | None => Ascii.eqb c "."%char end.
(** A subnet address as the settings hold it. *)
Definition good_subnet (subnet : string) : bool :=
  all_chars ip_char subnet && negb (bool_decide (split_skip "." subnet = [])).

Definition peer_ip (subnet : string) (n : Z) : string := default "" (client_ip subnet (number n)).
Definition allowed_line (subnet : string) (p : Peer) : string :=
  "AllowedIPs = " +:+ peer_ip subnet (peer_number p) +:+ "/32".
Definition peer_lines (subnet : string) (p : Peer) : list string :=
  ["[Peer]"; "PublicKey = " +:+ peer_pub p; "PresharedKey = " +:+ peer_psk p;
   allowed_line subnet p; ""].
Definition conf_text (iface : list string) (subnet : string) (peers : list Peer) : string :=
  unlines (app iface (List.concat (map (peer_lines subnet) peers))).

(** A line that [grep] does not select. *)
Definition unlisted (l : string) : Prop := nl_free l /\ contains_str l "AllowedIPs" = false.
(** Keys are one word of base-64 digits. *)
Definition key_char (c : Ascii.ascii) : bool :=
  let n := Ascii.nat_of_ascii c in
  (48 <=? n)%nat && (n <=? 57)%nat || (65 <=? n)%nat && (n <=? 90)%nat ||
  (97 <=? n)%nat && (n <=? 122)%nat || (n =? 43)%nat || (n =? 47)%nat || (n =? 61)%nat.
Record good_key (k : string) : Prop := {
  key_chars : all_chars key_char k = true;
  key_length : String.length k = 44%nat;
  key_padded : char_free "="%char k = false;
  key_unlisted : contains_str k "AllowedIPs" = false
}.
Record good_peer (p : Peer) : Prop := {
  pub_good : good_key (peer_pub p);
  psk_good : good_key (peer_psk p);
  number_range : (2 <= peer_number p <= 254)%Z
}.

(** The numbers of the clients grow along the file. *)
Record served (iface : list string) (subnet : string) (peers : list Peer) : Prop := {
  iface_unlisted : Forall unlisted iface;
  peers_good : Forall good_peer peers;
  numbers_grow : StronglySorted Z.lt (map peer_number peers)
}.

(** ** Addresses *)
Lemma ip_char_digit c d : digit_val c = Some d -> ip_char c = true.
Proof. unfold ip_char. by intros ->. Qed.

Lemma number_ip_chars n : (0 <= n)%Z -> all_chars ip_char (number n) = true.
Proof.
  intros Hn. assert (forall s a r, digits_val s a = Some r -> all_chars ip_char s = true) as H.
  { induction s as [|c s IH]; [done|]. cbn. intros a r.
    destruct (digit_val c) as [d|] eqn:E; [|done]. intros Hr.
    by rewrite (ip_char_digit c d), (IH _ _ Hr). }
  destruct n as [|p|p]; [done| |lia]. apply (H _ 0%Z (Z.of_N (N.pos p))).
  apply (pretty_N_digits (N.pos p)).
Qed.

Lemma split_skip_Forall (P : string -> Prop) sep s :
  Forall P (split sep s) -> Forall P (split_skip sep s).
Proof.
  rewrite !list.Forall_forall. intros HF x [_ Hx]%list_elem_of_filter. by apply HF.
Qed.

Lemma good_subnet_parts subnet :
  good_subnet subnet = true ->
  exists q z, split_skip "." subnet = app q [z] /\
    Forall (λ p, char_free "."%char p = true) q /\ Forall (λ p, all_chars ip_char p = true) q.
Proof.
  unfold good_subnet. rewrite andb_true_iff, negb_true_iff, bool_decide_eq_false. intros [Hc Hn].
  destruct (exists_last Hn) as (q & z & E).
  exists q, z. split; [done|].
  assert (Forall (λ p, char_free "."%char p = true) (split_skip "." subnet)) as F1.
  { by apply split_skip_Forall, split_parts_free. }
  assert (Forall (λ p, all_chars ip_char p = true) (split_skip "." subnet)) as F2.
  { by apply split_skip_Forall, split_parts_all. }
  rewrite E in F1, F2. by apply Forall_app in F1 as [? _]; apply Forall_app in F2 as [? _].
Qed.

(** The address of a client: the subnet with its last part replaced. *)
Lemma peer_ip_spec subnet n :
  good_subnet subnet = true -> (0 <= n)%Z ->
  client_ip subnet (number n) = Some (peer_ip subnet n) /\
  all_chars ip_char (peer_ip subnet n) = true /\
  exists q, split "." (peer_ip subnet n) = app q [number n].
Proof.
  intros Hs Hn. destruct (good_subnet_parts subnet Hs) as (q & z & E & F1 & F2).
  assert (client_ip subnet (number n) = Some (join "." (app q [number n]))) as Hip.
  { unfold client_ip. rewrite E. destruct (app q [z]) eqn:Eq; [by destruct q|].
    rewrite <-Eq, removelast_last. done. }
  unfold peer_ip. rewrite Hip. cbn [default id]. split_and!; [done| |].
  - apply all_chars_join; [done|]. apply Forall_app. split; [done|].
    by apply list.Forall_singleton, number_ip_chars.
  - exists q. apply split_join_char; [by destruct q|]. apply Forall_app. split; [done|].
    apply list.Forall_singleton. by apply number_char_free.
Qed.

Lemma peer_ip_nonempty subnet n :
  good_subnet subnet = true -> (0 <= n)%Z -> peer_ip subnet n <> "".
Proof.
  intros Hs Hn E. destruct (peer_ip_spec subnet n Hs Hn) as (_ & _ & q & Hq).
  rewrite E in Hq. change (split "." "") with [""] in Hq. destruct q as [|x [|y q]]; try done.
  injection Hq as Hq. pose proof (toInt_number n). pose proof (signed_val_number n) as H'.
  by rewrite <-Hq in H'.
Qed.

Lemma peer_ip_inj subnet m n :
  good_subnet subnet = true -> (0 <= m)%Z -> (0 <= n)%Z ->
  peer_ip subnet m = peer_ip subnet n -> m = n.
Proof.
  intros Hs Hm Hn E. destruct (peer_ip_spec subnet m Hs Hm) as (_ & _ & q & Hq).
  destruct (peer_ip_spec subnet n Hs Hn) as (_ & _ & q' & Hq').
  rewrite E, Hq' in Hq. apply app_inj_tail in Hq as [_ E'].
  pose proof (signed_val_number m) as H1'. pose proof (signed_val_number n) as H2'. congruence.
Qed.

(** ** The next number *)
Definition strip_line (l : string) : string :=
  replace_all "/32" "" (replace_all "AllowedIPs = " "" l).

Lemma ip_chars_free c s : ip_char c = false -> all_chars ip_char s = true -> char_free c s = true.
Proof. apply all_chars_char_free. Qed.

Lemma strip_allowed subnet p :
  good_subnet subnet = true -> (0 <= peer_number p)%Z ->
  strip_line (allowed_line subnet p) = peer_ip subnet (peer_number p).
Proof.
  intros Hs Hn. destruct (peer_ip_spec subnet (peer_number p) Hs Hn) as (_ & Hc & _).
  unfold strip_line, allowed_line. set (ip := peer_ip subnet (peer_number p)) in *.
  change ("AllowedIPs = " +:+ ip +:+ "/32") with ("" +:+ "AllowedIPs = " +:+ ip +:+ "/32").
  rewrite (replace_word "A"%char "llowedIPs = ") by done.
  change ("" +:+ "" +:+ replace_all "AllowedIPs = " "" (ip +:+ "/32"))
    with (replace_all "AllowedIPs = " "" (ip +:+ "/32")).
  rewrite (replace_absent "AllowedIPs = "); [|done|].
  2: { apply contains_char_free. rewrite char_free_app. by rewrite (ip_chars_free "A"%char). }
  rewrite <-(string_app_nil_r "/32"), (replace_word "/"%char "32") by (by apply ip_chars_free).
  cbn. by rewrite !string_app_nil_r.
Qed.

Lemma split_skip_unlines ls :
  Forall nl_free ls -> split_skip nl (unlines ls) = filter (λ l, l <> "") ls.
Proof.
  intros HF. unfold split_skip. rewrite split_unlines by done.
  rewrite filter_app, filter_cons_False by naive_solver. by rewrite app_nil_r.
Qed.

Lemma ip_chars_nl_free s : all_chars ip_char s = true -> nl_free s.
Proof. intros H. apply contains_char_free. by apply ip_chars_free. Qed.

(** A line without a comma is one address. *)
Lemma vpn_ips_lines l :
  Forall (λ s, char_free ","%char s = true /\ s <> "") l -> vpn_ips l = Ret (map trimmed l).
Proof.
  induction 1 as [|s l [Hc Hn] HF IH]; [done|]. cbn [vpn_ips map]. unfold first_ip, split_skip.
  rewrite split_absent; [|done|by apply contains_char_free]. rewrite filter_cons_True by done.
  cbn. by rewrite IH.
Qed.

(** The number after that of the last client. *)
Definition next_number (peers : list Peer) : option Z :=
  match last peers with
  | None => Some 2%Z
  | Some p => if (254 <? peer_number p + 1)%Z then None else Some (peer_number p + 1)%Z
  end.

(** Stripping takes characters away. *)
Lemma split_from_all (P : Ascii.ascii -> bool) sep s k acc :
  all_chars P s = true -> all_chars P acc = true ->
  Forall (λ p, all_chars P p = true) (split_from s sep k acc).
Proof.
  revert k acc; induction s as [|x s IH]; intros k acc Hs Ha; [by repeat constructor|].
  apply andb_true_iff in Hs as [Hx Hs]. cbn [split_from]. destruct k; [|by apply IH].
  case_match; [constructor; [done|]; by apply IH|].
  apply IH; [done|]. rewrite all_chars_app, Ha. cbn. by rewrite Hx.
Qed.
Lemma strip_chars (P : Ascii.ascii -> bool) l : all_chars P l = true -> all_chars P (strip_line l) = true.
Proof.
  assert (forall b s, all_chars P s = true -> all_chars P (replace_all b "" s) = true) as Hr.
  { intros b s Hs. apply all_chars_join; [done|]. by apply split_from_all. }
  intros Hl. by apply Hr, Hr.
Qed.

(** Only the lines that are not empty matter for the lines that are not empty
    after stripping. *)
Lemma strip_nonempty L :
  filter (λ l, l <> "") (map strip_line L) =
  filter (λ l, l <> "") (map strip_line (filter (λ l, l <> "") L)).
Proof.
  induction L as [|l L IH]; [done|]. destruct (decide (l = "")) as [->|Hl].
  - rewrite (filter_cons_False _ "" L) by naive_solver. cbn [map].
    rewrite filter_cons_False; [done|]. naive_solver.
  - rewrite (filter_cons_True _ l L) by done. cbn [map].
    destruct (decide (strip_line l = "")) as [E|E].
    + by rewrite !filter_cons_False, IH by naive_solver.
    + by rewrite !filter_cons_True, IH by done.
Qed.

(** The number is read off the last line, whatever the lines before it are. *)
Lemma nextIpNumber_spec subnet L peers :
  good_subnet subnet = true -> Forall good_peer peers ->
  Forall (λ l, char_free "010"%char l = true /\ char_free ","%char l = true) L ->
  last (filter (λ l, l <> "") L) = allowed_line subnet <$> last peers ->
  nextIpNumber (unlines L) = Ret (number <$> next_number peers).
Proof.
  intros Hs HG HF HL. unfold nextIpNumber. rewrite !replace_all_unlines by done. rewrite map_map.
  change (map (λ x, _) L) with (map strip_line L).
  assert (Forall (λ l, char_free "010"%char l = true /\ char_free ","%char l = true) (map strip_line L)) as HF'.
  { apply Forall_map. eapply list.Forall_impl; [exact HF|]. intros l [? ?]. split; by apply strip_chars. }
  rewrite split_skip_unlines
    by (eapply list.Forall_impl; [exact HF'|]; intros l [? _]; by apply contains_char_free).
  rewrite vpn_ips_lines.
  2: { rewrite list.Forall_forall in *. intros l [Hn Hl]%list_elem_of_filter. split; [by apply HF'|done]. }
  cbn [mbind Outcome_bind]. f_equal. rewrite strip_nonempty. unfold next_number.
  destruct (last peers) as [p|] eqn:E; cbn [fmap option_fmap option_map] in HL.
  2: { apply last_None in HL as ->. done. }
  assert (2 <= peer_number p <= 254)%Z as Hp.
  { apply last_Some in E as [l ->]. by apply Forall_app in HG as [_ [[_ _ ?] _]%Forall_cons]. }
  apply last_Some in HL as [k ->]. rewrite map_app, filter_app. cbn [map].
  rewrite strip_allowed by (done || lia).
  rewrite (filter_cons_True _ (peer_ip subnet (peer_number p))) by (apply peer_ip_nonempty; done || lia).
  rewrite filter_nil, map_app. cbn [map]. rewrite last_snoc.
  destruct (peer_ip_spec subnet (peer_number p) Hs) as (_ & Hc & q & Hq); [lia|].
  rewrite trimmed_word by (eapply all_chars_impl; [|exact Hc]; intros [[] [] [] [] [] [] [] []]; vm_compute; congruence).
  rewrite Hq, last_snoc. cbn [default id]. rewrite toInt_number by lia. by case_match.
Qed.

(** ** What [grep] prints *)
Lemma key_char_free c k : good_key k -> key_char c = false -> char_free c k = true.
Proof. intros [Hk _ _ _] Hc. by apply (all_chars_char_free key_char). Qed.

Lemma key_nl_free k : good_key k -> nl_free k.
Proof. intros Hk. apply contains_char_free. by apply key_char_free. Qed.

Lemma key_line_unlisted a b k :
  good_key k -> nl_free a -> nl_free b ->
  contains_str a "AllowedIPs" = false -> contains_str b "AllowedIPs" = false ->
  unlisted (a +:+ String " "%char (b +:+ String " "%char k)).
Proof.
  intros Hk Ha Hb Ca Cb. split.
  - rewrite nl_free_app, nl_free_cons, nl_free_app, nl_free_cons. split_and!; try done.
    by apply key_nl_free.
  - rewrite !contains_apart by done. rewrite Ca, Cb. apply Hk.
Qed.

Lemma peer_key_lines p :
  good_peer p ->
  unlisted ("PublicKey = " +:+ peer_pub p) /\ unlisted ("PresharedKey = " +:+ peer_psk p).
Proof.
  intros [Hpub Hpsk _]. split.
  - by apply (key_line_unlisted "PublicKey" "=").
  - by apply (key_line_unlisted "PresharedKey" "=").
Qed.

Lemma allowed_line_listed subnet p :
  good_subnet subnet = true -> good_peer p ->
  nl_free (allowed_line subnet p) /\ contains_str (allowed_line subnet p) "AllowedIPs" = true /\
  allowed_line subnet p <> "".
Proof.
  intros Hs [_ _ Hn]. destruct (peer_ip_spec subnet (peer_number p) Hs) as (_ & Hc & _); [lia|].
  unfold allowed_line. split_and!; [|reflexivity|done]. rewrite !nl_free_app. split_and!; try done.
  by apply ip_chars_nl_free.
Qed.

Lemma conf_lines_nl_free iface subnet peers :
  good_subnet subnet = true -> served iface subnet peers ->
  Forall nl_free (app iface (List.concat (map (peer_lines subnet) peers))).
Proof.
  intros Hs [Hi Hp _]. apply Forall_app. split; [by eapply list.Forall_impl; [exact Hi|]; intros ? []|].
  induction Hp as [|p peers Hp HF IH]; [done|]. cbn [map List.concat]. apply Forall_app. split; [|exact IH].
  destruct (peer_key_lines p Hp) as [[? _] [? _]].
  destruct (allowed_line_listed subnet p Hs Hp) as [? _]. by repeat constructor.
Qed.

Lemma grep_conf iface subnet peers :
  good_subnet subnet = true -> served iface subnet peers ->
  grep "AllowedIPs" (conf_text iface subnet peers) = unlines (map (allowed_line subnet) peers).
Proof.
  intros Hs Hserved. unfold grep, conf_text. f_equal.
  rewrite split_skip_unlines by (by apply conf_lines_nl_free).
  destruct Hserved as [Hi Hp _]. rewrite list_filter_filter, filter_app.
  assert (filter (λ x, contains_str x "AllowedIPs" = true /\ x <> "") iface = []) as ->.
  { induction Hi as [|l iface [_ Hl] _ IH]; [done|]. rewrite filter_cons_False; [done|].
    rewrite Hl. naive_solver. }
  cbn. induction Hp as [|p peers Hp HF IH]; [done|]. cbn [map List.concat].
  rewrite filter_app. unfold peer_lines at 1.
  destruct (peer_key_lines p Hp) as [[_ E1] [_ E2]].
  destruct (allowed_line_listed subnet p Hs Hp) as (_ & E3 & E4).
  rewrite (filter_cons_False _ "[Peer]"), (filter_cons_False _ ("PublicKey = " +:+ _)),
    (filter_cons_False _ ("PresharedKey = " +:+ _)), (filter_cons_True _ (allowed_line subnet p)),
    (filter_cons_False _ "") by (rewrite ?E1, ?E2; naive_solver).
  rewrite filter_nil. cbn. by rewrite IH.
Qed.

(** ** Output that arrives in parts

    The connection delivers an output in parts of any size, and the callback ends
    each of them with a line break. The last line is whole when it is still the
    last line then. *)
Definition last_line_whole (out : Output) : Prop :=
  last (split_skip nl (out_lines out)) = last (split_skip nl (out_text out)).

Lemma split_lines s acc :
  acc +:+ s +:+ nl = unlines (split_from s nl 0 acc).
Proof.
  revert acc; induction s as [|c s IH]; intros acc; [done|]. cbn [split_from].
  rewrite startsWith_nl. destruct (Ascii.eqb_spec "010"%char c) as [<-|Hne].
  - cbn [String.length nl pred unlines foldr].
    change (foldr (λ l acc, l +:+ nl +:+ acc) "" (split_from s nl 0 "")) with (unlines (split_from s nl 0 "")).
    by rewrite <- (IH "").
  - rewrite <- IH. by rewrite !string_app_assoc.
Qed.

(** The lines the callback keeps. *)
Definition kept_lines (out : Output) : list string :=
  List.concat (map (λ c, split nl c.2) (std_out out)).

Lemma out_lines_kept out : out_lines out = unlines (kept_lines out).
Proof.
  unfold out_lines, kept_lines. induction (std_out out) as [|c l IH]; [done|].
  cbn [map List.concat]. rewrite unlines_app, <- IH. unfold concat_strings. cbn [foldr].
  f_equal. exact (split_lines c.2 "").
Qed.

Lemma concat_chars (P : Ascii.ascii -> bool) l :
  all_chars P (concat_strings l) = true -> Forall (λ s, all_chars P s = true) l.
Proof.
  unfold concat_strings. induction l as [|s l IH]; [constructor|]. cbn [foldr].
  rewrite all_chars_app. intros [Hs Hl]%andb_true_iff. constructor; [done|by apply IH].
Qed.

Lemma kept_lines_free out :
  char_free ","%char (out_text out) = true ->
  Forall (λ l, char_free "010"%char l = true /\ char_free ","%char l = true) (kept_lines out).
Proof.
  intros Hc. apply concat_chars, Forall_map in Hc. unfold kept_lines.
  induction Hc as [|c l Hc _ IH]; [constructor|]. cbn [map List.concat]. apply Forall_app.
  split; [|exact IH]. apply list.Forall_and. split; [by apply split_parts_free|by apply split_from_all].
Qed.

Lemma unlines_chars (P : Ascii.ascii -> bool) L :
  P "010"%char = true -> Forall (λ s, all_chars P s = true) L -> all_chars P (unlines L) = true.
Proof.
  intros Hn. induction 1 as [|s L Hs _ IH]; [done|]. cbn [unlines foldr].
  rewrite !all_chars_app, Hs. cbn [all_chars nl]. rewrite Hn. exact IH.
Qed.

(** ** Sections *)
Definition peer_body (subnet : string) (p : Peer) : string :=
  "Peer]" +:+ nl +:+ "PublicKey = " +:+ peer_pub p +:+ nl +:+ "PresharedKey = " +:+ peer_psk p +:+
  nl +:+ allowed_line subnet p +:+ nl +:+ nl.
(** The interface is one section. *)
Definition section_of (iface : list string) (body : string) : Prop :=
  unlines iface = "[" +:+ body /\ char_free "["%char body = true /\ body <> "".

Definition bracketed (bodies : list string) : string :=
  concat_strings (map (λ b, "[" +:+ b) bodies).

Lemma peer_text subnet p : unlines (peer_lines subnet p) = "[" +:+ peer_body subnet p.
Proof. unfold peer_body. cbn. by rewrite !string_app_assoc. Qed.

Lemma conf_bracketed iface body subnet peers :
  section_of iface body ->
  conf_text iface subnet peers = bracketed (body :: map (peer_body subnet) peers).
Proof.
  intros (Hi & _ & _). unfold conf_text, bracketed. rewrite unlines_app, Hi. cbn [map].
  change (concat_strings (?x :: ?l)) with (x +:+ concat_strings l). f_equal.
  induction peers as [|p peers IH]; [done|]. cbn [map List.concat].
  rewrite unlines_app, peer_text, IH. done.
Qed.

Lemma split_bracketed bodies :
  Forall (λ b, char_free "["%char b = true /\ b <> "") bodies ->
  split_skip "[" (bracketed bodies) = bodies.
Proof.
  intros HF. unfold split_skip.
  assert (split "[" (bracketed bodies) = "" :: bodies) as ->.
  { unfold split. assert (forall acc, char_free "["%char acc = true ->
      split_from (acc +:+ bracketed bodies) "[" 0 "" = acc :: bodies) as G; [|by apply (G "")].
    induction HF as [|b l [Hb _] HF IH]; intros acc Ha.
    - cbn. rewrite string_app_nil_r. by apply split_from_end.
    - change (bracketed (b :: l)) with (String "["%char (b +:+ bracketed l)).
      rewrite split_from_char by done. rewrite IH by done. done. }
  rewrite filter_cons_False by naive_solver.
  induction HF as [|b l [_ Hb] HF IH]; [done|]. by rewrite filter_cons_True, IH.
Qed.

Lemma join_bracketed bodies : bodies <> [] -> "[" +:+ join "[" bodies = bracketed bodies.
Proof.
  induction bodies as [|b l IH]; [done|]. intros _. destruct l as [|b' l].
  - cbn. by rewrite string_app_nil_r.
  - rewrite join_cons by done. rewrite IH by done.
    change (bracketed (b :: b' :: l)) with (String "["%char (b +:+ bracketed (b' :: l))). done.
Qed.

Lemma peer_body_section subnet p :
  good_subnet subnet = true -> good_peer p ->
  char_free "["%char (peer_body subnet p) = true /\ peer_body subnet p <> "".
Proof.
  intros Hs [Hpub Hpsk Hn]. split; [|done].
  destruct (peer_ip_spec subnet (peer_number p) Hs) as (_ & Hc & _); [lia|].
  unfold peer_body, allowed_line. rewrite !char_free_app.
  rewrite (key_char_free _ _ Hpub), (key_char_free _ _ Hpsk), (ip_chars_free _ (peer_ip _ _)) by done.
  done.
Qed.

(** A key is found in the section of its own client only. *)
Lemma peer_body_contains subnet p id :
  good_subnet subnet = true -> good_peer p -> good_key id -> peer_psk p <> id ->
  contains_str (peer_body subnet p) id = String.eqb (peer_pub p) id.
Proof.
  intros Hs [Hpub Hpsk Hn] Hid Hne.
  destruct (peer_ip_spec subnet (peer_number p) Hs) as (_ & Hc & _); [lia|].
  assert (id <> "") as Hn0 by (intros ->; by destruct Hid).
  assert (char_free "010"%char id = true) as Fn by (by apply key_char_free).
  assert (char_free " "%char id = true) as Fs by (by apply key_char_free).
  assert (forall s, (String.length s < 44)%nat -> contains_str s id = false) as Short.
  { intros s Hl. apply contains_short. by rewrite (key_length _ Hid). }
  assert (contains_str (peer_ip subnet (peer_number p) +:+ "/32") id = false) as Hip.
  { destruct (contains_str _ id) eqn:E; [|done]. apply (contains_chars "="%char) in E.
    - by rewrite (key_padded _ Hid) in E.
    - rewrite char_free_app. by rewrite ip_chars_free. }
  unfold peer_body, allowed_line.
  change (contains_str ("Peer]" +:+ String "010"%char ("PublicKey" +:+ String " "%char ("=" +:+
    String " "%char (peer_pub p +:+ String "010"%char ("PresharedKey" +:+ String " "%char ("=" +:+
    String " "%char (peer_psk p +:+ String "010"%char ("AllowedIPs" +:+ String " "%char ("=" +:+
    String " "%char ((peer_ip subnet (peer_number p) +:+ "/32") +:+
      String "010"%char ("" +:+ String "010"%char ""))))))))))) id =
    String.eqb (peer_pub p) id).
  rewrite !contains_apart by done.
  rewrite Hip, (Short "Peer]"), (Short "PublicKey"), (Short "="), (Short "PresharedKey"),
    (Short "AllowedIPs") by (cbn; lia).
  rewrite !contains_same_length by (done || by rewrite !key_length).
  rewrite Short by (apply Nat.ltb_lt; reflexivity).
  destruct (String.eqb_spec (peer_psk p) id); [done|]. cbn [orb]. by rewrite ?orb_false_r.
Qed.

Fixpoint drop_peer (id : string) (peers : list Peer) : list Peer :=
  match peers with
  | [] => []
  | p :: rest => if String.eqb (peer_pub p) id then rest else p :: drop_peer id rest
  end.

Lemma without_client_conf iface body subnet peers id :
  good_subnet subnet = true -> served iface subnet peers -> section_of iface body ->
  good_key id -> contains_str body id = false -> Forall (λ p, peer_psk p <> id) peers ->
  without_client id (conf_text iface subnet peers) = conf_text iface subnet (drop_peer id peers).
Proof.
  intros Hs [_ HG _] Hb Hid Hbody Hpsk. rewrite !(conf_bracketed iface body) by done.
  destruct Hb as (_ & Hfree & Hne). unfold without_client. rewrite split_bracketed.
  - cbn [drop_section]. rewrite Hbody, join_bracketed by done. do 2 f_equal.
    induction peers as [|p peers IH]; [done|]. apply Forall_cons in HG as [Hp HG].
    apply Forall_cons in Hpsk as [Hne' Hpsk]. cbn [map drop_section drop_peer].
    rewrite peer_body_contains by done. destruct (String.eqb (peer_pub p) id); [done|].
    cbn [map]. f_equal. by apply IH.
  - apply Forall_cons. split; [done|]. apply Forall_map.
    eapply list.Forall_impl; [exact HG|]. intros p Hp. by apply peer_body_section.
Qed.

Lemma drop_peer_served iface subnet peers id :
  served iface subnet peers -> served iface subnet (drop_peer id peers).
Proof.
  intros [Hi HG Hs]. split; [done| |].
  - induction HG as [|p peers Hp HG IH]; [done|]. cbn [drop_peer].
    cbn [map] in Hs. apply StronglySorted_inv in Hs as [Hs _].
    destruct (String.eqb (peer_pub p) id); [done|]. constructor; [done|]. by apply IH.
  - clear HG. induction peers as [|p peers IH]; [done|]. cbn [drop_peer].
    cbn [map] in Hs. apply StronglySorted_inv in Hs as [Hs Hp].
    destruct (String.eqb (peer_pub p) id); [done|]. cbn [map]. constructor; [by apply IH|].
    clear -Hp. induction peers as [|q peers IH]; [done|]. cbn [drop_peer map] in *.
    apply Forall_cons in Hp as [Hq Hp]. destruct (String.eqb (peer_pub q) id); [done|].
    cbn [map]. constructor; [done|]. by apply IH.
Qed.

(** ** A new client *)
Definition wg_container (isAwg : bool) : DockerContainer.t :=
  if isAwg then DockerContainer.Awg else DockerContainer.WireGuard.

Lemma append_conf iface subnet peers p :
  conf_text iface subnet peers +:+ configPart (peer_pub p) (peer_psk p) (peer_ip subnet (peer_number p)) =
  conf_text iface subnet (app peers [p]).
Proof.
  unfold conf_text. rewrite map_app, concat_app, app_assoc, (unlines_app (app iface _)).
  f_equal. cbn. unfold allowed_line, configPart. by rewrite !string_app_assoc.
Qed.

Lemma sorted_snoc (l : list Z) n :
  StronglySorted Z.lt l -> match last l with None => True | Some m => (m < n)%Z end ->
  StronglySorted Z.lt (app l [n]).
Proof.
  induction 1 as [|x l Hs IH Hx]; intros Hl; [by repeat constructor|]. cbn [app].
  assert (match last l with None => True | Some m => (m < n)%Z end) as Hl'.
  { destruct l as [|y l]; [done|]. by rewrite last_cons_cons in Hl. }
  constructor; [by apply IH|]. apply Forall_app. split; [done|]. apply list.Forall_singleton.
  destruct (last l) as [m|] eqn:E in Hl'.
  - apply last_Some in E as [l' ->]. apply Forall_app in Hx as [_ Hx].
    rewrite list.Forall_singleton in Hx. lia.
  - apply last_None in E as ->. exact Hl.
Qed.

Lemma last_is_max (l : list Z) m n :
  StronglySorted Z.lt l -> last l = Some m -> n ∈ l -> (n <= m)%Z.
Proof.
  induction 1 as [|x l Hs IH Hx]; [done|]. intros Hl Hn. destruct l as [|y l].
  - injection Hl as <-. apply list_elem_of_singleton in Hn. lia.
  - rewrite last_cons_cons in Hl. apply elem_of_cons in Hn as [->|Hn]; [|by apply IH].
    rewrite list.Forall_forall in Hx. apply last_Some_elem_of in Hl.
    pose proof (Hx m Hl). lia.
Qed.

(** The next number is free and keeps the file in order. *)
Lemma next_number_fresh iface subnet peers n pub psk :
  served iface subnet peers -> next_number peers = Some n -> good_key pub -> good_key psk ->
  n ∉ map peer_number peers /\ (2 <= n <= 254)%Z /\
  served iface subnet (app peers [mkPeer pub psk n]).
Proof.
  intros [Hi HG Hs] Hn Hpub Hpsk. unfold next_number in Hn.
  assert (last (map peer_number peers) = peer_number <$> last peers) as Hlast
    by apply fmap_last.
  destruct (last peers) as [p|] eqn:E.
  - destruct (254 <? peer_number p + 1)%Z eqn:E2; [done|]. injection Hn as <-.
    assert (2 <= peer_number p <= 254)%Z as Hp.
    { apply last_Some in E as [l ->]. by apply Forall_app in HG as [_ [[_ _ ?] _]%Forall_cons]. }
    breflect. split_and!; [|lia|lia|].
    + intros Hin. apply (last_is_max _ (peer_number p)) in Hin; [lia|done|done].
    + split; [done| |].
      * apply Forall_app. split; [done|]. apply list.Forall_singleton. split; cbn; [done|done|lia].
      * rewrite map_app. apply sorted_snoc; [done|]. rewrite Hlast. cbn. lia.
  - apply last_None in E as ->. injection Hn as <-. split_and!; [apply not_elem_of_nil|lia|lia|].
    split; [done| |by repeat constructor].
    apply list.Forall_singleton. split; cbn; [done|done|lia].
Qed.

Section Clients.
Context {W : Type} `{ServerAccessLaws W} `{JsonDocument} (host_name : string).

Definition server_conf (isAwg : bool) (w : W) : string :=
  text w (wg_container isAwg) (serverConfigPath isAwg).
Definition server_psk (isAwg : bool) (w : W) : string :=
  replace_all nl "" (text w (wg_container isAwg) (serverPskKeyPath isAwg)).

(** The last line of the list of addresses, when it is read, arrives in one part. *)
Definition last_listed_whole (isAwg : bool) (w : W) : Prop :=
  forall r w', sa_runContainerScript (wg_container isAwg) (grep_script (serverConfigPath isAwg)) w = (r, w') ->
    last_line_whole r.1.

Lemma paths_config isAwg :
  config_path (serverConfigPath isAwg) = true /\
  config_path (serverPublicKeyPath isAwg) = true /\ config_path (serverPskKeyPath isAwg) = true.
Proof. by destruct isAwg. Qed.

(** What the configurator reads from the server. *)
Lemma read_next isAwg iface subnet peers w r w' :
  good_subnet subnet = true -> served iface subnet peers ->
  server_conf isAwg w = conf_text iface subnet peers -> last_listed_whole isAwg w ->
  sa_runContainerScript (wg_container isAwg) (grep_script (serverConfigPath isAwg)) w = (r, w') ->
  failed r.2 = false -> works w' = true ->
  nextIpNumber (out_lines r.1) = Ret (number <$> next_number peers).
Proof.
  intros Hs Hsv Hc Hl Hr Hf Hw. apply failed_false in Hf.
  destruct (grep_text _ _ _ _ _ (proj1 (paths_config isAwg)) Hr) as (_ & _ & Ht).
  specialize (Ht Hf Hw). unfold server_conf in Hc. rewrite Hc, (grep_conf iface subnet) in Ht by done.
  destruct Hsv as [_ HG _]. specialize (Hl r w' Hr). unfold last_line_whole in Hl.
  assert (Forall (λ l, nl_free l /\ l <> "" /\ char_free ","%char l = true) (map (allowed_line subnet) peers)) as HA.
  { apply Forall_map. eapply list.Forall_impl; [exact HG|]. intros p Hp.
    destruct (allowed_line_listed subnet p Hs Hp) as (? & ? & ?). split_and!; [done..|].
    destruct Hp as [_ _ Hn]. destruct (peer_ip_spec subnet (peer_number p) Hs) as (_ & Hip & _); [lia|].
    unfold allowed_line. rewrite !char_free_app. rewrite (ip_chars_free ","%char (peer_ip _ _)) by done. done. }
  rewrite Ht, out_lines_kept in Hl. rewrite out_lines_kept.
  assert (Forall (λ l, char_free "010"%char l = true /\ char_free ","%char l = true) (kept_lines r.1)) as HK.
  { apply kept_lines_free. rewrite Ht. apply unlines_chars; [done|].
    eapply list.Forall_impl; [exact HA|]. by intros l (_ & _ & ?). }
  apply (nextIpNumber_spec subnet); [done..|].
  rewrite !split_skip_unlines in Hl.
  - rewrite Hl, filter_all, <- fmap_last; [done|]. intros l Hin.
    rewrite list.Forall_forall in HA. by apply HA.
  - eapply list.Forall_impl; [exact HA|]. by intros l (? & _).
  - eapply list.Forall_impl; [exact HK|]. intros l [? _]. by apply contains_char_free.
Qed.

(** What the creation of a client with the number [n] leaves. *)
Record client_added (isAwg : bool) (iface : list string) (subnet : string) (peers : list Peer)
    (keys : string * string) (n : Z) (w w' : W) (d : ConnectionData) : Prop := {
  added_ip : clientIP d = peer_ip subnet n;
  added_keys : clientPrivKey d = keys.1 /\ clientPubKey d = keys.2;
  added_fresh : n ∉ map peer_number peers;
  added_served : served iface subnet (app peers [mkPeer keys.2 (server_psk isAwg w) n]);
  added_conf : server_conf isAwg w' =
    conf_text iface subnet (app peers [mkPeer keys.2 (server_psk isAwg w) n])
}.

(** The calls between the choice of the address and the upload keep the
    files. *)
Lemma read_keys isAwg c w p1 w1 p2 w2 :
  sa_getTextFile c (serverPublicKeyPath isAwg) w = (p1, w1) ->
  sa_getTextFile c (serverPskKeyPath isAwg) w1 = (p2, w2) ->
  text w2 = text w /\ (works w2 = true -> works w = true) /\
  (failed p2.2 = false -> works w2 = true -> p2.1 = text w c (serverPskKeyPath isAwg)).
Proof.
  intros H1' H2'. destruct (paths_config isAwg) as (_ & C1 & C2).
  destruct (get_text _ _ _ _ _ C1 H1') as (E1 & B1 & _). destruct (get_text _ _ _ _ _ C2 H2') as (E2 & B2 & T2).
  rewrite E1 in *. split_and!; [done|auto|]. intros ?%failed_false ?. by apply T2.
Qed.

Lemma store_client isAwg c s w u w1 r w2 :
  sa_upload c s (serverConfigPath isAwg) ScpAppendToExisting w = (u, w1) -> failed u = false ->
  sa_run c (sync_script (serverConfigPath isAwg)) w1 = (r, w2) ->
  (works w2 = true -> works w = true) /\
  (works w2 = true -> text w2 c (serverConfigPath isAwg) = text w c (serverConfigPath isAwg) +:+ s).
Proof.
  intros H1' Hu%failed_false H2'. destruct (paths_config isAwg) as (C & _).
  destruct (sync_text _ _ _ _ _ C H2') as [-> B2].
  destruct (upload_text _ _ _ _ _ _ _ C H1') as (_ & B1 & T1). split; auto.
Qed.

(** Preparing a client that returns without an error made all its calls. *)
Lemma prepare_calls isAwg config keys w d w' :
  prepareWireguardConfig host_name isAwg (wg_container isAwg) config keys w =
    Ret ((d, ErrorCode.NoError), w') ->
  (works w' = true -> server_psk isAwg w' = server_psk isAwg w) /\
  exists r w1, sa_runContainerScript (wg_container isAwg) (grep_script (serverConfigPath isAwg)) w = (r, w1) /\
    (works w' = true -> works w1 = true) /\ (works w1 = true -> works w = true).
Proof.
  unfold prepareWireguardConfig, rbind, rlift, rguard, rret, server_psk.
  destruct (paths_config isAwg) as (P1 & P2 & P3). set (c := wg_container isAwg).
  case_match; [done|]. destruct (sa_runContainerScript c _ w) as [r w1] eqn:E1.
  destruct (failed r.2) eqn:F1; [intros [= _ Ee _]; by rewrite Ee in F1|].
  destruct (nextIpNumber _) as [[n|]| |]; [|done|done|done].
  destruct (client_ip _ n) as [ip|]; [|done].
  destruct (sa_getTextFile c _ w1) as [p1 w2] eqn:E2.
  destruct (failed p1.2) eqn:F2; [intros [= _ Ee _]; by rewrite Ee in F2|].
  destruct (sa_getTextFile c _ w2) as [p2 w3] eqn:E3.
  destruct (failed p2.2) eqn:F3; [intros [= _ Ee _]; by rewrite Ee in F3|].
  destruct (sa_upload c _ _ _ w3) as [u w4] eqn:E4.
  destruct (failed u) eqn:F4; [intros [= _ Ee _]; by rewrite Ee in F4|].
  destruct (sa_run c _ w4) as [x w5] eqn:E5. intros [= _ _ <-].
  destruct (sync_text _ _ _ _ _ P1 E5) as [-> B5]. destruct (upload_text _ _ _ _ _ _ _ P1 E4) as (O4 & B4 & _).
  destruct (read_keys isAwg _ _ _ _ _ _ E2 E3) as (T3 & B3 & _).
  destruct (grep_text _ _ _ _ _ P1 E1) as (B1 & O1 & _). split; [|exists r, w1; split_and!; [done|auto|auto]].
  intros Hw. rewrite O4; [|done|intros [= Heq]; revert Heq; by destruct isAwg]. rewrite T3, O1 by auto. done.
Qed.

(** Preparing a client on a server where no command fails: it returns, and either
    reports an error or adds the client with the first free number after the last
    one, and a full pool is always an error that leaves the file alone. *)
Lemma prepare_outcome isAwg config keys iface subnet peers w :
  toStringOr "10.8.1.0" (value "subnet_address" config) = subnet -> good_subnet subnet = true ->
  served iface subnet peers -> server_conf isAwg w = conf_text iface subnet peers ->
  last_listed_whole isAwg w ->
  keys.1 <> "" -> good_key keys.2 -> good_key (server_psk isAwg w) ->
  forall r w1, sa_runContainerScript (wg_container isAwg) (grep_script (serverConfigPath isAwg)) w = (r, w1) ->
  works w1 = true ->
  exists d e w',
    prepareWireguardConfig host_name isAwg (wg_container isAwg) config keys w = Ret ((d, e), w') /\
    match next_number peers with
    | None => failed e = true /\ server_conf isAwg w' = server_conf isAwg w
    | Some n => failed e = false -> works w' = true -> client_added isAwg iface subnet peers keys n w w' d
    end.
Proof.
  intros Hsub Hgs Hsv Hc Hl Hk1 Hk2 Hpsk r w1 Hr Hw1. unfold prepareWireguardConfig. rewrite Hsub.
  rewrite bool_decide_eq_false_2 by done. rewrite bool_decide_eq_false_2 by (intros E; destruct Hk2 as [_ L _ _]; by rewrite E in L).
  cbn [orb]. unfold rbind, rlift, rret, rguard. rewrite Hr.
  pose proof (read_next isAwg iface subnet peers w r w1 Hgs Hsv Hc Hl Hr) as Hnext.
  destruct (grep_text _ _ _ _ _ (proj1 (paths_config isAwg)) Hr) as (_ & Hsame & _). specialize (Hsame Hw1).
  assert (server_conf isAwg w1 = server_conf isAwg w) as Hc1 by (apply Hsame, paths_config).
  destruct (failed r.2) eqn:Hf.
  { eexists _, _, _. split; [done|]. rewrite Hf. by case_match. }
  rewrite Hnext by done. destruct (next_number peers) as [n|] eqn:En; cbn [fmap option_fmap option_map];
    [|by eexists _, _, _].
  destruct (next_number_fresh iface subnet peers n keys.2 (server_psk isAwg w)) as (Hfr & Hrange & Hsv'); [done..|].
  destruct (peer_ip_spec subnet n Hgs) as (-> & _); [lia|].
  destruct (sa_getTextFile _ (serverPublicKeyPath isAwg) w1) as [p1 w2] eqn:G1.
  destruct (failed p1.2) eqn:F1; [eexists _, _, _; split; [done|]; by rewrite F1|].
  destruct (sa_getTextFile _ (serverPskKeyPath isAwg) w2) as [p2 w3] eqn:G2.
  destruct (failed p2.2) eqn:F2; [eexists _, _, _; split; [done|]; by rewrite F2|].
  destruct (read_keys isAwg _ _ _ _ _ _ G1 G2) as (E3 & _ & Epsk).
  rewrite (Hsame _ (serverPskKeyPath isAwg)) in Epsk by apply paths_config.
  destruct (sa_upload _ _ _ _ w3) as [u w4] eqn:Hu.
  destruct (failed u) eqn:Fu; [eexists _, _, _; split; [done|]; by rewrite Fu|].
  destruct (sa_run _ _ w4) as [s w5] eqn:Hrun. eexists _, _, _. split; [done|]. intros _ Hw5.
  split; [done|done|done|done|]. destruct (store_client isAwg _ _ _ _ _ _ _ Hu Fu Hrun) as [B S].
  unfold server_conf in *. rewrite (S Hw5), E3, Hc1, Hc, (Epsk F2 (B Hw5)).
  exact (append_conf iface subnet peers (mkPeer keys.2 (server_psk isAwg w) n)).
Qed.

(** ** Revocation *)
Lemma conf_file_path isAwg : "/" +:+ wireGuardConfigFile (wg_container isAwg) = serverConfigPath isAwg.
Proof. by destruct isAwg. Qed.
Lemma table_file_path isAwg :
  config_path (clientsTableFile (wg_container isAwg)) = true /\
  clientsTableFile (wg_container isAwg) <> serverConfigPath isAwg /\
  clientsTableFile (wg_container isAwg) <> serverPskKeyPath isAwg.
Proof. by destruct isAwg. Qed.

(** What a successful revocation of the row leaves: the file without the
    section of the client, and the table, in memory and on the server, without
    the row. *)
Lemma revokeWireGuard_spec isAwg row s s' iface body subnet peers :
  let id := row_id (m_clientsTable s) row in
  good_subnet subnet = true -> served iface subnet peers -> section_of iface body ->
  server_conf isAwg (server_state s) = conf_text iface subnet peers ->
  good_key id -> contains_str body id = false -> Forall (λ p, peer_psk p <> id) peers ->
  revokeWireGuard row (wg_container isAwg) s = Ret (ErrorCode.NoError, s') ->
  works (server_state s') = true ->
  server_conf isAwg (server_state s') = conf_text iface subnet (drop_peer id peers) /\
  server_psk isAwg (server_state s') = server_psk isAwg (server_state s) /\
  m_clientsTable s' = array_removeAt (m_clientsTable s) row /\
  text (server_state s') (wg_container isAwg) (clientsTableFile (wg_container isAwg)) =
    toJson (JArray (m_clientsTable s')).
Proof.
  intros id Hgs Hsv Hb Hc Hid Hbody Hpsk. unfold revokeWireGuard. rewrite conf_file_path.
  destruct (paths_config isAwg) as (P1 & _ & P3).
  destruct (table_file_path isAwg) as (P2 & N1 & N2). set (c := wg_container isAwg) in *.
  unfold store_table, rbind, on_server, get_table, set_table, rlift, gets, rret.
  cbn [server_state m_clientsTable adminConfigRevoked].
  destruct (sa_getTextFile c _ _) as [f w1] eqn:E1. destruct (failed f.2) eqn:F1.
  { intros [= Ef _]. by rewrite Ef in F1. }
  destruct (get_text _ _ _ _ _ P1 E1) as (T1 & B1 & G1). apply failed_false in F1.
  destruct (sa_upload c _ (serverConfigPath isAwg) _ _) as [u w2] eqn:E2.
  destruct (failed u) eqn:F2; [intros [= Eu _]; by rewrite Eu in F2|]. apply failed_false in F2.
  destruct (upload_text _ _ _ _ _ _ _ P1 E2) as (O2 & B2 & S2). cbn.
  destruct (sa_upload c _ (clientsTableFile c) _ _) as [v w3] eqn:E3.
  destruct (failed v) eqn:F3; [intros [= Ev _]; by rewrite Ev in F3|]. apply failed_false in F3.
  destruct (upload_text _ _ _ _ _ _ _ P2 E3) as (O3 & B3 & S3). cbn.
  destruct (sa_run c _ w3) as [r w4] eqn:E4. intros [= _ <-]. cbn. intros Hw4.
  destruct (sync_text _ _ _ _ _ P1 E4) as [T4 B4].
  pose proof (B4 Hw4) as Hw3. pose proof (B3 Hw3) as Hw2. pose proof (B2 Hw2) as Hw1.
  unfold server_conf, server_psk. fold c. rewrite !T4. unfold server_conf in Hc. fold c in Hc.
  split_and!; [| |done|by apply S3].
  - rewrite O3 by (done || intros [= ?]; congruence). rewrite S2 by done. cbn [server_state].
    rewrite (G1 F1 Hw1), Hc. by rewrite (without_client_conf iface body).
  - rewrite O3 by (done || intros [= ?]; congruence).
    rewrite O2; [cbn [server_state]; by rewrite T1|done|]. intros [= Heq]. revert Heq. by destruct isAwg.
Qed.

(** ** Any sequence of creations and revocations *)
Inductive client_step (isAwg : bool) (config : QJsonObject) (body psk : string) :
    ClientManagement W -> ClientManagement W -> Prop :=
| step_create keys d w' s :
    prepareWireguardConfig host_name isAwg (wg_container isAwg) config keys (server_state s) =
      Ret ((d, ErrorCode.NoError), w') ->
    last_listed_whole isAwg (server_state s) -> keys.1 <> "" -> good_key keys.2 ->
    client_step isAwg config body psk s (mkClients (m_clientsTable s) w' (adminConfigRevoked s))
| step_revoke row s s' :
    revokeWireGuard row (wg_container isAwg) s = Ret (ErrorCode.NoError, s') ->
    let id := row_id (m_clientsTable s) row in
    good_key id -> id <> psk -> contains_str body id = false ->
    client_step isAwg config body psk s s'.

Record clients_inv (isAwg : bool) (iface : list string) (subnet psk : string)
    (s : ClientManagement W) (peers : list Peer) : Prop := {
  inv_served : served iface subnet peers;
  inv_conf : server_conf isAwg (server_state s) = conf_text iface subnet peers;
  inv_psk : server_psk isAwg (server_state s) = psk;
  inv_peers_psk : Forall (λ p, peer_psk p = psk) peers
}.

Lemma drop_peer_Forall (P : Peer -> Prop) id peers : Forall P peers -> Forall P (drop_peer id peers).
Proof.
  induction 1 as [|p peers Hp HF IH]; [done|]. cbn. case_match; [done|]. by constructor.
Qed.

(** A server on which no command failed after a step had none failed before it. *)
Lemma client_step_works isAwg config body psk s s' :
  client_step isAwg config body psk s s' -> works (server_state s') = true -> works (server_state s) = true.
Proof.
  intros [keys d w' s0 Hp _ _ _|row s0 s0' Hr id _ _ _] Hw.
  - destruct (prepare_calls _ _ _ _ _ _ Hp) as (_ & r & w1 & _ & B2 & B1). auto.
  - revert Hr Hw. unfold revokeWireGuard. rewrite conf_file_path.
    destruct (paths_config isAwg) as (P1 & _). destruct (table_file_path isAwg) as (P2 & _).
    unfold store_table, rbind, on_server, get_table, set_table, rlift, gets, rret.
    cbn [server_state m_clientsTable adminConfigRevoked].
    destruct (sa_getTextFile _ _ _) as [f w1] eqn:E1.
    destruct (failed f.2) eqn:F1; [intros [= Ef _]; by rewrite Ef in F1|].
    destruct (get_text _ _ _ _ _ P1 E1) as (_ & B1 & _).
    destruct (sa_upload _ _ (serverConfigPath isAwg) _ _) as [u w2] eqn:E2.
    destruct (failed u) eqn:F2; [intros [= Eu _]; by rewrite Eu in F2|].
    destruct (upload_text _ _ _ _ _ _ _ P1 E2) as (_ & B2 & _). cbn.
    destruct (sa_upload _ _ (clientsTableFile _) _ _) as [v w3] eqn:E3.
    destruct (failed v) eqn:F3; [intros [= Ev _]; by rewrite Ev in F3|].
    destruct (upload_text _ _ _ _ _ _ _ P2 E3) as (_ & B3 & _). cbn.
    destruct (sa_run _ _ w3) as [r w4] eqn:E4. intros [= _ <-]. cbn.
    destruct (sync_text _ _ _ _ _ P1 E4) as [_ B4]. auto.
Qed.

Lemma clients_step_inv isAwg config iface body subnet psk s s' peers :
  toStringOr "10.8.1.0" (value "subnet_address" config) = subnet -> good_subnet subnet = true ->
  section_of iface body -> good_key psk ->
  clients_inv isAwg iface subnet psk s peers -> client_step isAwg config body psk s s' ->
  works (server_state s') = true ->
  exists peers', clients_inv isAwg iface subnet psk s' peers'.
Proof.
  intros Hsub Hgs Hb Hpsk [Hsv Hc Hk HF] Hstep Hw. destruct Hstep as [keys d w' s Hp Hl Hk1 Hk2|row s s' Hr id Hid Hne Hbody].
  - destruct (prepare_calls _ _ _ _ _ _ Hp) as (Hpsk' & r & w1 & Hr & Hw1 & _). specialize (Hw1 Hw). specialize (Hpsk' Hw).
    destruct (prepare_outcome isAwg config keys iface subnet peers (server_state s)) with (r := r) (w1 := w1)
      as (d' & e & w2 & E & Hres); [done..|by rewrite Hk|done|done|].
    rewrite E in Hp. injection Hp as -> -> ->. destruct (next_number peers) as [n|].
    + destruct Hres as [_ _ _ Hsv' Hc']; [done|done|]. eexists. split; [exact Hsv'|exact Hc'| |].
      * cbn. by rewrite Hpsk'.
      * apply Forall_app. split; [done|]. by apply list.Forall_singleton.
    + by destruct Hres.
  - destruct (revokeWireGuard_spec isAwg row s s' iface body subnet peers) as (Hc' & Hk' & _ & _);
      [done..| |done|done|].
    + eapply list.Forall_impl; [exact HF|]. cbn. intros p -> ->. done.
    + exists (drop_peer id peers). split; [by apply drop_peer_served|done|by rewrite Hk'|].
      by apply drop_peer_Forall.
Qed.

Lemma served_distinct iface subnet peers :
  good_subnet subnet = true -> served iface subnet peers ->
  NoDup (map (λ p, peer_ip subnet (peer_number p)) peers).
Proof.
  intros Hgs [_ HG Hs]. induction HG as [|p peers Hp HG IH]; [constructor|].
  cbn [map] in *. apply StronglySorted_inv in Hs as [Hs Hlt]. constructor; [|by apply IH].
  intros (q & E & Hq)%list_elem_of_fmap. rewrite list.Forall_forall in Hlt. rewrite list.Forall_forall in HG.
  assert (peer_number p < peer_number q)%Z by (apply Hlt, list_elem_of_fmap; eauto).
  destruct Hp as [_ _ Hp]. destruct (HG q Hq) as [_ _ Hn].
  apply peer_ip_inj in E; [lia|done|lia|lia].
Qed.

End Clients.
