(* ===== verification/WireguardClientsProperties.v ===== *)
(** * Properties of the clients of a server

    A concrete server in memory that keeps its contract, which shows that the
    hypotheses can hold; then that clients are created and revoked with pairwise
    different addresses (WireguardClients.v). *)
From stdpp Require Import base list strings relations.
From Stdlib Require Import ZArith Lia Ascii String Sorting.Sorted.
From S2P Require Import Prelude QtString QtContainers Variant Protocols Containers Settings ServerController WireguardConfigurator.
From S2P Require Import ClientManagement WireguardClients SecureSettingsProperties.
Local Open Scope string_scope.

Definition Files : Type := list (DockerContainer.t * string * string).

Fixpoint file_text (w : Files) (c : DockerContainer.t) (p : string) : string :=
  match w with
  | [] => ""
  | (c', p', s) :: w' => if decide ((c, p) = (c', p')) then s else file_text w' c p
  end.

#[export] Instance memory_server : ServerAccess Files := {|
  sa_runContainerScript c script w :=
    match split " " script with
    | [_; p; _; _; _] => (([(false, grep "AllowedIPs" (file_text w c p))], ErrorCode.NoError), w)
    | _ => (([], ErrorCode.NoError), w)
    end;
  sa_getTextFile c p w := ((file_text w c p, ErrorCode.NoError), w);
  sa_upload c s p mode w :=
    (ErrorCode.NoError,
     (c, p, match mode with
            | ScpOverwriteExisting => s
            | ScpAppendToExisting => file_text w c p +:+ s
            end) :: w);
  sa_run c script w := (([], ErrorCode.NoError), w);
  sa_fill c config script := script
|}.

Lemma split_grep p : config_path p = true -> split " " (grep_script p) = ["cat"; p; "|"; "grep"; "AllowedIPs"].
Proof.
  intros Hp. apply andb_true_iff in Hp as [_ Hp].
  change (grep_script p) with (join " " ["cat"; p; "|"; "grep"; "AllowedIPs"]).
  apply split_join_char; [done|]. repeat constructor.
  by apply (all_chars_char_free plain_char).
Qed.

#[export] Instance memory_server_laws : ServerAccessLaws Files.
Proof.
  refine {| text := file_text; works := λ _, true |}.
  - intros c p w r w' _ [= <- <-]. done.
  - intros c s p mode w e w' _ [= <- <-]. split_and!; [|done|].
    + intros c' p' _ Hne. cbn. by rewrite decide_False.
    + intros _ _. cbn. by rewrite decide_True.
  - intros c p w r w' Hp. cbn. rewrite split_grep by done. intros [= <- <-]. split_and!; [done..|].
    intros _ _. unfold out_text. cbn. apply string_app_nil_r.
  - intros c p w r w' _ [= <- <-]. done.
Defined.

(** It prints the list in one part. *)
Lemma memory_last_whole isAwg w : last_listed_whole isAwg w.
Proof.
  intros r w'. cbn. rewrite split_grep by apply paths_config. intros [= <- <-].
  unfold grep. set (L := filter _ _).
  assert (Forall nl_free L) as HL.
  { apply list.Forall_forall. intros x [_ Hx]%list_elem_of_filter.
    assert (Forall (λ p, char_free "010"%char p = true)
      (split_skip nl (file_text w (wg_container isAwg) (serverConfigPath isAwg)))) as HF
      by (by apply split_skip_Forall, split_parts_free).
    rewrite list.Forall_forall in HF. by apply contains_char_free, HF. }
  unfold last_line_whole. cbn [fst].
  assert (out_text [(false, unlines L)] = unlines L) as -> by apply string_app_nil_r.
  assert (out_lines [(false, unlines L)] = unlines L +:+ unlines [""]) as -> by apply string_app_nil_r.
  rewrite <- unlines_app, !split_skip_unlines; [|done|apply Forall_app; split; [done|by repeat constructor]].
  rewrite filter_app. assert (filter (λ l, l <> "") [""] = []) as -> by done. by rewrite app_nil_r.
Qed.

(** ** A server with one client *)
Definition sample_psk : string := "PpUbDk9vP1wQe3VtYs5dGh7jKl2zXc4vBn6mQw8eRtY=".
Definition sample_pub1 : string := "AaUbDk9vP1wQe3VtYs5dGh7jKl2zXc4vBn6mQw8eRtY=".
Definition sample_pub2 : string := "BbUbDk9vP1wQe3VtYs5dGh7jKl2zXc4vBn6mQw8eRtY=".
Definition sample_iface : list string :=
  ["[Interface]"; "PrivateKey = ServerPrivateKey"; "Address = 10.8.1.0/24"; "ListenPort = 55424"; ""].
Definition sample_body : string := drop_chars 1 (unlines sample_iface).
Definition sample_peers : list Peer := [mkPeer sample_pub1 sample_psk 2].
Definition sample_files : Files :=
  [(DockerContainer.Awg, "/opt/amnezia/awg/wg0.conf", conf_text sample_iface "10.8.1.0" sample_peers);
   (DockerContainer.Awg, "/opt/amnezia/awg/wireguard_psk.key", sample_psk +:+ nl)].

Lemma sample_key k : good_key k <-> (all_chars key_char k && (String.length k =? 44)%nat &&
  negb (char_free "="%char k) && negb (contains_str k "AllowedIPs")) = true.
Proof.
  rewrite !andb_true_iff, !negb_true_iff, Nat.eqb_eq. split.
  - by intros [? ? ? ?].
  - by intros [[[? ?] ?] ?].
Qed.

Lemma sample_served : served sample_iface "10.8.1.0" sample_peers.
Proof.
  split.
  - repeat (constructor; [by vm_compute|]). constructor.
  - apply list.Forall_singleton. split; [by apply sample_key|by apply sample_key|]. cbn. lia.
  - repeat constructor.
Qed.

(** ** The clients of a WireGuard server: main theorems

    The address a new client gets, the distinctness of all addresses over any
    sequence of creations and revocations, and the address that is given twice
    when the list of addresses arrives cut inside a number. *)
Local Open Scope string_scope.

Section Clients.
Context {W : Type} `{ServerAccessLaws W} `{JsonDocument} (host_name : string).

(** C34. Preparing a client for the file of [peers], when the command that lists the
    addresses does not fail and the last line of the list arrives in one part:
    it always returns, and either reports an error or, if none of its commands
    fails, adds the client with the first number after the last one in use, which
    no client has; a full pool is always an error that leaves the file alone.
    (The exit status of a command is not looked at, and a list cut inside its last
    line repeats an address: [failed_command_unnoticed], [cut_list_repeats_address].) *)
Theorem new_client_address isAwg config keys iface subnet peers w r w1 :
  toStringOr "10.8.1.0" (value "subnet_address" config) = subnet -> good_subnet subnet = true ->
  served iface subnet peers -> server_conf isAwg w = conf_text iface subnet peers ->
  keys.1 <> "" -> good_key keys.2 -> good_key (server_psk isAwg w) ->
  sa_runContainerScript (wg_container isAwg) (grep_script (serverConfigPath isAwg)) w = (r, w1) ->
  works w1 = true -> last_line_whole r.1 ->
  exists d e w',
    prepareWireguardConfig host_name isAwg (wg_container isAwg) config keys w = Ret ((d, e), w') /\
    match next_number peers with
    | None => failed e = true /\ server_conf isAwg w' = server_conf isAwg w
    | Some n => failed e = false -> works w' = true -> client_added isAwg iface subnet peers keys n w w' d
    end.
Proof.
  intros Hsub Hgs Hsv Hc Hk1 Hk2 Hpsk Hr Hw1 Hl.
  apply (prepare_outcome host_name isAwg config keys iface subnet peers w) with (r := r) (w1 := w1); try done.
  intros r' w' Hr'. rewrite Hr in Hr'. by injection Hr' as <- <-.
Qed.

(** C14. Whatever sequence of clients is created and revoked, each with success, the
    file of the server lists clients with pairwise different addresses, all
    between .2 and .254 of the subnet, provided that no command on the server
    failed meanwhile and that the last line of the list of addresses each creation
    read arrived in one part ([client_step] asks for the latter: a list cut
    inside it does repeat an address, [cut_list_repeats_address]). *)
Theorem addresses_stay_distinct isAwg config iface body subnet psk s s' peers :
  toStringOr "10.8.1.0" (value "subnet_address" config) = subnet -> good_subnet subnet = true ->
  section_of iface body -> good_key psk -> clients_inv isAwg iface subnet psk s peers ->
  rtc (client_step host_name isAwg config body psk) s s' -> works (server_state s') = true ->
  exists peers', server_conf isAwg (server_state s') = conf_text iface subnet peers' /\
    NoDup (map (λ p, peer_ip subnet (peer_number p)) peers') /\
    Forall (λ p, 2 <= peer_number p <= 254)%Z peers'.
Proof.
  intros Hsub Hgs Hb Hpsk Hinv Hsteps Hw.
  assert (works (server_state s) = true /\ exists peers', clients_inv isAwg iface subnet psk s' peers')
    as [_ [peers' [Hsv Hc _ _]]].
  { revert peers Hinv. induction Hsteps as [s|s s1 s' Hstep Hsteps IH]; intros peers Hinv; [by split; [|eexists]|].
    assert (works (server_state s1) = true) as Hw1.
    { clear -Hsteps Hw. induction Hsteps as [s|s s1 s' Hstep _ IH]; [done|].
      by apply (client_step_works host_name _ _ _ _ _ _ Hstep), IH. }
    split; [by apply (client_step_works host_name _ _ _ _ _ _ Hstep)|].
    destruct (clients_step_inv host_name isAwg config iface body subnet psk s s1 peers) as [peers1 H1']; [done..|].
    by apply (IH Hw peers1). }
  exists peers'. split_and!; [done|by eapply served_distinct|].
  eapply list.Forall_impl; [apply Hsv|]. by intros p [_ _ ?].
Qed.
End Clients.

#[local] Existing Instance sample_json.

Lemma new_client_address_witness :
  exists d e w', prepareWireguardConfig "host" true DockerContainer.Awg [] ("priv", sample_pub2) sample_files =
    Ret ((d, e), w') /\ failed e = false /\ clientIP d = "10.8.1.3".
Proof.
  destruct (sa_runContainerScript (wg_container true) (grep_script (serverConfigPath true)) sample_files)
    as [r w1] eqn:Hr.
  destruct (new_client_address "host" true [] ("priv", sample_pub2) sample_iface "10.8.1.0" sample_peers
    sample_files r w1) as (d & e & w' & E & Hres).
  - reflexivity.
  - reflexivity.
  - apply sample_served.
  - reflexivity.
  - discriminate.
  - by apply sample_key.
  - apply sample_key. vm_compute. reflexivity.
  - exact Hr.
  - reflexivity.
  - exact (memory_last_whole true sample_files r w1 Hr).
  - exists d, e, w'. split; [exact E|].
    assert (failed e = false) as Hf.
    { vm_compute in E. injection E as _ <- _. reflexivity. }
    split; [exact Hf|]. destruct (Hres Hf eq_refl) as [-> _ _ _ _]. vm_compute. reflexivity.
Defined.

Lemma addresses_stay_distinct_witness :
  exists s', rtc (client_step "host" true [] sample_body sample_psk)
      (mkClients [client_row sample_pub1 []] sample_files []) s' /\
    exists peers', server_conf true (server_state s') = conf_text sample_iface "10.8.1.0" peers' /\
      NoDup (map (λ p, peer_ip "10.8.1.0" (peer_number p)) peers').
Proof.
  set (s := mkClients [client_row sample_pub1 []] sample_files []).
  destruct (prepareWireguardConfig "host" true DockerContainer.Awg [] ("priv", sample_pub2) sample_files)
    as [[[d e] w1]| |] eqn:E; [|vm_compute in E; discriminate|vm_compute in E; discriminate].
  assert (e = ErrorCode.NoError) as -> by (vm_compute in E; injection E as _ <- _; reflexivity).
  assert (client_step "host" true [] sample_body sample_psk s (mkClients (m_clientsTable s) w1 [])) as Hstep.
  { apply (step_create "host" true [] sample_body sample_psk ("priv", sample_pub2) d w1 s);
      [exact E|apply memory_last_whole|discriminate|by apply sample_key]. }
  eexists. split; [eapply rtc_l; [exact Hstep|apply rtc_refl]|].
  destruct (addresses_stay_distinct "host" true [] sample_iface sample_body "10.8.1.0" sample_psk s
    (mkClients (m_clientsTable s) w1 []) sample_peers) as (peers' & Hc & Hd & _).
  - reflexivity.
  - reflexivity.
  - split; [reflexivity|]. split; [reflexivity|discriminate].
  - apply sample_key. reflexivity.
  - split; [apply sample_served|reflexivity|vm_compute; reflexivity|by apply list.Forall_singleton].
  - eapply rtc_l; [exact Hstep|apply rtc_refl].
  - reflexivity.
  - by exists peers'.
Defined.

(** ** A list that arrives cut inside a number *)
(** What the callback of the configurator keeps of an output that arrives in
    chunks. *)
Definition kept_output (chunks : list string) : string :=
  out_lines (map (λ s, (false, s)) chunks).

(** The list of the clients .2 to .12 ends with the line of .12. When the
    connection delivers it cut between the two digits, the last part is read
    as the address of a client, and the number after it is given to the new
    client although it is in use. *)
Theorem cut_list_repeats_address :
  let peers := map (λ n, mkPeer sample_pub1 sample_psk (Z.of_nat n)) (seq 2 11) in
  let printed := unlines (map (allowed_line "10.8.1.0") peers) in
  exists a b, a +:+ b = printed /\
    nextIpNumber (kept_output [printed]) = Ret (Some "13") /\
    nextIpNumber (kept_output [a; b]) = Ret (Some "3") /\ In 3%Z (map peer_number peers).
Proof.
  intros peers printed.
  exists (take_chars (String.length printed - 5) printed), (drop_chars (String.length printed - 5) printed).
  vm_compute. split_and!; try reflexivity. right. by left.
Qed.
