(* ===== verification/DockerHost.v ===== *)
(** * A server with Docker

    What the commands of [ServerController] do on a host that runs Docker, as
    laws about the files of the host and of its containers, and the proof that
    the controller keeps, over such a host, the contract of [ServerAccess]; and
    that a command which fails goes unnoticed. *)
From stdpp Require Import base list strings.
From Stdlib Require Import ZArith Lia Ascii String.
From S2P Require Import Prelude QtString QtContainers Protocols Containers Settings ServerController.
Local Open Scope string_scope.

(** ** Commands *)
Abbreviation cname := containerToString.
Definition in_container (c : DockerContainer.t) (s : string) : string :=
  "sudo docker exec -i " +:+ cname c +:+ s.
Definition mkdir_cmd (c : DockerContainer.t) (p : string) : string :=
  in_container c (" mkdir -p  " +:+ dq +:+ "$(dirname " +:+ p +:+ ")" +:+ dq).
Definition cp_cmd (t : string) (c : DockerContainer.t) (p : string) : string :=
  "sudo docker cp " +:+ t +:+ " " +:+ cname c +:+ ":/" +:+ p.
Definition append_cmd (t : string) (c : DockerContainer.t) (p : string) : string :=
  in_container c (" sh -c " +:+ dq +:+ "cat " +:+ t +:+ " >> " +:+ p +:+ dq).
Definition shred_cmd (t : string) : string := "sudo shred -u " +:+ t.
Definition xxd_cmd (c : DockerContainer.t) (p : string) : string :=
  in_container c (" sh -c " +:+ dq +:+ "xxd -p '" +:+ p +:+ "'" +:+ dq).
Definition run_cmd (c : DockerContainer.t) (f : string) : string :=
  in_container c (" " +:+ (if bool_decide (c = DockerContainer.Socks5Proxy) then "sh" else "bash") +:+
    " " +:+ f +:+ " ").
Definition rm_cmd (c : DockerContainer.t) (f : string) : string := in_container c (" rm " +:+ f +:+ " ").
Definition sync_cmd (c : DockerContainer.t) (p : string) : string :=
  in_container c (" bash -c 'wg syncconf wg0 <(wg-quick strip " +:+ p +:+ ")'").

(** Hexadecimal digits of a text, as [xxd -p] prints them. *)
Fixpoint hex_of (s : string) : list Z :=
  match s with
  | EmptyString => []
  | String c s' => let n := Z.of_nat (Ascii.nat_of_ascii c) in (n / 16)%Z :: (n mod 16)%Z :: hex_of s'
  end.

(** ** The host

    [no_failure w]: no command that was run so far ended with the status of a
    failure (a [grep] that selects no line is none). The code never asks for the
    status of a command. *)
Class DockerHost (W : Type) := {
  host_file : W -> string -> option string;
  cont_file : W -> DockerContainer.t -> string -> option string;
  no_failure : W -> bool
}.

Definition same_files {W} `{DockerHost W} (w w' : W) : Prop :=
  host_file w' = host_file w /\ cont_file w' = cont_file w.
Definition others_kept {W} `{DockerHost W} (c : DockerContainer.t) (p : string) (w w' : W) : Prop :=
  host_file w' = host_file w /\
  forall c' p', (c', p') <> (c, p) -> cont_file w' c' p' = cont_file w c' p'.
(** A failure is not forgotten. *)
Definition later {W} `{DockerHost W} (w w' : W) : Prop := no_failure w' = true -> no_failure w = true.

(** What the commands do when the connection reports no error and they do not
    fail: a command that fails, because a container is missing or stopped, a disk
    is full or a right is missing, need not do anything. Whether it fails or not,
    a command changes no other file than the one it is for. A path inside a
    container may start with two slashes. *)
Class DockerHostLaws (W : Type) `{Ssh W} `{DockerHost W} : Prop := {
  connect_keeps cred (w : W) : same_files w (connectToHost cred w).2 /\ later w (connectToHost cred w).2;
  random_plain n (w : W) s w' :
    getRandomString n w = (s, w') -> same_files w w' /\ later w w' /\
    all_chars plain_char s = true /\ char_free "/"%char s = true;
  scp_stores data p (w : W) e w' :
    scpFileCopy data p w = (e, w') ->
    cont_file w' = cont_file w /\ later w w' /\ (e = ErrorCode.NoError -> host_file w' p = Some data);
  command_later s (w : W) r w' : executeCommand no_answer s w = (r, w') -> later w w';
  mkdir_keeps c p (w : W) r w' :
    all_chars plain_char p = true ->
    executeCommand no_answer (mkdir_cmd c p) w = (r, w') -> same_files w w';
  cp_copies t c p (w : W) r w' :
    all_chars plain_char t = true -> all_chars plain_char p = true ->
    executeCommand no_answer (cp_cmd t c p) w = (r, w') ->
    others_kept c p w w' /\
    (r.2 = ErrorCode.NoError -> no_failure w' = true -> cont_file w' c p = host_file w t);
  append_appends t c p (w : W) r w' :
    all_chars plain_char t = true -> all_chars plain_char p = true ->
    executeCommand no_answer (append_cmd t c p) w = (r, w') ->
    others_kept c p w w' /\
    (r.2 = ErrorCode.NoError -> no_failure w' = true ->
     cont_file w' c p = Some (default "" (cont_file w c p) +:+ default "" (cont_file w c t)));
  shred_keeps t (w : W) r w' :
    all_chars plain_char t = true ->
    executeCommand no_answer (shred_cmd t) w = (r, w') -> cont_file w' = cont_file w;
  xxd_prints c p (w : W) r w' :
    all_chars plain_char p = true ->
    executeCommand no_answer (xxd_cmd c p) w = (r, w') ->
    same_files w w' /\
    (r.2 = ErrorCode.NoError -> no_failure w' = true ->
     hex_digits (out_text r.1) = hex_of (default "" (cont_file w c p)));
  script_greps c f p (w : W) r w' :
    all_chars plain_char f = true -> all_chars plain_char p = true ->
    cont_file w c f = Some (grep_script p) ->
    executeCommand no_answer (run_cmd c f) w = (r, w') ->
    same_files w w' /\
    (r.2 = ErrorCode.NoError -> no_failure w' = true ->
     out_text r.1 = grep "AllowedIPs" (default "" (cont_file w c p)));
  rm_removes c f (w : W) r w' :
    all_chars plain_char f = true ->
    executeCommand no_answer (rm_cmd c f) w = (r, w') ->
    others_kept c f w w' /\ std_out r.1 = [];
  sync_keeps c p (w : W) r w' :
    all_chars plain_char p = true ->
    executeCommand no_answer (sync_cmd c p) w = (r, w') -> same_files w w'
}.

(** ** Variables in a command *)

(** A variable is a dollar sign before a capital letter. *)
Definition upper (c : Ascii.ascii) : bool :=
  let n := Ascii.nat_of_ascii c in (65 <=? n)%nat && (n <=? 90)%nat.
Definition var_like (v : string) : bool :=
  match v with String d (String c _) => Ascii.eqb d "$"%char && upper c | _ => false end.
Fixpoint no_var (s : string) : bool :=
  match s with
  | EmptyString => true
  | String d s' =>
      negb (Ascii.eqb d "$"%char && match s' with String c _ => upper c | _ => false end) && no_var s'
  end.

Lemma no_var_contains s v : no_var s = true -> var_like v = true -> contains_str s v = false.
Proof.
  destruct v as [|d [|u v]]; try done. cbn [var_like]. intros Hs [Hd Hu]%andb_true_iff.
  apply Ascii.eqb_eq in Hd as ->. induction s as [|x s IH]; [done|].
  cbn [no_var] in Hs. apply andb_true_iff in Hs as [Hx Hs]. cbn [contains_str startsWith].
  rewrite IH by done. rewrite orb_false_r. destruct (Ascii.eqb_spec "$"%char x) as [<-|]; [|done].
  destruct s as [|y s]; [done|]. cbn [startsWith]. destruct (Ascii.eqb_spec u y) as [<-|]; [|done].
  by rewrite Ascii.eqb_refl, Hu in Hx.
Qed.

Lemma no_var_app_free a b : char_free "$"%char a = true -> no_var (a +:+ b) = no_var b.
Proof.
  induction a as [|x a IH]; [done|]. intros [Hx Ha]%andb_true_iff. rewrite string_app_cons.
  cbn [no_var]. apply negb_true_iff in Hx. rewrite Ascii.eqb_sym, Hx. cbn. by apply IH.
Qed.

Lemma contains_after_free a c b v :
  char_free c a = true -> contains_str (a +:+ b) (String c v) = contains_str b (String c v).
Proof.
  induction a as [|x a IH]; [done|]. intros [Hx Ha]%andb_true_iff. rewrite string_app_cons.
  cbn [contains_str startsWith]. apply negb_true_iff in Hx. rewrite Hx. by apply IH.
Qed.

Lemma foldl_absent vars s :
  Forall (λ v : string * string, v.1 <> "" /\ contains_str s v.1 = false) vars ->
  foldl (λ s var, replace_all var.1 var.2 s) s vars = s.
Proof.
  induction 1 as [|v vars [Hn Hv] _ IH]; [done|]. cbn [foldl]. by rewrite replace_absent.
Qed.

(** The only variable of a command is the name of the container. *)
Lemma replaceVars_name d1 d2 ip cred c a b :
  char_free "$"%char a = true -> no_var b = true -> char_free "$"%char (cname c) = true ->
  replaceVars (a +:+ "$CONTAINER_NAME" +:+ b) (genVarsForScript d1 d2 ip cred c []) =
    a +:+ cname c +:+ b.
Proof.
  intros Ha Hb Hc.
  assert (exists pre post, genVarsForScript d1 d2 ip cred c [] =
      app pre (("$CONTAINER_NAME", cname c) :: post) /\
    Forall (λ v : string * string, var_like v.1 = true /\
      startsWith ("$CONTAINER_NAME" +:+ b) v.1 = false) pre /\
    Forall (λ v : string * string, var_like v.1 = true) post) as (pre & post & -> & Hpre & Hpost).
  { unfold genVarsForScript. cbn [toObject value qm_find toBoolOr app].
    eexists [_; _; _; _; _; _; _; _; _; _; _; _; _; _; _], _. split; [reflexivity|]. split.
    - repeat (constructor; [by split|]). constructor.
    - repeat (constructor; [done|]). case_bool_decide; [constructor|]. by repeat constructor. }
  unfold replaceVars. rewrite foldl_app, (foldl_absent pre).
  - cbn [foldl fst snd]. rewrite (replace_word "$"%char "CONTAINER_NAME") by done.
    rewrite (replace_absent "$CONTAINER_NAME" _ b) by (done || by apply no_var_contains).
    apply foldl_absent. eapply list.Forall_impl; [exact Hpost|]. intros v Hv.
    split; [by destruct v as [[|]]|]. apply no_var_contains; [|done].
    by rewrite !no_var_app_free.
  - eapply list.Forall_impl; [exact Hpre|]. intros [v x] [Hv Hs]. cbn [fst] in *.
    destruct v as [|d v]; [done|]. split; [done|].
    assert (d = "$"%char) as -> by (destruct v; [done|]; cbn in Hv; apply andb_true_iff in Hv as [E _];
      by apply Ascii.eqb_eq in E).
    rewrite contains_after_free by done. change ("$CONTAINER_NAME" +:+ b) with
      (String "$"%char ("CONTAINER_NAME" +:+ b)) in *. cbn [contains_str]. rewrite Hs.
    apply no_var_contains; [by rewrite no_var_app_free|done].
Qed.

(** ** One command *)
Definition cmd_char (c : Ascii.ascii) : bool :=
  let n := Ascii.nat_of_ascii c in
  negb ((n =? 10)%nat || (n =? 13)%nat || (n =? 92)%nat || (n =? 35)%nat).

Lemma plain_cmd s : all_chars plain_char s = true -> all_chars cmd_char s = true.
Proof. apply all_chars_impl. by intros [[] [] [] [] [] [] [] []]. Qed.
Lemma cname_cmd c : all_chars cmd_char (cname c) = true /\ char_free "$"%char (cname c) = true.
Proof. by destruct c. Qed.

Lemma plain_no_dollar s : all_chars plain_char s = true -> char_free "$"%char s = true.
Proof. by apply all_chars_char_free. Qed.

Lemma endsWith_absent c s : char_free c s = true -> endsWith s (String c "") = false.
Proof.
  induction s as [|x s IH]; intros Hs; [done|]. cbn [endsWith].
  apply andb_true_iff in Hs as [Hx Hs]. rewrite IH, orb_false_r by done.
  apply bool_decide_eq_false. intros [= -> ->]. by rewrite Ascii.eqb_refl in Hx.
Qed.

Lemma replaceVars_none d1 d2 ip cred c s :
  no_var s = true -> replaceVars s (genVarsForScript d1 d2 ip cred c []) = s.
Proof.
  intros Hs. apply foldl_absent.
  assert (Forall (λ v : string * string, var_like v.1 = true) (genVarsForScript d1 d2 ip cred c [])) as HF.
  { unfold genVarsForScript. cbn [toObject value qm_find toBoolOr app].
    repeat (constructor; [done|]). case_bool_decide; [constructor|]. by repeat constructor. }
  eapply list.Forall_impl; [exact HF|]. intros [[|d v] x] Hv; [done|]. split; [done|].
  by apply no_var_contains.
Qed.

Lemma no_var_free s : char_free "$"%char s = true -> no_var s = true.
Proof. intros Hs. rewrite <-(string_app_nil_r s). by rewrite no_var_app_free. Qed.

Section Controller.
Context {W : Type} `{DockerHostLaws W}.
Context (d1 d2 : string) (ip : string -> string) (cred : ServerCredentials).
#[local] Instance access : ServerAccess W := controller_access d1 d2 ip cred.

(** A command over the connection. *)
Definition command (s : string) : StateM W (Output * ErrorCode.t) :=
  e <- connectToHost cred ;; if failed e then sret ([], e) else executeCommand no_answer s.

Lemma runScript_command s w :
  all_chars cmd_char s = true -> s <> "" -> runScript cred s w = command s w.
Proof.
  intros Hs Hn. assert (forall c, cmd_char c = false -> char_free c s = true) as Hf
    by (intros c Hc; by apply (all_chars_char_free cmd_char)).
  unfold runScript, runScript_with, command, sbind.
  destruct (connectToHost cred w) as [e w1]. destruct (failed e); [done|].
  rewrite replace_absent by (done || apply contains_char_free; by apply Hf).
  unfold split_skip. rewrite split_absent by (done || apply contains_char_free; by apply Hf).
  rewrite filter_cons_True by done. rewrite filter_nil. cbn [run_lines].
  rewrite bool_decide_eq_true_2 by done. unfold bslash.
  rewrite endsWith_absent by (by apply Hf).
  replace (startsWith s "#") with false.
  2: { destruct s as [|x s]; [done|]. rewrite startsWith_char. specialize (Hf "#"%char eq_refl).
       apply andb_true_iff in Hf as [Hx _]. by apply negb_true_iff in Hx. }
  unfold sbind, sret. destruct (executeCommand no_answer s w1) as [[out e'] w2]. cbn.
  destruct (failed e') eqn:F; [done|]. apply failed_false in F as ->. by rewrite app_nil_r.
Qed.

Lemma runVars_command c a b w :
  all_chars cmd_char a = true -> char_free "$"%char a = true ->
  all_chars cmd_char b = true -> no_var b = true ->
  runVars d1 d2 ip cred c (a +:+ "$CONTAINER_NAME" +:+ b) w = command (a +:+ cname c +:+ b) w.
Proof.
  intros Ha1 Ha2 Hb1 Hb2. destruct (cname_cmd c) as [C1 C2]. unfold runVars.
  rewrite replaceVars_name by done. apply runScript_command.
  - by rewrite !all_chars_app, Ha1, C1, Hb1.
  - intros E. destruct a; [|done]. revert E. by destruct c.
Qed.

(** The commands of the code, with the name of the container in place. *)
Lemma run_mkdir c p w :
  all_chars plain_char p = true ->
  runVars d1 d2 ip cred c
    ("sudo docker exec -i $CONTAINER_NAME mkdir -p  " +:+ dq +:+ "$(dirname " +:+ p +:+ ")" +:+ dq) w =
  command (mkdir_cmd c p) w.
Proof.
  intros Hp. apply (runVars_command c "sudo docker exec -i "
    (" mkdir -p  " +:+ dq +:+ "$(dirname " +:+ p +:+ ")" +:+ dq)); [done|done| |].
  - rewrite !all_chars_app, (plain_cmd p) by done. done.
  - rewrite (no_var_app_free " mkdir -p  "), (no_var_app_free dq) by done.
    change (no_var ("$(dirname " +:+ p +:+ ")" +:+ dq)) with (no_var (p +:+ ")" +:+ dq)).
    rewrite no_var_app_free by (by apply plain_no_dollar). done.
Qed.

Lemma run_cp c t p w :
  all_chars plain_char t = true -> all_chars plain_char p = true ->
  runVars d1 d2 ip cred c ("sudo docker cp " +:+ t +:+ " $CONTAINER_NAME:/" +:+ p) w =
  command (cp_cmd t c p) w.
Proof.
  intros Ht Hp. pose proof (runVars_command c ("sudo docker cp " +:+ t +:+ " ") (":/" +:+ p) w) as Hc.
  rewrite !string_app_assoc in Hc. apply Hc.
  - rewrite !all_chars_app, (plain_cmd t) by done. done.
  - rewrite !char_free_app, (plain_no_dollar t) by done. done.
  - rewrite !all_chars_app, (plain_cmd p) by done. done.
  - apply no_var_free. rewrite char_free_app, (plain_no_dollar p) by done. done.
Qed.

(** A command inside the container without another variable. *)
Lemma run_inside c b w :
  all_chars cmd_char b = true -> char_free "$"%char b = true ->
  runVars d1 d2 ip cred c ("sudo docker exec -i " +:+ "$CONTAINER_NAME" +:+ b) w =
  command (in_container c b) w.
Proof. intros H1' H2'. apply runVars_command; [done|done|done|]. by apply no_var_free. Qed.

Lemma run_shred c t w :
  all_chars plain_char t = true ->
  runVars d1 d2 ip cred c ("sudo shred -u " +:+ t) w = command (shred_cmd t) w.
Proof.
  intros Ht. unfold runVars. rewrite replaceVars_none.
  - apply runScript_command; [unfold shred_cmd|done]. rewrite all_chars_app, (plain_cmd t) by done. done.
  - apply no_var_free. rewrite char_free_app, (plain_no_dollar t) by done. done.
Qed.

Lemma command_cases s w r w' :
  command s w = (r, w') ->
  later w w' /\
  ((r.1 = [] /\ failed r.2 = true /\ same_files w w') \/
   exists w1, same_files w w1 /\ executeCommand no_answer s w1 = (r, w')).
Proof.
  unfold command, sbind, sret. intros Hr. pose proof (connect_keeps cred w) as [Hk Hl].
  destruct (connectToHost cred w) as [e w1]. cbn [snd] in *. destruct (failed e) eqn:F.
  - injection Hr as <- <-. split; [done|]. by left.
  - split; [|right; by exists w1]. intros Hn. by apply Hl, (command_later _ _ _ _ Hr).
Qed.

Lemma same_files_trans (w1 w2 w3 : W) : same_files w1 w2 -> same_files w2 w3 -> same_files w1 w3.
Proof. intros [A1 B1] [A2 B2]. split; congruence. Qed.

(** Files of the containers other than one, temporary files apart. *)
Definition kept (c : DockerContainer.t) (p : string) (w w' : W) : Prop :=
  forall c' p', (c', p') <> (c, p) -> startsWith p' "/tmp/" = false ->
    cont_file w' c' p' = cont_file w c' p'.
Lemma kept_trans c p w1 w2 w3 : kept c p w1 w2 -> kept c p w2 w3 -> kept c p w1 w3.
Proof. intros K1 K2 c' p' Hne Ht. by rewrite K2, K1. Qed.
Lemma kept_same c p (w w' : W) : cont_file w' = cont_file w -> kept c p w w'.
Proof. intros E c' p' _ _. by rewrite E. Qed.

(** ** Uploading *)
Definition tmp_name (rnd : string) : string := "/tmp/" +:+ rnd +:+ ".tmp".

Lemma tmp_name_plain rnd : all_chars plain_char rnd = true -> all_chars plain_char (tmp_name rnd) = true.
Proof. intros Hr. unfold tmp_name. rewrite !all_chars_app, Hr. done. Qed.

(** The copy of an overwritten file. *)
Lemma cp_spec c t p w r w' :
  all_chars plain_char t = true -> all_chars plain_char p = true ->
  command (cp_cmd t c p) w = (r, w') ->
  later w w' /\ others_kept c p w w' /\
  (failed r.2 = false -> no_failure w' = true -> cont_file w' c p = host_file w t).
Proof.
  intros Ht Hp [Hl [(_ & F & [Eh Ec])|(w1 & [Eh Ec] & Hx)]]%command_cases.
  - split_and!; [done|split; [done|]; intros; by rewrite Ec|]. by rewrite F.
  - destruct (cp_copies _ _ _ _ _ _ Ht Hp Hx) as ([Eh' Hk] & Hd). split_and!.
    + done.
    + split; [congruence|]. intros c' p' Hne. rewrite Hk by done. by rewrite Ec.
    + intros F%failed_false Hm. rewrite Hd by done. by rewrite Eh.
Qed.

Lemma append_spec c t p w r w' :
  all_chars plain_char t = true -> all_chars plain_char p = true ->
  command (append_cmd t c p) w = (r, w') ->
  later w w' /\ kept c p w w' /\
  (failed r.2 = false -> no_failure w' = true ->
   cont_file w' c p = Some (default "" (cont_file w c p) +:+ default "" (cont_file w c t))).
Proof.
  intros Ht Hp [Hl [(_ & F & [Eh Ec])|(w1 & [Eh Ec] & Hx)]]%command_cases.
  - split_and!; [done|by apply kept_same|]. by rewrite F.
  - destruct (append_appends _ _ _ _ _ _ Ht Hp Hx) as ([_ Hk] & Hd). split_and!.
    + done.
    + intros c' p' Hne _. rewrite Hk by done. by rewrite Ec.
    + intros F%failed_false Hm. rewrite Hd by done. by rewrite Ec.
Qed.

Lemma mkdir_spec c p w r w' :
  all_chars plain_char p = true -> command (mkdir_cmd c p) w = (r, w') -> later w w' /\ same_files w w'.
Proof.
  intros Hp [Hl [(_ & _ & E)|(w1 & E & Hx)]]%command_cases; (split; [done|]); [done|].
  eapply same_files_trans; [exact E|]. by eapply mkdir_keeps.
Qed.

Lemma shred_spec t w r w' :
  all_chars plain_char t = true -> command (shred_cmd t) w = (r, w') ->
  later w w' /\ cont_file w' = cont_file w.
Proof.
  intros Ht [Hl [(_ & _ & [_ E])|(w1 & [_ E] & Hx)]]%command_cases; (split; [done|]); [done|].
  rewrite <-E. by eapply shred_keeps.
Qed.

Lemma host_upload data p w e w' :
  uploadFileToHost cred data p w = (e, w') ->
  later w w' /\ cont_file w' = cont_file w /\ (failed e = false -> host_file w' p = Some data).
Proof.
  unfold uploadFileToHost, sbind, sret. pose proof (connect_keeps cred w) as [[_ Ec] Hl].
  destruct (connectToHost cred w) as [e1 w1]. cbn in Ec, Hl. destruct (failed e1) eqn:F.
  - intros [= <- <-]. split_and!; [done|done|]. congruence.
  - intros Hs. destruct (scp_stores _ _ _ _ _ Hs) as (Ec' & Hl' & Hd). split_and!; [|congruence|].
    + intros Hn. auto.
    + intros ?%failed_false. by apply Hd.
Qed.

Lemma run_append c t p w :
  all_chars plain_char t = true -> all_chars plain_char p = true ->
  runVars d1 d2 ip cred c ("sudo docker exec -i $CONTAINER_NAME sh -c " +:+ dq +:+ "cat " +:+ t +:+
    " >> " +:+ p +:+ dq) w = command (append_cmd t c p) w.
Proof.
  intros Ht Hp. apply (run_inside c (" sh -c " +:+ dq +:+ "cat " +:+ t +:+ " >> " +:+ p +:+ dq)).
  - rewrite !all_chars_app, (plain_cmd t), (plain_cmd p) by done. done.
  - rewrite !char_free_app, (plain_no_dollar t), (plain_no_dollar p) by done. done.
Qed.

(** The middle of an upload: the copy, and the concatenation for an append. *)
Definition place_file (c : DockerContainer.t) (t p : string) (mode : ScpOverwriteMode) :
    StateM W (Output * ErrorCode.t) :=
  match mode with
  | ScpOverwriteExisting => command (cp_cmd t c p)
  | ScpAppendToExisting =>
      x <- command (cp_cmd t c t) ;;
      if failed x.2 then sret x else
      a <- command (append_cmd t c p) ;; sret (app x.1 a.1, a.2)
  end.

Lemma place_spec c rnd p mode data w r w' :
  let t := tmp_name rnd in
  all_chars plain_char t = true -> all_chars plain_char p = true -> startsWith p "/tmp/" = false ->
  host_file w t = Some data -> place_file c t p mode w = (r, w') ->
  later w w' /\ kept c p w w' /\
  (failed r.2 = false -> no_failure w' = true ->
   cont_file w' c p = Some (match mode with
                            | ScpOverwriteExisting => data
                            | ScpAppendToExisting => default "" (cont_file w c p) +:+ data
                            end)).
Proof.
  intros t Ht Hp Hn Hd. destruct mode; cbn [place_file].
  - intros Hc. destruct (cp_spec _ _ _ _ _ _ Ht Hp Hc) as (Hl & [_ Hk] & Hr). split_and!; [done|..].
    + intros c' p' Hne _. by apply Hk.
    + intros F M. by rewrite Hr, Hd.
  - unfold sbind, sret. destruct (command (cp_cmd t c t) w) as [x w1] eqn:E1.
    destruct (cp_spec _ _ _ _ _ _ Ht Ht E1) as (L1 & [_ Hk] & Hr).
    assert (forall q, startsWith q "/tmp/" = false -> forall c', cont_file w1 c' q = cont_file w c' q) as K1.
    { intros q Hq c'. apply Hk. intros [= _ ->]. pose proof (startsWith_self "/tmp/" (rnd +:+ ".tmp")) as Hs.
      unfold t, tmp_name in Hq. congruence. }
    destruct (failed x.2) eqn:Fx.
    { intros [= <- <-]. split_and!; [done| |by rewrite Fx]. intros c' p' _ Hp'. by apply K1. }
    destruct (command (append_cmd t c p) w1) as [a w2] eqn:E2. intros [= <- <-].
    destruct (append_spec _ _ _ _ _ _ Ht Hp E2) as (L2 & K2 & Ha). split_and!.
    + intros M. auto.
    + intros c' p' Hne Hp'. rewrite K2 by done. by apply K1.
    + intros F M. rewrite Ha, Hr, Hd, K1 by auto. done.
Qed.

Lemma upload_spec c s p mode w e w' :
  all_chars plain_char p = true -> startsWith p "/tmp/" = false ->
  uploadTextFileToContainer d1 d2 ip c cred s p mode w = (e, w') ->
  later w w' /\ kept c p w w' /\
  (e = ErrorCode.NoError -> no_failure w' = true ->
   cont_file w' c p = Some (match mode with
                            | ScpOverwriteExisting => s
                            | ScpAppendToExisting => default "" (cont_file w c p) +:+ s
                            end)).
Proof.
  intros Hp Hn. unfold uploadTextFileToContainer, sbind, sret.
  destruct (getRandomString 16 w) as [rnd w0] eqn:E0.
  destruct (random_plain _ _ _ _ E0) as ([_ C0] & L0 & Hr & _).
  change ("/tmp/" +:+ rnd +:+ ".tmp") with (tmp_name rnd).
  pose proof (tmp_name_plain rnd Hr) as Ht. set (t := tmp_name rnd) in *.
  destruct (uploadFileToHost cred s t w0) as [e1 w1] eqn:E1.
  destruct (host_upload _ _ _ _ _ E1) as (L1 & C1 & D1).
  assert (kept c p w w1) as K1 by (apply kept_same; congruence).
  assert (later w w1) as M1 by (intros ?; auto).
  destruct (failed e1) eqn:F1; [intros [= <- <-]; split_and!; [done..|]; by intros ->|].
  rewrite run_mkdir by done. destruct (command (mkdir_cmd c p) w1) as [m w2] eqn:E2.
  destruct (mkdir_spec _ _ _ _ _ Hp E2) as (L2 & H2' & C2).
  assert (kept c p w w2) as K2 by (apply kept_same; congruence).
  assert (later w w2) as M2 by (intros ?; auto).
  destruct (failed m.2) eqn:F2; [intros [= <- <-]; split_and!; [done..|]; by intros Em; rewrite Em in F2|].
  destruct (place_file c t p mode w2) as [r w3] eqn:E3.
  match goal with |- (let '(a, s') := ?m in _) = _ -> _ => replace m with (r, w3) end.
  2: { symmetry. rewrite <-E3. destruct mode; cbn [place_file]; [by apply run_cp|].
       unfold sbind, sret. rewrite run_cp by done. destruct (command (cp_cmd t c t) w2) as [x w3'].
       destruct (failed x.2); [done|]. by rewrite run_append. }
  destruct (place_spec c rnd p mode s w2 r w3) as (L3 & K3 & D3); [done|done|done|rewrite H2'; by apply D1|done|].
  assert (kept c p w w3) as K by (by eapply kept_trans).
  assert (later w w3) as M3 by (intros ?; auto).
  destruct (failed r.2) eqn:F3; [intros [= <- <-]; split_and!; [done..|]; by intros Er; rewrite Er in F3|].
  destruct (contains_str (all_lines r.1) "Error" && contains_str (all_lines r.1) "No such container");
    [intros [= <- <-]; by split_and!|].
  rewrite run_shred by done. destruct (command (shred_cmd t) w3) as [x w4] eqn:E4.
  intros [= <- <-]. destruct (shred_spec _ _ _ _ Ht E4) as [L4 C4]. split_and!.
  - intros ?. auto.
  - eapply kept_trans; [exact K|by apply kept_same].
  - intros _ M. rewrite C4, D3 by auto. by rewrite C2, C1, C0.
Qed.

(** ** Reading *)
Lemma octets_hex s l acc : octets_back (app (rev (hex_of s)) l) acc = octets_back l (s +:+ acc).
Proof.
  revert l acc; induction s as [|c s IH]; intros l acc; [done|].
  cbn [hex_of rev]. rewrite <-!app_assoc. cbn [app]. rewrite IH. cbn [octets_back].
  rewrite string_app_cons. do 2 f_equal.
  rewrite <-Z.div_mod by done. rewrite Nat2Z.id. apply Ascii.ascii_nat_embedding.
Qed.

Lemma fromHex_hex s t : hex_digits t = hex_of s -> fromHex t = s.
Proof.
  intros E. unfold fromHex. rewrite E. rewrite <-(app_nil_r (rev _)), octets_hex.
  apply string_app_nil_r.
Qed.

Lemma get_spec c p w r w' :
  all_chars plain_char p = true -> getTextFileFromContainer c cred p w = (r, w') ->
  cont_file w' = cont_file w /\ later w w' /\
  (r.2 = ErrorCode.NoError -> no_failure w' = true -> r.1 = default "" (cont_file w c p)).
Proof.
  intros Hp. unfold getTextFileFromContainer, sbind, sret.
  change ("sudo docker exec -i " +:+ cname c +:+ " sh -c " +:+ dq +:+ "xxd -p '" +:+ p +:+ "'" +:+ dq)
    with (xxd_cmd c p).
  rewrite runScript_command.
  - destruct (command (xxd_cmd c p) w) as [x w1] eqn:E. intros [= <- <-]. cbn.
    apply command_cases in E as [Hl [(_ & F & [_ Ec])|(w2 & [_ Ec] & Hx)]].
    + split_and!; [done|done|]. intros Ex. by rewrite Ex in F.
    + destruct (xxd_prints _ _ _ _ _ Hp Hx) as [[_ Ec'] Hd]. split_and!; [congruence|done|].
      intros Ex Hn. apply fromHex_hex. rewrite Hd by done. by rewrite Ec.
  - unfold xxd_cmd, in_container. rewrite !all_chars_app, (plain_cmd p) by done.
    by rewrite (proj1 (cname_cmd c)).
  - done.
Qed.

(** ** Scripts *)
Definition script_name (rnd : string) : string := "/opt/amnezia/" +:+ rnd +:+ ".sh".

Lemma script_name_spec rnd :
  all_chars plain_char rnd = true -> char_free "/"%char rnd = true ->
  all_chars plain_char (script_name rnd) = true /\ startsWith (script_name rnd) "/tmp/" = false /\
  config_path (script_name rnd) = false.
Proof.
  intros Hr Hf. unfold script_name. split_and!; [by rewrite !all_chars_app, Hr|done|].
  unfold config_path. change (drop_chars 13 ("/opt/amnezia/" +:+ rnd +:+ ".sh")) with (rnd +:+ ".sh").
  rewrite contains_char_free by (by rewrite char_free_app, Hf). by rewrite andb_false_r.
Qed.

Lemma config_path_spec p :
  config_path p = true -> all_chars plain_char p = true /\ startsWith p "/tmp/" = false.
Proof.
  unfold config_path. intros [[H1' _]%andb_true_iff H2']%andb_true_iff. split; [done|].
  destruct p as [|x p]; [done|]. cbn [startsWith] in *. destruct (Ascii.eqb "/" x); [|done].
  destruct p as [|y p]; [done|]. cbn [startsWith] in *.
  destruct (Ascii.eqb_spec "o" y) as [<-|]; [reflexivity|done].
Qed.

Lemma run_spec c f p w r w' :
  all_chars plain_char f = true -> all_chars plain_char p = true ->
  cont_file w c f = Some (grep_script p) -> command (run_cmd c f) w = (r, w') ->
  cont_file w' = cont_file w /\
  (r.2 = ErrorCode.NoError -> no_failure w' = true ->
   out_text r.1 = grep "AllowedIPs" (default "" (cont_file w c p))).
Proof.
  intros Hf Hp Hs [_ [(_ & F & [_ Ec])|(w1 & [_ Ec] & Hx)]]%command_cases.
  - split; [done|]. intros Er. by rewrite Er in F.
  - destruct (script_greps c f p w1 r w') as [[_ Ec'] Hd]; [done|done|by rewrite Ec|done|].
    split; [congruence|]. intros Er Hn. rewrite Hd by done. by rewrite Ec.
Qed.

Lemma rm_spec c f w r w' :
  all_chars plain_char f = true -> command (rm_cmd c f) w = (r, w') ->
  (forall c' p', (c', p') <> (c, f) -> cont_file w' c' p' = cont_file w c' p') /\ std_out r.1 = [].
Proof.
  intros Hf [_ [(E & _ & [_ Ec])|(w1 & [_ Ec] & Hx)]]%command_cases.
  - rewrite E. split; [|done]. intros c' p' _. by rewrite Ec.
  - destruct (rm_removes _ _ _ _ _ Hf Hx) as [[_ Hk] Ho]. split; [|done].
    intros c' p' Hne. rewrite Hk by done. by rewrite Ec.
Qed.

Lemma out_text_app a b : std_out b = [] -> out_text (app a b) = out_text a.
Proof.
  intros Hb. unfold out_text, std_out in *. rewrite filter_app, Hb. by rewrite app_nil_r.
Qed.

Lemma run_inside_script c b f w :
  all_chars plain_char f = true -> all_chars cmd_char b = true -> char_free "$"%char b = true ->
  runVars d1 d2 ip cred c ("sudo docker exec -i " +:+ "$CONTAINER_NAME" +:+ b +:+ f +:+ " ") w =
  command (in_container c (b +:+ f +:+ " ")) w.
Proof.
  intros Hf H1' H2'. apply run_inside.
  - rewrite !all_chars_app, (plain_cmd f), H1' by done. done.
  - rewrite !char_free_app, (plain_no_dollar f), H2' by done. done.
Qed.

Lemma run_script_cmd c f w :
  all_chars plain_char f = true ->
  runVars d1 d2 ip cred c ("sudo docker exec -i $CONTAINER_NAME " +:+
    (if bool_decide (c = DockerContainer.Socks5Proxy) then "sh" else "bash") +:+ " " +:+ f +:+ " ") w =
  command (run_cmd c f) w.
Proof.
  intros Hf. unfold run_cmd. destruct (bool_decide (c = DockerContainer.Socks5Proxy)).
  - by apply (run_inside_script c " sh " f).
  - by apply (run_inside_script c " bash " f).
Qed.

Lemma grep_spec c p w r w' :
  config_path p = true -> runContainerScript d1 d2 ip cred c (grep_script p) w = (r, w') ->
  later w w' /\
  (no_failure w' = true -> forall c' p', config_path p' = true -> cont_file w' c' p' = cont_file w c' p') /\
  (r.2 = ErrorCode.NoError -> no_failure w' = true -> out_text r.1 = grep "AllowedIPs" (default "" (cont_file w c p))).
Proof.
  intros Hcp. destruct (config_path_spec p Hcp) as [Hp Hpt].
  unfold runContainerScript, sbind, sret. destruct (getRandomString 16 w) as [rnd w0] eqn:E0.
  destruct (random_plain _ _ _ _ E0) as ([_ C0] & L0 & Hr & Hs).
  change ("/opt/amnezia/" +:+ rnd +:+ ".sh") with (script_name rnd).
  destruct (script_name_spec rnd Hr Hs) as (Hf & Hft & Hfc). set (f := script_name rnd) in *.
  destruct (uploadTextFileToContainer _ _ _ _ _ _ f _ w0) as [e w1] eqn:E1.
  destruct (upload_spec _ _ _ _ _ _ _ Hf Hft E1) as (L1 & K1 & D1).
  assert (forall c' p', config_path p' = true -> cont_file w1 c' p' = cont_file w c' p') as S1.
  { intros c' p' Hp'. destruct (config_path_spec p' Hp') as [_ Ht]. rewrite K1; [by rewrite C0| |done].
    intros [= _ ->]. congruence. }
  destruct (failed e) eqn:F1; [intros [= <- <-]; split_and!; [intros ?; auto|done|]; cbn; by intros ->|].
  apply failed_false in F1. specialize (D1 F1). rewrite run_script_cmd by done.
  destruct (command (run_cmd c f) w1) as [x w2] eqn:E2. pose proof (proj1 (command_cases _ _ _ _ E2)) as L2.
  change ("sudo docker exec -i $CONTAINER_NAME rm " +:+ f +:+ " ") with
    ("sudo docker exec -i " +:+ "$CONTAINER_NAME" +:+ " rm " +:+ f +:+ " ").
  rewrite run_inside_script by done. change (in_container c (" rm " +:+ f +:+ " ")) with (rm_cmd c f).
  destruct (command (rm_cmd c f) w2) as [d w3] eqn:E3.
  pose proof (proj1 (command_cases _ _ _ _ E3)) as L3.
  destruct (rm_spec _ _ _ _ _ Hf E3) as [K3 O3]. intros [= <- <-]. cbn [fst snd].
  assert (no_failure w3 = true -> no_failure w2 = true /\ no_failure w1 = true) as M by (intros ?; auto).
  split_and!; [intros ?; by apply L0, L1, M|..].
  - intros [M2 M1]%M c' p' Hp'. destruct (run_spec c f p w1 x w2) as [C2 _]; [by auto..|].
    rewrite K3; [by rewrite C2, S1|]. intros [= _ ->]. congruence.
  - intros Er [M2 M1]%M. destruct (run_spec c f p w1 x w2) as [_ D2]; [by auto..|].
    rewrite out_text_app, D2 by done. by rewrite S1.
Qed.

Lemma sync_spec c p w r w' :
  config_path p = true -> runVars d1 d2 ip cred c (sync_script p) w = (r, w') ->
  cont_file w' = cont_file w /\ later w w'.
Proof.
  intros Hcp. destruct (config_path_spec p Hcp) as [Hp _].
  assert (runVars d1 d2 ip cred c (sync_script p) w = command (sync_cmd c p) w) as ->.
  { apply (run_inside c (" bash -c 'wg syncconf wg0 <(wg-quick strip " +:+ p +:+ ")'")).
    - rewrite !all_chars_app, (plain_cmd p) by done. done.
    - rewrite !char_free_app, (plain_no_dollar p) by done. done. }
  intros [Hl [(_ & _ & [_ E])|(w1 & [_ E] & Hx)]]%command_cases; (split; [|done]); [done|].
  destruct (sync_keeps _ _ _ _ _ Hp Hx) as [_ E']. congruence.
Qed.

(** ** The contract *)
Definition file_view (w : W) (c : DockerContainer.t) (p : string) : string :=
  default "" (cont_file w c p).

Definition controller_laws : ServerAccessLaws W.
Proof.
  refine {| text := file_view; works := no_failure |}; unfold file_view.
  - intros c p w r w' [Hp _]%config_path_spec Hg. destruct (get_spec _ _ _ _ _ Hp Hg) as (E & L & D).
    split_and!; [by rewrite E|done|done].
  - intros c s p mode w e w' [Hp Ht]%config_path_spec Hu.
    destruct (upload_spec _ _ _ _ _ _ _ Hp Ht Hu) as (L & K & D). split_and!; [|done|].
    + intros c' p' [_ Ht']%config_path_spec Hne. by rewrite K.
    + intros He Hn. rewrite D by done. by destruct mode.
  - intros c p w r w' Hp Hg. destruct (grep_spec _ _ _ _ _ Hp Hg) as (L & K & D). split_and!; [done| |done].
    intros Hn c' p' Hp'. by rewrite K.
  - intros c p w r w' Hp Hs. destruct (sync_spec _ _ _ _ _ Hp Hs) as [E L]. split; [by rewrite E|done].
Defined.
End Controller.

(** ** A Docker host in memory, and the contract of the controller

    A concrete connection and host for which the laws of DockerHost.v hold: the
    commands are recognised by their words. The refinement theorem says that
    the server controller keeps its contract over every such host. *)
Local Open Scope string_scope.

(** C16. The server controller keeps, over every host that runs Docker, the
    contract its clients rely on: when the connection reports no error and no
    command on the host failed (the code does not look at their status, see
    [failed_command_unnoticed]), files are read as they are, an upload replaces
    or extends exactly the file it names and the list of addresses is that of
    the file; and, whether commands failed or not, an upload changes no other
    configuration file and reading and synchronising change none. *)
Theorem controller_keeps_contract {W} `{DockerHostLaws W} (d1 d2 : string) (ip : string -> string)
    (cred : ServerCredentials) :
  exists L : @ServerAccessLaws W (controller_access d1 d2 ip cred),
    forall w, @works W _ L w = no_failure w /\
      forall c p, @text W _ L w c p = default "" (cont_file w c p).
Proof. by exists (controller_laws d1 d2 ip cred). Qed.

(** ** The host: its containers run or are stopped; commands on a stopped
    container fail. *)
Record SampleHost := mkHost {
  hfiles : string -> option string;
  cfiles : DockerContainer.t -> string -> option string;
  running : bool;
  some_failed : bool
}.

#[export] Instance sample_files_of : DockerHost SampleHost := {|
  host_file := hfiles; cont_file := cfiles; no_failure w := negb (some_failed w)
|}.

Definition set_cfile (c : DockerContainer.t) (p : string) (s : option string) (w : SampleHost) : SampleHost :=
  mkHost (hfiles w) (λ c' p', if decide ((c', p') = (c, p)) then s else cfiles w c' p') (running w) (some_failed w).

Definition hex_char (d : Z) : Ascii.ascii :=
  Ascii.ascii_of_nat (Z.to_nat (if (d <? 10)%Z then d + 48 else d + 87)).
Fixpoint hex_string (l : list Z) : string :=
  match l with [] => "" | d :: l' => String (hex_char d) (hex_string l') end.

Definition chop_last (n : nat) (s : string) : string := take_chars (String.length s - n) s.

Definition quiet : Output * ErrorCode.t := ([], ErrorCode.NoError).
Definition prints (s : string) : Output * ErrorCode.t := ([(false, s)], ErrorCode.NoError).

(** What a shell script prints: the listing of addresses is the only one. *)
Definition script_output (c : DockerContainer.t) (script : string) (w : SampleHost) : string :=
  match split " " script with
  | [_; p; _; _; _] => grep "AllowedIPs" (default "" (cfiles w c p))
  | _ => ""
  end.

Definition run_command (s : string) : StateM SampleHost (Output * ErrorCode.t) := λ w,
  match split " " s with
  | [_; _; op; t; target] =>
      match split ":" target with
      | [n; p] => (quiet, set_cfile (containerFromString n) (drop_chars 1 p) (hfiles w t) w)
      | _ => (quiet, w)
      end
  | [_; _; _; _; n; _; _; _; t; _; q] =>
      let c := containerFromString n in
      let p := chop_last 1 q in
      (quiet, set_cfile c p (Some (default "" (cfiles w c p) +:+ default "" (cfiles w c t))) w)
  | [_; _; _; _; n; prog; _; _; _; q] =>
      if String.eqb prog "sh"
      then (prints (hex_string (hex_of (default "" (cfiles w (containerFromString n) (chop_last 2 (drop_chars 1 q)))))), w)
      else (quiet, w)
  | [_; _; _; _; n; prog; f; _] =>
      let c := containerFromString n in
      if String.eqb prog "rm" then (quiet, set_cfile c f None w)
      else (prints (script_output c (default "" (cfiles w c f)) w), w)
  | _ => (quiet, w)
  end.

(** The report of Docker, on the standard error. *)
Definition sample_exec (s : string) : StateM SampleHost (Output * ErrorCode.t) := λ w,
  if running w then run_command s w
  else (([(true, "Error response from daemon: container is not running")], ErrorCode.NoError),
        mkHost (hfiles w) (cfiles w) false true).

#[export] Instance sample_ssh : Ssh SampleHost := {|
  connectToHost _ w := (ErrorCode.NoError, w);
  executeCommand _ s := sample_exec s;
  scpFileCopy data p w :=
    (ErrorCode.NoError, mkHost (λ p', if decide (p' = p) then Some data else hfiles w p') (cfiles w) (running w) (some_failed w));
  getRandomString _ w := ("k3Jd90aPq2LmZx7B", w)
|}.

(** ** Its laws *)
Lemma name_word c : char_free " "%char (containerToString c) = true /\
  char_free ":"%char (containerToString c) = true /\ containerFromString (containerToString c) = c.
Proof. by destruct c. Qed.

Lemma plain_word s : all_chars plain_char s = true -> char_free " "%char s = true.
Proof. by apply all_chars_char_free. Qed.

Lemma chop_last_app a b : chop_last (String.length b) (a +:+ b) = a.
Proof.
  unfold chop_last. rewrite string_length_app.
  replace (String.length a + String.length b - String.length b)%nat with (String.length a) by lia.
  apply take_chars_app.
Qed.

Lemma split_words ws : ws <> [] -> Forall (λ s, char_free " "%char s = true) ws ->
  split " " (join " " ws) = ws.
Proof. apply split_join_char. Qed.

Lemma hex_char_val d : (0 <= d < 16)%Z -> hex_val (hex_char d) = Some d.
Proof.
  intros Hd. assert (d = 0 \/ d = 1 \/ d = 2 \/ d = 3 \/ d = 4 \/ d = 5 \/ d = 6 \/ d = 7 \/ d = 8 \/
    d = 9 \/ d = 10 \/ d = 11 \/ d = 12 \/ d = 13 \/ d = 14 \/ d = 15)%Z as Hc by lia.
  by repeat destruct Hc as [->|Hc]; try subst d.
Qed.

Lemma hex_digits_string s : hex_digits (hex_string (hex_of s)) = hex_of s.
Proof.
  induction s as [|c s IH]; [done|]. cbn [hex_of hex_string hex_digits].
  pose proof (Ascii.nat_ascii_bounded c) as Hb.
  rewrite !hex_char_val, IH; [done| |].
  - apply Z.mod_pos_bound. lia.
  - split; [apply Z.div_pos; lia|]. apply Z.div_lt_upper_bound; lia.
Qed.

(** The words of the commands: each is free of spaces. *)
Ltac word_free :=
  first [ reflexivity | by apply plain_word | apply name_word
        | rewrite char_free_app; apply andb_true_iff; split; word_free ].
Ltac words_free :=
  repeat first [ apply List.Forall_nil | apply List.Forall_cons; [word_free|] ].

Section Words.
Context (c : DockerContainer.t) (t p : string).
Context (Ht : all_chars plain_char t = true) (Hp : all_chars plain_char p = true).
Let N := containerToString c.

Lemma words_cp : split " " (cp_cmd t c p) = ["sudo"; "docker"; "cp"; t; N +:+ ":/" +:+ p].
Proof.
  change (cp_cmd t c p) with (join " " ["sudo"; "docker"; "cp"; t; N +:+ ":/" +:+ p]).
  apply split_words; [done|]. words_free.
Qed.

(** A command inside the container: its own words after those that select the
    container. *)
Lemma words_inside l :
  l <> [] -> Forall (λ s, char_free " "%char s = true) l ->
  split " " (in_container c (" " +:+ join " " l)) = app ["sudo"; "docker"; "exec"; "-i"; N] l.
Proof.
  intros Hn Hl.
  assert (in_container c (" " +:+ join " " l) = join " " (app ["sudo"; "docker"; "exec"; "-i"; N] l)) as ->.
  { destruct l as [|x l]; [done|]. reflexivity. }
  apply split_words; [done|]. apply Forall_app. split; [words_free|done].
Qed.

Lemma words_mkdir : exists a b d e f, split " " (mkdir_cmd c p) =
  app ["sudo"; "docker"; "exec"; "-i"; N] ["mkdir"; a; b; d; e +:+ f].
Proof.
  eexists _, _, _, _, _.
  apply (words_inside ["mkdir"; "-p"; ""; dq +:+ "$(dirname"; p +:+ ")" +:+ dq]); [done|]. words_free.
Qed.

Lemma words_append : split " " (append_cmd t c p) =
  app ["sudo"; "docker"; "exec"; "-i"; N] ["sh"; "-c"; dq +:+ "cat"; t; ">>"; p +:+ dq].
Proof.
  apply (words_inside ["sh"; "-c"; dq +:+ "cat"; t; ">>"; p +:+ dq]); [done|]. words_free.
Qed.

Lemma words_xxd : split " " (xxd_cmd c p) =
  app ["sudo"; "docker"; "exec"; "-i"; N] ["sh"; "-c"; dq +:+ "xxd"; "-p"; "'" +:+ p +:+ "'" +:+ dq].
Proof.
  apply (words_inside ["sh"; "-c"; dq +:+ "xxd"; "-p"; "'" +:+ p +:+ "'" +:+ dq]); [done|]. words_free.
Qed.

Lemma words_run : exists prog, prog <> "rm" /\ split " " (run_cmd c p) =
  app ["sudo"; "docker"; "exec"; "-i"; N] [prog; p; ""].
Proof.
  unfold run_cmd. destruct (bool_decide (c = DockerContainer.Socks5Proxy)).
  - exists "sh". split; [done|]. apply (words_inside ["sh"; p; ""]); [done|]. words_free.
  - exists "bash". split; [done|]. apply (words_inside ["bash"; p; ""]); [done|]. words_free.
Qed.

Lemma words_rm : split " " (rm_cmd c p) = app ["sudo"; "docker"; "exec"; "-i"; N] ["rm"; p; ""].
Proof.
  apply (words_inside ["rm"; p; ""]); [done|]. words_free.
Qed.

Lemma words_sync : exists e, split " " (sync_cmd c p) =
  app ["sudo"; "docker"; "exec"; "-i"; N]
    ["bash"; "-c"; "'wg"; "syncconf"; "wg0"; "<(wg-quick"; "strip"; e].
Proof.
  exists (p +:+ ")'").
  apply (words_inside ["bash"; "-c"; "'wg"; "syncconf"; "wg0"; "<(wg-quick"; "strip"; p +:+ ")'"]); [done|]. words_free.
Qed.

Lemma words_shred : split " " (shred_cmd t) = ["sudo"; "shred"; "-u"; t].
Proof.
  change (shred_cmd t) with (join " " ["sudo"; "shred"; "-u"; t]). apply split_words; [done|]. words_free.
Qed.
End Words.

Lemma out_text_prints s : out_text (prints s).1 = s.
Proof. apply string_app_nil_r. Qed.

Lemma set_cfile_kept c p s w : others_kept c p w (set_cfile c p s w).
Proof. split; [done|]. intros c' p' Hne. cbn. by rewrite decide_False. Qed.
Lemma set_cfile_eq c p s w : cfiles (set_cfile c p s w) c p = s.
Proof. cbn. by rewrite decide_True. Qed.

Lemma run_command_failed s w : some_failed (run_command s w).2 = some_failed w.
Proof. unfold run_command. by repeat case_match. Qed.

(** A stopped host reports a failure and changes nothing. *)
Lemma exec_cases s w r w' :
  executeCommand no_answer s w = (r, w') ->
  (no_failure w' = false /\ same_files w w' /\ std_out r.1 = []) \/ run_command s w = (r, w').
Proof.
  cbn. unfold sample_exec. destruct (running w); [by right|]. intros [= <- <-]. by left.
Qed.

Ltac stopped Hx :=
  apply exec_cases in Hx as [(Hx & [? Hsame] & ?)|Hx];
  [split; [split; [done|by intros; rewrite Hsame] || done|try done; intros _ ?; congruence]|].

#[export] Instance sample_host_laws : DockerHostLaws SampleHost.
Proof.
  split.
  - intros cred w. unfold later. split; [split; reflexivity|done].
  - intros n w s w' [= <- <-]. unfold later. by split_and!.
  - intros data p w e w' [= <- <-]. unfold later. split_and!; [done|done|]. intros _. cbn. by rewrite decide_True.
  - intros s w r w' Hx. unfold later. apply exec_cases in Hx as [(-> & _)|Hx]; [done|].
    cbn. change w' with (r, w').2. rewrite <- Hx, run_command_failed. done.
  - intros c p w r w' Hp [(_ & ? & _)|Hx]%exec_cases; [done|]. revert Hx. unfold run_command.
    destruct (words_mkdir c p Hp) as (a & b & d & e & f & ->). cbn. by intros [= <- <-].
  - intros t c p w r w' Ht Hp Hx. stopped Hx. revert Hx. unfold run_command.
    rewrite (words_cp c t p) by done. destruct (name_word c) as (_ & F2 & F3).
    assert (split ":" (containerToString c +:+ ":/" +:+ p) = [containerToString c; "/" +:+ p]) as ->.
    { change (containerToString c +:+ ":/" +:+ p) with (join ":" [containerToString c; "/" +:+ p]).
      apply split_join_char; [done|]. repeat (constructor; [done|]). constructor; [|constructor].
      rewrite char_free_app. by rewrite (all_chars_char_free plain_char _ p). }
    rewrite F3. change (drop_chars 1 ("/" +:+ p)) with p. intros [= <- <-].
    split; [apply set_cfile_kept|]. intros _ _. apply set_cfile_eq.
  - intros t c p w r w' Ht Hp Hx. stopped Hx. revert Hx. unfold run_command.
    rewrite (words_append c t p) by done. cbn [app]. destruct (name_word c) as (_ & _ & ->).
    change (chop_last 1 (p +:+ dq)) with (chop_last (String.length dq) (p +:+ dq)).
    rewrite chop_last_app. intros [= <- <-]. split; [apply set_cfile_kept|].
    intros _ _. apply set_cfile_eq.
  - intros t w r w' Ht [(_ & [_ ?] & _)|Hx]%exec_cases; [done|]. revert Hx. unfold run_command.
    rewrite (words_shred t) by done. by intros [= <- <-].
  - intros c p w r w' Hp Hx. stopped Hx. revert Hx. unfold run_command.
    rewrite (words_xxd c p) by done. cbn [app]. destruct (name_word c) as (_ & _ & ->).
    change (drop_chars 1 ("'" +:+ p +:+ "'" +:+ dq)) with (p +:+ "'" +:+ dq).
    change (chop_last 2 (p +:+ "'" +:+ dq)) with (chop_last (String.length ("'" +:+ dq)) (p +:+ "'" +:+ dq)).
    rewrite chop_last_app. change (String.eqb "sh" "sh") with true.
    intros [= <- <-]. split; [done|]. intros _ _.
    rewrite out_text_prints. apply hex_digits_string.
  - intros c f p w r w' Hf Hp Hs Hx. stopped Hx. revert Hx. unfold run_command.
    destruct (words_run c f Hf) as (prog & Hprog & ->). cbn [app]. destruct (name_word c) as (_ & _ & ->).
    apply String.eqb_neq in Hprog. rewrite Hprog. cbn [cont_file sample_files_of] in Hs. rewrite Hs.
    intros [= <- <-]. split; [done|]. intros _ _. rewrite out_text_prints. unfold script_output. cbn [default id].
    assert (split " " (grep_script p) = ["cat"; p; "|"; "grep"; "AllowedIPs"]) as ->; [|done].
    change (grep_script p) with (join " " ["cat"; p; "|"; "grep"; "AllowedIPs"]).
    apply split_words; [done|]. words_free.
  - intros c f w r w' Hf Hx. stopped Hx. revert Hx. unfold run_command.
    rewrite (words_rm c f) by done. cbn [app]. destruct (name_word c) as (_ & _ & ->).
    change (String.eqb "rm" "rm") with true. intros [= <- <-]. split; [apply set_cfile_kept|done].
  - intros c p w r w' Hp [(_ & ? & _)|Hx]%exec_cases; [done|]. revert Hx. unfold run_command.
    destruct (words_sync c p Hp) as [e ->]. cbn. by intros [= <- <-].
Qed.

Lemma controller_keeps_contract_witness :
  exists L : @ServerAccessLaws SampleHost (controller_access "1.1.1.1" "1.0.0.1" (λ h, h) (mkCredentials "host" "root" "pw" 22)),
    @text SampleHost _ L (mkHost (λ _, None) (λ _ _, Some "abc") true false) DockerContainer.Awg "/opt/amnezia/awg/wg0.conf" = "abc".
Proof.
  destruct (controller_keeps_contract "1.1.1.1" "1.0.0.1" (λ h, h) (mkCredentials "host" "root" "pw" 22))
    as [L HL].
  exists L. apply (HL (mkHost (λ _, None) (λ _ _, Some "abc") true false)).
Defined.

(** A command that fails goes unnoticed: on a host whose container is stopped an
    upload reports no error, although every command of it failed and the file is
    what it was. *)
Theorem failed_command_unnoticed :
  let p := "/opt/amnezia/awg/wg0.conf" in
  let w := mkHost (λ _, None) (λ _ _, Some "old") false false in
  let '(e, w') := uploadTextFileToContainer "1.1.1.1" "1.0.0.1" (λ h, h) DockerContainer.Awg
                    (mkCredentials "host" "root" "pw" 22) "new" p ScpOverwriteExisting w in
  e = ErrorCode.NoError /\ cont_file w' DockerContainer.Awg p = Some "old" /\ no_failure w' = false.
Proof. vm_compute. split_and!; reflexivity. Qed.
