(* ===== verification/Regex.v ===== *)
(** * Regular expressions

    The part of [QRegularExpression] the client uses: backtracking search for
    the leftmost match with greedy repetition of single characters, groups that
    capture, and word boundaries. Without options a dot is any character but a
    newline, and [\d], [\w] and [\s] are ASCII. *)
From Stdlib Require Import ZArith Lia Ascii String.
From stdpp Require Import base list strings.
From S2P Require Import Prelude QtString.
Local Open Scope string_scope.

(** ** Expressions *)
Inductive Rx :=
| Eps
| Chr (p : Ascii.ascii -> bool)
| Star (p : Ascii.ascii -> bool)                 (* greedy, any number *)
| Upto (p : Ascii.ascii -> bool) (n : nat)       (* greedy, at most [n] *)
| Boundary
| Seq (a b : Rx)
| Alt (a b : Rx)
| Group (r : Rx).

Fixpoint Lit (s : string) : Rx :=
  match s with
  | "" => Eps
  | String c s' => Seq (Chr (Ascii.eqb c)) (Lit s')
  end.

Definition dot (c : Ascii.ascii) : bool := negb (Ascii.eqb c "010").
Definition digit_class (c : Ascii.ascii) : bool :=
  let n := N_of_ascii c in ((48 <=? n) && (n <=? 57))%N.
Definition word_class (c : Ascii.ascii) : bool :=
  let n := N_of_ascii c in
  (((48 <=? n) && (n <=? 57)) || ((65 <=? n) && (n <=? 90)) || (n =? 95) ||
   ((97 <=? n) && (n <=? 122)))%N.

Definition Plus (p : Ascii.ascii -> bool) : Rx := Seq (Chr p) (Star p).

(** ** Matching *)

(** The character before the position, if there is one, and what follows. *)
Definition Pos : Type := option Ascii.ascii * string.

Definition word_opt (o : option Ascii.ascii) : bool :=
  match o with Some c => word_class c | None => false end.
Definition head_char (s : string) : option Ascii.ascii :=
  match s with "" => None | String c _ => Some c end.

(** What was consumed between two positions of one text. *)
Definition between (s s' : string) : string := take_chars (String.length s - String.length s') s.

Section Matching.
Context {R : Type}.
Abbreviation Cont := (Pos -> list string -> option R).

Definition orelse (a : option R) (b : unit -> option R) : option R :=
  match a with Some r => Some r | None => b tt end.

Fixpoint match_star (p : Ascii.ascii -> bool) (prev : option Ascii.ascii) (s : string)
    (caps : list string) (k : Cont) : option R :=
  match s with
  | String c s' =>
      if p c then orelse (match_star p (Some c) s' caps k) (λ _, k (prev, s) caps)
      else k (prev, s) caps
  | "" => k (prev, s) caps
  end.

Fixpoint match_upto (p : Ascii.ascii -> bool) (n : nat) (prev : option Ascii.ascii) (s : string)
    (caps : list string) (k : Cont) : option R :=
  match n, s with
  | S n', String c s' =>
      if p c then orelse (match_upto p n' (Some c) s' caps k) (λ _, k (prev, s) caps)
      else k (prev, s) caps
  | _, _ => k (prev, s) caps
  end.

Fixpoint rx_match (r : Rx) (pos : Pos) (caps : list string) (k : Cont) : option R :=
  match r with
  | Eps => k pos caps
  | Chr p =>
      match pos.2 with
      | String c s' => if p c then k (Some c, s') caps else None
      | "" => None
      end
  | Star p => match_star p pos.1 pos.2 caps k
  | Upto p n => match_upto p n pos.1 pos.2 caps k
  | Boundary => if xorb (word_opt pos.1) (word_opt (head_char pos.2)) then k pos caps else None
  | Seq a b => rx_match a pos caps (λ pos caps, rx_match b pos caps k)
  | Alt a b => orelse (rx_match a pos caps k) (λ _, rx_match b pos caps k)
  | Group r => rx_match r pos caps (λ pos' caps, k pos' (app caps [between pos.2 pos'.2]))
  end.
End Matching.

(** The text before the match, [captured(0)], the groups, and the rest. *)
Record Match := mkMatch {
  match_before : string;
  captured0 : string;
  captures : list string;
  match_rest : string
}.

Definition captured (n : nat) (m : Match) : string :=
  match n with O => captured0 m | S n' => nth n' (captures m) "" end.

Definition match_here (r : Rx) (prev : option Ascii.ascii) (before s : string) : option Match :=
  rx_match r (prev, s) [] (λ pos caps, Some (mkMatch before (between s pos.2) caps pos.2)).

Fixpoint search_from (r : Rx) (prev : option Ascii.ascii) (before s : string) : option Match :=
  match match_here r prev before s with
  | Some m => Some m
  | None =>
      match s with
      | "" => None
      | String c s' => search_from r (Some c) (before +:+ String c "") s'
      end
  end.

Definition search (r : Rx) (s : string) : option Match := search_from r None "" s.

(** [globalMatch]: the next search starts behind the last match. None of the
    expressions used with it matches the empty text. *)
Fixpoint matches_from (r : Rx) (prev : option Ascii.ascii) (s : string) (skip : nat) : list Match :=
  match s with
  | "" => []
  | String c s' =>
      match skip with
      | S k => matches_from r (Some c) s' k
      | O =>
          match match_here r prev "" s with
          | Some m => m :: matches_from r (Some c) s' (String.length (captured0 m) - 1)
          | None => matches_from r (Some c) s' 0
          end
      end
  end.

Definition globalMatch (r : Rx) (s : string) : list Match := matches_from r None s 0.

(** [replace] of every match by a text. *)
Fixpoint replace_from (r : Rx) (after : string) (prev : option Ascii.ascii) (s : string)
    (skip : nat) : string :=
  match s with
  | "" => ""
  | String c s' =>
      match skip with
      | S k => replace_from r after (Some c) s' k
      | O =>
          match match_here r prev "" s with
          | Some m => after +:+ replace_from r after (Some c) s' (String.length (captured0 m) - 1)
          | None => String c (replace_from r after (Some c) s' 0)
          end
      end
  end.

Definition replace_rx (r : Rx) (after s : string) : string := replace_from r after None s 0.

(** ** What a match consumes *)
Fixpoint lang (r : Rx) (w : string) : Prop :=
  match r with
  | Eps | Boundary => w = ""
  | Chr p => exists c, w = String c "" /\ p c = true
  | Star p => all_chars p w = true
  | Upto p n => all_chars p w = true /\ String.length w <= n
  | Seq a b => exists w1 w2, w = w1 +:+ w2 /\ lang a w1 /\ lang b w2
  | Alt a b => lang a w \/ lang b w
  | Group r => lang r w
  end.

Lemma orelse_some {R} (a : option R) (b : unit -> option R) r :
  orelse a b = Some r -> a = Some r \/ b tt = Some r.
Proof. destruct a; simpl; [left|right]; done. Qed.

Lemma match_star_lang {R} p prev s caps (k : Pos -> list string -> option R) res :
  match_star p prev s caps k = Some res ->
  exists w s' prev', s = w +:+ s' /\ all_chars p w = true /\ k (prev', s') caps = Some res.
Proof.
  revert prev. induction s as [|c s IH]; intros prev; simpl.
  - intros Hk. by exists "", "", prev.
  - destruct (p c) eqn:E; [|intros Hk; by exists "", (String c s), prev].
    intros [H|H]%orelse_some; [|by exists "", (String c s), prev].
    destruct (IH _ H) as (w & s' & prev' & -> & Hw & Hk).
    exists (String c w), s', prev'. split; [done|]. split; [|done]. simpl. by rewrite E, Hw.
Qed.

Lemma match_upto_lang {R} p n prev s caps (k : Pos -> list string -> option R) res :
  match_upto p n prev s caps k = Some res ->
  exists w s' prev', s = w +:+ s' /\ (all_chars p w = true /\ String.length w <= n) /\
    k (prev', s') caps = Some res.
Proof.
  assert (forall s n prev, k (prev, s) caps = Some res -> exists w s' prev', s = w +:+ s' /\
    (all_chars p w = true /\ String.length w <= n) /\ k (prev', s') caps = Some res) as Hno.
  { intros s0 n0 prev0 Hk. exists "", s0, prev0. split; [done|]. split; [|done]. simpl. split; [done|lia]. }
  revert prev s. induction n as [|n IH]; intros prev [|c s]; simpl; try apply Hno.
  destruct (p c) eqn:E; [|apply Hno]. intros [H|H]%orelse_some; [|by eapply Hno].
  destruct (IH _ _ H) as (w & s' & prev' & -> & [Hw Hl] & Hk).
  exists (String c w), s', prev'. split; [done|]. simpl. rewrite E, Hw. split; [split; [done|lia]|done].
Qed.

Lemma rx_match_lang {R} r pos caps (k : Pos -> list string -> option R) res :
  rx_match r pos caps k = Some res ->
  exists w pos' caps', pos.2 = w +:+ pos'.2 /\ lang r w /\ k pos' caps' = Some res.
Proof.
  revert pos caps k. induction r as [|p|p|p n| |a IHa b IHb|a IHa b IHb|r IH]; intros pos caps k; simpl.
  - intros Hk. by exists "", pos, caps.
  - destruct (pos.2) as [|c s]; [done|]. destruct (p c) eqn:E; [|done]. intros Hk.
    exists (String c ""), (Some c, s), caps. split; [done|]. split; [by exists c|done].
  - intros (w & s' & prev' & E & Hw & Hk)%match_star_lang. by exists w, (prev', s'), caps.
  - intros (w & s' & prev' & E & Hw & Hk)%match_upto_lang. by exists w, (prev', s'), caps.
  - destruct (xorb _ _); [|done]. intros Hk. by exists "", pos, caps.
  - intros (w1 & pos1 & caps1 & E1 & H1' & Hk)%IHa.
    destruct (IHb _ _ _ Hk) as (w2 & pos2 & caps2 & E2 & H2' & Hk2).
    exists (w1 +:+ w2), pos2, caps2. split; [by rewrite E1, E2, string_app_assoc|].
    split; [by exists w1, w2|done].
  - intros [H|H]%orelse_some.
    + destruct (IHa _ _ _ H) as (w & pos' & caps' & E & Hw & Hk). exists w, pos', caps'. auto.
    + destruct (IHb _ _ _ H) as (w & pos' & caps' & E & Hw & Hk). exists w, pos', caps'. auto.
  - intros (w & pos' & caps' & E & Hw & Hk)%IH. by eexists w, pos', _.
Qed.

Lemma between_app w s : between (w +:+ s) s = w.
Proof.
  unfold between. rewrite string_length_app.
  replace (String.length w + String.length s - String.length s)%nat with (String.length w) by lia.
  apply take_chars_app.
Qed.

(** The text a search finds is in the language of the expression. *)
Lemma search_lang r s m : search r s = Some m -> lang r (captured0 m).
Proof.
  unfold search. generalize (@None Ascii.ascii) as prev. generalize "" as before.
  induction s as [|c s IH]; intros before prev; simpl.
  - destruct (match_here r prev before "") as [m'|] eqn:E; [|done]. intros [= <-].
    destruct (rx_match_lang _ _ _ _ _ E) as (w & pos' & caps & Es & Hw & [= <-]). cbn [snd captured0] in *.
    by rewrite Es, between_app.
  - destruct (match_here r prev before (String c s)) as [m'|] eqn:E; [|apply IH]. intros [= <-].
    destruct (rx_match_lang _ _ _ _ _ E) as (w & pos' & caps & Es & Hw & [= <-]). cbn [snd captured0] in *.
    by rewrite Es, between_app.
Qed.
