(* ===== verification/Configurators.v ===== *)
(** * The other configurators

    Models of [OpenVpnConfigurator], [ShadowSocksConfigurator],
    [CloakConfigurator], [XrayConfigurator] and [Ikev2Configurator]
    (client/configurators/): the configuration a client is given on a server,
    and what the local and the exported configuration are made of. Keys,
    certificate requests and random names are drawn by OpenSSL and Qt and are
    arguments. *)
From Stdlib Require Import ZArith Lia Ascii String.
From stdpp Require Import base list strings.
From S2P Require Import Prelude QtString QtContainers Variant Protocols Containers SecureSettings Settings.
From S2P Require Import Regex ServerController WireguardConfigurator.
Local Open Scope string_scope.

(** What is drawn for a new client. *)
Record Fresh := mkFresh {
  wireguard_keys : string * string;      (* private and public key *)
  request_clientId : string;
  request_privKey : string;              (* empty when OpenSSL failed *)
  request_text : string;
  ikev2_clientId : string
}.

Definition without_nl (s : string) : string := replace_all nl "" s.

(** ** Configurations of a new client *)
Section Create.
Context {W : Type} `{ServerAccess W} `{JsonDocument}.
Context (host_name : string) (template : ProtocolScriptType -> DockerContainer.t -> string).
Context (toBase64 : string -> string).

Definition get_file (container : DockerContainer.t) (path : string) : Run W (string * ErrorCode.t) :=
  rlift (sa_getTextFile container path).

(** The result is the configuration, empty when there was an error. *)
Definition created (e : ErrorCode.t) (config : string) : Run W (string * ErrorCode.t) :=
  rret (if failed e then "" else config, e).

Definition signCert (container : DockerContainer.t) (clientId : string) : Run W ErrorCode.t :=
  let script_import :=
    "sudo docker exec -i " +:+ containerToString container +:+ " bash -c " +:+ dq +:+
    "cd /opt/amnezia/openvpn && easyrsa import-req /opt/amnezia/openvpn/clients/" +:+ clientId +:+
    ".req " +:+ clientId +:+ dq in
  let script_sign :=
    "sudo docker exec -i " +:+ containerToString container +:+ " bash -c " +:+ dq +:+
    "export EASYRSA_BATCH=1; cd /opt/amnezia/openvpn && easyrsa sign-req client " +:+ clientId +:+
    dq in
  let! r := rlift (sa_run container (join nl [script_import; script_sign])) in
  rret r.2.

(** The certificate of the authority, that of the client, and the shared key.
    The error of reading the first is overwritten by the second. *)
Definition prepareOpenVpnConfig (container : DockerContainer.t) (f : Fresh) :
    Run W (string * string * string * ErrorCode.t) :=
  let none e := ("", "", "", e) in
  if String.eqb (request_privKey f) "" || String.eqb (request_text f) ""
  then rret (none ErrorCode.OpenSslFailed)
  else
    let reqFileName := "/opt/amnezia/openvpn/clients/" +:+ request_clientId f +:+ ".req" in
    let! e := rlift (sa_upload container (request_text f) reqFileName ScpOverwriteExisting) in
    if failed e then rret (none e) else
    let! e := signCert container (request_clientId f) in
    if failed e then rret (none e) else
    let! ca := get_file container "/opt/amnezia/openvpn/pki/ca.crt" in
    let! crt := get_file container
                  ("/opt/amnezia/openvpn/pki/issued/" +:+ request_clientId f +:+ ".crt") in
    if failed crt.2 then rret (ca.1, crt.1, "", crt.2) else
    let! ta := get_file container "/opt/amnezia/openvpn/ta.key" in
    if String.eqb ca.1 "" || String.eqb crt.1 "" || String.eqb ta.1 ""
    then rret (ca.1, crt.1, ta.1, ErrorCode.SshScpFailureError)
    else rret (ca.1, crt.1, ta.1, ta.2).

(** The placeholder is kept on Windows. *)
Definition drop_block_outside_dns (platform : Platform) (config : string) : string :=
  match platform with Windows => config | _ => replace_all "block-outside-dns" "" config end.

Definition openvpn_createConfig (platform : Platform) (container : DockerContainer.t)
    (containerConfig : QJsonObject) (f : Fresh) : Run W (string * ErrorCode.t) :=
  let config := sa_fill container containerConfig (template openvpn_template container) in
  let! d := prepareOpenVpnConfig container f in
  let '(caCert, clientCert, taKey, e) := d in
  let config := replace_all "$OPENVPN_CA_CERT" caCert config in
  let config := replace_all "$OPENVPN_CLIENT_CERT" clientCert config in
  let config := replace_all "$OPENVPN_PRIV_KEY" (request_privKey f) config in
  let config :=
    if contains_str config "$OPENVPN_TA_KEY" then replace_all "$OPENVPN_TA_KEY" taKey config
    else replace_all "</tls-auth>" "" (replace_all "<tls-auth>" "" config) in
  let config := drop_block_outside_dns platform config in
  created e (toJson (JObject (jinsert "clientId" (JString (request_clientId f))
                               (jinsert "config" (JString config) [])))).

Definition shadowsocks_createConfig (container : DockerContainer.t) (containerConfig : QJsonObject) :
    Run W (string * ErrorCode.t) :=
  let! key := get_file container "/opt/amnezia/shadowsocks/shadowsocks.key" in
  let config :=
    jinsert "method" (JString "$SHADOWSOCKS_CIPHER")
    (jinsert "timeout" (JInt 60)
    (jinsert "password" (JString (without_nl key.1))
    (jinsert "local_port" (JString "$SHADOWSOCKS_LOCAL_PORT")
    (jinsert "server_port" (JString "$SHADOWSOCKS_SERVER_PORT")
    (jinsert "server" (JString host_name) []))))) in
  created key.2 (sa_fill container containerConfig (toJson (JObject config))).

Definition cloak_createConfig (container : DockerContainer.t) (containerConfig : QJsonObject) :
    Run W (string * ErrorCode.t) :=
  let! key := get_file container "/opt/amnezia/cloak/cloak_public.key" in
  if failed key.2 then created key.2 "" else
  let! uid := get_file container "/opt/amnezia/cloak/cloak_bypass_uid.key" in
  let config :=
    jinsert "RemotePort" (JString "$CLOAK_SERVER_PORT")
    (jinsert "RemoteHost" (JString host_name)
    (jinsert "StreamTimeout" (JInt 300)
    (jinsert "BrowserSig" (JString "chrome")
    (jinsert "NumConn" (JInt 1)
    (jinsert "ServerName" (JString "$FAKE_WEB_SITE_ADDRESS")
    (jinsert "PublicKey" (JString (without_nl key.1))
    (jinsert "UID" (JString (without_nl uid.1))
    (jinsert "EncryptionMethod" (JString "aes-gcm")
    (jinsert "ProxyMethod" (JString "openvpn")
    (jinsert "Transport" (JString "direct") [])))))))))) in
  created uid.2 (sa_fill container containerConfig (toJson (JObject config))).

(** Only the error of the last of the three files is looked at. *)
Definition xray_createConfig (container : DockerContainer.t) (containerConfig : QJsonObject) :
    Run W (string * ErrorCode.t) :=
  let config := sa_fill container containerConfig (template xray_template container) in
  let! key := get_file container "/opt/amnezia/xray/xray_public.key" in
  let! uuid := get_file container "/opt/amnezia/xray/xray_uuid.key" in
  let! shortId := get_file container "/opt/amnezia/xray/xray_short_id.key" in
  let config := replace_all "$XRAY_CLIENT_ID" (without_nl uuid.1) config in
  let config := replace_all "$XRAY_PUBLIC_KEY" (without_nl key.1) config in
  let config := replace_all "$XRAY_SHORT_ID" (without_nl shortId.1) config in
  created shortId.2 config.

(** The two scripts and the two files; only the last error is kept. *)
Definition ikev2_createConfig (container : DockerContainer.t) (f : Fresh) :
    Run W (string * ErrorCode.t) :=
  let clientId := ikev2_clientId f in
  let password := "" in
  let certFileName := "/opt/amnezia/ikev2/clients/" +:+ clientId +:+ ".p12" in
  let scriptCreateCert :=
    "certutil -z <(head -c 1024 /dev/urandom) -S -c " +:+ dq +:+ "IKEv2 VPN CA" +:+ dq +:+ " -n " +:+
    dq +:+ clientId +:+ dq +:+ " -s " +:+ dq +:+ "O=IKEv2 VPN,CN=" +:+ clientId +:+ dq +:+
    " -k rsa -g 3072 -v 120 -d sql:/etc/ipsec.d -t " +:+ dq +:+ ",," +:+ dq +:+
    " --keyUsage digitalSignature,keyEncipherment --extKeyUsage serverAuth,clientAuth -8 " +:+ dq +:+
    clientId +:+ dq in
  let! _ := rlift (sa_runContainerScript container scriptCreateCert) in
  let scriptExportCert :=
    "pk12util -W " +:+ dq +:+ password +:+ dq +:+ " -d sql:/etc/ipsec.d -n " +:+ dq +:+ clientId +:+
    dq +:+ " -o " +:+ dq +:+ certFileName +:+ dq in
  let! _ := rlift (sa_runContainerScript container scriptExportCert) in
  let! clientCert := get_file container certFileName in
  let! caCert := get_file container "/etc/ipsec.d/ca_cert_base64.p12" in
  created caCert.2 (toJson (JObject
    (jinsert "password" (JString password) (jinsert "cert" (JString (toBase64 clientCert.1))
    (jinsert "userName" (JString clientId) (jinsert "hostName" (JString host_name) [])))))).

(** [createConfigurator] and the call of its [createConfig]; there is no
    configurator for the remaining protocols, and the pointer is null. *)
Definition configurator_createConfig (platform : Platform) (protocol : Proto.t)
    (container : DockerContainer.t) (containerConfig : QJsonObject) (f : Fresh) :
    Run W (string * ErrorCode.t) :=
  match protocol with
  | Proto.OpenVpn => openvpn_createConfig platform container containerConfig f
  | Proto.ShadowSocks => shadowsocks_createConfig container containerConfig
  | Proto.Cloak => cloak_createConfig container containerConfig
  | Proto.WireGuard => createConfig host_name template false container containerConfig (wireguard_keys f)
  | Proto.Awg => awg_createConfig host_name template container containerConfig (wireguard_keys f)
  | Proto.Ikev2 => ikev2_createConfig container f
  | Proto.Xray | Proto.SSXray => xray_createConfig container containerConfig
  | _ => rabort
  end.
End Create.

(** ** Local and exported configurations *)
Definition redirect_gateway : Rx := Seq (Lit "redirect-gateway") (Star dot).

Definition is_mobile (platform : Platform) : bool :=
  match platform with Android | IOS => true | _ => false end.

Section Process.
Context {S : Type} `{KeyValueStore S} `{JsonDocument}.

Definition ipv6_leak : string :=
  "ifconfig-ipv6 fd15:53b6:dead::2/64  fd15:53b6:dead::1" +:+ nl.

(** The lines for the routes, by the settings. The two comparisons of the mode
    read the same setting. *)
Definition openvpn_routes (platform : Platform) (config : string) : Run (Settings S) string :=
  let config := replace_rx redirect_gateway "" config in
  let desktop s := if is_mobile platform then "" else s in
  let! sites := isSitesSplitTunnelingEnabled in
  if negb sites then
    rret (config +:+ nl +:+ "redirect-gateway def1 ipv6 bypass-dhcp" +:+ nl +:+
          desktop ipv6_leak +:+ "block-ipv6" +:+ nl)
  else
    let! mode := routeMode in
    match mode with
    | VpnAllExceptSites =>
        rret (config +:+ desktop (nl +:+ "redirect-gateway ipv6 !ipv4 bypass-dhcp" +:+ nl +:+ ipv6_leak)
              +:+ "block-ipv6" +:+ nl)
    | _ => rret config
    end.

Definition resolv_conf (platform : Platform) (resources : string) : string :=
  match platform with
  | Mac | Linux =>
      nl +:+ "script-security 2" +:+ nl +:+ "up " +:+ resources +:+ "/update-resolv-conf.sh" +:+ nl +:+
      "down " +:+ resources +:+ "/update-resolv-conf.sh" +:+ nl
  | _ => ""
  end.

Definition openvpn_processLocal (platform : Platform) (resources : string) (dns : string * string)
    (isApiConfig : bool) (protocolConfigString : string) : Run (Settings S) string :=
  let json := toObject (fromJsonDoc (processConfigWithDnsSettings dns protocolConfigString)) in
  let config := toString (value "config" json) in
  let! config := (if isApiConfig then rret config else openvpn_routes platform config) in
  let config := drop_block_outside_dns platform config in
  let config := config +:+ resolv_conf platform resources in
  rret (toJson (JObject (jinsert "config" (JString config) json))).

Definition openvpn_processExport (dns : string * string) (protocolConfigString : string) : string :=
  let json := toObject (fromJsonDoc (processConfigWithDnsSettings dns protocolConfigString)) in
  let config := replace_rx redirect_gateway "" (toString (value "config" json)) in
  let config := config +:+ nl +:+ "redirect-gateway def1 ipv6 bypass-dhcp" +:+ nl +:+ ipv6_leak +:+
                "block-ipv6" +:+ nl in
  let config := replace_all "block-outside-dns" "" config in
  toJson (JObject (jinsert "config" (JString config) json)).

(** [processConfigWithLocalSettings] of the configurator of a protocol. *)
Definition configurator_processLocal (platform : Platform) (resources : string)
    (dns : string * string) (isApiConfig : bool) (protocol : Proto.t) (protocolConfigString : string) :
    Run (Settings S) string :=
  match protocol with
  | Proto.OpenVpn => openvpn_processLocal platform resources dns isApiConfig protocolConfigString
  | Proto.ShadowSocks | Proto.Cloak | Proto.WireGuard | Proto.Awg | Proto.Ikev2 | Proto.Xray
  | Proto.SSXray => rret (processConfigWithDnsSettings dns protocolConfigString)
  | _ => rabort
  end.

(** [processConfigWithExportSettings]. *)
Definition configurator_processExport (dns : string * string) (protocol : Proto.t)
    (protocolConfigString : string) : Outcome string :=
  match protocol with
  | Proto.OpenVpn => Ret (openvpn_processExport dns protocolConfigString)
  | Proto.ShadowSocks | Proto.Cloak | Proto.WireGuard | Proto.Awg | Proto.Ikev2 | Proto.Xray
  | Proto.SSXray => Ret (processConfigWithDnsSettings dns protocolConfigString)
  | _ => Abort
  end.
End Process.
