(* ===== verification/ContainersModel.v ===== *)
(** * The model of the containers

    Model of [ContainersModel] (client/ui/models/containers_model.cpp): the
    configurations of the containers of one server, and of
    [VpnConfigurationsController] (client/core/controllers/): the configuration
    a client gets on a server and the one a connection is started with. *)
From Stdlib Require Import ZArith QArith Lia Ascii String.
From stdpp Require Import base list strings.
From S2P Require Import Prelude QtString QtContainers Variant Protocols Containers SecureSettings Settings.
From S2P Require Import ServerController Configurators.
Local Open Scope string_scope.

(** ** Containers of a server *)
Definition ContainerMap := list (DockerContainer.t * QJsonObject).

Record ContainersModel := mkContainers {
  m_containers : ContainerMap;
  m_processedContainerIndex : Z
}.

Inductive ContainerRole := ConfigRole | ServiceTypeRole | DockerContainerRole | IsInstalledRole
| IsCurrentlyProcessedRole | IsSupportedRole.

(** What [data] returns for the roles that do not carry a text or an order. *)
Inductive ContainerValue :=
| CInvalid
| CConfig (o : QJsonObject)
| CService (t : ServiceType.t)
| CContainer (c : DockerContainer.t)
| CBool (b : bool).

(** The number of a container in its enumeration, which is its row. *)
Fixpoint position (c : DockerContainer.t) (l : list DockerContainer.t) : Z :=
  match l with
  | [] => 0
  | x :: l' => if bool_decide (x = c) then 0 else 1 + position c l'
  end%Z.
Definition container_row (c : DockerContainer.t) : Z := position c allContainers.

Definition find_config (c : DockerContainer.t) (m : ContainerMap) : QJsonObject :=
  default [] (qm_find c m).

Definition containers_data (platform : Platform) (s : ContainersModel) (row : Z) (role : ContainerRole) :
    ContainerValue :=
  if ((row <? 0) || (Z.of_nat (length allContainers) <=? row))%Z then CInvalid
  else
    let container := nth (Z.to_nat row) allContainers DockerContainer.None in
    match role with
    | ConfigRole =>
        CConfig (if bool_decide (container = DockerContainer.None) then []
                 else find_config container (m_containers s))
    | ServiceTypeRole => CService (containerService container)
    | DockerContainerRole => CContainer container
    | IsInstalledRole => CBool (qm_contains container (m_containers s))
    | IsCurrentlyProcessedRole => CBool (container_row container =? m_processedContainerIndex s)%Z
    | IsSupportedRole => CBool (isSupportedByCurrentPlatform platform container)
    end.

Definition containers_updateModel (containers : list QJsonValue) (s : ContainersModel) : ContainersModel :=
  mkContainers
    (foldl (λ m val, qm_insert (containerFromString (toString (value "container" (toObject val))))
                       (toObject val) m) [] containers)
    (m_processedContainerIndex s).

Definition setProcessedContainerIndex (index : Z) (s : ContainersModel) : ContainersModel :=
  mkContainers (m_containers s) index.

Definition getContainerConfig (platform : Platform) (s : ContainersModel) (index : Z) : QJsonObject :=
  match containers_data platform s index ConfigRole with CConfig o => o | _ => [] end.

Definition model_supported (platform : Platform) (s : ContainersModel) (index : Z) : bool :=
  match containers_data platform s index IsSupportedRole with CBool b => b | _ => false end.

(** A comparison with the service type for other services. *)
Definition isServiceContainer (platform : Platform) (s : ContainersModel) (index : Z) : bool :=
  match containers_data platform s index ServiceTypeRole with
  | CService t => bool_decide (t = ServiceType.Other)
  | _ => false
  end.

Definition has_service (t : ServiceType.t) (s : ContainersModel) : bool :=
  existsb (λ kv, bool_decide (containerService kv.1 = t)) (m_containers s).
Definition hasInstalledServices (s : ContainersModel) : bool := has_service ServiceType.Other s.
Definition hasInstalledProtocols (s : ContainersModel) : bool := has_service ServiceType.Vpn s.

(** ** Configurations *)
Section Create.
Context {W : Type} `{ServerAccess W} `{JsonDocument}.
Context (host_name : string) (template : ProtocolScriptType -> DockerContainer.t -> string).
Context (toBase64 : string -> string) (platform : Platform).

Fixpoint create_protocols (container : DockerContainer.t) (f : Fresh) (protocols : list Proto.t)
    (containerConfig : QJsonObject) : Run W (QJsonObject * ErrorCode.t) :=
  match protocols with
  | [] => rret (containerConfig, ErrorCode.NoError)
  | protocol :: rest =>
      let protocolConfig := toObject (value (protoToString protocol) containerConfig) in
      let! r := configurator_createConfig host_name template toBase64 platform protocol container
                  containerConfig f in
      if failed r.2 then rret (containerConfig, r.2) else
      let protocolConfig := jinsert "last_config" (JString r.1) protocolConfig in
      create_protocols container f rest
        (jinsert (protoToString protocol) (JObject protocolConfig) containerConfig)
  end.

Definition createProtocolConfigForContainer (container : DockerContainer.t) (f : Fresh)
    (containerConfig : QJsonObject) : Run W (QJsonObject * ErrorCode.t) :=
  if bool_decide (containerService container = ServiceType.Other)
  then rret (containerConfig, ErrorCode.NoError)
  else create_protocols container f (protocolsForContainer container) containerConfig.

(** The text is left as it was for a service and empty after an error. *)
Definition createProtocolConfigString (dns : string * string) (container : DockerContainer.t)
    (containerConfig : QJsonObject) (protocol : Proto.t) (f : Fresh) (protocolConfigString : string) :
    Run W (string * ErrorCode.t) :=
  if bool_decide (containerService container = ServiceType.Other)
  then rret (protocolConfigString, ErrorCode.NoError)
  else
    let! r := configurator_createConfig host_name template toBase64 platform protocol container
                containerConfig f in
    if failed r.2 then rret r else
    match configurator_processExport dns protocol r.1 with
    | Ret s => rret (s, r.2)
    | _ => rabort
    end.
End Create.

Section Start.
Context {S : Type} `{KeyValueStore S} `{JsonDocument}.
Context (platform : Platform) (resources : string).

Definition defaultMtu : string := if is_mobile platform then "1280" else "1376".

Definition takes_mtu (container : DockerContainer.t) : bool :=
  bool_decide (container = DockerContainer.Awg) || bool_decide (container = DockerContainer.WireGuard).

(** The data of one protocol of the container. *)
Definition config_data (dns : string * string) (isApiConfig : bool) (container : DockerContainer.t)
    (containerConfig : QJsonObject) (proto : Proto.t) : Run (Settings S) QJsonObject :=
  let protocolConfigString :=
    toString (value "last_config" (toObject (value (protoToString proto) containerConfig))) in
  let! protocolConfigString :=
    configurator_processLocal platform resources dns isApiConfig proto protocolConfigString in
  let vpnConfigData := toObject (fromJsonDoc protocolConfigString) in
  rret (if takes_mtu container && String.eqb (toString (value "mtu" vpnConfigData)) ""
        then jinsert "mtu" (JString defaultMtu) vpnConfigData else vpnConfigData).

Fixpoint add_config_data (dns : string * string) (isApiConfig : bool) (container : DockerContainer.t)
    (containerConfig : QJsonObject) (protocols : list Proto.t) (vpnConfiguration : QJsonObject) :
    Run (Settings S) QJsonObject :=
  match protocols with
  | [] => rret vpnConfiguration
  | proto :: rest =>
      if isApiConfig && bool_decide (container = DockerContainer.Cloak) &&
         bool_decide (proto = Proto.ShadowSocks)
      then add_config_data dns isApiConfig container containerConfig rest vpnConfiguration
      else
        let! d := config_data dns isApiConfig container containerConfig proto in
        add_config_data dns isApiConfig container containerConfig rest
          (jinsert (key_proto_config_data proto) (JObject d) vpnConfiguration)
  end.

Definition createVpnConfiguration (dns : string * string) (serverConfig containerConfig : QJsonObject)
    (container : DockerContainer.t) : Run (Settings S) QJsonObject :=
  if bool_decide (containerService container = ServiceType.Other) then rret [] else
  let isApiConfig := negb (json_toInt (value "config_version" serverConfig) =? 0)%Z in
  let! vpnConfiguration :=
    add_config_data dns isApiConfig container containerConfig (protocolsForContainer container) [] in
  rret
    (jinsert "config_version" (JInt (json_toInt (value "config_version" serverConfig)))
    (jinsert "description" (JString (toString (value "description" serverConfig)))
    (jinsert "hostName" (JString (toString (value "hostName" serverConfig)))
    (jinsert "dns2" (JString dns.2)
    (jinsert "dns1" (JString dns.1)
    (jinsert "protocol" (JString (protoToString (defaultProtocol container)))
       vpnConfiguration)))))).
End Start.
