(* ===== verification/Serialization.v ===== *)
(** * Links to servers

    Models of the deserializers of client/core/serialization/: [vless], [trojan],
    [ss] and [ssd], with the entries they build (inbound.cpp, outbound.cpp) and
    [QJsonIO::SetValue] (client/3rd/QJsonStruct/QJsonIO.hpp). The parts of a
    link are [QUrl]'s. *)
From Stdlib Require Import ZArith QArith Lia Ascii String.
From stdpp Require Import base list strings.
From S2P Require Import Prelude QtString QtContainers Variant.
Local Open Scope string_scope.
Local Open Scope Z_scope.

(** ** URLs

    What [QUrl] and [QUrlQuery] make of a text. *)
Class Url := {
  url_valid : string -> bool;
  url_host : string -> string;
  url_port : string -> Z;                    (* -1 when there is none *)
  url_fragment : string -> string;
  url_fragment_decoded : string -> string;
  url_userInfo : string -> string;
  url_userName : string -> string;
  hasQueryItem : string -> string -> bool;
  queryItemValue : string -> string -> string;
  queryItemValue_decoded : string -> string -> string;
  fromPercentEncoding : string -> string;
  (** The URL [QUrl::fromUserInput] guesses. *)
  fromUserInput : string -> string;
  (** [QByteArray::fromBase64] with [OmitTrailingEquals]. *)
  fromBase64 : string -> string
}.

(** ** Setting a value behind a path *)
Inductive PathNode := PKey (key : string) | PIdx (index : nat).

(** The array is filled with nulls up to the index. *)
Definition array_set (i : nat) (v : QJsonValue) (l : list QJsonValue) : list QJsonValue :=
  let l := app l (replicate (S i - length l) JNull) in
  <[i := v]> l.

Fixpoint set_path (node : QJsonValue) (path : list PathNode) (v : QJsonValue) : QJsonValue :=
  match path with
  | [] => v
  | PKey k :: rest =>
      let o := toObject node in JObject (jinsert k (set_path (value k o) rest v) o)
  | PIdx i :: rest =>
      let l := toArray node in
      JArray (array_set i (set_path (default JUndefined (l !! i)) rest v) l)
  end.

Definition SetValue (o : QJsonObject) (v : QJsonValue) (path : list PathNode) : QJsonObject :=
  toObject (set_path (JObject o) path v).

Fixpoint GetValue (node : QJsonValue) (path : list PathNode) : QJsonValue :=
  match path with
  | [] => node
  | PKey k :: rest => GetValue (value k (toObject node)) rest
  | PIdx i :: rest => GetValue (default JUndefined (toArray node !! i)) rest
  end.

(** ** Entries *)
Record ServerObject := mkServerObject {
  so_address : string;
  so_port : Z;
  so_method : string;
  so_password : string
}.

Definition GenerateInboundEntry : QJsonObject :=
  SetValue (jinsert "protocol" (JString "socks") (jinsert "port" (JInt 10833)
    (jinsert "listen" (JString "127.0.0.1") []))) (JBool true) [PKey "settings"; PKey "udp"].

Definition GenerateShadowSocksServerOUT (s : ServerObject) : QJsonObject :=
  jinsert "password" (JString (so_password s)) (jinsert "method" (JString (so_method s))
  (jinsert "port" (JInt (so_port s)) (jinsert "address" (JString (so_address s)) []))).
Definition GenerateShadowSocksOUT (l : list ServerObject) : QJsonObject :=
  jinsert "servers" (JArray (map (λ s, JObject (GenerateShadowSocksServerOUT s)) l)) [].
Definition GenerateTrojanServerOUT (s : ServerObject) : QJsonObject :=
  jinsert "password" (JString (so_password s)) (jinsert "port" (JInt (so_port s))
  (jinsert "address" (JString (so_address s)) [])).
Definition GenerateTrojanOUT (l : list ServerObject) : QJsonObject :=
  jinsert "servers" (JArray (map (λ s, JObject (GenerateTrojanServerOUT s)) l)) [].

(** The parameters [mux] and [sendThrough] keep their defaults. *)
Definition GenerateOutboundEntry (tag protocol : string) (settings streamSettings : QJsonObject) :
    QJsonObject :=
  jinsert "mux" (JObject []) (jinsert "streamSettings" (JObject streamSettings)
  (jinsert "tag" (JString tag) (jinsert "settings" (JObject settings)
  (jinsert "protocol" (JString protocol) (jinsert "sendThrough" (JString "0.0.0.0") []))))).

Definition root_config (outbound : QJsonObject) : QJsonObject :=
  jinsert "inbounds" (JArray [JObject GenerateInboundEntry])
  (jinsert "outbounds" (JArray [JObject outbound]) []).

(** ** Links *)
Section Links.
Context `{Url}.

Definition query_or (u key d : string) : string :=
  if hasQueryItem u key then queryItemValue u key else d.
Definition query_path (u key d : string) : string :=
  if hasQueryItem u key then fromPercentEncoding (queryItemValue u key) else d.
Definition set_if (b : bool) (v : QJsonValue) (path : list PathNode) (o : QJsonObject) : QJsonObject :=
  if b then SetValue o v path else o.
Definition set_str (b : bool) (s : string) (path : list PathNode) (o : QJsonObject) : QJsonObject :=
  set_if b (JString s) path o.

Definition strings_array (l : list string) : QJsonValue := JArray (map JString l).
Definition differs (a b : string) : bool := negb (String.eqb a b).

(** The settings by the type of the transport, which [vless] and [trojan]
    share word for word. *)
Definition stream_of_type (u : string) (stream : QJsonObject) : QJsonObject :=
  let type := query_or u "type" "tcp" in
  let stream := set_str (differs type "tcp") type [PKey "network"] stream in
  let path := query_path u "path" "/" in
  let headerType := query_or u "headerType" "none" in
  if String.eqb type "kcp" then
    let stream := set_str (hasQueryItem u "seed") (queryItemValue u "seed")
                    [PKey "kcpSettings"; PKey "seed"] stream in
    set_str (differs headerType "none") headerType
      [PKey "kcpSettings"; PKey "header"; PKey "type"] stream
  else if String.eqb type "http" then
    let stream := set_str (differs path "/") path [PKey "httpSettings"; PKey "path"] stream in
    set_if (hasQueryItem u "host") (strings_array (split "," (queryItemValue u "host")))
      [PKey "httpSettings"; PKey "host"] stream
  else if String.eqb type "ws" then
    let stream := set_str (differs path "/") path [PKey "wsSettings"; PKey "path"] stream in
    set_str (hasQueryItem u "host") (queryItemValue u "host")
      [PKey "wsSettings"; PKey "headers"; PKey "Host"] stream
  else if String.eqb type "quic" then
    if hasQueryItem u "quicSecurity" then
      let quicSecurity := queryItemValue u "quicSecurity" in
      let stream := SetValue stream (JString quicSecurity) [PKey "quicSettings"; PKey "security"] in
      let stream := set_str (differs quicSecurity "none") (queryItemValue u "key")
                      [PKey "quicSettings"; PKey "key"] stream in
      set_str (differs headerType "none") headerType
        [PKey "quicSettings"; PKey "header"; PKey "type"] stream
    else stream
  else if String.eqb type "grpc" then
    let stream := set_str (hasQueryItem u "serviceName") (query_path u "serviceName" "")
                    [PKey "grpcSettings"; PKey "serviceName"] stream in
    set_if (hasQueryItem u "mode") (JBool (String.eqb (query_path u "mode" "") "multi"))
      [PKey "grpcSettings"; PKey "multiMode"] stream
  else stream.

Definition link_security (u : string) : string := query_or u "security" "none".

Definition tls_key (security : string) : string :=
  if String.eqb security "xtls" then "xtlsSettings"
  else if String.eqb security "tls" then "tlsSettings" else "realitySettings".

Definition reality_items : list (string * string) :=
  [("fp", "fingerprint"); ("pbk", "publicKey"); ("spiderX", "spiderX"); ("sid", "shortId")].

(** The security settings but for the flow. *)
Definition stream_of_security (u : string) (stream : QJsonObject) : QJsonObject :=
  let security := link_security u in
  let tlsKey := tls_key security in
  let stream := set_str (differs security "none") security [PKey "security"] stream in
  let stream := set_str (hasQueryItem u "sni") (queryItemValue u "sni")
                  [PKey tlsKey; PKey "serverName"] stream in
  let alpn := List.filter (λ e, differs e "h2") (split "," (query_path u "alpn" "")) in
  let stream :=
    set_if (hasQueryItem u "alpn" && match alpn with [] => false | _ => true end)
      (strings_array alpn) [PKey tlsKey; PKey "alpn"] stream in
  if String.eqb security "reality" then
    foldl (λ stream item, set_str (hasQueryItem u item.1) (query_path u item.1 "")
                            [PKey "realitySettings"; PKey item.2] stream) stream reality_items
  else stream.

Definition user_path (k : string) : list PathNode :=
  [PKey "settings"; PKey "vnext"; PIdx 0; PKey "users"; PIdx 0; PKey k].

(** The outbound of a link, the flow included. *)
Definition vless_outbound (str host : string) : QJsonObject :=
  let outbound := jinsert "protocol" (JString "vless") [] in
  let outbound := SetValue outbound (JString host)
                    [PKey "settings"; PKey "vnext"; PIdx 0; PKey "address"] in
  let outbound := SetValue outbound (JInt (url_port str))
                    [PKey "settings"; PKey "vnext"; PIdx 0; PKey "port"] in
  let outbound := SetValue outbound (JString (url_userInfo str)) (user_path "id") in
  let outbound := SetValue outbound (JString (query_or str "encryption" "none"))
                    (user_path "encryption") in
  set_str (String.eqb (link_security str) "xtls" || String.eqb (link_security str) "reality")
    (queryItemValue str "flow") (user_path "flow") outbound.

Definition vless_host (str : string) : string :=
  let hostRaw := url_host str in
  if startsWith hostRaw "[" && endsWith hostRaw "]"
  then mid_len 1 (slen hostRaw - 2) hostRaw else hostRaw.

(** The configuration, empty after an error, and the alias. *)
Definition vless_Deserialize (str alias : string) : QJsonObject * string :=
  if negb (startsWith str "vless://") then ([], alias)
  else if negb (url_valid str) then ([], alias)
  else if String.eqb (url_host str) "" then ([], alias)
  else if url_port str =? -1 then ([], alias)
  else
    let remarks := url_fragment str in
    let alias := if String.eqb remarks "" then alias else remarks in
    if String.eqb (url_userInfo str) "" then ([], alias)
    else
      let stream := stream_of_security str (stream_of_type str []) in
      (root_config (jinsert "streamSettings" (JObject stream) (vless_outbound str (vless_host str))),
       alias).

(** The parameters for insecure connections, the session ticket and the server
    name are parsed into an object that the result does not use. *)
Definition trojan_Deserialize (trojanUri alias : string) : QJsonObject * string :=
  if negb (startsWith trojanUri "trojan://") then ([], alias)
  else
    let u := trimmed trojanUri in
    let result := mkServerObject (url_host u) (url_port u) ""
                    (fromPercentEncoding (url_userInfo u)) in
    let stream := stream_of_security u (stream_of_type u []) in
    let outbound := GenerateOutboundEntry "PROXY" "trojan" (GenerateTrojanOUT [result]) [] in
    (root_config (jinsert "streamSettings" (JObject stream) outbound), url_fragment_decoded u).

Definition SafeBase64Decode (s : string) : string :=
  fromBase64 (replace_all "_" "/" (replace_all "-" "+" s)).

(** Positions behind -1 take the whole text. *)
Definition left_of (pos : Z) (s : string) : string :=
  if pos <? 0 then s else left_chars pos s.

Definition ss_old (uri : string) : ServerObject :=
  let decoded := fromBase64 uri in
  let colonPos := indexOf decoded ":" in
  let method := left_of colonPos decoded in
  let decoded := mid (colonPos + 1) decoded in
  let atPos := lastIndexOf decoded "@" in
  let password := left_of atPos decoded in
  let decoded := mid (atPos + 1) decoded in
  let colonPos := lastIndexOf decoded ":" in
  mkServerObject (left_of colonPos decoded) (toInt (mid (colonPos + 1) decoded)) method password.

Definition ss_sip002 (uri : string) : option ServerObject :=
  let x := fromUserInput uri in
  let userInfo := SafeBase64Decode (url_userName x) in
  let userInfoSp := indexOf userInfo ":" in
  if userInfoSp <? 0 then None
  else Some (mkServerObject (url_host x) (url_port x) (left_of userInfoSp userInfo)
               (mid (userInfoSp + 1) userInfo)).

Definition shadowsocks_root (server : ServerObject) : QJsonObject :=
  root_config (GenerateOutboundEntry "PROXY" "shadowsocks" (GenerateShadowSocksOUT [server]) []).

Definition ss_Deserialize (ssUri alias : string) : QJsonObject * string :=
  let uri := mid 5 ssUri in
  let hashPos := lastIndexOf uri "#" in
  let d_name := if 0 <=? hashPos then mid (hashPos + 1) uri else "" in
  let uri := if 0 <=? hashPos then left_chars hashPos uri else uri in
  match (if indexOf uri "@" <? 0 then Some (ss_old uri) else ss_sip002 uri) with
  | None => ([], alias)
  | Some server =>
      let d_name := fromPercentEncoding d_name in
      (shadowsocks_root server,
       if String.eqb alias "" then d_name else alias +:+ "_" +:+ d_name)
  end.

(** *** Lists of servers

    [double_text] is how [QString::arg] prints a number. The name is the one of
    groups and nodes without place markers of their own. *)
Context `{JsonDocument} (double_text : Q -> string).

Definition json_toIntOr (d : Z) (v : QJsonValue) : Z :=
  match v with
  | JDouble q =>
      let n := double_to_int q in
      if Qeq_bool q (inject_Z n) && (- 2 ^ 31 <=? n) && (n <? 2 ^ 31) then n else d
  | _ => d
  end.

Definition exists_field (k : string) (o : QJsonObject) : bool :=
  negb (isUndefined (value k o)) && negb (isNullValue (value k o)).
Definition valid_port (n : Z) : bool := (0 <=? n) && (n <=? 65535).

Definition ssd_server (groupName : string) (port : Z) (encryption password : string)
    (server : QJsonValue) : option (string * QJsonObject) :=
  match server with
  | JObject serverObject =>
      match value "server" serverObject with
      | JString serverAddress =>
          let currPort := json_toIntOr (-1) (value "port" serverObject) in
          let port := if valid_port currPort then currPort else port in
          let nodeName := match value "remarks" serverObject with
                          | JString s => s
                          | _ => serverAddress +:+ ":" +:+ number port
                          end in
          let currRatio := match value "ratio" serverObject with JDouble q => q | _ => (-1)%Q end in
          let ratio := if Qeq_bool currRatio (-1)%Q then 1%Q else currRatio in
          Some (groupName +:+ " - " +:+ nodeName +:+ " (rate " +:+ double_text ratio +:+ ")",
                shadowsocks_root (mkServerObject serverAddress port encryption password))
      | _ => None
      end
  | _ => None
  end.

(** The servers with their names, and the name of the group. *)
Definition ssd_Deserialize (uri groupName : string) : list (string * QJsonObject) * string :=
  if negb (startsWith uri "ssd://") then ([], groupName) else
  let decodedJSON := SafeBase64Decode (mid 6 uri) in
  if String.eqb decodedJSON "" then ([], groupName) else
  if isUndefined (fromJsonDoc decodedJSON) then ([], groupName) else
  let obj := toObject (fromJsonDoc (trimmed decodedJSON)) in
  if negb (isString (value "airport" obj)) then ([], groupName) else
  let groupName := toString (value "airport" obj) in
  if negb (exists_field "port" obj && valid_port (json_toIntOr (-1) (value "port" obj)))
  then ([], groupName) else
  let encryption := toString (value "encryption" obj) in
  if negb (isString (value "encryption" obj)) || String.eqb (toLower encryption) "rc4-md5" ||
     negb (isString (value "password" obj)) || negb (isArray (value "servers" obj))
  then ([], groupName)
  else
    (omap (ssd_server groupName (json_toIntOr 0 (value "port" obj)) encryption
             (toString (value "password" obj))) (toArray (value "servers" obj)), groupName).
End Links.

(** ** Lemmas *)
Lemma array_set_same i v l : array_set i v l !! i = Some v.
Proof.
  unfold array_set. rewrite list_lookup_insert_eq; [done|].
  rewrite length_app, length_replicate. lia.
Qed.

Lemma get_set_same path node v : GetValue (set_path node path v) path = v.
Proof.
  revert node. induction path as [|[k|i] path IH]; intros node; [done| |]; cbn [set_path GetValue].
  - cbn [toObject]. by rewrite value_insert_eq.
  - cbn [toArray]. rewrite array_set_same. apply IH.
Qed.

(** Paths that part at a key. *)
Fixpoint parted (p q : list PathNode) : bool :=
  match p, q with
  | PKey a :: p', PKey b :: q' => if String.eqb a b then parted p' q' else true
  | PIdx a :: p', PIdx b :: q' => Nat.eqb a b && parted p' q'
  | _, _ => false
  end.

Lemma get_set_parted p q node v :
  parted p q = true -> GetValue (set_path node p v) q = GetValue node q.
Proof.
  revert q node. induction p as [|[a|a] p IH]; intros [|[b|b] q] node; try done;
    cbn [parted set_path GetValue].
  - cbn [toObject]. destruct (String.eqb_spec a b) as [->|Hne]; [|by rewrite value_insert_ne].
    rewrite value_insert_eq. apply IH.
  - intros [E%Nat.eqb_eq Hp]%andb_true_iff. subst b. cbn [toArray]. rewrite array_set_same. by apply IH.
Qed.

Lemma set_value_object o v k path : JObject (SetValue o v (PKey k :: path)) = set_path (JObject o) (PKey k :: path) v.
Proof. reflexivity. Qed.

Lemma get_SetValue_same o v k path : GetValue (JObject (SetValue o v (PKey k :: path))) (PKey k :: path) = v.
Proof. apply (get_set_same (PKey k :: path) (JObject o)). Qed.

Lemma get_SetValue_parted o v k path q :
  parted (PKey k :: path) q = true ->
  GetValue (JObject (SetValue o v (PKey k :: path))) q = GetValue (JObject o) q.
Proof. apply (get_set_parted (PKey k :: path) q (JObject o)). Qed.

Lemma get_set_str_parted b o x k path q :
  parted (PKey k :: path) q = true ->
  GetValue (JObject (set_str b x (PKey k :: path) o)) q = GetValue (JObject o) q.
Proof. intros Hp. destruct b; [|done]. by apply get_SetValue_parted. Qed.
