(* ===== verification/ImportController.v ===== *)
(** * Import of configurations

    Model of [ImportController] (client/ui/controllers/importController.cpp): a
    text, a link or QR codes are recognised, turned into the configuration of a
    server and added to the servers. The links of vmess are decoded by code
    that is an argument here. *)
From Stdlib Require Import ZArith QArith Lia Ascii String.
From stdpp Require Import base list strings.
From S2P Require Import Prelude QtString QtContainers Variant Protocols Containers SecureSettings Settings.
From S2P Require Import HostAddress IpAddress NetworkUtilities JsonText ServersModel ServerController.
From S2P Require Import Regex Serialization ServerController WireguardConfigurator Configurators ContainersModel.
Local Open Scope string_scope.

Module ConfigTypes.
Inductive t := Amnezia | OpenVpn | WireGuard | Awg | Xray | ShadowSocks | Backup | Invalid.
End ConfigTypes.

(** ** Recognition *)
Definition checkConfigFormat (config : string) : ConfigTypes.t :=
  let has := contains_str config in
  if has "Servers/serversList" then ConfigTypes.Backup
  else if has "containers" || has "api_key" || (has "hostName" && has "userName" && has "password")
  then ConfigTypes.Amnezia
  else if has "client" && (has "proto tcp" || has "proto udp") && (has "dev tun" || has "dev tap")
  then ConfigTypes.OpenVpn
  else if has "[Interface]" && has "[Peer]" then ConfigTypes.WireGuard
  else if has "inbounds" && has "outbounds" then ConfigTypes.Xray
  else ConfigTypes.Invalid.

(** ** State *)
Inductive ImportSignal :=
| importFinished
| importErrorText (errorMessage : string) (goToPageHome : bool)
| importErrorCode (errorCode : ErrorCode.t) (goToPageHome : bool)
| qrDecodingFinished
| restoreAppConfig (data : string)
| qrReaderStarted.

Record ImportController := mkImport {
  m_config : QJsonObject;
  m_configFileName : string;
  m_configType : ConfigTypes.t;
  m_maliciousWarningText : string;
  m_qrCodeChunks : list (Z * string);
  m_isQrCodeProcessed : bool;
  m_totalQrCodeChunksCount : Z;
  m_receivedQrCodeChunksCount : Z;
  import_signals : list ImportSignal
}.

Definition with_config (o : QJsonObject) (c : ImportController) : ImportController :=
  mkImport o (m_configFileName c) (m_configType c) (m_maliciousWarningText c) (m_qrCodeChunks c)
    (m_isQrCodeProcessed c) (m_totalQrCodeChunksCount c) (m_receivedQrCodeChunksCount c)
    (import_signals c).
Definition with_type (t : ConfigTypes.t) (c : ImportController) : ImportController :=
  mkImport (m_config c) (m_configFileName c) t (m_maliciousWarningText c) (m_qrCodeChunks c)
    (m_isQrCodeProcessed c) (m_totalQrCodeChunksCount c) (m_receivedQrCodeChunksCount c)
    (import_signals c).
Definition with_warning (s : string) (c : ImportController) : ImportController :=
  mkImport (m_config c) (m_configFileName c) (m_configType c) s (m_qrCodeChunks c)
    (m_isQrCodeProcessed c) (m_totalQrCodeChunksCount c) (m_receivedQrCodeChunksCount c)
    (import_signals c).
Definition with_file_name (s : string) (c : ImportController) : ImportController :=
  mkImport (m_config c) s (m_configType c) (m_maliciousWarningText c) (m_qrCodeChunks c)
    (m_isQrCodeProcessed c) (m_totalQrCodeChunksCount c) (m_receivedQrCodeChunksCount c)
    (import_signals c).
Definition with_signal (e : ImportSignal) (c : ImportController) : ImportController :=
  mkImport (m_config c) (m_configFileName c) (m_configType c) (m_maliciousWarningText c)
    (m_qrCodeChunks c) (m_isQrCodeProcessed c) (m_totalQrCodeChunksCount c)
    (m_receivedQrCodeChunksCount c) (app (import_signals c) [e]).
(** The chunks, their announced number and how many were received. *)
Definition with_chunks (chunks : list (Z * string)) (total received : Z) (c : ImportController) :
    ImportController :=
  mkImport (m_config c) (m_configFileName c) (m_configType c) (m_maliciousWarningText c) chunks
    (m_isQrCodeProcessed c) total received (import_signals c).
Definition with_processing (b : bool) (c : ImportController) : ImportController :=
  mkImport (m_config c) (m_configFileName c) (m_configType c) (m_maliciousWarningText c)
    (m_qrCodeChunks c) b (m_totalQrCodeChunksCount c) (m_receivedQrCodeChunksCount c)
    (import_signals c).

(** ** Expressions *)
Definition octet_rx : Rx := Seq (Chr digit_class) (Upto digit_class 2).
Definition ip_rx : Rx :=
  let dotted r := Seq octet_rx (Seq (Lit ".") r) in
  Seq Boundary (Seq (dotted (dotted (dotted octet_rx))) Boundary).

Definition remote_rx : Rx :=
  Seq (Lit "remote ") (Seq (Group (Star dot)) (Seq (Lit " ") (Star digit_class))).
Definition dhcp_dns_rx : Rx := Seq (Lit "dhcp-option DNS ") (Group ip_rx).
Definition wg_dns_rx : Rx := Seq (Lit "DNS = ") (Seq (Group ip_rx) (Seq (Star dot) (Group ip_rx))).
Definition address_rx : Rx :=
  Seq (Lit (dq +:+ "address" +:+ dq +:+ ":")) (Seq (Star is_space) (Seq (Lit dq)
    (Group (Plus (λ c, negb (Ascii.eqb c "034")))))).
Definition tag_rx : Rx :=
  Group (Alt (Seq (Plus word_class) (Seq (Lit "-") (Plus word_class))) (Plus word_class)).

Definition captured_or_empty (n : nat) (m : option Match) : string :=
  match m with Some m => captured n m | None => "" end.

(** ** Dangerous lines of OpenVPN *)
Definition dangerousTags : list string :=
  [ "up"; "tls-verify"; "ipchange"; "client-connect"; "route-up"; "route-pre-down";
    "client-disconnect"; "down"; "learn-address"; "auth-user-pass-verify" ].

Definition flagged (l : string) : bool :=
  existsb (String.eqb (captured_or_empty 0 (search tag_rx l))) dangerousTags.

Definition maliciousStrings (config : string) : list string :=
  List.filter flagged (split nl (replace_all cr "" config)).

Definition warning_text (lines : list string) : string :=
  foldl (λ t s, t +:+ "<br><i>" +:+ s +:+ "</i>")
    "In the imported configuration, potentially dangerous lines were found:" lines.

Definition runs_openvpn (containerName : string) : bool :=
  String.eqb containerName (containerToString DockerContainer.OpenVpn) ||
  String.eqb containerName (containerToString DockerContainer.Cloak) ||
  String.eqb containerName (containerToString DockerContainer.ShadowSocks).

Section Importing.
Context {S : Type} `{KeyValueStore S} `{JsonDocument} `{JsonText} `{AddressParser} `{Url}.
(** [QByteArray::fromBase64] with [Base64UrlEncoding], [qUncompress], which is
    empty for other data, and [qChecksum]. *)
Context (fromBase64Url qUncompress : string -> string) (qChecksum : string -> Z).
(** The two deserializers of vmess links, and how a number is printed. *)
Context (vmess_new_Deserialize vmess_Deserialize : string -> string -> QJsonObject * string).
Context (double_text : Q -> string) (platform : Platform) (tr_Server : string).

Record Import := mkImporting { importer : ImportController; servers : ServersModel S }.
Abbreviation ImportM A := (Run Import A).

Definition asks {A} (f : ImportController -> A) : ImportM A := rlift (gets (λ s, f (importer s))).
Definition alter (f : ImportController -> ImportController) : ImportM unit := λ s,
  Ret (tt, mkImporting (f (importer s)) (servers s)).
Definition on_model {A} (m : Run (ServersModel S) A) : ImportM A := λ s,
  match m (servers s) with
  | Ret (a, sv) => Ret (a, mkImporting (importer s) sv)
  | Abort => Abort
  | OutOfFuel => OutOfFuel
  end.
Definition signal (e : ImportSignal) : ImportM unit := alter (with_signal e).

(** The name is found within one try more than there are servers. *)
Definition next_server_name : ImportM string :=
  on_model (ServersModel.on_settings
    (let! l := serversArray in nextAvailableServerName (Datatypes.S (length l)) tr_Server)).

(** ** Extraction *)
Definition extractOpenVpnConfig (data : string) : ImportM QJsonObject :=
  let openVpnConfig := jinsert "config" (JString data) [] in
  let lastConfig := jinsert "isThirdPartyConfig" (JBool true)
                    (jinsert "last_config" (JString (toJson (JObject openVpnConfig))) []) in
  let containers := jinsert "openvpn" (JObject lastConfig)
                    (jinsert "container" (JString "amnezia-openvpn") []) in
  let hostName := captured_or_empty 1 (search remote_rx data) in
  let! name := next_server_name in
  let config := jinsert "description" (JString name)
                (jinsert "defaultContainer" (JString "amnezia-openvpn")
                (jinsert "containers" (JArray [JObject containers]) [])) in
  let dns := globalMatch dhcp_dns_rx data in
  let config := match dns with m :: _ => jinsert "dns1" (JString (captured 1 m)) config | _ => config end in
  let config := match dns with
                | _ :: m :: _ => jinsert "dns2" (JString (captured 1 m)) config
                | _ => config
                end in
  rret (jinsert "hostName" (JString hostName) config).

Definition nonempty_or (k : string) (s : string) (o : QJsonObject) : QJsonObject :=
  if String.eqb s "" then o else jinsert k (JString s) o.

(** The configuration of the client in a native text with its endpoint. *)
Definition native_config (data host : string) (port : Z) (m : list (string * string)) : QJsonObject :=
  let get k := map_value k m in
  let lastConfig := jinsert "port" (JInt port) (jinsert "hostName" (JString host)
                    (jinsert "config" (JString data) [])) in
  let lastConfig := jinsert "client_ip" (JString (get "Address"))
                    (jinsert "client_priv_key" (JString (get "PrivateKey")) lastConfig) in
  let lastConfig := nonempty_or "psk_key"
    (if String.eqb (get "PresharedKey") "" then get "PreSharedKey" else get "PresharedKey") lastConfig in
  let lastConfig := jinsert "server_pub_key" (JString (get "PublicKey")) lastConfig in
  let lastConfig := nonempty_or "mtu" (get "MTU") lastConfig in
  let lastConfig := nonempty_or "persistent_keep_alive" (get "PersistentKeepalive") lastConfig in
  jinsert "allowed_ips" (JArray (map JString (split ", " (get "AllowedIPs")))) lastConfig.

Definition is_awg_map (m : list (string * string)) : bool :=
  forallb (λ k, negb (String.eqb (map_value k m) "")) junk_keys.

(** The junk parameters and the MTU are added last. *)
Definition native_last_config (data host : string) (port : Z) (m : list (string * string)) :
    QJsonObject :=
  let lastConfig := native_config data host port m in
  let lastConfig :=
    if is_awg_map m
    then foldl (λ o k, jinsert k (JString (map_value k m)) o) lastConfig junk_keys
    else lastConfig in
  jinsert "mtu" (JString (if String.eqb (map_value "MTU" m) "" then defaultMtu platform
                          else map_value "MTU" m)) lastConfig.

(** The default port is used where the endpoint has none. *)
Definition native_port (url : string) : string :=
  if (url_port url =? -1)%Z then "51820" else number (url_port url).

Definition native_protocol (m : list (string * string)) : string :=
  if is_awg_map m then "awg" else "wireguard".

(** The container of the text, and the server with its name. *)
Definition native_container (data hostName port : string) (m : list (string * string)) : QJsonObject :=
  let lastConfig := native_last_config data hostName (toInt port) m in
  let wireguardConfig := jinsert "transport_proto" (JString "udp") (jinsert "port" (JString port)
    (jinsert "isThirdPartyConfig" (JBool true)
    (jinsert "last_config" (JString (toJson (JObject lastConfig))) []))) in
  jinsert (native_protocol m) (JObject wireguardConfig)
    (jinsert "container" (JString ("amnezia-" +:+ native_protocol m)) []).

Definition native_server (data hostName port : string) (m : list (string * string)) (name : string) :
    QJsonObject :=
  let config := jinsert "description" (JString name)
                (jinsert "defaultContainer" (JString ("amnezia-" +:+ native_protocol m))
                (jinsert "containers" (JArray [JObject (native_container data hostName port m)]) [])) in
  let config := match search wg_dns_rx data with
                | Some d => jinsert "dns2" (JString (captured 2 d))
                            (jinsert "dns1" (JString (captured 1 d)) config)
                | None => config
                end in
  jinsert "hostName" (JString hostName) config.

Definition extractWireGuardConfig (data : string) : ImportM QJsonObject :=
  let m := config_map data in
  let url := fromUserInput (map_value "Endpoint" m) in
  let hostName := url_host url in
  let port := native_port url in
  let invalid :=
    do! signal (importErrorCode ErrorCode.ImportInvalidConfigError false) in rret [] in
  if String.eqb hostName "" then invalid
  else if String.eqb (map_value "PrivateKey" m) "" || String.eqb (map_value "Address" m) "" ||
          String.eqb (map_value "PublicKey" m) "" then invalid
  else
    do! (if is_awg_map m then alter (with_type ConfigTypes.Awg) else rret tt) in
    let! name := next_server_name in
    rret (native_server data hostName port m name).

(** [toJson] of a document that holds nothing is empty. *)
Definition document_text (v : QJsonValue) : string := if isUndefined v then "" else toJson v.

Definition xray_name (t : ConfigTypes.t) : string :=
  match t with ConfigTypes.ShadowSocks => "ssxray" | _ => "xray" end.

Definition xray_container (name text : string) : QJsonObject :=
  let lastConfig := jinsert "isThirdPartyConfig" (JBool true)
                    (jinsert "last_config" (JString text) []) in
  jinsert "container" (JString ("amnezia-" +:+ name)) (jinsert name (JObject lastConfig) []).

Definition xray_server (name text hostName description : string) : QJsonObject :=
  jinsert "hostName" (JString hostName) (jinsert "description" (JString description)
  (jinsert "defaultContainer" (JString ("amnezia-" +:+ name))
  (jinsert "containers" (JArray [JObject (xray_container name text)]) []))).

Definition extractXrayConfig (data description : string) : ImportM QJsonObject :=
  let text := document_text (fromJsonDoc data) in
  let! type := asks m_configType in
  let hostName := captured_or_empty 1 (search address_rx data) in
  let! d := (if String.eqb description "" then next_server_name else rret description) in
  rret (xray_server (xray_name type) text hostName d).

(** The containers with the MTU set, and whether one was changed. The loop
    returns at the first such container without a configuration. *)
Fixpoint process_containers (l : list QJsonValue) : list QJsonValue * bool :=
  match l with
  | [] => ([], false)
  | v :: l' =>
      let container := toObject v in
      let dockerContainer := containerFromString (toString (value "container" container)) in
      if takes_mtu dockerContainer then
        let type := containerTypeToString dockerContainer in
        let containerConfig := toObject (value type container) in
        let protocolConfig := toString (value "last_config" containerConfig) in
        if String.eqb protocolConfig "" then (v :: l', false)
        else
          let jsonConfig := jinsert "mtu" (JString (defaultMtu platform))
                              (toObject (fromJsonDoc protocolConfig)) in
          let containerConfig := jinsert "last_config" (JString (toJson (JObject jsonConfig)))
                                   containerConfig in
          (JObject (jinsert type (JObject containerConfig) container) :: (process_containers l').1,
           true)
      else (v :: (process_containers l').1, (process_containers l').2)
  end.

Definition processAmneziaConfig (config : QJsonObject) : QJsonObject :=
  let '(containers, changed) := process_containers (toArray (value "containers" config)) in
  if changed then jinsert "containers" (JArray containers) config else config.

Definition check_container (v : QJsonValue) : ImportM unit :=
  let containerConfig := toObject v in
  if runs_openvpn (toString (value "container" containerConfig)) then
    let protocolConfig := toString (value "last_config"
      (toObject (value (protoToString Proto.OpenVpn) containerConfig))) in
    let protocolConfigJson := toString (value "config" (toObject (fromJsonDoc protocolConfig))) in
    let lines := maliciousStrings protocolConfigJson in
    if (3 <=? length lines)%nat then alter (with_warning (warning_text lines)) else rret tt
  else rret tt.

Definition checkForMaliciousStrings (serverConfig : QJsonObject) : ImportM unit :=
  run_each (toArray (value "containers" serverConfig)) check_container.

(** ** Reading a configuration *)

(** [m_config.empty() ? false : true] *)
Definition have_config : ImportM bool :=
  let! o := asks m_config in rret (match o with [] => false | _ => true end).

Definition import_link (t : ConfigTypes.t) (link : QJsonObject * string) : ImportM bool :=
  do! alter (with_type t) in
  let! o := extractXrayConfig (compact link.1) link.2 in
  do! alter (with_config o) in
  have_config.

(** The branches on the type of the text. *)
Definition extract_typed (config : string) : ImportM bool :=
  let! type := asks m_configType in
  match type with
  | ConfigTypes.OpenVpn =>
      let! o := extractOpenVpnConfig config in
      do! alter (with_config o) in
      let! ok := have_config in
      if (ok : bool) then do! checkForMaliciousStrings o in rret true else rret false
  | ConfigTypes.Awg | ConfigTypes.WireGuard =>
      let! o := extractWireGuardConfig config in
      do! alter (with_config o) in have_config
  | ConfigTypes.Xray =>
      let! o := extractXrayConfig config "" in
      do! alter (with_config o) in have_config
  | ConfigTypes.Amnezia =>
      let o := processAmneziaConfig (toObject (fromJsonDoc config)) in
      do! alter (with_config o) in
      let! ok := have_config in
      if (ok : bool) then do! checkForMaliciousStrings o in rret true else rret false
  | ConfigTypes.Backup =>
      let! n := on_model (read getServersCount) in
      do! (if (n =? 0)%Z then signal (restoreAppConfig config)
           else signal (importErrorText "Invalid configuration file" false)) in
      rret false
  | ConfigTypes.Invalid =>
      do! signal (importErrorText "Invalid configuration file" false) in rret false
  | ConfigTypes.ShadowSocks => rret false
  end.

(** The text behind [vpn://], uncompressed where it is compressed. *)
Definition decoded_text (data : string) : string :=
  let ba := fromBase64Url (replace_all "vpn://" "" data) in
  let u := qUncompress ba in
  if String.eqb u "" then ba else u.

Definition extractConfigFromData (data : string) : ImportM bool :=
  if startsWith data "vless://" then import_link ConfigTypes.Xray (vless_Deserialize data "")
  else if startsWith data "vmess://" && contains_str data "@"
  then import_link ConfigTypes.Xray (vmess_new_Deserialize data "")
  else if startsWith data "vmess://" then import_link ConfigTypes.Xray (vmess_Deserialize data "")
  else if startsWith data "trojan://" then import_link ConfigTypes.Xray (trojan_Deserialize data "")
  else if startsWith data "ss://" && negb (contains_str data "plugin=")
  then import_link ConfigTypes.ShadowSocks (ss_Deserialize data "")
  else if startsWith data "ssd://" then
    do! alter (with_type ConfigTypes.ShadowSocks) in
    do! (match (ssd_Deserialize double_text data "").1 with
         | [] => rret tt
         | server :: _ => let! o := extractXrayConfig server.1 "" in alter (with_config o)
         end) in
    have_config
  else
    match checkConfigFormat data with
    | ConfigTypes.Invalid =>
        let config := decoded_text data in
        do! alter (with_type (checkConfigFormat config)) in
        extract_typed config
    | t => do! alter (with_type t) in extract_typed data
    end.

(** [fileName] is the last part of the path and [contents] what the file holds,
    when it can be opened. *)
Definition extractConfigFromFile (fileName : string) (contents : option string) : ImportM bool :=
  match contents with
  | Some data => do! alter (with_file_name fileName) in extractConfigFromData data
  | None => do! signal (importErrorText "Unable to open file" false) in rret false
  end.

Definition extractConfigFromQr (data : string) : ImportM bool :=
  match toObject (fromJsonDoc data) with
  | [] =>
      let u := qUncompress data in
      if String.eqb u "" then rret false
      else do! alter (with_config (toObject (fromJsonDoc u))) in rret true
  | dataObj => do! alter (with_config dataObj) in rret true
  end.

(** ** Native WireGuard configurations *)
Definition isNativeWireGuardConfig (c : ImportController) : bool :=
  match m_configType c with ConfigTypes.WireGuard => true | _ => false end.

(** [junkPacketCount] is drawn between 2 and 4. *)
Definition obfuscation (junkPacketCount : Z) : list (string * QJsonValue) :=
  [ ("Jc", JString (number junkPacketCount)); ("Jmin", JString "10"); ("Jmax", JString "50");
    ("S1", JString "0"); ("S2", JString "0"); ("H1", JString "1"); ("H2", JString "2");
    ("H3", JString "3"); ("H4", JString "4"); ("isObfuscationEnabled", JBool true) ].

Definition processNativeWireGuardConfig (junkPacketCount : Z) : ImportM unit :=
  let! config := asks m_config in
  match toArray (value "containers" config) with
  | [] => rret tt
  | v :: rest =>
      let container := toObject v in
      let serverProtocolConfig :=
        toObject (value (containerTypeToString DockerContainer.WireGuard) container) in
      let clientProtocolConfig :=
        toObject (fromJsonDoc (toString (value "last_config" serverProtocolConfig))) in
      let clientProtocolConfig :=
        foldl (λ o kv, jinsert kv.1 kv.2 o) clientProtocolConfig (obfuscation junkPacketCount) in
      let serverProtocolConfig :=
        jinsert "last_config" (JString (toJson (JObject clientProtocolConfig))) serverProtocolConfig in
      let container := jinsert "wireguard" (JObject serverProtocolConfig) container in
      alter (with_config (jinsert "containers" (JArray (JObject container :: rest)) config))
  end.

(** ** Import *)
Definition credentials_of (o : QJsonObject) : ServerCredentials :=
  mkCredentials (toString (value "hostName" o)) (toString (value "userName" o))
    (toString (value "password" o)) (json_toInt (value "port" o)).

Definition credentials_isValid (c : ServerCredentials) : bool :=
  differs (hostName c) "" && differs (userName c) "" && differs (secretData c) "" &&
  (0 <? cred_port c)%Z.

Definition importConfig : ImportM unit :=
  let! config := asks m_config in
  do! (if credentials_isValid (credentials_of config) || contains_key "containers" config then
         do! on_model (model_addServer config) in
         signal importFinished
       else if contains_key "config_version" config then
         let crc := u16 (qChecksum (toJson (JObject config))) in
         let! exists_already := on_model (read (λ s, crc_exists s crc)) in
         if (exists_already : bool) then signal (importErrorCode ErrorCode.ApiConfigAlreadyAdded true)
         else
           let config := jinsert "crc" (JInt crc) config in
           do! alter (with_config config) in
           do! on_model (model_addServer config) in
           signal importFinished
       else signal (importErrorCode ErrorCode.ImportInvalidConfigError false)) in
  alter (λ c, with_warning "" (with_file_name "" (with_config [] c))).

(** ** QR codes

    The octets of a code: a mark, the number of chunks, the number of this
    chunk, and its data with its length. Reading behind the end gives zeros. *)
Definition octet_at (s : string) : Z :=
  match s with "" => 0%Z | String c _ => Z.of_N (N_of_ascii c) end.
Definition read_u16 (s : string) : Z * string :=
  if (String.length s <? 2)%nat then (0%Z, "")
  else ((octet_at s * 256 + octet_at (drop_chars 1 s))%Z, drop_chars 2 s).
Definition read_u8 (s : string) : Z * string := (octet_at s, drop_chars 1 s).
Definition read_u32 (s : string) : Z * string :=
  if (String.length s <? 4)%nat then (0%Z, "")
  else ((octet_at s * 2 ^ 24 + octet_at (drop_chars 1 s) * 2 ^ 16 + octet_at (drop_chars 2 s) * 2 ^ 8
         + octet_at (drop_chars 3 s))%Z, drop_chars 4 s).
Definition read_bytes (s : string) : string :=
  let '(len, s) := read_u32 s in
  if (len =? 4294967295)%Z then ""
  else if (slen s <? len)%Z then "" else take_chars (Z.to_nat len) s.

Definition qrMagicCode : Z := 1984.

Definition chunk (i : Z) (chunks : list (Z * string)) : string := default "" (qm_find i chunks).
Definition all_chunks (total : Z) (chunks : list (Z * string)) : string :=
  String.concat "" (map (λ i, chunk (Z.of_nat i) chunks) (seq 0 (Z.to_nat total))).

(** A configuration was found: the reader is stopped. *)
Definition qr_done : ImportM bool :=
  do! alter (with_processing false) in do! signal qrDecodingFinished in rret true.

Definition parse_octets (ba : string) : ImportM bool :=
  let '(magic, s) := read_u16 ba in
  if (magic =? qrMagicCode)%Z then
    let '(chunksCount, s) := read_u8 s in
    let! c := asks id in
    let chunks := if (m_totalQrCodeChunksCount c =? chunksCount)%Z then m_qrCodeChunks c else [] in
    let '(chunkId, s) := read_u8 s in
    let chunks := qm_insert chunkId (read_bytes s) chunks in
    do! alter (with_chunks chunks chunksCount (Z.of_nat (length chunks))) in
    if (Z.of_nat (length chunks) =? chunksCount)%Z then
      let! ok := extractConfigFromQr (all_chunks chunksCount chunks) in
      if (ok : bool) then qr_done
      else do! alter (with_chunks [] 0 0) in rret false
    else rret false
  else
    let! ok := extractConfigFromQr ba in
    if (ok : bool) then qr_done else rret false.

Definition parseQrCodeChunk (code : string) : ImportM bool :=
  let! processed := asks m_isQrCodeProcessed in
  if negb processed then rret false else parse_octets (fromBase64Url code).

(** Android's entry. *)
Definition decodeQrCode (code : string) : ImportM bool :=
  let! processed := asks m_isQrCodeProcessed in
  do! (if (processed : bool) then rret tt
       else alter (λ c, with_processing true (with_chunks [] 0 0 c))) in
  parseQrCodeChunk code.

Definition startDecodingQr : ImportM unit :=
  do! alter (with_chunks [] 0 0) in
  match platform with
  | IOS => alter (with_processing true)
  | _ => signal qrReaderStarted
  end.
End Importing.
Arguments Import : clear implicits.
Arguments mkImporting {S} _ _.
Arguments importer {S} _.
Arguments servers {S} _.
