(* ===== verification/ConnectionController.v ===== *)
(** * The connection as the user starts and ends it

    Model of [ConnectionController] (client/ui/controllers/connectionController.cpp)
    and [RegionsModel] (client/ui/models/regionsModel.cpp). Opening a connection
    clears the servers, asks the service for the connection string of the
    selected region, imports it as the only server and hands its configuration
    to the connection. *)
From Stdlib Require Import ZArith QArith Lia Ascii String.
From stdpp Require Import base list strings.
From S2P Require Import Prelude QtString QtContainers Variant Protocols Containers SecureSettings Settings.
From S2P Require Import HostAddress IpAddress NetworkUtilities JsonText ServersModel ServerController VpnProtocol.
From S2P Require Import VpnConnection Regex Serialization ServerController.
From S2P Require Import ClientManagement Configurators ContainersModel ImportController.
Local Open Scope string_scope.

(** ** Regions *)
Record RegionInfo := mkRegion { region_id : string; countryCode : string; countryName : string }.

Record RegionsModel := mkRegions {
  m_regions : list RegionInfo;
  m_selectedRegionId : string;
  selectedRegionChanged : nat          (* how often the signal was emitted *)
}.

Definition getSelectedRegionId (r : RegionsModel) : string :=
  match m_regions r with
  | x :: _ => if String.eqb (m_selectedRegionId r) "" then region_id x else m_selectedRegionId r
  | [] => m_selectedRegionId r
  end.

Fixpoint region_position (id : string) (l : list RegionInfo) (i : Z) : Z :=
  match l with
  | [] => 0
  | x :: l' => if String.eqb id (region_id x) then i else region_position id l' (i + 1)
  end%Z.
Definition getSelectedRegionIndex (r : RegionsModel) : Z :=
  region_position (getSelectedRegionId r) (m_regions r) 0.

(** A negative index is outside the list. The settings are not told. *)
Definition setSelectedRegionIndex (index : Z) (r : RegionsModel) : Outcome RegionsModel :=
  if (Z.of_nat (length (m_regions r)) <=? index)%Z then Ret r
  else if (index <? 0)%Z then Abort
  else match m_regions r !! Z.to_nat index with
       | Some x => Ret (mkRegions (m_regions r) (region_id x) (selectedRegionChanged r))
       | None => Abort
       end.

Definition getRegionInfo (id : string) (r : RegionsModel) : RegionInfo :=
  default (mkRegion "" "" "") (List.find (λ x, String.eqb (region_id x) id) (m_regions r)).

(** The regions and the selection are those of [AuthController]. *)
Definition regions_resetModel (regions : list RegionInfo) (selected : string) (r : RegionsModel) :
    RegionsModel := mkRegions regions selected (Datatypes.S (selectedRegionChanged r)).

(** ** State *)
Inductive ControllerEvent :=
| ctl_connectToVpn (serverIndex : Z) (credentials : ServerCredentials)
    (container : DockerContainer.t) (vpnConfiguration : QJsonObject)
| ctl_disconnectFromVpn
| ctl_stateChanged
| ctl_errorText (errorMessage : string)
| ctl_errorCode (errorCode : ErrorCode.t)
| ctl_lastError (errorCode : Z)
| ctl_reconnect (message : string)
| ctl_noInstalledContainers
| ctl_preparingConfig
(* the request of [AuthController] *)
| ctl_stringRequested (regionId : string).

Record Controller := mkController {
  m_state : Vpn.ConnectionState;
  m_isConnected : bool;
  m_isConnectionInProgress : bool;
  m_connectionStateText : string;
  ctl_events : list ControllerEvent
}.

Record Client (S W : Type) := mkClient {
  controller : Controller;
  importing : Import S;
  containers : ContainersModel;
  clients : ClientManagement W
}.
Arguments mkClient {S W} _ _ _ _.
Arguments controller {S W} _.
Arguments importing {S W} _.
Arguments containers {S W} _.
Arguments clients {S W} _.

Definition Controller_new : Controller := mkController Vpn.Disconnected false false "Connect" [].

(** The containers follow the signals of the servers. *)
Definition deliver (new : list ModelSignal) (c : ContainersModel) : ContainersModel :=
  foldl (λ c e, match e with containersUpdated l => containers_updateModel l c | _ => c end) c new.

Definition ctl_note (e : ControllerEvent) (c : Controller) : Controller :=
  mkController (m_state c) (m_isConnected c) (m_isConnectionInProgress c) (m_connectionStateText c)
    (app (ctl_events c) [e]).

(** ** States *)
Definition state_text (state : Vpn.ConnectionState) : string :=
  match state with
  | Vpn.Connected => "Connected"
  | Vpn.Connecting => "Connecting..."
  | Vpn.Reconnecting => "Reconnecting..."
  | Vpn.Disconnecting => "Disconnecting..."
  | Vpn.Preparing => "Preparing..."
  | Vpn.Disconnected | Vpn.Error | Vpn.Unknown => "Connect"
  end.
Definition state_in_progress (state : Vpn.ConnectionState) : bool :=
  match state with
  | Vpn.Connecting | Vpn.Reconnecting | Vpn.Disconnecting | Vpn.Preparing => true
  | _ => false
  end.

Definition ctl_state (state : Vpn.ConnectionState) (c : Controller) : Controller :=
  mkController state (bool_decide (state = Vpn.Connected)) (state_in_progress state)
    (state_text state) (ctl_events c).

(** [emit connectionErrorOccurred]: the slot of the application shows the error and
    announces the state [Disconnected], so that the controller is disconnected
    before the emission returns. *)
Definition ctl_error (e : ControllerEvent) (c : Controller) : Controller :=
  ctl_note ctl_stateChanged (ctl_state Vpn.Disconnected (ctl_note e c)).

(** [lastError] is that of the connection. *)
Definition ctl_onConnectionStateChanged (lastError : Z) (state : Vpn.ConnectionState)
    (getLastError : bool) (c : Controller) : Controller :=
  let c := ctl_state state c in
  let c := match state with
           | Vpn.Error | Vpn.Unknown => if getLastError then ctl_error (ctl_lastError lastError) c else c
           | _ => c
           end in
  ctl_note ctl_stateChanged c.

Definition onTranslationsUpdated (lastError : Z) (c : Controller) : Controller :=
  ctl_onConnectionStateChanged lastError (m_state c) true c.

(** ** The client *)
Section Client.
Context {S W : Type} `{KeyValueStore S} `{JsonDocument} `{JsonText} `{AddressParser} `{Url}.
Context (access : ServerCredentials -> ServerAccess W).
Context (fromBase64Url qUncompress : string -> string) (qChecksum : string -> Z).
Context (vmess_new_Deserialize vmess_Deserialize : string -> string -> QJsonObject * string).
Context (double_text : Q -> string) (platform : Platform) (tr_Server : string).
Context (template : ProtocolScriptType -> DockerContainer.t -> string) (toBase64 : string -> string).
(** What is drawn for a new client, the name of the system, the time, and the
    directory of the resources. *)
Context (fresh : Fresh) (productName now resources : string).
(** The connection, whose state and last error are read. *)
Context (conn : VpnConnection S).

Abbreviation ClientM A := (Run (Client S W) A).

Definition see {A} (f : Client S W -> A) : ClientM A := rlift (gets f).
Definition on_controller (f : Controller -> Controller) : ClientM unit := λ c,
  Ret (tt, mkClient (f (controller c)) (importing c) (containers c) (clients c)).
Definition ctl_emit (e : ControllerEvent) : ClientM unit := on_controller (ctl_note e).
Definition connectionErrorOccurred (e : ControllerEvent) : ClientM unit := on_controller (ctl_error e).

(** The new signals of the servers reach the containers at once. *)
Definition on_importing {A} (m : Run (Import S) A) : ClientM A := λ c,
  match m (importing c) with
  | Ret (a, i) =>
      let new := drop (length (signals (servers (importing c)))) (signals (servers i)) in
      Ret (a, mkClient (controller c) i (deliver new (containers c)) (clients c))
  | Abort => Abort
  | OutOfFuel => OutOfFuel
  end.
Definition on_servers {A} (m : Run (ServersModel S) A) : ClientM A := on_importing (on_model m).

Definition on_clients {A} (m : Run (ClientManagement W) A) : ClientM A := λ c,
  match m (clients c) with
  | Ret (a, k) => Ret (a, mkClient (controller c) (importing c) (containers c) k)
  | Abort => Abort
  | OutOfFuel => OutOfFuel
  end.
Definition on_world {A} (m : Run W A) : ClientM A :=
  on_clients (λ k, match m (server_state k) with
                   | Ret (a, w) => Ret (a, mkClients (m_clientsTable k) w (adminConfigRevoked k))
                   | Abort => Abort
                   | OutOfFuel => OutOfFuel
                   end).

(** [emit m_vpnConnection->connectionStateChanged(state, getLastError)] *)
Definition announce (state : Vpn.ConnectionState) (getLastError : bool) : ClientM unit :=
  on_controller (ctl_onConnectionStateChanged (lastError conn) state getLastError).

Definition isProtocolConfigExists (containerConfig : QJsonObject) (container : DockerContainer.t) :
    bool :=
  forallb (λ protocol,
      differs (toString (value "last_config"
                (toObject (value (protoToString protocol) containerConfig)))) "")
    (protocolsForContainer container).

(** The work of the other thread, which the caller waits for. The result is
    the configuration and the error. *)
Definition updateProtocolConfig (container : DockerContainer.t) (credentials : ServerCredentials)
    (containerConfig : QJsonObject) : ClientM (QJsonObject * ErrorCode.t) :=
  if isProtocolConfigExists containerConfig container
  then rret (containerConfig, ErrorCode.NoError)
  else
    let server : ServerAccess W := access credentials in
    let! r := on_world (createProtocolConfigForContainer (hostName credentials) template toBase64
                          platform container fresh containerConfig) in
    let '(containerConfig, e) := r in
    if failed e then rret (containerConfig, e) else
    do! on_servers (updateContainerConfig container containerConfig) in
    let! e := on_clients (appendContainerClient now container containerConfig
                            ("Admin [" +:+ productName +:+ "]")) in
    rret (containerConfig, e).

Definition continueConnection : ClientM unit :=
  let! model := see (λ c, servers (importing c)) in
  let serverIndex := m_defaultServerIndex model in
  let serverConfig := model_server model serverIndex in
  if negb (role_bool (data model serverIndex HasInstalledContainers)) then
    do! ctl_emit ctl_noInstalledContainers in
    announce Vpn.Disconnected true
  else
    let container := role_container (data model serverIndex DefaultContainerRole) in
    let! cm := see containers in
    if negb (model_supported platform cm (container_row container)) then
      connectionErrorOccurred (ctl_errorText "The selected protocol is not supported on the current platform")
    else if bool_decide (container = DockerContainer.None) then
      connectionErrorOccurred (ctl_errorText
        ("VPN Protocols is not installed." +:+ nl +:+ " Please install VPN container at first"))
    else
      let containerConfig := getContainerConfig platform cm (container_row container) in
      let credentials := model_credentials model serverIndex in
      let! r := updateProtocolConfig container credentials containerConfig in
      let '(containerConfig, e) := r in
      if failed e then connectionErrorOccurred (ctl_errorCode e)
      else
        let! dns := on_servers (getDnsPair serverIndex) in
        let! vpnConfiguration := on_servers (ServersModel.on_settings
          (createVpnConfiguration platform resources dns serverConfig containerConfig container)) in
        ctl_emit (ctl_connectToVpn serverIndex credentials container vpnConfiguration).

(** What the constructor connects to the signals of the import. *)
Definition on_import_signal (e : ImportSignal) : ClientM unit :=
  match e with
  | importErrorText errorMessage _ =>
      if bool_decide (connectionState conn = Vpn.Preparing) then
        do! connectionErrorOccurred (ctl_errorText errorMessage) in announce Vpn.Error false
      else rret tt
  | importErrorCode errorCode _ =>
      if bool_decide (connectionState conn = Vpn.Preparing) then
        do! connectionErrorOccurred (ctl_errorCode errorCode) in announce Vpn.Error false
      else rret tt
  | importFinished =>
      do! on_servers (setDefaultServerIndex 0) in
      do! on_servers (setProcessedServerIndex 0) in
      continueConnection
  | _ => rret tt
  end.

(** A call of the import with the slots of its signals. None of the slots
    touches the import, so that they may follow the call. *)
Definition on_import {A} (m : Run (Import S) A) : ClientM A :=
  let! before := see (λ c, length (import_signals (importer (importing c)))) in
  let! a := on_importing m in
  let! new := see (λ c, drop before (import_signals (importer (importing c)))) in
  do! run_each new on_import_signal in
  rret a.

Definition openConnection (regions : RegionsModel) : ClientM unit :=
  do! announce Vpn.Preparing true in
  do! on_servers clearServers in
  let selectedRegionId := getSelectedRegionId regions in
  if String.eqb selectedRegionId "" then
    do! connectionErrorOccurred (ctl_errorText "Region not selected") in
    announce Vpn.Disconnected true
  else ctl_emit (ctl_stringRequested selectedRegionId).

(** The two answers to the request. *)
Definition string_failed (errorMessage : string) : ClientM unit :=
  do! connectionErrorOccurred (ctl_errorText errorMessage) in
  announce Vpn.Error false.

Definition string_arrived (connectionString : string) : ClientM unit :=
  let! result := on_import (extractConfigFromData fromBase64Url qUncompress vmess_new_Deserialize
                   vmess_Deserialize double_text platform tr_Server connectionString) in
  if negb result then
    do! connectionErrorOccurred (ctl_errorText "Failed to import config") in
    announce Vpn.Error false
  else on_import (importConfig qChecksum).

Definition closeConnection : ClientM unit := ctl_emit ctl_disconnectFromVpn.

Definition toggleConnection (regions : RegionsModel) : ClientM unit :=
  let! c := see controller in
  if bool_decide (m_state c = Vpn.Preparing) then ctl_emit ctl_preparingConfig
  else if m_isConnectionInProgress c then closeConnection
  else if m_isConnected c then closeConnection
  else openConnection regions.

Definition onCurrentContainerUpdated (regions : RegionsModel) : ClientM unit :=
  let! c := see controller in
  if m_isConnected c || m_isConnectionInProgress c then
    do! ctl_emit (ctl_reconnect "Settings updated successfully, reconnnection...") in
    openConnection regions
  else ctl_emit (ctl_reconnect "Settings updated successfully").
End Client.
