(* ===== verification/AuthController.v ===== *)
(** * The account of the user

    Model of [AuthController] (client/ui/controllers/authController.cpp/.h) with
    [ErrorParser] (client/errorParser.cpp): the requests to the service behind the
    address Cactus finds, what their replies do, and the token in the settings. The
    network is a list of requests that are under way and the replies given to them. *)
From Stdlib Require Import ZArith QArith Lia Ascii String.
From stdpp Require Import base list option strings relations.
From S2P Require Import ConnectionController.
From S2P Require Import Prelude QtString QtContainers Variant.
Local Open Scope string_scope.
Local Open Scope Z_scope.

(** ** Endpoints (client/endpoints.h) *)
Definition LOGIN_ENDPOINT : string := "/api/v1/auth/login".
Definition REGISTER_ENDPOINT : string := "/api/v1/auth/register".
Definition REFRESH_ENDPOINT : string := "/api/v1/auth/refresh".
Definition RECOVERY_ENDPOINT : string := "/api/v1/auth/recover".
Definition PASSWORD_CHANGE_ENDPOINT : string := "/api/v1/me/password".
Definition EMAIL_CHANGE_ENDPOINT : string := "/api/v1/me/email".
Definition ME_ENDPOINT : string := "/api/v1/me".
Definition SERVERS_ENDPOINT : string := "/api/v1/vpn/regions".
Definition CONNECTION_STRING_ENDPOINT : string := "/api/v1/vpn/connect".
Definition PAYMENT_ENDPOINT : string := "/api/v1/payments/create".
Definition API_COMPAT_ENDPOINT : string := "/api/versions".
Definition API_VERSION : Z := 1.
Definition BREAKING_HASH : Z := 3735928559.

(** ** Data *)
Record Errors := mkErrors { errorMessage : string; isFormError : bool; fieldErrors : list (string * string) }.
Record Response := mkResponse { statusCode : Z; response_errors : option Errors }.
Definition status_isOk (statusCode : Z) : bool := Z.quot statusCode 100 =? 2.
Definition response_isOk (r : Response) : bool :=
  status_isOk (statusCode r) || match response_errors r with Some _ => true | None => false end.

Record UserInfo := mkUserInfo { username : string; email : string; timeLeft : Z; userInfo_isValid : bool }.

(** A text to translate: its context and the source text. *)
Definition localizeDaysLeft (days : Z) : string * string :=
  let lastDigit := Z.rem days 10 in
  if lastDigit =? 1 then ("DaysLocale", "%1 day left")
  else if (lastDigit =? 2) || (lastDigit =? 3) || (lastDigit =? 4) then ("DaysLocale234", "%1 days left")
  else ("DaysLocale", "%1 days left").
(** The text for a last digit of one is translated and not returned. *)
Definition localizeHoursLeft (hours : Z) : string * string :=
  let lastDigit := Z.rem hours 10 in
  if (lastDigit =? 2) || (lastDigit =? 3) || (lastDigit =? 4) then ("DaysLocale234", "%1 hours left")
  else ("DaysLocale", "%1 hours left").

(** [toInteger()] *)
Definition json_toInteger (v : QJsonValue) : Z :=
  match v with
  | JDouble q =>
      let n := double_to_int q in
      if Qeq_bool q (inject_Z n) && (- 2 ^ 63 <=? n) && (n <? 2 ^ 63) then n else 0
  | _ => 0
  end.

Section Parser.
Context `{JsonDocument}.

(** The errors of a field, joined. *)
Fixpoint join_errors (first : bool) (l : list QJsonValue) : string :=
  match l with
  | [] => ""
  | v :: l' => toString v +:+ (if first then "" else String "010" "") +:+ join_errors false l'
  end.

Definition error_parse (body : string) (isFormError : bool) : Errors :=
  let document := fromJsonDoc body in
  if negb (isArray document || isObject document) then mkErrors "Server error" isFormError []
  else
    let obj := toObject document in
    let fields :=
      if contains_key "errors" obj then
        let errors := toObject (value "errors" obj) in
        if contains_key "fieldErrors" errors then
          map (λ e, (e.1, join_errors true (toArray e.2))) (toObject (value "fieldErrors" errors))
        else []
      else [] in
    mkErrors (toString (value "error" obj)) isFormError fields.
End Parser.

(** ** The network *)
Inductive HttpMethod := HttpGet | HttpPost.
Record HttpRequest := mkHttp {
  rq_method : HttpMethod; rq_url : string; rq_headers : list (string * string); rq_body : string
}.
Record HttpReply := mkReply { reply_status : Z; reply_noError : bool; reply_data : string }.

(** Which reply a request waits for. *)
Inductive Pending :=
| PRefresh | PLogin | PRecover | PPassword | PEmail | PCompat | PRegister | PMe | PServers | PConnect (request : nat) | PPayment.

Inductive AuthSignal :=
| apiCompatibilityChanged
| spikeErrorOccurred
| errorOccurredQml (message : string) (fields : list (string * string))
| tokenUpdated (changed : bool)
| loginSuccessfull
| registerSuccessfull
| recoveryEmailSent
| passwordChanged
| emailChanged
| spikeUpdated
| userInfoUpdated
| regionsUpdated
| paymentLinkOpened
| stringArrived (request : nat) (connectionString : string)
| stringErrorOccurred (request : nat) (errors : Errors).

(** The settings the controller keeps. *)
Class AuthSettings (S : Type) := {
  settings_getUserToken : S -> string;
  settings_setUserToken : string -> S -> S;
  settings_getSelectedRegionId : S -> string;
  settings_setSelectedRegionId : string -> S -> S
}.

Record AuthController (S : Type) := mkAuth {
  m_settings : S;
  m_token : string;
  m_userInfo : UserInfo;
  auth_regions : list RegionInfo;
  m_spike : string;
  m_authenticated : bool;
  m_spikeErrored : bool;
  m_updateRequired : bool;
  auth_requests : list (HttpRequest * Pending);
  auth_signals : list AuthSignal
}.
Arguments mkAuth {S} _ _ _ _ _ _ _ _ _ _.
Arguments m_settings {S} _.
Arguments m_token {S} _.
Arguments m_userInfo {S} _.
Arguments auth_regions {S} _.
Arguments m_spike {S} _.
Arguments m_authenticated {S} _.
Arguments m_spikeErrored {S} _.
Arguments m_updateRequired {S} _.
Arguments auth_requests {S} _.
Arguments auth_signals {S} _.

Section Controller.
Context {S : Type} `{AuthSettings S} `{JsonDocument}.
Notation A := (AuthController S).
Implicit Types (a : A).

Definition set_token (t : string) (st : S) a : A :=
  mkAuth st t (m_userInfo a) (auth_regions a) (m_spike a) (m_authenticated a) (m_spikeErrored a) (m_updateRequired a) (auth_requests a) (auth_signals a).
Definition set_authenticated (b : bool) a : A :=
  mkAuth (m_settings a) (m_token a) (m_userInfo a) (auth_regions a) (m_spike a) b (m_spikeErrored a) (m_updateRequired a) (auth_requests a) (auth_signals a).
Definition set_userInfo (i : UserInfo) a : A :=
  mkAuth (m_settings a) (m_token a) i (auth_regions a) (m_spike a) (m_authenticated a) (m_spikeErrored a) (m_updateRequired a) (auth_requests a) (auth_signals a).
Definition set_auth_regions (l : list RegionInfo) a : A :=
  mkAuth (m_settings a) (m_token a) (m_userInfo a) l (m_spike a) (m_authenticated a) (m_spikeErrored a) (m_updateRequired a) (auth_requests a) (auth_signals a).
Definition set_spike (s : string) (errored : bool) a : A :=
  mkAuth (m_settings a) (m_token a) (m_userInfo a) (auth_regions a) s (m_authenticated a) errored (m_updateRequired a) (auth_requests a) (auth_signals a).
Definition set_updateRequired (b : bool) a : A :=
  mkAuth (m_settings a) (m_token a) (m_userInfo a) (auth_regions a) (m_spike a) (m_authenticated a) (m_spikeErrored a) b (auth_requests a) (auth_signals a).
Definition emit (s : AuthSignal) : StateM A unit := modify (λ a,
  mkAuth (m_settings a) (m_token a) (m_userInfo a) (auth_regions a) (m_spike a) (m_authenticated a) (m_spikeErrored a) (m_updateRequired a)
    (auth_requests a) (app (auth_signals a) [s])).
Definition send (r : HttpRequest) (p : Pending) : StateM A unit := modify (λ a,
  mkAuth (m_settings a) (m_token a) (m_userInfo a) (auth_regions a) (m_spike a) (m_authenticated a) (m_spikeErrored a) (m_updateRequired a)
    (app (auth_requests a) [(r, p)]) (auth_signals a)).

(** [errorOccurred], whose only slot passes it on. *)
Definition emit_error (e : Errors) : StateM A unit := emit (errorOccurredQml (errorMessage e) (fieldErrors e)).

Definition createNetworkRequest (method : HttpMethod) (endpoint : string) (needsAuthorization : bool) (array : option string) a : HttpRequest :=
  mkHttp method (m_spike a +:+ endpoint)
    (("User-Agent", "ZloVpn") ::
     app (if needsAuthorization then [("Authorization", "Bearer " +:+ m_token a)] else [])
         (match array with
          | Some bytes => [("Content-Type", "application/json"); ("Content-Length", number (Z.of_nat (String.length bytes)))]
          | None => []
          end))
    (default "" array).

Definition post (endpoint : string) (authorized : bool) (array : option string) (p : Pending) : StateM A unit :=
  r <- gets (createNetworkRequest HttpPost endpoint authorized array) ;;
  send r p.
Definition get (endpoint : string) (authorized : bool) (p : Pending) : StateM A unit :=
  r <- gets (createNetworkRequest HttpGet endpoint authorized None) ;;
  send r p.

Definition parseNetworkReply (formError : bool) (reply : HttpReply) : Response :=
  if negb (reply_noError reply) || negb (status_isOk (reply_status reply))
  then mkResponse (reply_status reply) (Some (error_parse (reply_data reply) formError))
  else mkResponse (reply_status reply) None.

(** *** Requests *)
Definition refreshUserInfo : StateM A unit := get ME_ENDPOINT true PMe.
Definition refreshServers : StateM A unit := get SERVERS_ENDPOINT true PServers.

Definition setToken (token : string) : StateM A unit :=
  modify (λ a, set_token token (settings_setUserToken token (m_settings a)) a) ;;
  previousState <- gets m_authenticated ;;
  modify (set_authenticated (negb (bool_decide (token = "")))) ;;
  (if bool_decide (token = "") then sret tt else refreshUserInfo ;; refreshServers) ;;
  emit (tokenUpdated (negb (Bool.eqb previousState (negb (bool_decide (token = "")))))).

Definition setUnauthenticated : StateM A unit :=
  modify (set_authenticated false) ;;
  setToken "".
Definition logout : StateM A unit := setUnauthenticated.

Definition refreshToken : StateM A unit :=
  post REFRESH_ENDPOINT true None PRefresh ;;
  emit loginSuccessfull.

Definition json_body (fields : list (string * QJsonValue)) : string :=
  toJson (JObject (fold_left (λ o e, jinsert e.1 e.2 o) fields [])).

Definition login (login password : string) : StateM A unit :=
  post LOGIN_ENDPOINT false (Some (json_body [("login", JString login); ("password", JString password)])) PLogin.
Definition registerUser (email username password : string) : StateM A unit :=
  post REGISTER_ENDPOINT false
    (Some (json_body [("email", JString email); ("username", JString username); ("password", JString password)])) PRegister.
Definition recoverAccount (email : string) : StateM A unit :=
  post RECOVERY_ENDPOINT false (Some (json_body [("email", JString email)])) PRecover.
Definition changePassword (currentPassword newPassword : string) : StateM A unit :=
  post PASSWORD_CHANGE_ENDPOINT true
    (Some (json_body [("currentPassword", JString currentPassword); ("newPassword", JString newPassword)])) PPassword.
Definition changeEmail (newEmail : string) : StateM A unit :=
  post EMAIL_CHANGE_ENDPOINT true (Some (json_body [("newEmail", JString newEmail)])) PEmail.
Definition checkApiCompatibility : StateM A unit := get API_COMPAT_ENDPOINT false PCompat.
Definition getServerConnectionString (serverId : string) (request : nat) : StateM A unit :=
  post (CONNECTION_STRING_ENDPOINT +:+ "/" +:+ serverId) true (Some (json_body [("port", JInt 10833)])) (PConnect request).
Definition openPaymentLink : StateM A unit := get PAYMENT_ENDPOINT true PPayment.

(** *** Replies *)
(** What follows a response that is not ok: the optional errors are dereferenced. *)
Definition failed (unauthenticate : bool) (r : Response) (report : Errors -> StateM A unit) : Run A unit :=
  do! (if unauthenticate && (statusCode r =? 401) then rlift setUnauthenticated else rret tt) in
  match response_errors r with Some e => rlift (report e) | None => rabort end.

(** The token of a reply. *)
Definition take_token (reply : HttpReply) : StateM A unit :=
  setToken (toString (value "token" (toObject (fromJsonDoc (reply_data reply))))) ;;
  modify (set_authenticated true).

Definition parseRegionInfo (obj : QJsonObject) : RegionInfo :=
  mkRegion (toString (value "id" obj)) (toString (value "countryCode" obj)) (toString (value "countryName" obj)).

(** The slot of [apiCompatibilityChanged]. *)
Definition on_compatibility : StateM A unit :=
  required <- gets m_updateRequired ;;
  if required then sret tt else refreshToken.

Definition refresh_finished (reply : HttpReply) : Run A unit :=
  let response := parseNetworkReply false reply in
  if negb (response_isOk response) then rlift (modify (set_authenticated false)) else rlift (take_token reply).
Definition login_finished (reply : HttpReply) : Run A unit :=
  let response := parseNetworkReply false reply in
  if negb (response_isOk response) then failed false response emit_error
  else rlift (take_token reply ;; emit loginSuccessfull).
Definition recover_finished (reply : HttpReply) : Run A unit :=
  let response := parseNetworkReply false reply in
  if negb (response_isOk response) then failed false response emit_error
  else rlift (emit recoveryEmailSent).
Definition password_finished (reply : HttpReply) : Run A unit :=
  let response := parseNetworkReply false reply in
  if negb (response_isOk response) then failed false response emit_error
  else rlift (emit passwordChanged).
Definition email_finished (reply : HttpReply) : Run A unit :=
  let response := parseNetworkReply false reply in
  if negb (response_isOk response) then failed true response emit_error
  else rlift (emit emailChanged).
Definition compat_finished (reply : HttpReply) : Run A unit :=
  let response := parseNetworkReply false reply in
  if negb (response_isOk response) then failed false response emit_error
  else
    let object := toObject (fromJsonDoc (reply_data reply)) in
    let breakingHash := u32 (json_toInteger (value "breakingHash" object)) in
    let minVersion := json_toInt (value "minVersion" object) in
    rlift (
      modify (set_updateRequired (negb (minVersion =? API_VERSION) || negb (breakingHash =? BREAKING_HASH))) ;;
      emit apiCompatibilityChanged ;;
      on_compatibility).
Definition register_finished (reply : HttpReply) : Run A unit :=
  let response := parseNetworkReply true reply in
  if negb (response_isOk response) then failed false response emit_error
  else rlift (take_token reply ;; emit registerSuccessfull).
Definition me_finished (reply : HttpReply) : Run A unit :=
  let response := parseNetworkReply false reply in
  if negb (response_isOk response) then failed true response emit_error
  else
    let userObject := toObject (value "user" (toObject (fromJsonDoc (reply_data reply)))) in
    rlift (
      modify (set_userInfo (mkUserInfo (toString (value "username" userObject)) (toString (value "email" userObject))
                              (json_toInteger (value "timeLeft" userObject)) true)) ;;
      emit userInfoUpdated).
Definition servers_finished (reply : HttpReply) : Run A unit :=
  let response := parseNetworkReply false reply in
  if negb (response_isOk response) then failed true response emit_error
  else
    let serverArray := toArray (fromJsonDoc (reply_data reply)) in
    rlift (
      modify (set_auth_regions (map (λ v, parseRegionInfo (toObject v)) serverArray)) ;;
      emit regionsUpdated).
Definition connect_finished (request : nat) (reply : HttpReply) : Run A unit :=
  let response := parseNetworkReply false reply in
  if negb (response_isOk response) then failed true response (λ e, emit (stringErrorOccurred request e))
  else rlift (emit (stringArrived request (toString (value "url" (toObject (fromJsonDoc (reply_data reply))))))).
(** [openUrl] is what [QDesktopServices::openUrl] returns. The first argument of
    [tr] is the text, the second only tells equal texts apart. *)
Definition payment_finished (openUrl : string -> bool) (reply : HttpReply) : Run A unit :=
  let response := parseNetworkReply false reply in
  if negb (response_isOk response) then failed true response emit_error
  else
    let paymentUrl := toString (value "url" (toObject (fromJsonDoc (reply_data reply)))) in
    rlift (if negb (openUrl paymentUrl) then emit_error (mkErrors "Payment" false []) else emit paymentLinkOpened).

Definition finished (openUrl : string -> bool) (p : Pending) : HttpReply -> Run A unit :=
  match p with
  | PRefresh => refresh_finished
  | PLogin => login_finished
  | PRecover => recover_finished
  | PPassword => password_finished
  | PEmail => email_finished
  | PCompat => compat_finished
  | PRegister => register_finished
  | PMe => me_finished
  | PServers => servers_finished
  | PConnect request => connect_finished request
  | PPayment => payment_finished openUrl
  end.

(** *** The rest *)
Definition auth_getSelectedRegionId : A -> string := λ a,
  let regionId := settings_getSelectedRegionId (m_settings a) in
  match auth_regions a with
  | r :: _ => if bool_decide (regionId = "") then region_id r else regionId
  | [] => regionId
  end.
Definition auth_setSelectedRegionId (regionId : string) : StateM A unit :=
  modify (λ a, set_token (m_token a) (settings_setSelectedRegionId regionId (m_settings a)) a).
Definition hasToken (a : A) : bool := negb (bool_decide (m_token a = "")).
Definition isSpikeReady (a : A) : bool := negb (bool_decide (m_spike a = "")).

(** The slot of [settingsCleared]; [st] are the settings afterwards. *)
Definition on_settingsCleared (st : S) : StateM A unit := modify (λ a, set_authenticated false (set_token "" st a)).
(** The address of the service was found, or was not. *)
Definition on_spike (spike : string) : StateM A unit :=
  modify (set_spike spike false) ;;
  emit spikeUpdated ;;
  checkApiCompatibility.
Definition on_spike_error : StateM A unit :=
  modify (λ a, set_spike (m_spike a) true a) ;;
  emit spikeUpdated ;;
  emit spikeErrorOccurred.

Definition AuthController_new (st : S) : A :=
  mkAuth st (settings_getUserToken st) (mkUserInfo "" "" 0 false) [] "" false false false [] [].
End Controller.

(** ** Runs of the controller *)
Class AuthSettingsLaws (S : Type) `{AuthSettings S} : Prop := {
  token_read t s : settings_getUserToken (settings_setUserToken t s) = t;
  token_of_region r s : settings_getUserToken (settings_setSelectedRegionId r s) = settings_getUserToken s
}.

(** The requests that carry the token. *)
Definition needs_token (p : Pending) : bool :=
  match p with PLogin | PRegister | PRecover | PCompat => false | _ => true end.

(** The values of a header of a request. *)
Definition header_values (name : string) (r : HttpRequest) : list string :=
  map snd (List.filter (λ h, String.eqb (fst h) name) (rq_headers r)).
(** A request carries this token exactly when its endpoint needs one. *)
Definition authorized_with (token : string) (q : HttpRequest * Pending) : Prop :=
  header_values "Authorization" q.1 = (if needs_token q.2 then ["Bearer " +:+ token] else []).
Definition is_error_signal (s : AuthSignal) : bool :=
  match s with errorOccurredQml _ _ | stringErrorOccurred _ _ => true | _ => false end.

Section Theorems.
Context {S : Type} `{!AuthSettings S, !AuthSettingsLaws S, !JsonDocument}.
Notation A := (AuthController S).

Inductive auth_operation : StateM A unit -> Prop :=
| op_login l p : auth_operation (login l p)
| op_register e u p : auth_operation (registerUser e u p)
| op_recover e : auth_operation (recoverAccount e)
| op_password c n : auth_operation (changePassword c n)
| op_email e : auth_operation (changeEmail e)
| op_compat : auth_operation checkApiCompatibility
| op_refresh : auth_operation refreshToken
| op_logout : auth_operation logout
| op_token t : auth_operation (setToken t)
| op_user : auth_operation refreshUserInfo
| op_servers : auth_operation refreshServers
| op_region r : auth_operation (auth_setSelectedRegionId r)
| op_connect id n : auth_operation (getServerConnectionString id n)
| op_payment : auth_operation openPaymentLink
| op_cleared st : settings_getUserToken st = "" -> auth_operation (on_settingsCleared st)
| op_spike s : auth_operation (on_spike s)
| op_spike_error : auth_operation on_spike_error.

Inductive auth_step : A -> A -> Prop :=
| step_operation m a : auth_operation m -> auth_step a (m a).2
| step_reply u r p reply a a' :
    (r, p) ∈ auth_requests a -> finished u p reply a = Ret (tt, a') -> auth_step a a'.

(** The token is the one of the settings. *)
Definition token_ok (a : A) : Prop := m_token a = settings_getUserToken (m_settings a).

(** [m] leaves the token alone, and the requests it sends carry it where they need one. *)
Definition sends (m : StateM A unit) : Prop := forall a,
  m_token (m a).2 = m_token a /\ m_settings (m a).2 = m_settings a /\
  exists new, auth_requests (m a).2 = app (auth_requests a) new /\ Forall (authorized_with (m_token a)) new.

(** [m] keeps [token_ok], and the requests it sends carry the token it leaves. *)
Definition sends_latest (m : StateM A unit) : Prop := forall a, token_ok a ->
  token_ok (m a).2 /\
  exists new, auth_requests (m a).2 = app (auth_requests a) new /\ Forall (authorized_with (m_token (m a).2)) new.

Lemma sends_bind {B} (m : StateM A B) (k : B -> StateM A unit) :
  sends (λ a, (tt, (m a).2)) -> (forall x, sends (k x)) -> sends (sbind m k).
Proof.
  intros Hm Hk a. unfold sbind. destruct (Hm a) as (Ht & Hs & n1 & H1 & F1). cbn in *.
  destruct (m a) as [x a']. cbn in *. destruct (Hk x a') as (Ht' & Hs' & n2 & H2 & F2).
  split_and!; [congruence..|]. exists (app n1 n2).
  rewrite H2, H1, app_assoc. split; [done|]. apply list.Forall_app. by rewrite <- Ht at 2.
Qed.
Lemma sends_modify f :
  (forall a, m_token (f a) = m_token a /\ m_settings (f a) = m_settings a /\ auth_requests (f a) = auth_requests a) ->
  sends (modify f).
Proof. intros Hf a. destruct (Hf a) as (Ht & Hs & Hr). split_and!; [done..|]. exists []. by rewrite app_nil_r. Qed.
Lemma sends_emit s : sends (emit s).
Proof. by apply sends_modify. Qed.
Lemma sends_ret : sends (sret tt).
Proof. intros a. split_and!; [done..|]. exists []. by rewrite app_nil_r. Qed.
Lemma sends_post e b body p : b = needs_token p -> sends (post e b body p).
Proof.
  intros -> a. split_and!; [done..|]. eexists. split; [reflexivity|]. apply list.Forall_singleton.
  unfold authorized_with, header_values. cbn. by destruct (needs_token p), body.
Qed.
Lemma sends_get e b p : b = needs_token p -> sends (get e b p).
Proof.
  intros -> a. split_and!; [done..|]. eexists. split; [reflexivity|]. apply list.Forall_singleton.
  unfold authorized_with, header_values. cbn. by destruct (needs_token p).
Qed.

Lemma latest_sends m : sends m -> sends_latest m.
Proof.
  intros Hm a Ha. destruct (Hm a) as (Ht & Hs & Hn). unfold token_ok in *. rewrite Ht, Hs. by split.
Qed.
(** The token changes first, and what follows sends the new one. *)
Lemma latest_after f (k : StateM A unit) :
  (forall a, token_ok a -> token_ok (f a) /\ auth_requests (f a) = auth_requests a) ->
  sends_latest k -> sends_latest (sbind (modify f) (λ _, k)).
Proof.
  intros Hf Hk a Ha. destruct (Hf a Ha) as [Hok Hr]. unfold sbind. cbn.
  destruct (Hk (f a) Hok) as (Hok' & new & Hn & HF). split; [done|]. exists new. by rewrite Hn, Hr.
Qed.
Lemma latest_then (m k : StateM A unit) : sends_latest m -> sends k -> sends_latest (sbind m (λ _, k)).
Proof.
  intros Hm Hk a Ha. destruct (Hm a Ha) as (Hok & n1 & H1 & F1). unfold sbind.
  destruct (m a) as [x a']. cbn in *. destruct (Hk a') as (Ht & Hs & n2 & H2 & F2).
  unfold token_ok in *. rewrite Ht, Hs. split; [done|]. exists (app n1 n2).
  rewrite H2, H1, app_assoc. split; [done|]. by apply list.Forall_app.
Qed.
Lemma latest_setToken t : sends_latest (setToken t).
Proof.
  unfold setToken. apply latest_after.
  { intros a _. split; [|done]. unfold token_ok. cbn. by rewrite token_read. }
  apply latest_sends, sends_bind; [apply sends_ret|]. intros b.
  apply sends_bind; [by apply sends_modify|]. intros _. apply sends_bind; [|intros _; apply sends_emit].
  case_bool_decide; [apply sends_ret|].
  apply sends_bind; [by apply sends_get|]. intros _. by apply sends_get.
Qed.
Lemma sends_refreshToken : sends refreshToken.
Proof. apply sends_bind; [by apply sends_post|]. intros _. apply sends_emit. Qed.

Lemma latest_operation m : auth_operation m -> sends_latest m.
Proof.
  destruct 1; try (apply latest_sends; first [apply sends_refreshToken | by apply sends_post | by apply sends_get]).
  - apply latest_after; [by intros a|]. apply latest_setToken.
  - apply latest_setToken.
  - intros a Ha. unfold token_ok. cbn. rewrite token_of_region. split; [done|]. exists []. by rewrite app_nil_r.
  - intros a Ha. split; [done|]. exists []. by rewrite app_nil_r.
  - apply latest_sends, sends_bind; [by apply sends_modify|]. intros _.
    apply sends_bind; [apply sends_emit|]. intros _. by apply sends_get.
  - apply latest_sends, sends_bind; [by apply sends_modify|]. intros _.
    apply sends_bind; [apply sends_emit|]. intros _. apply sends_emit.
Qed.

(** Every response counts as a success. *)
Lemma response_always_ok f reply : response_isOk (parseNetworkReply f reply) = true.
Proof.
  unfold parseNetworkReply, response_isOk.
  destruct (reply_noError reply), (status_isOk (reply_status reply)) eqn:E; cbn; rewrite ?E; reflexivity.
Qed.

(** So a reply runs the branch of its success. *)
Definition success (u : string -> bool) (p : Pending) (reply : HttpReply) : StateM A unit :=
  let object := toObject (fromJsonDoc (reply_data reply)) in
  match p with
  | PRefresh => take_token reply
  | PLogin => take_token reply ;; emit loginSuccessfull
  | PRegister => take_token reply ;; emit registerSuccessfull
  | PRecover => emit recoveryEmailSent
  | PPassword => emit passwordChanged
  | PEmail => emit emailChanged
  | PCompat =>
      modify (set_updateRequired (negb (json_toInt (value "minVersion" object) =? API_VERSION)
                                  || negb (u32 (json_toInteger (value "breakingHash" object)) =? BREAKING_HASH))) ;;
      emit apiCompatibilityChanged ;; on_compatibility
  | PMe =>
      let user := toObject (value "user" object) in
      modify (set_userInfo (mkUserInfo (toString (value "username" user)) (toString (value "email" user))
                              (json_toInteger (value "timeLeft" user)) true)) ;;
      emit userInfoUpdated
  | PServers =>
      modify (set_auth_regions (map (λ v, parseRegionInfo (toObject v)) (toArray (fromJsonDoc (reply_data reply))))) ;;
      emit regionsUpdated
  | PConnect n => emit (stringArrived n (toString (value "url" object)))
  | PPayment =>
      if negb (u (toString (value "url" object))) then emit_error (mkErrors "Payment" false []) else emit paymentLinkOpened
  end.
Lemma finished_success u p reply a : finished u p reply a = Ret (success u p reply a).
Proof.
  destruct p; cbn [finished];
    unfold refresh_finished, login_finished, recover_finished, password_finished, email_finished, compat_finished,
      register_finished, me_finished, servers_finished, connect_finished, payment_finished;
    by rewrite response_always_ok.
Qed.

Lemma latest_take_token reply : sends_latest (take_token reply).
Proof. apply latest_then; [apply latest_setToken|]. by apply sends_modify. Qed.
Lemma latest_success u p reply : sends_latest (success u p reply).
Proof.
  destruct p; cbn; try apply latest_take_token; try (apply latest_then; [apply latest_take_token|apply sends_emit]);
    apply latest_sends; try apply sends_emit;
    try (apply sends_bind; [by apply sends_modify|intros _; try apply sends_emit]).
  - apply sends_bind; [apply sends_emit|]. intros _. apply sends_bind; [apply sends_ret|].
    intros []; [apply sends_ret|apply sends_refreshToken].
  - case_match; apply sends_emit.
Qed.
Lemma latest_step a a' : auth_step a a' -> token_ok a ->
  token_ok a' /\
  exists new, auth_requests a' = app (auth_requests a) new /\ Forall (authorized_with (m_token a')) new.
Proof.
  intros [m b Hm|u r p reply b b' _ Hf] Ha; [by apply latest_operation|].
  rewrite finished_success in Hf. injection Hf as Hf.
  change b' with (tt, b').2. rewrite <- Hf. by apply latest_success.
Qed.

(** C8. In any run from the start, after every further step - a call of the
    controller or a reply - the token in use is the one in the settings, and each
    request the step sends has one Authorization header with [Bearer] and that very
    token when its endpoint needs it, and none otherwise: the login, the
    registration, the recovery and the compatibility check never have one. *)
Theorem token_kept_and_sent st a a' :
  rtc auth_step (AuthController_new st) a -> auth_step a a' ->
  m_token a' = settings_getUserToken (m_settings a') /\
  exists new, auth_requests a' = app (auth_requests a) new /\
    Forall (λ q, header_values "Authorization" q.1 =
                 (if needs_token q.2 then ["Bearer " +:+ m_token a'] else [])) new.
Proof.
  intros Hrun Hstep. apply (latest_step a); [done|].
  assert (H0 : token_ok (AuthController_new st)) by done.
  revert H0. induction Hrun as [|x y z Hxy _ IH]; [done|]. intros Hx. by apply IH, (latest_step x).
Qed.

(** C32. A reply that failed is handled as one that succeeded: whatever the status, no
    error is reported - except that a payment whose address (empty in a failed
    reply) the system does not open reports [Payment], with nothing of the reply -
    and a login, a registration or a refresh whose reply has no token leaves the
    user signed in and an empty token in the settings. *)
Theorem failed_replies_unreported u p reply a :
  exists a', finished u p reply a = Ret (tt, a') /\
    (exists new, auth_signals a' = app (auth_signals a) new /\
       (forallb (λ s, negb (is_error_signal s)) new = true \/
        p = PPayment /\ u (toString (value "url" (toObject (fromJsonDoc (reply_data reply))))) = false /\
        new = [errorOccurredQml "Payment" []])) /\
    (p ∈ [PLogin; PRegister; PRefresh] ->
     toString (value "token" (toObject (fromJsonDoc (reply_data reply)))) = "" ->
     m_authenticated a' = true /\ settings_getUserToken (m_settings a') = "").
Proof.
  exists (success u p reply a).2. rewrite finished_success. split_and!.
  - by destruct (success u p reply a) as [[] ?].
  - destruct p; unfold success, take_token, setToken, on_compatibility, sbind; cbn;
      try (case_bool_decide; cbn); try (case_match; cbn);
      rewrite <- ?app_assoc; eexists; (split; [reflexivity|]); try (by left).
    right. by destruct (u _).
  - rewrite !elem_of_cons, elem_of_nil. intros [->|[->|[->|[]]]] Ht;
      unfold success, take_token, setToken, sbind; cbn; rewrite Ht, bool_decide_true by done; cbn; by rewrite token_read.
Qed.

(** A login whose reply has a token signs the user in: the token is stored, and
    the user's data and the regions are asked for with it. *)
Theorem login_signs_in u reply a t :
  toString (value "token" (toObject (fromJsonDoc (reply_data reply)))) = t -> t <> "" ->
  exists a', finished u PLogin reply a = Ret (tt, a') /\
    m_authenticated a' = true /\ m_token a' = t /\ settings_getUserToken (m_settings a') = t /\
    loginSuccessfull ∈ auth_signals a' /\
    auth_requests a' = app (auth_requests a)
      [(mkHttp HttpGet (m_spike a +:+ ME_ENDPOINT) [("User-Agent", "ZloVpn"); ("Authorization", "Bearer " +:+ t)] "", PMe);
       (mkHttp HttpGet (m_spike a +:+ SERVERS_ENDPOINT) [("User-Agent", "ZloVpn"); ("Authorization", "Bearer " +:+ t)] "", PServers)].
Proof.
  intros Ht Hne. exists (success u PLogin reply a).2. rewrite finished_success. split.
  { by destruct (success u PLogin reply a) as [[] ?]. }
  unfold success, take_token, setToken, sbind. cbn. rewrite Ht. rewrite bool_decide_false by done. cbn.
  rewrite token_read, <- !app_assoc. split_and!; try done. set_solver.
Qed.
End Theorems.

(** ** A concrete controller: the settings are the token and the region, and the
    documents the service answers with are two texts. *)
Module SimAuth.
Definition sim_settings : AuthSettings (string * string) := {|
  settings_getUserToken := fst;
  settings_setUserToken t s := (t, snd s);
  settings_getSelectedRegionId := snd;
  settings_setSelectedRegionId r s := (fst s, r)
|}.
Definition sim_settings_laws : @AuthSettingsLaws _ sim_settings.
Proof. split; by intros ? []. Defined.
Definition sim_json : JsonDocument := {|
  toJson v := "{}";
  fromJsonDoc s := if String.eqb s "signed in" then JObject [("token", JString "t1")] else JObject [("error", JString "wrong password")]
|}.
Definition sim_start : AuthController (string * string) := @AuthController_new _ sim_settings ("t0", "").
End SimAuth.

Lemma token_kept_and_sent_witness :
  let a := (@refreshToken _ SimAuth.sim_start).2 in
  let a' := (@setToken _ SimAuth.sim_settings "t1" a).2 in
  m_token a' = "t1" /\
  exists new, auth_requests a' = app (auth_requests a) new /\ length new = 2%nat /\
    Forall (λ q, header_values "Authorization" q.1 = ["Bearer t1"]) new.
Proof.
  intros a a'. split; [reflexivity|].
  destruct (@token_kept_and_sent _ SimAuth.sim_settings SimAuth.sim_settings_laws SimAuth.sim_json ("t0", "") a a')
    as (_ & new & Hnew & HF).
  - eapply rtc_l; [|apply rtc_refl]. apply (@step_operation _ SimAuth.sim_settings SimAuth.sim_json). constructor.
  - apply (@step_operation _ SimAuth.sim_settings SimAuth.sim_json). constructor.
  - exists new. split; [exact Hnew|]. vm_compute in Hnew. injection Hnew as <-.
    split; [reflexivity|]. repeat constructor.
Defined.

Lemma failed_replies_unreported_witness :
  exists a', @finished _ SimAuth.sim_settings SimAuth.sim_json (λ _, true) PLogin (mkReply 401 false "refused") SimAuth.sim_start = Ret (tt, a') /\
    m_authenticated a' = true /\ fst (m_settings a') = "".
Proof.
  destruct (@failed_replies_unreported _ SimAuth.sim_settings SimAuth.sim_settings_laws SimAuth.sim_json
              (λ _, true) PLogin (mkReply 401 false "refused") SimAuth.sim_start) as (a' & H1 & _ & H2).
  exists a'. split; [exact H1|]. apply H2; [left|reflexivity].
Defined.

Lemma login_signs_in_witness :
  exists a', @finished _ SimAuth.sim_settings SimAuth.sim_json (λ _, true) PLogin (mkReply 200 true "signed in") SimAuth.sim_start = Ret (tt, a') /\
    m_authenticated a' = true /\ m_token a' = "t1".
Proof.
  destruct (@login_signs_in _ SimAuth.sim_settings SimAuth.sim_settings_laws SimAuth.sim_json
              (λ _, true) (mkReply 200 true "signed in") SimAuth.sim_start "t1" eq_refl ltac:(discriminate)) as (a' & H1 & H2 & H3 & _).
  exists a'. by split_and!.
Defined.
