(* ===== verification/XrayProtocol.v ===== *)
(** * Xray on the Unix desktops

    Model of [XrayProtocol] (client/protocols/xrayprotocol.cpp) for Linux and
    macOS and of [IpcProcessTun2Socks] (ipc/ipctun2socksprocess.cpp), which the
    service runs for it: the tunnel is a local proxy, a process that reads a
    device and sends to the proxy, and routes into the device. The theorem at the
    end runs the calls against the router of the service. *)
From Stdlib Require Import ZArith QArith Lia Ascii String.
From stdpp Require Import base list strings.
From S2P Require Import Prelude QtString QtContainers Variant Protocols Containers SecureSettings.
From S2P Require Import HostAddress IpAddress NetworkUtilities DaemonConfig VpnProtocol RouterLinux.
Local Open Scope string_scope.
Local Open Scope Z_scope.

(** ** State *)

(** The calls of the service, the processes, and the signal of an error, in the
    order in which they happen. *)
Inductive XrayCall :=
| x_createTun (dev addr : string)
| x_updateResolvers (dev : string) (dns : list string)
| x_enableKillSwitch (config : QJsonObject)
| x_disableKillSwitch
| x_routeAddList (gw : string) (ips : list string)
| x_StopRoutingIpv6
| x_StartRoutingIpv6
| x_deleteTun (dev : string)
| x_clearSavedRoutes
| x_tun2socks_start
| x_tun2socks_stop
| x_other_killed                       (* another instance of the program *)
| x_process_start (config : string)
| x_process_terminate
| x_process_close
| x_protocolError (errorCode : Z).

Record XrayProtocol := mkXray {
  base : VpnProtocol;
  m_xrayConfig : QJsonObject;
  m_remoteHost : string;
  x_remoteAddress : string;
  m_routeMode : Z;
  m_configData : QJsonObject;
  calls : list XrayCall
}.

Abbreviation XrayM A := (StateM XrayProtocol A).

Definition call (e : XrayCall) : XrayM unit :=
  modify (λ p, mkXray (base p) (m_xrayConfig p) (m_remoteHost p) (x_remoteAddress p) (m_routeMode p)
                 (m_configData p) (app (calls p) [e])).
Definition on_base {A} (m : StateM VpnProtocol A) : XrayM A := λ p,
  let '(a, b) := m (base p) in
  (a, mkXray b (m_xrayConfig p) (m_remoteHost p) (x_remoteAddress p) (m_routeMode p)
        (m_configData p) (calls p)).
Definition set_configData (o : QJsonObject) : XrayM unit :=
  modify (λ p, mkXray (base p) (m_xrayConfig p) (m_remoteHost p) (x_remoteAddress p) (m_routeMode p)
                 o (calls p)).

Definition defaultLocalAddr : string := "10.34.0.2".

(** ** Construction *)
Definition xray_config (configuration : QJsonObject) : QJsonObject :=
  match toObject (value (key_proto_config_data Proto.Xray) configuration) with
  | [] => toObject (value (key_proto_config_data Proto.SSXray) configuration)
  | o => o
  end.

(** [gateway] is that of the default route of the machine. *)
Definition XrayProtocol_new `{AddressParser} (lookup : string -> list string) (gateway : string)
    (garbage : Z) (configuration : QJsonObject) : XrayProtocol :=
  let b := VpnProtocol_new configuration garbage in
  let b := mkProtocol (m_connectionState b) (m_lastError b) (m_receivedBytes b) (m_sentBytes b)
             (m_timeoutTimer b) defaultLocalAddr gateway (m_rawConfig b) (emitted b) in
  let remoteHost := toString (value "hostName" configuration) in
  mkXray b (xray_config configuration) remoteHost (getIPAddress lookup remoteHost)
    (json_toInt (value "splitTunnelType" configuration)) configuration [].

(** ** Start *)

(** [replace] of an empty text inserts before every character and at the end. *)
Fixpoint insert_everywhere (after s : string) : string :=
  match s with
  | "" => after
  | String c s' => after +:+ String c (insert_everywhere after s')
  end.
Definition replace_text (before after s : string) : string :=
  if String.eqb before "" then insert_everywhere after s else replace_all before after s.

Section Start.
Context `{JsonDocument}.

(** The configuration the program is given. *)
Definition config_file (p : XrayProtocol) : string :=
  replace_text (m_remoteHost p) (x_remoteAddress p) (toJson (JObject (m_xrayConfig p))).

(** Whether the program exists, whether another instance runs, and whether it
    could be started. 605 is [XrayExecutableMissing], the result an error code. *)
Definition xray_start (exists_program other_running started : bool) : XrayM Z :=
  if negb exists_program then
    on_base (setLastError 605) ;; e <- gets (λ p, m_lastError (base p)) ;; sret e
  else
    (if other_running then call x_other_killed else sret tt) ;;
    config <- gets config_file ;;
    call (x_process_start config) ;;
    if started then
      on_base (setConnectionState Vpn.Connecting) ;;
      call x_tun2socks_start ;;
      sret 0
    else sret 605.
End Start.

(** ** States of the other process *)
Definition tun_device (mac : bool) : string := if mac then "utun22" else "tun3".

Definition kill_switch_wanted (p : XrayProtocol) : bool :=
  variant_toBool (toString (value "killSwitchOption" (m_configData p))).

Definition on_tun2socks_connected (mac : bool) : XrayM unit :=
  on_base (setConnectionState Vpn.Connecting) ;;
  data <- gets m_configData ;;
  call (x_createTun (tun_device mac) defaultLocalAddr) ;;
  call (x_updateResolvers (tun_device mac)
          [toString (value "dns1" data); toString (value "dns2" data)]) ;;
  wanted <- gets kill_switch_wanted ;;
  (if wanted then
     server <- gets x_remoteAddress ;;
     set_configData (jinsert "vpnServer" (JString server) data) ;;
     call (x_enableKillSwitch (jinsert "vpnServer" (JString server) data))
   else sret tt) ;;
  mode <- gets m_routeMode ;;
  (if mode =? 0 then
     vpn <- gets (λ p, m_vpnGateway (base p)) ;;
     route <- gets (λ p, m_routeGateway (base p)) ;;
     server <- gets x_remoteAddress ;;
     call (x_routeAddList vpn ["0.0.0.0/1"]) ;;
     call (x_routeAddList vpn ["128.0.0.0/1"]) ;;
     call (x_routeAddList route [server])
   else sret tt) ;;
  call x_StopRoutingIpv6 ;;
  on_base (setConnectionState Vpn.Connected).

(** Not on macOS. *)
Definition on_tun2socks_disconnected (mac : bool) : XrayM unit :=
  if mac then sret tt
  else
    on_base (setConnectionState Vpn.Disconnected) ;;
    call (x_deleteTun (tun_device false)) ;;
    call x_StartRoutingIpv6 ;;
    call x_clearSavedRoutes.

Definition on_tun2socks_state (mac : bool) (state : Vpn.ConnectionState) : XrayM unit :=
  match state with
  | Vpn.Connected => on_tun2socks_connected mac
  | Vpn.Disconnected => on_tun2socks_disconnected mac
  | _ => sret tt
  end.

(** ** Stop *)
Definition xray_stop : XrayM unit :=
  call x_disableKillSwitch ;;
  call x_StartRoutingIpv6 ;;
  call x_process_terminate ;;
  call x_tun2socks_stop.

(** The program has ended; 803 is [XrayExecutableCrashed], 101 [InternalError]. *)
Definition xray_finished (normal : bool) (exitCode : Z) : XrayM unit :=
  on_base (setConnectionState Vpn.Disconnected) ;;
  (if normal then sret tt else call (x_protocolError 803) ;; xray_stop) ;;
  if exitCode =? 0 then sret tt else call (x_protocolError 101) ;; xray_stop.

(** The destructor. Closing the process waits for its end, whose signal still
    arrives: [ended] is how it ended, when it had not ended before. *)
Definition xray_delete (ended : option (bool * Z)) : XrayM unit :=
  xray_stop ;;
  call x_process_close ;;
  match ended with
  | Some (normal, exitCode) => xray_finished normal exitCode
  | None => sret tt
  end.

(** ** The process of the service *)
Module Tun2Socks.
Inductive Event :=
| killed_by_name
| process_started (arguments : list string)
| state_emitted (state : Vpn.ConnectionState)
| process_closed.

Definition arguments (mac : bool) : list string :=
  let proxy := "socks5://127.0.0.1:10833" in
  if mac then ["-device"; "utun22"; "-proxy"; proxy] else ["-device"; "tun://tun3"; "-proxy"; proxy].

(** The second [start] finds the process running and only warns. *)
Definition start (mac : bool) : list Event :=
  [killed_by_name; process_started (arguments mac)].

(** [bingus]: a piece of the output. *)
Definition on_output (line : string) : list Event :=
  if contains_str line "[STACK] tun://" && contains_str line "<-> socks5://127.0.0.1"
  then [state_emitted Vpn.Connected] else [].

Definition stop : list Event := [process_closed].

(** [bungus]: the process has ended. *)
Definition on_finished (exitCode : Z) (normal : bool) : list Event :=
  state_emitted Vpn.Disconnected ::
  app (if normal then [] else stop) (if exitCode =? 0 then [] else stop).
End Tun2Socks.

(** ** The calls *)
Definition new_calls (m : XrayM unit) (p : XrayProtocol) : list XrayCall :=
  drop (length (calls p)) (calls (m p).2).

Definition tunnel_routes (p : XrayProtocol) : list Route :=
  [ mkRoute "0.0.0.0/1" (m_vpnGateway (base p)); mkRoute "128.0.0.0/1" (m_vpnGateway (base p));
    mkRoute (x_remoteAddress p) (m_routeGateway (base p)) ].

Lemma on_base_calls (m : StateM VpnProtocol unit) p : calls (on_base m p).2 = calls p.
Proof. unfold on_base. by destruct (m (base p)). Qed.

Lemma setConnectionState_fields st b :
  let b' := (setConnectionState st b).2 in
  m_vpnGateway b' = m_vpnGateway b /\ m_routeGateway b' = m_routeGateway b /\
  (st <> Vpn.Disconnecting -> m_connectionState b' = st).
Proof.
  unfold setConnectionState, sbind, gets. cbn [fst snd]. case_bool_decide as E1; [by split_and!|].
  destruct (bool_decide (m_connectionState b = Vpn.Disconnected) && bool_decide (st = Vpn.Disconnecting)) eqn:E2.
  - apply andb_true_iff in E2 as [_ E2%bool_decide_eq_true]. by split_and!.
  - by destruct (bool_decide (st = Vpn.Disconnected)).
Qed.

(** What is asked for when the tunnel is up. *)
Definition up_calls (mac : bool) (p : XrayProtocol) : list XrayCall :=
  let data := m_configData p in
  app [x_createTun (tun_device mac) defaultLocalAddr;
       x_updateResolvers (tun_device mac) [toString (value "dns1" data); toString (value "dns2" data)]]
  (app (if kill_switch_wanted p
        then [x_enableKillSwitch (jinsert "vpnServer" (JString (x_remoteAddress p)) data)] else [])
  (app (if m_routeMode p =? 0
        then [x_routeAddList (m_vpnGateway (base p)) ["0.0.0.0/1"];
              x_routeAddList (m_vpnGateway (base p)) ["128.0.0.0/1"];
              x_routeAddList (m_routeGateway (base p)) [x_remoteAddress p]] else [])
   [x_StopRoutingIpv6])).

Lemma connected_run mac p :
  let p' := (on_tun2socks_connected mac p).2 in
  new_calls (on_tun2socks_connected mac) p = up_calls mac p /\
  m_connectionState (base p') = Vpn.Connected.
Proof.
  destruct p as [b0 xc rh ra rm cd cl].
  unfold new_calls, up_calls, on_tun2socks_connected, set_configData, call, on_base, sbind, gets, modify.
  unfold kill_switch_wanted, sret.
  cbn [base m_xrayConfig m_remoteHost x_remoteAddress m_routeMode m_configData calls fst snd].
  destruct (setConnectionState_fields Vpn.Connecting b0) as (Ev & Er & _).
  destruct (setConnectionState Vpn.Connecting b0) as [[] b]. cbn [fst snd] in Ev, Er.
  cbn [base m_xrayConfig m_remoteHost x_remoteAddress m_routeMode m_configData calls fst snd].
  destruct (setConnectionState_fields Vpn.Connected b) as (_ & _ & Es).
  destruct (variant_toBool _);
    cbn [base m_xrayConfig m_remoteHost x_remoteAddress m_routeMode m_configData calls fst snd];
    destruct (rm =? 0);
    cbn [base m_xrayConfig m_remoteHost x_remoteAddress m_routeMode m_configData calls fst snd];
    destruct (setConnectionState Vpn.Connected b) as [[] b2];
    cbn [base m_xrayConfig m_remoteHost x_remoteAddress m_routeMode m_configData calls fst snd] in *;
    rewrite <- !app_assoc, drop_app_length, ?Ev, ?Er; (split; [reflexivity|by apply Es]).
Qed.

Lemma disconnected_calls p :
  new_calls (on_tun2socks_disconnected false) p =
  [x_deleteTun "tun3"; x_StartRoutingIpv6; x_clearSavedRoutes].
Proof.
  unfold new_calls, on_tun2socks_disconnected, sbind, call, modify, on_base.
  destruct (setConnectionState Vpn.Disconnected (base p)) as [[] b]. cbn [fst snd calls].
  by rewrite <- !app_assoc, drop_app_length.
Qed.

(** ** The router of the service *)
Section Router.
Context {W : Type} `{RouteTableLaws W} `{AddressParser} `{InetAddr}.
Context (outcome : Command -> CommandResult).

(** What the router does for a call; the device is removed through netlink and
    the rest is the firewall's and the resolver's. *)
Definition xserve (e : XrayCall) : Run (RouterLinux W) unit :=
  match e with
  | x_createTun dev addr => let! _ := createTun outcome dev addr in rret tt
  | x_routeAddList g ips => request (add_routes g ips)
  | x_StopRoutingIpv6 => StopRoutingIpv6 outcome
  | x_StartRoutingIpv6 => StartRoutingIpv6 outcome
  | x_clearSavedRoutes => let! _ := clearSavedRoutes in rret tt
  | _ => rret tt
  end.

Lemma execute_all_table l (r : RouterLinux W) :
  exists ok r', execute_all outcome l r = Ret (ok, r') /\ table r' = table r /\
    m_addedRoutes r' = m_addedRoutes r.
Proof.
  revert r. induction l as [|c l IH]; intros r; cbn [execute_all]; [by exists true, r|].
  unfold rbind, execute. destruct (outcome c); [by eexists _, _|by eexists _, _|].
  destruct (IH (mkRouter (m_addedRoutes r) (table r) (app (commands r) [c]))) as (ok & r' & E & T & A).
  by exists ok, r'.
Qed.

(** The routes in place are among those asked for. *)
Definition within (w0 : W) (routes : list Route) (r : RouterLinux W) : Prop :=
  balanced w0 r /\ forall ro, ro ∈ m_addedRoutes r -> ro ∈ routes.

Lemma within_same w0 routes r r' :
  within w0 routes r -> table r' = table r -> m_addedRoutes r' = m_addedRoutes r -> within w0 routes r'.
Proof. intros [Hb Hi] T A. unfold within, balanced in *. by rewrite A, T. Qed.

Lemma within_add w0 routes g ip r r' :
  mkRoute ip g ∈ routes -> within w0 routes r -> request (add_routes g [ip]) r = Ret (tt, r') ->
  within w0 routes r'.
Proof.
  intros Hin [Hb Hi] E. split; [by eapply balanced_request|]. revert E. cbn [request].
  unfold routeAddList. cbn [count_true]. unfold rbind.
  destruct (routeAdd ip g r) as [[ok r1]| |] eqn:E; try done. intros [= <-].
  apply routeAdd_spec in E. destruct ok; intros ro.
  - destruct E as (_ & _ & A & _). rewrite A, elem_of_app, list_elem_of_singleton.
    intros [?| ->]; [by apply Hi|done].
  - destruct E as [A _]. rewrite A. apply Hi.
Qed.

Lemma within_serve w0 p e r r' :
  e ∈ up_calls false p -> within w0 (tunnel_routes p) r -> xserve e r = Ret (tt, r') ->
  within w0 (tunnel_routes p) r'.
Proof.
  assert (forall l, (let! _ := execute_all outcome l in rret tt) r = Ret (tt, r') ->
    within w0 (tunnel_routes p) r -> within w0 (tunnel_routes p) r') as Hx.
  { intros l. destruct (execute_all_table l r) as (ok & r1 & E & T & A). unfold rbind. rewrite E.
    intros [= <-] Hw. by eapply within_same. }
  assert (forall g ip, mkRoute ip g ∈ tunnel_routes p -> within w0 (tunnel_routes p) r ->
    request (add_routes g [ip]) r = Ret (tt, r') -> within w0 (tunnel_routes p) r') as Ha.
  { intros. by eapply within_add. }
  unfold up_calls. rewrite !elem_of_app. intros He Hw E.
  destruct He as [He|[He|[He|He]]].
  - apply list_elem_of_In in He. simpl in He. destruct He as [<-|[<-|[]]]; [by eapply Hx|].
    by injection E as <-.
  - destruct (kill_switch_wanted p); [|by apply elem_of_nil in He].
    apply list_elem_of_singleton in He as ->. by injection E as <-.
  - destruct (m_routeMode p =? 0); [|by apply elem_of_nil in He].
    apply list_elem_of_In in He. simpl in He.
    destruct He as [<-|[<-|[<-|[]]]]; (eapply Ha; [|done|exact E]);
      apply list_elem_of_In; simpl; auto.
  - apply list_elem_of_singleton in He as ->. by eapply Hx.
Qed.

(** The tunnel of Xray borrows the routing table. When the other process
    reports that it is up, the calls of the client leave, with whatever failures
    of single calls, only routes of the two halves of the address space into the
    device and of the server through the old gateway, and the protocol is
    connected. When the process ends, the calls of the client then give every
    route back: the table is exactly the one before. *)
Theorem xray_routes_given_back (p : XrayProtocol) (r0 r1 : RouterLinux W) :
  m_addedRoutes r0 = [] ->
  run_each (new_calls (on_tun2socks_state false Vpn.Connected) p) xserve r0 = Ret (tt, r1) ->
  let p' := (on_tun2socks_state false Vpn.Connected p).2 in
  m_connectionState (base p') = Vpn.Connected /\
  (forall ro, ro ∈ m_addedRoutes r1 -> ro ∈ tunnel_routes p) /\
  exists r2, run_each (new_calls (on_tun2socks_state false Vpn.Disconnected) p') xserve r1 = Ret (tt, r2) /\
    m_addedRoutes r2 = [] /\ forall e, rt_has (table r2) e = rt_has (table r0) e.
Proof.
  cbn [on_tun2socks_state]. destruct (connected_run false p) as [-> Hs]. intros Hz Hr.
  assert (within (table r0) (tunnel_routes p) r1) as [Hb Hi].
  { revert Hr. apply run_each_inv; [by intros; eapply within_serve|].
    split; [by apply balanced_start|]. rewrite Hz. intros ro Hro. by apply elem_of_nil in Hro. }
  split; [exact Hs|]. split; [exact Hi|]. rewrite disconnected_calls. cbn [run_each xserve].
  destruct (execute_all_table [ sudo ["sysctl"; "-w"; "net.ipv6.conf.all.disable_ipv6=0"];
      sudo ["sysctl"; "-w"; "net.ipv6.conf.default.disable_ipv6=0"] ] r1) as (ok & r2 & E & T & A).
  destruct (clear_balanced (table r0) r2) as (r3 & Ec & A3 & T3).
  { unfold balanced in *. by rewrite A, T. }
  exists r3. split; [|done]. unfold StartRoutingIpv6, rbind, rret. by rewrite E, Ec.
Qed.
End Router.

(** ** Witnesses *)
#[local] Existing Instances list_table list_table_laws dotted_inet ipv4_parser.

Definition sample_xray : XrayProtocol :=
  XrayProtocol_new (λ _, []) "192.168.0.1" 0
    (jinsert "hostName" (JString "192.0.2.1") (jinsert "dns1" (JString "1.1.1.1") [])).
Definition xray_routed : RouterLinux (list rtentry) :=
  match run_each (new_calls (on_tun2socks_state false Vpn.Connected) sample_xray)
          (xserve (λ _, Finished)) sample_router with
  | Ret (_, r) => r
  | _ => sample_router
  end.

Lemma sample_xray_served :
  run_each (new_calls (on_tun2socks_state false Vpn.Connected) sample_xray)
    (xserve (λ _, Finished)) sample_router = Ret (tt, xray_routed).
Proof. vm_compute. reflexivity. Qed.

Lemma xray_routes_given_back_witness :
  m_addedRoutes xray_routed = tunnel_routes sample_xray /\
  exists r2, run_each (new_calls (on_tun2socks_state false Vpn.Disconnected)
      (on_tun2socks_state false Vpn.Connected sample_xray).2) (xserve (λ _, Finished)) xray_routed =
      Ret (tt, r2) /\
    forall e, rt_has (table r2) e = rt_has (table sample_router) e.
Proof.
  destruct (xray_routes_given_back (λ _, Finished) sample_xray sample_router xray_routed eq_refl
    sample_xray_served) as (_ & _ & r2 & E & _ & T).
  split; [vm_compute; reflexivity|]. exists r2. split; [exact E|exact T].
Defined.
