(* ===== verification/ConnectionExec.v ===== *)
(** * Calls of the connection controller

    What the calls of ConnectionController.v and ImportController.v do to a
    client whose servers are described by the settings they show. *)
From Stdlib Require Import ZArith QArith Lia Ascii String.
From stdpp Require Import base list strings.
From S2P Require Import LocalSocketController QtString.
From S2P Require Import Prelude QtString QtContainers Variant Protocols Containers SecureSettings Settings.
From S2P Require Import HostAddress IpAddress NetworkUtilities JsonText ServersModel ServerController VpnProtocol.
From S2P Require Import SettingsProperties ServersModelProperties VpnConnection VpnConnectionProperties.
From S2P Require Import Regex Serialization ServerController WireguardConfigurator.
From S2P Require Import ClientManagement Configurators ContainersModel ImportController ConnectionController.
Local Open Scope string_scope.
Local Open Scope Z_scope.

(** ** The servers *)
Section Servers.
Context {S : Type} `{KeyValueLaws S} `{JsonDocumentLaws} `{AddressParser}.

Lemma mexec_clearServers D :
  mexec (S := S) clearServers D tt
    (mkDesc (with_default (-1) (with_servers [] (dv D))) [] (-1) (-1) (dns_on D)).
Proof.
  destruct (exec_emit_all (servers_of (dv D)) (with_servers [] (dv D))) as [ev Ee].
  unfold clearServers. eapply mexec_bind.
  { eapply mexec_settings. unfold removeAllServers.
    eapply exec_step; [apply exec_serversArray|]. eapply exec_step; [apply exec_setServersArray|exact Ee]. }
  eapply mexec_bind; [eapply mexec_settings, exec_serversArray|]. cbn [dv dl dd dp dns_on].
  rewrite servers_with_servers. eapply mexec_bind; [apply mexec_set_servers|].
  eapply mexec_bind; [apply mexec_setDefaultServerIndex|]. cbn [dv dl dd dp dns_on].
  eapply mexec_bind; [apply mexec_read; by intros s []|].
  eapply mexec_bind; [apply mexec_setProcessedServerIndex|]. cbn [dv dl dd dp dns_on].
  apply mexec_quiet, quiet_emit.
Qed.

(** The name servers of the processed server: its own when they are IPv4
    addresses, else those of the settings. *)
Definition chosen_dns (own fallback : string) : string :=
  if String.eqb own "" || negb (checkIPv4Format own) then fallback else own.
Definition dns_of (D : Desc) : string * string :=
  let server := toObject (array_at (dl D) (dp D)) in
  let setting k d := var_toString (default (VString d) (dv D k)) in
  (chosen_dns (toString (value "dns1" server))
     (if dns_on D && existsb (λ c, bool_decide (container_entry c = DockerContainer.Dns))
                       (server_containers server)
      then amneziaDnsIp else setting "Conf/primaryDns" cloudFlareNs1),
   chosen_dns (toString (value "dns2" server)) (setting "Conf/secondaryDns" cloudFlareNs2)).

Lemma mexec_if {A} (b : bool) (op1 op2 : Run (ServersModel S) A) D a1 a2 :
  mexec op1 D a1 D -> mexec op2 D a2 D ->
  mexec (if b then op1 else op2) D (if b then a1 else a2) D.
Proof. by destruct b. Qed.

Lemma mexec_getDnsPair i D : mexec (S := S) (getDnsPair i) D (dns_of D) D.
Proof.
  unfold getDnsPair, dns_of, chosen_dns.
  eapply mexec_bind; [apply (mexec_read _ _ (toObject (array_at (dl D) (dp D))));
    intros s [_ L _ P _]; unfold model_server; by rewrite L, P|].
  eapply mexec_bind; [apply (mexec_read _ _ (dns_on D)); by intros s []|]. cbv zeta.
  assert (forall k d, mexec (S := S) (ServersModel.on_settings (get_string k d)) D
    (var_toString (default (VString d) (dv D k))) D) as Hg.
  { intros k d. destruct D. eapply mexec_settings. eapply exec_step; [apply exec_get|apply exec_ret]. }
  eapply mexec_bind; [apply mexec_if; [apply mexec_if; [apply mexec_ret|apply Hg]|apply mexec_ret]|].
  eapply mexec_bind; [apply mexec_if; [apply Hg|apply mexec_ret]|]. apply mexec_ret.
Qed.

(** A free name for a new server. *)
Lemma exec_free_name tr m :
  exists name, exec (S := S) (let! l := serversArray in
    nextAvailableServerName (Datatypes.S (length l)) tr) m name m [].
Proof.
  destruct (next_name_found (Datatypes.S (length (servers_of m))) tr (servers_of m) 0)
    as [(j & R & Hj & N)|Hall]; [|apply names_bounded in Hall; lia].
  exists (server_name tr j). eapply exec_step; [apply exec_serversArray|].
  unfold nextAvailableServerName. eapply exec_step; [apply exec_serversArray|].
  rewrite R. apply exec_guard.
Qed.

(** Choosing the server to process tells its containers, once. *)
Lemma setProcessed_signals i (s : ServersModel S) :
  exists s' rest, setProcessedServerIndex i s = Ret (tt, s') /\
    signals s' = app (signals s)
      (containersUpdated (server_containers (toObject (array_at (m_servers s) i))) :: rest) /\
    forall c, deliver rest c = c.
Proof.
  unfold setProcessedServerIndex, updateContainersModel, rbind, set_processed, read, rlift, gets, emit, rret.
  cbn [m_servers m_defaultServerIndex m_processedServerIndex m_isAmneziaDnsEnabled settings signals].
  set (s1 := mkModel _ _ _ _ _ (app (signals s) _)).
  destruct (role_bool (data s1 i IsServerFromGatewayApiRole));
    [destruct (role_bool (data s1 i IsCountrySelectionAvailableRole))|];
    eexists _, _; (split; [reflexivity|]); cbn [signals s1]; rewrite <- ?app_assoc;
    (split; [reflexivity|]); done.
Qed.
End Servers.

(** ** Native WireGuard texts *)
Definition is_link (data : string) : bool :=
  existsb (startsWith data) ["vless://"; "vmess://"; "trojan://"; "ss://"; "ssd://"].

(** A WireGuard or AmneziaWG text with its keys, address and endpoint. *)
Record native_text `{Url} (data host priv pub : string) : Prop := {
  native_no_link : is_link data = false;
  native_format : checkConfigFormat data = ConfigTypes.WireGuard;
  native_host : url_host (fromUserInput (map_value "Endpoint" (config_map data))) = host;
  native_host_nonempty : host <> "";
  native_priv : map_value "PrivateKey" (config_map data) = priv;
  native_priv_nonempty : priv <> "";
  native_pub : map_value "PublicKey" (config_map data) = pub;
  native_pub_nonempty : pub <> "";
  native_address : map_value "Address" (config_map data) <> ""
}.

Definition native_docker (m : list (string * string)) : DockerContainer.t :=
  if is_awg_map m then DockerContainer.Awg else DockerContainer.WireGuard.

Lemma native_docker_name m : "amnezia-" +:+ native_protocol m = containerToString (native_docker m).
Proof. unfold native_protocol, native_docker. by destruct (is_awg_map m). Qed.
Lemma native_docker_from m : containerFromString (containerToString (native_docker m)) = native_docker m.
Proof. unfold native_docker. by destruct (is_awg_map m). Qed.
Lemma native_docker_protocol m : protocolsForContainer (native_docker m) = [defaultProtocol (native_docker m)].
Proof. unfold native_docker. by destruct (is_awg_map m). Qed.
Lemma native_protocol_string m : protoToString (defaultProtocol (native_docker m)) = native_protocol m.
Proof. unfold native_protocol, native_docker. by destruct (is_awg_map m). Qed.

Lemma jinsert_nonempty k v o : v <> JUndefined -> jinsert k v o <> [].
Proof.
  intros Hv E. assert (value k (jinsert k v o) = v) as E' by apply value_insert_eq.
  rewrite E in E'. by cbn in E'.
Qed.

Lemma nonempty_true {A} (l : list A) : l <> [] -> match l with [] => false | _ => true end = true.
Proof. by destruct l. Qed.

Lemma rbind_eq {St A B} (m : Run St A) (k : A -> Run St B) s a s' :
  m s = Ret (a, s') -> rbind m k s = k a s'.
Proof. unfold rbind. by intros ->. Qed.

Section Importing.
Context {S : Type} `{KeyValueLaws S} `{JsonDocumentLaws} `{JsonText} `{AddressParser} `{Url}.
Context (fromBase64Url qUncompress : string -> string) (qChecksum : string -> Z).
Context (vmess_new_Deserialize vmess_Deserialize : string -> string -> QJsonObject * string).
Context (double_text : Q -> string) (platform : Platform) (tr_Server : string).

Lemma on_model_exec {A} (op : Run (ServersModel S) A) D a D' (i : Import S) :
  mexec op D a D' -> described (servers i) D ->
  exists sv, on_model op i = Ret (a, mkImporting (importer i) sv) /\ described sv D'.
Proof. intros He Hd. destruct (He _ Hd) as (sv & E & Hd'). exists sv. unfold on_model. by rewrite E. Qed.

Lemma next_server_name_exec D (i : Import S) :
  described (servers i) D ->
  exists name sv, next_server_name tr_Server i = Ret (name, mkImporting (importer i) sv) /\ described sv D.
Proof.
  intros Hd. destruct (exec_free_name (S := S) tr_Server (dv D)) as [name He].
  assert (mexec (S := S) (ServersModel.on_settings (let! l := serversArray in
    nextAvailableServerName (Datatypes.S (length l)) tr_Server)) D name D) as Hm.
  { destruct D. eapply mexec_settings, He. }
  destruct (on_model_exec _ _ _ _ _ Hm Hd) as (sv & E & Hd'). by exists name, sv.
Qed.

Lemma extract_native data host priv pub D (i : Import S) :
  native_text data host priv pub -> described (servers i) D ->
  exists i' name,
    extractConfigFromData fromBase64Url qUncompress vmess_new_Deserialize vmess_Deserialize
      double_text platform tr_Server data i = Ret (true, i') /\
    m_config (importer i') = native_server platform data host
      (native_port (fromUserInput (map_value "Endpoint" (config_map data)))) (config_map data) name /\
    import_signals (importer i') = import_signals (importer i) /\ described (servers i') D.
Proof.
  intros [Hl Hf Hh Hhn Hp Hpn Hb Hbn Ha] Hd. unfold is_link in Hl. cbn [existsb] in Hl.
  repeat (apply orb_false_iff in Hl as [? Hl]).
  unfold extractConfigFromData. rewrite Hf.
  repeat match goal with E : startsWith data _ = false |- _ => rewrite E; clear E end.
  cbn [andb]. rewrite (rbind_eq _ _ _ _ _ eq_refl). unfold extract_typed.
  rewrite (rbind_eq (asks m_configType) _ _ _ _ eq_refl). cbn [importer with_type m_configType].
  unfold extractWireGuardConfig. rewrite Hh, Hp, Hb.
  rewrite (proj2 (String.eqb_neq host "")), (proj2 (String.eqb_neq priv "")),
    (proj2 (String.eqb_neq pub "")), (proj2 (String.eqb_neq (map_value "Address" _) "")) by done.
  cbn [orb]. set (i1 := mkImporting _ _).
  assert (exists i2, (if is_awg_map (config_map data) then alter (with_type ConfigTypes.Awg) else rret tt) i1 =
    Ret (tt, i2) /\ import_signals (importer i2) = import_signals (importer i) /\
    described (servers i2) D) as (i2 & E2 & Hs2 & Hd2).
  { destruct (is_awg_map _); eexists; by split. }
  destruct (next_server_name_exec D i2 Hd2) as (name & sv & E3 & Hd3).
  eexists _, name. split.
  { rewrite (rbind_eq _ _ i1 (native_server platform data host
      (native_port (fromUserInput (map_value "Endpoint" (config_map data)))) (config_map data) name)
      (mkImporting (importer i2) sv)).
    2: { rewrite (rbind_eq _ _ _ _ _ E2), (rbind_eq _ _ _ _ _ E3). reflexivity. }
    rewrite (rbind_eq _ _ _ _ _ eq_refl). unfold have_config.
    rewrite (rbind_eq _ _ _ _ _ eq_refl). cbn [importer with_config m_config].
    rewrite nonempty_true by (by apply jinsert_nonempty). reflexivity. }
  split; [reflexivity|]. split; [exact Hs2|exact Hd3].
Qed.

(** The import of a configuration with containers. *)
Lemma import_with_containers D (i : Import S) :
  contains_key "containers" (m_config (importer i)) = true -> described (servers i) D ->
  exists i', importConfig qChecksum i = Ret (tt, i') /\
    import_signals (importer i') = app (import_signals (importer i)) [importFinished] /\
    described (servers i') (let l := app (servers_of (dv D)) [JObject (m_config (importer i))] in
      mkDesc (with_servers l (dv D)) l (dd D) (dp D) (dns_on D)).
Proof.
  intros Hk Hd. unfold importConfig. rewrite (rbind_eq _ _ _ _ _ eq_refl). rewrite Hk, orb_true_r.
  destruct (on_model_exec _ _ _ _ _ (mexec_addServer (m_config (importer i)) D) Hd) as (sv & E & Hd').
  eexists. split.
  { unfold rbind at 1. rewrite (rbind_eq _ _ _ _ _ E). reflexivity. }
  split; [reflexivity|exact Hd'].
Qed.
End Importing.

(** ** Servers with a single container *)

(** The text has nothing that the name servers are put in for. *)
Record plain_document (s : string) : Prop := {
  plain_nonempty : s <> "";
  plain_primary : contains_str s "$PRIMARY_DNS" = false;
  plain_secondary : contains_str s "$SECONDARY_DNS" = false
}.

Lemma plain_unchanged dns s : plain_document s -> processConfigWithDnsSettings dns s = s.
Proof.
  intros [_ H1' H2']. unfold processConfigWithDnsSettings.
  rewrite (replace_absent "$PRIMARY_DNS") by done. by apply replace_absent.
Qed.

Section Single.
Context {S : Type} `{KeyValueLaws S} `{JsonDocumentLaws}.
Context (platform : Platform) (resources : string).
Context (config container data : QJsonObject) (d : DockerContainer.t).

(** An imported server: one container of a kind whose configuration is the
    document [data]. *)
Record single_server : Prop := {
  single_kind : d ∈ [DockerContainer.Awg; DockerContainer.WireGuard; DockerContainer.Xray;
                     DockerContainer.SSXray];
  single_containers : value "containers" config = JArray [JObject container];
  single_default : toString (value "defaultContainer" config) = containerToString d;
  single_version : value "config_version" config = JUndefined;
  single_name : toString (value "container" container) = containerToString d;
  single_last : toString (value "last_config"
    (toObject (value (protoToString (defaultProtocol d)) container))) = toJson (JObject data);
  single_plain : plain_document (toJson (JObject data));
  single_mtu : takes_mtu d = true -> toString (value "mtu" data) <> ""
}.

Hypothesis Hsingle : single_server.

Ltac by_kind :=
  let Hk := fresh in
  pose proof (single_kind Hsingle) as Hk; apply list_elem_of_In in Hk; simpl in Hk;
  destruct Hk as [<-|[<-|[<-|[<-|[]]]]]; done.

Lemma single_from : containerFromString (containerToString d) = d.
Proof. by_kind. Qed.
Lemma single_protocols : protocolsForContainer d = [defaultProtocol d].
Proof. by_kind. Qed.
Lemma single_not_none : d <> DockerContainer.None.
Proof. by_kind. Qed.
Lemma single_not_other : containerService d <> ServiceType.Other.
Proof. by_kind. Qed.
Lemma single_vpn_kind :
  bool_decide (containerService d = ServiceType.Vpn) || bool_decide (d = DockerContainer.SSXray) = true.
Proof. by_kind. Qed.
Lemma single_process dns str :
  configurator_processLocal (S := S) platform resources dns false (defaultProtocol d) str =
  rret (processConfigWithDnsSettings dns str).
Proof. by_kind. Qed.

(** The configuration a connection to the server is started with. *)
Definition single_vpn (dns : string * string) : QJsonObject :=
  jinsert "config_version" (JInt 0)
  (jinsert "description" (JString (toString (value "description" config)))
  (jinsert "hostName" (JString (toString (value "hostName" config)))
  (jinsert "dns2" (JString dns.2)
  (jinsert "dns1" (JString dns.1)
  (jinsert "protocol" (JString (protoToString (defaultProtocol d)))
  (jinsert (key_proto_config_data (defaultProtocol d)) (JObject data) [])))))).

Lemma exec_single_vpn dns v :
  exec (S := S) (createVpnConfiguration platform resources dns config container d) v (single_vpn dns) v [].
Proof.
  unfold createVpnConfiguration. rewrite bool_decide_false by apply single_not_other.
  rewrite (single_version Hsingle).
  assert (exec (S := S) (config_data platform resources dns false d container (defaultProtocol d)) v
    data v []) as Hc.
  { unfold config_data. rewrite (single_last Hsingle), single_process.
    rewrite plain_unchanged by apply (single_plain Hsingle).
    eapply exec_step; [apply exec_ret|]. rewrite document_read by done. cbn [toObject].
    destruct (takes_mtu d) eqn:Et; [|apply exec_ret].
    rewrite (proj2 (String.eqb_neq _ _) (single_mtu Hsingle Et)). apply exec_ret. }
  eapply exec_step.
  { rewrite single_protocols. cbn [add_config_data].
    change (negb (json_toInt JUndefined =? 0)) with false. cbn [andb].
    eapply exec_step; [exact Hc|]. apply exec_ret. }
  apply exec_ret.
Qed.
End Single.

(** ** The configuration of a native text *)
Section Native.
Context `{JsonDocument}.
Context (platform : Platform) (data host port : string) (m : list (string * string)).

Abbreviation last_config := (native_last_config platform data host (toInt port) m).

Lemma value_nonempty_or k k' s o : k <> k' -> value k' (nonempty_or k s o) = value k' o.
Proof. intros Hk. unfold nonempty_or. destruct (String.eqb s ""); [done|]. by rewrite value_insert_ne. Qed.

Lemma value_junk k l o :
  k ∉ l -> value k (foldl (λ o k, jinsert k (JString (map_value k m)) o) o l) = value k o.
Proof.
  revert o. induction l as [|x l IH]; intros o Hk; [done|]. cbn [foldl].
  apply not_elem_of_cons in Hk as [Hx Hk]. rewrite IH by done. by rewrite value_insert_ne by congruence.
Qed.

Lemma last_config_value k :
  k <> "mtu" -> k ∉ junk_keys -> value k last_config = value k (native_config data host (toInt port) m).
Proof.
  intros Hm Hk. unfold native_last_config. rewrite value_insert_ne by congruence.
  destruct (is_awg_map m); [by apply value_junk|done].
Qed.

Ltac last_value :=
  rewrite last_config_value by (try discriminate; vm_compute; intros Hin;
    repeat (apply elem_of_cons in Hin as [Hin|Hin]; [discriminate|]); by apply elem_of_nil in Hin);
  unfold native_config; rewrite ?value_nonempty_or by discriminate; json_lookup;
  rewrite ?value_nonempty_or by discriminate; json_lookup;
  rewrite ?value_nonempty_or by discriminate; json_lookup.

Lemma last_config_priv : value "client_priv_key" last_config = JString (map_value "PrivateKey" m).
Proof. last_value. done. Qed.
Lemma last_config_pub : value "server_pub_key" last_config = JString (map_value "PublicKey" m).
Proof. last_value. done. Qed.
Lemma last_config_host : value "hostName" last_config = JString host.
Proof. last_value. done. Qed.
Lemma last_config_text : value "config" last_config = JString data.
Proof. last_value. done. Qed.
Lemma last_config_routes :
  value "allowed_ips" last_config = JArray (map JString (split ", " (map_value "AllowedIPs" m))).
Proof. last_value. done. Qed.

Lemma last_config_mtu : toString (value "mtu" last_config) <> "".
Proof.
  unfold native_last_config. rewrite value_insert_eq. cbn [toString].
  destruct (String.eqb_spec (map_value "MTU" m) ""); [|done].
  unfold defaultMtu. by destruct (is_mobile platform).
Qed.

Lemma native_server_value k name :
  value k (native_server platform data host port m name) =
    if String.eqb k "hostName" then JString host
    else if String.eqb k "dns1" || String.eqb k "dns2" then
      match search wg_dns_rx data with
      | Some d => JString (captured (if String.eqb k "dns1" then 1 else 2) d)
      | None => JUndefined
      end
    else if String.eqb k "description" then JString name
    else if String.eqb k "defaultContainer" then JString (containerToString (native_docker m))
    else if String.eqb k "containers" then JArray [JObject (native_container platform data host port m)]
    else JUndefined.
Proof.
  unfold native_server. rewrite <- native_docker_name.
  destruct (search wg_dns_rx data);
    repeat match goal with
    | |- context [String.eqb k ?x] =>
        destruct (String.eqb_spec k x) as [->|?]; [by json_lookup|]
    end; by rewrite ?value_insert_ne by congruence.
Qed.

Lemma native_container_last :
  toString (value "last_config" (toObject (value (native_protocol m)
    (native_container platform data host port m)))) = toJson (JObject last_config).
Proof. unfold native_container. by json_lookup. Qed.

Lemma native_container_name :
  toString (value "container" (native_container platform data host port m)) =
  containerToString (native_docker m).
Proof.
  unfold native_container. rewrite <- native_docker_name. unfold native_protocol.
  destruct (is_awg_map m); by json_lookup.
Qed.

Abbreviation server name := (native_server platform data host port m name).
Abbreviation vpn name dns := (single_vpn (server name) last_config (native_docker m) dns).

Lemma native_single name :
  plain_document (toJson (JObject last_config)) ->
  single_server (server name) (native_container platform data host port m) last_config (native_docker m).
Proof.
  intros Hp. split; rewrite ?native_server_value; try done.
  - unfold native_docker. destruct (is_awg_map m); apply list_elem_of_In; simpl; auto.
  - apply native_container_name.
  - by rewrite native_protocol_string, native_container_last.
  - intros _. apply last_config_mtu.
Qed.

Lemma native_vpn_wg name dns : wg_config (vpn name dns) = last_config.
Proof.
  unfold wg_config, single_vpn, key_proto_config_data. rewrite native_protocol_string.
  unfold native_protocol. destruct (is_awg_map m); by json_lookup.
Qed.

Lemma native_vpn_config name dns :
  native_value "PersistentKeepalive" data <> Abort ->
  wireguard_config (vpn name dns) (map_value "PrivateKey" m) (map_value "PublicKey" m) host.
Proof.
  intros Hk. split; rewrite ?native_vpn_wg.
  - unfold single_vpn, key_proto_config_data. rewrite native_protocol_string.
    unfold native_protocol. destruct (is_awg_map m); by json_lookup.
  - by rewrite last_config_text.
  - apply last_config_priv.
  - apply last_config_pub.
  - apply last_config_host.
  - right. unfold single_vpn. by json_lookup.
Qed.
End Native.

(** ** The client *)
Section Client.
Context {S W : Type} `{KeyValueLaws S} `{JsonDocumentLaws} `{JsonText} `{AddressParser} `{Url}.
Context (access : ServerCredentials -> ServerAccess W).
Context (platform : Platform) (template : ProtocolScriptType -> DockerContainer.t -> string).
Context (toBase64 : string -> string) (fresh : Fresh) (productName now resources : string).
Context (conn : VpnConnection S).

Lemma on_servers_exec {A} (op : Run (ServersModel S) A) D a D' (c : Client S W) :
  mexec op D a D' -> described (servers (importing c)) D ->
  exists sv cs, on_servers op c =
      Ret (a, mkClient (controller c) (mkImporting (importer (importing c)) sv) cs (clients c)) /\
    described sv D'.
Proof.
  intros He Hd. destruct (on_model_exec _ _ _ _ _ He Hd) as (sv & E & Hd').
  eexists sv, _. unfold on_servers, on_importing. rewrite E. split; [reflexivity|done].
Qed.

(** The processed server is the one whose containers are shown. *)
Lemma on_servers_processed i D (c : Client S W) :
  described (servers (importing c)) D ->
  exists sv, on_servers (setProcessedServerIndex i) c =
      Ret (tt, mkClient (controller c) (mkImporting (importer (importing c)) sv)
        (containers_updateModel (server_containers (toObject (array_at (dl D) i))) (containers c))
        (clients c)) /\
    described sv (mkDesc (dv D) (dl D) (dd D) i (dns_on D)).
Proof.
  intros Hd. destruct (mexec_setProcessedServerIndex (S := S) i D _ Hd) as (sv & E & Hd').
  destruct (setProcessed_signals i (servers (importing c))) as (sv' & rest & E' & Es & Hr).
  rewrite E in E'. injection E' as <-. exists sv. split; [|done].
  unfold on_servers, on_importing, on_model. rewrite E. cbn [servers]. rewrite Es, drop_app_length.
  cbn [deliver foldl]. fold (deliver rest). unfold deliver in Hr. rewrite Hr.
  by rewrite (described_servers _ _ Hd).
Qed.

(** The shown configuration of the only container. *)
Lemma shown_config o cs (k : DockerContainer.t) :
  containerFromString (toString (value "container" o)) = k -> k <> DockerContainer.None ->
  getContainerConfig platform (containers_updateModel [JObject o] cs) (container_row k) = o.
Proof.
  intros E Hk. unfold getContainerConfig, containers_data, containers_updateModel. cbn [foldl toObject].
  rewrite E. destruct k; try done; reflexivity.
Qed.

Lemma model_supported_row cs k :
  model_supported platform cs (container_row k) = isSupportedByCurrentPlatform platform k.
Proof. unfold model_supported, containers_data. by destruct k. Qed.

Section Server.
Context (config container data : QJsonObject) (d : DockerContainer.t).
Hypothesis Hsingle : single_server config container data d.

Lemma single_model D (s : ServersModel S) :
  described s D -> dl D = [JObject config] -> model_server s 0 = config.
Proof. intros Hd Hl. unfold model_server. by rewrite (described_servers _ _ Hd), Hl. Qed.

Lemma single_roles D (s : ServersModel S) :
  described s D -> dl D = [JObject config] ->
  ServersModel.data s 0 HasInstalledContainers = RBool true /\
  ServersModel.data s 0 DefaultContainerRole = RContainer d.
Proof.
  intros Hd Hl. unfold ServersModel.data. unfold in_model, getServersCount.
  rewrite (described_servers _ _ Hd), Hl. cbn [negb array_size length Z.of_nat andb Z.leb Z.ltb].
  unfold serverHasInstalledContainers. rewrite (single_model D s Hd Hl).
  unfold server_containers. rewrite (single_containers _ _ _ _ Hsingle), (single_default _ _ _ _ Hsingle).
  rewrite (single_from _ _ _ _ Hsingle). split; [|done]. f_equal. cbn [toArray existsb].
  unfold container_entry. cbn [toObject].
  rewrite (single_name _ _ _ _ Hsingle), (single_from _ _ _ _ Hsingle).
  by rewrite (single_vpn_kind _ _ _ _ Hsingle).
Qed.

Lemma continue_single D (c : Client S W) cs :
  described (servers (importing c)) D -> dl D = [JObject config] -> dd D = 0 -> dp D = 0 ->
  containers c = containers_updateModel [JObject container] cs ->
  isSupportedByCurrentPlatform platform d = true ->
  exists c', continueConnection access platform template toBase64 fresh productName now resources conn c =
      Ret (tt, c') /\
    controller c' = ctl_note (ctl_connectToVpn 0 (credentials_of config) d
      (single_vpn config data d (dns_of D))) (controller c) /\
    described (servers (importing c')) D.
Proof.
  intros Hd Hl Hdd Hdp Hc Hsup. unfold continueConnection.
  rewrite (rbind_eq _ _ _ _ _ eq_refl). rewrite (described_default _ _ Hd), Hdd.
  destruct (single_roles D _ Hd Hl) as [-> ->]. cbn [role_bool role_container negb].
  rewrite (rbind_eq _ _ _ _ _ eq_refl). rewrite model_supported_row, Hsup. cbn [negb].
  pose proof (single_not_none _ _ _ _ Hsingle) as Hn.
  rewrite bool_decide_false by done. rewrite Hc.
  rewrite (shown_config _ _ d) by
    (done || by rewrite (single_name _ _ _ _ Hsingle), (single_from _ _ _ _ Hsingle)).
  unfold updateProtocolConfig, isProtocolConfigExists. rewrite (single_protocols _ _ _ _ Hsingle).
  cbn [forallb]. rewrite (single_last _ _ _ _ Hsingle). unfold differs.
  rewrite (proj2 (String.eqb_neq _ _) (plain_nonempty _ (single_plain _ _ _ _ Hsingle))). cbn [negb andb].
  rewrite (rbind_eq _ _ _ _ _ eq_refl). change (failed ErrorCode.NoError) with false. cbn iota.
  destruct (on_servers_exec _ _ _ _ _ (mexec_getDnsPair 0 D) Hd) as (sv & cs' & E & Hd').
  rewrite (rbind_eq _ _ _ _ _ E), (single_model D _ Hd Hl).
  assert (mexec (S := S) (ServersModel.on_settings (createVpnConfiguration platform resources (dns_of D)
    config container d)) D (single_vpn config data d (dns_of D)) D) as Hm.
  { destruct D. eapply mexec_settings. by apply exec_single_vpn. }
  destruct (on_servers_exec _ _ _ _ (mkClient (controller c) (mkImporting (importer (importing c)) sv) cs'
    (clients c)) Hm Hd') as (sv2 & cs2 & E2 & Hd2).
  rewrite (rbind_eq _ _ _ _ _ E2). eexists. split; [reflexivity|]. split; [|exact Hd2].
  cbn [controller]. f_equal. f_equal. unfold model_credentials. by rewrite (single_model D _ Hd Hl).
Qed.
End Server.
End Client.

(** ** Opening *)
Section Opening.
Context {S W : Type} `{KeyValueLaws S} `{JsonDocumentLaws} `{JsonText} `{AddressParser} `{Url}.
Context (access : ServerCredentials -> ServerAccess W).
Context (fromBase64Url qUncompress : string -> string) (qChecksum : string -> Z).
Context (vmess_new_Deserialize vmess_Deserialize : string -> string -> QJsonObject * string).
Context (double_text : Q -> string) (platform : Platform) (tr_Server : string).
Context (template : ProtocolScriptType -> DockerContainer.t -> string) (toBase64 : string -> string).
Context (fresh : Fresh) (productName now resources : string).
Context (conn : VpnConnection S).

Abbreviation opened := (openConnection conn).
Abbreviation arrived := (string_arrived access fromBase64Url qUncompress qChecksum
  vmess_new_Deserialize vmess_Deserialize double_text platform tr_Server template toBase64 fresh
  productName now resources conn).
Abbreviation imported := (on_import access platform template toBase64 fresh productName now resources conn).

(** What is left of the servers when a connection is opened. *)
Definition cleared (D : Desc) : Desc :=
  mkDesc (with_default (-1) (with_servers [] (dv D))) [] (-1) (-1) (dns_on D).

Lemma opened_exec D regions id (c : Client S W) :
  described (servers (importing c)) D -> getSelectedRegionId regions = id -> id <> "" ->
  exists c1, opened regions c = Ret (tt, c1) /\
    controller c1 = ctl_note (ctl_stringRequested id)
      (ctl_onConnectionStateChanged (lastError conn) Vpn.Preparing true (controller c)) /\
    importer (importing c1) = importer (importing c) /\
    described (servers (importing c1)) (cleared D).
Proof.
  intros Hd Hr Hid. unfold openConnection. rewrite (rbind_eq _ _ _ _ _ eq_refl).
  destruct (on_servers_exec clearServers D tt (cleared D) (mkClient
    (ctl_onConnectionStateChanged (lastError conn) Vpn.Preparing true (controller c))
    (importing c) (containers c) (clients c)) (mexec_clearServers D) Hd) as (sv & cs & E & Hd').
  rewrite (rbind_eq _ _ _ _ _ E), Hr, (proj2 (String.eqb_neq _ _) Hid).
  eexists. split; [reflexivity|]. by split.
Qed.

(** A call of the import and the slots of the signals it emits. *)
Lemma imported_exec {A} (op : Run (Import S) A) a i' (c : Client S W) new :
  op (importing c) = Ret (a, i') ->
  import_signals (importer i') = app (import_signals (importer (importing c))) new ->
  exists cs, imported op c =
    (do! run_each new (on_import_signal access platform template toBase64 fresh productName now
                         resources conn) in rret a)
      (mkClient (controller c) i' cs (clients c)).
Proof.
  intros E Es. eexists. unfold on_import. rewrite (rbind_eq _ _ _ _ _ eq_refl).
  unfold rbind at 1. unfold on_importing at 1. rewrite E.
  rewrite (rbind_eq _ _ _ _ _ eq_refl). cbn [importing]. rewrite Es, drop_app_length. reflexivity.
Qed.

(** The only server, as the settings show it after its import. *)
Definition only_server (o : QJsonObject) (D : Desc) : Desc :=
  mkDesc (with_default 0 (with_servers [JObject o] (dv D))) [JObject o] 0 0 (dns_on D).

Lemma finished_single D config container data d (c : Client S W) :
  single_server config container data d ->
  described (servers (importing c)) D -> dl D = [JObject config] ->
  isSupportedByCurrentPlatform platform d = true ->
  let D' := mkDesc (with_default 0 (dv D)) (dl D) 0 0 (dns_on D) in
  exists c', on_import_signal access platform template toBase64 fresh productName now resources conn
      importFinished c = Ret (tt, c') /\
    controller c' = ctl_note (ctl_connectToVpn 0 (credentials_of config) d
      (single_vpn config data d (dns_of D'))) (controller c) /\
    described (servers (importing c')) D'.
Proof.
  intros Hsingle Hd Hl Hsup D'. cbn [on_import_signal].
  destruct (on_servers_exec _ _ _ _ _ (mexec_setDefaultServerIndex 0 D) Hd) as (sv & cs & E & Hd1).
  rewrite (rbind_eq _ _ _ _ _ E).
  destruct (on_servers_processed 0 _ (mkClient (controller c)
    (mkImporting (importer (importing c)) sv) cs (clients c)) Hd1) as (sv2 & E2 & Hd2).
  rewrite (rbind_eq _ _ _ _ _ E2). cbn [dv dl dd dp dns_on] in Hd2 |- *.
  cbn [controller importing importer containers clients].
  destruct (continue_single access platform template toBase64 fresh productName now resources conn
    config container data d Hsingle D' (mkClient (controller c) (mkImporting (importer (importing c)) sv2)
      (containers_updateModel (server_containers (toObject (array_at (dl D) 0))) cs) (clients c)) cs)
    as (c' & E3 & Ec & Hd3); try done.
  { cbn [containers]. rewrite Hl. change (toObject (array_at [JObject config] 0)) with config.
    unfold server_containers. by rewrite (single_containers _ _ _ _ Hsingle). }
  by exists c'.
Qed.

(** A string from which a server with a single container is extracted. *)
Lemma arrived_single D config container data d str i' (c : Client S W) :
  described (servers (importing c)) D -> servers_of (dv D) = [] ->
  single_server config container data d -> isSupportedByCurrentPlatform platform d = true ->
  extractConfigFromData fromBase64Url qUncompress vmess_new_Deserialize vmess_Deserialize
    double_text platform tr_Server str (importing c) = Ret (true, i') ->
  m_config (importer i') = config ->
  import_signals (importer i') = import_signals (importer (importing c)) -> described (servers i') D ->
  exists c', arrived str c = Ret (tt, c') /\
    controller c' = ctl_note (ctl_connectToVpn 0 (credentials_of config) d
      (single_vpn config data d (dns_of (only_server config D)))) (controller c) /\
    described (servers (importing c')) (only_server config D).
Proof.
  intros Hd Hs Hsingle Hsup E Ec Es Hd'. unfold string_arrived.
  destruct (imported_exec _ _ _ c [] E) as [cs E1]; [by rewrite Es, app_nil_r|].
  rewrite (rbind_eq _ _ _ true (mkClient (controller c) i' cs (clients c)) E1). cbn [negb].
  destruct (import_with_containers qChecksum D i') as (i2 & E2 & Es2 & Hd2).
  { rewrite Ec. apply contains_key_value. by rewrite (single_containers _ _ _ _ Hsingle). }
  { done. }
  destruct (imported_exec _ _ _ (mkClient (controller c) i' cs (clients c)) _ E2 Es2) as [cs2 E3].
  rewrite Ec, Hs in Hd2. cbn [app] in Hd2.
  destruct (finished_single _ config container data d
    (mkClient (controller c) i2 cs2 (clients c)) Hsingle Hd2) as (c' & E4 & Ec' & Hd4); try done.
  exists c'. split; [|by split].
  rewrite E3. cbn [run_each controller clients]. rewrite (rbind_eq _ _ _ tt c'); [done|].
  by rewrite (rbind_eq _ _ _ _ _ E4).
Qed.
End Opening.
