(* ===== verification/ConnectionProperties.v ===== *)
(** * Properties of opening a connection

    From the selected region to the request the daemon parses, and what becomes
    of a connection string that cannot be imported (ConnectionController.v,
    ConnectionExec.v). *)
From Stdlib Require Import ZArith QArith Lia Ascii String.
From stdpp Require Import base list strings.
From S2P Require Import LocalSocketController InterfaceConfig DaemonConfig QtString.
From S2P Require Import Prelude QtString QtContainers Variant Protocols Containers SecureSettings Settings.
From S2P Require Import HostAddress IpAddress NetworkUtilities JsonText ServersModel ServerController VpnProtocol.
From S2P Require Import SecureSettingsProperties SettingsProperties ServersModelProperties VpnConnection VpnConnectionProperties.
From S2P Require Import Regex Serialization ServerController WireguardConfigurator.
From S2P Require Import ClientManagement Configurators ContainersModel ImportController ConnectionController.
From S2P Require Import ConnectionExec.
Local Open Scope string_scope.
Local Open Scope Z_scope.

Section Opening.
Context {S W : Type} `{KeyValueLaws S} `{JsonDocumentLaws} `{JsonText} `{AddressParser} `{HopKeys} `{Url}.
Context (access : ServerCredentials -> ServerAccess W).
Context (fromBase64Url qUncompress : string -> string) (qChecksum : string -> Z).
Context (vmess_new_Deserialize vmess_Deserialize : string -> string -> QJsonObject * string).
Context (double_text : Q -> string) (platform : Platform) (tr_Server : string).
Context (template : ProtocolScriptType -> DockerContainer.t -> string) (toBase64 : string -> string).
Context (fresh : Fresh) (productName now resources : string).
Context (conn : VpnConnection S).

Abbreviation opened := (openConnection conn).
Abbreviation arrived := (string_arrived access fromBase64Url qUncompress qChecksum
  vmess_new_Deserialize vmess_Deserialize double_text platform tr_Server template toBase64 fresh
  productName now resources conn).
Abbreviation imported := (on_import access platform template toBase64 fresh productName now resources conn).


(** The settings that decide about the tunnel are not touched by an import. *)
Lemma cleared_servers D : servers_of (dv (cleared D)) = [].
Proof. cbn [dv cleared]. by rewrite servers_with_default, servers_with_servers. Qed.

Lemma only_server_modes o D : modes_ok (dv D) -> modes_ok (dv (only_server o (cleared D))).
Proof. intros [H1' H2']. by split. Qed.


(** ** Connections that do not start *)

Definition toggles (regions : RegionsModel) (n : nat) : Run (Client S W) unit :=
  run_each (replicate n tt) (λ _, toggleConnection conn regions).

Lemma toggles_preparing regions n (c : Client S W) :
  m_state (controller c) = Vpn.Preparing ->
  exists c', toggles regions n c = Ret (tt, c') /\ m_state (controller c') = Vpn.Preparing /\
    ctl_events (controller c') = app (ctl_events (controller c)) (replicate n ctl_preparingConfig).
Proof.
  unfold toggles. revert c. induction n as [|n IH]; intros c Hc; cbn [replicate run_each].
  - exists c. by rewrite app_nil_r.
  - set (c1 := mkClient (ctl_note ctl_preparingConfig (controller c)) (importing c) (containers c)
      (clients c)).
    rewrite (rbind_eq _ _ _ tt c1).
    2: { unfold toggleConnection. rewrite (rbind_eq _ _ _ _ _ eq_refl). by rewrite bool_decide_true. }
    destruct (IH c1) as (c' & E & Hs & Ev); [done|]. exists c'. split; [done|]. split; [done|].
    rewrite Ev. cbn [c1 controller ctl_note ctl_events]. by rewrite <- app_assoc.
Qed.

(** A JSON configuration that is no server. *)
Record no_server (data : string) (o : QJsonObject) : Prop := {
  no_server_link : is_link data = false;
  no_server_format : checkConfigFormat data = ConfigTypes.Amnezia;
  no_server_document : fromJsonDoc data = JObject o;
  no_server_nonempty : o <> [];
  no_server_containers : contains_key "containers" o = false;
  no_server_version : contains_key "config_version" o = false;
  no_server_credentials : credentials_isValid (credentials_of o) = false
}.

Lemma extract_no_server data o (i : Import S) :
  no_server data o ->
  extractConfigFromData fromBase64Url qUncompress vmess_new_Deserialize vmess_Deserialize
    double_text platform tr_Server data i =
  Ret (true, mkImporting (with_config o (with_type ConfigTypes.Amnezia (importer i))) (servers i)).
Proof.
  intros [Hl Hf Hdoc Hne Hc Hv Hcr]. unfold is_link in Hl. cbn [existsb] in Hl.
  repeat (apply orb_false_iff in Hl as [? Hl]).
  unfold extractConfigFromData. rewrite Hf.
  repeat match goal with E : startsWith data _ = false |- _ => rewrite E; clear E end.
  cbn [andb]. rewrite (rbind_eq _ _ _ _ _ eq_refl). unfold extract_typed.
  rewrite (rbind_eq (asks m_configType) _ _ _ _ eq_refl). cbn [importer with_type m_configType].
  rewrite Hdoc. cbn [toObject].
  assert (value "containers" o = JUndefined) as Hu.
  { unfold value. unfold contains_key, qm_contains in Hc. by destruct (qm_find "containers" o). }
  unfold processAmneziaConfig. rewrite Hu. cbn [toArray process_containers].
  rewrite (rbind_eq _ _ _ _ _ eq_refl). unfold have_config.
  rewrite (rbind_eq _ _ _ true (mkImporting (with_config o (with_type ConfigTypes.Amnezia (importer i)))
    (servers i))).
  2: { rewrite (rbind_eq _ _ _ _ _ eq_refl). cbn [importer with_config m_config].
       by rewrite nonempty_true. }
  unfold checkForMaliciousStrings. by rewrite Hu.
Qed.

Lemma import_no_server data o (i : Import S) :
  no_server data o -> m_config (importer i) = o ->
  exists i', importConfig qChecksum i = Ret (tt, i') /\
    import_signals (importer i') = app (import_signals (importer i))
      [importErrorCode ErrorCode.ImportInvalidConfigError false].
Proof.
  intros [_ _ _ _ Hc Hv Hcr] Hi. unfold importConfig. rewrite (rbind_eq _ _ _ _ _ eq_refl), Hi.
  rewrite Hcr, Hc, Hv. cbn [orb]. rewrite (rbind_eq _ _ _ _ _ eq_refl). eexists.
  split; [reflexivity|reflexivity].
Qed.

(** C40. A connection string that is a JSON document naming no server (no
    containers, no [config_version], no valid credentials) leaves the client preparing for ever. The
    import rejects it with ImportInvalidConfigError, which the page of the
    application shows as a message; but the slot of the controller, which should
    end the attempt, compares the state of the protocol (here any but preparing,
    which opening a connection does not make it) and not its own and does nothing: the controller is left as it was, preparing, and pressing the button
    any number of times neither cancels the attempt nor starts another one. *)
Theorem rejected_import_hangs (D : Desc) (regions : RegionsModel) (id : string) (c : Client S W)
    (data : string) (o : QJsonObject) (n : nat) :
  described (servers (importing c)) D -> getSelectedRegionId regions = id -> id <> "" ->
  connectionState conn <> Vpn.Preparing -> no_server data o ->
  exists c1 c2 c3,
    opened regions c = Ret (tt, c1) /\ arrived data c1 = Ret (tt, c2) /\
    controller c2 = controller c1 /\
    import_signals (importer (importing c2)) = app (import_signals (importer (importing c1)))
      [importErrorCode ErrorCode.ImportInvalidConfigError false] /\
    toggles regions n c2 = Ret (tt, c3) /\
    m_state (controller c3) = Vpn.Preparing /\
    ctl_events (controller c3) = app (ctl_events (controller c))
      (ctl_stateChanged :: ctl_stringRequested id :: replicate n ctl_preparingConfig).
Proof.
  intros Hd Hr Hid Hconn Hn.
  destruct (opened_exec conn D regions id c Hd Hr Hid) as (c1 & E1 & Ec1 & _ & _).
  pose proof (extract_no_server data o (importing c1) Hn) as Ex.
  destruct (imported_exec access platform template toBase64 fresh productName now resources conn _ _ _
    c1 [] Ex) as [cs Ei]; [by rewrite app_nil_r|].
  set (i1 := mkImporting _ _) in Ex, Ei.
  destruct (import_no_server data o i1 Hn eq_refl) as (i2 & E2 & Es2).
  destruct (imported_exec access platform template toBase64 fresh productName now resources conn _ _ _
    (mkClient (controller c1) i1 cs (clients c1)) _ E2 Es2) as [cs2 E3].
  set (c2 := mkClient (controller c1) i2 cs2 (clients c1)).
  destruct (toggles_preparing regions n c2) as (c3 & Et & Hs & Ev); [by rewrite <- ?Ec1; cbn; rewrite Ec1|].
  exists c1, c2, c3. split; [exact E1|]. split.
  { unfold string_arrived. rewrite (rbind_eq _ _ _ _ _ Ei). cbn [negb]. rewrite E3.
    cbn [run_each]. unfold on_import_signal. by rewrite bool_decide_false. }
  split; [done|]. split; [exact Es2|]. split; [done|]. split; [done|]. rewrite Ev. cbn [c2 controller]. rewrite Ec1.
  simpl. by rewrite <- !app_assoc.
Qed.
End Opening.

(** ** Witnesses *)
#[local] Existing Instances windows_store windows_store_laws sample_json sample_json_laws.
#[local] Existing Instances ipv4_parser plain_keys.

(** Endpoints of the form [host:port]. *)
Definition endpoint_url : Url := {|
  url_valid := λ _, true;
  url_host := λ s, left_of (lastIndexOf s ":") s;
  url_port := λ s, if lastIndexOf s ":" <? 0 then -1 else toInt (mid (lastIndexOf s ":" + 1) s);
  url_fragment := λ _, ""; url_fragment_decoded := λ _, "";
  url_userInfo := λ _, ""; url_userName := λ _, "";
  hasQueryItem := λ _ _, false; queryItemValue := λ _ _, ""; queryItemValue_decoded := λ _ _, "";
  fromPercentEncoding := id; fromUserInput := id; fromBase64 := id
|}.

(** A server that cannot be reached. *)
Definition no_access : ServerAccess unit := {|
  sa_runContainerScript := λ _ _, sret ([], ErrorCode.SshInternalError);
  sa_getTextFile := λ _ _, sret ("", ErrorCode.SshInternalError);
  sa_upload := λ _ _ _ _, sret ErrorCode.SshInternalError;
  sa_run := λ _ _, sret ([], ErrorCode.SshInternalError);
  sa_fill := λ _ _ s, s
|}.
#[local] Existing Instance endpoint_url.
#[local] Instance no_text : JsonText := table_codec [].

Definition region_text : string :=
  unlines ["[Interface]"; "PrivateKey = cHJpdg=="; "Address = 10.8.0.2/32"; "[Peer]";
           "PublicKey = cHVi"; "AllowedIPs = 0.0.0.0/0, ::/0"; "Endpoint = 192.0.2.1:51820";
           "PersistentKeepalive = 25"].

Definition sample_importer : ImportController :=
  mkImport [] "" ConfigTypes.Invalid "" [] false 0 0 [].
Definition sample_client : Client SampleStore unit :=
  mkClient Controller_new (mkImporting sample_importer sample_model) (mkContainers [] 0)
    (mkClients [] tt []).
Definition sample_regions : RegionsModel := mkRegions [mkRegion "nl" "NL" "Netherlands"] "" 0.
Definition sample_connection : VpnConnection SampleStore :=
  mkConnection sample_settings [] "" None false [].
Definition sample_fresh : Fresh := mkFresh ("", "") "" "" "" "".

Lemma sample_plain v : plain_document (toJson v).
Proof.
  assert (char_free "$" (toJson v) = true) as Hf.
  { change (char_free "$" ("[" +:+ tree_text (json_tree v)) = true). rewrite char_free_app.
    unfold tree_text. by rewrite (number_char_free "$"). }
  split; [done|by apply contains_char_free|by apply contains_char_free].
Qed.

Lemma region_text_native : native_text region_text "192.0.2.1" "cHJpdg==" "cHVi".
Proof. split; try discriminate; vm_compute; done. Qed.

Lemma sample_modes : modes_ok (dv sample_desc).
Proof. split; discriminate. Qed.


(** A document with nothing but a key, and a codec that reads it. *)
Definition key_only : QJsonObject := [("api_key", JString "k")].
Definition key_text : string :=
  "{" +:+ dq +:+ "api_key" +:+ dq +:+ ":" +:+ dq +:+ "k" +:+ dq +:+ "}".
Definition key_json : JsonDocument := {|
  toJson := toJson (JsonDocument := sample_json);
  fromJsonDoc := λ s, if String.eqb s key_text then JObject key_only
                      else fromJsonDoc (JsonDocument := sample_json) s
|}.
Lemma key_json_laws : @JsonDocumentLaws key_json.
Proof.
  split; [|apply sample_json_laws]. intros v Hv. exact (@document_read sample_json sample_json_laws v Hv).
Qed.
#[local] Existing Instances key_json key_json_laws.

Lemma key_no_server : no_server key_text key_only.
Proof. split; try discriminate; vm_compute; done. Qed.

Lemma rejected_import_hangs_witness :
  exists c1 c2 c3,
    openConnection sample_connection sample_regions sample_client = Ret (tt, c1) /\
    string_arrived (λ _, no_access) id id (λ _, 0) (λ _ _, ([], "")) (λ _ _, ([], "")) (λ _, "") Linux
      "Server" (λ _ _, "") id sample_fresh "" "" "" sample_connection key_text c1 = Ret (tt, c2) /\
    toggles sample_connection sample_regions 2 c2 = Ret (tt, c3) /\
    m_state (controller c3) = Vpn.Preparing /\
    ctl_events (controller c3) =
      [ctl_stateChanged; ctl_stringRequested "nl"; ctl_preparingConfig; ctl_preparingConfig].
Proof.
  destruct (rejected_import_hangs (λ _, no_access) id id (λ _, 0) (λ _ _, ([], ""))
    (λ _ _, ([], "")) (λ _, "") Linux "Server" (λ _ _, "") id sample_fresh "" "" "" sample_connection
    sample_desc sample_regions "nl" sample_client key_text key_only 2
    (proj1 sample_described) eq_refl ltac:(discriminate) ltac:(discriminate) key_no_server)
    as (c1 & c2 & c3 & E1 & E2 & _ & _ & E3 & Hs & Ev).
  exists c1, c2, c3. split; [exact E1|]. split; [exact E2|]. split; [exact E3|]. split; [exact Hs|exact Ev].
Defined.
