(* ===== verification/ImportProperties.v ===== *)
(** * Properties of the import

    Cut configurations are reassembled from their codes, and which dangerous
    OpenVPN tags the import notices (ImportController.v). *)
From Stdlib Require Import ZArith QArith Lia Ascii String.
From stdpp Require Import base list strings.
From S2P Require Import Prelude QtString QtContainers Variant Protocols Containers SecureSettings Settings.
From S2P Require Import HostAddress IpAddress NetworkUtilities JsonText ServersModel ServerController.
From S2P Require Import Regex Serialization ServerController WireguardConfigurator Configurators ContainersModel.
From S2P Require Import QtString SecureSettingsProperties ImportController.
Local Open Scope string_scope.
Local Open Scope Z_scope.

(** ** QR codes *)

(** Numbers in network order, as [QDataStream] writes them. *)
Definition octet (n : Z) : string := String (ascii_of_N (Z.to_N n)) "".
Definition be16 (n : Z) : string := octet (n / 256) +:+ octet (n mod 256).
Definition be32 (n : Z) : string :=
  octet (n / 2 ^ 24) +:+ octet (n / 2 ^ 16 mod 256) +:+ octet (n / 2 ^ 8 mod 256) +:+ octet (n mod 256).

(** The octets of the code with the number [i] out of [total]. *)
Definition qr_octets (total i : Z) (data : string) : string :=
  be16 qrMagicCode +:+ octet total +:+ octet i +:+ be32 (slen data) +:+ data.

Lemma octet_at_octet n s : 0 <= n < 256 -> octet_at (octet n +:+ s) = n.
Proof.
  intros Hn. unfold octet. rewrite string_app_cons. cbn [octet_at].
  rewrite N_ascii_embedding by lia. lia.
Qed.
Lemma drop_octet k n s : drop_chars (S k) (octet n +:+ s) = drop_chars k s.
Proof. reflexivity. Qed.
Lemma drop_none s : drop_chars 0 s = s.
Proof. by destruct s. Qed.
Lemma length_octet n s : String.length (octet n +:+ s) = S (String.length s).
Proof. reflexivity. Qed.

Lemma read_u16_be n s : 0 <= n < 2 ^ 16 -> read_u16 (be16 n +:+ s) = (n, s).
Proof.
  intros Hn. unfold read_u16, be16. rewrite string_app_assoc, !length_octet.
  cbn [Nat.ltb Nat.leb]. rewrite !drop_octet, drop_none.
  rewrite !octet_at_octet; [f_equal| |]; Z.to_euclidean_division_equations; lia.
Qed.

Lemma read_u32_be n s : 0 <= n < 2 ^ 32 -> read_u32 (be32 n +:+ s) = (n, s).
Proof.
  intros Hn. unfold read_u32, be32. rewrite !string_app_assoc, !length_octet.
  cbn [Nat.ltb Nat.leb]. rewrite !drop_octet, !drop_none.
  rewrite !octet_at_octet by (Z.to_euclidean_division_equations; lia). f_equal.
  replace (n / 2 ^ 24) with (n / 256 / 256 / 256) by (by rewrite !Z.div_div by lia).
  replace (n / 2 ^ 16) with (n / 256 / 256) by (by rewrite !Z.div_div by lia).
  change (2 ^ 8) with 256. pose proof (Z_div_mod_eq_full n 256).
  pose proof (Z_div_mod_eq_full (n / 256) 256). pose proof (Z_div_mod_eq_full (n / 256 / 256) 256). lia.
Qed.

Lemma read_bytes_be d : slen d < 2 ^ 32 - 1 -> read_bytes (be32 (slen d) +:+ d) = d.
Proof.
  intros Hd. unfold read_bytes. rewrite read_u32_be by (unfold slen in *; lia).
  replace (slen d =? 4294967295) with false by lia. replace (slen d <? slen d) with false by lia.
  unfold slen. rewrite Nat2Z.id. rewrite <- (string_app_nil_r d) at 2. apply take_chars_app.
Qed.

(** The map of chunks: keys of [0 .. n-1], each with its part. *)
Section Chunks.
Context (parts : list string).
Abbreviation n := (length parts).

Definition part (i : Z) : string := default "" (parts !! Z.to_nat i).

Definition holds (seen : list Z) (chunks : list (Z * string)) : Prop :=
  qm_sorted chunks /\
  forall i, qm_find i chunks = if bool_decide (i ∈ seen) then Some (part i) else None.

Lemma holds_nil : holds [] [].
Proof. split; [constructor|]. intros i. by rewrite bool_decide_false by apply not_elem_of_nil. Qed.

Lemma holds_insert seen chunks i :
  holds seen chunks -> holds (i :: seen) (qm_insert i (part i) chunks).
Proof.
  intros [Hs Hf]. split; [by apply qm_sorted_insert|]. intros j.
  destruct (decide (j = i)) as [->|Hne].
  - rewrite qm_find_insert_eq, bool_decide_true; [done|]. apply elem_of_cons. by left.
  - rewrite qm_find_insert_ne, Hf by congruence.
    rewrite (bool_decide_ext (j ∈ i :: seen) (j ∈ seen)); [done|]. rewrite elem_of_cons. naive_solver.
Qed.

Definition in_range (i : Z) : Prop := 0 <= i < Z.of_nat n.
Definition indices : list Z := map Z.of_nat (seq 0 n).

Lemma elem_indices i : i ∈ indices <-> in_range i.
Proof.
  unfold indices, in_range. rewrite list_elem_of_In, in_map_iff. split.
  - intros (k & <- & Hk%in_seq). lia.
  - intros Hi. exists (Z.to_nat i). split; [lia|]. apply in_seq. lia.
Qed.

Lemma sorted_keys (chunks : list (Z * string)) : qm_sorted chunks -> List.NoDup (map fst chunks).
Proof.
  induction 1 as [|[k v] m Hk Hm IH]; cbn [map]; constructor; [|done].
  rewrite in_map_iff. intros ([k' v'] & E & Hin%list_elem_of_In). cbn [fst] in E. subst k'.
  rewrite list.Forall_forall in Hk. specialize (Hk _ Hin). cbn [fst] in Hk. by rewrite key_cmp_refl in Hk.
Qed.

Lemma holds_keys seen chunks i : holds seen chunks -> In i (map fst chunks) <-> i ∈ seen.
Proof.
  intros [Hs Hf]. rewrite in_map_iff. split.
  - intros ([k v] & <- & Hin%list_elem_of_In). cbn [fst]. pose proof (qm_find_sorted _ _ _ Hs Hin) as E.
    rewrite Hf in E. by case_bool_decide.
  - intros Hi. specialize (Hf i). rewrite bool_decide_true in Hf by done.
    exists (i, part i). split; [done|]. apply list_elem_of_In. by apply qm_find_elem.
Qed.

(** The number of chunks tells whether all have been seen. *)
Lemma holds_length seen chunks :
  holds seen chunks -> (forall i, i ∈ seen -> in_range i) ->
  length chunks = n <-> forall i, in_range i -> i ∈ seen.
Proof.
  intros Hh Hr. pose proof (sorted_keys chunks (proj1 Hh)) as Hn.
  assert (List.NoDup indices) as Hu.
  { apply NoDup_ListNoDup, (NoDup_fmap_2 Z.of_nat), NoDup_seq. }
  assert (incl (map fst chunks) indices) as Hi.
  { intros i Hin. apply (holds_keys seen chunks) in Hin; [|done]. apply list_elem_of_In, elem_indices. auto. }
  assert (length indices = n) as El by (unfold indices; by rewrite length_map, length_seq).
  rewrite <- (length_map fst chunks). split.
  - intros E i Hi'. apply (holds_keys seen chunks); [done|].
    apply (NoDup_length_incl (l' := indices) Hn); [lia|done|]. by apply list_elem_of_In, elem_indices.
  - intros Hall. apply Nat.le_antisymm.
    + rewrite <- El. by apply NoDup_incl_length.
    + rewrite <- El. apply NoDup_incl_length; [done|]. intros i Hin%list_elem_of_In%elem_indices.
      apply (holds_keys seen chunks); auto.
Qed.

Lemma holds_all seen chunks :
  holds seen chunks -> (forall i, in_range i -> i ∈ seen) ->
  all_chunks (Z.of_nat n) chunks = String.concat "" parts.
Proof.
  intros [_ Hf] Hall. unfold all_chunks. f_equal. rewrite Nat2Z.id.
  transitivity (map (λ i, default "" (parts !! i)) (seq 0 n)).
  - apply map_ext_in. intros i Hi%in_seq. unfold chunk. rewrite Hf.
    rewrite bool_decide_true by (apply Hall; unfold in_range; lia). cbn [default]. unfold part.
    by rewrite Nat2Z.id.
  - apply list_eq. intros i. rewrite list_lookup_fmap. destruct (decide (i < n)%nat) as [Hi|Hi].
    + rewrite lookup_seq_lt by done. cbn [fmap option_fmap option_map Nat.add].
      destruct (lookup_lt_is_Some_2 parts i Hi) as [x Hx]. by rewrite Hx.
    + rewrite lookup_seq_ge by lia. cbn. by rewrite lookup_ge_None_2 by lia.
Qed.
End Chunks.

(** ** Reading the codes *)
Section Reading.
Context {S : Type} `{KeyValueStore S} `{JsonDocument} `{Url}.
Context (fromBase64Url qUncompress : string -> string) (parts : list string) (code : Z -> string).

(** The texts of the codes. *)
Hypothesis code_octets : forall i, in_range parts i ->
  fromBase64Url (code i) = qr_octets (Z.of_nat (length parts)) i (part parts i).
Hypothesis parts_count : (length parts <= 255)%nat.
Hypothesis parts_size : forall i, slen (part parts i) < 2 ^ 32 - 1.

Abbreviation parse := (parseQrCodeChunk (S := S) fromBase64Url qUncompress).
Abbreviation count := (Z.of_nat (length parts)).

(** The state between two codes. *)
Definition reading (seen : list Z) (c : ImportController) : Prop :=
  m_isQrCodeProcessed c = true /\
  if m_totalQrCodeChunksCount c =? count then holds parts seen (m_qrCodeChunks c) else seen = [].

Lemma parse_code seen k (i : Import S) :
  reading seen (importer i) -> in_range parts k ->
  exists chunks, holds parts (k :: seen) chunks /\
    parse (code k) i =
      (if Z.of_nat (length chunks) =? count then
         let! ok := extractConfigFromQr qUncompress (all_chunks count chunks) in
         if (ok : bool) then qr_done else do! alter (with_chunks [] 0 0) in rret false
       else rret false)
        (mkImporting (with_chunks chunks count (Z.of_nat (length chunks)) (importer i)) (servers i)).
Proof.
  intros [Hp Hs] Hk. pose proof Hk as Hk2. unfold in_range in Hk2.
  exists (qm_insert k (part parts k)
    (if m_totalQrCodeChunksCount (importer i) =? count then m_qrCodeChunks (importer i) else [])).
  split.
  { apply holds_insert. destruct (_ =? count); [done|]. subst seen. apply holds_nil. }
  unfold parseQrCodeChunk, rbind at 1, asks at 1, rlift, gets. rewrite Hp. cbn [negb].
  rewrite code_octets by done. unfold parse_octets, qr_octets.
  rewrite read_u16_be by (unfold qrMagicCode; lia). rewrite Z.eqb_refl. unfold read_u8.
  rewrite octet_at_octet, drop_octet, drop_none by lia.
  rewrite octet_at_octet, drop_octet, drop_none by lia. rewrite read_bytes_be by apply parts_size.
  reflexivity.
Qed.

(** As long as a code is missing the reading goes on. *)
Lemma parse_incomplete missing l seen (i : Import S) :
  reading seen (importer i) -> in_range parts missing ->
  (forall k, k ∈ app l seen -> in_range parts k /\ k <> missing) ->
  exists i', run_each l (λ k, let! _ := parse (code k) in rret tt) i = Ret (tt, i') /\
    reading (app (rev l) seen) (importer i') /\ m_config (importer i') = m_config (importer i).
Proof.
  intros Hr Hm. revert seen i Hr. induction l as [|k l IH]; intros seen i Hr Hl; [by exists i|].
  destruct (Hl k) as [Hk Hne]; [apply elem_of_cons; by left|].
  destruct (parse_code seen k i Hr Hk) as (chunks & Hh & E).
  assert (Z.of_nat (length chunks) =? count = false) as Ec.
  { apply Z.eqb_neq. intros Hc. apply Nat2Z.inj in Hc.
    rewrite (holds_length parts (k :: seen)) in Hc; [|done|].
    - specialize (Hc _ Hm). destruct (Hl missing) as [_ Hx]; [|done]. cbn [app].
      rewrite elem_of_cons, elem_of_app. apply elem_of_cons in Hc. tauto.
    - intros j Hj. apply Hl. cbn [app]. rewrite elem_of_cons, elem_of_app.
      apply elem_of_cons in Hj. tauto. }
  rewrite Ec in E. set (i1 := mkImporting _ _) in E.
  destruct (IH (k :: seen) i1) as (i' & E' & Hr' & Hc').
  { split; [apply Hr|]. cbn. by rewrite Z.eqb_refl. }
  { intros j Hj. apply Hl. cbn [app]. rewrite elem_of_cons, !elem_of_app in *.
    rewrite elem_of_cons in Hj. tauto. }
  exists i'. split; [|split; [|exact Hc']].
  - cbn [run_each]. unfold rbind. rewrite E. exact E'.
  - cbn [rev]. by rewrite <- app_assoc.
Qed.

(** C35. Codes may be seen in any order and any number of times. A configuration
    cut into at most 255 parts is reassembled as soon as the last missing code
    is seen: until then every code is only remembered and the configuration is
    left alone; with the last one the import holds the configuration of the
    whole text and the reading has ended. The text is plain JSON, the first of the
    two forms the code tries. *)
Theorem qr_codes_reassembled (seen : list Z) (last missing : Z) (o : QJsonObject) (i : Import S) :
  m_isQrCodeProcessed (importer i) = true -> m_totalQrCodeChunksCount (importer i) = 0 ->
  in_range parts missing -> (forall k, k ∈ seen -> in_range parts k /\ k <> missing) ->
  (forall k, in_range parts k <-> k ∈ last :: seen) ->
  toObject (fromJsonDoc (String.concat "" parts)) = o -> o <> [] ->
  exists i1 i2,
    run_each seen (λ k, let! _ := parse (code k) in rret tt) i = Ret (tt, i1) /\
    m_config (importer i1) = m_config (importer i) /\
    parse (code last) i1 = Ret (true, i2) /\
    m_config (importer i2) = o /\ m_isQrCodeProcessed (importer i2) = false.
Proof.
  intros Hp Ht Hm Hs Hall Ho Hne.
  destruct (parse_incomplete missing seen [] i) as (i1 & E1 & Hr & Hc); [|done|by rewrite app_nil_r|].
  { split; [done|]. rewrite Ht. destruct (Z.eqb_spec 0 count); [|done]. unfold in_range in Hm. lia. }
  rewrite app_nil_r in Hr.
  destruct (parse_code (rev seen) last i1 Hr) as (chunks & Hh & E2).
  { apply Hall, elem_of_cons. by left. }
  assert (forall k, in_range parts k <-> k ∈ last :: rev seen) as Hall'.
  { intros k. rewrite Hall, !elem_of_cons, !list_elem_of_In. by rewrite <- in_rev. }
  assert (length chunks = length parts) as El.
  { apply (holds_length parts (last :: rev seen)); [done| |]; intros k; apply Hall'. }
  rewrite El, Z.eqb_refl, (holds_all parts (last :: rev seen)) in E2 by (done || apply Hall').
  eexists i1, _. split; [exact E1|]. split; [exact Hc|]. rewrite E2.
  unfold extractConfigFromQr. rewrite Ho. destruct o as [|kv o]; [done|]. by split_and!.
Qed.
End Reading.

(** ** Dangerous lines *)
Lemma word_no_dash w : all_chars word_class w = true -> count_char "-" w = 0.
Proof.
  induction w as [|x w IH]; [done|]. cbn [all_chars count_char]. intros [Hx Hw]%andb_true_iff.
  rewrite IH by done. destruct (Ascii.eqb_spec "-" x) as [<-|?]; [done|].
  by destruct (Ascii.eqb_spec x "-") as [->|?].
Qed.

Lemma plus_no_dash w : lang (Plus word_class) w -> count_char "-" w = 0.
Proof.
  intros (w1 & w2 & -> & (c & -> & Hc) & Hw). apply word_no_dash.
  rewrite all_chars_app. cbn [all_chars]. by rewrite Hc, Hw.
Qed.

Lemma tag_dashes l : count_char "-" (captured_or_empty 0 (search tag_rx l)) <= 1.
Proof.
  destruct (search tag_rx l) as [m|] eqn:E; [|done]. cbn [captured_or_empty captured].
  apply search_lang in E. destruct E as [E|E]; [|apply plus_no_dash in E; lia].
  destruct E as (w1 & w2 & -> & H1' & w3 & w4 & -> & H3' & H4').
  apply plus_no_dash in H1', H4'. destruct H3' as (a & b & -> & (c & -> & Hc) & ->).
  rewrite !count_char_app, H1', H4'. cbn [count_char]. destruct (Ascii.eqb _ _); lia.
Qed.

(** Two of the dangerous tags are never noticed: the expression that takes the
    tag of a line allows one hyphen, so a line that starts with
    [route-pre-down] or [auth-user-pass-verify] is compared by a shorter word, and
    a configuration may have any number of them without a warning. *)
Theorem three_part_tags_unnoticed (l : string) :
  captured_or_empty 0 (search tag_rx l) <> "route-pre-down" /\
  captured_or_empty 0 (search tag_rx l) <> "auth-user-pass-verify" /\
  maliciousStrings (unlines ["route-pre-down a"; "auth-user-pass-verify b via-env"; "route-pre-down c"]) = [] /\
  maliciousStrings (unlines ["route-up a"; "tls-verify b"; "up c"]) = ["route-up a"; "tls-verify b"; "up c"].
Proof.
  pose proof (tag_dashes l) as Hd. split_and!; [intros E; by rewrite E in Hd|intros E; by rewrite E in Hd| |];
    vm_compute; reflexivity.
Qed.

(** ** Witnesses *)
#[local] Existing Instance sample_json.

Definition two_parts : list string := ["{}"; "x"].
Definition qr_json : JsonDocument := {|
  toJson := λ _, "";
  fromJsonDoc := λ s, if String.eqb s "{}x" then JObject [("a", JNull)] else JUndefined
|}.
Definition qr_code (i : Z) : string := qr_octets 2 i (part two_parts i).
Definition qr_import : Import unit :=
  mkImporting (mkImport [] "" ConfigTypes.Invalid "" [] true 0 0 [])
    (mkModel [] 0 0 false (mkSettings tt "" false []) []).

Lemma two_range k : in_range two_parts k -> k = 0 \/ k = 1.
Proof. unfold in_range. cbn [two_parts length]. lia. Qed.
Lemma two_sizes k : slen (part two_parts k) < 2 ^ 32 - 1.
Proof.
  unfold part. destruct (two_parts !! Z.to_nat k) as [x|] eqn:E; [|done].
  apply list_elem_of_lookup_2, list_elem_of_In in E. simpl in E. destruct E as [<-|[<-|[]]]; reflexivity.
Qed.

Lemma qr_codes_reassembled_witness :
  exists i1 i2,
    run_each [1; 1] (λ k, let! _ := parseQrCodeChunk (H0 := qr_json) id id (qr_code k) in rret tt)
      qr_import = Ret (tt, i1) /\
    parseQrCodeChunk (H0 := qr_json) id id (qr_code 0) i1 = Ret (true, i2) /\
    m_config (importer i2) = [("a", JNull)].
Proof.
  destruct (qr_codes_reassembled (H0 := qr_json) id id two_parts qr_code (λ _ _, eq_refl)
    ltac:(cbn; lia) two_sizes [1; 1] 0 0 [("a", JNull)] qr_import) as (i1 & i2 & E1 & _ & E2 & Ec & _).
  - reflexivity.
  - reflexivity.
  - done.
  - intros k Hk%list_elem_of_In. simpl in Hk. destruct Hk as [<-|[<-|[]]]; done.
  - intros k. split.
    + intros [-> | ->]%two_range; apply list_elem_of_In; simpl; auto.
    + intros Hk%list_elem_of_In. simpl in Hk. destruct Hk as [<-|[<-|[<-|[]]]]; done.
  - reflexivity.
  - discriminate.
  - exists i1, i2. split; [exact E1|]. split; [exact E2|exact Ec].
Defined.
