(* ===== verification/ReedSolomon.v ===== *)
(** * Code that throws, and the Reed-Solomon code

    Results of C++ functions that throw exceptions or fail an [assert], and
    loops over them, for the QR code generator (client/3rd/qrcodegen); then its
    error correction over the field of 256 elements. *)
From stdpp Require Import base list numbers.
From Stdlib Require Import ZArith Lia.
From Stdlib Require Import ZArith Lia Ring.
From S2P Require Import Prelude.
Inductive Exception :=
| domain_error | length_error | invalid_argument | out_of_range | logic_error | overflow_error
| data_too_long | assertion_failed.

#[export] Instance Exception_eq_dec : EqDecision Exception.
Proof. solve_decision. Defined.

Inductive Result (A : Type) : Type :=
| Ok (a : A)
| Throw (e : Exception).
Arguments Ok {A} a.
Arguments Throw {A} e.

#[export] Instance Result_ret : MRet Result := @Ok.
#[export] Instance Result_bind : MBind Result := λ A B k m,
  match m with Ok a => k a | Throw e => Throw e end.

(** [assert(b)] and [if (!b) throw e]. *)
Definition ensure (b : bool) (e : Exception) : Result unit := if b then Ok tt else Throw e.
Definition asserts (b : bool) : Result unit := ensure b assertion_failed.

(** A loop that updates a state. *)
Fixpoint for_in {A S} (l : list A) (body : A -> S -> Result S) (s : S) : Result S :=
  match l with
  | [] => Ok s
  | x :: l' => s' ← body x s; for_in l' body s'
  end.

(** [for (int i = a; i < b; i++)] *)
Definition range (a b : Z) : list Z := seqZ a (b - a).

(** [v.at(i)] of a vector, read and written. *)
Definition at_ {A} (v : list A) (i : Z) : Result A :=
  if (i <? 0)%Z then Throw out_of_range
  else match v !! Z.to_nat i with Some a => Ok a | None => Throw out_of_range end.
Definition put_at {A} (v : list A) (i : Z) (a : A) : Result (list A) :=
  if ((i <? 0) || (Z.of_nat (length v) <=? i))%Z then Throw out_of_range
  else Ok (<[Z.to_nat i := a]> v).

Lemma bind_Ok {A B} (m : Result A) (k : A -> Result B) b :
  m ≫= k = Ok b <-> exists a, m = Ok a /\ k a = Ok b.
Proof.
  destruct m as [a|e]; cbn.
  - split; [by exists a|]. by intros (? & [= ->] & ?).
  - split; [done|]. by intros (? & [=] & _).
Qed.
Lemma bind_run {A B} (m : Result A) (k : A -> Result B) a : m = Ok a -> m ≫= k = k a.
Proof. by intros ->. Qed.

Lemma ensure_true b e : b = true -> ensure b e = Ok tt.
Proof. by intros ->. Qed.

Lemma at_lookup {A} (v : list A) (i : nat) a : v !! i = Some a -> at_ v (Z.of_nat i) = Ok a.
Proof.
  intros E. unfold at_. rewrite (proj2 (Z.ltb_ge _ _)) by lia. by rewrite Nat2Z.id, E.
Qed.
Lemma put_at_insert {A} (v : list A) (i : nat) a :
  (i < length v)%nat -> put_at v (Z.of_nat i) a = Ok (<[i := a]> v).
Proof.
  intros Hi. unfold put_at. rewrite (proj2 (Z.ltb_ge _ _)) by lia.
  rewrite (proj2 (Z.leb_gt _ _)) by lia. by rewrite Nat2Z.id.
Qed.

Lemma for_in_app {A S} (l k : list A) (body : A -> S -> Result S) s :
  for_in (l ++ k) body s = for_in l body s ≫= for_in k body.
Proof.
  revert s. induction l as [|x l IH]; intros s; [done|]. cbn [for_in app].
  destruct (body x s) as [s'|e]; [apply IH|done].
Qed.

(** A loop whose state satisfies an invariant of the position. *)
Lemma for_in_inv {A S} (I : nat -> S -> Prop) (body : A -> S -> Result S) l s :
  I 0%nat s ->
  (forall i x s, l !! i = Some x -> I i s -> exists s', body x s = Ok s' /\ I (Datatypes.S i) s') ->
  exists s', for_in l body s = Ok s' /\ I (length l) s'.
Proof.
  revert I s. induction l as [|x l IH]; intros I s H0 Hb; [by exists s|].
  destruct (Hb 0%nat x s eq_refl H0) as (s1 & E1 & H1). cbn [for_in length].
  destruct (IH (λ i, I (Datatypes.S i)) s1 H1) as (s2 & E2 & H2).
  { intros i y t E Ht. by apply (Hb (Datatypes.S i) y t E). }
  exists s2. by rewrite (bind_run _ _ _ E1).
Qed.

Lemma range_lookup a b i x : range a b !! i = Some x -> (x = a + Z.of_nat i /\ a <= x < b)%Z.
Proof. unfold range. intros [Ex Hi]%lookup_seqZ. lia. Qed.
Lemma elem_of_range a b x : x ∈ range a b <-> (a <= x < b)%Z.
Proof. unfold range. rewrite elem_of_seqZ. lia. Qed.
Lemma length_range a b : length (range a b) = Z.to_nat (b - a).
Proof. apply length_seqZ. Qed.
Lemma NoDup_range a b : NoDup (range a b).
Proof. apply NoDup_seqZ. Qed.

(** ** Reed-Solomon codes

    Model of [QrCode::reedSolomonMultiply], [reedSolomonComputeDivisor] and
    [reedSolomonComputeRemainder] (client/3rd/qrcodegen/qrcodegen.cpp). The
    octets with exclusive or and this multiplication are a field; in it the
    divisor is the product of [x - r^i], and data followed by its remainder is a
    codeword: a polynomial that is zero at the roots of the divisor. Codewords
    of different data differ in more places than the remainder is long, so that
    damage of at most half as many octets can be undone. *)
Local Open Scope Z_scope.

(** ** The code *)

Definition mul_step (z : Z) : Z := Z.lxor (Z.shiftl z 1) (Z.shiftr z 7 * 0x11D).
Definition mul_loop (x y : Z) (i : Z) (z : Z) : Z :=
  Z.lxor (mul_step z) (Z.land (Z.shiftr y i) 1 * x).
Definition mul_from (x y : Z) (bits : list Z) (z : Z) : Z := foldl (λ z i, mul_loop x y i z) z bits.
Definition mul_result (z : Z) : Result Z :=
  _ ← asserts (Z.shiftr z 8 =? 0);
  Ok (u8 z).
Definition reedSolomonMultiply (x y : Z) : Result Z := mul_result (mul_from x y (rev (range 0 8)) 0).

(** The inner loop of the divisor: each element is multiplied by the root and
    the next one, which is still the old one, is added. *)
Fixpoint times_root (root : Z) (l : list Z) : Result (list Z) :=
  match l with
  | [] => Ok []
  | a :: l' =>
      m ← reedSolomonMultiply a root;
      rest ← times_root root l';
      Ok ((match l' with [] => m | b :: _ => Z.lxor m b end) :: rest)
  end.

Definition reedSolomonComputeDivisor (degree : Z) : Result (list Z) :=
  _ ← ensure (negb ((degree <? 1) || (255 <? degree))) domain_error;
  result ← put_at (replicate (Z.to_nat degree) 0) (degree - 1) 1;
  s ← for_in (range 0 degree) (λ _ '(result, root),
        result' ← times_root root result;
        root' ← reedSolomonMultiply root 2;
        Ok (result', root')) (result, 1);
  Ok s.1.

(** One octet of data: the first element is dropped, a zero appended, and the
    multiple of the divisor added. *)
Fixpoint add_multiple (factor : Z) (divisor result : list Z) : Result (list Z) :=
  match result with
  | [] => Ok []
  | a :: result' =>
      match divisor with
      | [] => Throw out_of_range
      | d :: divisor' =>
          m ← reedSolomonMultiply d factor;
          rest ← add_multiple factor divisor' result';
          Ok (Z.lxor a m :: rest)
      end
  end.

Definition reedSolomonComputeRemainder (data divisor : list Z) : Result (list Z) :=
  for_in data (λ b result,
    first ← at_ result 0;
    add_multiple (Z.lxor b first) divisor (app (tail result) [0])) (replicate (length divisor) 0).

(** ** Polynomials over a ring in which every element is its own negation

    A polynomial is the list of its coefficients, the highest one first. *)
Section Polynomials.
Context {F : Type} (zero one : F) (add mul : F -> F -> F).
Hypothesis Fring : ring_theory zero one add mul add (λ x, x) eq.

(** [ring] with coefficients modulo 2. *)
Lemma Fmorph : ring_morph zero one add mul add (λ x, x) eq false true xorb andb xorb (λ b, b)
  Bool.eqb (λ b : bool, if b then one else zero).
Proof.
  assert (forall x, add x zero = x) as R0
    by (intros x; by rewrite (Radd_comm Fring), (Radd_0_l Fring)).
  assert (forall x, mul zero x = zero) as M0.
  { intros x. rewrite <- (R0 zero) at 1. rewrite (Rdistr_l Fring). apply (Ropp_def Fring). }
  split; try done.
  1, 2: intros [] []; cbn; by rewrite ?(Radd_0_l Fring), ?R0, ?(Ropp_def Fring).
  - intros [] []; cbn; by rewrite ?(Rmul_1_l Fring), ?M0.
  - by intros [] [].
Qed.
Ltac coefficient t :=
  lazymatch t with zero => false | one => true | _ => InitialRing.NotConstant end.
Add Ring Fring : Fring (morphism Fmorph, constants [coefficient]).
Local Infix "⊕" := add (at level 50, left associativity).
Local Infix "⊗" := mul (at level 40, left associativity).

Fixpoint pow (x : F) (n : nat) : F := match n with O => one | S n => x ⊗ pow x n end.
Definition eval (p : list F) (x : F) : F := foldl (λ acc c, acc ⊗ x ⊕ c) zero p.

Lemma add_self x : x ⊕ x = zero.
Proof. ring. Qed.
Lemma add_cancel x y : x ⊕ y = zero -> x = y.
Proof. intros E. replace x with ((x ⊕ y) ⊕ y) by ring. rewrite E. ring. Qed.

Lemma pow_add x n k : pow x (n + k) = pow x n ⊗ pow x k.
Proof. induction n as [|n IH]; cbn [pow Nat.add]; [ring|]. rewrite IH. ring. Qed.
Lemma pow_mul x n k : pow (pow x n) k = pow x (n * k).
Proof.
  induction k as [|k IH]; cbn [pow]; [by rewrite Nat.mul_0_r|].
  rewrite IH, Nat.mul_succ_r, Nat.add_comm, pow_add. done.
Qed.
Lemma pow_one n : pow one n = one.
Proof. induction n as [|n IH]; [done|]. cbn [pow]. rewrite IH. ring. Qed.

Lemma eval_from p x a : foldl (λ acc c, acc ⊗ x ⊕ c) a p = a ⊗ pow x (length p) ⊕ eval p x.
Proof.
  unfold eval. revert a. induction p as [|c p IH]; intros a; cbn [foldl length pow]; [ring|].
  rewrite (IH (a ⊗ x ⊕ c)), (IH (zero ⊗ x ⊕ c)). ring.
Qed.
Lemma eval_app p q x : eval (app p q) x = eval p x ⊗ pow x (length q) ⊕ eval q x.
Proof. unfold eval at 1. rewrite foldl_app. apply eval_from. Qed.
Lemma eval_cons c p x : eval (c :: p) x = c ⊗ pow x (length p) ⊕ eval p x.
Proof. change (c :: p) with (app [c] p). rewrite eval_app. unfold eval at 1. cbn [foldl]. ring. Qed.
Lemma eval_snoc p c x : eval (app p [c]) x = eval p x ⊗ x ⊕ c.
Proof. rewrite eval_app. unfold eval at 2. cbn [foldl length pow]. ring. Qed.
Lemma eval_zeros n x : eval (replicate n zero) x = zero.
Proof. induction n as [|n IH]; [done|]. cbn [replicate]. rewrite eval_cons, IH. ring. Qed.
Lemma eval_add p q x :
  length p = length q -> eval (zip_with add p q) x = eval p x ⊕ eval q x.
Proof.
  revert q. induction p as [|a p IH]; intros [|b q] Hl; try done; [cbn; ring|].
  cbn [zip_with]. rewrite !eval_cons, length_zip_with, IH by (injection Hl; done).
  injection Hl as Hl. rewrite Hl, Nat.min_id. ring.
Qed.
Lemma eval_scale f p x : eval (map (mul f) p) x = f ⊗ eval p x.
Proof.
  induction p as [|a p IH]; [cbn; ring|]. cbn [map]. rewrite !eval_cons, length_map, IH. ring.
Qed.

(** *** The remainder *)
Definition rem_step (divisor result : list F) (b : F) : list F :=
  match result with
  | [] => []
  | first :: rest => zip_with add (app rest [zero]) (map (mul (b ⊕ first)) divisor)
  end.
Definition remainder (data divisor : list F) : list F :=
  foldl (rem_step divisor) (replicate (length divisor) zero) data.

Lemma rem_step_length divisor result b :
  length result = length divisor -> length (rem_step divisor result b) = length divisor.
Proof.
  intros Hl. destruct result as [|a r]; [done|]. cbn [rem_step].
  rewrite length_zip_with, length_app, length_map. cbn [length] in *. lia.
Qed.
Lemma remainder_length data divisor : length (remainder data divisor) = length divisor.
Proof.
  unfold remainder. assert (length (replicate (length divisor) zero) = length divisor) as Hl
    by apply length_replicate.
  revert Hl. generalize (replicate (length divisor) zero). induction data as [|b data IH];
    intros r Hl; [done|]. cbn [foldl]. by apply IH, rem_step_length.
Qed.

(** At a root of the divisor with its leading term the remainder is the data
    shifted to the left. *)
Lemma remainder_eval data divisor r :
  divisor <> [] -> pow r (length divisor) = eval divisor r ->
  eval (remainder data divisor) r = eval data r ⊗ pow r (length divisor).
Proof.
  intros Hd Hr. unfold remainder.
  induction data as [|b data IH] using rev_ind; cbn [foldl].
  { rewrite eval_zeros. unfold eval. cbn [foldl]. ring. }
  rewrite foldl_app. cbn [foldl]. fold (remainder data divisor) in IH |- *.
  pose proof (remainder_length data divisor) as Hl.
  destruct (remainder data divisor) as [|a res] eqn:E; [by destruct divisor|].
  cbn [rem_step]. cbn [length] in Hl.
  rewrite eval_add by (rewrite length_app, length_map; cbn [length]; lia).
  rewrite !eval_snoc, eval_scale, <- Hr.
  rewrite eval_cons in IH. rewrite <- Hl in *. cbn [pow] in *.
  replace (eval res r) with (a ⊗ pow r (length res) ⊕ (a ⊗ pow r (length res) ⊕ eval res r)) by ring.
  rewrite IH. ring.
Qed.

(** Data followed by its remainder is zero at the roots of the divisor. *)
Lemma codeword_root data divisor r :
  divisor <> [] -> pow r (length divisor) = eval divisor r ->
  eval (app data (remainder data divisor)) r = zero.
Proof.
  intros Hd Hr. rewrite eval_app, remainder_length, remainder_eval by done. ring.
Qed.

(** *** The divisor *)
Definition root_step (root : F) (l : list F) : list F :=
  zip_with add (map (mul root) l) (app (tail l) [zero]).

Lemma root_step_length root l : length (root_step root l) = length l.
Proof.
  unfold root_step. destruct l as [|a l]; [done|].
  rewrite length_zip_with, length_map, length_app. cbn [length tail]. lia.
Qed.

Fixpoint divisor_from (alpha : F) (n : nat) (root : F) (l : list F) : list F :=
  match n with O => l | S n => divisor_from alpha n (root ⊗ alpha) (root_step root l) end.
Definition divisor (alpha : F) (degree : nat) : list F :=
  divisor_from alpha degree one (app (replicate (degree - 1) zero) [one]).

Lemma root_step_eval root a l x :
  eval (root_step root (a :: l)) x = (root ⊕ x) ⊗ eval (a :: l) x ⊕ a ⊗ pow x (S (length l)).
Proof.
  unfold root_step. rewrite eval_add by (rewrite length_map, length_app; cbn [length tail]; lia).
  cbn [tail]. rewrite eval_scale, eval_snoc, eval_cons. cbn [pow]. ring.
Qed.

(** The product of [x - r^i] for the given roots. *)
Definition product (roots : list F) (x : F) : F := foldr (λ r acc, (r ⊕ x) ⊗ acc) one roots.
Definition roots_from (alpha root : F) (n : nat) : list F :=
  map (λ i, root ⊗ pow alpha i) (seq 0 n).

Lemma roots_from_S alpha root n :
  roots_from alpha root (S n) = root :: roots_from alpha (root ⊗ alpha) n.
Proof.
  unfold roots_from. rewrite <- cons_seq. cbn [map pow].
  f_equal; [ring|]. rewrite <- fmap_S_seq. rewrite <- list_fmap_compose. apply map_ext.
  intros i. cbn [pow]. unfold compose. cbn [pow]. ring.
Qed.

(** While leading zeros are left the list is the product so far; the last step
    drops the leading one. *)
Lemma divisor_from_eval alpha n k root tl x :
  n = S k ->
  let l := app (replicate k zero) (one :: tl) in
  pow x (length l) ⊕ eval (divisor_from alpha n root l) x
  = product (roots_from alpha root n) x ⊗ eval l x.
Proof.
  revert n root tl. induction k as [|k IH]; intros n root tl ->; cbv zeta.
  - rewrite roots_from_S. cbn [replicate app divisor_from product foldr roots_from seq map].
    rewrite root_step_eval. cbn [length]. ring.
  - rewrite roots_from_S.
    change (divisor_from alpha (S (S k)) root ?l) with
      (divisor_from alpha (S k) (root ⊗ alpha) (root_step root l)).
    assert (exists tl', root_step root (app (replicate (S k) zero) (one :: tl))
      = app (replicate k zero) (one :: tl')) as [tl' E].
    { exists (tail (root_step root (app (replicate 1 zero) (one :: tl)))).
      unfold root_step. clear IH. induction k as [|k IH].
      - cbn. f_equal. ring.
      - cbn [replicate app map tail zip_with]. cbn [replicate app map tail] in IH.
        destruct k as [|k]; [cbn; f_equal; [ring|f_equal; ring]|].
        cbn [replicate app] in IH |- *. cbn [zip_with] in IH |- *. f_equal; [ring|].
        exact IH. }
    rewrite E. pose proof (IH (S k) (root ⊗ alpha) tl' eq_refl) as IH'. cbv zeta in IH'.
    rewrite <- E in IH' at 1. rewrite root_step_length in IH'.
    rewrite IH', <- E. cbn [replicate app]. rewrite root_step_eval.
    cbn [product foldr]. fold (product (roots_from alpha (root ⊗ alpha) (S k)) x). ring.
Qed.

Lemma divisor_from_length alpha n root l : length (divisor_from alpha n root l) = length l.
Proof.
  revert root l. induction n as [|n IH]; intros root l; [done|]. cbn [divisor_from].
  by rewrite IH, root_step_length.
Qed.
Lemma divisor_length alpha n : n <> O -> length (divisor alpha n) = n.
Proof.
  intros Hn. unfold divisor. rewrite divisor_from_length, length_app, length_replicate.
  cbn [length]. lia.
Qed.

(** The divisor with its leading term is the product. *)
Lemma divisor_product alpha n x :
  n <> O -> pow x n ⊕ eval (divisor alpha n) x = product (roots_from alpha one n) x.
Proof.
  intros Hn. destruct n as [|n]; [done|].
  pose proof (divisor_from_eval alpha (S n) n one [] x eq_refl) as E. cbv zeta in E.
  unfold divisor. replace (S n - 1)%nat with n by lia.
  rewrite length_app, length_replicate in E. cbn [length] in E. rewrite Nat.add_1_r in E.
  rewrite E, eval_snoc, eval_zeros. ring.
Qed.

Lemma product_root roots r : r ∈ roots -> product roots r = zero.
Proof.
  induction 1 as [r l|r s l _ IH]; cbn [product foldr]; [ring|].
  fold (product l r). rewrite IH. ring.
Qed.

Lemma divisor_root alpha n i :
  (i < n)%nat -> pow (pow alpha i) n = eval (divisor alpha n) (pow alpha i).
Proof.
  intros Hi. apply add_cancel. rewrite divisor_product by lia. apply product_root.
  unfold roots_from. apply list_elem_of_fmap. exists i. split; [ring|]. apply elem_of_seq. lia.
Qed.

(** *** Distance

    A sum of at most as many multiples of different elements as there are powers
    at which it is zero has only zero multiples. *)
Hypothesis integral : forall a b, a ⊗ b = zero -> a = zero \/ b = zero.

Definition power_sum (l : list (F * F)) (i : nat) : F :=
  foldr (λ cy acc, cy.1 ⊗ pow cy.2 i ⊕ acc) zero l.

Lemma power_sum_shift z l i :
  power_sum (map (λ cy, (cy.1 ⊗ (cy.2 ⊕ z), cy.2)) l) i
  = power_sum l (S i) ⊕ z ⊗ power_sum l i.
Proof.
  induction l as [|[c y] l IH]; cbn [power_sum map foldr fst snd]; [ring|].
  fold (power_sum (map (λ cy, (cy.1 ⊗ (cy.2 ⊕ z), cy.2)) l) i).
  fold (power_sum l (S i)). fold (power_sum l i). rewrite IH. cbn [pow]. ring.
Qed.

Lemma power_sums_zero l :
  NoDup (map snd l) -> (forall i, (i < length l)%nat -> power_sum l i = zero) ->
  Forall (λ cy, cy.1 = zero) l.
Proof.
  remember (length l) as n eqn:En. revert l En.
  induction n as [|n IH]; intros l En Hd Hs; [by destruct l|].
  destruct l as [|[c z] l]; [done|]. injection En as En. cbn [map snd] in Hd.
  apply list.NoDup_cons in Hd as [Hz Hd].
  assert (Forall (λ cy, cy.1 = zero) l) as Hl.
  { assert (Forall (λ cy, cy.1 = zero) (map (λ cy, (cy.1 ⊗ (cy.2 ⊕ z), cy.2)) l)) as Hl.
    { apply IH; [by rewrite length_map|by rewrite map_map|]. intros i Hi.
      pose proof (power_sum_shift z ((c, z) :: l) i) as E.
      rewrite !Hs in E by lia. cbn [map power_sum foldr fst snd] in E.
      fold (power_sum (map (λ cy, (cy.1 ⊗ (cy.2 ⊕ z), cy.2)) l) i) in E.
      replace (power_sum _ i) with
        (c ⊗ (z ⊕ z) ⊗ pow z i ⊕ power_sum (map (λ cy, (cy.1 ⊗ (cy.2 ⊕ z), cy.2)) l) i) by ring.
      rewrite E. ring. }
    rewrite list.Forall_forall in Hl |- *. intros [d y] Hy.
    destruct (integral d (y ⊕ z)) as [->|E]; [|done|].
    - apply (Hl (d ⊗ (y ⊕ z), y)). apply list_elem_of_fmap. by exists (d, y).
    - apply add_cancel in E as ->. destruct Hz. apply list_elem_of_fmap. by exists (d, z). }
  constructor; [|done]. cbn. pose proof (Hs 0%nat ltac:(lia)) as E.
  cbn [power_sum foldr fst snd] in E. fold (power_sum l 0) in E. cbn [pow] in E.
  assert (power_sum l 0 = zero) as E0.
  { clear -Hl Fring. induction Hl as [|[d y] l Hd Hl IH]; [done|].
    cbn [power_sum foldr fst snd] in *. fold (power_sum l 0) in *. rewrite IH, Hd. ring. }
  rewrite E0 in E. replace c with (c ⊗ one ⊕ zero) by ring. exact E.
Qed.
End Polynomials.

(** ** The field of octets *)
Definition is_octet (z : Z) : bool := (0 <=? z) && (z <? 256).
Definition gmul (x y : Z) : Z := mul_from x y (rev (range 0 8)) 0.

Lemma octet_spec z : is_octet z = true <-> 0 <= z < 256.
Proof. unfold is_octet. rewrite andb_true_iff, Z.leb_le, Z.ltb_lt. done. Qed.

Lemma octet_check (P : Z -> bool) :
  forallb P (range 0 256) = true -> forall z, is_octet z = true -> P z = true.
Proof.
  intros H z Hz. rewrite forallb_forall in H. apply H, list_elem_of_In, elem_of_range.
  by apply octet_spec.
Qed.

Lemma octet_lxor a b : is_octet a = true -> is_octet b = true -> is_octet (Z.lxor a b) = true.
Proof.
  rewrite !octet_spec. intros Ha Hb. split; [apply Z.lxor_nonneg; lia|].
  destruct (Z.eq_dec (Z.lxor a b) 0) as [->|Hn]; [lia|].
  assert (0 < Z.lxor a b) by (pose proof (proj2 (Z.lxor_nonneg a b)); lia).
  apply Z.log2_lt_cancel. pose proof (Z.log2_lxor a b ltac:(lia) ltac:(lia)) as Hl.
  assert (Z.log2 a <= 7 /\ Z.log2 b <= 7) as [? ?].
  { split; [change 7 with (Z.log2 255)|change 7 with (Z.log2 255)]; apply Z.log2_le_mono; lia. }
  change (Z.log2 256) with 8. lia.
Qed.

Lemma mul_step_octet z : is_octet z = true -> is_octet (mul_step z) = true.
Proof. apply (octet_check (λ z, is_octet (mul_step z))). vm_compute. done. Qed.

Lemma b2z_lxor a b : Z.lxor (Z.b2z a) (Z.b2z b) = Z.b2z (xorb a b).
Proof. by destruct a, b. Qed.
Lemma b2z_mul a b k : Z.lxor (Z.b2z a * k) (Z.b2z b * k) = Z.b2z (xorb a b) * k.
Proof.
  destruct a, b; cbn [Z.b2z xorb]; rewrite ?Z.mul_1_l, ?Z.mul_0_l, ?Z.lxor_0_r, ?Z.lxor_0_l; try done.
  apply Z.lxor_nilpotent.
Qed.
Lemma b2z_mul_lxor a x y : Z.b2z a * Z.lxor x y = Z.lxor (Z.b2z a * x) (Z.b2z a * y).
Proof. destruct a; cbn [Z.b2z]; by rewrite ?Z.mul_1_l. Qed.

Lemma bit_b2z y i : 0 <= i -> Z.land (Z.shiftr y i) 1 = Z.b2z (Z.testbit y i).
Proof.
  intros Hi. change 1 with (Z.ones 1). rewrite Z.land_ones, Z.shiftr_div_pow2 by lia.
  symmetry. by apply Z.testbit_spec'.
Qed.
Lemma top_bit z : is_octet z = true -> Z.shiftr z 7 = Z.b2z (Z.testbit z 7).
Proof.
  intros Hz. rewrite <- bit_b2z by lia.
  apply Z.eqb_eq. revert z Hz. apply octet_check. vm_compute. done.
Qed.

Lemma lxor_exchange a b c d : Z.lxor (Z.lxor a b) (Z.lxor c d) = Z.lxor (Z.lxor a c) (Z.lxor b d).
Proof.
  apply Z.bits_inj'. intros n Hn. rewrite !Z.lxor_spec. by destruct (Z.testbit a n), (Z.testbit b n),
    (Z.testbit c n), (Z.testbit d n).
Qed.

Lemma mul_step_lxor a b :
  is_octet a = true -> is_octet b = true ->
  mul_step (Z.lxor a b) = Z.lxor (mul_step a) (mul_step b).
Proof.
  intros Ha Hb. unfold mul_step. rewrite Z.shiftl_lxor, lxor_exchange. f_equal.
  rewrite !top_bit by (done || by apply octet_lxor). by rewrite b2z_mul, Z.lxor_spec.
Qed.

Lemma mul_loop_octet x y i z :
  0 <= i -> is_octet x = true -> is_octet z = true -> is_octet (mul_loop x y i z) = true.
Proof.
  intros Hi Hx Hz. unfold mul_loop. rewrite bit_b2z by done. apply octet_lxor; [by apply mul_step_octet|].
  destruct (Z.testbit y i); cbn [Z.b2z]; by rewrite ?Z.mul_1_l.
Qed.
Lemma mul_loop_lxor_l x x' y i z z' :
  0 <= i -> is_octet z = true -> is_octet z' = true ->
  mul_loop (Z.lxor x x') y i (Z.lxor z z') = Z.lxor (mul_loop x y i z) (mul_loop x' y i z').
Proof.
  intros Hi Hz Hz'. unfold mul_loop. rewrite mul_step_lxor, !bit_b2z by done.
  by rewrite b2z_mul_lxor, lxor_exchange.
Qed.
Lemma mul_loop_lxor_r x y y' i z z' :
  0 <= i -> is_octet z = true -> is_octet z' = true ->
  mul_loop x (Z.lxor y y') i (Z.lxor z z') = Z.lxor (mul_loop x y i z) (mul_loop x y' i z').
Proof.
  intros Hi Hz Hz'. unfold mul_loop. rewrite mul_step_lxor, !bit_b2z by done.
  by rewrite Z.lxor_spec, <- b2z_mul, lxor_exchange.
Qed.

Lemma mul_from_octet x y bits z :
  Forall (λ i, 0 <= i) bits -> is_octet x = true -> is_octet z = true ->
  is_octet (mul_from x y bits z) = true.
Proof.
  intros Hb Hx. revert z. induction Hb as [|i bits Hi Hb IH]; intros z Hz; [done|].
  cbn [mul_from foldl]. by apply IH, mul_loop_octet.
Qed.
Lemma mul_from_lxor_l x x' y bits z z' :
  Forall (λ i, 0 <= i) bits -> is_octet x = true -> is_octet x' = true ->
  is_octet z = true -> is_octet z' = true ->
  mul_from (Z.lxor x x') y bits (Z.lxor z z') = Z.lxor (mul_from x y bits z) (mul_from x' y bits z').
Proof.
  intros Hb Hx Hx'. revert z z'. induction Hb as [|i bits Hi Hb IH]; intros z z' Hz Hz'; [done|].
  cbn [mul_from foldl]. rewrite mul_loop_lxor_l by done. by apply IH; apply mul_loop_octet.
Qed.
Lemma mul_from_lxor_r x y y' bits z z' :
  Forall (λ i, 0 <= i) bits -> is_octet x = true ->
  is_octet z = true -> is_octet z' = true ->
  mul_from x (Z.lxor y y') bits (Z.lxor z z') = Z.lxor (mul_from x y bits z) (mul_from x y' bits z').
Proof.
  intros Hb Hx. revert z z'. induction Hb as [|i bits Hi Hb IH]; intros z z' Hz Hz'; [done|].
  cbn [mul_from foldl]. rewrite mul_loop_lxor_r by done. by apply IH; apply mul_loop_octet.
Qed.

Lemma bit_positions : Forall (λ i, 0 <= i) (rev (range 0 8)).
Proof. repeat constructor; lia. Qed.

Lemma gmul_octet x y : is_octet x = true -> is_octet (gmul x y) = true.
Proof. intros Hx. unfold gmul. by apply mul_from_octet; [apply bit_positions| |]. Qed.
Lemma gmul_lxor_l x x' y :
  is_octet x = true -> is_octet x' = true -> gmul (Z.lxor x x') y = Z.lxor (gmul x y) (gmul x' y).
Proof.
  intros Hx Hx'. unfold gmul. by apply (mul_from_lxor_l x x' y _ 0 0); [apply bit_positions|..].
Qed.
Lemma gmul_lxor_r x y y' : is_octet x = true -> gmul x (Z.lxor y y') = Z.lxor (gmul x y) (gmul x y').
Proof.
  intros Hx. unfold gmul. by apply (mul_from_lxor_r x y y' _ 0 0); [apply bit_positions|..].
Qed.

(** A property of octets that exclusive or keeps holds for all when it holds
    for zero and the powers of two. *)
Lemma octet_ind (P : Z -> Prop) :
  P 0 -> Forall (λ i, P (2 ^ i)) (range 0 8) ->
  (forall a b, is_octet a = true -> is_octet b = true -> P a -> P b -> P (Z.lxor a b)) ->
  forall z, is_octet z = true -> P z.
Proof.
  intros H0 Hp Hx. rewrite list.Forall_forall in Hp.
  assert (forall n z, (n <= 8)%nat -> 0 <= z < 2 ^ Z.of_nat n -> P z) as H.
  { induction n as [|n IH]; intros z Hn Hz.
    { replace z with 0; [done|]. change (2 ^ Z.of_nat 0) with 1 in Hz. lia. }
    assert (2 ^ Z.of_nat (S n) = 2 * 2 ^ Z.of_nat n) as E by (rewrite Nat2Z.inj_succ; apply Z.pow_succ_r; lia).
    assert (2 ^ Z.of_nat n <= 2 ^ 7) by (apply Z.pow_le_mono_r; lia).
    assert (0 < 2 ^ Z.of_nat n) by (apply Z.pow_pos_nonneg; lia).
    destruct (Z.lt_ge_cases z (2 ^ Z.of_nat n)) as [Hlt|Hge]; [apply IH; lia|].
    replace z with (Z.lxor (z - 2 ^ Z.of_nat n) (2 ^ Z.of_nat n)).
    - apply Hx; [apply octet_spec; lia|apply octet_spec; lia|apply IH; lia|].
      apply Hp, elem_of_range. lia.
    - rewrite <- Z.add_nocarry_lxor; [lia|]. rewrite Z.land_comm.
      apply Z.bits_inj'. intros k Hk. rewrite Z.land_spec, Z.bits_0, Z.pow2_bits_eqb by lia.
      destruct (Z.eqb_spec (Z.of_nat n) k) as [<-|]; [|done]. cbn [andb].
      destruct (Z.eq_dec (z - 2 ^ Z.of_nat n) 0) as [->|]; [apply Z.bits_0|].
      apply Z.bits_above_log2; [lia|]. apply Z.log2_lt_pow2; lia. }
  intros z Hz%octet_spec. apply (H 8%nat); [done|]. change (2 ^ Z.of_nat 8) with 256. lia.
Qed.

Lemma gmul_comm x y : is_octet x = true -> is_octet y = true -> gmul x y = gmul y x.
Proof.
  intros Hx Hy. revert x Hx. apply (octet_ind (λ x, gmul x y = gmul y x)).
  - revert y Hy. apply (octet_ind (λ y, gmul 0 y = gmul y 0)); [done|repeat constructor|].
    intros a b Ha Hb Ea Eb. by rewrite gmul_lxor_l, gmul_lxor_r, Ea, Eb.
  - revert y Hy. apply (octet_ind (λ y, Forall (λ i, gmul (2 ^ i) y = gmul y (2 ^ i)) (range 0 8))).
    + repeat constructor.
    + repeat constructor.
    + intros a b Ha Hb Fa Fb. rewrite list.Forall_forall in *. intros i Hi.
      assert (is_octet (2 ^ i) = true) as Ho.
      { apply elem_of_range in Hi. apply octet_spec. split; [lia|].
        apply (Z.pow_lt_mono_r 2 i 8); lia. }
      by rewrite gmul_lxor_l, gmul_lxor_r, Fa, Fb.
  - intros a b Ha Hb Ea Eb. by rewrite gmul_lxor_l, gmul_lxor_r, Ea, Eb.
Qed.

Lemma gmul_assoc x y z :
  is_octet x = true -> is_octet y = true -> is_octet z = true ->
  gmul x (gmul y z) = gmul (gmul x y) z.
Proof.
  set (check := λ x y z, gmul x (gmul y z) =? gmul (gmul x y) z).
  set (basis := 0 :: map (Z.pow 2) (range 0 8)).
  assert (forallb (λ x, forallb (λ y, forallb (check x y) basis) basis) basis = true) as Hc
    by (vm_compute; done).
  rewrite forallb_forall in Hc.
  assert (forall P : Z -> Prop, (forall b, In b basis -> P b) ->
    (forall a b, is_octet a = true -> is_octet b = true -> P a -> P b -> P (Z.lxor a b)) ->
    forall z, is_octet z = true -> P z) as Hind.
  { intros P Hb. apply octet_ind; [apply Hb; by left|]. apply list.Forall_forall.
    intros i Hi. apply Hb. right. apply in_map. by apply list_elem_of_In. }
  assert (forall b, In b basis -> is_octet b = true) as Hbo.
  { apply List.Forall_forall. repeat constructor. }
  intros Hx Hy Hz. revert x Hx. apply Hind; [intros bx Hbx|].
  2: { intros a b Ha Hb Ea Eb. rewrite !gmul_lxor_l by (done || by apply gmul_octet). by rewrite Ea, Eb. }
  pose proof (Hbo _ Hbx) as Hx. pose proof (Hc _ Hbx) as Hc1. rewrite forallb_forall in Hc1.
  revert y Hy. apply Hind; [intros bb Hby|].
  2: { intros a b Ha Hb Ea Eb. rewrite gmul_lxor_l, !gmul_lxor_r, gmul_lxor_l, Ea, Eb
         by (done || by apply gmul_octet). done. }
  pose proof (Hbo _ Hby) as Hy. pose proof (Hc1 _ Hby) as Hc2. rewrite forallb_forall in Hc2.
  revert z Hz. apply Hind; [intros bz Hbz; by apply Z.eqb_eq, Hc2|].
  intros a b Ha Hb Ea Eb. rewrite !gmul_lxor_r, Ea, Eb by (done || by apply gmul_octet). done.
Qed.

Lemma gmul_1_l x : is_octet x = true -> gmul 1 x = x.
Proof. intros Hx. apply Z.eqb_eq. revert x Hx. apply octet_check. vm_compute. done. Qed.

Lemma mul_result_octet z : is_octet z = true -> mul_result z = Ok z.
Proof.
  intros Hr%octet_spec. unfold mul_result. rewrite Z.shiftr_div_pow2, Z.div_small by (cbn; lia).
  cbn. unfold u8. by rewrite Z.mod_small by (cbn; lia).
Qed.
Lemma multiply_gmul x y : is_octet x = true -> reedSolomonMultiply x y = Ok (gmul x y).
Proof.
  intros Hx. unfold reedSolomonMultiply, gmul. apply mul_result_octet.
  by apply mul_from_octet; [apply bit_positions| |].
Qed.

Opaque gmul.

(** The octets as a type of their own. *)
Record GF := mkGF { gf : Z; gf_octet : is_octet gf = true }.
Lemma GF_eq (a b : GF) : gf a = gf b -> a = b.
Proof. destruct a as [a Ha], b as [b Hb]. cbn. intros <-. f_equal. apply Eqdep_dec.UIP_dec, bool_dec. Qed.

Definition gf_zero : GF := mkGF 0 eq_refl.
Definition gf_one : GF := mkGF 1 eq_refl.
Definition gf_alpha : GF := mkGF 2 eq_refl.
Definition gf_add (a b : GF) : GF := mkGF (Z.lxor (gf a) (gf b)) (octet_lxor _ _ (gf_octet a) (gf_octet b)).
Definition gf_mul (a b : GF) : GF := mkGF (gmul (gf a) (gf b)) (gmul_octet _ _ (gf_octet a)).

Lemma gf_ring : ring_theory gf_zero gf_one gf_add gf_mul gf_add (λ x, x) eq.
Proof.
  split; intros; apply GF_eq; cbn -[gmul].
  - apply Z.lxor_0_l.
  - apply Z.lxor_comm.
  - symmetry. apply Z.lxor_assoc.
  - apply gmul_1_l, gf_octet.
  - apply gmul_comm; apply gf_octet.
  - apply gmul_assoc; apply gf_octet.
  - apply gmul_lxor_l; apply gf_octet.
  - done.
  - apply Z.lxor_nilpotent.
Qed.

(** Two generates the multiplicative group: its powers below 255 are different
    and there is no other octet but zero. *)
Notation gf_pow := (pow gf_one gf_mul).
Fixpoint powers (n : nat) (z : Z) : list Z :=
  match n with O => [] | S n => z :: powers n (gmul 2 z) end.

Lemma gf_mul_alpha a : gmul 2 (gf a) = gf (gf_mul gf_alpha a).
Proof. done. Qed.

Lemma pow_shift k a : gf_mul (gf_pow gf_alpha (S k)) a = gf_mul (gf_pow gf_alpha k) (gf_mul gf_alpha a).
Proof.
  cbn [pow]. rewrite (Rmul_assoc gf_ring). f_equal. apply (Rmul_comm gf_ring).
Qed.

Lemma powers_in n a z :
  In z (powers n (gf a)) -> exists k, (k < n)%nat /\ z = gf (gf_mul (gf_pow gf_alpha k) a).
Proof.
  revert a. induction n as [|n IH]; intros a; cbn [powers In]; [done|]. intros [<-|Hz].
  - exists 0%nat. split; [lia|]. cbn [pow]. by rewrite (Rmul_1_l gf_ring).
  - rewrite gf_mul_alpha in Hz. destruct (IH _ Hz) as (k & Hk & ->).
    exists (S k). split; [lia|]. by rewrite pow_shift.
Qed.
Lemma in_powers n a k :
  (k < n)%nat -> In (gf (gf_mul (gf_pow gf_alpha k) a)) (powers n (gf a)).
Proof.
  revert a k. induction n as [|n IH]; intros a k Hk; [lia|]. cbn [powers In].
  destruct k as [|k]; [left; cbn [pow]; by rewrite (Rmul_1_l gf_ring)|]. right.
  rewrite gf_mul_alpha, pow_shift. apply IH. lia.
Qed.

Lemma last_powers n a : List.last (powers (S n) (gf a)) 0 = gf (gf_mul (gf_pow gf_alpha n) a).
Proof.
  revert a. induction n as [|n IH]; intros a.
  - cbn [powers List.last pow]. by rewrite (Rmul_1_l gf_ring).
  - rewrite pow_shift, <- IH, <- gf_mul_alpha. cbn [powers].
    generalize (gmul 2 (gmul 2 (gf a))) (gmul 2 (gf a)). done.
Qed.

Lemma powers_check :
  forallb (λ z, existsb (Z.eqb z) (powers 255 1)) (range 1 256)
    && forallb (λ z, negb (z =? 1)) (powers 254 2) && (List.last (powers 256 1) 0 =? 1) = true.
Proof. vm_compute. done. Qed.

Lemma gf_mul_1_r a : gf_mul a gf_one = a.
Proof. rewrite (Rmul_comm gf_ring). apply (Rmul_1_l gf_ring). Qed.

Lemma gf_log a : a <> gf_zero -> exists k, (k < 255)%nat /\ a = gf_pow gf_alpha k.
Proof.
  intros Ha. pose proof powers_check as Hc. apply andb_true_iff in Hc as [[Hc _]%andb_true_iff _].
  rewrite forallb_forall in Hc. pose proof (proj1 (octet_spec _) (gf_octet a)) as Hr.
  assert (gf a <> 0) as Hn by (intros E; by apply Ha, GF_eq).
  specialize (Hc (gf a)). rewrite existsb_exists in Hc.
  destruct Hc as (z & Hz & <-%Z.eqb_eq); [apply list_elem_of_In, elem_of_range; lia|].
  apply (powers_in 255 gf_one) in Hz as (k & Hk & E). exists k. split; [done|].
  apply GF_eq. by rewrite gf_mul_1_r in E.
Qed.

Lemma alpha_order k : (0 < k < 255)%nat -> gf_pow gf_alpha k <> gf_one.
Proof.
  intros Hk E. pose proof powers_check as Hc. apply andb_true_iff in Hc as [[_ Hc]%andb_true_iff _].
  rewrite forallb_forall in Hc. destruct k as [|k]; [lia|].
  specialize (Hc _ (in_powers 254 gf_alpha k ltac:(lia))).
  replace (gf_mul (gf_pow gf_alpha k) gf_alpha) with gf_one in Hc; [done|].
  etrans; [symmetry; exact E|]. cbn [pow]. apply (Rmul_comm gf_ring).
Qed.

Lemma alpha_cycle : gf_pow gf_alpha 255 = gf_one.
Proof.
  pose proof powers_check as Hc. apply andb_true_iff in Hc as [_ Hc%Z.eqb_eq].
  change 1 with (gf gf_one) in Hc at 1. rewrite (last_powers 255 gf_one) in Hc.
  apply GF_eq. by rewrite gf_mul_1_r in Hc.
Qed.

Add Ring GFring : gf_ring.
Lemma gf_inverse a : a <> gf_zero -> exists b, gf_mul b a = gf_one.
Proof.
  intros (k & Hk & ->)%gf_log. exists (gf_pow gf_alpha (255 - k)).
  rewrite <- (pow_add _ _ _ _ gf_ring). replace (255 - k + k)%nat with 255%nat by lia.
  apply alpha_cycle.
Qed.

#[export] Instance GF_eq_dec : EqDecision GF.
Proof.
  intros a b. destruct (decide (gf a = gf b)) as [E|E]; [left; by apply GF_eq|right; by intros ->].
Defined.

Lemma gf_integral a b : gf_mul a b = gf_zero -> a = gf_zero \/ b = gf_zero.
Proof.
  intros E. destruct (decide (a = gf_zero)) as [|Ha]; [by left|]. right.
  destruct (gf_inverse a Ha) as [c Hc]. replace b with (gf_mul gf_one b) by ring.
  rewrite <- Hc. replace (gf_mul (gf_mul c a) b) with (gf_mul c (gf_mul a b)) by ring.
  rewrite E. ring.
Qed.

Lemma alpha_nonzero k : gf_pow gf_alpha k <> gf_zero.
Proof.
  induction k as [|k IH]; [done|]. cbn [pow]. intros [E|E]%gf_integral; [done|by apply IH].
Qed.

Lemma alpha_injective i j :
  (i < 255)%nat -> (j < 255)%nat -> gf_pow gf_alpha i = gf_pow gf_alpha j -> i = j.
Proof.
  assert (forall i j, (i < j < 255)%nat -> gf_pow gf_alpha i <> gf_pow gf_alpha j) as H.
  { intros a b Hab E. replace b with ((b - a) + a)%nat in E by lia.
    rewrite (pow_add _ _ _ _ gf_ring) in E.
    assert (gf_mul (gf_add gf_one (gf_pow gf_alpha (b - a))) (gf_pow gf_alpha a) = gf_zero) as Hz.
    { rewrite (Rdistr_l gf_ring), <- E, (Rmul_1_l gf_ring). apply (Ropp_def gf_ring). }
    apply gf_integral in Hz as [Hz|Hz]; [|by apply alpha_nonzero in Hz].
    apply (add_cancel _ _ _ _ gf_ring) in Hz. symmetry in Hz. by apply alpha_order in Hz; [|lia]. }
  intros Hi Hj E. destruct (Nat.lt_trichotomy i j) as [Hl|[->|Hl]]; [|done|].
  - by destruct (H i j ltac:(lia) E).
  - by destruct (H j i ltac:(lia) (eq_sym E)).
Qed.

(** ** The code computes in the field *)
Notation gf_eval := (eval gf_zero gf_add gf_mul).
Notation gf_remainder := (remainder gf_zero gf_add gf_mul).
Notation gf_divisor := (divisor gf_zero gf_one gf_add gf_mul gf_alpha).

Lemma multiply_gf a b : reedSolomonMultiply (gf a) (gf b) = Ok (gf (gf_mul a b)).
Proof. apply multiply_gmul, gf_octet. Qed.

Lemma times_root_gf r l :
  times_root (gf r) (map gf l) = Ok (map gf (root_step gf_zero gf_add gf_mul r l)).
Proof.
  induction l as [|a l IH]; [done|]. cbn [map times_root].
  rewrite (bind_run _ _ _ (multiply_gf a r)), (bind_run _ _ _ IH). f_equal.
  unfold root_step. cbn [map tail]. destruct l as [|b l]; cbn [map app zip_with gf_add gf].
  - f_equal. by rewrite Z.lxor_0_r, (Rmul_comm gf_ring).
  - f_equal. by rewrite (Rmul_comm gf_ring).
Qed.

Lemma divisor_loop_gf n r l :
  for_in (range 0 (Z.of_nat n)) (λ _ '(result, root),
    result' ← times_root root result;
    root' ← reedSolomonMultiply root 2;
    Ok (result', root')) (map gf l, gf r) =
  Ok (map gf (divisor_from gf_zero gf_add gf_mul gf_alpha n r l),
      gf (gf_mul r (gf_pow gf_alpha n))).
Proof.
  assert (forall (xs : list Z) r l, for_in xs (λ _ '(result, root),
    result' ← times_root root result;
    root' ← reedSolomonMultiply root 2;
    Ok (result', root')) (map gf l, gf r) =
    Ok (map gf (divisor_from gf_zero gf_add gf_mul gf_alpha (length xs) r l),
      gf (gf_mul r (gf_pow gf_alpha (length xs))))) as H.
  { induction xs as [|x xs IH]; intros r' l'; cbn [for_in length divisor_from pow].
    - by rewrite gf_mul_1_r.
    - rewrite times_root_gf. cbn [mbind Result_bind].
      change 2 with (gf gf_alpha). rewrite multiply_gf. cbn [mbind Result_bind].
      rewrite IH. by rewrite (Rmul_assoc gf_ring). }
  rewrite H, length_range. by replace (Z.to_nat (Z.of_nat n - 0)) with n by lia.
Qed.

Lemma compute_divisor_gf n :
  (1 <= n <= 255)%nat -> reedSolomonComputeDivisor (Z.of_nat n) = Ok (map gf (gf_divisor n)).
Proof.
  intros Hn. unfold reedSolomonComputeDivisor.
  rewrite (proj2 (Z.ltb_ge _ _)), (proj2 (Z.ltb_ge _ _)) by lia. cbn [orb negb ensure mbind Result_bind].
  rewrite Nat2Z.id. replace (Z.of_nat n - 1) with (Z.of_nat (n - 1)) by lia.
  rewrite put_at_insert by (rewrite length_replicate; lia). cbn [mbind Result_bind].
  replace (<[(n - 1)%nat := 1]> (replicate n 0))
    with (map gf (app (replicate (n - 1) gf_zero) [gf_one])).
  2: { destruct n as [|n]; [lia|]. replace (S n - 1)%nat with n by lia. clear Hn.
       induction n as [|n IH]; [done|]. cbn [replicate app map insert list_insert gf gf_zero].
       f_equal. exact IH. }
  change 1 with (gf gf_one) at 1. rewrite divisor_loop_gf. done.
Qed.

Lemma add_multiple_gf f d r :
  length d = length r ->
  add_multiple (gf f) (map gf d) (map gf r) = Ok (map gf (zip_with gf_add r (map (gf_mul f) d))).
Proof.
  revert r. induction d as [|a d IH]; intros [|b r] Hl; try done. cbn [map add_multiple].
  rewrite (bind_run _ _ _ (multiply_gf a f)), (bind_run _ _ _ (IH r ltac:(by injection Hl))).
  cbn [zip_with map gf_add gf]. by rewrite (Rmul_comm gf_ring a f).
Qed.

Lemma compute_remainder_gf data d :
  d <> [] ->
  reedSolomonComputeRemainder (map gf data) (map gf d) = Ok (map gf (gf_remainder data d)).
Proof.
  intros Hd. unfold reedSolomonComputeRemainder, remainder. rewrite length_map.
  assert (length (replicate (length d) gf_zero) = length d) as Hl by apply length_replicate.
  replace (replicate (length d) 0) with (map gf (replicate (length d) gf_zero))
    by (clear; induction (length d) as [|n IH]; [done|]; cbn [replicate map]; by rewrite IH).
  revert Hl. generalize (replicate (length d) gf_zero).
  induction data as [|b data IH]; intros r Hl; [done|]. cbn [map for_in foldl].
  destruct r as [|a r]; [by destruct d|]. cbn [map tail].
  rewrite (bind_run _ _ _ (at_lookup (gf a :: map gf r) 0 (gf a) eq_refl)).
  change (Z.lxor (gf b) (gf a)) with (gf (gf_add b a)). change [0] with (map gf [gf_zero]).
  rewrite <- map_app, add_multiple_gf by (rewrite length_app; cbn [length] in *; lia).
  cbn [mbind Result_bind]. rewrite IH; [done|]. apply (rem_step_length gf_zero gf_add gf_mul d (a :: r) b Hl).
Qed.

(** ** Codewords *)
Definition octets (l : list Z) : Prop := Forall (λ z, is_octet z = true) l.

Lemma octets_gf l : octets l -> exists g, l = map gf g.
Proof.
  induction 1 as [|z l Hz _ [g ->]]; [by exists []|]. by exists (mkGF z Hz :: g).
Qed.
Lemma gf_octets g : octets (map gf g).
Proof. induction g as [|a g IH]; constructor; [apply gf_octet|done]. Qed.

(** The value of a polynomial at an octet, and the powers of two. *)
Definition horner (word : list Z) (x : Z) : Z := foldl (λ acc c, Z.lxor (gmul acc x) c) 0 word.
Fixpoint power (i : nat) : Z := match i with O => 1 | S i => gmul 2 (power i) end.

Lemma power_gf i : power i = gf (gf_pow gf_alpha i).
Proof. induction i as [|i IH]; [done|]. cbn [power pow]. by rewrite IH, gf_mul_alpha. Qed.
Lemma horner_gf g x : horner (map gf g) (gf x) = gf (gf_eval g x).
Proof.
  unfold horner, eval. change 0 with (gf gf_zero) at 1. generalize gf_zero.
  induction g as [|c g IH]; intros a; [done|]. cbn [map foldl]. apply (IH (gf_add (gf_mul a x) c)).
Qed.

(** Number of places at which two words differ. *)
Definition distance (a b : list Z) : nat :=
  length (filter (λ xy : Z * Z, xy.1 <> xy.2) (combine a b)).

Lemma distance_comm a b : distance a b = distance b a.
Proof.
  unfold distance. revert b. induction a as [|x a IH]; intros [|y b]; try done.
  cbn [combine]. rewrite !filter_cons. specialize (IH b). cbn [fst snd].
  repeat case_decide; try done; cbn [length]; congruence.
Qed.
Lemma distance_triangle a b c :
  length a = length b -> length b = length c ->
  (distance a c <= distance a b + distance b c)%nat.
Proof.
  unfold distance. revert b c. induction a as [|x a IH]; intros [|y b] [|z c] Hl Hl'; try done.
  cbn [combine]. rewrite !filter_cons. cbn [fst snd].
  specialize (IH b c ltac:(by injection Hl) ltac:(by injection Hl')).
  repeat case_decide; cbn [length]; try lia.
Qed.

Section Distance.
Local Notation psum := (power_sum gf_zero gf_one gf_add gf_mul).

(** The coefficients with the powers of two they stand at. *)
Definition placed (g : list GF) : list (GF * GF) :=
  imap (λ i c, (c, gf_pow gf_alpha (length g - 1 - i))) g.

Lemma placed_cons c g : placed (c :: g) = (c, gf_pow gf_alpha (length g)) :: placed g.
Proof.
  unfold placed. rewrite imap_cons. cbn [length].
  replace (S (length g) - 1 - 0)%nat with (length g) by lia. f_equal.
  apply imap_ext. intros i x Hi. cbn [compose]. do 2 f_equal. lia.
Qed.

Lemma placed_sum g i : psum (placed g) i = gf_eval g (gf_pow gf_alpha i).
Proof.
  induction g as [|c g IH]; [done|].
  rewrite placed_cons, (eval_cons _ _ _ _ gf_ring). cbn [power_sum foldr fst snd].
  fold (psum (placed g) i). rewrite IH, !(pow_mul _ _ _ _ gf_ring). by rewrite Nat.mul_comm.
Qed.

Lemma placed_snd g c y :
  (c, y) ∈ placed g -> exists k, (k < length g)%nat /\ y = gf_pow gf_alpha k.
Proof.
  induction g as [|d g IH]; [by intros ?%not_elem_of_nil|].
  rewrite placed_cons. intros [[= -> ->]|H]%elem_of_cons.
  - exists (length g). split; [cbn; lia|done].
  - destruct (IH H) as (k & Hk & ->). exists k. split; [cbn; lia|done].
Qed.

Lemma placed_nodup g : (length g <= 255)%nat -> NoDup (map snd (placed g)).
Proof.
  induction g as [|d g IH]; intros Hl; [constructor|].
  rewrite placed_cons. cbn [map snd length] in *. constructor; [|apply IH; lia].
  intros ([c y] & E & Hin)%list_elem_of_fmap. cbn in E. subst y.
  destruct (placed_snd _ _ _ Hin) as (k & Hk & E).
  apply alpha_injective in E; lia.
Qed.

Lemma nonzero_sum l i : psum (filter (λ cy, cy.1 <> gf_zero) l) i = psum l i.
Proof.
  induction l as [|[c y] l IH]; [done|]. rewrite filter_cons. cbn [fst].
  destruct (decide (c <> gf_zero)) as [Hc|Hc]; cbn [power_sum foldr fst snd];
    fold (psum l i); fold (psum (filter (λ cy, cy.1 <> gf_zero) l) i); rewrite IH; [done|].
  replace c with gf_zero by (destruct (decide (c = gf_zero)); [done|by destruct Hc]). ring.
Qed.

Lemma placed_filter g h :
  length g = length h ->
  length (filter (λ cy, cy.1 <> gf_zero) (placed (zip_with gf_add g h)))
  = distance (map gf g) (map gf h).
Proof.
  unfold distance. revert h. induction g as [|a g IH]; intros [|b h] Hl; try done.
  cbn [zip_with map combine]. rewrite placed_cons, !filter_cons. cbn [fst snd].
  specialize (IH h ltac:(by injection Hl)).
  destruct (decide (gf a <> gf b)) as [Hn|Hn], (decide (gf_add a b <> gf_zero)) as [Hz|Hz];
    cbn [length]; rewrite ?IH; try done.
  - destruct Hz. intros E. apply Hn. f_equal. by apply (add_cancel _ _ _ _ gf_ring).
  - destruct Hn. intros E. apply Hz. apply GF_eq in E as ->. apply (Ropp_def gf_ring).
Qed.

Lemma distance_zero g h :
  length g = length h -> distance (map gf g) (map gf h) = 0%nat -> g = h.
Proof.
  unfold distance. revert h. induction g as [|a g IH]; intros [|b h] Hl; try done.
  cbn [map combine]. rewrite filter_cons. cbn [fst snd]. case_decide as Hd; [done|]. intros E.
  f_equal; [|apply IH; [by injection Hl|done]].
  apply GF_eq. destruct (decide (gf a = gf b)); [done|by destruct Hd].
Qed.

(** Two words that are zero at the same [n] powers are equal or differ in more
    than [n] places. *)
Lemma codewords_apart n g h :
  length g = length h -> (length g <= 255)%nat ->
  (forall i, (i < n)%nat -> gf_eval g (gf_pow gf_alpha i) = gf_zero) ->
  (forall i, (i < n)%nat -> gf_eval h (gf_pow gf_alpha i) = gf_zero) ->
  g = h \/ (n < distance (map gf g) (map gf h))%nat.
Proof.
  intros Hl Hl' Hg Hh. destruct (decide (n < distance (map gf g) (map gf h))%nat) as [|Hd]; [by right|].
  left. apply distance_zero; [done|]. rewrite <- placed_filter in * by done.
  set (d := zip_with gf_add g h) in *. set (l := filter _ (placed d)) in *.
  assert (length d = length g) as Hld by (unfold d; rewrite length_zip_with; lia).
  assert (Forall (λ cy, cy.1 = gf_zero) l) as Hz.
  { apply (power_sums_zero _ _ _ _ gf_ring gf_integral).
    - unfold l. eapply sublist_NoDup; [apply (placed_nodup d); lia|].
      apply (fmap_sublist snd), sublist_filter.
    - intros i Hi. unfold l. rewrite nonzero_sum, placed_sum. unfold d.
      rewrite (eval_add _ _ _ _ gf_ring) by done. rewrite Hg, Hh by lia. ring. }
  assert (forall cy, cy ∈ l -> False) as Hn.
  { intros cy Hin. rewrite list.Forall_forall in Hz. pose proof (Hz _ Hin).
    unfold l in Hin. by apply list_elem_of_filter in Hin as [Hc _]. }
  clearbody l. destruct l as [|cy k]; [done|]. destruct (Hn cy). by left.
Qed.
End Distance.

(** Data with its remainder, as one block of a code. *)
Definition rs_encode (degree : Z) (data : list Z) : Result (list Z) :=
  divisor ← reedSolomonComputeDivisor degree;
  ecc ← reedSolomonComputeRemainder data divisor;
  Ok (app data ecc).

Lemma rs_encode_gf n g :
  (1 <= n <= 255)%nat ->
  rs_encode (Z.of_nat n) (map gf g) = Ok (map gf (app g (gf_remainder g (gf_divisor n)))).
Proof.
  intros Hn. unfold rs_encode. rewrite compute_divisor_gf by done. cbn [mbind Result_bind].
  rewrite compute_remainder_gf; [cbn [mbind Result_bind]; by rewrite map_app|].
  intros E. pose proof (divisor_length gf_zero gf_one gf_add gf_mul gf_alpha n ltac:(lia)) as Hl.
  rewrite E in Hl. cbn in Hl. lia.
Qed.

Lemma encoded_root n g i :
  (i < n)%nat -> gf_eval (app g (gf_remainder g (gf_divisor n))) (gf_pow gf_alpha i) = gf_zero.
Proof.
  intros Hi. apply (codeword_root _ _ _ _ gf_ring).
  - intros E. pose proof (divisor_length gf_zero gf_one gf_add gf_mul gf_alpha n ltac:(lia)) as Hl.
    rewrite E in Hl. cbn in Hl. lia.
  - rewrite divisor_length by lia. by apply (divisor_root _ _ _ _ gf_ring).
Qed.

(** A block is its data and [degree] further octets, and the polynomial of the
    block is zero at the first [degree] powers of two. *)
Lemma encoded_block (degree : nat) data :
  (1 <= degree <= 255)%nat -> octets data ->
  exists ecc, rs_encode (Z.of_nat degree) data = Ok (app data ecc) /\
    length ecc = degree /\ octets ecc /\
    forall i, (i < degree)%nat -> horner (app data ecc) (power i) = 0.
Proof.
  intros Hn [g ->]%octets_gf. exists (map gf (gf_remainder g (gf_divisor degree))).
  rewrite rs_encode_gf by done. rewrite map_app. split; [done|].
  rewrite length_map, remainder_length, divisor_length by lia. split; [done|].
  split; [apply gf_octets|]. intros i Hi. rewrite <- map_app, power_gf, horner_gf.
  by rewrite encoded_root.
Qed.

(** C19. A damaged block can be repaired: when at most half as many octets of a
    block are changed as it has octets of error correction, the block of any
    other data of that length is farther away, so the nearest block is the one
    that was written. *)
Theorem damaged_block_unique (degree : nat) (data data' word block block' : list Z) :
  (1 <= degree)%nat -> (length data + degree <= 255)%nat ->
  octets data -> octets data' -> length data' = length data -> data' <> data ->
  rs_encode (Z.of_nat degree) data = Ok block ->
  rs_encode (Z.of_nat degree) data' = Ok block' ->
  length word = length block ->
  (2 * distance word block <= degree)%nat -> (degree < 2 * distance word block')%nat.
Proof.
  intros Hn Hl [g ->]%octets_gf [h ->]%octets_gf Hl' Hne Eb Eb' Hw Hd.
  rewrite !length_map in *.
  rewrite rs_encode_gf in Eb, Eb' by lia. injection Eb as <-. injection Eb' as <-.
  pose proof (remainder_length gf_zero gf_add gf_mul g (gf_divisor degree)) as Hg.
  pose proof (remainder_length gf_zero gf_add gf_mul h (gf_divisor degree)) as Hh.
  rewrite divisor_length in Hg, Hh by lia.
  destruct (codewords_apart degree (app h (gf_remainder h (gf_divisor degree)))
    (app g (gf_remainder g (gf_divisor degree)))) as [E|Hfar].
  - rewrite !length_app. lia.
  - rewrite length_app. lia.
  - intros i. apply encoded_root.
  - intros i. apply encoded_root.
  - apply app_inj_1 in E as [-> _]; [done|lia].
  - pose proof (distance_triangle (map gf (app h (gf_remainder h (gf_divisor degree)))) word
      (map gf (app g (gf_remainder g (gf_divisor degree))))) as Ht.
    rewrite (distance_comm _ word) in Ht. rewrite !length_map, !length_app in Ht.
    rewrite length_map, length_app in Hw. specialize (Ht ltac:(lia) ltac:(lia)). lia.
Qed.

Lemma damaged_block_unique_witness :
  exists block block' : list Z,
    rs_encode 4 [16; 32; 12] = Ok block /\ rs_encode 4 [16; 33; 12] = Ok block' /\
    (4 < 2 * distance (<[0%nat := 7%Z]> (<[4%nat := 255%Z]> block)) block')%nat.
Proof.
  eexists _, _. split; [vm_compute; reflexivity|]. split; [vm_compute; reflexivity|].
  refine (damaged_block_unique 4 [16; 32; 12] [16; 33; 12] _ _ _ _ _ _ _ _ _ _ _ _ _);
    first [by vm_compute|by repeat constructor|vm_compute; lia].
Defined.
