(* ===== verification/QrSegments.v ===== *)
(** * Segments of a QR code

    Model of [BitBuffer] and [QrSegment] (client/3rd/qrcodegen/qrcodegen.cpp and
    .hpp): the bits of a text or of octets in one of the modes of a QR code. A
    text is the list of its characters before the terminating zero. [read_items]
    is what a reader of QR codes does with the bits; the lemmas show that it
    reads back what the segments were made of. *)
From Stdlib Require Import ZArith Lia Ascii String.
From stdpp Require Import base list numbers.
From S2P Require Import Prelude ReedSolomon.
Local Open Scope Z_scope.

Definition INT_MAX : Z := 2 ^ 31 - 1.

(** ** Bits *)
Definition bits_of (val len : Z) : list bool := map (Z.testbit val) (rev (range 0 len)).

Definition appendBits (val len : Z) (bb : list bool) : Result (list bool) :=
  _ ← ensure (negb ((len <? 0) || (31 <? len) || negb (Z.shiftr val len =? 0))) domain_error;
  Ok (app bb (bits_of val len)).

(** ** Modes *)
Record Mode := mkMode { modeBits : Z; cc0 : Z; cc1 : Z; cc2 : Z }.
Definition NUMERIC : Mode := mkMode 1 10 12 14.
Definition ALPHANUMERIC : Mode := mkMode 2 9 11 13.
Definition BYTE : Mode := mkMode 4 8 16 16.
Definition KANJI : Mode := mkMode 8 8 10 12.
Definition ECI : Mode := mkMode 7 0 0 0.

Definition numCharCountBits (m : Mode) (ver : Z) : Z :=
  let i := (ver + 7) / 17 in
  if i =? 0 then cc0 m else if i =? 1 then cc1 m else cc2 m.

(** ** Segments *)
Record QrSegment := mkSegment { mode : Mode; numChars : Z; data : list bool }.

Definition QrSegment_new (md : Mode) (numCh : Z) (dt : list bool) : Result QrSegment :=
  if numCh <? 0 then Throw domain_error else Ok (mkSegment md numCh dt).

Definition makeBytes (bytes : list Z) : Result QrSegment :=
  _ ← ensure (Z.of_nat (length bytes) <=? INT_MAX) length_error;
  bb ← for_in bytes (λ b bb, appendBits b 8 bb) [];
  QrSegment_new BYTE (Z.of_nat (length bytes)) bb.

Definition char_0 : Z := 48.
Definition char_9 : Z := 57.

(** The loop of [makeNumeric] with its variables, and what follows it. *)
Fixpoint numeric_loop (digits : list Z) (accumData accumCount charCount : Z) (bb : list bool) :
    Result QrSegment :=
  match digits with
  | [] =>
      bb' ← (if 0 <? accumCount then appendBits accumData (accumCount * 3 + 1) bb else Ok bb);
      QrSegment_new NUMERIC charCount bb'
  | c :: digits' =>
      if (c <? char_0) || (char_9 <? c) then Throw domain_error
      else
        let accumData' := accumData * 10 + (c - char_0) in
        if accumCount + 1 =? 3 then
          bb' ← appendBits accumData' 10 bb; numeric_loop digits' 0 0 (charCount + 1) bb'
        else numeric_loop digits' accumData' (accumCount + 1) (charCount + 1) bb
  end.
Definition makeNumeric (digits : list Z) : Result QrSegment := numeric_loop digits 0 0 0 [].

Definition ALPHANUMERIC_CHARSET : list Z :=
  map (λ c, Z.of_nat (nat_of_ascii c))
    (list_ascii_of_string "0123456789ABCDEFGHIJKLMNOPQRSTUVWXYZ $%*+-./:").

(** [strchr] as the distance from the start. *)
Fixpoint position (c : Z) (l : list Z) : option Z :=
  match l with
  | [] => None
  | x :: l' => if x =? c then Some 0 else option_map (Z.add 1) (position c l')
  end.

Fixpoint alphanumeric_loop (text : list Z) (accumData accumCount charCount : Z) (bb : list bool) :
    Result QrSegment :=
  match text with
  | [] =>
      bb' ← (if 0 <? accumCount then appendBits accumData 6 bb else Ok bb);
      QrSegment_new ALPHANUMERIC charCount bb'
  | c :: text' =>
      match position c ALPHANUMERIC_CHARSET with
      | None => Throw domain_error
      | Some i =>
          let accumData' := accumData * 45 + i in
          if accumCount + 1 =? 2 then
            bb' ← appendBits accumData' 11 bb; alphanumeric_loop text' 0 0 (charCount + 1) bb'
          else alphanumeric_loop text' accumData' (accumCount + 1) (charCount + 1) bb
      end
  end.
Definition makeAlphanumeric (text : list Z) : Result QrSegment := alphanumeric_loop text 0 0 0 [].

Definition isNumeric (text : list Z) : bool :=
  forallb (λ c, negb ((c <? char_0) || (char_9 <? c))) text.
Definition isAlphanumeric (text : list Z) : bool :=
  forallb (λ c, match position c ALPHANUMERIC_CHARSET with Some _ => true | None => false end) text.

Definition makeSegments (text : list Z) : Result (list QrSegment) :=
  match text with
  | [] => Ok []
  | _ =>
      seg ← (if isNumeric text then makeNumeric text
             else if isAlphanumeric text then makeAlphanumeric text else makeBytes text);
      Ok [seg]
  end.

Definition makeEci (assignVal : Z) : Result QrSegment :=
  bb ← (if assignVal <? 0 then Throw domain_error
        else if assignVal <? 2 ^ 7 then appendBits assignVal 8 []
        else if assignVal <? 2 ^ 14 then bb ← appendBits 2 2 []; appendBits assignVal 14 bb
        else if assignVal <? 1000000 then bb ← appendBits 6 3 []; appendBits assignVal 21 bb
        else Throw domain_error);
  QrSegment_new ECI 0 bb.

(** The loop of [getTotalBits]: [-1] when a length does not fit its field or the
    sum an [int]. *)
Fixpoint total_bits (segs : list QrSegment) (version result : Z) : Z :=
  match segs with
  | [] => result
  | seg :: segs' =>
      let ccbits := numCharCountBits (mode seg) version in
      if Z.shiftl 1 ccbits <=? numChars seg then -1
      else if INT_MAX - result <? 4 + ccbits then -1
      else
        let result' := result + (4 + ccbits) in
        if INT_MAX - result' <? Z.of_nat (length (data seg)) then -1
        else total_bits segs' version (result' + Z.of_nat (length (data seg)))
  end.
Definition getTotalBits (segs : list QrSegment) (version : Z) : Z := total_bits segs version 0.

(** The bits of all segments with their headers, as [encodeSegments] appends
    them. *)
Definition append_segments (segs : list QrSegment) (version : Z) : Result (list bool) :=
  for_in segs (λ seg bb,
    bb ← appendBits (modeBits (mode seg)) 4 bb;
    bb ← appendBits (numChars seg) (numCharCountBits (mode seg) version) bb;
    Ok (app bb (data seg))) [].

(** ** What a reader does *)
Inductive Item :=
| INumeric (digits : list Z) | IAlphanumeric (text : list Z) | IBytes (bytes : list Z) | IEci (val : Z).

Definition make_item (i : Item) : Result QrSegment :=
  match i with
  | INumeric t => makeNumeric t
  | IAlphanumeric t => makeAlphanumeric t
  | IBytes b => makeBytes b
  | IEci v => makeEci v
  end.

Definition bits_value (l : list bool) : Z := foldl (λ acc b, 2 * acc + Z.b2z b) 0 l.
Definition read_bits (n : nat) (s : list bool) : option (Z * list bool) :=
  if (n <=? length s)%nat then Some (bits_value (take n s), drop n s) else None.

Fixpoint read_digits (count : nat) (s : list bool) : option (list Z * list bool) :=
  match count with
  | S (S (S n)) =>
      '(v, s) ← read_bits 10 s; '(ds, s) ← read_digits n s;
      Some (char_0 + v / 100 :: char_0 + v / 10 mod 10 :: char_0 + v mod 10 :: ds, s)
  | S (S O) => '(v, s) ← read_bits 7 s; Some ([char_0 + v / 10; char_0 + v mod 10], s)
  | S O => '(v, s) ← read_bits 4 s; Some ([char_0 + v], s)
  | O => Some ([], s)
  end.

Definition charset_at (i : Z) : Z := nth (Z.to_nat i) ALPHANUMERIC_CHARSET 0.
Fixpoint read_alphanumeric (count : nat) (s : list bool) : option (list Z * list bool) :=
  match count with
  | S (S n) =>
      '(v, s) ← read_bits 11 s; '(cs, s) ← read_alphanumeric n s;
      Some (charset_at (v / 45) :: charset_at (v mod 45) :: cs, s)
  | S O => '(v, s) ← read_bits 6 s; Some ([charset_at v], s)
  | O => Some ([], s)
  end.

Fixpoint read_octets (count : nat) (s : list bool) : option (list Z * list bool) :=
  match count with
  | S n => '(v, s) ← read_bits 8 s; '(bs, s) ← read_octets n s; Some (v :: bs, s)
  | O => Some ([], s)
  end.

Definition read_designator (s : list bool) : option (Z * list bool) :=
  match s with
  | false :: s => read_bits 7 s
  | true :: false :: s => read_bits 14 s
  | true :: true :: false :: s => read_bits 21 s
  | _ => None
  end.

Definition read_item (m version : Z) (s : list bool) : option (Item * list bool) :=
  let count md := read_bits (Z.to_nat (numCharCountBits md version)) s in
  if m =? 1 then '(n, s) ← count NUMERIC; '(t, s) ← read_digits (Z.to_nat n) s; Some (INumeric t, s)
  else if m =? 2 then
    '(n, s) ← count ALPHANUMERIC; '(t, s) ← read_alphanumeric (Z.to_nat n) s; Some (IAlphanumeric t, s)
  else if m =? 4 then '(n, s) ← count BYTE; '(b, s) ← read_octets (Z.to_nat n) s; Some (IBytes b, s)
  else if m =? 7 then '(v, s) ← read_designator s; Some (IEci v, s)
  else None.

(** Items up to the terminator or the end; every item takes at least four bits. *)
Fixpoint read_stream (fuel : nat) (version : Z) (s : list bool) : option (list Item) :=
  match fuel with
  | O => None
  | S fuel =>
      match read_bits 4 s with
      | None => Some []
      | Some (m, s) =>
          if m =? 0 then Some []
          else '(i, s) ← read_item m version s; rest ← read_stream fuel version s; Some (i :: rest)
      end
  end.
Definition read_items (version : Z) (s : list bool) : option (list Item) :=
  read_stream (S (length s)) version s.

(** ** Bits are read back *)
Lemma bits_of_length v n : 0 <= n -> length (bits_of v n) = Z.to_nat n.
Proof. intros Hn. unfold bits_of. rewrite length_map, length_rev, length_range. lia. Qed.

Lemma range_snoc a n : 0 <= n -> range a (a + n + 1) = app (range a (a + n)) [a + n].
Proof.
  intros Hn. unfold range. replace (a + n + 1 - a) with (n + 1) by lia. rewrite seqZ_app by lia.
  by replace (a + n - a) with n by lia.
Qed.

Lemma bits_of_succ v n : 0 <= n -> bits_of v (n + 1) = Z.testbit v n :: bits_of v n.
Proof.
  intros Hn. unfold bits_of. change (range 0 (n + 1)) with (range 0 (0 + n + 1)).
  by rewrite range_snoc, rev_app_distr by done.
Qed.

Lemma bits_value_from a l :
  foldl (λ acc b, 2 * acc + Z.b2z b) a l = a * 2 ^ Z.of_nat (length l) + bits_value l.
Proof.
  unfold bits_value. revert a. induction l as [|b l IH]; intros a; cbn [foldl length]; [cbn; lia|].
  rewrite (IH (2 * a + Z.b2z b)), (IH (2 * 0 + Z.b2z b)), Nat2Z.inj_succ, Z.pow_succ_r by lia. ring.
Qed.
Lemma bits_value_cons b l : bits_value (b :: l) = Z.b2z b * 2 ^ Z.of_nat (length l) + bits_value l.
Proof. unfold bits_value at 1. cbn [foldl]. rewrite bits_value_from. f_equal. Qed.

Lemma bits_value_of v n : 0 <= n -> bits_value (bits_of v n) = v mod 2 ^ n.
Proof.
  intros Hn. rewrite <- (Z2Nat.id n) by done. generalize (Z.to_nat n). clear n Hn.
  induction n as [|n IH]; [cbn; by rewrite Z.mod_1_r|].
  rewrite Nat2Z.inj_succ. unfold Z.succ. rewrite bits_of_succ, bits_value_cons, bits_of_length, IH by lia.
  rewrite Nat2Z.id, Z.testbit_spec' by lia.
  rewrite Z.pow_add_r by lia. rewrite Z.rem_mul_r; [change (2 ^ 1) with 2; ring|apply Z.pow_nonzero; lia|lia].
Qed.

Lemma read_bits_of v n s :
  0 <= n -> 0 <= v < 2 ^ n -> read_bits (Z.to_nat n) (app (bits_of v n) s) = Some (v, s).
Proof.
  intros Hn Hv. unfold read_bits. pose proof (bits_of_length v n Hn) as Hl.
  rewrite (proj2 (Nat.leb_le _ _)) by (rewrite length_app; lia).
  rewrite take_app_length', drop_app_length' by lia.
  by rewrite bits_value_of, Z.mod_small by lia.
Qed.

Lemma shiftr_small v n : 0 <= n -> 0 <= v < 2 ^ n -> Z.shiftr v n =? 0 = true.
Proof. intros Hn Hv. rewrite Z.shiftr_div_pow2 by done. by rewrite Z.div_small by done. Qed.

Lemma appendBits_ok v n bb :
  0 <= n <= 31 -> 0 <= v < 2 ^ n -> appendBits v n bb = Ok (app bb (bits_of v n)).
Proof.
  intros Hn Hv. unfold appendBits. rewrite (proj2 (Z.ltb_ge n 0)), (proj2 (Z.ltb_ge 31 n)) by lia.
  by rewrite shiftr_small by lia.
Qed.

(** ** Segments are read back *)
Definition digit (c : Z) : Prop := char_0 <= c <= char_9.

Lemma digit_check c : digit c -> (c <? char_0) || (char_9 <? c) = false.
Proof. unfold digit. intros H. apply orb_false_iff. split; apply Z.ltb_ge; lia. Qed.

Lemma numeric_step c l d k n bb :
  digit c ->
  numeric_loop (c :: l) d k n bb =
  if k + 1 =? 3 then bb' ← appendBits (d * 10 + (c - char_0)) 10 bb; numeric_loop l 0 0 (n + 1) bb'
  else numeric_loop l (d * 10 + (c - char_0)) (k + 1) (n + 1) bb.
Proof. intros Hc. cbn [numeric_loop]. by rewrite digit_check. Qed.

(** The loop three digits at a time. *)
Lemma numeric_three a b c l n bb :
  digit a -> digit b -> digit c ->
  numeric_loop (a :: b :: c :: l) 0 0 n bb =
  numeric_loop l 0 0 (n + 1 + 1 + 1)
    (app bb (bits_of (((a - char_0) * 10 + (b - char_0)) * 10 + (c - char_0)) 10)).
Proof.
  intros Ha Hb Hc. rewrite numeric_step by done. change (0 + 1 =? 3) with false. cbv iota.
  rewrite numeric_step by done. change (0 + 1 + 1 =? 3) with false. cbv iota.
  rewrite numeric_step by done. change (0 + 1 + 1 + 1 =? 3) with true. cbv iota.
  unfold digit, char_0, char_9 in *. rewrite appendBits_ok by (cbn; lia). done.
Qed.

Lemma digit_values a b c :
  digit a -> digit b -> digit c ->
  let v := ((a - char_0) * 10 + (b - char_0)) * 10 + (c - char_0) in
  char_0 + v / 100 = a /\ char_0 + v / 10 mod 10 = b /\ char_0 + v mod 10 = c.
Proof.
  unfold digit, char_0, char_9. intros Ha Hb Hc. cbv zeta.
  split_and!; Z.to_euclidean_division_equations; lia.
Qed.

Lemma numeric_read l n bb :
  Forall digit l -> 0 <= n ->
  exists bits, numeric_loop l 0 0 n bb = Ok (mkSegment NUMERIC (n + Z.of_nat (length l)) (app bb bits)) /\
    forall s, read_digits (length l) (app bits s) = Some (l, s).
Proof.
  remember (length l) as k eqn:Ek. revert l Ek n bb.
  induction k as [k IH] using lt_wf_ind. intros l Ek n bb Hl Hn.
  assert (forall m b, 0 <= m -> QrSegment_new NUMERIC m b = Ok (mkSegment NUMERIC m b)) as Hnew.
  { intros m b Hm. unfold QrSegment_new. by rewrite (proj2 (Z.ltb_ge _ _)). }
  destruct l as [|a [|b [|c l]]].
  - subst k. exists []. split; [|done]. cbn [numeric_loop]. cbn -[QrSegment_new Z.add].
    rewrite Hnew by lia. by rewrite app_nil_r, Z.add_0_r.
  - subst k. rewrite !list.Forall_cons in Hl. destruct Hl as [Ha _].
    exists (bits_of (a - char_0) 4). split.
    + rewrite numeric_step by done. change (0 + 1 =? 3) with false. cbv iota. cbn [numeric_loop].
      change (0 <? 0 + 1) with true. cbv iota. change ((0 + 1) * 3 + 1) with 4.
      unfold digit, char_0, char_9 in *. rewrite appendBits_ok by (cbn; lia).
      cbn [mbind Result_bind]. by rewrite Hnew by lia.
    + intros s. cbn [length read_digits]. change 4%nat with (Z.to_nat 4).
      unfold digit, char_0, char_9 in *.
      rewrite read_bits_of by (cbn; lia). cbn [mbind option_bind]. do 3 f_equal. lia.
  - subst k. rewrite !list.Forall_cons in Hl. destruct Hl as (Ha & Hb & _).
    exists (bits_of ((a - char_0) * 10 + (b - char_0)) 7). split.
    + rewrite numeric_step by done. change (0 + 1 =? 3) with false. cbv iota.
      rewrite numeric_step by done. change (0 + 1 + 1 =? 3) with false. cbv iota. cbn [numeric_loop].
      change (0 <? 0 + 1 + 1) with true. cbv iota. change ((0 + 1 + 1) * 3 + 1) with 7.
      unfold digit, char_0, char_9 in *. rewrite appendBits_ok by (cbn; lia).
      cbn [mbind Result_bind]. rewrite Hnew by lia. do 2 f_equal. cbn [length]. lia.
    + intros s. cbn [length read_digits]. change 7%nat with (Z.to_nat 7).
      unfold digit, char_0, char_9 in *.
      rewrite read_bits_of by (cbn; lia). cbn -[Z.div Z.modulo Z.add Z.mul Z.sub].
      do 2 f_equal. f_equal; [|f_equal]; Z.to_euclidean_division_equations; lia.
  - rewrite !list.Forall_cons in Hl. destruct Hl as (Ha & Hb & Hc & Hl). cbn [length] in Ek. subst k.
    rewrite numeric_three by done.
    destruct (IH (length l) ltac:(lia) l eq_refl (n + 1 + 1 + 1)
      (app bb (bits_of (((a - char_0) * 10 + (b - char_0)) * 10 + (c - char_0)) 10)) Hl ltac:(lia))
      as (bits & E & Hr).
    eexists (app _ bits). split; [rewrite E, <- app_assoc; do 2 f_equal; lia|].
    intros s. cbn [read_digits]. rewrite <- app_assoc. change 10%nat with (Z.to_nat 10).
    unfold digit, char_0, char_9 in Ha, Hb, Hc.
    rewrite read_bits_of by (unfold char_0; cbn; lia). cbn -[Z.div Z.modulo Z.add Z.mul Z.sub].
    rewrite Hr. cbn -[Z.div Z.modulo Z.add Z.mul Z.sub].
    destruct (digit_values a b c Ha Hb Hc) as (-> & -> & ->). done.
Qed.

Lemma numeric_digits l d k n bb seg : numeric_loop l d k n bb = Ok seg -> Forall digit l.
Proof.
  revert d k n bb. induction l as [|c l IH]; intros d k n bb; [by constructor|]. cbn [numeric_loop].
  destruct (_ || _) eqn:Hc; [done|]. apply orb_false_iff in Hc as [Hc1%Z.ltb_ge Hc2%Z.ltb_ge].
  intros H. constructor; [done|]. destruct (_ =? 3); [apply bind_Ok in H as (? & _ & H)|]; by eapply IH.
Qed.

Lemma position_spec c l i : position c l = Some i -> 0 <= i /\ nth_error l (Z.to_nat i) = Some c.
Proof.
  revert i. induction l as [|x l IH]; intros i; cbn [position]; [done|].
  destruct (Z.eqb_spec x c) as [->|]; [by intros [= <-]|].
  destruct (position c l) as [j|] eqn:E; [|done]. intros [= <-]. destruct (IH j eq_refl) as [Hj Hn].
  split; [lia|]. by replace (Z.to_nat (1 + j)) with (S (Z.to_nat j)) by lia.
Qed.

Lemma charset_position c i :
  position c ALPHANUMERIC_CHARSET = Some i -> 0 <= i < 45 /\ charset_at i = c.
Proof.
  intros [Hi Hn]%position_spec. assert (Z.to_nat i < 45)%nat.
  { change 45%nat with (length ALPHANUMERIC_CHARSET). apply nth_error_Some. by rewrite Hn. }
  split; [lia|]. by apply nth_error_nth.
Qed.

(** The loop, and what a reader makes of two characters. *)
Lemma alphanumeric_read l n bb seg :
  0 <= n -> alphanumeric_loop l 0 0 n bb = Ok seg ->
  exists bits, seg = mkSegment ALPHANUMERIC (n + Z.of_nat (length l)) (app bb bits) /\
    forall s, read_alphanumeric (length l) (app bits s) = Some (l, s).
Proof.
  assert (forall m b, 0 <= m -> QrSegment_new ALPHANUMERIC m b = Ok (mkSegment ALPHANUMERIC m b)) as Hnew.
  { intros m b Hm. unfold QrSegment_new. by rewrite (proj2 (Z.ltb_ge _ _)). }
  remember (length l) as k eqn:Ek. revert l Ek n bb.
  induction k as [k IH] using lt_wf_ind. intros l Ek n bb Hn.
  destruct l as [|a [|b l]].
  - subst k. intros E. cbn [alphanumeric_loop] in E. change (0 <? 0) with false in E.
    cbn [mbind Result_bind] in E. rewrite Hnew in E by lia. injection E as <-.
    exists []. rewrite app_nil_r, Z.add_0_r. done.
  - subst k. cbn [alphanumeric_loop].
    destruct (position a ALPHANUMERIC_CHARSET) as [i|] eqn:Ea; [|done].
    apply charset_position in Ea as [Hi Ea]. change (0 + 1 =? 2) with false. cbv iota.
    change (0 <? 0 + 1) with true. cbv iota. change (0 * 45 + i) with i.
    rewrite appendBits_ok by (cbn; lia). cbn [mbind Result_bind]. rewrite Hnew by lia. intros [= <-].
    exists (bits_of i 6). split; [done|]. intros s. cbn [length read_alphanumeric].
    change 6%nat with (Z.to_nat 6). rewrite read_bits_of by (cbn; lia). cbn [mbind option_bind].
    by rewrite Ea.
  - cbn [alphanumeric_loop].
    destruct (position a ALPHANUMERIC_CHARSET) as [i|] eqn:Ea; [|done].
    destruct (position b ALPHANUMERIC_CHARSET) as [j|] eqn:Eb; [|done].
    apply charset_position in Ea as [Hi Ea], Eb as [Hj Eb]. change (0 + 1 =? 2) with false.
    change (0 + 1 + 1 =? 2) with true. cbv iota. change (0 * 45 + i) with i.
    rewrite appendBits_ok by (cbn; lia). cbn [mbind Result_bind]. intros H. cbn [length] in Ek. subst k.
    destruct (IH (length l) ltac:(lia) l eq_refl (n + 1 + 1) _ ltac:(lia) H) as (bits & -> & Hr).
    exists (app (bits_of (i * 45 + j) 11) bits). split; [rewrite app_assoc; f_equal; lia|].
    intros s. cbn [read_alphanumeric]. rewrite <- app_assoc. change 11%nat with (Z.to_nat 11).
    rewrite read_bits_of by (cbn; lia). cbn [mbind option_bind]. rewrite Hr. cbn [mbind option_bind].
    replace ((i * 45 + j) / 45) with i by (Z.to_euclidean_division_equations; lia).
    replace ((i * 45 + j) mod 45) with j by (Z.to_euclidean_division_equations; lia).
    by rewrite Ea, Eb.
Qed.

Lemma bytes_read l bb bb' :
  for_in l (λ b bb, appendBits b 8 bb) bb = Ok bb' ->
  octets l /\ exists bits, bb' = app bb bits /\
    forall s, read_octets (length l) (app bits s) = Some (l, s).
Proof.
  revert bb. induction l as [|b l IH]; intros bb; cbn [for_in].
  { intros [= <-]. split; [constructor|]. exists []. by rewrite app_nil_r. }
  intros (b1 & E1 & E2)%bind_Ok. assert (0 <= b < 2 ^ 8) as Hb.
  { unfold appendBits in E1. destruct (Z.shiftr b 8 =? 0) eqn:Es; [|done]. apply Z.eqb_eq in Es.
    rewrite Z.shiftr_div_pow2 in Es by lia. change (2 ^ 8) with 256 in *.
    Z.to_euclidean_division_equations; lia. }
  rewrite appendBits_ok in E1 by lia. injection E1 as <-.
  destruct (IH _ E2) as (Ho & bits & -> & Hr). split.
  { constructor; [by apply octet_spec|done]. }
  eexists (app _ bits). split; [by rewrite <- app_assoc|]. intros s. cbn [length read_octets].
  rewrite <- app_assoc. change 8%nat with (Z.to_nat 8). rewrite read_bits_of by lia.
  cbn [mbind option_bind]. by rewrite Hr.
Qed.

Lemma designator_read v seg :
  makeEci v = Ok seg ->
  mode seg = ECI /\ numChars seg = 0 /\
  forall s, read_designator (app (data seg) s) = Some (v, s).
Proof.
  unfold makeEci. intros (bb & E & Es)%bind_Ok. injection Es as <-. cbn [mode numChars data].
  split; [done|]. split; [done|]. intros s.
  destruct (Z.ltb_spec v 0); [done|]. destruct (Z.ltb_spec v (2 ^ 7)).
  { rewrite appendBits_ok in E by (cbn in *; lia). injection E as <-. cbn [app].
    change 8 with (7 + 1). rewrite bits_of_succ by lia.
    replace (Z.testbit v 7) with false.
    - cbn [app read_designator]. change 7%nat with (Z.to_nat 7). by apply read_bits_of.
    - symmetry. rewrite <- (Z.mod_small v (2 ^ 7)) by lia. by apply Z.mod_pow2_bits_high. }
  destruct (Z.ltb_spec v (2 ^ 14)).
  { rewrite (appendBits_ok 2 2) in E by (cbn; lia). cbn [mbind Result_bind] in E.
    rewrite appendBits_ok in E by (cbn in *; lia). injection E as <-.
    cbn [app read_designator]. change 14%nat with (Z.to_nat 14). apply read_bits_of; lia. }
  destruct (Z.ltb_spec v 1000000); [|done].
  rewrite (appendBits_ok 6 3) in E by (cbn; lia). cbn [mbind Result_bind] in E.
  rewrite appendBits_ok in E by (cbn in *; lia). injection E as <-.
  cbn [app read_designator]. change 21%nat with (Z.to_nat 21). apply read_bits_of; cbn; lia.
Qed.

(** ** The whole stream is read back *)
Lemma count_bits m version : In m [NUMERIC; ALPHANUMERIC; BYTE; ECI] -> 0 <= numCharCountBits m version <= 16.
Proof.
  unfold numCharCountBits. intros Hm. apply list_elem_of_In in Hm.
  repeat (apply elem_of_cons in Hm as [->|Hm]); [..|by apply not_elem_of_nil in Hm];
    repeat case_match; cbn; lia.
Qed.

(** What the headers and bits of one item are, and that they are read back. *)
Lemma made_item i seg :
  make_item i = Ok seg ->
  In (mode seg) [NUMERIC; ALPHANUMERIC; BYTE; ECI] /\ 0 <= numChars seg /\
  forall version s, numChars seg < 2 ^ numCharCountBits (mode seg) version ->
    read_item (modeBits (mode seg)) version
      (app (bits_of (numChars seg) (numCharCountBits (mode seg) version)) (app (data seg) s))
    = Some (i, s).
Proof.
  destruct i as [t|t|b|v]; cbn [make_item].
  - unfold makeNumeric. intros E. pose proof (numeric_digits _ _ _ _ _ _ E) as Hd.
    destruct (numeric_read t 0 [] Hd ltac:(lia)) as (bits & E' & Hr). rewrite E in E'.
    injection E' as ->. cbn [mode numChars data app]. split; [by left|]. split; [lia|].
    intros version s Hc. cbn [modeBits NUMERIC]. unfold read_item. change (1 =? 1) with true. cbv iota zeta.
    rewrite read_bits_of by (pose proof (count_bits NUMERIC version ltac:(by left)); lia).
    cbn [mbind option_bind]. rewrite Z.add_0_l, Nat2Z.id, Hr. done.
  - unfold makeAlphanumeric. intros E. apply alphanumeric_read in E as (bits & -> & Hr); [|lia].
    cbn [mode numChars data app]. split; [right; by left|]. split; [lia|].
    intros version s Hc. cbn [modeBits ALPHANUMERIC]. unfold read_item. change (2 =? 1) with false.
    change (2 =? 2) with true. cbv iota zeta.
    rewrite read_bits_of by (pose proof (count_bits ALPHANUMERIC version ltac:(right; by left)); lia).
    cbn [mbind option_bind]. rewrite Z.add_0_l, Nat2Z.id, Hr. done.
  - unfold makeBytes. intros (u & _ & (bb & E & Es)%bind_Ok)%bind_Ok.
    apply bytes_read in E as (_ & bits & -> & Hr). unfold QrSegment_new in Es.
    rewrite (proj2 (Z.ltb_ge _ _)) in Es by lia. injection Es as <-.
    cbn [mode numChars data app]. split; [do 2 right; by left|]. split; [lia|].
    intros version s Hc. cbn [modeBits BYTE]. unfold read_item. change (4 =? 1) with false.
    change (4 =? 2) with false. change (4 =? 4) with true. cbv iota zeta.
    rewrite read_bits_of by (pose proof (count_bits BYTE version ltac:(do 2 right; by left)); lia).
    cbn [mbind option_bind]. rewrite Nat2Z.id, Hr. done.
  - intros (Em & En & Hr)%designator_read. rewrite Em, En. split; [do 3 right; by left|]. split; [lia|].
    intros version s _. unfold numCharCountBits. cbn [ECI cc0 cc1 cc2].
    replace (if _ =? 0 then 0 else _) with 0 by (by repeat case_match).
    change (bits_of 0 0) with (@nil bool). cbn [app modeBits]. unfold read_item.
    change (7 =? 1) with false. change (7 =? 2) with false. change (7 =? 4) with false.
    change (7 =? 7) with true. cbv iota zeta. rewrite Hr. done.
Qed.

(** The bits of segments whose lengths fit their fields. *)
Definition segment_bits (version : Z) (seg : QrSegment) : list bool :=
  app (bits_of (modeBits (mode seg)) 4)
    (app (bits_of (numChars seg) (numCharCountBits (mode seg) version)) (data seg)).
Definition fits_field (version : Z) (seg : QrSegment) : Prop :=
  numChars seg < 2 ^ numCharCountBits (mode seg) version.

Lemma read_segments version items segs rest :
  Forall2 (λ i seg, make_item i = Ok seg) items segs -> Forall (fits_field version) segs ->
  (forall fuel, (length rest < fuel)%nat -> read_stream fuel version rest = Some []) ->
  read_items version (app (List.concat (map (segment_bits version) segs)) rest) = Some items.
Proof.
  intros Hm Hf Hrest. unfold read_items.
  assert (forall fuel, (length (app (List.concat (map (segment_bits version) segs)) rest) < fuel)%nat ->
    read_stream fuel version (app (List.concat (map (segment_bits version) segs)) rest) = Some items) as H;
    [|apply H; lia].
  induction Hm as [|i seg items segs Hi Hm IH]; intros fuel Hl; [by apply Hrest|].
  apply list.Forall_cons in Hf as [Hf1 Hf]. cbn [map List.concat] in *. rewrite <- app_assoc in *.
  destruct (made_item _ _ Hi) as (Hmode & Hn & Hr). unfold segment_bits at 1 in Hl.
  unfold segment_bits at 1. rewrite <- !app_assoc in *. rewrite length_app in Hl.
  rewrite bits_of_length in Hl by lia. change (Z.to_nat 4) with 4%nat in Hl.
  destruct fuel as [|fuel]; [lia|]. cbn [read_stream]. change 4%nat with (Z.to_nat 4).
  assert (0 < modeBits (mode seg) < 2 ^ 4) as Hb.
  { clear -Hmode. repeat (destruct Hmode as [<-|Hmode]; [cbn; lia|]). done. }
  rewrite read_bits_of by lia. rewrite (proj2 (Z.eqb_neq _ _)) by lia.
  rewrite Hr by done. cbn [mbind option_bind]. rewrite IH; [done|done|].
  rewrite !length_app in *. lia.
Qed.

Definition plain_segment (seg : QrSegment) : Prop :=
  In (mode seg) [NUMERIC; ALPHANUMERIC; BYTE; ECI] /\ 0 <= numChars seg.

Lemma segment_bits_length version seg :
  plain_segment seg ->
  Z.of_nat (length (segment_bits version seg)) =
  4 + numCharCountBits (mode seg) version + Z.of_nat (length (data seg)).
Proof.
  intros [Hm _]. pose proof (count_bits _ version Hm). unfold segment_bits.
  rewrite !length_app, !bits_of_length by lia. lia.
Qed.

(** [getTotalBits] is the length of the bits of all segments, or [-1]. *)
Lemma total_bits_spec segs version result :
  Forall plain_segment segs -> 0 <= result -> total_bits segs version result <> -1 ->
  Forall (fits_field version) segs /\
  total_bits segs version result =
    result + Z.of_nat (length (List.concat (map (segment_bits version) segs))).
Proof.
  intros Hs. revert result. induction Hs as [|seg segs Hp Hs IH]; intros result Hr.
  { split; [constructor|]. cbn. lia. }
  cbn [total_bits map List.concat]. rewrite length_app.
  destruct (Z.leb_spec (Z.shiftl 1 (numCharCountBits (mode seg) version)) (numChars seg)) as [|Hf]; [done|].
  destruct (Z.ltb_spec (INT_MAX - result) (4 + numCharCountBits (mode seg) version)); [done|].
  destruct (Z.ltb_spec (INT_MAX - (result + (4 + numCharCountBits (mode seg) version)))
    (Z.of_nat (length (data seg)))); [done|]. intros Hn.
  pose proof (count_bits _ version (proj1 Hp)) as Hc.
  destruct (IH (result + (4 + numCharCountBits (mode seg) version) + Z.of_nat (length (data seg))))
    as [Hfs E]; [lia|done|]. rewrite Z.shiftl_mul_pow2, Z.mul_1_l in Hf by lia.
  split; [by constructor|]. rewrite E, Nat2Z.inj_add, segment_bits_length by done. lia.
Qed.

Lemma append_segments_ok segs version :
  Forall plain_segment segs -> Forall (fits_field version) segs ->
  append_segments segs version = Ok (List.concat (map (segment_bits version) segs)).
Proof.
  intros Hs. unfold append_segments. change (List.concat ?l) with (app [] (List.concat l)).
  generalize (@nil bool). induction Hs as [|seg segs [Hm Hn] Hs IH]; intros bb Hf; cbn [for_in map List.concat].
  { by rewrite app_nil_r. }
  apply list.Forall_cons in Hf as [Hf1 Hf]. pose proof (count_bits _ version Hm).
  assert (0 < modeBits (mode seg) < 2 ^ 4) as Hb.
  { clear -Hm. repeat (destruct Hm as [<-|Hm]; [cbn; lia|]). done. }
  rewrite appendBits_ok by lia. cbn [mbind Result_bind]. rewrite appendBits_ok by (unfold fits_field in Hf1; lia).
  cbn [mbind Result_bind]. rewrite IH by done. unfold segment_bits at 2. by rewrite <- !app_assoc.
Qed.

(** A reader stops at the terminator or when fewer than four bits are left. *)
Lemma read_end version rest fuel :
  (length rest < fuel)%nat -> take 4 rest = replicate (length (take 4 rest)) false ->
  read_stream fuel version rest = Some [].
Proof.
  intros Hf Hz. destruct fuel as [|fuel]; [lia|]. cbn [read_stream]. unfold read_bits.
  destruct (Nat.leb_spec 4 (length rest)) as [Hl|Hl]; [|done].
  rewrite length_take, Nat.min_l in Hz by done. by rewrite Hz.
Qed.
