(* ===== verification/QrCode.v ===== *)
(** * QR codes

    Model of [QrCode] (client/3rd/qrcodegen/qrcodegen.cpp and .hpp): segments are
    packed into codewords of the smallest version they fit, error correction is
    added and interleaved, and everything is drawn as a square of modules under
    the mask with the least penalty. A failed [assert] and an access out of range
    are results of their own. *)
From stdpp Require Import base list numbers.
From Stdlib Require Import ZArith Lia.
From S2P Require Import Prelude ReedSolomon QrSegments.
Local Open Scope Z_scope.

(** ** Tables *)
Inductive Ecc := LOW | MEDIUM | QUARTILE | HIGH.
#[export] Instance Ecc_eq_dec : EqDecision Ecc.
Proof. solve_decision. Defined.

Definition getFormatBits (ecl : Ecc) : Z :=
  match ecl with LOW => 1 | MEDIUM => 0 | QUARTILE => 3 | HIGH => 2 end.

Definition MIN_VERSION : Z := 1.
Definition MAX_VERSION : Z := 40.
Definition PENALTY_N1 : Z := 3.
Definition PENALTY_N2 : Z := 3.
Definition PENALTY_N3 : Z := 40.
Definition PENALTY_N4 : Z := 10.

Definition ECC_CODEWORDS_PER_BLOCK (ecl : Ecc) : list Z :=
  match ecl with
  | LOW => [-1; 7; 10; 15; 20; 26; 18; 20; 24; 30; 18; 20; 24; 26; 30; 22; 24; 28; 30; 28; 28; 28; 28; 30; 30; 26; 28; 30; 30; 30; 30; 30; 30; 30; 30; 30; 30; 30; 30; 30; 30]
  | MEDIUM => [-1; 10; 16; 26; 18; 24; 16; 18; 22; 22; 26; 30; 22; 22; 24; 24; 28; 28; 26; 26; 26; 26; 28; 28; 28; 28; 28; 28; 28; 28; 28; 28; 28; 28; 28; 28; 28; 28; 28; 28; 28]
  | QUARTILE => [-1; 13; 22; 18; 26; 18; 24; 18; 22; 20; 24; 28; 26; 24; 20; 30; 24; 28; 28; 26; 30; 28; 30; 30; 30; 30; 28; 30; 30; 30; 30; 30; 30; 30; 30; 30; 30; 30; 30; 30; 30]
  | HIGH => [-1; 17; 28; 22; 16; 22; 28; 26; 26; 24; 28; 24; 28; 22; 24; 24; 30; 28; 28; 26; 28; 30; 24; 30; 30; 30; 30; 30; 30; 30; 30; 30; 30; 30; 30; 30; 30; 30; 30; 30; 30]
  end.

Definition NUM_ERROR_CORRECTION_BLOCKS (ecl : Ecc) : list Z :=
  match ecl with
  | LOW => [-1; 1; 1; 1; 1; 1; 2; 2; 2; 2; 4; 4; 4; 4; 4; 6; 6; 6; 6; 7; 8; 8; 9; 9; 10; 12; 12; 12; 13; 14; 15; 16; 17; 18; 19; 19; 20; 21; 22; 24; 25]
  | MEDIUM => [-1; 1; 1; 1; 2; 2; 4; 4; 4; 5; 5; 5; 8; 9; 9; 10; 10; 11; 13; 14; 16; 17; 17; 18; 20; 21; 23; 25; 26; 28; 29; 31; 33; 35; 37; 38; 40; 43; 45; 47; 49]
  | QUARTILE => [-1; 1; 1; 2; 2; 4; 4; 6; 6; 8; 8; 8; 10; 12; 16; 12; 17; 16; 18; 21; 20; 23; 23; 25; 27; 29; 34; 34; 35; 38; 40; 43; 45; 48; 51; 53; 56; 59; 62; 65; 68]
  | HIGH => [-1; 1; 1; 2; 4; 4; 4; 5; 6; 8; 8; 11; 11; 16; 16; 18; 16; 19; 21; 25; 25; 25; 34; 30; 32; 35; 37; 40; 42; 45; 48; 51; 54; 57; 60; 63; 66; 70; 74; 77; 81]
  end.
Definition table_at (t : list Z) (ver : Z) : Z := nth (Z.to_nat ver) t 0.

Definition getNumRawDataModules (ver : Z) : Result Z :=
  _ ← ensure (negb ((ver <? MIN_VERSION) || (MAX_VERSION <? ver))) domain_error;
  let result := (16 * ver + 128) * ver + 64 in
  let numAlign := ver / 7 + 2 in
  let result :=
    if 2 <=? ver then
      result - ((25 * numAlign - 10) * numAlign - 55) - (if 7 <=? ver then 36 else 0)
    else result in
  _ ← asserts ((208 <=? result) && (result <=? 29648));
  Ok result.

Definition getNumDataCodewords (ver : Z) (ecl : Ecc) : Result Z :=
  raw ← getNumRawDataModules ver;
  Ok (raw / 8 - table_at (ECC_CODEWORDS_PER_BLOCK ecl) ver * table_at (NUM_ERROR_CORRECTION_BLOCKS ecl) ver).

(** ** The square of modules *)
Notation Grid := (list (list bool)).
Definition grid_at (g : Grid) (x y : Z) : Result bool := row ← at_ g y; at_ row x.
Definition grid_put (g : Grid) (x y : Z) (v : bool) : Result Grid :=
  row ← at_ g y; row' ← put_at row x v; put_at g y row'.

Record QrCode := mkQr {
  version : Z;
  size : Z;
  errorCorrectionLevel : Ecc;
  mask : Z;
  modules : Grid;
  isFunction : Grid
}.
Definition with_modules (m : Grid) (q : QrCode) : QrCode :=
  mkQr (version q) (size q) (errorCorrectionLevel q) (mask q) m (isFunction q).

Definition module_ (x y : Z) (q : QrCode) : Result bool := grid_at (modules q) x y.
Definition getModule (x y : Z) (q : QrCode) : Result bool :=
  if (0 <=? x) && (x <? size q) && (0 <=? y) && (y <? size q) then module_ x y q else Ok false.

Definition setFunctionModule (x y : Z) (isDark : bool) (q : QrCode) : Result QrCode :=
  m ← grid_put (modules q) x y isDark;
  f ← grid_put (isFunction q) x y true;
  Ok (mkQr (version q) (size q) (errorCorrectionLevel q) (mask q) m f).

Definition getBit (x i : Z) : bool := negb (Z.land (Z.shiftr x i) 1 =? 0).

Definition drawFinderPattern (x y : Z) (q : QrCode) : Result QrCode :=
  for_in (range (-4) 5) (λ dy, for_in (range (-4) 5) (λ dx q,
    let dist := Z.max (Z.abs dx) (Z.abs dy) in
    let xx := x + dx in
    let yy := y + dy in
    if (0 <=? xx) && (xx <? size q) && (0 <=? yy) && (yy <? size q)
    then setFunctionModule xx yy (negb (dist =? 2) && negb (dist =? 4)) q else Ok q)) q.

Definition drawAlignmentPattern (x y : Z) (q : QrCode) : Result QrCode :=
  for_in (range (-2) 3) (λ dy, for_in (range (-2) 3) (λ dx q,
    setFunctionModule (x + dx) (y + dy) (negb (Z.max (Z.abs dx) (Z.abs dy) =? 1)) q)) q.

Definition getAlignmentPatternPositions (version size : Z) : list Z :=
  if version =? 1 then []
  else
    let numAlign := version / 7 + 2 in
    let step :=
      if version =? 32 then 26 else (version * 4 + numAlign * 2 + 1) / (numAlign * 2 - 2) * 2 in
    6 :: foldl (λ result i, size - 7 - i * step :: result) [] (range 0 (numAlign - 1)).

(** The remainder of the codes of the format and the version. *)
Definition code_remainder (steps top generator data : Z) : Z :=
  foldl (λ rem _, Z.lxor (Z.shiftl rem 1) (Z.shiftr rem top * generator)) data (range 0 steps).
Definition format_bits (ecl : Ecc) (msk : Z) : Z :=
  let data := Z.lor (Z.shiftl (getFormatBits ecl) 3) msk in
  Z.lxor (Z.lor (Z.shiftl data 10) (code_remainder 10 9 0x537 data)) 0x5412.
Definition version_bits (ver : Z) : Z :=
  Z.lor (Z.shiftl ver 12) (code_remainder 12 11 0x1F25 ver).

Definition drawFormatBits (msk : Z) (q : QrCode) : Result QrCode :=
  let bits := format_bits (errorCorrectionLevel q) msk in
  _ ← asserts (Z.shiftr bits 15 =? 0);
  q ← for_in (range 0 6) (λ i, setFunctionModule 8 i (getBit bits i)) q;
  q ← setFunctionModule 8 7 (getBit bits 6) q;
  q ← setFunctionModule 8 8 (getBit bits 7) q;
  q ← setFunctionModule 7 8 (getBit bits 8) q;
  q ← for_in (range 9 15) (λ i, setFunctionModule (14 - i) 8 (getBit bits i)) q;
  q ← for_in (range 0 8) (λ i q, setFunctionModule (size q - 1 - i) 8 (getBit bits i) q) q;
  q ← for_in (range 8 15) (λ i q, setFunctionModule 8 (size q - 15 + i) (getBit bits i) q) q;
  setFunctionModule 8 (size q - 8) true q.

Definition drawVersion (q : QrCode) : Result QrCode :=
  if version q <? 7 then Ok q
  else
    let bits := version_bits (version q) in
    _ ← asserts (Z.shiftr bits 18 =? 0);
    for_in (range 0 18) (λ i q,
      let a := size q - 11 + i mod 3 in
      let b := i / 3 in
      q ← setFunctionModule a b (getBit bits i) q;
      setFunctionModule b a (getBit bits i) q) q.

Definition drawFunctionPatterns (q : QrCode) : Result QrCode :=
  q ← for_in (range 0 (size q)) (λ i q,
        q ← setFunctionModule 6 i (i mod 2 =? 0) q;
        setFunctionModule i 6 (i mod 2 =? 0) q) q;
  q ← drawFinderPattern 3 3 q;
  q ← drawFinderPattern (size q - 4) 3 q;
  q ← drawFinderPattern 3 (size q - 4) q;
  let alignPatPos := getAlignmentPatternPositions (version q) (size q) in
  let numAlign := Z.of_nat (length alignPatPos) in
  q ← for_in (range 0 numAlign) (λ i, for_in (range 0 numAlign) (λ j q,
        if negb (((i =? 0) && (j =? 0)) || ((i =? 0) && (j =? numAlign - 1))
                 || ((i =? numAlign - 1) && (j =? 0)))
        then px ← at_ alignPatPos i; py ← at_ alignPatPos j; drawAlignmentPattern px py q
        else Ok q)) q;
  q ← drawFormatBits 0 q;
  drawVersion q.

(** ** Error correction *)
Record BlockPlan := mkPlan {
  numBlocks : Z; blockEccLen : Z; rawCodewords : Z; numShortBlocks : Z; shortBlockLen : Z
}.
Definition block_plan (ver : Z) (ecl : Ecc) : Result BlockPlan :=
  raw ← getNumRawDataModules ver;
  let numBlocks := table_at (NUM_ERROR_CORRECTION_BLOCKS ecl) ver in
  let rawCodewords := raw / 8 in
  Ok (mkPlan numBlocks (table_at (ECC_CODEWORDS_PER_BLOCK ecl) ver) rawCodewords
        (numBlocks - rawCodewords mod numBlocks) (rawCodewords / numBlocks)).

(** Length of the data of block [i]. *)
Definition block_data_len (p : BlockPlan) (i : Z) : Z :=
  shortBlockLen p - blockEccLen p + (if i <? numShortBlocks p then 0 else 1).

Definition make_blocks (p : BlockPlan) (rsDiv data : list Z) : Result (list (list Z)) :=
  s ← for_in (range 0 (numBlocks p)) (λ i '(blocks, rest),
        let dat := take (Z.to_nat (block_data_len p i)) rest in
        ecc ← reedSolomonComputeRemainder dat rsDiv;
        let dat := if i <? numShortBlocks p then app dat [0] else dat in
        Ok (app blocks [app dat ecc], drop (Z.to_nat (block_data_len p i)) rest)) ([], data);
  Ok s.1.

Definition interleave (p : BlockPlan) (blocks : list (list Z)) : Result (list Z) :=
  first ← at_ blocks 0;
  for_in (range 0 (Z.of_nat (length first))) (λ i,
    for_in (range 0 (Z.of_nat (length blocks))) (λ j result,
      if negb (i =? shortBlockLen p - blockEccLen p) || (numShortBlocks p <=? j)
      then block ← at_ blocks j; c ← at_ block i; Ok (app result [c])
      else Ok result)) [].

Definition addEccAndInterleave (ver : Z) (ecl : Ecc) (data : list Z) : Result (list Z) :=
  n ← getNumDataCodewords ver ecl;
  _ ← ensure (Z.of_nat (length data) =? n) invalid_argument;
  p ← block_plan ver ecl;
  rsDiv ← reedSolomonComputeDivisor (blockEccLen p);
  blocks ← make_blocks p rsDiv data;
  result ← interleave p blocks;
  _ ← asserts (Z.of_nat (length result) =? rawCodewords p);
  Ok result.

(** ** Drawing the codewords *)

(** The values of [right] in the loop over pairs of columns. *)
Fixpoint column_pairs (fuel : nat) (right : Z) : list Z :=
  match fuel with
  | O => []
  | S fuel =>
      if 1 <=? right then
        let right := if right =? 6 then 5 else right in right :: column_pairs fuel (right - 2)
      else []
  end.

Definition drawCodewords (data : list Z) (q : QrCode) : Result QrCode :=
  raw ← getNumRawDataModules (version q);
  _ ← ensure (Z.of_nat (length data) =? raw / 8) invalid_argument;
  let total := Z.of_nat (length data) * 8 in
  s ← for_in (column_pairs (Z.to_nat (size q)) (size q - 1)) (λ right,
        for_in (range 0 (size q)) (λ vert,
          for_in (range 0 2) (λ j '(m, i),
            let x := right - j in
            let upward := Z.land (right + 1) 2 =? 0 in
            let y := if upward then size q - 1 - vert else vert in
            f ← grid_at (isFunction q) x y;
            if negb f && (i <? total) then
              d ← at_ data (Z.shiftr i 3);
              m' ← grid_put m x y (getBit d (7 - Z.land i 7));
              Ok (m', i + 1)
            else Ok (m, i)))) (modules q, 0);
  _ ← asserts (s.2 =? total);
  Ok (with_modules s.1 q).

(** ** Masks *)
Definition invert (msk x y : Z) : bool :=
  if msk =? 0 then (x + y) mod 2 =? 0
  else if msk =? 1 then y mod 2 =? 0
  else if msk =? 2 then x mod 3 =? 0
  else if msk =? 3 then (x + y) mod 3 =? 0
  else if msk =? 4 then (x / 3 + y / 2) mod 2 =? 0
  else if msk =? 5 then x * y mod 2 + x * y mod 3 =? 0
  else if msk =? 6 then (x * y mod 2 + x * y mod 3) mod 2 =? 0
  else ((x + y) mod 2 + x * y mod 3) mod 2 =? 0.

Definition applyMask (msk : Z) (q : QrCode) : Result QrCode :=
  _ ← ensure (negb ((msk <? 0) || (7 <? msk))) domain_error;
  m ← for_in (range 0 (size q)) (λ y, for_in (range 0 (size q)) (λ x m,
        v ← grid_at m x y;
        f ← grid_at (isFunction q) x y;
        grid_put m x y (xorb v (invert msk x y && negb f)))) (modules q);
  Ok (with_modules m q).

(** ** The penalty of a mask *)
Definition history_at (h : list Z) (i : nat) : Z := nth i h 0.

Definition finderPenaltyAddHistory (size currentRunLength : Z) (runHistory : list Z) : list Z :=
  (if history_at runHistory 0 =? 0 then currentRunLength + size else currentRunLength)
    :: take 6 runHistory.

Definition finderPenaltyCountPatterns (size : Z) (runHistory : list Z) : Result Z :=
  let n := history_at runHistory 1 in
  _ ← asserts (n <=? size * 3);
  let core := (0 <? n) && (history_at runHistory 2 =? n) && (history_at runHistory 3 =? n * 3)
                && (history_at runHistory 4 =? n) && (history_at runHistory 5 =? n) in
  let h0 := history_at runHistory 0 in
  let h6 := history_at runHistory 6 in
  Ok (Z.b2z (core && (n * 4 <=? h0) && (n <=? h6)) + Z.b2z (core && (n * 4 <=? h6) && (n <=? h0))).

Definition finderPenaltyTerminateAndCount (size : Z) (currentRunColor : bool) (currentRunLength : Z)
    (runHistory : list Z) : Result Z :=
  let '(currentRunLength, runHistory) :=
    if currentRunColor then (0, finderPenaltyAddHistory size currentRunLength runHistory)
    else (currentRunLength, runHistory) in
  finderPenaltyCountPatterns size
    (finderPenaltyAddHistory size (currentRunLength + size) runHistory).

(** The loops over rows and over columns have the same body, over the modules
    [get] of one line; the state is the colour and the length of the current run,
    the history and the penalty so far. *)
Definition line_step (size : Z) (color : bool) (s : bool * Z * list Z * Z) :
    Result (bool * Z * list Z * Z) :=
  let '(runColor, run, runHistory, result) := s in
  if Bool.eqb color runColor then
    let run := run + 1 in
    Ok (runColor, run, runHistory,
        if run =? 5 then result + PENALTY_N1 else if 5 <? run then result + 1 else result)
  else
    let runHistory := finderPenaltyAddHistory size run runHistory in
    result ← (if negb runColor then
                c ← finderPenaltyCountPatterns size runHistory; Ok (result + c * PENALTY_N3)
              else Ok result);
    Ok (color, 1, runHistory, result).

Definition line_penalty (size : Z) (get : Z -> Result bool) (result : Z) : Result Z :=
  '(runColor, run, runHistory, result) ← for_in (range 0 size) (λ k s,
        color ← get k; line_step size color s) (false, 0, replicate 7 0, result);
  c ← finderPenaltyTerminateAndCount size runColor run runHistory;
  Ok (result + c * PENALTY_N3).

Definition getPenaltyScore (q : QrCode) : Result Z :=
  result ← for_in (range 0 (size q)) (λ y, line_penalty (size q) (λ x, module_ x y q)) 0;
  result ← for_in (range 0 (size q)) (λ x, line_penalty (size q) (λ y, module_ x y q)) result;
  result ← for_in (range 0 (size q - 1)) (λ y, for_in (range 0 (size q - 1)) (λ x result,
             color ← module_ x y q;
             c1 ← module_ (x + 1) y q; c2 ← module_ x (y + 1) q; c3 ← module_ (x + 1) (y + 1) q;
             Ok (if Bool.eqb color c1 && Bool.eqb color c2 && Bool.eqb color c3
                 then result + PENALTY_N2 else result))) result;
  let dark := foldl (λ n row, foldl (λ n color, if (color : bool) then n + 1 else n) n row) 0 (modules q) in
  let total := size q * size q in
  let k := (Z.abs (dark * 20 - total * 10) + total - 1) / total - 1 in
  _ ← asserts ((0 <=? k) && (k <=? 9));
  let result := result + k * PENALTY_N4 in
  _ ← asserts ((0 <=? result) && (result <=? 2568888));
  Ok result.

(** ** Making a code *)
Definition LONG_MAX : Z := 2 ^ 63 - 1.

(** The loop that tries the eight masks. *)
Definition choose_mask (q : QrCode) : Result (QrCode * Z) :=
  s ← for_in (range 0 8) (λ i '(q, msk, minPenalty),
        q ← applyMask i q;
        q ← drawFormatBits i q;
        penalty ← getPenaltyScore q;
        let '(msk, minPenalty) := if penalty <? minPenalty then (i, penalty) else (msk, minPenalty) in
        q ← applyMask i q;
        Ok (q, msk, minPenalty)) (q, -1, LONG_MAX);
  Ok s.1.

Definition QrCode_new (ver : Z) (ecl : Ecc) (dataCodewords : list Z) (msk : Z) : Result QrCode :=
  _ ← ensure (negb ((ver <? MIN_VERSION) || (MAX_VERSION <? ver))) domain_error;
  _ ← ensure (negb ((msk <? -1) || (7 <? msk))) domain_error;
  let sz := ver * 4 + 17 in
  let light := replicate (Z.to_nat sz) (replicate (Z.to_nat sz) false) in
  q ← drawFunctionPatterns (mkQr ver sz ecl 0 light light);
  allCodewords ← addEccAndInterleave ver ecl dataCodewords;
  q ← drawCodewords allCodewords q;
  '(q, msk) ← (if msk =? -1 then choose_mask q else Ok (q, msk));
  _ ← asserts ((0 <=? msk) && (msk <=? 7));
  q ← applyMask msk q;
  q ← drawFormatBits msk q;
  Ok (mkQr (version q) (size q) (errorCorrectionLevel q) msk (modules q) []).

(** Version, number of bits, and the loop that looks for them. *)
Fixpoint find_version (segs : list QrSegment) (ecl : Ecc) (maxVersion : Z) (versions : list Z) :
    Result (Z * Z) :=
  match versions with
  | [] => Throw logic_error
  | ver :: versions' =>
      n ← getNumDataCodewords ver ecl;
      let dataUsedBits := getTotalBits segs ver in
      if negb (dataUsedBits =? -1) && (dataUsedBits <=? n * 8) then Ok (ver, dataUsedBits)
      else if maxVersion <=? ver then Throw data_too_long
      else find_version segs ecl maxVersion versions'
  end.

(** The error correction level is raised while the data still fit. *)
Definition boost (boostEcl : bool) (ver dataUsedBits : Z) (ecl : Ecc) : Result Ecc :=
  for_in [MEDIUM; QUARTILE; HIGH] (λ newEcl ecl,
    if boostEcl then
      n ← getNumDataCodewords ver newEcl;
      Ok (if dataUsedBits <=? n * 8 then newEcl else ecl)
    else Ok ecl) ecl.

(** The alternating octets after the terminator; the loop appends at most as
    many as the code has codewords. *)
Fixpoint pad_octets (fuel : nat) (padByte capacity : Z) (bb : list bool) : Result (list bool) :=
  if Z.of_nat (length bb) <? capacity then
    match fuel with
    | O => Throw logic_error
    | S fuel =>
        bb' ← appendBits padByte 8 bb;
        pad_octets fuel (Z.lxor padByte (Z.lxor 0xEC 0x11)) capacity bb'
    end
  else Ok bb.

(** [dataCodewords.at(i >> 3) |= bit << (7 - (i & 7))] *)
Definition pack_bits (bb : list bool) : Result (list Z) :=
  for_in (range 0 (Z.of_nat (length bb))) (λ i codewords,
    bit ← at_ bb i;
    c ← at_ codewords (Z.shiftr i 3);
    put_at codewords (Z.shiftr i 3) (Z.lor c (Z.shiftl (Z.b2z bit) (7 - Z.land i 7))))
  (replicate (Z.to_nat (Z.of_nat (length bb) / 8)) 0).

Definition pad_stream (dataCapacityBits : Z) (bb : list bool) : Result (list bool) :=
  _ ← asserts (Z.of_nat (length bb) <=? dataCapacityBits);
  bb ← appendBits 0 (Z.min 4 (dataCapacityBits - Z.of_nat (length bb))) bb;
  bb ← appendBits 0 ((8 - Z.of_nat (length bb) mod 8) mod 8) bb;
  _ ← asserts (Z.of_nat (length bb) mod 8 =? 0);
  pad_octets (Z.to_nat dataCapacityBits) 0xEC dataCapacityBits bb.

Definition encodeSegments (segs : list QrSegment) (ecl : Ecc) (minVersion maxVersion msk : Z)
    (boostEcl : bool) : Result QrCode :=
  _ ← ensure (negb (negb ((MIN_VERSION <=? minVersion) && (minVersion <=? maxVersion)
                          && (maxVersion <=? MAX_VERSION)) || (msk <? -1) || (7 <? msk))) invalid_argument;
  '(ver, dataUsedBits) ← find_version segs ecl maxVersion (range minVersion (maxVersion + 1));
  _ ← asserts (negb (dataUsedBits =? -1));
  ecl ← boost boostEcl ver dataUsedBits ecl;
  bb ← append_segments segs ver;
  _ ← asserts (Z.of_nat (length bb) =? dataUsedBits);
  n ← getNumDataCodewords ver ecl;
  bb ← pad_stream (n * 8) bb;
  dataCodewords ← pack_bits bb;
  QrCode_new ver ecl dataCodewords msk.

Definition encodeText (text : list Z) (ecl : Ecc) : Result QrCode :=
  segs ← makeSegments text; encodeSegments segs ecl 1 40 (-1) true.
Definition encodeBinary (bytes : list Z) (ecl : Ecc) : Result QrCode :=
  seg ← makeBytes bytes; encodeSegments [seg] ecl 1 40 (-1) true.
