(* ===== verification/QrDrawing.v ===== *)
(** * Drawing a QR code: lemmas

    What the drawing of function patterns, codewords and masks (QrCode.v) does to
    the single modules of a square. *)
From stdpp Require Import base list numbers gmap.
From Stdlib Require Import ZArith Lia.
From S2P Require Import Prelude ReedSolomon QrSegments QrCode.
Local Open Scope Z_scope.

(** ** Squares *)
Definition shape (n : Z) (g : Grid) : Prop :=
  Z.of_nat (length g) = n /\ Forall (λ row, Z.of_nat (length row) = n) g.
Definition inside (n : Z) (c : Z * Z) : Prop := 0 <= c.1 < n /\ 0 <= c.2 < n.
#[export] Instance inside_dec n c : Decision (inside n c).
Proof. unfold inside. apply _. Defined.

Definition get (g : Grid) (c : Z * Z) : bool :=
  default false (row ← g !! Z.to_nat c.2; row !! Z.to_nat c.1).

Lemma shape_row n g y : shape n g -> 0 <= y < n -> exists row,
  g !! Z.to_nat y = Some row /\ Z.of_nat (length row) = n.
Proof.
  intros [Hl Hr] Hy. destruct (lookup_lt_is_Some_2 g (Z.to_nat y)) as [row E]; [lia|].
  exists row. split; [done|]. rewrite list.Forall_lookup in Hr. by eapply Hr.
Qed.

Lemma at_in {A} (v : list A) i a : 0 <= i -> v !! Z.to_nat i = Some a -> at_ v i = Ok a.
Proof. intros Hi E. rewrite <- (Z2Nat.id i) by done. by apply at_lookup. Qed.
Lemma put_at_in {A} (v : list A) i a :
  0 <= i < Z.of_nat (length v) -> put_at v i a = Ok (<[Z.to_nat i := a]> v).
Proof. intros Hi. rewrite <- (Z2Nat.id i) at 1 by lia. apply put_at_insert. lia. Qed.

Lemma grid_at_ok n g x y : shape n g -> inside n (x, y) -> grid_at g x y = Ok (get g (x, y)).
Proof.
  intros Hs [Hx Hy]. cbn in Hx, Hy. destruct (shape_row n g y Hs Hy) as (row & E & Hl).
  destruct (lookup_lt_is_Some_2 row (Z.to_nat x)) as [b Eb]; [lia|].
  unfold grid_at. rewrite (at_in g y row) by (done || lia). cbn [mbind Result_bind].
  rewrite (at_in row x b) by (done || lia). unfold get. cbn [fst snd]. rewrite E.
  cbn [mbind option_bind]. by rewrite Eb.
Qed.

Lemma grid_put_ok n g x y v :
  shape n g -> inside n (x, y) ->
  exists g', grid_put g x y v = Ok g' /\ shape n g' /\
    forall c, inside n c -> get g' c = if decide (c = (x, y)) then v else get g c.
Proof.
  intros Hs [Hx Hy]. cbn in Hx, Hy. destruct (shape_row n g y Hs Hy) as (row & E & Hl).
  exists (<[Z.to_nat y := <[Z.to_nat x := v]> row]> g). split.
  { unfold grid_put. rewrite (at_in g y row) by (done || lia). cbn [mbind Result_bind].
    rewrite put_at_in by lia. cbn [mbind Result_bind]. apply put_at_in. destruct Hs. lia. }
  split.
  { destruct Hs as [Hl' Hr]. split; [by rewrite length_insert|]. apply Forall_insert; [done|].
    by rewrite length_insert. }
  intros [x' y'] [Hx' Hy']. unfold get. cbn [fst snd] in *. destruct Hs as [Hl' Hr].
  destruct (decide (y' = y)) as [->|Hne].
  - rewrite list_lookup_insert_eq by lia. cbn [mbind option_bind]. destruct (decide (x' = x)) as [->|Hne].
    + rewrite list_lookup_insert_eq by lia. by rewrite decide_True.
    + rewrite list_lookup_insert_ne by lia. rewrite decide_False by congruence. by rewrite E.
  - rewrite list_lookup_insert_ne by lia. by rewrite decide_False by congruence.
Qed.

Lemma grid_ext n g g' :
  shape n g -> shape n g' -> (forall c, inside n c -> get g c = get g' c) -> g = g'.
Proof.
  intros Hs Hs' H. apply list_eq_same_length with (length g); [|done|].
  { destruct Hs, Hs'. lia. }
  intros i r r' Hi E E'. destruct Hs as [Hl Hr], Hs' as [Hl' Hr'].
  rewrite list.Forall_lookup in Hr, Hr'. pose proof (Hr _ _ E). pose proof (Hr' _ _ E').
  apply list_eq_same_length with (length r); [lia|done|]. intros j b b' Hj Eb Eb'.
  specialize (H (Z.of_nat j, Z.of_nat i)). unfold get in H. cbn [fst snd] in H.
  rewrite !Nat2Z.id, E, E' in H. cbn [mbind option_bind] in H. rewrite Eb, Eb' in H. cbn in H.
  apply H. split; cbn; lia.
Qed.

Lemma shape_light n : 0 <= n -> shape n (replicate (Z.to_nat n) (replicate (Z.to_nat n) false)).
Proof.
  intros Hn. split; [rewrite length_replicate; lia|]. apply Forall_replicate.
  rewrite length_replicate. lia.
Qed.
Lemma get_light n c : get (replicate n (replicate n false)) c = false.
Proof.
  unfold get. destruct (replicate n (replicate n false) !! Z.to_nat c.2) as [row|] eqn:E; [|done].
  apply lookup_replicate in E as [-> _]. cbn [mbind option_bind].
  destruct (replicate n false !! Z.to_nat c.1) as [b|] eqn:Eb; [|done].
  apply lookup_replicate in Eb as [-> _]. done.
Qed.

(** ** Loops over cells *)
Lemma for_in_concat {A B S} (l : list A) (f : A -> list B) (body : B -> S -> Result S) s :
  for_in l (λ a, for_in (f a) body) s = for_in (List.concat (map f l)) body s.
Proof.
  revert s. induction l as [|a l IH]; intros s; [done|]. cbn [for_in map List.concat].
  rewrite for_in_app. destruct (for_in (f a) body s) as [s'|]; [apply IH|done].
Qed.
Lemma for_in_map {A B S} (f : A -> B) (l : list A) (body : B -> S -> Result S) s :
  for_in (map f l) body s = for_in l (λ a, body (f a)) s.
Proof.
  revert s. induction l as [|a l IH]; intros s; [done|]. cbn [for_in map].
  destruct (body (f a) s) as [s'|]; [apply IH|done].
Qed.
Lemma for_in_ext {A S} (l : list A) (body body' : A -> S -> Result S) s :
  (forall a s, a ∈ l -> body a s = body' a s) -> for_in l body s = for_in l body' s.
Proof.
  revert s. induction l as [|a l IH]; intros s H; [done|]. cbn [for_in].
  rewrite H by (by left). destruct (body' a s) as [s'|]; [|done]. apply IH. intros b t Hb.
  apply H. by right.
Qed.

(** ** Function patterns as lists of modules to draw *)
Definition draw_all (l : list (Z * Z * bool)) (q : QrCode) : Result QrCode :=
  for_in l (λ d, setFunctionModule d.1.1 d.1.2 d.2) q.

(** What the code keeps while it draws. *)
Definition like (ver n : Z) (ecl : Ecc) (q : QrCode) : Prop :=
  version q = ver /\ size q = n /\ errorCorrectionLevel q = ecl.

Lemma setFunctionModule_like ver n ecl x y d q q' :
  like ver n ecl q -> setFunctionModule x y d q = Ok q' -> like ver n ecl q'.
Proof.
  intros Hq. unfold setFunctionModule. intros (m & _ & (f & _ & [= <-])%bind_Ok)%bind_Ok. done.
Qed.
Lemma draw_all_like ver n ecl l q q' :
  like ver n ecl q -> draw_all l q = Ok q' -> like ver n ecl q'.
Proof.
  unfold draw_all. revert q. induction l as [|d l IH]; intros q Hq; cbn [for_in]; [by intros [= <-]|].
  intros (q1 & E & H)%bind_Ok. eapply IH; [|done]. by eapply setFunctionModule_like.
Qed.
Lemma draw_all_app l k q : draw_all (app l k) q = draw_all l q ≫= draw_all k.
Proof. apply for_in_app. Qed.

Section Draws.
Context (ver n : Z) (ecl : Ecc).
Definition draws (m : QrCode -> Result QrCode) (cells : list (Z * Z * bool)) : Prop :=
  forall q, like ver n ecl q -> m q = draw_all cells q.

Lemma draws_one x y d : draws (setFunctionModule x y d) [(x, y, d)].
Proof. intros q _. unfold draw_all. cbn. by destruct (setFunctionModule x y d q). Qed.
Lemma draws_none : draws Ok [].
Proof. by intros q _. Qed.
Lemma draws_bind m k cells cells' :
  draws m cells -> draws k cells' -> draws (λ q, m q ≫= k) (app cells cells').
Proof.
  intros Hm Hk q Hq. rewrite draw_all_app, (Hm q Hq).
  destruct (draw_all cells q) as [q'|e] eqn:E; [|done]. cbn [mbind Result_bind].
  apply Hk. by eapply draw_all_like.
Qed.
Lemma draws_for {A} (l : list A) body cells :
  (forall a, a ∈ l -> draws (body a) (cells a)) ->
  draws (for_in l body) (List.concat (map cells l)).
Proof.
  induction l as [|a l IH]; intros H; [apply draws_none|]. cbn [map List.concat].
  intros q Hq. cbn [for_in]. apply (draws_bind (body a) (for_in l body)); [apply H; by left| |done].
  apply IH. intros b Hb. apply H. by right.
Qed.
Lemma draws_if (b : bool) m cells :
  draws m cells -> draws (λ q, if b then m q else Ok q) (if b then cells else []).
Proof. intros H q Hq. destruct b; [by apply H|done]. Qed.
Lemma draws_ext m m' cells : (forall q, like ver n ecl q -> m q = m' q) -> draws m' cells -> draws m cells.
Proof. intros E H q Hq. rewrite E by done. by apply H. Qed.
End Draws.

(** ** The modules of the function patterns *)
Definition timing_cells (n : Z) : list (Z * Z * bool) :=
  List.concat (map (λ i, [(6, i, i mod 2 =? 0); (i, 6, i mod 2 =? 0)]) (range 0 n)).

Definition finder_cells (n x y : Z) : list (Z * Z * bool) :=
  List.concat (map (λ dy, List.concat (map (λ dx,
    let dist := Z.max (Z.abs dx) (Z.abs dy) in
    if (0 <=? x + dx) && (x + dx <? n) && (0 <=? y + dy) && (y + dy <? n)
    then [(x + dx, y + dy, negb (dist =? 2) && negb (dist =? 4))] else []) (range (-4) 5))) (range (-4) 5)).

Definition alignment_cells (x y : Z) : list (Z * Z * bool) :=
  List.concat (map (λ dy, List.concat (map (λ dx,
    [(x + dx, y + dy, negb (Z.max (Z.abs dx) (Z.abs dy) =? 1))]) (range (-2) 3))) (range (-2) 3)).

Definition alignments_cells (pos : list Z) : list (Z * Z * bool) :=
  let numAlign := Z.of_nat (length pos) in
  List.concat (map (λ i, List.concat (map (λ j,
    if negb (((i =? 0) && (j =? 0)) || ((i =? 0) && (j =? numAlign - 1))
             || ((i =? numAlign - 1) && (j =? 0)))
    then alignment_cells (nth (Z.to_nat i) pos 0) (nth (Z.to_nat j) pos 0) else [])
    (range 0 numAlign))) (range 0 numAlign)).

Definition format_cells (n bits : Z) : list (Z * Z * bool) :=
  app (map (λ i, (8, i, getBit bits i)) (range 0 6))
  (app [(8, 7, getBit bits 6)]
  (app [(8, 8, getBit bits 7)]
  (app [(7, 8, getBit bits 8)]
  (app (map (λ i, (14 - i, 8, getBit bits i)) (range 9 15))
  (app (map (λ i, (n - 1 - i, 8, getBit bits i)) (range 0 8))
  (app (map (λ i, (8, n - 15 + i, getBit bits i)) (range 8 15)) [(8, n - 8, true)])))))).

Definition version_cells (ver n bits : Z) : list (Z * Z * bool) :=
  if ver <? 7 then []
  else List.concat (map (λ i, [(n - 11 + i mod 3, i / 3, getBit bits i);
                               (i / 3, n - 11 + i mod 3, getBit bits i)]) (range 0 18)).

Definition function_cells (ver : Z) (ecl : Ecc) : list (Z * Z * bool) :=
  let n := ver * 4 + 17 in
  app (timing_cells n) (app (finder_cells n 3 3) (app (finder_cells n (n - 4) 3) (app (finder_cells n 3 (n - 4))
  (app (alignments_cells (getAlignmentPatternPositions ver n))
  (app (format_cells n (format_bits ecl 0)) (version_cells ver n (version_bits ver))))))).

Lemma concat_singles {A B} (f : A -> B) (l : list A) : map f l = List.concat (map (λ a, [f a]) l).
Proof. induction l as [|a l IH]; [done|]. cbn [map List.concat app]. by rewrite IH. Qed.

Section Patterns.
Context (ver n : Z) (ecl : Ecc).
Local Notation draws := (draws ver n ecl).

Lemma draws_map {A} (l : list A) body f :
  (forall a, draws (body a) [f a]) -> draws (for_in l body) (map f l).
Proof. intros H. rewrite concat_singles. apply draws_for. intros a _. apply H. Qed.

Lemma finder_draws x y : draws (drawFinderPattern x y) (finder_cells n x y).
Proof.
  apply draws_for. intros dy _. apply draws_for. intros dx _ q Hq. cbv zeta.
  rewrite (proj1 (proj2 Hq)). by apply (draws_if ver n ecl _ (setFunctionModule _ _ _)), Hq; apply draws_one.
Qed.
Lemma alignment_draws x y : draws (drawAlignmentPattern x y) (alignment_cells x y).
Proof. apply draws_for. intros dy _. apply draws_for. intros dx _. apply draws_one. Qed.
Lemma format_draws msk :
  Z.shiftr (format_bits ecl msk) 15 =? 0 = true ->
  draws (drawFormatBits msk) (format_cells n (format_bits ecl msk)).
Proof.
  intros Hb. eapply (draws_ext _ _ _ _ (λ q,
    q ← for_in (range 0 6) (λ i, setFunctionModule 8 i (getBit (format_bits ecl msk) i)) q;
    q ← setFunctionModule 8 7 (getBit (format_bits ecl msk) 6) q;
    q ← setFunctionModule 8 8 (getBit (format_bits ecl msk) 7) q;
    q ← setFunctionModule 7 8 (getBit (format_bits ecl msk) 8) q;
    q ← for_in (range 9 15) (λ i, setFunctionModule (14 - i) 8 (getBit (format_bits ecl msk) i)) q;
    q ← for_in (range 0 8) (λ i q, setFunctionModule (size q - 1 - i) 8 (getBit (format_bits ecl msk) i) q) q;
    q ← for_in (range 8 15) (λ i q, setFunctionModule 8 (size q - 15 + i) (getBit (format_bits ecl msk) i) q) q;
    setFunctionModule 8 (size q - 8) true q)).
  { intros q Hq. unfold drawFormatBits. rewrite (proj2 (proj2 Hq)). by rewrite Hb. }
  unfold format_cells.
  apply draws_bind; [apply draws_map; intros i; apply draws_one|].
  do 3 (apply draws_bind; [apply draws_one|]).
  apply draws_bind; [apply draws_map; intros i; apply draws_one|].
  apply draws_bind; [apply draws_map; intros i q Hq; rewrite (proj1 (proj2 Hq)); by apply (draws_one ver n ecl)|].
  apply draws_bind; [apply draws_map; intros i q Hq; rewrite (proj1 (proj2 Hq)); by apply (draws_one ver n ecl)|].
  intros q Hq. rewrite (proj1 (proj2 Hq)). by apply (draws_one ver n ecl).
Qed.
Lemma version_draws :
  Z.shiftr (version_bits ver) 18 =? 0 = true -> draws drawVersion (version_cells ver n (version_bits ver)).
Proof.
  intros Hb q Hq. unfold drawVersion, version_cells. rewrite (proj1 Hq). destruct (ver <? 7); [done|].
  cbv zeta. rewrite Hb. cbn [asserts ensure mbind Result_bind].
  refine (draws_for ver n ecl (range 0 18) _ _ _ q Hq). intros i _ q' Hq'. cbv zeta.
  rewrite (proj1 (proj2 Hq')).
  exact (draws_bind ver n ecl _ _ _ _ (draws_one ver n ecl _ _ _) (draws_one ver n ecl _ _ _) q' Hq').
Qed.

Lemma alignments_draws (pos : list Z) :
  draws (for_in (range 0 (Z.of_nat (length pos))) (λ i, for_in (range 0 (Z.of_nat (length pos))) (λ j q,
    if negb (((i =? 0) && (j =? 0)) || ((i =? 0) && (j =? Z.of_nat (length pos) - 1))
             || ((i =? Z.of_nat (length pos) - 1) && (j =? 0)))
    then px ← at_ pos i; py ← at_ pos j; drawAlignmentPattern px py q
    else Ok q))) (alignments_cells pos).
Proof.
  assert (forall i, i ∈ range 0 (Z.of_nat (length pos)) -> at_ pos i = Ok (nth (Z.to_nat i) pos 0)) as Hat.
  { intros i Hi%elem_of_range. apply at_in; [lia|].
    destruct (nth_lookup_or_length pos (Z.to_nat i) 0); [done|lia]. }
  apply draws_for. intros i Hi. apply draws_for. intros j Hj q Hq.
  rewrite (Hat i Hi), (Hat j Hj). cbn [mbind Result_bind].
  by apply (draws_if ver n ecl _ (drawAlignmentPattern _ _)), Hq; apply alignment_draws.
Qed.
End Patterns.

Definition ecls : list Ecc := [LOW; MEDIUM; QUARTILE; HIGH].
Lemma in_ecls e : In e ecls.
Proof. destruct e; cbn; tauto. Qed.

Lemma format_bits_15 ecl msk : 0 <= msk <= 7 -> Z.shiftr (format_bits ecl msk) 15 =? 0 = true.
Proof.
  intros Hm.
  assert (forallb (λ e, forallb (λ m, Z.shiftr (format_bits e m) 15 =? 0) (range 0 8)) ecls = true) as H
    by (vm_compute; done).
  rewrite forallb_forall in H. specialize (H ecl (in_ecls ecl)). rewrite forallb_forall in H.
  apply H, list_elem_of_In, elem_of_range. lia.
Qed.
Lemma version_bits_18 ver : 1 <= ver <= 40 -> Z.shiftr (version_bits ver) 18 =? 0 = true.
Proof.
  intros Hv.
  assert (forallb (λ v, Z.shiftr (version_bits v) 18 =? 0) (range 1 41) = true) as H by (vm_compute; done).
  rewrite forallb_forall in H. apply H, list_elem_of_In, elem_of_range. lia.
Qed.

Lemma function_draws ver ecl :
  1 <= ver <= 40 ->
  draws ver (ver * 4 + 17) ecl drawFunctionPatterns (function_cells ver ecl).
Proof.
  intros Hv. set (n := ver * 4 + 17). unfold function_cells. fold n. cbv zeta.
  apply (draws_ext _ _ _ _ (λ q,
    q ← for_in (range 0 n) (λ i q,
          q ← setFunctionModule 6 i (i mod 2 =? 0) q;
          setFunctionModule i 6 (i mod 2 =? 0) q) q;
    q ← drawFinderPattern 3 3 q;
    q ← (λ q, drawFinderPattern (size q - 4) 3 q) q;
    q ← (λ q, drawFinderPattern 3 (size q - 4) q) q;
    q ← (λ q, let alignPatPos := getAlignmentPatternPositions (version q) (size q) in
      let numAlign := Z.of_nat (length alignPatPos) in
      for_in (range 0 numAlign) (λ i, for_in (range 0 numAlign) (λ j q,
        if negb (((i =? 0) && (j =? 0)) || ((i =? 0) && (j =? numAlign - 1))
                 || ((i =? numAlign - 1) && (j =? 0)))
        then px ← at_ alignPatPos i; py ← at_ alignPatPos j; drawAlignmentPattern px py q
        else Ok q)) q) q;
    q ← drawFormatBits 0 q;
    drawVersion q)).
  { intros q Hq. unfold drawFunctionPatterns. by rewrite (proj1 (proj2 Hq)). }
  apply draws_bind.
  { apply draws_for. intros i _.
    exact (draws_bind _ _ _ _ _ _ _ (draws_one ver n ecl _ _ _) (draws_one ver n ecl _ _ _)). }
  apply draws_bind; [apply finder_draws|].
  apply draws_bind; [intros q Hq; rewrite (proj1 (proj2 Hq)); by apply (finder_draws ver n ecl)|].
  apply draws_bind; [intros q Hq; rewrite (proj1 (proj2 Hq)); by apply (finder_draws ver n ecl)|].
  apply draws_bind.
  { intros q Hq. rewrite (proj1 (proj2 Hq)), (proj1 Hq). by apply (alignments_draws ver n ecl). }
  apply draws_bind; [by apply format_draws, format_bits_15|].
  by apply version_draws, version_bits_18.
Qed.

(** ** What drawing does *)
Definition last_draw (l : list (Z * Z * bool)) (c : Z * Z) : option bool :=
  foldl (λ acc d, if decide (c = d.1) then Some d.2 else acc) None l.

Lemma last_draw_from l c a :
  foldl (λ acc d, if decide (c = d.1) then Some d.2 else acc) a l =
  match last_draw l c with Some b => Some b | None => a end.
Proof.
  unfold last_draw. revert a. induction l as [|d l IH]; intros a; [done|]. cbn [foldl].
  rewrite IH, (IH (if decide (c = d.1) then Some d.2 else None)).
  by destruct (foldl _ None l), (decide (c = d.1)).
Qed.
Lemma last_draw_app l k c :
  last_draw (app l k) c = match last_draw k c with Some b => Some b | None => last_draw l c end.
Proof. unfold last_draw at 1. rewrite foldl_app. apply last_draw_from. Qed.
Lemma last_draw_cons d l c :
  last_draw (d :: l) c =
  match last_draw l c with Some b => Some b | None => if decide (c = d.1) then Some d.2 else None end.
Proof. apply (last_draw_app [d] l). Qed.
Lemma last_draw_None l c : last_draw l c = None <-> c ∉ map fst l.
Proof.
  induction l as [|d l IH].
  { split; [intros _; apply not_elem_of_nil|done]. }
  rewrite last_draw_cons. cbn [map]. rewrite not_elem_of_cons.
  destruct (last_draw l c) as [b|]; [split; [done|]; intros [_ H]; by apply IH in H|].
  case_decide as Hd; [split; [done|]; by intros [H _]|]. split; [|done]. intros _.
  split; [done|by apply IH].
Qed.

(** A square that is being drawn on. *)
Record canvas (n : Z) (q : QrCode) : Prop := {
  canvas_modules : shape n (modules q);
  canvas_function : shape n (isFunction q)
}.

Lemma setFunctionModule_ok n x y d q :
  canvas n q -> inside n (x, y) ->
  exists q', setFunctionModule x y d q = Ok q' /\ canvas n q' /\
    version q' = version q /\ size q' = size q /\ errorCorrectionLevel q' = errorCorrectionLevel q /\
    forall c, inside n c ->
      get (modules q') c = (if decide (c = (x, y)) then d else get (modules q) c) /\
      get (isFunction q') c = (if decide (c = (x, y)) then true else get (isFunction q) c).
Proof.
  intros [Hm Hf] Hin. destruct (grid_put_ok n (modules q) x y d Hm Hin) as (m & Em & Hsm & Gm).
  destruct (grid_put_ok n (isFunction q) x y true Hf Hin) as (f & Ef & Hsf & Gf).
  eexists. unfold setFunctionModule. rewrite Em. cbn [mbind Result_bind]. rewrite Ef.
  split; [reflexivity|]. split; [by split|]. do 3 (split; [done|]). intros c Hc. by rewrite Gm, Gf.
Qed.

Lemma draw_all_ok n l q :
  canvas n q -> Forall (λ d, inside n d.1) l ->
  exists q', draw_all l q = Ok q' /\ canvas n q' /\
    version q' = version q /\ size q' = size q /\ errorCorrectionLevel q' = errorCorrectionLevel q /\
    forall c, inside n c ->
      get (modules q') c = default (get (modules q) c) (last_draw l c) /\
      get (isFunction q') c = (if decide (c ∈ map fst l) then true else get (isFunction q) c).
Proof.
  intros Hq Hl. revert q Hq. induction Hl as [|[[x y] d] l Hd Hl IH]; intros q Hq.
  { exists q. split; [done|]. split; [done|]. do 3 (split; [done|]). intros c Hc. split; [done|].
    rewrite decide_False; [done|apply not_elem_of_nil]. }
  destruct (setFunctionModule_ok n x y d q Hq Hd) as (q1 & E1 & Hq1 & Hv1 & Hz1 & He1 & G1).
  destruct (IH q1 Hq1) as (q2 & E2 & Hq2 & Hv2 & Hz2 & He2 & G2).
  exists q2. unfold draw_all in *. cbn [for_in fst snd]. rewrite E1. cbn [mbind Result_bind].
  split; [done|]. split; [done|]. split; [congruence|]. split; [congruence|]. split; [congruence|].
  intros c Hc. destruct (G1 c Hc) as [Gm Gf], (G2 c Hc) as [Gm' Gf']. rewrite Gm', Gf', Gm, Gf. split.
  - rewrite last_draw_cons. cbn [fst snd]. destruct (last_draw l c); [done|].
    cbn [from_option id]. by destruct (decide (c = (x, y))).
  - cbn [map fst]. destruct (decide (c ∈ (x, y) :: map fst l)) as [H|H]; rewrite elem_of_cons in H;
      destruct (decide (c ∈ map fst l)), (decide (c = (x, y))); tauto || done.
Qed.
