(* ===== verification/QrLayout.v ===== *)
(** * The layout of a QR code

    Where the codewords go: the order in which [drawCodewords] (QrCode.v) visits
    the modules, and that every version has exactly as many modules outside its
    function patterns as [getNumRawDataModules] says. *)
From stdpp Require Import base list numbers pmap.
From Stdlib Require Import ZArith Lia.
From S2P Require Import Prelude ReedSolomon QrSegments QrCode QrDrawing.
Local Open Scope Z_scope.

(** ** Columns and the zigzag *)
Definition pair_ok (r : Z) : Prop := (8 <= r /\ r mod 2 = 0) \/ (1 <= r <= 5 /\ r mod 2 = 1).
Definition start_ok (r : Z) : Prop := (6 <= r /\ r mod 2 = 0) \/ (-1 <= r <= 5 /\ r mod 2 = 1).

Lemma column_pairs_step right :
  start_ok right -> 1 <= right ->
  let r := if right =? 6 then 5 else right in pair_ok r /\ start_ok (r - 2) /\ r <= right.
Proof.
  intros Hs H1. cbv zeta. destruct (Z.eqb_spec right 6) as [->|Hn].
  - split; [right; done|]. split; [right; done|lia].
  - unfold start_ok, pair_ok in *. split; [|split; [|lia]];
      (Z.to_euclidean_division_equations; lia).
Qed.

Lemma column_pairs_spec fuel right r :
  start_ok right -> r ∈ column_pairs fuel right -> pair_ok r /\ r <= right.
Proof.
  revert right. induction fuel as [|fuel IH]; intros right Hs; [by intros ?%not_elem_of_nil|].
  cbn [column_pairs]. destruct (Z.leb_spec 1 right) as [H1|]; [|by intros ?%not_elem_of_nil].
  destruct (column_pairs_step right Hs H1) as (Hp & Hs' & Hle). cbv zeta in *.
  set (r' := if right =? 6 then 5 else right) in *. intros [->|Hr]%elem_of_cons; [done|].
  apply IH in Hr as [? ?]; [split; [done|lia]|done].
Qed.

Lemma column_pairs_nodup fuel right : start_ok right -> NoDup (column_pairs fuel right).
Proof.
  revert right. induction fuel as [|fuel IH]; intros right Hs; [constructor|]. cbn [column_pairs].
  destruct (Z.leb_spec 1 right) as [H1|]; [|constructor].
  destruct (column_pairs_step right Hs H1) as (Hp & Hs' & Hle). cbv zeta in *.
  set (r' := if right =? 6 then 5 else right) in *. constructor; [|by apply IH].
  intros Hr. apply column_pairs_spec in Hr as [_ ?]; [lia|done].
Qed.

(** Every column but the one of the timing pattern is in a pair. *)
Lemma column_pairs_all fuel right x :
  start_ok right -> right < Z.of_nat fuel -> 0 <= x <= right -> x <> 6 ->
  exists r, r ∈ column_pairs fuel right /\ (x = r \/ x = r - 1).
Proof.
  revert right. induction fuel as [|fuel IH]; intros right Hs Hf Hx H6; [lia|]. cbn [column_pairs].
  destruct (Z.leb_spec 1 right) as [H1|H1].
  2: { unfold start_ok in Hs. assert (right = 0) as -> by lia.
       by destruct Hs as [[? _]|[_ ?]]; [lia|]. }
  destruct (column_pairs_step right Hs H1) as (Hp & Hs' & Hle). cbv zeta in *.
  set (r' := if right =? 6 then 5 else right) in *.
  destruct (decide (x = r' \/ x = r' - 1)) as [Hc|Hc].
  { exists r'. split; [by left|done]. }
  destruct (IH (r' - 2)) as (r & Hr & Hxr); [done|lia| |done|].
  - assert (x <= r'); [|lia]. unfold r'. destruct (Z.eqb_spec right 6); lia.
  - exists r. split; [by right|done].
Qed.

Definition zigzag_row (n right vert : Z) : list (Z * Z) :=
  map (λ j, (right - j, if Z.land (right + 1) 2 =? 0 then n - 1 - vert else vert)) (range 0 2).
Definition zigzag (n : Z) : list (Z * Z) :=
  List.concat (map (λ right, List.concat (map (zigzag_row n right) (range 0 n)))
    (column_pairs (Z.to_nat n) (n - 1))).

Lemma NoDup_concat_map {A B} (f : A -> list B) (l : list A) :
  NoDup l -> (forall a, a ∈ l -> NoDup (f a)) ->
  (forall a b x, a ∈ l -> b ∈ l -> x ∈ f a -> x ∈ f b -> a = b) ->
  NoDup (List.concat (map f l)).
Proof.
  intros Hl Hf Hd. induction Hl as [|a l Ha Hl IH]; [constructor|]. cbn [map List.concat].
  apply NoDup_app. split; [apply Hf; by left|]. split.
  - intros x Hx Hc. apply list_elem_of_In, in_concat in Hc as (k & Hk & Hx').
    apply in_map_iff in Hk as (b & <- & Hb). apply list_elem_of_In in Hb, Hx'.
    apply Ha. replace a with b; [done|]. symmetry. apply (Hd a b x); [by left|by right|done|done].
  - apply IH; [intros b Hb; apply Hf; by right|].
    intros b c x Hb Hc. apply Hd; by right.
Qed.

Lemma zigzag_row_elem n right vert c :
  c ∈ zigzag_row n right vert <->
  (c.1 = right \/ c.1 = right - 1) /\ c.2 = (if Z.land (right + 1) 2 =? 0 then n - 1 - vert else vert).
Proof.
  change (zigzag_row n right vert) with
    [(right - 0, if Z.land (right + 1) 2 =? 0 then n - 1 - vert else vert);
     (right - 1, if Z.land (right + 1) 2 =? 0 then n - 1 - vert else vert)].
  rewrite !elem_of_cons. destruct c as [x y]. cbn [fst snd]. rewrite Z.sub_0_r. split.
  - intros [[= -> ->]|[[= -> ->]|[]%not_elem_of_nil]]; tauto.
  - intros [[-> | ->] ->]; tauto.
Qed.

Lemma zigzag_elem n c :
  c ∈ zigzag n <->
  exists right vert, right ∈ column_pairs (Z.to_nat n) (n - 1) /\ 0 <= vert < n /\
    c ∈ zigzag_row n right vert.
Proof.
  unfold zigzag. rewrite list_elem_of_In, in_concat. split.
  - intros (k & Hk & Hc). apply in_map_iff in Hk as (right & <- & Hr).
    apply in_concat in Hc as (k & Hk & Hc). apply in_map_iff in Hk as (vert & <- & Hv).
    exists right, vert. rewrite !list_elem_of_In. split; [done|]. split; [|done].
    by apply elem_of_range, list_elem_of_In.
  - intros (right & vert & Hr & Hv & Hc). eexists. split; [apply in_map, list_elem_of_In, Hr|].
    apply in_concat. eexists. split; [apply in_map, list_elem_of_In, elem_of_range, Hv|].
    by apply list_elem_of_In.
Qed.

Section Zigzag.
Context (n : Z).
Hypothesis Hn : 21 <= n.
Hypothesis Hodd : n mod 2 = 1.

Lemma start_columns : start_ok (n - 1).
Proof. left. split; [lia|]. Z.to_euclidean_division_equations; lia. Qed.

Lemma zigzag_inside c : c ∈ zigzag n -> inside n c.
Proof.
  intros (right & vert & Hr & Hv & [Hx Hy]%zigzag_row_elem)%zigzag_elem.
  apply column_pairs_spec in Hr as [Hp Hle]; [|apply start_columns].
  assert (1 <= right) by (unfold pair_ok in Hp; lia).
  split; [lia|]. rewrite Hy. case_match; lia.
Qed.

Lemma zigzag_covers c : inside n c -> c.1 <> 6 -> c ∈ zigzag n.
Proof.
  intros [Hx Hy] H6. apply zigzag_elem.
  destruct (column_pairs_all (Z.to_nat n) (n - 1) c.1) as (r & Hr & Hc);
    [apply start_columns|lia|lia|done|].
  exists r, (if Z.land (r + 1) 2 =? 0 then n - 1 - c.2 else c.2). split; [done|].
  split; [case_match; lia|]. apply zigzag_row_elem. split; [done|]. case_match; lia.
Qed.

Lemma zigzag_nodup : NoDup (zigzag n).
Proof.
  apply NoDup_concat_map.
  - apply column_pairs_nodup, start_columns.
  - intros right Hr. apply NoDup_concat_map.
    + apply NoDup_range.
    + intros vert _. apply (NoDup_fmap_2_strong (λ j, (right - j, _))); [|apply NoDup_range].
      intros i j _ _ [= E]. lia.
    + intros a b c _ _ [_ Ha]%zigzag_row_elem [_ Hb]%zigzag_row_elem. case_match; lia.
  - intros r r' c Hr Hr' Hc Hc'.
    assert (forall r, c ∈ List.concat (map (zigzag_row n r) (range 0 n)) -> c.1 = r \/ c.1 = r - 1) as Hcol.
    { intros s Hs. apply list_elem_of_In, in_concat in Hs as (k & Hk & Hs).
      apply in_map_iff in Hk as (vert & <- & _). apply list_elem_of_In in Hs.
      by apply zigzag_row_elem in Hs as [? _]. }
    apply Hcol in Hc, Hc'. apply column_pairs_spec in Hr as [Hp _]; [|apply start_columns].
    apply column_pairs_spec in Hr' as [Hp' _]; [|apply start_columns].
    unfold pair_ok in Hp, Hp'. Z.to_euclidean_division_equations; lia.
Qed.
End Zigzag.

(** ** The modules outside the function patterns *)
Definition function_coords (ver : Z) : list (Z * Z) := map fst (function_cells ver LOW).

Lemma function_coords_any ver ecl : map fst (function_cells ver ecl) = function_coords ver.
Proof.
  unfold function_coords, function_cells. cbv zeta. rewrite !map_app. do 5 f_equal.
Qed.

Definition code (n : Z) (c : Z * Z) : positive := Z.to_pos (c.2 * n + c.1 + 1).

Lemma code_value n c : inside n c -> Z.pos (code n c) = c.2 * n + c.1 + 1.
Proof. intros [Hx Hy]. unfold code. apply Z2Pos.id. nia. Qed.
Lemma code_inj n c d : inside n c -> inside n d -> code n c = code n d -> c = d.
Proof.
  intros Hc Hd E. pose proof (code_value n c Hc). pose proof (code_value n d Hd). rewrite E in *.
  destruct c as [x y], d as [x' y'], Hc, Hd. cbn [fst snd] in *. assert (y = y') by nia. f_equal; nia.
Qed.
Lemma code_onto n p : 0 < n -> Z.pos p <= n * n -> exists c, inside n c /\ code n c = p.
Proof.
  intros Hn Hp. exists ((Z.pos p - 1) mod n, (Z.pos p - 1) / n).
  assert (inside n ((Z.pos p - 1) mod n, (Z.pos p - 1) / n)) as Hin.
  { split; cbn [fst snd]; [apply Z.mod_pos_bound; lia|]. split; [apply Z.div_pos; lia|].
    apply Z.div_lt_upper_bound; lia. }
  split; [done|]. apply Pos2Z.inj. rewrite code_value by done. cbn [fst snd].
  pose proof (Z.div_mod (Z.pos p - 1) n). lia.
Qed.

(** The different codes of a list of modules. *)
Definition codes (n : Z) (l : list (Z * Z)) : Pmap unit := list_to_map (map (λ c, (code n c, tt)) l).

Lemma codes_lookup n l p : is_Some (codes n l !! p) <-> p ∈ map (code n) l.
Proof.
  unfold codes. split.
  - intros [u Hu]. apply elem_of_list_to_map_2 in Hu. apply list_elem_of_fmap in Hu as (c & [= -> _] & Hc).
    apply list_elem_of_fmap. by exists c.
  - intros (c & -> & Hc)%list_elem_of_fmap.
    destruct (list_to_map (map (λ c, (code n c, tt)) l) !! code n c) eqn:E; [by eexists|].
    apply not_elem_of_list_to_map_2 in E. destruct E. apply list_elem_of_fmap.
    exists (code n c, tt). split; [done|]. apply list_elem_of_fmap. by exists c.
Qed.

Definition layout_check (ver : Z) : bool :=
  let n := ver * 4 + 17 in
  let l := function_coords ver in
  forallb (λ c, (0 <=? c.1) && (c.1 <? n) && (0 <=? c.2) && (c.2 <? n)) l &&
  match getNumRawDataModules ver with
  | Ok raw => Z.of_nat (base.size (codes n l)) =? n * n - raw
  | Throw _ => false
  end.

Lemma layout_checked : forallb layout_check (range 1 41) = true.
Proof. vm_compute. done. Qed.

Section Layout.
Context (ver : Z).
Hypothesis Hver : 1 <= ver <= 40.
Local Notation n := (ver * 4 + 17).

Lemma layout_facts :
  Forall (inside n) (function_coords ver) /\
  exists raw, getNumRawDataModules ver = Ok raw /\
    Z.of_nat (base.size (codes n (function_coords ver))) = n * n - raw.
Proof.
  pose proof layout_checked as H. rewrite forallb_forall in H.
  specialize (H ver (proj1 (list_elem_of_In _ _) (proj2 (elem_of_range 1 41 ver) ltac:(lia)))).
  unfold layout_check in H. cbv zeta in H. apply andb_true_iff in H as [Hin Hs]. split.
  - rewrite forallb_forall in Hin. apply list.Forall_forall. intros c Hc%list_elem_of_In%Hin.
    breflect. by split.
  - destruct (getNumRawDataModules ver) as [raw|]; [|done]. exists raw. split; [done|].
    by apply Z.eqb_eq.
Qed.

Lemma timing_column y : 0 <= y < n -> (6, y) ∈ function_coords ver.
Proof.
  intros Hy. unfold function_coords, function_cells. cbv zeta. rewrite map_app. apply elem_of_app. left.
  apply list_elem_of_fmap. exists (6, y, y mod 2 =? 0). split; [done|]. unfold timing_cells.
  apply list_elem_of_In, in_concat. eexists. split.
  - apply in_map, list_elem_of_In, elem_of_range, Hy.
  - by left.
Qed.

(** The modules the codewords are drawn on, in their order. *)
Definition free_cells : list (Z * Z) := filter (λ c, c ∉ function_coords ver) (zigzag n).

Lemma free_nodup : NoDup free_cells.
Proof. apply NoDup_filter, zigzag_nodup; [lia|]. Z.to_euclidean_division_equations; lia. Qed.
Lemma free_elem c : c ∈ free_cells <-> inside n c /\ c ∉ function_coords ver.
Proof.
  assert (21 <= n) by lia. assert (n mod 2 = 1) by (Z.to_euclidean_division_equations; lia).
  unfold free_cells. rewrite list_elem_of_filter. split.
  - intros [Hf Hz]. split; [by apply (zigzag_inside n)|done].
  - intros [Hi Hf]. split; [done|]. apply zigzag_covers; [done..|]. intros E. apply Hf.
    destruct c as [x y]. cbn in E. subst x. apply timing_column, Hi.
Qed.

(** There are exactly as many as [getNumRawDataModules] says. *)
Lemma free_count raw : getNumRawDataModules ver = Ok raw -> Z.of_nat (length free_cells) = raw.
Proof.
  intros Er. destruct layout_facts as (Hin & raw' & Er' & Hs). rewrite Er in Er'. injection Er' as <-.
  rewrite list.Forall_forall in Hin.
  set (all := map (λ k, Z.to_pos (k + 1)) (range 0 (n * n))).
  assert (app (map (code n) free_cells) (map fst (map_to_list (codes n (function_coords ver)))) ≡ₚ all) as Hp.
  { apply NoDup_Permutation.
    - apply NoDup_app. split.
      + apply NoDup_fmap_2_strong; [|apply free_nodup]. intros c d [Hc _]%free_elem [Hd _]%free_elem.
        by apply code_inj.
      + split; [|apply NoDup_fst_map_to_list]. intros p Hp Hp'.
        apply list_elem_of_fmap in Hp as (c & -> & [Hi Hf]%free_elem).
        apply list_elem_of_fmap in Hp' as ([p u] & Ep & Hp'%elem_of_map_to_list). cbn in Ep. subst p.
        assert (is_Some (codes n (function_coords ver) !! code n c)) as Hc%codes_lookup by (by eexists).
        apply list_elem_of_fmap in Hc as (d & E & Hd). apply code_inj in E as ->; [done|done|by apply Hin].
    - apply (NoDup_fmap_2_strong (λ k, Z.to_pos (k + 1))); [|apply NoDup_range].
      intros i j Hi%elem_of_range Hj%elem_of_range E. apply Z2Pos.inj in E; lia.
    - intros p. rewrite elem_of_app. split.
      + assert (forall c, inside n c -> code n c ∈ all) as Hall.
        { intros c Hc. apply list_elem_of_fmap. exists (c.2 * n + c.1). split; [done|].
          apply elem_of_range. destruct Hc. nia. }
        intros [(c & -> & [Hi _]%free_elem)%list_elem_of_fmap|Hp]; [by apply Hall|].
        apply list_elem_of_fmap in Hp as ([q u] & -> & Hp%elem_of_map_to_list). cbn.
        assert (is_Some (codes n (function_coords ver) !! q)) as Hc%codes_lookup by (by eexists).
        apply list_elem_of_fmap in Hc as (d & -> & Hd). apply Hall, Hin, Hd.
      + intros (k & -> & Hk%elem_of_range)%list_elem_of_fmap.
        destruct (code_onto n (Z.to_pos (k + 1))) as (c & Hc & <-); [lia|lia|].
        destruct (decide (c ∈ function_coords ver)) as [Hf|Hf].
        * right. assert (code n c ∈ map (code n) (function_coords ver)) as [u Hu]%codes_lookup
            by (apply list_elem_of_fmap; by exists c).
          apply list_elem_of_fmap. exists (code n c, u). split; [done|]. by apply elem_of_map_to_list.
        * left. apply list_elem_of_fmap. exists c. split; [done|]. by apply free_elem. }
  apply Permutation_length in Hp. unfold all in Hp.
  rewrite length_app, !length_map, length_range, length_map_to_list in Hp. lia.
Qed.
End Layout.

(** ** Drawing codewords *)
Definition data_bits (data : list Z) : list bool := List.concat (map (λ d, bits_of d 8) data).

Lemma data_bits_length data : length (data_bits data) = (8 * length data)%nat.
Proof.
  induction data as [|d data IH]; [done|]. unfold data_bits in *. cbn [map List.concat length].
  rewrite length_app, IH, bits_of_length by lia. cbn. lia.
Qed.

Lemma getBit_testbit x i : 0 <= i -> getBit x i = Z.testbit x i.
Proof. intros Hi. unfold getBit. rewrite bit_b2z by done. by destruct (Z.testbit x i). Qed.

Lemma bits_of_lookup v (n k : nat) :
  (k < n)%nat -> bits_of v (Z.of_nat n) !! k = Some (Z.testbit v (Z.of_nat n - 1 - Z.of_nat k)).
Proof.
  revert k. induction n as [|n IH]; intros k Hk; [lia|].
  rewrite Nat2Z.inj_succ. unfold Z.succ. rewrite bits_of_succ by lia.
  destruct k as [|k]; cbn [lookup list_lookup]; [do 2 f_equal; lia|].
  rewrite IH by lia. do 2 f_equal. lia.
Qed.

Lemma data_bits_at data j (k : nat) d :
  data !! j = Some d -> (k < 8)%nat ->
  data_bits data !! (8 * j + k)%nat = Some (Z.testbit d (7 - Z.of_nat k)).
Proof.
  intros Ej Hk. revert j Ej. induction data as [|e data IH]; intros j Ej; [done|].
  unfold data_bits. cbn [map List.concat]. destruct j as [|j].
  - injection Ej as ->. rewrite Nat.mul_0_r. rewrite lookup_app_l by (rewrite bits_of_length by lia; lia).
    by apply (bits_of_lookup d 8).
  - rewrite lookup_app_r by (rewrite bits_of_length by lia; lia).
    rewrite bits_of_length by lia. change (Z.to_nat 8) with 8%nat.
    replace (8 * S j + k - 8)%nat with (8 * j + k)%nat by lia. by apply IH.
Qed.

Lemma data_bits_lookup data i :
  0 <= i < 8 * Z.of_nat (length data) ->
  exists d, at_ data (Z.shiftr i 3) = Ok d /\
    data_bits data !! Z.to_nat i = Some (getBit d (7 - Z.land i 7)).
Proof.
  intros Hi. rewrite Z.shiftr_div_pow2 by lia. change (Z.land i 7) with (Z.land i (Z.ones 3)).
  rewrite Z.land_ones by lia. change (2 ^ 3) with 8. set (j := i / 8). set (k := i mod 8).
  assert (i = 8 * j + k /\ 0 <= k < 8) as [E Hk] by (unfold j, k; Z.to_euclidean_division_equations; lia).
  assert (0 <= j < Z.of_nat (length data)) as Hj by lia. clearbody j k.
  destruct (lookup_lt_is_Some_2 data (Z.to_nat j)) as [d Ed]; [lia|].
  exists d. split; [apply at_in; [lia|done]|]. rewrite getBit_testbit by lia.
  replace (Z.to_nat i) with (8 * Z.to_nat j + Z.to_nat k)%nat by lia.
  rewrite (data_bits_at data _ _ d) by (done || lia). do 2 f_equal. lia.
Qed.

(** One module of the zigzag. *)
Definition codeword_step (data : list Z) (isF : Grid) (c : Z * Z) (s : Grid * Z) : Result (Grid * Z) :=
  let '(m, i) := s in
  f ← grid_at isF c.1 c.2;
  if negb f && (i <? Z.of_nat (length data) * 8) then
    d ← at_ data (Z.shiftr i 3);
    m' ← grid_put m c.1 c.2 (getBit d (7 - Z.land i 7));
    Ok (m', i + 1)
  else Ok (m, i).

Lemma drawCodewords_zigzag data q :
  drawCodewords data q =
  (raw ← getNumRawDataModules (version q);
   _ ← ensure (Z.of_nat (length data) =? raw / 8) invalid_argument;
   s ← for_in (zigzag (size q)) (codeword_step data (isFunction q)) (modules q, 0);
   _ ← asserts (s.2 =? Z.of_nat (length data) * 8);
   Ok (with_modules s.1 q)).
Proof.
  unfold drawCodewords, zigzag. rewrite <- for_in_concat.
  destruct (getNumRawDataModules (version q)) as [raw|]; [|done]. cbn [mbind Result_bind].
  destruct (ensure _ _) as [[]|]; [|done]. cbn [mbind Result_bind]. cbv zeta.
  erewrite for_in_ext; [reflexivity|]. intros right s _. cbn beta.
  rewrite <- for_in_concat. apply for_in_ext. intros vert t _. unfold zigzag_row. by rewrite for_in_map.
Qed.

Section Drawing.
Context (n : Z) (data : list Z) (isF : Grid).
Hypothesis HisF : shape n isF.
Local Notation total := (Z.of_nat (length data) * 8).
Local Notation open := (filter (λ c, get isF c = false)).

Lemma codeword_step_skip c m i :
  inside n c -> get isF c = true \/ total <= i -> codeword_step data isF c (m, i) = Ok (m, i).
Proof.
  intros Hc H. cbn [codeword_step]. rewrite (grid_at_ok n isF c.1 c.2) by (done || by destruct c).
  rewrite <- surjective_pairing. cbn [mbind Result_bind].
  destruct H as [-> | H]; [done|]. rewrite (proj2 (Z.ltb_ge _ _)) by done. by rewrite andb_false_r.
Qed.
Lemma codeword_step_draw c m i :
  inside n c -> get isF c = false -> 0 <= i < total -> shape n m ->
  exists m' b, codeword_step data isF c (m, i) = Ok (m', i + 1) /\ shape n m' /\
    data_bits data !! Z.to_nat i = Some b /\
    forall x, inside n x -> get m' x = if decide (x = c) then b else get m x.
Proof.
  intros Hc Hf Hi Hm. destruct (data_bits_lookup data i ltac:(lia)) as (d & Ed & Eb).
  destruct (grid_put_ok n m c.1 c.2 (getBit d (7 - Z.land i 7)) Hm ltac:(by destruct c)) as (m1 & Em & Hm1 & G1).
  exists m1, (getBit d (7 - Z.land i 7)). cbn [codeword_step].
  rewrite (grid_at_ok n isF c.1 c.2) by (done || by destruct c). rewrite <- surjective_pairing, Hf.
  rewrite (proj2 (Z.ltb_lt _ _)) by lia. cbn [mbind Result_bind negb andb]. rewrite Ed.
  cbn [mbind Result_bind]. rewrite Em. split; [done|]. split; [done|]. split; [done|].
  intros x Hx. rewrite G1 by done. by rewrite <- surjective_pairing.
Qed.

Lemma codewords_drawn l m i :
  NoDup l -> Forall (inside n) l -> shape n m -> 0 <= i <= total ->
  exists m' i', for_in l (codeword_step data isF) (m, i) = Ok (m', i') /\ shape n m' /\
    i' = Z.min total (i + Z.of_nat (length (open l))) /\
    (forall c, inside n c -> c ∉ open l -> get m' c = get m c) /\
    map (get m') (take (Z.to_nat (total - i)) (open l)) =
      take (length (open l)) (drop (Z.to_nat i) (data_bits data)).
Proof.
  intros Hd Hin. revert m i. induction l as [|c l IH]; intros m i Hm Hi.
  { exists m, i. split; [done|]. split; [done|]. split; [cbn; lia|]. split; [done|].
    rewrite filter_nil. by rewrite take_nil. }
  apply list.NoDup_cons in Hd as [Hc Hd]. apply list.Forall_cons in Hin as [Hci Hin].
  specialize (IH Hd Hin). cbn [for_in]. rewrite filter_cons. destruct (get isF c) eqn:Ef.
  { rewrite decide_False by done. rewrite codeword_step_skip by (done || by left). by apply IH. }
  rewrite decide_True by done. destruct (Z.lt_ge_cases i total) as [Hlt|Hge].
  - destruct (codeword_step_draw c m i Hci Ef ltac:(lia) Hm) as (m1 & b & Em & Hm1 & Eb & G1).
    rewrite Em. cbn [mbind Result_bind]. destruct (IH m1 (i + 1) Hm1 ltac:(lia)) as (m2 & i2 & E & Hm2 & Hi2 & Gk & Gr).
    exists m2, i2. split; [done|]. split; [done|]. split; [cbn [length]; lia|]. split.
    + intros x Hx [Hne Hn]%not_elem_of_cons. rewrite Gk by done. rewrite G1 by done.
      by rewrite decide_False.
    + replace (Z.to_nat (total - i)) with (S (Z.to_nat (total - (i + 1)))) by lia.
      cbn [take map length]. rewrite Gr. rewrite (drop_S _ _ _ Eb). cbn [take].
      replace (Z.to_nat (i + 1)) with (S (Z.to_nat i)) by lia. f_equal.
      rewrite Gk; [|done|]. 2: { intros Hf. by apply list_elem_of_filter in Hf as [_ Hf]. }
      rewrite G1 by done. by rewrite decide_True.
  - rewrite codeword_step_skip by (done || by right). cbn [mbind Result_bind].
    destruct (IH m i Hm Hi) as (m2 & i2 & E & Hm2 & Hi2 & Gk & Gr).
    exists m2, i2. split; [done|]. split; [done|]. split; [cbn [length]; lia|]. split.
    + intros x Hx [_ Hn]%not_elem_of_cons. by apply Gk.
    + replace (Z.to_nat (total - i)) with 0%nat by lia. cbn [take map].
      rewrite drop_ge by (rewrite data_bits_length; lia). by rewrite take_nil.
Qed.
End Drawing.
