(* ===== verification/QrBlocks.v ===== *)
(** * Error correction blocks of a QR code

    [addEccAndInterleave] (QrCode.v) cuts the data into blocks, appends to each
    of them its error correction and interleaves the blocks; a reader that takes
    the codewords of each block out of the sequence finds the data and a
    codeword of the Reed-Solomon code in every block. *)
From stdpp Require Import base list numbers.
From Stdlib Require Import ZArith Lia.
From S2P Require Import Prelude ReedSolomon QrSegments QrCode QrDrawing QrLayout.
Local Open Scope Z_scope.

(** ** The numbers of the tables *)
Record plan_ok (p : BlockPlan) (n : Z) : Prop := {
  plan_blocks : 1 <= numShortBlocks p <= numBlocks p;
  plan_ecc : 1 <= blockEccLen p;
  plan_short : blockEccLen p < shortBlockLen p <= 254;
  plan_data : n = numBlocks p * (shortBlockLen p - blockEccLen p) + (numBlocks p - numShortBlocks p);
  plan_raw : rawCodewords p = numBlocks p * shortBlockLen p + (numBlocks p - numShortBlocks p)
}.

Definition plan_check (ver : Z) (ecl : Ecc) : bool :=
  match block_plan ver ecl, getNumDataCodewords ver ecl, getNumRawDataModules ver with
  | Ok p, Ok n, Ok raw =>
      (1 <=? numShortBlocks p) && (numShortBlocks p <=? numBlocks p) && (1 <=? blockEccLen p)
        && (blockEccLen p <? shortBlockLen p) && (shortBlockLen p <=? 254)
        && (n =? numBlocks p * (shortBlockLen p - blockEccLen p) + (numBlocks p - numShortBlocks p))
        && (rawCodewords p =? numBlocks p * shortBlockLen p + (numBlocks p - numShortBlocks p))
        && (rawCodewords p =? raw / 8)
  | _, _, _ => false
  end.

Lemma plans_checked : forallb (λ e, forallb (λ v, plan_check v e) (range 1 41)) ecls = true.
Proof. vm_compute. done. Qed.

Lemma plan_facts ver ecl :
  1 <= ver <= 40 ->
  exists p n raw, block_plan ver ecl = Ok p /\ getNumDataCodewords ver ecl = Ok n /\
    getNumRawDataModules ver = Ok raw /\ plan_ok p n /\ rawCodewords p = raw / 8.
Proof.
  intros Hv. pose proof plans_checked as H. rewrite forallb_forall in H.
  specialize (H ecl (in_ecls ecl)). rewrite forallb_forall in H.
  specialize (H ver (proj1 (list_elem_of_In _ _) (proj2 (elem_of_range 1 41 ver) ltac:(lia)))).
  unfold plan_check in H. destruct (block_plan ver ecl) as [p|], (getNumDataCodewords ver ecl) as [n|],
    (getNumRawDataModules ver) as [raw|]; try done.
  breflect. exists p, n, raw. split_and!; try done; by split.
Qed.

(** ** Cutting into blocks *)
Fixpoint chunks (lens : list Z) (data : list Z) : list (list Z) :=
  match lens with
  | [] => []
  | n :: lens => take (Z.to_nat n) data :: chunks lens (drop (Z.to_nat n) data)
  end.
Definition sum (l : list Z) : Z := foldr Z.add 0 l.

Lemma chunks_concat lens data :
  Forall (λ n, 0 <= n) lens -> sum lens = Z.of_nat (length data) -> List.concat (chunks lens data) = data.
Proof.
  intros Hl. revert data. induction Hl as [|n lens Hn Hl IH]; intros data Hs; cbn [chunks List.concat].
  - cbn in Hs. by destruct data.
  - cbn [sum foldr] in Hs. fold (sum lens) in Hs.
    assert (0 <= sum lens) by (clear -Hl; induction Hl; cbn; [lia|]; fold (sum l); lia).
    rewrite IH by (rewrite length_drop; lia). apply take_drop.
Qed.
Lemma chunks_length lens data : length (chunks lens data) = length lens.
Proof. revert data. induction lens as [|n lens IH]; intros data; cbn; [done|]. by rewrite IH. Qed.
Lemma chunks_octets lens data : octets data -> Forall octets (chunks lens data).
Proof.
  revert data. induction lens as [|n lens IH]; intros data Hd; cbn [chunks]; constructor.
  - by apply Forall_take.
  - by apply IH, Forall_drop.
Qed.
Lemma chunk_length lens data j d n :
  Forall (λ n, 0 <= n) lens -> sum lens <= Z.of_nat (length data) ->
  chunks lens data !! j = Some d -> lens !! j = Some n -> Z.of_nat (length d) = n.
Proof.
  intros Hl. revert data j. induction Hl as [|k lens Hk Hl IH]; intros data j Hs Ed En; [done|].
  cbn [sum foldr] in Hs. fold (sum lens) in Hs.
  assert (0 <= sum lens) by (clear -Hl; induction Hl; cbn; [lia|]; fold (sum l); lia).
  destruct j as [|j]; cbn [chunks lookup list_lookup] in *.
  - injection Ed as <-. injection En as <-. rewrite length_take. lia.
  - apply (IH (drop (Z.to_nat k) data) j); [rewrite length_drop; lia|done|done].
Qed.

Definition block_lens (p : BlockPlan) : list Z := map (block_data_len p) (range 0 (numBlocks p)).

Lemma sum_range (k m : nat) (f : Z -> Z) (a : Z) :
  (forall i, 0 <= i < Z.of_nat k -> f i = a) ->
  (forall i, Z.of_nat k <= i < Z.of_nat (k + m) -> f i = a + 1) ->
  sum (map f (range 0 (Z.of_nat (k + m)))) = Z.of_nat (k + m) * a + Z.of_nat m.
Proof.
  intros Hk Hm. unfold range. rewrite Z.sub_0_r, Nat2Z.inj_add, seqZ_app, map_app by lia.
  assert (forall b l, (forall i, i ∈ l -> f i = b) -> sum (map f l) = Z.of_nat (length l) * b) as Hc.
  { intros b l. induction l as [|x l IH]; intros H; [done|]. cbn [map sum foldr length].
    fold (sum (map f l)). rewrite IH by (intros i Hi; apply H; by right). rewrite H by (by left). lia. }
  assert (forall l k, sum (app l k) = sum l + sum k) as Happ.
  { induction l as [|x l IH]; intros k'; [done|]. cbn [app sum foldr]. fold (sum (app l k')). fold (sum l).
    rewrite IH. lia. }
  rewrite Happ, (Hc a), (Hc (a + 1)).
  - rewrite !length_seqZ, !Nat2Z.id. ring.
  - intros i Hi%elem_of_seqZ. apply Hm. lia.
  - intros i Hi%elem_of_seqZ. apply Hk. lia.
Qed.

Lemma block_lens_sum p n : plan_ok p n -> sum (block_lens p) = n.
Proof.
  intros [Hb He Hs Hd Hr]. unfold block_lens.
  pose proof (sum_range (Z.to_nat (numShortBlocks p)) (Z.to_nat (numBlocks p - numShortBlocks p))
    (block_data_len p) (shortBlockLen p - blockEccLen p)) as H.
  replace (Z.of_nat (Z.to_nat (numShortBlocks p) + Z.to_nat (numBlocks p - numShortBlocks p)))
    with (numBlocks p) in H by lia.
  rewrite H; [lia|intros i Hi..]; unfold block_data_len.
  - rewrite (proj2 (Z.ltb_lt _ _)); lia.
  - rewrite (proj2 (Z.ltb_ge _ _)); lia.
Qed.
Lemma block_lens_pos p n : plan_ok p n -> Forall (λ n, 0 <= n) (block_lens p).
Proof.
  intros [Hb He Hs Hd Hr]. apply list.Forall_forall. intros x (i & -> & _)%list_elem_of_fmap.
  unfold block_data_len. case_match; lia.
Qed.

Section Blocks.
Context (p : BlockPlan) (rsDiv : list Z) (ecc : list Z -> list Z).
Hypothesis Hecc : forall d, octets d -> reedSolomonComputeRemainder d rsDiv = Ok (ecc d).

(** A block with the padding of short blocks. *)
Definition padded (i : Z) (d : list Z) : list Z :=
  app (if i <? numShortBlocks p then app d [0] else d) (ecc d).

Lemma make_blocks_ok data :
  octets data ->
  make_blocks p rsDiv data =
  Ok (zip_with padded (range 0 (numBlocks p)) (chunks (block_lens p) data)).
Proof.
  intros Hd. unfold make_blocks, block_lens. generalize (range 0 (numBlocks p)). intros L.
  assert (forall blocks rest, octets rest -> exists rest',
    for_in L (λ i '(blocks, rest),
      let dat := take (Z.to_nat (block_data_len p i)) rest in
      ecc ← reedSolomonComputeRemainder dat rsDiv;
      let dat := if i <? numShortBlocks p then app dat [0] else dat in
      Ok (app blocks [app dat ecc], drop (Z.to_nat (block_data_len p i)) rest)) (blocks, rest)
    = Ok (app blocks (zip_with padded L (chunks (map (block_data_len p) L) rest)), rest')) as H.
  { induction L as [|i L IH]; intros blocks rest Hr; cbn [for_in map chunks zip_with].
    - exists rest. by rewrite app_nil_r.
    - cbv zeta. rewrite Hecc by (by apply Forall_take). cbn [mbind Result_bind].
      destruct (IH (app blocks [padded i (take (Z.to_nat (block_data_len p i)) rest)])
        (drop (Z.to_nat (block_data_len p i)) rest)) as [rest' E]; [by apply Forall_drop|].
      exists rest'. unfold padded at 1 in E. rewrite E. by rewrite <- app_assoc. }
  destruct (H [] data Hd) as [rest' E]. exact (bind_run _ _ _ E).
Qed.
End Blocks.

(** ** Interleaving *)
Definition keeps_codeword (p : BlockPlan) (i j : Z) : bool :=
  negb (i =? shortBlockLen p - blockEccLen p) || (numShortBlocks p <=? j).

(** Place and block of the codewords of the sequence. *)
Definition positions (p : BlockPlan) : list (Z * Z) :=
  List.concat (map (λ i, List.concat (map (λ j, if keeps_codeword p i j then [(i, j)] else [])
    (range 0 (numBlocks p)))) (range 0 (shortBlockLen p + 1))).

(** What a reader does: the codewords of block [j], and the data of all blocks. *)
Definition block_of (p : BlockPlan) (j : Z) (raw : list Z) : list Z :=
  map snd (filter (λ pc, pc.1.2 = j) (combine (positions p) raw)).
Definition read_data (p : BlockPlan) (raw : list Z) : list Z :=
  List.concat (map (λ j, take (Z.to_nat (block_data_len p j)) (block_of p j raw)) (range 0 (numBlocks p))).

Lemma for_in_append {A} (l : list A) (body : A -> list Z -> Result (list Z)) (f : A -> list Z) r0 :
  (forall x r, x ∈ l -> body x r = Ok (app r (f x))) ->
  for_in l body r0 = Ok (app r0 (List.concat (map f l))).
Proof.
  revert r0. induction l as [|x l IH]; intros r0 H; cbn [for_in map List.concat]; [by rewrite app_nil_r|].
  rewrite H by (by left). cbn [mbind Result_bind]. rewrite IH by (intros y r Hy; apply H; by right).
  by rewrite <- app_assoc.
Qed.

Section Interleave.
Context (p : BlockPlan) (blocks : list (list Z)).
Hypothesis Hblocks : Z.of_nat (length blocks) = numBlocks p.
Hypothesis Hlens : Forall (λ b, Z.of_nat (length b) = shortBlockLen p + 1) blocks.
Hypothesis Hpos : 1 <= numBlocks p.

Definition codeword_at (ij : Z * Z) : Z := nth (Z.to_nat ij.1) (nth (Z.to_nat ij.2) blocks []) 0.

Lemma at_nth {A} (l : list A) i d : 0 <= i < Z.of_nat (length l) -> at_ l i = Ok (nth (Z.to_nat i) l d).
Proof.
  intros Hi. apply at_in; [lia|]. destruct (nth_lookup_or_length l (Z.to_nat i) d); [done|lia].
Qed.

Lemma block_length j : 0 <= j < numBlocks p ->
  Z.of_nat (length (nth (Z.to_nat j) blocks [])) = shortBlockLen p + 1.
Proof.
  intros Hj. rewrite list.Forall_lookup in Hlens.
  destruct (nth_lookup_or_length blocks (Z.to_nat j) []) as [E|]; [|lia]. by eapply Hlens.
Qed.

Lemma interleave_ok : interleave p blocks = Ok (map codeword_at (positions p)).
Proof.
  unfold interleave. rewrite (at_nth blocks 0 []) by lia. cbn [mbind Result_bind].
  rewrite (block_length 0) by lia. rewrite Hblocks.
  rewrite (for_in_append _ _ (λ i, List.concat (map (λ j, if keeps_codeword p i j
    then [codeword_at (i, j)] else []) (range 0 (numBlocks p))))).
  - cbn [app]. f_equal. unfold positions. rewrite concat_map, map_map. f_equal. apply map_ext.
    intros i. rewrite concat_map, map_map. f_equal. apply map_ext. intros j.
    by destruct (keeps_codeword p i j).
  - intros i r Hi%elem_of_range. apply for_in_append. intros j r' Hj%elem_of_range.
    unfold keeps_codeword. destruct (_ || _); [|by rewrite app_nil_r].
    rewrite (at_nth blocks j []) by lia. cbn [mbind Result_bind].
    by rewrite (at_nth _ i 0) by (rewrite block_length by lia; lia).
Qed.

Lemma combine_map_self {A B} (f : A -> B) (l : list A) : combine l (map f l) = map (λ a, (a, f a)) l.
Proof. induction l as [|a l IH]; [done|]. cbn. by rewrite IH. Qed.
Lemma filter_map_pair {A B} (f : A -> B) (P : A -> Prop) `{!forall a, Decision (P a)} (l : list A) :
  map snd (filter (λ ab : A * B, P ab.1) (map (λ a, (a, f a)) l)) = map f (filter P l).
Proof.
  induction l as [|a l IH]; [done|]. cbn [map]. rewrite !filter_cons. cbn [fst].
  case_decide; cbn [map snd]; by rewrite IH.
Qed.
Lemma filter_concat {A} (P : A -> Prop) `{!forall a, Decision (P a)} (ls : list (list A)) :
  filter P (List.concat ls) = List.concat (map (filter P) ls).
Proof. induction ls as [|l ls IH]; [done|]. cbn [List.concat map]. by rewrite list.filter_app, IH. Qed.

Lemma positions_of j :
  0 <= j < numBlocks p ->
  filter (λ ij : Z * Z, ij.2 = j) (positions p) =
  List.concat (map (λ i, if keeps_codeword p i j then [(i, j)] else []) (range 0 (shortBlockLen p + 1))).
Proof.
  intros Hj. unfold positions. rewrite filter_concat, map_map. f_equal. apply map_ext. intros i.
  rewrite filter_concat, map_map.
  assert (forall l, NoDup l -> j ∈ l -> List.concat (map (λ k, filter (λ ij : Z * Z, ij.2 = j)
    (if keeps_codeword p i k then [(i, k)] else [])) l) = if keeps_codeword p i j then [(i, j)] else []) as H.
  { assert (forall l, j ∉ l -> List.concat (map (λ k, filter (λ ij : Z * Z, ij.2 = j)
      (if keeps_codeword p i k then [(i, k)] else [])) l) = []) as H0.
    { induction l as [|k l IH]; intros Hk; [done|]. apply not_elem_of_cons in Hk as [Hk Hl].
      cbn [map List.concat]. rewrite IH by done. destruct (keeps_codeword p i k); [|done].
      rewrite filter_cons. cbn [snd]. by rewrite decide_False. }
    induction l as [|k l IH]; intros Hd Hj'; [by apply not_elem_of_nil in Hj'|].
    apply list.NoDup_cons in Hd as [Hk Hd]. cbn [map List.concat].
    apply elem_of_cons in Hj' as [<-|Hj'].
    - rewrite H0 by done. rewrite app_nil_r. destruct (keeps_codeword p i j); [|done].
      rewrite filter_cons. cbn [snd]. by rewrite decide_True.
    - rewrite IH by done. destruct (keeps_codeword p i k); [|done].
      rewrite filter_cons. cbn [snd]. rewrite decide_False; [done|]. by intros ->. }
  apply H; [apply NoDup_range|by apply elem_of_range].
Qed.

End Interleave.

(** All elements but the one at [k]. *)
Lemma concat_without (b : list Z) a k :
  a <= k ->
  List.concat (map (λ i, if i =? k then [] else [nth (Z.to_nat (i - a)) b 0]) (range a (a + Z.of_nat (length b))))
  = app (take (Z.to_nat (k - a)) b) (drop (Z.to_nat (k - a) + 1) b).
Proof.
  assert (forall b a, List.concat (map (λ i, [nth (Z.to_nat (i - a)) b 0])
    (range a (a + Z.of_nat (length b)))) = b) as Hall.
  { clear. induction b as [|x b IH]; intros a; [unfold range; by rewrite Z.add_simpl_l|].
    cbn [length]. unfold range. rewrite seqZ_cons by lia. cbn [map List.concat app].
    rewrite Z.sub_diag. change (Z.to_nat 0) with 0%nat. cbn [nth]. f_equal.
    rewrite <- (IH (a + 1)) at 2. unfold range. f_equal.
    replace (Z.pred (a + Z.of_nat (S (length b)) - a)) with (a + 1 + Z.of_nat (length b) - (a + 1)) by lia.
    apply map_ext_in. intros i Hi%list_elem_of_In%elem_of_seqZ. f_equal.
    by replace (Z.to_nat (i - a)) with (S (Z.to_nat (i - (a + 1)))) by lia. }
  revert a. induction b as [|x b IH]; intros a Hk.
  { unfold range. rewrite Z.add_simpl_l. by rewrite take_nil, drop_nil. }
  cbn [length]. unfold range. rewrite seqZ_cons by lia. cbn [map List.concat].
  replace (Z.pred (a + Z.of_nat (S (length b)) - a)) with (a + 1 + Z.of_nat (length b) - (a + 1)) by lia.
  change (seqZ (Z.succ a)) with (seqZ (a + 1)). fold (range (a + 1) (a + 1 + Z.of_nat (length b))).
  destruct (Z.eqb_spec a k) as [->|Hn].
  - rewrite Z.sub_diag. change (app (take (Z.to_nat 0) (x :: b)) (drop (Z.to_nat 0 + 1) (x :: b))) with b.
    cbn [app]. rewrite <- (Hall b (k + 1)) at 2.
    f_equal. apply map_ext_in. intros i Hi%list_elem_of_In%elem_of_range.
    rewrite (proj2 (Z.eqb_neq _ _)) by lia. f_equal.
    by replace (Z.to_nat (i - k)) with (S (Z.to_nat (i - (k + 1)))) by lia.
  - rewrite Z.sub_diag. replace (Z.to_nat (k - a)) with (S (Z.to_nat (k - (a + 1)))) by lia.
    change (Z.to_nat 0) with 0%nat. cbn [nth take app Nat.add drop]. f_equal. rewrite <- IH by lia. f_equal.
    apply map_ext_in. intros i Hi%list_elem_of_In%elem_of_range. destruct (i =? k); [done|]. f_equal.
    by replace (Z.to_nat (i - a)) with (S (Z.to_nat (i - (a + 1)))) by lia.
Qed.

Lemma range_split a b c : a <= b <= c -> range a c = app (range a b) (range b c).
Proof.
  intros H. unfold range. replace (c - a) with ((b - a) + (c - b)) by lia. rewrite seqZ_app by lia.
  by replace (a + (b - a)) with b by lia.
Qed.
Lemma range_one a : range a (a + 1) = [a].
Proof. unfold range. by rewrite Z.add_simpl_l. Qed.
Lemma concat_map_length {A B} (f : A -> list B) (l : list A) c :
  (forall x, x ∈ l -> length (f x) = c) -> length (List.concat (map f l)) = (length l * c)%nat.
Proof.
  induction l as [|x l IH]; intros H; [done|]. cbn [map List.concat length].
  rewrite length_app, IH by (intros y Hy; apply H; by right). rewrite H by (by left). lia.
Qed.

Lemma positions_length p n : plan_ok p n -> Z.of_nat (length (positions p)) = rawCodewords p.
Proof.
  intros [Hb He Hs Hd Hr]. unfold positions. set (k := shortBlockLen p - blockEccLen p).
  set (f := λ i, List.concat (map (λ j, if keeps_codeword p i j then [(i, j)] else []) (range 0 (numBlocks p)))).
  assert (forall i, i <> k -> length (f i) = Z.to_nat (numBlocks p)) as Hf.
  { intros i Hi. unfold f. rewrite (concat_map_length _ _ 1); [rewrite length_range; lia|].
    intros j _. unfold keeps_codeword. fold k. by rewrite (proj2 (Z.eqb_neq _ _)). }
  assert (length (f k) = Z.to_nat (numBlocks p - numShortBlocks p)) as Hk.
  { unfold f. rewrite (range_split 0 (numShortBlocks p)) by lia. rewrite map_app, concat_app, length_app.
    rewrite (concat_map_length _ _ 0), (concat_map_length _ _ 1); [rewrite !length_range; lia|..];
      intros j Hj%elem_of_range; unfold keeps_codeword; fold k; rewrite Z.eqb_refl; cbn [negb orb].
    - by rewrite (proj2 (Z.leb_le _ _)) by lia.
    - by rewrite (proj2 (Z.leb_gt _ _)) by lia. }
  rewrite (range_split 0 k) by (unfold k; lia). rewrite (range_split k (k + 1)) by (unfold k; lia).
  rewrite range_one, !map_app, !concat_app, !length_app. cbn [map List.concat]. rewrite app_nil_r.
  rewrite Hk, !(concat_map_length f _ (Z.to_nat (numBlocks p))).
  - rewrite !length_range, Hr. unfold k in *. nia.
  - intros i Hi%elem_of_range. apply Hf. lia.
  - intros i Hi%elem_of_range. apply Hf. lia.
Qed.

(** ** Reading back *)
Section Read.
Context (p : BlockPlan) (n : Z) (ecc : list Z -> list Z) (ds : list (list Z)).
Hypothesis Hp : plan_ok p n.
Hypothesis Hds : Z.of_nat (length ds) = numBlocks p.
Hypothesis Hlen : forall j d, 0 <= j -> ds !! Z.to_nat j = Some d -> Z.of_nat (length d) = block_data_len p j.
Hypothesis Hecc : Forall (λ d, Z.of_nat (length (ecc d)) = blockEccLen p) ds.

Local Notation blocks := (zip_with (padded p ecc) (range 0 (numBlocks p)) ds).

Lemma blocks_count : Z.of_nat (length blocks) = numBlocks p.
Proof. destruct Hp. rewrite length_zip_with, length_range. lia. Qed.

Lemma blocks_lookup j d :
  0 <= j < numBlocks p -> ds !! Z.to_nat j = Some d -> blocks !! Z.to_nat j = Some (padded p ecc j d).
Proof.
  intros Hj Ed. rewrite lookup_zip_with. unfold range. rewrite lookup_seqZ_lt by lia.
  cbn [mbind option_bind]. rewrite Ed. cbn. do 2 f_equal. lia.
Qed.

Lemma blocks_lengths : Forall (λ b, Z.of_nat (length b) = shortBlockLen p + 1) blocks.
Proof.
  apply list.Forall_lookup. intros i b Eb. pose proof (lookup_lt_Some _ _ _ Eb) as Hi.
  pose proof blocks_count as Hc.
  destruct (lookup_lt_is_Some_2 ds i) as [d Ed]; [lia|].
  pose proof (blocks_lookup (Z.of_nat i) d ltac:(lia)) as E. rewrite Nat2Z.id in E.
  rewrite (E Ed) in Eb. injection Eb as <-. unfold padded. rewrite length_app.
  pose proof (Hlen (Z.of_nat i) d ltac:(lia) ltac:(by rewrite Nat2Z.id)) as Hd.
  pose proof (proj1 (list.Forall_lookup _ _) Hecc _ _ Ed) as Hle. cbn beta in Hle.
  unfold block_data_len in Hd. destruct (Z.of_nat i <? numShortBlocks p); rewrite ?length_app; cbn [length]; lia.
Qed.

Lemma block_read j d :
  0 <= j < numBlocks p -> ds !! Z.to_nat j = Some d ->
  block_of p j (map (codeword_at blocks) (positions p)) = app d (ecc d).
Proof.
  intros Hj Ed. pose proof Hp as [Hb He Hs Hd Hr].
  unfold block_of. rewrite combine_map_self.
  etrans; [exact (filter_map_pair (codeword_at blocks) (λ ij : Z * Z, ij.2 = j) (positions p))|].
  rewrite positions_of by lia. rewrite concat_map, map_map.
  pose proof (blocks_lookup j d Hj Ed) as Eb.
  assert (nth (Z.to_nat j) blocks [] = padded p ecc j d) as En by (by apply nth_lookup_Some).
  pose proof (Hlen j d ltac:(lia) Ed) as Hld.
  pose proof (proj1 (list.Forall_lookup _ _) Hecc _ _ Ed) as Hle. cbn beta in Hle.
  assert (Z.of_nat (length (padded p ecc j d)) = shortBlockLen p + 1) as Hlp.
  { pose proof blocks_lengths as Hl. rewrite list.Forall_lookup in Hl. by eapply Hl. }
  set (k := shortBlockLen p - blockEccLen p) in *.
  assert (forall i, map (codeword_at blocks) (if keeps_codeword p i j then [(i, j)] else []) =
    if keeps_codeword p i j then [nth (Z.to_nat i) (padded p ecc j d) 0] else []) as Hm.
  { intros i. destruct (keeps_codeword p i j); [|done]. unfold codeword_at. cbn [map fst snd]. by rewrite En. }
  unfold block_data_len in Hld. fold k in Hld.
  rewrite (map_ext _ _ Hm), <- Hlp. destruct (Z.ltb_spec j (numShortBlocks p)) as [Hlt|Hge].
  - pose proof (concat_without (padded p ecc j d) 0 k ltac:(lia)) as E. rewrite Z.add_0_l in E.
    rewrite (map_ext _ (λ i, if i =? k then [] else [nth (Z.to_nat (i - 0)) (padded p ecc j d) 0])).
    + rewrite E, Z.sub_0_r. unfold padded. rewrite (proj2 (Z.ltb_lt _ _)) by done.
      rewrite <- app_assoc. rewrite take_app_length' by lia.
      rewrite drop_app_ge by lia. replace (Z.to_nat k + 1 - length d)%nat with 1%nat by lia. done.
    + intros i. unfold keeps_codeword. fold k. rewrite (proj2 (Z.leb_gt _ _)), orb_false_r by lia.
      rewrite Z.sub_0_r. by destruct (i =? k).
  - pose proof (concat_without (padded p ecc j d) 0 (Z.of_nat (length (padded p ecc j d))) ltac:(lia)) as E.
    rewrite Z.add_0_l in E.
    rewrite (map_ext_in _ (λ i, if i =? Z.of_nat (length (padded p ecc j d)) then []
      else [nth (Z.to_nat (i - 0)) (padded p ecc j d) 0])).
    + rewrite E, Z.sub_0_r, Nat2Z.id, take_ge, drop_ge, app_nil_r by lia.
      unfold padded. by rewrite (proj2 (Z.ltb_ge _ _)) by done.
    + intros i Hi%list_elem_of_In%elem_of_range. unfold keeps_codeword.
      rewrite (proj2 (Z.leb_le _ _)), orb_true_r by lia. rewrite Z.sub_0_r.
      by rewrite (proj2 (Z.eqb_neq _ _)) by lia.
Qed.

Lemma data_read : read_data p (map (codeword_at blocks) (positions p)) = List.concat ds.
Proof.
  unfold read_data. f_equal. apply list_eq_same_length with (Z.to_nat (numBlocks p)).
  { lia. }
  { by rewrite length_map, length_range, Z.sub_0_r. }
  intros i x y Hi Ex Ey. apply list_lookup_fmap_Some in Ex as (j & -> & Ej).
  apply range_lookup in Ej as [-> Hj]. rewrite Z.add_0_l in *.
  rewrite (block_read (Z.of_nat i) y) by (done || by rewrite Nat2Z.id).
  pose proof (Hlen (Z.of_nat i) y ltac:(lia) ltac:(by rewrite Nat2Z.id)).
  rewrite take_app_length' by lia. done.
Qed.
End Read.

Lemma codeword_octets blocks l : Forall octets blocks -> octets (map (codeword_at blocks) l).
Proof.
  intros H. apply list.Forall_forall. intros x ([i j] & -> & _)%list_elem_of_fmap. unfold codeword_at.
  destruct (nth_in_or_default (Z.to_nat (i, j).2) blocks []) as [Hb| ->]; cbn [fst snd] in *.
  2: { by destruct (Z.to_nat i). }
  rewrite list.Forall_forall in H. specialize (H _ (proj2 (list_elem_of_In _ _) Hb)).
  destruct (nth_in_or_default (Z.to_nat i) (nth (Z.to_nat j) blocks []) 0) as [Hc| ->]; [|done].
  unfold octets in H. rewrite list.Forall_forall in H. by apply H, list_elem_of_In.
Qed.

Definition ecc_of (rsDiv d : list Z) : list Z :=
  match reedSolomonComputeRemainder d rsDiv with Ok e => e | Throw _ => [] end.

Lemma ecc_of_spec degree :
  1 <= degree <= 255 -> exists rsDiv, reedSolomonComputeDivisor degree = Ok rsDiv /\
    forall d, octets d -> reedSolomonComputeRemainder d rsDiv = Ok (ecc_of rsDiv d) /\
      rs_encode degree d = Ok (app d (ecc_of rsDiv d)) /\
      Z.of_nat (length (ecc_of rsDiv d)) = degree /\ octets (ecc_of rsDiv d).
Proof.
  intros Hd. rewrite <- (Z2Nat.id degree) by lia. set (n := Z.to_nat degree).
  exists (map gf (gf_divisor n)). split; [apply compute_divisor_gf; lia|]. intros d Hoc.
  destruct (encoded_block n d ltac:(lia) Hoc) as (ecc & E & Hl & Ho & _).
  rewrite E. unfold rs_encode in E. rewrite compute_divisor_gf in E by lia. cbn [mbind Result_bind] in E.
  unfold ecc_of. destruct (reedSolomonComputeRemainder d (map gf (gf_divisor n))) as [e|]; [|done].
  injection E as E. apply app_inv_head in E as ->. split; [done|]. split; [done|]. split; [lia|done].
Qed.

Lemma chunk_data_len p n data j d :
  plan_ok p n -> Z.of_nat (length data) = n -> 0 <= j ->
  chunks (block_lens p) data !! Z.to_nat j = Some d -> Z.of_nat (length d) = block_data_len p j.
Proof.
  intros Hp Hl Hj Ed. pose proof (lookup_lt_Some _ _ _ Ed) as Hlt.
  unfold block_lens in Hlt. rewrite chunks_length, length_map, length_range in Hlt.
  eapply chunk_length; [by eapply block_lens_pos| |exact Ed|].
  - rewrite (block_lens_sum p n) by done. lia.
  - apply list_lookup_fmap_Some. exists j. split; [done|]. unfold range. rewrite lookup_seqZ_lt by lia.
    f_equal. lia.
Qed.

(** Every block is a codeword of the code, and the data of the blocks are the
    data. *)
Lemma blocks_coded ver ecl data n p :
  1 <= ver <= 40 -> octets data -> getNumDataCodewords ver ecl = Ok n -> Z.of_nat (length data) = n ->
  block_plan ver ecl = Ok p ->
  exists raw, addEccAndInterleave ver ecl data = Ok raw /\ Z.of_nat (length raw) = rawCodewords p /\
    octets raw /\ read_data p raw = data /\
    forall j, 0 <= j < numBlocks p -> exists d, rs_encode (blockEccLen p) d = Ok (block_of p j raw).
Proof.
  intros Hv Ho En Hl Ep. destruct (plan_facts ver ecl Hv) as (p' & n' & raw & Ep' & En' & _ & Hp & _).
  rewrite Ep in Ep'. injection Ep' as <-. rewrite En in En'. injection En' as <-.
  pose proof Hp as [Hb He Hs Hd Hr]. destruct (ecc_of_spec (blockEccLen p) ltac:(lia)) as (rsDiv & Ediv & Hecc).
  set (ds := chunks (block_lens p) data).
  assert (Z.of_nat (length ds) = numBlocks p) as Hds.
  { unfold ds, block_lens. rewrite chunks_length, length_map, length_range. lia. }
  assert (forall j d, 0 <= j -> ds !! Z.to_nat j = Some d -> Z.of_nat (length d) = block_data_len p j) as Hlen.
  { intros j d. by apply (chunk_data_len p n). }
  assert (Forall octets ds) as Hods by (by apply chunks_octets).
  assert (Forall (λ d, Z.of_nat (length (ecc_of rsDiv d)) = blockEccLen p) ds) as Heds.
  { apply (list.Forall_impl _ _ _ Hods). intros d Hd'. by apply Hecc. }
  set (blocks := zip_with (padded p (ecc_of rsDiv)) (range 0 (numBlocks p)) ds).
  exists (map (codeword_at blocks) (positions p)). rewrite length_map, (positions_length p n) by done. split.
  { unfold addEccAndInterleave. rewrite En, Ep. cbn [mbind Result_bind]. rewrite (proj2 (Z.eqb_eq _ _) Hl).
    cbn [ensure mbind Result_bind]. rewrite Ediv. cbn [mbind Result_bind].
    rewrite (make_blocks_ok p rsDiv (ecc_of rsDiv)); [|by intros d Hd'; apply Hecc|done].
    cbn [mbind Result_bind]. rewrite interleave_ok.
    - cbn [mbind Result_bind]. fold ds. fold blocks.
      by rewrite length_map, (positions_length p n), Z.eqb_refl by done.
    - by apply (blocks_count p n).
    - by apply (blocks_lengths p n).
    - lia. }
  split; [done|]. split.
  { apply codeword_octets. apply list.Forall_lookup. intros i b. unfold blocks. rewrite lookup_zip_with_Some.
    intros (k & d & -> & _ & Ed). rewrite list.Forall_lookup in Hods. specialize (Hods _ _ Ed).
    unfold padded. apply Forall_app. split; [|by apply Hecc]. case_match; [|done].
    apply Forall_app. split; [done|]. by repeat constructor. }
  split.
  - unfold blocks. rewrite (data_read p n) by done. apply chunks_concat; [by eapply block_lens_pos|].
    by rewrite (block_lens_sum p n).
  - intros j Hj. destruct (lookup_lt_is_Some_2 ds (Z.to_nat j)) as [d Ed]; [lia|]. exists d.
    unfold blocks. rewrite (block_read p n _ ds Hp Hds Hlen Heds j d Hj Ed).
    rewrite list.Forall_lookup in Hods. by apply Hecc, (Hods _ _ Ed).
Qed.

(** ** The bit stream of a QR code

    The version the segments fit in, the padding of their bits and the codewords
    made of them (QrCode.v, [find_version], [pad_stream], [pack_bits]). *)
Local Open Scope Z_scope.

(** ** Packing *)

(** The first [i] bits of [bb] are in the codewords. *)
Definition packed (bb : list bool) (i : nat) (cw : list Z) : Prop :=
  length cw = Z.to_nat (Z.of_nat (length bb) / 8) /\ octets cw /\
  forall j c (k : nat), cw !! j = Some c -> (k < 8)%nat ->
    Z.testbit c (7 - Z.of_nat k) = (if decide (8 * j + k < i)%nat then default false (bb !! (8 * j + k)%nat) else false).

Lemma packed_octet c b s :
  is_octet c = true -> 0 <= s < 8 -> is_octet (Z.lor c (Z.shiftl (Z.b2z b) s)) = true.
Proof.
  intros Hc Hs.
  assert (forallb (λ s, is_octet (Z.lor c (Z.shiftl (Z.b2z b) s))) (range 0 8) = true) as H.
  { revert c Hc. apply octet_check. destruct b; vm_compute; done. }
  rewrite forallb_forall in H. apply H, list_elem_of_In, elem_of_range. lia.
Qed.

Lemma packed_step bb (i : nat) cw :
  (i < length bb)%nat -> Z.of_nat (length bb) mod 8 = 0 -> packed bb i cw ->
  exists cw', (bit ← at_ bb (Z.of_nat i);
    c ← at_ cw (Z.shiftr (Z.of_nat i) 3);
    put_at cw (Z.shiftr (Z.of_nat i) 3)
      (Z.lor c (Z.shiftl (Z.b2z bit) (7 - Z.land (Z.of_nat i) 7)))) = Ok cw' /\ packed bb (S i) cw'.
Proof.
  intros Hi Hm (Hl & Ho & Hb). destruct (lookup_lt_is_Some_2 bb i Hi) as [b Eb].
  rewrite (at_lookup bb i b Eb). cbn [mbind Result_bind]. rewrite Z.shiftr_div_pow2 by lia.
  change (Z.land (Z.of_nat i) 7) with (Z.land (Z.of_nat i) (Z.ones 3)). rewrite Z.land_ones by lia.
  change (2 ^ 3) with 8.
  set (j := (i / 8)%nat). set (k := (i mod 8)%nat).
  assert (i = 8 * j + k /\ k < 8)%nat as [E Hk]
    by (unfold j, k; pose proof (Nat.div_mod i 8); pose proof (Nat.mod_upper_bound i 8); lia).
  replace (Z.of_nat i / 8) with (Z.of_nat j) by (rewrite E; Z.to_euclidean_division_equations; lia).
  replace (Z.of_nat i mod 8) with (Z.of_nat k) by (rewrite E; Z.to_euclidean_division_equations; lia).
  clearbody j k. assert (j < length cw)%nat as Hj by (rewrite Hl; Z.to_euclidean_division_equations; lia).
  destruct (lookup_lt_is_Some_2 cw j Hj) as [c Ec]. rewrite (at_lookup cw j c Ec). cbn [mbind Result_bind].
  rewrite put_at_insert by done. eexists. split; [done|].
  pose proof (proj1 (list.Forall_lookup _ _) Ho _ _ Ec) as Hoc. cbn beta in Hoc.
  split; [by rewrite length_insert|]. split; [apply Forall_insert; [done|apply packed_octet; [done|lia]]|].
  intros j' c' k' Ec' Hk'. destruct (decide (j' = j)) as [->|Hne].
  - rewrite list_lookup_insert_eq in Ec' by done. injection Ec' as <-.
    rewrite Z.lor_spec, (Hb j c k' Ec Hk'), Z.shiftl_spec by lia. destruct (decide (k' = k)) as [->|Hnk].
    + replace (7 - Z.of_nat k - (7 - Z.of_nat k)) with 0 by lia. rewrite Z.b2z_bit0, <- E, Eb.
      rewrite decide_False, decide_True by lia. done.
    + assert (Z.testbit (Z.b2z b) (7 - Z.of_nat k' - (7 - Z.of_nat k)) = false) as ->.
      { destruct (Z.lt_ge_cases (7 - Z.of_nat k' - (7 - Z.of_nat k)) 0); [by apply Z.testbit_neg_r|].
        destruct b; cbn [Z.b2z]; [|apply Z.testbit_0_l].
        rewrite <- (Z.pow_0_r 2). apply Z.pow2_bits_false. lia. }
      rewrite orb_false_r. destruct (decide (8 * j + k' < i)%nat), (decide (8 * j + k' < S i)%nat); done || lia.
  - rewrite list_lookup_insert_ne in Ec' by done. rewrite (Hb j' c' k' Ec' Hk').
    destruct (decide (8 * j' + k' < i)%nat), (decide (8 * j' + k' < S i)%nat); done || lia.
Qed.

Lemma pack_bits_ok bb :
  Z.of_nat (length bb) mod 8 = 0 ->
  exists cw, pack_bits bb = Ok cw /\ octets cw /\ Z.of_nat (length cw) = Z.of_nat (length bb) / 8 /\
    data_bits cw = bb.
Proof.
  intros Hm. unfold pack_bits.
  destruct (for_in_inv (packed bb) (λ i codewords,
    bit ← at_ bb i; c ← at_ codewords (Z.shiftr i 3);
    put_at codewords (Z.shiftr i 3) (Z.lor c (Z.shiftl (Z.b2z bit) (7 - Z.land i 7))))
    (range 0 (Z.of_nat (length bb))) (replicate (Z.to_nat (Z.of_nat (length bb) / 8)) 0)) as (cw & E & Hp).
  - split; [by rewrite length_replicate|]. split; [by apply Forall_replicate|].
    intros j c k [-> _]%lookup_replicate _. rewrite Z.testbit_0_l. by rewrite decide_False by lia.
  - intros i x cw [-> Hi]%range_lookup Hp. rewrite Z.add_0_l. apply packed_step; [lia|done|done].
  - rewrite length_range, Z.sub_0_r, Nat2Z.id in Hp. destruct Hp as (Hl & Ho & Hb).
    assert (Z.of_nat (length cw) = Z.of_nat (length bb) / 8) as Hlz
      by (rewrite Hl; Z.to_euclidean_division_equations; lia).
    exists cw. split; [done|]. split; [done|]. split; [done|].
    assert (length (data_bits cw) = length bb) as Hlb
      by (rewrite data_bits_length; Z.to_euclidean_division_equations; lia).
    apply list_eq_same_length with (length bb); [done|done|]. intros i x y Hi Ex Ey.
    pose proof (Nat.div_mod i 8 ltac:(lia)) as Ei. pose proof (Nat.mod_upper_bound i 8 ltac:(lia)) as Hk.
    revert Ei Hk. generalize (i / 8)%nat (i mod 8)%nat. intros j k Ei Hk.
    destruct (lookup_lt_is_Some_2 cw j) as [c Ec]; [rewrite data_bits_length in Hlb; lia|].
    rewrite Ei in Ex, Ey. rewrite (data_bits_at cw _ _ c Ec Hk) in Ex. injection Ex as <-.
    rewrite (Hb _ _ _ Ec Hk), Ey. by rewrite decide_True by lia.
Qed.

(** ** Padding *)
Lemma bits_of_zero n : bits_of 0 n = replicate (Z.to_nat n) false.
Proof.
  symmetry. apply replicate_as_elem_of. unfold bits_of. split.
  - rewrite length_map, length_rev, length_range. lia.
  - intros b (i & -> & _)%list_elem_of_fmap. apply Z.testbit_0_l.
Qed.

Lemma appendBits_zero n bb : 0 <= n <= 31 -> appendBits 0 n bb = Ok (app bb (replicate (Z.to_nat n) false)).
Proof.
  intros Hn. rewrite appendBits_ok, bits_of_zero; [done|done|]. split; [done|]. apply Z.pow_pos_nonneg; lia.
Qed.

Lemma pad_octets_ok fuel padByte capacity bb :
  is_octet padByte = true -> Z.of_nat (length bb) mod 8 = 0 -> capacity mod 8 = 0 ->
  Z.of_nat (length bb) <= capacity <= Z.of_nat (length bb) + 8 * Z.of_nat fuel ->
  exists rest, pad_octets fuel padByte capacity bb = Ok (app bb rest) /\
    Z.of_nat (length (app bb rest)) = capacity.
Proof.
  revert padByte bb. induction fuel as [|fuel IH]; intros padByte bb Ho Hb Hc Hl; cbn [pad_octets].
  { rewrite (proj2 (Z.ltb_ge _ _)) by lia. exists []. rewrite app_nil_r. split; [done|lia]. }
  destruct (Z.ltb_spec (Z.of_nat (length bb)) capacity) as [Hlt|].
  2: { exists []. rewrite app_nil_r. split; [done|lia]. }
  pose proof (proj1 (octet_spec _) Ho) as Hp. rewrite appendBits_ok by (cbn; lia). cbn [mbind Result_bind].
  destruct (IH (Z.lxor padByte (Z.lxor 0xEC 0x11)) (app bb (bits_of padByte 8))) as (rest & E & Hr).
  - by apply octet_lxor.
  - rewrite length_app, bits_of_length by lia. change (Z.to_nat 8) with 8%nat.
    Z.to_euclidean_division_equations; lia.
  - done.
  - rewrite length_app, bits_of_length by lia. change (Z.to_nat 8) with 8%nat.
    Z.to_euclidean_division_equations; lia.
  - rewrite E. exists (app (bits_of padByte 8) rest). by rewrite app_assoc.
Qed.

(** The stream is the bits, a terminator and padding. *)
Lemma pad_stream_ok capacity bb :
  Z.of_nat (length bb) <= capacity -> capacity mod 8 = 0 ->
  exists rest, pad_stream capacity bb = Ok (app bb rest) /\
    Z.of_nat (length (app bb rest)) = capacity /\
    take 4 rest = replicate (length (take 4 rest)) false.
Proof.
  intros Hl Hc. unfold pad_stream. rewrite (proj2 (Z.leb_le _ _)) by done.
  cbn [asserts ensure mbind Result_bind].
  set (t := Z.min 4 (capacity - Z.of_nat (length bb))).
  rewrite appendBits_zero by lia. cbn [mbind Result_bind].
  set (bb1 := app bb (replicate (Z.to_nat t) false)).
  assert (Z.of_nat (length bb1) = Z.of_nat (length bb) + t) as Hl1
    by (unfold bb1; rewrite length_app, length_replicate; lia).
  set (u := (8 - Z.of_nat (length bb1) mod 8) mod 8).
  assert (0 <= u < 8) as Hu by (by apply Z.mod_pos_bound). rewrite appendBits_zero by lia.
  cbn [mbind Result_bind]. set (bb2 := app bb1 (replicate (Z.to_nat u) false)).
  assert (Z.of_nat (length bb2) = Z.of_nat (length bb1) + u) as Hl2
    by (unfold bb2; rewrite length_app, length_replicate; lia).
  assert (Z.of_nat (length bb2) mod 8 = 0) as Hm2
    by (rewrite Hl2; unfold u; Z.to_euclidean_division_equations; lia).
  assert (Z.of_nat (length bb2) <= capacity) as Hle
    by (rewrite Hl2; unfold u in *; Z.to_euclidean_division_equations; lia).
  rewrite (proj2 (Z.eqb_eq _ _) Hm2). cbn [asserts ensure mbind Result_bind].
  destruct (pad_octets_ok (Z.to_nat capacity) 0xEC capacity bb2) as (rest & E & Hr); [done|done|done|lia|].
  exists (app (replicate (Z.to_nat t) false) (app (replicate (Z.to_nat u) false) rest)).
  unfold bb2, bb1 in *. rewrite <- !app_assoc in *. split; [exact E|]. split; [exact Hr|].
  assert (t = 4 \/ t < 4 /\ u = 0 /\ rest = []) as [->|(Ht & -> & ->)].
  { destruct (Z.lt_ge_cases t 4) as [Ht|]; [right|left; lia]. split; [done|].
    rewrite !length_app, !length_replicate in Hr. split; [|apply length_zero_iff_nil]; lia. }
  - done.
  - cbn [app Z.to_nat replicate]. rewrite app_nil_r, take_ge by (rewrite length_replicate; lia).
    by rewrite length_replicate.
Qed.

(** ** The version *)
Definition fits (segs : list QrSegment) (ecl : Ecc) (ver : Z) : bool :=
  match getNumDataCodewords ver ecl with
  | Ok n => negb (getTotalBits segs ver =? -1) && (getTotalBits segs ver <=? n * 8)
  | Throw _ => false
  end.

Lemma find_version_ok segs ecl maxVersion (k : nat) a :
  1 <= a -> a + Z.of_nat k = maxVersion -> maxVersion <= 40 ->
  (exists ver, find_version segs ecl maxVersion (range a (maxVersion + 1)) = Ok (ver, getTotalBits segs ver) /\
     a <= ver <= maxVersion /\ fits segs ecl ver = true /\ forall v, a <= v < ver -> fits segs ecl v = false) \/
  (find_version segs ecl maxVersion (range a (maxVersion + 1)) = Throw data_too_long /\
     forall v, a <= v <= maxVersion -> fits segs ecl v = false).
Proof.
  revert a. induction k as [|k IH]; intros a Ha Hk Hmax; unfold range; rewrite seqZ_cons by lia;
    cbn [find_version]; destruct (plan_facts a ecl ltac:(lia)) as (p & n & raw & _ & En & _);
    rewrite En; cbn [mbind Result_bind];
    assert (fits segs ecl a = negb (getTotalBits segs a =? -1) && (getTotalBits segs a <=? n * 8)) as Ef
      by (unfold fits; by rewrite En);
    rewrite <- Ef; destruct (fits segs ecl a) eqn:Efa.
  - left. exists a. split; [done|]. split; [lia|]. split; [done|]. intros v Hv. lia.
  - right. rewrite (proj2 (Z.leb_le _ _)) by lia. split; [done|]. intros v Hv. by replace v with a by lia.
  - left. exists a. split; [done|]. split; [lia|]. split; [done|]. intros v Hv. lia.
  - rewrite (proj2 (Z.leb_gt _ _)) by lia.
    replace (Z.pred (maxVersion + 1 - a)) with (maxVersion + 1 - (a + 1)) by lia.
    assert (forall v, a <= v -> v <> a -> a + 1 <= v) as Hs by lia.
    destruct (IH (a + 1)) as [(ver & E & Hv & Hf & Hb)|[E Hb]]; [lia..| |]; [left|right].
    + exists ver. split; [done|]. split; [lia|]. split; [done|]. intros v Hvv.
      destruct (decide (v = a)) as [->|]; [done|]. apply Hb. lia.
    + split; [done|]. intros v Hvv. destruct (decide (v = a)) as [->|]; [done|]. apply Hb. lia.
Qed.

(** Raising the error correction level keeps the data within the code. *)
Lemma boost_ok segs ecl ver (boostEcl : bool) :
  1 <= ver <= 40 -> fits segs ecl ver = true ->
  exists ecl', boost boostEcl ver (getTotalBits segs ver) ecl = Ok ecl' /\ fits segs ecl' ver = true /\
    (boostEcl = false -> ecl' = ecl).
Proof.
  intros Hv Hf. unfold boost.
  destruct (for_in_inv (λ _ e, fits segs e ver = true /\ (boostEcl = false -> e = ecl))
    (λ newEcl ecl, if boostEcl then
      n ← getNumDataCodewords ver newEcl;
      Ok (if getTotalBits segs ver <=? n * 8 then newEcl else ecl) else Ok ecl) [MEDIUM; QUARTILE; HIGH] ecl)
    as (e & E & He).
  - done.
  - intros i newEcl e _ [He Hb]. destruct boostEcl; [|by exists e].
    destruct (plan_facts ver newEcl Hv) as (p & n & raw & _ & En & _). rewrite En. cbn [mbind Result_bind].
    destruct (getTotalBits segs ver <=? n * 8) eqn:El; eexists; (split; [done|]); [|done].
    split; [|done]. unfold fits in *. rewrite En, El, andb_true_r.
    destruct (getNumDataCodewords ver e); [|done]. by apply andb_true_iff in He as [? _].
  - by exists e.
Qed.
