(* ===== verification/QrMask.v ===== *)
(** * The penalty score and the mask of a QR code

    [getPenaltyScore] (QrCode.v) fails no assertion: the runs of a line, the
    patterns in it and the balance of colours stay within the bounds the code
    asserts. The mask chosen automatically is the first with the least score. *)
From stdpp Require Import base list numbers.
From Stdlib Require Import ZArith Lia.
From S2P Require Import Prelude ReedSolomon QrSegments QrCode QrDrawing QrLayout.
Local Open Scope Z_scope.

Notation h_ := history_at.

(** ** Patterns in one line

    Every counted pattern has a dark run of at least three modules in its middle
    that no other count of the line has there. [events] is the number of counts,
    each of at most two patterns. *)
Record line_inv (n r0 x : Z) (s : bool * Z * list Z * Z) (events : Z) : Prop := {
  li_run : 0 <= s.1.1.2 <= x;
  li_hist : length s.1.2 = 7%nat;
  li_events : 0 <= events;
  li_result : exists runs patterns, s.2 = r0 + runs + patterns * PENALTY_N3 /\
    0 <= runs <= x - s.1.1.2 + (if 5 <=? s.1.1.2 then s.1.1.2 - 2 else 0) /\
    0 <= patterns <= 2 * events;
  li_dark : s.1.1.1 = true -> 1 <= s.1.1.2 /\ 1 <= h_ s.1.2 0 /\ 0 <= h_ s.1.2 1 <= x /\
    3 * events + Z.min 3 (h_ s.1.2 1) <= x - s.1.1.2;
  li_light : s.1.1.1 = false -> 0 <= h_ s.1.2 0 <= x /\ 0 <= h_ s.1.2 2 <= x /\
    ((1 <= h_ s.1.2 0 /\ 1 <= s.1.1.2) \/ s.1.2 = replicate 7 0) /\
    3 * events + Z.min 3 (h_ s.1.2 0) + Z.min 3 (h_ s.1.2 2) <= x - s.1.1.2
}.

Lemma history_cons size len h i :
  length h = 7%nat -> (i < 6)%nat -> h_ (finderPenaltyAddHistory size len h) (S i) = h_ h i.
Proof.
  intros Hl Hi. unfold finderPenaltyAddHistory, history_at. cbn [nth].
  do 8 (destruct h as [|? h]; try done). do 6 (destruct i as [|i]; [done|]). lia.
Qed.
Lemma history_length size len h : length h = 7%nat -> length (finderPenaltyAddHistory size len h) = 7%nat.
Proof. intros Hl. cbn. rewrite length_take. lia. Qed.
Lemma history_head size len h :
  h_ h 0 <> 0 -> h_ (finderPenaltyAddHistory size len h) 0 = len.
Proof. intros Hh. unfold finderPenaltyAddHistory. unfold history_at at 1. cbn [nth]. by rewrite (proj2 (Z.eqb_neq _ _)). Qed.
Lemma history_head_pos size len h :
  0 <= len -> 0 < size -> 1 <= len \/ h_ h 0 = 0 -> 1 <= h_ (finderPenaltyAddHistory size len h) 0.
Proof.
  intros Hl Hs H. unfold finderPenaltyAddHistory. unfold history_at at 1. cbn [nth].
  destruct (Z.eqb_spec (h_ h 0) 0); lia.
Qed.

(** A count is zero, or at most two with a dark run of three in the middle. *)
Lemma count_patterns size h :
  h_ h 1 <= size * 3 -> 0 <= h_ h 1 ->
  exists c, finderPenaltyCountPatterns size h = Ok c /\ (c = 0 \/ (0 <= c <= 2 /\ 3 <= h_ h 3)).
Proof.
  intros Hs Hn. unfold finderPenaltyCountPatterns. cbv zeta.
  rewrite (proj2 (Z.leb_le (h_ h 1) (size * 3))) by done.
  cbn [asserts ensure mbind Result_bind]. eexists. split; [reflexivity|].
  destruct ((0 <? h_ h 1) && (h_ h 2 =? h_ h 1) && (h_ h 3 =? h_ h 1 * 3)
            && (h_ h 4 =? h_ h 1) && (h_ h 5 =? h_ h 1)) eqn:E; cbn [andb Z.b2z]; [right|by left].
  breflect. split; [|lia]. assert (forall b, 0 <= Z.b2z b <= 1) as Hb by (intros []; cbn; lia).
  match goal with |- _ <= Z.b2z ?a + Z.b2z ?b <= _ => pose proof (Hb a); pose proof (Hb b) end. lia.
Qed.

Lemma line_step_inv n r0 x color s events :
  0 <= x < n -> line_inv n r0 x s events ->
  exists s' events', line_step n color s = Ok s' /\ line_inv n r0 (x + 1) s' events'.
Proof.
  intros Hx [Hr Hh He (runs & pats & Es & Hruns & Hpats) Hd Hl].
  destruct s as [[[rc run] h] res]. cbn [fst snd] in *. unfold line_step.
  destruct (Bool.eqb_spec color rc) as [->|Hne].
  - (* the run goes on *)
    eexists _, events. split; [reflexivity|]. split; cbn [fst snd]; [lia|done|done| | |].
    + exists (if run + 1 =? 5 then runs + 3 else if 5 <? run + 1 then runs + 1 else runs), pats.
      unfold PENALTY_N1. destruct (Z.eqb_spec (run + 1) 5), (Z.ltb_spec 5 (run + 1)),
        (Z.leb_spec 5 run), (Z.leb_spec 5 (run + 1)); split; lia.
    + intros E. specialize (Hd E). lia.
    + intros E. destruct (Hl E) as (H1 & H2 & H3 & H4). do 2 (split; [lia|]). split; [|lia].
      destruct H3 as [H3|H3]; [left; lia|by right].
  - destruct rc; cbn [negb].
    + (* a dark run ends *)
      destruct (Hd eq_refl) as (H1 & H2 & H3 & H4). eexists _, events. split; [reflexivity|].
      destruct color; [done|].
      assert (h_ (finderPenaltyAddHistory n run h) 0 = run) as E0 by (apply history_head; lia).
      split; cbn [fst snd]; [lia|by apply history_length|done| |done|].
      * exists runs, pats. split; [done|]. split; [|done].
        change (5 <=? 1) with false. destruct (5 <=? run); lia.
      * intros _. rewrite E0. rewrite (history_cons n run h 1) by (done || lia). lia.
    + (* a light run ends: patterns are counted *)
      destruct (Hl eq_refl) as (H1 & H2 & H3 & H4).
      set (h' := finderPenaltyAddHistory n run h).
      assert (h_ h' 1 = h_ h 0) as E1 by (apply history_cons; done || lia).
      assert (h_ h' 3 = h_ h 2) as E3 by (apply history_cons; done || lia).
      destruct (count_patterns n h') as (c & Ec & Hc); [rewrite E1; lia|rewrite E1; lia|].
      rewrite Ec. cbn [mbind Result_bind]. destruct color; [|done].
      assert (1 <= h_ h' 0) as E0.
      { apply history_head_pos; [lia|lia|]. destruct (Z.eq_dec (h_ h 0) 0) as [Ez|Ez]; [by right|].
        left. destruct H3 as [[_ H3]| ->]; [done|]. by destruct Ez. }
      eexists _, (if c =? 0 then events else events + 1). split; [reflexivity|].
      split; cbn [fst snd]; [lia|by apply history_length| | | |done].
      * destruct (c =? 0); lia.
      * exists runs, (pats + c). unfold PENALTY_N3 in *. split; [lia|].
        change (5 <=? 1) with false. rewrite E3 in Hc. destruct (5 <=? run), (Z.eqb_spec c 0); lia.
      * intros _. rewrite E1, E3 in *. destruct (Z.eqb_spec c 0); lia.
Qed.

Definition line_bound (n : Z) : Z := n + 80 * (n / 3).

(** The penalty of a line is bounded. *)
Lemma line_penalty_ok n get r0 :
  0 < n -> (forall k, 0 <= k < n -> exists b, get k = Ok b) ->
  exists r, line_penalty n get r0 = Ok r /\ r0 <= r <= r0 + line_bound n.
Proof.
  intros Hn Hget. unfold line_penalty.
  destruct (for_in_inv (λ i s, exists events, line_inv n r0 (Z.of_nat i) s events)
    (λ k s, color ← get k; line_step n color s) (range 0 n) (false, 0, replicate 7 0, r0))
    as (s & E & events & Hs).
  { exists 0. split; cbn; [lia|done|lia|exists 0, 0; lia|done|]. intros _. unfold history_at. cbn.
    split_and!; try lia. by right. }
  { intros i k s Hk (events & Hs). apply range_lookup in Hk as [-> Hk].
    destruct (Hget (0 + Z.of_nat i) Hk) as [b Eb]. rewrite Eb. cbn [mbind Result_bind].
    destruct (line_step_inv n r0 (Z.of_nat i) b s events) as (s' & ev' & E & Hs'); [lia|done|].
    exists s'. split; [done|]. exists ev'. by replace (Z.of_nat (S i)) with (Z.of_nat i + 1) by lia. }
  rewrite E. destruct s as [[[rc run] h] res]. cbn [mbind Result_bind].
  rewrite length_range in Hs. replace (Z.of_nat (Z.to_nat (n - 0))) with n in Hs by lia.
  destruct Hs as [Hr Hh He (runs & pats & Es & Hruns & Hpats) Hd Hl]. cbn [fst snd] in *.
  assert (runs <= n) as Hruns' by (destruct (5 <=? run); lia).
  assert (exists c, finderPenaltyTerminateAndCount n rc run h = Ok c /\ 0 <= c /\
    (c = 0 \/ c <= 2 /\ 3 * events + 3 <= n)) as (c & Ec & Hc & Hc').
  { unfold finderPenaltyTerminateAndCount. destruct rc.
    - destruct (Hd eq_refl) as (H1 & H2 & H3 & H4).
      set (h1 := finderPenaltyAddHistory n run h). set (h2 := finderPenaltyAddHistory n (0 + n) h1).
      assert (length h1 = 7%nat) as Hl1 by (by apply history_length).
      assert (h_ h2 1 = run) as E1
        by (unfold h2; rewrite history_cons by (done || lia); apply history_head; lia).
      assert (h_ h2 3 = h_ h 1) as E3
        by (unfold h2, h1; rewrite !history_cons by (done || lia); done).
      destruct (count_patterns n h2) as (c & Ec & Hc); [lia|lia|]. exists c. rewrite E3 in Hc.
      split; [done|]. lia.
    - destruct (Hl eq_refl) as (H1 & H2 & H3 & H4).
      set (h2 := finderPenaltyAddHistory n (run + n) h).
      assert (h_ h2 1 = h_ h 0) as E1 by (apply history_cons; done || lia).
      assert (h_ h2 3 = h_ h 2) as E3 by (apply history_cons; done || lia).
      destruct (count_patterns n h2) as (c & Ec & Hc); [lia|lia|]. exists c. rewrite E3 in Hc.
      split; [done|]. lia. }
  rewrite Ec. cbn [mbind Result_bind]. eexists. split; [reflexivity|].
  assert (3 * events <= n) as He' by (destruct rc; [specialize (Hd eq_refl)|specialize (Hl eq_refl)]; lia).
  unfold PENALTY_N3, line_bound in *.
  assert (pats + c <= 2 * (n / 3)) by (Z.to_euclidean_division_equations; lia). lia.
Qed.

(** A loop that adds at most [b] in each step. *)
Lemma for_in_bounded {A} (l : list A) (body : A -> Z -> Result Z) b r0 :
  (forall x r, x ∈ l -> exists r', body x r = Ok r' /\ r <= r' <= r + b) ->
  exists r', for_in l body r0 = Ok r' /\ r0 <= r' <= r0 + Z.of_nat (length l) * b.
Proof.
  revert r0. induction l as [|x l IH]; intros r0 H; [exists r0; split; [done|cbn; lia]|].
  destruct (H x r0) as (r1 & E1 & H1); [by left|].
  destruct (IH r1) as (r2 & E2 & H2); [intros y r Hy; apply H; by right|].
  exists r2. cbn [for_in length]. rewrite E1. cbn [mbind Result_bind]. split; [done|]. lia.
Qed.

Lemma dark_row row k :
  k <= foldl (λ n color, if (color : bool) then n + 1 else n) k row <= k + Z.of_nat (length row).
Proof.
  revert k. induction row as [|b row IH]; intros k; cbn [foldl length]; [lia|].
  specialize (IH (if b then k + 1 else k)). destruct b; lia.
Qed.
Lemma dark_count (n : Z) (g : Grid) k :
  Forall (λ row, Z.of_nat (length row) = n) g ->
  k <= foldl (λ k row, foldl (λ n color, if (color : bool) then n + 1 else n) k row) k g
    <= k + Z.of_nat (length g) * n.
Proof.
  intros Hg. revert k. induction Hg as [|row g Hr Hg IH]; intros k; cbn [foldl length]; [lia|].
  pose proof (dark_row row k). specialize (IH (foldl (λ n color, if (color : bool) then n + 1 else n) k row)).
  lia.
Qed.

Lemma penalty_ok n q :
  shape n (modules q) -> size q = n -> 21 <= n <= 177 -> n mod 2 = 1 ->
  exists p, getPenaltyScore q = Ok p /\ 0 <= p <= 2568888.
Proof.
  intros Hs Hz Hn Hodd. unfold getPenaltyScore. rewrite Hz.
  assert (forall x y, 0 <= x < n -> 0 <= y < n -> exists b, module_ x y q = Ok b) as Hget.
  { intros x y Hx Hy. eexists. by apply (grid_at_ok n). }
  assert (line_bound n <= 4897) as Hb by (unfold line_bound; Z.to_euclidean_division_equations; lia).
  destruct (for_in_bounded (range 0 n) (λ y, line_penalty n (λ x, module_ x y q)) (line_bound n) 0)
    as (r1 & E1 & H1).
  { intros y r Hy%elem_of_range. apply line_penalty_ok; [lia|]. intros x Hx. by apply Hget. }
  destruct (for_in_bounded (range 0 n) (λ x, line_penalty n (λ y, module_ x y q)) (line_bound n) r1)
    as (r2 & E2 & H2).
  { intros x r Hx%elem_of_range. apply line_penalty_ok; [lia|]. intros y Hy. by apply Hget. }
  rewrite E1. cbn [mbind Result_bind]. rewrite E2. cbn [mbind Result_bind].
  match goal with |- context [for_in (range 0 (n - 1)) ?body r2] =>
    destruct (for_in_bounded (range 0 (n - 1)) body ((n - 1) * 3) r2) as (r3 & E3 & H3) end.
  { intros y r Hy%elem_of_range.
    match goal with |- context [for_in (range 0 (n - 1)) ?body r] =>
      destruct (for_in_bounded (range 0 (n - 1)) body 3 r) as (r' & E & H) end.
    - intros x r' Hx%elem_of_range.
      destruct (Hget x y) as [b Eb]; [lia|lia|]. destruct (Hget (x + 1) y) as [b1 Eb1]; [lia|lia|].
      destruct (Hget x (y + 1)) as [b2 Eb2]; [lia|lia|].
      destruct (Hget (x + 1) (y + 1)) as [b3 Eb3]; [lia|lia|].
      rewrite Eb, Eb1, Eb2, Eb3. cbn [mbind Result_bind]. eexists. split; [reflexivity|].
      unfold PENALTY_N2. case_match; lia.
    - exists r'. split; [done|]. rewrite length_range in H. nia. }
  rewrite E3. cbn [mbind Result_bind]. rewrite length_range in H1, H2, H3. cbv zeta.
  destruct Hs as [Hlen Hrows]. pose proof (dark_count n (modules q) 0 Hrows) as Hdark.
  set (dark := foldl _ 0 (modules q)) in *. rewrite Hlen in Hdark.
  set (k := (Z.abs (dark * 20 - n * n * 10) + n * n - 1) / (n * n) - 1).
  assert (0 <= k <= 9) as Hk.
  { assert (1 <= Z.abs (dark * 20 - n * n * 10) <= n * n * 10) as Ha.
    { assert (2 * dark <> n * n); [|lia]. intros E.
      assert (n = 2 * (n / 2) + 1) as En by (Z.to_euclidean_division_equations; lia).
      set (m := n / 2) in *. clearbody m. subst n. nia. }
    unfold k. split.
    - assert (1 <= (Z.abs (dark * 20 - n * n * 10) + n * n - 1) / (n * n)); [|lia].
      apply Z.div_le_lower_bound; lia.
    - assert ((Z.abs (dark * 20 - n * n * 10) + n * n - 1) / (n * n) < 11); [|lia].
      apply Z.div_lt_upper_bound; lia. }
  rewrite (proj2 (Z.leb_le 0 k)), (proj2 (Z.leb_le k 9)) by lia.
  cbn [andb asserts ensure mbind Result_bind]. unfold PENALTY_N4.
  assert (0 <= r3 + k * 10 <= 2568888) as Hr.
  { rewrite !Z2Nat.id, ?Z.sub_0_r in * by lia.
    assert (n * line_bound n <= 177 * 4897).
    { apply Z.mul_le_mono_nonneg; [lia|lia| |done]. unfold line_bound. Z.to_euclidean_division_equations; lia. }
    assert ((n - 1) * ((n - 1) * 3) <= 176 * (176 * 3)) by (clear -Hn; nia). lia. }
  rewrite (proj2 (Z.leb_le 0 (r3 + k * 10))), (proj2 (Z.leb_le (r3 + k * 10) 2568888)) by lia.
  eexists. split; [reflexivity|]. lia.
Qed.

(** ** Masks of a QR code

    [applyMask] flips the modules outside the function patterns and nothing else,
    the format bits that are drawn after it do not depend on what was there
    before, and the loop over the eight masks (QrCode.v, [choose_mask]) finds the
    first one with the least penalty. *)
Local Open Scope Z_scope.

(** ** Applying a mask *)
Definition all_cells (n : Z) : list (Z * Z) :=
  List.concat (map (λ y, map (λ x, (x, y)) (range 0 n)) (range 0 n)).

Lemma all_cells_elem n c : c ∈ all_cells n <-> inside n c.
Proof.
  unfold all_cells. rewrite list_elem_of_In, in_concat. split.
  - intros (l & Hl & Hc). apply in_map_iff in Hl as (y & <- & Hy%list_elem_of_In%elem_of_range).
    apply in_map_iff in Hc as (x & <- & Hx%list_elem_of_In%elem_of_range). by split.
  - destruct c as [x y]. intros [Hx Hy]. eexists. split; [apply in_map, list_elem_of_In, elem_of_range, Hy|].
    apply (in_map (λ x, (x, y))), list_elem_of_In, elem_of_range, Hx.
Qed.
Lemma all_cells_nodup n : NoDup (all_cells n).
Proof.
  apply NoDup_concat_map; [apply NoDup_range| |].
  - intros y _. apply (NoDup_fmap_2_strong (λ x, (x, y))); [|apply NoDup_range]. by intros x x' _ _ [= ->].
  - intros y y' c _ _ (x & -> & _)%list_elem_of_fmap (x' & [= _ ->] & _)%list_elem_of_fmap. done.
Qed.

Definition mask_step (msk : Z) (isF : Grid) (c : Z * Z) (m : Grid) : Result Grid :=
  v ← grid_at m c.1 c.2;
  f ← grid_at isF c.1 c.2;
  grid_put m c.1 c.2 (xorb v (invert msk c.1 c.2 && negb f)).

(** What a mask makes of a module. *)
Definition flipped (msk : Z) (isF m : Grid) (c : Z * Z) : bool :=
  xorb (get m c) (invert msk c.1 c.2 && negb (get isF c)).

Lemma mask_step_ok n msk isF c m :
  shape n isF -> shape n m -> inside n c ->
  exists m', mask_step msk isF c m = Ok m' /\ shape n m' /\
    forall d, inside n d -> get m' d = if decide (d = c) then flipped msk isF m c else get m d.
Proof.
  destruct c as [x y]. intros Hf Hm Hc. unfold mask_step. cbn [fst snd].
  rewrite (grid_at_ok n m), (grid_at_ok n isF) by done. cbn [mbind Result_bind].
  by apply (grid_put_ok n).
Qed.

Lemma mask_cells n msk isF l m :
  shape n isF -> shape n m -> NoDup l -> Forall (inside n) l ->
  exists m', for_in l (mask_step msk isF) m = Ok m' /\ shape n m' /\
    forall c, inside n c -> get m' c = if decide (c ∈ l) then flipped msk isF m c else get m c.
Proof.
  intros Hf Hm Hd Hin. revert m Hm. induction l as [|[x y] l IH]; intros m Hm.
  { exists m. split; [done|]. split; [done|]. intros c _. rewrite decide_False; [done|apply not_elem_of_nil]. }
  apply list.NoDup_cons in Hd as [Hc Hd]. apply list.Forall_cons in Hin as [Hci Hin].
  destruct (mask_step_ok n msk isF (x, y) m Hf Hm Hci) as (m1 & E1 & Hm1 & G1).
  cbn [for_in]. rewrite E1. cbn [mbind Result_bind].
  destruct (IH Hd Hin m1 Hm1) as (m2 & E2 & Hm2 & G2). exists m2. split; [done|]. split; [done|].
  intros c Hci'. rewrite G2 by done. unfold flipped. rewrite G1 by done.
  destruct (decide (c = (x, y))) as [->|Hne].
  - rewrite decide_False by done. rewrite decide_True by (by left). done.
  - destruct (decide (c ∈ l)); [rewrite decide_True by (by right)|rewrite decide_False]; [done..|].
    by rewrite not_elem_of_cons.
Qed.

Lemma applyMask_ok n msk q :
  canvas n q -> size q = n -> 0 <= msk <= 7 ->
  exists m, applyMask msk q = Ok (with_modules m q) /\ shape n m /\
    forall c, inside n c -> get m c = flipped msk (isFunction q) (modules q) c.
Proof.
  intros [Hm Hf] Hn Hk. unfold applyMask. rewrite (proj2 (Z.ltb_ge msk 0)), (proj2 (Z.ltb_ge 7 msk)) by lia.
  cbn [orb negb ensure mbind Result_bind].
  destruct (mask_cells n msk (isFunction q) (all_cells n) (modules q) Hf Hm (all_cells_nodup n))
    as (m & E & Hs & G). { apply list.Forall_forall. intros c. apply all_cells_elem. }
  exists m. split.
  - unfold all_cells in E. rewrite <- for_in_concat in E. rewrite Hn.
    rewrite (for_in_ext _ _ (λ y, for_in (map (λ x, (x, y)) (range 0 n)) (mask_step msk (isFunction q)))).
    + by rewrite E.
    + intros y s _. by rewrite for_in_map.
  - split; [done|]. intros c Hc. rewrite G by done. by rewrite decide_True by (by apply all_cells_elem).
Qed.

(** ** A mask with its format bits *)
Definition stamp (msk : Z) (q : QrCode) : Result QrCode := q ← applyMask msk q; drawFormatBits msk q.

Definition format_coords (n : Z) : list (Z * Z) := map fst (format_cells n 0).
Lemma format_coords_any n bits : map fst (format_cells n bits) = format_coords n.
Proof. unfold format_coords, format_cells. rewrite !map_app, !map_map. done. Qed.

Lemma format_function ver c : c ∈ format_coords (ver * 4 + 17) -> c ∈ function_coords ver.
Proof.
  intros Hc. unfold function_coords, function_cells. cbv zeta.
  do 5 (rewrite map_app; apply elem_of_app; right). rewrite map_app. apply elem_of_app. left.
  by rewrite format_coords_any.
Qed.

Section Stamp.
Context (ver : Z) (ecl : Ecc).
Hypothesis Hver : 1 <= ver <= 40.
Local Notation n := (ver * 4 + 17).

(** A code whose function patterns are drawn. *)
Record ready (q : QrCode) : Prop := {
  ready_canvas : canvas n q;
  ready_like : like ver n ecl q;
  ready_function : forall c, inside n c -> get (isFunction q) c = bool_decide (c ∈ function_coords ver)
}.

Definition format_at (msk : Z) (c : Z * Z) : option bool := last_draw (format_cells n (format_bits ecl msk)) c.

Lemma format_at_None msk c : format_at msk c = None <-> c ∉ format_coords n.
Proof. unfold format_at. by rewrite last_draw_None, format_coords_any. Qed.

Lemma format_inside : Forall (inside n) (format_coords n).
Proof.
  destruct (layout_facts ver Hver) as [Hin _]. rewrite list.Forall_forall in *. intros c Hc.
  by apply Hin, format_function.
Qed.

Lemma masked_ready msk q :
  ready q -> 0 <= msk <= 7 ->
  exists q', applyMask msk q = Ok q' /\ ready q' /\
    forall c, inside n c -> get (modules q') c = flipped msk (isFunction q) (modules q) c.
Proof.
  intros [Hc Hl Hf] Hk. destruct (applyMask_ok n msk q Hc (proj1 (proj2 Hl)) Hk) as (m & E & Hs & G).
  eexists. split; [done|]. split; [|done]. destruct Hc. by split.
Qed.

Lemma stamp_ok msk q :
  ready q -> 0 <= msk <= 7 ->
  exists q', stamp msk q = Ok q' /\ ready q' /\
    forall c, inside n c ->
      get (modules q') c = default (flipped msk (isFunction q) (modules q) c) (format_at msk c).
Proof.
  intros Hq Hk. destruct (masked_ready msk q Hq Hk) as (q1 & E1 & [Hc1 Hl1 Hf1] & G1).
  unfold stamp. rewrite E1. cbn [mbind Result_bind].
  rewrite (format_draws ver n ecl msk (format_bits_15 ecl msk Hk) q1 Hl1).
  destruct (draw_all_ok n (format_cells n (format_bits ecl msk)) q1 Hc1) as (q2 & E2 & Hc2 & Hv & Hz & He & G2).
  { pose proof format_inside as Hin. rewrite <- (format_coords_any _ (format_bits ecl msk)) in Hin.
    exact (proj1 (list.Forall_fmap fst _ (format_cells n (format_bits ecl msk))) Hin). }
  exists q2. split; [done|]. split.
  - split; [done| |].
    + destruct Hl1 as (? & ? & ?). repeat split; congruence.
    + intros c Hc. destruct (G2 c Hc) as [_ ->]. rewrite Hf1 by done. case_decide as Hd; [|done].
      rewrite format_coords_any in Hd. symmetry. apply bool_decide_eq_true, format_function, Hd.
  - intros c Hc. destruct (G2 c Hc) as [-> _]. by rewrite G1.
Qed.

(** Two codes that differ in nothing but their format bits. *)
Definition agree (q q' : QrCode) : Prop :=
  forall c, inside n c -> c ∉ format_coords n -> get (modules q) c = get (modules q') c.

Lemma ready_isFunction q q' : ready q -> ready q' -> isFunction q = isFunction q'.
Proof.
  intros [[_ Hs] _ Hf] [[_ Hs'] _ Hf']. apply (grid_ext n); [done..|]. intros c Hc. by rewrite Hf, Hf'.
Qed.

Lemma stamp_agree msk q q' r r' :
  ready q -> ready q' -> agree q q' -> 0 <= msk <= 7 ->
  stamp msk q = Ok r -> stamp msk q' = Ok r' -> modules r = modules r'.
Proof.
  intros Hq Hq' Ha Hk E E'.
  destruct (stamp_ok msk q Hq Hk) as (r1 & E1 & [[Hs _] _ _] & G).
  destruct (stamp_ok msk q' Hq' Hk) as (r2 & E2 & [[Hs' _] _ _] & G').
  rewrite E in E1. injection E1 as <-. rewrite E' in E2. injection E2 as <-.
  apply (grid_ext n); [done..|]. intros c Hc. rewrite G, G' by done.
  destruct (format_at msk c) eqn:Ef; [done|]. apply format_at_None in Ef. cbn [from_option id default].
  unfold flipped. by rewrite Ha, (ready_isFunction q q').
Qed.

(** A mask applied again is taken away. *)
Lemma unmasked msk q r r' :
  ready q -> 0 <= msk <= 7 -> stamp msk q = Ok r -> applyMask msk r = Ok r' -> ready r' /\ agree q r'.
Proof.
  intros Hq Hk E E'.
  destruct (stamp_ok msk q Hq Hk) as (r1 & E1 & Hr & G). rewrite E in E1. injection E1 as <-.
  destruct (masked_ready msk r Hr Hk) as (r2 & E2 & Hr' & G'). rewrite E' in E2. injection E2 as <-.
  split; [done|]. intros c Hc Hn. rewrite G' by done. unfold flipped. rewrite G by done.
  rewrite (proj2 (format_at_None msk c) Hn). cbn [from_option id default]. unfold flipped.
  rewrite (ready_isFunction r q) by done.
  by destruct (get (modules q) c), (invert msk c.1 c.2 && negb (get (isFunction q) c)).
Qed.

Lemma agree_trans q q' q'' : agree q q' -> agree q' q'' -> agree q q''.
Proof. intros H H' c Hc Hn. rewrite H by done. by apply H'. Qed.
End Stamp.

(** ** The choice of the mask *)
Lemma penalty_ext q q' : size q = size q' -> modules q = modules q' -> getPenaltyScore q = getPenaltyScore q'.
Proof. intros Hs Hm. unfold getPenaltyScore, module_. by rewrite Hs, Hm. Qed.

(** One round of the loop. *)
Definition mask_round (i : Z) (s : QrCode * Z * Z) : Result (QrCode * Z * Z) :=
  let '(q, msk, minPenalty) := s in
  q ← applyMask i q;
  q ← drawFormatBits i q;
  penalty ← getPenaltyScore q;
  let '(msk, minPenalty) := if penalty <? minPenalty then (i, penalty) else (msk, minPenalty) in
  q ← applyMask i q;
  Ok (q, msk, minPenalty).
Lemma choose_mask_rounds q :
  choose_mask q = (s ← for_in (range 0 8) mask_round (q, -1, LONG_MAX); Ok s.1).
Proof. done. Qed.

Section Choice.
Context (ver : Z) (ecl : Ecc) (q : QrCode).
Hypothesis Hver : 1 <= ver <= 40.
Hypothesis Hq : ready ver ecl q.
Local Notation n := (ver * 4 + 17).

(** The penalty of the code with mask [i]. *)
Definition penalty_of (i p : Z) : Prop :=
  exists r, stamp i q = Ok r /\ getPenaltyScore r = Ok p.

Lemma penalty_of_fun i p p' : penalty_of i p -> penalty_of i p' -> p = p'.
Proof. intros (r & E & Ep) (r' & E' & Ep'). congruence. Qed.

Lemma penalty_of_total i : 0 <= i <= 7 -> exists p, penalty_of i p /\ 0 <= p < LONG_MAX.
Proof.
  intros Hi. destruct (stamp_ok ver ecl Hver i q Hq Hi) as (r & E & [[Hs _] Hl _] & _).
  destruct (penalty_ok n r) as (p & Ep & Hp); [done|apply Hl|lia|Z.to_euclidean_division_equations; lia|].
  exists p. split; [by exists r|]. unfold LONG_MAX. lia.
Qed.

(** What the loop knows when it comes to mask [i]. *)
Definition round_inv (i : Z) (s : QrCode * Z * Z) : Prop :=
  let '(q', msk, minPenalty) := s in
  ready ver ecl q' /\ agree ver q q' /\
  (i = 0 /\ msk = -1 /\ minPenalty = LONG_MAX \/
   0 <= msk < i /\ penalty_of msk minPenalty /\
   forall j p, 0 <= j < i -> penalty_of j p -> minPenalty <= p /\ (j < msk -> minPenalty < p)).

Lemma round_ok i s : 0 <= i <= 7 -> round_inv i s -> exists s', mask_round i s = Ok s' /\ round_inv (i + 1) s'.
Proof.
  destruct s as [[q' msk] minPenalty]. intros Hi (Hr & Ha & Hm).
  destruct (stamp_ok ver ecl Hver i q' Hr Hi) as (r' & E' & Hr' & _).
  destruct (penalty_of_total i Hi) as (p & (r & E & Ep) & Hp).
  pose proof (stamp_ok ver ecl Hver i q Hq Hi) as (r0 & E0 & Hr0 & _).
  rewrite E in E0. injection E0 as <-.
  assert (getPenaltyScore r' = Ok p) as Ep'.
  { rewrite <- Ep. apply penalty_ext.
    - by rewrite (proj1 (proj2 (ready_like _ _ _ Hr'))), (proj1 (proj2 (ready_like _ _ _ Hr0))).
    - symmetry. by apply (stamp_agree ver ecl Hver i q q'). }
  destruct (masked_ready ver ecl i r' Hr' Hi) as (q2 & E2 & _ & _).
  destruct (unmasked ver ecl Hver i q' r' q2 Hr Hi E' E2) as [Hr2 Ha2].
  unfold mask_round. unfold stamp in E'. apply bind_Ok in E' as (q1 & E1 & E'). rewrite E1.
  cbn [mbind Result_bind]. rewrite E'. cbn [mbind Result_bind]. rewrite Ep'. cbn [mbind Result_bind].
  assert (penalty_of i p) as Hpi by (by exists r).
  destruct (Z.ltb_spec p minPenalty) as [Hlt|Hge]; rewrite E2; cbn [mbind Result_bind];
    eexists; (split; [done|]); (split; [done|]); (split; [by eapply agree_trans|]); right.
  - split; [lia|]. split; [done|]. intros j p' Hj Hp'. destruct (decide (j = i)) as [->|Hne].
    + rewrite (penalty_of_fun i p' p) by done. lia.
    + destruct Hm as [(-> & _)|(_ & _ & Hm)]; [lia|]. specialize (Hm j p' ltac:(lia) Hp'). lia.
  - destruct Hm as [(_ & _ & ->)|(Hk & Hpk & Hm)]; [lia|]. split; [lia|]. split; [done|].
    intros j p' Hj Hp'. destruct (decide (j = i)) as [->|Hne].
    + rewrite (penalty_of_fun i p' p) by done. lia.
    + apply Hm; [lia|done].
Qed.

Lemma rounds_ok s : round_inv 0 s -> exists s', for_in (range 0 8) mask_round s = Ok s' /\ round_inv 8 s'.
Proof.
  intros Hs. apply (for_in_inv (λ i, round_inv (Z.of_nat i)) mask_round (range 0 8)); [done|].
  intros i x s' [-> Hi]%range_lookup Hs'. rewrite Nat2Z.inj_succ. apply round_ok; [lia|done].
Qed.

Lemma choose_mask_ok :
  exists q' msk p, choose_mask q = Ok (q', msk) /\ ready ver ecl q' /\ agree ver q q' /\
    0 <= msk <= 7 /\ penalty_of msk p /\
    forall j p', 0 <= j <= 7 -> penalty_of j p' -> p <= p' /\ (j < msk -> p < p').
Proof.
  destruct (rounds_ok (q, -1, LONG_MAX)) as ([[q' msk] p] & E & Hr & Ha & Hm).
  { split; [done|]. split; [by intros c|]. by left. }
  destruct Hm as [[? _]|(Hk & Hp & Hm)]; [lia|]. exists q', msk, p.
  split; [rewrite choose_mask_rounds; exact (bind_run _ _ _ E)|].
  split; [done|]. split; [done|]. split; [lia|]. split; [done|]. intros j p' Hj. apply Hm. lia.
Qed.
End Choice.
