(* ===== verification/QrProperties.v ===== *)
(** * QR codes are read back

    A reader of QR codes, written from the standard's side: it takes version,
    error correction level and mask from the square, undoes the mask, collects the
    codewords and reads the segments. Whatever [encodeSegments] (QrCode.v) makes,
    it reads; and what the encoder refuses does not fit. *)
From stdpp Require Import base list numbers.
From Stdlib Require Import ZArith Lia.
From S2P Require Import Prelude ReedSolomon QrSegments QrCode QrDrawing QrLayout QrMask QrBlocks.
Local Open Scope Z_scope.

(** ** The reader *)
Fixpoint octets_of (k : nat) (bits : list bool) : list Z :=
  match k with
  | O => []
  | S k => bits_value (take 8 bits) :: octets_of k (drop 8 bits)
  end.

Definition read_format (g : Grid) : option (Ecc * Z) :=
  let v := Z.lxor (bits_value (map (λ x, get g (x, 8)) (range 0 5))) 21 in
  ecl ← find (λ e, getFormatBits e =? v / 8) ecls; Some (ecl, v mod 8).

(** Version, plan of the blocks and codewords. *)
Definition read_codewords (g : Grid) : option (Z * BlockPlan * list Z) :=
  let ver := (Z.of_nat (length g) - 17) / 4 in
  '(ecl, msk) ← read_format g;
  match block_plan ver ecl with
  | Ok p => Some (ver, p, octets_of (Z.to_nat (rawCodewords p))
                            (map (λ c, xorb (get g c) (invert msk c.1 c.2)) (free_cells ver)))
  | Throw _ => None
  end.

Definition read_code (g : Grid) : option (list Item) :=
  '(ver, p, raw) ← read_codewords g; read_items ver (data_bits (read_data p raw)).

Lemma octets_of_bits l rest : octets l -> octets_of (length l) (app (data_bits l) rest) = l.
Proof.
  induction 1 as [|d l Hd Hl IH]; [done|]. cbn [length octets_of].
  change (data_bits (d :: l)) with (app (bits_of d 8) (data_bits l)). rewrite <- app_assoc.
  pose proof (bits_of_length d 8 ltac:(lia)) as Hlen. change (Z.to_nat 8) with 8%nat in Hlen.
  rewrite take_app_length' by done. rewrite drop_app_length' by done. rewrite IH. f_equal.
  rewrite bits_value_of by lia. apply Z.mod_small. by apply octet_spec.
Qed.

(** ** Format bits *)
Definition format_check (ver : Z) (ecl : Ecc) (msk : Z) : bool :=
  forallb (λ x, bool_decide (format_at ver ecl msk (x, 8) = Some (getBit (format_bits ecl msk) (14 - x)))) (range 0 5)
  && (Z.lxor (bits_value (map (λ x, getBit (format_bits ecl msk) (14 - x)) (range 0 5))) 21
      =? 8 * getFormatBits ecl + msk).

Lemma formats_checked :
  forallb (λ ver, forallb (λ ecl, forallb (format_check ver ecl) (range 0 8)) ecls) (range 1 41) = true.
Proof. vm_compute. done. Qed.

Lemma format_facts ver ecl msk :
  1 <= ver <= 40 -> 0 <= msk <= 7 ->
  (forall x, 0 <= x < 5 -> format_at ver ecl msk (x, 8) = Some (getBit (format_bits ecl msk) (14 - x))) /\
  Z.lxor (bits_value (map (λ x, getBit (format_bits ecl msk) (14 - x)) (range 0 5))) 21
    = 8 * getFormatBits ecl + msk.
Proof.
  intros Hv Hm. pose proof formats_checked as H. rewrite forallb_forall in H.
  specialize (H ver (proj1 (list_elem_of_In _ _) (proj2 (elem_of_range 1 41 ver) ltac:(lia)))).
  rewrite forallb_forall in H. specialize (H ecl (in_ecls ecl)). rewrite forallb_forall in H.
  specialize (H msk (proj1 (list_elem_of_In _ _) (proj2 (elem_of_range 0 8 msk) ltac:(lia)))).
  unfold format_check in H. apply andb_true_iff in H as [Hx Hb]. split; [|by apply Z.eqb_eq].
  intros x Hxr. rewrite forallb_forall in Hx.
  by apply (bool_decide_eq_true _), Hx, list_elem_of_In, elem_of_range.
Qed.

(** ** Codes with data *)
Lemma patterns_ready ver ecl :
  1 <= ver <= 40 -> exists q,
    drawFunctionPatterns (mkQr ver (ver * 4 + 17) ecl 0
      (replicate (Z.to_nat (ver * 4 + 17)) (replicate (Z.to_nat (ver * 4 + 17)) false))
      (replicate (Z.to_nat (ver * 4 + 17)) (replicate (Z.to_nat (ver * 4 + 17)) false))) = Ok q /\
    ready ver ecl q.
Proof.
  intros Hv. set (n := ver * 4 + 17). set (q0 := mkQr _ _ _ _ _ _).
  assert (like ver n ecl q0) as Hl by done. pose proof (shape_light n ltac:(unfold n; lia)) as Hs.
  assert (canvas n q0) as Hc by (by split).
  destruct (draw_all_ok n (function_cells ver ecl) q0 Hc) as (q & E & Hcq & Hv' & Hz' & He' & G).
  { destruct (layout_facts ver Hv) as [Hin _]. rewrite <- (function_coords_any ver ecl) in Hin.
    exact (proj1 (list.Forall_fmap fst _ (function_cells ver ecl)) Hin). }
  exists q. rewrite (function_draws ver ecl Hv q0 Hl). split; [done|]. split; [done|by repeat split|].
  intros c Hin. destruct (G c Hin) as [_ ->]. rewrite function_coords_any. cbn [isFunction q0].
  rewrite get_light. by case_bool_decide; case_decide.
Qed.

Lemma codewords_ready ver ecl q raw nraw :
  1 <= ver <= 40 -> ready ver ecl q -> getNumRawDataModules ver = Ok nraw ->
  Z.of_nat (length raw) = nraw / 8 ->
  exists q', drawCodewords raw q = Ok q' /\ ready ver ecl q' /\
    map (get (modules q')) (take (8 * length raw) (free_cells ver)) = data_bits raw.
Proof.
  intros Hv [[Hm Hf] (Hver & Hsz & Hec) Hfun] Er Hl. rewrite drawCodewords_zigzag, Hver, Er, Hsz.
  cbn [mbind Result_bind]. rewrite (proj2 (Z.eqb_eq _ _) Hl). cbn [ensure mbind Result_bind].
  set (n := ver * 4 + 17) in *.
  assert (21 <= n) as Hn by (unfold n; lia). assert (n mod 2 = 1) as Hodd by (unfold n; Z.to_euclidean_division_equations; lia).
  destruct (codewords_drawn n raw (isFunction q) Hf (zigzag n) (modules q) 0)
    as (m & i & E & Hs & Hi & _ & Hr); [by apply zigzag_nodup| |done|lia|].
  { apply list.Forall_forall. intros c. by apply zigzag_inside. }
  assert (filter (λ c, get (isFunction q) c = false) (zigzag n) = free_cells ver) as Efree.
  { apply filter_ext_in. intros c Hc. rewrite Hfun by (by apply zigzag_inside).
    by rewrite bool_decide_eq_false. }
  rewrite Efree in Hi, Hr. pose proof (free_count ver Hv nraw Er) as Hcount.
  rewrite E. cbn [mbind Result_bind snd fst].
  assert (i = Z.of_nat (length raw) * 8) as -> by (Z.to_euclidean_division_equations; lia).
  rewrite Z.eqb_refl. cbn [asserts ensure mbind Result_bind]. eexists. split; [done|]. split; [by split|].
  cbn [modules with_modules]. change (Z.to_nat 0) with 0%nat in Hr. rewrite drop_0 in Hr.
  replace (8 * length raw)%nat with (Z.to_nat (Z.of_nat (length raw) * 8 - 0)) by lia. rewrite Hr.
  apply take_ge. rewrite data_bits_length. Z.to_euclidean_division_equations; lia.
Qed.

(** The code before the masks, and what is in it. *)
Record base_code (ver : Z) (ecl : Ecc) (data : list Z) (p : BlockPlan) (q : QrCode) (raw : list Z) : Prop := {
  base_ready : ready ver ecl q;
  base_plan : block_plan ver ecl = Ok p;
  base_length : Z.of_nat (length raw) = rawCodewords p;
  base_octets : octets raw;
  base_data : read_data p raw = data;
  base_blocks : forall j, 0 <= j < numBlocks p -> exists d, rs_encode (blockEccLen p) d = Ok (block_of p j raw);
  base_drawn : map (get (modules q)) (take (8 * length raw) (free_cells ver)) = data_bits raw;
  base_new : forall msk, -1 <= msk <= 7 -> QrCode_new ver ecl data msk =
    ('(q, msk) ← (if msk =? -1 then choose_mask q else Ok (q, msk));
     _ ← asserts ((0 <=? msk) && (msk <=? 7));
     q ← stamp msk q;
     Ok (mkQr (version q) (size q) (errorCorrectionLevel q) msk (modules q) []))
}.

Lemma base_code_made ver ecl data n :
  1 <= ver <= 40 -> octets data -> getNumDataCodewords ver ecl = Ok n -> Z.of_nat (length data) = n ->
  exists p q raw, base_code ver ecl data p q raw.
Proof.
  intros Hv Ho En Hl. destruct (plan_facts ver ecl Hv) as (p & n' & nraw & Ep & _ & Er & _ & Hraw).
  destruct (blocks_coded ver ecl data n p Hv Ho En Hl Ep) as (raw & Ea & Hlr & Hor & Hrd & Hbl).
  destruct (patterns_ready ver ecl Hv) as (q0 & E0 & Hq0).
  destruct (codewords_ready ver ecl q0 raw nraw Hv Hq0 Er ltac:(lia)) as (q & Ec & Hq & Hdr).
  exists p, q, raw. split; try done. intros msk Hm. unfold QrCode_new.
  unfold MIN_VERSION, MAX_VERSION.
  rewrite (proj2 (Z.ltb_ge ver 1)), (proj2 (Z.ltb_ge 40 ver)) by lia.
  rewrite (proj2 (Z.ltb_ge msk (-1))), (proj2 (Z.ltb_ge 7 msk)) by lia.
  cbn [orb negb ensure mbind Result_bind]. cbv zeta. rewrite E0. cbn [mbind Result_bind].
  rewrite Ea. cbn [mbind Result_bind]. rewrite Ec. cbn [mbind Result_bind].
  destruct (if msk =? -1 then choose_mask q else Ok (q, msk)) as [[q' m]|]; [|done].
  cbn [mbind Result_bind]. destruct (asserts _) as [[]|]; [|done]. cbn [mbind Result_bind].
  unfold stamp. by destruct (applyMask m q').
Qed.

Section Base.
Context (ver : Z) (ecl : Ecc) (data : list Z) (p : BlockPlan) (q : QrCode) (raw : list Z).
Hypothesis Hver : 1 <= ver <= 40.
Hypothesis Hbase : base_code ver ecl data p q raw.
Local Notation n := (ver * 4 + 17).

Lemma masks_in msk : 0 <= msk <= 7 -> (0 <=? msk) && (msk <=? 7) = true.
Proof. intros Hm. by rewrite (proj2 (Z.leb_le 0 msk)), (proj2 (Z.leb_le msk 7)) by lia. Qed.

(** With a given mask. *)
Lemma new_given msk :
  0 <= msk <= 7 -> exists r, stamp msk q = Ok r /\
    QrCode_new ver ecl data msk = Ok (mkQr ver n ecl msk (modules r) []).
Proof.
  intros Hm. pose proof Hbase as [Hr _ _ _ _ _ _ Hnew].
  destruct (stamp_ok ver ecl Hver msk q Hr Hm) as (r & E & [_ (Hv & Hz & He) _] & _).
  exists r. split; [done|]. rewrite Hnew by lia. rewrite (proj2 (Z.eqb_neq msk (-1))) by lia.
  cbn [mbind Result_bind]. rewrite masks_in by done. cbn [asserts ensure mbind Result_bind].
  rewrite E. cbn [mbind Result_bind]. by rewrite Hv, Hz, He.
Qed.

(** With the mask that is chosen. *)
Lemma new_chosen :
  exists msk pen, 0 <= msk <= 7 /\ QrCode_new ver ecl data (-1) = QrCode_new ver ecl data msk /\
    penalty_of q msk pen /\
    forall j pen', 0 <= j <= 7 -> penalty_of q j pen' -> pen <= pen' /\ (j < msk -> pen < pen').
Proof.
  pose proof Hbase as [Hr _ _ _ _ _ _ Hnew].
  destruct (choose_mask_ok ver ecl q Hver Hr) as (q' & msk & pen & E & Hr' & Ha & Hm & Hp & Hmin).
  exists msk, pen. split; [done|]. split; [|done]. destruct (new_given msk Hm) as (r & Er & ->).
  destruct (stamp_ok ver ecl Hver msk q' Hr' Hm) as (r' & Er' & [_ (Hv & Hz & He) _] & _).
  rewrite Hnew by lia. rewrite Z.eqb_refl, E. cbn [mbind Result_bind]. rewrite masks_in by done.
  cbn [asserts ensure mbind Result_bind]. rewrite Er'. cbn [mbind Result_bind]. rewrite Hv, Hz, He.
  do 2 f_equal. symmetry. by apply (stamp_agree ver ecl Hver msk q q').
Qed.

(** Either way the code is one of the eight. *)
Lemma new_any msk :
  -1 <= msk <= 7 -> exists k r, 0 <= k <= 7 /\ stamp k q = Ok r /\
    QrCode_new ver ecl data msk = Ok (mkQr ver n ecl k (modules r) []).
Proof.
  intros Hm. assert (exists k, 0 <= k <= 7 /\ QrCode_new ver ecl data msk = QrCode_new ver ecl data k)
    as (k & Hk & ->).
  { destruct (decide (msk = -1)) as [->|]; [|exists msk; split; [lia|done]].
    destruct new_chosen as (k & pen & Hk & E & _). by exists k. }
  destruct (new_given k Hk) as (r & Er & Enew). by exists k, r.
Qed.

(** A reader finds version, error correction level and mask... *)
Lemma format_read msk r : 0 <= msk <= 7 -> stamp msk q = Ok r -> read_format (modules r) = Some (ecl, msk).
Proof.
  intros Hm E. destruct (stamp_ok ver ecl Hver msk q (base_ready _ _ _ _ _ _ Hbase) Hm) as (r' & E' & _ & G).
  rewrite E in E'. injection E' as <-. destruct (format_facts ver ecl msk Hver Hm) as [Hf Hb].
  unfold read_format. rewrite (map_ext_in _ (λ x, getBit (format_bits ecl msk) (14 - x))).
  - rewrite Hb. cbv zeta. replace ((8 * getFormatBits ecl + msk) / 8) with (getFormatBits ecl)
      by (Z.to_euclidean_division_equations; lia).
    replace ((8 * getFormatBits ecl + msk) mod 8) with msk by (Z.to_euclidean_division_equations; lia).
    by destruct ecl.
  - intros x Hx%list_elem_of_In%elem_of_range. rewrite G by (split; cbn; lia). by rewrite Hf.
Qed.

(** ... and the codewords. *)
Lemma codewords_read msk r :
  0 <= msk <= 7 -> stamp msk q = Ok r -> read_codewords (modules r) = Some (ver, p, raw).
Proof.
  intros Hm E. pose proof Hbase as [Hr Hplan Hlen Hoct _ _ Hdr _].
  destruct (stamp_ok ver ecl Hver msk q Hr Hm) as (r' & E' & [[[Hl _] _] _ _] & G).
  rewrite E in E'. injection E' as <-. unfold read_codewords. cbv zeta. rewrite Hl.
  replace ((n - 17) / 4) with ver by (Z.to_euclidean_division_equations; lia).
  rewrite (format_read msk r Hm E). cbn [mbind option_bind]. rewrite Hplan, <- Hlen, Nat2Z.id.
  do 2 f_equal. rewrite (map_ext_in _ (get (modules q))).
  - rewrite <- (take_drop (8 * length raw) (free_cells ver)), map_app, Hdr. by apply octets_of_bits.
  - intros c [Hin Hnf]%list_elem_of_In%(free_elem ver Hver). rewrite G by done.
    rewrite (proj2 (format_at_None ver ecl msk c)) by (intros Hc; by apply Hnf, format_function).
    cbn [from_option default id]. unfold flipped. rewrite (ready_function _ _ _ Hr c Hin).
    rewrite bool_decide_eq_false_2 by done. cbn [negb]. rewrite andb_true_r.
    by destruct (get (modules q) c), (invert msk c.1 c.2).
Qed.
End Base.

(** ** The theorems *)

(** The constructor of a code, given octets of the length its version and
    level ask for, never fails: whether the mask is given or chosen, a reader of
    the square finds version and plan, blocks that are all codewords of the
    Reed-Solomon code, and the data in them. *)
Theorem code_holds_codewords ver ecl data n msk :
  1 <= ver <= 40 -> octets data -> getNumDataCodewords ver ecl = Ok n -> Z.of_nat (length data) = n ->
  -1 <= msk <= 7 ->
  exists q p raw, QrCode_new ver ecl data msk = Ok q /\
    version q = ver /\ size q = 4 * ver + 17 /\ errorCorrectionLevel q = ecl /\ 0 <= mask q <= 7 /\
    read_codewords (modules q) = Some (ver, p, raw) /\ read_data p raw = data /\
    forall j, 0 <= j < numBlocks p -> exists d, rs_encode (blockEccLen p) d = Ok (block_of p j raw).
Proof.
  intros Hv Ho En Hl Hm. destruct (base_code_made ver ecl data n Hv Ho En Hl) as (p & q & raw & Hb).
  destruct (new_any ver ecl data p q raw Hv Hb msk Hm) as (k & r & Hk & Er & Enew).
  exists (mkQr ver (ver * 4 + 17) ecl k (modules r) []), p, raw. cbn [version size errorCorrectionLevel mask modules].
  pose proof Hb as [_ _ _ _ Hd Hbl _ _]. split; [done|]. split; [done|]. split; [lia|]. split; [done|].
  split; [done|]. split; [by apply (codewords_read ver ecl data p q raw Hv Hb k)|]. done.
Qed.

Lemma code_holds_codewords_witness :
  exists q p raw, QrCode_new 1 HIGH [64; 20; 16; 236; 17; 236; 17; 236; 17] (-1) = Ok q /\
    version q = 1 /\ size q = 4 * 1 + 17 /\ errorCorrectionLevel q = HIGH /\ 0 <= mask q <= 7 /\
    read_codewords (modules q) = Some (1, p, raw) /\
    read_data p raw = [64; 20; 16; 236; 17; 236; 17; 236; 17] /\
    forall j, 0 <= j < numBlocks p -> exists d, rs_encode (blockEccLen p) d = Ok (block_of p j raw).
Proof.
  apply (code_holds_codewords 1 HIGH [64; 20; 16; 236; 17; 236; 17; 236; 17] 9 (-1)); try lia.
  - by repeat constructor.
  - vm_compute. done.
  - done.
Defined.

(** C39. The mask that the constructor chooses is the first of the eight with the
    least penalty: the code is the one with that mask given, every other mask can
    be given too, and has no smaller penalty. *)
Theorem chosen_mask_is_best ver ecl data n :
  1 <= ver <= 40 -> octets data -> getNumDataCodewords ver ecl = Ok n -> Z.of_nat (length data) = n ->
  exists q best, QrCode_new ver ecl data (-1) = Ok q /\ getPenaltyScore q = Ok best /\
    0 <= mask q <= 7 /\ QrCode_new ver ecl data (mask q) = Ok q /\
    forall msk, 0 <= msk <= 7 -> exists q' penalty, QrCode_new ver ecl data msk = Ok q' /\
      getPenaltyScore q' = Ok penalty /\ best <= penalty /\ (msk < mask q -> best < penalty).
Proof.
  intros Hv Ho En Hl. destruct (base_code_made ver ecl data n Hv Ho En Hl) as (p & q & raw & Hb).
  pose proof (base_ready _ _ _ _ _ _ Hb) as Hr.
  destruct (new_chosen ver ecl data p q raw Hv Hb) as (k & pen & Hk & E & (r & Er & Ep) & Hmin).
  assert (forall msk r pen, stamp msk q = Ok r -> 0 <= msk <= 7 -> getPenaltyScore r = Ok pen ->
    getPenaltyScore (mkQr ver (ver * 4 + 17) ecl msk (modules r) []) = Ok pen) as Hpen.
  { intros msk r' pen' Es Hm <-. apply penalty_ext; [|done].
    destruct (stamp_ok ver ecl Hv msk q Hr Hm) as (r2 & E2 & [_ (_ & Hz & _) _] & _).
    rewrite Es in E2. injection E2 as <-. by rewrite Hz. }
  destruct (new_given ver ecl data p q raw Hv Hb k Hk) as (r' & Er' & Enew).
  rewrite Er in Er'. injection Er' as <-.
  exists (mkQr ver (ver * 4 + 17) ecl k (modules r) []), pen. cbn [mask]. rewrite E.
  split; [done|]. split; [by apply Hpen|]. split; [done|]. split; [done|]. intros msk Hm.
  destruct (new_given ver ecl data p q raw Hv Hb msk Hm) as (r2 & Er2 & Enew2).
  destruct (penalty_of_total ver ecl q Hv Hr msk Hm) as (pen2 & (r3 & Er3 & Ep3) & _).
  rewrite Er2 in Er3. injection Er3 as <-.
  exists (mkQr ver (ver * 4 + 17) ecl msk (modules r2) []), pen2. split; [done|].
  split; [by apply Hpen|]. apply Hmin; [done|]. by exists r2.
Qed.

Lemma chosen_mask_is_best_witness :
  exists q best, QrCode_new 1 HIGH [64; 20; 16; 236; 17; 236; 17; 236; 17] (-1) = Ok q /\
    getPenaltyScore q = Ok best /\ 0 <= mask q <= 7 /\
    QrCode_new 1 HIGH [64; 20; 16; 236; 17; 236; 17; 236; 17] (mask q) = Ok q /\
    forall msk, 0 <= msk <= 7 -> exists q' penalty,
      QrCode_new 1 HIGH [64; 20; 16; 236; 17; 236; 17; 236; 17] msk = Ok q' /\
      getPenaltyScore q' = Ok penalty /\ best <= penalty /\ (msk < mask q -> best < penalty).
Proof.
  apply (chosen_mask_is_best 1 HIGH [64; 20; 16; 236; 17; 236; 17; 236; 17] 9); try lia.
  - by repeat constructor.
  - vm_compute. done.
  - done.
Defined.

(** The bits of the segments fill a version they fit in. *)
Lemma segments_packed items segs ecl ver :
  Forall2 (λ i seg, make_item i = Ok seg) items segs -> 1 <= ver <= 40 -> fits segs ecl ver = true ->
  exists n bb padded cw, getNumDataCodewords ver ecl = Ok n /\ append_segments segs ver = Ok bb /\
    Z.of_nat (length bb) = getTotalBits segs ver /\ getTotalBits segs ver <> -1 /\
    pad_stream (n * 8) bb = Ok padded /\ pack_bits padded = Ok cw /\ octets cw /\
    Z.of_nat (length cw) = n /\ read_items ver (data_bits cw) = Some items.
Proof.
  intros Hm Hv Hf. unfold fits in Hf. destruct (getNumDataCodewords ver ecl) as [n|] eqn:En; [|done].
  apply andb_true_iff in Hf as [Hne%negb_true_iff%Z.eqb_neq Hle%Z.leb_le].
  assert (Forall plain_segment segs) as Hp.
  { clear -Hm. induction Hm as [|i seg items segs Hi _ IH]; constructor; [|done].
    destruct (made_item _ _ Hi) as (? & ? & _). by split. }
  destruct (total_bits_spec segs ver 0 Hp ltac:(lia) Hne) as [Hfit Htot]. fold (getTotalBits segs ver) in Htot.
  set (bb := List.concat (map (segment_bits ver) segs)) in *.
  destruct (pad_stream_ok (n * 8) bb) as (rest & Epad & Hlen & Hz);
    [lia|Z.to_euclidean_division_equations; lia|].
  destruct (pack_bits_ok (app bb rest)) as (cw & Epack & Ho & Hlc & Hbits);
    [rewrite Hlen; Z.to_euclidean_division_equations; lia|].
  exists n, bb, (app bb rest), cw. split; [done|]. split; [by apply append_segments_ok|].
  split; [lia|]. split; [done|]. split; [done|]. split; [done|]. split; [done|].
  split; [rewrite Hlc, Hlen; Z.to_euclidean_division_equations; lia|].
  rewrite Hbits. apply read_segments; [done|done|]. intros fuel Hfuel. by apply read_end.
Qed.

Lemma encoded_read items segs ecl minVersion maxVersion msk boostEcl :
  Forall2 (λ i seg, make_item i = Ok seg) items segs ->
  1 <= minVersion <= maxVersion -> maxVersion <= 40 -> -1 <= msk <= 7 ->
  (exists q, encodeSegments segs ecl minVersion maxVersion msk boostEcl = Ok q /\
     read_code (modules q) = Some items /\ minVersion <= version q <= maxVersion /\
     fits segs ecl (version q) = true /\ fits segs (errorCorrectionLevel q) (version q) = true /\
     (boostEcl = false -> errorCorrectionLevel q = ecl) /\
     forall v, minVersion <= v < version q -> fits segs ecl v = false) \/
  (encodeSegments segs ecl minVersion maxVersion msk boostEcl = Throw data_too_long /\
     forall v, minVersion <= v <= maxVersion -> fits segs ecl v = false).
Proof.
  intros Hi Hmin Hmax Hm. unfold encodeSegments, MIN_VERSION, MAX_VERSION.
  rewrite (proj2 (Z.leb_le 1 minVersion)), (proj2 (Z.leb_le minVersion maxVersion)),
    (proj2 (Z.leb_le maxVersion 40)), (proj2 (Z.ltb_ge msk (-1))), (proj2 (Z.ltb_ge 7 msk)) by lia.
  cbn [andb orb negb ensure mbind Result_bind].
  destruct (find_version_ok segs ecl maxVersion (Z.to_nat (maxVersion - minVersion)) minVersion)
    as [(ver & E & Hv & Hf & Hb)|[E Hb]]; [lia..|left|right]; rewrite E; cbn [mbind Result_bind]; [|done].
  destruct (boost_ok segs ecl ver boostEcl ltac:(lia) Hf) as (ecl' & Eb & Hf' & Hsame).
  destruct (segments_packed items segs ecl' ver Hi ltac:(lia) Hf')
    as (n & bb & padded & cw & En & Ebb & Hlb & Hne & Epad & Ecw & Ho & Hlc & Hread).
  rewrite (proj2 (Z.eqb_neq _ _) Hne). cbn [negb asserts ensure mbind Result_bind].
  rewrite Eb. cbn [mbind Result_bind]. rewrite Ebb. cbn [mbind Result_bind].
  rewrite (proj2 (Z.eqb_eq _ _) Hlb). cbn [asserts ensure mbind Result_bind].
  rewrite En. cbn [mbind Result_bind]. rewrite Epad. cbn [mbind Result_bind]. rewrite Ecw.
  cbn [mbind Result_bind].
  destruct (base_code_made ver ecl' cw n ltac:(lia) Ho En Hlc) as (p & q & raw & Hbase).
  destruct (new_any ver ecl' cw p q raw ltac:(lia) Hbase msk Hm) as (k & r & Hk & Er & ->).
  eexists. split; [done|]. cbn [version errorCorrectionLevel modules]. split; [|done].
  unfold read_code. rewrite (codewords_read ver ecl' cw p q raw ltac:(lia) Hbase k r Hk Er).
  cbn [mbind option_bind]. by rewrite (base_data _ _ _ _ _ _ Hbase).
Qed.

(** C18. Segments made of digits, alphanumeric text, octets or ECI designators are
    either encoded in the first version of the range that has room for them, with
    the level that was asked for unless it may be raised, as a code from which the
    reader gets back exactly these segments; or none of the versions has room and
    the exception says that the data are too long. There is no other outcome: no
    assertion fails and no access is out of range. The reader has the tables of the
    standard, and the pattern of the masks, in common with the encoder. *)
Theorem segments_read_back items segs ecl minVersion maxVersion msk boostEcl :
  Forall2 (λ i seg, make_item i = Ok seg) items segs ->
  1 <= minVersion <= maxVersion -> maxVersion <= 40 -> -1 <= msk <= 7 ->
  (exists q, encodeSegments segs ecl minVersion maxVersion msk boostEcl = Ok q /\
     read_code (modules q) = Some items /\ minVersion <= version q <= maxVersion /\
     fits segs ecl (version q) = true /\ fits segs (errorCorrectionLevel q) (version q) = true /\
     (boostEcl = false -> errorCorrectionLevel q = ecl) /\
     forall v, minVersion <= v < version q -> fits segs ecl v = false) \/
  (encodeSegments segs ecl minVersion maxVersion msk boostEcl = Throw data_too_long /\
     forall v, minVersion <= v <= maxVersion -> fits segs ecl v = false).
Proof. apply encoded_read. Qed.

Lemma segments_read_back_witness :
  let bytes := mkSegment BYTE 3 (app (bits_of 1 8) (app (bits_of 2 8) (bits_of 3 8))) in
  Forall2 (λ i seg, make_item i = Ok seg) [IBytes [1; 2; 3]] [bytes] /\
  ((exists q, encodeSegments [bytes] LOW 1 5 (-1) true = Ok q /\
     read_code (modules q) = Some [IBytes [1; 2; 3]] /\ 1 <= version q <= 5 /\
     fits [bytes] LOW (version q) = true /\ fits [bytes] (errorCorrectionLevel q) (version q) = true /\
     (true = false -> errorCorrectionLevel q = LOW) /\
     forall v, 1 <= v < version q -> fits [bytes] LOW v = false) \/
   (encodeSegments [bytes] LOW 1 5 (-1) true = Throw data_too_long /\
     forall v, 1 <= v <= 5 -> fits [bytes] LOW v = false)).
Proof.
  assert (Forall2 (λ i seg, make_item i = Ok seg) [IBytes [1; 2; 3]]
    [mkSegment BYTE 3 (app (bits_of 1 8) (app (bits_of 2 8) (bits_of 3 8)))]) as H.
  { constructor; [vm_compute; done|constructor]. }
  split; [exact H|]. apply (segments_read_back _ _ LOW 1 5 (-1) true H); lia.
Defined.

(** ** Text *)
Lemma makeBytes_total l : octets l -> Z.of_nat (length l) <= INT_MAX -> exists seg, makeBytes l = Ok seg.
Proof.
  intros Ho Hl. unfold makeBytes. rewrite (proj2 (Z.leb_le _ _)) by done. cbn [ensure mbind Result_bind].
  destruct (for_in_inv (λ _ _, True) (λ b bb, appendBits b 8 bb) l []) as (bb & E & _); [done| |].
  - intros i b bb Eb _. pose proof (proj1 (list.Forall_lookup _ _) Ho _ _ Eb) as Hb.
    apply octet_spec in Hb. rewrite appendBits_ok by (cbn; lia). by eexists.
  - rewrite E. cbn [mbind Result_bind]. unfold QrSegment_new. rewrite (proj2 (Z.ltb_ge _ _)) by lia. by eexists.
Qed.

Lemma alphanumeric_total l d k n bb :
  isAlphanumeric l = true -> 0 <= n -> (k = 0 /\ d = 0 \/ k = 1 /\ 0 <= d < 45) ->
  exists seg, alphanumeric_loop l d k n bb = Ok seg.
Proof.
  revert d k n bb. induction l as [|c l IH]; intros d k n bb Ha Hn Hk; cbn [alphanumeric_loop].
  - assert (exists bb', (if 0 <? k then appendBits d 6 bb else Ok bb) = Ok bb') as [bb' ->].
    { destruct Hk as [[-> _]|[-> Hd]]; [by eexists|]. cbn [Z.ltb Z.compare].
      rewrite appendBits_ok by (cbn; lia). by eexists. }
    cbn [mbind Result_bind]. unfold QrSegment_new. rewrite (proj2 (Z.ltb_ge _ _)) by lia. by eexists.
  - cbn [isAlphanumeric forallb] in Ha. apply andb_true_iff in Ha as [Hc Ha].
    destruct (position c ALPHANUMERIC_CHARSET) as [i|] eqn:Ei; [|done].
    apply charset_position in Ei as [Hi _]. cbv zeta. destruct Hk as [[-> ->]|[-> Hd]].
    + apply IH; [done|lia|]. right. lia.
    + cbn [Z.add Pos.add Z.eqb Pos.eqb]. rewrite appendBits_ok by (cbn; lia). cbn [mbind Result_bind].
      apply IH; [done|lia|by left].
Qed.

(** The text of what was read. *)
Definition item_text (i : Item) : list Z :=
  match i with INumeric t | IAlphanumeric t | IBytes t => t | IEci _ => [] end.
Definition read_text (g : Grid) : option (list Z) :=
  items ← read_code g; Some (List.concat (map item_text items)).

Lemma makeSegments_total text :
  octets text -> Z.of_nat (length text) <= INT_MAX ->
  exists items segs, makeSegments text = Ok segs /\ Forall2 (λ i seg, make_item i = Ok seg) items segs /\
    List.concat (map item_text items) = text.
Proof.
  intros Ho Hl. unfold makeSegments. destruct text as [|c text]; [by exists [], []|].
  set (t := c :: text) in *.
  assert (exists i seg, make_item i = Ok seg /\ item_text i = t /\
    (if isNumeric t then makeNumeric t else if isAlphanumeric t then makeAlphanumeric t else makeBytes t)
      = Ok seg) as (i & seg & Hi & Ht & ->).
  { destruct (isNumeric t) eqn:En; [|destruct (isAlphanumeric t) eqn:Ea].
    - assert (Forall digit t) as Hd.
      { unfold isNumeric in En. rewrite forallb_forall in En. apply list.Forall_forall.
        intros x Hx%list_elem_of_In%En. apply negb_true_iff, orb_false_iff in Hx as [?%Z.ltb_ge ?%Z.ltb_ge].
        by split. }
      destruct (numeric_read t 0 [] Hd ltac:(lia)) as (bits & E & _). by eexists (INumeric t), _.
    - destruct (alphanumeric_total t 0 0 0 [] Ea ltac:(lia) ltac:(by left)) as [seg E].
      by exists (IAlphanumeric t), seg.
    - destruct (makeBytes_total t Ho Hl) as [seg E]. by exists (IBytes t), seg. }
  exists [i], [seg]. split; [done|]. split; [by repeat constructor|]. cbn. by rewrite app_nil_r.
Qed.

(** A text is encoded as a code that reads as that text, or it is too long for
    every version at the level asked for. *)
Theorem text_read_back text ecl :
  octets text -> Z.of_nat (length text) <= INT_MAX ->
  (exists q, encodeText text ecl = Ok q /\ read_text (modules q) = Some text) \/
  encodeText text ecl = Throw data_too_long.
Proof.
  intros Ho Hl. unfold encodeText. destruct (makeSegments_total text Ho Hl) as (items & segs & E & Hm & Ht).
  rewrite E. cbn [mbind Result_bind].
  destruct (encoded_read items segs ecl 1 40 (-1) true Hm) as [(q & Eq & Hr & _)|[Eq _]]; [lia..|left|by right].
  exists q. split; [done|]. unfold read_text. rewrite Hr. cbn [mbind option_bind]. by rewrite Ht.
Qed.

Lemma text_read_back_witness :
  octets [72; 105; 33] /\
  ((exists q, encodeText [72; 105; 33] MEDIUM = Ok q /\ read_text (modules q) = Some [72; 105; 33]) \/
   encodeText [72; 105; 33] MEDIUM = Throw data_too_long).
Proof.
  assert (octets [72; 105; 33]) as H by (by repeat constructor).
  split; [exact H|]. apply (text_read_back [72; 105; 33] MEDIUM H). done.
Defined.
