(* ===== verification/WindowsFirewall.v ===== *)
(** * The kill switch on Windows

    Model of [WindowsFirewall] (client/platforms/windows/daemon/windowsfirewall.cpp):
    the filters it adds to its sublayer of the Windows Filtering Platform, the
    transactions it adds them in, and the identifiers it keeps to take them away
    again. The filter engine is a type class. *)
From Stdlib Require Import ZArith Lia Ascii String.
From stdpp Require Import base gmap list option strings.
From S2P Require Import Prelude HostAddress QtString IpAddress InterfaceConfig.
Local Open Scope string_scope.
Local Open Scope Z_scope.

(** ** Filters *)
Inductive Layer :=
| ALE_AUTH_CONNECT_V4 | ALE_AUTH_CONNECT_V6
| ALE_AUTH_RECV_ACCEPT_V4 | ALE_AUTH_RECV_ACCEPT_V6
| OUTBOUND_MAC_FRAME_NATIVE | INBOUND_MAC_FRAME_NATIVE.
#[export] Instance Layer_eq_dec : EqDecision Layer.
Proof. solve_decision. Defined.

Inductive Field :=
| ALE_APP_ID | INTERFACE_INDEX | IP_PROTOCOL | IP_REMOTE_PORT | IP_LOCAL_PORT
| IP_REMOTE_ADDRESS | L2_FLAGS.
#[export] Instance Field_eq_dec : EqDecision Field.
Proof. solve_decision. Defined.

(** [FWP_VALUE0]: numbers, sixteen octets, or the identifier of an application. *)
Inductive Value := Num (n : Z) | ByteArray16 (l : list Z) | AppId (blob : string).
#[export] Instance Value_eq_dec : EqDecision Value.
Proof. solve_decision. Defined.

Inductive MatchValue := MatchEqual (v : Value) | MatchRange (valueLow valueHigh : Value).

Record Condition := mkCond { fieldKey : Field; matchValue : MatchValue }.

Inductive Action := ACTION_PERMIT | ACTION_BLOCK.
#[export] Instance Action_eq_dec : EqDecision Action.
Proof. solve_decision. Defined.

(** [FWPM_FILTER0]; all filters are in the sublayer of the class.
    [clearActionRight] is FWPM_FILTER_FLAG_CLEAR_ACTION_RIGHT. *)
Record Filter := mkFilter {
  layerKey : Layer;
  filterCondition : list Condition;
  action : Action;
  weight : Z;
  clearActionRight : bool;
  displayName : string;
  displayDescription : string
}.
Definition set_layer (l : Layer) (f : Filter) : Filter :=
  mkFilter l (filterCondition f) (action f) (weight f) (clearActionRight f) (displayName f) (displayDescription f).
Definition set_display (name description : string) (f : Filter) : Filter :=
  mkFilter (layerKey f) (filterCondition f) (action f) (weight f) (clearActionRight f) name description.

Definition LOW_WEIGHT : Z := 0.
Definition MED_WEIGHT : Z := 7.
Definition HIGH_WEIGHT : Z := 13.
Definition MAX_WEIGHT : Z := 15.
Definition IPPROTO_TCP : Z := 6.
Definition IPPROTO_UDP : Z := 17.
Definition L2_IS_VM2VM : Z := 16.

Record NetworkInterface := mkNetIf { if_index : Z; if_name : string; if_loopback : bool }.

(** ** The filter engine

    The calls on the session of the class ([true] for ERROR_SUCCESS), the calls
    [init] makes on a session of its own, and what is asked of the machine. *)
Class FilterEngine (W : Type) := {
  FwpmEngineOpen0 : StateM W bool;
  FwpmTransactionBegin : StateM W bool;
  FwpmTransactionCommit0 : StateM W bool;
  FwpmTransactionAbort0 : StateM W unit;
  FwpmFilterAdd0 : Filter -> StateM W (option Z);
  FwpmFilterDeleteById0 : Z -> StateM W unit;
  FwpmGetAppIdFromFileName0 : string -> W -> option string;
  init_EngineOpen0 : StateM W bool;
  init_SubLayerGetByKey0 : W -> bool;
  init_TransactionBegin : StateM W bool;
  init_SubLayerAdd0 : StateM W bool;
  init_TransactionCommit0 : StateM W bool;
  init_EngineClose0 : StateM W unit;
  CloseHandle : StateM W unit;
  GetModuleFileNameA : Z -> W -> Z * string;
  allInterfaces : W -> list NetworkInterface
}.

(** [m_sessionHandle] has no initialiser in the class. *)
Inductive Handle := INVALID_HANDLE_VALUE | EngineHandle | UninitialisedHandle.
#[export] Instance Handle_eq_dec : EqDecision Handle.
Proof. solve_decision. Defined.

Record WindowsFirewall (W : Type) := mkFirewall {
  m_sessionHandle : Handle;
  m_init : bool;
  m_activeRules : list Z;
  m_peerRules : list (string * Z);
  m_engine : W
}.
Arguments mkFirewall {W} _ _ _ _ _.
Arguments m_sessionHandle {W} _.
Arguments m_init {W} _.
Arguments m_activeRules {W} _.
Arguments m_peerRules {W} _.
Arguments m_engine {W} _.

Section Firewall.
Context {W : Type} `{FilterEngine W} `{AddressPrinter} `{AddressParser}.
Implicit Types (fw : WindowsFirewall W).

Definition set_engine (w : W) fw :=
  mkFirewall (m_sessionHandle fw) (m_init fw) (m_activeRules fw) (m_peerRules fw) w.
Definition set_handle (h : Handle) fw :=
  mkFirewall h (m_init fw) (m_activeRules fw) (m_peerRules fw) (m_engine fw).
Definition set_init (b : bool) fw :=
  mkFirewall (m_sessionHandle fw) b (m_activeRules fw) (m_peerRules fw) (m_engine fw).
Definition set_activeRules (l : list Z) fw :=
  mkFirewall (m_sessionHandle fw) (m_init fw) l (m_peerRules fw) (m_engine fw).
Definition set_peerRules (l : list (string * Z)) fw :=
  mkFirewall (m_sessionHandle fw) (m_init fw) (m_activeRules fw) l (m_engine fw).

Definition on_engine {A} (m : StateM W A) : StateM (WindowsFirewall W) A := λ fw,
  let '(a, w) := m (m_engine fw) in (a, set_engine w fw).
Definition ask {A} (f : W -> A) : StateM (WindowsFirewall W) A := gets (λ fw, f (m_engine fw)).

(** The constructor, over whatever engine there is. *)
Definition WindowsFirewall_new (w : W) : WindowsFirewall W :=
  let '(ok, fw) := on_engine FwpmEngineOpen0 (mkFirewall UninitialisedHandle false [] [] w) in
  if ok then set_handle EngineHandle fw else fw.

(** The destructor; the engine is closed as if it were a file. *)
Definition WindowsFirewall_delete : StateM (WindowsFirewall W) unit :=
  handle <- gets m_sessionHandle ;;
  if bool_decide (handle = INVALID_HANDLE_VALUE) then sret tt else on_engine CloseHandle.

Definition init : StateM (WindowsFirewall W) bool :=
  initialised <- gets m_init ;;
  if (initialised : bool) then sret true
  else
    handle <- gets m_sessionHandle ;;
    if bool_decide (handle = INVALID_HANDLE_VALUE) then sret false
    else
      ok <- on_engine init_EngineOpen0 ;;
      if negb ok then sret false
      else
        exists_ <- ask init_SubLayerGetByKey0 ;;
        if (exists_ : bool) then on_engine init_EngineClose0 ;; sret true
        else
          ok <- on_engine init_TransactionBegin ;;
          if negb ok then on_engine init_EngineClose0 ;; sret false
          else
            ok <- on_engine init_SubLayerAdd0 ;;
            if negb ok then on_engine init_EngineClose0 ;; sret false
            else
              ok <- on_engine init_TransactionCommit0 ;;
              if negb ok then on_engine init_EngineClose0 ;; sret false
              else modify (set_init true) ;; on_engine init_EngineClose0 ;; sret true.

Definition enableFilter (filter : Filter) (title description peer : string) : StateM (WindowsFirewall W) bool :=
  result <- on_engine (FwpmFilterAdd0 (set_display title description filter)) ;;
  match result with
  | None => sret false
  | Some filterID =>
      (if bool_decide (peer = "")
       then modify (λ fw, set_activeRules (app (m_activeRules fw) [filterID]) fw)
       else modify (λ fw, set_peerRules ((peer, filterID) :: m_peerRules fw) fw)) ;;
      sret true
  end.

(** A filter is added once for every layer, with a description of its own. *)
Fixpoint enableFilters (filter : Filter) (title peer : string) (layers : list (Layer * string)) :
    StateM (WindowsFirewall W) bool :=
  match layers with
  | [] => sret true
  | (layer, description) :: layers =>
      ok <- enableFilter (set_layer layer filter) title description peer ;;
      if (ok : bool) then enableFilters filter title peer layers else sret false
  end.

(** The filter before its layer is set. *)
Definition base_filter (conds : list Condition) (act : Action) (w : Z) (hard : bool) : Filter :=
  mkFilter ALE_AUTH_CONNECT_V4 conds act w hard "" "".
Definition equals (f : Field) (n : Z) : Condition := mkCond f (MatchEqual (Num n)).

Definition importAddress (addr : QHostAddress) : Value :=
  if bool_decide (protocol addr = IPv4Protocol) then Num (toIPv4Address addr)
  else ByteArray16 (toIPv6Address addr).

Definition getCurrentPath (w : W) : string :=
  let '(ok, path) := GetModuleFileNameA 2048 w in
  let '(ok, path) := if ok =? 122 then GetModuleFileNameA 4096 w else (ok, path) in
  if ok =? 0 then "" else path.

(** [QFileInfo(path).baseName()]: the file name up to its first dot. *)
Definition baseName (path : string) : string :=
  let path := replace_all (String "092"%char "") "/" path in
  let name := mid (lastIndexOf path "/" + 1) path in
  let dot := indexOf name "." in
  if dot =? -1 then name else left_chars dot name.

Definition allowTrafficForAppOnAll (exePath : string) (weight : Z) (title : string) :
    StateM (WindowsFirewall W) bool :=
  let appName := baseName exePath in
  appID <- ask (FwpmGetAppIdFromFileName0 exePath) ;;
  match appID with
  | None => sret false
  | Some appID =>
      enableFilters (base_filter [mkCond ALE_APP_ID (MatchEqual (AppId appID))] ACTION_PERMIT weight true)
        title "" [(ALE_AUTH_CONNECT_V4, "Permit (out) IPv4 Traffic of: " +:+ appName);
                  (ALE_AUTH_RECV_ACCEPT_V4, "Permit (in) IPv4 Traffic of: " +:+ appName)]
  end.

Definition allowTrafficOfAdapter (networkAdapter weight : Z) (title : string) :
    StateM (WindowsFirewall W) bool :=
  let description dir := "Allow " +:+ dir +:+ " traffic on Adapter " +:+ number networkAdapter in
  enableFilters (base_filter [equals INTERFACE_INDEX (u32 networkAdapter)] ACTION_PERMIT weight false)
    title "" [(ALE_AUTH_CONNECT_V4, description "out"); (ALE_AUTH_RECV_ACCEPT_V4, description "in");
              (ALE_AUTH_CONNECT_V6, description "out"); (ALE_AUTH_RECV_ACCEPT_V6, description "in")].

Definition allowTrafficTo (targetIP : QHostAddress) (port weight : Z) (title peer : string) :
    StateM (WindowsFirewall W) bool :=
  let isIPv4 := bool_decide (protocol targetIP = IPv4Protocol) in
  let layerOut := if isIPv4 then ALE_AUTH_CONNECT_V4 else ALE_AUTH_CONNECT_V6 in
  let layerIn := if isIPv4 then ALE_AUTH_RECV_ACCEPT_V4 else ALE_AUTH_RECV_ACCEPT_V6 in
  let description dir :=
    "Permit traffic " +:+ dir +:+ " " +:+ printHost targetIP +:+ " on port " +:+ number port in
  enableFilters
    (base_filter [equals IP_PROTOCOL IPPROTO_UDP; equals IP_PROTOCOL IPPROTO_TCP;
                  equals IP_REMOTE_PORT (u16 port);
                  mkCond IP_REMOTE_ADDRESS (MatchEqual (importAddress targetIP))]
       ACTION_PERMIT weight true)
    title peer [(layerOut, description "to"); (layerIn, description "from")].

(** [allowTrafficToRange] and [blockTrafficTo] differ in the action and in a word
    of the description. *)
Definition traffic_to_range (act : Action) (verb : string) (addr : IPAddress) (weight : Z)
    (title peer : string) : StateM (WindowsFirewall W) bool :=
  let isV4 := bool_decide (protocol (m_address addr) = IPv4Protocol) in
  let layerKeyOut := if isV4 then ALE_AUTH_CONNECT_V4 else ALE_AUTH_CONNECT_V6 in
  let layerKeyIn := if isV4 then ALE_AUTH_RECV_ACCEPT_V4 else ALE_AUTH_RECV_ACCEPT_V6 in
  let description dir := verb +:+ " traffic " +:+ dir +:+ " " +:+ ip_toString addr +:+ " " in
  enableFilters
    (base_filter [mkCond IP_REMOTE_ADDRESS (MatchRange (importAddress (m_address addr))
                                                       (importAddress (broadcastAddress addr)))]
       act weight false)
    title peer [(layerKeyOut, description "to"); (layerKeyIn, description "from")].
Definition allowTrafficToRange := traffic_to_range ACTION_PERMIT "Allow".
Definition blockTrafficTo := traffic_to_range ACTION_BLOCK "Block".
Definition blockTrafficToAll (rangeList : list IPAddress) (weight : Z) (title peer : string) :
    StateM (WindowsFirewall W) bool :=
  for_all rangeList (λ range, blockTrafficTo range weight title peer).

Definition dhcp_conditions : list Condition :=
  [equals IP_PROTOCOL IPPROTO_UDP; equals IP_LOCAL_PORT 68; equals IP_REMOTE_PORT 67].
Definition allowDHCPTraffic (weight : Z) (title : string) : StateM (WindowsFirewall W) bool :=
  ok <- enableFilters
          (base_filter (app dhcp_conditions [equals IP_REMOTE_ADDRESS 4294967295]) ACTION_PERMIT weight false)
          title "" [(ALE_AUTH_CONNECT_V4, "Allow Outbound DHCP")] ;;
  if negb ok then sret false
  else
    enableFilters (base_filter dhcp_conditions ACTION_PERMIT weight false) title ""
      [(ALE_AUTH_RECV_ACCEPT_V4, "Allow inbound DHCP"); (ALE_AUTH_CONNECT_V6, "Allow outbound DHCPv6");
       (ALE_AUTH_RECV_ACCEPT_V6, "Allow inbound DHCPv6")].

Definition allowHyperVTraffic (weight : Z) (title : string) : StateM (WindowsFirewall W) bool :=
  enableFilters (base_filter [equals L2_FLAGS L2_IS_VM2VM] ACTION_PERMIT weight false) title ""
    [(OUTBOUND_MAC_FRAME_NATIVE, "Permit Hyper-V => Hyper-V outbound");
     (INBOUND_MAC_FRAME_NATIVE, "Permit Hyper-V => Hyper-V inbound")].

Definition blockTrafficOnPort (port weight : Z) (title : string) : StateM (WindowsFirewall W) bool :=
  let description dir := "Block " +:+ dir +:+ " on Port " +:+ number port in
  enableFilters
    (base_filter [equals IP_PROTOCOL IPPROTO_UDP; equals IP_PROTOCOL IPPROTO_TCP;
                  equals IP_REMOTE_PORT (u16 port)] ACTION_BLOCK weight false)
    title "" [(ALE_AUTH_CONNECT_V6, description "outgoing v6"); (ALE_AUTH_CONNECT_V4, description "outgoing v4");
              (ALE_AUTH_RECV_ACCEPT_V4, description "incoming v4");
              (ALE_AUTH_RECV_ACCEPT_V6, description "incoming v6")].

Definition allowLoopbackTraffic (weight : Z) (title : string) : StateM (WindowsFirewall W) bool :=
  networkInterfaces <- ask allInterfaces ;;
  for_all networkInterfaces (λ iface,
    if negb (if_loopback iface) then sret true
    else allowTrafficOfAdapter (if_index iface) weight (replace_all "%1" (if_name iface) title)).

(** ** The kill switch *)
Definition disableKillSwitch : StateM (WindowsFirewall W) bool :=
  ok <- on_engine FwpmTransactionBegin ;;
  if negb ok then on_engine FwpmTransactionAbort0 ;; sret false
  else
    peerRules <- gets m_peerRules ;;
    for_each peerRules (λ rule, on_engine (FwpmFilterDeleteById0 rule.2)) ;;
    activeRules <- gets m_activeRules ;;
    for_each activeRules (λ rule, on_engine (FwpmFilterDeleteById0 rule)) ;;
    ok <- on_engine FwpmTransactionCommit0 ;;
    if negb ok then on_engine FwpmTransactionAbort0 ;; sret false
    else
      modify (set_peerRules []) ;;
      modify (set_activeRules []) ;;
      sret true.

(** The macro FW_OK around one rule, and what comes after it. *)
Definition FW_OK (rule rest : StateM (WindowsFirewall W) bool) : StateM (WindowsFirewall W) bool :=
  ok <- on_engine FwpmTransactionBegin ;;
  if negb ok then disableKillSwitch ;; sret false
  else
    ok <- rule ;;
    if negb ok then on_engine FwpmTransactionAbort0 ;; disableKillSwitch ;; sret false
    else
      ok <- on_engine FwpmTransactionCommit0 ;;
      if negb ok then sret false else rest.

Definition enableKillSwitch (vpnAdapterIndex : Z) : StateM (WindowsFirewall W) bool :=
  FW_OK (allowTrafficOfAdapter vpnAdapterIndex MED_WEIGHT "Allow usage of VPN Adapter")
  (FW_OK (allowDHCPTraffic MED_WEIGHT "Allow DHCP Traffic")
  (FW_OK (allowHyperVTraffic MED_WEIGHT "Allow Hyper-V Traffic")
  (FW_OK (path <- ask getCurrentPath ;;
          allowTrafficForAppOnAll path MAX_WEIGHT "Allow all for ZloVPN.exe")
  (FW_OK (blockTrafficOnPort 53 MED_WEIGHT "Block all DNS")
  (FW_OK (allowLoopbackTraffic MED_WEIGHT "Allow Loopback traffic on device %1")
  (sret true)))))).

(** The filters of a peer, without the transaction around them. *)
Definition peer_filters (config : InterfaceConfig) : StateM (WindowsFirewall W) bool :=
  let peer := qchars (m_serverPublicKey config) in
  ok <- blockTrafficToAll (m_allowedIPAddressRanges config) LOW_WEIGHT "Block Internet" peer ;;
  if negb ok then sret false
  else
    ok <- (if negb (bool_decide (qchars (m_dnsServer config) = "")) then
             ok <- allowTrafficTo (parseHost (qchars (m_dnsServer config))) 53 HIGH_WEIGHT
                     "Allow DNS-Server" peer ;;
             if negb ok then sret false
             else if qs_eqb (m_dnsServer config) (m_serverIpv4Gateway config) then
               allowTrafficTo (parseHost (qchars (m_serverIpv6Gateway config))) 53 HIGH_WEIGHT
                 "Allow extra IPv6 DNS-Server" peer
             else sret true
           else sret true) ;;
    if negb ok then sret false
    else
      for_all (m_excludedAddresses config) (λ i,
        allowTrafficToRange (fromString i) HIGH_WEIGHT "Allow Ecxlude route" peer).

Definition enablePeerTraffic (config : InterfaceConfig) : StateM (WindowsFirewall W) bool :=
  ok <- on_engine FwpmTransactionBegin ;;
  if negb ok then disableKillSwitch ;; sret false
  else
    ok <- peer_filters config ;;
    if negb ok then on_engine FwpmTransactionAbort0 ;; disableKillSwitch ;; sret false
    else
      ok <- on_engine FwpmTransactionCommit0 ;;
      if negb ok then on_engine FwpmTransactionAbort0 ;; disableKillSwitch ;; sret false
      else sret true.

(** [QMultiMap::values(key)] and [remove(key, value)]. *)
Definition rules_of (peer : string) (rules : list (string * Z)) : list Z :=
  map snd (filter (λ r, r.1 = peer) rules).
Definition remove_rule (peer : string) (id : Z) (rules : list (string * Z)) : list (string * Z) :=
  filter (λ r, r <> (peer, id)) rules.

Definition disablePeerTraffic (pubkey : string) : StateM (WindowsFirewall W) bool :=
  ok <- on_engine FwpmTransactionBegin ;;
  if negb ok then on_engine FwpmTransactionAbort0 ;; sret false
  else
    rules <- gets (λ fw, rules_of pubkey (m_peerRules fw)) ;;
    for_each rules (λ filterID,
      on_engine (FwpmFilterDeleteById0 filterID) ;;
      modify (λ fw, set_peerRules (remove_rule pubkey filterID (m_peerRules fw)) fw)) ;;
    ok <- on_engine FwpmTransactionCommit0 ;;
    if negb ok then on_engine FwpmTransactionAbort0 ;; sret false
    else sret true.
End Firewall.
