(* ===== verification/WindowsFirewallProperties.v ===== *)
(** * What the kill switch on Windows does

    The documented behaviour of the filter engine, the traffic that the filters of
    WindowsFirewall.v let through, and that they are all taken away again. *)
From Stdlib Require Import ZArith Lia Ascii String.
From stdpp Require Import base gmap list option strings.
From S2P Require Import Prelude HostAddress QtString IpAddress InterfaceConfig WindowsFirewall.
Local Open Scope string_scope.
Local Open Scope Z_scope.

(** ** The engine

    [installed] are the filters of the sublayer as the session sees them,
    [transaction] is what an abort goes back to. A commit that fails leaves the
    transaction open or undoes it. *)
Class EngineView (W : Type) := {
  installed : W -> gmap Z Filter;
  transaction : W -> option (gmap Z Filter)
}.
Definition queries {W} `{FilterEngine W} (w : W) :=
  ((λ n, GetModuleFileNameA n w), (λ p, FwpmGetAppIdFromFileName0 p w), allInterfaces w).

Class EngineLaws (W : Type) `{FilterEngine W} `{EngineView W} : Prop := {
  begin_law w : let '(ok, w') := FwpmTransactionBegin w in
    installed w' = installed w /\ queries w' = queries w /\
    transaction w' = (if ok then Some (installed w) else transaction w) /\
    (ok = true -> transaction w = None);
  commit_law w : let '(ok, w') := FwpmTransactionCommit0 w in
    queries w' = queries w /\
    (if ok then installed w' = installed w /\ transaction w' = None
     else (installed w' = installed w /\ transaction w' = transaction w) \/
          (installed w' = default (installed w) (transaction w) /\ transaction w' = None));
  abort_law w : let w' := (FwpmTransactionAbort0 w).2 in
    queries w' = queries w /\
    installed w' = default (installed w) (transaction w) /\ transaction w' = None;
  add_law f w : let '(r, w') := FwpmFilterAdd0 f w in
    queries w' = queries w /\ transaction w' = transaction w /\
    match r with
    | None => installed w' = installed w
    | Some id => installed w' = <[id := f]> (installed w) /\ installed w !! id = None /\
                 forall snap, transaction w = Some snap -> snap !! id = None
    end;
  delete_law id w : let w' := (FwpmFilterDeleteById0 id w).2 in
    queries w' = queries w /\ transaction w' = transaction w /\
    installed w' = delete id (installed w)
}.

(** ** A simulated engine

    It adds filters under numbers that are not in use, and knows the programs that
    are installed. *)
Record SimEngine := mkEngine {
  se_filters : gmap Z Filter;
  se_snapshot : option (gmap Z Filter);
  se_interfaces : list NetworkInterface;
  se_programs : list string
}.
Definition unused (m : gmap Z Filter) : Z := 1 + foldr Z.max 0 (map fst (map_to_list m)).
Lemma unused_fresh m : m !! unused m = None.
Proof.
  apply eq_None_not_Some. intros [f Hf%elem_of_map_to_list].
  assert (forall l (x : Z), x ∈ l -> x <= foldr Z.max 0 l) as Hmax.
  { induction l as [|y l IH]; intros x Hx; [by apply not_elem_of_nil in Hx|]. cbn.
    apply elem_of_cons in Hx as [->|Hx]; [lia|]. specialize (IH x Hx). lia. }
  specialize (Hmax (map fst (map_to_list m)) (unused m)). unfold unused in Hmax, Hf.
  enough (1 + foldr Z.max 0 (map fst (map_to_list m)) <= foldr Z.max 0 (map fst (map_to_list m))) by lia.
  apply Hmax. apply list_elem_of_fmap. by eexists (_, _).
Qed.
Definition next_id (e : SimEngine) : Z := unused (se_filters e ∪ default ∅ (se_snapshot e)).

#[export] Instance sim_engine : FilterEngine SimEngine := {
  FwpmEngineOpen0 := λ e, (true, e);
  FwpmTransactionBegin := λ e,
    match se_snapshot e with
    | Some _ => (false, e)
    | None => (true, mkEngine (se_filters e) (Some (se_filters e)) (se_interfaces e) (se_programs e))
    end;
  FwpmTransactionCommit0 := λ e, (true, mkEngine (se_filters e) None (se_interfaces e) (se_programs e));
  FwpmTransactionAbort0 := λ e,
    (tt, mkEngine (default (se_filters e) (se_snapshot e)) None (se_interfaces e) (se_programs e));
  FwpmFilterAdd0 := λ f e,
    let id := next_id e in
    (Some id, mkEngine (<[id := f]> (se_filters e)) (se_snapshot e) (se_interfaces e) (se_programs e));
  FwpmFilterDeleteById0 := λ id e,
    (tt, mkEngine (delete id (se_filters e)) (se_snapshot e) (se_interfaces e) (se_programs e));
  FwpmGetAppIdFromFileName0 := λ p e, if bool_decide (p ∈ se_programs e) then Some p else None;
  init_EngineOpen0 := λ e, (true, e);
  init_SubLayerGetByKey0 := λ _, true;
  init_TransactionBegin := λ e, (true, e);
  init_SubLayerAdd0 := λ e, (true, e);
  init_TransactionCommit0 := λ e, (true, e);
  init_EngineClose0 := λ e, (tt, e);
  CloseHandle := λ e, (tt, e);
  GetModuleFileNameA := λ _ _, (11, "ZloVPN.exe");
  allInterfaces := se_interfaces
}.
#[export] Instance sim_engine_view : EngineView SimEngine := {
  installed := se_filters; transaction := se_snapshot
}.
#[export] Instance sim_engine_laws : EngineLaws SimEngine.
Proof.
  split; intros; cbn.
  - by destruct (se_snapshot w) eqn:E; cbn; rewrite ?E.
  - done.
  - done.
  - pose proof (unused_fresh (se_filters w ∪ default ∅ (se_snapshot w))) as Hf.
    apply lookup_union_None in Hf as [Hf Hs]. unfold next_id. split; [done|]. split; [done|].
    split; [done|]. split; [done|]. intros snap E. rewrite E in Hs |- *. done.
  - done.
Qed.

(** ** Classification

    Conditions on one field are alternatives, different fields have to hold
    together. The matching filter with the greatest weight decides; among filters
    of one weight the engine chooses. *)
Record Packet := mkPacket {
  p_layer : Layer;
  p_app : string;
  p_interface : Z;
  p_protocol : Z;
  p_localPort : Z;
  p_remotePort : Z;
  p_remote : QHostAddress;
  p_l2 : Z
}.

Definition field_value (p : Packet) (f : Field) : Value :=
  match f with
  | ALE_APP_ID => AppId (p_app p)
  | INTERFACE_INDEX => Num (p_interface p)
  | IP_PROTOCOL => Num (p_protocol p)
  | IP_REMOTE_PORT => Num (p_remotePort p)
  | IP_LOCAL_PORT => Num (p_localPort p)
  | IP_REMOTE_ADDRESS => importAddress (p_remote p)
  | L2_FLAGS => Num (p_l2 p)
  end.

(** Octets are compared from the first one on. *)
Fixpoint lex_le (a b : list Z) : bool :=
  match a, b with
  | x :: a, y :: b => (x <? y) || ((x =? y) && lex_le a b)
  | [], _ => true
  | _ :: _, [] => false
  end.
Definition value_le (a b : Value) : bool :=
  match a, b with
  | Num x, Num y => x <=? y
  | ByteArray16 x, ByteArray16 y => lex_le x y
  | _, _ => false
  end.
Definition cond_holds (p : Packet) (c : Condition) : bool :=
  let v := field_value p (fieldKey c) in
  match matchValue c with
  | MatchEqual x => bool_decide (v = x)
  | MatchRange low high => value_le low v && value_le v high
  end.
Definition field_eqb (a b : Field) : bool :=
  match a, b with
  | ALE_APP_ID, ALE_APP_ID | INTERFACE_INDEX, INTERFACE_INDEX | IP_PROTOCOL, IP_PROTOCOL
  | IP_REMOTE_PORT, IP_REMOTE_PORT | IP_LOCAL_PORT, IP_LOCAL_PORT
  | IP_REMOTE_ADDRESS, IP_REMOTE_ADDRESS | L2_FLAGS, L2_FLAGS => true
  | _, _ => false
  end.
Definition conds_hold (p : Packet) (conds : list Condition) : bool :=
  forallb (λ c, existsb (λ c', field_eqb (fieldKey c') (fieldKey c) && cond_holds p c') conds) conds.
Definition matches (p : Packet) (f : Filter) : bool :=
  bool_decide (layerKey f = p_layer p) && conds_hold p (filterCondition f).

Definition decides (fs : list Filter) (p : Packet) (v : option Action) : Prop :=
  match v with
  | Some a => exists f, f ∈ fs /\ matches p f = true /\ action f = a /\
                forall f', f' ∈ fs -> matches p f' = true -> weight f' <= weight f
  | None => forall f, f ∈ fs -> matches p f = false
  end.

(** The filters of an engine, without their texts. *)
Definition plain (f : Filter) : Filter := set_display "" "" f.
Definition contents (m : gmap Z Filter) : list Filter := map plain (map snd (map_to_list m)).

(** ** What is added *)
Definition connect_layer (v4 : bool) : Layer := if v4 then ALE_AUTH_CONNECT_V4 else ALE_AUTH_CONNECT_V6.
Definition accept_layer (v4 : bool) : Layer := if v4 then ALE_AUTH_RECV_ACCEPT_V4 else ALE_AUTH_RECV_ACCEPT_V6.
Definition ip_layers : list Layer :=
  [ALE_AUTH_CONNECT_V4; ALE_AUTH_RECV_ACCEPT_V4; ALE_AUTH_CONNECT_V6; ALE_AUTH_RECV_ACCEPT_V6].
Section Adds.
Context {W : Type} `{EngineLaws W} `{AddressPrinter} `{AddressParser}.
Local Notation Fw := (WindowsFirewall W).
Local Notation Q := ((Z -> Z * string) * (string -> option string) * list NetworkInterface)%type.

(** [m] adds the filters [fs] when it succeeds. *)
Definition adds (fs : Q -> list Filter) (m : StateM Fw bool) : Prop :=
  forall fw, let '(ok, fw') := m fw in
    queries (m_engine fw') = queries (m_engine fw) /\
    transaction (m_engine fw') = transaction (m_engine fw) /\
    (ok = true -> contents (installed (m_engine fw')) ≡ₚ
      app (fs (queries (m_engine fw))) (contents (installed (m_engine fw)))).

Lemma adds_ret : adds (λ _, []) (sret true).
Proof. intros fw. cbn. done. Qed.

Lemma adds_then fs gs m k :
  adds fs m -> adds gs k -> adds (λ q, app (gs q) (fs q)) (ok <- m ;; if (ok : bool) then k else sret false).
Proof.
  intros Hm Hk fw. rewrite sbind_run. specialize (Hm fw). destruct (m fw) as [ok fw1].
  destruct Hm as (Hq & Ht & Hf). cbn [fst snd]. destruct ok; [|done].
  specialize (Hk fw1). destruct (k fw1) as [ok fw2]. destruct Hk as (Hq' & Ht' & Hf').
  split; [congruence|]. split; [congruence|]. intros ->. rewrite Hf', Hf by done.
  rewrite Hq. by rewrite app_assoc.
Qed.
Lemma adds_then_neg fs gs m k :
  adds fs m -> adds gs k -> adds (λ q, app (gs q) (fs q)) (ok <- m ;; if negb ok then sret false else k).
Proof.
  intros Hm Hk fw. pose proof (adds_then fs gs m k Hm Hk fw) as H'.
  rewrite sbind_run in *. by destruct (m fw).1.
Qed.
Lemma adds_perm fs gs m : (forall q, fs q ≡ₚ gs q) -> adds fs m -> adds gs m.
Proof.
  intros Hp Hm fw. specialize (Hm fw). destruct (m fw) as [ok fw']. destruct Hm as (? & ? & Hf).
  split; [done|]. split; [done|]. intros Hok. by rewrite <- Hp, Hf.
Qed.

Lemma adds_all {A} (l : list A) body (fs : A -> list Filter) :
  (forall a, a ∈ l -> adds (λ _, fs a) (body a)) -> adds (λ _, List.concat (map fs l)) (for_all l body).
Proof.
  induction l as [|a l IH]; intros Hb; [apply adds_ret|]. cbn [for_all map List.concat].
  eapply adds_perm; [|apply adds_then; [apply Hb; by left|apply IH; intros b Hb'; apply Hb; by right]].
  intros q. apply Permutation_app_comm.
Qed.
Lemma adds_ask {A} (f : W -> A) (g : Q -> A) k (fs : A -> list Filter) :
  (forall w, f w = g (queries w)) -> (forall a, adds (λ _, fs a) (k a)) -> adds (λ q, fs (g q)) (a <- ask f ;; k a).
Proof.
  intros Hg Hk fw. rewrite sbind_run. unfold ask, gets. cbn [fst snd].
  specialize (Hk (f (m_engine fw)) fw). destruct (k (f (m_engine fw)) fw) as [ok fw']. by rewrite <- Hg.
Qed.

Lemma contents_insert id f m : m !! id = None -> contents (<[id := f]> m) ≡ₚ plain f :: contents m.
Proof.
  intros Hm. unfold contents. pose proof (map_to_list_insert m id f Hm) as Hp.
  by apply (Permutation_map snd), (Permutation_map plain) in Hp.
Qed.

Lemma enableFilter_adds f title d peer :
  adds (λ _, [plain f]) (enableFilter f title d peer).
Proof.
  intros fw. unfold enableFilter. rewrite sbind_run. unfold on_engine.
  pose proof (add_law (set_display title d f) (m_engine fw)) as Hl.
  destruct (FwpmFilterAdd0 (set_display title d f) (m_engine fw)) as [[id|] w]; cbn [fst snd];
    destruct Hl as (Hq & Ht & Hi); [|by cbn].
  destruct Hi as (Hi & Hn & _).
  rewrite sbind_run. destruct (bool_decide (peer = "")); cbn; split; try done; split; try done; intros _;
    rewrite Hi; exact (contents_insert id (set_display title d f) _ Hn).
Qed.

(** The filters of one rule, one for every layer. *)
Definition rule (conds : list Condition) (act : Action) (w : Z) (hard : bool) (layers : list Layer) : list Filter :=
  map (λ l, mkFilter l conds act w hard "" "") layers.
Lemma enableFilters_adds conds act w hard title peer layers :
  adds (λ _, rule conds act w hard (map fst layers)) (enableFilters (base_filter conds act w hard) title peer layers).
Proof.
  induction layers as [|[l d] layers IH]; [apply adds_ret|]. cbn [enableFilters rule map fst snd].
  eapply adds_perm; [|apply adds_then; [apply enableFilter_adds|apply IH]].
  intros q. apply Permutation_app_comm.
Qed.

Definition is_v4 (h : QHostAddress) : bool := bool_decide (protocol h = IPv4Protocol).

(** ** The rules of the class as lists of filters *)
Definition adapter_rule (index : Z) : list Filter :=
  rule [equals INTERFACE_INDEX (u32 index)] ACTION_PERMIT MED_WEIGHT false ip_layers.
Definition dhcp_rule : list Filter :=
  app (rule dhcp_conditions ACTION_PERMIT MED_WEIGHT false
         [ALE_AUTH_RECV_ACCEPT_V4; ALE_AUTH_CONNECT_V6; ALE_AUTH_RECV_ACCEPT_V6])
    (rule (app dhcp_conditions [equals IP_REMOTE_ADDRESS 4294967295]) ACTION_PERMIT MED_WEIGHT false
       [ALE_AUTH_CONNECT_V4]).
Definition hyperv_rule : list Filter :=
  rule [equals L2_FLAGS L2_IS_VM2VM] ACTION_PERMIT MED_WEIGHT false
    [OUTBOUND_MAC_FRAME_NATIVE; INBOUND_MAC_FRAME_NATIVE].
Definition app_rule (appID : option string) : list Filter :=
  match appID with
  | Some appID => rule [mkCond ALE_APP_ID (MatchEqual (AppId appID))] ACTION_PERMIT MAX_WEIGHT true
                    [ALE_AUTH_CONNECT_V4; ALE_AUTH_RECV_ACCEPT_V4]
  | None => []
  end.
Definition dns_block_rule : list Filter :=
  rule [equals IP_PROTOCOL IPPROTO_UDP; equals IP_PROTOCOL IPPROTO_TCP; equals IP_REMOTE_PORT 53]
    ACTION_BLOCK MED_WEIGHT false
    [ALE_AUTH_CONNECT_V6; ALE_AUTH_CONNECT_V4; ALE_AUTH_RECV_ACCEPT_V4; ALE_AUTH_RECV_ACCEPT_V6].
Definition loopback_rules (ifs : list NetworkInterface) : list Filter :=
  List.concat (map (λ i, if if_loopback i then adapter_rule (if_index i) else []) ifs).
Definition dns_rule (server : QHostAddress) : list Filter :=
  rule [equals IP_PROTOCOL IPPROTO_UDP; equals IP_PROTOCOL IPPROTO_TCP; equals IP_REMOTE_PORT 53;
        mkCond IP_REMOTE_ADDRESS (MatchEqual (importAddress server))] ACTION_PERMIT HIGH_WEIGHT true
    [connect_layer (is_v4 server); accept_layer (is_v4 server)].
Definition range_rule (act : Action) (w : Z) (addr : IPAddress) : list Filter :=
  rule [mkCond IP_REMOTE_ADDRESS (MatchRange (importAddress (m_address addr))
                                             (importAddress (broadcastAddress addr)))] act w false
    [connect_layer (is_v4 (m_address addr)); accept_layer (is_v4 (m_address addr))].

(** The identifier of the program, as the code finds it. *)
Definition own_appID (q : Q) : option string :=
  let '(ok, path) := q.1.1 2048 in
  let '(ok, path) := if ok =? 122 then q.1.1 4096 else (ok, path) in
  q.1.2 (if ok =? 0 then "" else path).
Definition killswitch_filters (index : Z) (q : Q) : list Filter :=
  app (loopback_rules q.2) (app dns_block_rule (app (app_rule (own_appID q))
    (app hyperv_rule (app dhcp_rule (adapter_rule index))))).

(** The name servers a peer's rules let through. *)
Definition dns_servers (config : InterfaceConfig) : list QHostAddress :=
  if bool_decide (qchars (m_dnsServer config) = "") then []
  else parseHost (qchars (m_dnsServer config))
       :: (if qs_eqb (m_dnsServer config) (m_serverIpv4Gateway config)
           then [parseHost (qchars (m_serverIpv6Gateway config))] else []).
Definition peer_rules (config : InterfaceConfig) : list Filter :=
  app (List.concat (map (λ i, range_rule ACTION_PERMIT HIGH_WEIGHT (fromString i)) (m_excludedAddresses config)))
    (app (List.concat (map dns_rule (dns_servers config)))
      (List.concat (map (range_rule ACTION_BLOCK LOW_WEIGHT) (m_allowedIPAddressRanges config)))).

Lemma allowTrafficOfAdapter_adds index title :
  adds (λ _, adapter_rule index) (allowTrafficOfAdapter index MED_WEIGHT title).
Proof. apply enableFilters_adds. Qed.
Lemma allowDHCPTraffic_adds title : adds (λ _, dhcp_rule) (allowDHCPTraffic MED_WEIGHT title).
Proof.
  unfold allowDHCPTraffic, dhcp_rule.
  apply (adds_then_neg (λ _, rule _ _ _ _ _) (λ _, rule _ _ _ _ _)); apply enableFilters_adds.
Qed.
Lemma allowHyperVTraffic_adds title : adds (λ _, hyperv_rule) (allowHyperVTraffic MED_WEIGHT title).
Proof. apply enableFilters_adds. Qed.
Lemma blockTrafficOnPort_adds title : adds (λ _, dns_block_rule) (blockTrafficOnPort 53 MED_WEIGHT title).
Proof. apply enableFilters_adds. Qed.
Lemma allowTrafficTo_adds server title peer :
  adds (λ _, dns_rule server) (allowTrafficTo server 53 HIGH_WEIGHT title peer).
Proof. apply enableFilters_adds. Qed.
Lemma traffic_to_range_adds act verb addr w title peer :
  adds (λ _, range_rule act w addr) (traffic_to_range act verb addr w title peer).
Proof. apply enableFilters_adds. Qed.

Lemma app_adds title :
  adds (λ q, app_rule (own_appID q))
    (path <- ask getCurrentPath ;; allowTrafficForAppOnAll path MAX_WEIGHT title).
Proof.
  apply (adds_perm (λ q, app_rule (q.1.2 (let '(ok, path) := q.1.1 2048 in
    let '(ok, path) := if ok =? 122 then q.1.1 4096 else (ok, path) in if ok =? 0 then "" else path)))).
  { intros q. unfold own_appID. destruct (q.1.1 2048) as [ok path].
    by destruct (if ok =? 122 then _ else _). }
  intros fw. rewrite sbind_run. cbn [ask gets fst snd].
  set (path := getCurrentPath (m_engine fw)).
  assert (adds (λ q, app_rule (q.1.2 path)) (allowTrafficForAppOnAll path MAX_WEIGHT title)) as Ha.
  { apply (adds_ask (FwpmGetAppIdFromFileName0 path) (λ q, q.1.2 path) _ app_rule); [done|].
    intros [appID|]; [apply enableFilters_adds|]. intros fw'. by cbn. }
  exact (Ha fw).
Qed.
Lemma loopback_adds title :
  adds (λ q, loopback_rules q.2) (allowLoopbackTraffic MED_WEIGHT title).
Proof.
  apply (adds_ask allInterfaces (λ q, q.2) _ loopback_rules); [done|]. intros ifs.
  apply adds_all. intros i _. destruct (if_loopback i); [apply allowTrafficOfAdapter_adds|apply adds_ret].
Qed.

Lemma dns_adds config peer :
  adds (λ _, List.concat (map dns_rule (dns_servers config)))
    (if negb (bool_decide (qchars (m_dnsServer config) = "")) then
       ok <- allowTrafficTo (parseHost (qchars (m_dnsServer config))) 53 HIGH_WEIGHT "Allow DNS-Server" peer ;;
       if negb ok then sret false
       else if qs_eqb (m_dnsServer config) (m_serverIpv4Gateway config) then
         allowTrafficTo (parseHost (qchars (m_serverIpv6Gateway config))) 53 HIGH_WEIGHT
           "Allow extra IPv6 DNS-Server" peer
       else sret true
     else sret true).
Proof.
  unfold dns_servers. case_bool_decide; [apply adds_ret|]. cbn [negb map List.concat].
  destruct (qs_eqb _ _); cbn [map List.concat].
  - eapply adds_perm; [|apply adds_then_neg; apply allowTrafficTo_adds].
    intros q. rewrite app_nil_r. apply Permutation_app_comm.
  - eapply adds_perm; [|apply adds_then_neg; [apply allowTrafficTo_adds|apply adds_ret]].
    intros q. by rewrite app_nil_r.
Qed.
Lemma peer_filters_adds config : adds (λ _, peer_rules config) (peer_filters config).
Proof.
  unfold peer_filters, peer_rules. cbv zeta.
  eapply adds_perm; [|apply adds_then_neg; [apply adds_all; intros range _; apply traffic_to_range_adds|]].
  2: { apply adds_then_neg; [apply dns_adds|]. apply adds_all. intros i _. apply traffic_to_range_adds. }
  intros q. by rewrite app_assoc.
Qed.
End Adds.

(** ** Transactions *)
Section Transactions.
Context {W : Type} `{EngineLaws W} `{AddressPrinter} `{AddressParser}.
Local Notation Fw := (WindowsFirewall W).
Local Notation Q := ((Z -> Z * string) * (string -> option string) * list NetworkInterface)%type.

(** Calls that never succeed. *)
Definition refuses (m : StateM Fw bool) : Prop := forall fw, (m fw).1 = false.
Lemma refuses_ret : refuses (sret false).
Proof. done. Qed.
Lemma refuses_bind {A} (m : StateM Fw A) k : (forall a, refuses (k a)) -> refuses (sbind m k).
Proof. intros Hk fw. rewrite sbind_run. apply Hk. Qed.

(** A call that succeeds outside of a transaction leaves none open and has added
    [fs]. *)
Definition installs (fs : Q -> list Filter) (m : StateM Fw bool) : Prop :=
  forall fw fw', transaction (m_engine fw) = None -> m fw = (true, fw') ->
    queries (m_engine fw') = queries (m_engine fw) /\ transaction (m_engine fw') = None /\
    contents (installed (m_engine fw')) ≡ₚ
      app (fs (queries (m_engine fw))) (contents (installed (m_engine fw))).

Lemma installs_ret : installs (λ _, []) (sret true).
Proof. by intros fw fw' Ht [= <-]. Qed.

(** One transaction: [failed] is what is done when it does not begin, [undo] when
    the filters are not added, [lost] when they cannot be committed. *)
Lemma transaction_installs fs gs m failed undo lost rest :
  adds fs m -> refuses failed -> refuses undo -> refuses lost -> installs gs rest ->
  installs (λ q, app (gs q) (fs q))
    (ok <- on_engine FwpmTransactionBegin ;;
     if negb ok then failed
     else
       ok <- m ;;
       if negb ok then undo
       else ok <- on_engine FwpmTransactionCommit0 ;; if negb ok then lost else rest).
Proof.
  intros Hm Hf Hu Hl Hrest fw fw' _ E. rewrite sbind_run in E.
  destruct (on_engine FwpmTransactionBegin fw) as [ok fw1] eqn:E1. cbn [fst snd] in E.
  unfold on_engine in E1. pose proof (begin_law (m_engine fw)) as Hb.
  destruct (FwpmTransactionBegin (m_engine fw)) as [? w1]. injection E1 as -> <-.
  destruct ok; cbn [negb] in E; [|specialize (Hf (set_engine w1 fw)); by rewrite E in Hf].
  destruct Hb as (Hi1 & Hq1 & _ & _). rewrite sbind_run in E. specialize (Hm (set_engine w1 fw)).
  destruct (m (set_engine w1 fw)) as [ok fw2]; cbn [fst snd] in E.
  destruct ok; cbn [negb] in E; [|specialize (Hu fw2); by rewrite E in Hu].
  destruct Hm as (Hq2 & _ & Hi2). specialize (Hi2 eq_refl). cbn [m_engine set_engine] in Hq2, Hi2.
  rewrite sbind_run in E. destruct (on_engine FwpmTransactionCommit0 fw2) as [ok fw3] eqn:E3.
  unfold on_engine in E3. pose proof (commit_law (m_engine fw2)) as Hc.
  destruct (FwpmTransactionCommit0 (m_engine fw2)) as [? w3]. injection E3 as -> <-. cbn [fst snd] in E.
  destruct ok; cbn [negb] in E; [|specialize (Hl (set_engine w3 fw2)); by rewrite E in Hl].
  destruct Hc as (Hq3 & Hi3 & Ht3). destruct (Hrest (set_engine w3 fw2) fw' Ht3 E) as (Hq4 & Ht4 & Hi4).
  cbn [m_engine set_engine] in Hq4, Hi4. split; [congruence|]. split; [done|].
  rewrite Hi4, Hi3, Hi2, Hi1. rewrite Hq3, Hq2, Hq1. by rewrite app_assoc.
Qed.

Lemma FW_OK_installs fs gs m rest :
  adds fs m -> installs gs rest -> installs (λ q, app (gs q) (fs q)) (FW_OK m rest).
Proof.
  intros Hm Hr. unfold FW_OK. apply (transaction_installs fs gs m); [done| | | |done];
    repeat (apply refuses_bind; intros _); apply refuses_ret.
Qed.

Lemma installs_ext fs gs m : (forall q, fs q = gs q) -> installs fs m -> installs gs m.
Proof. intros Hp Hm fw fw' Ht E. rewrite <- Hp. by apply Hm. Qed.

Lemma enableKillSwitch_installs index : installs (killswitch_filters index) (enableKillSwitch index).
Proof.
  unfold enableKillSwitch, killswitch_filters.
  eapply installs_ext; [|do 6 (apply FW_OK_installs; [eauto using allowTrafficOfAdapter_adds,
    allowDHCPTraffic_adds, allowHyperVTraffic_adds, app_adds, blockTrafficOnPort_adds, loopback_adds|]);
    apply installs_ret].
  intros q. cbn beta. rewrite <- !app_assoc. by rewrite app_nil_l.
Qed.

Lemma enablePeerTraffic_installs config : installs (λ _, peer_rules config) (enablePeerTraffic config).
Proof.
  unfold enablePeerTraffic.
  eapply installs_ext; [|apply transaction_installs;
    [apply peer_filters_adds|repeat (apply refuses_bind; intros _); apply refuses_ret..|apply installs_ret]].
  done.
Qed.
End Transactions.

(** ** Verdicts *)

(** Some filter of weight [w] and action [a] matches. *)
Definition hits (fs : list Filter) (p : Packet) (w : Z) (a : Action) : Prop :=
  exists f, f ∈ fs /\ matches p f = true /\ weight f = w /\ action f = a.

Lemma decides_hits fs p v :
  decides fs p v <->
  match v with
  | Some a => exists w, hits fs p w a /\ forall w' a', hits fs p w' a' -> w' <= w
  | None => forall w a, ~ hits fs p w a
  end.
Proof.
  destruct v as [a|]; cbn [decides]; split.
  - intros (f & Hf & Hm & Ha & Hmax). exists (weight f). split; [by exists f|].
    intros w' a' (f' & Hf' & Hm' & <- & _). by apply Hmax.
  - intros (w & (f & Hf & Hm & Hw & Ha) & Hmax). exists f. do 3 (split; [done|]).
    intros f' Hf' Hm'. rewrite Hw. apply (Hmax _ (action f')). by exists f'.
  - intros H w a (f & Hf & Hm & _). by rewrite H in Hm.
  - intros H f Hf. destruct (matches p f) eqn:Hm; [|done]. by destruct (H (weight f) (action f)); exists f.
Qed.
Lemma hits_nil p w a : hits [] p w a <-> False.
Proof. split; [|done]. by intros (f & []%not_elem_of_nil & _). Qed.
Lemma hits_app fs gs p w a : hits (app fs gs) p w a <-> hits fs p w a \/ hits gs p w a.
Proof.
  unfold hits. setoid_rewrite elem_of_app. naive_solver.
Qed.
Lemma hits_concat {A} (g : A -> list Filter) (l : list A) p w a :
  hits (List.concat (map g l)) p w a <-> exists x, x ∈ l /\ hits (g x) p w a.
Proof.
  induction l as [|x l IH]; cbn [map List.concat].
  - rewrite hits_nil. split; [done|]. by intros (x & []%not_elem_of_nil & _).
  - rewrite hits_app, IH. setoid_rewrite elem_of_cons. naive_solver.
Qed.
Lemma hits_rule conds act wt hard layers p w a :
  hits (rule conds act wt hard layers) p w a <->
  w = wt /\ a = act /\ p_layer p ∈ layers /\ conds_hold p conds = true.
Proof.
  unfold hits, rule. split.
  - intros (f & (l & -> & Hl)%list_elem_of_fmap & Hm & <- & <-). unfold matches in Hm. cbn in Hm.
    apply andb_true_iff in Hm as [<-%bool_decide_eq_true Hc]. done.
  - intros (-> & -> & Hl & Hc). exists (mkFilter (p_layer p) conds act wt hard "" ""). split.
    + apply list_elem_of_fmap. by exists (p_layer p).
    + unfold matches. cbn. by rewrite bool_decide_eq_true_2.
Qed.
Lemma hits_perm fs gs p w a : fs ≡ₚ gs -> hits fs p w a -> hits gs p w a.
Proof. intros Hp (f & Hf & H). exists f. by rewrite <- Hp. Qed.
Lemma hits_plain fs p w a : hits (map plain fs) p w a <-> hits fs p w a.
Proof.
  unfold hits. split.
  - intros (f & (g & -> & Hg)%list_elem_of_fmap & H). by exists g.
  - intros (f & Hf & H). exists (plain f). split; [|done]. apply list_elem_of_fmap. by exists f.
Qed.

Lemma holds_num p f n :
  cond_holds p (equals f n) = match field_value p f with Num x => x =? n | _ => false end.
Proof.
  unfold cond_holds. cbn [equals fieldKey matchValue].
  destruct (field_value p f) as [x| |]; [|by rewrite bool_decide_eq_false_2..].
  destruct (Z.eqb_spec x n) as [->|Hn]; [by rewrite bool_decide_eq_true_2|].
  rewrite bool_decide_eq_false_2; [done|]. by intros [= ->].
Qed.

Lemma remote_num x n :
  match importAddress x with Num y => y =? n | _ => false end = true <-> importAddress x = Num n.
Proof.
  destruct (importAddress x) as [y| |]; [rewrite Z.eqb_eq|..]; split; congruence.
Qed.

(** Evaluates the conditions of a rule. *)
Ltac eval_conds :=
  cbn [conds_hold forallb existsb fieldKey field_eqb equals app];
  rewrite ?holds_num; cbn [field_value];
  rewrite ?orb_false_l, ?andb_false_l, ?orb_false_r, ?andb_true_r, ?andb_true_l;
  rewrite ?andb_true_iff, ?orb_true_iff, ?Z.eqb_eq.

(** Packets of the four layers of IP. *)
Record ip_packet (p : Packet) : Prop := {
  ip_layer : p_layer p ∈ ip_layers;
  ip_version : p_layer p = connect_layer (is_v4 (p_remote p)) \/ p_layer p = accept_layer (is_v4 (p_remote p))
}.

(** ** The traffic the rules speak of *)
Definition is_dns (p : Packet) : Prop :=
  (p_protocol p = IPPROTO_UDP \/ p_protocol p = IPPROTO_TCP) /\ p_remotePort p = 53.
Definition is_dhcp (p : Packet) : Prop :=
  p_protocol p = IPPROTO_UDP /\ p_localPort p = 68 /\ p_remotePort p = 67 /\
  (p_layer p = ALE_AUTH_CONNECT_V4 -> importAddress (p_remote p) = Num 4294967295).
Definition through (index : Z) (p : Packet) : Prop := p_interface p = u32 index.
Definition in_range (addr : IPAddress) (x : QHostAddress) : Prop :=
  is_v4 (m_address addr) = is_v4 x /\
  value_le (importAddress (m_address addr)) (importAddress x) = true /\
  value_le (importAddress x) (importAddress (broadcastAddress addr)) = true.

Section Verdicts.
Context (p : Packet).
Hypothesis Hp : ip_packet p.
Implicit Types (w : Z) (a : Action).

Lemma ip_layers_in l : l ∈ ip_layers <->
  l = ALE_AUTH_CONNECT_V4 \/ l = ALE_AUTH_RECV_ACCEPT_V4 \/ l = ALE_AUTH_CONNECT_V6 \/ l = ALE_AUTH_RECV_ACCEPT_V6.
Proof. unfold ip_layers. rewrite !elem_of_cons, elem_of_nil. tauto. Qed.

Lemma version_layers b :
  p_layer p ∈ [connect_layer b; accept_layer b] <-> b = is_v4 (p_remote p).
Proof.
  rewrite !elem_of_cons, elem_of_nil. destruct Hp as [_ Hv]. unfold connect_layer, accept_layer in *.
  destruct b, (is_v4 (p_remote p)); destruct Hv as [-> | ->]; split; intuition congruence.
Qed.

Lemma adapter_hits index w a :
  hits (adapter_rule index) p w a <-> w = MED_WEIGHT /\ a = ACTION_PERMIT /\ through index p.
Proof.
  unfold adapter_rule, through. rewrite hits_rule. eval_conds. destruct Hp as [Hl _]. tauto.
Qed.
Lemma dns_block_hits w a :
  hits dns_block_rule p w a <-> w = MED_WEIGHT /\ a = ACTION_BLOCK /\ is_dns p.
Proof.
  unfold dns_block_rule, is_dns. rewrite hits_rule. eval_conds.
  destruct Hp as [Hl%ip_layers_in _]. rewrite !elem_of_cons. tauto.
Qed.
Lemma dhcp_hits w a : hits dhcp_rule p w a <-> w = MED_WEIGHT /\ a = ACTION_PERMIT /\ is_dhcp p.
Proof.
  unfold dhcp_rule, is_dhcp, dhcp_conditions. rewrite hits_app, !hits_rule. eval_conds.
  destruct Hp as [Hl%ip_layers_in Hv]. rewrite !elem_of_cons, !elem_of_nil.
  rewrite remote_num. destruct Hl as [Hl|[Hl|[Hl|Hl]]]; rewrite Hl; intuition congruence.
Qed.
Lemma hyperv_hits w a : ~ hits hyperv_rule p w a.
Proof.
  unfold hyperv_rule. rewrite hits_rule. destruct Hp as [Hl%ip_layers_in _].
  rewrite !elem_of_cons, elem_of_nil. intros (_ & _ & Hl' & _). intuition congruence.
Qed.
Lemma app_hits appID w a :
  hits (app_rule appID) p w a <->
  w = MAX_WEIGHT /\ a = ACTION_PERMIT /\ appID = Some (p_app p) /\ is_v4 (p_remote p) = true.
Proof.
  destruct appID as [b|]; cbn [app_rule].
  - change [ALE_AUTH_CONNECT_V4; ALE_AUTH_RECV_ACCEPT_V4] with [connect_layer true; accept_layer true].
    rewrite hits_rule, version_layers. cbn [conds_hold forallb existsb fieldKey field_eqb cond_holds matchValue field_value].
    rewrite orb_false_r, !andb_true_r, andb_true_l, bool_decide_eq_true. intuition congruence.
  - rewrite hits_nil. intuition congruence.
Qed.
Lemma loopback_hits ifs w a :
  hits (loopback_rules ifs) p w a <->
  w = MED_WEIGHT /\ a = ACTION_PERMIT /\ exists i, i ∈ ifs /\ if_loopback i = true /\ through (if_index i) p.
Proof.
  unfold loopback_rules. rewrite hits_concat. split.
  - intros (i & Hi & Hh). destruct (if_loopback i) eqn:El; [|by apply hits_nil in Hh].
    apply adapter_hits in Hh as (-> & -> & Ht). split; [done|]. split; [done|]. by exists i.
  - intros (-> & -> & i & Hi & El & Ht). exists i. split; [done|]. rewrite El. by apply adapter_hits.
Qed.
Lemma dns_rule_hits server w a :
  hits (dns_rule server) p w a <->
  w = HIGH_WEIGHT /\ a = ACTION_PERMIT /\ is_dns p /\ importAddress (p_remote p) = importAddress server.
Proof.
  unfold dns_rule, is_dns. rewrite hits_rule, version_layers.
  assert (forall x y, importAddress x = importAddress y -> is_v4 x = is_v4 y) as Hv.
  { intros x y. unfold importAddress, is_v4. repeat case_bool_decide; congruence. }
  pose proof (Hv (p_remote p) server). eval_conds. cbn [cond_holds fieldKey matchValue field_value].
  rewrite bool_decide_eq_true. intuition congruence.
Qed.
Lemma range_hits act wt addr w a :
  hits (range_rule act wt addr) p w a <-> w = wt /\ a = act /\ in_range addr (p_remote p).
Proof.
  unfold range_rule, in_range. rewrite hits_rule, version_layers.
  cbn [conds_hold forallb existsb fieldKey field_eqb cond_holds matchValue field_value].
  rewrite orb_false_r, !andb_true_r, andb_true_l, andb_true_iff. tauto.
Qed.
End Verdicts.

(** ** The kill switch *)
Section KillSwitch.
Context {W : Type} `{EngineLaws W} `{AddressPrinter} `{AddressParser}.
Local Notation Q := ((Z -> Z * string) * (string -> option string) * list NetworkInterface)%type.

(** What the rules let pass of the program itself, of traffic to name servers and
    excluded networks, and of the machine's own interfaces. *)
Definition from_program (q : Q) (p : Packet) : Prop :=
  own_appID q = Some (p_app p) /\ is_v4 (p_remote p) = true.
Definition excepted (config : InterfaceConfig) (p : Packet) : Prop :=
  (is_dns p /\ exists s, s ∈ dns_servers config /\ importAddress (p_remote p) = importAddress s) \/
  exists i, i ∈ m_excludedAddresses config /\ in_range (fromString i) (p_remote p).
Definition local_traffic (index : Z) (q : Q) (p : Packet) : Prop :=
  through index p \/ is_dhcp p \/ exists i, i ∈ q.2 /\ if_loopback i = true /\ through (if_index i) p.
Definition routed (config : InterfaceConfig) (p : Packet) : Prop :=
  exists addr, addr ∈ m_allowedIPAddressRanges config /\ in_range addr (p_remote p).

(** The verdicts that are possible for a packet. *)
Definition verdict (index : Z) (config : InterfaceConfig) (q : Q) (p : Packet) (v : option Action) : Prop :=
  (from_program q p \/ excepted config p) /\ v = Some ACTION_PERMIT \/
  ~ (from_program q p \/ excepted config p) /\
    (local_traffic index q p /\ v = Some ACTION_PERMIT \/ is_dns p /\ v = Some ACTION_BLOCK) \/
  ~ (from_program q p \/ excepted config p \/ local_traffic index q p \/ is_dns p) /\
    (routed config p /\ v = Some ACTION_BLOCK \/ ~ routed config p /\ v = None).

Lemma killswitch_hits index config q p w a :
  ip_packet p ->
  hits (app (peer_rules config) (killswitch_filters index q)) p w a <->
  w = MAX_WEIGHT /\ a = ACTION_PERMIT /\ from_program q p \/
  w = HIGH_WEIGHT /\ a = ACTION_PERMIT /\ excepted config p \/
  w = MED_WEIGHT /\ (a = ACTION_PERMIT /\ local_traffic index q p \/ a = ACTION_BLOCK /\ is_dns p) \/
  w = LOW_WEIGHT /\ a = ACTION_BLOCK /\ routed config p.
Proof.
  intros Hp. unfold peer_rules, killswitch_filters, from_program, excepted, local_traffic, routed.
  rewrite !hits_app, !hits_concat, adapter_hits, dhcp_hits, dns_block_hits, app_hits, loopback_hits by done.
  pose proof (hyperv_hits p Hp w a). setoid_rewrite (range_hits p Hp). setoid_rewrite (dns_rule_hits p Hp).
  naive_solver.
Qed.

Lemma rules_verdict index config q p v :
  ip_packet p ->
  decides (app (peer_rules config) (killswitch_filters index q)) p v <-> verdict index config q p v.
Proof.
  intros Hp. rewrite decides_hits.
  assert (forall w a, _) as Hh by exact (λ w a, killswitch_hits index config q p w a Hp).
  unfold verdict. destruct v as [a|]; setoid_rewrite Hh; [|naive_solver].
  unfold MAX_WEIGHT, HIGH_WEIGHT, MED_WEIGHT, LOW_WEIGHT.
  assert (Decision (from_program q p)) as Hd by (unfold from_program; apply _).
  generalize dependent (from_program q p). intros F Hd. generalize (excepted config p). intros X.
  generalize (local_traffic index q p). intros L. generalize (is_dns p). intros D.
  generalize (routed config p). intros R. split.
  - intros (w & Hw & Hmax).
    assert (w < 15 -> ~ F) as HF by (intros ? ?; specialize (Hmax 15 ACTION_PERMIT ltac:(tauto)); lia).
    assert (w < 13 -> ~ X) as HX by (intros ? ?; specialize (Hmax 13 ACTION_PERMIT ltac:(tauto)); lia).
    assert (w < 7 -> ~ L) as HL by (intros ? ?; specialize (Hmax 7 ACTION_PERMIT ltac:(tauto)); lia).
    assert (w < 7 -> ~ D) as HD by (intros ? ?; specialize (Hmax 7 ACTION_BLOCK ltac:(tauto)); lia).
    clear Hmax. destruct Hw as [(-> & -> & ?)|[(-> & -> & ?)|[(-> & Hw)|(-> & -> & ?)]]].
    1, 2: left; tauto.
    + right. left. specialize (HF ltac:(lia)). specialize (HX ltac:(lia)). naive_solver.
    + right. right. specialize (HF ltac:(lia)). specialize (HX ltac:(lia)). specialize (HL ltac:(lia)).
      specialize (HD ltac:(lia)). tauto.
  - intros [[HFX [= ->]]|[[HFX HL]|[HFX HR]]].
    + destruct (decide F) as [HF|HF].
      * exists 15. split; [tauto|]. intros w' a' Hw'. lia.
      * exists 13. split; [tauto|]. intros w' a' Hw'. intuition lia.
    + exists 7. split; [naive_solver|]. intros w' a' Hw'. intuition lia.
    + exists 0. split; [naive_solver|]. intros w' a' Hw'. intuition lia.
Qed.

Definition filters_of (w : W) : list Filter := map snd (map_to_list (installed w)).

Lemma decides_contents w p v : decides (contents (installed w)) p v <-> decides (filters_of w) p v.
Proof.
  rewrite !decides_hits. unfold contents. fold (filters_of w).
  destruct v; setoid_rewrite hits_plain; done.
Qed.
Lemma decides_perm fs gs p v : fs ≡ₚ gs -> decides fs p v <-> decides gs p v.
Proof.
  intros Hp. assert (forall w a, hits fs p w a <-> hits gs p w a) as Hh.
  { intros w a. split; by apply hits_perm. }
  rewrite !decides_hits. destruct v; setoid_rewrite Hh; done.
Qed.

(** C3. Once the kill switch is on and the rules of a peer are added, the engine
    decides exactly so: the program's own IPv4 traffic, the name servers of the
    configuration and the excluded networks are let through; then DHCP, the tunnel
    and the loopback interfaces are let through and traffic to port 53 is blocked,
    these two with the same weight; then the networks that are routed into the
    tunnel are blocked, and nothing is decided about the rest. *)
Theorem windows_killswitch_enforced index config fw fw1 fw2 p v :
  installed (m_engine fw) = ∅ -> transaction (m_engine fw) = None ->
  enableKillSwitch index fw = (true, fw1) -> enablePeerTraffic config fw1 = (true, fw2) ->
  ip_packet p ->
  decides (filters_of (m_engine fw2)) p v <-> verdict index config (queries (m_engine fw)) p v.
Proof.
  intros Hi Ht E1 E2 Hp. destruct (enableKillSwitch_installs index fw fw1 Ht E1) as (Hq1 & Ht1 & Hc1).
  destruct (enablePeerTraffic_installs config fw1 fw2 Ht1 E2) as (_ & _ & Hc2).
  rewrite <- decides_contents, <- rules_verdict by done. apply decides_perm.
  rewrite Hc2, Hc1, Hi. unfold contents. rewrite map_to_list_empty. cbn [map]. by rewrite app_nil_r.
Qed.
End KillSwitch.

(** ** Ranges *)
Fixpoint bits_le (a b : list bool) : bool :=
  match a, b with
  | x :: a, y :: b => (negb x && y) || (Bool.eqb x y && bits_le a b)
  | [], _ => true
  | _ :: _, [] => false
  end.

Lemma bits_le_app a b x y :
  length a = length b -> bits_le (app a x) (app b y) = (bits_le a b && (negb (bits_le b a) || bits_le x y)).
Proof.
  revert b. induction a as [|u a IH]; intros [|v b] Hl; try done. injection Hl as Hl. cbn [bits_le app].
  rewrite IH by done. destruct u, v; cbn; rewrite ?orb_true_r, ?andb_true_r; done.
Qed.
Lemma bits_le_antisym a b : length a = length b -> bits_le a b = true -> bits_le b a = true -> a = b.
Proof.
  revert b. induction a as [|u a IH]; intros [|v b] Hl; try done. injection Hl as Hl. cbn [bits_le].
  destruct u, v; cbn; try done; intros H1 H2; f_equal; by apply IH.
Qed.
Lemma bits_le_refl a : bits_le a a = true.
Proof. induction a as [|[] a IH]; [done|by cbn..]. Qed.
Lemma bits_le_total a b : length a = length b -> bits_le a b = false -> bits_le b a = true.
Proof.
  revert b. induction a as [|u a IH]; intros [|v b] Hl; try done. injection Hl as Hl. cbn [bits_le].
  destruct u, v; cbn; try done; by apply IH.
Qed.

Lemma msb_bits_S w a : msb_bits (S w) a = Z.testbit a (Z.of_nat w) :: msb_bits w a.
Proof. done. Qed.
Lemma msb_bits_mod w a k : (w <= k)%nat -> msb_bits w (a mod 2 ^ Z.of_nat k) = msb_bits w a.
Proof.
  induction w as [|w IH]; intros Hk; [done|]. rewrite !msb_bits_S. f_equal; [|apply IH; lia].
  apply Z.mod_pow2_bits_low. lia.
Qed.
Lemma bits_le_num w a b :
  0 <= a < 2 ^ Z.of_nat w -> 0 <= b < 2 ^ Z.of_nat w -> bits_le (msb_bits w a) (msb_bits w b) = (a <=? b).
Proof.
  revert a b. induction w as [|w IH]; intros a b Ha Hb.
  { cbn in *. symmetry. apply Z.leb_le. lia. }
  rewrite !msb_bits_S. cbn [bits_le]. rewrite Nat2Z.inj_succ, Z.pow_succ_r in * by lia.
  rewrite <- (msb_bits_mod w a w), <- (msb_bits_mod w b w) by lia.
  assert (0 < 2 ^ Z.of_nat w) as Hpos by (by apply Z.pow_pos_nonneg; lia).
  pose proof (Z.mod_pos_bound a _ Hpos). pose proof (Z.mod_pos_bound b _ Hpos).
  rewrite IH by done.
  assert (forall x, 0 <= x < 2 * 2 ^ Z.of_nat w ->
    x = Z.b2z (Z.testbit x (Z.of_nat w)) * 2 ^ Z.of_nat w + x mod 2 ^ Z.of_nat w) as Hx.
  { intros x Hx. rewrite Z.testbit_spec' by lia. rewrite (Z.mod_small (x / _)).
    - pose proof (Z.div_mod x (2 ^ Z.of_nat w)). lia.
    - split; [apply Z.div_pos; lia|]. apply Z.div_lt_upper_bound; lia. }
  pose proof (Hx a Ha) as Ea. pose proof (Hx b Hb) as Eb.
  apply eq_true_iff_eq. rewrite Z.leb_le.
  destruct (Z.testbit a (Z.of_nat w)), (Z.testbit b (Z.of_nat w)); cbn [Z.b2z negb andb orb Bool.eqb] in *;
    rewrite ?Z.leb_le; split; try done; intros; lia.
Qed.
Lemma bits_le_octets a b :
  length a = length b -> Forall is_octet a -> Forall is_octet b ->
  bits_le (octets_bits a) (octets_bits b) = lex_le a b.
Proof.
  revert b. induction a as [|x a IH]; intros [|y b] Hl Ha Hb; try done. injection Hl as Hl.
  apply list.Forall_cons in Ha as [Hx Ha]. apply list.Forall_cons in Hb as [Hy Hb].
  rewrite !octets_bits_cons, bits_le_app by (by rewrite !length_msb_bits). cbn [lex_le].
  rewrite (bits_le_num 8 x y), (bits_le_num 8 y x), IH by done.
  destruct (Z.leb_spec x y), (Z.leb_spec y x), (Z.ltb_spec x y), (Z.eqb_spec x y); try lia; cbn; done || lia.
Qed.

Lemma value_le_bits x y :
  addr_wf x -> addr_wf y -> is_v4 x = is_v4 y -> protocol x <> UnknownNetworkLayerProtocol ->
  protocol y <> UnknownNetworkLayerProtocol ->
  value_le (importAddress x) (importAddress y) = bits_le (addr_bits x) (addr_bits y).
Proof.
  destruct x as [|a|a], y as [|b|b]; cbn [addr_wf]; intros Hx Hy Hv Hpx Hpy; try done.
  - symmetry. by apply (bits_le_num 32).
  - destruct Hx as [Hla Ha], Hy as [Hlb Hb]. symmetry. apply bits_le_octets; [congruence|done|done].
Qed.

Lemma bits_between (net x : list bool) k :
  (length x = length net + k)%nat ->
  bits_le (app net (replicate k false)) x && bits_le x (app net (replicate k true)) = true <-> net `prefix_of` x.
Proof.
  assert (forall k (y : list bool), length y = k -> bits_le (replicate k false) y = true /\
    bits_le y (replicate k true) = true) as Hext.
  { clear. induction k as [|k IH]; intros [|u y] Hl; try done. injection Hl as Hl.
    destruct (IH y Hl) as [H1 H2]. destruct u; cbn; rewrite ?H1, ?H2; done. }
  intros Hl. rewrite <- (take_drop (length net) x) at 1 2.
  assert (length (take (length net) x) = length net) as Ht by (rewrite length_take; lia).
  destruct (Hext k (drop (length net) x)) as [H1 H2]; [rewrite length_drop; lia|].
  rewrite !bits_le_app, H1, H2, !orb_true_r, !andb_true_r, andb_true_iff by done. split.
  - intros [Ha Hb]. exists (drop (length net) x).
    rewrite <- (take_drop (length net) x) at 1. f_equal. by apply bits_le_antisym.
  - intros [y ->]. rewrite take_app_length. by rewrite bits_le_refl.
Qed.

Lemma broadcast_wf ip :
  ip_wf ip -> addr_wf (broadcastAddress ip) /\ protocol (broadcastAddress ip) = protocol (m_address ip).
Proof.
  intros (Hwf & Hu & Hp). unfold broadcastAddress.
  destruct ip as [[|a|a] p]; cbn [m_address m_prefixLength protocol addr_wf toIPv4Address toIPv6Address] in *; [done| |].
  - split; [|done]. case_match; [|done]. apply (lor_bound 32); [lia|done|]. apply shiftr_le_bound; lia.
  - split; [|done]. destruct Hwf as [Hl Ho].
    assert (length (memset_from (Z.to_nat ((p + 7) / 8)) 255 a) = 16%nat) as Hl'.
    { unfold memset_from. rewrite length_app, length_take, length_replicate. lia. }
    assert (Forall is_octet (memset_from (Z.to_nat ((p + 7) / 8)) 255 a)) as Ho'.
    { unfold memset_from. apply Forall_app. split; [by apply Forall_take|]. apply Forall_replicate. done. }
    case_match; [done|]. split; [by rewrite length_alter|]. apply Forall_alter; [done|].
    intros b _ Hb. unfold is_octet in *. apply (lor_bound 8); [lia|done|]. apply shiftr_le_bound; [|lia].
    by apply Z.mod_pos_bound.
Qed.

(** The range of a rule for a network without host bits is exactly the
    addresses of the network, IPv4 and IPv6. *)
Theorem range_rule_exact addr x :
  ip_wf addr -> normalised addr -> addr_wf x -> protocol x <> UnknownNetworkLayerProtocol ->
  in_range addr x <-> covers addr x.
Proof.
  intros Hw Hn Hx Hp. pose proof Hw as (Hwa & Hpa & _). destruct (broadcast_wf addr Hw) as [Hbw Hbp].
  assert (is_v4 (m_address addr) = is_v4 x <-> protocol x = protocol (m_address addr)) as Hv.
  { unfold is_v4. destruct (protocol (m_address addr)), (protocol x); try done; by repeat case_bool_decide. }
  unfold in_range, covers. rewrite Hv.
  assert (protocol x = protocol (m_address addr) ->
    (value_le (importAddress (m_address addr)) (importAddress x) = true /\
     value_le (importAddress x) (importAddress (broadcastAddress addr)) = true) <-> net addr `prefix_of` addr_bits x) as H;
    [|tauto].
  intros Hpr. rewrite !value_le_bits; try done; try congruence; try (by apply Hv).
  2: { unfold is_v4. by rewrite Hbp, Hpr. }
  rewrite Hn, broadcast_bits, <- andb_true_iff by done. apply bits_between.
  rewrite length_addr_bits, length_net by done. pose proof (ip_wf_plen addr Hw).
  unfold width in *. rewrite (addr_width_protocol x (m_address addr)) by done. lia.
Qed.

Lemma range_rule_exact_witness :
  ip_wf (mkIPAddress (IPv4Address 167772160) 8) /\
  (in_range (mkIPAddress (IPv4Address 167772160) 8) (IPv4Address 167772161) <->
   covers (mkIPAddress (IPv4Address 167772160) 8) (IPv4Address 167772161)).
Proof.
  assert (ip_wf (mkIPAddress (IPv4Address 167772160) 8)) as H by (repeat split; cbn; try lia; done).
  split; [exact H|]. apply (range_rule_exact _ _ H); [vm_compute; done|vm_compute; done|done].
Defined.

(** ** A sample *)
Section Sample.
#[local] Existing Instances ipv4_parser dotted_printer.

Definition sample_firewall : WindowsFirewall SimEngine :=
  mkFirewall EngineHandle true [] []
    (mkEngine ∅ None [mkNetIf 1 "Loopback" true; mkNetIf 3 "Ethernet" false] ["ZloVPN.exe"]).
Definition sample_packet : Packet :=
  mkPacket ALE_AUTH_CONNECT_V4 "browser.exe" 3 IPPROTO_TCP 50000 443 (IPv4Address 167772161) 0.

Lemma windows_killswitch_enforced_witness :
  exists fw1 fw2, enableKillSwitch 7 sample_firewall = (true, fw1) /\
    enablePeerTraffic (sample_config "1.1.1.1") fw1 = (true, fw2) /\
    (decides (filters_of (m_engine fw2)) sample_packet (Some ACTION_BLOCK) <->
     verdict 7 (sample_config "1.1.1.1") (queries (m_engine sample_firewall)) sample_packet (Some ACTION_BLOCK)).
Proof.
  assert (enableKillSwitch 7 sample_firewall = (true, (enableKillSwitch 7 sample_firewall).2)) as E1
    by (vm_compute; reflexivity).
  assert (enablePeerTraffic (sample_config "1.1.1.1") (enableKillSwitch 7 sample_firewall).2 =
    (true, (enablePeerTraffic (sample_config "1.1.1.1") (enableKillSwitch 7 sample_firewall).2).2)) as E2
    by (vm_compute; reflexivity).
  eexists _, _. split; [exact E1|]. split; [exact E2|].
  eapply (windows_killswitch_enforced 7 (sample_config "1.1.1.1") sample_firewall);
    [done|done|exact E1|exact E2|].
  split; [apply ip_layers_in; by left|by left].
Defined.
End Sample.
