(* ===== verification/WindowsFirewallBooks.v ===== *)
(** * The kill switch on Windows is taken away

    The identifiers that WindowsFirewall.v keeps are those of all filters it has
    added and not removed, whatever fails on the way; turning the kill switch off
    leaves exactly the filters of others. *)
From Stdlib Require Import ZArith Lia Ascii String.
From stdpp Require Import base gmap list option strings.
From S2P Require Import Prelude HostAddress QtString IpAddress InterfaceConfig WindowsFirewall WindowsFirewallProperties.
Local Open Scope string_scope.
Local Open Scope Z_scope.

Section Books.
Context {W : Type} `{EngineLaws W} `{AddressPrinter} `{AddressParser}.
Local Notation Fw := (WindowsFirewall W).
Implicit Types (fw : Fw).

Definition rule_ids fw : list Z := app (m_activeRules fw) (map snd (m_peerRules fw)).

(** [m] holds the filters [foreign] and others whose identifiers are in [ids]. *)
Definition booked (foreign : gmap Z Filter) (ids : list Z) (m : gmap Z Filter) : Prop :=
  foreign ⊆ m /\ forall id f, m !! id = Some f -> foreign !! id = Some f \/ id ∈ ids.
Record kept (foreign : gmap Z Filter) fw : Prop := {
  kept_installed : booked foreign (rule_ids fw) (installed (m_engine fw));
  kept_snapshot : forall snap, transaction (m_engine fw) = Some snap -> booked foreign (rule_ids fw) snap;
  kept_own : forall id, id ∈ rule_ids fw -> foreign !! id = None
}.

Lemma booked_mono foreign ids ids' m : (forall id, id ∈ ids -> id ∈ ids') -> booked foreign ids m -> booked foreign ids' m.
Proof. intros Hi [Hf Hm]. split; [done|]. intros id f [?|?]%Hm; [by left|right; by apply Hi]. Qed.
Lemma booked_delete foreign ids m id :
  foreign !! id = None -> booked foreign ids m -> booked foreign ids (delete id m).
Proof.
  intros Hn [Hf Hm]. split.
  - apply map_subseteq_spec. intros i f Hi. rewrite lookup_delete_ne by congruence.
    by eapply lookup_weaken.
  - intros i f [_ Hi]%lookup_delete_Some. by apply Hm.
Qed.

Section Foreign.
Context (foreign : gmap Z Filter).
Local Notation kept := (kept foreign).

Lemma kept_begin : invariant kept (on_engine FwpmTransactionBegin).
Proof.
  intros fw [Hi Hs Ho]. unfold on_engine. pose proof (begin_law (m_engine fw)) as Hl.
  destruct (FwpmTransactionBegin (m_engine fw)) as [ok w]. destruct Hl as (Ei & _ & Et & _).
  split; cbn [snd m_engine set_engine]; [by rewrite Ei| |done].
  intros snap. rewrite Et. destruct ok; [by intros [= <-]|apply Hs].
Qed.
Lemma kept_default fw : kept fw -> booked foreign (rule_ids fw) (default (installed (m_engine fw)) (transaction (m_engine fw))).
Proof. intros [Hi Hs _]. destruct (transaction (m_engine fw)); [by apply Hs|done]. Qed.
Lemma kept_commit : invariant kept (on_engine FwpmTransactionCommit0).
Proof.
  intros fw Hk. pose proof Hk as [Hi Hs Ho]. unfold on_engine. pose proof (commit_law (m_engine fw)) as Hl.
  destruct (FwpmTransactionCommit0 (m_engine fw)) as [ok w]. destruct Hl as (_ & Hl).
  assert ((installed w = installed (m_engine fw) /\ (transaction w = None \/ transaction w = transaction (m_engine fw))) \/
    (installed w = default (installed (m_engine fw)) (transaction (m_engine fw)) /\ transaction w = None)) as Hc
    by (destruct ok; tauto).
  split; cbn [snd m_engine set_engine]; [| |done].
  - destruct Hc as [[-> _]|[-> _]]; [done|exact (kept_default fw Hk)].
  - intros snap Et. destruct Hc as [[_ [Hn|Hn]]|[_ Hn]]; rewrite Hn in Et; [done|exact (Hs snap Et)|done].
Qed.
Lemma kept_abort : invariant kept (on_engine FwpmTransactionAbort0).
Proof.
  intros fw Hk. pose proof Hk as [_ _ Ho]. unfold on_engine. pose proof (abort_law (m_engine fw)) as Hl.
  destruct (FwpmTransactionAbort0 (m_engine fw)) as [[] w]. cbn in Hl. destruct Hl as (_ & Ei & Et).
  split; cbn [snd m_engine set_engine]; [rewrite Ei; exact (kept_default fw Hk)| |done]. by rewrite Et.
Qed.
Lemma kept_delete id fw : id ∈ rule_ids fw -> kept fw -> kept (on_engine (FwpmFilterDeleteById0 id) fw).2.
Proof.
  intros Hid [Hi Hs Ho]. unfold on_engine. pose proof (delete_law id (m_engine fw)) as Hl.
  destruct (FwpmFilterDeleteById0 id (m_engine fw)) as [[] w]. cbn in Hl. destruct Hl as (_ & Et & Ei).
  split; cbn [snd m_engine set_engine]; [rewrite Ei; apply booked_delete; [by apply Ho|done]| |done].
  by rewrite Et.
Qed.
Lemma enableFilter_kept f title d peer : invariant kept (enableFilter f title d peer).
Proof.
  intros fw [Hi Hs Ho]. unfold enableFilter. rewrite sbind_run. unfold on_engine.
  pose proof (add_law (set_display title d f) (m_engine fw)) as Hl.
  destruct (FwpmFilterAdd0 (set_display title d f) (m_engine fw)) as [[id|] w]; cbn [fst snd].
  2: { destruct Hl as (_ & Et & Ei). split; cbn; [by rewrite Ei| |done]. by rewrite Et. }
  destruct Hl as (_ & Et & Ei & Hn & Hsn).
  assert (forall fw', m_engine fw' = w -> (forall i, i ∈ rule_ids fw' <-> i ∈ rule_ids fw \/ i = id) -> kept fw') as Hk.
  { intros fw' Ew Hr. split.
    - rewrite Ew, Ei. destruct Hi as [Hfi Hmi]. split.
      + by apply insert_subseteq_r; [apply (lookup_weaken_None _ _ _ Hn Hfi)|].
      + intros i g [[<- _]|[_ Hg]]%lookup_insert_Some; [right; apply Hr; by right|].
        destruct (Hmi i g Hg); [by left|]. right. apply Hr. by left.
    - intros snap. rewrite Ew, Et. intros E. apply (booked_mono _ (rule_ids fw)); [|by apply Hs].
      intros i Hii. apply Hr. by left.
    - intros i [Hii| ->]%Hr; [by apply Ho|]. by apply (lookup_weaken_None _ _ _ Hn (proj1 Hi)). }
  rewrite sbind_run. cbn [sret fst snd]. unfold modify. case_bool_decide; cbn [snd]; apply Hk; try done;
    intros i; unfold rule_ids; cbn [m_activeRules m_peerRules set_activeRules set_peerRules set_engine map snd];
    rewrite !elem_of_app, ?elem_of_cons, ?elem_of_nil; tauto.
Qed.
Lemma enableFilters_kept f title peer layers : invariant kept (enableFilters f title peer layers).
Proof.
  induction layers as [|[l d] layers IH]; [apply invariant_ret|]. cbn [enableFilters].
  apply invariant_bind; [apply enableFilter_kept|]. intros []; [done|apply invariant_ret].
Qed.
Hint Resolve kept_begin kept_commit kept_abort enableFilters_kept : zlo.

Lemma ask_kept {A} (f : W -> A) : invariant kept (ask f).
Proof. apply invariant_gets. Qed.
Hint Resolve ask_kept : zlo.

Lemma rules_kept :
  (forall i w t, invariant kept (allowTrafficOfAdapter i w t)) /\
  (forall w t, invariant kept (allowDHCPTraffic w t)) /\
  (forall w t, invariant kept (allowHyperVTraffic w t)) /\
  (forall path w t, invariant kept (allowTrafficForAppOnAll path w t)) /\
  (forall port w t, invariant kept (blockTrafficOnPort port w t)) /\
  (forall w t, invariant kept (allowLoopbackTraffic w t)) /\
  (forall c, invariant kept (peer_filters c)).
Proof.
  split_and!; intros; unfold allowTrafficOfAdapter, allowDHCPTraffic, allowHyperVTraffic, allowTrafficForAppOnAll,
    blockTrafficOnPort, allowLoopbackTraffic, peer_filters, blockTrafficToAll, blockTrafficTo, allowTrafficToRange,
    traffic_to_range, allowTrafficTo, allowTrafficOfAdapter; cbv zeta; stateful.
Qed.

(** The loops that delete filters. *)
Lemma delete_all {A} (g : A -> Z) (l : list A) fw :
  (forall r, r ∈ l -> g r ∈ rule_ids fw) -> kept fw ->
  exists fw', for_each l (λ r, on_engine (FwpmFilterDeleteById0 (g r))) fw = (tt, fw') /\ kept fw' /\
    m_activeRules fw' = m_activeRules fw /\ m_peerRules fw' = m_peerRules fw /\
    transaction (m_engine fw') = transaction (m_engine fw) /\
    (forall id f, installed (m_engine fw') !! id = Some f ->
       installed (m_engine fw) !! id = Some f /\ id ∉ map g l).
Proof.
  revert fw. induction l as [|r l IH]; intros fw Hl Hk; cbn [for_each].
  { exists fw. split; [done|]. split; [done|]. split; [done|]. split; [done|]. split; [done|].
    intros id f Hf. split; [done|apply not_elem_of_nil]. }
  rewrite sbind_run. pose proof (kept_delete (g r) fw (Hl r ltac:(by left)) Hk) as Hk1.
  pose proof (delete_law (g r) (m_engine fw)) as Hd.
  destruct (on_engine (FwpmFilterDeleteById0 (g r)) fw) as [[] fw1] eqn:E1. unfold on_engine in E1.
  destruct (FwpmFilterDeleteById0 (g r) (m_engine fw)) as [[] w]. injection E1 as <-. cbn [snd] in *.
  destruct Hd as (_ & Et & Ei). destruct (IH (set_engine w fw)) as (fw2 & E2 & Hk2 & Ha & Hp & Ht & Hin);
    [intros s Hs; apply Hl; by right|done|].
  exists fw2. split; [done|]. split; [done|]. split; [done|]. split; [done|].
  split; [by rewrite Ht|]. intros id f Hf. destruct (Hin id f Hf) as [Hf' Hn]. cbn [m_engine set_engine] in Hf'.
  rewrite Ei in Hf'. apply lookup_delete_Some in Hf' as [Hne Hf']. split; [done|]. cbn [map].
  rewrite not_elem_of_cons. by split.
Qed.

Lemma foreign_left fw : kept fw -> (forall id f, installed (m_engine fw) !! id = Some f -> id ∉ rule_ids fw) ->
  installed (m_engine fw) = foreign.
Proof.
  intros [[Hf Hm] _ _] Hn. apply map_eq. intros id. apply option_eq. intros f. split.
  - intros Hi. destruct (Hm id f Hi); [done|]. by destruct (Hn id f Hi).
  - intros Hi. by eapply lookup_weaken.
Qed.

Lemma disable_run fw ok fw' :
  kept fw -> disableKillSwitch fw = (ok, fw') ->
  kept fw' /\ (ok = true -> installed (m_engine fw') = foreign /\ rule_ids fw' = [] /\ transaction (m_engine fw') = None).
Proof.
  intros Hk E. unfold disableKillSwitch in E. rewrite sbind_run in E. pose proof (kept_begin fw Hk) as Hk1.
  destruct (on_engine FwpmTransactionBegin fw) as [[] fw1]; cbn [fst snd negb] in E, Hk1.
  2: { rewrite sbind_run in E. injection E as <- <-. split; [by apply kept_abort|done]. }
  rewrite gets_bind, sbind_run in E.
  destruct (delete_all snd (m_peerRules fw1) fw1) as (fw2 & E2 & Hk2 & Ha2 & Hp2 & _ & Hi2); [|done|].
  { intros r Hr. unfold rule_ids. apply elem_of_app. right. by apply list_elem_of_fmap_2. }
  rewrite E2 in E. cbn [fst snd] in E. rewrite gets_bind, sbind_run in E.
  destruct (delete_all id (m_activeRules fw2) fw2) as (fw3 & E3 & Hk3 & Ha3 & Hp3 & _ & Hi3); [|done|].
  { intros r Hr. unfold rule_ids. apply elem_of_app. by left. }
  unfold id in E3. rewrite E3 in E. cbn [fst snd] in E. rewrite sbind_run in E.
  assert (installed (m_engine fw3) = foreign) as Hforeign.
  { apply foreign_left; [done|]. intros i f Hf. destruct (Hi3 i f Hf) as [Hf2 Hn3].
    destruct (Hi2 i f Hf2) as [_ Hn2]. unfold rule_ids. rewrite Ha3, Hp3, Hp2.
    rewrite map_id in Hn3. rewrite not_elem_of_app. by split. }
  pose proof (kept_commit fw3 Hk3) as Hk4. pose proof (commit_law (m_engine fw3)) as Hc.
  destruct (on_engine FwpmTransactionCommit0 fw3) as [ok4 fw4] eqn:E4. unfold on_engine in E4.
  destruct (FwpmTransactionCommit0 (m_engine fw3)) as [? w4]. injection E4 as -> <-. cbn [fst snd] in E, Hk4.
  destruct ok4; cbn [negb] in E.
  2: { rewrite sbind_run in E. injection E as <- <-. split; [by apply kept_abort|done]. }
  destruct Hc as (_ & Ei & Et). injection E as <- <-. cbn. rewrite Ei, Et, Hforeign. split; [|done].
  split; cbn; [|by rewrite Et|by intros i ?%not_elem_of_nil].
  rewrite Ei, Hforeign. split; [done|]. intros i f. by left.
Qed.
Lemma disable_kept : invariant kept disableKillSwitch.
Proof. intros fw Hk. destruct (disableKillSwitch fw) as [ok fw'] eqn:E. by apply (disable_run fw ok fw'). Qed.
Hint Resolve disable_kept : zlo.

Lemma FW_OK_kept m rest : invariant kept m -> invariant kept rest -> invariant kept (FW_OK m rest).
Proof. intros Hm Hr. unfold FW_OK. stateful. Qed.
Lemma enableKillSwitch_kept index : invariant kept (enableKillSwitch index).
Proof.
  destruct rules_kept as (Ha & Hd & Hh & Hp & Hb & Hl & _). unfold enableKillSwitch.
  repeat (apply FW_OK_kept; [stateful|]); apply invariant_ret.
Qed.
Lemma enablePeerTraffic_kept config : invariant kept (enablePeerTraffic config).
Proof. destruct rules_kept as (_ & _ & _ & _ & _ & _ & Hp). unfold enablePeerTraffic. stateful. Qed.

(** The loop over the rules of a peer. *)
Lemma drop_all key l fw :
  exists fw', for_each l (λ filterID,
      on_engine (FwpmFilterDeleteById0 filterID) ;;
      modify (λ fw, set_peerRules (remove_rule key filterID (m_peerRules fw)) fw)) fw = (tt, fw') /\
    m_activeRules fw' = m_activeRules fw /\
    m_peerRules fw' = filter (λ r, ~ (r.1 = key /\ r.2 ∈ l)) (m_peerRules fw) /\
    transaction (m_engine fw') = transaction (m_engine fw) /\
    (forall id f, installed (m_engine fw') !! id = Some f <-> installed (m_engine fw) !! id = Some f /\ id ∉ l).
Proof.
  revert fw. induction l as [|i l IH]; intros fw; cbn [for_each].
  { exists fw. split; [done|]. split; [done|]. split.
    - symmetry. apply filter_all. intros r _ [_ Hr]. by apply not_elem_of_nil in Hr.
    - split; [done|]. intros id f. split; [|by intros [? _]]. intros Hf. split; [done|apply not_elem_of_nil]. }
  rewrite !sbind_run. pose proof (delete_law i (m_engine fw)) as Hd. unfold on_engine at 1 2.
  destruct (FwpmFilterDeleteById0 i (m_engine fw)) as [[] w]. cbn [fst snd modify] in *.
  destruct Hd as (_ & Et & Ei).
  destruct (IH (set_peerRules (remove_rule key i (m_peerRules (set_engine w fw))) (set_engine w fw)))
    as (fw2 & E2 & Ha & Hp & Ht & Hin).
  exists fw2. split; [done|]. split; [done|]. cbn [m_peerRules set_peerRules set_engine m_engine] in *. split.
  - rewrite Hp. unfold remove_rule. rewrite list_filter_filter. apply list_filter_iff. intros [k id]. cbn [fst snd].
    rewrite elem_of_cons. split; [|naive_solver congruence]. intros [Hr1 Hr2] [-> [-> | Hl]]; [done|]. by apply Hr1.
  - split; [by rewrite Ht|]. intros id f. rewrite Hin, Ei, lookup_delete_Some, not_elem_of_cons. naive_solver.
Qed.

Lemma rules_dropped key rules :
  filter (λ r : string * Z, ~ (r.1 = key /\ r.2 ∈ rules_of key rules)) rules = filter (λ r, r.1 <> key) rules.
Proof.
  apply filter_ext_in. intros [k id] Hr. cbn. split; [|naive_solver].
  intros Hn ->. apply Hn. split; [done|]. unfold rules_of. apply list_elem_of_fmap. exists (key, id).
  split; [done|]. by apply list_elem_of_filter.
Qed.

(** Taking a peer away removes its filters and forgets them, and no others. *)
Lemma disable_peer_run key fw fw' :
  kept fw -> disablePeerTraffic key fw = (true, fw') ->
  kept fw' /\ m_activeRules fw' = m_activeRules fw /\
  m_peerRules fw' = filter (λ r, r.1 <> key) (m_peerRules fw) /\
  (forall id f, installed (m_engine fw') !! id = Some f <->
     installed (m_engine fw) !! id = Some f /\ id ∉ rules_of key (m_peerRules fw)).
Proof.
  intros Hk E. unfold disablePeerTraffic in E. rewrite sbind_run in E. pose proof (kept_begin fw Hk) as Hk1.
  pose proof (begin_law (m_engine fw)) as Hb.
  destruct (on_engine FwpmTransactionBegin fw) as [ok fw1] eqn:E1. unfold on_engine in E1.
  destruct (FwpmTransactionBegin (m_engine fw)) as [? w1]. injection E1 as -> <-.
  destruct ok; cbn [fst snd negb] in *; [|by rewrite sbind_run in E].
  destruct Hb as (Ei1 & _ & _ & _). rewrite gets_bind, sbind_run in E. cbn [m_peerRules set_engine] in E.
  destruct (drop_all key (rules_of key (m_peerRules fw)) (set_engine w1 fw)) as (fw2 & E2 & Ha & Hp & _ & Hin).
  rewrite E2 in E. cbn [fst snd] in E. rewrite sbind_run in E. pose proof (commit_law (m_engine fw2)) as Hc.
  destruct (on_engine FwpmTransactionCommit0 fw2) as [ok3 fw3] eqn:E3. unfold on_engine in E3.
  destruct (FwpmTransactionCommit0 (m_engine fw2)) as [? w3]. injection E3 as -> <-.
  destruct ok3; cbn [fst snd negb] in *; [|by rewrite sbind_run in E].
  destruct Hc as (_ & Ei & Et). injection E as <-.
  cbn [m_activeRules m_peerRules m_engine set_engine] in *. rewrite Ei1 in Hin.
  assert (m_peerRules fw2 = filter (λ r, r.1 <> key) (m_peerRules fw)) as Hrules.
  { rewrite Hp. apply rules_dropped. }
  split; [|split; [done|]; split; [done|]; intros id f; by rewrite Ei].
  destruct Hk as [[Hf Hm] _ Ho].
  assert (forall id, id ∈ rules_of key (m_peerRules fw) -> foreign !! id = None) as Hnf.
  { intros id (r & -> & [_ Hr]%list_elem_of_filter)%list_elem_of_fmap. apply Ho, elem_of_app. right.
    by apply list_elem_of_fmap_2. }
  split; cbn [m_engine set_engine]; [|by rewrite Et|].
  - rewrite Ei. split.
    + apply map_subseteq_spec. intros id f Hid. apply Hin. split; [by eapply lookup_weaken|].
      intros Hl%Hnf. congruence.
    + intros id f [Hid Hn]%Hin. destruct (Hm id f Hid) as [|Hr]; [by left|right]. unfold rule_ids in *.
      cbn [m_activeRules m_peerRules set_engine]. rewrite Ha, Hrules. apply elem_of_app in Hr as [Hr|Hr]; apply elem_of_app.
      * by left.
      * right. apply list_elem_of_fmap in Hr as ([k i] & -> & Hr). apply list_elem_of_fmap. exists (k, i). split; [done|].
        apply list_elem_of_filter. split; [|done]. cbn. intros ->. apply Hn. unfold rules_of. apply list_elem_of_fmap.
        exists (key, i). split; [done|]. by apply list_elem_of_filter.
  - intros id. unfold rule_ids. cbn [m_activeRules m_peerRules set_engine]. rewrite Ha, Hrules. intros Hid. apply Ho.
    unfold rule_ids. apply elem_of_app in Hid as [?|Hid]; apply elem_of_app; [by left|right].
    apply list_elem_of_fmap in Hid as (r & -> & [_ Hr]%list_elem_of_filter). by apply list_elem_of_fmap_2.
Qed.

(** ** An engine whose transactions work *)
Section Reliable.
Hypothesis begin_works : forall w : W, transaction w = None -> (FwpmTransactionBegin w).1 = true.
Hypothesis commit_works : forall w : W, is_Some (transaction w) -> (FwpmTransactionCommit0 w).1 = true.

Definition fails_open (m : StateM Fw bool) : Prop := forall fw fw',
  kept fw -> transaction (m_engine fw) = None -> m fw = (false, fw') ->
  installed (m_engine fw') = foreign /\ rule_ids fw' = [] /\ transaction (m_engine fw') = None.

Lemma begin_run fw :
  transaction (m_engine fw) = None -> exists w, on_engine FwpmTransactionBegin fw = (true, set_engine w fw) /\
    is_Some (transaction w).
Proof.
  intros Ht. unfold on_engine. pose proof (begin_works (m_engine fw) Ht) as Hb.
  pose proof (begin_law (m_engine fw)) as Hl. destruct (FwpmTransactionBegin (m_engine fw)) as [ok w].
  cbn in Hb. subst ok. exists w. split; [done|]. destruct Hl as (_ & _ & -> & _). by eexists.
Qed.
Lemma commit_run fw :
  is_Some (transaction (m_engine fw)) -> exists w, on_engine FwpmTransactionCommit0 fw = (true, set_engine w fw) /\
    transaction w = None.
Proof.
  intros Ht. unfold on_engine. pose proof (commit_works (m_engine fw) Ht) as Hb.
  pose proof (commit_law (m_engine fw)) as Hl. destruct (FwpmTransactionCommit0 (m_engine fw)) as [ok w].
  cbn in Hb. subst ok. exists w. split; [done|]. by destruct Hl as (_ & _ & ->).
Qed.

Lemma disable_works fw :
  kept fw -> transaction (m_engine fw) = None -> exists fw', disableKillSwitch fw = (true, fw') /\
    installed (m_engine fw') = foreign /\ rule_ids fw' = [] /\ transaction (m_engine fw') = None.
Proof.
  intros Hk Ht. destruct (disableKillSwitch fw) as [ok fw'] eqn:E. pose proof (disable_run fw ok fw' Hk E) as [_ Hok].
  assert (ok = true) as ->; [|exists fw'; split; [done|by apply Hok]].
  unfold disableKillSwitch in E. rewrite sbind_run in E. pose proof (kept_begin fw Hk) as Hk1.
  destruct (begin_run fw Ht) as (w & E1 & Ht1). rewrite E1 in E, Hk1. cbn [fst snd negb] in E, Hk1.
  rewrite gets_bind, sbind_run in E.
  destruct (delete_all snd (m_peerRules (set_engine w fw)) (set_engine w fw))
    as (fw2 & E2 & Hk2 & _ & _ & Ht2 & _); [|done|].
  { intros r Hr. apply elem_of_app. right. by apply list_elem_of_fmap_2. }
  rewrite E2 in E. cbn [fst snd] in E. rewrite gets_bind, sbind_run in E.
  destruct (delete_all id (m_activeRules fw2) fw2) as (fw3 & E3 & _ & _ & _ & Ht3 & _); [|done|].
  { intros r Hr. apply elem_of_app. by left. }
  unfold id in E3. rewrite E3 in E. cbn [fst snd] in E. rewrite sbind_run in E.
  destruct (commit_run fw3) as (w4 & E4 & _); [by rewrite Ht3, Ht2|]. rewrite E4 in E. cbn in E. by injection E as <- _.
Qed.

Lemma abort_disables fw fw' :
  kept fw -> (on_engine FwpmTransactionAbort0 ;; disableKillSwitch ;; sret false) fw = (false, fw') ->
  installed (m_engine fw') = foreign /\ rule_ids fw' = [] /\ transaction (m_engine fw') = None.
Proof.
  intros Hk E. rewrite sbind_run, sbind_run in E. pose proof (kept_abort fw Hk) as Hk1.
  pose proof (abort_law (m_engine fw)) as Hl. cbn in Hl. unfold on_engine in E, Hk1.
  destruct (FwpmTransactionAbort0 (m_engine fw)) as [[] w]. cbn [fst snd] in *. destruct Hl as (_ & _ & Et).
  destruct (disable_works (set_engine w fw) Hk1 Et) as (fw2 & E2 & Hd). rewrite E2 in E. by injection E as <-.
Qed.

Lemma transaction_fails_open fs m failed lost rest :
  adds fs m -> invariant kept m -> fails_open rest ->
  fails_open (ok <- on_engine FwpmTransactionBegin ;;
    if negb ok then failed
    else
      ok <- m ;;
      if negb ok then on_engine FwpmTransactionAbort0 ;; disableKillSwitch ;; sret false
      else ok <- on_engine FwpmTransactionCommit0 ;; if negb ok then lost else rest).
Proof.
  intros Ha Hm Hr fw fw' Hk Ht E. rewrite sbind_run in E. pose proof (kept_begin fw Hk) as Hk1.
  destruct (begin_run fw Ht) as (w & E1 & Ht1). rewrite E1 in E, Hk1. cbn [fst snd negb] in E, Hk1.
  rewrite sbind_run in E. specialize (Ha (set_engine w fw)). pose proof (Hm _ Hk1) as Hk2.
  destruct (m (set_engine w fw)) as [[] fw2]; cbn [fst snd negb] in E, Hk2; [|by apply (abort_disables fw2)].
  destruct Ha as (_ & Ht2 & _). rewrite sbind_run in E. pose proof (kept_commit fw2 Hk2) as Hk3.
  destruct (commit_run fw2) as (w3 & E3 & Ht3); [by rewrite Ht2|]. rewrite E3 in E, Hk3.
  cbn [fst snd negb] in E, Hk3. by apply (Hr (set_engine w3 fw2)).
Qed.
Lemma ret_fails_open : fails_open (sret true).
Proof. by intros fw fw' _ _ [=]. Qed.

Lemma enableKillSwitch_fails_open index : fails_open (enableKillSwitch index).
Proof.
  destruct rules_kept as (Ha & Hd & Hh & Hp & Hb & Hl & _). unfold enableKillSwitch, FW_OK.
  repeat (eapply transaction_fails_open; [eauto using allowTrafficOfAdapter_adds, allowDHCPTraffic_adds,
    allowHyperVTraffic_adds, app_adds, blockTrafficOnPort_adds, loopback_adds|stateful|]). apply ret_fails_open.
Qed.
Lemma enablePeerTraffic_fails_open config : fails_open (enablePeerTraffic config).
Proof.
  destruct rules_kept as (_ & _ & _ & _ & _ & _ & Hp). unfold enablePeerTraffic.
  eapply transaction_fails_open; [apply peer_filters_adds|apply Hp|apply ret_fails_open].
Qed.
End Reliable.
End Foreign.

(** ** Sequences of calls *)
Inductive Call := CEnable (index : Z) | CEnablePeer (config : InterfaceConfig) | CDisablePeer (pubkey : string) | CDisable.
Definition run_call (c : Call) : StateM Fw bool :=
  match c with
  | CEnable index => enableKillSwitch index
  | CEnablePeer config => enablePeerTraffic config
  | CDisablePeer pubkey => disablePeerTraffic pubkey
  | CDisable => disableKillSwitch
  end.
Definition may_fail (c : Call) : bool := match c with CDisablePeer _ => false | _ => true end.

(** Any calls, with any results, but for peers that are taken away. *)
Inductive runs : list Call -> Fw -> Fw -> Prop :=
| runs_nil fw : runs [] fw fw
| runs_cons c l fw ok fw1 fw2 :
    run_call c fw = (ok, fw1) -> may_fail c || ok = true -> runs l fw1 fw2 -> runs (c :: l) fw fw2.

Lemma runs_app l1 l2 fw fw1 fw2 : runs l1 fw fw1 -> runs l2 fw1 fw2 -> runs (app l1 l2) fw fw2.
Proof. induction 1; [done|]. intros. econstructor; eauto. Qed.

Lemma runs_kept foreign l fw fw' : runs l fw fw' -> kept foreign fw -> kept foreign fw'.
Proof.
  induction 1 as [|c l fw ok fw1 fw2 E Hm _ IH]; intros Hk; [done|]. apply IH. destruct c; cbn in E, Hm.
  - pose proof (enableKillSwitch_kept foreign index fw Hk) as Hk1. by rewrite E in Hk1.
  - pose proof (enablePeerTraffic_kept foreign config fw Hk) as Hk1. by rewrite E in Hk1.
  - subst ok. by apply (disable_peer_run foreign pubkey fw fw1).
  - by apply (disable_run foreign fw ok fw1).
Qed.

(** A firewall that has added nothing. *)
Definition untouched (foreign : gmap Z Filter) fw : Prop :=
  m_activeRules fw = [] /\ m_peerRules fw = [] /\ installed (m_engine fw) = foreign /\
  transaction (m_engine fw) = None.
Lemma untouched_kept foreign fw : untouched foreign fw -> kept foreign fw.
Proof.
  intros (Ha & Hp & Hi & Ht). split; unfold rule_ids; rewrite ?Ha, ?Hp, ?Hi, ?Ht.
  - split; [done|]. by left.
  - done.
  - by intros id ?%not_elem_of_nil.
Qed.

Lemma disabled_untouched foreign fw fw' : kept foreign fw -> disableKillSwitch fw = (true, fw') -> untouched foreign fw'.
Proof.
  intros Hk E. destruct (disable_run foreign fw true fw' Hk E) as [_ Hd]. destruct (Hd eq_refl) as (Hi & Hn & Ht).
  apply app_nil in Hn as [Ha Hp]. unfold untouched. rewrite Ha, Hi, Ht. split; [done|]. split; [|done].
  by destruct (m_peerRules fw').
Qed.

Lemma failed_enable_untouched foreign index fw fw' :
  (forall w : W, transaction w = None -> (FwpmTransactionBegin w).1 = true) ->
  (forall w : W, is_Some (transaction w) -> (FwpmTransactionCommit0 w).1 = true) ->
  kept foreign fw -> transaction (m_engine fw) = None -> enableKillSwitch index fw = (false, fw') -> untouched foreign fw'.
Proof.
  intros Hb Hc Hk Ht E. destruct (enableKillSwitch_fails_open foreign Hb Hc index fw fw' Hk Ht E) as (Hi & Hn & Ht2).
  apply app_nil in Hn as [Ha Hp]. unfold untouched. rewrite Ha, Hi, Ht2. split; [done|]. split; [|done].
  by destruct (m_peerRules fw').
Qed.

(** Whatever calls come before it, and whatever of them fail (other than taking
    a peer away), turning the kill switch off, when it succeeds, leaves exactly
    the filters that were there before the first call, nothing recorded and no
    transaction open. *)
Theorem windows_killswitch_removed foreign l fw fw1 fw2 :
  untouched foreign fw -> runs l fw fw1 -> disableKillSwitch fw1 = (true, fw2) -> untouched foreign fw2.
Proof.
  intros Hu Hr E. pose proof (runs_kept foreign l fw fw1 Hr (untouched_kept _ _ Hu)) as Hk.
  exact (disabled_untouched foreign fw1 fw2 Hk E).
Qed.

(** C31. Over an engine whose transactions can be begun and committed, turning the
    kill switch on or adding a peer never ends half-way: when it fails, all
    filters of the class are gone, those of earlier calls included. *)
Theorem windows_killswitch_fails_open foreign l fw fw1 c fw2 :
  (forall w : W, transaction w = None -> (FwpmTransactionBegin w).1 = true) ->
  (forall w : W, is_Some (transaction w) -> (FwpmTransactionCommit0 w).1 = true) ->
  untouched foreign fw -> runs l fw fw1 -> transaction (m_engine fw1) = None ->
  (match c with CEnable _ | CEnablePeer _ => True | _ => False end) ->
  run_call c fw1 = (false, fw2) -> untouched foreign fw2.
Proof.
  intros Hb Hc Hu Hr Ht Hcall E. pose proof (runs_kept foreign l fw fw1 Hr (untouched_kept _ _ Hu)) as Hk.
  assert (fails_open foreign (run_call c)) as Hf.
  { destruct c; [by apply enableKillSwitch_fails_open|by apply enablePeerTraffic_fails_open|done|done]. }
  destruct (Hf fw1 fw2 Hk Ht E) as (Hi & Hn & Ht2). apply app_nil in Hn as [Ha Hp].
  unfold untouched. rewrite Ha, Hi, Ht2. split; [done|]. split; [|done]. by destruct (m_peerRules fw2).
Qed.

(** A peer whose removal cannot be committed keeps its filters in the engine, but
    the class has forgotten them: no later call removes them. *)
Theorem failed_peer_removal_forgets key fw fw' :
  (FwpmTransactionBegin (m_engine fw)).1 = true -> disablePeerTraffic key fw = (false, fw') ->
  installed (m_engine fw') = installed (m_engine fw) /\
  m_peerRules fw' = filter (λ r, r.1 <> key) (m_peerRules fw).
Proof.
  intros Hb E. unfold disablePeerTraffic in E. rewrite sbind_run in E.
  pose proof (begin_law (m_engine fw)) as Hl.
  destruct (on_engine FwpmTransactionBegin fw) as [ok fw1] eqn:E1. unfold on_engine in E1.
  destruct (FwpmTransactionBegin (m_engine fw)) as [? w1]. injection E1 as -> <-.
  cbn [fst snd] in Hb. subst ok. destruct Hl as (_ & _ & Et & _). cbn [fst snd negb] in E.
  rewrite gets_bind, sbind_run in E. cbn [m_peerRules set_engine] in E.
  destruct (drop_all key (rules_of key (m_peerRules fw)) (set_engine w1 fw)) as (fw2 & E2 & _ & Hp & Ht & _).
  rewrite E2 in E. cbn [fst snd] in E. rewrite sbind_run in E. pose proof (commit_law (m_engine fw2)) as Hc.
  destruct (on_engine FwpmTransactionCommit0 fw2) as [ok3 fw3] eqn:E3. unfold on_engine in E3.
  destruct (FwpmTransactionCommit0 (m_engine fw2)) as [? w3]. injection E3 as -> <-.
  destruct ok3; cbn [fst snd negb] in *; [done|].
  destruct Hc as (_ & Hc). rewrite sbind_run in E. pose proof (abort_law w3) as Ha.
  destruct (on_engine FwpmTransactionAbort0 (set_engine w3 fw2)) as [ok4 fw4] eqn:E4. unfold on_engine in E4.
  cbn [m_engine set_engine] in *. destruct (FwpmTransactionAbort0 w3) as [? w4]. injection E4 as -> <-.
  destruct Ha as (_ & Ei & _). injection E as <-. cbn in *. split; [|by rewrite Hp, rules_dropped].
  rewrite Ei. rewrite Ht, Et in Hc. by destruct Hc as [[-> ->]|[-> ->]].
Qed.
End Books.

(** ** An engine whose commits can fail *)
Record FlakyEngine := mkFlaky { fe_engine : SimEngine; fe_commits : list bool }.
Definition on_sim {A} (m : StateM SimEngine A) : StateM FlakyEngine A := λ e,
  let '(a, s) := m (fe_engine e) in (a, mkFlaky s (fe_commits e)).
#[export] Instance flaky_engine : FilterEngine FlakyEngine := {
  FwpmEngineOpen0 := on_sim FwpmEngineOpen0;
  FwpmTransactionBegin := on_sim FwpmTransactionBegin;
  FwpmTransactionCommit0 := λ e,
    match fe_commits e with
    | false :: l => (false, mkFlaky (fe_engine e) l)
    | l => let '(ok, s) := FwpmTransactionCommit0 (fe_engine e) in (ok, mkFlaky s (tail l))
    end;
  FwpmTransactionAbort0 := on_sim FwpmTransactionAbort0;
  FwpmFilterAdd0 := λ f, on_sim (FwpmFilterAdd0 f);
  FwpmFilterDeleteById0 := λ id, on_sim (FwpmFilterDeleteById0 id);
  FwpmGetAppIdFromFileName0 := λ p e, FwpmGetAppIdFromFileName0 p (fe_engine e);
  init_EngineOpen0 := on_sim init_EngineOpen0;
  init_SubLayerGetByKey0 := λ e, init_SubLayerGetByKey0 (fe_engine e);
  init_TransactionBegin := on_sim init_TransactionBegin;
  init_SubLayerAdd0 := on_sim init_SubLayerAdd0;
  init_TransactionCommit0 := on_sim init_TransactionCommit0;
  init_EngineClose0 := on_sim init_EngineClose0;
  CloseHandle := on_sim CloseHandle;
  GetModuleFileNameA := λ n e, GetModuleFileNameA n (fe_engine e);
  allInterfaces := λ e, allInterfaces (fe_engine e)
}.
#[export] Instance flaky_view : EngineView FlakyEngine := {
  installed := λ e, installed (fe_engine e); transaction := λ e, transaction (fe_engine e)
}.
#[export] Instance flaky_laws : EngineLaws FlakyEngine.
Proof.
  split; intros; destruct w as [e l].
  - pose proof (begin_law e) as H. change (FwpmTransactionBegin (mkFlaky e l)) with (on_sim FwpmTransactionBegin (mkFlaky e l)).
    unfold on_sim. cbn [fe_engine fe_commits]. destruct (FwpmTransactionBegin e). exact H.
  - destruct l as [|[] l]; cbn; auto.
  - exact (abort_law e).
  - pose proof (add_law f e) as H. change (FwpmFilterAdd0 f (mkFlaky e l)) with (on_sim (FwpmFilterAdd0 f) (mkFlaky e l)).
    unfold on_sim. cbn [fe_engine fe_commits]. destruct (FwpmFilterAdd0 f e). exact H.
  - exact (delete_law id e).
Qed.

Section Sample.
#[local] Existing Instances ipv4_parser dotted_printer.

Definition flaky_firewall (commits : list bool) : WindowsFirewall FlakyEngine :=
  mkFirewall EngineHandle true [] [] (mkFlaky (m_engine sample_firewall) commits).
Definition flaky_calls : WindowsFirewall FlakyEngine :=
  flaky_firewall [true; true; true; true; true; true; true; false].

Fixpoint after_calls (l : list Call) (fw : WindowsFirewall FlakyEngine) : option (WindowsFirewall FlakyEngine) :=
  match l with
  | [] => Some fw
  | c :: l => let '(ok, fw1) := run_call c fw in if may_fail c || ok then after_calls l fw1 else None
  end.
Lemma after_calls_runs l : forall fw fw', after_calls l fw = Some fw' -> runs l fw fw'.
Proof.
  induction l as [|c l IH]; intros fw fw' E; cbn in E; [injection E as ->; constructor|].
  destruct (run_call c fw) as [ok fw1] eqn:E1. destruct (may_fail c || ok) eqn:Em; [|done].
  econstructor; [exact E1|exact Em|by apply IH].
Qed.

(** The eighth commit, that of the first disableKillSwitch, fails; the second try
    removes the rules. *)
Lemma windows_killswitch_removed_witness :
  exists fw1, after_calls [CEnable 7; CEnablePeer (sample_config "1.1.1.1"); CDisable] flaky_calls = Some fw1 /\
    installed (m_engine fw1) <> ∅ /\ (disableKillSwitch fw1).1 = true /\ untouched ∅ (disableKillSwitch fw1).2.
Proof.
  destruct (after_calls [CEnable 7; CEnablePeer (sample_config "1.1.1.1"); CDisable] flaky_calls) as [fw1|] eqn:E;
    [|by vm_compute in E].
  assert (installed (m_engine fw1) <> ∅ /\ (disableKillSwitch fw1).1 = true) as [Hi Hd].
  { vm_compute in E. injection E as <-. by vm_compute. }
  exists fw1. split; [done|]. split; [exact Hi|]. split; [exact Hd|].
  apply (windows_killswitch_removed ∅ [CEnable 7; CEnablePeer (sample_config "1.1.1.1"); CDisable] flaky_calls fw1
    (disableKillSwitch fw1).2); [by repeat split|exact (after_calls_runs _ _ _ E)|exact (run_pair _ _ Hd)].
Defined.

(** The program's own file is not there, so no rule can be made for it. *)
Lemma windows_killswitch_fails_open_witness :
  let fw := mkFirewall EngineHandle true [] [] (mkEngine ∅ None [mkNetIf 1 "Loopback" true] []) in
  (enableKillSwitch 7 fw).1 = false /\ untouched ∅ (enableKillSwitch 7 fw).2.
Proof.
  split; [by vm_compute|].
  apply (windows_killswitch_fails_open ∅ []
    (mkFirewall EngineHandle true [] [] (mkEngine ∅ None [mkNetIf 1 "Loopback" true] []))
    (mkFirewall EngineHandle true [] [] (mkEngine ∅ None [mkNetIf 1 "Loopback" true] [])) (CEnable 7) _);
    [| |by repeat split|apply runs_nil|done|done|apply run_pair; by vm_compute].
  - intros w Hw. cbn in *. by rewrite Hw.
  - done.
Defined.

Lemma failed_peer_removal_forgets_witness :
  exists fw, after_calls [CEnable 7; CEnablePeer (sample_config "1.1.1.1")] flaky_calls = Some fw /\
    m_peerRules fw <> [] /\ (disablePeerTraffic "cHVi" fw).1 = false /\
    installed (m_engine (disablePeerTraffic "cHVi" fw).2) = installed (m_engine fw) /\
    m_peerRules (disablePeerTraffic "cHVi" fw).2 = filter (λ r, r.1 <> "cHVi") (m_peerRules fw).
Proof.
  destruct (after_calls [CEnable 7; CEnablePeer (sample_config "1.1.1.1")] flaky_calls) as [fw|] eqn:E;
    [|by vm_compute in E].
  assert (m_peerRules fw <> [] /\ (disablePeerTraffic "cHVi" fw).1 = false /\
    (FwpmTransactionBegin (m_engine fw)).1 = true) as (Hp & Hd & Hb).
  { vm_compute in E. injection E as <-. by vm_compute. }
  exists fw. split; [done|]. split; [exact Hp|]. split; [exact Hd|].
  exact (failed_peer_removal_forgets "cHVi" fw (disablePeerTraffic "cHVi" fw).2 Hb (run_pair _ _ Hd)).
Defined.
End Sample.
