(* ===== verification/WindowsRouteMonitor.v ===== *)
(** * The routes around the tunnel on Windows

    Model of [WindowsRouteMonitor] (client/platforms/windows/daemon/
    windowsroutemonitor.cpp) over the IP Helper interface: the rows it keeps for
    the excluded prefixes, the search for the route each of them should take, and
    how the rows follow the routing table. *)
From Stdlib Require Import ZArith Lia.
From stdpp Require Import base list option.
From S2P Require Import Prelude HostAddress IpAddress LinuxRouteMonitor.
Local Open Scope Z_scope.

Definition AF_UNSPEC : Z := 0.
Definition AF_INET : Z := 2.
Definition AF_INET6 : Z := 23.
Definition ULONG_MAX : Z := 2 ^ 32 - 1.
Definition NO_ERROR : Z := 0.
Definition ERROR_NOT_FOUND : Z := 1168.
Definition ERROR_OBJECT_ALREADY_EXISTS : Z := 5010.
Definition MIB_IPPROTO_NETMGMT : Z := 3.

(** [SOCKADDR_INET]: the family and the 26 octets behind it, which are a port,
    an address and zeros, or a port, a flow label, an address and a scope. *)
Record SOCKADDR_INET := mkSockaddr { si_family : Z; si_data : list Z }.
#[export] Instance SOCKADDR_INET_eq_dec : EqDecision SOCKADDR_INET.
Proof. solve_decision. Defined.

Definition sin_addr (s : SOCKADDR_INET) : list Z := take 4 (drop 2 (si_data s)).
Definition sin6_addr (s : SOCKADDR_INET) : list Z := take 16 (drop 6 (si_data s)).
Definition write_octets (off : nat) (octets l : list Z) : list Z :=
  app (take off l) (app octets (drop (off + length octets) l)).
Definition set_sin_addr (a : list Z) (s : SOCKADDR_INET) := mkSockaddr (si_family s) (write_octets 2 a (si_data s)).
Definition set_sin6_addr (a : list Z) (s : SOCKADDR_INET) := mkSockaddr (si_family s) (write_octets 6 a (si_data s)).
Definition set_family (f : Z) (s : SOCKADDR_INET) := mkSockaddr f (si_data s).

Record MIB_IPFORWARD_ROW2 := mkRow {
  InterfaceLuid : Z;
  InterfaceIndex : Z;
  Prefix : SOCKADDR_INET;        (* DestinationPrefix.Prefix *)
  PrefixLength : Z;              (* DestinationPrefix.PrefixLength, an octet *)
  NextHop : SOCKADDR_INET;
  SitePrefixLength : Z;
  ValidLifetime : Z;
  PreferredLifetime : Z;
  Metric : Z;
  Protocol : Z;
  Loopback : bool;
  AutoconfigureAddress : bool;
  Publish : bool;
  Immortal : bool;
  Age : Z;
  Origin : Z
}.

Record MIB_IPINTERFACE_ROW := mkIfRow { if_Family : Z; if_Luid : Z; if_Connected : bool }.

(** What is used of the system. *)
Class IpHelper (W : Type) := {
  InitializeIpForwardEntry : MIB_IPFORWARD_ROW2;
  GetIpForwardTable2 : Z -> W -> option (list MIB_IPFORWARD_ROW2);
  GetIpInterfaceTable : Z -> W -> option (list MIB_IPINTERFACE_ROW);
  CreateIpForwardEntry2 : MIB_IPFORWARD_ROW2 -> StateM W Z;
  DeleteIpForwardEntry2 : MIB_IPFORWARD_ROW2 -> StateM W Z
}.

(** The object; [m_exclusionRoutes] is listed in the order of the hash. *)
Record WindowsRouteMonitor (W : Type) := mkMonitor {
  m_exclusionRoutes : list (IPAddress * MIB_IPFORWARD_ROW2);
  m_validInterfacesIpv4 : list Z;
  m_validInterfacesIpv6 : list Z;
  m_luid : Z;
  m_machine : W
}.
Arguments mkMonitor {W} _ _ _ _ _.
Arguments m_exclusionRoutes {W} _.
Arguments m_validInterfacesIpv4 {W} _.
Arguments m_validInterfacesIpv6 {W} _.
Arguments m_luid {W} _.
Arguments m_machine {W} _.

(** ** Which route *)

(** The first difference of the octets. *)
Fixpoint memcmp (a b : list Z) : Z :=
  match a, b with
  | x :: a, y :: b => if x =? y then memcmp a b else x - y
  | _, _ => 0
  end.

Definition prefixcmp (a b : list Z) (bits : Z) : Z :=
  let bytes := Z.to_nat (bits / 8) in
  let diff := if (0 <? bits / 8) then memcmp (take bytes a) (take bytes b) else 0 in
  if negb (diff =? 0) then diff
  else if negb (bits mod 8 =? 0) then
    Z.shiftr (a !!! bytes) (8 - bits mod 8) - Z.shiftr (b !!! bytes) (8 - bits mod 8)
  else 0.

(** The filter of the notification: whether [routeChanged] is queued. *)
Definition routeChangeCallback (luid : Z) (row : MIB_IPFORWARD_ROW2) : bool :=
  let family := si_family (Prefix row) in
  if family =? AF_INET6 then
    if 128 <=? PrefixLength row then false else negb (luid =? InterfaceLuid row)
  else if family =? AF_INET then
    if 32 <=? PrefixLength row then false else negb (luid =? InterfaceLuid row)
  else false.

(** The variables of the search. *)
Record Best := mkBest { nexthop : SOCKADDR_INET; bestLuid : Z; bestMatch : Z; bestMetric : Z }.

Definition first_best (data : MIB_IPFORWARD_ROW2) : Best :=
  mkBest (mkSockaddr (si_family (Prefix data)) (replicate 26 0)) 0 (-1) ULONG_MAX.

Section Search.
Variables (luid : Z) (valid4 valid6 : list Z) (data : MIB_IPFORWARD_ROW2).

Definition best_step (best : Best) (row : MIB_IPFORWARD_ROW2) : Best :=
  if InterfaceLuid row =? luid then best
  else if PrefixLength data <=? PrefixLength row then best
  else if PrefixLength row <? bestMatch best then best
  else
    let found :=
      if si_family (Prefix data) =? AF_INET6 then
        if negb (si_family (Prefix row) =? AF_INET6) then false
        else if negb (bool_decide (InterfaceLuid row ∈ valid6)) then false
        else prefixcmp (sin6_addr (Prefix data)) (sin6_addr (Prefix row)) (PrefixLength row) =? 0
      else if si_family (Prefix data) =? AF_INET then
        if negb (si_family (Prefix row) =? AF_INET) then false
        else if negb (bool_decide (InterfaceLuid row ∈ valid4)) then false
        else prefixcmp (sin_addr (Prefix data)) (sin_addr (Prefix row)) (PrefixLength row) =? 0
      else false in
    if negb found then best
    else if (PrefixLength row =? bestMatch best) && (bestMetric best <=? Metric row) then best
    else mkBest (NextHop row) (InterfaceLuid row) (PrefixLength row) (Metric row).

Definition best_route (table : list MIB_IPFORWARD_ROW2) : Best := foldl best_step (first_best data) table.
End Search.

(** ** The operations *)
Section Monitor.
Context {W : Type} `{IpHelper W}.
Implicit Types (s : WindowsRouteMonitor W).

Definition set_exclusionRoutes (l : list (IPAddress * MIB_IPFORWARD_ROW2)) s :=
  mkMonitor l (m_validInterfacesIpv4 s) (m_validInterfacesIpv6 s) (m_luid s) (m_machine s).
Definition set_valid4 (l : list Z) s :=
  mkMonitor (m_exclusionRoutes s) l (m_validInterfacesIpv6 s) (m_luid s) (m_machine s).
Definition set_valid6 (l : list Z) s :=
  mkMonitor (m_exclusionRoutes s) (m_validInterfacesIpv4 s) l (m_luid s) (m_machine s).
Definition set_machine (w : W) s :=
  mkMonitor (m_exclusionRoutes s) (m_validInterfacesIpv4 s) (m_validInterfacesIpv6 s) (m_luid s) w.
Definition setLuid (luid : Z) : StateM (WindowsRouteMonitor W) unit := modify (λ s,
  mkMonitor (m_exclusionRoutes s) (m_validInterfacesIpv4 s) (m_validInterfacesIpv6 s) luid (m_machine s)).

Definition on_machine {A} (m : StateM W A) : StateM (WindowsRouteMonitor W) A := λ s,
  let '(a, w) := m (m_machine s) in (a, set_machine w s).

Definition WindowsRouteMonitor_new (w : W) : WindowsRouteMonitor W := mkMonitor [] [] [] 0 w.

Definition valid_row (row : MIB_IPINTERFACE_ROW) : StateM (WindowsRouteMonitor W) unit :=
  luid <- gets m_luid ;;
  if if_Luid row =? luid then sret tt
  else if negb (if_Connected row) then sret tt
  else
    (if if_Family row =? AF_INET
     then modify (λ s, set_valid4 (app (m_validInterfacesIpv4 s) [if_Luid row]) s) else sret tt) ;;
    (if if_Family row =? AF_INET6
     then modify (λ s, set_valid6 (app (m_validInterfacesIpv6 s) [if_Luid row]) s) else sret tt).

Definition updateValidInterfaces (family : Z) : StateM (WindowsRouteMonitor W) unit :=
  table <- gets (λ s, GetIpInterfaceTable family (m_machine s)) ;;
  match table with
  | None => sret tt
  | Some table =>
      (if (family =? AF_INET) || (family =? AF_UNSPEC) then modify (set_valid4 []) else sret tt) ;;
      (if (family =? AF_INET6) || (family =? AF_UNSPEC) then modify (set_valid6 []) else sret tt) ;;
      for_each table valid_row
  end.

Definition set_route (luid : Z) (hop : SOCKADDR_INET) (d : MIB_IPFORWARD_ROW2) : MIB_IPFORWARD_ROW2 :=
  mkRow luid (InterfaceIndex d) (Prefix d) (PrefixLength d) hop (SitePrefixLength d) (ValidLifetime d)
    (PreferredLifetime d) (Metric d) (Protocol d) (Loopback d) (AutoconfigureAddress d) (Publish d)
    (Immortal d) (Age d) (Origin d).

(** The result is what the row behind [data] becomes. *)
Definition updateExclusionRoute (data : MIB_IPFORWARD_ROW2) (table : list MIB_IPFORWARD_ROW2) :
    StateM (WindowsRouteMonitor W) MIB_IPFORWARD_ROW2 :=
  best <- gets (λ s, best_route (m_luid s) (m_validInterfacesIpv4 s) (m_validInterfacesIpv6 s) data table) ;;
  if (InterfaceLuid data =? bestLuid best) && bool_decide (nexthop best = NextHop data) then sret data
  else
    (if negb (InterfaceLuid data =? 0) then on_machine (DeleteIpForwardEntry2 data) ;; sret tt else sret tt) ;;
    let data := set_route (bestLuid best) (nexthop best) data in
    (if negb (InterfaceLuid data =? 0) then on_machine (CreateIpForwardEntry2 data) ;; sret tt else sret tt) ;;
    sret data.

(** The row [addExclusionRoute] fills in. *)
Definition exclusion_row (prefix : IPAddress) : MIB_IPFORWARD_ROW2 :=
  let d := InitializeIpForwardEntry in
  let dest :=
    match protocol (m_address prefix) with
    | IPv6Protocol => set_family AF_INET6 (set_sin6_addr (toIPv6Address (m_address prefix)) (Prefix d))
    | _ => set_family AF_INET (set_sin_addr (be32 (toIPv4Address (m_address prefix))) (Prefix d))
    end in
  mkRow (InterfaceLuid d) (InterfaceIndex d) dest (u8 (m_prefixLength prefix))
    (set_family (si_family dest) (NextHop d)) (SitePrefixLength d) 4294967295 4294967295 0
    MIB_IPPROTO_NETMGMT false false false false 0 (Origin d).

Definition addExclusionRoute (prefix : IPAddress) : StateM (WindowsRouteMonitor W) bool :=
  known <- gets (λ s, bool_decide (prefix ∈ (m_exclusionRoutes s).*1)) ;;
  if (known : bool) then sret false
  else
    let family := match protocol (m_address prefix) with IPv6Protocol => AF_INET6 | _ => AF_INET end in
    table <- gets (λ s, GetIpForwardTable2 family (m_machine s)) ;;
    match table with
    | None => sret false
    | Some table =>
        updateValidInterfaces family ;;
        data <- updateExclusionRoute (exclusion_row prefix) table ;;
        modify (λ s, set_exclusionRoutes ((prefix, data) :: m_exclusionRoutes s) s) ;;
        sret true
    end.

(** [m_exclusionRoutes.take(prefix)] *)
Fixpoint take_route (prefix : IPAddress) (l : list (IPAddress * MIB_IPFORWARD_ROW2)) :
    option MIB_IPFORWARD_ROW2 * list (IPAddress * MIB_IPFORWARD_ROW2) :=
  match l with
  | [] => (None, [])
  | (p, d) :: l' =>
      if bool_decide (p = prefix) then (Some d, l')
      else let '(r, l'') := take_route prefix l' in (r, (p, d) :: l'')
  end.

(** [for (;;)]: with fuel. *)
Fixpoint delete_loop (fuel : nat) (prefix : IPAddress) : Run (WindowsRouteMonitor W) unit :=
  match fuel with
  | O => λ _, OutOfFuel
  | S fuel' =>
      let! data := rlift (λ s, let '(d, l) := take_route prefix (m_exclusionRoutes s) in
                               (d, set_exclusionRoutes l s)) in
      match data with
      | None => rret tt
      | Some data => do! rlift (on_machine (DeleteIpForwardEntry2 data)) in delete_loop fuel' prefix
      end
  end.
Definition delete_run (fuel : nat) (prefix : IPAddress) : Run (WindowsRouteMonitor W) bool :=
  do! delete_loop fuel prefix in rret true.
(** Each round takes an entry, so one round more than there are entries is enough. *)
Definition deleteExclusionRoute (prefix : IPAddress) : StateM (WindowsRouteMonitor W) bool := λ s,
  match delete_run (S (length (m_exclusionRoutes s))) prefix s with Ret r => r | _ => (false, s) end.

Definition flushExclusionRoutes : StateM (WindowsRouteMonitor W) unit :=
  l <- gets m_exclusionRoutes ;;
  for_each l (λ e, on_machine (DeleteIpForwardEntry2 e.2) ;; sret tt) ;;
  modify (set_exclusionRoutes []).

Fixpoint update_all (l : list (IPAddress * MIB_IPFORWARD_ROW2)) (table : list MIB_IPFORWARD_ROW2) :
    StateM (WindowsRouteMonitor W) (list (IPAddress * MIB_IPFORWARD_ROW2)) :=
  match l with
  | [] => sret []
  | (p, d) :: l' => d' <- updateExclusionRoute d table ;; r <- update_all l' table ;; sret ((p, d') :: r)
  end.

Definition routeChanged : StateM (WindowsRouteMonitor W) unit :=
  table <- gets (λ s, GetIpForwardTable2 AF_UNSPEC (m_machine s)) ;;
  match table with
  | None => sret tt
  | Some table =>
      updateValidInterfaces AF_UNSPEC ;;
      l <- gets m_exclusionRoutes ;;
      l' <- update_all l table ;;
      modify (set_exclusionRoutes l')
  end.

(** The destructor, after the notification is cancelled. *)
Definition WindowsRouteMonitor_delete : StateM (WindowsRouteMonitor W) unit := flushExclusionRoutes.
End Monitor.
