(* ===== verification/WindowsRouteProperties.v ===== *)
(** * What the route monitor of Windows promises

    The search finds the route that would carry an excluded prefix without the
    tunnel, the rows follow the routing table, and whatever is added is given back. *)
From Stdlib Require Import ZArith Lia.
From stdpp Require Import base list option.
From Stdlib Require Import ZArith Lia String.
From stdpp Require Import base list option relations.
From S2P Require Import Prelude HostAddress IpAddress LinuxRouteMonitor WindowsRouteMonitor.
Local Open Scope Z_scope.

(** ** Comparing prefixes *)
Lemma memcmp_zero a : forall b, length a = length b -> memcmp a b = 0 <-> a = b.
Proof.
  induction a as [|x a IH]; intros [|y b] Hl; cbn in *; try done.
  destruct (Z.eqb_spec x y) as [->|Hn].
  - rewrite IH by lia. split; [by intros ->|by intros [= ->]].
  - split; [lia|by intros [= ? ?]].
Qed.

Lemma octet_prefix r x y :
  (r <= 8)%nat -> is_octet x -> is_octet y ->
  Z.shiftr x (Z.of_nat (8 - r)) - Z.shiftr y (Z.of_nat (8 - r)) = 0 <->
  take r (msb_bits 8 x) = take r (msb_bits 8 y).
Proof.
  intros Hr Hx Hy. rewrite !take_msb_bits by done. split.
  - intros E. by replace (Z.shiftr x (Z.of_nat (8 - r))) with (Z.shiftr y (Z.of_nat (8 - r))) by lia.
  - intros E. apply msb_bits_inj in E; [lia|by apply shiftr_bound|by apply shiftr_bound].
Qed.

Lemma prefixcmp_zero a b bits :
  Forall is_octet a -> Forall is_octet b -> length a = length b -> 0 <= bits <= 8 * Z.of_nat (length a) ->
  prefixcmp a b bits = 0 <-> take (Z.to_nat bits) (octets_bits a) = take (Z.to_nat bits) (octets_bits b).
Proof.
  intros Ha Hb Hl Hbits. unfold prefixcmp.
  pose proof (Z.mod_pos_bound bits 8 ltac:(lia)) as Hr. pose proof (Z_div_mod_eq_full bits 8) as Hdm.
  assert (0 <= bits / 8) as Hk by (apply Z.div_pos; lia).
  set (k := Z.to_nat (bits / 8)) in *. set (r := Z.to_nat (bits mod 8)).
  assert (Z.to_nat bits = 8 * k + r)%nat as Eb by lia.
  assert ((if 0 <? bits / 8 then memcmp (take k a) (take k b) else 0) = 0 <-> take k a = take k b) as Hc.
  { destruct (Z.ltb_spec 0 (bits / 8)).
    - apply memcmp_zero. rewrite !length_take. lia.
    - by replace k with 0%nat by lia. }
  set (c := if 0 <? bits / 8 then _ else 0) in *. clearbody c.
  destruct (Z.eqb_spec (bits mod 8) 0) as [H0|H0]; cbn [negb].
  - rewrite Eb. replace (8 * k + r)%nat with (8 * k)%nat by lia. rewrite !take_octets_bits_whole by lia.
    assert (octets_bits (take k a) = octets_bits (take k b) <-> take k a = take k b) as ->.
    { split; [|by intros ->]. apply octets_bits_inj; auto using Forall_take. rewrite !length_take; lia. }
    rewrite <- Hc. destruct (Z.eqb_spec c 0) as [->|]; done.
  - assert (k < length a)%nat as Hka by lia. destruct (lookup_lt_is_Some_2 a k Hka) as [x Hx].
    destruct (lookup_lt_is_Some_2 b k ltac:(lia)) as [y Hy].
    rewrite Eb, (take_octets_agree a b k r x y) by (done || lia).
    rewrite (list_lookup_total_correct _ _ _ Hx), (list_lookup_total_correct _ _ _ Hy).
    replace (8 - bits mod 8) with (Z.of_nat (8 - r)) by lia.
    rewrite <- octet_prefix, <- Hc;
      [|lia|exact (list.Forall_lookup_1 _ _ _ _ Ha Hx)|exact (list.Forall_lookup_1 _ _ _ _ Hb Hy)].
    destruct (Z.eqb_spec c 0) as [->|]; cbn; [naive_solver|]. split; [done|by intros []].
Qed.

(** ** The search *)
Definition row_octets (r : MIB_IPFORWARD_ROW2) : list Z :=
  if si_family (Prefix r) =? AF_INET6 then sin6_addr (Prefix r) else sin_addr (Prefix r).
Definition sockaddr_wf (s : SOCKADDR_INET) : Prop := length (si_data s) = 26%nat /\ Forall is_octet (si_data s).
Definition row_wf (r : MIB_IPFORWARD_ROW2) : Prop :=
  sockaddr_wf (Prefix r) /\ 0 <= PrefixLength r <= 8 * Z.of_nat (length (row_octets r)).

(** [r'] is the better route: it is more specific, or as specific and cheaper. *)
Definition better (r' r : MIB_IPFORWARD_ROW2) : Prop :=
  PrefixLength r < PrefixLength r' \/ PrefixLength r' = PrefixLength r /\ Metric r' < Metric r.
Definition best_of (r : MIB_IPFORWARD_ROW2) : Best :=
  mkBest (NextHop r) (InterfaceLuid r) (PrefixLength r) (Metric r).

Lemma row_octets_wf r :
  sockaddr_wf (Prefix r) -> Forall is_octet (row_octets r) /\
  length (row_octets r) = if si_family (Prefix r) =? AF_INET6 then 16%nat else 4%nat.
Proof.
  intros [Hl Ho]. unfold row_octets, sin6_addr, sin_addr. destruct (_ =? AF_INET6);
    (split; [by apply Forall_take, Forall_drop|rewrite length_take, length_drop, Hl; done]).
Qed.

Section Search.
Variables (luid : Z) (valid4 valid6 : list Z) (data : MIB_IPFORWARD_ROW2).

(** The rows the search considers. *)
Record usable (row : MIB_IPFORWARD_ROW2) : Prop := {
  us_luid : InterfaceLuid row <> luid;
  us_shorter : PrefixLength row < PrefixLength data;
  us_family : si_family (Prefix row) = si_family (Prefix data);
  us_valid : si_family (Prefix data) = AF_INET6 /\ InterfaceLuid row ∈ valid6 \/
             si_family (Prefix data) = AF_INET /\ InterfaceLuid row ∈ valid4;
  us_covers : take (Z.to_nat (PrefixLength row)) (octets_bits (row_octets data)) =
              take (Z.to_nat (PrefixLength row)) (octets_bits (row_octets row))
}.

(** The decision of one round. *)
Definition taken (best : Best) (row : MIB_IPFORWARD_ROW2) : Prop :=
  usable row /\ (bestMatch best < PrefixLength row \/
                 PrefixLength row = bestMatch best /\ Metric row < bestMetric best).

Lemma best_step_taken best row :
  sockaddr_wf (Prefix data) -> row_wf row ->
  taken best row /\ best_step luid valid4 valid6 data best row = best_of row \/
  ~ taken best row /\ best_step luid valid4 valid6 data best row = best.
Proof.
  intros Hd [Hs Hp]. destruct (row_octets_wf data Hd) as [Hdo Hdl]. destruct (row_octets_wf row Hs) as [Hro Hrl].
  unfold best_step. destruct (Z.eqb_spec (InterfaceLuid row) luid) as [|Hluid]; [right; split; [intros [[] _]|]; done|].
  destruct (Z.leb_spec (PrefixLength data) (PrefixLength row)); [right; split; [intros [[] _]; lia|done]|].
  destruct (Z.ltb_spec (PrefixLength row) (bestMatch best)); [right; split; [intros [_ ?]; lia|done]|].
  set (found := if si_family (Prefix data) =? AF_INET6 then _ else _).
  assert (found = true <-> usable row) as Hf.
  { unfold found. destruct (Z.eqb_spec (si_family (Prefix data)) AF_INET6) as [E6|N6].
    - destruct (Z.eqb_spec (si_family (Prefix row)) AF_INET6) as [R6|]; cbn [negb]; [|split; [done|intros []; congruence]].
      case_bool_decide as Hv; cbn [negb].
      + assert (sin6_addr (Prefix data) = row_octets data) as -> by (unfold row_octets; by rewrite E6).
        assert (sin6_addr (Prefix row) = row_octets row) as -> by (unfold row_octets; by rewrite R6).
        rewrite Z.eqb_eq, prefixcmp_zero by (rewrite ?Hdl, ?Hrl, ?E6, ?R6 in *; done || lia).
        split; [intros Hc; split; [..|left|]; by try congruence|by intros []].
      + split; [done|]. intros [_ _ _ [[_ ?]|[E4 _]] _]; [done|]. by rewrite E4 in E6.
    - destruct (Z.eqb_spec (si_family (Prefix data)) AF_INET) as [E4|N4];
        [|split; [done|]; intros [_ _ _ [[? _]|[? _]] _]; done].
      destruct (Z.eqb_spec (si_family (Prefix row)) AF_INET) as [R4|]; cbn [negb]; [|split; [done|intros []; congruence]].
      case_bool_decide as Hv; cbn [negb].
      + assert (sin_addr (Prefix data) = row_octets data) as -> by (unfold row_octets; by rewrite E4).
        assert (sin_addr (Prefix row) = row_octets row) as -> by (unfold row_octets; by rewrite R4).
        rewrite Z.eqb_eq, prefixcmp_zero by (rewrite ?Hdl, ?Hrl, ?E4, ?R4 in *; done || lia).
        split; [intros Hc; split; [..|right|]; by try congruence|by intros []].
      + split; [done|]. intros [_ _ _ [[E6 _]|[_ ?]] _]; done. }
  destruct found; cbn [negb].
  - destruct (Z.eqb_spec (PrefixLength row) (bestMatch best)) as [Em|Em]; cbn [andb].
    + destruct (Z.leb_spec (bestMetric best) (Metric row)); [right|left]; (split; [|done]); unfold taken.
      * intros [_ ?]; lia.
      * split; [by apply Hf|]. right. lia.
    + left. split; [|done]. split; [by apply Hf|]. left. lia.
  - right. split; [|done]. intros [Hu _]. by apply Hf in Hu.
Qed.

(** The search ends with the first of the best rows, or without any when there is
    none. *)
Lemma best_route_exact table :
  sockaddr_wf (Prefix data) -> Forall row_wf table ->
  let best := best_route luid valid4 valid6 data table in
  best = first_best data /\ (forall r, r ∈ table -> ~ usable r) \/
  exists before row after, table = app before (row :: after) /\ usable row /\ best = best_of row /\
    (forall r, r ∈ before -> usable r -> better row r) /\ (forall r, r ∈ after -> usable r -> ~ better r row).
Proof.
  intros Hd Hw. unfold best_route. induction table as [|row table IH] using rev_ind.
  { left. split; [done|]. intros r Hr. by apply not_elem_of_nil in Hr. }
  apply Forall_app in Hw as [Hw Hr]. apply list.Forall_cons in Hr as [Hr _]. specialize (IH Hw). rewrite foldl_app. cbn [foldl].
  set (best := foldl _ (first_best data) table) in *. pose proof (best_step_taken best row Hd Hr) as Hs.
  destruct IH as [[E Hn]|(before & r0 & after & Et & Hu & E & Hb & Ha)].
  - destruct Hs as [[Ht ->]|[Ht ->]]; rewrite E in Ht.
    + right. exists table, row, []. split; [done|]. split; [by destruct Ht|]. split; [done|]. split.
      * intros r Hin Hu. by destruct (Hn r Hin).
      * intros r Hin. by apply not_elem_of_nil in Hin.
    + left. split; [done|]. intros r [Hin| ->%list_elem_of_singleton]%elem_of_app Hu; [by apply (Hn r)|].
      apply Ht. split; [done|]. left. cbn. destruct Hr. lia.
  - destruct Hs as [[[Hur Ht] ->]|[Ht ->]]; rewrite E in Ht; cbn in Ht.
    + right. exists table, row, []. split; [done|]. split; [done|]. split; [done|]. split.
      * assert (better row r0) as Hr0 by done. intros r Hin Hus. rewrite Et in Hin. unfold better in *.
        apply elem_of_app in Hin as [Hin|[->|Hin]%elem_of_cons]; [specialize (Hb r Hin Hus); lia|done|].
        specialize (Ha r Hin Hus). lia.
      * intros r Hin. by apply not_elem_of_nil in Hin.
    + right. exists before, r0, (app after [row]). rewrite Et, <- app_assoc. split; [done|]. split; [done|].
      split; [done|]. split; [done|]. intros r [Hin| ->%list_elem_of_singleton]%elem_of_app Hus Hbt; [by apply (Ha r)|].
      apply Ht. split; [done|]. exact Hbt.
Qed.
End Search.

(** ** The system

    A route of the table is found by its interface, its destination and its next
    hop. *)
Record Route := mkRoute { rt_luid : Z; rt_family : Z; rt_dest : list Z; rt_length : Z; rt_hop : SOCKADDR_INET }.
#[export] Instance Route_eq_dec : EqDecision Route.
Proof. solve_decision. Defined.
Definition route_of (r : MIB_IPFORWARD_ROW2) : Route :=
  mkRoute (InterfaceLuid r) (si_family (Prefix r)) (row_octets r) (PrefixLength r) (NextHop r).
(** Where a route leads. *)
Definition target (x : Route) : Z * list Z * Z := (rt_family x, rt_dest x, rt_length x).

Class RoutesView (W : Type) := routes_in : W -> list Route.

Class IpHelperLaws (W : Type) `{IpHelper W} `{RoutesView W} : Prop := {
  initialize_law : InterfaceLuid InitializeIpForwardEntry = 0 /\ sockaddr_wf (Prefix InitializeIpForwardEntry);
  table_law f w t : GetIpForwardTable2 f w = Some t ->
    Forall (λ r, row_wf r /\ InterfaceLuid r <> 0) t /\
    (forall x, x ∈ map route_of t <-> x ∈ routes_in w /\ (f = AF_UNSPEC \/ rt_family x = f));
  create_law row w : let '(code, w') := CreateIpForwardEntry2 row w in
    if code =? NO_ERROR then forall x, x ∈ routes_in w' <-> x = route_of row \/ x ∈ routes_in w
    else routes_in w' = routes_in w;
  duplicate_law row w : (CreateIpForwardEntry2 row w).1 = ERROR_OBJECT_ALREADY_EXISTS ->
    exists x, x ∈ routes_in w /\ rt_luid x = InterfaceLuid row /\ target x = target (route_of row);
  delete_law row w : let '(code, w') := DeleteIpForwardEntry2 row w in
    if code =? NO_ERROR then forall x, x ∈ routes_in w' <-> x ∈ routes_in w /\ x <> route_of row
    else routes_in w' = routes_in w;
  missing_law row w : (DeleteIpForwardEntry2 row w).1 = ERROR_NOT_FOUND -> route_of row ∉ routes_in w
}.

(** ** The rows of the exclusions *)
Definition family_of (p : IPAddress) : Z := match protocol (m_address p) with IPv6Protocol => AF_INET6 | _ => AF_INET end.

(** The interfaces of a family that are connected, the tunnel left out. *)
Definition valid_of (luid family : Z) (ifs : list MIB_IPINTERFACE_ROW) : list Z :=
  map if_Luid (filter (λ i, if_Luid i <> luid /\ if_Connected i = true /\ if_Family i = family) ifs).

(** [r] would carry all of [p] past the tunnel. *)
Record bypass (luid : Z) (ifs : list MIB_IPINTERFACE_ROW) (p : IPAddress) (r : MIB_IPFORWARD_ROW2) : Prop := {
  bp_luid : InterfaceLuid r <> luid;
  bp_connected : exists i, i ∈ ifs /\ if_Luid i = InterfaceLuid r /\ if_Connected i = true /\ if_Family i = family_of p;
  bp_family : si_family (Prefix r) = family_of p;
  bp_shorter : PrefixLength r < m_prefixLength p;
  bp_covers : take (Z.to_nat (PrefixLength r)) (octets_bits (row_octets r)) `prefix_of` addr_bits (m_address p)
}.

(** The row [d] leads [p] along the best such route of the table. *)
Definition follows (luid : Z) (ifs : list MIB_IPINTERFACE_ROW) (t : list MIB_IPFORWARD_ROW2) (p : IPAddress)
    (d : MIB_IPFORWARD_ROW2) : Prop :=
  (forall r, r ∈ t -> ~ bypass luid ifs p r) /\ InterfaceLuid d = 0 \/
  exists r, r ∈ t /\ bypass luid ifs p r /\ InterfaceLuid d = InterfaceLuid r /\ NextHop d = NextHop r /\
    forall r', r' ∈ t -> bypass luid ifs p r' -> ~ better r' r.

Lemma msb_bits_split w1 w2 a : msb_bits (w1 + w2) a = app (msb_bits w1 (Z.shiftr a (Z.of_nat w2))) (msb_bits w2 a).
Proof.
  apply list_eq. intros i. destruct (decide (i < w1)%nat) as [Hi|Hi].
  - rewrite lookup_app_l, !lookup_msb_bits by (rewrite ?length_msb_bits; lia).
    rewrite Z.shiftr_spec by lia. do 2 f_equal. lia.
  - rewrite lookup_app_r by (rewrite length_msb_bits; lia). rewrite length_msb_bits.
    destruct (decide (i < w1 + w2)%nat); [|by rewrite !lookup_ge_None_2 by (rewrite length_msb_bits; lia)].
    rewrite !lookup_msb_bits by lia. do 2 f_equal. lia.
Qed.

Lemma msb_bits_octet a : msb_bits 8 (a mod 256) = msb_bits 8 a.
Proof.
  apply list_eq. intros i. destruct (decide (i < 8)%nat).
  - rewrite !lookup_msb_bits by lia. f_equal. by rewrite (Z.mod_pow2_bits_low a 8) by lia.
  - by rewrite !lookup_ge_None_2 by (rewrite length_msb_bits; lia).
Qed.

Lemma be32_bits a : octets_bits (be32 a) = msb_bits 32 a.
Proof.
  unfold be32. rewrite !octets_bits_cons, !msb_bits_octet. change (octets_bits []) with (@nil bool).
  change 32%nat with (8 + (8 + (8 + 8)))%nat. rewrite !msb_bits_split, app_nil_r.
  by rewrite !Z.shiftr_div_pow2 by lia.
Qed.

Lemma be32_octets a : Forall is_octet (be32 a).
Proof. repeat apply List.Forall_cons; try apply List.Forall_nil; apply Z.mod_pos_bound; lia. Qed.

Section Rows.
Context {W : Type} `{IpHelper W} `{RoutesView W} `{!IpHelperLaws W}.
Implicit Types (s : WindowsRouteMonitor W).

(** The row of an exclusion, wherever it leads at the moment. *)
Definition describes (p : IPAddress) (d : MIB_IPFORWARD_ROW2) : Prop :=
  exists luid hop, d = set_route luid hop (exclusion_row p).

Lemma write_octets_length off o l :
  (off + length o <= length l)%nat -> length (write_octets off o l) = length l.
Proof. intros. unfold write_octets. rewrite !length_app, length_take, length_drop. lia. Qed.
Lemma write_octets_read off o l :
  (off + length o <= length l)%nat -> take (length o) (drop off (write_octets off o l)) = o.
Proof.
  intros. unfold write_octets. rewrite drop_app_length' by (rewrite length_take; lia). by apply take_app_length.
Qed.
Lemma write_octets_octets off o l :
  Forall is_octet o -> Forall is_octet l -> Forall is_octet (write_octets off o l).
Proof. intros. unfold write_octets. rewrite !Forall_app. auto using Forall_take, Forall_drop. Qed.

Lemma exclusion_row_dest p :
  ip_wf p -> let d := exclusion_row p in
  sockaddr_wf (Prefix d) /\ si_family (Prefix d) = family_of p /\ PrefixLength d = m_prefixLength p /\
  octets_bits (row_octets d) = addr_bits (m_address p).
Proof.
  intros (Ha & Hp & Hl). destruct initialize_law as [_ [Hlen Ho]]. unfold family_of, row_octets, exclusion_row.
  destruct (m_address p) as [|a|l] eqn:Ea; [done|..]; cbn -[write_octets be32 octets_bits Z.mul u8] in *.
  - assert (length (be32 a) = 4)%nat as H4 by done.
    split; [split; cbn -[write_octets be32]; [rewrite write_octets_length; [done|lia]|
      apply write_octets_octets; [apply be32_octets|done]]|].
    split; [done|]. split; [apply Z.mod_small; lia|]. unfold sin_addr. cbn -[write_octets be32 octets_bits].
    rewrite (write_octets_read 2 (be32 a)) by lia. apply be32_bits.
  - destruct Ha as [H16 Hoct].
    split; [split; cbn -[write_octets]; [rewrite write_octets_length; [done|lia]|by apply write_octets_octets]|].
    split; [done|]. split; [apply Z.mod_small; lia|]. unfold sin6_addr. cbn -[write_octets octets_bits].
    rewrite <- H16. by rewrite (write_octets_read 6 l) by lia.
Qed.

Lemma describes_dest p d :
  ip_wf p -> describes p d ->
  sockaddr_wf (Prefix d) /\ si_family (Prefix d) = family_of p /\ PrefixLength d = m_prefixLength p /\
  octets_bits (row_octets d) = addr_bits (m_address p).
Proof. intros Hp (luid & hop & ->). exact (exclusion_row_dest p Hp). Qed.

Lemma valid_of_in luid family ifs x :
  x ∈ valid_of luid family ifs <->
  x <> luid /\ exists i, i ∈ ifs /\ if_Luid i = x /\ if_Connected i = true /\ if_Family i = family.
Proof.
  unfold valid_of. rewrite list_elem_of_In, in_map_iff. setoid_rewrite <- list_elem_of_In.
  setoid_rewrite list_elem_of_filter. naive_solver.
Qed.

Lemma usable_bypass luid v4 v6 ifs p d r :
  ip_wf p -> describes p d -> row_wf r ->
  (if bool_decide (family_of p = AF_INET6) then v6 else v4) = valid_of luid (family_of p) ifs ->
  usable luid v4 v6 d r <-> bypass luid ifs p r.
Proof.
  intros Hp Hd Hr Hv. destruct (describes_dest p d Hp Hd) as (Hs & Hf & Hl & Hb).
  assert (take (Z.to_nat (PrefixLength r)) (octets_bits (row_octets d)) =
    take (Z.to_nat (PrefixLength r)) (octets_bits (row_octets r)) <->
    take (Z.to_nat (PrefixLength r)) (octets_bits (row_octets r)) `prefix_of` addr_bits (m_address p)) as Hc.
  { destruct Hr as [_ Hr]. rewrite Hb. symmetry. apply prefix_take_iff. rewrite length_octets_bits. lia. }
  assert (family_of p = AF_INET6 \/ family_of p = AF_INET) as Hfam
    by (unfold family_of; destruct (protocol _); auto).
  split.
  - intros [U1 U2 U3 U4 U5]. rewrite Hf in *. rewrite Hl in U2.
    assert (InterfaceLuid r ∈ valid_of luid (family_of p) ifs) as Hin.
    { rewrite <- Hv. by destruct U4 as [[-> ?]|[-> ?]]. }
    apply valid_of_in in Hin as [_ Hin]. split; [done|done|done|done|by apply Hc].
  - intros [B1 B2 B3 B4 B5]. split; [done|by rewrite Hl|congruence| |by apply Hc].
    assert (InterfaceLuid r ∈ valid_of luid (family_of p) ifs) as Hin by (by apply valid_of_in).
    rewrite <- Hv in Hin. rewrite Hf. destruct Hfam as [E|E]; rewrite E in *; [left|right]; done.
Qed.

Lemma best_follows luid v4 v6 ifs t p d :
  ip_wf p -> describes p d -> Forall (λ r, row_wf r /\ InterfaceLuid r <> 0) t ->
  (if bool_decide (family_of p = AF_INET6) then v6 else v4) = valid_of luid (family_of p) ifs ->
  let b := best_route luid v4 v6 d t in
  follows luid ifs t p (set_route (bestLuid b) (nexthop b) d).
Proof.
  intros Hp Hd Ht Hv b. destruct (describes_dest p d Hp Hd) as (Hs & _).
  assert (Forall row_wf t) as Hw by (eapply list.Forall_impl; [exact Ht|by intros r []]).
  assert (forall r, r ∈ t -> usable luid v4 v6 d r <-> bypass luid ifs p r) as Hu.
  { intros r Hr. apply usable_bypass; [done|done| |done]. by apply (proj1 (list.Forall_forall _ _) Hw). }
  destruct (best_route_exact luid v4 v6 d t Hs Hw) as [[E Hn]|(before & r & after & Et & Hr & E & Hb & Ha)]; fold b in E.
  - left. split; [|by rewrite E]. intros r Hr Hb. by apply (Hn r Hr), Hu.
  - right. assert (r ∈ t) as Hin by (rewrite Et; apply elem_of_app; right; by left). exists r. split; [done|]. split; [by apply Hu|].
    rewrite E. split; [done|]. split; [done|]. intros r' Hr' Hb' Hbt. apply Hu in Hb'; [|done].
    rewrite Et in Hr'. apply elem_of_app in Hr' as [Hi|[->|Hi]%elem_of_cons].
    + specialize (Hb r' Hi Hb'). unfold better in *. lia.
    + unfold better in Hbt. lia.
    + by apply (Ha r').
Qed.

(** ** The operations *)

(** [m] changes the machine only. *)
Definition machine_only {A} (m : StateM (WindowsRouteMonitor W) A) : Prop :=
  forall s, exists w, (m s).2 = set_machine w s.

Lemma set_route_eta d : set_route (InterfaceLuid d) (NextHop d) d = d.
Proof. by destruct d. Qed.

Lemma valid_rows l : forall s,
  (for_each l valid_row s).2 =
    set_valid4 (app (m_validInterfacesIpv4 s) (valid_of (m_luid s) AF_INET l))
      (set_valid6 (app (m_validInterfacesIpv6 s) (valid_of (m_luid s) AF_INET6 l)) s).
Proof.
  induction l as [|i l IH]; intros s; [destruct s; cbn; by rewrite !app_nil_r|].
  cbn [for_each]. rewrite sbind_run, IH. clear IH. unfold valid_row. rewrite gets_bind.
  unfold valid_of. rewrite !filter_cons. destruct s as [e v4 v6 luid w]. cbn [m_luid].
  destruct (Z.eqb_spec (if_Luid i) luid) as [E|E].
  { rewrite !decide_False by naive_solver. done. }
  destruct (if_Connected i) eqn:C; cbn [negb]; [|by rewrite !decide_False by naive_solver].
  rewrite sbind_run. destruct (Z.eqb_spec (if_Family i) AF_INET) as [F4|F4];
    destruct (Z.eqb_spec (if_Family i) AF_INET6) as [F6|F6];
    try (rewrite F4 in F6; done);
    repeat case_decide; cbn; rewrite <- ?app_assoc; naive_solver.
Qed.

Lemma updateValid_run family ifs s :
  GetIpInterfaceTable family (m_machine s) = Some ifs ->
  let s' := (updateValidInterfaces family s).2 in
  m_exclusionRoutes s' = m_exclusionRoutes s /\ m_luid s' = m_luid s /\ m_machine s' = m_machine s /\
  ((family = AF_INET \/ family = AF_UNSPEC) -> m_validInterfacesIpv4 s' = valid_of (m_luid s) AF_INET ifs) /\
  ((family = AF_INET6 \/ family = AF_UNSPEC) -> m_validInterfacesIpv6 s' = valid_of (m_luid s) AF_INET6 ifs).
Proof.
  intros E s'. unfold s', updateValidInterfaces. rewrite gets_bind, E, !sbind_run, valid_rows. clear s' E.
  destruct (Z.eqb_spec family AF_INET), (Z.eqb_spec family AF_UNSPEC), (Z.eqb_spec family AF_INET6);
    cbn; repeat split; try done; naive_solver.
Qed.

Lemma updateValid_keeps family s :
  let s' := (updateValidInterfaces family s).2 in
  m_exclusionRoutes s' = m_exclusionRoutes s /\ m_luid s' = m_luid s /\ m_machine s' = m_machine s.
Proof.
  destruct (GetIpInterfaceTable family (m_machine s)) as [ifs|] eqn:E.
  - destruct (updateValid_run family ifs s E) as (? & ? & ? & _). done.
  - unfold updateValidInterfaces. by rewrite gets_bind, E.
Qed.

(** The row becomes what the search found. *)
Lemma update_data d t s :
  let b := best_route (m_luid s) (m_validInterfacesIpv4 s) (m_validInterfacesIpv6 s) d t in
  (updateExclusionRoute d t s).1 = set_route (bestLuid b) (nexthop b) d.
Proof.
  intros b. unfold updateExclusionRoute. rewrite gets_bind. fold b.
  destruct (Z.eqb_spec (InterfaceLuid d) (bestLuid b)) as [El|]; cbn [andb].
  - case_bool_decide as En; [cbn; by rewrite <- El, En, set_route_eta|by rewrite !sbind_run].
  - by rewrite !sbind_run.
Qed.

Lemma on_machine_run {A} (m : StateM W A) s : on_machine m s = ((m (m_machine s)).1, set_machine (m (m_machine s)).2 s).
Proof. unfold on_machine. by destruct (m (m_machine s)). Qed.

(** What happens to the machine. *)
Definition moved (d d' : MIB_IPFORWARD_ROW2) (w w' : W) : Prop :=
  d' = d /\ w' = w \/
  (let w1 := if InterfaceLuid d =? 0 then w else (DeleteIpForwardEntry2 d w).2 in
   w' = if InterfaceLuid d' =? 0 then w1 else (CreateIpForwardEntry2 d' w1).2).

Lemma update_machine d t s :
  let '(d', s') := updateExclusionRoute d t s in
  s' = set_machine (m_machine s') s /\ moved d d' (m_machine s) (m_machine s').
Proof.
  pose proof (update_data d t s) as Hd. unfold updateExclusionRoute in *. rewrite gets_bind in *.
  set (b := best_route _ _ _ d t) in *. destruct (_ && _).
  { split; [by destruct s|by left]. }
  rewrite !sbind_run in *. cbn [fst snd sret]. set (d' := set_route _ _ d) in *.
  assert (exists w1, (if negb (InterfaceLuid d =? 0) then on_machine (DeleteIpForwardEntry2 d);; sret () else sret ()) s =
    ((), set_machine w1 s) /\ w1 = if InterfaceLuid d =? 0 then m_machine s else (DeleteIpForwardEntry2 d (m_machine s)).2) as (w1 & E1 & Hw1).
  { destruct (InterfaceLuid d =? 0); cbn [negb]; eexists; (split; [|done]); [by destruct s|].
    by rewrite sbind_run, on_machine_run. }
  rewrite E1. clear Hd. clearbody d'. unfold moved. rewrite <- Hw1. destruct (InterfaceLuid d' =? 0); cbn [negb].
  - split; [by destruct s|]. by right.
  - rewrite sbind_run, on_machine_run. split; [by destruct s|]. by right.
Qed.

Lemma update_all_run t l : forall s,
  let '(l', s') := update_all l t s in
  s' = set_machine (m_machine s') s /\
  l' = map (λ e, let b := best_route (m_luid s) (m_validInterfacesIpv4 s) (m_validInterfacesIpv6 s) e.2 t in
                 (e.1, set_route (bestLuid b) (nexthop b) e.2)) l.
Proof.
  induction l as [|[p d] l IH]; intros s; cbn [update_all]; [by destruct s|].
  rewrite sbind_run. pose proof (update_data d t s) as Hd. pose proof (update_machine d t s) as Hm.
  destruct (updateExclusionRoute d t s) as [d' s1]. cbn [fst snd] in *. destruct Hm as [Hs _].
  rewrite sbind_run. specialize (IH s1). destruct (update_all l t s1) as [l' s2]. cbn [fst snd sret].
  destruct IH as [Hs2 ->]. rewrite Hd. split; [by rewrite Hs2, Hs|]. by rewrite Hs.
Qed.

(** The lists of valid interfaces after they were read. *)
Lemma valid_after family ifs s p :
  GetIpInterfaceTable family (m_machine s) = Some ifs -> family = AF_UNSPEC \/ family = family_of p ->
  let s' := (updateValidInterfaces family s).2 in
  (if bool_decide (family_of p = AF_INET6) then m_validInterfacesIpv6 s' else m_validInterfacesIpv4 s') =
  valid_of (m_luid s) (family_of p) ifs.
Proof.
  intros E Hf s'. destruct (updateValid_run family ifs s E) as (_ & _ & _ & H4 & H6). fold s' in H4, H6.
  assert (family_of p = AF_INET6 \/ family_of p = AF_INET) as [F|F]
    by (unfold family_of; destruct (protocol _); auto); rewrite F in *.
  - rewrite bool_decide_eq_true_2 by done. apply H6. naive_solver.
  - rewrite bool_decide_eq_false_2 by done. apply H4. naive_solver.
Qed.

Lemma exclusion_added_full p s s' t ifs :
  ip_wf p -> GetIpForwardTable2 (family_of p) (m_machine s) = Some t ->
  GetIpInterfaceTable (family_of p) (m_machine s) = Some ifs -> addExclusionRoute p s = (true, s') ->
  exists d, m_exclusionRoutes s' = (p, d) :: m_exclusionRoutes s /\ describes p d /\
    follows (m_luid s) ifs t p d /\
    (InterfaceLuid d = 0 -> m_machine s' = m_machine s) /\
    (InterfaceLuid d <> 0 -> (CreateIpForwardEntry2 d (m_machine s)).1 = NO_ERROR -> route_of d ∈ routes_in (m_machine s')).
Proof.
  intros Hp Ht Hi E. unfold addExclusionRoute in E. rewrite gets_bind in E. case_bool_decide; [done|].
  rewrite gets_bind in E. change (match protocol (m_address p) with IPv6Protocol => AF_INET6 | _ => AF_INET end)
    with (family_of p) in E. rewrite Ht in E. rewrite sbind_run in E.
  destruct (updateValid_keeps (family_of p) s) as (Ke & Kl & Km).
  pose proof (valid_after (family_of p) ifs s p Hi ltac:(by right)) as Hv. cbn zeta in Hv.
  set (s1 := (updateValidInterfaces (family_of p) s).2) in *.
  rewrite sbind_run in E. pose proof (update_data (exclusion_row p) t s1) as Hd.
  pose proof (update_machine (exclusion_row p) t s1) as Hm. cbn zeta in Hd.
  destruct (updateExclusionRoute (exclusion_row p) t s1) as [d s2]. cbn [fst snd] in Hd, E.
  destruct Hm as [Hs2 Hmv]. rewrite sbind_run in E. injection E as <-. exists d.
  assert (describes p (exclusion_row p)) as Hdp by (eexists _, _; symmetry; apply set_route_eta).
  split; [by rewrite Hs2; cbn; rewrite Ke|]. split; [by rewrite Hd; eexists _, _|]. split.
  { rewrite Hd. rewrite Kl. apply best_follows; [done|done|by destruct (table_law _ _ _ Ht)|done]. }
  cbn [m_machine set_exclusionRoutes]. rewrite Km in Hmv.
  assert (InterfaceLuid (exclusion_row p) = 0) as E0 by (cbn; apply initialize_law).
  destruct Hmv as [[-> ->]|Hmv]; [by rewrite E0|]. rewrite E0 in Hmv. cbn [Z.eqb] in Hmv. rewrite Hmv. split.
  - by intros ->.
  - intros Hn Hc. rewrite (proj2 (Z.eqb_neq _ _) Hn). pose proof (create_law d (m_machine s)) as Hl.
    destruct (CreateIpForwardEntry2 d (m_machine s)) as [c w]. cbn in *. rewrite Hc in Hl. apply Hl. by left.
Qed.

Lemma exclusion_added p s s' t ifs :
  ip_wf p -> GetIpForwardTable2 (family_of p) (m_machine s) = Some t ->
  GetIpInterfaceTable (family_of p) (m_machine s) = Some ifs -> addExclusionRoute p s = (true, s') ->
  exists d, m_exclusionRoutes s' = (p, d) :: m_exclusionRoutes s /\ follows (m_luid s) ifs t p d.
Proof. intros Hp Ht Hi E. destruct (exclusion_added_full p s s' t ifs Hp Ht Hi E) as (d & ? & _ & ? & _). by exists d. Qed.

(** An exclusion that is added is recorded with the best route past the tunnel;
    when there is none nothing is changed, and when the system takes the row the
    route is in the table. *)
Theorem exclusion_takes_best_route p s s' t ifs :
  ip_wf p -> GetIpForwardTable2 (family_of p) (m_machine s) = Some t ->
  GetIpInterfaceTable (family_of p) (m_machine s) = Some ifs -> addExclusionRoute p s = (true, s') ->
  exists d, m_exclusionRoutes s' = (p, d) :: m_exclusionRoutes s /\ describes p d /\
    follows (m_luid s) ifs t p d /\
    (InterfaceLuid d = 0 -> m_machine s' = m_machine s) /\
    (InterfaceLuid d <> 0 -> (CreateIpForwardEntry2 d (m_machine s)).1 = NO_ERROR -> route_of d ∈ routes_in (m_machine s')).
Proof. exact (exclusion_added_full p s s' t ifs). Qed.

(** When the routes of the machine have changed, every exclusion is led along the
    best route past the tunnel of the new table. *)
Theorem exclusions_follow_routes s t ifs :
  Forall (λ e, describes e.1 e.2) (m_exclusionRoutes s) ->
  GetIpForwardTable2 AF_UNSPEC (m_machine s) = Some t -> GetIpInterfaceTable AF_UNSPEC (m_machine s) = Some ifs ->
  let s' := (routeChanged s).2 in
  (m_exclusionRoutes s').*1 = (m_exclusionRoutes s).*1 /\
  forall p d, ip_wf p -> (p, d) ∈ m_exclusionRoutes s' -> follows (m_luid s) ifs t p d.
Proof.
  intros Hd Ht Hi s'. unfold s', routeChanged. rewrite gets_bind, Ht, sbind_run, gets_bind, sbind_run.
  destruct (updateValid_keeps AF_UNSPEC s) as (Ke & Kl & Km).
  assert (forall p, _) as Hv by exact (λ p, valid_after AF_UNSPEC ifs s p Hi (or_introl eq_refl)). cbn zeta in Hv.
  set (s1 := (updateValidInterfaces AF_UNSPEC s).2) in *.
  pose proof (update_all_run t (m_exclusionRoutes s1) s1) as Hu. destruct (update_all _ t s1) as [l' s2].
  destruct Hu as [_ ->]. cbn [fst snd modify m_exclusionRoutes set_exclusionRoutes]. rewrite Ke, Kl. split.
  - generalize (m_exclusionRoutes s). intros l. induction l as [|e l IH]; [done|]. cbn. by rewrite IH.
  - intros p d Hp Hin. apply list_elem_of_In, in_map_iff in Hin as ([q d0] & [= -> <-] & Hin).
    apply list_elem_of_In in Hin. pose proof (proj1 (list.Forall_forall _ _) Hd _ Hin) as Hq. cbn in Hq.
    apply best_follows; [done|done|by destruct (table_law _ _ _ Ht)|by apply Hv].
Qed.
End Rows.

(** ** A simulated table

    Rows that are not well-formed or belong to no interface are refused and never
    listed. *)
Record SimIp := mkSimIp { ip_rows : list MIB_IPFORWARD_ROW2; ip_ifs : list MIB_IPINTERFACE_ROW }.

Definition zero_sockaddr : SOCKADDR_INET := mkSockaddr 0 (replicate 26 0).
Definition sim_entry : MIB_IPFORWARD_ROW2 :=
  mkRow 0 0 zero_sockaddr 0 zero_sockaddr 0 4294967295 4294967295 4294967295 MIB_IPPROTO_NETMGMT true true true true 0 0.

Definition sim_ok (r : MIB_IPFORWARD_ROW2) : Prop := row_wf r /\ InterfaceLuid r <> 0.
#[export] Instance sim_ok_dec r : Decision (sim_ok r).
Proof. unfold sim_ok, row_wf, sockaddr_wf, is_octet. apply _. Defined.

#[export] Instance sim_view : RoutesView SimIp := λ w, map route_of (filter sim_ok (ip_rows w)).
#[export] Instance sim_ip : IpHelper SimIp := {
  InitializeIpForwardEntry := sim_entry;
  GetIpForwardTable2 := λ f w,
    Some (filter (λ r, sim_ok r /\ (f = AF_UNSPEC \/ si_family (Prefix r) = f)) (ip_rows w));
  GetIpInterfaceTable := λ f w, Some (filter (λ i, f = AF_UNSPEC \/ if_Family i = f) (ip_ifs w));
  CreateIpForwardEntry2 := λ row w,
    if negb (bool_decide (sim_ok row)) then (87, w)
    else if bool_decide (route_of row ∈ routes_in w) then (ERROR_OBJECT_ALREADY_EXISTS, w)
    else (NO_ERROR, mkSimIp (row :: ip_rows w) (ip_ifs w));
  DeleteIpForwardEntry2 := λ row w,
    if bool_decide (route_of row ∈ routes_in w)
    then (NO_ERROR, mkSimIp (filter (λ r, route_of r <> route_of row) (ip_rows w)) (ip_ifs w))
    else (ERROR_NOT_FOUND, w)
}.

Lemma sim_routes w x : x ∈ routes_in w <-> exists r, r ∈ ip_rows w /\ sim_ok r /\ x = route_of r.
Proof.
  unfold routes_in, sim_view. rewrite list_elem_of_In, in_map_iff. setoid_rewrite <- list_elem_of_In.
  setoid_rewrite list_elem_of_filter. naive_solver.
Qed.

#[export] Instance sim_ip_laws : IpHelperLaws SimIp.
Proof.
  split.
  - split; [done|]. by apply (bool_decide_unpack _); vm_compute.
  - intros f w t [= <-]. split.
    + apply list.Forall_forall. intros r [[Hr _] _]%list_elem_of_filter. exact Hr.
    + intros x. rewrite list_elem_of_In, in_map_iff. setoid_rewrite <- list_elem_of_In.
      setoid_rewrite list_elem_of_filter. rewrite sim_routes. naive_solver.
  - intros row w. cbn. case_bool_decide as Hok; cbn [negb]; [|done]. case_bool_decide; [done|]. cbn [Z.eqb NO_ERROR].
    intros x. rewrite !sim_routes. cbn [ip_rows]. setoid_rewrite elem_of_cons. naive_solver.
  - intros row w. cbn. case_bool_decide; cbn [negb]; [|done]. case_bool_decide as Hin; [|done]. by exists (route_of row).
  - intros row w. cbn. case_bool_decide; [|done]. cbn [Z.eqb NO_ERROR]. intros x. rewrite !sim_routes. cbn [ip_rows].
    setoid_rewrite list_elem_of_filter. naive_solver.
  - intros row w. cbn. by case_bool_decide.
Qed.

(** A machine with a default route, and a prefix to lead past the tunnel. *)
Definition default_route : MIB_IPFORWARD_ROW2 :=
  mkRow 5 0 (mkSockaddr AF_INET (replicate 26 0)) 0 (mkSockaddr AF_INET (write_octets 2 [192; 168; 0; 1] (replicate 26 0)))
    0 0 0 25 3 false false false true 0 0.
Definition sample_monitor : WindowsRouteMonitor SimIp :=
  mkMonitor [] [] [] 9 (mkSimIp [default_route] [mkIfRow AF_INET 5 true; mkIfRow AF_INET 9 true]).
Definition sample_server : IPAddress := mkIPAddress (IPv4Address 3221225985) 32.

Lemma exclusion_takes_best_route_witness :
  exists d, m_exclusionRoutes (addExclusionRoute sample_server sample_monitor).2 = [(sample_server, d)] /\
    InterfaceLuid d = 5 /\
    follows 9 [mkIfRow AF_INET 5 true; mkIfRow AF_INET 9 true] [default_route] sample_server d.
Proof.
  destruct (exclusion_takes_best_route sample_server sample_monitor (addExclusionRoute sample_server sample_monitor).2
    [default_route] [mkIfRow AF_INET 5 true; mkIfRow AF_INET 9 true]) as (d & Hd & _ & Hf & _).
  - by apply (bool_decide_unpack _); vm_compute.
  - by vm_compute.
  - by vm_compute.
  - apply run_pair. by vm_compute.
  - exists d. split; [exact Hd|]. split; [|exact Hf]. vm_compute in Hd. by injection Hd as <-.
Defined.

(** The monitor after the exclusion was added, over a table whose default route
    moved. *)
Definition moved_monitor : WindowsRouteMonitor SimIp :=
  set_machine (mkSimIp [set_route 6 (NextHop default_route) default_route] [mkIfRow AF_INET 6 true])
    (addExclusionRoute sample_server sample_monitor).2.

Lemma exclusions_follow_routes_witness :
  (m_exclusionRoutes (routeChanged moved_monitor).2).*1 = [sample_server] /\
  forall d, (sample_server, d) ∈ m_exclusionRoutes (routeChanged moved_monitor).2 ->
    follows 9 [mkIfRow AF_INET 6 true] [set_route 6 (NextHop default_route) default_route] sample_server d.
Proof.
  destruct (exclusions_follow_routes moved_monitor [set_route 6 (NextHop default_route) default_route]
    [mkIfRow AF_INET 6 true]) as [Hk Hf].
  - apply list.Forall_singleton. eexists 5, _. vm_compute. reflexivity.
  - by vm_compute.
  - by vm_compute.
  - split; [rewrite Hk; by vm_compute|]. intros d Hd. apply Hf; [|exact Hd]. by apply (bool_decide_unpack _); vm_compute.
Defined.

(** ** The routes around the tunnel, given back

    Sequences of calls on the route monitor of Windows, between which others may
    change the routing table: what the monitor adds it takes away again, and it
    leaves other routes alone. *)
Local Open Scope Z_scope.

Section Runs.
Context {W : Type} `{IpHelper W} `{RoutesView W} `{!IpHelperLaws W}.
Implicit Types (s : WindowsRouteMonitor W).

(** ** Removing an entry *)
Lemma take_route_some p l : forall d l',
  take_route p l = (Some d, l') -> exists a b, l = app a ((p, d) :: b) /\ l' = app a b.
Proof.
  induction l as [|[q e] l IH]; intros d l' E; cbn in E; [done|]. case_bool_decide as Hq.
  - injection E as -> ->. subst q. by exists [], l'.
  - destruct (take_route p l) as [r l1] eqn:E1. injection E as -> <-.
    destruct (IH d l1 eq_refl) as (a & b & -> & ->). by exists ((q, e) :: a), b.
Qed.
Lemma take_route_none p l l' : take_route p l = (None, l') -> l' = l /\ p ∉ l.*1.
Proof.
  revert l'. induction l as [|[q e] l IH]; intros l' E; cbn in E; [injection E as <-; split; [done|apply not_elem_of_nil]|].
  case_bool_decide as Hq; [done|]. destruct (take_route p l) as [r l1] eqn:E1. injection E as -> <-.
  destruct (IH l1 eq_refl) as [-> Hn]. split; [done|]. cbn. by intros [?|?]%elem_of_cons.
Qed.

(** The loop ends and no entry for the prefix is left. *)
Lemma delete_loop_ends p n : forall s, (length (m_exclusionRoutes s) < n)%nat ->
  exists s', delete_loop n p s = Ret (tt, s') /\ p ∉ (m_exclusionRoutes s').*1.
Proof.
  induction n as [|n IH]; intros s Hn; [lia|]. cbn [delete_loop]. unfold rbind, rlift, rret.
  destruct (take_route p (m_exclusionRoutes s)) as [[d|] l] eqn:E.
  - destruct (take_route_some _ _ _ _ E) as (a & b & El & ->). rewrite on_machine_run. apply IH. cbn.
    rewrite El, !length_app in *. cbn in *. lia.
  - destruct (take_route_none _ _ _ E) as [-> Hp]. eexists. split; [done|]. done.
Qed.

Lemma deleted_entry p s : p ∉ (m_exclusionRoutes (deleteExclusionRoute p s).2).*1.
Proof.
  unfold deleteExclusionRoute, delete_run, rbind.
  by destruct (delete_loop_ends p (S (length (m_exclusionRoutes s))) s ltac:(lia)) as (s' & -> & Hp).
Qed.

(** Whatever is kept by each round is kept by the call. *)
Lemma delete_keeps (I : WindowsRouteMonitor W -> Prop) p s :
  (forall d l s, take_route p (m_exclusionRoutes s) = (Some d, l) -> I s ->
     I (set_machine (DeleteIpForwardEntry2 d (m_machine s)).2 (set_exclusionRoutes l s))) ->
  I s -> I (deleteExclusionRoute p s).2.
Proof.
  intros Hd Hs. unfold deleteExclusionRoute, delete_run, rbind at 1.
  destruct (delete_loop_ends p (S (length (m_exclusionRoutes s))) s ltac:(lia)) as (s' & E & _). rewrite E. cbn.
  set (n := S (length (m_exclusionRoutes s))) in E. clearbody n. revert s s' Hs E.
  induction n as [|n IH]; intros s s' Hs E; [done|]. cbn [delete_loop] in E. unfold rbind, rlift, rret in E.
  destruct (take_route p (m_exclusionRoutes s)) as [[d|] l] eqn:Et.
  - rewrite on_machine_run in E. eapply IH; [|exact E]. exact (Hd d l s Et Hs).
  - destruct (take_route_none _ _ _ Et) as [-> _]. injection E as <-. by destruct s.
Qed.

(** ** Runs *)
Variables (others kept : Route -> Prop) (asked : IPAddress -> Prop).

Inductive rm_step s : WindowsRouteMonitor W -> Prop :=
| step_add p : asked p -> rm_step s (addExclusionRoute p s).2
| step_delete p : rm_step s (deleteExclusionRoute p s).2
| step_changed : rm_step s (routeChanged s).2
| step_luid luid : rm_step s (setLuid luid s).2
| step_others w :
    (forall x, x ∈ routes_in w -> x ∈ routes_in (m_machine s) \/ others x) ->
    (forall x, kept x -> x ∈ routes_in (m_machine s) -> x ∈ routes_in w) ->
    rm_step s (set_machine w s).

Definition target_of (p : IPAddress) : Z * list Z * Z := target (route_of (exclusion_row p)).
(** A route that is to be left alone. *)
Definition alone (x : Route) : Prop := kept x /\ forall p, asked p -> target_of p <> target x.

(** Every route is somebody else's or belongs to an entry ([extra] is the one being
    worked on), entries are for prefixes that were asked for, and the routes [base]
    that are to be left alone are there. *)
Record owned (base : list Route) (extra : list (IPAddress * MIB_IPFORWARD_ROW2))
    (l : list (IPAddress * MIB_IPFORWARD_ROW2)) (w : W) : Prop := {
  ow_routes x : x ∈ routes_in w -> others x \/ exists p d, (p, d) ∈ app extra l /\ InterfaceLuid d <> 0 /\ x = route_of d;
  ow_asked p d : (p, d) ∈ app extra l -> asked p /\ describes p d;
  ow_kept x : x ∈ base -> alone x -> x ∈ routes_in w
}.

Definition removable : Prop := forall row (w : W),
  route_of row ∈ routes_in w -> (DeleteIpForwardEntry2 row w).1 = NO_ERROR.
Hypothesis Hrem : removable.

Lemma describes_target p d : describes p d -> target (route_of d) = target_of p.
Proof. by intros (luid & hop & ->). Qed.

Lemma delete_routes d w :
  let w' := (DeleteIpForwardEntry2 d w).2 in
  route_of d ∉ routes_in w' /\ (forall x, x ∈ routes_in w' -> x ∈ routes_in w) /\
  (forall x, x ∈ routes_in w -> x <> route_of d -> x ∈ routes_in w').
Proof.
  pose proof (delete_law d w) as Hl. pose proof (Hrem d w) as Hr.
  destruct (DeleteIpForwardEntry2 d w) as [c w']. cbn [fst snd] in *. destruct (Z.eqb_spec c NO_ERROR) as [->|Hn].
  - split; [|split]; [intros Hx|intros x Hx|intros x Hx Hd]; [by apply Hl in Hx as []|by apply Hl in Hx as []|].
    by apply Hl.
  - rewrite Hl. split; [|done]. intros Hx. by apply Hn, Hr.
Qed.

(** Deleting the route of an entry takes the entry out of the account. *)
Lemma owned_delete base extra l w p d :
  owned base ((p, d) :: extra) l w -> owned base extra l (DeleteIpForwardEntry2 d w).2.
Proof.
  intros [Hr Ha Hk]. destruct (delete_routes d w) as (Hg & Hs & Hm). split.
  - intros x Hx. destruct (Hr x (Hs x Hx)) as [Ho|(q & e & [[= -> ->]|Hin]%elem_of_cons & Hl & ->)];
      [by left|done|]. right. by exists q, e.
  - intros q e Hin. apply Ha. by right.
  - intros x Hx Hal. apply Hm; [by apply Hk|]. intros ->. destruct (Ha p d) as [Hp Hd]; [by left|].
    apply (proj2 Hal p Hp). by rewrite <- (describes_target p d Hd).
Qed.

(** An entry without a route needs no deletion. *)
Lemma owned_drop base extra l w p d :
  InterfaceLuid d = 0 -> owned base ((p, d) :: extra) l w -> owned base extra l w.
Proof.
  intros Hz [Hr Ha Hk]. split; [|intros q e Hin; apply Ha; by right|done].
  intros x Hx. destruct (Hr x Hx) as [?|(q & e & [[= -> ->]|Hin]%elem_of_cons & Hl & ->)]; [by left|done|].
  right. by exists q, e.
Qed.

Lemma owned_create base extra l w p d :
  asked p -> describes p d -> owned base extra l w ->
  owned base ((p, d) :: extra) l (if InterfaceLuid d =? 0 then w else (CreateIpForwardEntry2 d w).2).
Proof.
  intros Hp Hd [Hr Ha Hk].
  assert (forall x, x ∈ routes_in w -> others x \/ exists q e, (q, e) ∈ app ((p, d) :: extra) l /\ InterfaceLuid e <> 0 /\ x = route_of e) as Hr'.
  { intros x Hx. destruct (Hr x Hx) as [?|(q & e & Hin & ?)]; [by left|]. right. exists q, e. split; [by right|done]. }
  assert (forall q e, (q, e) ∈ app ((p, d) :: extra) l -> asked q /\ describes q e) as Ha'.
  { intros q e [[= -> ->]|Hin]%elem_of_cons; [done|by apply Ha]. }
  destruct (Z.eqb_spec (InterfaceLuid d) 0) as [E0|N0]; [by split|].
  pose proof (create_law d w) as Hc. destruct (CreateIpForwardEntry2 d w) as [c w']. cbn [snd].
  destruct (c =? NO_ERROR); [|split; [rewrite Hc; by apply Hr'|done|rewrite Hc; by apply Hk]]. split; [|done|].
  - intros x [->|Hx]%Hc; [|by apply Hr']. right. exists p, d. split; [by left|done].
  - intros x Hx Hal. apply Hc. right. by apply Hk.
Qed.

Lemma owned_moved base extra l p d d' w w' :
  describes p d' -> moved d d' w w' -> owned base ((p, d) :: extra) l w -> owned base ((p, d') :: extra) l w'.
Proof.
  intros Hd' [[-> ->]|Hm] Ho; [done|]. cbn zeta in Hm. subst w'. destruct (ow_asked _ _ _ _ Ho p d) as [Hp _]; [by left|].
  apply owned_create; [done|done|]. destruct (Z.eqb_spec (InterfaceLuid d) 0); [by eapply owned_drop|by eapply owned_delete].
Qed.

Lemma owned_perm base e1 l1 e2 l2 w :
  (forall x, x ∈ app e1 l1 <-> x ∈ app e2 l2) -> owned base e1 l1 w -> owned base e2 l2 w.
Proof.
  intros Hp [Hr Ha Hk]. split; [|intros p d Hin; apply Ha; by apply Hp|done].
  intros x Hx. destruct (Hr x Hx) as [?|(p & d & Hin & ?)]; [by left|]. right. exists p, d. split; [by apply Hp|done].
Qed.

(** ** Each step keeps the account *)
Definition good (base : list Route) s : Prop := owned base [] (m_exclusionRoutes s) (m_machine s).

Lemma describes_set p d luid hop : describes p d -> describes p (set_route luid hop d).
Proof. intros (l & h & ->). by exists luid, hop. Qed.

Lemma add_good base p s : asked p -> good base s -> good base (addExclusionRoute p s).2.
Proof.
  intros Hp Hg. unfold addExclusionRoute. rewrite gets_bind. case_bool_decide; [done|]. rewrite gets_bind.
  destruct (GetIpForwardTable2 _ _) as [t|]; [|done]. rewrite sbind_run.
  set (fam := match protocol (m_address p) with IPv6Protocol => AF_INET6 | _ => AF_INET end).
  destruct (updateValid_keeps fam s) as (Ke & _ & Km). set (s1 := (updateValidInterfaces fam s).2) in *.
  rewrite sbind_run. pose proof (update_data (exclusion_row p) t s1) as Hd.
  pose proof (update_machine (exclusion_row p) t s1) as Hm.
  destruct (updateExclusionRoute (exclusion_row p) t s1) as [d s2]. cbn [fst snd] in *. destruct Hm as [Hs Hmv].
  rewrite sbind_run. unfold good. cbn. rewrite Hs at 1. cbn [m_exclusionRoutes set_machine]. rewrite Ke.
  rewrite Km in Hmv. assert (describes p (exclusion_row p)) as Hdp by (eexists _, _; symmetry; apply set_route_eta).
  apply (owned_perm base [(p, d)] (m_exclusionRoutes s)); [done|]. eapply owned_moved; [|exact Hmv|].
  - rewrite Hd. by apply describes_set.
  - pose proof (owned_create base [] _ _ p (exclusion_row p) Hp Hdp Hg) as Hc.
    assert (InterfaceLuid (exclusion_row p) = 0) as E0 by (cbn; apply initialize_law). by rewrite E0 in Hc.
Qed.

Lemma delete_good base p s : good base s -> good base (deleteExclusionRoute p s).2.
Proof.
  apply delete_keeps. clear s. intros d l s E Hg. destruct (take_route_some _ _ _ _ E) as (a & b & El & ->).
  unfold good in *. cbn. apply (owned_delete base [] (app a b) (m_machine s) p d).
  eapply owned_perm; [|exact Hg]. intros x. rewrite El. cbn. rewrite !elem_of_app, !elem_of_cons, elem_of_app. tauto.
Qed.

Lemma update_all_owned base t l : forall extra s,
  owned base extra l (m_machine s) ->
  let '(l', s') := update_all l t s in owned base extra l' (m_machine s').
Proof.
  induction l as [|[p d] l IH]; intros extra s Ho; cbn [update_all]; [done|].
  rewrite sbind_run. pose proof (update_data d t s) as Hd. pose proof (update_machine d t s) as Hm.
  destruct (updateExclusionRoute d t s) as [d' s1]. cbn [fst snd] in *. destruct Hm as [_ Hm].
  assert (describes p d') as Hp'.
  { rewrite Hd. apply describes_set. apply (ow_asked _ _ _ _ Ho). apply elem_of_app. right. by left. }
  assert (owned base ((p, d') :: extra) l (m_machine s1)) as Ho1.
  { eapply owned_moved; [done|exact Hm|]. eapply owned_perm; [|exact Ho]. intros x. cbn.
    rewrite elem_of_app, !elem_of_cons, elem_of_app. tauto. }
  rewrite sbind_run. specialize (IH _ s1 Ho1). destruct (update_all l t s1) as [l' s2]. cbn [fst snd sret].
  eapply owned_perm; [|exact IH]. intros x. cbn. rewrite elem_of_app, !elem_of_cons, elem_of_app. tauto.
Qed.

Lemma changed_good base s : good base s -> good base (routeChanged s).2.
Proof.
  intros Hg. unfold routeChanged. rewrite gets_bind. destruct (GetIpForwardTable2 _ _) as [t|]; [|done].
  rewrite sbind_run, gets_bind, sbind_run. destruct (updateValid_keeps AF_UNSPEC s) as (Ke & _ & Km).
  set (s1 := (updateValidInterfaces AF_UNSPEC s).2) in *. unfold good in Hg. rewrite <- Ke, <- Km in Hg.
  pose proof (update_all_owned base t (m_exclusionRoutes s1) [] s1 Hg) as Hu.
  by destruct (update_all _ t s1) as [l' s2].
Qed.

Lemma step_good base s s' : good base s -> rm_step s s' -> good base s'.
Proof.
  intros Hg [p Hp|p| |luid|w Hw Hk]; [by apply add_good|by apply delete_good|by apply changed_good|done|].
  destruct Hg as [Hr Ha Hb]. split; [|done|].
  - intros x [Hx|Hx]%Hw; [by apply Hr|by left].
  - intros x Hx Hal. apply Hk; [by destruct Hal|]. by apply Hb.
Qed.

Lemma flush_owned base l : forall s,
  owned base l [] (m_machine s) ->
  owned base [] [] (m_machine (for_each l (λ e, on_machine (DeleteIpForwardEntry2 e.2) ;; sret tt) s).2).
Proof.
  induction l as [|[p d] l IH]; intros s Ho; cbn [for_each]; [done|].
  rewrite !sbind_run, on_machine_run. cbn [snd sret]. apply IH. cbn. by eapply owned_delete.
Qed.

(** C29. Whatever exclusions are asked for, taken back and led elsewhere while others
    change their own routes, destroying the monitor leaves no route that is not
    theirs, and every route they keep that does not lead to an excluded prefix is
    still there; provided that a route that is there can be deleted ([removable]). *)
Theorem windows_exclusions_given_back s s' :
  m_exclusionRoutes s = [] -> (forall x, x ∈ routes_in (m_machine s) -> others x) -> rtc rm_step s s' ->
  let s'' := (WindowsRouteMonitor_delete s').2 in
  m_exclusionRoutes s'' = [] /\ (forall x, x ∈ routes_in (m_machine s'') -> others x) /\
  (forall x, x ∈ routes_in (m_machine s) -> alone x -> x ∈ routes_in (m_machine s'')).
Proof.
  intros He Ho Hr. assert (good (routes_in (m_machine s)) s) as Hg.
  { split; [intros x Hx; left; by apply Ho| |done]. rewrite He. intros p d Hin. by apply not_elem_of_nil in Hin. }
  assert (good (routes_in (m_machine s)) s') as Hg'.
  { clear He Ho. revert Hg. generalize (routes_in (m_machine s)). intros base. induction Hr; [done|].
    intros Hg. by eapply IHHr, step_good. }
  unfold WindowsRouteMonitor_delete, flushExclusionRoutes. rewrite gets_bind, sbind_run. split; [done|].
  cbn [modify snd]. cbn [m_machine set_exclusionRoutes]. 
  destruct (flush_owned (routes_in (m_machine s)) (m_exclusionRoutes s') s') as [Hrt _ Hk].
  { eapply owned_perm; [|exact Hg']. intros x. cbn. by rewrite app_nil_r. }
  split; [|done]. intros x Hx. destruct (Hrt x Hx) as [?|(p & d & Hin & _)]; [done|]. by apply not_elem_of_nil in Hin.
Qed.
End Runs.

Lemma sim_removable : removable (W := SimIp).
Proof. intros row w Hr. cbn. by rewrite bool_decide_eq_true_2. Qed.

(** The exclusion is added, the default route moves to another interface, the
    exclusion follows it. *)
Lemma windows_exclusions_given_back_witness :
  let others x := rt_length x = 0 in
  let s' := (routeChanged moved_monitor).2 in
  length (routes_in (m_machine s')) = 2%nat /\
  forall x, x ∈ routes_in (m_machine (WindowsRouteMonitor_delete s').2) -> others x.
Proof.
  intros others s'. split; [by vm_compute|].
  destruct (windows_exclusions_given_back others (λ _, False) (λ p, p = sample_server)
    sim_removable sample_monitor s') as (_ & Ho & _).
  - done.
  - intros x Hx. vm_compute in Hx. by apply list_elem_of_singleton in Hx as ->.
  - eapply rtc_l; [by apply (step_add _ _ _ _ sample_server)|]. eapply rtc_l.
    { apply (step_others others (λ _, False) (λ p, p = sample_server) _
        (mkSimIp [set_route 6 (NextHop default_route) default_route] [mkIfRow AF_INET 6 true])); [|done].
      intros x Hx. right. vm_compute in Hx. by apply list_elem_of_singleton in Hx as ->. }
    eapply rtc_l; [apply step_changed|]. apply rtc_refl.
  - exact Ho.
Defined.
