(* ===== verification/WindowsTunnelService.v ===== *)
(** * The tunnel service of Windows

    Model of [WindowsTunnelService] (client/platforms/windows/daemon/
    windowstunnelservice.cpp): the service that runs the tunnel is created, watched
    and deleted through the service control manager, and configured through a named
    pipe. *)
From Stdlib Require Import ZArith Lia Ascii String.
From stdpp Require Import base gmap list option strings relations.
From S2P Require Import Prelude QtString Uapi.
Local Open Scope string_scope.
Local Open Scope Z_scope.

Definition SERVICE_STOPPED : Z := 1.
Definition SERVICE_RUNNING : Z := 4.
Definition MONITOR_TIMEOUT_MSEC : Z := 2000.

(** The calls on the service control manager, on the one service there is, and on
    the pipe. A handle is a number, [None] is a null handle or a failed call. *)
Class ServiceManager (W : Type) := {
  OpenSCManager : StateM W (option Z);
  OpenService : option Z -> StateM W (option Z);
  CloseServiceHandle : option Z -> StateM W unit;
  QueryServiceStatus : Z -> StateM W (option Z);
  ControlService_stop : Z -> StateM W bool;
  DeleteService : Z -> StateM W bool;
  CreateService : option Z -> string -> StateM W (option Z);
  ChangeServiceConfig2_description : Z -> StateM W bool;
  ChangeServiceConfig2_sid : Z -> StateM W bool;
  StartService : Z -> StateM W bool;
  Sleep1000 : StateM W unit;
  pipe_CreateFile : StateM W bool;
  WaitNamedPipe : StateM W bool;
  SetNamedPipeHandleState : StateM W bool;
  pipe_WriteFile : string -> StateM W bool;
  pipe_ReadFile : StateM W (option string);
  pipe_CloseHandle : StateM W unit;
  applicationFilePath : string
}.

(** [m_logworker] and the thread it runs in, [m_logthread]. *)
Record WindowsTunnelService (W : Type) := mkService {
  m_timer : option Z;
  m_logthread : bool;
  m_logworker : bool;
  m_scm : option Z;
  m_service : option Z;
  failures : nat;              (* emissions of backendFailure *)
  m_manager : W
}.
Arguments mkService {W} _ _ _ _ _ _ _.
Arguments m_timer {W} _.
Arguments m_logthread {W} _.
Arguments m_logworker {W} _.
Arguments m_scm {W} _.
Arguments m_service {W} _.
Arguments failures {W} _.
Arguments m_manager {W} _.

Section Service.
Context {W : Type} `{ServiceManager W}.
Notation S := (WindowsTunnelService W).

Definition set_timer (t : option Z) (s : S) :=
  mkService t (m_logthread s) (m_logworker s) (m_scm s) (m_service s) (failures s) (m_manager s).
Definition set_log (thread worker : bool) (s : S) :=
  mkService (m_timer s) thread worker (m_scm s) (m_service s) (failures s) (m_manager s).
Definition set_service (h : option Z) (s : S) :=
  mkService (m_timer s) (m_logthread s) (m_logworker s) (m_scm s) h (failures s) (m_manager s).
Definition set_manager (w : W) (s : S) :=
  mkService (m_timer s) (m_logthread s) (m_logworker s) (m_scm s) (m_service s) (failures s) w.
Definition backendFailure : StateM S unit := modify (λ s,
  mkService (m_timer s) (m_logthread s) (m_logworker s) (m_scm s) (m_service s) (Datatypes.S (failures s)) (m_manager s)).

Definition on_manager {A} (m : StateM W A) : StateM S A := λ s,
  let '(a, w) := m (m_manager s) in (a, set_manager w s).

(** [while (tries < 30)] *)
Fixpoint wait_loop (tries : nat) (service expected : Z) : StateM W bool :=
  match tries with
  | O => sret false
  | Datatypes.S tries' =>
      status <- QueryServiceStatus service ;;
      match status with
      | None => sret false
      | Some current =>
          if current =? expected then sret true else Sleep1000 ;; wait_loop tries' service expected
      end
  end.
Definition waitForServiceStatus : Z -> Z -> StateM W bool := wait_loop 30.

Definition stopAndDeleteTunnelService (service : Z) : StateM W bool :=
  status <- QueryServiceStatus service ;;
  match status with
  | None => sret false
  | Some current =>
      stopped <-
        (if negb (current =? SERVICE_STOPPED) then
           ok <- ControlService_stop service ;;
           if negb ok then sret false else waitForServiceStatus service SERVICE_STOPPED
         else sret true) ;;
      if negb stopped then sret false
      else ok <- DeleteService service ;; sret ok
  end.

(** The constructor. *)
Definition WindowsTunnelService_new (w : W) : S :=
  let '(scm, w) := OpenSCManager w in
  let '(service, w) := OpenService scm w in
  let w :=
    match service with
    | Some h => ((stopAndDeleteTunnelService h ;; CloseServiceHandle (Some h)) w).2
    | None => w
    end in
  mkService None false false scm None 0 w.

Definition service_stop : StateM S unit :=
  service <- gets m_service ;;
  match service with
  | Some h =>
      on_manager (stopAndDeleteTunnelService h) ;;
      on_manager (CloseServiceHandle (Some h)) ;;
      modify (set_service None)
  | None => sret tt
  end ;;
  modify (set_timer None) ;;
  worker <- gets m_logworker ;;
  if (worker : bool) then modify (set_log false false) else sret tt.

(** The destructor. *)
Definition WindowsTunnelService_delete : StateM S unit :=
  service_stop ;;
  scm <- gets m_scm ;;
  on_manager (CloseServiceHandle scm).

Definition isRunning : StateM S bool :=
  service <- gets m_service ;;
  match service with
  | None => sret false
  | Some h =>
      status <- on_manager (QueryServiceStatus h) ;;
      sret (match status with Some current => current =? SERVICE_RUNNING | None => false end)
  end.

(** The slot of the timer. *)
Definition service_timeout : StateM S unit :=
  service <- gets m_service ;;
  match service with
  | None => backendFailure
  | Some h =>
      status <- on_manager (QueryServiceStatus h) ;;
      match status with
      | None => backendFailure
      | Some current => if current =? SERVICE_RUNNING then sret tt else backendFailure
      end
  end.

(** What the scope guard of [start] does. *)
Definition start_guard (service : option Z) : StateM S bool :=
  match service with Some h => on_manager (CloseServiceHandle (Some h)) | None => sret tt end ;;
  modify (set_log false false) ;;
  sret false.

Definition serviceCmdline (configData : string) : string :=
  dquote +:+ applicationFilePath +:+ dquote +:+ " tunneldaemon " +:+ dquote +:+ configData +:+ dquote.

(** From the creation of the service on. *)
Definition start_service (configData : string) : StateM S bool :=
  scm <- gets m_scm ;;
  service <- on_manager (CreateService scm (serviceCmdline configData)) ;;
  match service with
  | None => start_guard None
  | Some h =>
      ok <- on_manager (ChangeServiceConfig2_description h) ;;
      if negb ok then start_guard (Some h)
      else
        ok <- on_manager (ChangeServiceConfig2_sid h) ;;
        if negb ok then start_guard (Some h)
        else
          ok <- on_manager (StartService h) ;;
          if negb ok then start_guard (Some h)
          else
            up <- on_manager (waitForServiceStatus h SERVICE_RUNNING) ;;
            if (up : bool) then
              modify (set_service (Some h)) ;;
              modify (set_timer (Some MONITOR_TIMEOUT_MSEC)) ;;
              sret true
            else
              status <- on_manager (QueryServiceStatus h) ;;
              match status with
              | None => start_guard (Some h)
              | Some _ => backendFailure ;; start_guard (Some h)
              end
  end.

Definition service_start (configData : string) : StateM S bool :=
  modify (set_log true true) ;;
  scm <- gets m_scm ;;
  service <- on_manager (OpenService scm) ;;
  match service with
  | Some h =>
      ok <- on_manager (stopAndDeleteTunnelService h) ;;
      if negb ok then start_guard (Some h)
      else on_manager (CloseServiceHandle (Some h)) ;; start_service configData
  | None => start_service configData
  end.

(** [while (!reply.contains("\n\n"))]: as long as octets come. *)
Fixpoint read_loop (fuel : nat) (reply : string) : Run W string :=
  if contains_str reply (nl +:+ nl) then rret reply
  else
    match fuel with
    | O => λ _, OutOfFuel
    | Datatypes.S fuel' =>
        let! chunk := rlift pipe_ReadFile in
        match chunk with
        | None => rret reply
        | Some buffer => read_loop fuel' (reply +:+ buffer)
        end
    end.

(** The exchange; a null string has an empty text. *)
Definition service_uapiCommand (fuel : nat) (command : string) : Run W string :=
  let! ok := rlift pipe_CreateFile in
  if negb ok then rret ""
  else
    let! ready := rlift WaitNamedPipe in
    if negb ready then do! rlift pipe_CloseHandle in rret ""
    else
      let! mode := rlift SetNamedPipeHandleState in
      if negb mode then do! rlift pipe_CloseHandle in rret ""
      else
        match pad_message 3 command with
        | Ret message =>
            let! sent := rlift (pipe_WriteFile message) in
            if negb sent then do! rlift pipe_CloseHandle in rret ""
            else
              let! reply := read_loop fuel "" in
              do! rlift pipe_CloseHandle in rret (trimmed reply)
        | _ => λ _, OutOfFuel
        end.
End Service.

(** ** Specification

    [open_handles] are the service handles that are open: a handle that is opened
    or created is a new one, closing takes it away. *)
Class HandleView (W : Type) := open_handles : W -> gset Z.

Definition keeps_handles {W A} `{HandleView W} (m : StateM W A) : Prop := keeps open_handles m.
Definition opens {W} `{HandleView W} (m : StateM W (option Z)) : Prop := forall w,
  match m w with
  | (Some h, w') => h ∉ open_handles w /\ open_handles w' = {[h]} ∪ open_handles w
  | (None, w') => open_handles w' = open_handles w
  end.

Class ServiceLaws (W : Type) `{ServiceManager W} `{HandleView W} : Prop := {
  open_law scm : opens (OpenService scm);
  create_service_law scm line : opens (CreateService scm line);
  close_law h w : open_handles (CloseServiceHandle (Some h) w).2 = open_handles w ∖ {[h]};
  query_law h : keeps_handles (QueryServiceStatus h);
  control_law h : keeps_handles (ControlService_stop h);
  delete_service_law h : keeps_handles (DeleteService h);
  description_law h : keeps_handles (ChangeServiceConfig2_description h);
  sid_law h : keeps_handles (ChangeServiceConfig2_sid h);
  start_law h : keeps_handles (StartService h);
  sleep_law : keeps_handles Sleep1000
}.

Section Handles.
Context {W : Type} `{ServiceManager W} `{HandleView W} `{!ServiceLaws W}.
Implicit Types (s : WindowsTunnelService W).

(** Everything the object holds: the handle of the service it started, a running
    timer and a running logger exactly as long as there is such a service. *)
Record holds (base : gset Z) s : Prop := {
  ho_handles : open_handles (m_manager s) = match m_service s with Some h => {[h]} ∪ base | None => base end;
  ho_fresh h : m_service s = Some h -> h ∉ base;
  ho_timer : m_timer s = match m_service s with Some _ => Some MONITOR_TIMEOUT_MSEC | None => None end;
  ho_log : m_logworker s = bool_decide (is_Some (m_service s)) /\ m_logthread s = m_logworker s
}.

Lemma on_manager_run {A} (m : StateM W A) s :
  on_manager m s = ((m (m_manager s)).1, set_manager (m (m_manager s)).2 s).
Proof. unfold on_manager. by destruct (m (m_manager s)). Qed.

Lemma wait_loop_handles n h e : keeps_handles (wait_loop n h e).
Proof.
  induction n as [|n IH]; [done|]. cbn. apply keeps_bind; [apply query_law|]. intros [c|]; [|done].
  destruct (c =? e); [done|]. apply keeps_bind; [apply sleep_law|done].
Qed.

Lemma stopAndDelete_handles h : keeps_handles (stopAndDeleteTunnelService h).
Proof.
  unfold stopAndDeleteTunnelService. apply keeps_bind; [apply query_law|]. intros [c|]; [|done].
  apply keeps_bind.
  - destruct (negb _); [|done]. apply keeps_bind; [apply control_law|]. intros [|]; [apply wait_loop_handles|done].
  - intros [|]; [|done]. apply keeps_bind; [apply delete_service_law|done].
Qed.

(** The state of [start] between its calls: the logger runs, the object holds
    nothing yet, [h] is the handle in the local variable. *)
Record starting (base : gset Z) (h : option Z) s : Prop := {
  st_handles : open_handles (m_manager s) = match h with Some h => {[h]} ∪ base | None => base end;
  st_fresh k : h = Some k -> k ∉ base;
  st_service : m_service s = None;
  st_timer : m_timer s = None;
  st_log : m_logworker s = true /\ m_logthread s = true
}.

Lemma starting_call {A} base h (m : StateM W A) s :
  keeps_handles m -> starting base h s -> starting base h (on_manager m s).2.
Proof.
  intros Hm [Hh Hf Hs Ht Hl]. unfold on_manager. specialize (Hm (m_manager s)). destruct (m (m_manager s)) as [a w].
  cbn [fst snd set_manager m_manager m_service m_timer m_logworker m_logthread] in *.
  split; [by rewrite <- Hh, <- Hm|done|done|done|done].
Qed.

Lemma start_guard_holds base h s : starting base h s -> (start_guard h s).1 = false /\ holds base (start_guard h s).2.
Proof.
  intros [Hh Hf Hs Ht Hl]. unfold start_guard. rewrite !sbind_run. split; [done|]. destruct h as [h|].
  - unfold on_manager. pose proof (close_law h (m_manager s)) as Hc.
    destruct (CloseServiceHandle (Some h) (m_manager s)) as [[] w]. cbn in *.
    split; cbn; rewrite ?Hs; [|done|done|done]. rewrite Hc, Hh. specialize (Hf h eq_refl). set_solver.
  - split; cbn; rewrite ?Hs; done.
Qed.

(** The result says whether the object holds a service now. *)
Definition accounts (base : gset Z) (r : bool * WindowsTunnelService W) : Prop :=
  holds base r.2 /\ r.1 = bool_decide (is_Some (m_service r.2)).

Lemma start_guard_accounts base h s : starting base h s -> accounts base (start_guard h s).
Proof.
  intros Hs. destruct (start_guard_holds base h s Hs) as [E Hh]. split; [done|]. rewrite E.
  destruct Hs as [_ _ Hn _ _]. unfold start_guard. rewrite !sbind_run. destruct h as [h|]; cbn.
  - unfold on_manager. destruct (CloseServiceHandle (Some h) (m_manager s)). cbn. by rewrite Hn.
  - by rewrite Hn.
Qed.

(** One call of [start] whose failure ends it. *)
Lemma starting_guarded base h m k s :
  keeps_handles m -> starting base (Some h) s ->
  (forall s, starting base (Some h) s -> accounts base (k s)) ->
  accounts base ((ok <- on_manager m ;; if negb ok then start_guard (Some h) else k) s).
Proof.
  intros Hm Hs Hk. rewrite sbind_run. pose proof (starting_call base (Some h) m s Hm Hs) as H1.
  destruct (on_manager m s) as [[] s1]; cbn [fst snd negb] in *; [by apply Hk|by apply start_guard_accounts].
Qed.

Lemma start_service_accounts base c s : starting base None s -> accounts base (start_service c s).
Proof.
  intros [Hh _ Hn Ht Hl]. unfold start_service. rewrite gets_bind, sbind_run, on_manager_run.
  pose proof (create_service_law (m_scm s) (serviceCmdline c) (m_manager s)) as Hc.
  destruct (CreateService (m_scm s) (serviceCmdline c) (m_manager s)) as [[h|] w]; cbn [fst snd].
  2: { apply start_guard_accounts. split; [exact (eq_trans Hc Hh)|done|exact Hn|exact Ht|exact Hl]. }
  destruct Hc as [Hf Hc]. rewrite Hh in Hf, Hc.
  apply starting_guarded; [apply description_law|split; cbn; [done|by intros k [= <-]|done|done|done]|].
  clear s Hh Hn Ht Hl. intros s Hs. apply starting_guarded; [apply sid_law|done|]. clear s Hs. intros s Hs.
  apply starting_guarded; [apply start_law|done|]. clear s Hs. intros s Hs. rewrite sbind_run.
  pose proof (starting_call base (Some h) _ s (wait_loop_handles 30 h SERVICE_RUNNING) Hs) as H1.
  unfold waitForServiceStatus. destruct (on_manager _ s) as [[] s1]; cbn [fst snd] in *.
  - destruct H1 as [H1h H1f H1s H1t H1l]. split; [|done].
    destruct H1l as [Lw Lt]. split; [exact H1h|exact H1f|done|]. cbn. by rewrite Lw, Lt.
  - rewrite sbind_run. pose proof (starting_call base (Some h) _ s1 (query_law h) H1) as H2.
    destruct (on_manager (QueryServiceStatus h) s1) as [[c'|] s2]; cbn [fst snd] in *; [|by apply start_guard_accounts].
    rewrite sbind_run. apply start_guard_accounts. by destruct H2 as [? ? ? ? ?].
Qed.

Lemma service_start_accounts base c s :
  holds base s -> m_service s = None -> accounts base (service_start c s).
Proof.
  intros [Hh _ Ht _] Hn. rewrite Hn in *. unfold service_start. rewrite sbind_run, gets_bind, sbind_run.
  cbn [fst snd modify]. set (s0 := set_log true true s). rewrite on_manager_run.
  pose proof (open_law (m_scm s0) (m_manager s0)) as Ho. change (m_manager s0) with (m_manager s) in *.
  destruct (OpenService (m_scm s0) (m_manager s)) as [[h|] w]; cbn [fst snd].
  2: { apply start_service_accounts. split; [exact (eq_trans Ho Hh)|done|exact Hn|exact Ht|done]. }
  destruct Ho as [Hf Ho]. rewrite Hh in Hf, Ho. rewrite sbind_run.
  assert (starting base (Some h) (set_manager w s0)) as Hs.
  { split; cbn; [done|by intros k [= <-]|done|done|done]. }
  pose proof (starting_call base (Some h) _ _ (stopAndDelete_handles h) Hs) as H1.
  destruct (on_manager (stopAndDeleteTunnelService h) _) as [[] s1]; cbn [fst snd negb] in *; [|by apply start_guard_accounts].
  rewrite sbind_run. apply start_service_accounts. destruct H1 as [H1h H1f H1s H1t H1l]. unfold on_manager.
  pose proof (close_law h (m_manager s1)) as Hc. destruct (CloseServiceHandle (Some h) (m_manager s1)) as [[] w1].
  cbn in *. split; cbn; [|done|done|done|done]. rewrite Hc, H1h. set_solver.
Qed.

Lemma service_stop_holds base s :
  holds base s -> holds base (service_stop s).2 /\ m_service (service_stop s).2 = None.
Proof.
  intros [Hh Hf Ht [Hw Hl]]. unfold service_stop. rewrite gets_bind. destruct (m_service s) as [h|] eqn:E.
  - rewrite !sbind_run, !on_manager_run. pose proof (stopAndDelete_handles h (m_manager s)) as Hd.
    destruct (stopAndDeleteTunnelService h (m_manager s)) as [ok w]. cbn [fst snd set_manager] in *.
    cbn [m_manager set_manager]. pose proof (close_law h w) as Hc.
    destruct (CloseServiceHandle (Some h) w) as [[] w1]. cbn in *. rewrite Hw. cbn.
    split; [|done]. split; cbn; [|done|done|done]. rewrite Hc, Hd, Hh. specialize (Hf h eq_refl). set_solver.
  - rewrite !sbind_run. cbn. rewrite Hw. cbn in *. rewrite E. split; [|done].
    split; cbn; rewrite ?E; done.
Qed.

Lemma holds_call {A} base (m : StateM W A) s : keeps_handles m -> holds base s -> holds base (on_manager m s).2.
Proof.
  intros Hm [Hh Hf Ht Hl]. unfold on_manager. specialize (Hm (m_manager s)). destruct (m (m_manager s)) as [a w].
  split; [exact (eq_trans Hm Hh)|exact Hf|exact Ht|exact Hl].
Qed.

Lemma service_timeout_holds base s : holds base s -> holds base (service_timeout s).2.
Proof.
  intros Hh. unfold service_timeout. rewrite gets_bind. destruct (m_service s) as [h|] eqn:E.
  - rewrite sbind_run. pose proof (holds_call base _ s (query_law h) Hh) as H1.
    destruct (on_manager (QueryServiceStatus h) s) as [[c|] s1]; cbn [fst snd] in *; [destruct (c =? SERVICE_RUNNING)|];
      [done|by destruct H1|by destruct H1].
  - by destruct Hh.
Qed.

(** ** Runs: [start] is called when there is no service *)
Inductive service_step s : WindowsTunnelService W -> Prop :=
| step_start c : m_service s = None -> service_step s (service_start c s).2
| step_stop : service_step s (service_stop s).2
| step_timeout : service_step s (service_timeout s).2
| step_running : service_step s (isRunning s).2.

Lemma service_step_holds base s s' : holds base s -> service_step s s' -> holds base s'.
Proof.
  intros Hh [c Hn| | |]; [by apply service_start_accounts|by apply service_stop_holds|by apply service_timeout_holds|].
  unfold isRunning. rewrite gets_bind. destruct (m_service s) as [h|] eqn:E; [|done]. rewrite sbind_run.
  by apply holds_call; [apply query_law|].
Qed.

(** However the service is started, watched and stopped, and whatever calls fail,
    the object has one handle open, the timer and the logger running while it holds
    a service, and none of them otherwise; stopping it leaves the handles there
    were at first. *)
Theorem tunnel_service_accounts s s' :
  m_service s = None -> m_timer s = None -> m_logworker s = false -> m_logthread s = false ->
  rtc service_step s s' ->
  holds (open_handles (m_manager s)) s' /\
  open_handles (m_manager (service_stop s').2) = open_handles (m_manager s).
Proof.
  intros Hn Ht Hw Hl Hr. assert (holds (open_handles (m_manager s)) s) as Hh.
  { split; rewrite Hn; [done|done|done|by rewrite Hw, Hl]. }
  assert (holds (open_handles (m_manager s)) s') as Hh'.
  { revert Hh. generalize (open_handles (m_manager s)). clear Hn Ht Hw Hl. intros base.
    induction Hr; [done|]. intros Hh. by eapply IHHr, service_step_holds. }
  split; [done|]. destruct (service_stop_holds _ s' Hh') as [[He _ _ _] E]. by rewrite E in He.
Qed.

(** A service that could not be stopped is forgotten all the same: after [stop] the
    object says that nothing runs, and its later calls cannot reach it. *)
Theorem failed_stop_unnoticed s :
  let s' := (service_stop s).2 in
  m_service s' = None /\ (isRunning s').1 = false /\ (service_stop s').2 = s'.
Proof.
  intros s'. assert (m_service s' = None /\ m_timer s' = None /\ m_logworker s' = false) as (E & Et & Ew).
  { unfold s', service_stop. rewrite gets_bind. destruct (m_service s) as [h|] eqn:E.
    - rewrite !sbind_run, !on_manager_run. cbn. by destruct (m_logworker s) eqn:Ew; cbn; rewrite ?Ew.
    - rewrite !sbind_run. cbn. by destruct (m_logworker s) eqn:Ew; cbn; rewrite ?E, ?Ew. }
  split; [done|]. unfold isRunning, service_stop. rewrite !gets_bind, E, !sbind_run. cbn. rewrite Ew.
  split; [done|]. destruct s'. cbn in *. by subst.
Qed.
End Handles.

(** ** The reply of the pipe *)
Lemma startsWith_more a b x : startsWith a x = true -> startsWith (a +:+ b) x = true.
Proof.
  revert x. induction a as [|c a IH]; intros [|y x] E; try done; [by destruct b|]. rewrite string_app_cons.
  cbn in *. destruct (Ascii.eqb y c); [|done]. by apply IH.
Qed.
Lemma contains_more a b x : contains_str a x = true -> contains_str (a +:+ b) x = true.
Proof.
  induction a as [|c a IH]; intros E.
  - destruct x; [by destruct b|done].
  - cbn [contains_str] in E. apply orb_true_iff in E as [E|E].
    + apply (startsWith_more _ b) in E. rewrite string_app_cons in *. cbn [contains_str]. by rewrite E.
    + rewrite string_app_cons. cbn [contains_str]. by rewrite IH, orb_true_r.
Qed.
Lemma prefix_of_init a b c x : a +:+ b = c +:+ String x "" -> b <> "" -> exists r, c = a +:+ r.
Proof.
  revert c. induction a as [|y a IH]; intros c E Hb; [by exists c|]. destruct c as [|z c]; cbn in E.
  - injection E as -> E. destruct a; [|done]. by destruct b.
  - injection E as -> E. destruct (IH c E Hb) as [r ->]. by exists r.
Qed.

Section Reply.
Context {W : Type} `{ServiceManager W}.

(** The reads give these pieces. *)
Fixpoint delivers (pieces : list string) (w w' : W) : Prop :=
  match pieces with
  | [] => w' = w
  | c :: pieces => c <> "" /\ exists w1, pipe_ReadFile w = (Some c, w1) /\ delivers pieces w1 w'
  end.

Fixpoint pieces_text (pieces : list string) : string :=
  match pieces with [] => "" | c :: pieces => c +:+ pieces_text pieces end.

Lemma pieces_text_empty pieces (w w' : W) : delivers pieces w w' -> pieces_text pieces = "" -> pieces = [].
Proof. destruct pieces as [|c l]; [done|]. intros [Hc _] E. cbn in E. by destruct c. Qed.

Lemma read_loop_whole body pieces : forall n acc (w w' : W),
  (length pieces <= n)%nat -> delivers pieces w w' -> acc +:+ pieces_text pieces = (body +:+ nl) +:+ nl ->
  contains_str (body +:+ nl) (nl +:+ nl) = false ->
  read_loop n acc w = Ret (body +:+ nl +:+ nl, w').
Proof.
  induction pieces as [|c pieces IH]; intros n acc w w' Hn Hd E Hb.
  - cbn in E, Hd. rewrite string_app_nil_r in E. subst w' acc. rewrite string_app_assoc.
    assert (contains_str (body +:+ nl +:+ nl) (nl +:+ nl) = true) as Hc.
    { clear. induction body as [|x body IH]; [done|]. rewrite string_app_cons. cbn [contains_str]. by rewrite IH, orb_true_r. }
    destruct n; cbn [read_loop]; by rewrite Hc.
  - destruct n as [|n]; [cbn in Hn; lia|]. pose proof Hd as Hd'. destruct Hd as (Hc & w1 & Er & Hd).
    assert (pieces_text (c :: pieces) <> "") as Hne by (intros Hx; by apply (pieces_text_empty _ w w') in Hx).
    destruct (prefix_of_init acc _ _ _ E Hne) as [r Hr].
    assert (contains_str acc (nl +:+ nl) = false) as Ha.
    { destruct (contains_str acc (nl +:+ nl)) eqn:Ec; [|done]. apply (contains_more _ r) in Ec. by rewrite <- Hr, Hb in Ec. }
    cbn [read_loop]. rewrite Ha. unfold rbind, rlift. rewrite Er. apply IH; [cbn in Hn; lia|done| |done].
    by rewrite string_app_assoc.
Qed.

(** Once the pipe is open and the command is written, the reply comes back whole,
    without its end, into however many pieces it is cut; the fuel is the number of
    pieces. *)
Theorem uapi_reply_whole command message body pieces n (w w1 w2 w3 w4 w5 : W) :
  pipe_CreateFile w = (true, w1) -> WaitNamedPipe w1 = (true, w2) -> SetNamedPipeHandleState w2 = (true, w3) ->
  pad_message 3 command = Ret message -> pipe_WriteFile message w3 = (true, w4) ->
  delivers pieces w4 w5 -> pieces_text pieces = body +:+ nl +:+ nl ->
  contains_str (body +:+ nl) (nl +:+ nl) = false -> (length pieces <= n)%nat ->
  service_uapiCommand n command w = Ret (trimmed (body +:+ nl +:+ nl), (pipe_CloseHandle w5).2).
Proof.
  intros E1 E2 E3 Ep E4 Hd Et Hb Hn. unfold service_uapiCommand, rbind at 1, rlift at 1. rewrite E1. cbn [negb].
  unfold rbind at 1, rlift at 1. rewrite E2. cbn [negb]. unfold rbind at 1, rlift at 1. rewrite E3, Ep. cbn [negb].
  unfold rbind at 1, rlift at 1. rewrite E4. cbn [negb]. unfold rbind at 1.
  rewrite (read_loop_whole body pieces n "" w4 w5 Hn Hd); [|by rewrite string_app_assoc|done].
  unfold rbind, rlift, rret. by destruct (pipe_CloseHandle w5).
Qed.
End Reply.

(** ** A simulated service control manager

    A service that comes up after [sv_delay] queries; the pipe answers with
    [sv_replies]. *)
Record SimService := mkSimService {
  sv_handles : gset Z; sv_exists : bool; sv_state : Z; sv_delay : nat; sv_replies : list string; sv_fails : bool
}.
Definition sim_handles (f : gset Z -> gset Z) (w : SimService) : SimService :=
  mkSimService (f (sv_handles w)) (sv_exists w) (sv_state w) (sv_delay w) (sv_replies w) (sv_fails w).
Definition sim_state (b : bool) (st : Z) (w : SimService) : SimService :=
  mkSimService (sv_handles w) b st (sv_delay w) (sv_replies w) (sv_fails w).
Definition sim_open (w : SimService) : option Z * SimService :=
  let h := fresh (sv_handles w) in (Some h, sim_handles (λ s, {[h]} ∪ s) w).

#[export] Instance sim_manager : ServiceManager SimService := {
  OpenSCManager := sim_open;
  OpenService := λ _ w, if sv_exists w then sim_open w else (None, w);
  CloseServiceHandle := λ h w, (tt, match h with Some h => sim_handles (λ s, s ∖ {[h]}) w | None => w end);
  QueryServiceStatus := λ _ w, (Some (if (sv_delay w =? 0)%nat then sv_state w else 2), w);
  ControlService_stop := λ _ w, if sv_fails w then (false, w) else (true, sim_state (sv_exists w) SERVICE_STOPPED w);
  DeleteService := λ _ w, (true, sim_state false (sv_state w) w);
  CreateService := λ _ _ w, if sv_exists w then (None, w) else sim_open (sim_state true SERVICE_STOPPED w);
  ChangeServiceConfig2_description := λ _ w, (true, w);
  ChangeServiceConfig2_sid := λ _ w, (true, w);
  StartService := λ _ w, (true, sim_state true SERVICE_RUNNING w);
  Sleep1000 := λ w, (tt, mkSimService (sv_handles w) (sv_exists w) (sv_state w) (pred (sv_delay w)) (sv_replies w) (sv_fails w));
  pipe_CreateFile := λ w, (sv_exists w, w);
  WaitNamedPipe := λ w, (true, w);
  SetNamedPipeHandleState := λ w, (true, w);
  pipe_WriteFile := λ _ w, (true, w);
  pipe_ReadFile := λ w,
    match sv_replies w with
    | [] => (None, w)
    | r :: l => (Some r, mkSimService (sv_handles w) (sv_exists w) (sv_state w) (sv_delay w) l (sv_fails w))
    end;
  pipe_CloseHandle := λ w, (tt, w);
  applicationFilePath := "ZloVPN.exe"
}.
#[export] Instance sim_handle_view : HandleView SimService := sv_handles.

Lemma sim_open_opens : opens sim_open.
Proof. intros w. unfold sim_open. cbn. split; [apply is_fresh|done]. Qed.

#[export] Instance sim_service_laws : ServiceLaws SimService.
Proof.
  split; try done.
  - intros scm w. cbn. destruct (sv_exists w); [apply sim_open_opens|done].
  - intros scm line w. cbn. destruct (sv_exists w); [done|]. apply (sim_open_opens (sim_state true SERVICE_STOPPED w)).
  - intros h w. cbn. by destruct (sv_fails w).
Qed.

Definition sample_service (fails : bool) : WindowsTunnelService SimService :=
  mkService None false false (Some 1) None 0 (mkSimService {[1]} false SERVICE_STOPPED 3 ["errno=0"; nl; nl] fails).
Definition started_service (fails : bool) : WindowsTunnelService SimService :=
  (service_start "[Interface]" (sample_service fails)).2.

Lemma tunnel_service_accounts_witness :
  m_service (started_service true) <> None /\
  holds (open_handles (m_manager (sample_service true))) (started_service true) /\
  open_handles (m_manager (service_stop (started_service true)).2) = open_handles (m_manager (sample_service true)).
Proof.
  split; [by vm_compute|]. apply (tunnel_service_accounts (sample_service true) (started_service true)); try done.
  eapply rtc_l; [by apply (step_start _ "[Interface]")|]. apply rtc_refl.
Defined.

Definition read_up (w : SimService) : SimService :=
  mkSimService (sv_handles w) (sv_exists w) (sv_state w) (sv_delay w) [] (sv_fails w).

Lemma uapi_reply_whole_witness :
  let w := m_manager (started_service false) in service_uapiCommand 3 "get=1" w = Ret ("errno=0", read_up w).
Proof.
  intros w. etrans; [apply (uapi_reply_whole "get=1" ("get=1" +:+ nl +:+ nl) "errno=0" ["errno=0"; nl; nl] 3
    w w w w w (read_up w))|done]; try (vm_compute; reflexivity).
  split; [done|]. eexists. split; [vm_compute; reflexivity|]. split; [done|]. eexists.
  split; [vm_compute; reflexivity|]. split; [done|]. eexists. split; vm_compute; reflexivity.
Defined.
