(* ===== verification/WireguardUtilsWindows.v ===== *)
(** * The tunnel on Windows

    Model of [WireguardUtilsWindows] (client/platforms/windows/daemon/
    wireguardutilswindows.cpp), which puts the tunnel service, the route monitor and
    the firewall together and implements [WireguardUtils], the interface the daemon
    is proved against. *)
From Stdlib Require Import ZArith Lia Ascii String.
From stdpp Require Import base gmap list option strings relations.
From S2P Require Import Prelude HostAddress QtString IpAddress InterfaceConfig.
From S2P Require Import WireguardUtils Uapi LinuxRouteMonitor WindowsFirewall WindowsFirewallProperties WindowsFirewallBooks.
From S2P Require Import WindowsRouteMonitor WindowsRouteProperties WindowsTunnelService.
Local Open Scope string_scope.
Local Open Scope Z_scope.

(** What is asked of the tunnel service. *)
Class TunnelService (T : Type) := {
  tunnel_start : string -> StateM T bool;
  tunnel_stop : StateM T unit;
  tunnel_isRunning : T -> bool;
  tunnel_uapiCommand : string -> StateM T string
}.

(** The class of the source; its replies come in at most [fuel] pieces. *)
Definition windows_tunnel (fuel : nat) {W} `{ServiceManager W} : TunnelService (WindowsTunnelService W) := {|
  tunnel_start := service_start;
  tunnel_stop := service_stop;
  tunnel_isRunning := λ s, (isRunning s).1;
  tunnel_uapiCommand := λ command s,
    match service_uapiCommand fuel command (m_manager s) with
    | Ret (reply, w) => (reply, set_manager w s)
    | _ => ("", s)
    end
|}.

(** Names of interfaces, and [InetPtonA], which leaves the address as it is when
    the text is none. *)
Class Adapters (R : Type) := {
  ConvertInterfaceAliasToLuid : string -> R -> option Z;
  ConvertInterfaceLuidToIndex : Z -> R -> Z;
  InetPtonA4 : string -> option (list Z);
  InetPtonA6 : string -> option (list Z)
}.
Class AdaptersLaws (R : Type) `{Adapters R} `{AddressPrinter} : Prop := {
  inet_pton4 a : 0 <= a < 2 ^ 32 -> InetPtonA4 (printHost (IPv4Address a)) = Some (be32 a);
  inet_pton6 l : addr_wf (IPv6Address l) -> InetPtonA6 (printHost (IPv6Address l)) = Some l
}.

(** [m_luid], [m_tunnel] and [m_routeMonitor], and the instance of the firewall. *)
Record WireguardUtilsWindows (T R E : Type) := mkUtils {
  wu_luid : Z;
  wu_tunnel : T;
  wu_routeMonitor : WindowsRouteMonitor R;
  wu_firewall : WindowsFirewall E
}.
Arguments mkUtils {T R E} _ _ _ _.
Arguments wu_luid {T R E} _.
Arguments wu_tunnel {T R E} _.
Arguments wu_routeMonitor {T R E} _.
Arguments wu_firewall {T R E} _.

Section Utils.
Context {T R E : Type} `{TunnelService T} `{IpHelper R} `{Adapters R} `{FilterEngine E}.
Context `{KeyText} `{AddressPrinter} `{AddressParser}.
Notation U := (WireguardUtilsWindows T R E).

Definition set_luid (luid : Z) (u : U) := mkUtils luid (wu_tunnel u) (wu_routeMonitor u) (wu_firewall u).
Definition on_tunnel {A} (m : StateM T A) : StateM U A := λ u,
  let '(a, t) := m (wu_tunnel u) in (a, mkUtils (wu_luid u) t (wu_routeMonitor u) (wu_firewall u)).
Definition on_routes {A} (m : StateM (WindowsRouteMonitor R) A) : StateM U A := λ u,
  let '(a, r) := m (wu_routeMonitor u) in (a, mkUtils (wu_luid u) (wu_tunnel u) r (wu_firewall u)).
Definition on_firewall {A} (m : StateM (WindowsFirewall E) A) : StateM U A := λ u,
  let '(a, f) := m (wu_firewall u) in (a, mkUtils (wu_luid u) (wu_tunnel u) (wu_routeMonitor u) f).

Definition s_interfaceName : string := "ZloVPN".

(** The configuration without its peers. *)
Definition interface_part (config : InterfaceConfig) : string :=
  let configString := toWgConf config [("Table", "off")] in
  let peerStart := indexOf configString "[Peer]" in
  if 0 <=? peerStart then left_chars peerStart configString else configString.

Definition windows_addInterface (config : InterfaceConfig) : StateM U bool :=
  if String.eqb (toWgConf config [("Table", "off")]) "" then sret false
  else
    started <- on_tunnel (tunnel_start (interface_part config)) ;;
    if negb started then sret false
    else
      luid <- gets (λ u, ConvertInterfaceAliasToLuid s_interfaceName (m_machine (wu_routeMonitor u))) ;;
      match luid with
      | None => sret false
      | Some luid =>
          modify (set_luid luid) ;;
          on_routes (setLuid luid) ;;
          (if m_killSwitchEnabled config then
             ifindex <- gets (λ u, ConvertInterfaceLuidToIndex luid (m_machine (wu_routeMonitor u))) ;;
             on_firewall (enableKillSwitch ifindex) ;;
             sret tt
           else sret tt) ;;
          sret true
      end.

Definition windows_deleteInterface : StateM U bool :=
  on_firewall disableKillSwitch ;;
  on_tunnel tunnel_stop ;;
  sret true.

Definition windows_updatePeer (config : InterfaceConfig) : StateM U bool :=
  (if m_killSwitchEnabled config then on_firewall (enablePeerTraffic config) ;; sret tt else sret tt) ;;
  match peer_message config with
  | None => sret false
  | Some message =>
      (if bool_decide (m_hopType config <> MultiHopExit) then
         on_routes (addExclusionRoute (fromString (qchars (m_serverIpv4AddrIn config)))) ;;
         on_routes (addExclusionRoute (fromString (qchars (m_serverIpv6AddrIn config)))) ;;
         sret tt
       else sret tt) ;;
      on_tunnel (tunnel_uapiCommand message) ;;
      sret true
  end.

Definition windows_deletePeer (config : InterfaceConfig) : StateM U bool :=
  (if bool_decide (m_hopType config <> MultiHopExit) then
     on_routes (deleteExclusionRoute (fromString (qchars (m_serverIpv4AddrIn config)))) ;;
     on_routes (deleteExclusionRoute (fromString (qchars (m_serverIpv6AddrIn config)))) ;;
     sret tt
   else sret tt) ;;
  on_firewall (disablePeerTraffic (qchars (m_serverPublicKey config))) ;;
  on_tunnel (tunnel_uapiCommand (remove_message config)) ;;
  sret true.

Definition windows_getPeerStatus : StateM U (list PeerStatus) :=
  reply <- on_tunnel (tunnel_uapiCommand "get=1") ;;
  sret (peers_of reply).

Definition buildMibForwardRow (luid : Z) (prefix : IPAddress) : MIB_IPFORWARD_ROW2 :=
  let d := InitializeIpForwardEntry in
  let text := printHost (m_address prefix) in
  let dest :=
    match protocol (m_address prefix) with
    | IPv6Protocol =>
        set_family AF_INET6 (match InetPtonA6 text with Some a => set_sin6_addr a (Prefix d) | None => Prefix d end)
    | _ => set_family AF_INET (match InetPtonA4 text with Some a => set_sin_addr a (Prefix d) | None => Prefix d end)
    end in
  mkRow luid (InterfaceIndex d) dest (u8 (m_prefixLength prefix)) (set_family (si_family dest) (NextHop d))
    (SitePrefixLength d) 4294967295 4294967295 0 MIB_IPPROTO_NETMGMT false false false false 0 (Origin d).

Definition windows_updateRoutePrefix (prefix : IPAddress) : StateM U bool :=
  luid <- gets wu_luid ;;
  result <- on_routes (on_machine (CreateIpForwardEntry2 (buildMibForwardRow luid prefix))) ;;
  if result =? ERROR_OBJECT_ALREADY_EXISTS then sret true else sret (result =? NO_ERROR).

Definition windows_deleteRoutePrefix (prefix : IPAddress) : StateM U bool :=
  luid <- gets wu_luid ;;
  result <- on_routes (on_machine (DeleteIpForwardEntry2 (buildMibForwardRow luid prefix))) ;;
  if result =? ERROR_NOT_FOUND then sret true else sret (result =? NO_ERROR).

#[export] Instance windows_wgutils : WireguardUtils U := {
  interfaceExists := λ u, tunnel_isRunning (wu_tunnel u);
  interfaceName := λ _, s_interfaceName;
  addInterface := windows_addInterface;
  deleteInterface := windows_deleteInterface;
  updatePeer := windows_updatePeer;
  deletePeer := windows_deletePeer;
  getPeerStatus := windows_getPeerStatus;
  updateRoutePrefix := windows_updateRoutePrefix;
  deleteRoutePrefix := windows_deleteRoutePrefix;
  wg_addExclusionRoute := λ p, on_routes (addExclusionRoute p);
  wg_deleteExclusionRoute := λ p, on_routes (deleteExclusionRoute p)
}.
End Utils.

(** ** Routes into the tunnel *)
Section Routes.
Context {T R E : Type} `{TunnelService T} `{IpHelper R} `{RoutesView R} `{!IpHelperLaws R} `{Adapters R}.
Context `{AddressPrinter} `{!AdaptersLaws R}.
Notation U := (WireguardUtilsWindows T R E).

(** The row for the tunnel is the row of an exclusion with the tunnel as its
    interface. *)
Lemma tunnel_row luid p :
  ip_wf p -> buildMibForwardRow luid p = set_route luid (NextHop (exclusion_row p)) (exclusion_row p).
Proof.
  intros (Ha & Hp & Hl). unfold buildMibForwardRow, exclusion_row.
  destruct (m_address p) as [|a|l]; [done|..]; cbn -[write_octets be32 printHost] in *.
  - by rewrite inet_pton4.
  - by rewrite inet_pton6.
Qed.

Definition machine (u : U) : R := m_machine (wu_routeMonitor u).

(** A prefix that is routed has a route into the tunnel, and no other route is
    touched; taking it back removes the route the call adds and no other. *)
Theorem windows_route_prefix p (u : U) :
  ip_wf p ->
  (let '(ok, u') := windows_updateRoutePrefix p u in
   (ok = true -> exists x, x ∈ routes_in (machine u') /\ rt_luid x = wu_luid u /\ target x = target_of p) /\
   (forall x, x ∈ routes_in (machine u) -> x ∈ routes_in (machine u'))) /\
  (let '(ok, u') := windows_deleteRoutePrefix p u in
   (ok = true -> route_of (buildMibForwardRow (wu_luid u) p) ∉ routes_in (machine u')) /\
   (forall x, x ∈ routes_in (machine u) -> rt_luid x <> wu_luid u \/ target x <> target_of p -> x ∈ routes_in (machine u'))).
Proof.
  intros Hp. assert (target (route_of (buildMibForwardRow (wu_luid u) p)) = target_of p) as Ht by (by rewrite tunnel_row).
  split.
  - unfold windows_updateRoutePrefix. rewrite gets_bind, sbind_run. unfold on_routes. rewrite on_machine_run.
    set (row := buildMibForwardRow (wu_luid u) p) in *. change (m_machine (wu_routeMonitor u)) with (machine u).
    pose proof (create_law row (machine u)) as Hc. pose proof (duplicate_law row (machine u)) as Hd.
    destruct (CreateIpForwardEntry2 row (machine u)) as [c w]. cbn [fst snd] in *.
    destruct (Z.eqb_spec c ERROR_OBJECT_ALREADY_EXISTS) as [->|_]; cbn [fst snd sret machine m_machine wu_routeMonitor set_machine].
    + cbn in Hc. rewrite Hc. split; [|done]. intros _. destruct (Hd eq_refl) as (x & Hx & Hl & Hx2). exists x.
      split; [done|]. split; [done|]. by rewrite Hx2.
    + destruct (c =? NO_ERROR); [|by rewrite Hc]. split.
      * intros _. exists (route_of row). split; [apply Hc; by left|done].
      * intros x Hx. apply Hc. by right.
  - unfold windows_deleteRoutePrefix. rewrite gets_bind, sbind_run. unfold on_routes. rewrite on_machine_run.
    set (row := buildMibForwardRow (wu_luid u) p) in *. change (m_machine (wu_routeMonitor u)) with (machine u).
    pose proof (delete_law row (machine u)) as Hc. pose proof (missing_law row (machine u)) as Hm.
    destruct (DeleteIpForwardEntry2 row (machine u)) as [c w]. cbn [fst snd] in *.
    assert (forall x, x ∈ routes_in (machine u) -> rt_luid x <> wu_luid u \/ target x <> target_of p -> x ∈ routes_in w) as Hk.
    { intros x Hx Hn. destruct (c =? NO_ERROR); [|by rewrite Hc]. apply Hc. split; [done|]. intros ->.
      destruct Hn as [Hn|Hn]; by apply Hn. }
    destruct (Z.eqb_spec c ERROR_NOT_FOUND) as [->|_]; cbn [fst snd sret machine m_machine wu_routeMonitor set_machine].
    + split; [|done]. intros _. cbn in Hc. rewrite Hc. by apply Hm.
    + split; [|done]. intros Ec. rewrite Ec in Hc. by intros [_ Hn]%Hc.
Qed.
End Routes.

(** ** The servers *)
Section Peers.
Context {T R E : Type} `{TunnelService T} `{IpHelper R} `{RoutesView R} `{!IpHelperLaws R} `{FilterEngine E}.
Context `{KeyText} `{AddressPrinter} `{AddressParser}.
Notation U := (WireguardUtilsWindows T R E).

Definition server4 (config : InterfaceConfig) : IPAddress := fromString (qchars (m_serverIpv4AddrIn config)).
Definition server6 (config : InterfaceConfig) : IPAddress := fromString (qchars (m_serverIpv6AddrIn config)).
Definition excluded (u : U) : list IPAddress := (m_exclusionRoutes (wu_routeMonitor u)).*1.

Lemma add_entries p (s : WindowsRouteMonitor R) :
  m_exclusionRoutes (addExclusionRoute p s).2 = m_exclusionRoutes s \/
  exists d, m_exclusionRoutes (addExclusionRoute p s).2 = (p, d) :: m_exclusionRoutes s.
Proof.
  unfold addExclusionRoute. rewrite gets_bind. case_bool_decide; [by left|]. rewrite gets_bind.
  destruct (GetIpForwardTable2 _ _) as [t|]; [|by left].
  set (fam := match protocol _ with IPv6Protocol => _ | _ => _ end). rewrite sbind_run.
  destruct (updateValid_keeps fam s) as (Ke & _). set (s1 := (updateValidInterfaces fam s).2) in *. rewrite sbind_run.
  pose proof (update_machine (exclusion_row p) t s1) as Hm. destruct (updateExclusionRoute _ t s1) as [d s2].
  destruct Hm as [Hs _]. rewrite sbind_run. right. exists d. cbn. by rewrite Hs, <- Ke.
Qed.

Lemma add_succeeds p (s : WindowsRouteMonitor R) :
  p ∉ (m_exclusionRoutes s).*1 -> is_Some (GetIpForwardTable2 (family_of p) (m_machine s)) ->
  (addExclusionRoute p s).1 = true.
Proof.
  intros Hn [t Ht]. unfold addExclusionRoute. rewrite gets_bind. rewrite bool_decide_eq_false_2 by done. rewrite gets_bind.
  change (match protocol (m_address p) with IPv6Protocol => AF_INET6 | _ => AF_INET end) with (family_of p).
  rewrite Ht. by rewrite !sbind_run.
Qed.

Lemma on_routes_run {A} (m : StateM (WindowsRouteMonitor R) A) (u : U) :
  on_routes m u = ((m (wu_routeMonitor u)).1, mkUtils (wu_luid u) (wu_tunnel u) (m (wu_routeMonitor u)).2 (wu_firewall u)).
Proof. unfold on_routes. by destruct (m (wu_routeMonitor u)). Qed.
Lemma on_firewall_run {A} (m : StateM (WindowsFirewall E) A) (u : U) :
  on_firewall m u = ((m (wu_firewall u)).1, mkUtils (wu_luid u) (wu_tunnel u) (wu_routeMonitor u) (m (wu_firewall u)).2).
Proof. unfold on_firewall. by destruct (m (wu_firewall u)). Qed.
Lemma on_tunnel_run {A} (m : StateM T A) (u : U) :
  on_tunnel m u = ((m (wu_tunnel u)).1, mkUtils (wu_luid u) (m (wu_tunnel u)).2 (wu_routeMonitor u) (wu_firewall u)).
Proof. unfold on_tunnel. by destruct (m (wu_tunnel u)). Qed.

(** What [updatePeer] does to the route monitor. *)
Lemma updatePeer_routes config (u : U) :
  m_hopType config <> MultiHopExit -> (windows_updatePeer config u).1 = true ->
  wu_routeMonitor (windows_updatePeer config u).2 =
    (addExclusionRoute (server6 config) (addExclusionRoute (server4 config) (wu_routeMonitor u)).2).2.
Proof.
  intros Hh. unfold windows_updatePeer. rewrite sbind_run.
  assert (wu_routeMonitor ((if m_killSwitchEnabled config then on_firewall (enablePeerTraffic config);; sret () else sret ()) u).2
    = wu_routeMonitor u) as Hf.
  { destruct (m_killSwitchEnabled config); [|done]. by rewrite sbind_run, on_firewall_run. }
  destruct (_ u) as [[] u1]. cbn [fst snd] in *. destruct (peer_message config) as [message|]; [|done].
  rewrite !sbind_run, bool_decide_eq_true_2 by done. rewrite !sbind_run, !on_routes_run, on_tunnel_run. cbn. by rewrite Hf.
Qed.

(** A peer that is set up has its server led past the tunnel along the best route
    there is, so that the packets of the tunnel do not enter it; a peer that is
    taken away leaves no exclusion for its servers. *)
Theorem windows_server_excluded config (u : U) t ifs :
  m_hopType config <> MultiHopExit ->
  (ip_wf (server4 config) -> (windows_updatePeer config u).1 = true -> server4 config ∉ excluded u ->
   GetIpForwardTable2 (family_of (server4 config)) (m_machine (wu_routeMonitor u)) = Some t ->
   GetIpInterfaceTable (family_of (server4 config)) (m_machine (wu_routeMonitor u)) = Some ifs ->
   exists d, (server4 config, d) ∈ m_exclusionRoutes (wu_routeMonitor (windows_updatePeer config u).2) /\
     follows (m_luid (wu_routeMonitor u)) ifs t (server4 config) d) /\
  server4 config ∉ excluded (windows_deletePeer config u).2 /\ server6 config ∉ excluded (windows_deletePeer config u).2.
Proof.
  intros Hh. split.
  - intros Hp Hok Hn Ht Hi. rewrite updatePeer_routes by done.
    pose proof (add_succeeds (server4 config) (wu_routeMonitor u) Hn (ex_intro _ t Ht)) as Hadd.
    destruct (addExclusionRoute (server4 config) (wu_routeMonitor u)) as [ok s1] eqn:Ea. cbn in Hadd. subst ok.
    destruct (exclusion_added (server4 config) (wu_routeMonitor u) s1 t ifs Hp Ht Hi Ea) as (d & Hd & Hf). exists d.
    split; [|done]. cbn [snd]. destruct (add_entries (server6 config) s1) as [->|[d6 ->]]; rewrite Hd; [by left|right; by left].
  - unfold excluded, windows_deletePeer. rewrite !sbind_run, bool_decide_eq_true_2 by done.
    rewrite !sbind_run, !on_routes_run, on_tunnel_run, on_firewall_run. cbn.
    fold (server4 config) (server6 config). set (s1 := (deleteExclusionRoute (server4 config) (wu_routeMonitor u)).2).
    assert (server4 config ∉ (m_exclusionRoutes s1).*1) as Hd4 by apply deleted_entry.
    split; [|apply deleted_entry].
    apply (delete_keeps (λ s, server4 config ∉ (m_exclusionRoutes s).*1)); [|done].
    intros d l s El Hs Hin. cbn in Hin. destruct (take_route_some _ _ _ _ El) as (a & b & Eq & ->). apply Hs.
    rewrite Eq, fmap_app, elem_of_app, fmap_cons. rewrite fmap_app, elem_of_app in Hin.
    destruct Hin; [by left|right; by right].
Qed.
End Peers.

(** ** The firewall *)
Section Killswitch.
Context {T R E : Type} `{TunnelService T} `{IpHelper R} `{Adapters R} `{FilterEngine E} `{EngineView E} `{!EngineLaws E}.
Context `{KeyText} `{AddressPrinter} `{AddressParser}.
Notation U := (WireguardUtilsWindows T R E).

(** The calls of the daemon, with any results, but for rules of peers that cannot
    be taken away. *)
Inductive utils_step (u : U) : U -> Prop :=
| us_add config : utils_step u (windows_addInterface config u).2
| us_delete : utils_step u (windows_deleteInterface u).2
| us_peer config : utils_step u (windows_updatePeer config u).2
| us_unpeer config :
    (disablePeerTraffic (qchars (m_serverPublicKey config)) (wu_firewall u)).1 = true ->
    utils_step u (windows_deletePeer config u).2
| us_status : utils_step u (windows_getPeerStatus u).2
| us_route p : utils_step u (windows_updateRoutePrefix p u).2
| us_unroute p : utils_step u (windows_deleteRoutePrefix p u).2
| us_exclude p : utils_step u (on_routes (addExclusionRoute p) u).2
| us_unexclude p : utils_step u (on_routes (deleteExclusionRoute p) u).2.

Lemma runs_call c (fw : WindowsFirewall E) : may_fail c || (run_call c fw).1 = true -> runs [c] fw (run_call c fw).2.
Proof. intros Hc. econstructor; [apply surjective_pairing|done|constructor]. Qed.

Lemma addInterface_firewall config (u : U) :
  wu_firewall (windows_addInterface config u).2 = wu_firewall u \/
  exists index, m_killSwitchEnabled config = true /\
    wu_firewall (windows_addInterface config u).2 = (enableKillSwitch index (wu_firewall u)).2.
Proof.
  unfold windows_addInterface. destruct (String.eqb _ _); [by left|]. rewrite sbind_run, on_tunnel_run.
  destruct (tunnel_start _ _) as [[] t]; cbn [fst snd negb]; [|by left]. rewrite gets_bind.
  destruct (ConvertInterfaceAliasToLuid _ _) as [luid|]; [|by left]. rewrite !sbind_run, on_routes_run. cbn.
  destruct (m_killSwitchEnabled config); [|by left]. right. rewrite gets_bind, sbind_run, on_firewall_run.
  eexists. split; [done|]. cbn. done.
Qed.

Lemma step_firewall u u' : utils_step u u' -> exists l, runs l (wu_firewall u) (wu_firewall u').
Proof.
  intros [config| |config|config Hc| |p|p|p|p].
  - destruct (addInterface_firewall config u) as [->|(index & _ & ->)]; [by exists []; constructor|].
    exists [CEnable index]. by apply (runs_call (CEnable index)).
  - exists [CDisable]. unfold windows_deleteInterface. rewrite !sbind_run, on_firewall_run, on_tunnel_run. cbn.
    by apply (runs_call CDisable).
  - unfold windows_updatePeer. rewrite sbind_run.
    assert (exists l, runs l (wu_firewall u)
      (wu_firewall ((if m_killSwitchEnabled config then on_firewall (enablePeerTraffic config);; sret () else sret ()) u).2))
      as [l Hl].
    { destruct (m_killSwitchEnabled config); [|by exists []; constructor]. exists [CEnablePeer config].
      rewrite sbind_run, on_firewall_run. by apply (runs_call (CEnablePeer config)). }
    exists l. destruct (_ u) as [[] u1]. cbn [fst snd] in *. destruct (peer_message config) as [message|]; [|done].
    rewrite !sbind_run, on_tunnel_run. cbn. case_bool_decide; [|done]. by rewrite !sbind_run, !on_routes_run.
  - exists [CDisablePeer (qchars (m_serverPublicKey config))]. unfold windows_deletePeer.
    rewrite !sbind_run, on_tunnel_run, on_firewall_run. cbn. case_bool_decide.
    + rewrite !sbind_run, !on_routes_run. by apply (runs_call (CDisablePeer _)).
    + by apply (runs_call (CDisablePeer _)).
  - exists []. unfold windows_getPeerStatus. rewrite sbind_run, on_tunnel_run. constructor.
  - exists []. unfold windows_updateRoutePrefix. rewrite gets_bind, sbind_run, on_routes_run. cbn.
    destruct (_ =? _); constructor.
  - exists []. unfold windows_deleteRoutePrefix. rewrite gets_bind, sbind_run, on_routes_run. cbn.
    destruct (_ =? _); constructor.
  - exists []. rewrite on_routes_run. constructor.
  - exists []. rewrite on_routes_run. constructor.
Qed.

Lemma steps_firewall u u' : rtc utils_step u u' -> exists l, runs l (wu_firewall u) (wu_firewall u').
Proof.
  induction 1 as [u|u u1 u' Hs _ [l2 IH]]; [by exists []; constructor|].
  destruct (step_firewall u u1 Hs) as [l1 Hl]. exists (app l1 l2). by eapply runs_app.
Qed.

(** Whatever the daemon has done, deleting the interface stops the tunnel and, when
    the engine commits, leaves exactly the filters there were before it did
    anything. *)
Theorem windows_teardown foreign (u u' : U) :
  untouched foreign (wu_firewall u) -> rtc utils_step u u' -> (disableKillSwitch (wu_firewall u')).1 = true ->
  let '(ok, u'') := windows_deleteInterface u' in
  ok = true /\ untouched foreign (wu_firewall u'') /\ wu_tunnel u'' = (tunnel_stop (wu_tunnel u')).2 /\
  wu_routeMonitor u'' = wu_routeMonitor u'.
Proof.
  intros Hu Hr Hd. destruct (steps_firewall u u' Hr) as [l Hl]. unfold windows_deleteInterface.
  rewrite !sbind_run, on_firewall_run, on_tunnel_run. cbn. split; [done|]. split; [|done].
  eapply disabled_untouched; [|exact (run_pair _ _ Hd)]. eapply runs_kept; [exact Hl|by apply untouched_kept].
Qed.

(** The kill switch is best effort: over an engine with working transactions, when
    it cannot be turned on, [addInterface] reports success all the same and the
    tunnel is up without any filter. *)
Theorem windows_killswitch_failure_ignored foreign config (u : U) t luid :
  (forall w : E, transaction w = None -> (FwpmTransactionBegin w).1 = true) ->
  (forall w : E, is_Some (transaction w) -> (FwpmTransactionCommit0 w).1 = true) ->
  untouched foreign (wu_firewall u) -> m_killSwitchEnabled config = true ->
  toWgConf config [("Table", "off")] <> "" -> tunnel_start (interface_part config) (wu_tunnel u) = (true, t) ->
  ConvertInterfaceAliasToLuid s_interfaceName (m_machine (wu_routeMonitor u)) = Some luid ->
  (enableKillSwitch (ConvertInterfaceLuidToIndex luid (m_machine (wu_routeMonitor u))) (wu_firewall u)).1 = false ->
  let '(ok, u') := windows_addInterface config u in
  ok = true /\ wu_tunnel u' = t /\ untouched foreign (wu_firewall u').
Proof.
  intros Hb Hc Hu Hk Hconf Hst Hl Hf. unfold windows_addInterface.
  destruct (String.eqb_spec (toWgConf config [("Table", "off")]) ""); [done|]. rewrite sbind_run, on_tunnel_run, Hst.
  cbn [fst snd negb]. rewrite gets_bind. cbn [wu_routeMonitor]. rewrite Hl. rewrite !sbind_run, on_routes_run, Hk.
  cbn [fst snd modify]. rewrite gets_bind, sbind_run, on_firewall_run. cbn. split; [done|]. split; [done|].
  eapply failed_enable_untouched; [done|done|by apply untouched_kept| |exact (run_pair _ _ Hf)]. by destruct Hu as (_ & _ & _ & Ht).
Qed.
End Killswitch.

(** ** A simulated machine *)
Record SimTunnel := mkSimTunnel { st_running : bool; st_log : list string }.
#[export] Instance sim_tunnel : TunnelService SimTunnel := {
  tunnel_start := λ c t, (true, mkSimTunnel true (c :: st_log t));
  tunnel_stop := λ t, (tt, mkSimTunnel false (st_log t));
  tunnel_isRunning := st_running;
  tunnel_uapiCommand := λ c t, ("errno=0", mkSimTunnel (st_running t) (c :: st_log t))
}.
#[export] Instance sim_adapters : Adapters SimIp := {
  ConvertInterfaceAliasToLuid := λ _ _, Some 9;
  ConvertInterfaceLuidToIndex := λ _ _, 7;
  InetPtonA4 := text_octets 4 "."%char;
  InetPtonA6 := text_octets 16 ":"%char
}.

Section Sample.
#[local] Existing Instances ipv4_parser octets_printer sample_keys.

#[local] Instance sim_adapters_laws : AdaptersLaws SimIp.
Proof.
  split.
  - intros a _. by apply (text_octets_text "."%char (be32 a)).
  - intros l [Hl _]. change (text_octets 16 ":"%char (octets_text ":"%char l) = Some l).
    rewrite <- Hl. apply text_octets_text; [done|]. by intros ->.
Qed.

Definition sample_utils {E} (fw : WindowsFirewall E) : WireguardUtilsWindows SimTunnel SimIp E :=
  mkUtils 9 (mkSimTunnel false []) sample_monitor fw.

Lemma windows_route_prefix_witness :
  let p := mkIPAddress (IPv4Address (10 * 2 ^ 24)) 8 in
  let u := sample_utils sample_firewall in
  (windows_updateRoutePrefix p u).1 = true /\
  exists x, x ∈ routes_in (machine (windows_updateRoutePrefix p u).2) /\ rt_luid x = 9 /\ target x = target_of p.
Proof.
  intros p u. assert ((windows_updateRoutePrefix p u).1 = true) as Hok by by vm_compute. split; [done|].
  destruct (windows_route_prefix p u) as [Hu _]; [by apply (bool_decide_unpack _); vm_compute|].
  destruct (windows_updateRoutePrefix p u) as [ok u']. by apply Hu.
Defined.

Lemma windows_server_excluded_witness :
  let u := sample_utils sample_firewall in let config := sample_config "1.1.1.1" in
  (exists d, (server4 config, d) ∈ m_exclusionRoutes (wu_routeMonitor (windows_updatePeer config u).2) /\
    follows 9 [mkIfRow AF_INET 5 true; mkIfRow AF_INET 9 true] [default_route] (server4 config) d) /\
  server4 config ∉ excluded (windows_deletePeer config u).2.
Proof.
  intros u config. destruct (windows_server_excluded config u [default_route]
    [mkIfRow AF_INET 5 true; mkIfRow AF_INET 9 true] ltac:(done)) as (Hu & Hd & _). split; [|exact Hd].
  apply Hu; [by apply (bool_decide_unpack _); vm_compute|by vm_compute|apply not_elem_of_nil|by vm_compute|by vm_compute].
Defined.

Lemma windows_teardown_witness :
  let u := sample_utils (flaky_firewall [true; true; true; true; true; true; true; false]) in
  let u' := (windows_deleteInterface (windows_updatePeer (sample_config "1.1.1.1")
              (windows_addInterface (sample_config "1.1.1.1") u).2).2).2 in
  installed (m_engine (wu_firewall u')) <> ∅ /\ untouched ∅ (wu_firewall (windows_deleteInterface u').2).
Proof.
  intros u u'. assert (installed (m_engine (wu_firewall u')) <> ∅ /\ (disableKillSwitch (wu_firewall u')).1 = true) as [Hi Hd]
    by by vm_compute.
  split; [exact Hi|]. pose proof (windows_teardown ∅ u u') as Ht.
  destruct (windows_deleteInterface u') as [ok u'']. apply Ht; [by repeat split| |exact Hd].
  eapply rtc_l; [apply us_add|]. eapply rtc_l; [apply us_peer|]. eapply rtc_l; [apply us_delete|]. apply rtc_refl.
Defined.

Lemma windows_killswitch_failure_ignored_witness :
  let u := sample_utils (mkFirewall EngineHandle true [] [] (mkEngine ∅ None [mkNetIf 1 "Loopback" true] [])) in
  let r := windows_addInterface (sample_config "1.1.1.1") u in
  r.1 = true /\ st_running (wu_tunnel r.2) = true /\ untouched ∅ (wu_firewall r.2).
Proof.
  intros u r. pose proof (windows_killswitch_failure_ignored ∅ (sample_config "1.1.1.1") u
    (mkSimTunnel true [interface_part (sample_config "1.1.1.1")]) 9) as Ht.
  fold r in Ht. destruct r as [ok u']. destruct Ht as (Hok & Hr & Hu);
    [intros w Hw; cbn in *; by rewrite Hw|done|by repeat split|done|by vm_compute|done|done|by vm_compute|].
  split; [done|]. split; [exact (f_equal st_running Hr)|done].
Defined.
End Sample.
