(* ===== verification/WindowsSplitTunnel.v ===== *)
(** * The split tunnel driver of Windows

    Model of [WindowsSplitTunnel] (client/platforms/windows/daemon/
    windowssplittunnel.cpp, windowssplittunnel.h): the buffers the kernel driver is
    configured with, octet by octet, and the calls that take it through its states. *)
From Stdlib Require Import ZArith Lia.
From stdpp Require Import base list option gmap.
From S2P Require Import Prelude HostAddress LinuxRouteMonitor WindowsRouteMonitor.
Local Open Scope Z_scope.

(** A [std::wstring] or [QString]: its UTF-16 code units. *)
Definition wstring := list Z.
Definition wbytes (w : wstring) : list Z := concat (map le16 w).

Definition le64 (z : Z) : list Z := app (le32 z) (le32 (z / 2 ^ 32)).

(** ** The configuration of applications *)

(** [path.split("/")] *)
Fixpoint split_units (sep : Z) (w : wstring) : list wstring :=
  match w with
  | [] => [[]]
  | u :: w' =>
      if u =? sep then [] :: split_units sep w'
      else match split_units sep w' with [] => [[u]] | p :: ps => (u :: p) :: ps end
  end.
Fixpoint join_units (sep : Z) (l : list wstring) : wstring :=
  match l with
  | [] => []
  | [p] => p
  | p :: l' => app p (sep :: join_units sep l')
  end.
Definition SLASH : Z := 47.
Definition BACKSLASH : Z := 92.
Definition COLON : Z := 58.
Definition ERROR_INSUFFICIENT_BUFFER : Z := 122.

Section Paths.
(** [QueryDosDeviceW(drive, buffer, n)]: its result and the text in the buffer. *)
Variable QueryDosDeviceW : wstring -> Z -> Z * wstring.

Definition convertPath (path : wstring) : wstring :=
  match split_units SLASH path with
  | [] => []
  | driveLetter :: parts =>
      if negb (bool_decide (COLON ∈ driveLetter)) || (length parts =? 0)%nat then []
      else
        let '(ok, buffer) := QueryDosDeviceW driveLetter 1024 in
        let '(ok, buffer) :=
          if ok =? ERROR_INSUFFICIENT_BUFFER then QueryDosDeviceW driveLetter 2048 else (ok, buffer) in
        if ok =? 0 then [] else join_units BACKSLASH (buffer :: parts)
  end.

(** [sizeof] of the structures on 64 bits, padding included. *)
Definition sizeof_HEADER : nat := 16.
Definition sizeof_CONFIGURATION_ENTRY : nat := 16.
Definition sizeof_PROCESS_ENTRY : nat := 32.

(** The loop over the paths; [entry] and [stringDest] are offsets into the buffer. *)
Fixpoint app_entries (dosPaths : list wstring) (entry stringDest stringOffset : nat) (out : list Z) : list Z :=
  match dosPaths with
  | [] => out
  | path :: dosPaths' =>
      let stringLength := (2 * length path)%nat in
      let out := write_octets (entry + 8) (le16 (Z.of_nat stringLength)) out in
      let out := write_octets entry (le64 (Z.of_nat stringOffset)) out in
      let out := write_octets stringDest (wbytes path) out in
      app_entries dosPaths' (entry + sizeof_CONFIGURATION_ENTRY) (stringDest + stringLength)
        (stringOffset + stringLength) out
  end.

Definition strings_size (l : list wstring) : nat := sum_list_with (λ w, 2 * length w)%nat l.

Definition write_header (n size : nat) (out : list Z) : list Z :=
  write_octets 8 (le64 (Z.of_nat size)) (write_octets 0 (le64 (Z.of_nat n)) out).

Definition generateAppConfiguration (appPaths : list wstring) : list Z :=
  let dosPaths := map convertPath appPaths in
  let strings := (sizeof_HEADER + sizeof_CONFIGURATION_ENTRY * length appPaths)%nat in
  let bufferSize := (strings + strings_size dosPaths)%nat in
  let outBuffer := replicate bufferSize 0 in
  write_header (length appPaths) bufferSize (app_entries dosPaths sizeof_HEADER strings 0 outBuffer).
End Paths.

(** ** The processes that are running *)
Record ProcessInfo := mkProcess { ProcessId : Z; ParentProcessId : Z; DevicePath : wstring }.

Fixpoint process_entries (l : list ProcessInfo) (entry stringBuffer currentStringOffset : nat) (out : list Z) :
    list Z :=
  match l with
  | [] => out
  | process :: l' =>
      let out := write_octets entry (le64 (ProcessId process)) out in
      let out := write_octets (entry + 8) (le64 (ParentProcessId process)) out in
      match DevicePath process with
      | [] =>
          let out := write_octets (entry + 16) (le64 0) out in
          let out := write_octets (entry + 24) (le16 0) out in
          process_entries l' (entry + sizeof_PROCESS_ENTRY) stringBuffer currentStringOffset out
      | path =>
          let imageNameLength := (2 * length path)%nat in
          let out := write_octets (entry + 16) (le64 (Z.of_nat currentStringOffset)) out in
          let out := write_octets (entry + 24) (le16 (Z.of_nat imageNameLength)) out in
          let out := write_octets (stringBuffer + currentStringOffset) (wbytes path) out in
          process_entries l' (entry + sizeof_PROCESS_ENTRY) stringBuffer (currentStringOffset + imageNameLength) out
      end
  end.

(** [processes.insert(info.ProcessId, info)] into the sorted map. *)
Fixpoint insert_process (p : ProcessInfo) (l : list ProcessInfo) : list ProcessInfo :=
  match l with
  | [] => [p]
  | q :: l' =>
      if ProcessId p <? ProcessId q then p :: l
      else if ProcessId p =? ProcessId q then p :: l'
      else q :: insert_process p l'
  end.

Definition process_blob (process_list : list ProcessInfo) : list Z :=
  let strings := (sizeof_HEADER + sizeof_PROCESS_ENTRY * length process_list)%nat in
  let bufferSize := (strings + strings_size (map DevicePath process_list))%nat in
  let out := replicate bufferSize 0 in
  write_header (length process_list) bufferSize (process_entries process_list sizeof_HEADER strings 0 out).

(** A snapshot of the processes: [None] when it cannot be made; [Process32First]
    gives the first entry or fails and leaves what was on the stack. *)
Record Snapshot := mkSnapshot { sn_first : option ProcessInfo; sn_rest : list ProcessInfo; sn_stack : ProcessInfo }.

Definition generateProcessBlob (snapshot : option Snapshot) : list Z :=
  match snapshot with
  | None => []
  | Some s =>
      let first := match sn_first s with Some p => p | None => sn_stack s end in
      let process_list := foldl (λ m p, insert_process p m) [] (first :: sn_rest s) in
      match process_list with [] => [] | _ => process_blob process_list end
  end.

(** ** The addresses *)
Section Addresses.
(** The addresses of an adapter, and [InetPtonW] of their text. *)
Variables (addressEntries : Z -> list QHostAddress) (InetPton4 InetPton6 : QHostAddress -> option (list Z)).

(** The first address of a protocol; the field keeps its zeros without one or when
    the text cannot be read. *)
Fixpoint first_address (p : NetworkLayerProtocol) (l : list QHostAddress) : option QHostAddress :=
  match l with
  | [] => None
  | a :: l' => if bool_decide (protocol a = p) then Some a else first_address p l'
  end.
Definition getAddress (adapterIndex : Z) (off4 off6 : nat) (out : list Z) : list Z :=
  let out :=
    match first_address IPv4Protocol (addressEntries adapterIndex) with
    | Some a => match InetPton4 a with Some o => write_octets off4 o out | None => out end
    | None => out
    end in
  match first_address IPv6Protocol (addressEntries adapterIndex) with
  | Some a => match InetPton6 a with Some o => write_octets off6 o out | None => out end
  | None => out
  end.

(** The offsets of TunnelIpv4, InternetIpv4, TunnelIpv6 and InternetIpv6. *)
Definition generateIPConfiguration (VPNAdapterIndex inetAdapterIndex vpnAdapterIndex : Z) : list Z :=
  let out := replicate 40 0 in
  let vpnAdapterIndex := if vpnAdapterIndex =? 0 then VPNAdapterIndex else vpnAdapterIndex in
  let out := getAddress vpnAdapterIndex 0 8 out in
  getAddress inetAdapterIndex 4 24 out.
End Addresses.

(** ** The driver *)
Definition STATE_UNKNOWN : Z := -1.
Definition STATE_NONE : Z := 0.
Definition STATE_STARTED : Z := 1.
Definition STATE_INITIALIZED : Z := 2.
Definition STATE_READY : Z := 3.
Definition STATE_RUNNING : Z := 4.
Definition STATE_ZOMBIE : Z := 5.

Inductive Ioctl :=
| IOCTL_INITIALIZE
| IOCTL_REGISTER_PROCESSES (config : list Z)
| IOCTL_REGISTER_IP_ADDRESSES (config : list Z)
| IOCTL_SET_CONFIGURATION (config : list Z)
| IOCTL_CLEAR_CONFIGURATION
| IOCTL_ST_RESET.

(** The calls on an open driver ([getState] with the octets returned and the
    value), on the services, and what the machine says. *)
Class SplitDriver (W : Type) := {
  open_driver : StateM W bool;
  close_driver : StateM W unit;
  DeviceIoControl : Ioctl -> StateM W bool;
  IoControl_GET_STATE : W -> option (Z * Z);
  driver_startService : StateM W bool;       (* whether serviceStarted is emitted *)
  firewall_init : StateM W bool;
  driver_conflict : W -> bool;               (* detectConflict() *)
  driver_installed : W -> bool;              (* isInstalled() *)
  driver_install : StateM W bool;            (* installDriver() *)
  driver_uninstall : StateM W bool;
  process_snapshot : W -> option Snapshot;
  adapter_addresses : Z -> W -> list QHostAddress;
  vpn_adapter_index : W -> Z;
  inet_pton4 : QHostAddress -> option (list Z);
  inet_pton6 : QHostAddress -> option (list Z);
  query_dos_device : wstring -> Z -> Z * wstring
}.

(** [m_driver] is the open driver or [INVALID_HANDLE_VALUE]. *)
Record WindowsSplitTunnel (W : Type) := mkSplit { m_driver : bool; m_tries : Z; m_system : W }.
Arguments mkSplit {W} _ _ _.
Arguments m_driver {W} _.
Arguments m_tries {W} _.
Arguments m_system {W} _.

Section Tunnel.
Context {W : Type} `{SplitDriver W}.
Notation S := (WindowsSplitTunnel W).

Definition set_driver (b : bool) (s : S) : S := mkSplit b (m_tries s) (m_system s).
Definition set_tries (n : Z) (s : S) : S := mkSplit (m_driver s) n (m_system s).
Definition set_system (w : W) (s : S) : S := mkSplit (m_driver s) (m_tries s) w.
Definition on_system {A} (m : StateM W A) : StateM S A := λ s,
  let '(a, w) := m (m_system s) in (a, set_system w s).
(** A request fails on an invalid handle. *)
Definition ioctl (c : Ioctl) : StateM S bool :=
  driver <- gets m_driver ;;
  if (driver : bool) then on_system (DeviceIoControl c) else sret false.

Definition getState : StateM S Z :=
  driver <- gets m_driver ;;
  if negb driver then sret STATE_UNKNOWN
  else
    r <- gets (λ s, IoControl_GET_STATE (m_system s)) ;;
    sret (match r with
          | None => STATE_UNKNOWN
          | Some (bytesReturned, outBuffer) => if bytesReturned =? 0 then STATE_UNKNOWN else outBuffer
          end).

Definition reset : StateM S unit := ioctl IOCTL_ST_RESET ;; sret tt.
Definition stop : StateM S unit := ioctl IOCTL_CLEAR_CONFIGURATION ;; sret tt.
Definition close : StateM S unit := on_system close_driver ;; modify (set_driver false).

(** What [initDriver] does with the driver it has. *)
Definition connect_driver : StateM S unit :=
  ok <- on_system firewall_init ;;
  if negb ok then sret tt
  else
    state <- getState ;;
    initialised <-
      (if STATE_INITIALIZED <=? state then
         reset ;;
         newState <- getState ;;
         sret (STATE_INITIALIZED <=? newState)
       else sret false) ;;
    if (initialised : bool) then sret tt
    else ioctl IOCTL_INITIALIZE ;; sret tt.

(** [initDriver] calls itself through the signal of the service it starts, at most
    500 times. *)
Fixpoint init_loop (fuel : nat) : Run S unit :=
  match fuel with
  | O => λ _, OutOfFuel
  | Datatypes.S fuel' =>
      let! conflict := rlift (gets (λ s, driver_conflict (m_system s))) in
      if (conflict : bool) then rret tt
      else
        let! opened := rlift (on_system open_driver) in
        do! rlift (modify (set_driver opened)) in
        let! tries := rlift (gets m_tries) in
        if negb opened && (tries <? 500) then
          do! rlift (modify (λ s, set_tries (m_tries s + 1) s)) in
          let! started := rlift (on_system driver_startService) in
          if (started : bool) then init_loop fuel' else rret tt
        else rlift connect_driver
  end.
Definition initDriver : Run S unit := init_loop 501.

(** The constructor; [m_tries] has no value before it is set. *)
Definition WindowsSplitTunnel_new (tries : Z) (w : W) : Outcome (unit * S) :=
  let s := mkSplit false tries w in
  if driver_conflict w then Ret (tt, (on_system driver_uninstall s).2)
  else
    let s := set_tries 0 s in
    if negb (driver_installed w) then
      let '(ok, s) := on_system driver_install s in
      if negb ok then Ret (tt, s) else initDriver s
    else initDriver s.

(** The destructor. *)
Definition WindowsSplitTunnel_delete : StateM S unit :=
  on_system close_driver ;; on_system driver_uninstall ;; sret tt.

Definition setRules (appPaths : list wstring) : StateM S unit :=
  state <- getState ;;
  if negb (state =? STATE_READY) && negb (state =? STATE_RUNNING) then sret tt
  else ioctl (IOCTL_SET_CONFIGURATION (generateAppConfiguration query_dos_device appPaths)) ;; sret tt.

(** [&config[0]]: an empty vector has no first element. *)
Definition start (inetAdapterIndex vpnAdapterIndex : Z) : Run S unit :=
  let! state := rlift getState in
  let! ok := (if state =? STATE_STARTED then rlift (ioctl IOCTL_INITIALIZE) else rret true) in
  if negb ok then rret tt
  else
    let! state := rlift getState in
    let! ok :=
      (if state =? STATE_INITIALIZED then
         let! config := rlift (gets (λ s, generateProcessBlob (process_snapshot (m_system s)))) in
         match config with
         | [] => rabort
         | _ => rlift (ioctl (IOCTL_REGISTER_PROCESSES config))
         end
       else rret true) in
    if negb ok then rret tt
    else
      let! state := rlift getState in
      if state =? STATE_INITIALIZED then rret tt
      else
        let! config := rlift (gets (λ s,
          generateIPConfiguration (λ i, adapter_addresses i (m_system s)) inet_pton4 inet_pton6
            (vpn_adapter_index (m_system s)) inetAdapterIndex vpnAdapterIndex)) in
        do! rlift (ioctl (IOCTL_REGISTER_IP_ADDRESSES config)) in rret tt.
End Tunnel.
