(* ===== verification/WindowsSplitProperties.v ===== *)
(** * What the split tunnel driver is told

    The buffers of WindowsSplitTunnel.v read back, by a reader of their layout, as
    what they were made from; the driver is opened in finitely many tries and taken
    to its running state with the rules of the configuration. *)
From Stdlib Require Import ZArith Lia Sorted.
From stdpp Require Import base list option gmap sorting.
From S2P Require Import Prelude HostAddress LinuxRouteMonitor WindowsRouteMonitor WindowsSplitTunnel.
Local Open Scope Z_scope.

(** ** A reader of the layout *)
Fixpoint get_le (l : list Z) : Z := match l with [] => 0 | b :: l' => b + 256 * get_le l' end.
Fixpoint units (l : list Z) : wstring :=
  match l with a :: b :: l' => (a + 256 * b) :: units l' | _ => [] end.

Section Reader.
Context {X : Type} (esz : nat) (dec : list Z -> X * nat * nat).

Fixpoint read_entries (n : nat) (ents strings : list Z) : option (list (X * wstring)) :=
  match n with
  | O => Some []
  | S n' =>
      let '(x, off, len) := dec (take esz ents) in
      if (off + len <=? length strings)%nat then
        rest ← read_entries n' (drop esz ents) strings;
        Some ((x, units (take len (drop off strings))) :: rest)
      else None
  end.

(** The header has the number of entries and the size of the whole. *)
Definition read_blob (buf : list Z) : option (list (X * wstring)) :=
  let n := Z.to_nat (get_le (take 8 buf)) in
  if negb (Z.of_nat (length buf) =? get_le (take 8 (drop 8 buf))) then None
  else if (length buf <? sizeof_HEADER + esz * n)%nat then None
  else
    let ents := take (esz * n) (drop sizeof_HEADER buf) in
    read_entries n ents (drop (sizeof_HEADER + esz * n) buf).
End Reader.

(** An entry of each kind: its keys, the offset and the length of its name. *)
Definition decode_app (e : list Z) : unit * nat * nat :=
  (tt, Z.to_nat (get_le (take 8 e)), Z.to_nat (get_le (take 2 (drop 8 e)))).
Definition decode_process (e : list Z) : (Z * Z) * nat * nat :=
  ((get_le (take 8 e), get_le (take 8 (drop 8 e))), Z.to_nat (get_le (take 8 (drop 16 e))),
   Z.to_nat (get_le (take 2 (drop 24 e)))).

(** ** Octets *)
Definition is_unit (u : Z) : Prop := 0 <= u < 2 ^ 16.

Lemma get_le_app a b : get_le (app a b) = get_le a + 256 ^ Z.of_nat (length a) * get_le b.
Proof.
  induction a as [|x a IH]; [cbn -[Z.mul]; lia|].
  cbn -[Z.mul Z.pow Z.of_nat]. rewrite IH, Nat2Z.inj_succ, Z.pow_succ_r by lia. ring.
Qed.

Lemma get_le16 z : 0 <= z < 2 ^ 16 -> get_le (le16 z) = z.
Proof.
  intros Hz. unfold le16, get_le. rewrite (Z.mod_small (z / 256)) by (split; [apply Z.div_pos|apply Z.div_lt_upper_bound]; lia).
  pose proof (Z_div_mod_eq_full z 256). lia.
Qed.

Lemma get_le32 z : get_le (le32 z) = z mod 2 ^ 32.
Proof.
  unfold le32, get_le. change (2 ^ 32) with 4294967296.
  replace (z / 65536) with (z / 256 / 256) by (by rewrite Z.div_div).
  replace (z / 16777216) with (z / 256 / 256 / 256) by (by rewrite !Z.div_div).
  pose proof (Z_div_mod_eq_full z 4294967296) as E. replace (z / 4294967296) with (z / 256 / 256 / 256 / 256) in E by (by rewrite !Z.div_div).
  pose proof (Z_div_mod_eq_full z 256). pose proof (Z_div_mod_eq_full (z / 256) 256).
  pose proof (Z_div_mod_eq_full (z / 256 / 256) 256). pose proof (Z_div_mod_eq_full (z / 256 / 256 / 256) 256). lia.
Qed.

Lemma get_le64 z : 0 <= z < 2 ^ 64 -> get_le (le64 z) = z.
Proof.
  intros Hz. unfold le64. rewrite get_le_app, !get_le32. change (256 ^ Z.of_nat (length (le32 z))) with (2 ^ 32).
  rewrite (Z.mod_small (z / 2 ^ 32)) by (split; [apply Z.div_pos|apply Z.div_lt_upper_bound]; lia).
  pose proof (Z_div_mod_eq_full z (2 ^ 32)). lia.
Qed.

Lemma units_wbytes w : Forall is_unit w -> units (wbytes w) = w.
Proof.
  induction 1 as [|u w Hu _ IH]; [done|]. change (wbytes (u :: w)) with (u mod 256 :: u / 256 mod 256 :: wbytes w).
  cbn [units]. rewrite IH. f_equal.
  pose proof (get_le16 u Hu) as E. unfold le16, get_le in E. lia.
Qed.

Lemma length_wbytes w : length (wbytes w) = (2 * length w)%nat.
Proof. induction w as [|u w IH]; [done|]. change (wbytes (u :: w)) with (app (le16 u) (wbytes w)). rewrite length_app, IH. cbn. lia. Qed.

(** ** Writing a layout *)
Lemma write_between a b o c :
  length b = length o -> write_octets (length a) o (app a (app b c)) = app a (app o c).
Proof.
  intros E. unfold write_octets. rewrite take_app_length. rewrite drop_app_ge by lia.
  replace (length a + length o - length a)%nat with (length b) by lia. by rewrite drop_app_length.
Qed.

(** Writing at a known place. *)
Lemma write_there pos a b o c l :
  l = app a (app b c) -> pos = length a -> length b = length o -> write_octets pos o l = app a (app o c).
Proof. intros -> -> E. by apply write_between. Qed.

Section Layout.
Context {A : Type} (esz : nat) (name : A -> wstring) (enc : A -> nat -> list Z).
Hypothesis enc_length : forall a off, length (enc a off) = esz.

Fixpoint entries_of (l : list A) (off : nat) : list Z :=
  match l with [] => [] | a :: l' => app (enc a off) (entries_of l' (off + 2 * length (name a))) end.
Definition strings_of (l : list A) : list Z := concat (map (λ a, wbytes (name a)) l).

Lemma length_entries_of l : forall off, length (entries_of l off) = (esz * length l)%nat.
Proof. induction l as [|a l IH]; intros off; cbn; [lia|]. rewrite length_app, enc_length, IH. lia. Qed.
Lemma length_strings_of l : length (strings_of l) = strings_size (map name l).
Proof.
  unfold strings_of, strings_size. induction l as [|a l IH]; [done|]. cbn [map concat sum_list_with].
  rewrite length_app, IH, length_wbytes. done.
Qed.

(** The reader gets the names back when an entry decodes to its offset and length. *)
Context {X : Type} (dec : list Z -> X * nat * nat) (key : A -> X).

Lemma read_entries_back l : forall before,
  (forall a off, a ∈ l -> (off + 2 * length (name a) <= length before + strings_size (map name l))%nat ->
     dec (enc a off) = (key a, match name a with [] => 0%nat | _ => off end, (2 * length (name a))%nat)
     \/ dec (enc a off) = (key a, off, (2 * length (name a))%nat)) ->
  Forall (λ a, Forall is_unit (name a)) l ->
  read_entries esz dec (length l) (entries_of l (length before)) (app before (strings_of l)) =
    Some (map (λ a, (key a, name a)) l).
Proof.
  induction l as [|a l IH]; intros before Hd Hu; [done|]. cbn [length read_entries entries_of].
  rewrite take_app_length' by (symmetry; apply enc_length). rewrite drop_app_length' by (symmetry; apply enc_length).
  apply list.Forall_cons in Hu as [Ha Hu].
  assert (strings_of (a :: l) = app (wbytes (name a)) (strings_of l)) as Es by done.
  assert (strings_size (map name (a :: l)) = 2 * length (name a) + strings_size (map name l))%nat as Ez by done.
  assert (read_entries esz dec (length l) (entries_of l (length before + 2 * length (name a))) (app before (strings_of (a :: l)))
    = Some (map (λ a, (key a, name a)) l)) as Hrest.
  { rewrite Es, app_assoc. replace (length before + 2 * length (name a))%nat with (length (app before (wbytes (name a))))
      by (rewrite length_app, length_wbytes; lia).
    apply IH; [|done]. intros b off Hb Hoff. apply Hd; [by right|]. rewrite Ez.
    rewrite length_app, length_wbytes in Hoff. lia. }
  assert (forall off, off = length before \/ name a = [] /\ off = 0%nat ->
    (off + 2 * length (name a) <=? length (app before (strings_of (a :: l))))%nat = true /\
    units (take (2 * length (name a)) (drop off (app before (strings_of (a :: l))))) = name a) as Hn.
  { intros off Hoff. split; [apply Nat.leb_le; rewrite length_app, length_strings_of, Ez; destruct Hoff as [->|[-> ->]]; cbn; lia|].
    destruct Hoff as [->|[E ->]]; [|by rewrite E]. rewrite drop_app_length, Es.
    rewrite take_app_length' by (rewrite length_wbytes; lia). by apply units_wbytes. }
  destruct (Hd a (length before)) as [->| ->]; [by left|rewrite Ez; lia|..].
  - destruct (Hn (match name a with [] => 0%nat | _ => length before end)) as [-> ->];
      [destruct (name a); [by right|by left]|]. by rewrite Hrest.
  - destruct (Hn (length before)) as [-> ->]; [by left|]. by rewrite Hrest.
Qed.

(** The whole buffer. *)
Definition layout (l : list A) : list Z :=
  app (le64 (Z.of_nat (length l)))
    (app (le64 (Z.of_nat (sizeof_HEADER + esz * length l + strings_size (map name l))))
       (app (entries_of l 0) (strings_of l))).

Lemma layout_read l :
  Z.of_nat (sizeof_HEADER + esz * length l + strings_size (map name l)) < 2 ^ 64 -> Z.of_nat (length l) < 2 ^ 64 ->
  (forall a off, a ∈ l -> (off + 2 * length (name a) <= strings_size (map name l))%nat ->
     dec (enc a off) = (key a, match name a with [] => 0%nat | _ => off end, (2 * length (name a))%nat)
     \/ dec (enc a off) = (key a, off, (2 * length (name a))%nat)) ->
  Forall (λ a, Forall is_unit (name a)) l ->
  read_blob esz dec (layout l) = Some (map (λ a, (key a, name a)) l).
Proof.
  intros Hs Hl Hd Hu. unfold read_blob. set (size := (sizeof_HEADER + esz * length l + strings_size (map name l))%nat) in *.
  assert (take 8 (layout l) = le64 (Z.of_nat (length l))) as E1 by done.
  assert (take 8 (drop 8 (layout l)) = le64 (Z.of_nat size)) as E2 by done.
  assert (drop sizeof_HEADER (layout l) = app (entries_of l 0) (strings_of l)) as E3 by done.
  assert (length (layout l) = size) as El.
  { unfold layout. rewrite !length_app, length_entries_of, length_strings_of. unfold size, sizeof_HEADER. cbn -[Nat.mul]. lia. }
  rewrite E1, E2, !get_le64, El, Nat2Z.id by lia. rewrite Z.eqb_refl. cbn [negb].
  destruct (Nat.ltb_spec size (sizeof_HEADER + esz * length l)) as [Hlt|_]; [unfold size in Hlt; lia|].
  rewrite <- drop_drop, E3. rewrite take_app_length' by (by rewrite length_entries_of).
  rewrite drop_app_length' by (by rewrite length_entries_of).
  apply (read_entries_back l []); [|done]. intros a off Ha Hoff. by apply Hd.
Qed.
End Layout.

(** ** The configuration of applications *)
Definition app_entry (path : wstring) (off : nat) : list Z :=
  app (le64 (Z.of_nat off)) (app (le16 (Z.of_nat (2 * length path))) (replicate 6 0)).

Lemma app_entries_layout l : forall pre mid entry dest off out,
  out = app pre (app (replicate (16 * length l) 0) (app mid (replicate (strings_size l) 0))) ->
  entry = length pre -> dest = (length pre + 16 * length l + length mid)%nat ->
  app_entries l entry dest off out =
    app pre (app (entries_of id app_entry l off) (app mid (strings_of id l))).
Proof.
  induction l as [|w l IH]; intros pre mid entry dest off out Eo -> ->; [done|]. cbn [app_entries].
  set (len := (2 * length w)%nat). set (zeros := replicate (16 * length l) 0). set (rest := replicate (strings_size l) 0).
  assert (out = app pre (app (replicate 8 0) (app (replicate 2 0) (app (replicate 6 0)
    (app zeros (app mid (app (replicate len 0) rest))))))) as E0.
  { rewrite Eo. cbn [length]. replace (16 * S (length l))%nat with (8 + (2 + (6 + 16 * length l)))%nat by lia.
    change (strings_size (w :: l)) with (len + strings_size l)%nat. rewrite !replicate_add. by rewrite <- !app_assoc. }
  clear Eo. rewrite (write_there (length pre + 8) (app pre (replicate 8 0)) (replicate 2 0) (le16 (Z.of_nat len))
    (app (replicate 6 0) (app zeros (app mid (app (replicate len 0) rest)))));
    [|by rewrite E0, <- !app_assoc|rewrite length_app; cbn; lia|done].
  rewrite (write_there (length pre) pre (replicate 8 0) (le64 (Z.of_nat off))
    (app (le16 (Z.of_nat len)) (app (replicate 6 0) (app zeros (app mid (app (replicate len 0) rest))))));
    [|by rewrite <- !app_assoc|done|done].
  rewrite (write_there _ (app pre (app (app_entry w off) (app zeros mid))) (replicate len 0) (wbytes w) rest);
    [|unfold app_entry; by rewrite <- !app_assoc| |by rewrite length_replicate, length_wbytes].
  2: { unfold zeros. rewrite !length_app, length_replicate. change (length (app_entry w off)) with 16%nat. cbn [length]. lia. }
  rewrite (IH (app pre (app_entry w off)) (app mid (wbytes w))); cbn [entries_of].
  - rewrite <- !app_assoc. done.
  - rewrite <- !app_assoc. done.
  - rewrite length_app. change (length (app_entry w off)) with 16%nat. unfold sizeof_CONFIGURATION_ENTRY. lia.
  - rewrite !length_app, length_wbytes. change (length (app_entry w off)) with 16%nat. cbn [length]. lia.
Qed.

Lemma generateAppConfiguration_layout query appPaths :
  generateAppConfiguration query appPaths = layout 16 id app_entry (map (convertPath query) appPaths).
Proof.
  unfold generateAppConfiguration. set (l := map _ appPaths).
  assert (length appPaths = length l) as -> by (unfold l; by rewrite length_map).
  set (size := (_ + strings_size l)%nat). rewrite (app_entries_layout l (replicate 16 0) []); [|..].
  - unfold write_header, layout. rewrite (write_there 0 [] (replicate 8 0) (le64 (Z.of_nat (length l)))
      (app (replicate 8 0) (app (entries_of id app_entry l 0) (strings_of id l)))); [|done|done|done].
    rewrite (write_there 8 (le64 (Z.of_nat (length l))) (replicate 8 0) (le64 (Z.of_nat size))
      (app (entries_of id app_entry l 0) (strings_of id l))); [|done|done|done].
    unfold size. by rewrite map_id.
  - unfold size, sizeof_HEADER, sizeof_CONFIGURATION_ENTRY. rewrite !replicate_add. by rewrite <- !app_assoc.
  - done.
  - cbn -[Nat.mul]. unfold sizeof_HEADER, sizeof_CONFIGURATION_ENTRY. lia.
Qed.

(** C23. The rules the driver reads from the buffer are the device paths of the
    applications, in their order, as long as each path has at most 32767 units and
    the buffer fits the address space. Paths are texts of characters up to 255. *)
Theorem app_configuration_read query appPaths :
  Forall (λ p, Forall is_unit (convertPath query p) /\ Z.of_nat (length (convertPath query p)) < 2 ^ 15) appPaths ->
  Z.of_nat (length (generateAppConfiguration query appPaths)) < 2 ^ 64 ->
  read_blob 16 decode_app (generateAppConfiguration query appPaths) =
    Some (map (λ p, (tt, convertPath query p)) appPaths).
Proof.
  intros Hp. rewrite generateAppConfiguration_layout. set (l := map _ appPaths). intros Hs.
  assert (map (λ p, (tt, convertPath query p)) appPaths = map (λ a, (tt, id a)) l) as -> by (unfold l; by rewrite map_map).
  assert (Forall (λ w, Forall is_unit w /\ Z.of_nat (length w) < 2 ^ 15) l) as Hl by (unfold l; by apply list.Forall_fmap).
  assert (length (layout 16 id app_entry l) = sizeof_HEADER + 16 * length l + strings_size (map id l))%nat as El.
  { unfold layout. rewrite !length_app, (length_entries_of 16), length_strings_of by done. cbn -[Nat.mul]. lia. }
  rewrite El in Hs. apply layout_read; [done|done|lia| |].
  - intros w off Hw Hoff. right. apply (proj1 (list.Forall_forall _ _) Hl) in Hw as [_ Hw]. cbn [id] in *.
    unfold decode_app, app_entry. change (take 8 _) with (le64 (Z.of_nat off)).
    change (take 2 _) with (le16 (Z.of_nat (2 * length w))). rewrite get_le64, get_le16, !Nat2Z.id by lia. done.
  - eapply list.Forall_impl; [exact Hl|]. by intros w [].
Qed.

(** ** The processes *)
Definition process_entry (p : ProcessInfo) (off : nat) : list Z :=
  app (le64 (ProcessId p)) (app (le64 (ParentProcessId p))
    (app (le64 (match DevicePath p with [] => 0 | _ => Z.of_nat off end))
       (app (le16 (Z.of_nat (2 * length (DevicePath p)))) (replicate 6 0)))).

Lemma process_fields pre p off tail :
  let z := Z.of_nat off in
  write_octets (length pre + 24) (le16 (Z.of_nat (2 * length (DevicePath p))))
    (write_octets (length pre + 16) (le64 (match DevicePath p with [] => 0 | _ => z end))
      (write_octets (length pre + 8) (le64 (ParentProcessId p))
        (write_octets (length pre) (le64 (ProcessId p)) (app pre (app (replicate 32 0) tail))))) =
  app pre (app (process_entry p off) tail).
Proof.
  intros z. change (replicate 32 0) with (app (replicate 8 0) (app (replicate 8 0) (app (replicate 8 0) (app (replicate 2 0) (replicate 6 0))))).
  rewrite <- !app_assoc.
  rewrite (write_there (length pre) pre (replicate 8 0) _ _ _ eq_refl eq_refl) by done.
  rewrite (write_there (length pre + 8) (app pre (le64 (ProcessId p))) (replicate 8 0) (le64 (ParentProcessId p))
    (app (replicate 8 0) (app (replicate 2 0) (app (replicate 6 0) tail))));
    [|by rewrite <- app_assoc|rewrite length_app; cbn; lia|done].
  rewrite (write_there (length pre + 16) (app pre (app (le64 (ProcessId p)) (le64 (ParentProcessId p)))) (replicate 8 0) _
    (app (replicate 2 0) (app (replicate 6 0) tail)));
    [|by rewrite <- !app_assoc|rewrite !length_app; cbn; lia|done].
  rewrite (write_there (length pre + 24) (app pre (app (le64 (ProcessId p)) (app (le64 (ParentProcessId p))
    (le64 (match DevicePath p with [] => 0 | _ => z end))))) (replicate 2 0) _ (app (replicate 6 0) tail));
    [|by rewrite <- !app_assoc|rewrite !length_app; cbn; lia|done].
  unfold process_entry. by rewrite <- !app_assoc.
Qed.

Lemma process_entries_layout l : forall pre mid entry base off out,
  out = app pre (app (replicate (32 * length l) 0) (app mid (replicate (strings_size (map DevicePath l)) 0))) ->
  entry = length pre -> (base + off = length pre + 32 * length l + length mid)%nat ->
  process_entries l entry base off out =
    app pre (app (entries_of DevicePath process_entry l off) (app mid (strings_of DevicePath l))).
Proof.
  induction l as [|p l IH]; intros pre mid entry base off out Eo -> Eb; [done|].
  set (len := (2 * length (DevicePath p))%nat). set (zeros := replicate (32 * length l) 0).
  set (rest := replicate (strings_size (map DevicePath l)) 0).
  assert (out = app pre (app (replicate 32 0) (app zeros (app mid (app (replicate len 0) rest))))) as E0.
  { rewrite Eo. cbn [length]. replace (32 * S (length l))%nat with (32 + 32 * length l)%nat by lia.
    change (strings_size (map DevicePath (p :: l))) with (len + strings_size (map DevicePath l))%nat.
    rewrite !replicate_add. by rewrite <- !app_assoc. }
  clear Eo. assert (length (process_entry p off) = 32)%nat as L32 by done.
  pose proof (process_fields pre p off (app zeros (app mid (app (replicate len 0) rest)))) as Hf. cbn zeta in Hf.
  rewrite <- E0 in Hf. cbn [process_entries]. cbn [length] in Eb. destruct (DevicePath p) as [|u path] eqn:Ep.
  - change (Z.of_nat (2 * length [])) with 0 in Hf. rewrite Hf.
    rewrite (IH (app pre (process_entry p off)) mid); cbn [entries_of].
    + rewrite <- !app_assoc, Ep. cbn [length]. rewrite Nat.mul_0_r, Nat.add_0_r. unfold strings_of. cbn [map concat].
      by rewrite Ep.
    + rewrite <- !app_assoc. done.
    + rewrite length_app, L32. unfold sizeof_PROCESS_ENTRY. lia.
    + rewrite length_app, L32. lia.
  - fold len in Hf |- *. rewrite Hf.
    rewrite (write_there _ (app pre (app (process_entry p off) (app zeros mid))) (replicate len 0) (wbytes (u :: path)) rest);
      [|by rewrite <- !app_assoc| |by rewrite length_replicate, length_wbytes].
    2: { unfold zeros. rewrite !length_app, length_replicate, L32. lia. }
    rewrite (IH (app pre (process_entry p off)) (app mid (wbytes (u :: path)))); cbn [entries_of].
    + rewrite <- !app_assoc, Ep. unfold strings_of. cbn [map concat]. by rewrite Ep.
    + rewrite <- !app_assoc. done.
    + rewrite length_app, L32. unfold sizeof_PROCESS_ENTRY. lia.
    + rewrite !length_app, length_wbytes, L32. lia.
Qed.

Lemma process_blob_layout l : process_blob l = layout 32 DevicePath process_entry l.
Proof.
  unfold process_blob. set (size := (_ + strings_size (map DevicePath l))%nat).
  rewrite (process_entries_layout l (replicate 16 0) []); [|..].
  - unfold write_header, layout. rewrite (write_there 0 [] (replicate 8 0) (le64 (Z.of_nat (length l)))
      (app (replicate 8 0) (app (entries_of DevicePath process_entry l 0) (strings_of DevicePath l)))); [|done|done|done].
    rewrite (write_there 8 (le64 (Z.of_nat (length l))) (replicate 8 0) (le64 (Z.of_nat size))
      (app (entries_of DevicePath process_entry l 0) (strings_of DevicePath l))); [|done|done|done].
    done.
  - unfold size, sizeof_HEADER, sizeof_PROCESS_ENTRY. rewrite !replicate_add. by rewrite <- !app_assoc.
  - done.
  - cbn -[Nat.mul]. unfold sizeof_HEADER, sizeof_PROCESS_ENTRY. lia.
Qed.

(** The map of the processes: the last entry for each identifier, sorted. *)
Definition pids (l : list ProcessInfo) : list Z := map ProcessId l.

Lemma insert_process_in p l : forall q, q ∈ insert_process p l -> q = p \/ q ∈ l.
Proof.
  induction l as [|r l IH]; intros q; cbn; [by intros ?%list_elem_of_singleton; left|].
  destruct (_ <? _); [by intros [?|?]%elem_of_cons; auto|].
  destruct (_ =? _); [intros [?|?]%elem_of_cons; [by left|right; by right]|].
  intros [->|Hq]%elem_of_cons; [right; by left|]. destruct (IH q Hq); [by left|right; by right].
Qed.

Lemma insert_process_sorted p l : StronglySorted Z.lt (pids l) -> StronglySorted Z.lt (pids (insert_process p l)).
Proof.
  induction l as [|q l IH]; intros Hs; cbn; [repeat constructor|]. apply StronglySorted_inv in Hs as [Hs Hf].
  destruct (Z.ltb_spec (ProcessId p) (ProcessId q)) as [Hlt|Hge].
  { constructor; [by constructor|]. constructor; [done|]. eapply List.Forall_impl; [|exact Hf]. cbn. lia. }
  destruct (Z.eqb_spec (ProcessId p) (ProcessId q)) as [E|Hne].
  { cbn. rewrite E. by constructor. }
  cbn. constructor; [by apply IH|]. apply List.Forall_forall. intros z Hz. apply in_map_iff in Hz as (r & <- & Hr).
  apply list_elem_of_In, insert_process_in in Hr as [->|Hr]; [lia|].
  apply (proj1 (List.Forall_forall _ _) Hf). apply in_map. by apply list_elem_of_In.
Qed.

Lemma insert_process_mem p l q :
  StronglySorted Z.lt (pids l) -> q ∈ insert_process p l <-> q = p \/ q ∈ l /\ ProcessId q <> ProcessId p.
Proof.
  induction l as [|r l IH]; intros Hs; cbn; [rewrite list_elem_of_singleton; set_solver|].
  apply StronglySorted_inv in Hs as [Hs Hf]. specialize (IH Hs).
  assert (forall x, x ∈ l -> ProcessId r < ProcessId x) as Hlt.
  { intros x Hx. apply (proj1 (List.Forall_forall _ _) Hf). apply in_map. by apply list_elem_of_In. }
  destruct (Z.ltb_spec (ProcessId p) (ProcessId r)).
  { rewrite !elem_of_cons. split; [intros [->|[->|Hq]]; [by left|right; split; [by left|lia]|right]|naive_solver].
    split; [by right|]. specialize (Hlt q Hq). lia. }
  destruct (Z.eqb_spec (ProcessId p) (ProcessId r)).
  { rewrite !elem_of_cons. split; [intros [->|Hq]; [by left|right; split; [by right|]]|].
    - specialize (Hlt q Hq). lia.
    - intros [->|[[->|Hq] Hn]]; [by left|lia|by right]. }
  rewrite !elem_of_cons, IH. naive_solver.
Qed.

(** [p] is the last of the list with its identifier. *)
Definition last_of (l : list ProcessInfo) (p : ProcessInfo) : Prop :=
  exists a b, l = app a (p :: b) /\ ProcessId p ∉ pids b.

Lemma processes_map l :
  let m := foldl (λ m p, insert_process p m) [] l in
  StronglySorted Z.lt (pids m) /\ forall p, p ∈ m <-> last_of l p.
Proof.
  induction l as [|q l IH] using rev_ind; cbn.
  { split; [constructor|]. intros p. split; [by intros ?%not_elem_of_nil|]. intros (a & b & E & _). by destruct a. }
  rewrite foldl_app. cbn. destruct IH as [Hs Hm]. split; [by apply insert_process_sorted|]. intros p.
  rewrite insert_process_mem, Hm by done. split.
  - intros [->|[(a & b & -> & Hp) Hn]].
    + exists l, []. split; [done|]. apply not_elem_of_nil.
    + exists a, (app b [q]). rewrite <- app_assoc. split; [done|]. unfold pids in *. rewrite map_app, elem_of_app. cbn.
      rewrite list_elem_of_singleton. naive_solver.
  - intros (a & b & E & Hp). destruct b as [|r b _] using rev_ind.
    + apply app_inj_tail in E as [_ E]. by left.
    + rewrite app_comm_cons, app_assoc in E. apply app_inj_tail in E as [-> ->]. right. unfold pids in Hp.
      rewrite map_app, elem_of_app in Hp. cbn in Hp. rewrite list_elem_of_singleton in Hp.
      split; [|naive_solver]. exists a, b. naive_solver.
Qed.

(** What the driver reads from the blob of a snapshot are the processes of the
    snapshot, one for each identifier (the last entry), in the order of the
    identifiers, with parents and device paths. *)
Theorem process_blob_read s :
  let l := match sn_first s with Some p => p | None => sn_stack s end :: sn_rest s in
  Forall (λ p, 0 <= ProcessId p < 2 ^ 32 /\ 0 <= ParentProcessId p < 2 ^ 32 /\ Forall is_unit (DevicePath p) /\
               Z.of_nat (length (DevicePath p)) < 2 ^ 15) l ->
  Z.of_nat (length (generateProcessBlob (Some s))) < 2 ^ 64 ->
  exists m, read_blob 32 decode_process (generateProcessBlob (Some s)) =
      Some (map (λ p, ((ProcessId p, ParentProcessId p), DevicePath p)) m) /\
    StronglySorted Z.lt (pids m) /\ forall p, p ∈ m <-> last_of l p.
Proof.
  intros l Hl. unfold generateProcessBlob. fold l. destruct (processes_map l) as [Hs Hm].
  set (m := foldl _ [] l) in *. assert (m <> []) as Hne.
  { intros E. destruct (exists_last (l := l) ltac:(done)) as (a & p & El). assert (p ∈ m) as Hp.
    { apply Hm. exists a, []. split; [done|]. apply not_elem_of_nil. } rewrite E in Hp. by apply not_elem_of_nil in Hp. }
  assert (match m with [] => [] | _ => process_blob m end = process_blob m) as -> by (by destruct m).
  rewrite process_blob_layout. intros Hsz. exists m. split; [|done].
  assert (length (layout 32 DevicePath process_entry m) = sizeof_HEADER + 32 * length m + strings_size (map DevicePath m))%nat as El.
  { unfold layout. rewrite !length_app, (length_entries_of 32), length_strings_of by done. cbn -[Nat.mul]. lia. }
  rewrite El in Hsz.
  assert (forall p, p ∈ m -> p ∈ l) as Hin.
  { intros p Hp. apply Hm in Hp as (a & b & -> & _). apply elem_of_app. right. by left. }
  apply layout_read; [done|done|lia| |].
  - intros p off Hp Hoff. left. apply Hin in Hp. apply (proj1 (list.Forall_forall _ _) Hl) in Hp as (H1 & H2 & _ & H3).
    unfold decode_process, process_entry. change (take 8 _) with (le64 (ProcessId p)) at 1.
    change (take 8 (drop 8 _)) with (le64 (ParentProcessId p)).
    change (take 8 (drop 16 _)) with (le64 (match DevicePath p with [] => 0 | _ => Z.of_nat off end)).
    change (take 2 _) with (le16 (Z.of_nat (2 * length (DevicePath p)))).
    rewrite !get_le64, get_le16, Nat2Z.id by (destruct (DevicePath p); lia). by destruct (DevicePath p); rewrite ?Nat2Z.id.
  - apply list.Forall_forall. intros p Hp. apply Hin in Hp. by apply (proj1 (list.Forall_forall _ _) Hl) in Hp as (_ & _ & ? & _).
Qed.

(** ** The addresses *)
Section Addresses.
Variables (addressEntries : Z -> list QHostAddress) (InetPton4 InetPton6 : QHostAddress -> option (list Z)).
Hypothesis pton4_length : forall a o, InetPton4 a = Some o -> length o = 4%nat.
Hypothesis pton6_length : forall a o, InetPton6 a = Some o -> length o = 16%nat.

(** The octets of the first address of a protocol, or zeros. *)
Definition field4 (i : Z) : list Z :=
  default (replicate 4 0) (a ← first_address IPv4Protocol (addressEntries i); InetPton4 a).
Definition field6 (i : Z) : list Z :=
  default (replicate 16 0) (a ← first_address IPv6Protocol (addressEntries i); InetPton6 a).

Lemma field4_length i : length (field4 i) = 4%nat.
Proof.
  unfold field4. destruct (first_address _ _) as [a|]; [|done]. cbn. destruct (InetPton4 a) eqn:E; [|done]. by apply pton4_length in E.
Qed.
Lemma field6_length i : length (field6 i) = 16%nat.
Proof.
  unfold field6. destruct (first_address _ _) as [a|]; [|done]. cbn. destruct (InetPton6 a) eqn:E; [|done]. by apply pton6_length in E.
Qed.

Lemma getAddress_run i off4 off6 a b c out :
  out = app a (app (replicate 4 0) (app b (app (replicate 16 0) c))) ->
  off4 = length a -> off6 = (length a + 4 + length b)%nat ->
  getAddress addressEntries InetPton4 InetPton6 i off4 off6 out = app a (app (field4 i) (app b (app (field6 i) c))).
Proof.
  intros -> -> ->. unfold getAddress, field4, field6.
  assert (match first_address IPv4Protocol (addressEntries i) with
    | Some x => match InetPton4 x with
        | Some o => write_octets (length a) o (app a (app (replicate 4 0) (app b (app (replicate 16 0) c))))
        | None => app a (app (replicate 4 0) (app b (app (replicate 16 0) c))) end
    | None => app a (app (replicate 4 0) (app b (app (replicate 16 0) c))) end =
    app a (app (field4 i) (app b (app (replicate 16 0) c)))) as ->.
  { unfold field4. destruct (first_address _ _) as [x|]; [|done]. cbn [mbind option_bind].
    destruct (InetPton4 x) as [o|] eqn:E; [|done]. exact (write_between a (replicate 4 0) o _ (eq_sym (pton4_length x o E))). }
  fold (field4 i). destruct (first_address IPv6Protocol _) as [x|]; [|done]. cbn [mbind option_bind].
  destruct (InetPton6 x) as [o|] eqn:E; [|done]. cbn [default from_option].
  rewrite (write_there _ (app a (app (field4 i) b)) (replicate 16 0) o c); [|by rewrite <- !app_assoc| |exact (eq_sym (pton6_length x o E))].
  - by rewrite <- !app_assoc.
  - rewrite !length_app, field4_length. lia.
Qed.

(** The buffer of the addresses has the first IPv4 and IPv6 addresses of the tunnel
    and of the adapter to the internet in the fields of the structure, zeros where
    there is none. *)
Lemma ip_configuration_exact vpn inet given :
  generateIPConfiguration addressEntries InetPton4 InetPton6 vpn inet given =
  let tunnel := if given =? 0 then vpn else given in
  app (field4 tunnel) (app (field4 inet) (app (field6 tunnel) (field6 inet))).
Proof.
  unfold generateIPConfiguration. set (tunnel := if given =? 0 then vpn else given). cbn zeta.
  rewrite (getAddress_run tunnel 0 8 [] (replicate 4 0) (replicate 16 0)) by done. cbn [app].
  rewrite (getAddress_run inet 4 24 (field4 tunnel) (field6 tunnel) []).
  - by rewrite app_nil_r.
  - by rewrite app_nil_r.
  - by rewrite field4_length.
  - by rewrite field4_length, field6_length.
Qed.
End Addresses.

(** ** Opening the driver *)
Ltac states := cbn [Z.eqb Pos.eqb STATE_STARTED STATE_INITIALIZED STATE_READY STATE_RUNNING negb andb].

Section Driver.
Context {W : Type} `{SplitDriver W}.
Implicit Types (s : WindowsSplitTunnel W).

Lemma init_loop_ends fuel : forall s, 500 - m_tries s < Z.of_nat fuel -> 0 <= m_tries s <= 500 ->
  exists s', init_loop fuel s = Ret (tt, s').
Proof.
  induction fuel as [|fuel IH]; intros s Hf Ht; [lia|]. cbn [init_loop]. unfold rbind at 1, rlift at 1, gets at 1.
  destruct (driver_conflict (m_system s)); [by eexists|]. unfold rbind at 1, rlift at 1, on_system at 1.
  destruct (open_driver (m_system s)) as [opened w]. unfold rbind at 1, rlift at 1, modify at 1.
  unfold rbind at 1, rlift at 1, gets at 1. cbn [m_tries set_driver set_system].
  destruct (negb opened && (m_tries s <? 500)) eqn:E.
  - apply andb_true_iff in E as [_ E%Z.ltb_lt]. unfold rbind at 1, rlift at 1, modify at 1.
    unfold rbind at 1, rlift at 1, on_system at 1. destruct (driver_startService _) as [started w'].
    destruct started; [|by eexists]. apply IH; cbn; lia.
  - unfold rlift. destruct (connect_driver _) as [[] s']. by eexists.
Qed.

(** C28. Opening the driver ends: after at most 500 tries the code goes on with whatever
    handle it has. *)
Theorem initDriver_ends s : 0 <= m_tries s <= 500 -> exists s', initDriver s = Ret (tt, s').
Proof. intros Ht. apply init_loop_ends; lia. Qed.

(** What is known of the driver: the states its header names and how the requests
    change them. *)
Class DriverView := {
  d_state : W -> Z;
  d_processes : W -> option (list Z);
  d_addresses : W -> option (list Z);
  d_config : W -> option (list Z)
}.
Definition answers `{DriverView} (c : Ioctl) (w : W) (f : W -> Prop) : Prop :=
  let '(ok, w') := DeviceIoControl c w in
  ok = true /\ f w' /\ process_snapshot w' = process_snapshot w /\
  (forall i, adapter_addresses i w' = adapter_addresses i w) /\ vpn_adapter_index w' = vpn_adapter_index w.
Class DriverLaws `{DriverView} : Prop := {
  get_state_law w : IoControl_GET_STATE w = Some (8, d_state w);
  initialize_driver_law w : d_state w = STATE_STARTED ->
    answers IOCTL_INITIALIZE w (λ w', d_state w' = STATE_INITIALIZED);
  processes_law c w : d_state w = STATE_INITIALIZED ->
    answers (IOCTL_REGISTER_PROCESSES c) w (λ w', d_state w' = STATE_READY /\ d_processes w' = Some c);
  addresses_law c w : d_state w = STATE_READY \/ d_state w = STATE_RUNNING ->
    answers (IOCTL_REGISTER_IP_ADDRESSES c) w (λ w', d_state w' = d_state w /\ d_addresses w' = Some c /\
      d_processes w' = d_processes w);
  configuration_law c w : d_state w = STATE_READY \/ d_state w = STATE_RUNNING ->
    answers (IOCTL_SET_CONFIGURATION c) w (λ w', d_state w' = STATE_RUNNING /\ d_config w' = Some c /\
      d_addresses w' = d_addresses w /\ d_processes w' = d_processes w);
  clear_law w : d_state w = STATE_READY \/ d_state w = STATE_RUNNING ->
    answers IOCTL_CLEAR_CONFIGURATION w (λ w', d_state w' = STATE_READY /\ d_config w' = None)
}.

Context `{DriverView} `{!DriverLaws}.

Lemma getState_run s : m_driver s = true -> getState s = (d_state (m_system s), s).
Proof. intros Hd. unfold getState. rewrite gets_bind, Hd. cbn [negb]. rewrite gets_bind, get_state_law. done. Qed.

Lemma ioctl_run c s : m_driver s = true -> ioctl c s = ((DeviceIoControl c (m_system s)).1, set_system (DeviceIoControl c (m_system s)).2 s).
Proof. intros Hd. unfold ioctl. rewrite gets_bind, Hd. unfold on_system. by destruct (DeviceIoControl c (m_system s)). Qed.

(** The machine a request leaves looks the same to the client. *)
Definition same_machine (w w' : W) : Prop :=
  process_snapshot w' = process_snapshot w /\ (forall i, adapter_addresses i w' = adapter_addresses i w) /\
  vpn_adapter_index w' = vpn_adapter_index w.

Lemma answered c s f :
  m_driver s = true -> answers c (m_system s) f ->
  exists w', ioctl c s = (true, set_system w' s) /\ f w' /\ same_machine (m_system s) w'.
Proof.
  intros Hd Ha. rewrite (ioctl_run c s Hd). unfold answers in Ha. destruct (DeviceIoControl c (m_system s)) as [ok w'].
  destruct Ha as (-> & Hf & Hs). by exists w'.
Qed.

(** The first two steps of [start]: the driver is ready afterwards. *)
Definition address_config (w : W) (inet vpn : Z) : list Z :=
  generateIPConfiguration (λ i, adapter_addresses i w) inet_pton4 inet_pton6 (vpn_adapter_index w) inet vpn.

Lemma address_config_same w w' inet vpn : same_machine w w' -> address_config w' inet vpn = address_config w inet vpn.
Proof.
  intros (_ & Ha & Hv). unfold address_config, generateIPConfiguration, getAddress. by rewrite !Hv, !Ha.
Qed.

Lemma same_machine_trans w w1 w2 : same_machine w w1 -> same_machine w1 w2 -> same_machine w w2.
Proof. intros (E1 & E2 & E3) (F1 & F2 & F3). repeat split; [congruence|intros i; by rewrite F2|congruence]. Qed.

Lemma start_ready inet vpn s :
  m_driver s = true -> d_state (m_system s) = STATE_READY \/ d_state (m_system s) = STATE_RUNNING ->
  exists w', start inet vpn s = Ret (tt, set_system w' s) /\ d_state w' = d_state (m_system s) /\
    d_addresses w' = Some (address_config (m_system s) inet vpn) /\ d_processes w' = d_processes (m_system s) /\
    same_machine (m_system s) w'.
Proof.
  intros Hd Hs. unfold start, rbind at 1, rlift at 1. rewrite getState_run by done.
  assert (d_state (m_system s) =? STATE_STARTED = false) as -> by (by destruct Hs as [-> | ->]).
  assert (d_state (m_system s) =? STATE_INITIALIZED = false) as E2 by (by destruct Hs as [-> | ->]).
  unfold rbind at 1, rret at 1. cbn [negb]. unfold rbind at 1, rlift at 1. rewrite getState_run, E2 by done.
  unfold rbind at 1, rret at 1. cbn [negb]. unfold rbind at 1, rlift at 1. rewrite getState_run, E2 by done.
  unfold rbind at 1, rlift at 1, gets at 1. unfold rbind, rlift.
  destruct (answered (IOCTL_REGISTER_IP_ADDRESSES (address_config (m_system s) inet vpn)) s _ Hd (addresses_law _ _ Hs))
    as (w' & E & (F1 & F2 & F3) & Hsm).
  unfold address_config in E. rewrite E. exists w'. split; [done|]. split; [done|]. split; [done|]. done.
Qed.

(** A driver that only knows its sublayer is told about the processes first, one
    that was just loaded is initialised before that. *)
Lemma blob_not_empty sn : generateProcessBlob (Some sn) <> [].
Proof.
  unfold generateProcessBlob. set (l := _ :: sn_rest sn). destruct (processes_map l) as [_ Hm]. set (m := foldl _ [] l) in *.
  destruct m as [|p m]; [|rewrite process_blob_layout; unfold layout; cbn; done].
  intros _. destruct (exists_last (l := l) ltac:(done)) as (a & p & El).
  apply (not_elem_of_nil p), Hm. exists a, []. split; [done|]. apply not_elem_of_nil.
Qed.

Lemma start_initialized inet vpn s sn :
  m_driver s = true -> d_state (m_system s) = STATE_INITIALIZED -> process_snapshot (m_system s) = Some sn ->
  exists w', start inet vpn s = start inet vpn (set_system w' s) /\ d_state w' = STATE_READY /\
    d_processes w' = Some (generateProcessBlob (Some sn)) /\ same_machine (m_system s) w'.
Proof.
  intros Hd Hs Hsn.
  destruct (answered (IOCTL_REGISTER_PROCESSES (generateProcessBlob (Some sn))) s _ Hd (processes_law _ _ Hs))
    as (w' & E & (F1 & F2) & Hsm). exists w'. split; [|done].
  unfold start at 1, rbind at 1, rlift at 1. rewrite getState_run, Hs by done. states.
  unfold rbind at 1, rret at 1. cbn [negb]. unfold rbind at 1, rlift at 1. rewrite getState_run, Hs by done.
  states. unfold rbind at 1, rbind at 1, rlift at 1, gets at 1. rewrite Hsn.
  pose proof (blob_not_empty sn) as Hne. destruct (generateProcessBlob (Some sn)) as [|b blob] eqn:Eb; [done|].
  unfold rlift at 1. rewrite E. cbn [negb]. set (s' := set_system w' s).
  assert (m_driver s' = true) as Hd' by done. assert (d_state (m_system s') = STATE_READY) as Hs' by done.
  symmetry. unfold start, rbind at 1, rlift at 1. rewrite getState_run, Hs' by done.
  states. unfold rbind at 1, rret at 1. cbn [negb]. unfold rbind at 1, rlift at 1.
  rewrite getState_run, Hs' by done. states. unfold rbind at 1, rret at 1. by cbn [negb].
Qed.

Lemma start_started inet vpn s :
  m_driver s = true -> d_state (m_system s) = STATE_STARTED ->
  exists w', start inet vpn s = start inet vpn (set_system w' s) /\ d_state w' = STATE_INITIALIZED /\
    same_machine (m_system s) w'.
Proof.
  intros Hd Hs. destruct (answered IOCTL_INITIALIZE s _ Hd (initialize_driver_law _ Hs)) as (w' & E & F & Hsm).
  exists w'. split; [|done]. set (s' := set_system w' s) in *.
  assert (m_driver s' = true) as Hd' by done. assert (d_state (m_system s') = STATE_INITIALIZED) as Hs' by done.
  unfold start at 1, rbind at 1, rlift at 1. rewrite getState_run, Hs by done. states.
  unfold rbind at 1, rlift at 1. rewrite E. states.
  symmetry. unfold start at 1, rbind at 1, rlift at 1. rewrite getState_run, Hs' by done.
  states. unfold rbind at 1, rret at 1. by cbn [negb].
Qed.

Lemma split_engages inet vpn appPaths s sn :
  m_driver s = true -> d_state (m_system s) ∈ [STATE_STARTED; STATE_INITIALIZED; STATE_READY; STATE_RUNNING] ->
  process_snapshot (m_system s) = Some sn ->
  exists s1, start inet vpn s = Ret (tt, s1) /\
    let s2 := (setRules appPaths s1).2 in
    d_state (m_system s2) = STATE_RUNNING /\
    d_config (m_system s2) = Some (generateAppConfiguration query_dos_device appPaths) /\
    d_addresses (m_system s2) = Some (address_config (m_system s) inet vpn) /\
    (d_state (m_system s) = STATE_STARTED \/ d_state (m_system s) = STATE_INITIALIZED ->
     d_processes (m_system s2) = Some (generateProcessBlob (Some sn))) /\
    d_state (m_system (stop s2).2) = STATE_READY /\ d_config (m_system (stop s2).2) = None.
Proof.
  intros Hd Hst Hsn.
  assert (exists w', start inet vpn s = start inet vpn (set_system w' s) /\
    (d_state w' = STATE_READY \/ d_state w' = STATE_RUNNING) /\
    (d_state (m_system s) = STATE_STARTED \/ d_state (m_system s) = STATE_INITIALIZED ->
     d_processes w' = Some (generateProcessBlob (Some sn))) /\ same_machine (m_system s) w') as (w1 & E1 & S1 & P1 & M1).
  { repeat (apply elem_of_cons in Hst as [Hst|Hst]); [| | | |by apply not_elem_of_nil in Hst].
    - destruct (start_started inet vpn s Hd Hst) as (w1 & E1 & S1 & M1).
      destruct (start_initialized inet vpn (set_system w1 s) sn) as (w2 & E2 & S2 & P2 & M2); [done|done|exact (eq_trans (proj1 M1) Hsn)|].
      exists w2. rewrite E1, E2. split; [done|]. split; [by left|]. split; [done|]. by eapply same_machine_trans.
    - destruct (start_initialized inet vpn s sn Hd Hst Hsn) as (w2 & E2 & S2 & P2 & M2). exists w2.
      split; [done|]. split; [by left|]. done.
    - exists (m_system s). split; [by destruct s|]. split; [by left|]. split; [by rewrite Hst; intros []|done].
    - exists (m_system s). split; [by destruct s|]. split; [by right|]. split; [by rewrite Hst; intros []|done]. }
  destruct (start_ready inet vpn (set_system w1 s)) as (w2 & E2 & S2 & A2 & P2 & M2); [done|done|].
  exists (set_system w2 (set_system w1 s)). split; [by rewrite E1|]. cbn [m_system set_system] in *.
  set (s1 := set_system w2 (set_system w1 s)).
  assert (d_state w2 = STATE_READY \/ d_state w2 = STATE_RUNNING) as Hr2 by (by rewrite S2).
  destruct (answered (IOCTL_SET_CONFIGURATION (generateAppConfiguration query_dos_device appPaths)) s1 _ Hd
    (configuration_law _ _ Hr2)) as (w3 & E3 & (S3 & C3 & A3 & P3) & M3).
  assert (setRules appPaths s1 = (tt, set_system w3 s1)) as ->.
  { unfold setRules. rewrite sbind_run, getState_run by done. cbn [fst snd]. change (m_system s1) with w2.
    destruct Hr2 as [-> | ->]; states; rewrite sbind_run, E3; done. }
  cbn zeta. cbn [snd]. set (s2 := set_system w3 s1). change (m_system s2) with w3.
  destruct (answered IOCTL_CLEAR_CONFIGURATION s2 _ Hd (clear_law _ (or_intror S3))) as (w4 & E4 & (S4 & C4) & _).
  assert ((stop s2).2 = set_system w4 s2) as -> by (unfold stop; by rewrite sbind_run, E4).
  rewrite S3, C3, A3, P3. change (m_system s1) with w2. rewrite A2, P2, (address_config_same _ _ _ _ M1). done.
Qed.

(** Starting the split tunnel and giving it rules takes a driver from any of its
    working states to the running one: it has the device paths of the applications,
    the addresses of both adapters and, where it did not have them, the processes
    that run. Stopping it clears the rules. *)
Theorem split_tunnel_engages inet vpn appPaths s sn :
  m_driver s = true -> d_state (m_system s) ∈ [STATE_STARTED; STATE_INITIALIZED; STATE_READY; STATE_RUNNING] ->
  process_snapshot (m_system s) = Some sn ->
  exists s1, start inet vpn s = Ret (tt, s1) /\
    let s2 := (setRules appPaths s1).2 in
    d_state (m_system s2) = STATE_RUNNING /\
    d_config (m_system s2) = Some (generateAppConfiguration query_dos_device appPaths) /\
    d_addresses (m_system s2) = Some (address_config (m_system s) inet vpn) /\
    (d_state (m_system s) = STATE_STARTED \/ d_state (m_system s) = STATE_INITIALIZED ->
     d_processes (m_system s2) = Some (generateProcessBlob (Some sn))) /\
    d_state (m_system (stop s2).2) = STATE_READY /\ d_config (m_system (stop s2).2) = None.
Proof. exact (split_engages inet vpn appPaths s sn). Qed.

(** Without a snapshot of the processes [start] takes the address of the first
    element of an empty vector. *)
Theorem start_without_snapshot inet vpn s :
  m_driver s = true -> d_state (m_system s) = STATE_INITIALIZED -> process_snapshot (m_system s) = None ->
  start inet vpn s = Abort.
Proof.
  intros Hd Hs Hsn. unfold start, rbind at 1, rlift at 1. rewrite getState_run, Hs by done.
  states. unfold rbind at 1, rret at 1. cbn [negb]. unfold rbind at 1, rlift at 1.
  rewrite getState_run, Hs by done. states. unfold rbind at 1, rbind at 1, rlift at 1, gets at 1.
  by rewrite Hsn.
Qed.
End Driver.

(** ** A simulated driver *)
Record SimDriver := mkSimDriver {
  sd_state : Z; sd_processes : option (list Z); sd_addresses : option (list Z); sd_config : option (list Z);
  sd_closed : nat; sd_snapshot : option Snapshot
}.
Definition sim_ioctl (c : Ioctl) (w : SimDriver) : bool * SimDriver :=
  let running := bool_decide (sd_state w = STATE_READY \/ sd_state w = STATE_RUNNING) in
  match c with
  | IOCTL_INITIALIZE =>
      (sd_state w =? STATE_STARTED, mkSimDriver STATE_INITIALIZED None None None (sd_closed w) (sd_snapshot w))
  | IOCTL_REGISTER_PROCESSES b =>
      (sd_state w =? STATE_INITIALIZED, mkSimDriver STATE_READY (Some b) None None (sd_closed w) (sd_snapshot w))
  | IOCTL_REGISTER_IP_ADDRESSES b =>
      (running, mkSimDriver (sd_state w) (sd_processes w) (Some b) (sd_config w) (sd_closed w) (sd_snapshot w))
  | IOCTL_SET_CONFIGURATION b =>
      (running, mkSimDriver STATE_RUNNING (sd_processes w) (sd_addresses w) (Some b) (sd_closed w) (sd_snapshot w))
  | IOCTL_CLEAR_CONFIGURATION =>
      (running, mkSimDriver STATE_READY (sd_processes w) (sd_addresses w) None (sd_closed w) (sd_snapshot w))
  | IOCTL_ST_RESET => (true, mkSimDriver STATE_STARTED None None None (sd_closed w) (sd_snapshot w))
  end.
(** A path of the first disk. *)
Definition disk_path : wstring := [92; 68].

#[export] Instance sim_driver : SplitDriver SimDriver := {
  open_driver := λ w, ((sd_closed w =? 0)%nat, w);
  close_driver := λ w, (tt, w);
  DeviceIoControl := sim_ioctl;
  IoControl_GET_STATE := λ w, Some (8, sd_state w);
  driver_startService := λ w,
    (true, mkSimDriver (sd_state w) (sd_processes w) (sd_addresses w) (sd_config w) (pred (sd_closed w)) (sd_snapshot w));
  firewall_init := λ w, (true, w);
  driver_conflict := λ _, false;
  driver_installed := λ _, true;
  driver_install := λ w, (true, w);
  driver_uninstall := λ w, (true, w);
  process_snapshot := sd_snapshot;
  adapter_addresses := λ i _, [IPv4Address i];
  vpn_adapter_index := λ _, 9;
  inet_pton4 := λ a, match a with IPv4Address z => Some (be32 z) | _ => None end;
  inet_pton6 := λ a, match a with IPv6Address l => Some l | _ => None end;
  query_dos_device := λ _ _, (2, disk_path)
}.
#[export] Instance sim_driver_view : DriverView := {
  d_state := sd_state; d_processes := sd_processes; d_addresses := sd_addresses; d_config := sd_config
}.
#[export] Instance sim_driver_laws : DriverLaws.
Proof.
  split; [done|..]; intros; unfold answers; cbn in *;
    repeat (rewrite bool_decide_eq_true_2 by done); repeat split; try done; by apply Z.eqb_eq.
Qed.

Definition sample_process (pid : Z) (path : wstring) : ProcessInfo := mkProcess pid 4 path.
Definition sample_snapshot : Snapshot :=
  mkSnapshot (Some (sample_process 8 disk_path)) [sample_process 6 []; sample_process 8 [92]] (sample_process 0 []).
(** C:/a *)
Definition sample_path : wstring := [67; 58; 47; 97].
Definition sample_driver (state : Z) (snapshot : option Snapshot) : WindowsSplitTunnel SimDriver :=
  mkSplit true 0 (mkSimDriver state None None None 3 snapshot).

Lemma app_configuration_read_witness :
  read_blob 16 decode_app (generateAppConfiguration query_dos_device [sample_path; sample_path]) =
    Some [(tt, [92; 68; 92; 97]); (tt, [92; 68; 92; 97])].
Proof.
  etrans; [apply (app_configuration_read query_dos_device [sample_path; sample_path])|by vm_compute]; [|by vm_compute].
  repeat constructor; by vm_compute.
Defined.

Lemma process_blob_read_witness :
  exists m, read_blob 32 decode_process (generateProcessBlob (Some sample_snapshot)) =
      Some (map (λ p, ((ProcessId p, ParentProcessId p), DevicePath p)) m) /\ pids m = [6; 8].
Proof.
  destruct (process_blob_read sample_snapshot) as (m & E & _ & _); [|by vm_compute|].
  - by apply (bool_decide_unpack _); vm_compute.
  - exists m. split; [exact E|]. vm_compute in E. destruct m as [|[? ? ?] [|[? ? ?] [|? ?]]]; try done. injection E; intros; by subst.
Defined.

Lemma initDriver_ends_witness : exists s', initDriver (sample_driver STATE_ZOMBIE None) = Ret (tt, s') /\ m_tries s' = 3.
Proof.
  destruct (initDriver_ends (sample_driver STATE_ZOMBIE None)) as [s' E]; [done|]. exists s'. split; [exact E|].
  vm_compute in E. by injection E as <-.
Defined.

Lemma split_tunnel_engages_witness :
  exists s1, start 5 0 (sample_driver STATE_STARTED (Some sample_snapshot)) = Ret (tt, s1) /\
    d_config (m_system (setRules [sample_path] s1).2) = Some (generateAppConfiguration query_dos_device [sample_path]).
Proof.
  destruct (split_tunnel_engages 5 0 [sample_path] (sample_driver STATE_STARTED (Some sample_snapshot)) sample_snapshot)
    as (s1 & E & _ & Hc & _); [done|by left|done|]. by exists s1.
Defined.

Lemma start_without_snapshot_witness : start 5 0 (sample_driver STATE_INITIALIZED None) = Abort.
Proof. apply (start_without_snapshot 5 0 (sample_driver STATE_INITIALIZED None)); done. Defined.
