(* ===== verification/WindowsDaemon.v ===== *)
(** * The daemon of Windows: name servers and split tunnelling

    Models of [DnsUtilsWindows] (client/platforms/windows/daemon/
    dnsutilswindows.cpp) and of what [WindowsDaemon] (windowsdaemon.cpp) adds to the
    daemon: which adapter the server is reached by, and the split tunnel driver as
    the tunnel goes up and down. *)
From Stdlib Require Import ZArith Lia Ascii String.
From stdpp Require Import base list option strings.
From S2P Require Import Prelude HostAddress QtString IpAddress InterfaceConfig WireguardUtils.
From S2P Require Import LinuxRouteMonitor WindowsRouteMonitor WindowsSplitTunnel WindowsSplitProperties.
Local Open Scope string_scope.
Local Open Scope Z_scope.

(** ** Name servers *)
Definition ERROR_FILE_NOT_FOUND : Z := 2.
Definition DNS_SETTING_IPV6 : Z := 1.
Definition DNS_SETTING_NAMESERVER : Z := 2.
Definition DNS_SETTING_SEARCHLIST : Z := 4.

(** The entry of an interface: its index and its identifier. *)
Record IfEntry := mkIfEntry { entry_index : Z; entry_guid : Z }.

(** [SetInterfaceDnsSettings] with flags and name servers (the other members are
    constant; [None] where the library does not have it), and a run of netsh: whether
    it started, and its exit code when it ended in time. *)
Class DnsApi (W : Type) := {
  dns_AliasToLuid : string -> W -> option Z;
  GetIfEntry2 : Z -> W -> Z * IfEntry;
  SetInterfaceDnsSettings : option (Z -> Z -> string -> StateM W Z);
  netsh : string -> StateM W (bool * option Z)
}.

Record DnsUtilsWindows (W : Type) := mkDns { dns_luid : Z; dns_machine : W }.
Arguments mkDns {W} _ _.
Arguments dns_luid {W} _.
Arguments dns_machine {W} _.

Section Dns.
Context {W : Type} `{DnsApi W} `{AddressPrinter}.
Notation D := (DnsUtilsWindows W).

Definition on_dns {A} (m : StateM W A) : StateM D A := λ d,
  let '(a, w) := m (dns_machine d) in (a, mkDns (dns_luid d) w).

Definition of_protocol (p : NetworkLayerProtocol) (l : list QHostAddress) : list string :=
  map printHost (filter (λ a, protocol a = p) l).

Definition updateResolversWin32 (set : Z -> Z -> string -> StateM W Z) (guid : Z) (resolvers : list QHostAddress) :
    StateM D bool :=
  let flags := Z.lor DNS_SETTING_NAMESERVER DNS_SETTING_SEARCHLIST in
  v4result <- on_dns (set guid flags (join "," (of_protocol IPv4Protocol resolvers))) ;;
  v6result <- on_dns (set guid (Z.lor flags DNS_SETTING_IPV6) (join "," (of_protocol IPv6Protocol resolvers))) ;;
  sret ((v4result =? NO_ERROR) && (v6result =? NO_ERROR)).

Definition crlf : string := String "013" (String "010" "").
Definition netshFlush (family : string) (ifindex : Z) : string :=
  "interface " +:+ family +:+ " set dnsservers name=" +:+ number ifindex +:+
  " address=none valdiate=no register=both" +:+ crlf.
Definition netshAdd (family : string) (ifindex : Z) (address : string) : string :=
  "interface " +:+ family +:+ " add dnsservers name=" +:+ number ifindex +:+ " address=" +:+ address +:+
  " validate=no" +:+ crlf.
Fixpoint netsh_adds (ifindex : Z) (resolvers : list QHostAddress) : string :=
  match resolvers with
  | [] => ""
  | a :: l =>
      netshAdd (if bool_decide (protocol a = IPv6Protocol) then "ipv6" else "ipv4") ifindex (printHost a) +:+
      netsh_adds ifindex l
  end.

Definition updateResolversNetsh (ifindex : Z) (resolvers : list QHostAddress) : StateM D bool :=
  r <- on_dns (netsh (netshFlush "ipv4" ifindex +:+ netshFlush "ipv6" ifindex +:+ netsh_adds ifindex resolvers +:+
                      "exit" +:+ crlf)) ;;
  sret (match r with
        | (true, Some exitCode) => exitCode =? 0
        | _ => false
        end).

Definition set_resolvers (entry : IfEntry) (resolvers : list QHostAddress) : StateM D bool :=
  match SetInterfaceDnsSettings with
  | None => updateResolversNetsh (entry_index entry) resolvers
  | Some set => updateResolversWin32 set (entry_guid entry) resolvers
  end.

Definition windows_updateResolvers (ifname : string) (resolvers : list QHostAddress) : StateM D bool :=
  luid <- gets (λ d, dns_AliasToLuid ifname (dns_machine d)) ;;
  match luid with
  | None => sret false
  | Some luid =>
      r <- gets (λ d, GetIfEntry2 luid (dns_machine d)) ;;
      if negb (r.1 =? NO_ERROR) then sret false
      else
        modify (λ d, mkDns luid (dns_machine d)) ;;
        set_resolvers r.2 resolvers
  end.

Definition windows_restoreResolvers : StateM D bool :=
  luid <- gets dns_luid ;;
  if luid =? 0 then sret true
  else
    r <- gets (λ d, GetIfEntry2 luid (dns_machine d)) ;;
    if r.1 =? ERROR_FILE_NOT_FOUND then sret true
    else if negb (r.1 =? NO_ERROR) then sret false
    else set_resolvers r.2 [].

(** The destructor. *)
Definition DnsUtilsWindows_delete : StateM D unit := windows_restoreResolvers ;; sret tt.
End Dns.

(** ** Split tunnelling *)
Record WindowsDaemon (W : Type) := mkWinDaemon {
  m_inetAdapterIndex : Z;
  m_splitTunnelManager : WindowsSplitTunnel W
}.
Arguments mkWinDaemon {W} _ _.
Arguments m_inetAdapterIndex {W} _.
Arguments m_splitTunnelManager {W} _.

(** The code units of a text. *)
Fixpoint wide (s : string) : wstring :=
  match s with EmptyString => [] | String c s' => Z.of_nat (nat_of_ascii c) :: wide s' end.

Section SplitDaemon.
Context {W : Type} `{SplitDriver W} `{AddressParser}.
Notation D := (WindowsDaemon W).
(** [NetworkUtilities::AdapterIndexTo] *)
Variable AdapterIndexTo : QHostAddress -> Z.

Definition on_split {A} (m : Run (WindowsSplitTunnel W) A) : Run D A := λ d,
  match m (m_splitTunnelManager d) with
  | Ret (a, s) => Ret (a, mkWinDaemon (m_inetAdapterIndex d) s)
  | Abort => Abort
  | OutOfFuel => OutOfFuel
  end.

Definition windows_prepareActivation (config : InterfaceConfig) (inetAdapterIndex : Z) : StateM D unit :=
  modify (λ d, mkWinDaemon
    (if inetAdapterIndex =? 0 then AdapterIndexTo (parseHost (qchars (m_serverIpv4AddrIn config))) else inetAdapterIndex)
    (m_splitTunnelManager d)).

Definition activateSplitTunnel (config : InterfaceConfig) (vpnAdapterIndex : Z) : Run D unit :=
  if (0 <? length (m_vpnDisabledApps config))%nat then
    let! inet := rlift (gets m_inetAdapterIndex) in
    do! on_split (start inet vpnAdapterIndex) in
    on_split (rlift (setRules (map wide (m_vpnDisabledApps config))))
  else on_split (rlift stop).

Definition windows_run (op : Op) (config : InterfaceConfig) : Run D bool :=
  match op with
  | Down => do! on_split (rlift stop) in rret true
  | _ =>
      let! installed := rlift (gets (λ d, driver_installed (m_system (m_splitTunnelManager d)))) in
      do! (match op with
           | Up => if negb installed then on_split (rlift (on_system driver_install ;; sret tt)) else rret tt
           | _ => rret tt
           end) in
      do! activateSplitTunnel config 0 in
      rret true
  end.
End SplitDaemon.

(** ** What the name servers are *)
Class NameServers (W : Type) := name_servers : W -> Z -> bool -> string.
Class DnsLaws (W : Type) `{DnsApi W} `{NameServers W} : Prop := {
  settings_law set guid flags text w : SetInterfaceDnsSettings = Some set ->
    let '(code, w') := set guid flags text w in
    (forall luid, GetIfEntry2 luid w' = GetIfEntry2 luid w) /\
    forall g v6, name_servers w' g v6 =
      if bool_decide (code = NO_ERROR /\ g = guid /\ v6 = Z.testbit flags 0) then text else name_servers w g v6
}.

Section DnsProperties.
Context {W : Type} `{DnsApi W} `{NameServers W} `{!DnsLaws W} `{AddressPrinter}.
Implicit Types (d : DnsUtilsWindows W).

Lemma win32_run set guid resolvers d :
  SetInterfaceDnsSettings = Some set ->
  let '(ok, d') := updateResolversWin32 set guid resolvers d in
  dns_luid d' = dns_luid d /\ (forall luid, GetIfEntry2 luid (dns_machine d') = GetIfEntry2 luid (dns_machine d)) /\
  (ok = true ->
   name_servers (dns_machine d') guid false = join "," (of_protocol IPv4Protocol resolvers) /\
   name_servers (dns_machine d') guid true = join "," (of_protocol IPv6Protocol resolvers)) /\
  (forall g v6, g <> guid -> name_servers (dns_machine d') g v6 = name_servers (dns_machine d) g v6).
Proof.
  intros Hs. unfold updateResolversWin32. rewrite !sbind_run. unfold on_dns.
  set (t4 := join _ (of_protocol IPv4Protocol _)). set (t6 := join _ (of_protocol IPv6Protocol _)).
  pose proof (settings_law set guid (Z.lor DNS_SETTING_NAMESERVER DNS_SETTING_SEARCHLIST) t4 (dns_machine d) Hs) as H4.
  destruct (set guid _ t4 (dns_machine d)) as [c4 w4]. cbn [fst snd dns_machine dns_luid].
  pose proof (settings_law set guid (Z.lor (Z.lor DNS_SETTING_NAMESERVER DNS_SETTING_SEARCHLIST) DNS_SETTING_IPV6) t6 w4 Hs) as H6.
  destruct (set guid _ t6 w4) as [c6 w6]. cbn [fst snd dns_machine dns_luid sret].
  destruct H4 as [E4 N4], H6 as [E6 N6]. split; [done|]. split; [intros luid; by rewrite E6|]. split.
  - intros [->%Z.eqb_eq ->%Z.eqb_eq]%andb_true_iff. split; rewrite !N6.
    + rewrite bool_decide_eq_false_2 by (intros (_ & _ & ?); done). by rewrite N4, bool_decide_eq_true_2.
    + by rewrite bool_decide_eq_true_2.
  - intros g v6 Hg. rewrite N6, N4, !bool_decide_eq_false_2 by naive_solver. done.
Qed.

(** Where the system has the settings interface, setting the name servers gives the
    interface exactly the IPv4 and IPv6 servers asked for and no other interface
    anything; restoring them, while the interface exists, leaves it none. *)
Theorem windows_resolvers_exact set ifname luid entry resolvers d d1 :
  SetInterfaceDnsSettings = Some set -> dns_AliasToLuid ifname (dns_machine d) = Some luid -> luid <> 0 ->
  GetIfEntry2 luid (dns_machine d) = (NO_ERROR, entry) -> windows_updateResolvers ifname resolvers d = (true, d1) ->
  name_servers (dns_machine d1) (entry_guid entry) false = join "," (of_protocol IPv4Protocol resolvers) /\
  name_servers (dns_machine d1) (entry_guid entry) true = join "," (of_protocol IPv6Protocol resolvers) /\
  (forall g v6, g <> entry_guid entry -> name_servers (dns_machine d1) g v6 = name_servers (dns_machine d) g v6) /\
  ((windows_restoreResolvers d1).1 = true ->
   forall v6, name_servers (dns_machine (windows_restoreResolvers d1).2) (entry_guid entry) v6 = "").
Proof.
  intros Hs Hl Hn He E. unfold windows_updateResolvers in E. rewrite gets_bind, Hl, gets_bind, He in E. cbn [fst snd] in E.
  change (NO_ERROR =? NO_ERROR) with true in E. cbn [negb] in E. rewrite sbind_run in E. cbn [modify snd] in E.
  unfold set_resolvers in E. rewrite Hs in E.
  pose proof (win32_run set (entry_guid entry) resolvers (mkDns luid (dns_machine d)) Hs) as Hw. rewrite E in Hw.
  destruct Hw as (El & Ee & Hok & Ho). destruct (Hok eq_refl) as [H4 H6]. split; [done|]. split; [done|]. split; [done|].
  unfold windows_restoreResolvers. rewrite gets_bind, El. cbn [dns_luid]. rewrite (proj2 (Z.eqb_neq _ _) Hn), gets_bind, Ee.
  cbn [dns_machine]. rewrite He. cbn [fst snd]. change (NO_ERROR =? ERROR_FILE_NOT_FOUND) with false.
  change (NO_ERROR =? NO_ERROR) with true. cbn [negb]. unfold set_resolvers. rewrite Hs.
  pose proof (win32_run set (entry_guid entry) [] d1 Hs) as Hr. destruct (updateResolversWin32 _ _ [] d1) as [ok d2].
  cbn [fst snd]. intros ->. destruct Hr as (_ & _ & Hr & _). destruct (Hr eq_refl) as [R4 R6]. by intros [].
Qed.
End DnsProperties.

(** ** Applications outside the tunnel *)
#[export] Instance Op_eq_dec : EqDecision Op.
Proof. solve_decision. Defined.

Section SplitProperties.
Context {W : Type} `{SplitDriver W} `{DriverView W} `{!DriverLaws}.

Lemma run_activates op config (d d' : WindowsDaemon W) :
  op <> Down -> driver_installed (m_system (m_splitTunnelManager d)) = true ->
  activateSplitTunnel config 0 d = Ret (tt, d') -> windows_run op config d = Ret (true, d').
Proof.
  intros Ho Hi E. unfold windows_run, rbind, rlift, gets, rret. destruct op; [|done|]; rewrite ?Hi; cbn [negb]; by rewrite E.
Qed.

Lemma stop_clears (s : WindowsSplitTunnel W) :
  m_driver s = true -> d_state (m_system s) = STATE_READY \/ d_state (m_system s) = STATE_RUNNING ->
  exists s', stop s = (tt, s') /\ d_config (m_system s') = None.
Proof.
  intros Hd Hs. destruct (answered IOCTL_CLEAR_CONFIGURATION s _ Hd (clear_law _ Hs)) as (w & E & (_ & Hc) & _).
  exists (set_system w s). split; [|done]. unfold stop. by rewrite sbind_run, E.
Qed.

End SplitProperties.

(** ** Samples *)
Record SimDns := mkSimDns { sim_servers : list (Z * bool * string) }.
#[export] Instance sim_name_servers : NameServers SimDns := λ w g v6,
  from_option snd "" (List.find (λ e, bool_decide (e.1 = (g, v6))) (sim_servers w)).
#[export] Instance sim_dns : DnsApi SimDns := {
  dns_AliasToLuid ifname _ := if bool_decide (ifname = "tun") then Some 77 else None;
  GetIfEntry2 luid _ := (if luid =? 77 then NO_ERROR else ERROR_FILE_NOT_FOUND, mkIfEntry 3 1001);
  SetInterfaceDnsSettings := Some (λ guid flags text w,
    (NO_ERROR, mkSimDns ((guid, Z.testbit flags 0, text) :: sim_servers w)));
  netsh _ w := ((false, None), w)
}.
#[export] Instance sim_dns_laws : DnsLaws SimDns.
Proof.
  split. intros set guid flags text w [= <-]. split; [done|]. intros g v6.
  unfold name_servers, sim_name_servers. cbn [sim_servers List.find fst snd].
  repeat case_bool_decide; cbn [from_option]; naive_solver.
Qed.
Definition sample_printer : AddressPrinter := λ h, match h with IPv4Address _ => "9.9.9.9" | _ => "fd00::1" end.

Lemma windows_resolvers_exact_witness :
  name_servers (dns_machine (windows_updateResolvers (H0 := sample_printer) "tun"
    [IPv4Address 151587081; IPv6Address (repeat 1 16)] (mkDns 0 (mkSimDns []))).2) 1001 true = "fd00::1".
Proof.
  refine (eq_trans (proj1 (proj2 (windows_resolvers_exact (H1 := sample_printer) _ "tun" 77 (mkIfEntry 3 1001)
    [IPv4Address 151587081; IPv6Address (repeat 1 16)] (mkDns 0 (mkSimDns [])) _ _ _ _ _ _))) _);
    [reflexivity|reflexivity|lia|reflexivity|vm_compute; reflexivity|vm_compute; reflexivity].
Defined.

Definition splitting_config : InterfaceConfig :=
  let c := sample_config "1.1.1.1" in
  mkConfig (m_hopType c) (m_privateKey c) (m_deviceIpv4Address c) (m_deviceIpv6Address c) (m_serverIpv4Gateway c)
    (m_serverIpv6Gateway c) (m_serverPublicKey c) (m_serverIpv4AddrIn c) (m_serverPskKey c) (m_serverIpv6AddrIn c)
    (m_dnsServer c) (m_serverPort c) (m_deviceMTU c) (m_allowedIPAddressRanges c) (m_excludedAddresses c) ["C:/a"]
    (m_killSwitchEnabled c) (m_junkPacketCount c) (m_junkPacketMinSize c) (m_junkPacketMaxSize c)
    (m_initPacketJunkSize c) (m_responsePacketJunkSize c) (m_initPacketMagicHeader c) (m_responsePacketMagicHeader c)
    (m_underloadPacketMagicHeader c) (m_transportPacketMagicHeader c).

